(* ===== verification/_CoqProject ===== *)
-Q . S2P
Prelude.v
DList.v
DListOps.v
DListSort.v
ListProps.v
FixedPoint.v
KState.v
Threads.v
Synch.v
Kernel.v
SchedInv.v
LockInv.v
Machine.v
Scenarios.v
Alarm.v
SchedProps.v
Bitmap.v
Palloc.v
Pagedir.v
Malloc.v
MallocInv.v
MallocLeak.v
MallocOps.v
MallocProps.v
Paging.v
Teardown.v
PagingInit.v
PagingProps.v
FsState.v
Inode.v
FileOps.v
Directory.v
FsInv.v
DirProps.v
FileSys.v
Mount.v
FsRefine.v
FsProps.v
Arith64.v
CString.v
StdLib.v
Hash.v
Args.v
Spt.v
Elf.v
Stdio.v
Descriptors.v
Ustar.v
Archive.v
FsUtil.v
Random.v
Rtc.v
Vga.v
Intq.v
CharDevices.v
Blocks.v
Ide.v
IdeProps.v
Console.v
UserConsole.v
Calibrate.v
Syscall.v
Handles.v
FsUtilProps.v
FsList.v
CmdLine.v
CmdLineProps.v
SysRefine.v
SysProps.v
UserCalls.v
Processes.v
