(* ===== verification/Prelude.v ===== *)
(** * Verification of the Pintos kernel: overview

    A shallow embedding of the kernel in src/src: threads and their
    scheduler, synchronization, memory, the file system, and the libraries
    they stand on, processes with their system calls, and the devices of the
    console and of storage, with the theorems that make them correct.

    ** How the code is modelled

    C functions are definitions in the monad [M] of this file: a function
    from a state to a value and a new state, or to a [fault] where the code
    would fail an assertion, access memory it must not, panic or divide by
    zero.  Integers are [Z], wrapped to the width of the C type ([u32],
    [s32], [u64], ...) where the code can leave it.  A pointer is an
    address; a null or dangling pointer is a [Bad_access].  Loops that do not
    recurse on their data take [fuel]; a theorem that an operation returns
    also says that its fuel suffices (the number of elements plus one for
    lists and directory entries, the number of bytes plus one for transfers,
    the number of bits for searches).

    ** Parts, files and sources

    - Lists (lib/kernel/list.c).  [DList] has every function as a program on
      a heap of [prev] and [next] members; [DListOps] and [DListSort] refine
      them to functions on sequences, [ListProps] has the theorems.
    - Bitmaps (lib/kernel/bitmap.c): [Bitmap], arrays of 32-bit elements and
      their view as sequences of bits.
    - Hash tables (lib/kernel/hash.c): [Hash], buckets with rehashing.
    - Strings and bytes (lib/string.c): [CString], on a byte memory.
    - Utilities (lib/stdlib.c): [StdLib], heapsort, binary search, atoi.
    - 64-bit division (lib/arithmetic.c): [Arith64].
    - Scheduler arithmetic (threads/fixed-point.h, thread.c): [FixedPoint].
    - Threads (threads/thread.c, interrupt.c): [KState] is the state,
      [Threads] the scheduler, [Synch] (threads/synch.c) semaphores, locks
      with priority donation and condition variables, [Kernel] thread
      creation, the timer (devices/timer.c) and the machine that interleaves
      threads and timer interrupts.  A function that blocks leaves the rest of
      its work on the thread's stack as a frame, so that a step of the machine
      is the code between two places where the processor can change hands.
      The record of a sleeping thread is an object on its stack: it is there
      from the call of timer_sleep until that returns, and a use of it
      afterwards is a fault.
      [SchedInv] and [LockInv] prove the invariants of that machine,
      [Machine] puts them together, [SchedProps] has the functional theorems
      and [Scenarios] concrete runs; [Alarm] follows a thread that sleeps
      through every run of the machine.
    - Memory (threads/palloc.c, vaddr.h, pte.h, userprog/pagedir.c,
      paging_init of threads/init.c): [Palloc] is the memory as a map from
      pages to words and the allocator with its two pools, [Pagedir] the page
      tables as they lie in that memory, [Malloc] the block allocator
      (threads/malloc.c) whose arenas are pages of it, [MallocInv],
      [MallocLeak] and [MallocOps] its invariants and operations and
      [MallocProps] its clients, [Paging] the invariant that relates
      directories, allocator and TLB, [Teardown] pagedir_destroy,
      [PagingInit] the kernel's mapping and [PagingProps] the step relation
      and the theorems.
    - The file system (filesys/*.c, devices/block.c): [FsState] is the state
      and the block device, [Inode] transfers, [FileOps] files, the free map
      and the life of an inode, [Directory] directories and the interface.
      [FsInv] is the invariant (which sectors belong to which file),
      [DirProps] the directory as a finite map, [FileSys] the interface's
      operations, [Mount] formatting and mounting, [FsRefine] the refinement
      to a map from names to contents and [FsProps] the theorems.

    - Processes (userprog/process.c, vm/page.c): [Args] the command line on
      the stack of a new process, [Spt] the supplemental page table as a map
      over [Hash], [Elf] the loading of an executable into it; [Processes]
      is the life of parents and children with the objects they share, in
      single steps between which any thread may run.
    - System calls (userprog/syscall.c, lib/user/syscall.c): [Syscall] has the
      handler and the calls, [Handles] the invariant of open files, [SysRefine]
      the specification of the file calls and the refinement, [SysProps] the
      theorems, [UserCalls] the stubs of the user library.
    - Block devices (devices/block.c, partition.c): [Blocks], devices, roles,
      partitions and the scan of partition tables.
    - Disks (devices/ide.c): [Ide] is the driver of the ATA channels, every
      function, on a model of the registers, the disks and their interrupts;
      [IdeProps] proves that it refines arrays of sectors, which is what
      [Blocks] and [FsState] take a disk for.
    - Kernel command line (threads/init.c, part of devices/shutdown.c):
      [CmdLine] has the reading of the line, its options and actions and the
      choice of the devices for the roles, [CmdLineProps] the theorems.
    - File-system utilities (filesys/fsutil.c): [Archive] is what an archive
      means, without reference to the code, [FsUtil] the five actions,
      [FsUtilProps] extraction and archiving, [FsList] the other three.
    - Console devices: [Intq] the interrupt queue (devices/intq.c) and the
      threads that stop in it, [CharDevices] keyboard, serial port and input
      buffer (kbd.c, serial.c, input.c), [Vga] display and speaker (vga.c,
      speaker.c).
    - Delays (devices/timer.c): [Calibrate], on a machine that makes a fixed
      number of iterations of a loop between two ticks.
    - Processor and clock: [Descriptors] segments, task state and interrupt
      dispatch (userprog/gdt.c, tss.c, threads/interrupt.c), [Rtc] the clock
      and the timer chip (devices/rtc.c, pit.c).
    - Formatted output (lib/stdio.c): [Stdio]; the console of the kernel with
      its lock (lib/kernel/console.c): [Console]; printing in user programs
      (lib/user/console.c): [UserConsole].  Archive headers (lib/ustar.c):
      [Ustar].  Random numbers (lib/random.c): [Random].

    The scheduler uses lists as sequences, which the list theorems justify;
    the free map and the pools' maps are [Bitmap]s; page tables are pages of
    the allocator; directories are files; files are inodes.

    ** What the theorems show

    - Scheduler: in every reachable state exactly one thread runs and the
      ready list is exact; a lock excludes the threads that wait for it (but not
      those that only try); without the advanced scheduler yielding and
      waking choose by priority, donation reaches along finite chains of
      held locks and a release goes back to what the remaining donors give; a
      sleeper wakes when its ticks have passed, in runs whose other threads
      leave its semaphore alone; the formulas of the advanced scheduler stay
      within their bounds.  Where the code does less
      than it means to, a reachable state shows it ([Scenarios]).
    - Memory: the blocks of malloc never overlap, and freeing them all gives
      every page back; the page allocator gives out only free pages and takes back only
      allocated ones; mapping, unmapping and destroying change exactly the
      mapping they are called for; in every reachable state the TLB agrees
      with the active directory; the kernel's own mapping is complete.
    - File system: any sequence of calls, with restarts in between, behaves
      like a map from names to contents; no two files share a sector; what
      is written is read back; formatting establishes the invariant.
    - Processes: a program finds its arguments on its stack, and the pages
      of a loaded executable stand for the bytes that the file's segments say;
      parents and children never use an object they have freed, in every
      interleaving of their steps, and the places are named where a step can
      fail (a child that exits too early, a pointer that is not initialized).
    - System calls: the calls of the user library reach the kernel's functions
      with their arguments, bad stacks end the process, and the file calls of
      all processes refine an abstract machine of files and descriptors.
    - Devices: the queues lose no byte and no wake-up, the drivers keep the
      interrupts on that waiting threads need, a display whose cursor is on the
      screen shows the end of what was printed, and writes to block devices reach exactly the sectors
      they are meant for.  The driver of the disks gives the bytes, the contents
      and the failures of arrays of sectors, for requests to all disks in any
      order.  Calls that print are atomic, whatever threads and handlers
      print at the same time.  Two theorems describe
      code that does not do what it is for: the keyboard call adds up its keys
      in place of storing them, and extended partitions are never followed.
    - Start-up and utilities: the command line of the loader is read back
      word by word, its options set what the table of options says; what is
      archived is extracted again, and an extraction from any device whose
      headers keep the number of sectors from overflowing adds the files of its
      archive or stops the kernel.
    - Libraries: sorting is correct and stable, tables and bitmaps behave
      like sets and bit sequences, division is division, and string functions
      stay inside their buffers; formatting ends, fits its buffers and is read
      back by atoi; archive headers are parsed as they were written.

    ** Assumptions

    In the file system [malloc] fails or returns an object not in use, as
    [MallocProps] shows of the block allocator; the
    theorems on the file system that promise success assume that no
    allocation fails.  One operation of the file system runs at a time, as
    the lock of userprog/syscall.c sees to.  The block device of the file system is
    an array of sectors ([IdeProps] shows it of a disk).  In [Ide] time passes
    in rounds, one for each sleep of the driver, a command takes a number of
    rounds that the hardware chooses, and [IdeProps] asks that it is less than
    the 3000 rounds that the driver waits before it stops the kernel.  What devices answer (line status, scancodes, the
    clock, whether a disk is there) is given as streams or functions; the
    theorem on the serial port asks that its transmitter becomes ready once
    in a number of polls.  System calls run one at a time, since the calls on
    files hold a lock; the starts, waits and exits of processes interleave
    ([Processes]).  [switch_threads] is the change of the current
    thread.  Loading cr3 empties the TLB, and the processor loads only
    entries that are present ([Paging] states both).  The comparison and hash functions of a client are parameters,
    with what their headers ask as hypotheses.

    ** Not modelled

    Assembly (start-up, interrupt stubs, context switch); shutdown, which
    is accesses to I/O ports; the order of
    calls in main of threads/init.c; the host utilities; user programs and tests.  The frame table,
    swapping and mapped files: vm/swap.c and the call mmap write through
    pointers that they never initialize, so they have no behaviour to model,
    and page faults depend on them. *)

From Stdlib Require Export ZArith Lia Sorted Permutation.
From stdpp Require Export base numbers list gmap sets.

#[export] Set Default Goal Selector "!".
#[export] Set Warnings "-clear-no-such-hyp".

(** ** Faults and the result type

    Every way in which the C code can stop without returning a value is a
    constructor of [fault]: a failed [ASSERT], an access through a null or
    dangling pointer or outside an array, an explicit [PANIC], a divide
    error of the processor.  [Out_of_fuel] is not a behaviour of the code:
    it is returned by a loop model whose bound was too small, and the
    theorems show which bounds suffice. *)

Inductive fault : Type :=
| Assertion_failed
| Bad_access
| Kernel_panic
| Divide_error
| Out_of_fuel.

#[export] Instance fault_eq_dec : EqDecision fault.
Proof. solve_decision. Defined.

Inductive res (A : Type) : Type :=
| Ok (a : A)
| Err (e : fault).
Arguments Ok {A} _.
Arguments Err {A} _.

#[export] Instance res_eq_dec {A} `{EqDecision A} : EqDecision (res A).
Proof. solve_decision. Defined.

(** ** A state and error monad *)

Definition M (S A : Type) : Type := S -> res (A * S).

Section monad.
Context {S : Type}.

Definition ret {A} (a : A) : M S A := fun s => Ok (a, s).

Definition fail {A} (e : fault) : M S A := fun _ => Err e.

Definition bind {A B} (m : M S A) (k : A -> M S B) : M S B :=
  fun s => match m s with Ok (a, s') => k a s' | Err e => Err e end.

Definition get : M S S := fun s => Ok (s, s).

Definition put (s : S) : M S unit := fun _ => Ok (tt, s).

Definition modify (f : S -> S) : M S unit := fun s => Ok (tt, f s).

Definition gets {A} (f : S -> A) : M S A := fun s => Ok (f s, s).

(** An [ASSERT] of lib/debug.h: the kernel is built without NDEBUG. *)
Definition ASSERT (b : bool) : M S unit :=
  if b then ret tt else fail Assertion_failed.

(** A partial read of the state: [None] is an access outside the objects
    that exist. *)
Definition gets_opt {A} (f : S -> option A) : M S A :=
  fun s => match f s with Some a => Ok (a, s) | None => Err Bad_access end.

Lemma bind_ok {A B} (m : M S A) (k : A -> M S B) s a s' :
  m s = Ok (a, s') -> bind m k s = k a s'.
Proof. unfold bind. by intros ->. Qed.

Lemma bind_err {A B} (m : M S A) (k : A -> M S B) s e :
  m s = Err e -> bind m k s = Err e.
Proof. unfold bind. by intros ->. Qed.

Lemma bind_ok_inv {A B} (m : M S A) (k : A -> M S B) s b s'' :
  bind m k s = Ok (b, s'') -> exists a s', m s = Ok (a, s') /\ k a s' = Ok (b, s'').
Proof. unfold bind. destruct (m s) as [[a s']|e]; naive_solver. Qed.

Lemma bind_ret_l {A B} (a : A) (k : A -> M S B) s : bind (ret a) k s = k a s.
Proof. reflexivity. Qed.

Lemma bind_bind {A B C} (m : M S A) (k1 : A -> M S B) (k2 : B -> M S C) s :
  bind (bind m k1) k2 s = bind m (fun a => bind (k1 a) k2) s.
Proof. unfold bind. by destruct (m s) as [[]|]. Qed.

Lemma bind_get_l {B} (k : S -> M S B) s : bind get k s = k s s.
Proof. reflexivity. Qed.

Lemma bind_gets_l {A B} (f : S -> A) (k : A -> M S B) s : bind (gets f) k s = k (f s) s.
Proof. reflexivity. Qed.

Lemma bind_modify_l {B} (f : S -> S) (k : unit -> M S B) s : bind (modify f) k s = k tt (f s).
Proof. reflexivity. Qed.

Lemma bind_ASSERT_l {B} (k : unit -> M S B) s : bind (ASSERT true) k s = k tt s.
Proof. reflexivity. Qed.

End monad.

Create Rewrite HintDb mrun.

(** [mnorm] runs the primitive commands at the head of the goal. *)
#[export] Hint Rewrite @bind_ret_l @bind_bind @bind_get_l @bind_gets_l @bind_modify_l
  @bind_ASSERT_l : mrun.
Ltac mnorm := cbn beta iota; autorewrite with mrun; cbn beta iota.

Declare Scope pintos_scope.
Delimit Scope pintos_scope with pintos.
Notation "x <- m ;; k" := (bind m (fun x => k))
  (at level 20, m at level 99, k at level 200) : pintos_scope.
Notation "' p <- m ;; k" := (bind m (fun x => match x with p => k end))
  (at level 20, p pattern, m at level 99, k at level 200) : pintos_scope.
Notation "m ;;; k" := (bind m (fun _ => k))
  (at level 100, k at level 200, right associativity) : pintos_scope.
Open Scope pintos_scope.
Open Scope Z_scope.

(** ** Machine integers

    A [w]-bit integer is a [Z] in range, and every operation that can wrap
    is followed by the conversion to its type. *)

Definition u8 (z : Z) : Z := z mod 256.
Definition u32 (z : Z) : Z := z mod 4294967296.
Definition u64 (z : Z) : Z := z mod 18446744073709551616.
Definition s8 (z : Z) : Z := (z + 128) mod 256 - 128.
Definition s32 (z : Z) : Z := (z + 2147483648) mod 4294967296 - 2147483648.
Definition s64 (z : Z) : Z :=
  (z + 9223372036854775808) mod 18446744073709551616 - 9223372036854775808.

Definition in_u32 (z : Z) : Prop := 0 <= z < 4294967296.
Definition in_s32 (z : Z) : Prop := -2147483648 <= z < 2147483648.
Definition in_u64 (z : Z) : Prop := 0 <= z < 18446744073709551616.
Definition in_s64 (z : Z) : Prop := -9223372036854775808 <= z < 9223372036854775808.

Lemma u32_id z : 0 <= z < 4294967296 -> u32 z = z.
Proof. unfold u32. apply Z.mod_small. Qed.

Lemma u64_id z : 0 <= z < 18446744073709551616 -> u64 z = z.
Proof. unfold u64. apply Z.mod_small. Qed.

Lemma s32_id z : -2147483648 <= z < 2147483648 -> s32 z = z.
Proof. unfold s32. intros. rewrite Z.mod_small by lia. lia. Qed.

Lemma s64_id z : -9223372036854775808 <= z < 9223372036854775808 -> s64 z = z.
Proof. unfold s64. intros. rewrite Z.mod_small by lia. lia. Qed.

Lemma s32_range z : in_s32 (s32 z).
Proof. unfold in_s32, s32. pose proof (Z.mod_pos_bound (z + 2147483648) 4294967296). lia. Qed.

(** The null pointer. *)
Definition NULL : Z := 0.

(** ** Proof steps shared by the components *)

(** [mrun H]: run the first command of the goal with [H : m s = Ok (a, s')]. *)
Ltac mrun H := rewrite (bind_ok _ _ _ _ _ H).

(** ** Partial correctness of commands

    [pres P m]: a run of [m] that returns keeps the property [P];
    [keeps v m]: it leaves the part [v] of the state as it was.  The tactic
    [msteps] takes a goal of either form apart along the monad, and
    leaves the commands the hint database [msteps] does not know. *)

Section preservation.
Context {S : Type}.

Definition hoare {A} (P : S -> Prop) (m : M S A) (Q : A -> S -> Prop) : Prop :=
  forall s a s', P s -> m s = Ok (a, s') -> Q a s'.

Definition pres {A} (P : S -> Prop) (m : M S A) : Prop := hoare P m (fun _ => P).

Definition keeps {X A} (v : S -> X) (m : M S A) : Prop :=
  forall s a s', m s = Ok (a, s') -> v s' = v s.

Lemma hoare_bind {A B} P Q R (m : M S A) (k : A -> M S B) :
  hoare P m Q -> (forall a, hoare (Q a) (k a) R) -> hoare P (bind m k) R.
Proof.
  intros Hm Hk s b s'' HP H. apply bind_ok_inv in H as (a & s' & H1 & H2).
  by eapply Hk; [eapply Hm|].
Qed.

Lemma hoare_weaken {A} (P P' : S -> Prop) (m : M S A) (Q Q' : A -> S -> Prop) :
  hoare P' m Q' -> (forall s, P s -> P' s) -> (forall a s, Q' a s -> Q a s) -> hoare P m Q.
Proof. intros H HP HQ s a s' Hs Hm. apply HQ. eapply H; eauto. Qed.

Lemma pres_bind {A B} P (m : M S A) (k : A -> M S B) :
  pres P m -> (forall a, pres P (k a)) -> pres P (bind m k).
Proof. apply hoare_bind. Qed.

Lemma pres_ret {A} P (a : A) : pres P (ret a).
Proof. intros s b s' HP [= <- <-]. done. Qed.

Lemma pres_fail {A} P e : pres P (fail e : M S A).
Proof. intros s b s' HP [=]. Qed.

Lemma pres_get P : pres P get.
Proof. intros s b s' HP [= <- <-]. done. Qed.

Lemma pres_gets {A} P (f : S -> A) : pres P (gets f).
Proof. intros s b s' HP [= <- <-]. done. Qed.

Lemma pres_gets_opt {A} P (f : S -> option A) : pres P (gets_opt f).
Proof. intros s b s' HP. unfold gets_opt. case_match; [by intros [= <- <-]|done]. Qed.

Lemma pres_ASSERT P b : pres P (ASSERT b).
Proof. destruct b; [apply pres_ret|apply pres_fail]. Qed.

Lemma pres_modify P f : (forall s, P s -> P (f s)) -> pres P (modify f).
Proof. intros Hf s b s' HP [= <- <-]. auto. Qed.

Lemma keeps_pres {X A} (v : S -> X) (P : X -> Prop) (m : M S A) :
  keeps v m -> pres (fun s => P (v s)) m.
Proof. intros H s a s' HP Hm. by rewrite (H _ _ _ Hm). Qed.

Lemma pres_keeps {X A} (v : S -> X) (m : M S A) :
  (forall x, pres (fun s => v s = x) m) -> keeps v m.
Proof. intros H s a s' Hm. by eapply H. Qed.

Lemma keeps_bind {X A B} (v : S -> X) (m : M S A) (k : A -> M S B) :
  keeps v m -> (forall a, keeps v (k a)) -> keeps v (bind m k).
Proof.
  intros Hm Hk s b s'' H. apply bind_ok_inv in H as (a & s' & H1 & H2).
  by rewrite (Hk _ _ _ _ H2), (Hm _ _ _ H1).
Qed.

Lemma keeps_ret {X A} (v : S -> X) (a : A) : keeps v (ret a).
Proof. by intros s b s' [= <- <-]. Qed.

Lemma keeps_fail {X A} (v : S -> X) e : keeps v (fail e : M S A).
Proof. by intros s b s' [=]. Qed.

Lemma keeps_get {X} (v : S -> X) : keeps v get.
Proof. by intros s b s' [= <- <-]. Qed.

Lemma keeps_gets {X A} (v : S -> X) (f : S -> A) : keeps v (gets f).
Proof. by intros s b s' [= <- <-]. Qed.

Lemma keeps_gets_opt {X A} (v : S -> X) (f : S -> option A) : keeps v (gets_opt f).
Proof. intros s b s'. unfold gets_opt. case_match; [by intros [= <- <-]|done]. Qed.

Lemma keeps_ASSERT {X} (v : S -> X) b : keeps v (ASSERT b).
Proof. destruct b; [apply keeps_ret|apply keeps_fail]. Qed.

Lemma keeps_modify {X} (v : S -> X) f : (forall s, v (f s) = v s) -> keeps v (modify f).
Proof. by intros Hf s b s' [= <- <-]. Qed.

End preservation.

Create HintDb msteps.
#[export] Hint Resolve pres_ret pres_fail pres_get pres_gets pres_gets_opt pres_ASSERT
  keeps_ret keeps_fail keeps_get keeps_gets keeps_gets_opt keeps_ASSERT : msteps.
#[export] Hint Extern 2 (keeps _ (modify _)) => (apply keeps_modify; intros; reflexivity) : msteps.

Ltac mstep :=
  lazymatch goal with
  | |- keeps _ (bind _ _) => apply keeps_bind; [|intros ?]
  | |- pres _ (bind _ _) => apply pres_bind; [|intros ?]
  | |- keeps _ (match ?x with _ => _ end) => destruct x
  | |- pres _ (match ?x with _ => _ end) => destruct x
  end.
Ltac msteps := repeat (first [mstep | solve [eauto 3 with msteps]]).

(** ** Inversion of a run

    [minv H] takes [H : m s = Ok (a, s')] apart along the monad, running the
    primitive commands. *)

Section inversion.
Context {S : Type}.

Lemma ret_inv {A} (a b : A) (s s' : S) : ret a s = Ok (b, s') -> b = a /\ s' = s.
Proof. by intros [= -> ->]. Qed.

Lemma get_inv (a s s' : S) : get s = Ok (a, s') -> a = s /\ s' = s.
Proof. by intros [= -> ->]. Qed.

Lemma gets_inv {A} (f : S -> A) a s s' : gets f s = Ok (a, s') -> a = f s /\ s' = s.
Proof. by intros [= -> ->]. Qed.

Lemma gets_opt_inv {A} (f : S -> option A) a s s' :
  gets_opt f s = Ok (a, s') -> f s = Some a /\ s' = s.
Proof. unfold gets_opt. case_match; [by intros [= -> ->]|done]. Qed.

Lemma modify_inv (f : S -> S) a s s' : modify f s = Ok (a, s') -> s' = f s.
Proof. by intros [= _ ->]. Qed.

Lemma ASSERT_inv b a (s s' : S) : ASSERT b s = Ok (a, s') -> b = true /\ s' = s.
Proof. destruct b; [by intros [= _ ->]|done]. Qed.

End inversion.

(** Replace the newer side of an equation. *)
Ltac msubst E :=
  lazymatch type of E with
  | ?x = ?y => first [subst x | subst y | idtac]
  end.

Ltac minv1 H :=
  lazymatch type of H with
  | bind _ _ _ = Ok _ =>
      let a := fresh "a" in let s := fresh "s" in let H1 := fresh "Hm" in
      apply bind_ok_inv in H as (a & s & H1 & H); minv1 H1
  | ret _ _ = Ok _ =>
      let E := fresh "E" in apply ret_inv in H as [E H]; msubst E; msubst H
  | get _ = Ok _ =>
      let E := fresh "E" in apply get_inv in H as [E H]; msubst E; msubst H
  | gets _ _ = Ok _ =>
      let E := fresh "E" in apply gets_inv in H as [E H]; msubst E; msubst H
  | gets_opt _ _ = Ok _ =>
      let E := fresh "E" in apply gets_opt_inv in H as [H E]; msubst E
  | modify _ _ = Ok _ => apply modify_inv in H; msubst H
  | ASSERT _ _ = Ok _ =>
      let E := fresh "E" in apply ASSERT_inv in H as [H E]; msubst E
  | fail _ _ = Ok _ => discriminate H
  | _ => idtac
  end.
Ltac minv H := repeat (progress minv1 H).

(** [kept v H E]: the run [H] keeps the part [v] of the state, as [E]. *)
Ltac kept v H E :=
  match type of H with
  | ?m ?s = Ok (_, ?s') =>
      assert (v s' = v s) as E by
        (let K := fresh in assert (keeps v m) as K by msteps; exact (K _ _ _ H))
  end.
