(* ===== verification/DList.v ===== *)
(** * Doubly linked lists (src/src/lib/kernel/list.c, list.h)

    The kernel's intrusive lists at the level of their pointers.  A
    [struct list_elem] is an address; its two members live in the two maps
    of [heap].  Every function of list.c is a computation in the monad [M]
    over that heap, with the [ASSERT]s of the source. *)

From S2P Require Import Prelude.

Module DList.

(** The members of all [struct list_elem]s, one map per member. *)
Record heap : Type := Heap { prevs : gmap Z Z; nexts : gmap Z Z }.

(** [e->prev] and [e->next] as rvalues. *)
Definition get_prev (e : Z) : M heap Z :=
  gets_opt (fun h => if e =? NULL then None else prevs h !! e).

Definition get_next (e : Z) : M heap Z :=
  gets_opt (fun h => if e =? NULL then None else nexts h !! e).

(** [e->prev = v] and [e->next = v]. *)
Definition set_prev (e v : Z) : M heap unit :=
  get_prev e ;;; modify (fun h => Heap (<[e := v]> (prevs h)) (nexts h)).

Definition set_next (e v : Z) : M heap unit :=
  get_next e ;;; modify (fun h => Heap (prevs h) (<[e := v]> (nexts h))).

(** [&list->head] and [&list->tail]: [struct list] is two consecutive
    [struct list_elem]s of two 4-byte pointers each. *)
Definition head_of (list : Z) : Z := list.
Definition tail_of (list : Z) : Z := list + 8.

Definition is_head (elem : Z) : M heap bool :=
  if elem =? NULL then ret false
  else p <- get_prev elem ;;
       if p =? NULL then n <- get_next elem ;; ret (negb (n =? NULL))
       else ret false.

Definition is_interior (elem : Z) : M heap bool :=
  if elem =? NULL then ret false
  else p <- get_prev elem ;;
       if negb (p =? NULL) then n <- get_next elem ;; ret (negb (n =? NULL))
       else ret false.

Definition is_tail (elem : Z) : M heap bool :=
  if elem =? NULL then ret false
  else p <- get_prev elem ;;
       if negb (p =? NULL) then n <- get_next elem ;; ret (n =? NULL)
       else ret false.

(** [a || b] with C's short-circuit evaluation. *)
Definition or_else (a b : M heap bool) : M heap bool :=
  x <- a ;; if x then ret true else b.

Definition list_init (list : Z) : M heap unit :=
  ASSERT (negb (list =? NULL)) ;;;
  set_prev (head_of list) NULL ;;;
  set_next (head_of list) (tail_of list) ;;;
  set_prev (tail_of list) (head_of list) ;;;
  set_next (tail_of list) NULL.

Definition list_begin (list : Z) : M heap Z :=
  ASSERT (negb (list =? NULL)) ;;; get_next (head_of list).

Definition list_next (elem : Z) : M heap Z :=
  b <- or_else (is_head elem) (is_interior elem) ;;
  ASSERT b ;;; get_next elem.

Definition list_end (list : Z) : M heap Z :=
  ASSERT (negb (list =? NULL)) ;;; ret (tail_of list).

Definition list_rbegin (list : Z) : M heap Z :=
  ASSERT (negb (list =? NULL)) ;;; get_prev (tail_of list).

Definition list_prev (elem : Z) : M heap Z :=
  b <- or_else (is_interior elem) (is_tail elem) ;;
  ASSERT b ;;; get_prev elem.

Definition list_rend (list : Z) : M heap Z :=
  ASSERT (negb (list =? NULL)) ;;; ret (head_of list).

Definition list_head (list : Z) : M heap Z :=
  ASSERT (negb (list =? NULL)) ;;; ret (head_of list).

Definition list_tail (list : Z) : M heap Z :=
  ASSERT (negb (list =? NULL)) ;;; ret (tail_of list).

Definition list_insert (before elem : Z) : M heap unit :=
  b <- or_else (is_interior before) (is_tail before) ;;
  ASSERT b ;;;
  ASSERT (negb (elem =? NULL)) ;;;
  p <- get_prev before ;;
  set_prev elem p ;;;
  set_next elem before ;;;
  p' <- get_prev before ;;
  set_next p' elem ;;;
  set_prev before elem.

Definition list_splice (before first last : Z) : M heap unit :=
  b <- or_else (is_interior before) (is_tail before) ;;
  ASSERT b ;;;
  if first =? last then ret tt
  else
    last <- list_prev last ;;
    b1 <- is_interior first ;; ASSERT b1 ;;;
    b2 <- is_interior last ;; ASSERT b2 ;;;
    (* Cleanly remove FIRST...LAST from its current list. *)
    fp <- get_prev first ;; ln <- get_next last ;; set_next fp ln ;;;
    ln' <- get_next last ;; fp' <- get_prev first ;; set_prev ln' fp' ;;;
    (* Splice FIRST...LAST into new list. *)
    bp <- get_prev before ;; set_prev first bp ;;;
    set_next last before ;;;
    bp' <- get_prev before ;; set_next bp' first ;;;
    set_prev before last.

Definition list_push_front (list elem : Z) : M heap unit :=
  b <- list_begin list ;; list_insert b elem.

Definition list_push_back (list elem : Z) : M heap unit :=
  e <- list_end list ;; list_insert e elem.

Definition list_remove (elem : Z) : M heap Z :=
  b <- is_interior elem ;;
  ASSERT b ;;;
  p <- get_prev elem ;; n <- get_next elem ;; set_next p n ;;;
  n' <- get_next elem ;; p' <- get_prev elem ;; set_prev n' p' ;;;
  get_next elem.

Definition list_empty (list : Z) : M heap bool :=
  b <- list_begin list ;; e <- list_end list ;; ret (b =? e).

Definition list_front (list : Z) : M heap Z :=
  b <- list_empty list ;; ASSERT (negb b) ;;; get_next (head_of list).

Definition list_back (list : Z) : M heap Z :=
  b <- list_empty list ;; ASSERT (negb b) ;;; get_prev (tail_of list).

Definition list_pop_front (list : Z) : M heap Z :=
  front <- list_front list ;; list_remove front ;;; ret front.

Definition list_pop_back (list : Z) : M heap Z :=
  back <- list_back list ;; list_remove back ;;; ret back.

(** The loop of [list_size]; [fuel] bounds its iterations. *)
Fixpoint list_size_loop (fuel : nat) (list e cnt : Z) : M heap Z :=
  match fuel with
  | O => fail Out_of_fuel
  | S fuel' =>
      en <- list_end list ;;
      if e =? en then ret cnt
      else e' <- list_next e ;; list_size_loop fuel' list e' (u32 (cnt + 1))
  end.

Definition list_size (fuel : nat) (list : Z) : M heap Z :=
  e <- list_begin list ;; list_size_loop fuel list e 0.

(** [swap (&e->prev, &e->next)]. *)
Definition swap_links (e : Z) : M heap unit :=
  t <- get_prev e ;; n <- get_next e ;; set_prev e n ;;; set_next e t.

Fixpoint list_reverse_loop (fuel : nat) (list e : Z) : M heap unit :=
  match fuel with
  | O => fail Out_of_fuel
  | S fuel' =>
      en <- list_end list ;;
      if e =? en then ret tt
      else swap_links e ;;; e' <- get_prev e ;; list_reverse_loop fuel' list e'
  end.

Definition list_reverse (fuel : nat) (list : Z) : M heap unit :=
  b <- list_empty list ;;
  if b then ret tt
  else
    e <- list_begin list ;;
    list_reverse_loop fuel list e ;;;
    (* swap (&list->head.next, &list->tail.prev) *)
    hn <- get_next (head_of list) ;; tp <- get_prev (tail_of list) ;;
    set_next (head_of list) tp ;;; set_prev (tail_of list) hn ;;;
    (* swap (&list->head.next->prev, &list->tail.prev->next) *)
    first <- get_next (head_of list) ;; last <- get_prev (tail_of list) ;;
    fp <- get_prev first ;; ln <- get_next last ;;
    set_prev first ln ;;; set_next last fp.

Section ordered.
(** The comparison callback with its auxiliary data already supplied: it
    reads the structures that contain the elements, not the links. *)
Context (less : Z -> Z -> bool).

Fixpoint is_sorted_loop (fuel : nat) (a b : Z) : M heap bool :=
  match fuel with
  | O => fail Out_of_fuel
  | S fuel' =>
      a' <- list_next a ;;
      if a' =? b then ret true
      else p <- list_prev a' ;;
           if less a' p then ret false else is_sorted_loop fuel' a' b
  end.

Definition is_sorted (fuel : nat) (a b : Z) : M heap bool :=
  if a =? b then ret true else is_sorted_loop fuel a b.

Fixpoint find_end_of_run_loop (fuel : nat) (a b : Z) : M heap Z :=
  match fuel with
  | O => fail Out_of_fuel
  | S fuel' =>
      a' <- list_next a ;;
      if a' =? b then ret a'
      else p <- list_prev a' ;;
           if less a' p then ret a' else find_end_of_run_loop fuel' a' b
  end.

Definition find_end_of_run (fuel : nat) (a b : Z) : M heap Z :=
  ASSERT (negb (a =? NULL)) ;;;
  ASSERT (negb (b =? NULL)) ;;;
  ASSERT (negb (a =? b)) ;;;
  find_end_of_run_loop fuel a b.

Fixpoint inplace_merge_loop (fuel : nat) (a0 a1b0 b1 : Z) : M heap unit :=
  match fuel with
  | O => fail Out_of_fuel
  | S fuel' =>
      if (a0 =? a1b0) || (a1b0 =? b1) then ret tt
      else if negb (less a1b0 a0) then
        a0' <- list_next a0 ;; inplace_merge_loop fuel' a0' a1b0 b1
      else
        a1b0' <- list_next a1b0 ;;
        p <- list_prev a1b0' ;;
        list_splice a0 p a1b0' ;;;
        inplace_merge_loop fuel' a0 a1b0' b1
  end.

Definition inplace_merge (fuel : nat) (a0 a1b0 b1 : Z) : M heap unit :=
  ASSERT (negb (a0 =? NULL)) ;;;
  ASSERT (negb (a1b0 =? NULL)) ;;;
  ASSERT (negb (b1 =? NULL)) ;;;
  s1 <- is_sorted fuel a0 a1b0 ;; ASSERT s1 ;;;
  s2 <- is_sorted fuel a1b0 b1 ;; ASSERT s2 ;;;
  inplace_merge_loop fuel a0 a1b0 b1.

(** The inner [for] loop of [list_sort]: one pass over the list.  It
    returns [output_run_cnt]. *)
Fixpoint list_sort_pass (fuel : nat) (list a0 cnt : Z) : M heap Z :=
  match fuel with
  | O => fail Out_of_fuel
  | S fuel' =>
      en <- list_end list ;;
      if a0 =? en then ret cnt
      else
        let cnt := u32 (cnt + 1) in
        a1b0 <- find_end_of_run (S fuel') a0 en ;;
        if a1b0 =? en then ret cnt
        else
          b1 <- find_end_of_run (S fuel') a1b0 en ;;
          inplace_merge (S fuel') a0 a1b0 b1 ;;;
          list_sort_pass fuel' list b1 cnt
  end.

(** The outer [do ... while (output_run_cnt > 1)] loop. *)
Fixpoint list_sort_loop (fuel inner : nat) (list : Z) : M heap unit :=
  match fuel with
  | O => fail Out_of_fuel
  | S fuel' =>
      a0 <- list_begin list ;;
      cnt <- list_sort_pass inner list a0 0 ;;
      if 1 <? cnt then list_sort_loop fuel' inner list else ret tt
  end.

Definition list_sort (fuel : nat) (list : Z) : M heap unit :=
  ASSERT (negb (list =? NULL)) ;;;
  list_sort_loop fuel fuel list ;;;
  b <- list_begin list ;; e <- list_end list ;;
  s <- is_sorted fuel b e ;; ASSERT s.

Fixpoint insert_ordered_loop (fuel : nat) (list e elem : Z) : M heap Z :=
  match fuel with
  | O => fail Out_of_fuel
  | S fuel' =>
      en <- list_end list ;;
      if e =? en then ret e
      else if less elem e then ret e
      else e' <- list_next e ;; insert_ordered_loop fuel' list e' elem
  end.

Definition list_insert_ordered (fuel : nat) (list elem : Z) : M heap unit :=
  ASSERT (negb (list =? NULL)) ;;;
  ASSERT (negb (elem =? NULL)) ;;;
  b <- list_begin list ;;
  e <- insert_ordered_loop fuel list b elem ;;
  list_insert e elem.

Fixpoint list_unique_loop (fuel : nat) (list duplicates elem : Z) : M heap unit :=
  match fuel with
  | O => fail Out_of_fuel
  | S fuel' =>
      nx <- list_next elem ;;
      en <- list_end list ;;
      if nx =? en then ret tt
      else if negb (less elem nx) && negb (less nx elem) then
        list_remove nx ;;;
        (if negb (duplicates =? NULL) then list_push_back duplicates nx else ret tt) ;;;
        list_unique_loop fuel' list duplicates elem
      else list_unique_loop fuel' list duplicates nx
  end.

Definition list_unique (fuel : nat) (list duplicates : Z) : M heap unit :=
  ASSERT (negb (list =? NULL)) ;;;
  b <- list_empty list ;;
  if b then ret tt
  else elem <- list_begin list ;; list_unique_loop fuel list duplicates elem.

Fixpoint list_max_loop (fuel : nat) (list e max : Z) : M heap Z :=
  match fuel with
  | O => fail Out_of_fuel
  | S fuel' =>
      en <- list_end list ;;
      if e =? en then ret max
      else
        let max := if less max e then e else max in
        e' <- list_next e ;; list_max_loop fuel' list e' max
  end.

Definition list_max (fuel : nat) (list : Z) : M heap Z :=
  max <- list_begin list ;;
  en <- list_end list ;;
  if negb (max =? en) then
    e <- list_next max ;; list_max_loop fuel list e max
  else ret max.

Fixpoint list_min_loop (fuel : nat) (list e min : Z) : M heap Z :=
  match fuel with
  | O => fail Out_of_fuel
  | S fuel' =>
      en <- list_end list ;;
      if e =? en then ret min
      else
        let min := if less e min then e else min in
        e' <- list_next e ;; list_min_loop fuel' list e' min
  end.

Definition list_min (fuel : nat) (list : Z) : M heap Z :=
  min <- list_begin list ;;
  en <- list_end list ;;
  if negb (min =? en) then
    e <- list_next min ;; list_min_loop fuel list e min
  else ret min.

End ordered.

(** ** The abstraction: which sequence of elements a heap represents *)

Definition upd_prev (h : heap) (e v : Z) : heap := Heap (<[e := v]> (prevs h)) (nexts h).
Definition upd_next (h : heap) (e v : Z) : heap := Heap (prevs h) (<[e := v]> (nexts h)).

Definition link (h : heap) (a b : Z) : Prop :=
  nexts h !! a = Some b /\ prevs h !! b = Some a.

(** Each node of [ys] is linked, both ways, with the one after it. *)
Fixpoint linked (h : heap) (ys : list Z) : Prop :=
  match ys with
  | a :: ((b :: _) as ys') => link h a b /\ linked h ys'
  | _ => True
  end.

(** The nodes of a list: its head, its elements and its tail. *)
Definition nodes (l : Z) (xs : list Z) : list Z := head_of l :: xs ++ [tail_of l].

(** [is_list h l xs]: at address [l] of [h] there is a well-formed
    [struct list] whose elements, front to back, are [xs]. *)
Definition is_list (h : heap) (l : Z) (xs : list Z) : Prop :=
  NoDup (nodes l xs) /\ (NULL ∉ nodes l xs) /\
  prevs h !! head_of l = Some NULL /\ nexts h !! tail_of l = Some NULL /\
  linked h (nodes l xs).

(** An allocated element that is in no list. *)
Definition allocated (h : heap) (e : Z) : Prop :=
  e <> NULL /\ is_Some (prevs h !! e) /\ is_Some (nexts h !! e).

(** The heaps differ at most in the links of [ns], and no element is
    created or destroyed. *)
Definition frame (h h' : heap) (ns : list Z) : Prop :=
  (forall a, a ∉ ns -> prevs h' !! a = prevs h !! a /\ nexts h' !! a = nexts h !! a) /\
  (forall a, allocated h a -> allocated h' a).

(** The element a cursor in front of [post] designates, and the one before
    a cursor behind [pre]. *)
Definition cur (l : Z) (post : list Z) : Z := List.hd (tail_of l) post.
Definition before_cur (l : Z) (pre : list Z) : Z := List.last pre (head_of l).

Create HintDb dlist.

(** *** Single accesses *)

Lemma get_prev_ok h e v : e <> NULL -> prevs h !! e = Some v -> get_prev e h = Ok (v, h).
Proof. intros Hz He. unfold get_prev, gets_opt. by rewrite (proj2 (Z.eqb_neq _ _) Hz), He. Qed.

Lemma get_next_ok h e v : e <> NULL -> nexts h !! e = Some v -> get_next e h = Ok (v, h).
Proof. intros Hz He. unfold get_next, gets_opt. by rewrite (proj2 (Z.eqb_neq _ _) Hz), He. Qed.

Lemma set_prev_ok h e v : e <> NULL -> is_Some (prevs h !! e) ->
  set_prev e v h = Ok (tt, upd_prev h e v).
Proof. intros Hz [v0 He]. unfold set_prev. by rewrite (bind_ok _ _ _ _ _ (get_prev_ok _ _ _ Hz He)). Qed.

Lemma set_next_ok h e v : e <> NULL -> is_Some (nexts h !! e) ->
  set_next e v h = Ok (tt, upd_next h e v).
Proof. intros Hz [v0 He]. unfold set_next. by rewrite (bind_ok _ _ _ _ _ (get_next_ok _ _ _ Hz He)). Qed.

Lemma ASSERT_ok {S} (b : bool) (s : S) : b = true -> ASSERT b s = Ok (tt, s).
Proof. by intros ->. Qed.

(** The three classifiers on an allocated element. *)
Lemma is_interior_eval h e p n :
  e <> NULL -> prevs h !! e = Some p -> nexts h !! e = Some n ->
  is_interior e h = Ok (negb (p =? NULL) && negb (n =? NULL), h).
Proof.
  intros He Hp Hn. unfold is_interior. rewrite (proj2 (Z.eqb_neq _ _) He).
  rewrite (bind_ok _ _ _ _ _ (get_prev_ok _ _ _ He Hp)).
  destruct (p =? NULL); [done|]; cbn [negb]. by rewrite (bind_ok _ _ _ _ _ (get_next_ok _ _ _ He Hn)).
Qed.

Lemma is_tail_eval h e p n :
  e <> NULL -> prevs h !! e = Some p -> nexts h !! e = Some n ->
  is_tail e h = Ok (negb (p =? NULL) && (n =? NULL), h).
Proof.
  intros He Hp Hn. unfold is_tail. rewrite (proj2 (Z.eqb_neq _ _) He).
  rewrite (bind_ok _ _ _ _ _ (get_prev_ok _ _ _ He Hp)).
  destruct (p =? NULL); [done|]; cbn [negb]. by rewrite (bind_ok _ _ _ _ _ (get_next_ok _ _ _ He Hn)).
Qed.

Lemma is_head_eval h e p n :
  e <> NULL -> prevs h !! e = Some p -> nexts h !! e = Some n ->
  is_head e h = Ok ((p =? NULL) && negb (n =? NULL), h).
Proof.
  intros He Hp Hn. unfold is_head. rewrite (proj2 (Z.eqb_neq _ _) He).
  rewrite (bind_ok _ _ _ _ _ (get_prev_ok _ _ _ He Hp)).
  destruct (p =? NULL); [|done]; cbn [negb]. by rewrite (bind_ok _ _ _ _ _ (get_next_ok _ _ _ He Hn)).
Qed.

Lemma is_interior_ok h e p n :
  e <> NULL -> p <> NULL -> n <> NULL -> prevs h !! e = Some p -> nexts h !! e = Some n ->
  is_interior e h = Ok (true, h).
Proof.
  intros He Hp%Z.eqb_neq Hn%Z.eqb_neq ??. erewrite is_interior_eval by done.
  by rewrite Hp, Hn.
Qed.

(** [is_interior e || is_tail e], the assertion of [list_prev],
    [list_insert] and [list_splice]. *)
Lemma interior_or_tail_ok h e p n :
  e <> NULL -> p <> NULL -> prevs h !! e = Some p -> nexts h !! e = Some n ->
  or_else (is_interior e) (is_tail e) h = Ok (true, h).
Proof.
  intros He Hp%Z.eqb_neq ??. unfold or_else.
  rewrite (bind_ok _ _ _ _ _ (is_interior_eval h e p n ltac:(done) ltac:(done) ltac:(done))).
  rewrite Hp. destruct (n =? NULL) eqn:Hn; [|done]. simpl.
  erewrite is_tail_eval by done. by rewrite Hp, Hn.
Qed.

Lemma head_or_interior_ok h e p n :
  e <> NULL -> n <> NULL -> prevs h !! e = Some p -> nexts h !! e = Some n ->
  or_else (is_head e) (is_interior e) h = Ok (true, h).
Proof.
  intros He Hn%Z.eqb_neq ??. unfold or_else.
  rewrite (bind_ok _ _ _ _ _ (is_head_eval h e p n ltac:(done) ltac:(done) ltac:(done))).
  rewrite Hn. destruct (p =? NULL) eqn:Hp; [done|]. simpl.
  erewrite is_interior_eval by done. by rewrite Hp, Hn.
Qed.

(** *** Links and updates *)

Lemma linked_app h ys1 ys2 a b :
  last ys1 = Some a -> head ys2 = Some b ->
  linked h (ys1 ++ ys2) <-> linked h ys1 /\ link h a b /\ linked h ys2.
Proof.
  intros Ha Hb. destruct ys2 as [|b' ys2]; simplify_eq/=.
  induction ys1 as [|x ys1 IH]; [done|].
  destruct ys1 as [|y ys1]; simplify_eq/=.
  - tauto.
  - simpl in IH. rewrite IH by done. tauto.
Qed.

(** Links survive an update of [next] outside the sequence or at its last
    node, and an update of [prev] outside it or at its first node. *)
Lemma linked_upd_next h ys p v :
  (p ∉ ys) \/ (NoDup ys /\ last ys = Some p) -> linked h ys -> linked (upd_next h p v) ys.
Proof.
  induction ys as [|a ys IH]; [done|]. destruct ys as [|b ys]; [done|].
  intros Hp [[Hn Hv] Hl]. split.
  - split; [|done]. simpl. rewrite lookup_insert_ne; [done|].
    intros ->. destruct Hp as [Hp|[Hnd Hlast]]; [set_solver|].
    apply NoDup_cons in Hnd as [Hnin _]. apply Hnin.
    rewrite last_cons_cons in Hlast. by apply last_Some_elem_of.
  - apply IH; [|done]. destruct Hp as [Hp|[Hnd Hlast]]; [left; set_solver|right].
    split; [by apply NoDup_cons in Hnd as [_ ?]|done].
Qed.

Lemma linked_upd_prev h ys p v :
  (p ∉ ys) \/ (NoDup ys /\ head ys = Some p) -> linked h ys -> linked (upd_prev h p v) ys.
Proof.
  induction ys as [|a ys IH]; [done|]. destruct ys as [|b ys]; [done|].
  intros Hp [[Hn Hv] Hl].
  assert (p ∉ b :: ys) as Hnin.
  { destruct Hp as [Hp|[Hnd Hh]]; [set_solver|]. simplify_eq/=.
    by apply NoDup_cons in Hnd as [? _]. }
  split; [split; [done|]|by apply IH; [left|]].
  simpl. rewrite lookup_insert_ne; [done|]. intros ->. set_solver.
Qed.

Lemma last_nodes l pre : last (head_of l :: pre) = Some (before_cur l pre).
Proof.
  unfold before_cur. induction pre as [|a pre IH] using rev_ind; [done|].
  by rewrite app_comm_cons, last_snoc, List.last_last.
Qed.

Lemma head_nodes l post : head (post ++ [tail_of l]) = Some (cur l post).
Proof. by destruct post. Qed.

Lemma before_cur_in l pre : before_cur l pre ∈ head_of l :: pre.
Proof. apply last_Some_elem_of, last_nodes. Qed.

Lemma cur_in l post : cur l post ∈ post ++ [tail_of l].
Proof. destruct post; set_solver. Qed.

Lemma nodes_app l pre post : nodes l (pre ++ post) = (head_of l :: pre) ++ (post ++ [tail_of l]).
Proof. unfold nodes. by rewrite <- app_assoc. Qed.

(** The list cut at a cursor. *)
Lemma is_list_cut h l pre post :
  is_list h l (pre ++ post) <->
  (NoDup ((head_of l :: pre) ++ (post ++ [tail_of l])) /\
   (NULL ∉ (head_of l :: pre) ++ (post ++ [tail_of l])) /\
   prevs h !! head_of l = Some NULL /\ nexts h !! tail_of l = Some NULL) /\
  linked h (head_of l :: pre) /\ link h (before_cur l pre) (cur l post) /\
  linked h (post ++ [tail_of l]).
Proof.
  unfold is_list. rewrite nodes_app.
  rewrite (linked_app _ _ _ _ _ (last_nodes l pre) (head_nodes l post)). tauto.
Qed.

Lemma is_list_alloc h l xs a : is_list h l xs -> a ∈ nodes l xs -> allocated h a.
Proof.
  intros (Hnd & Hz & Hp & Hn & Hl) Ha. split; [set_solver|].
  apply list_elem_of_split in Ha as (ys1 & ys2 & Ha).
  rewrite Ha in Hl. split.
  - destruct ys1 as [|y ys1 _] using rev_ind.
    { unfold nodes in Ha. simplify_eq/=. by eexists. }
    rewrite (linked_app _ _ _ y a) in Hl; [|by rewrite last_snoc|done].
    destruct Hl as (_ & [_ ?] & _). by eexists.
  - destruct ys2 as [|y ys2].
    { unfold nodes in Ha. rewrite app_comm_cons in Ha.
      apply app_inj_tail in Ha as [_ <-]. by eexists. }
    replace (ys1 ++ a :: y :: ys2) with ((ys1 ++ [a]) ++ y :: ys2) in Hl
      by by rewrite <- app_assoc.
    rewrite (linked_app _ _ _ a y) in Hl; [|by rewrite last_snoc|done].
    destruct Hl as (_ & [? _] & _). by eexists.
Qed.

(** What a cursor can read. *)
Record cursor_view (h : heap) (l : Z) (pre post : list Z) : Prop := {
  cv_before_nz : before_cur l pre <> NULL;
  cv_cur_nz : cur l post <> NULL;
  cv_ne : before_cur l pre <> cur l post;
  cv_next : nexts h !! before_cur l pre = Some (cur l post);
  cv_prev : prevs h !! cur l post = Some (before_cur l pre);
  cv_before : allocated h (before_cur l pre);
  cv_cur : allocated h (cur l post)
}.

Lemma is_list_cursor h l pre post : is_list h l (pre ++ post) -> cursor_view h l pre post.
Proof.
  intros Hl. pose proof (before_cur_in l pre) as Hb. pose proof (cur_in l post) as Hc.
  assert (allocated h (before_cur l pre)) as Hab.
  { eapply is_list_alloc; [done|]. rewrite nodes_app. set_solver. }
  assert (allocated h (cur l post)) as Hac.
  { eapply is_list_alloc; [done|]. rewrite nodes_app. set_solver. }
  apply is_list_cut in Hl as ((Hnd & Hz & _) & _ & [Hn Hp] & _).
  apply NoDup_app in Hnd as (_ & Hdisj & _).
  split; try done; [by apply Hab|by apply Hac|].
  intros Heq. apply (Hdisj _ Hb). by rewrite Heq.
Qed.

(** *** Frames *)

Lemma frame_refl h ns : frame h h ns.
Proof. done. Qed.

Lemma frame_trans h1 h2 h3 ns : frame h1 h2 ns -> frame h2 h3 ns -> frame h1 h3 ns.
Proof.
  intros [Ha1 Hd1] [Ha2 Hd2]. split; [|by auto]. intros a Ha.
  destruct (Ha1 a Ha) as [<- <-]. by apply Ha2.
Qed.

Lemma frame_weaken h h' ns ns' : ns ⊆ ns' -> frame h h' ns -> frame h h' ns'.
Proof. intros Hsub [Ha Hd]. split; [|done]. intros a Hna. apply Ha. set_solver. Qed.

Lemma allocated_upd_prev h e v a : allocated h a -> allocated (upd_prev h e v) a.
Proof.
  intros (? & ? & ?). split; [done|]. split; [|done]. simpl.
  destruct (decide (e = a)) as [->|]; [by rewrite lookup_insert_eq|].
  by rewrite lookup_insert_ne.
Qed.

Lemma allocated_upd_next h e v a : allocated h a -> allocated (upd_next h e v) a.
Proof.
  intros (? & ? & ?). split; [done|]. split; [done|]. simpl.
  destruct (decide (e = a)) as [->|]; [by rewrite lookup_insert_eq|].
  by rewrite lookup_insert_ne.
Qed.

Lemma frame_upd_prev h e v ns : e ∈ ns -> frame h (upd_prev h e v) ns.
Proof.
  intros He. split; [|intros; by apply allocated_upd_prev].
  intros a Ha. simpl. rewrite lookup_insert_ne; [done|set_solver].
Qed.

Lemma frame_upd_next h e v ns : e ∈ ns -> frame h (upd_next h e v) ns.
Proof.
  intros He. split; [|intros; by apply allocated_upd_next].
  intros a Ha. simpl. rewrite lookup_insert_ne; [done|set_solver].
Qed.

#[export] Hint Resolve frame_refl frame_upd_prev frame_upd_next
  allocated_upd_prev allocated_upd_next : dlist.

(** Two lists of one heap do not interfere. *)
Lemma linked_frame h h' ns ys :
  frame h h' ns -> (forall a, a ∈ ys -> a ∉ ns) -> linked h ys -> linked h' ys.
Proof.
  intros [Hf _]. induction ys as [|a ys IH]; [done|]. destruct ys as [|b ys]; [done|].
  intros Hd [[Hn Hp] Hl]. split; [|apply IH; [set_solver|done]].
  split.
  - by rewrite (proj2 (Hf a ltac:(set_solver))).
  - by rewrite (proj1 (Hf b ltac:(set_solver))).
Qed.

Lemma is_list_frame h h' ns l xs :
  frame h h' ns -> (forall a, a ∈ nodes l xs -> a ∉ ns) -> is_list h l xs -> is_list h' l xs.
Proof.
  intros Hf Hd (Hnd & Hz & Hp & Hn & Hl). destruct Hf as [Hf Hal].
  split; [done|]. split; [done|].
  rewrite (proj1 (Hf (head_of l) ltac:(apply Hd; unfold nodes; set_solver))).
  rewrite (proj2 (Hf (tail_of l) ltac:(apply Hd; unfold nodes; set_solver))).
  repeat (split; [done|]). by eapply linked_frame.
Qed.

(** *** The operations without loops *)

Lemma list_nonnull h l xs : is_list h l xs -> negb (l =? NULL) = true.
Proof.
  intros (_ & Hz & _). apply negb_true_iff, Z.eqb_neq. intros ->. apply Hz.
  unfold nodes, head_of. set_solver.
Qed.

Lemma list_end_ok h l xs : is_list h l xs -> list_end l h = Ok (tail_of l, h).
Proof. intros Hl. unfold list_end. by rewrite (list_nonnull _ _ _ Hl). Qed.

Lemma list_begin_ok h l xs : is_list h l xs -> list_begin l h = Ok (cur l xs, h).
Proof.
  intros Hl. unfold list_begin. rewrite (list_nonnull _ _ _ Hl).
  destruct (is_list_cursor h l [] xs Hl) as [Hb Hc Hne Hn _ _ _].
  by apply get_next_ok.
Qed.

Lemma list_next_ok h l pre post :
  is_list h l (pre ++ post) -> list_next (before_cur l pre) h = Ok (cur l post, h).
Proof.
  intros [Hb Hc _ Hn _ (_ & [p Hp] & _) _]%is_list_cursor. unfold list_next.
  mrun (head_or_interior_ok _ _ _ _ Hb Hc Hp Hn). by apply get_next_ok.
Qed.

Lemma list_prev_ok h l pre post :
  is_list h l (pre ++ post) -> list_prev (cur l post) h = Ok (before_cur l pre, h).
Proof.
  intros [Hb Hc _ _ Hp _ (_ & _ & [n Hn])]%is_list_cursor. unfold list_prev.
  mrun (interior_or_tail_ok _ _ _ _ Hc Hb Hp Hn). by apply get_prev_ok.
Qed.

Lemma before_cur_snoc l pre x : before_cur l (pre ++ [x]) = x.
Proof. apply List.last_last. Qed.

(** [list_next] on an element, for iteration. *)
Lemma list_next_elem h l pre x post :
  is_list h l (pre ++ x :: post) -> list_next x h = Ok (cur l post, h).
Proof.
  intros Hl. rewrite <- (before_cur_snoc l pre x) at 1.
  apply list_next_ok. by rewrite <- app_assoc.
Qed.

Lemma list_prev_elem h l pre x post :
  is_list h l (pre ++ x :: post) -> list_prev (cur l post) h = Ok (x, h).
Proof.
  intros Hl. rewrite <- (before_cur_snoc l pre x).
  apply list_prev_ok. by rewrite <- app_assoc.
Qed.

(** Is the cursor at the end? *)
Lemma cur_at_end h l pre post :
  is_list h l (pre ++ post) ->
  (cur l post =? tail_of l) = match post with [] => true | _ => false end.
Proof.
  intros Hl. destruct post as [|x post]; [apply Z.eqb_refl|]. apply Z.eqb_neq.
  destruct Hl as (Hnd & _). rewrite nodes_app in Hnd.
  apply NoDup_app in Hnd as (_ & _ & Hnd). apply NoDup_cons in Hnd as [Hnin _].
  simpl. intros ->. apply Hnin. set_solver.
Qed.

Lemma list_empty_ok h l xs :
  is_list h l xs -> list_empty l h = Ok (match xs with [] => true | _ => false end, h).
Proof.
  intros Hl. unfold list_empty. mrun (list_begin_ok _ _ _ Hl). mrun (list_end_ok _ _ _ Hl).
  unfold ret. by rewrite (cur_at_end h l [] xs Hl).
Qed.

(** The two sides of a cursor, as the facts the updates need. *)
Record cut_view (h : heap) (l : Z) (pre post : list Z) : Prop := {
  cut_nodup_l : NoDup (head_of l :: pre);
  cut_nodup_r : NoDup (post ++ [tail_of l]);
  cut_disj : forall x, x ∈ head_of l :: pre -> x ∉ post ++ [tail_of l];
  cut_null_l : NULL ∉ head_of l :: pre;
  cut_null_r : NULL ∉ post ++ [tail_of l];
  cut_head : prevs h !! head_of l = Some NULL;
  cut_tail : nexts h !! tail_of l = Some NULL;
  cut_linked_l : linked h (head_of l :: pre);
  cut_link : link h (before_cur l pre) (cur l post);
  cut_linked_r : linked h (post ++ [tail_of l])
}.

Lemma is_list_cut_view h l pre post : is_list h l (pre ++ post) <-> cut_view h l pre post.
Proof.
  rewrite is_list_cut, NoDup_app. split.
  - intros (((?&?&?) & ? & ? & ?) & ? & ? & ?). split; set_solver.
  - intros [?? Hd ????? [] ?]. repeat split; try done; try (by apply Hd); set_solver.
Qed.

Lemma tail_in_r l post : tail_of l ∈ post ++ [tail_of l].
Proof. set_solver. Qed.

Lemma head_in_l l pre : head_of l ∈ head_of l :: pre.
Proof. set_solver. Qed.

(** Distinctness of two nodes from membership in disjoint segments. *)
Ltac apart :=
  let E := fresh in
  intros E; subst;
  match goal with
  | D : (forall x, x ∈ ?a -> x ∉ ?b), H1 : ?y ∈ ?a, H2 : ?y ∈ ?b |- _ => exact (D _ H1 H2)
  end.

Ltac outside :=
  let E := fresh in
  match goal with
  | H : ?y ∈ ?a, D : (forall x, x ∈ ?a -> x ∉ ?b) |- ?y ∉ ?b => exact (D _ H)
  | H : ?y ∈ ?b, D : (forall x, x ∈ ?a -> x ∉ ?b) |- ?y ∉ ?a => intros E; exact (D _ E H)
  end.

(** Closes [linked h' ys] for an [h'] built from updates of an [h] in which
    [ys] is linked. *)
Ltac relink :=
  repeat first
    [ apply linked_upd_next;
      [ solve [ left; first [done|outside] | right; split; [done | first [done | apply last_nodes]] ] | ]
    | apply linked_upd_prev;
      [ solve [ left; first [done|outside] | right; split; [done | first [done | apply head_nodes]] ] | ] ];
  try done.

(** Computes a lookup in an updated heap from inequalities in the context. *)
Ltac hlookup :=
  simpl; repeat first [ rewrite lookup_insert_eq | rewrite lookup_insert_ne by (done || by apply not_eq_sym) ]; try done.

Lemma list_insert_spec h l pre post e :
  is_list h l (pre ++ post) -> e ∉ nodes l (pre ++ post) -> allocated h e ->
  exists h', list_insert (cur l post) e h = Ok (tt, h') /\
    is_list h' l (pre ++ e :: post) /\ frame h h' [e; before_cur l pre; cur l post].
Proof.
  intros Hl He (Hez & Hep & Hen).
  destruct (is_list_cursor _ _ _ _ Hl) as [Hb Hc Hne Hn Hp Hab (_ & Hcp & [n Hcn])].
  pose proof (before_cur_in l pre) as Hbin. pose proof (cur_in l post) as Hcin.
  pose proof (head_in_l l pre) as Hhin. pose proof (tail_in_r l post) as Htin.
  rewrite nodes_app in He. apply not_elem_of_app in He as [Hel Her].
  apply is_list_cut_view in Hl as [Hnd1 Hnd2 Hdj Hz1 Hz2 Hh Ht Hl1 Hlk Hl2].
  assert (e <> before_cur l pre) as Heb by (intros ->; done).
  assert (e <> cur l post) as Hec by (intros ->; done).
  assert (e <> head_of l) as Heh by (intros ->; done).
  assert (e <> tail_of l) as Het by (intros ->; done).
  assert (before_cur l pre ∉ post ++ [tail_of l]) as Hbr by auto.
  assert (cur l post ∉ head_of l :: pre) as Hcl by (intros ?; by eapply Hdj).
  assert (before_cur l pre <> tail_of l) as Hbt by (intros Heq; rewrite Heq in *; done).
  assert (cur l post <> head_of l) as Hch by (intros Heq; rewrite Heq in *; done).
  unfold list_insert.
  mrun (interior_or_tail_ok _ _ _ _ Hc Hb Hp Hcn).
  mrun (ASSERT_ok true h eq_refl).
  mrun (ASSERT_ok (negb (e =? NULL)) h ltac:(by apply negb_true_iff, Z.eqb_neq)).
  mrun (get_prev_ok _ _ _ Hc Hp).
  mrun (set_prev_ok h e (before_cur l pre) Hez Hep).
  mrun (set_next_ok (upd_prev h e (before_cur l pre)) e (cur l post) Hez Hen).
  set (h2 := upd_next _ _ _).
  assert (prevs h2 !! cur l post = Some (before_cur l pre)) as Hp2.
  { simpl. by rewrite lookup_insert_ne. }
  mrun (get_prev_ok _ _ _ Hc Hp2).
  assert (is_Some (nexts h2 !! before_cur l pre)) as Hn2.
  { simpl. rewrite lookup_insert_ne by done. by eexists. }
  mrun (set_next_ok h2 (before_cur l pre) e Hb Hn2).
  rewrite set_prev_ok; [|done|simpl; rewrite lookup_insert_ne by done; by eexists].
  eexists. split; [done|]. subst h2. split.
  - apply is_list_cut_view. split; try done.
    + simpl app. apply NoDup_cons. done.
    + intros x Hx. simpl app. apply not_elem_of_cons. split; [intros ->; done|auto].
    + simpl app. apply not_elem_of_cons. done.
    + hlookup.
    + hlookup.
    + relink.
    + split; hlookup.
    + apply (linked_app _ [e] (post ++ [tail_of l]) e (cur l post)); [done|apply head_nodes|].
      split; [done|]. split; [split; hlookup|]. relink.
  - eapply frame_trans; [|apply frame_upd_prev; set_solver].
    eapply frame_trans; [|apply frame_upd_next; set_solver].
    eapply frame_trans; [|apply frame_upd_next; set_solver].
    apply frame_upd_prev; set_solver.
Qed.

(** *** Splicing *)

Lemma before_cur_app l pre seg x :
  last seg = Some x -> before_cur l (pre ++ seg) = x.
Proof.
  intros Hx. apply last_Some in Hx as [seg' ->]. unfold before_cur.
  by rewrite app_assoc, List.last_last.
Qed.

Lemma cur_app l seg post x : head seg = Some x -> cur l (seg ++ post) = x.
Proof. by destruct seg; intros; simplify_eq/=. Qed.

Lemma last_is_Some {A} (xs : list A) : xs <> [] -> exists x, last xs = Some x.
Proof.
  intros Hne. destruct (last xs) eqn:E; [by eexists|]. by apply last_None in E.
Qed.

(** Links of an interior segment, from both its ends. *)
Lemma interior_links h l pre seg post s0 s1 :
  is_list h l (pre ++ seg ++ post) -> head seg = Some s0 -> last seg = Some s1 ->
  link h (before_cur l pre) s0 /\ link h s1 (cur l post) /\
  allocated h s0 /\ allocated h s1.
Proof.
  intros Hl Hs0 Hs1.
  destruct (is_list_cursor h l pre (seg ++ post) Hl) as [_ _ _ Hn Hp _ Ha].
  rewrite (cur_app l seg post s0 Hs0) in *.
  rewrite app_assoc in Hl.
  destruct (is_list_cursor h l (pre ++ seg) post Hl) as [_ _ _ Hn' Hp' Ha' _].
  rewrite (before_cur_app l pre seg s1 Hs1) in *. done.
Qed.

(** The body of [list_splice] once its assertions hold: six updates. *)
Lemma list_splice_run h before first last s1 fp ln bp :
  first <> last ->
  or_else (is_interior before) (is_tail before) h = Ok (true, h) ->
  list_prev last h = Ok (s1, h) ->
  fp <> NULL -> ln <> NULL -> bp <> NULL ->
  allocated h first -> allocated h s1 -> allocated h fp -> allocated h ln ->
  allocated h before -> allocated h bp ->
  prevs h !! first = Some fp -> is_interior first h = Ok (true, h) ->
  is_interior s1 h = Ok (true, h) -> nexts h !! s1 = Some ln ->
  prevs h !! before = Some bp ->
  fp <> s1 -> ln <> first -> ln <> before -> first <> before ->
  list_splice before first last h =
    Ok (tt, upd_prev (upd_next (upd_next (upd_prev (upd_prev (upd_next h fp ln)
              ln fp) first bp) s1 before) bp first) before s1).
Proof.
  intros Hfl Hb Hp Hfp Hln Hbp Haf Has Hafp Haln Hab Habp Hpf Hif His Hns Hpb ????.
  unfold list_splice. mrun Hb. mrun (ASSERT_ok true h eq_refl).
  rewrite (proj2 (Z.eqb_neq _ _) Hfl). mrun Hp.
  mrun Hif. mrun (ASSERT_ok true h eq_refl). mrun His. mrun (ASSERT_ok true h eq_refl).
  pose proof (proj1 Haf) as Hzf. pose proof (proj1 Has) as Hzs. pose proof (proj1 Hab) as Hzb.
  mrun (get_prev_ok _ _ _ Hzf Hpf). mrun (get_next_ok _ _ _ Hzs Hns).
  rewrite (bind_ok _ _ _ _ _ (set_next_ok h fp ln Hfp (proj2 (proj2 Hafp)))).
  set (h1 := upd_next h fp ln).
  assert (nexts h1 !! s1 = Some ln) as Hns1 by hlookup.
  mrun (get_next_ok _ _ _ Hzs Hns1). mrun (get_prev_ok h1 first fp Hzf Hpf).
  rewrite (bind_ok _ _ _ _ _ (set_prev_ok h1 ln fp Hln
    (proj1 (proj2 (allocated_upd_next h fp ln ln Haln))))).
  set (h2 := upd_prev h1 ln fp).
  assert (prevs h2 !! before = Some bp) as Hpb2 by hlookup.
  mrun (get_prev_ok _ _ _ Hzb Hpb2).
  assert (allocated h2 first /\ allocated h2 s1 /\ allocated h2 bp /\ allocated h2 before)
    as (Haf2 & Has2 & Habp2 & Hab2)
    by (subst h2 h1; split_and!; eauto with dlist).
  rewrite (bind_ok _ _ _ _ _ (set_prev_ok h2 first bp Hzf (proj1 (proj2 Haf2)))).
  set (h3 := upd_prev h2 first bp).
  rewrite (bind_ok _ _ _ _ _ (set_next_ok h3 s1 before Hzs (proj2 (proj2 Has2)))).
  set (h4 := upd_next h3 s1 before).
  assert (prevs h4 !! before = Some bp) as Hpb4 by hlookup.
  mrun (get_prev_ok _ _ _ Hzb Hpb4).
  assert (allocated h4 bp) as Habp4 by (subst h4 h3; eauto with dlist).
  rewrite (bind_ok _ _ _ _ _ (set_next_ok h4 bp first Hbp (proj2 (proj2 Habp4)))).
  apply set_prev_ok; [done|].
  assert (allocated (upd_next h4 bp first) before) as (_ & ? & _) by (subst h4 h3; eauto with dlist).
  done.
Qed.

(** [NoDup] of four concatenated segments, spelled out. *)
Lemma NoDup_app4 {A} (a b c d : list A) :
  NoDup (a ++ b ++ c ++ d) <->
  (NoDup a /\ NoDup b /\ NoDup c /\ NoDup d) /\
  (forall x, x ∈ a -> x ∉ b) /\ (forall x, x ∈ a -> x ∉ c) /\ (forall x, x ∈ a -> x ∉ d) /\
  (forall x, x ∈ b -> x ∉ c) /\ (forall x, x ∈ b -> x ∉ d) /\ (forall x, x ∈ c -> x ∉ d).
Proof. rewrite !NoDup_app. set_solver. Qed.

Lemma linked_app4 h a b c d a1 b0 b1 c0 c1 d0 :
  last a = Some a1 -> head b = Some b0 -> last b = Some b1 -> head c = Some c0 ->
  last c = Some c1 -> head d = Some d0 ->
  linked h (a ++ b ++ c ++ d) <->
  (linked h a /\ linked h b /\ linked h c /\ linked h d) /\
  link h a1 b0 /\ link h b1 c0 /\ link h c1 d0.
Proof.
  intros Ha Hb0 Hb1 Hc0 Hc1 Hd.
  rewrite (linked_app h a (b ++ c ++ d) a1 b0), (linked_app h b (c ++ d) b1 c0),
    (linked_app h c d c1 d0); try done; [tauto| |].
  - by destruct c.
  - by destruct b.
Qed.

(** Moving segment [c] in front of segment [b]: the six updates of
    [list_splice] turn [a b c d] into [a c b d]. *)
Lemma linked_rotate h a b c d a1 b0 b1 c0 c1 d0 :
  last a = Some a1 -> head b = Some b0 -> last b = Some b1 -> head c = Some c0 ->
  last c = Some c1 -> head d = Some d0 -> NoDup (a ++ b ++ c ++ d) ->
  linked h (a ++ b ++ c ++ d) ->
  linked (upd_prev (upd_next (upd_next (upd_prev (upd_prev (upd_next h b1 d0)
              d0 b1) c0 a1) c1 b0) a1 c0) b0 c1) (a ++ c ++ b ++ d).
Proof.
  intros Ha Hb0 Hb1 Hc0 Hc1 Hd Hnd Hl.
  rewrite (linked_app4 h a b c d a1 b0 b1 c0 c1 d0) in Hl by done.
  destruct Hl as ((Hla & Hlb & Hlc & Hld) & _).
  apply NoDup_app4 in Hnd as ((?&?&?&?) & D12 & D13 & D14 & D23 & D24 & D34).
  pose proof (last_Some_elem_of _ _ Ha). pose proof (head_Some_elem_of _ _ Hd).
  pose proof (last_Some_elem_of _ _ Hb1). pose proof (head_Some_elem_of _ _ Hb0).
  pose proof (last_Some_elem_of _ _ Hc1). pose proof (head_Some_elem_of _ _ Hc0).
  assert (c0 <> d0) by apart. assert (b1 <> c1) by apart. assert (b0 <> c0) by apart.
  assert (b0 <> d0) by apart. assert (a1 <> c1) by apart. assert (a1 <> b1) by apart.
  rewrite (linked_app4 _ a c b d a1 c0 c1 b0 b1 d0) by done.
  split; [|split_and!; split; hlookup].
  split_and!; relink.
Qed.

Lemma cursor_assert_ok h l pre post :
  is_list h l (pre ++ post) ->
  or_else (is_interior (cur l post)) (is_tail (cur l post)) h = Ok (true, h).
Proof.
  intros [Hb Hc _ _ Hp _ (_ & _ & [n Hn])]%is_list_cursor.
  exact (interior_or_tail_ok _ _ _ _ Hc Hb Hp Hn).
Qed.

Lemma elem_interior_ok h l pre x post :
  is_list h l (pre ++ x :: post) -> is_interior x h = Ok (true, h).
Proof.
  intros Hl. destruct (is_list_cursor _ _ _ _ Hl) as [Hb Hx _ _ Hp _ _].
  assert (is_list h l ((pre ++ [x]) ++ post)) as Hl' by by rewrite <- app_assoc.
  destruct (is_list_cursor _ _ _ _ Hl') as [_ Hc _ Hn _ _ _].
  rewrite before_cur_snoc in Hn. exact (is_interior_ok _ _ _ _ Hx Hb Hc Hp Hn).
Qed.

Lemma seg_interior_ok h l pre seg post x :
  is_list h l (pre ++ seg ++ post) -> x ∈ seg -> is_interior x h = Ok (true, h).
Proof.
  intros Hl (s1 & s2 & ->)%list_elem_of_split.
  apply (elem_interior_ok h l (pre ++ s1) x (s2 ++ post)).
  rewrite <- app_assoc in Hl. by rewrite <- app_assoc.
Qed.

Lemma nodes_app4 l pre b c post :
  nodes l (pre ++ b ++ c ++ post) = (head_of l :: pre) ++ b ++ c ++ (post ++ [tail_of l]).
Proof. unfold nodes. by rewrite <- !app_assoc. Qed.

Lemma frame_splice h a b c d e f ns v1 v2 v3 v4 v5 v6 :
  a ∈ ns -> b ∈ ns -> c ∈ ns -> d ∈ ns -> e ∈ ns -> f ∈ ns ->
  frame h (upd_prev (upd_next (upd_next (upd_prev (upd_prev (upd_next h a v1)
              b v2) c v3) d v4) e v5) f v6) ns.
Proof.
  intros. do 5 (eapply frame_trans; [|by (apply frame_upd_prev || apply frame_upd_next)]).
  by apply frame_upd_next.
Qed.

(** The six updates of a splice leave the outer links of a list alone when
    none of the updated nodes is its head or its tail. *)
Lemma splice_outer_links h l a b c d e f v1 v2 v3 v4 v5 v6 :
  b <> head_of l -> c <> head_of l -> f <> head_of l ->
  a <> tail_of l -> d <> tail_of l -> e <> tail_of l ->
  let h' := upd_prev (upd_next (upd_next (upd_prev (upd_prev (upd_next h a v1)
              b v2) c v3) d v4) e v5) f v6 in
  prevs h' !! head_of l = prevs h !! head_of l /\ nexts h' !! tail_of l = nexts h !! tail_of l.
Proof. intros. split; hlookup. Qed.

Lemma list_splice_within h l pre mid seg post m0 s0 :
  is_list h l (pre ++ mid ++ seg ++ post) -> head mid = Some m0 -> head seg = Some s0 ->
  exists h', list_splice m0 s0 (cur l post) h = Ok (tt, h') /\
    is_list h' l (pre ++ seg ++ mid ++ post) /\ frame h h' (nodes l (pre ++ mid ++ seg ++ post)).
Proof.
  intros Hl Hm0 Hs0.
  destruct (last_is_Some mid) as [m1 Hm1]; [by destruct mid|].
  destruct (last_is_Some seg) as [s1 Hs1]; [by destruct seg|].
  destruct (interior_links h l pre mid (seg ++ post) m0 m1 Hl Hm0 Hm1)
    as ([Hnp Hpm] & [Hnm Hps] & Ham0 & Ham1).
  rewrite (cur_app l seg post s0 Hs0) in *.
  assert (is_list h l ((pre ++ mid) ++ seg ++ post)) as Hl' by by rewrite <- app_assoc.
  destruct (interior_links h l (pre ++ mid) seg post s0 s1 Hl' Hs0 Hs1)
    as (_ & [Hns Hpr] & Has0 & Has1).
  assert (is_list h l ((pre ++ mid ++ seg) ++ post)) as Hl'' by by rewrite <- !app_assoc.
  pose proof (list_prev_ok h l (pre ++ mid ++ seg) post Hl'') as Hprev.
  rewrite (before_cur_app l pre (mid ++ seg) s1) in Hprev by by rewrite last_app, Hs1.
  pose proof (cv_cur _ _ _ _ (is_list_cursor _ _ _ _ Hl'')) as Har.
  pose proof (cv_before _ _ _ _ (is_list_cursor _ _ _ _ Hl)) as Hap.
  pose proof (cursor_assert_ok h l pre _ Hl) as Hasrt. rewrite (cur_app l mid _ m0 Hm0) in Hasrt.
  pose proof (last_nodes l pre) as Hlp. pose proof (head_nodes l post) as Hhr.
  pose proof Hl as (Hnd & Hz & Hh & Ht & Hlk). rewrite nodes_app4 in Hnd, Hz, Hlk |- *.
  pose proof (linked_rotate h _ _ _ _ _ _ _ _ _ _ Hlp Hm0 Hm1 Hs0 Hs1 Hhr Hnd Hlk) as Hrot.
  pose proof (proj1 (NoDup_app4 _ _ _ _) Hnd) as ((Nd1 & Nd2 & Nd3 & Nd4) & D12 & D13 & D14 & D23 & D24 & D34).
  pose proof (before_cur_in l pre). pose proof (cur_in l post).
  pose proof (last_Some_elem_of _ _ Hm1). pose proof (head_Some_elem_of _ _ Hm0).
  pose proof (last_Some_elem_of _ _ Hs1). pose proof (head_Some_elem_of _ _ Hs0).
  pose proof (head_in_l l pre). pose proof (tail_in_r l post).
  generalize dependent (before_cur l pre). generalize dependent (cur l post). intros r ?????? p ??????.
  rewrite (list_splice_run h m0 s0 r s1 m1 r p); try done; try apart;
    try (by apply Ham1 || by apply Har || by apply Hap).
  2: by apply (seg_interior_ok h l (pre ++ mid) seg post).
  2: by apply (seg_interior_ok h l (pre ++ mid) seg post).
  destruct (splice_outer_links h l m1 r s0 s1 p m0 r m1 p m0 s0 s1) as [Eh Et]; try apart.
  eexists. split; [done|]. split.
  - split; [|split; [|split; [by rewrite Eh|split; [by rewrite Et|by rewrite nodes_app4]]]].
    + rewrite nodes_app4. by rewrite (Permutation_app_swap_app seg mid).
    + rewrite nodes_app4. by rewrite (Permutation_app_swap_app seg mid).
  - apply frame_splice; do 3 rewrite elem_of_app; tauto.
Qed.

(** *** Removal *)

Lemma NoDup_drop {A} (a : list A) x d : NoDup (a ++ x :: d) -> NoDup (a ++ d).
Proof. rewrite <- Permutation_middle. by intros [_ ?]%NoDup_cons. Qed.

Lemma linked_bypass h a x d a1 d0 :
  last a = Some a1 -> head d = Some d0 -> NoDup (a ++ x :: d) ->
  linked h (a ++ x :: d) -> linked (upd_prev (upd_next h a1 d0) d0 a1) (a ++ d).
Proof.
  intros Ha Hd Hnd Hl.
  rewrite (linked_app h a (x :: d) a1 x) in Hl by done. destruct Hl as (Hla & _ & Hld).
  apply NoDup_app in Hnd as (Nd1 & D & Nd2). apply NoDup_cons in Nd2 as [Hx Nd2].
  assert (forall y, y ∈ a -> y ∉ d) as D' by set_solver. clear D.
  destruct d as [|d' d]; simplify_eq/=. destruct Hld as [_ Hld].
  pose proof (last_Some_elem_of _ _ Ha).
  assert (d0 ∈ d0 :: d) by set_solver.
  rewrite (linked_app _ a (d0 :: d) a1 d0) by done.
  split; [relink|]. split; [split; hlookup|relink].
Qed.

Lemma list_remove_spec h l pre x post :
  is_list h l (pre ++ x :: post) ->
  exists h', list_remove x h = Ok (cur l post, h') /\ is_list h' l (pre ++ post) /\
    allocated h' x /\ frame h h' [before_cur l pre; cur l post].
Proof.
  intros Hl. pose proof (elem_interior_ok _ _ _ _ _ Hl) as Hint.
  assert (is_list h l (pre ++ [x] ++ post)) as Hl' by done.
  destruct (interior_links h l pre [x] post x x Hl' eq_refl eq_refl)
    as ([Hnp Hpx] & [Hnx Hpc] & Hax & _).
  pose proof (cv_before _ _ _ _ (is_list_cursor _ _ _ _ Hl)) as Hap.
  assert (is_list h l ((pre ++ [x]) ++ post)) as Hl'' by by rewrite <- app_assoc.
  pose proof (cv_cur _ _ _ _ (is_list_cursor _ _ _ _ Hl'')) as Hac.
  destruct Hl as (Hnd & Hz & Hh & Ht & Hlk).
  rewrite nodes_app in Hnd, Hz, Hlk.
  pose proof (linked_bypass h _ x (post ++ [tail_of l]) _ _ (last_nodes l pre) (head_nodes l post) Hnd Hlk) as Hby.
  pose proof Hnd as (Nd1 & D & [Hxp Nd2]%NoDup_cons)%NoDup_app.
  pose proof (before_cur_in l pre) as Hbi. pose proof (cur_in l post) as Hci.
  assert (before_cur l pre <> x) by (intros E; apply (D _ Hbi); rewrite E; by left).
  assert (cur l post <> x) by (intros E; rewrite E in Hci; done).
  assert (cur l post <> head_of l).
  { intros E. apply (D (head_of l)); [by left|]. rewrite <- E. by right. }
  assert (before_cur l pre <> tail_of l).
  { intros E. apply (D (tail_of l)); [by rewrite <- E|right; apply tail_in_r]. }
  pose proof (proj1 Hax) as Hxz. pose proof (proj1 Hap) as Hpz. pose proof (proj1 Hac) as Hcz.
  unfold list_remove. mrun Hint. mrun (ASSERT_ok true h eq_refl).
  mrun (get_prev_ok _ _ _ Hxz Hpx). mrun (get_next_ok _ _ _ Hxz Hnx).
  rewrite (bind_ok _ _ _ _ _ (set_next_ok h _ (cur l post) Hpz (proj2 (proj2 Hap)))).
  set (h1 := upd_next h _ _).
  assert (nexts h1 !! x = Some (cur l post)) as Hnx1 by hlookup.
  mrun (get_next_ok _ _ _ Hxz Hnx1). mrun (get_prev_ok h1 _ _ Hxz Hpx).
  rewrite (bind_ok _ _ _ _ _ (set_prev_ok h1 _ (before_cur l pre) Hcz (proj1 (proj2 Hac)))).
  rewrite (get_next_ok _ x (cur l post)) by done.
  eexists. split; [done|]. split; [|split; [subst h1; eauto with dlist|]].
  - rewrite <- nodes_app in Hby. split; [|split; [|split; [|split]]]; [| |hlookup|hlookup|done].
    + rewrite nodes_app. by apply NoDup_drop in Hnd.
    + rewrite nodes_app. clear -Hz. set_solver.
  - eapply frame_trans; [apply frame_upd_next|apply frame_upd_prev]; clear; set_solver.
Qed.

End DList.
