(* ===== verification/DListOps.v ===== *)
(** * Lists: the operations with loops (src/src/lib/kernel/list.c)

    Functional refinement of the pointer programs of [DList]: each one,
    run on a heap that represents a sequence, returns with enough fuel and
    leaves a heap that represents the sequence computed by a reference
    function on Rocq lists. *)

From S2P Require Import Prelude DList.
Import DList.

Module DListOps.

(** ** What a comparison callback promises *)

(** Strict weak orderings, the contract of [list_less_func]. *)
Class StrictWeakOrder {A} (less : A -> A -> bool) : Prop := {
  swo_asym a b : less a b = true -> less b a = false;
  swo_ntrans a b c : less a b = false -> less b c = false -> less a c = false
}.

(** Nondecreasing order, as [is_sorted] checks it on neighbours. *)
Definition nondec {A} (less : A -> A -> bool) (a b : A) : Prop := less b a = false.

Section swo.
Context {A : Type} (less : A -> A -> bool) `{!StrictWeakOrder less}.

Lemma swo_irrefl a : less a a = false.
Proof. destruct (less a a) eqn:E; [|done]. by rewrite (swo_asym a a E) in E. Qed.

Lemma swo_trans a b c : less a b = true -> less b c = true -> less a c = true.
Proof.
  intros Hab Hbc. destruct (less a c) eqn:Hac; [done|].
  pose proof (swo_ntrans a c b Hac (swo_asym _ _ Hbc)). congruence.
Qed.

Lemma swo_lt_le a b c : less a b = true -> less c b = false -> less a c = true.
Proof.
  intros Hab Hcb. destruct (less a c) eqn:Hac; [done|].
  pose proof (swo_ntrans a c b Hac Hcb). congruence.
Qed.

#[export] Instance nondec_trans : Transitive (nondec less).
Proof. intros a b c Hab Hbc. by apply (swo_ntrans c b a). Qed.
End swo.

(** An ordering by a numeric key is a strict weak order, ascending or
    descending: every comparison function of the kernel has this shape. *)
#[export] Instance key_lt_swo {A} (key : A -> Z) : StrictWeakOrder (fun a b => key a <? key b).
Proof. split; intros; rewrite ?Z.ltb_lt, ?Z.ltb_ge in *; lia. Qed.

#[export] Instance key_gt_swo {A} (key : A -> Z) : StrictWeakOrder (fun a b => key a >? key b).
Proof. split; intros; rewrite ?Z.gtb_ltb, ?Z.ltb_lt, ?Z.ltb_ge in *; lia. Qed.

(** ** Reference functions *)

Section reference.
Context {A : Type} (less : A -> A -> bool).

Fixpoint insert_ordered (x : A) (xs : list A) : list A :=
  match xs with
  | [] => [x]
  | y :: ys => if less x y then x :: y :: ys else y :: insert_ordered x ys
  end.

(** The kept elements after [e], and the removed duplicates. *)
Fixpoint unique_after (e : A) (xs : list A) : list A * list A :=
  match xs with
  | [] => ([], [])
  | y :: ys =>
      if negb (less e y) && negb (less y e)
      then let '(k, d) := unique_after e ys in (k, y :: d)
      else let '(k, d) := unique_after y ys in (y :: k, d)
  end.

Definition max_from (m : A) (xs : list A) : A :=
  fold_left (fun m e => if less m e then e else m) xs m.

Definition min_from (m : A) (xs : list A) : A :=
  fold_left (fun m e => if less e m then e else m) xs m.

Lemma insert_ordered_perm x xs : insert_ordered x xs ≡ₚ x :: xs.
Proof.
  induction xs as [|y ys IH]; simpl; [done|]. destruct (less x y); [done|].
  rewrite IH. apply Permutation_swap.
Qed.

Lemma insert_ordered_split x xs :
  exists pre post, xs = pre ++ post /\ insert_ordered x xs = pre ++ x :: post /\
    Forall (fun y => less x y = false) pre /\
    match post with [] => True | y :: _ => less x y = true end.
Proof.
  induction xs as [|y ys (pre & post & -> & Hi & Hp & Hq)]; simpl.
  - by exists [], [].
  - destruct (less x y) eqn:E; [by exists [], (y :: pre ++ post)|].
    exists (y :: pre), post. rewrite Hi. auto.
Qed.

Lemma insert_ordered_sorted `{!StrictWeakOrder less} x xs :
  Sorted (nondec less) xs -> Sorted (nondec less) (insert_ordered x xs).
Proof.
  induction 1 as [|y ys Hs IH Hhd]; simpl; [by repeat constructor|].
  destruct (less x y) eqn:E.
  - constructor; [by constructor|]. constructor. by apply swo_asym.
  - constructor; [done|]. destruct ys as [|z ys]; simpl.
    + by constructor.
    + destruct (less x z); constructor; [done|]. by inversion Hhd.
Qed.

Lemma max_from_first `{!StrictWeakOrder less} m xs :
  exists pre post, m :: xs = pre ++ max_from m xs :: post /\
    Forall (fun y => less (max_from m xs) y = false) (m :: xs) /\
    Forall (fun y => less y (max_from m xs) = true) pre.
Proof.
  revert m. induction xs as [|x xs IH]; intros m; simpl.
  { exists [], []. repeat constructor. by apply swo_irrefl. }
  destruct (less m x) eqn:E.
  - destruct (IH x) as (pre & post & Hx & Hmax & Hpre). exists (m :: pre), post.
    split; [simpl; by f_equal|]. inversion Hmax as [|? ? Hx' Hxs]; subst.
    split; constructor; try done.
    + apply (swo_ntrans _ x); [done|]. by apply swo_asym.
    + by apply (swo_lt_le less m x).
  - destruct (IH m) as (pre & post & Hx & Hmax & Hpre).
    change (fold_left _ xs m) with (max_from m xs). remember (max_from m xs) as M eqn:EM.
    inversion Hmax as [|? ? Hm Hxs]; subst.
    destruct pre as [|m' pre]; injection Hx as Hx1 Hx2.
    + exists [], (x :: xs). rewrite <- Hx1 in *. by repeat constructor.
    + subst m'. rename m into m'. inversion Hpre as [|? ? Hm' Hpre']; subst.
      assert (less x (max_from m' xs) = true) as HxM.
      { destruct (less x (max_from m' xs)) eqn:F; [done|].
        pose proof (swo_ntrans _ _ _ E F). congruence. }
      exists (m' :: x :: pre), post. split; [simpl; by rewrite <- Hx2|].
      pose proof (swo_asym _ _ HxM). by repeat constructor.
Qed.

End reference.

(** ** Pushing, popping and counting *)

(** An element that can be pushed: allocated and in no node of the list. *)
Definition fresh_for (h : heap) (l : Z) (xs : list Z) (e : Z) : Prop :=
  allocated h e /\ e ∉ nodes l xs.

Lemma nodes_ends_in l pre post :
  [before_cur l pre; cur l post] ⊆ nodes l (pre ++ post).
Proof.
  rewrite nodes_app. pose proof (before_cur_in l pre). pose proof (cur_in l post).
  clear -H H0. set_solver.
Qed.

Lemma nodes_middle l pre y post : nodes l (pre ++ y :: post) ≡ₚ y :: nodes l (pre ++ post).
Proof. rewrite !nodes_app. symmetry. apply Permutation_middle. Qed.

Lemma frame_at_cursor h h' l pre post e :
  frame h h' [e; before_cur l pre; cur l post] -> frame h h' (e :: nodes l (pre ++ post)).
Proof.
  apply frame_weaken. pose proof (nodes_ends_in l pre post). clear -H. set_solver.
Qed.

Lemma list_push_back_ok h l xs e :
  is_list h l xs -> fresh_for h l xs e ->
  exists h', list_push_back l e h = Ok (tt, h') /\ is_list h' l (xs ++ [e]) /\
    frame h h' (e :: nodes l xs).
Proof.
  intros Hl [Ha He]. unfold list_push_back. mrun (list_end_ok _ _ _ Hl).
  assert (is_list h l (xs ++ [])) as Hl' by by rewrite app_nil_r.
  rewrite <- (app_nil_r xs) in He.
  destruct (list_insert_spec h l xs [] e Hl' He Ha) as (h' & Hr & Hl2 & Hf).
  exists h'. split; [done|]. split; [done|]. apply frame_at_cursor in Hf.
  by rewrite app_nil_r in Hf.
Qed.

Lemma list_push_front_ok h l xs e :
  is_list h l xs -> fresh_for h l xs e ->
  exists h', list_push_front l e h = Ok (tt, h') /\ is_list h' l (e :: xs) /\
    frame h h' (e :: nodes l xs).
Proof.
  intros Hl [Ha He]. unfold list_push_front. mrun (list_begin_ok _ _ _ Hl).
  destruct (list_insert_spec h l [] xs e Hl He Ha) as (h' & Hr & Hl2 & Hf).
  exists h'. split; [done|]. split; [done|]. by apply (frame_at_cursor _ _ l []).
Qed.

Lemma list_front_ok h l x xs : is_list h l (x :: xs) -> list_front l h = Ok (x, h).
Proof.
  intros Hl. unfold list_front. mrun (list_empty_ok _ _ _ Hl).
  destruct (is_list_cursor h l [] (x :: xs) Hl) as [Hb _ _ Hn _ _ _].
  mrun (ASSERT_ok true h eq_refl). by apply get_next_ok.
Qed.

Lemma list_back_ok h l xs x : is_list h l (xs ++ [x]) -> list_back l h = Ok (x, h).
Proof.
  intros Hl. unfold list_back. mrun (list_empty_ok _ _ _ Hl).
  assert (is_list h l ((xs ++ [x]) ++ [])) as Hl' by by rewrite app_nil_r.
  destruct (is_list_cursor h l (xs ++ [x]) [] Hl') as [_ Hc _ _ Hp _ _].
  rewrite before_cur_snoc in Hp.
  rewrite (bind_ok _ _ _ tt h) by (by destruct xs). by apply get_prev_ok.
Qed.

Lemma list_pop_front_ok h l x xs :
  is_list h l (x :: xs) ->
  exists h', list_pop_front l h = Ok (x, h') /\ is_list h' l xs /\ allocated h' x /\
    frame h h' (nodes l xs).
Proof.
  intros Hl. unfold list_pop_front. mrun (list_front_ok _ _ _ _ Hl).
  destruct (list_remove_spec h l [] x xs Hl) as (h' & Hr & Hl2 & Ha & Hf).
  mrun Hr. exists h'. split; [done|]. split; [done|]. split; [done|].
  eapply frame_weaken, Hf. apply (nodes_ends_in l [] xs).
Qed.

Lemma list_pop_back_ok h l xs x :
  is_list h l (xs ++ [x]) ->
  exists h', list_pop_back l h = Ok (x, h') /\ is_list h' l xs /\ allocated h' x /\
    frame h h' (nodes l xs).
Proof.
  intros Hl. unfold list_pop_back. mrun (list_back_ok _ _ _ _ Hl).
  destruct (list_remove_spec h l xs x [] Hl) as (h' & Hr & Hl2 & Ha & Hf).
  mrun Hr. exists h'. rewrite app_nil_r in Hl2.
  split; [done|]. split; [done|]. split; [done|].
  eapply frame_weaken, Hf. pose proof (nodes_ends_in l xs []) as Hn.
  by rewrite app_nil_r in Hn.
Qed.

Lemma u32_add_l a b : u32 (u32 a + b) = u32 (a + b).
Proof. unfold u32. apply Zplus_mod_idemp_l. Qed.

Lemma list_size_loop_ok fuel h l pre post cnt :
  is_list h l (pre ++ post) -> (length post < fuel)%nat -> in_u32 cnt ->
  list_size_loop fuel l (cur l post) cnt h = Ok (u32 (cnt + Z.of_nat (length post)), h).
Proof.
  revert pre post cnt. induction fuel as [|fuel IH]; intros pre post cnt Hl Hf Hc; [lia|].
  simpl. mrun (list_end_ok _ _ _ Hl). rewrite (cur_at_end _ _ _ _ Hl).
  destruct post as [|x post]; simpl in *.
  - rewrite Z.add_0_r. unfold u32. rewrite Z.mod_small by (unfold in_u32 in Hc; lia). done.
  - mrun (list_next_elem _ _ _ _ _ Hl).
    rewrite (IH (pre ++ [x])); [|by rewrite <- app_assoc|lia|].
    + rewrite u32_add_l. do 3 f_equal. lia.
    + unfold in_u32, u32. by apply Z.mod_pos_bound.
Qed.

Lemma list_size_ok fuel h l xs :
  is_list h l xs -> (length xs < fuel)%nat ->
  list_size fuel l h = Ok (u32 (Z.of_nat (length xs)), h).
Proof.
  intros Hl Hf. unfold list_size. mrun (list_begin_ok _ _ _ Hl).
  by apply (list_size_loop_ok fuel h l [] xs 0).
Qed.

(** ** Ordered insertion *)

Section with_less.
Context (less : Z -> Z -> bool).

Lemma insert_ordered_loop_ok fuel h l pre post e :
  is_list h l (pre ++ post) -> (length post < fuel)%nat ->
  exists p1 p2, post = p1 ++ p2 /\ insert_ordered less e post = p1 ++ e :: p2 /\
    insert_ordered_loop less fuel l (cur l post) e h = Ok (cur l p2, h).
Proof.
  revert pre post. induction fuel as [|fuel IH]; intros pre post Hl Hf; [lia|].
  simpl. destruct post as [|x post]; simpl in *.
  - exists [], []. split; [done|]. split; [done|].
    mrun (list_end_ok _ _ _ Hl). by rewrite Z.eqb_refl.
  - pose proof (cur_at_end _ _ _ _ Hl) as Hx. simpl in Hx.
    destruct (less e x) eqn:E.
    + exists [], (x :: post). split; [done|]. split; [done|].
      mrun (list_end_ok _ _ _ Hl). by rewrite Hx.
    + destruct (IH (pre ++ [x]) post) as (p1 & p2 & -> & Hi & Hr);
        [by rewrite <- app_assoc|lia|].
      exists (x :: p1), p2. rewrite Hi. split; [done|]. split; [done|].
      mrun (list_end_ok _ _ _ Hl). rewrite Hx.
      mrun (list_next_elem _ _ _ _ _ Hl). done.
Qed.

Lemma list_insert_ordered_refines fuel h l xs e :
  is_list h l xs -> fresh_for h l xs e -> (length xs < fuel)%nat ->
  exists h', list_insert_ordered less fuel l e h = Ok (tt, h') /\
    is_list h' l (insert_ordered less e xs) /\ frame h h' (e :: nodes l xs).
Proof.
  intros Hl [Ha He] Hf. unfold list_insert_ordered.
  mrun (ASSERT_ok _ h (list_nonnull _ _ _ Hl)).
  mrun (ASSERT_ok (negb (e =? NULL)) h ltac:(by apply negb_true_iff, Z.eqb_neq, Ha)).
  mrun (list_begin_ok _ _ _ Hl).
  destruct (insert_ordered_loop_ok fuel h l [] xs e Hl Hf) as (p1 & p2 & -> & Hi & Hr).
  mrun Hr. destruct (list_insert_spec h l p1 p2 e Hl He Ha) as (h' & Hr' & Hl' & Hfr).
  exists h'. rewrite Hi. split; [done|]. split; [done|]. by apply frame_at_cursor.
Qed.

(** ** Maximum and minimum *)

Lemma list_max_loop_ok fuel h l pre post m :
  is_list h l (pre ++ post) -> (length post < fuel)%nat ->
  list_max_loop less fuel l (cur l post) m h = Ok (max_from less m post, h).
Proof.
  revert pre post m. induction fuel as [|fuel IH]; intros pre post m Hl Hf; [lia|].
  simpl. mrun (list_end_ok _ _ _ Hl). rewrite (cur_at_end _ _ _ _ Hl).
  destruct post as [|x post]; simpl in *; [done|].
  mrun (list_next_elem _ _ _ _ _ Hl). rewrite (IH (pre ++ [x])); [done| |lia].
  by rewrite <- app_assoc.
Qed.

Lemma list_max_refines fuel h l x xs :
  is_list h l (x :: xs) -> (length xs < fuel)%nat ->
  list_max less fuel l h = Ok (max_from less x xs, h).
Proof.
  intros Hl Hf. unfold list_max. mrun (list_begin_ok _ _ _ Hl). mrun (list_end_ok _ _ _ Hl).
  rewrite (cur_at_end h l [] (x :: xs) Hl). cbn [negb].
  mrun (list_next_elem h l [] x xs Hl). by apply (list_max_loop_ok fuel h l [x] xs).
Qed.

Lemma list_min_loop_ok fuel h l pre post m :
  is_list h l (pre ++ post) -> (length post < fuel)%nat ->
  list_min_loop less fuel l (cur l post) m h = Ok (min_from less m post, h).
Proof.
  revert pre post m. induction fuel as [|fuel IH]; intros pre post m Hl Hf; [lia|].
  simpl. mrun (list_end_ok _ _ _ Hl). rewrite (cur_at_end _ _ _ _ Hl).
  destruct post as [|x post]; simpl in *; [done|].
  mrun (list_next_elem _ _ _ _ _ Hl). rewrite (IH (pre ++ [x])); [done| |lia].
  by rewrite <- app_assoc.
Qed.

Lemma list_min_refines fuel h l x xs :
  is_list h l (x :: xs) -> (length xs < fuel)%nat ->
  list_min less fuel l h = Ok (min_from less x xs, h).
Proof.
  intros Hl Hf. unfold list_min. mrun (list_begin_ok _ _ _ Hl). mrun (list_end_ok _ _ _ Hl).
  rewrite (cur_at_end h l [] (x :: xs) Hl). cbn [negb].
  mrun (list_next_elem h l [] x xs Hl). by apply (list_min_loop_ok fuel h l [x] xs).
Qed.

(** ** Removing adjacent duplicates *)

(** [dup] is null, or a list of [ds] that shares no node with [l]. *)
Definition dup_list (h : heap) (l : Z) (xs : list Z) (dup : Z) (ds : list Z) : Prop :=
  dup <> NULL -> is_list h dup ds /\ (forall a, a ∈ nodes l xs -> a ∉ nodes dup ds).

Lemma list_unique_step h l pre e y post dup ds :
  is_list h l (pre ++ e :: y :: post) -> dup_list h l (pre ++ e :: y :: post) dup ds ->
  exists h1 r h2, list_remove y h = Ok (r, h1) /\
    (if negb (dup =? NULL) then list_push_back dup y else ret tt) h1 = Ok (tt, h2) /\
    is_list h2 l (pre ++ e :: post) /\ dup_list h2 l (pre ++ e :: post) dup (ds ++ [y]).
Proof.
  intros Hl Hd.
  assert (is_list h l ((pre ++ [e]) ++ y :: post)) as Hl' by by rewrite <- app_assoc.
  destruct (list_remove_spec h l (pre ++ [e]) y post Hl') as (h1 & Hr & Hl1 & Ha & Hf).
  rewrite <- app_assoc in Hl1. simpl in Hl1.
  assert (y ∉ nodes l (pre ++ e :: post)) as Hy.
  { destruct Hl' as (Hnd & _). rewrite nodes_middle in Hnd.
    apply NoDup_cons in Hnd as [Hy _]. by rewrite <- app_assoc in Hy. }
  exists h1, (cur l post). destruct (Z.eqb_spec dup NULL) as [->|Hne]; simpl.
  { exists h1. split; [done|]. split; [done|]. split; [done|]. by intros []. }
  destruct (Hd Hne) as [Hdl Hdj].
  assert (nodes l (pre ++ e :: y :: post) ≡ₚ y :: nodes l (pre ++ e :: post)) as Hperm.
  { replace (pre ++ e :: y :: post) with ((pre ++ [e]) ++ y :: post) by by rewrite <- app_assoc.
    replace (pre ++ e :: post) with ((pre ++ [e]) ++ post) by by rewrite <- app_assoc.
    apply nodes_middle. }
  assert (forall a, a ∈ y :: nodes l (pre ++ e :: post) -> a ∉ nodes dup ds) as Hdj1.
  { intros a. rewrite <- Hperm. apply Hdj. }
  pose proof (nodes_ends_in l (pre ++ [e]) post) as Hsub.
  rewrite <- app_assoc in Hsub. simpl in Hsub.
  assert (is_list h1 dup ds) as Hdl1.
  { eapply is_list_frame, Hdl; [exact Hf|]. intros a Ha1 Ha2.
    apply (Hdj1 a); [right; by apply Hsub|done]. }
  destruct (list_push_back_ok h1 dup ds y Hdl1) as (h2 & Hr2 & Hdl2 & Hf2).
  { split; [done|]. apply Hdj1. by left. }
  exists h2. split; [done|]. split; [done|].
  assert (forall a, a ∈ nodes l (pre ++ e :: post) -> a ∉ y :: nodes dup ds) as Hdj2.
  { intros a Ha1 [->|Ha2]%elem_of_cons; [done|]. apply (Hdj1 a); [by right|done]. }
  split; [by eapply is_list_frame|]. intros _. split; [done|].
  intros a Ha1 Ha2. apply (Hdj2 a Ha1). revert Ha2. clear. unfold nodes. set_solver.
Qed.

Lemma list_unique_loop_ok fuel h l pre e post dup ds :
  is_list h l (pre ++ e :: post) -> dup_list h l (pre ++ e :: post) dup ds ->
  (length post < fuel)%nat ->
  exists h', list_unique_loop less fuel l dup e h = Ok (tt, h') /\
    is_list h' l (pre ++ e :: (unique_after less e post).1) /\
    dup_list h' l (pre ++ e :: (unique_after less e post).1) dup
      (ds ++ (unique_after less e post).2).
Proof.
  revert h pre e post ds. induction fuel as [|fuel IH]; intros h pre e post ds Hl Hd Hf; [lia|].
  cbn [list_unique_loop]. mrun (list_next_elem _ _ _ _ _ Hl). mrun (list_end_ok _ _ _ Hl).
  assert (is_list h l ((pre ++ [e]) ++ post)) as Hl' by by rewrite <- app_assoc.
  rewrite (cur_at_end _ _ _ _ Hl').
  destruct post as [|y post]; simpl in *.
  { exists h. rewrite app_nil_r. done. }
  destruct (negb (less e y) && negb (less y e)) eqn:E.
  - destruct (list_unique_step h l pre e y post dup ds Hl Hd) as (h1 & r & h2 & Hr & Hp & Hl2 & Hd2).
    mrun Hr. mrun Hp. destruct (IH h2 pre e post (ds ++ [y])) as (h' & Hr' & Hl3 & Hd3);
      [done|done|lia|].
    exists h'. destruct (unique_after less e post) as [k d]; simpl in *.
    by rewrite <- app_assoc in Hd3.
  - destruct (IH h (pre ++ [e]) y post ds) as (h' & Hr' & Hl3 & Hd3);
      [done|by rewrite <- app_assoc|lia|].
    exists h'. destruct (unique_after less y post) as [k d]; simpl in *.
    by rewrite <- app_assoc in Hl3, Hd3.
Qed.

Lemma list_unique_refines fuel h l x xs dup ds :
  is_list h l (x :: xs) -> dup_list h l (x :: xs) dup ds -> (length xs < fuel)%nat ->
  exists h', list_unique less fuel l dup h = Ok (tt, h') /\
    is_list h' l (x :: (unique_after less x xs).1) /\
    dup_list h' l (x :: (unique_after less x xs).1) dup (ds ++ (unique_after less x xs).2).
Proof.
  intros Hl Hd Hf. unfold list_unique. mrun (ASSERT_ok _ h (list_nonnull _ _ _ Hl)).
  mrun (list_empty_ok _ _ _ Hl). mrun (list_begin_ok _ _ _ Hl).
  by apply (list_unique_loop_ok fuel h l [] x xs dup ds).
Qed.

End with_less.

(** ** Reversal *)

Definition swapped_on (h h' : heap) (xs : list Z) : Prop :=
  (forall x, x ∈ xs -> prevs h' !! x = nexts h !! x /\ nexts h' !! x = prevs h !! x) /\
  (forall x, x ∉ xs -> prevs h' !! x = prevs h !! x /\ nexts h' !! x = nexts h !! x).

Lemma swap_links_ok h e p n :
  e <> NULL -> prevs h !! e = Some p -> nexts h !! e = Some n ->
  swap_links e h = Ok (tt, upd_next (upd_prev h e n) e p).
Proof.
  intros He Hp Hn. unfold swap_links. mrun (get_prev_ok _ _ _ He Hp).
  mrun (get_next_ok _ _ _ He Hn).
  rewrite (bind_ok _ _ _ _ _ (set_prev_ok h e n He ltac:(by eexists))).
  apply set_next_ok; [done|by eexists].
Qed.

(** The loop, from a heap that agrees with [h0] on the elements ahead. *)
Lemma list_reverse_loop_ok fuel h0 h l pre post :
  is_list h0 l (pre ++ post) -> (length post < fuel)%nat ->
  (forall x, x ∈ post -> prevs h !! x = prevs h0 !! x /\ nexts h !! x = nexts h0 !! x) ->
  exists h', list_reverse_loop fuel l (cur l post) h = Ok (tt, h') /\
    (forall x, x ∈ post -> prevs h' !! x = nexts h0 !! x /\ nexts h' !! x = prevs h0 !! x) /\
    (forall x, x ∉ post -> prevs h' !! x = prevs h !! x /\ nexts h' !! x = nexts h !! x).
Proof.
  revert h pre post. induction fuel as [|fuel IH]; intros h pre post Hl Hf Hag; [lia|].
  cbn [list_reverse_loop].
  assert (list_end l h = Ok (tail_of l, h)) as Hend
    by (unfold list_end; by rewrite (list_nonnull _ _ _ Hl)).
  mrun Hend. rewrite (cur_at_end _ _ _ _ Hl).
  destruct post as [|x post]; simpl in *.
  { exists h. split; [done|]. split; [set_solver|done]. }
  assert (is_list h0 l (pre ++ [x] ++ post)) as Hl1 by done.
  destruct (interior_links h0 l pre [x] post x x Hl1 eq_refl eq_refl)
    as ([_ Hp] & [Hn _] & (Hxz & _ & _) & _).
  assert (is_list h0 l ((pre ++ [x]) ++ post)) as Hl2 by by rewrite <- app_assoc.
  assert (x ∉ post) as Hxn.
  { destruct Hl as (Hnd & _). rewrite nodes_app in Hnd.
    apply NoDup_app in Hnd as (_ & _ & Hnd). apply NoDup_cons in Hnd as [? _]. set_solver. }
  destruct (Hag x) as [Hp' Hn']; [by left|]. rewrite Hp in Hp'. rewrite Hn in Hn'.
  mrun (swap_links_ok h x _ _ Hxz Hp' Hn').
  set (h1 := upd_next _ _ _).
  assert (prevs h1 !! x = Some (cur l post)) as Hg by (simpl; apply lookup_insert_eq).
  mrun (get_prev_ok _ _ _ Hxz Hg).
  destruct (IH h1 (pre ++ [x]) post Hl2) as (h' & Hr & Hin & Hout); [lia| |].
  { intros y Hy. simpl. rewrite !lookup_insert_ne by (by intros ->). apply Hag. by right. }
  exists h'. split; [done|]. split.
  - intros y [->|Hy]%elem_of_cons; [|by apply Hin].
    destruct (Hout x Hxn) as [-> ->]. simpl. by rewrite !lookup_insert_eq, Hp, Hn.
  - intros y [Hyx Hy]%not_elem_of_cons. destruct (Hout y Hy) as [-> ->]. simpl.
    by rewrite !lookup_insert_ne.
Qed.

Lemma linked_reverse h h' xs :
  (forall x, x ∈ xs -> prevs h' !! x = nexts h !! x /\ nexts h' !! x = prevs h !! x) ->
  linked h xs -> linked h' (reverse xs).
Proof.
  induction xs as [|a xs IH]; [done|]. intros Hsw Hl. rewrite reverse_cons.
  destruct xs as [|b xs]; [done|]. destruct Hl as [[Hn Hp] Hl].
  apply (linked_app _ _ _ b a); [by rewrite reverse_cons, last_snoc|done|].
  split; [apply IH; [set_solver|done]|]. split; [|done].
  split.
  - by rewrite (proj2 (Hsw b ltac:(set_solver))).
  - by rewrite (proj1 (Hsw a ltac:(set_solver))).
Qed.

(** The end of [list_reverse]: the two swaps at the ends of the list. *)
Lemma linked_close h l xs x1 xn :
  NoDup (nodes l xs) -> head xs = Some x1 -> last xs = Some xn -> linked h (reverse xs) ->
  linked (upd_next (upd_prev (upd_prev (upd_next h (head_of l) xn) (tail_of l) x1)
            xn (head_of l)) x1 (tail_of l)) (nodes l (reverse xs)).
Proof.
  intros Hnd H1 Hn Hl. unfold nodes in *.
  assert (head (reverse xs) = Some xn) as Hh
    by by rewrite <- last_reverse, reverse_involutive.
  assert (last (reverse xs) = Some x1) as Ht by by rewrite last_reverse.
  apply NoDup_cons in Hnd as [Hhn Hnd]. apply NoDup_app in Hnd as (Ndx & Dt & _).
  apply not_elem_of_app in Hhn as [Hhx Hht].
  assert (head_of l <> tail_of l) by set_solver.
  assert (tail_of l ∉ xs) as Htx by (intros E; apply (Dt _ E); set_solver).
  pose proof (head_Some_elem_of _ _ H1). pose proof (last_Some_elem_of _ _ Hn).
  assert (x1 <> head_of l) by (intros ->; done). assert (xn <> tail_of l) by (intros ->; done).
  assert (x1 <> tail_of l) by (intros ->; done). assert (xn <> head_of l) by (intros ->; done).
  change (head_of l :: reverse xs ++ [tail_of l])
    with ([head_of l] ++ (reverse xs ++ [tail_of l])).
  rewrite (linked_app _ [head_of l] _ (head_of l) xn); [|done|by destruct (reverse xs)].
  rewrite (linked_app _ (reverse xs) [tail_of l] x1 (tail_of l)) by done.
  split; [done|]. split; [split; hlookup|]. split; [|split; [split; hlookup|done]].
  assert (NoDup (reverse xs)) by by rewrite reverse_Permutation.
  assert (head_of l ∉ reverse xs) by by rewrite reverse_Permutation.
  assert (tail_of l ∉ reverse xs) by by rewrite reverse_Permutation.
  relink.
Qed.

(** The last lines of [list_reverse], given what the loop left behind. *)
Definition reverse_ends (list : Z) : M heap unit :=
  hn <- get_next (head_of list) ;; tp <- get_prev (tail_of list) ;;
  set_next (head_of list) tp ;;; set_prev (tail_of list) hn ;;;
  first <- get_next (head_of list) ;; last <- get_prev (tail_of list) ;;
  fp <- get_prev first ;; ln <- get_next last ;;
  set_prev first ln ;;; set_next last fp.

Lemma reverse_ends_ok h l x1 xn a b :
  head_of l <> NULL -> tail_of l <> NULL -> x1 <> NULL -> xn <> NULL ->
  xn <> tail_of l -> x1 <> head_of l ->
  nexts h !! head_of l = Some x1 -> prevs h !! tail_of l = Some xn ->
  prevs h !! xn = Some b -> nexts h !! x1 = Some a ->
  reverse_ends l h = Ok (tt,
    upd_next (upd_prev (upd_prev (upd_next h (head_of l) xn) (tail_of l) x1) xn a) x1 b).
Proof.
  intros Hh Ht H1 Hn ?? Hnh Hpt Hpn Hn1. unfold reverse_ends.
  mrun (get_next_ok _ _ _ Hh Hnh). mrun (get_prev_ok _ _ _ Ht Hpt).
  rewrite (bind_ok _ _ _ _ _ (set_next_ok h _ xn Hh ltac:(by eexists))).
  rewrite (bind_ok _ _ _ _ _ (set_prev_ok (upd_next h (head_of l) xn) _ x1 Ht ltac:(by eexists))).
  set (h2 := upd_prev _ _ _).
  assert (nexts h2 !! head_of l = Some xn) as E1 by hlookup.
  assert (prevs h2 !! tail_of l = Some x1) as E2 by hlookup.
  assert (prevs h2 !! xn = Some b) as E3 by hlookup.
  assert (nexts h2 !! x1 = Some a) as E4 by hlookup.
  mrun (get_next_ok _ _ _ Hh E1). mrun (get_prev_ok _ _ _ Ht E2).
  mrun (get_prev_ok _ _ _ Hn E3). mrun (get_next_ok _ _ _ H1 E4).
  rewrite (bind_ok _ _ _ _ _ (set_prev_ok h2 xn a Hn ltac:(by eexists))).
  apply set_next_ok; [done|]. by eexists.
Qed.

Lemma list_reverse_ok fuel h l xs :
  is_list h l xs -> (length xs < fuel)%nat ->
  exists h', list_reverse fuel l h = Ok (tt, h') /\ is_list h' l (reverse xs).
Proof.
  intros Hl Hf. unfold list_reverse. mrun (list_empty_ok _ _ _ Hl).
  destruct xs as [|x1 xs']; [by exists h|]. remember (x1 :: xs') as xs eqn:Exs.
  assert (head xs = Some x1) as H1 by by subst.
  destruct (last_is_Some xs) as [xn Hn]; [by subst|]. clear Exs xs'.
  mrun (list_begin_ok _ _ _ Hl).
  destruct (list_reverse_loop_ok fuel h h l [] xs Hl Hf) as (h1 & Hr & Hin & Hout); [done|].
  assert (is_list h l ([] ++ xs ++ [])) as Hl0 by by rewrite app_nil_r.
  destruct (interior_links h l [] xs [] x1 xn Hl0 H1 Hn)
    as ([Hnh Hp1] & [Hnn Hpt] & (Hz1 & _) & (Hzn & _)).
  mrun Hr. change (exists h', reverse_ends l h1 = Ok (tt, h') /\ is_list h' l (reverse xs)).
  pose proof (proj1 (is_list_alloc h l xs (head_of l) Hl ltac:(by left))) as Hhz.
  pose proof (proj1 (is_list_alloc h l xs (tail_of l) Hl ltac:(right; apply tail_in_r))) as Htz.
  destruct Hl as (Hnd & Hz & Hph & Hnt & Hlk).
  pose proof (head_Some_elem_of _ _ H1) as Hi1. pose proof (last_Some_elem_of _ _ Hn) as Hin'.
  pose proof Hnd as [Hhx (Ndx & Dt & _)%NoDup_app]%NoDup_cons.
  apply not_elem_of_app in Hhx as [Hhx Hht].
  assert (tail_of l ∉ xs) as Htx by (intros E; apply (Dt _ E); by left).
  destruct (Hin xn Hin') as [Epn _]. destruct (Hin x1 Hi1) as [_ En1].
  destruct (Hout _ Hhx) as [Eph Enh]. destruct (Hout _ Htx) as [Ept Ent].
  assert (xn <> tail_of l) by (intros ->; done). assert (x1 <> head_of l) by (intros ->; done).
  assert (xn <> head_of l) by (intros ->; done). assert (x1 <> tail_of l) by (intros ->; done).
  assert (head_of l <> tail_of l) by (intros E; apply Hht; rewrite E; by left).
  rewrite (reverse_ends_ok h1 l x1 xn (head_of l) (tail_of l)); try done; try congruence.
  2: by rewrite Enh.
  2: by rewrite Ept.
  2: by rewrite Epn.
  2: by rewrite En1.
  eexists. split; [done|]. unfold is_list.
  assert (nodes l (reverse xs) ≡ₚ nodes l xs) as Hperm
    by (unfold nodes; by rewrite reverse_Permutation).
  split; [by rewrite Hperm|]. split; [by rewrite Hperm|].
  split; [hlookup; congruence|]. split; [hlookup; congruence|].
  apply linked_close; try done. apply (linked_reverse h); [done|].
  change (linked h (([head_of l] ++ xs) ++ [tail_of l])) in Hlk.
  rewrite (linked_app _ _ _ xn (tail_of l)) in Hlk; [|by rewrite last_app, Hn|done].
  rewrite (linked_app _ _ _ (head_of l) x1) in Hlk by done. by apply Hlk.
Qed.

End DListOps.
