(* ===== verification/DListSort.v ===== *)
(** * Lists: the natural merge sort (src/src/lib/kernel/list.c, [list_sort])

    First the reference algorithm on Rocq lists (runs, merging, one pass),
    then the refinement: the pointer program computes it, terminates, and
    its result is the stable sort of the input. *)

From S2P Require Import Prelude DList DListOps.
Import DList DListOps.

Module DListSort.

Section reference.
Context (less : Z -> Z -> bool).

(** The rest of the maximal nondecreasing run that starts at [x]. *)
Fixpoint take_run (x : Z) (xs : list Z) : list Z * list Z :=
  match xs with
  | [] => ([], [])
  | y :: ys =>
      if less y x then ([], y :: ys)
      else let '(r, rest) := take_run y ys in (y :: r, rest)
  end.

Fixpoint merge (A : list Z) : list Z -> list Z :=
  fix merge_A (B : list Z) : list Z :=
    match A, B with
    | [], _ => B
    | _, [] => A
    | a :: A', b :: B' => if less b a then b :: merge_A B' else a :: merge A' B
    end.

(** Number of maximal nondecreasing runs. *)
Fixpoint runs (xs : list Z) : nat :=
  match xs with
  | [] => 0
  | x :: xs' =>
      match xs' with
      | [] => 1
      | y :: _ => if less y x then S (runs xs') else runs xs'
      end
  end.

(** One pass over a list: its result and the number of output runs. *)
Inductive sort_pass : list Z -> list Z -> nat -> Prop :=
| pass_nil : sort_pass [] [] 0
| pass_one x xs r : take_run x xs = (r, []) -> sort_pass (x :: xs) (x :: xs) 1
| pass_two x xs r y ys r2 rest out c :
    take_run x xs = (r, y :: ys) -> take_run y ys = (r2, rest) -> sort_pass rest out c ->
    sort_pass (x :: xs) (merge (x :: r) (y :: r2) ++ out) (S c).

(** The stable sort, by insertion. *)
Definition stable_sort (xs : list Z) : list Z :=
  fold_left (fun acc x => insert_ordered less x acc) xs [].

Definition equivb (x y : Z) : bool := negb (less x y) && negb (less y x).

Lemma take_run_app x xs r rest : take_run x xs = (r, rest) -> xs = r ++ rest.
Proof.
  revert x r rest. induction xs as [|y ys IH]; intros x r rest; simpl; [by intros [= <- <-]|].
  destruct (less y x); [by intros [= <- <-]|].
  destruct (take_run y ys) as [r' rest'] eqn:E. intros [= <- <-]. simpl. f_equal. eauto.
Qed.

Lemma take_run_sorted x xs r rest :
  take_run x xs = (r, rest) -> Sorted (nondec less) (x :: r).
Proof.
  revert x r rest. induction xs as [|y ys IH]; intros x r rest; simpl.
  { intros [= <- <-]. by repeat constructor. }
  destruct (less y x) eqn:Eyx; [intros [= <- <-]; by repeat constructor|].
  destruct (take_run y ys) as [r' rest'] eqn:E. intros [= <- <-].
  constructor; [by eapply IH|]. by constructor.
Qed.

Lemma runs_take_run x xs r rest : take_run x xs = (r, rest) -> runs (x :: xs) = S (runs rest).
Proof.
  revert x r rest. induction xs as [|y ys IH]; intros x r rest; simpl; [by intros [= <- <-]|].
  destruct (less y x); [by intros [= <- <-]|].
  destruct (take_run y ys) as [r' rest'] eqn:E. intros [= <- <-]. by apply (IH y r').
Qed.

Lemma runs_app A B : (runs (A ++ B) <= runs A + runs B)%nat.
Proof.
  induction A as [|a A IH]; simpl; [done|]. destruct A as [|a' A]; simpl in *.
  - destruct B as [|b B]; simpl; [lia|]. destruct (less b a); simpl; lia.
  - destruct (less a' a); lia.
Qed.

Lemma sorted_runs A : Sorted (nondec less) A -> (runs A <= 1)%nat.
Proof.
  induction 1 as [|a A Hs IH Hhd]; simpl; [lia|]. destruct A as [|b A]; [done|].
  inversion Hhd as [|? ? Hba]; subst. unfold nondec in Hba. by rewrite Hba.
Qed.

Lemma runs_le1_sorted A : (runs A <= 1)%nat -> Sorted (nondec less) A.
Proof.
  induction A as [|a A IH]; intros Hr; [constructor|]. destruct A as [|b A]; [by repeat constructor|].
  simpl in Hr. destruct (less b a) eqn:E.
  - exfalso. assert (1 <= runs (b :: A))%nat; [|simpl in *; lia].
    clear. revert b. induction A as [|c A IH]; intros b; [done|].
    specialize (IH c). change (runs (b :: c :: A)) with
      (if less c b then S (runs (c :: A)) else runs (c :: A)). destruct (less c b); lia.
  - constructor; [apply IH; done|]. by constructor.
Qed.

Lemma runs_le_length A : (runs A <= length A)%nat.
Proof.
  induction A as [|a A IH]; simpl; [done|]. destruct A as [|b A]; simpl in *; [lia|].
  destruct (less b a); lia.
Qed.

Lemma merge_nil_r A : merge A [] = A.
Proof. by destruct A. Qed.

Lemma merge_cons a A b B :
  merge (a :: A) (b :: B) = if less b a then b :: merge (a :: A) B else a :: merge A (b :: B).
Proof. done. Qed.

Lemma merge_perm A B : merge A B ≡ₚ A ++ B.
Proof.
  revert B. induction A as [|a A IHA]; intros B; [by destruct B|].
  induction B as [|b B IHB]; [by rewrite merge_nil_r, app_nil_r|].
  rewrite merge_cons. destruct (less b a).
  - rewrite IHB. by rewrite Permutation_middle.
  - by rewrite IHA.
Qed.

Lemma merge_sorted `{!StrictWeakOrder less} A B :
  Sorted (nondec less) A -> Sorted (nondec less) B -> Sorted (nondec less) (merge A B).
Proof.
  intros HA. revert B. induction HA as [|a A HA IHA Ha]; intros B HB; [by destruct B|].
  induction HB as [|b B HB IHB Hb]; [rewrite merge_nil_r; by constructor|].
  rewrite merge_cons. destruct (less b a) eqn:E.
  - constructor; [done|]. destruct B as [|b' B]; [rewrite merge_nil_r|rewrite merge_cons].
    + constructor. by apply swo_asym.
    + inversion Hb; subst. destruct (less b' a); constructor; [done|by apply swo_asym].
  - constructor; [apply IHA; by constructor|].
    destruct A as [|a' A]; [by constructor|]. rewrite merge_cons.
    inversion Ha; subst. by destruct (less b a'); constructor.
Qed.

Lemma sort_pass_perm xs out c : sort_pass xs out c -> out ≡ₚ xs.
Proof.
  induction 1 as [|x xs r Hr|x xs r y ys r2 rest out c H1 H2 _ IH]; [done|done|].
  rewrite merge_perm, IH. apply take_run_app in H1, H2. subst. simpl.
  by rewrite <- app_assoc.
Qed.

(** The count of a pass halves the number of runs, and bounds the runs of
    its output. *)
Lemma sort_pass_count xs out c : sort_pass xs out c -> (2 * c <= runs xs + 1)%nat.
Proof.
  induction 1 as [|x xs r Hr|x xs r y ys r2 rest out c H1 H2 _ IH]; [simpl; lia| |].
  - rewrite (runs_take_run _ _ _ _ Hr). simpl. lia.
  - rewrite (runs_take_run _ _ _ _ H1), (runs_take_run _ _ _ _ H2). lia.
Qed.

Lemma sort_pass_runs `{!StrictWeakOrder less} xs out c :
  sort_pass xs out c -> (runs out <= c)%nat.
Proof.
  induction 1 as [|x xs r Hr|x xs r y ys r2 rest out c H1 H2 _ IH]; [done| |].
  - rewrite (runs_take_run _ _ _ _ Hr). simpl. lia.
  - rewrite runs_app.
    apply take_run_sorted in H1, H2.
    pose proof (sorted_runs _ (merge_sorted _ _ H1 H2)). lia.
Qed.

Lemma sort_pass_length xs out c : sort_pass xs out c -> length out = length xs.
Proof. intros H. by rewrite (sort_pass_perm _ _ _ H). Qed.

(** *** Stability *)

Definition class_of (x : Z) (xs : list Z) : list Z := List.filter (equivb x) xs.

Lemma class_of_app x xs ys : class_of x (xs ++ ys) = class_of x xs ++ class_of x ys.
Proof. apply List.filter_app. Qed.

Lemma sorted_strong `{!StrictWeakOrder less} xs :
  Sorted (nondec less) xs -> StronglySorted (nondec less) xs.
Proof. apply Sorted_StronglySorted. intros a b c. apply (nondec_trans less). Qed.

(** Everything in a sorted list that starts above [b] is above [b]. *)
Lemma class_of_above `{!StrictWeakOrder less} x b A :
  equivb x b = true -> Sorted (nondec less) A ->
  match A with [] => True | a :: _ => less b a = true end -> class_of x A = [].
Proof.
  intros Hxb HA Hhd. apply sorted_strong in HA.
  assert (Forall (fun a => less b a = true) A) as Hall.
  { destruct HA as [|a A HA Ha]; constructor; [done|].
    eapply Forall_impl; [exact Ha|]. intros a' Haa'. by apply (swo_lt_le less b a a'). }
  clear -Hxb Hall StrictWeakOrder0. induction Hall as [|a A Hba _ IH]; [done|]. simpl.
  unfold equivb in *. apply andb_true_iff in Hxb as [H1%negb_true_iff H2%negb_true_iff].
  assert (less x a = true) as ->; [|done].
  destruct (less x a) eqn:E; [done|].
  pose proof (swo_ntrans b x a H2 E). congruence.
Qed.

Lemma merge_class `{!StrictWeakOrder less} x A B :
  Sorted (nondec less) A -> class_of x (merge A B) = class_of x A ++ class_of x B.
Proof.
  intros HA. revert B. induction HA as [|a A HA IHA Ha]; intros B; [by destruct B|].
  induction B as [|b B IHB]; [by rewrite merge_nil_r, app_nil_r|].
  rewrite merge_cons. destruct (less b a) eqn:E.
  - cbn [class_of List.filter] in IHB |- *.
    change (List.filter (equivb x) (merge (a :: A) B)) with (class_of x (merge (a :: A) B)).
    destruct (equivb x b) eqn:Eb.
    + assert (class_of x (a :: A) = []) as Hnil
        by (apply (class_of_above x b); [done|by constructor|done]).
      unfold class_of in *. simpl in IHB, Hnil |- *. by rewrite IHB, Hnil.
    + exact IHB.
  - simpl. fold (class_of x (merge A (b :: B))). rewrite IHA.
    by destruct (equivb x a).
Qed.

Lemma sort_pass_class `{!StrictWeakOrder less} x xs out c :
  sort_pass xs out c -> class_of x out = class_of x xs.
Proof.
  induction 1 as [|z xs r Hr|z xs r y ys r2 rest out c H1 H2 _ IH]; [done|done|].
  pose proof (take_run_sorted _ _ _ _ H1) as Hs.
  apply take_run_app in H1, H2. subst.
  change (z :: r ++ y :: r2 ++ rest) with ((z :: r) ++ (y :: r2) ++ rest).
  by rewrite !class_of_app, merge_class, IH, <- app_assoc.
Qed.

Lemma insert_ordered_class `{!StrictWeakOrder less} z x xs :
  Sorted (nondec less) xs ->
  class_of z (insert_ordered less x xs) = class_of z xs ++ class_of z [x].
Proof.
  intros Hs. destruct (insert_ordered_split less x xs) as (pre & post & -> & -> & _ & Hhd).
  rewrite (class_of_app z pre (x :: post)), class_of_app, <- app_assoc. f_equal.
  change (x :: post) with ([x] ++ post). rewrite class_of_app.
  destruct (equivb z x) eqn:E; unfold class_of at 1 4; simpl; rewrite E; [|by rewrite app_nil_r].
  rewrite (class_of_above z x post); [done|done| |done].
  clear -Hs. induction pre as [|p pre IH]; [done|]. apply IH. by inversion Hs.
Qed.

Lemma stable_sort_perm xs : stable_sort xs ≡ₚ xs.
Proof.
  unfold stable_sort. induction xs as [|x xs IH] using rev_ind; [done|].
  by rewrite fold_left_app; simpl; rewrite insert_ordered_perm, IH, (Permutation_app_comm xs [x]).
Qed.

Lemma stable_sort_spec `{!StrictWeakOrder less} xs :
  Sorted (nondec less) (stable_sort xs) /\ stable_sort xs ≡ₚ xs /\
  forall z, class_of z (stable_sort xs) = class_of z xs.
Proof.
  unfold stable_sort. induction xs as [|x xs (IH1 & IH2 & IH3)] using rev_ind; simpl.
  { split; [constructor|done]. }
  rewrite fold_left_app. simpl. split; [by apply insert_ordered_sorted|]. split.
  - by rewrite insert_ordered_perm, IH2, (Permutation_app_comm xs [x]).
  - intros z. by rewrite insert_ordered_class, IH3, class_of_app.
Qed.

Lemma equivb_refl `{!StrictWeakOrder less} z : equivb z z = true.
Proof. unfold equivb. by rewrite (swo_irrefl less z). Qed.

(** A sorted list is determined by its classes. *)
Lemma sorted_class_unique `{!StrictWeakOrder less} xs ys :
  Sorted (nondec less) xs -> Sorted (nondec less) ys ->
  (forall z, class_of z xs = class_of z ys) -> xs = ys.
Proof.
  intros Hx%sorted_strong Hy%sorted_strong. revert ys Hy.
  induction Hx as [|x xs Hx IH Hxs]; intros ys Hy Hc.
  { destruct ys as [|y ys]; [done|]. specialize (Hc y). unfold class_of in Hc. simpl in Hc.
    by rewrite equivb_refl in Hc. }
  pose proof equivb_refl as Hzz.
  destruct Hy as [|y ys Hy Hys].
  { specialize (Hc x). unfold class_of in Hc. simpl in Hc. by rewrite Hzz in Hc. }
  assert (x = y) as ->.
  { assert (y ∈ class_of y (x :: xs)) as Hyx.
    { rewrite Hc. unfold class_of. simpl. rewrite Hzz. by left. }
    assert (x ∈ class_of x (y :: ys)) as Hxy.
    { rewrite <- Hc. unfold class_of. simpl. rewrite Hzz. by left. }
    assert (forall (a b : Z) l, StronglySorted (nondec less) (b :: l) ->
      a ∈ class_of a (b :: l) -> less a b = false) as Hmin.
    { intros a b l' Hs Ha. apply list_elem_of_In in Ha. apply filter_In in Ha as [Ha _].
      inversion Hs as [|? ? _ Hall]; subst. destruct Ha as [->|Ha]; [apply (swo_irrefl less)|].
      rewrite Forall_forall in Hall. apply (Hall a). by apply list_elem_of_In. }
    assert (less y x = false) by (apply (Hmin y x xs); [by constructor|done]).
    assert (less x y = false) by (apply (Hmin x y ys); [by constructor|done]).
    specialize (Hc x). unfold class_of in Hc. simpl in Hc. rewrite Hzz in Hc.
    assert (equivb x y = true) as Exy by (unfold equivb; by rewrite H, H0).
    rewrite Exy in Hc. by injection Hc. }
  f_equal. apply IH; [done|]. intros z. specialize (Hc z). unfold class_of in *. simpl in Hc.
  destruct (equivb z y); [by injection Hc|done].
Qed.

End reference.

(** ** Refinement of the pointer program *)

Section refinement.
Context (less : Z -> Z -> bool).

Lemma is_list_nonnull_cur h l pre post :
  is_list h l (pre ++ post) -> negb (cur l post =? NULL) = true.
Proof. intros Hl. apply negb_true_iff, Z.eqb_neq, (cv_cur_nz _ _ _ _ (is_list_cursor _ _ _ _ Hl)). Qed.

(** Two cursors are equal only when nothing is between them. *)
Lemma cur_eqb h l pre mid post :
  is_list h l (pre ++ mid ++ post) ->
  (cur l (mid ++ post) =? cur l post) = match mid with [] => true | _ => false end.
Proof.
  intros (Hnd & _). destruct mid as [|m mid]; [apply Z.eqb_refl|].
  apply Z.eqb_neq. simpl. rewrite nodes_app in Hnd. apply NoDup_app in Hnd as (_ & _ & Hnd).
  simpl in Hnd. apply NoDup_cons in Hnd as [Hm _]. rewrite <- app_assoc in Hm.
  pose proof (cur_in l post) as Hc. intros ->. apply Hm. apply elem_of_app. by right.
Qed.

Lemma find_end_of_run_loop_ok fuel h l pre x post r rest :
  is_list h l (pre ++ x :: post) -> (length post < fuel)%nat -> take_run less x post = (r, rest) ->
  find_end_of_run_loop less fuel x (tail_of l) h = Ok (cur l rest, h).
Proof.
  revert pre x post r. induction fuel as [|fuel IH]; intros pre x post r Hl Hf Hr; [lia|].
  cbn [find_end_of_run_loop]. mrun (list_next_elem _ _ _ _ _ Hl).
  assert (is_list h l ((pre ++ [x]) ++ post)) as Hl' by by rewrite <- app_assoc.
  rewrite (cur_at_end _ _ _ _ Hl'). destruct post as [|y post]; simpl in *.
  { by injection Hr as <- <-. }
  mrun (list_prev_elem _ _ _ _ _ Hl). destruct (less y x).
  - by injection Hr as <- <-.
  - destruct (take_run less y post) as [r' rest'] eqn:E. injection Hr as <- <-.
    apply (IH (pre ++ [x]) y post r'); [done|lia|done].
Qed.

Lemma find_end_of_run_ok fuel h l pre x post r rest :
  is_list h l (pre ++ x :: post) -> (length post < fuel)%nat -> take_run less x post = (r, rest) ->
  find_end_of_run less fuel x (tail_of l) h = Ok (cur l rest, h).
Proof.
  intros Hl Hf Hr. unfold find_end_of_run.
  mrun (ASSERT_ok (negb (x =? NULL)) h (is_list_nonnull_cur _ _ _ _ Hl)).
  assert (is_list h l ((pre ++ x :: post) ++ [])) as Hl0 by by rewrite app_nil_r.
  mrun (ASSERT_ok (negb (tail_of l =? NULL)) h (is_list_nonnull_cur _ _ _ _ Hl0)).
  pose proof (cur_at_end _ _ _ _ Hl) as Hx. simpl in Hx.
  mrun (ASSERT_ok (negb (x =? tail_of l)) h ltac:(by rewrite Hx)).
  by eapply find_end_of_run_loop_ok.
Qed.

Lemma is_sorted_loop_ok fuel h l pre x A post :
  is_list h l (pre ++ (x :: A) ++ post) -> (length A < fuel)%nat -> Sorted (nondec less) (x :: A) ->
  is_sorted_loop less fuel x (cur l post) h = Ok (true, h).
Proof.
  revert pre x A. induction fuel as [|fuel IH]; intros pre x A Hl Hf HA; [lia|].
  cbn [is_sorted_loop]. mrun (list_next_elem h l pre x (A ++ post) Hl).
  assert (is_list h l ((pre ++ [x]) ++ A ++ post)) as Hl' by by rewrite <- app_assoc.
  rewrite (cur_eqb _ _ _ _ _ Hl'). destruct A as [|y A]; [done|].
  mrun (list_prev_elem h l pre x (y :: A ++ post) Hl).
  inversion HA as [|? ? HA' Hyx]; subst. inversion Hyx as [|? ? Hlt]; subst.
  unfold nondec in Hlt. simpl. rewrite Hlt. apply (IH (pre ++ [x]) y A); [done| |done].
  simpl in Hf. lia.
Qed.

Lemma is_sorted_ok fuel h l pre A post :
  is_list h l (pre ++ A ++ post) -> (length A <= fuel)%nat -> Sorted (nondec less) A ->
  is_sorted less fuel (cur l (A ++ post)) (cur l post) h = Ok (true, h).
Proof.
  intros Hl Hf HA. unfold is_sorted. rewrite (cur_eqb _ _ _ _ _ Hl).
  destruct A as [|x A]; [done|]. simpl. by apply (is_sorted_loop_ok fuel h l pre x A post).
Qed.

Lemma inplace_merge_loop_ok fuel h l pre A B post :
  is_list h l (pre ++ A ++ B ++ post) -> (length A + length B < fuel)%nat ->
  exists h', inplace_merge_loop less fuel (cur l (A ++ B ++ post)) (cur l (B ++ post)) (cur l post) h
    = Ok (tt, h') /\ is_list h' l (pre ++ merge less A B ++ post).
Proof.
  revert h pre A B. induction fuel as [|fuel IH]; intros h pre A B Hl Hf; [lia|].
  cbn [inplace_merge_loop].
  rewrite (cur_eqb _ _ _ _ _ Hl).
  assert (is_list h l ((pre ++ A) ++ B ++ post)) as HlB by by rewrite <- app_assoc.
  rewrite (cur_eqb _ _ _ _ _ HlB).
  destruct A as [|a A]; [exists h; split; [done|by destruct B]|].
  destruct B as [|b B]; [by exists h|].
  cbn [orb]. change (cur l ((a :: A) ++ (b :: B) ++ post)) with a.
  change (cur l ((b :: B) ++ post)) with b. rewrite merge_cons. destruct (less b a); cbn [negb].
  - assert (is_list h l ((pre ++ a :: A) ++ b :: (B ++ post))) as Hlb by by rewrite <- app_assoc.
    mrun (list_next_elem _ _ _ _ _ Hlb). mrun (list_prev_elem _ _ _ _ _ Hlb).
    destruct (list_splice_within h l pre (a :: A) [b] (B ++ post) a b) as (h1 & Hs & Hl1 & _);
      [done|done|done|].
    mrun Hs. destruct (IH h1 (pre ++ [b]) (a :: A) B) as (h' & Hr & Hl').
    { by rewrite <- app_assoc. }
    { simpl in *. lia. }
    exists h'. split; [exact Hr|]. by rewrite <- app_assoc in Hl'.
  - mrun (list_next_elem h l pre a (A ++ (b :: B) ++ post) Hl).
    destruct (IH h (pre ++ [a]) A (b :: B)) as (h' & Hr & Hl').
    { by rewrite <- app_assoc. }
    { simpl in *. lia. }
    exists h'. split; [exact Hr|]. by rewrite <- app_assoc in Hl'.
Qed.

Lemma inplace_merge_ok fuel h l pre A B post :
  is_list h l (pre ++ A ++ B ++ post) -> (length A + length B < fuel)%nat ->
  Sorted (nondec less) A -> Sorted (nondec less) B ->
  exists h', inplace_merge less fuel (cur l (A ++ B ++ post)) (cur l (B ++ post)) (cur l post) h
    = Ok (tt, h') /\ is_list h' l (pre ++ merge less A B ++ post).
Proof.
  intros Hl Hf HA HB. unfold inplace_merge.
  assert (is_list h l ((pre ++ A) ++ B ++ post)) as HlB by by rewrite <- app_assoc.
  assert (is_list h l ((pre ++ A ++ B) ++ post)) as HlP by by rewrite <- !app_assoc.
  mrun (ASSERT_ok _ h (is_list_nonnull_cur _ _ _ _ Hl)).
  mrun (ASSERT_ok _ h (is_list_nonnull_cur _ _ _ _ HlB)).
  mrun (ASSERT_ok _ h (is_list_nonnull_cur _ _ _ _ HlP)).
  mrun (is_sorted_ok fuel h l pre A (B ++ post) Hl ltac:(lia) HA).
  mrun (ASSERT_ok true h eq_refl).
  mrun (is_sorted_ok fuel h l (pre ++ A) B post HlB ltac:(lia) HB).
  mrun (ASSERT_ok true h eq_refl).
  by apply inplace_merge_loop_ok.
Qed.

(** One pass of [list_sort] from the cursor in front of [xs]. *)
Lemma list_sort_pass_ok fuel h l pre xs cnt :
  is_list h l (pre ++ xs) -> (length xs < fuel)%nat -> in_u32 cnt ->
  exists h' out c, sort_pass less xs out c /\ is_list h' l (pre ++ out) /\
    list_sort_pass less fuel l (cur l xs) cnt h = Ok (u32 (cnt + Z.of_nat c), h').
Proof.
  revert h pre xs cnt. induction fuel as [|fuel IH]; intros h pre xs cnt Hl Hf Hc; [lia|].
  assert (u32 cnt = cnt) as Hcc by (unfold u32; apply Z.mod_small; exact Hc).
  cbn [list_sort_pass]. rewrite (bind_ok _ _ _ _ _ (list_end_ok _ _ _ Hl)).
  rewrite (cur_at_end _ _ _ _ Hl). destruct xs as [|x xs].
  { exists h, [], 0%nat. split; [constructor|]. split; [done|]. by rewrite Z.add_0_r, Hcc. }
  destruct (take_run less x xs) as [r rest] eqn:Er.
  mrun (find_end_of_run_ok (S fuel) h l pre x xs r rest Hl ltac:(simpl in Hf; lia) Er).
  pose proof (take_run_app _ _ _ _ _ Er) as ->.
  assert (is_list h l ((pre ++ x :: r) ++ rest)) as Hl1 by by rewrite <- app_assoc.
  rewrite (cur_at_end _ _ _ _ Hl1). destruct rest as [|y ys].
  { exists h, (x :: r ++ []), 1%nat. split; [by eapply pass_one|]. done. }
  destruct (take_run less y ys) as [r2 rest2] eqn:Er2.
  rewrite length_cons, length_app in Hf. simpl in Hf.
  mrun (find_end_of_run_ok (S fuel) h l (pre ++ x :: r) y ys r2 rest2 Hl1 ltac:(lia) Er2).
  pose proof (take_run_app _ _ _ _ _ Er2) as ->. rewrite length_app in Hf.
  destruct (inplace_merge_ok (S fuel) h l pre (x :: r) (y :: r2) rest2) as (h1 & Hm & Hl2);
    [done|simpl; lia|by eapply take_run_sorted|by eapply take_run_sorted|].
  mrun Hm. rewrite app_assoc in Hl2.
  destruct (IH h1 (pre ++ merge less (x :: r) (y :: r2)) rest2 (u32 (cnt + 1)))
    as (h' & out & c & Hp & Hl3 & Hr); [done|lia|apply Z.mod_pos_bound; lia|].
  exists h', (merge less (x :: r) (y :: r2) ++ out), (S c).
  split; [by eapply pass_two|]. split; [by rewrite app_assoc|]. rewrite Hr, u32_add_l.
  do 3 f_equal. lia.
Qed.

Context `{!StrictWeakOrder less}.

Lemma list_sort_loop_ok fuel inner h l xs :
  is_list h l xs -> (runs less xs < fuel)%nat -> (length xs < inner)%nat ->
  Z.of_nat (length xs) < 4294967296 ->
  exists h' ys, list_sort_loop less fuel inner l h = Ok (tt, h') /\ is_list h' l ys /\
    ys ≡ₚ xs /\ Sorted (nondec less) ys /\ forall z, class_of less z ys = class_of less z xs.
Proof.
  revert h xs. induction fuel as [|fuel IH]; intros h xs Hl Hf Hi Hlen; [lia|].
  cbn [list_sort_loop]. mrun (list_begin_ok _ _ _ Hl).
  destruct (list_sort_pass_ok inner h l [] xs 0 Hl Hi) as (h1 & out & c & Hp & Hl1 & Hr);
    [by unfold in_u32|].
  mrun Hr. pose proof (sort_pass_count _ _ _ _ Hp) as Hcnt.
  pose proof (sort_pass_runs _ _ _ _ Hp) as Hruns.
  pose proof (runs_le_length less xs) as Hrl.
  rewrite Z.add_0_l. unfold u32. rewrite Z.mod_small by lia.
  destruct (Z.ltb_spec 1 (Z.of_nat c)) as [Hc|Hc].
  - pose proof (sort_pass_length _ _ _ _ Hp) as Hlo.
    destruct (IH h1 out) as (h' & ys & Hr' & Hl' & Hperm & Hs & Hcl); [done|lia|lia|lia|].
    exists h', ys. split; [done|]. split; [done|].
    split; [by rewrite Hperm, (sort_pass_perm _ _ _ _ Hp)|]. split; [done|].
    intros z. by rewrite Hcl, (sort_pass_class _ z _ _ _ Hp).
  - exists h1, out. split; [done|]. split; [done|].
    split; [by apply (sort_pass_perm less _ _ c)|]. split; [apply runs_le1_sorted; lia|].
    intros z. by apply (sort_pass_class less z _ _ c).
Qed.

Lemma list_sort_refines fuel h l xs :
  is_list h l xs -> (length xs < fuel)%nat -> Z.of_nat (length xs) < 4294967296 ->
  exists h', list_sort less fuel l h = Ok (tt, h') /\ is_list h' l (stable_sort less xs).
Proof.
  intros Hl Hf Hlen. unfold list_sort. mrun (ASSERT_ok _ h (list_nonnull _ _ _ Hl)).
  pose proof (runs_le_length less xs) as Hrl.
  destruct (list_sort_loop_ok fuel fuel h l xs Hl) as (h' & ys & Hr & Hl' & Hperm & Hs & Hcl);
    [lia|done|done|].
  mrun Hr. destruct (stable_sort_spec less xs) as (Ss & Sp & Sc).
  assert (ys = stable_sort less xs) as <-.
  { apply (sorted_class_unique less); [done|done|]. intros z. by rewrite Hcl, Sc. }
  mrun (list_begin_ok _ _ _ Hl'). mrun (list_end_ok _ _ _ Hl').
  assert (is_list h' l ([] ++ ys ++ [])) as Hl0 by by rewrite app_nil_r.
  assert (is_sorted less fuel (cur l ys) (tail_of l) h' = Ok (true, h')) as Hso.
  { pose proof (is_sorted_ok fuel h' l [] ys [] Hl0) as H. rewrite app_nil_r in H.
    apply H; [|done]. rewrite Hperm. lia. }
  mrun Hso. by exists h'.
Qed.

End refinement.

End DListSort.
