(* ===== verification/ListProps.v ===== *)
(** * Lists: what the operations of src/src/lib/kernel/list.c guarantee

    The theorems of the list component, stated on the pointer programs of
    [DList]: each operation returns, and leaves a well-formed list with the
    right elements in the right order.  The witnesses run them on heaps
    built by the program itself ([list_init] and [list_push_back]). *)

From S2P Require Import Prelude DList DListOps DListSort.
Import DList DListOps DListSort.

Module ListProps.

(** ** Concrete heaps *)

#[export] Instance linked_dec h ys : Decision (linked h ys).
Proof.
  induction ys as [|a [|b ys] IH]; [by left|by left|].
  change (Decision (link h a b /\ linked h (b :: ys))). unfold link. apply _.
Defined.

#[export] Instance is_list_dec h l xs : Decision (is_list h l xs).
Proof. unfold is_list. apply _. Defined.

(** A heap with the element addresses [xs] allocated and not yet linked, and
    list headers at [ls]. *)
Definition raw_heap (ls xs : list Z) : heap :=
  let m := list_to_map (map (fun a => (a, NULL)) (concat (map (fun l => [head_of l; tail_of l]) ls) ++ xs)) in
  Heap m m.

(** Initialise the list [l] and push [xs] at its back. *)
Definition build (l : Z) (xs : list Z) (h : heap) : heap :=
  let run {A} (m : M heap A) h := match m h with Ok (_, h') => h' | Err _ => h end in
  fold_left (fun h x => run (list_push_back l x) h) xs (run (list_init l) h).

Definition list_at : Z := 100.
Definition dup_at : Z := 200.

(** Elements are compared by their last digit, so 11, 21 and 31 are
    equivalent. *)
Definition digit_less (a b : Z) : bool := (a mod 10) <? (b mod 10).

#[export] Instance digit_less_swo : StrictWeakOrder digit_less.
Proof. apply (key_lt_swo (fun a => a mod 10)). Qed.

Definition sample : list Z := [23; 11; 42; 21; 12; 31].

Definition sample_heap : heap :=
  build dup_at [] (build list_at sample (raw_heap [list_at; dup_at] (99 :: sample))).

Lemma sample_is_list : is_list sample_heap list_at sample.
Proof. apply (bool_decide_unpack _). vm_compute. exact I. Qed.

(** ** Sorting *)

(** C28: [list_sort] returns and leaves the stable sort of the list: a sorted
    permutation of its elements in which elements that compare equal keep
    their order. *)
Theorem list_sort_correct (less : Z -> Z -> bool) `{!StrictWeakOrder less} fuel h l xs :
  is_list h l xs -> (length xs < fuel)%nat -> Z.of_nat (length xs) < 4294967296 ->
  exists h' ys, list_sort less fuel l h = Ok (tt, h') /\ is_list h' l ys /\
    Sorted (nondec less) ys /\ ys ≡ₚ xs /\ (forall z, class_of less z ys = class_of less z xs).
Proof.
  intros Hl Hf Hn. destruct (list_sort_refines less fuel h l xs Hl Hf Hn) as (h' & Hr & Hl').
  exists h', (stable_sort less xs). split; [done|]. split; [done|]. by apply (stable_sort_spec less).
Qed.

Lemma list_sort_correct_witness :
  exists h' ys, list_sort digit_less 7 list_at sample_heap = Ok (tt, h') /\ is_list h' list_at ys /\
    Sorted (nondec digit_less) ys /\ ys ≡ₚ sample /\
    (forall z, class_of digit_less z ys = class_of digit_less z sample).
Proof.
  apply (list_sort_correct digit_less 7 sample_heap list_at sample sample_is_list).
  - vm_compute. lia.
  - vm_compute. reflexivity.
Defined.

(** ** Ordered insertion *)

(** [list_insert_ordered] puts the new element behind every element that is
    not greater and in front of the first one that is, changes no other
    link, and keeps a sorted list sorted. *)
Theorem list_insert_ordered_correct (less : Z -> Z -> bool) `{!StrictWeakOrder less} fuel h l xs e :
  is_list h l xs -> fresh_for h l xs e -> (length xs < fuel)%nat ->
  exists h' pre post, list_insert_ordered less fuel l e h = Ok (tt, h') /\
    xs = pre ++ post /\ is_list h' l (pre ++ e :: post) /\ frame h h' (e :: nodes l xs) /\
    Forall (fun y => less e y = false) pre /\
    match post with [] => True | y :: _ => less e y = true end /\
    (Sorted (nondec less) xs -> Sorted (nondec less) (pre ++ e :: post)).
Proof.
  intros Hl He Hf. destruct (list_insert_ordered_refines less fuel h l xs e Hl He Hf) as (h' & Hr & Hl' & Hfr).
  destruct (insert_ordered_split less e xs) as (pre & post & E1 & E2 & Hp & Hq).
  rewrite E2 in Hl'. exists h', pre, post. do 6 (split; [done|]).
  intros Hs. rewrite <- E2. by apply insert_ordered_sorted.
Qed.

Lemma list_insert_ordered_correct_witness :
  exists h' pre post, list_insert_ordered digit_less 7 list_at 99 sample_heap = Ok (tt, h') /\
    sample = pre ++ post /\ is_list h' list_at (pre ++ 99 :: post).
Proof.
  destruct (list_insert_ordered_correct digit_less 7 sample_heap list_at sample 99 sample_is_list)
    as (h' & pre & post & Hr & E & Hl & _).
  - split; [split; [discriminate|split; eexists; vm_compute; reflexivity]|].
    apply (bool_decide_unpack _). vm_compute. exact I.
  - vm_compute. lia.
  - exists h', pre, post. split; [exact Hr|]. split; [exact E|exact Hl].
Defined.

(** ** Insertion and removal *)

(** [list_insert] in front of any position and [list_remove] of the element
    again: both return, the removal returns the element that followed, and
    the list is the original one; outside the inserted element the links are
    those of the start. *)
Theorem list_insert_remove_roundtrip h l pre post e :
  is_list h l (pre ++ post) -> fresh_for h l (pre ++ post) e ->
  exists h1 h2, list_insert (cur l post) e h = Ok (tt, h1) /\ is_list h1 l (pre ++ e :: post) /\
    list_remove e h1 = Ok (cur l post, h2) /\ is_list h2 l (pre ++ post) /\
    frame h h2 [e; before_cur l pre; cur l post].
Proof.
  intros Hl [Ha He]. destruct (list_insert_spec h l pre post e Hl He Ha) as (h1 & Hr1 & Hl1 & Hf1).
  destruct (list_remove_spec h1 l pre e post Hl1) as (h2 & Hr2 & Hl2 & _ & Hf2).
  exists h1, h2. do 4 (split; [done|]). destruct Hf1 as [Hf1 Hg1], Hf2 as [Hf2 Hg2].
  split; [|by auto]. intros a Hn. destruct (Hf1 a Hn) as [<- <-]. apply Hf2. set_solver.
Qed.

Lemma list_insert_remove_roundtrip_witness :
  exists h1 h2, list_insert 42 99 sample_heap = Ok (tt, h1) /\
    list_remove 99 h1 = Ok (42, h2) /\ is_list h2 list_at sample.
Proof.
  destruct (list_insert_remove_roundtrip sample_heap list_at [23; 11] [42; 21; 12; 31] 99 sample_is_list)
    as (h1 & h2 & H1 & _ & H2 & H3 & _).
  - split; [split; [discriminate|split; eexists; vm_compute; reflexivity]|].
    apply (bool_decide_unpack _). vm_compute. exact I.
  - exists h1, h2. split; [exact H1|]. split; [exact H2|exact H3].
Defined.

(** [list_splice] of a segment of a list to an earlier place in it exchanges
    the two segments, and touches no node of any other list. *)
Theorem list_splice_correct h l pre mid seg post m0 s0 :
  is_list h l (pre ++ mid ++ seg ++ post) -> head mid = Some m0 -> head seg = Some s0 ->
  exists h', list_splice m0 s0 (cur l post) h = Ok (tt, h') /\
    is_list h' l (pre ++ seg ++ mid ++ post) /\ frame h h' (nodes l (pre ++ mid ++ seg ++ post)).
Proof. apply list_splice_within. Qed.

Lemma list_splice_correct_witness :
  exists h', list_splice 11 21 31 sample_heap = Ok (tt, h') /\
    is_list h' list_at [23; 21; 12; 11; 42; 31].
Proof.
  destruct (list_splice_correct sample_heap list_at [23] [11; 42] [21; 12] [31] 11 21 sample_is_list
    eq_refl eq_refl) as (h' & Hr & Hl & _).
  exists h'. split; [exact Hr|exact Hl].
Defined.

(** ** Duplicates *)

Lemma unique_after_perm (less : Z -> Z -> bool) e xs :
  (unique_after less e xs).1 ++ (unique_after less e xs).2 ≡ₚ xs.
Proof.
  revert e. induction xs as [|y ys IH]; intros e; simpl; [done|].
  destruct (negb _ && _).
  - specialize (IH e). destruct (unique_after less e ys) as [k d]. simpl in *.
    by rewrite <- Permutation_middle, IH.
  - specialize (IH y). destruct (unique_after less y ys) as [k d]. simpl in *. by rewrite IH.
Qed.

Lemma unique_after_strict (less : Z -> Z -> bool) `{!StrictWeakOrder less} e xs :
  Sorted (nondec less) (e :: xs) ->
  Sorted (fun a b => less a b = true) (e :: (unique_after less e xs).1).
Proof.
  intros Hs%(sorted_strong less). revert e Hs.
  induction xs as [|y ys IH]; intros e Hs; simpl; [by repeat constructor|].
  inversion Hs as [|? ? Hys Hall]; subst. apply Forall_cons in Hall as [Hey Hall].
  unfold nondec in Hey. rewrite Hey, andb_true_r. destruct (less e y) eqn:E; simpl.
  - specialize (IH y Hys). destruct (unique_after less y ys) as [k d]. simpl in *.
    constructor; [done|]. by constructor.
  - assert (StronglySorted (nondec less) (e :: ys)) as Hs' by (constructor; [by inversion Hys|done]).
    specialize (IH e Hs'). destruct (unique_after less e ys) as [k d]. done.
Qed.

(** [list_unique] of a sorted list leaves a strictly increasing list that
    starts with the same element, and appends what it removes, in order, to
    the list of duplicates: nothing is lost. *)
Theorem list_unique_correct (less : Z -> Z -> bool) `{!StrictWeakOrder less} fuel h l x xs dup ds :
  is_list h l (x :: xs) -> is_list h dup ds -> (forall a, a ∈ nodes l (x :: xs) -> a ∉ nodes dup ds) ->
  (length xs < fuel)%nat -> Sorted (nondec less) (x :: xs) ->
  exists h' kept gone, list_unique less fuel l dup h = Ok (tt, h') /\
    is_list h' l (x :: kept) /\ is_list h' dup (ds ++ gone) /\ kept ++ gone ≡ₚ xs /\
    Sorted (fun a b => less a b = true) (x :: kept).
Proof.
  intros Hl Hd Hdis Hf Hs.
  assert (dup <> NULL) as Hdn.
  { intros ->. destruct Hd as (_ & Hn & _). apply Hn. unfold nodes. rewrite elem_of_cons. by left. }
  destruct (list_unique_refines less fuel h l x xs dup ds Hl) as (h' & Hr & Hl' & Hd'); [done|done|].
  exists h', (unique_after less x xs).1, (unique_after less x xs).2.
  split; [done|]. split; [done|]. split; [by apply Hd'|].
  split; [apply unique_after_perm|by apply unique_after_strict].
Qed.

Definition sorted_sample : list Z := [11; 21; 31; 42; 12; 23].

Definition sorted_heap : heap :=
  build dup_at [] (build list_at sorted_sample (raw_heap [list_at; dup_at] sorted_sample)).

Lemma list_unique_correct_witness :
  exists h' kept gone, list_unique digit_less 6 list_at dup_at sorted_heap = Ok (tt, h') /\
    is_list h' list_at (11 :: kept) /\ is_list h' dup_at gone /\ kept ++ gone ≡ₚ [21; 31; 42; 12; 23].
Proof.
  destruct (list_unique_correct digit_less 6 sorted_heap list_at 11 [21; 31; 42; 12; 23] dup_at [])
    as (h' & kept & gone & H1 & H2 & H3 & H4 & _).
  - apply (bool_decide_unpack _). vm_compute. exact I.
  - apply (bool_decide_unpack _). vm_compute. exact I.
  - apply Forall_forall. apply (bool_decide_unpack _). vm_compute. exact I.
  - vm_compute. lia.
  - repeat constructor.
  - exists h', kept, gone. split; [exact H1|]. split; [exact H2|]. split; [exact H3|exact H4].
Defined.

(** ** The maximum, and reversal *)

(** [list_max] returns the first of the greatest elements and changes
    nothing. *)
Theorem list_max_correct (less : Z -> Z -> bool) `{!StrictWeakOrder less} fuel h l x xs :
  is_list h l (x :: xs) -> (length xs < fuel)%nat ->
  exists m pre post, list_max less fuel l h = Ok (m, h) /\ x :: xs = pre ++ m :: post /\
    Forall (fun y => less m y = false) (x :: xs) /\ Forall (fun y => less y m = true) pre.
Proof.
  intros Hl Hf. destruct (max_from_first less x xs) as (pre & post & H).
  exists (max_from less x xs), pre, post. split; [by apply list_max_refines|done].
Qed.

Lemma list_max_correct_witness :
  exists m pre post, list_max digit_less 6 list_at sample_heap = Ok (m, sample_heap) /\
    sample = pre ++ m :: post.
Proof.
  destruct (list_max_correct digit_less 6 sample_heap list_at 23 (tail sample) sample_is_list)
    as (m & pre & post & H1 & H2 & _); [vm_compute; lia|].
  exists m, pre, post. split; [exact H1|exact H2].
Defined.

(** Reversing a list twice returns and restores its order; once, it
    reverses it. *)
Theorem list_reverse_involutive fuel h l xs :
  is_list h l xs -> (length xs < fuel)%nat ->
  exists h1 h2, list_reverse fuel l h = Ok (tt, h1) /\ is_list h1 l (reverse xs) /\
    list_reverse fuel l h1 = Ok (tt, h2) /\ is_list h2 l xs.
Proof.
  intros Hl Hf. destruct (list_reverse_ok fuel h l xs Hl Hf) as (h1 & H1 & Hl1).
  destruct (list_reverse_ok fuel h1 l (reverse xs) Hl1) as (h2 & H2 & Hl2);
    [by rewrite length_reverse|].
  rewrite reverse_involutive in Hl2. by exists h1, h2.
Qed.

Lemma list_reverse_involutive_witness :
  exists h1 h2, list_reverse 7 list_at sample_heap = Ok (tt, h1) /\
    list_reverse 7 list_at h1 = Ok (tt, h2) /\ is_list h2 list_at sample.
Proof.
  destruct (list_reverse_involutive 7 sample_heap list_at sample sample_is_list)
    as (h1 & h2 & H1 & _ & H2 & H3); [vm_compute; lia|].
  exists h1, h2. split; [exact H1|]. split; [exact H2|exact H3].
Defined.

End ListProps.
