(* ===== verification/FixedPoint.v ===== *)
(** * Fixed-point arithmetic and the MLFQS formulas

    The macros of src/src/threads/fixed-point.h (17.14 numbers) and the
    computations of the advanced scheduler in src/src/threads/thread.c that
    use them.  [int] and [int32_t] expressions are wrapped to 32 bits,
    [int64_t] ones to 64 bits, and [size_t] ones to unsigned 32 bits; [/]
    truncates toward zero ([Z.quot]). *)

From S2P Require Import Prelude.

Module FixedPoint.

Definition Q : Z := 14.
Definition F : Z := Z.shiftl 1 Q.

Definition INT_TO_FIXED_POINT (n d : Z) : Z := Z.quot (s32 (n * F)) d.
Definition FIXED_POINT_TO_INT_TO_ZERO (x : Z) : Z := Z.quot x F.
Definition FIXED_POINT_TO_INT_TO_NEAREST (x : Z) : Z :=
  if x >=? 0 then Z.quot (s32 (x + Z.quot F 2)) F else Z.quot (s32 (x - Z.quot F 2)) F.
Definition MUL (x y : Z) : Z := Z.quot (s64 (x * y)) F.
Definition DIV (x y : Z) : Z := Z.quot (s64 (x * F)) y.

(** The sum is an [int] in [thread_tick] and for the divisor of
    [update_recent_cpu], and an [int64_t] for its last step. *)
Definition ADD_FIXED_POINT_INT (x n : Z) : Z := s32 (x + s32 (n * F)).
Definition ADD_FIXED_POINT_INT64 (x n : Z) : Z := s64 (x + s32 (n * F)).

(** The scheduling constants of threads/thread.h. *)
Definition PRI_MIN : Z := 0.
Definition PRI_DEFAULT : Z := 31.
Definition PRI_MAX : Z := 63.
Definition NUM_QUEUES : Z := 64.
Definition NICE_MIN : Z := -20.
Definition NICE_MAX : Z := 20.
Definition TICKS_TO_UPDATE : Z := 4.
Definition SCALE_MUL : Z := 100.
Definition SCALE_NICE : Z := 2.
Definition SCALE_LOAD_AVG : Z := 2.
Definition DIVIDEND : Z := 59.
Definition DIVISOR : Z := 60.
Definition SELF_DIV : Z := 1.
Definition INCR_VALUE : Z := 1.

(** The new priority in [update_priority]: clamped to the legal range. *)
Definition mlfqs_priority (recent_cpu nice : Z) : Z :=
  let recent_cpu_part := Z.quot recent_cpu TICKS_TO_UPDATE in
  let nice_part := INT_TO_FIXED_POINT (SCALE_NICE * nice) SELF_DIV in
  let fixed_PRIMAX := INT_TO_FIXED_POINT PRI_MAX SELF_DIV in
  let priority :=
    FIXED_POINT_TO_INT_TO_ZERO (s32 (s32 (fixed_PRIMAX - recent_cpu_part) - nice_part)) in
  if priority >? PRI_MAX then PRI_MAX
  else if priority <? PRI_MIN then PRI_MIN
  else priority.

(** The new [recent_cpu] in [update_recent_cpu]. *)
Definition mlfqs_recent_cpu (load_avg recent_cpu nice : Z) : Z :=
  let twice_load_avg := s32 (SCALE_LOAD_AVG * load_avg) in
  let recent_cpu_coeff :=
    s32 (DIV twice_load_avg (ADD_FIXED_POINT_INT twice_load_avg SELF_DIV)) in
  s32 (ADD_FIXED_POINT_INT64 (MUL recent_cpu_coeff recent_cpu) nice).

(** The new [load_avg] in [update_load_avg]. *)
Definition mlfqs_load_avg (load_avg ready_threads : Z) : Z :=
  let previous_seconds := s32 (MUL (INT_TO_FIXED_POINT DIVIDEND DIVISOR) load_avg) in
  let new_second := s32 (u32 (INT_TO_FIXED_POINT INCR_VALUE DIVISOR * ready_threads)) in
  s32 (previous_seconds + new_second).

(** [thread_get_load_avg] and [thread_get_recent_cpu] on their values. *)
Definition hundred_times (x : Z) : Z := FIXED_POINT_TO_INT_TO_NEAREST (s32 (SCALE_MUL * x)).

(** ** Ranges *)

Lemma F_val : F = 16384.
Proof. reflexivity. Qed.

(** Truncating division, as inequalities. *)
Lemma quot_bounds a b : 0 < b ->
  (0 <= a -> b * Z.quot a b <= a < b * Z.quot a b + b) /\
  (a <= 0 -> b * Z.quot a b - b < a <= b * Z.quot a b).
Proof.
  intros Hb. pose proof (Z.quot_rem a b ltac:(lia)). split; intros Ha.
  - pose proof (Z.rem_bound_pos a b Ha Hb). lia.
  - pose proof (Z.rem_bound_abs a b ltac:(lia)). pose proof (Z.rem_nonpos a b ltac:(lia) Ha). lia.
Qed.

Lemma quot_mono a a' b : 0 < b -> a <= a' -> Z.quot a b <= Z.quot a' b.
Proof. intros. by apply Z.quot_le_mono. Qed.

(** The clamp alone gives the range, for all inputs. *)
Lemma mlfqs_priority_range recent_cpu nice :
  PRI_MIN <= mlfqs_priority recent_cpu nice <= PRI_MAX.
Proof.
  unfold mlfqs_priority, PRI_MIN, PRI_MAX. set (p := FIXED_POINT_TO_INT_TO_ZERO _).
  destruct (Z.gtb_spec p 63); [lia|]. destruct (Z.ltb_spec p 0); lia.
Qed.

(** Without overflow the priority is 63 - recent_cpu/4 - 2*nice, truncated
    and clamped. *)
Lemma mlfqs_priority_eq recent_cpu nice :
  in_s32 recent_cpu -> NICE_MIN <= nice <= NICE_MAX ->
  mlfqs_priority recent_cpu nice =
    Z.max PRI_MIN (Z.min PRI_MAX (Z.quot (63 * 16384 - Z.quot recent_cpu 4 - 2 * nice * 16384) 16384)).
Proof.
  unfold in_s32, NICE_MIN, NICE_MAX. intros Hr Hn.
  destruct (quot_bounds recent_cpu 4 ltac:(lia)) as [Hq1 Hq2].
  unfold mlfqs_priority, INT_TO_FIXED_POINT, FIXED_POINT_TO_INT_TO_ZERO, SELF_DIV,
    SCALE_NICE, PRI_MAX, PRI_MIN, TICKS_TO_UPDATE.
  rewrite F_val, !Z.quot_1_r.
  rewrite (s32_id (63 * 16384)), (s32_id (2 * nice * 16384)) by (unfold in_s32; lia).
  rewrite (s32_id (63 * 16384 - _)) by (unfold in_s32; lia).
  rewrite (s32_id (_ - 2 * nice * 16384)) by (unfold in_s32; lia).
  set (p := Z.quot _ 16384).
  destruct (Z.gtb_spec p 63); [lia|]. destruct (Z.ltb_spec p 0); lia.
Qed.

(** More CPU time or a higher niceness never raises the priority. *)
Theorem mlfqs_priority_antitone rc rc' nice nice' :
  in_s32 rc -> in_s32 rc' -> NICE_MIN <= nice -> nice' <= NICE_MAX ->
  rc <= rc' -> nice <= nice' ->
  mlfqs_priority rc' nice' <= mlfqs_priority rc nice.
Proof.
  intros Hr Hr' Hn Hn' Hle Hnle. rewrite !mlfqs_priority_eq by (unfold NICE_MIN, NICE_MAX in *; lia || done).
  pose proof (quot_mono rc rc' 4 ltac:(lia) Hle).
  assert (Z.quot (63 * 16384 - Z.quot rc' 4 - 2 * nice' * 16384) 16384 <=
          Z.quot (63 * 16384 - Z.quot rc 4 - 2 * nice * 16384) 16384); [|lia].
  apply quot_mono; lia.
Qed.

(** The load average is a weighted mean of its last value and the number of
    ready threads: it stays below the largest number of threads, and no
    step overflows. *)
Theorem mlfqs_load_avg_bound load ready n :
  0 <= n <= 131071 -> 0 <= ready <= n -> 0 <= load <= n * 16384 ->
  0 <= mlfqs_load_avg load ready <= n * 16384 /\
  mlfqs_load_avg load ready = Z.quot (16110 * load) 16384 + 273 * ready.
Proof.
  intros Hn Hr Hl. unfold mlfqs_load_avg, MUL.
  change (INT_TO_FIXED_POINT DIVIDEND DIVISOR) with 16110.
  change (INT_TO_FIXED_POINT INCR_VALUE DIVISOR) with 273. rewrite F_val.
  rewrite (s64_id (16110 * load)) by lia.
  destruct (quot_bounds (16110 * load) 16384 ltac:(lia)) as [Hq _]. specialize (Hq ltac:(lia)).
  rewrite (u32_id (273 * ready)) by (unfold in_u32; lia).
  rewrite (s32_id (Z.quot _ _)), (s32_id (273 * ready)), s32_id by (unfold in_s32; lia).
  lia.
Qed.

(** The decay of [recent_cpu] has a coefficient in [0, 1): without
    overflow its magnitude never grows by more than the niceness. *)
Theorem mlfqs_recent_cpu_bound load rc nice :
  0 <= load < 536870912 -> -1073741824 <= rc <= 1073741824 -> NICE_MIN <= nice <= NICE_MAX ->
  Z.abs (mlfqs_recent_cpu load rc nice - nice * 16384) <= Z.abs rc.
Proof.
  unfold NICE_MIN, NICE_MAX. intros Hl Hr Hn.
  unfold mlfqs_recent_cpu, MUL, DIV, ADD_FIXED_POINT_INT, ADD_FIXED_POINT_INT64, SCALE_LOAD_AVG, SELF_DIV.
  rewrite F_val.
  rewrite (s32_id (2 * load)), (s32_id (1 * 16384)) by (unfold in_s32; lia).
  rewrite (s32_id (2 * load + 1 * 16384)) by (unfold in_s32; lia).
  rewrite (s64_id (2 * load * 16384)) by lia.
  set (c := Z.quot (2 * load * 16384) (2 * load + 1 * 16384)).
  assert (0 <= c < 16384) as Hc.
  { destruct (quot_bounds (2 * load * 16384) (2 * load + 1 * 16384) ltac:(lia)) as [Hq _].
    specialize (Hq ltac:(lia)). fold c in Hq. split; nia. }
  rewrite (s32_id c) by (unfold in_s32; lia).
  rewrite (s64_id (c * rc)) by nia.
  set (m := Z.quot (c * rc) 16384).
  assert (Z.abs m <= Z.abs rc) as Hm.
  { destruct (quot_bounds (c * rc) 16384 ltac:(lia)) as [Hq1 Hq2]. fold m in Hq1, Hq2. nia. }
  rewrite (s32_id (nice * 16384)) by (unfold in_s32; lia).
  rewrite (s64_id (m + nice * 16384)) by lia.
  rewrite s32_id by (unfold in_s32; lia). lia.
Qed.

(** ** Witnesses *)

(** The priority of the advanced scheduler, for every [recent_cpu] and every
    niceness of the documented range: the exact formula, with no overflow
    on the way, and a legal priority. *)
Theorem mlfqs_priority_formula recent_cpu nice :
  in_s32 recent_cpu -> NICE_MIN <= nice <= NICE_MAX ->
  mlfqs_priority recent_cpu nice =
    Z.max PRI_MIN (Z.min PRI_MAX (Z.quot (63 * 16384 - Z.quot recent_cpu 4 - 2 * nice * 16384) 16384)) /\
  PRI_MIN <= mlfqs_priority recent_cpu nice <= PRI_MAX.
Proof. intros Hr Hn. split; [by apply mlfqs_priority_eq|apply mlfqs_priority_range]. Qed.

Lemma mlfqs_priority_formula_witness :
  mlfqs_priority (100 * 16384) 5 = 28 /\
  mlfqs_priority (100 * 16384) 5 =
    Z.max PRI_MIN (Z.min PRI_MAX (Z.quot (63 * 16384 - Z.quot (100 * 16384) 4 - 2 * 5 * 16384) 16384)).
Proof.
  split; [vm_compute; reflexivity|].
  apply (mlfqs_priority_formula (100 * 16384) 5); unfold in_s32, NICE_MIN, NICE_MAX; lia.
Defined.

Lemma mlfqs_priority_antitone_witness :
  mlfqs_priority (200 * 16384) 6 <= mlfqs_priority (100 * 16384) 5.
Proof.
  apply (mlfqs_priority_antitone (100 * 16384) (200 * 16384) 5 6);
    unfold in_s32, NICE_MIN, NICE_MAX; lia.
Defined.

Lemma mlfqs_load_avg_bound_witness : 0 <= mlfqs_load_avg (3 * 16384) 10 <= 10 * 16384.
Proof. apply (mlfqs_load_avg_bound (3 * 16384) 10 10); lia. Defined.

Lemma mlfqs_recent_cpu_bound_witness :
  Z.abs (mlfqs_recent_cpu (2 * 16384) (50 * 16384) 4 - 4 * 16384) <= Z.abs (50 * 16384).
Proof.
  apply (mlfqs_recent_cpu_bound (2 * 16384) (50 * 16384) 4); unfold NICE_MIN, NICE_MAX; lia.
Defined.

End FixedPoint.
