(* ===== verification/KState.v ===== *)
(** * The state of the threading system

    Data of src/src/threads/thread.c, thread.h, synch.h and interrupt.c.
    Threads, semaphores, locks and condition variables are addresses.  The
    intrusive lists are sequences of the structures that contain their
    elements: [DListOps] and [DListSort] prove that list.c implements the
    sequence operations used here.

    A thread that is not running is suspended inside a kernel function.
    Where the C code keeps the rest of that function on the thread's kernel
    stack, the model keeps it in [kstack] as a list of [frame]s, one per
    function that has not returned. *)

From S2P Require Import Prelude DListOps FixedPoint.
Export DListOps FixedPoint.

Module KState.

Inductive thread_status : Type :=
| THREAD_RUNNING
| THREAD_READY
| THREAD_BLOCKED
| THREAD_DYING.

#[export] Instance thread_status_eq_dec : EqDecision thread_status.
Proof. solve_decision. Defined.

(** The body of a kernel thread: [idle], or a client of the kernel API. *)
Inductive thread_func : Type :=
| Fn_idle (idle_started : Z)
| Fn_client.

(** What a suspended function still has to do when its thread runs again. *)
Inductive frame : Type :=
| F_yield (old_level : bool)
| F_sema_down (sema : Z) (old_level : bool)
| F_acquire_down (lock : Z)
| F_lock_acquire (lock : Z)
| F_release_up (lock : Z)
| F_set_level (old_level : bool)
| F_cond_wait (lock waiter : Z)
| F_relock (lock : Z)
| F_cond_broadcast (cond lock : Z)
| F_allocate_tid (t : Z)
| F_set_tid (t tid : Z)
| F_thread_create (t : Z) (function : thread_func)
| F_thread_start (idle_started : Z)
| F_kernel_thread (function : thread_func)
| F_idle_loop
| F_idle_wake
| F_timer_sleep (sl n start : Z)
| F_timer_check (sl n start : Z)
| F_timer_end (sl : Z)
| F_iret.

#[export] Instance thread_func_eq_dec : EqDecision thread_func.
Proof. solve_decision. Defined.
#[export] Instance frame_eq_dec : EqDecision frame.
Proof. solve_decision. Defined.

Record thread : Type := mkThread {
  tid : Z;
  status : thread_status;
  name : list Z;
  stack : Z;
  base_priority : Z;
  priority : Z;
  donor_threads : list Z;
  waiting_lock : Z;
  nice : Z;
  recent_cpu : Z;
  magic : Z;
  kstack : list frame
}.

Definition set_tid (v : Z) (t : thread) : thread :=
  mkThread v (status t) (name t) (stack t) (base_priority t) (priority t) (donor_threads t)
    (waiting_lock t) (nice t) (recent_cpu t) (magic t) (kstack t).
Definition set_status (v : thread_status) (t : thread) : thread :=
  mkThread (tid t) v (name t) (stack t) (base_priority t) (priority t) (donor_threads t)
    (waiting_lock t) (nice t) (recent_cpu t) (magic t) (kstack t).
Definition set_name (v : list Z) (t : thread) : thread :=
  mkThread (tid t) (status t) v (stack t) (base_priority t) (priority t) (donor_threads t)
    (waiting_lock t) (nice t) (recent_cpu t) (magic t) (kstack t).
Definition set_stack (v : Z) (t : thread) : thread :=
  mkThread (tid t) (status t) (name t) v (base_priority t) (priority t) (donor_threads t)
    (waiting_lock t) (nice t) (recent_cpu t) (magic t) (kstack t).
Definition set_base_priority (v : Z) (t : thread) : thread :=
  mkThread (tid t) (status t) (name t) (stack t) v (priority t) (donor_threads t)
    (waiting_lock t) (nice t) (recent_cpu t) (magic t) (kstack t).
Definition set_priority (v : Z) (t : thread) : thread :=
  mkThread (tid t) (status t) (name t) (stack t) (base_priority t) v (donor_threads t)
    (waiting_lock t) (nice t) (recent_cpu t) (magic t) (kstack t).
Definition set_donor_threads (v : list Z) (t : thread) : thread :=
  mkThread (tid t) (status t) (name t) (stack t) (base_priority t) (priority t) v
    (waiting_lock t) (nice t) (recent_cpu t) (magic t) (kstack t).
Definition set_waiting_lock (v : Z) (t : thread) : thread :=
  mkThread (tid t) (status t) (name t) (stack t) (base_priority t) (priority t)
    (donor_threads t) v (nice t) (recent_cpu t) (magic t) (kstack t).
Definition set_nice (v : Z) (t : thread) : thread :=
  mkThread (tid t) (status t) (name t) (stack t) (base_priority t) (priority t)
    (donor_threads t) (waiting_lock t) v (recent_cpu t) (magic t) (kstack t).
Definition set_recent_cpu (v : Z) (t : thread) : thread :=
  mkThread (tid t) (status t) (name t) (stack t) (base_priority t) (priority t)
    (donor_threads t) (waiting_lock t) (nice t) v (magic t) (kstack t).
Definition set_magic (v : Z) (t : thread) : thread :=
  mkThread (tid t) (status t) (name t) (stack t) (base_priority t) (priority t)
    (donor_threads t) (waiting_lock t) (nice t) (recent_cpu t) v (kstack t).
Definition set_kstack (v : list frame) (t : thread) : thread :=
  mkThread (tid t) (status t) (name t) (stack t) (base_priority t) (priority t)
    (donor_threads t) (waiting_lock t) (nice t) (recent_cpu t) (magic t) v.

(** [struct semaphore]; a [struct lock] holds one at offset 4, and a
    [struct semaphore_elem] one at offset 8. *)
Record semaphore : Type := mkSema { value : Z; waiters : list Z }.

Definition lock_sema (lock : Z) : Z := lock + 4.
Definition elem_sema (waiter : Z) : Z := waiter + 8.

(** The [sema] of a [struct sleeping_thread] of devices/timer.c. *)
Definition sleep_sema (sl : Z) : Z := sl + 12.

Definition THREAD_MAGIC : Z := 0xcd6abf4b.
Definition TIME_SLICE : Z := 4.
Definition TIMER_FREQ : Z := 100.
Definition TID_ERROR : Z := -1.
Definition PGSIZE : Z := 4096.

Record kstate : Type := mkKstate {
  threads : gmap Z thread;
  current : Z;
  ready_list : list Z;
  all_list : list Z;
  all_list_addr : Z;
  priority_levels : list (list Z);
  idle_thread : Z;
  initial_thread : Z;
  next_tid : Z;
  idle_ticks : Z;
  kernel_ticks : Z;
  thread_ticks : Z;
  highest_priority : Z;
  load_avg : Z;
  thread_mlfqs : bool;
  intr_on : bool;
  in_external_intr : bool;
  yield_on_return : bool;
  ticks : Z;
  semas : gmap Z semaphore;
  locks : gmap Z Z;
  conds : gmap Z (list Z);
  blocked_threads : list Z;
  sleep_ticks : gmap Z Z
}.

Definition set_threads (v : gmap Z thread) (st : kstate) : kstate :=
  mkKstate v (current st) (ready_list st) (all_list st) (all_list_addr st)
    (priority_levels st) (idle_thread st) (initial_thread st) (next_tid st) (idle_ticks st)
    (kernel_ticks st) (thread_ticks st) (highest_priority st) (load_avg st)
    (thread_mlfqs st) (intr_on st) (in_external_intr st) (yield_on_return st) (ticks st)
    (semas st) (locks st) (conds st) (blocked_threads st) (sleep_ticks st).
Definition set_current (v : Z) (st : kstate) : kstate :=
  mkKstate (threads st) v (ready_list st) (all_list st) (all_list_addr st)
    (priority_levels st) (idle_thread st) (initial_thread st) (next_tid st) (idle_ticks st)
    (kernel_ticks st) (thread_ticks st) (highest_priority st) (load_avg st)
    (thread_mlfqs st) (intr_on st) (in_external_intr st) (yield_on_return st) (ticks st)
    (semas st) (locks st) (conds st) (blocked_threads st) (sleep_ticks st).
Definition set_ready_list (v : list Z) (st : kstate) : kstate :=
  mkKstate (threads st) (current st) v (all_list st) (all_list_addr st) (priority_levels st)
    (idle_thread st) (initial_thread st) (next_tid st) (idle_ticks st) (kernel_ticks st)
    (thread_ticks st) (highest_priority st) (load_avg st) (thread_mlfqs st) (intr_on st)
    (in_external_intr st) (yield_on_return st) (ticks st) (semas st) (locks st) (conds st)
    (blocked_threads st) (sleep_ticks st).
Definition set_all_list (v : list Z) (st : kstate) : kstate :=
  mkKstate (threads st) (current st) (ready_list st) v (all_list_addr st)
    (priority_levels st) (idle_thread st) (initial_thread st) (next_tid st) (idle_ticks st)
    (kernel_ticks st) (thread_ticks st) (highest_priority st) (load_avg st)
    (thread_mlfqs st) (intr_on st) (in_external_intr st) (yield_on_return st) (ticks st)
    (semas st) (locks st) (conds st) (blocked_threads st) (sleep_ticks st).
Definition set_all_list_addr (v : Z) (st : kstate) : kstate :=
  mkKstate (threads st) (current st) (ready_list st) (all_list st) v (priority_levels st)
    (idle_thread st) (initial_thread st) (next_tid st) (idle_ticks st) (kernel_ticks st)
    (thread_ticks st) (highest_priority st) (load_avg st) (thread_mlfqs st) (intr_on st)
    (in_external_intr st) (yield_on_return st) (ticks st) (semas st) (locks st) (conds st)
    (blocked_threads st) (sleep_ticks st).
Definition set_priority_levels (v : list (list Z)) (st : kstate) : kstate :=
  mkKstate (threads st) (current st) (ready_list st) (all_list st) (all_list_addr st) v
    (idle_thread st) (initial_thread st) (next_tid st) (idle_ticks st) (kernel_ticks st)
    (thread_ticks st) (highest_priority st) (load_avg st) (thread_mlfqs st) (intr_on st)
    (in_external_intr st) (yield_on_return st) (ticks st) (semas st) (locks st) (conds st)
    (blocked_threads st) (sleep_ticks st).
Definition set_idle_thread (v : Z) (st : kstate) : kstate :=
  mkKstate (threads st) (current st) (ready_list st) (all_list st) (all_list_addr st)
    (priority_levels st) v (initial_thread st) (next_tid st) (idle_ticks st)
    (kernel_ticks st) (thread_ticks st) (highest_priority st) (load_avg st)
    (thread_mlfqs st) (intr_on st) (in_external_intr st) (yield_on_return st) (ticks st)
    (semas st) (locks st) (conds st) (blocked_threads st) (sleep_ticks st).
Definition set_initial_thread (v : Z) (st : kstate) : kstate :=
  mkKstate (threads st) (current st) (ready_list st) (all_list st) (all_list_addr st)
    (priority_levels st) (idle_thread st) v (next_tid st) (idle_ticks st) (kernel_ticks st)
    (thread_ticks st) (highest_priority st) (load_avg st) (thread_mlfqs st) (intr_on st)
    (in_external_intr st) (yield_on_return st) (ticks st) (semas st) (locks st) (conds st)
    (blocked_threads st) (sleep_ticks st).
Definition set_next_tid (v : Z) (st : kstate) : kstate :=
  mkKstate (threads st) (current st) (ready_list st) (all_list st) (all_list_addr st)
    (priority_levels st) (idle_thread st) (initial_thread st) v (idle_ticks st)
    (kernel_ticks st) (thread_ticks st) (highest_priority st) (load_avg st)
    (thread_mlfqs st) (intr_on st) (in_external_intr st) (yield_on_return st) (ticks st)
    (semas st) (locks st) (conds st) (blocked_threads st) (sleep_ticks st).
Definition set_idle_ticks (v : Z) (st : kstate) : kstate :=
  mkKstate (threads st) (current st) (ready_list st) (all_list st) (all_list_addr st)
    (priority_levels st) (idle_thread st) (initial_thread st) (next_tid st) v
    (kernel_ticks st) (thread_ticks st) (highest_priority st) (load_avg st)
    (thread_mlfqs st) (intr_on st) (in_external_intr st) (yield_on_return st) (ticks st)
    (semas st) (locks st) (conds st) (blocked_threads st) (sleep_ticks st).
Definition set_kernel_ticks (v : Z) (st : kstate) : kstate :=
  mkKstate (threads st) (current st) (ready_list st) (all_list st) (all_list_addr st)
    (priority_levels st) (idle_thread st) (initial_thread st) (next_tid st) (idle_ticks st)
    v (thread_ticks st) (highest_priority st) (load_avg st) (thread_mlfqs st) (intr_on st)
    (in_external_intr st) (yield_on_return st) (ticks st) (semas st) (locks st) (conds st)
    (blocked_threads st) (sleep_ticks st).
Definition set_thread_ticks (v : Z) (st : kstate) : kstate :=
  mkKstate (threads st) (current st) (ready_list st) (all_list st) (all_list_addr st)
    (priority_levels st) (idle_thread st) (initial_thread st) (next_tid st) (idle_ticks st)
    (kernel_ticks st) v (highest_priority st) (load_avg st) (thread_mlfqs st) (intr_on st)
    (in_external_intr st) (yield_on_return st) (ticks st) (semas st) (locks st) (conds st)
    (blocked_threads st) (sleep_ticks st).
Definition set_highest_priority (v : Z) (st : kstate) : kstate :=
  mkKstate (threads st) (current st) (ready_list st) (all_list st) (all_list_addr st)
    (priority_levels st) (idle_thread st) (initial_thread st) (next_tid st) (idle_ticks st)
    (kernel_ticks st) (thread_ticks st) v (load_avg st) (thread_mlfqs st) (intr_on st)
    (in_external_intr st) (yield_on_return st) (ticks st) (semas st) (locks st) (conds st)
    (blocked_threads st) (sleep_ticks st).
Definition set_load_avg (v : Z) (st : kstate) : kstate :=
  mkKstate (threads st) (current st) (ready_list st) (all_list st) (all_list_addr st)
    (priority_levels st) (idle_thread st) (initial_thread st) (next_tid st) (idle_ticks st)
    (kernel_ticks st) (thread_ticks st) (highest_priority st) v (thread_mlfqs st)
    (intr_on st) (in_external_intr st) (yield_on_return st) (ticks st) (semas st) (locks st)
    (conds st) (blocked_threads st) (sleep_ticks st).
Definition set_thread_mlfqs (v : bool) (st : kstate) : kstate :=
  mkKstate (threads st) (current st) (ready_list st) (all_list st) (all_list_addr st)
    (priority_levels st) (idle_thread st) (initial_thread st) (next_tid st) (idle_ticks st)
    (kernel_ticks st) (thread_ticks st) (highest_priority st) (load_avg st) v (intr_on st)
    (in_external_intr st) (yield_on_return st) (ticks st) (semas st) (locks st) (conds st)
    (blocked_threads st) (sleep_ticks st).
Definition set_intr_on (v : bool) (st : kstate) : kstate :=
  mkKstate (threads st) (current st) (ready_list st) (all_list st) (all_list_addr st)
    (priority_levels st) (idle_thread st) (initial_thread st) (next_tid st) (idle_ticks st)
    (kernel_ticks st) (thread_ticks st) (highest_priority st) (load_avg st)
    (thread_mlfqs st) v (in_external_intr st) (yield_on_return st) (ticks st) (semas st)
    (locks st) (conds st) (blocked_threads st) (sleep_ticks st).
Definition set_in_external_intr (v : bool) (st : kstate) : kstate :=
  mkKstate (threads st) (current st) (ready_list st) (all_list st) (all_list_addr st)
    (priority_levels st) (idle_thread st) (initial_thread st) (next_tid st) (idle_ticks st)
    (kernel_ticks st) (thread_ticks st) (highest_priority st) (load_avg st)
    (thread_mlfqs st) (intr_on st) v (yield_on_return st) (ticks st) (semas st) (locks st)
    (conds st) (blocked_threads st) (sleep_ticks st).
Definition set_yield_on_return (v : bool) (st : kstate) : kstate :=
  mkKstate (threads st) (current st) (ready_list st) (all_list st) (all_list_addr st)
    (priority_levels st) (idle_thread st) (initial_thread st) (next_tid st) (idle_ticks st)
    (kernel_ticks st) (thread_ticks st) (highest_priority st) (load_avg st)
    (thread_mlfqs st) (intr_on st) (in_external_intr st) v (ticks st) (semas st) (locks st)
    (conds st) (blocked_threads st) (sleep_ticks st).
Definition set_ticks (v : Z) (st : kstate) : kstate :=
  mkKstate (threads st) (current st) (ready_list st) (all_list st) (all_list_addr st)
    (priority_levels st) (idle_thread st) (initial_thread st) (next_tid st) (idle_ticks st)
    (kernel_ticks st) (thread_ticks st) (highest_priority st) (load_avg st)
    (thread_mlfqs st) (intr_on st) (in_external_intr st) (yield_on_return st) v (semas st)
    (locks st) (conds st) (blocked_threads st) (sleep_ticks st).
Definition set_semas (v : gmap Z semaphore) (st : kstate) : kstate :=
  mkKstate (threads st) (current st) (ready_list st) (all_list st) (all_list_addr st)
    (priority_levels st) (idle_thread st) (initial_thread st) (next_tid st) (idle_ticks st)
    (kernel_ticks st) (thread_ticks st) (highest_priority st) (load_avg st)
    (thread_mlfqs st) (intr_on st) (in_external_intr st) (yield_on_return st) (ticks st) v
    (locks st) (conds st) (blocked_threads st) (sleep_ticks st).
Definition set_locks (v : gmap Z Z) (st : kstate) : kstate :=
  mkKstate (threads st) (current st) (ready_list st) (all_list st) (all_list_addr st)
    (priority_levels st) (idle_thread st) (initial_thread st) (next_tid st) (idle_ticks st)
    (kernel_ticks st) (thread_ticks st) (highest_priority st) (load_avg st)
    (thread_mlfqs st) (intr_on st) (in_external_intr st) (yield_on_return st) (ticks st)
    (semas st) v (conds st) (blocked_threads st) (sleep_ticks st).
Definition set_conds (v : gmap Z (list Z)) (st : kstate) : kstate :=
  mkKstate (threads st) (current st) (ready_list st) (all_list st) (all_list_addr st)
    (priority_levels st) (idle_thread st) (initial_thread st) (next_tid st) (idle_ticks st)
    (kernel_ticks st) (thread_ticks st) (highest_priority st) (load_avg st)
    (thread_mlfqs st) (intr_on st) (in_external_intr st) (yield_on_return st) (ticks st)
    (semas st) (locks st) v (blocked_threads st) (sleep_ticks st).
Definition set_blocked_threads (v : list Z) (st : kstate) : kstate :=
  mkKstate (threads st) (current st) (ready_list st) (all_list st) (all_list_addr st)
    (priority_levels st) (idle_thread st) (initial_thread st) (next_tid st) (idle_ticks st)
    (kernel_ticks st) (thread_ticks st) (highest_priority st) (load_avg st)
    (thread_mlfqs st) (intr_on st) (in_external_intr st) (yield_on_return st) (ticks st)
    (semas st) (locks st) (conds st) v (sleep_ticks st).
Definition set_sleep_ticks (v : gmap Z Z) (st : kstate) : kstate :=
  mkKstate (threads st) (current st) (ready_list st) (all_list st) (all_list_addr st)
    (priority_levels st) (idle_thread st) (initial_thread st) (next_tid st) (idle_ticks st)
    (kernel_ticks st) (thread_ticks st) (highest_priority st) (load_avg st)
    (thread_mlfqs st) (intr_on st) (in_external_intr st) (yield_on_return st) (ticks st)
    (semas st) (locks st) (conds st) (blocked_threads st) v.

(** *** Access *)

Definition thr (t : Z) : M kstate thread :=
  gets_opt (fun st => if t =? NULL then None else threads st !! t).

Definition upd_thread (t : Z) (f : thread -> thread) : M kstate unit :=
  th <- thr t ;; modify (fun st => set_threads (<[t := f th]> (threads st)) st).

Definition sem (s : Z) : M kstate semaphore :=
  gets_opt (fun st => if s =? NULL then None else semas st !! s).

Definition upd_sema (s : Z) (v : semaphore) : M kstate unit :=
  sem s ;;; modify (fun st => set_semas (<[s := v]> (semas st)) st).

Definition lock_holder (l : Z) : M kstate Z :=
  gets_opt (fun st => if l =? NULL then None else locks st !! l).

Definition set_holder (l holder : Z) : M kstate unit :=
  lock_holder l ;;; modify (fun st => set_locks (<[l := holder]> (locks st)) st).

(** [list_remove] of the element of [x] from the sequence it is in. *)
Fixpoint remove_first (x : Z) (xs : list Z) : option (list Z) :=
  match xs with
  | [] => None
  | y :: ys => if y =? x then Some ys else option_map (cons y) (remove_first x ys)
  end.

End KState.
