(* ===== verification/Threads.v ===== *)
(** * Threads and the scheduler (src/src/threads/thread.c, interrupt.c)

    The kernel built in src/src/threads, that is, without the [USERPROG]
    additions.  A function that switches to another thread ends, in the
    model, with the switch: what it does afterwards is the [frame] it has
    pushed, run when its thread is scheduled again (see [Kernel]). *)

From S2P Require Import Prelude KState.
Import KState.

Module Threads.

(** ** Interrupt level (threads/interrupt.c) *)

Definition intr_get_level : M kstate bool := gets intr_on.

Definition intr_context : M kstate bool := gets in_external_intr.

Definition intr_enable : M kstate bool :=
  old_level <- intr_get_level ;;
  c <- intr_context ;; ASSERT (negb c) ;;;
  modify (set_intr_on true) ;;; ret old_level.

Definition intr_disable : M kstate bool :=
  old_level <- intr_get_level ;;
  modify (set_intr_on false) ;;; ret old_level.

Definition intr_set_level (level : bool) : M kstate bool :=
  if level then intr_enable else intr_disable.

Definition intr_yield_on_return : M kstate unit :=
  c <- intr_context ;; ASSERT c ;;; modify (set_yield_on_return true).

(** devices/timer.c *)
Definition timer_ticks : M kstate Z :=
  old_level <- intr_disable ;;
  t <- gets ticks ;;
  intr_set_level old_level ;;; ret t.

(** ** The running thread *)

(** The thread whose page holds the stack pointer. *)
Definition running_thread : M kstate Z := gets current.

Definition is_thread (t : Z) : M kstate bool :=
  if t =? NULL then ret false else th <- thr t ;; ret (magic th =? THREAD_MAGIC).

Definition thread_current : M kstate Z :=
  t <- running_thread ;;
  b <- is_thread t ;; ASSERT b ;;;
  th <- thr t ;; ASSERT (bool_decide (status th = THREAD_RUNNING)) ;;;
  ret t.

(** Push what is left to do of the running function. *)
Definition push_frame (f : frame) : M kstate unit :=
  t <- running_thread ;; upd_thread t (fun th => set_kstack (f :: kstack th) th).

(** ** Ordering *)

Definition priority_of (st : kstate) (t : Z) : Z :=
  match threads st !! t with Some th => priority th | None => 0 end.

Definition base_priority_of (st : kstate) (t : Z) : Z :=
  match threads st !! t with Some th => base_priority th | None => 0 end.

(** The comparison on elements embedded as [elem]. *)
Definition list_desc_prio_sort (st : kstate) (a b : Z) : bool :=
  if thread_mlfqs st then base_priority_of st a >? base_priority_of st b
  else priority_of st a >? priority_of st b.

Definition ready_insert (t : Z) : M kstate unit :=
  modify (fun st => set_ready_list (insert_ordered (list_desc_prio_sort st) t (ready_list st)) st).

(** ** The priority queues of the advanced scheduler *)

(** [list_push_back (&priority_levels[p], ...)]. *)
Definition level_push_back (p t : Z) : M kstate unit :=
  lv <- gets_opt (fun st => if p <? 0 then None else priority_levels st !! Z.to_nat p) ;;
  modify (fun st => set_priority_levels (<[Z.to_nat p := lv ++ [t]]> (priority_levels st)) st).

(** [list_remove] of a [priority_elem]: out of the level it is in. *)
Fixpoint levels_remove (t : Z) (levels : list (list Z)) : option (list (list Z)) :=
  match levels with
  | [] => None
  | lv :: rest =>
      match remove_first t lv with
      | Some lv' => Some (lv' :: rest)
      | None => option_map (cons lv) (levels_remove t rest)
      end
  end.

Definition level_remove (t : Z) : M kstate unit :=
  lvs <- gets_opt (fun st => levels_remove t (priority_levels st)) ;;
  modify (set_priority_levels lvs).

Definition raise_highest (p : Z) : M kstate unit :=
  hp <- gets highest_priority ;;
  if p >? hp then modify (set_highest_priority p) else ret tt.

(** The [while] loop of [highest_non_empty_level]. *)
Fixpoint highest_non_empty_loop (fuel : nat) (level : Z) : M kstate Z :=
  match fuel with
  | O => fail Out_of_fuel
  | S fuel' =>
      lv <- gets_opt (fun st => if level <? 0 then None else priority_levels st !! Z.to_nat level) ;;
      match lv with
      | [] => highest_non_empty_loop fuel' (level - 1)
      | _ => ret level
      end
  end.

Definition highest_non_empty_level : M kstate Z :=
  hp <- gets highest_priority ;; highest_non_empty_loop 65 hp.

Definition update_priority (t : Z) : M kstate unit :=
  idle <- gets idle_thread ;;
  if t =? idle then ret tt
  else
    th <- thr t ;;
    let old_priority := priority th in
    let priority := mlfqs_priority (recent_cpu th) (nice th) in
    upd_thread t (set_priority priority) ;;;
    (if negb (priority =? old_priority) && bool_decide (status th = THREAD_READY)
     then level_remove t ;;; level_push_back priority t
     else ret tt) ;;;
    raise_highest priority.

Definition update_recent_cpu (t : Z) : M kstate unit :=
  idle <- gets idle_thread ;;
  if t =? idle then ret tt
  else
    th <- thr t ;;
    la <- gets load_avg ;;
    upd_thread t (set_recent_cpu (mlfqs_recent_cpu la (recent_cpu th) (nice th))).

Definition count_ready_threads : M kstate Z :=
  rl <- gets ready_list ;;
  cur <- thread_current ;; idle <- gets idle_thread ;;
  let ready := Z.of_nat (length rl) in
  ret (u32 (if cur =? idle then ready else ready + 1)).

Definition update_load_avg : M kstate unit :=
  ready_threads <- count_ready_threads ;;
  modify (fun st => set_load_avg (mlfqs_load_avg (load_avg st) ready_threads) st).

(** [thread_foreach (func, NULL)]. *)
Fixpoint foreach (func : Z -> M kstate unit) (ts : list Z) : M kstate unit :=
  match ts with
  | [] => ret tt
  | t :: ts' => func t ;;; foreach func ts'
  end.

Definition thread_foreach (func : Z -> M kstate unit) : M kstate unit :=
  l <- intr_get_level ;; ASSERT (negb l) ;;;
  ts <- gets all_list ;; foreach func ts.

Definition is_mult_of_four : M kstate bool :=
  t <- timer_ticks ;; ret (Z.rem t TIME_SLICE =? 0).

Definition is_mult_of_second : M kstate bool :=
  t <- timer_ticks ;; ret (Z.rem t TIMER_FREQ =? 0).

(** ** Choosing and switching *)

Definition next_thread_to_run : M kstate Z :=
  rl <- gets ready_list ;;
  match rl with
  | [] => gets idle_thread
  | front :: rest =>
      m <- gets thread_mlfqs ;;
      if (m : bool) then
        level <- highest_non_empty_level ;;
        lv <- gets_opt (fun st => priority_levels st !! Z.to_nat level) ;;
        match lv with
        | [] => fail Assertion_failed
        | next :: _ =>
            level_remove next ;;;
            rl' <- gets_opt (fun _ => remove_first next rl) ;;
            modify (set_ready_list rl') ;;; ret next
        end
      else modify (set_ready_list rest) ;;; ret front
  end.

Definition thread_schedule_tail (prev : Z) : M kstate unit :=
  cur <- running_thread ;;
  l <- intr_get_level ;; ASSERT (negb l) ;;;
  upd_thread cur (set_status THREAD_RUNNING) ;;;
  modify (set_thread_ticks 0) ;;;
  if prev =? NULL then ret tt
  else
    p <- thr prev ;; init <- gets initial_thread ;;
    if bool_decide (status p = THREAD_DYING) && negb (prev =? init) then
      ASSERT (negb (prev =? cur)) ;;;
      modify (fun st => set_threads (delete prev (threads st)) st)
    else ret tt.

Definition schedule : M kstate unit :=
  cur <- running_thread ;;
  next <- next_thread_to_run ;;
  l <- intr_get_level ;; ASSERT (negb l) ;;;
  th <- thr cur ;; ASSERT (negb (bool_decide (status th = THREAD_RUNNING))) ;;;
  b <- is_thread next ;; ASSERT b ;;;
  if negb (cur =? next) then modify (set_current next) ;;; thread_schedule_tail cur
  else thread_schedule_tail NULL.

Definition thread_block : M kstate unit :=
  c <- intr_context ;; ASSERT (negb c) ;;;
  l <- intr_get_level ;; ASSERT (negb l) ;;;
  cur <- thread_current ;;
  upd_thread cur (set_status THREAD_BLOCKED) ;;;
  schedule.

Definition thread_unblock (t : Z) : M kstate unit :=
  b <- is_thread t ;; ASSERT b ;;;
  old_level <- intr_disable ;;
  th <- thr t ;; ASSERT (bool_decide (status th = THREAD_BLOCKED)) ;;;
  ready_insert t ;;;
  m <- gets thread_mlfqs ;;
  (if (m : bool) then level_push_back (priority th) t ;;; raise_highest (priority th)
   else ret tt) ;;;
  upd_thread t (set_status THREAD_READY) ;;;
  intr_set_level old_level ;;; ret tt.

Definition thread_yield : M kstate unit :=
  cur <- thread_current ;;
  c <- intr_context ;; ASSERT (negb c) ;;;
  old_level <- intr_disable ;;
  idle <- gets idle_thread ;;
  (if negb (cur =? idle) then
     ready_insert cur ;;;
     m <- gets thread_mlfqs ;;
     if (m : bool) then
       th <- thr cur ;; level_push_back (priority th) cur ;;; raise_highest (priority th)
     else ret tt
   else ret tt) ;;;
  upd_thread cur (set_status THREAD_READY) ;;;
  push_frame (F_yield old_level) ;;;
  schedule.

Definition thread_exit : M kstate unit :=
  c <- intr_context ;; ASSERT (negb c) ;;;
  intr_disable ;;;
  cur <- thread_current ;;
  al <- gets_opt (fun st => remove_first cur (all_list st)) ;;
  modify (set_all_list al) ;;;
  upd_thread cur (set_status THREAD_DYING) ;;;
  schedule.

Definition thread_tick : M kstate unit :=
  t <- thread_current ;;
  idle <- gets idle_thread ;;
  (if t =? idle then modify (fun st => set_idle_ticks (s64 (idle_ticks st + 1)) st)
   else modify (fun st => set_kernel_ticks (s64 (kernel_ticks st + 1)) st)) ;;;
  m <- gets thread_mlfqs ;;
  (if (m : bool) then
     (if negb (t =? idle) then
        upd_thread t (fun th => set_recent_cpu (ADD_FIXED_POINT_INT (recent_cpu th) INCR_VALUE) th)
      else ret tt) ;;;
     sec <- is_mult_of_second ;;
     (if (sec : bool) then update_load_avg ;;; thread_foreach update_recent_cpu else ret tt) ;;;
     four <- is_mult_of_four ;;
     (if (four : bool) then thread_foreach update_priority else ret tt)
   else ret tt) ;;;
  modify (fun st => set_thread_ticks (u32 (thread_ticks st + 1)) st) ;;;
  tt' <- gets thread_ticks ;;
  if tt' >=? TIME_SLICE then intr_yield_on_return else ret tt.

(** ** Priority and niceness of the running thread *)

(** [stray] is the [int] found where [priority] would be if the list tail
    were inside a thread: the code reads it when the ready list is empty. *)
Definition thread_set_priority (stray new_priority : Z) : M kstate unit :=
  old_intr_level <- intr_disable ;;
  push_frame (F_set_level old_intr_level) ;;;
  if (new_priority <=? 63) && (new_priority >=? 0) then
    cur <- thread_current ;;
    th <- thr cur ;;
    (match donor_threads th with
     | [] => upd_thread cur (set_priority new_priority)
     | _ =>
         if priority th <? new_priority then
           upd_thread cur (set_donor_threads []) ;;; upd_thread cur (set_priority new_priority)
         else ret tt
     end) ;;;
    upd_thread cur (set_base_priority new_priority) ;;;
    rl <- gets ready_list ;;
    hp <- (match rl with [] => ret stray | front :: _ => th <- thr front ;; ret (priority th) end) ;;
    th' <- thr cur ;;
    if hp >? priority th' then thread_yield else ret tt
  else ret tt.

Definition thread_get_priority : M kstate Z :=
  cur <- thread_current ;; th <- thr cur ;; ret (priority th).

Definition thread_set_nice (new_nice : Z) : M kstate unit :=
  ASSERT ((new_nice >=? NICE_MIN) && (new_nice <=? NICE_MAX)) ;;;
  cur <- thread_current ;;
  upd_thread cur (set_nice (s8 new_nice)) ;;;
  idle <- gets idle_thread ;;
  (if negb (cur =? idle) then update_priority cur else ret tt) ;;;
  c <- intr_context ;; th <- thr cur ;; hp <- gets highest_priority ;;
  if negb c && (priority th <? hp) then thread_yield else ret tt.

Definition thread_get_nice : M kstate Z :=
  cur <- thread_current ;; th <- thr cur ;; ret (nice th).

Definition thread_get_load_avg : M kstate Z :=
  la <- gets load_avg ;; ret (hundred_times la).

Definition thread_get_recent_cpu : M kstate Z :=
  cur <- thread_current ;; th <- thr cur ;; ret (hundred_times (recent_cpu th)).

Definition thread_tid : M kstate Z :=
  cur <- thread_current ;; th <- thr cur ;; ret (tid th).

(** ** Creation *)

(** [offsetof (struct thread, ...)] plays no part here: the zeroed page and
    then the fields [init_thread] sets. *)
Definition zero_thread : thread :=
  mkThread 0 THREAD_RUNNING [] 0 0 0 [] NULL 0 0 0 [].

Definition init_thread (t : Z) (nm : list Z) (prio : Z) : M kstate unit :=
  ASSERT (negb (t =? NULL)) ;;;
  ASSERT ((PRI_MIN <=? prio) && (prio <=? PRI_MAX)) ;;;
  modify (fun st => set_threads (<[t := zero_thread]> (threads st)) st) ;;;
  upd_thread t (set_status THREAD_BLOCKED) ;;;
  upd_thread t (set_name (take 15 nm)) ;;;
  upd_thread t (set_stack (u32 (t + PGSIZE))) ;;;
  m <- gets thread_mlfqs ;; init <- gets initial_thread ;;
  (if (m : bool) then
     if t =? init then
       upd_thread t (set_nice 0) ;;; upd_thread t (set_recent_cpu 0) ;;; update_priority t
     else
       r <- running_thread ;; rth <- thr r ;;
       upd_thread t (set_nice (nice rth)) ;;;
       upd_thread t (set_recent_cpu (recent_cpu rth)) ;;; update_priority t
   else upd_thread t (set_priority prio)) ;;;
  upd_thread t (set_base_priority prio) ;;;
  upd_thread t (set_priority prio) ;;;
  upd_thread t (set_magic THREAD_MAGIC) ;;;
  upd_thread t (set_base_priority prio) ;;;
  upd_thread t (set_donor_threads []) ;;;
  upd_thread t (set_waiting_lock NULL) ;;;
  old_level <- intr_disable ;;
  modify (fun st => set_all_list (all_list st ++ [t]) st) ;;;
  intr_set_level old_level ;;; ret tt.

Definition alloc_frame (t size : Z) : M kstate Z :=
  b <- is_thread t ;; ASSERT b ;;;
  ASSERT (Z.rem size 4 =? 0) ;;;
  upd_thread t (fun th => set_stack (u32 (stack th - size)) th) ;;;
  th <- thr t ;; ret (stack th).

Fixpoint find_tid (st : kstate) (id : Z) (ts : list Z) : Z :=
  match ts with
  | [] => NULL
  | t :: ts' =>
      match threads st !! t with
      | Some th => if tid th =? id then t else find_tid st id ts'
      | None => find_tid st id ts'
      end
  end.

Definition thread_by_tid (id : Z) : M kstate Z := gets (fun st => find_tid st id (all_list st)).

Definition get_thread (id : Z) : M kstate Z := gets (fun st => find_tid st id (all_list st)).

End Threads.
