(* ===== verification/Synch.v ===== *)
(** * Synchronization primitives (src/src/threads/synch.c)

    Semaphores, locks with priority donation, and condition variables, as
    operations on the state of [KState].  A call that may sleep first pushes
    the frame that says how the calling function goes on. *)

From S2P Require Import Prelude DListSort KState Threads.
Import KState Threads.

Module Synch.

(** ** Semaphores *)

Definition sema_init (s v : Z) : M kstate unit :=
  ASSERT (negb (s =? NULL)) ;;;
  modify (fun st => set_semas (<[s := mkSema (u32 v) []]> (semas st)) st).

Definition waiters_insert (s t : Z) : M kstate unit :=
  sm <- sem s ;; st <- get ;;
  upd_sema s (mkSema (value sm) (insert_ordered (list_desc_prio_sort st) t (waiters sm))).

(** The [while] loop of [sema_down] up to the next time the thread sleeps,
    and what follows the loop. *)
Definition sema_down_loop (s : Z) (old_level : bool) : M kstate unit :=
  sm <- sem s ;;
  if value sm =? 0 then
    cur <- thread_current ;;
    waiters_insert s cur ;;;
    push_frame (F_sema_down s old_level) ;;;
    thread_block
  else
    upd_sema s (mkSema (u32 (value sm - 1)) (waiters sm)) ;;;
    intr_set_level old_level ;;; ret tt.

Definition sema_down (s : Z) : M kstate unit :=
  ASSERT (negb (s =? NULL)) ;;;
  c <- intr_context ;; ASSERT (negb c) ;;;
  old_level <- intr_disable ;;
  sema_down_loop s old_level.

Definition sema_try_down (s : Z) : M kstate bool :=
  ASSERT (negb (s =? NULL)) ;;;
  old_level <- intr_disable ;;
  sm <- sem s ;;
  success <- (if value sm >? 0 then
                upd_sema s (mkSema (u32 (value sm - 1)) (waiters sm)) ;;; ret true
              else ret false) ;;
  intr_set_level old_level ;;; ret success.

Definition sema_up (s : Z) : M kstate unit :=
  ASSERT (negb (s =? NULL)) ;;;
  old_level <- intr_disable ;;
  sm <- sem s ;; st <- get ;;
  t <- (match waiters sm with
        | [] => ret NULL
        | _ =>
            match DListSort.stable_sort (list_desc_prio_sort st) (waiters sm) with
            | [] => fail Assertion_failed
            | t :: rest =>
                upd_sema s (mkSema (value sm) rest) ;;; thread_unblock t ;;; ret t
            end
        end) ;;
  sm' <- sem s ;;
  upd_sema s (mkSema (u32 (value sm' + 1)) (waiters sm')) ;;;
  intr_set_level old_level ;;;
  c <- intr_context ;;
  if (c : bool) then intr_yield_on_return
  else if negb (t =? NULL) then
    th <- thr t ;; cur <- thread_current ;; cth <- thr cur ;;
    if priority th >? priority cth then thread_yield else ret tt
  else ret tt.

(** ** Locks *)

Definition lock_init (l : Z) : M kstate unit :=
  ASSERT (negb (l =? NULL)) ;;;
  modify (fun st => set_locks (<[l := NULL]> (locks st)) st) ;;;
  sema_init (lock_sema l) 1.

Definition lock_held_by_current_thread (l : Z) : M kstate bool :=
  ASSERT (negb (l =? NULL)) ;;;
  h <- lock_holder l ;; cur <- thread_current ;; ret (h =? cur).

(** [lock_acquire] and [lock_release] run with interrupts on but for the
    semaphore operation in them, so both are cut there: the frame
    [F_acquire_down] is the call of [sema_down], [F_lock_acquire] the end of
    [lock_acquire], [F_release_up] the call of [sema_up]. *)

(** *** The order of the donor list

    The donor list links threads through [donor_elem], at offset 60 of
    [struct thread], but is ordered with [list_desc_prio_sort], which
    subtracts the offset of [elem], 72.  The "threads" it compares start 12
    bytes too early, so it reads [allelem.prev] (offset 28) where it means
    [priority] (offset 40), and [stack] (24) for [base_priority] (36). *)

(** The predecessor of [t] in [xs], or [d] when [t] is its first element. *)
Fixpoint pred_in (d t : Z) (xs : list Z) : Z :=
  match xs with
  | [] => d
  | x :: xs' => if x =? t then d else pred_in (x + 28) t xs'
  end.

Definition donor_key (st : kstate) (t : Z) : Z :=
  if thread_mlfqs st then
    match threads st !! t with Some th => s32 (stack th) | None => 0 end
  else s32 (pred_in (all_list_addr st) t (all_list st)).

Definition donor_sort (st : kstate) (a b : Z) : bool := donor_key st a >? donor_key st b.

(** The loop over nested locks; [prio] is the donated priority. *)
Fixpoint donate_chain (fuel : nat) (nested_lock prio : Z) : M kstate unit :=
  match fuel with
  | O => fail Out_of_fuel
  | S fuel' =>
      if nested_lock =? NULL then ret tt
      else
        owner <- lock_holder nested_lock ;;
        upd_thread owner (set_priority prio) ;;;
        oth <- thr owner ;;
        donate_chain fuel' (waiting_lock oth) prio
  end.

Definition donate (fuel : nat) (l cur : Z) : M kstate unit :=
  owner <- lock_holder l ;;
  if owner =? NULL then ret tt
  else
    cth <- thr cur ;; oth <- thr owner ;;
    if priority cth >? priority oth then
      upd_thread owner (set_priority (priority cth)) ;;;
      st <- get ;;
      upd_thread owner (fun th =>
        set_donor_threads (insert_ordered (donor_sort st) cur (donor_threads th)) th) ;;;
      upd_thread cur (set_waiting_lock l) ;;;
      oth' <- thr owner ;;
      donate_chain fuel (waiting_lock oth') (priority cth)
    else ret tt.

Definition lock_acquire (fuel : nat) (l : Z) : M kstate unit :=
  ASSERT (negb (l =? NULL)) ;;;
  c <- intr_context ;; ASSERT (negb c) ;;;
  held <- lock_held_by_current_thread l ;; ASSERT (negb held) ;;;
  cur <- thread_current ;;
  donate fuel l cur ;;;
  push_frame (F_lock_acquire l) ;;;
  push_frame (F_acquire_down l).

(** The end of [lock_acquire], once [sema_down] has returned. *)
Definition lock_acquire_end (l : Z) : M kstate unit :=
  cur <- running_thread ;;
  upd_thread cur (set_waiting_lock NULL) ;;;
  cur' <- thread_current ;;
  set_holder l cur'.

(** [struct semaphore sema = lock->semaphore]: a copy on the stack of the
    running thread, at [copy], is decremented instead of the lock's own. *)
Definition lock_try_acquire (copy l : Z) : M kstate bool :=
  ASSERT (negb (l =? NULL)) ;;;
  held <- lock_held_by_current_thread l ;; ASSERT (negb held) ;;;
  sm <- sem (lock_sema l) ;;
  modify (fun st => set_semas (<[copy := sm]> (semas st)) st) ;;;
  success <- sema_try_down copy ;;
  (if (success : bool) then cur <- thread_current ;; set_holder l cur else ret tt) ;;;
  modify (fun st => set_semas (delete copy (semas st)) st) ;;;
  ret success.

Definition waiting_for (st : kstate) (l t : Z) : bool :=
  match threads st !! t with Some th => waiting_lock th =? l | None => false end.

Definition lock_release (l : Z) : M kstate unit :=
  ASSERT (negb (l =? NULL)) ;;;
  held <- lock_held_by_current_thread l ;; ASSERT held ;;;
  cur <- thread_current ;;
  set_holder l NULL ;;;
  th <- thr cur ;;
  (match donor_threads th with
   | [] => ret tt
   | donors =>
       st <- get ;;
       let rest := List.filter (fun t => negb (waiting_for st l t)) donors in
       upd_thread cur (set_donor_threads rest) ;;;
       match rest with
       | d :: _ => dth <- thr d ;; upd_thread cur (set_priority (priority dth))
       | [] => upd_thread cur (set_priority (base_priority th))
       end
   end) ;;;
  push_frame (F_release_up l).

(** ** Condition variables *)

Definition cond_waiters (c : Z) : M kstate (list Z) :=
  gets_opt (fun st => if c =? NULL then None else conds st !! c).

Definition set_cond (c : Z) (ws : list Z) : M kstate unit :=
  cond_waiters c ;;; modify (fun st => set_conds (<[c := ws]> (conds st)) st).

Definition cond_init (c : Z) : M kstate unit :=
  ASSERT (negb (c =? NULL)) ;;;
  modify (fun st => set_conds (<[c := []]> (conds st)) st).

(** [waiter] is the [struct semaphore_elem] on the caller's stack. *)
Definition cond_wait (waiter c l : Z) : M kstate unit :=
  ASSERT (negb (c =? NULL)) ;;;
  ASSERT (negb (l =? NULL)) ;;;
  ic <- intr_context ;; ASSERT (negb ic) ;;;
  held <- lock_held_by_current_thread l ;; ASSERT held ;;;
  sema_init (elem_sema waiter) 0 ;;;
  ws <- cond_waiters c ;; set_cond c (ws ++ [waiter]) ;;;
  push_frame (F_cond_wait l waiter) ;;;
  lock_release l.

(** The priority [condvar_desc_sort] compares: that of the first waiter of
    the semaphore, which must have one ([list_front] asserts it). *)
Definition cond_key (st : kstate) (w : Z) : option Z :=
  match semas st !! elem_sema w with
  | Some sm => match waiters sm with t :: _ => Some (priority_of st t) | [] => None end
  | None => None
  end.

Definition condvar_desc_sort (st : kstate) (a b : Z) : bool :=
  match cond_key st a, cond_key st b with Some x, Some y => x >? y | _, _ => false end.

Definition cond_signal (c l : Z) : M kstate unit :=
  ASSERT (negb (c =? NULL)) ;;;
  ASSERT (negb (l =? NULL)) ;;;
  ic <- intr_context ;; ASSERT (negb ic) ;;;
  held <- lock_held_by_current_thread l ;; ASSERT held ;;;
  old_level <- intr_disable ;;
  ws <- cond_waiters c ;; st <- get ;;
  (* [list_sort] compares only when there are two elements or more. *)
  (match ws with
   | _ :: _ :: _ =>
       ASSERT (forallb (fun w => bool_decide (is_Some (cond_key st w))) ws) ;;;
       set_cond c (DListSort.stable_sort (condvar_desc_sort st) ws)
   | _ => ret tt
   end) ;;;
  intr_set_level old_level ;;;
  ws' <- cond_waiters c ;;
  match ws' with
  | [] => fail Assertion_failed
  | w :: rest => set_cond c rest ;;; sema_up (elem_sema w)
  end.

(** One test of the loop of [cond_broadcast]; the frame repeats it. *)
Definition cond_broadcast_loop (c l : Z) : M kstate unit :=
  ws <- cond_waiters c ;;
  match ws with
  | [] => ret tt
  | _ => push_frame (F_cond_broadcast c l) ;;; cond_signal c l
  end.

Definition cond_broadcast (c l : Z) : M kstate unit :=
  ASSERT (negb (c =? NULL)) ;;;
  ASSERT (negb (l =? NULL)) ;;;
  cond_broadcast_loop c l.

End Synch.
