(* ===== verification/Kernel.v ===== *)
(** * The threading system as a whole

    The functions of src/src/threads/thread.c that need locks
    ([thread_create], [thread_init], [thread_start], [idle]), the timer of
    src/src/devices/timer.c, the interrupt dispatch of
    src/src/threads/interrupt.c, and the machine that interleaves threads
    and timer interrupts. *)

From S2P Require Import Prelude KState Threads Synch.
Import KState Threads Synch.

Module Kernel.

(** The address of the static [tid_lock], and a bound on the length of
    donation chains. *)
Definition tid_lock : Z := 16.
Definition chain_fuel : nat := 100.

(** ** Thread creation *)

(** [allocate_tid]: up to the first call that may sleep.  Its end is the
    frame [F_allocate_tid], and its caller's assignment [F_set_tid]. *)
Definition allocate_tid (t : Z) : M kstate unit :=
  push_frame (F_allocate_tid t) ;;; lock_acquire chain_fuel tid_lock.

Definition allocate_tid_end (t : Z) : M kstate unit :=
  n <- gets next_tid ;;
  modify (set_next_tid (s32 (n + 1))) ;;;
  push_frame (F_set_tid t n) ;;;
  lock_release tid_lock.

Definition thread_init : M kstate unit :=
  l <- intr_get_level ;; ASSERT (negb l) ;;;
  lock_init tid_lock ;;;
  modify (set_ready_list []) ;;;
  modify (set_all_list []) ;;;
  m <- gets thread_mlfqs ;;
  (if (m : bool) then
     modify (set_priority_levels (replicate (Z.to_nat NUM_QUEUES) [])) ;;;
     modify (set_load_avg 0) ;;; modify (set_highest_priority PRI_MIN)
   else ret tt) ;;;
  r <- running_thread ;;
  modify (set_initial_thread r) ;;;
  init_thread r [109; 97; 105; 110] PRI_DEFAULT ;;;
  upd_thread r (set_status THREAD_RUNNING) ;;;
  allocate_tid r.

(** [page] is what [palloc_get_page (PAL_ZERO)] returned. *)
Definition thread_create (page : Z) (nm : list Z) (prio : Z) (function : thread_func)
  : M kstate unit :=
  if page =? NULL then ret tt
  else
    init_thread page nm prio ;;;
    cur <- thread_current ;; cth <- thr cur ;;
    upd_thread page (set_nice (nice cth)) ;;;
    upd_thread page (set_recent_cpu (recent_cpu cth)) ;;;
    push_frame (F_thread_create page function) ;;;
    allocate_tid page.

(** The rest of [thread_create]: the three stack frames (12, 4 and 28
    bytes), whose contents make the new thread start in [kernel_thread]. *)
Definition thread_create_end (t : Z) (function : thread_func) : M kstate unit :=
  old_level <- intr_disable ;;
  alloc_frame t 12 ;;;
  upd_thread t (fun th => set_kstack (F_kernel_thread function :: kstack th) th) ;;;
  alloc_frame t 4 ;;;
  alloc_frame t 28 ;;;
  intr_set_level old_level ;;;
  thread_unblock t ;;;
  th <- thr t ;; cur <- thread_current ;; cth <- thr cur ;;
  m <- gets thread_mlfqs ;;
  if ((base_priority th >? base_priority cth) && m)
     || ((priority th >? priority cth) && negb m)
  then thread_yield else ret tt.

(** [kernel_thread]: a client body then makes calls of its own. *)
Definition kernel_thread (function : thread_func) : M kstate unit :=
  intr_enable ;;;
  match function with
  | Fn_client => ret tt
  | Fn_idle idle_started =>
      cur <- thread_current ;;
      modify (set_idle_thread cur) ;;;
      push_frame F_idle_loop ;;;
      sema_up idle_started
  end.

(** The loop of [idle], in two halves around [thread_block]. *)
Definition idle_loop : M kstate unit :=
  intr_disable ;;; push_frame F_idle_wake ;;; thread_block.

Definition idle_wake : M kstate unit :=
  modify (set_intr_on true) ;;; push_frame F_idle_loop.

Definition thread_start (page idle_started : Z) : M kstate unit :=
  sema_init idle_started 0 ;;;
  push_frame (F_thread_start idle_started) ;;;
  thread_create page [105; 100; 108; 101] PRI_MIN (Fn_idle idle_started).

Definition thread_start_end (idle_started : Z) : M kstate unit :=
  intr_enable ;;; sema_down idle_started.

(** ** The timer (devices/timer.c) *)

Definition ticks_of (st : kstate) (sl : Z) : Z := default 0 (sleep_ticks st !! sl).

Definition ticks_less_func (st : kstate) (a b : Z) : bool := ticks_of st a <? ticks_of st b.

(** The [struct sleeping_thread] of a call is on the stack of its caller: it
    exists ([sleep_ticks] has it) from the start of [timer_sleep] to its
    return.  Its address [sl] is not that of another call's, and a caller
    that put it where one lies that is still on the list would destroy the
    list. *)
Definition sleeper_new (sl : Z) : M kstate unit :=
  gets_opt (fun st => if bool_decide (sleep_ticks st !! sl = None /\ sl ∉ blocked_threads st) then Some tt else None).

(** Memory of objects that must still exist. *)
Definition touch_sleepers (l : list Z) : M kstate unit :=
  gets_opt (fun st => if forallb (fun y => bool_decide (is_Some (sleep_ticks st !! y))) l then Some tt else None).

(** The elements that [list_insert_ordered] compares [sl] with; the two that
    it links it to are among them. *)
Fixpoint compared (less : Z -> Z -> bool) (sl : Z) (l : list Z) : list Z :=
  match l with
  | [] => []
  | y :: l' => y :: (if less sl y then [] else compared less sl l')
  end.

(** [timer_sleep] in four parts, between which a tick can occur. *)
Definition timer_sleep (sl n : Z) : M kstate unit :=
  if n >? 0 then
    start <- timer_ticks ;;
    thread_current ;;;
    sleeper_new sl ;;;
    modify (fun st => set_sleep_ticks (<[sl := n]> (sleep_ticks st)) st) ;;;
    sema_init (sleep_sema sl) 0 ;;;
    push_frame (F_timer_sleep sl n start)
  else ret tt.

Definition timer_sleep_insert (sl n start : Z) : M kstate unit :=
  old_level <- intr_disable ;;
  cs <- gets (fun st => compared (ticks_less_func st) sl (blocked_threads st)) ;; touch_sleepers cs ;;;
  modify (fun st => set_blocked_threads
    (insert_ordered (ticks_less_func st) sl (blocked_threads st)) st) ;;;
  intr_set_level old_level ;;;
  push_frame (F_timer_check sl n start).

Definition timer_elapsed (start : Z) : M kstate Z :=
  t <- timer_ticks ;; ret (s64 (t - start)).

Definition timer_sleep_check (sl n start : Z) : M kstate unit :=
  e <- timer_elapsed start ;;
  push_frame (F_timer_end sl) ;;;
  if e <? n then sema_down (sleep_sema sl) else ret tt.

(** The return from [timer_sleep]: its object is no more. *)
Definition timer_sleep_end (sl : Z) : M kstate unit :=
  modify (fun st => set_sleep_ticks (delete sl (sleep_ticks st)) st) ;;;
  modify (fun st => set_semas (delete (sleep_sema sl) (semas st)) st).

(** One sleeper of the loop of [timer_interrupt], whose object must exist. *)
Definition timer_wake (sl : Z) : M kstate unit :=
  n <- gets_opt (fun st => sleep_ticks st !! sl) ;;
  if n >? 0 then
    modify (fun st => set_sleep_ticks (<[sl := n - 1]> (sleep_ticks st)) st) ;;;
    if n - 1 =? 0 then
      sema_up (sleep_sema sl) ;;;
      bl <- gets_opt (fun st => remove_first sl (blocked_threads st)) ;;
      modify (set_blocked_threads bl)
    else ret tt
  else ret tt.

Definition timer_interrupt : M kstate unit :=
  modify (fun st => set_ticks (s64 (ticks st + 1)) st) ;;;
  thread_tick ;;;
  bl <- gets blocked_threads ;; foreach timer_wake bl.

(** A timer interrupt while interrupts are on: the processor turns them
    off, [intr_handler] runs the handler, and the return from the interrupt
    turns them on again ([F_iret]). *)
Definition intr_handler_timer : M kstate unit :=
  modify (set_intr_on false) ;;;
  push_frame F_iret ;;;
  l <- intr_get_level ;; ASSERT (negb l) ;;;
  c <- intr_context ;; ASSERT (negb c) ;;;
  modify (set_in_external_intr true) ;;;
  modify (set_yield_on_return false) ;;;
  timer_interrupt ;;;
  l' <- intr_get_level ;; ASSERT (negb l') ;;;
  c' <- intr_context ;; ASSERT c' ;;;
  modify (set_in_external_intr false) ;;;
  y <- gets yield_on_return ;;
  if (y : bool) then thread_yield else ret tt.

(** ** The machine *)

(** Continue the function a frame belongs to. *)
Definition run_frame (f : frame) : M kstate unit :=
  match f with
  | F_yield old | F_set_level old => intr_set_level old ;;; ret tt
  | F_sema_down s old => sema_down_loop s old
  | F_acquire_down l => sema_down (lock_sema l)
  | F_lock_acquire l => lock_acquire_end l
  | F_release_up l => sema_up (lock_sema l)
  | F_cond_wait l w => push_frame (F_relock l) ;;; sema_down (elem_sema w)
  | F_relock l => lock_acquire chain_fuel l
  | F_cond_broadcast c l => cond_broadcast_loop c l
  | F_allocate_tid t => allocate_tid_end t
  | F_set_tid t n => upd_thread t (set_tid n)
  | F_thread_create t fn => thread_create_end t fn
  | F_thread_start s => thread_start_end s
  | F_kernel_thread fn => kernel_thread fn
  | F_idle_loop => idle_loop
  | F_idle_wake => idle_wake
  | F_timer_sleep sl n start => timer_sleep_insert sl n start
  | F_timer_check sl n start => timer_sleep_check sl n start
  | F_timer_end sl => timer_sleep_end sl
  | F_iret => modify (set_intr_on true)
  end.

(** The calls a kernel thread can make. *)
Inductive api : Type :=
| A_sema_init (s v : Z)
| A_sema_down (s : Z)
| A_sema_try_down (s : Z)
| A_sema_up (s : Z)
| A_lock_init (l : Z)
| A_lock_acquire (l : Z)
| A_lock_try_acquire (copy l : Z)
| A_lock_release (l : Z)
| A_cond_init (c : Z)
| A_cond_wait (w c l : Z)
| A_cond_signal (c l : Z)
| A_cond_broadcast (c l : Z)
| A_thread_start (page idle_started : Z)
| A_thread_create (page : Z) (nm : list Z) (prio : Z)
| A_thread_yield
| A_thread_exit
| A_thread_set_priority (stray prio : Z)
| A_thread_set_nice (n : Z)
| A_timer_sleep (sl n : Z).

Definition run_api (a : api) : M kstate unit :=
  match a with
  | A_sema_init s v => sema_init s v
  | A_sema_down s => sema_down s
  | A_sema_try_down s => sema_try_down s ;;; ret tt
  | A_sema_up s => sema_up s
  | A_lock_init l => lock_init l
  | A_lock_acquire l => lock_acquire chain_fuel l
  | A_lock_try_acquire copy l => lock_try_acquire copy l ;;; ret tt
  | A_lock_release l => lock_release l
  | A_cond_init c => cond_init c
  | A_cond_wait w c l => cond_wait w c l
  | A_cond_signal c l => cond_signal c l
  | A_cond_broadcast c l => cond_broadcast c l
  | A_thread_start page s => thread_start page s
  | A_thread_create page nm prio => thread_create page nm prio Fn_client
  | A_thread_yield => thread_yield
  | A_thread_exit => thread_exit
  | A_thread_set_priority stray p => thread_set_priority stray p
  | A_thread_set_nice n => thread_set_nice n
  | A_timer_sleep sl n => timer_sleep sl n
  end.

Definition current_stack (st : kstate) : list frame :=
  match threads st !! current st with Some th => kstack th | None => [] end.

(** Pop the top frame of the running thread and run it. *)
Definition run_top : M kstate unit :=
  cur <- running_thread ;; th <- thr cur ;;
  match kstack th with
  | [] => fail Out_of_fuel
  | f :: fs => upd_thread cur (set_kstack fs) ;;; run_frame f
  end.

(** One step of the machine: the running thread goes on with the function
    it is in, or, when it is in none, calls one of the kernel's, as far as
    [allowed] says that a client may; or a timer interrupt arrives while
    interrupts are on.  A call that faults is not a step. *)
Inductive step (allowed : kstate -> api -> Prop) : kstate -> kstate -> Prop :=
| step_frame st st' :
    run_top st = Ok (tt, st') -> step allowed st st'
| step_call st a st' :
    current_stack st = [] -> allowed st a ->
    run_api a st = Ok (tt, st') -> step allowed st st'
| step_timer st st' :
    intr_on st = true -> intr_handler_timer st = Ok (tt, st') -> step allowed st st'.

(** The machine as the loader leaves it: one thread, running on the page
    [main], interrupts off, no kernel object initialised. *)
Definition boot (mlfqs : bool) (main list_addr : Z) : kstate :=
  mkKstate {[main := zero_thread]} main [] [] list_addr [] NULL NULL 1 0 0 0 0 0
    mlfqs false false false 0 ∅ ∅ ∅ [] ∅.

(** The states of a kernel booted by [thread_init]. *)
Inductive reachable (allowed : kstate -> api -> Prop) : kstate -> Prop :=
| reach_init mlfqs main list_addr st :
    thread_init (boot mlfqs main list_addr) = Ok (tt, st) -> reachable allowed st
| reach_step st st' :
    reachable allowed st -> step allowed st st' -> reachable allowed st'.

End Kernel.
