(* ===== verification/SchedInv.v ===== *)
(** * The scheduler invariant

    What thread.c keeps true of thread states, the ready list and the
    running thread, for both schedulers, over every step of the machine of
    [Kernel]: one thread is running and it is the current one; the ready
    list holds each ready thread once, and no other thread. *)

From S2P Require Import Prelude DListSort KState Threads Synch Kernel.
Import KState Threads Synch Kernel.

Module SchedInv.

(** ** What the invariant reads *)

Record view : Type := mkView {
  v_status : gmap Z thread_status;
  v_current : Z;
  v_ready : list Z;
  v_idle : Z
}.

Definition sview (st : kstate) : view :=
  mkView (status <$> threads st) (current st) (ready_list st) (idle_thread st).

(** The ready list against the thread states. *)
Definition ready_ok (sts : gmap Z thread_status) (rl : list Z) (idle : Z) : Prop :=
  NoDup rl /\
  (forall t, t ∈ rl -> sts !! t = Some THREAD_READY) /\
  (forall t, sts !! t = Some THREAD_READY -> t ∈ rl \/ t = idle).

(** Only [cur] is in the state [s]. *)
Definition only (s : thread_status) (sts : gmap Z thread_status) (cur : Z) : Prop :=
  forall t, sts !! t = Some s -> t = cur.

Definition sched_inv (v : view) : Prop :=
  v_status v !! NULL = None /\
  v_status v !! v_current v = Some THREAD_RUNNING /\
  only THREAD_RUNNING (v_status v) (v_current v) /\
  ready_ok (v_status v) (v_ready v) (v_idle v).

Definition sched_ok (st : kstate) : Prop := sched_inv (sview st).

(** Between the change of state of the running thread and the switch: no
    thread is running. *)
Definition switching (st : kstate) : Prop :=
  v_status (sview st) !! NULL = None /\
  (forall t, v_status (sview st) !! t <> Some THREAD_RUNNING) /\
  is_Some (v_status (sview st) !! current st) /\
  ready_ok (v_status (sview st)) (ready_list st) (idle_thread st).

(** ** Access *)

Lemma thr_inv t a st st' :
  thr t st = Ok (a, st') -> st' = st /\ threads st !! t = Some a /\ t <> NULL.
Proof.
  unfold thr. intros H. apply gets_opt_inv in H as [H ->].
  destruct (t =? NULL) eqn:E; [done|]. by apply Z.eqb_neq in E.
Qed.

Lemma thr_run t th st : threads st !! t = Some th -> t <> NULL -> thr t st = Ok (th, st).
Proof.
  intros H Ht. unfold thr, gets_opt. by rewrite (proj2 (Z.eqb_neq _ _) Ht), H.
Qed.

Lemma upd_thread_inv t f a st st' :
  upd_thread t f st = Ok (a, st') ->
  exists th, threads st !! t = Some th /\ t <> NULL /\
    st' = set_threads (<[t := f th]> (threads st)) st.
Proof.
  unfold upd_thread. intros H. apply bind_ok_inv in H as (th & s & H1 & H).
  apply thr_inv in H1 as (-> & H1 & Hn). apply modify_inv in H as ->. eauto.
Qed.

(** A part of the state that reads threads only through [p]. *)
Lemma keeps_upd_thread {X Y} (v : kstate -> X) (p : thread -> Y) t f :
  (forall st ths, p <$> ths = p <$> threads st -> v (set_threads ths st) = v st) ->
  (forall th, p (f th) = p th) -> keeps v (upd_thread t f).
Proof.
  intros Hv Hf st a st' H. apply upd_thread_inv in H as (th & Hth & _ & ->).
  apply Hv. rewrite fmap_insert, Hf. apply insert_id. by rewrite lookup_fmap, Hth.
Qed.

Lemma sview_upd_thread t f :
  (forall th, status (f th) = status th) -> keeps sview (upd_thread t f).
Proof.
  apply keeps_upd_thread. intros st ths H. unfold sview. cbn. by rewrite H.
Qed.

Lemma keeps_thr {X} (v : kstate -> X) t : keeps v (thr t).
Proof. apply keeps_gets_opt. Qed.

Lemma keeps_upd_sema {X} (v : kstate -> X) s sm :
  (forall st m, v (set_semas m st) = v st) -> keeps v (upd_sema s sm).
Proof. intros H. unfold upd_sema. msteps. by apply keeps_modify. Qed.

Lemma keeps_set_holder {X} (v : kstate -> X) l h :
  (forall st m, v (set_locks m st) = v st) -> keeps v (set_holder l h).
Proof. intros H. unfold set_holder. msteps. by apply keeps_modify. Qed.

(** ** Choosing the next thread *)

Lemma remove_first_perm x xs ys : remove_first x xs = Some ys -> xs ≡ₚ x :: ys.
Proof.
  revert ys. induction xs as [|y xs IH]; intros ys; simpl; [done|].
  destruct (y =? x) eqn:E; [intros [= <-]; by apply Z.eqb_eq in E as ->|].
  destruct (remove_first x xs) as [zs|]; simpl; [|done]. intros [= <-].
  rewrite (IH zs eq_refl). by constructor.
Qed.

Lemma level_remove_keeps {X} (v : kstate -> X) t :
  (forall st m, v (set_priority_levels m st) = v st) -> keeps v (level_remove t).
Proof. intros H. unfold level_remove. msteps. by apply keeps_modify. Qed.

Lemma highest_non_empty_loop_keeps {X} (v : kstate -> X) fuel level :
  keeps v (highest_non_empty_loop fuel level).
Proof. revert level. induction fuel; intros level; simpl; msteps. Qed.

Definition chosen (st : kstate) (next : Z) (st' : kstate) : Prop :=
  threads st' = threads st /\ current st' = current st /\ idle_thread st' = idle_thread st /\
  intr_on st' = intr_on st /\
  (ready_list st = [] /\ next = idle_thread st /\ ready_list st' = []
   \/ ready_list st ≡ₚ next :: ready_list st').

Lemma next_thread_to_run_chosen st next st' :
  next_thread_to_run st = Ok (next, st') -> chosen st next st'.
Proof.
  unfold next_thread_to_run. intros H. minv H.
  destruct (ready_list st) as [|front rest] eqn:Hrl.
  - minv H. split; [done|]. split; [done|]. split; [done|]. split; [done|]. auto.
  - minv H. destruct (thread_mlfqs st).
    + apply bind_ok_inv in H as (level & s1 & Hl & H).
      pose proof (highest_non_empty_loop_keeps id _ _ _ _ _ Hl) as E. unfold id in E. subst s1.
      minv H. destruct a as [|nx lv]; [done|]. 
      apply bind_ok_inv in H as (u & s2 & Hr & H).
      pose proof (level_remove_keeps threads nx (fun _ _ => eq_refl) _ _ _ Hr).
      pose proof (level_remove_keeps current nx (fun _ _ => eq_refl) _ _ _ Hr).
      pose proof (level_remove_keeps idle_thread nx (fun _ _ => eq_refl) _ _ _ Hr).
      pose proof (level_remove_keeps intr_on nx (fun _ _ => eq_refl) _ _ _ Hr).
      minv H. simpl in *. split; [done|]. split; [done|]. split; [done|]. split; [done|].
      right. simpl. rewrite Hrl. by apply remove_first_perm.
    + minv H. split; [done|]. split; [done|]. split; [done|]. split; [done|].
      right. simpl. by rewrite Hrl.
Qed.

(** The chosen thread starts to run. *)
Lemma ready_ok_run sts rl rl' idle next :
  (rl = [] /\ next = idle /\ rl' = [] \/ rl ≡ₚ next :: rl') ->
  ready_ok sts rl idle -> ready_ok (<[next := THREAD_RUNNING]> sts) rl' idle.
Proof.
  intros Hc (Hnd & Hr & Hall). destruct Hc as [(-> & -> & ->)|Hp].
  - split; [constructor|]. split; [by intros t ?%elem_of_nil|].
    intros t. rewrite lookup_insert_Some. intros [[_ ?]|[? Ht]]; [done|].
    destruct (Hall _ Ht) as [?%elem_of_nil|?]; auto.
  - rewrite Hp in Hnd. apply NoDup_cons in Hnd as [Hn Hnd].
    split; [done|]. split.
    + intros t Ht. rewrite lookup_insert_ne by (intros ->; done).
      apply Hr. rewrite Hp. by right.
    + intros t. rewrite lookup_insert_Some. intros [[_ ?]|[? Ht]]; [done|].
      destruct (Hall _ Ht) as [Hin|?]; [|auto]. rewrite Hp in Hin.
      apply elem_of_cons in Hin as [->|?]; [done|auto].
Qed.

(** A thread that is not ready leaves. *)
Lemma ready_ok_delete sts rl idle t :
  sts !! t <> Some THREAD_READY -> ready_ok sts rl idle -> ready_ok (delete t sts) rl idle.
Proof.
  intros Ht (Hnd & Hr & Hall). split; [done|]. split.
  - intros u Hu. rewrite lookup_delete_ne; [by apply Hr|].
    intros ->. by apply Ht, Hr.
  - intros u [_ Hu]%lookup_delete_Some. auto.
Qed.

(** A state change that involves no ready thread. *)
Lemma ready_ok_set sts rl idle t s :
  sts !! t <> Some THREAD_READY -> s <> THREAD_READY ->
  ready_ok sts rl idle -> ready_ok (<[t := s]> sts) rl idle.
Proof.
  intros Ht Hs (Hnd & Hr & Hall). split; [done|]. split.
  - intros u Hu. rewrite lookup_insert_ne; [by apply Hr|]. intros ->. by apply Ht, Hr.
  - intros u [[_ ?]|[_ Hu]]%lookup_insert_Some; [done|auto].
Qed.

(** A thread becomes ready and enters the list. *)
Lemma ready_ok_insert sts rl rl' idle t :
  rl' ≡ₚ t :: rl -> sts !! t <> Some THREAD_READY ->
  ready_ok sts rl idle -> ready_ok (<[t := THREAD_READY]> sts) rl' idle.
Proof.
  intros Hp Ht (Hnd & Hr & Hall). split.
  { rewrite Hp. constructor; [|done]. intros Hin. by apply Ht, Hr. }
  split.
  - intros u. rewrite Hp, elem_of_cons. intros [->|Hu]; [by rewrite lookup_insert_eq|].
    destruct (decide (u = t)) as [->|]; [by rewrite lookup_insert_eq|].
    rewrite lookup_insert_ne by done. by apply Hr.
  - intros u [[-> _]|[_ Hu]]%lookup_insert_Some; [left; rewrite Hp; by left|].
    destruct (Hall _ Hu); [left; rewrite Hp; by right|auto].
Qed.

(** The idle thread becomes ready outside the list. *)
Lemma ready_ok_idle sts rl idle :
  sts !! idle <> Some THREAD_READY -> ready_ok sts rl idle ->
  ready_ok (<[idle := THREAD_READY]> sts) rl idle.
Proof.
  intros Ht (Hnd & Hr & Hall). split; [done|]. split.
  - intros u Hu. rewrite lookup_insert_ne; [by apply Hr|]. intros <-. by apply Ht, Hr.
  - intros u [[-> _]|[_ Hu]]%lookup_insert_Some; auto.
Qed.

(** ** The switch *)

Lemma is_thread_keeps {X} (v : kstate -> X) t : keeps v (is_thread t).
Proof. unfold is_thread, thr. msteps. Qed.

Lemma is_thread_inv t b st st' : is_thread t st = Ok (b, st') -> st' = st.
Proof. apply (is_thread_keeps id). Qed.

Lemma only_insert s sts t : (forall u, sts !! u <> Some s) -> only s (<[t := s]> sts) t.
Proof. intros H u [[? _]|[_ Hu]]%lookup_insert_Some; [done|by apply H in Hu]. Qed.

(** Deleting a thread that is not [t] keeps what [t] has alone. *)
Lemma only_delete s sts t u : only s sts t -> only s (delete u sts) t.
Proof. intros H x [_ Hx]%lookup_delete_Some. auto. Qed.

Lemma schedule_tail_ok prev st st' u :
  thread_schedule_tail prev st = Ok (u, st') ->
  v_status (sview st) !! NULL = None ->
  (forall t, v_status (sview st) !! t <> Some THREAD_RUNNING) ->
  ready_ok (<[current st := THREAD_RUNNING]> (v_status (sview st))) (ready_list st)
    (idle_thread st) ->
  sched_ok st'.
Proof.
  unfold thread_schedule_tail. intros H H0 Hno Hr. unfold running_thread, intr_get_level in H.
  minv H. apply upd_thread_inv in Hm0 as (th & Hth & Hn & ->).
  assert (sched_inv (mkView (<[current st := THREAD_RUNNING]> (v_status (sview st)))
    (current st) (ready_list st) (idle_thread st))) as Hinv.
  { unfold sched_inv. cbn [v_status v_current]. split; [by rewrite lookup_insert_ne|].
    split; [apply lookup_insert_eq|]. split; [by apply only_insert|done]. }
  destruct (prev =? NULL) eqn:Hp.
  { minv H. unfold sched_ok, sview. cbn. by rewrite fmap_insert. }
  minv H. apply thr_inv in Hm0 as (-> & Hpr & _). cbn in Hpr.
  destruct (bool_decide _ && _) eqn:Hd.
  - minv H. apply andb_prop in Hd as [Hd _]. apply bool_decide_eq_true in Hd.
    apply negb_true_iff, Z.eqb_neq in Hm0.
    destruct Hinv as (H0' & H1 & H2 & H3). unfold sched_ok, sview, sched_inv. cbn in *.
    rewrite fmap_delete, fmap_insert.
    split; [by apply lookup_delete_None; right|].
    rewrite lookup_delete_ne by done. split; [done|].
    split; [by apply only_delete|]. apply ready_ok_delete; [|done].
    rewrite lookup_insert_ne, lookup_fmap by done.
    rewrite lookup_insert_ne in Hpr by done. rewrite Hpr. simpl. congruence.
  - minv H. unfold sched_ok, sview. cbn. by rewrite fmap_insert.
Qed.

Lemma schedule_ok st st' u :
  schedule st = Ok (u, st') -> switching st -> sched_ok st'.
Proof.
  unfold schedule. intros H (H0 & Hno & Hc & Hr). unfold running_thread, intr_get_level in H.
  apply bind_ok_inv in H as (? & ? & Hm & H). minv Hm.
  apply bind_ok_inv in H as (next & s1 & Hn & H).
  apply next_thread_to_run_chosen in Hn as (Et & Ec & Ei & _ & Hch).
  minv H. apply thr_inv in Hm0 as (-> & _ & _). apply is_thread_inv in Hm2 as ->.
  assert (forall t, v_status (sview s1) !! t <> Some THREAD_RUNNING) as Hno1.
  { cbn in *. by rewrite Et. }
  assert (v_status (sview s1) !! NULL = None) as H01 by (cbn in *; by rewrite Et).
  apply (ready_ok_run _ _ (ready_list s1) _ next) in Hr; [|done].
  destruct (negb (current st =? next)) eqn:Hne.
  - minv H. eapply schedule_tail_ok; [done..|]. cbn in *. by rewrite Et, Ei.
  - apply negb_false_iff, Z.eqb_eq in Hne. eapply schedule_tail_ok; [done..|].
    cbn in *. by rewrite Et, Ei, Ec, Hne.
Qed.

(** ** Functions that switch or unblock *)

Lemma thread_current_inv t st st' :
  thread_current st = Ok (t, st') ->
  st' = st /\ t = current st /\ t <> NULL /\
  exists th, threads st !! t = Some th /\ status th = THREAD_RUNNING /\ magic th = THREAD_MAGIC.
Proof.
  unfold thread_current, running_thread, is_thread. intros H.
  minv H. destruct (current st =? NULL) eqn:E; [minv Hm; done|]. minv Hm.
  apply thr_inv in Hm3 as (-> & Hth & Hn). apply thr_inv in Hm1 as (-> & Hth' & _).
  apply bool_decide_eq_true in Hm2. split; [done|]. split; [done|]. split; [done|].
  rewrite Hth in Hth'. injection Hth' as ->.
  eexists. split; [exact Hth|]. split; [done|]. by apply Z.eqb_eq.
Qed.

Lemma thread_current_keeps {X} (v : kstate -> X) : keeps v thread_current.
Proof. intros st t st' H. by apply thread_current_inv in H as (-> & _). Qed.

(** The running thread [t] takes the state [s] and enters no list. *)
Lemma switching_set st th s :
  threads st !! current st = Some th -> s <> THREAD_READY -> s <> THREAD_RUNNING ->
  sched_ok st ->
  switching (set_threads (<[current st := set_status s th]> (threads st)) st).
Proof.
  intros Hth Hs1 Hs2 (H0 & Hr & Ho & Hl). unfold switching. cbn in *.
  rewrite fmap_insert. cbn. split; [|split; [|split]].
  - rewrite lookup_insert_ne; [done|]. intros E. by rewrite E, H0 in Hr.
  - intros t [[_ ?]|[Hn Ht]]%lookup_insert_Some; [done|]. by apply Ho in Ht.
  - by rewrite lookup_insert_eq.
  - apply ready_ok_set; [by rewrite Hr|done|done].
Qed.

Lemma intr_disable_keeps {X} (v : kstate -> X) :
  (forall st b, v (set_intr_on b st) = v st) -> keeps v intr_disable.
Proof. intros H. unfold intr_disable, intr_get_level. msteps. by apply keeps_modify. Qed.

Lemma intr_set_level_keeps {X} (v : kstate -> X) b :
  (forall st b, v (set_intr_on b st) = v st) -> keeps v (intr_set_level b).
Proof.
  intros H. unfold intr_set_level, intr_enable, intr_get_level, intr_context.
  destruct b; [|by apply intr_disable_keeps]. msteps. by apply keeps_modify.
Qed.

Lemma thread_block_pres : pres sched_ok thread_block.
Proof.
  intros st u st' Hok H. unfold thread_block, intr_context, intr_get_level in H. minv H.
  apply thread_current_inv in Hm1 as (-> & -> & _).
  apply upd_thread_inv in Hm2 as (th & Hth & _ & ->).
  eapply schedule_ok; [done|]. by apply switching_set.
Qed.

Lemma ready_insert_perm t st u st' :
  ready_insert t st = Ok (u, st') ->
  exists rl, st' = set_ready_list rl st /\ rl ≡ₚ t :: ready_list st.
Proof.
  unfold ready_insert. intros H. apply modify_inv in H as ->.
  eexists. split; [done|]. apply insert_ordered_perm.
Qed.

Lemma level_push_back_keeps {X} (v : kstate -> X) p t :
  (forall st m, v (set_priority_levels m st) = v st) -> keeps v (level_push_back p t).
Proof. intros H. unfold level_push_back. msteps. by apply keeps_modify. Qed.

Lemma raise_highest_keeps {X} (v : kstate -> X) p :
  (forall st m, v (set_highest_priority m st) = v st) -> keeps v (raise_highest p).
Proof. intros H. unfold raise_highest. msteps. by apply keeps_modify. Qed.

Lemma push_frame_keeps {X} (v : kstate -> X) f :
  (forall t g, (forall th, status (g th) = status th) -> keeps v (upd_thread t g)) ->
  keeps v (push_frame f).
Proof. intros H. unfold push_frame, running_thread. msteps. Qed.

#[export] Hint Resolve keeps_thr thread_current_keeps is_thread_keeps : msteps.
#[export] Hint Extern 3 (keeps _ (upd_sema _ _)) => (by apply keeps_upd_sema) : msteps.
#[export] Hint Extern 3 (keeps _ (set_holder _ _)) => (by apply keeps_set_holder) : msteps.
#[export] Hint Extern 3 (keeps _ intr_disable) => (by apply intr_disable_keeps) : msteps.
#[export] Hint Extern 3 (keeps _ (intr_set_level _)) => (by apply intr_set_level_keeps) : msteps.
#[export] Hint Extern 3 (keeps _ (level_push_back _ _)) => (by apply level_push_back_keeps) : msteps.
#[export] Hint Extern 3 (keeps _ (raise_highest _)) => (by apply raise_highest_keeps) : msteps.
#[local] Hint Extern 3 (keeps sview (upd_thread _ _)) => (by apply sview_upd_thread) : msteps.

Lemma sview_push_frame f : keeps sview (push_frame f).
Proof. apply push_frame_keeps. apply sview_upd_thread. Qed.

#[local] Hint Resolve sview_push_frame : msteps.

Lemma sched_of_keeps {A} (m : M kstate A) : keeps sview m -> pres sched_ok m.
Proof. apply (keeps_pres sview sched_inv). Qed.

Lemma thread_unblock_pres t : pres sched_ok (thread_unblock t).
Proof.
  unfold thread_unblock. apply pres_bind; [apply sched_of_keeps; msteps|intros b].
  apply pres_bind; [apply sched_of_keeps; msteps|intros _].
  apply pres_bind; [apply sched_of_keeps; msteps|intros old].
  intros st u st' Hok H. minv H. apply thr_inv in Hm as (-> & Hth & Hn).
  apply bool_decide_eq_true in Hm0.
  apply ready_insert_perm in Hm1 as (rl & -> & Hp).
  kept sview Hm2 Hv. kept sview Hm4 Hv4.
  apply upd_thread_inv in Hm3 as (th' & Hth' & _ & ->).
  unfold sched_ok. rewrite Hv4. destruct Hok as (H0 & H1 & H2 & H3). injection Hv as E1 E2 E3 E4.
  unfold sched_inv, sview. cbn in *. rewrite fmap_insert, E1, E2, E3, E4. cbn.
  assert (t <> current st) as Hne.
  { intros ->. rewrite lookup_fmap, Hth in H1. injection H1 as H1. congruence. }
  split; [by rewrite lookup_insert_ne|].
  split; [by rewrite lookup_insert_ne|]. split.
  - intros x [[_ ?]|[_ Hx]]%lookup_insert_Some; [done|auto].
  - apply ready_ok_insert with (rl := ready_list st); [done| |done].
    rewrite lookup_fmap, Hth. simpl. congruence.
Qed.

(** The running thread becomes ready: in the list unless it is the idle thread. *)
Lemma switching_ready sts cur rl rl' idle :
  sched_inv (mkView sts cur rl idle) ->
  (cur = idle /\ rl' = rl \/ rl' ≡ₚ cur :: rl) ->
  <[cur := THREAD_READY]> sts !! NULL = None /\
  (forall t, <[cur := THREAD_READY]> sts !! t <> Some THREAD_RUNNING) /\
  ready_ok (<[cur := THREAD_READY]> sts) rl' idle.
Proof.
  intros (H0 & Hr & Ho & Hl) Hc. cbn in *.
  split; [rewrite lookup_insert_ne; [done|]; intros E; by rewrite E, H0 in Hr|]. split.
  - intros t [[_ ?]|[Hn Ht]]%lookup_insert_Some; [done|]. by apply Ho in Ht.
  - destruct Hc as [[-> ->]|Hp].
    + apply ready_ok_idle; [by rewrite Hr|done].
    + eapply ready_ok_insert; [done|by rewrite Hr|done].
Qed.

Lemma yield_enqueue idle cur st u st' :
  (if negb (cur =? idle) then
     ready_insert cur ;;;
     m <- gets thread_mlfqs ;;
     if (m : bool) then
       th <- thr cur ;; level_push_back (priority th) cur ;;; raise_highest (priority th)
     else ret tt
   else ret tt) st = Ok (u, st') ->
  exists rl, sview st' = sview (set_ready_list rl st) /\
    (cur = idle /\ rl = ready_list st \/ rl ≡ₚ cur :: ready_list st).
Proof.
  intros H. destruct (cur =? idle) eqn:E; simpl in H.
  - apply ret_inv in H as [_ ->]. apply Z.eqb_eq in E. exists (ready_list st). auto.
  - apply bind_ok_inv in H as (? & s1 & Hi & H).
    apply ready_insert_perm in Hi as (rl & -> & Hp). exists rl.
    kept sview H Hv. auto.
Qed.

Lemma thread_yield_pres : pres sched_ok thread_yield.
Proof.
  intros st u st' Hok H. unfold thread_yield, intr_context in H.
  apply bind_ok_inv in H as (cur & s & Hc & H).
  apply thread_current_inv in Hc as (-> & -> & _). minv H.
  kept sview Hm0 Hv0. apply yield_enqueue in Hm1 as (rl & Hv1 & Hc).
  apply upd_thread_inv in Hm2 as (th & Hth & _ & ->). kept sview Hm3 Hv3.
  eapply schedule_ok; [done|].
  injection Hv0 as E1 E2 E3 E4. injection Hv1 as F1 F2 F3 F4. injection Hv3 as G1 G2 G3 G4.
  rewrite E3, E4 in *. destruct (switching_ready _ _ _ _ _ Hok Hc) as (H0 & Hs & Hl).
  unfold switching. cbn in *. rewrite G1, G2, G3, G4, fmap_insert. cbn.
  rewrite F1, F2, F3, F4, E1, E2. split; [done|]. split; [done|].
  split; [by rewrite lookup_insert_eq|done].
Qed.

Lemma thread_exit_pres : pres sched_ok thread_exit.
Proof.
  intros st u st' Hok H. unfold thread_exit, intr_context in H. minv H.
  kept sview Hm0 Hv0. apply thread_current_inv in Hm1 as (-> & -> & _).
  apply upd_thread_inv in Hm3 as (th & Hth & _ & ->).
  eapply schedule_ok; [done|].
  apply (switching_set (set_all_list _ s)); [done..|].
  change (sched_inv (sview s)). by rewrite Hv0.
Qed.

(** ** Every other function *)

#[local] Hint Resolve thread_block_pres thread_yield_pres thread_unblock_pres thread_exit_pres
  : msteps.
#[local] Hint Extern 5 (pres sched_ok _) => (apply sched_of_keeps; solve [msteps]) : msteps.

Lemma sview_update_priority t : keeps sview (update_priority t).
Proof. unfold update_priority. msteps. by apply level_remove_keeps. Qed.

Lemma sview_update_recent_cpu t : keeps sview (update_recent_cpu t).
Proof. unfold update_recent_cpu. msteps. Qed.

Lemma foreach_keeps {X} (v : kstate -> X) f ts :
  (forall t, keeps v (f t)) -> keeps v (foreach f ts).
Proof. intros H. induction ts; simpl; msteps. Qed.

Lemma foreach_pres P f ts : (forall t, pres P (f t)) -> pres P (foreach f ts).
Proof. intros H. induction ts; simpl; msteps. Qed.

Lemma sview_timer_ticks : keeps sview timer_ticks.
Proof. unfold timer_ticks. msteps. Qed.

#[local] Hint Resolve sview_update_priority sview_update_recent_cpu sview_timer_ticks : msteps.

Lemma sview_thread_tick : keeps sview thread_tick.
Proof.
  unfold thread_tick, is_mult_of_second, is_mult_of_four, update_load_avg,
    count_ready_threads, thread_foreach, intr_get_level, intr_yield_on_return, intr_context.
  msteps; apply foreach_keeps; msteps.
Qed.

Lemma thread_set_priority_pres stray p : pres sched_ok (thread_set_priority stray p).
Proof. unfold thread_set_priority. msteps. Qed.

Lemma thread_set_nice_pres n : pres sched_ok (thread_set_nice n).
Proof. unfold thread_set_nice, intr_context. msteps. Qed.

Lemma sema_down_loop_pres s old : pres sched_ok (sema_down_loop s old).
Proof. unfold sema_down_loop, waiters_insert, sem. msteps. Qed.

#[local] Hint Resolve sview_thread_tick sema_down_loop_pres : msteps.

Lemma sema_down_pres s : pres sched_ok (sema_down s).
Proof. unfold sema_down, intr_context. msteps. Qed.

Lemma sema_up_pres s : pres sched_ok (sema_up s).
Proof. unfold sema_up, sem, intr_context, intr_yield_on_return. msteps. Qed.

Lemma sview_sema_try_down s : keeps sview (sema_try_down s).
Proof. unfold sema_try_down, sem. msteps. Qed.

Lemma sview_sema_init s v : keeps sview (sema_init s v).
Proof. unfold sema_init. msteps. Qed.

#[local] Hint Resolve sema_down_pres sema_up_pres sview_sema_try_down sview_sema_init : msteps.

Lemma sview_donate_chain fuel l p : keeps sview (donate_chain fuel l p).
Proof. revert l. induction fuel; intros l; simpl; unfold lock_holder; msteps. Qed.

#[local] Hint Resolve sview_donate_chain : msteps.

Lemma sview_lock_acquire fuel l : keeps sview (lock_acquire fuel l).
Proof.
  unfold lock_acquire, donate, lock_held_by_current_thread, lock_holder, intr_context. msteps.
Qed.

Lemma sview_lock_acquire_end l : keeps sview (lock_acquire_end l).
Proof. unfold lock_acquire_end, running_thread. msteps. Qed.

Lemma sview_lock_try_acquire copy l : keeps sview (lock_try_acquire copy l).
Proof. unfold lock_try_acquire, lock_held_by_current_thread, lock_holder, sem. msteps. Qed.

Lemma sview_lock_release l : keeps sview (lock_release l).
Proof. unfold lock_release, lock_held_by_current_thread, lock_holder. msteps. Qed.

#[local] Hint Resolve sview_lock_acquire sview_lock_acquire_end sview_lock_try_acquire
  sview_lock_release : msteps.

Lemma sview_set_cond c ws : keeps sview (set_cond c ws).
Proof. unfold set_cond, cond_waiters. msteps. Qed.

#[local] Hint Resolve sview_set_cond : msteps.

Lemma sview_cond_wait w c l : keeps sview (cond_wait w c l).
Proof.
  unfold cond_wait, lock_held_by_current_thread, lock_holder, intr_context, cond_waiters. msteps.
Qed.

Lemma cond_signal_pres c l : pres sched_ok (cond_signal c l).
Proof.
  unfold cond_signal, lock_held_by_current_thread, lock_holder, intr_context, cond_waiters. msteps.
Qed.

#[local] Hint Resolve sview_cond_wait cond_signal_pres : msteps.

Lemma cond_broadcast_pres c l : pres sched_ok (cond_broadcast c l).
Proof. unfold cond_broadcast, cond_broadcast_loop, cond_waiters. msteps. Qed.

Lemma sview_allocate_tid t : keeps sview (allocate_tid t).
Proof. unfold allocate_tid. msteps. Qed.

Lemma sview_alloc_frame t n : keeps sview (alloc_frame t n).
Proof. unfold alloc_frame. msteps. Qed.

#[local] Hint Resolve cond_broadcast_pres sview_allocate_tid sview_alloc_frame : msteps.

Lemma thread_create_end_pres t fn : pres sched_ok (thread_create_end t fn).
Proof. unfold thread_create_end. msteps. Qed.

(** ** Thread creation, start and exit *)

Lemma init_thread_view t nm p st u st' :
  init_thread t nm p st = Ok (u, st') ->
  t <> NULL /\
  sview st' = mkView (<[t := THREAD_BLOCKED]> (status <$> threads st)) (current st)
    (ready_list st) (idle_thread st).
Proof.
  unfold init_thread. intros H.
  do 4 (apply bind_ok_inv in H as (? & ? & ?Hm & H)). minv Hm. minv Hm0. minv Hm1.
  apply negb_true_iff, Z.eqb_neq in Hm. split; [done|].
  apply upd_thread_inv in Hm2 as (th & _ & _ & ->).
  unfold running_thread in H. kept sview H Hv. rewrite Hv. unfold sview. cbn.
  by rewrite !fmap_insert, insert_insert_eq.
Qed.

Lemma sched_new sts cur rl idle t :
  sched_inv (mkView sts cur rl idle) -> sts !! t = None -> t <> NULL ->
  sched_inv (mkView (<[t := THREAD_BLOCKED]> sts) cur rl idle).
Proof.
  intros (H0 & H1 & H2 & H3) Ht Hn. unfold sched_inv. cbn in *.
  assert (t <> cur) by (intros ->; congruence).
  split; [by rewrite lookup_insert_ne|]. split; [by rewrite lookup_insert_ne|]. split.
  - intros x [[_ ?]|[_ Hx]]%lookup_insert_Some; [done|auto].
  - apply ready_ok_set; [by rewrite Ht|done|done].
Qed.

Lemma thread_create_ok page nm p fn st u st' :
  thread_create page nm p fn st = Ok (u, st') ->
  sched_ok st -> threads st !! page = None -> sched_ok st'.
Proof.
  unfold thread_create. intros H Hok Hf. destruct (page =? NULL); [by minv H|].
  apply bind_ok_inv in H as (? & s & Hi & H).
  apply init_thread_view in Hi as [Hn Hv]. kept sview H Hk.
  unfold sched_ok. rewrite Hk, Hv. apply sched_new; [done| |done].
  by rewrite lookup_fmap, Hf.
Qed.

Lemma thread_start_ok page s st u st' :
  thread_start page s st = Ok (u, st') ->
  sched_ok st -> threads st !! page = None -> sched_ok st'.
Proof.
  unfold thread_start. intros H Hok Hf. apply bind_ok_inv in H as (? & s1 & H1 & H).
  apply bind_ok_inv in H as (? & s2 & H2 & H).
  kept sview H1 E1. kept sview H2 E2.
  eapply thread_create_ok; [done| |].
  - unfold sched_ok. by rewrite E2, E1.
  - assert (status <$> threads s2 = status <$> threads st) as E
      by (injection E1; injection E2; congruence).
    apply (f_equal (.!! page)) in E. rewrite !lookup_fmap, Hf in E.
    destruct (threads s2 !! page); [done|done].
Qed.

Lemma intr_enable_keeps {X} (v : kstate -> X) :
  (forall st b, v (set_intr_on b st) = v st) -> keeps v intr_enable.
Proof. intros H. unfold intr_enable, intr_get_level, intr_context. msteps. by apply keeps_modify. Qed.

#[export] Hint Extern 3 (keeps _ intr_enable) => (by apply intr_enable_keeps) : msteps.

(** The idle thread is known from its first instruction on: until then no
    thread is ready outside the list. *)
Lemma kernel_thread_ok fn st u st' :
  kernel_thread fn st = Ok (u, st') ->
  (match fn with Fn_idle _ => idle_thread st = NULL | Fn_client => True end) ->
  sched_ok st -> sched_ok st'.
Proof.
  unfold kernel_thread. intros H Hi Hok. apply bind_ok_inv in H as (? & s & He & H).
  kept sview He Hv. assert (sched_ok s) as Hok1 by (unfold sched_ok; by rewrite Hv).
  clear Hok. destruct fn as [s0|]; [|by minv H].
  apply bind_ok_inv in H as (cur & s1 & Hc & H). apply thread_current_inv in Hc as (-> & -> & _).
  apply bind_ok_inv in H as (? & s2 & Hm & H). minv Hm.
  assert (idle_thread s = NULL) as Hi1 by (injection Hv; congruence).
  assert (sched_ok (set_idle_thread (current s) s)) as Hok2.
  { destruct Hok1 as (H0 & H1 & H2 & H3 & H4 & H5). cbn in *. rewrite Hi1 in H5.
    split; [done|]. split; [done|]. split; [done|]. split; [done|]. split; [done|].
    cbn. intros t Ht. destruct (H5 t Ht) as [?| ->]; [auto|]. congruence. }
  assert (pres sched_ok (push_frame F_idle_loop ;;; sema_up s0)) as Hp by msteps.
  by eapply Hp.
Qed.

Lemma idle_loop_pres : pres sched_ok idle_loop.
Proof. unfold idle_loop. msteps. Qed.

Lemma sview_idle_wake : keeps sview idle_wake.
Proof. unfold idle_wake. msteps. Qed.

(** ** Timer *)

Lemma sview_timer_sleep sl n : keeps sview (timer_sleep sl n).
Proof. unfold timer_sleep, sleeper_new. msteps. Qed.

Lemma sview_timer_sleep_insert sl n start : keeps sview (timer_sleep_insert sl n start).
Proof. unfold timer_sleep_insert, touch_sleepers. msteps. Qed.

Lemma timer_sleep_check_pres sl n start : pres sched_ok (timer_sleep_check sl n start).
Proof. unfold timer_sleep_check, timer_elapsed. msteps. Qed.

Lemma sview_timer_sleep_end sl : keeps sview (timer_sleep_end sl).
Proof. unfold timer_sleep_end. msteps. Qed.

Lemma timer_wake_pres sl : pres sched_ok (timer_wake sl).
Proof. unfold timer_wake. msteps. Qed.

Lemma timer_interrupt_pres : pres sched_ok timer_interrupt.
Proof.
  unfold timer_interrupt. msteps. apply foreach_pres. intros t. apply timer_wake_pres.
Qed.

#[local] Hint Resolve timer_interrupt_pres : msteps.

Lemma intr_handler_timer_pres : pres sched_ok intr_handler_timer.
Proof. unfold intr_handler_timer, intr_get_level, intr_context. msteps. Qed.

End SchedInv.
