(* ===== verification/LockInv.v ===== *)
(** * Locks exclude

    The invariant that relates each lock's semaphore, its holder and the
    threads suspended inside [lock_acquire] and [lock_release], over every
    step of the machine of [Kernel], and what follows from it: a lock that is
    held changes hands only when its holder releases it.

    The kernel's memory is typed by a set [is_lock] of the addresses used as
    [struct lock]s: the client's own semaphores do not overlap the semaphore
    inside one. *)

From S2P Require Import Prelude DListSort KState Threads Synch Kernel SchedInv.
Import KState Threads Synch Kernel SchedInv.

Module LockInv.

(** ** Counting over the stacks of all threads *)

(** A thread's stack, and whether it is dying. *)
Definition stack_of (th : thread) : list frame * bool :=
  (kstack th, bool_decide (status th = THREAD_DYING)).

Definition total (w : list frame -> nat) (m : gmap Z (list frame * bool)) : nat :=
  map_fold (fun _ x n => (w x.1 + n)%nat) 0%nat m.

Lemma total_insert_new w m t x :
  m !! t = None -> total w (<[t := x]> m) = (w x.1 + total w m)%nat.
Proof. intros H. unfold total. rewrite map_fold_insert_L; [done| |done]. intros; simpl; lia. Qed.

Lemma total_delete w m t x :
  m !! t = Some x -> total w m = (w x.1 + total w (delete t m))%nat.
Proof. intros H. unfold total. rewrite (map_fold_delete_L _ _ t x m); [done| |done]. intros; simpl; lia. Qed.

Lemma total_insert w m t x y :
  m !! t = Some x -> (total w (<[t := y]> m) + w x.1 = total w m + w y.1)%nat.
Proof.
  intros H. rewrite <- insert_delete_eq, total_insert_new by apply lookup_delete_eq.
  rewrite (total_delete w m t x H). lia.
Qed.

Lemma total_zero w m : (forall t x, m !! t = Some x -> w x.1 = 0%nat) -> total w m = 0%nat.
Proof.
  induction m as [|t x m Hm IH] using map_ind; [done|]. intros H.
  rewrite total_insert_new by done. rewrite (H t x), IH; [done| |by rewrite lookup_insert_eq].
  intros u y Hu. apply (H u). rewrite lookup_insert_ne; [done|]. intros ->. congruence.
Qed.

Lemma total_le w m t x : m !! t = Some x -> (w x.1 <= total w m)%nat.
Proof. intros H. rewrite (total_delete w m t x H). lia. Qed.

(** The number of times a thread has the lock [l] without being its
    recorded holder: it has come out of the semaphore inside [lock_acquire],
    or is about to go up in [lock_release].  [waiting] is set below a frame
    that is still to take the semaphore. *)
Fixpoint nclaims (l : Z) (waiting : bool) (stk : list frame) : nat :=
  match stk with
  | [] => 0
  | f :: r =>
      match f with
      | F_lock_acquire l' => (if negb waiting && (l' =? l) then 1 else 0) + nclaims l false r
      | F_release_up l' => (if l' =? l then 1 else 0) + nclaims l false r
      | F_sema_down _ _ | F_acquire_down _ => nclaims l true r
      | _ => nclaims l false r
      end
  end.

(** Threads that are to become the idle thread. *)
Definition starts_idle (f : frame) : nat :=
  match f with
  | F_thread_create _ (Fn_idle _) | F_kernel_thread (Fn_idle _) => 1
  | _ => 0
  end.

Fixpoint npending (stk : list frame) : nat :=
  match stk with [] => 0 | f :: r => starts_idle f + npending r end.

Section locks.
Context (is_lock : Z -> Prop).

(** A semaphore that is not inside a lock. *)
Definition free_sema (s : Z) : Prop := ~ is_lock (s - 4).

Definition not_acquiring (r : list frame) : Prop :=
  match r with F_lock_acquire _ :: _ => False | _ => True end.

(** What a frame says of the frames below it and of its arguments. *)
Definition frame_wf (f : frame) (r : list frame) : Prop :=
  match f with
  | F_sema_down s _ =>
      match r with F_lock_acquire l :: _ => s = lock_sema l | _ => free_sema s end
  | F_acquire_down l => match r with F_lock_acquire l' :: _ => l' = l | _ => False end
  | F_cond_wait _ w => free_sema (elem_sema w)
  | F_timer_sleep sl _ _ | F_timer_check sl _ _ => free_sema (sleep_sema sl) /\ not_acquiring r
  | F_timer_end sl => free_sema (sleep_sema sl)
  | F_thread_start s => free_sema s /\ not_acquiring r
  | F_kernel_thread (Fn_idle s) | F_thread_create _ (Fn_idle s) => free_sema s
  | _ => True
  end.

Fixpoint stack_wf (stk : list frame) : Prop :=
  match stk with [] => True | f :: r => frame_wf f r /\ stack_wf r end.

(** The locks named by frames exist. *)
Definition frame_known (hs : gmap Z Z) (f : frame) : Prop :=
  match f with F_lock_acquire l | F_release_up l => is_Some (hs !! l) | _ => True end.

Record lview : Type := mkL {
  l_stks : gmap Z (list frame * bool);
  l_vals : gmap Z Z;
  l_locks : gmap Z Z;
  l_conds : gmap Z (list Z);
  l_blocked : list Z;
  l_idle : Z;
  l_current : Z
}.

Definition view (st : kstate) : lview :=
  mkL (stack_of <$> threads st) (value <$> semas st) (locks st) (conds st)
    (blocked_threads st) (idle_thread st) (current st).

Definition held (h : Z) : Z := if h =? NULL then 0 else 1.

(** [d l] and [e] are what an operation under way owes: 0 between steps. *)
Record lock_inv (d : Z -> Z) (e : nat) (v : lview) : Prop := {
  li_eq : forall l h, l_locks v !! l = Some h ->
    is_lock l /\ exists x, l_vals v !! lock_sema l = Some x /\ 0 <= x /\
      x + held h + Z.of_nat (total (nclaims l false) (l_stks v)) = 1 + d l;
  li_stack : forall t stk b, l_stks v !! t = Some (stk, b) ->
    stack_wf stk /\ Forall (frame_known (l_locks v)) stk /\ (b = true -> stk = []);
  li_cond : forall c ws w, l_conds v !! c = Some ws -> w ∈ ws -> free_sema (elem_sema w);
  li_blocked : forall sl, sl ∈ l_blocked v -> free_sema (sleep_sema sl);
  li_idle : (total npending (l_stks v) + e + (if (l_idle v =? NULL)%Z then 0 else 1) <= 1)%nat
}.

Definition none : Z -> Z := fun _ => 0.
Definition one (l : Z) (n : Z) : Z -> Z := fun l' => if l' =? l then n else 0.

Definition linv0 d e (st : kstate) : Prop := lock_inv d e (view st).

(** The running thread is not dying. *)
Definition live (v : lview) : Prop := exists stk, l_stks v !! l_current v = Some (stk, false).

Definition linv d e (st : kstate) : Prop := lock_inv d e (view st) /\ live (view st).

(** ** Frames pushed and popped *)

Definition neutral (f : frame) : bool :=
  match f with
  | F_lock_acquire _ | F_release_up _ | F_sema_down _ _ | F_acquire_down _ => false
  | _ => true
  end.

Lemma nclaims_neutral l f r : neutral f = true -> nclaims l false (f :: r) = nclaims l false r.
Proof. by destruct f. Qed.

Lemma inv_stack d d' e e' v t stk b stk' b' :
  lock_inv d e v -> l_stks v !! t = Some (stk, b) ->
  stack_wf stk' -> Forall (frame_known (l_locks v)) stk' -> (b' = true -> stk' = []) ->
  (forall l, d' l = d l + Z.of_nat (nclaims l false stk') - Z.of_nat (nclaims l false stk)) ->
  (npending stk' + e' <= npending stk + e)%nat ->
  lock_inv d' e' (mkL (<[t := (stk', b')]> (l_stks v)) (l_vals v) (l_locks v) (l_conds v)
    (l_blocked v) (l_idle v) (l_current v)).
Proof.
  intros [Heq Hst Hc Hb Hi] Ht Hwf Hk Hb' Hd He. constructor; cbn; try done.
  - intros l h Hl. destruct (Heq l h Hl) as (? & x & Hx & ? & E). split; [done|].
    exists x. split; [done|]. split; [done|].
    pose proof (total_insert (nclaims l false) _ _ _ (stk', b') Ht) as HT. simpl in HT.
    rewrite Hd. lia.
  - intros u s' b'' [[-> [= <- <-]]|[_ Hu]]%lookup_insert_Some; [done|]. by eapply Hst.
  - pose proof (total_insert npending _ _ _ (stk', b') Ht) as HT. simpl in HT. lia.
Qed.

Lemma linv_upd_thread d d' e e' t f st u st' :
  upd_thread t f st = Ok (u, st') ->
  (forall th, threads st !! t = Some th -> bool_decide (status (f th) = THREAD_DYING) = true ->
    kstack (f th) = []) ->
  (forall th, threads st !! t = Some th -> stack_wf (kstack th) ->
    Forall (frame_known (locks st)) (kstack th) ->
    stack_wf (kstack (f th)) /\ Forall (frame_known (locks st)) (kstack (f th)) /\
    (forall l, d' l = d l + Z.of_nat (nclaims l false (kstack (f th)))
                      - Z.of_nat (nclaims l false (kstack th))) /\
    (npending (kstack (f th)) + e' <= npending (kstack th) + e)%nat) ->
  linv0 d e st -> linv0 d' e' st'.
Proof.
  intros H Hdy Hs Hinv. apply upd_thread_inv in H as (th & Hth & _ & ->).
  assert (l_stks (view st) !! t = Some (stack_of th)) as Ht by (cbn; by rewrite lookup_fmap, Hth).
  destruct (li_stack _ _ _ Hinv _ _ _ Ht) as (Hw & Hk & Hd0).
  destruct (Hs th Hth Hw Hk) as (Hw' & Hk' & Hd & He).
  unfold linv0, view. cbn. rewrite fmap_insert. unfold stack_of at 1.
  apply (inv_stack d d' e e' (view st) t _ _ _ _ Hinv Ht); try done. by apply Hdy.
Qed.

Lemma live_upd_thread t f st u st' :
  upd_thread t f st = Ok (u, st') ->
  (forall th, status (f th) = THREAD_DYING -> status th = THREAD_DYING) ->
  live (view st) -> live (view st').
Proof.
  intros H Hf [stk Hl]. apply upd_thread_inv in H as (th & Hth & _ & ->).
  unfold live in *. cbn in *. rewrite fmap_insert. unfold stack_of at 1.
  destruct (decide (t = current st)) as [->|Hne]; [|rewrite lookup_insert_ne by done; eauto].
  rewrite lookup_insert_eq. rewrite lookup_fmap, Hth in Hl. injection Hl as _ Hl.
  apply bool_decide_eq_false in Hl. eexists. f_equal. f_equal.
  apply bool_decide_eq_false. auto.
Qed.

Lemma linv0_set_status d e t s :
  s <> THREAD_DYING -> pres (linv0 d e) (upd_thread t (set_status s)).
Proof.
  intros Hs st u st' Hinv H. eapply linv_upd_thread; [done| | |done].
  - intros th _ Hd. cbn in Hd. by apply bool_decide_eq_true in Hd.
  - intros th _ Hw Hk. cbn. split; [done|]. split; [done|]. split; intros; lia.
Qed.

Lemma linv_set_status d e t s :
  s <> THREAD_DYING -> pres (linv d e) (upd_thread t (set_status s)).
Proof.
  intros Hs st u st' [Hinv Hl] H. split; [by eapply linv0_set_status|].
  eapply live_upd_thread; [done| |done]. intros th Hd. by destruct (Hs Hd).
Qed.

(** [linv] with the frames of the running thread. *)
Definition lstk d e (fs : list frame) (st : kstate) : Prop :=
  linv d e st /\ current_stack st = fs.

Lemma lstk_push d d' e e' f fs st u st' :
  push_frame f st = Ok (u, st') -> lstk d e fs st ->
  frame_wf f fs -> frame_known (locks st) f ->
  (forall l, d' l = d l + Z.of_nat (nclaims l false (f :: fs)) - Z.of_nat (nclaims l false fs)) ->
  (starts_idle f + e' <= e)%nat ->
  lstk d' e' (f :: fs) st'.
Proof.
  unfold push_frame, running_thread. intros H [[Hinv Hl] Hc] Hw Hk Hd He.
  apply bind_ok_inv in H as (? & s & Hm & H). minv Hm.
  split; [split|].
  - eapply linv_upd_thread; [done| | |done].
    + intros th Hth Hdy. cbn in Hdy. destruct Hl as [stk Hl]. cbn in Hl.
      rewrite lookup_fmap, Hth in Hl. unfold stack_of in Hl. simpl in Hl. congruence.
    + intros th Hth Hw' Hk'. unfold current_stack in Hc. rewrite Hth in Hc.
      rewrite Hc in Hw', Hk'. cbn [kstack set_kstack]. rewrite Hc. split; [by split|]. split; [by constructor|]. split; [done|].
      simpl. lia.
  - eapply live_upd_thread; [done|auto|done].
  - apply upd_thread_inv in H as (th & Hth & _ & ->).
    unfold current_stack in *. cbn. rewrite Hth in Hc. by rewrite lookup_insert_eq, <- Hc.
Qed.

(** Frames that say nothing of locks or of the idle thread. *)
Definition plain (f : frame) : bool :=
  match f with
  | F_yield _ | F_set_level _ | F_relock _ | F_cond_broadcast _ _ | F_allocate_tid _
  | F_set_tid _ _ | F_idle_loop | F_idle_wake | F_iret => true
  | _ => false
  end.

Lemma lstk_push_plain d e f fs st u st' :
  push_frame f st = Ok (u, st') -> plain f = true -> lstk d e fs st -> lstk d e (f :: fs) st'.
Proof.
  intros H Hp Hs. eapply lstk_push; [done|done|by destruct f|by destruct f| |by destruct f].
  intros l. rewrite nclaims_neutral by by destruct f. lia.
Qed.

Lemma linv_push_plain d e f : plain f = true -> pres (linv d e) (push_frame f).
Proof. intros Hp st u st' Hs H. by destruct (lstk_push_plain d e f _ _ _ _ H Hp (conj Hs eq_refl)). Qed.

(** ** The scheduler keeps the invariant *)

Lemma view_upd_thread t f :
  (forall th, stack_of (f th) = stack_of th) -> keeps view (upd_thread t f).
Proof.
  apply keeps_upd_thread. intros st ths H. unfold view. cbn. by rewrite H.
Qed.

#[local] Hint Extern 3 (keeps view (upd_thread _ _)) => (by apply view_upd_thread) : msteps.
#[local] Hint Extern 3 (keeps view (level_remove _)) => (by apply level_remove_keeps) : msteps.

Lemma linv0_keeps {A} d e (m : M kstate A) : keeps view m -> pres (linv0 d e) m.
Proof. apply (keeps_pres view). Qed.

Lemma linv_keeps {A} d e (m : M kstate A) : keeps view m -> pres (linv d e) m.
Proof. apply (keeps_pres view (fun v => lock_inv d e v /\ live v)). Qed.

#[local] Hint Extern 5 (pres (linv0 _ _) _) => (apply linv0_keeps; solve [msteps]) : msteps.
#[local] Hint Extern 5 (pres (linv _ _) _) => (apply linv_keeps; solve [msteps]) : msteps.

Lemma view_next_thread_to_run : keeps view next_thread_to_run.
Proof.
  unfold next_thread_to_run, highest_non_empty_level. msteps.
  apply highest_non_empty_loop_keeps.
Qed.

Lemma inv_delete d e v t b :
  lock_inv d e v -> l_stks v !! t = Some ([], b) ->
  lock_inv d e (mkL (delete t (l_stks v)) (l_vals v) (l_locks v) (l_conds v)
    (l_blocked v) (l_idle v) (l_current v)).
Proof.
  intros [Heq Hst Hc Hb Hi] Ht. constructor; cbn; try done.
  - intros l h Hl. destruct (Heq l h Hl) as (? & x & Hx & ? & E). split; [done|].
    exists x. split; [done|]. split; [done|].
    pose proof (total_delete (nclaims l false) _ _ _ Ht) as HT. simpl in HT. lia.
  - intros u s' b'' [_ Hu]%lookup_delete_Some. by eapply Hst.
  - pose proof (total_delete npending _ _ _ Ht) as HT. simpl in HT. lia.
Qed.

Lemma schedule_tail_linv d e prev :
  hoare (linv0 d e) (thread_schedule_tail prev) (fun _ => linv d e).
Proof.
  intros st u st' Hinv H. unfold thread_schedule_tail, running_thread, intr_get_level in H.
  minv H. pose proof (linv0_set_status d e (current st) THREAD_RUNNING ltac:(done) _ _ _ Hinv Hm0) as Hinv1.
  apply upd_thread_inv in Hm0 as (th & Hth & _ & ->).
  assert (live (view (set_threads (<[current st:=set_status THREAD_RUNNING th]> (threads st)) st)))
    as Hl.
  { unfold live. cbn. rewrite fmap_insert, lookup_insert_eq. eauto. }
  destruct (prev =? NULL); [minv H; exact (conj Hinv1 Hl)|]. minv H. apply thr_inv in Hm0 as (-> & Hpr & _).
  destruct (bool_decide _ && _) eqn:Hd; [|minv H; exact (conj Hinv1 Hl)]. minv H.
  apply andb_prop in Hd as [Hd _]. apply negb_true_iff, Z.eqb_neq in Hm0.
  cbn in Hpr. assert (l_stks (view (set_threads (<[current st:=set_status THREAD_RUNNING th]>
    (threads st)) st)) !! prev = Some (kstack a2, true)) as Hp.
  { cbn. rewrite lookup_fmap, Hpr. cbn. unfold stack_of. by rewrite Hd. }
  destruct (li_stack _ _ _ Hinv1 _ _ _ Hp) as (_ & _ & Hnil). rewrite (Hnil eq_refl) in Hp.
  split.
  - pose proof (inv_delete _ _ _ _ _ Hinv1 Hp) as Hinv2.
    unfold view in *. cbn in *. by rewrite fmap_delete.
  - destruct Hl as [stk Hl]. exists stk. cbn in *. rewrite fmap_delete.
    by rewrite lookup_delete_ne.
Qed.

Lemma schedule_linv d e : hoare (linv0 d e) schedule (fun _ => linv d e).
Proof.
  unfold schedule. eapply hoare_bind with (Q := fun _ => linv0 d e).
  { unfold running_thread. apply pres_gets. }
  intros cur. eapply hoare_bind with (Q := fun _ => linv0 d e).
  { apply linv0_keeps, view_next_thread_to_run. }
  intros next st u st' Hinv H. unfold intr_get_level in H. minv H.
  apply thr_inv in Hm0 as (-> & _ & _). apply is_thread_inv in Hm2 as ->.
  destruct (negb (cur =? next)); [minv H|]; (eapply schedule_tail_linv; [|done]); [|done].
  by destruct Hinv.
Qed.

Lemma thread_block_linv d e : pres (linv d e) thread_block.
Proof.
  intros st u st' [Hinv _] H. unfold thread_block, intr_context, intr_get_level in H. minv H.
  apply thread_current_inv in Hm1 as (-> & -> & _).
  eapply schedule_linv; [|done].
  by eapply (linv0_set_status _ _ _ THREAD_BLOCKED).
Qed.

Lemma ready_insert_view t : keeps view (ready_insert t).
Proof. unfold ready_insert. msteps. Qed.

#[local] Hint Resolve ready_insert_view : msteps.

#[local] Hint Extern 4 (pres (linv _ _) (upd_thread _ (set_status _))) =>
  (by apply linv_set_status) : msteps.
#[local] Hint Extern 4 (pres (linv _ _) (push_frame _)) => (by apply linv_push_plain) : msteps.

Lemma thread_unblock_linv d e t : pres (linv d e) (thread_unblock t).
Proof.
  unfold thread_unblock. msteps.
Qed.

Lemma thread_yield_linv d e : pres (linv d e) thread_yield.
Proof.
  unfold thread_yield, intr_context. msteps.
  intros st u st' [Hinv _] H. by eapply schedule_linv.
Qed.

#[local] Hint Resolve thread_block_linv thread_unblock_linv thread_yield_linv : msteps.

Lemma thread_exit_linv d e st u st' :
  thread_exit st = Ok (u, st') -> lstk d e [] st -> linv d e st'.
Proof.
  unfold thread_exit, intr_context. intros H [[Hinv Hl] Hs]. minv H.
  kept view Hm0 Hv. apply thread_current_inv in Hm1 as (-> & -> & _).
  eapply schedule_linv; [|done].
  assert (exists th, threads s !! current s = Some th /\ kstack th = []) as (th & Hth & Hk).
  { unfold intr_disable, intr_get_level in Hm0. minv Hm0. cbn in *.
    destruct Hl as [stk Hl]. cbn in Hl. unfold current_stack in Hs.
    rewrite lookup_fmap in Hl. destruct (threads st !! current st); [eauto|done]. }
  eapply linv_upd_thread; [done| | |].
  - intros th' Hth' _. cbn in *. congruence.
  - intros th' Hth' Hw Hkn. cbn in *. split; [done|]. split; [done|].
    split; [intros; instantiate (1 := d); lia|instantiate (1 := e); lia].
  - unfold linv0 in *. rewrite <- Hv in Hinv. done.
Qed.

(** ** Semaphores *)

Lemma sem_inv s a st st' :
  sem s st = Ok (a, st') -> st' = st /\ semas st !! s = Some a /\ s <> NULL.
Proof.
  unfold sem. intros H. apply gets_opt_inv in H as [H ->].
  destruct (s =? NULL) eqn:E; [done|]. by apply Z.eqb_neq in E.
Qed.

Lemma upd_sema_inv s x u st st' :
  upd_sema s x st = Ok (u, st') -> st' = set_semas (<[s := x]> (semas st)) st.
Proof.
  unfold upd_sema. intros H. apply bind_ok_inv in H as (a & s' & Hm & H).
  apply sem_inv in Hm as (-> & _). by apply modify_inv in H.
Qed.

(** The values of the semaphores change. *)
Lemma inv_vals d d' e v vals' :
  lock_inv d e v ->
  (forall l h x, l_locks v !! l = Some h -> is_lock l -> l_vals v !! lock_sema l = Some x ->
     0 <= x -> 0 <= held h -> x + held h <= 1 + d l ->
     exists x', vals' !! lock_sema l = Some x' /\ 0 <= x' /\ x' - x = d' l - d l) ->
  lock_inv d' e (mkL (l_stks v) vals' (l_locks v) (l_conds v) (l_blocked v) (l_idle v)
    (l_current v)).
Proof.
  intros [Heq Hst Hc Hb Hi] Hv. constructor; cbn; try done.
  intros l h Hl. destruct (Heq l h Hl) as (HL & x & Hx & ? & E). split; [done|].
  destruct (Hv l h x Hl HL Hx) as (x' & Hx' & ? & E'); [lia| |lia|].
  { unfold held. destruct (h =? NULL); lia. }
  exists x'. split; [done|]. split; [done|]. lia.
Qed.

Lemma free_sema_ne s l : free_sema s -> is_lock l -> lock_sema l <> s.
Proof. unfold free_sema, lock_sema. intros H Hl <-. apply H. by replace (l + 4 - 4) with l by lia. Qed.

(** The value of a semaphore of the client's changes. *)
Lemma linv_free_sema d e s x st :
  free_sema s -> linv d e st -> linv d e (set_semas (<[s := x]> (semas st)) st).
Proof.
  intros Hf [Hinv Hl]. split; [|done]. unfold view. cbn. rewrite fmap_insert.
  apply (inv_vals d d e (view st)); [done|]. cbn. intros l h y Hh HL Hy ? ? ?. exists y.
  rewrite lookup_insert_ne by (apply not_eq_sym; by apply free_sema_ne).
  split; [done|]. split; [done|]. lia.
Qed.

(** The value of a lock's semaphore changes by [n]. *)
Lemma linv_lock_sema d d' e l x y st :
  semas st !! lock_sema l = Some x ->
  (0 <= value x -> value x <= 1 + d l -> 0 <= value y /\ value y - value x = d' l - d l) ->
  (forall l', l' <> l -> d' l' = d l') ->
  linv d e st -> linv d' e (set_semas (<[lock_sema l := y]> (semas st)) st).
Proof.
  intros Hx Hy Hd [Hinv Hl]. split; [|done]. unfold view. cbn. rewrite fmap_insert.
  apply (inv_vals d d' e (view st)); [done|]. cbn. intros l' h z Hh HL Hz ? ? ?.
  destruct (decide (l' = l)) as [->|Hne].
  - rewrite lookup_fmap, Hx in Hz. injection Hz as Hz. subst z.
    exists (value y). rewrite lookup_insert_eq. split; [done|]. apply Hy; lia.
  - exists z. rewrite lookup_insert_ne by (unfold lock_sema; lia).
    split; [done|]. split; [done|]. rewrite Hd by done. lia.
Qed.

(** The waiters of a semaphore change. *)
Lemma view_waiters s sm ws u st st' :
  upd_sema s (mkSema (value sm) ws) st = Ok (u, st') -> semas st !! s = Some sm ->
  view st' = view st.
Proof.
  intros H Hs. apply upd_sema_inv in H as ->. unfold view. cbn. f_equal.
  rewrite fmap_insert. apply insert_id. cbn. by rewrite lookup_fmap, Hs.
Qed.

(** The debt that [n] on the semaphore [s] settles. *)
Definition owed (s n : Z) (d : Z -> Z) : Prop :=
  (exists l, s = lock_sema l /\ d = one l n) \/ (free_sema s /\ d = none).

Lemma sema_increment d e s sm st u st' :
  upd_sema s (mkSema (u32 (value sm + 1)) (waiters sm)) st = Ok (u, st') ->
  semas st !! s = Some sm -> owed s (-1) d -> linv d e st -> linv none e st'.
Proof.
  intros H Hs Ho Hinv. apply upd_sema_inv in H as ->. destruct Ho as [(l & -> & ->)|[Hf ->]].
  - eapply linv_lock_sema; [done| | |done].
    + cbn. unfold one, none. rewrite Z.eqb_refl. intros ? ?.
      rewrite u32_id by lia. lia.
    + intros l' Hne. unfold one, none. by rewrite (proj2 (Z.eqb_neq _ _) Hne).
  - by apply linv_free_sema.
Qed.

Lemma wake_linv d e st s sm u s1 :
  (match waiters sm with
   | [] => ret NULL
   | _ =>
       match DListSort.stable_sort (list_desc_prio_sort st) (waiters sm) with
       | [] => fail Assertion_failed
       | t :: rest => upd_sema s (mkSema (value sm) rest) ;;; thread_unblock t ;;; ret t
       end
   end) st = Ok (u, s1) ->
  semas st !! s = Some sm -> linv d e st -> linv d e s1.
Proof.
  intros H Hs Hinv. destruct (waiters sm) as [|w ws]; [by minv H|].
  destruct (DListSort.stable_sort _ _) as [|t rest]; [done|]. minv H.
  apply view_waiters in Hm; [|done]. eapply thread_unblock_linv; [|done].
  unfold linv. by rewrite Hm.
Qed.

Lemma sema_up_linv d e s st u st' :
  sema_up s st = Ok (u, st') -> owed s (-1) d -> linv d e st -> linv none e st'.
Proof.
  unfold sema_up. intros H Ho Hinv. apply bind_ok_inv in H as (? & s0 & H0 & H). minv H0.
  apply bind_ok_inv in H as (old & s1 & H1 & H). kept view H1 Hv1.
  apply bind_ok_inv in H as (sm & s2 & H2 & H). apply sem_inv in H2 as (-> & Hs1 & _).
  apply bind_ok_inv in H as (st1 & s3 & H3 & H). minv H3.
  apply bind_ok_inv in H as (t & s4 & H4 & H).
  apply (wake_linv d e _ s) in H4; [|done|unfold linv; by rewrite Hv1].
  apply bind_ok_inv in H as (sm' & s5 & H5 & H). apply sem_inv in H5 as (-> & Hs4 & _).
  apply bind_ok_inv in H as (u1 & s6 & H6 & H).
  eapply sema_increment in H6; [|done..].
  revert H6 H. intros Hx. unfold intr_context, intr_yield_on_return.
  match goal with |- ?m _ = _ -> _ => assert (pres (linv none e) m) as K by msteps end.
  by apply K.
Qed.

(** The frames below decide what a [sema_down] settles. *)
Definition down_ok (s : Z) (fs : list frame) (d : Z -> Z) : Prop :=
  match fs with
  | F_lock_acquire l :: _ => s = lock_sema l /\ d = one l 1
  | _ => free_sema s /\ d = none
  end.

Lemma down_ok_frame s old fs d : down_ok s fs d -> frame_wf (F_sema_down s old) fs.
Proof. unfold down_ok, frame_wf. repeat case_match; naive_solver. Qed.

Lemma down_ok_push s old fs d l :
  down_ok s fs d ->
  none l = d l + Z.of_nat (nclaims l false (F_sema_down s old :: fs)) - Z.of_nat (nclaims l false fs).
Proof.
  unfold down_ok. destruct fs as [|f r]; [intros [_ ->]; unfold none; simpl; lia|].
  destruct f; try (intros [_ ->]; unfold none; simpl; lia).
  intros [_ ->]. unfold none, one. simpl. rewrite (Z.eqb_sym l). destruct (lock =? l); simpl; lia.
Qed.

Lemma sema_down_loop_linv d e s old fs st u st' :
  sema_down_loop s old st = Ok (u, st') -> lstk d e fs st -> down_ok s fs d -> linv none e st'.
Proof.
  unfold sema_down_loop. intros H [Hinv Hfs] Ho. apply bind_ok_inv in H as (sm & s2 & H2 & H).
  apply sem_inv in H2 as (-> & Hs & _). destruct (value sm =? 0) eqn:Hz.
  - apply bind_ok_inv in H as (cur & s3 & Hc & H). apply thread_current_inv in Hc as (-> & -> & _).
    apply bind_ok_inv in H as (? & s4 & Hw & H). unfold waiters_insert in Hw.
    minv Hw. apply sem_inv in Hm as (-> & Hs' & _).
    assert (current_stack s4 = fs) as Hfs4.
    { apply upd_sema_inv in Hw as ->. done. }
    apply view_waiters in Hw; [|done].
    apply bind_ok_inv in H as (? & s5 & Hp & H).
    assert (lstk d e fs s4) as Hl4 by (split; [unfold linv; by rewrite Hw|done]).
    destruct (lstk_push d none e e _ _ _ _ _ Hp Hl4) as [Hp' _]; [by eapply down_ok_frame|done| |done|].
    + intros l. by apply down_ok_push.
    + by eapply thread_block_linv.
  - apply bind_ok_inv in H as (? & s3 & Hu & H). apply upd_sema_inv in Hu as ->.
    match type of H with ?m _ = _ => assert (pres (linv none e) m) as K by msteps end.
    eapply K; [|done]. apply Z.eqb_neq in Hz.
    assert ((exists l, s = lock_sema l /\ d = one l 1) \/ (free_sema s /\ d = none)) as Ho'.
    { unfold down_ok in Ho. repeat case_match; naive_solver. }
    destruct Ho' as [(l & -> & ->)|[Hf ->]]; [|by apply linv_free_sema].
    eapply linv_lock_sema; [done| | |done].
    + cbn. unfold one, none. rewrite Z.eqb_refl. intros ? ?. rewrite u32_id by lia. lia.
    + intros l' Hne. unfold one, none. by rewrite (proj2 (Z.eqb_neq _ _) Hne).
Qed.

Lemma sema_down_linv d e s fs st u st' :
  sema_down s st = Ok (u, st') -> lstk d e fs st -> down_ok s fs d -> linv none e st'.
Proof.
  unfold sema_down, intr_context. intros H [Hinv Hfs] Ho. minv H.
  unfold intr_disable, intr_get_level in Hm1. minv Hm1.
  eapply sema_down_loop_linv; [done| |done]. by split.
Qed.

(** ** Locks *)

Lemma lstk_view d e fs st st' : view st' = view st -> lstk d e fs st -> lstk d e fs st'.
Proof.
  intros Hv [Hi Hs]. split; [unfold linv; by rewrite Hv|]. rewrite <- Hs.
  injection Hv as Ht _ _ _ _ _ Hc. unfold current_stack. rewrite Hc.
  apply (f_equal (.!! current st)) in Ht. rewrite !lookup_fmap in Ht.
  destruct (threads st !! current st), (threads st' !! current st); try done.
  injection Ht. congruence.
Qed.

Lemma lock_holder_inv l h st st' :
  lock_holder l st = Ok (h, st') -> st' = st /\ locks st !! l = Some h /\ l <> NULL.
Proof.
  unfold lock_holder. intros H. apply gets_opt_inv in H as [H ->].
  destruct (l =? NULL) eqn:E; [done|]. by apply Z.eqb_neq in E.
Qed.

Lemma lock_held_inv l b st st' :
  lock_held_by_current_thread l st = Ok (b, st') ->
  st' = st /\ current st <> NULL /\ exists h, locks st !! l = Some h /\ b = (h =? current st).
Proof.
  unfold lock_held_by_current_thread. intros H. minv H.
  apply lock_holder_inv in Hm0 as (-> & Hl & _).
  apply thread_current_inv in Hm1 as (-> & -> & Hn & _). split; [done|]. split; [done|]. eauto.
Qed.

Lemma set_holder_inv l h u st st' :
  set_holder l h st = Ok (u, st') ->
  st' = set_locks (<[l := h]> (locks st)) st /\ is_Some (locks st !! l).
Proof.
  unfold set_holder. intros H. apply bind_ok_inv in H as (a & s' & Hm & H).
  apply lock_holder_inv in Hm as (-> & Hl & _). apply modify_inv in H. split; [done|by eexists].
Qed.

Lemma linv_holder d d' e l h h' st :
  locks st !! l = Some h ->
  (d' l = d l + held h' - held h) -> (forall l', l' <> l -> d' l' = d l') ->
  linv d e st -> linv d' e (set_locks (<[l := h']> (locks st)) st).
Proof.
  intros Hl Hd Hd' [[Heq Hst Hc Hb Hi] Hlv]. split; [|done]. constructor; cbn in *; try done.
  - intros l' x [[-> ->]|[Hne Hx]]%lookup_insert_Some.
    + destruct (Heq _ _ Hl) as (? & y & Hy & ? & E). split; [done|]. exists y.
      split; [done|]. split; [done|]. lia.
    + rewrite Hd' by done. by apply Heq.
  - intros t stk b Ht. destruct (Hst _ _ _ Ht) as (Hw & Hk & Hb').
    split; [done|]. split; [|done]. eapply Forall_impl; [exact Hk|].
    intros f Hf. destruct f; try done; simpl in *; apply lookup_insert_is_Some'; auto.
Qed.

Lemma one_eq l n : one l n l = n.
Proof. unfold one. by rewrite Z.eqb_refl. Qed.

Lemma one_ne l n l' : l' <> l -> one l n l' = 0.
Proof. unfold one. intros H. by rewrite (proj2 (Z.eqb_neq _ _) H). Qed.

Lemma view_donate_chain fuel l p : keeps view (donate_chain fuel l p).
Proof. revert l. induction fuel; intros l; simpl; unfold lock_holder; msteps. Qed.

Lemma view_donate fuel l cur : keeps view (donate fuel l cur).
Proof. unfold donate, lock_holder. msteps. apply view_donate_chain. Qed.

Lemma lock_acquire_linv e fuel l : pres (linv none e) (lock_acquire fuel l).
Proof.
  intros st u st' Hinv H. unfold lock_acquire, intr_context in H. minv H.
  apply lock_held_inv in Hm1 as (-> & _ & h & Hl & _).
  apply thread_current_inv in Hm3 as (-> & -> & _).
  apply view_donate in Hm4. assert (locks s1 = locks st) as El by (injection Hm4; congruence).
  assert (lstk none e (current_stack st) s1) as Hl1 by (by eapply lstk_view).
  eapply (lstk_push none (one l 1) e e) in Hm5; [|exact Hl1|done|simpl; rewrite El; eauto| |done].
  2:{ intros l'. simpl. unfold none, one. rewrite (Z.eqb_sym l'). destruct (l =? l'); lia. }
  eapply (lstk_push (one l 1) none e e) in H; [by destruct H|exact Hm5|done|done| |done].
  intros l'. simpl. unfold none, one. rewrite (Z.eqb_sym l'). destruct (l =? l'); simpl; lia.
Qed.

Lemma lock_acquire_end_linv e l st u st' :
  lock_acquire_end l st = Ok (u, st') -> linv (one l (-1)) e st -> linv none e st'.
Proof.
  unfold lock_acquire_end, running_thread. intros H Hinv. minv H. kept view Hm Hv.
  apply thread_current_inv in Hm0 as (-> & -> & Hn & _).
  apply set_holder_inv in H as [-> [h Hl]].
  assert (linv (one l (-1)) e s) as Hinv1 by (unfold linv; by rewrite Hv).
  eapply linv_holder; [done| |intros l' Hne; rewrite one_ne by done; done|done].
  destruct Hinv1 as [[Heq _ _ _ _] _]. destruct (Heq l h Hl) as (_ & x & _ & ? & E).
  rewrite one_eq in *. unfold none. unfold held in *. rewrite (proj2 (Z.eqb_neq _ _) Hn).
  destruct (h =? NULL); lia.
Qed.

Lemma lock_release_linv e l : pres (linv none e) (lock_release l).
Proof.
  intros st u st' Hinv H. unfold lock_release in H.
  apply bind_ok_inv in H as (? & s0 & H0 & H). minv H0. clear H0.
  apply bind_ok_inv in H as (b & s0 & H0 & H).
  apply lock_held_inv in H0 as (-> & Hn & h & Hl & ->).
  apply bind_ok_inv in H as (? & s0 & H0 & H). apply ASSERT_inv in H0 as [Hh ->].
  apply Z.eqb_eq in Hh. subst h.
  apply bind_ok_inv in H as (cur & s0 & H0 & H). apply thread_current_inv in H0 as (-> & -> & _).
  apply bind_ok_inv in H as (? & s1 & H0 & H). apply set_holder_inv in H0 as [-> _].
  apply (linv_holder _ (one l (-1)) _ _ _ NULL _ Hl) in Hinv.
  2:{ unfold held. rewrite (proj2 (Z.eqb_neq _ _) Hn). by rewrite one_eq. }
  2:{ intros l' Hne. by rewrite one_ne. }
  apply bind_ok_inv in H as (th & s0 & H0 & H). apply thr_inv in H0 as (-> & _).
  apply bind_ok_inv in H as (? & s1 & H0 & H). kept view H0 Hv.
  assert (locks s1 = <[l := NULL]> (locks st)) as El by (injection Hv; congruence).
  eapply (lstk_push (one l (-1)) none e e) in H;
    [by destruct H| | |simpl; rewrite El, lookup_insert_eq; eauto| |done].
  - eapply lstk_view; [exact Hv|]. split; [exact Hinv|reflexivity].
  - done.
  - intros l'. simpl. unfold none, one. rewrite (Z.eqb_sym l'). destruct (l =? l'); lia.
Qed.

(** ** Initialisation and condition variables *)

Lemma sema_init_linv d e s v : free_sema s -> pres (linv d e) (sema_init s v).
Proof.
  intros Hf. unfold sema_init. msteps. intros st u st' Hinv H. minv H. by apply linv_free_sema.
Qed.

Lemma sema_try_down_linv d e s : free_sema s -> pres (linv d e) (sema_try_down s).
Proof.
  intros Hf. unfold sema_try_down, sem. msteps.
  intros st u st' Hinv H. apply upd_sema_inv in H as ->. by apply linv_free_sema.
Qed.

Lemma nclaims_unknown hs l w stk :
  hs !! l = None -> Forall (frame_known hs) stk -> nclaims l w stk = 0%nat.
Proof.
  intros Hl H. revert w. induction H as [|f r Hf Hr IH]; intros w; [done|].
  assert (forall l', is_Some (hs !! l') -> (l' =? l) = false) as Hne.
  { intros l' [? E]. apply Z.eqb_neq. congruence. }
  destruct f; simpl in *; rewrite ?IH, ?(Hne _ Hf), ?andb_false_r; done.
Qed.

Lemma lock_init_linv d e l st u st' :
  lock_init l st = Ok (u, st') -> is_lock l -> locks st !! l = None ->
  d l = 0 -> linv d e st -> linv d e st'.
Proof.
  unfold lock_init, sema_init. intros H HL Hl Hd [[Heq Hst Hc Hb Hi] Hlv]. minv H.
  split; [|done]. constructor; cbn in *; try done.
  - rewrite fmap_insert. intros l' x [[-> <-]|[Hne Hx]]%lookup_insert_Some.
    + split; [done|]. exists 1. rewrite lookup_insert_eq. split; [done|]. split; [lia|].
      rewrite total_zero; [unfold held; simpl; lia|]. intros t [stk b] Ht.
      apply (nclaims_unknown (locks st)); [done|]. by apply (Hst t stk b).
    + destruct (Heq _ _ Hx) as (HL' & y & Hy & E). split; [done|]. exists y.
      rewrite lookup_insert_ne by (unfold lock_sema; lia). done.
  - intros t stk b Ht. destruct (Hst _ _ _ Ht) as (Hw & Hk & Hb').
    split; [done|]. split; [|done]. eapply Forall_impl; [exact Hk|].
    intros f Hf. destruct f; try done; simpl in *; apply lookup_insert_is_Some'; auto.
Qed.

Lemma linv_conds d e cs st :
  (forall c ws w, cs !! c = Some ws -> w ∈ ws -> free_sema (elem_sema w)) ->
  linv d e st -> linv d e (set_conds cs st).
Proof. intros H [[Heq Hst Hc Hb Hi] Hlv]. split; [|done]. by constructor. Qed.

Lemma cond_waiters_inv c ws st st' :
  cond_waiters c st = Ok (ws, st') -> st' = st /\ conds st !! c = Some ws.
Proof.
  unfold cond_waiters. intros H. apply gets_opt_inv in H as [H ->].
  by destruct (c =? NULL).
Qed.

Lemma set_cond_linv d e c ws :
  (forall w, w ∈ ws -> free_sema (elem_sema w)) -> pres (linv d e) (set_cond c ws).
Proof.
  intros Hw st u st' Hinv H. unfold set_cond in H. minv H.
  apply cond_waiters_inv in Hm as [-> _]. apply linv_conds; [|done].
  intros c' ws' w [[-> ->]|[_ Hc]]%lookup_insert_Some Hin; [auto|].
  destruct Hinv as [Hinv _]. by eapply (li_cond _ _ _ Hinv).
Qed.

Lemma cond_init_linv d e c : pres (linv d e) (cond_init c).
Proof.
  unfold cond_init. msteps. intros st u st' Hinv H. minv H. apply linv_conds; [|done].
  intros c' ws' w [[_ <-]|[_ Hc]]%lookup_insert_Some Hin; [by apply elem_of_nil in Hin|].
  destruct Hinv as [Hinv _]. by eapply (li_cond _ _ _ Hinv).
Qed.

Lemma cond_free d e c ws st :
  linv d e st -> conds st !! c = Some ws -> forall w, w ∈ ws -> free_sema (elem_sema w).
Proof. intros [Hinv _] Hc w Hw. by eapply (li_cond _ _ _ Hinv). Qed.

Lemma cond_wait_linv e w c l : free_sema (elem_sema w) -> pres (linv none e) (cond_wait w c l).
Proof.
  intros Hf st u st' Hinv H. unfold cond_wait, intr_context in H. minv H.
  apply lock_held_inv in Hm2 as (-> & _).
  apply (sema_init_linv none e _ _ Hf) in Hm4; [|done].
  apply cond_waiters_inv in Hm5 as [-> Hc].
  assert (linv none e s2) as Hs2.
  { eapply set_cond_linv; [|exact Hm4|exact Hm6]. intros w' [Hw|Hw]%elem_of_app.
    - by eapply cond_free.
    - by apply list_elem_of_singleton in Hw as ->. }
  destruct (lstk_push none none e e _ _ _ _ _ Hm7 (conj Hs2 eq_refl)) as [Hs3 _];
    [done|done|intros l'; simpl; lia|done|].
  by eapply lock_release_linv.
Qed.

Lemma cond_signal_linv e c l : pres (linv none e) (cond_signal c l).
Proof.
  intros st u st' Hinv H. unfold cond_signal, intr_context in H.
  do 6 (apply bind_ok_inv in H as (? & ? & ?Hm & H)). minv Hm. minv Hm0. minv Hm1. minv Hm2.
  apply lock_held_inv in Hm3 as (-> & _). minv Hm4.
  apply bind_ok_inv in H as (old & s1 & Hd & H). kept view Hd Hv.
  assert (linv none e s1) as Hinv1 by (unfold linv; by rewrite Hv).
  apply bind_ok_inv in H as (ws & s2 & Hw & H). apply cond_waiters_inv in Hw as [-> Hws].
  apply bind_ok_inv in H as (st2 & s2 & Hg & H). minv Hg.
  apply bind_ok_inv in H as (? & s2 & Hsort & H).
  assert (linv none e s2) as Hinv2.
  { destruct ws as [|w1 [|w2 ws]]; [by minv Hsort|by minv Hsort|]. minv Hsort.
    eapply set_cond_linv; [|exact Hinv1|exact Hsort]. intros w Hin.
    rewrite DListSort.stable_sort_perm in Hin. by eapply cond_free. }
  apply bind_ok_inv in H as (? & s3 & Hl & H). kept view Hl Hv3.
  assert (linv none e s3) as Hinv3 by (unfold linv; by rewrite Hv3).
  apply bind_ok_inv in H as (ws' & s4 & Hw & H). apply cond_waiters_inv in Hw as [-> Hws'].
  destruct ws' as [|w rest]; [done|].
  apply bind_ok_inv in H as (? & s & Hset & H).
  assert (linv none e s) as Hinv4.
  { eapply set_cond_linv; [|exact Hinv3|exact Hset]. intros w' Hin.
    eapply cond_free; [exact Hinv3|exact Hws'|by right]. }
  eapply sema_up_linv; [done| |done]. right. split; [|done].
  eapply cond_free; [exact Hinv3|exact Hws'|by left].
Qed.

Lemma cond_broadcast_loop_linv e c l : pres (linv none e) (cond_broadcast_loop c l).
Proof. unfold cond_broadcast_loop, cond_waiters. msteps; apply cond_signal_linv. Qed.

(** ** Threads *)

Lemma init_thread_lview t nm p st u st' :
  init_thread t nm p st = Ok (u, st') ->
  view st' = mkL (<[t := ([], false)]> (stack_of <$> threads st)) (value <$> semas st)
    (locks st) (conds st) (blocked_threads st) (idle_thread st) (current st).
Proof.
  unfold init_thread. intros H.
  do 4 (apply bind_ok_inv in H as (? & ? & ?Hm & H)). minv Hm. minv Hm0. minv Hm1.
  apply upd_thread_inv in Hm2 as (th & Hth & _ & ->).
  unfold running_thread, update_priority in H. kept view H Hv. rewrite Hv. unfold view. cbn in *.
  rewrite lookup_insert_eq in Hth. injection Hth as <-.
  by rewrite !fmap_insert, insert_insert_eq.
Qed.

Lemma inv_new d e v t :
  lock_inv d e v -> l_stks v !! t = None ->
  lock_inv d e (mkL (<[t := ([], false)]> (l_stks v)) (l_vals v) (l_locks v) (l_conds v)
    (l_blocked v) (l_idle v) (l_current v)).
Proof.
  intros [Heq Hst Hc Hb Hi] Ht. constructor; cbn; try done.
  - intros l h Hl. rewrite total_insert_new by done. by apply Heq.
  - intros u s' b'' [[-> [= <- <-]]|[_ Hu]]%lookup_insert_Some; [done|]. by eapply Hst.
  - rewrite total_insert_new by done. done.
Qed.

Lemma init_thread_linv d e t nm p st u st' :
  init_thread t nm p st = Ok (u, st') -> threads st !! t = None ->
  linv d e st -> linv d e st'.
Proof.
  intros H Ht [Hinv Hl]. apply init_thread_lview in H.
  assert (l_stks (view st) !! t = None) as Hn by (cbn; by rewrite lookup_fmap, Ht).
  assert (t <> current st) as Hne.
  { intros ->. destruct Hl as [stk Hl]. cbn in *. congruence. }
  split.
  - rewrite H. by apply (inv_new d e (view st)).
  - rewrite H. unfold live in *. cbn in *. by rewrite lookup_insert_ne.
Qed.

(** A thread body whose semaphore is not inside a lock. *)
Definition func_ok (fn : thread_func) : Prop :=
  match fn with Fn_idle s => free_sema s | Fn_client => True end.

Definition idles (fn : thread_func) : nat := match fn with Fn_idle _ => 1 | Fn_client => 0 end.

Lemma linv_weaken d e e' st : (e' <= e)%nat -> linv d e st -> linv d e' st.
Proof. intros He [[Heq Hst Hc Hb Hi] Hl]. split; [|done]. constructor; try done. lia. Qed.

Lemma allocate_tid_linv e t : pres (linv none e) (allocate_tid t).
Proof. unfold allocate_tid. msteps. apply lock_acquire_linv. Qed.

Lemma thread_create_linv e page nm p fn st u st' :
  thread_create page nm p fn st = Ok (u, st') -> threads st !! page = None -> func_ok fn ->
  linv none (idles fn + e) st -> linv none e st'.
Proof.
  unfold thread_create. intros H Hf Hfn Hinv.
  destruct (page =? NULL); [minv H; eapply linv_weaken; [|done]; lia|].
  apply bind_ok_inv in H as (? & s1 & H1 & H).
  apply (init_thread_linv _ _ _ _ _ _ _ _ H1 Hf) in Hinv.
  minv H. apply thread_current_inv in Hm as (-> & -> & _). apply thr_inv in Hm0 as (-> & _).
  kept view Hm1 Hv1. kept view Hm2 Hv2.
  assert (linv none (idles fn + e) s3) as Hs2 by (unfold linv; by rewrite Hv2, Hv1).
  destruct (lstk_push none none (idles fn + e) e _ _ _ _ _ Hm3 (conj Hs2 eq_refl)) as [Hs3 _];
    [by destruct fn|done|intros l'; simpl; lia|by destruct fn|].
  by eapply allocate_tid_linv.
Qed.

(** No thread is the idle thread or on the way to it. *)
Definition no_idle (st : kstate) : Prop :=
  idle_thread st = NULL /\ total npending (stack_of <$> threads st) = 0%nat.

Lemma linv_no_idle d st : no_idle st -> linv d 0 st -> linv d 1 st.
Proof.
  intros [Hn Ht] [[Heq Hst Hc Hb Hi] Hl]. split; [|done]. constructor; try done.
  cbn. rewrite Hn, Ht. simpl. lia.
Qed.

Lemma thread_start_linv page s st u st' :
  thread_start page s st = Ok (u, st') -> threads st !! page = None -> free_sema s ->
  no_idle st -> lstk none 0 [] st -> linv none 0 st'.
Proof.
  unfold thread_start. intros H Hf Hs Hno [Hinv Hst]. apply (linv_no_idle _ _ Hno) in Hinv.
  apply bind_ok_inv in H as (? & s1 & H1 & H). apply bind_ok_inv in H as (? & s2 & H2 & H).
  assert (current_stack s1 = [] /\ threads s1 = threads st) as [Hc1 Ht1].
  { unfold sema_init in H1. minv H1. done. }
  apply (sema_init_linv none 1 _ _ Hs) in H1; [|done].
  assert (threads s2 !! page = None) as Hf2.
  { unfold push_frame, running_thread in H2. minv H2. apply upd_thread_inv in H2 as (th & Hth & _ & ->).
    cbn. rewrite lookup_insert_ne, Ht1; [done|]. intros E. rewrite E, Ht1 in Hth. congruence. }
  destruct (lstk_push none none 1 1 _ _ _ _ _ H2 (conj H1 eq_refl)) as [Hs3 _];
    [by rewrite Hc1|done|intros l'; simpl; lia|done|].
  by eapply (thread_create_linv 0).
Qed.

Lemma alloc_frame_view t n : keeps view (alloc_frame t n).
Proof. unfold alloc_frame. msteps. Qed.

#[local] Hint Resolve alloc_frame_view : msteps.

Lemma thread_unblock_blocked t st u st' :
  thread_unblock t st = Ok (u, st') -> (status <$> threads st) !! t = Some THREAD_BLOCKED.
Proof.
  unfold thread_unblock. intros H. apply bind_ok_inv in H as (b & s & Hb & H).
  apply is_thread_inv in Hb as ->. apply bind_ok_inv in H as (? & s & Ha & H). minv Ha.
  apply bind_ok_inv in H as (old & s & Hd & H). unfold intr_disable, intr_get_level in Hd. minv Hd.
  apply bind_ok_inv in H as (th & s & Ht & H). apply thr_inv in Ht as (-> & Hth & _).
  apply bind_ok_inv in H as (? & s & Hs & H). apply ASSERT_inv in Hs as [Hs _].
  apply bool_decide_eq_true in Hs. cbn in Hth. by rewrite lookup_fmap, Hth, <- Hs.
Qed.

Lemma thread_create_end_linv e t fn st u st' :
  thread_create_end t fn st = Ok (u, st') -> func_ok fn ->
  linv none (idles fn + e) st -> linv none e st'.
Proof.
  unfold thread_create_end. intros H Hfn Hinv.
  apply bind_ok_inv in H as (old & s1 & H1 & H). kept view H1 E1.
  apply bind_ok_inv in H as (? & s2 & H2 & H). kept view H2 E2.
  apply bind_ok_inv in H as (? & s3 & H3 & H).
  apply bind_ok_inv in H as (? & s4 & H4 & H). kept view H4 E4.
  pose proof (sview_alloc_frame _ _ _ _ _ H4) as F4.
  apply bind_ok_inv in H as (? & s5 & H5 & H). kept view H5 E5.
  pose proof (sview_alloc_frame _ _ _ _ _ H5) as F5.
  apply bind_ok_inv in H as (? & s6 & H6 & H). kept view H6 E6. kept sview H6 F6.
  apply bind_ok_inv in H as (? & s7 & H7 & H).
  pose proof (thread_unblock_blocked _ _ _ _ H7) as Hb.
  assert (status <$> threads s6 = status <$> threads s3) as Es
    by (injection F4; injection F5; injection F6; congruence).
  assert (linv none (idles fn + e) s2) as Hs2 by (unfold linv; by rewrite E2, E1).
  assert (linv none e s3) as Hs3.
  { destruct Hs2 as [Hi2 Hl2]. split; [|eapply live_upd_thread; [done|auto|done]].
    eapply linv_upd_thread; [done| | |exact Hi2].
    - intros th Hth Hdy. exfalso. rewrite Es in Hb. apply upd_thread_inv in H3 as (th' & Hth' & _ & ->).
      cbn in *. rewrite fmap_insert, lookup_insert_eq in Hb. injection Hb as Hb. cbn in Hb.
      apply bool_decide_eq_true in Hdy. congruence.
    - intros th Hth Hw Hk. cbn. split; [by destruct fn|]. split; [by constructor|].
      split; [intros l; unfold none; lia|]. destruct fn; simpl; lia. }
  match type of H with ?m _ = _ => assert (pres (linv none e) m) as K by msteps end.
  eapply K; [|done]. eapply thread_unblock_linv; [|done]. unfold linv. by rewrite E6, E5, E4.
Qed.

Lemma kernel_thread_linv fn st u st' :
  kernel_thread fn st = Ok (u, st') -> func_ok fn -> linv none (idles fn) st -> linv none 0 st'.
Proof.
  unfold kernel_thread. intros H Hfn Hinv. apply bind_ok_inv in H as (? & s1 & H1 & H).
  kept view H1 E1. assert (linv none (idles fn) s1) as Hinv1 by (unfold linv; by rewrite E1).
  destruct fn as [s|]; [|by minv H].
  apply bind_ok_inv in H as (cur & s2 & H2 & H). apply thread_current_inv in H2 as (-> & -> & Hn & _).
  apply bind_ok_inv in H as (? & s2 & H2 & H). minv H2.
  apply bind_ok_inv in H as (? & s3 & H3 & H).
  eapply sema_up_linv; [done|right; by split|].
  eapply linv_push_plain; [|  |exact H3]; [done|].
  destruct Hinv1 as [[Heq Hst Hc Hb Hi] Hl]. split; [|done]. constructor; try done.
  cbn in *. destruct (current s1 =? NULL); lia.
Qed.

#[local] Hint Resolve sema_init_linv : msteps.

Lemma idle_loop_linv d e : pres (linv d e) idle_loop.
Proof. unfold idle_loop. msteps. Qed.

Lemma idle_wake_linv d e : pres (linv d e) idle_wake.
Proof. unfold idle_wake. msteps. Qed.

(** ** Timer *)

Lemma timer_ticks_view : keeps view timer_ticks.
Proof. unfold timer_ticks. msteps. Qed.

#[local] Hint Resolve timer_ticks_view : msteps.

Lemma timer_sleep_linv e sl n st u st' :
  timer_sleep sl n st = Ok (u, st') -> free_sema (sleep_sema sl) -> lstk none e [] st ->
  linv none e st'.
Proof.
  unfold timer_sleep. intros H Hf [Hinv Hs]. destruct (n >? 0); [|by minv H].
  apply bind_ok_inv in H as (start & s1 & H1 & H). 
  assert (lstk none e [] s1) as Hs1.
  { eapply lstk_view; [by eapply timer_ticks_view|by split]. }
  apply bind_ok_inv in H as (? & s2 & H2 & H). apply thread_current_inv in H2 as (-> & _).
  apply bind_ok_inv in H as (? & s3 & H3 & H). unfold sleeper_new in H3. minv H3. clear H3.
  apply bind_ok_inv in H as (? & s3 & H3 & H). minv H3.
  apply bind_ok_inv in H as (? & s4 & H4 & H).
  assert (lstk none e [] s4) as Hs4.
  { destruct Hs1 as [Hi1 Hc1]. split; [|unfold sema_init in H4; by minv H4].
    exact (sema_init_linv none e _ _ Hf (set_sleep_ticks _ s1) _ _ Hi1 H4). }
  eapply (lstk_push none none e e) in H; [by destruct H|exact Hs4|done|done|intros l; simpl; lia|done].
Qed.

Lemma linv_blocked d e bl st :
  (forall sl, sl ∈ bl -> free_sema (sleep_sema sl)) ->
  linv d e st -> linv d e (set_blocked_threads bl st).
Proof. intros H [[Heq Hst Hc Hb Hi] Hl]. split; [|done]. by constructor. Qed.

Lemma blocked_free d e st :
  linv d e st -> forall sl, sl ∈ blocked_threads st -> free_sema (sleep_sema sl).
Proof. intros [Hinv _]. apply (li_blocked _ _ _ Hinv). Qed.

Lemma timer_sleep_insert_linv e sl n start fs st u st' :
  timer_sleep_insert sl n start st = Ok (u, st') -> free_sema (sleep_sema sl) ->
  not_acquiring fs -> lstk none e fs st -> linv none e st'.
Proof.
  unfold timer_sleep_insert. intros H Hf Hna Hinv.
  apply bind_ok_inv in H as (old & s1 & H1 & H). kept view H1 E1.
  apply (lstk_view _ _ _ _ _ E1) in Hinv.
  apply bind_ok_inv in H as (? & s2 & H2 & H). minv H2.
  apply bind_ok_inv in H as (? & s2 & H2 & H). unfold touch_sleepers in H2. minv H2. clear H2.
  apply bind_ok_inv in H as (? & s2 & H2 & H). minv H2.
  apply bind_ok_inv in H as (? & s3 & H3 & H). kept view H3 E3.
  eapply (lstk_push none none e e _ fs) in H;
    [by destruct H| |done|done|intros l; simpl; lia|done].
  eapply lstk_view; [exact E3|]. destruct Hinv as [Hinv Hs]. split; [|done].
  apply linv_blocked; [|done]. intros sl' Hin. rewrite insert_ordered_perm in Hin.
  apply elem_of_cons in Hin as [->|Hin]; [done|]. by eapply blocked_free.
Qed.

Lemma not_acquiring_down s fs : free_sema s -> not_acquiring fs -> down_ok s fs none.
Proof. intros Hf Hn. unfold down_ok. destruct fs as [|[]]; done. Qed.

Lemma timer_sleep_check_linv e sl n start fs st u st' :
  timer_sleep_check sl n start st = Ok (u, st') -> free_sema (sleep_sema sl) ->
  not_acquiring fs -> lstk none e fs st -> linv none e st'.
Proof.
  unfold timer_sleep_check. intros H Hf Hna Hinv. apply bind_ok_inv in H as (el & s1 & H1 & H).
  unfold timer_elapsed in H1. kept view H1 Hv. apply (lstk_view _ _ _ _ _ Hv) in Hinv.
  apply bind_ok_inv in H as (? & s2 & H2 & H).
  eapply (lstk_push none none e e) in H2; [|exact Hinv|done|done|intros l; simpl; lia|done].
  destruct (_ <? n); [|minv H; by destruct H2].
  eapply sema_down_linv; [done|done|by split].
Qed.

Lemma linv_delete_sema d e s st :
  free_sema s -> linv d e st -> linv d e (set_semas (delete s (semas st)) st).
Proof.
  intros Hf [Hinv Hl]. split; [|done]. unfold view. cbn. rewrite fmap_delete.
  apply (inv_vals d d e (view st)); [done|]. cbn. intros l h y Hh HL Hy ? ? ?. exists y.
  rewrite lookup_delete_ne by (apply not_eq_sym; by apply free_sema_ne).
  split; [done|]. split; [done|]. lia.
Qed.

Lemma timer_sleep_end_linv e sl : free_sema (sleep_sema sl) -> pres (linv none e) (timer_sleep_end sl).
Proof.
  intros Hf. unfold timer_sleep_end. apply pres_bind; [msteps|intros _].
  apply pres_modify. intros st. by apply linv_delete_sema.
Qed.

Lemma timer_wake_linv e sl : free_sema (sleep_sema sl) -> pres (linv none e) (timer_wake sl).
Proof.
  intros Hf. unfold timer_wake. apply pres_bind; [msteps|intros n].
  destruct (n >? 0); [|msteps]. apply pres_bind; [msteps|intros _].
  destruct (n - 1 =? 0); [|msteps]. apply pres_bind.
  - intros st u st' Hinv H. eapply sema_up_linv; [done|right; by split|done].
  - intros _ st u st' Hinv H. minv H. apply linv_blocked; [|done].
    intros sl' Hin. eapply blocked_free; [done|]. apply remove_first_perm in Hm.
    rewrite Hm. by right.
Qed.

Lemma view_thread_tick : keeps view thread_tick.
Proof.
  unfold thread_tick, is_mult_of_second, is_mult_of_four, update_load_avg,
    count_ready_threads, thread_foreach, intr_get_level, intr_yield_on_return, intr_context.
  msteps; apply foreach_keeps; intros t; unfold update_recent_cpu, update_priority; msteps.
Qed.

#[local] Hint Resolve view_thread_tick : msteps.

Lemma foreach_linv d e f ts :
  (forall t, t ∈ ts -> pres (linv d e) (f t)) -> pres (linv d e) (foreach f ts).
Proof.
  induction ts as [|t ts IH]; intros H; simpl; [apply pres_ret|].
  apply pres_bind; [apply H; by left|]. intros _. apply IH. intros t' Ht. apply H. by right.
Qed.

Lemma timer_interrupt_linv e : pres (linv none e) timer_interrupt.
Proof.
  unfold timer_interrupt. apply pres_bind; [msteps|intros _].
  apply pres_bind; [msteps|intros _].
  intros st u st' Hinv H. minv H. revert H. apply (foreach_linv none e); [|done].
  intros sl Hin. apply timer_wake_linv. by eapply blocked_free.
Qed.

#[local] Hint Resolve timer_interrupt_linv : msteps.

Lemma intr_handler_timer_linv e : pres (linv none e) intr_handler_timer.
Proof. unfold intr_handler_timer, intr_get_level, intr_context. msteps. Qed.

(** ** Steps of the machine *)

Lemma pop_linv f fs st u st' :
  upd_thread (current st) (set_kstack fs) st = Ok (u, st') -> lstk none 0 (f :: fs) st ->
  (forall d', (forall l, d' l = Z.of_nat (nclaims l false fs) - Z.of_nat (nclaims l false (f :: fs))) ->
    lstk d' (starts_idle f) fs st') /\
  frame_wf f fs /\ frame_known (locks st') f.
Proof.
  intros H [[Hinv Hl] Hs].
  assert (exists th, threads st !! current st = Some th /\ kstack th = f :: fs) as (th & Hth & Hk).
  { unfold current_stack in Hs. destruct (threads st !! current st); [eauto|done]. }
  assert (l_stks (view st) !! current st = Some (stack_of th)) as Ht
    by (cbn; by rewrite lookup_fmap, Hth).
  destruct (li_stack _ _ _ Hinv _ _ _ Ht) as (Hw & Hkn & Hd). rewrite Hk in *.
  destruct Hw as [Hw1 Hw2]. apply Forall_cons in Hkn as [Hkn1 Hkn2].
  split; [|split; [done|apply upd_thread_inv in H as (? & _ & _ & ->); done]].
  intros d' Hd'. split; [split|].
  - eapply linv_upd_thread; [done| | |exact Hinv].
    + intros th' Hth' Hdy. cbn in *. assert (th' = th) as -> by congruence. by specialize (Hd Hdy).
    + intros th' Hth' _ _. assert (th' = th) as -> by congruence. cbn [kstack set_kstack].
      rewrite Hk. split; [done|]. split; [done|]. split; [intros l; rewrite Hd'; unfold none; lia|].
      simpl. lia.
  - eapply live_upd_thread; [done|auto|done].
  - apply upd_thread_inv in H as (th' & _ & _ & ->). unfold current_stack. cbn.
    by rewrite lookup_insert_eq.
Qed.

Lemma pop_none f fs st u st' :
  upd_thread (current st) (set_kstack fs) st = Ok (u, st') -> lstk none 0 (f :: fs) st ->
  neutral f = true -> lstk none (starts_idle f) fs st'.
Proof.
  intros H Hl Hn. apply (pop_linv _ _ _ _ _ H) in Hl as [Hl _]. apply Hl.
  intros l. rewrite nclaims_neutral by done. unfold none. lia.
Qed.

(** Below a frame that takes a semaphore. *)
Lemma pop_down f s fs st u st' :
  upd_thread (current st) (set_kstack fs) st = Ok (u, st') -> lstk none 0 (f :: fs) st ->
  (exists old, f = F_sema_down s old) \/ (exists l, f = F_acquire_down l /\ s = lock_sema l) ->
  exists d, lstk d 0 fs st' /\ down_ok s fs d.
Proof.
  intros H Hl Hf. apply (pop_linv _ _ _ _ _ H) in Hl as (Hl & Hw & _).
  assert (starts_idle f = 0%nat) as Hi by (destruct Hf as [[? ->]|[? [-> _]]]; done).
  rewrite Hi in Hl.
  assert (forall l, nclaims l false (f :: fs) = nclaims l true fs) as Hc
    by (intros l; destruct Hf as [[? ->]|[? [-> _]]]; done).
  destruct fs as [|g r].
  - destruct Hf as [[old ->]|[l [-> _]]]; [|done]. exists none. split; [|by split].
    apply Hl. intros l. by rewrite Hc.
  - destruct g; try (exists none; split;
      [apply Hl; intros l; rewrite Hc; simpl; unfold none; lia
      |destruct Hf as [[old ->]|[l' [-> _]]]; [by split|by destruct Hw]]).
    exists (one lock 1). split.
    + apply Hl. intros l. rewrite Hc. simpl. unfold one. rewrite (Z.eqb_sym l).
      destruct (lock =? l); simpl; lia.
    + destruct Hf as [[old ->]|[l [-> ->]]]; simpl in Hw |- *; by rewrite ?Hw.
Qed.

Lemma pop_lock f l fs st u st' :
  upd_thread (current st) (set_kstack fs) st = Ok (u, st') -> lstk none 0 (f :: fs) st ->
  f = F_lock_acquire l \/ f = F_release_up l -> lstk (one l (-1)) 0 fs st'.
Proof.
  intros H Hl Hf. apply (pop_linv _ _ _ _ _ H) in Hl as [Hl _].
  assert (starts_idle f = 0%nat) as Hi by (by destruct Hf as [-> | ->]).
  rewrite Hi in Hl. apply Hl. intros l'. unfold one. rewrite (Z.eqb_sym l').
  destruct Hf as [-> | ->]; simpl; destruct (l =? l'); simpl; lia.
Qed.

Lemma lstk_none {A} e fs (m : M kstate A) st u st' :
  m st = Ok (u, st') -> pres (linv none e) m -> lstk none e fs st -> linv none e st'.
Proof. intros H Hp [Hi _]. by eapply Hp. Qed.

Lemma run_frame_linv f fs st u s1 u' st' :
  upd_thread (current st) (set_kstack fs) st = Ok (u, s1) -> lstk none 0 (f :: fs) st ->
  run_frame f s1 = Ok (u', st') -> linv none 0 st'.
Proof.
  intros Hp Hl H. destruct (pop_linv _ _ _ _ _ Hp Hl) as (_ & Hw & Hk).
  pose proof (pop_none _ _ _ _ _ Hp Hl) as Hn.
  destruct f; simpl in H, Hn; try specialize (Hn eq_refl);
    try (eapply lstk_none; [exact H| |exact Hn]; solve [msteps]).
  - destruct (pop_down _ sema _ _ _ _ Hp Hl) as (d & Hd & Ho); [eauto|].
    by eapply sema_down_loop_linv.
  - destruct (pop_down _ (lock_sema lock) _ _ _ _ Hp Hl) as (d & Hd & Ho); [eauto|].
    by eapply sema_down_linv.
  - destruct (pop_lock _ lock _ _ _ _ Hp Hl) as [Hd _]; [auto|]. by eapply lock_acquire_end_linv.
  - destruct (pop_lock _ lock _ _ _ _ Hp Hl) as [Hd _]; [auto|].
    eapply sema_up_linv; [done| |done]. left. eauto.
  - apply bind_ok_inv in H as (? & s2 & H2 & H).
    apply (lstk_push_plain _ _ _ _ _ _ _ H2) in Hn; [|done].
    eapply sema_down_linv; [done|done|]. by split.
  - eapply lstk_none; [exact H| |exact Hn]. apply lock_acquire_linv.
  - eapply lstk_none; [exact H| |exact Hn]. apply cond_broadcast_loop_linv.
  - eapply lstk_none; [exact H| |exact Hn]. unfold allocate_tid_end. msteps.
    apply lock_release_linv.
  - destruct Hn as [Hn _]. eapply thread_create_end_linv; [done|by destruct function|].
    by destruct function.
  - unfold thread_start_end in H. apply bind_ok_inv in H as (? & s2 & H2 & H).
    kept view H2 Hv. apply (lstk_view _ _ _ _ _ Hv) in Hn. destruct Hw as [Hf Hna].
    eapply sema_down_linv; [done|done|by apply not_acquiring_down].
  - destruct Hn as [Hn _]. eapply kernel_thread_linv; [done|by destruct function|].
    by destruct function.
  - eapply lstk_none; [exact H| |exact Hn]. apply idle_loop_linv.
  - eapply lstk_none; [exact H| |exact Hn]. apply idle_wake_linv.
  - destruct Hw. by eapply timer_sleep_insert_linv.
  - destruct Hw. by eapply timer_sleep_check_linv.
  - eapply lstk_none; [exact H| |exact Hn]. by apply timer_sleep_end_linv.
Qed.

(** What a client of the kernel keeps to: its semaphores are not inside
    locks, locks are initialised once, pages for threads are free
    ([palloc_get_page] hands out no page twice), [thread_start] is called
    once, and [lock_try_acquire] is not used. *)
Definition client_ok (st : kstate) (a : api) : Prop :=
  match a with
  | A_sema_init s _ | A_sema_down s | A_sema_try_down s | A_sema_up s => free_sema s
  | A_lock_init l => is_lock l /\ locks st !! l = None
  | A_lock_try_acquire _ _ => False
  | A_cond_wait w _ _ => free_sema (elem_sema w)
  | A_thread_start page s => threads st !! page = None /\ free_sema s /\ no_idle st
  | A_thread_create page _ _ => threads st !! page = None
  | A_timer_sleep sl _ => free_sema (sleep_sema sl)
  | _ => True
  end.

Lemma run_api_linv a st u st' :
  run_api a st = Ok (u, st') -> client_ok st a -> lstk none 0 [] st -> linv none 0 st'.
Proof.
  intros H Hok Hl. destruct a; simpl in H, Hok; try done.
  - eapply lstk_none; [exact H| |exact Hl]. by apply sema_init_linv.
  - eapply sema_down_linv; [done|done|by split].
  - eapply lstk_none; [exact H| |exact Hl]. msteps. by apply sema_try_down_linv.
  - destruct Hl as [Hl _]. eapply sema_up_linv; [done| |done]. right. by split.
  - destruct Hok, Hl as [Hl _]. by eapply lock_init_linv.
  - eapply lstk_none; [exact H| |exact Hl]. apply lock_acquire_linv.
  - eapply lstk_none; [exact H| |exact Hl]. apply lock_release_linv.
  - eapply lstk_none; [exact H| |exact Hl]. apply cond_init_linv.
  - eapply lstk_none; [exact H| |exact Hl]. by apply cond_wait_linv.
  - eapply lstk_none; [exact H| |exact Hl]. apply cond_signal_linv.
  - eapply lstk_none; [exact H| |exact Hl]. unfold cond_broadcast. msteps.
    apply cond_broadcast_loop_linv.
  - destruct Hok as (? & ? & ?). by eapply thread_start_linv.
  - destruct Hl as [Hl _]. by eapply (thread_create_linv 0 _ _ _ Fn_client).
  - eapply lstk_none; [exact H| |exact Hl]. apply thread_yield_linv.
  - by eapply thread_exit_linv.
  - eapply lstk_none; [exact H| |exact Hl]. unfold thread_set_priority. msteps.
  - eapply lstk_none; [exact H| |exact Hl].
    unfold thread_set_nice, intr_context, update_priority. msteps.
  - by eapply timer_sleep_linv.
Qed.

End locks.

End LockInv.
