(* ===== verification/Machine.v ===== *)
(** * The invariants of the running kernel

    [SchedInv] and [LockInv] put together over the steps of [Kernel]: what
    holds of every state that a kernel booted by [thread_init] can reach,
    whatever its threads call and whenever the timer interrupts. *)

From S2P Require Import Prelude DListSort KState Threads Synch Kernel SchedInv LockInv.
Import KState Threads Synch Kernel SchedInv LockInv.

Module Machine.

Lemma run_top_inv st u st' :
  run_top st = Ok (u, st') ->
  exists f fs s1, current_stack st = f :: fs /\
    upd_thread (current st) (set_kstack fs) st = Ok (tt, s1) /\ run_frame f s1 = Ok (u, st').
Proof.
  unfold run_top, running_thread. intros H. apply bind_ok_inv in H as (? & s & Hm & H). minv Hm.
  apply bind_ok_inv in H as (th & s & Ht & H). apply thr_inv in Ht as (-> & Hth & _).
  destruct (kstack th) as [|f fs] eqn:Hk; [done|]. apply bind_ok_inv in H as ([] & s & Hu & H).
  exists f, fs, s. split; [|done]. unfold current_stack. by rewrite Hth.
Qed.

(** ** The scheduler *)

Lemma run_frame_sched f st u st' :
  run_frame f st = Ok (u, st') ->
  (forall s, f = F_kernel_thread (Fn_idle s) -> idle_thread st = NULL) ->
  sched_ok st -> sched_ok st'.
Proof.
  intros H Hi Hok. destruct f; simpl in H.
  all: try (by eapply kernel_thread_ok; [done|destruct function; eauto|done]).
  all: match type of H with ?m _ = _ => assert (pres sched_ok m) as K; [|by eapply K] end.
  all: try solve [apply sched_of_keeps; msteps; by apply sview_upd_thread].
  - apply sema_down_loop_pres.
  - apply sema_down_pres.
  - apply sched_of_keeps, sview_lock_acquire_end.
  - apply sema_up_pres.
  - apply pres_bind; [apply sched_of_keeps, sview_push_frame|intros _; apply sema_down_pres].
  - apply sched_of_keeps, sview_lock_acquire.
  - unfold cond_broadcast_loop, cond_waiters. msteps; [apply sched_of_keeps, sview_push_frame|].
    apply cond_signal_pres.
  - apply sched_of_keeps. unfold allocate_tid_end. msteps; [apply sview_push_frame|].
    apply sview_lock_release.
  - apply thread_create_end_pres.
  - unfold thread_start_end. msteps; [apply sched_of_keeps; msteps|apply sema_down_pres].
  - apply idle_loop_pres.
  - apply sched_of_keeps, sview_idle_wake.
  - apply sched_of_keeps, sview_timer_sleep_insert.
  - apply timer_sleep_check_pres.
  - apply sched_of_keeps, sview_timer_sleep_end.
Qed.

Lemma run_api_sched is_lock a st u st' :
  run_api a st = Ok (u, st') -> client_ok is_lock st a -> sched_ok st -> sched_ok st'.
Proof.
  intros H Hc Hok. destruct a; simpl in H, Hc; try done.
  all: try (by eapply thread_create_ok).
  all: try (by destruct Hc as (? & ? & ?); eapply thread_start_ok).
  all: match type of H with ?m _ = _ => assert (pres sched_ok m) as K; [|by eapply K] end.
  all: try solve [apply sched_of_keeps; unfold lock_init, cond_init; msteps;
    first [apply sview_sema_init|apply sview_sema_try_down|apply sview_lock_acquire
          |apply sview_lock_release|apply sview_cond_wait|apply sview_timer_sleep]].
  - apply sema_down_pres.
  - apply sema_up_pres.

  - apply cond_signal_pres.
  - apply cond_broadcast_pres.
  - apply thread_yield_pres.
  - apply thread_exit_pres.
  - apply thread_set_priority_pres.
  - apply thread_set_nice_pres.
Qed.

(** ** The invariant *)

Section invariant.
Context (is_lock : Z -> Prop) (tid_lock_is_lock : is_lock tid_lock).

Definition kernel_inv (st : kstate) : Prop := sched_ok st /\ linv is_lock none 0 st.

Lemma idle_free d st : linv is_lock d 1 st -> idle_thread st = NULL.
Proof.
  intros [Hinv _]. pose proof (li_idle _ _ _ _ Hinv) as Hi. cbn in Hi.
  destruct (idle_thread st =? NULL) eqn:E; [by apply Z.eqb_eq|lia].
Qed.

Lemma step_inv st st' : step (client_ok is_lock) st st' -> kernel_inv st -> kernel_inv st'.
Proof.
  intros Hst [Hok Hl]. destruct Hst as [st st' H|st a st' Hs Hc H|st st' Hi H].
  - apply run_top_inv in H as (f & fs & s1 & Hs & Hp & H).
    split; [|by eapply run_frame_linv].
    eapply run_frame_sched; [done| |].
    + intros s ->. destruct (pop_none is_lock _ _ _ _ _ Hp (conj Hl Hs)) as [Hl1 _]; [done|].
      by eapply idle_free.
    + unfold sched_ok. by rewrite (sview_upd_thread _ (set_kstack fs) (fun _ => eq_refl) _ _ _ Hp).
  - split; [by eapply run_api_sched|]. by eapply run_api_linv.
  - split; [by eapply intr_handler_timer_pres|by eapply intr_handler_timer_linv].
Qed.

Lemma boot_linv mlfqs main la : linv is_lock none 0 (boot mlfqs main la).
Proof.
  assert (stack_of <$> threads (boot mlfqs main la) = {[main := ([], false)]}) as E
    by (cbn; by rewrite map_fmap_singleton).
  split; [constructor|].
  - done.
  - cbn [view l_stks]. rewrite E. intros t stk b [-> [= <- <-]]%lookup_singleton_Some. done.
  - done.
  - by intros sl ?%elem_of_nil.
  - cbn [view l_stks]. rewrite E, <- insert_empty, total_insert_new by done.
    simpl. unfold total. rewrite map_fold_empty. lia.
  - exists []. cbn [view l_stks l_current]. rewrite E. apply lookup_singleton_eq.
Qed.

Lemma thread_init_inv mlfqs main la st :
  thread_init (boot mlfqs main la) = Ok (tt, st) -> kernel_inv st.
Proof.
  unfold thread_init. intros H.
  do 2 (apply bind_ok_inv in H as (? & ? & ?Hm & H)). unfold intr_get_level in Hm. minv Hm. minv Hm0.
  apply bind_ok_inv in H as (? & s1 & H1 & H).
  assert (threads s1 = {[main := zero_thread]} /\ current s1 = main /\ idle_thread s1 = NULL)
    as (Et & Ec & Ei) by (unfold lock_init, sema_init in H1; by minv H1).
  apply (lock_init_linv is_lock none 0) in H1; [|done|done|done|apply boot_linv].
  apply bind_ok_inv in H as (? & ? & Hm & H). minv Hm.
  apply bind_ok_inv in H as (? & ? & Hm & H). minv Hm.
  apply bind_ok_inv in H as (m & ? & Hm & H). minv Hm.
  apply bind_ok_inv in H as (? & s2 & H2 & H).
  set (s0 := set_all_list [] (set_ready_list [] s1)) in H2.
  kept sview H2 Ev2. kept view H2 Ew2. clear H2.
  apply bind_ok_inv in H as (r & s3 & H3 & H). unfold running_thread in H3. minv H3.
  apply bind_ok_inv in H as (? & s3 & H3 & H). minv H3.
  apply bind_ok_inv in H as (? & s4 & H4 & H).
  pose proof (init_thread_view _ _ _ _ _ _ H4) as [Hn Hv4].
  apply init_thread_lview in H4 as Hw4. cbn in Hv4, Hw4.
  subst s0. injection Ev2 as Ev21 Ev22 Ev23 Ev24. injection Ew2 as Ew21 Ew22 Ew23 Ew24 Ew25 _ _.
  cbn in Ev21, Ev22, Ev23, Ev24, Ew21, Ew22, Ew23, Ew24, Ew25.
  rewrite Ev21, Ev22, Ev23, Ev24, Et, Ec, Ei in Hv4.
  rewrite Ew21, Ew22, Ew23, Ew24, Ew25, Ev22, Ev24 in Hw4.
  assert (view s4 = view s1) as Hw.
  { rewrite Hw4. unfold view. f_equal. apply insert_id.
    rewrite lookup_fmap, Et, Ec, lookup_singleton_eq. done. }
  apply bind_ok_inv in H as (? & s5 & H5 & H).
  split.
  - unfold sched_ok. rewrite (sview_allocate_tid _ _ _ _ H).
    rewrite Ev22, Ec in H5. apply upd_thread_inv in H5 as (th & Hth & Hn5 & ->).
    injection Hv4 as Es Esc Esr Esi. unfold sview. cbn. rewrite fmap_insert, Es, Esc, Esr, Esi.
    cbn. rewrite map_fmap_singleton, !insert_singleton_eq.
    unfold sched_inv, only, ready_ok. cbn.
    split; [by apply lookup_singleton_ne|]. split; [apply lookup_singleton_eq|].
    split; [by intros t [? _]%lookup_singleton_Some|].
    split; [constructor|]. split; [by intros t ?%elem_of_nil|].
    by intros t [_ ?]%lookup_singleton_Some.
  - eapply allocate_tid_linv; [|exact H]. eapply linv_set_status; [|  |exact H5]; [done|].
    unfold linv. by rewrite Hw.
Qed.

Lemma reachable_inv st : reachable (client_ok is_lock) st -> kernel_inv st.
Proof.
  induction 1 as [m main la st H|st st' _ IH H]; [by eapply thread_init_inv|by eapply step_inv].
Qed.

End invariant.

(** ** Who changes the holder of a lock *)

Lemma locks_upd_thread t f : keeps locks (upd_thread t f).
Proof. apply (keeps_upd_thread locks (fun _ => tt)); done. Qed.

#[local] Hint Resolve locks_upd_thread : msteps.

Lemma locks_push_frame f : keeps locks (push_frame f).
Proof. unfold push_frame, running_thread. msteps. Qed.

Lemma locks_schedule : keeps locks schedule.
Proof.
  unfold schedule, running_thread, intr_get_level, thread_schedule_tail, next_thread_to_run,
    highest_non_empty_level, running_thread, intr_get_level.
  msteps; first [by apply level_remove_keeps | apply highest_non_empty_loop_keeps].
Qed.

#[local] Hint Resolve locks_push_frame locks_schedule : msteps.

Lemma locks_thread_block : keeps locks thread_block.
Proof. unfold thread_block, intr_context, intr_get_level. msteps. Qed.

Lemma locks_thread_unblock t : keeps locks (thread_unblock t).
Proof. unfold thread_unblock, ready_insert. msteps. Qed.

Lemma locks_thread_yield : keeps locks thread_yield.
Proof. unfold thread_yield, intr_context, ready_insert. msteps. Qed.

#[local] Hint Resolve locks_thread_block locks_thread_unblock locks_thread_yield : msteps.

Lemma locks_sema_down_loop s old : keeps locks (sema_down_loop s old).
Proof. unfold sema_down_loop, waiters_insert, sem. msteps. Qed.

#[local] Hint Resolve locks_sema_down_loop : msteps.

Lemma locks_sema_down s : keeps locks (sema_down s).
Proof. unfold sema_down, intr_context. msteps. Qed.

Lemma locks_sema_up s : keeps locks (sema_up s).
Proof. unfold sema_up, sem, intr_context, intr_yield_on_return. msteps. Qed.

Lemma locks_donate_chain fuel l p : keeps locks (donate_chain fuel l p).
Proof. revert l. induction fuel; intros l; simpl; unfold lock_holder; msteps. Qed.

#[local] Hint Resolve locks_sema_down locks_sema_up locks_donate_chain : msteps.

Lemma locks_lock_acquire fuel l : keeps locks (lock_acquire fuel l).
Proof.
  unfold lock_acquire, donate, lock_held_by_current_thread, lock_holder, intr_context. msteps.
Qed.

#[local] Hint Resolve locks_lock_acquire : msteps.

Lemma locks_cond_signal c l : keeps locks (cond_signal c l).
Proof.
  unfold cond_signal, lock_held_by_current_thread, lock_holder, intr_context, set_cond,
    cond_waiters. msteps.
Qed.

Lemma locks_timer_ticks : keeps locks timer_ticks.
Proof. unfold timer_ticks. msteps. Qed.

Lemma locks_update_priority t : keeps locks (update_priority t).
Proof. unfold update_priority. msteps. by apply level_remove_keeps. Qed.

#[local] Hint Resolve locks_cond_signal locks_timer_ticks locks_update_priority : msteps.

Lemma locks_init_thread t nm p : keeps locks (init_thread t nm p).
Proof. unfold init_thread, running_thread. msteps. Qed.

Lemma locks_alloc_frame t n : keeps locks (alloc_frame t n).
Proof. unfold alloc_frame. msteps. Qed.

#[local] Hint Resolve locks_init_thread locks_alloc_frame : msteps.

Lemma locks_thread_create page nm p fn : keeps locks (thread_create page nm p fn).
Proof. unfold thread_create, allocate_tid. msteps. Qed.

#[local] Hint Resolve locks_thread_create : msteps.

Lemma locks_timer_wake sl : keeps locks (timer_wake sl).
Proof. unfold timer_wake. msteps. Qed.

Lemma locks_intr_handler_timer : keeps locks intr_handler_timer.
Proof.
  unfold intr_handler_timer, timer_interrupt, intr_get_level, intr_context, thread_tick,
    is_mult_of_second, is_mult_of_four, update_load_avg, count_ready_threads, thread_foreach,
    intr_get_level, intr_yield_on_return, intr_context.
  msteps; apply foreach_keeps; intros t; unfold update_recent_cpu; msteps.
  apply locks_timer_wake.
Qed.

Lemma lock_release_locks l st u st' :
  lock_release l st = Ok (u, st') ->
  locks st !! l = Some (current st) /\ locks st' = <[l := NULL]> (locks st).
Proof.
  unfold lock_release. intros H. apply bind_ok_inv in H as (? & s0 & H0 & H). minv H0. clear H0.
  apply bind_ok_inv in H as (b & s0 & H0 & H). apply lock_held_inv in H0 as (-> & _ & h & Hl & ->).
  apply bind_ok_inv in H as (? & s0 & H0 & H). apply ASSERT_inv in H0 as [Hh ->].
  apply Z.eqb_eq in Hh. subst h. split; [done|].
  apply bind_ok_inv in H as (cur & s0 & H0 & H). apply thread_current_inv in H0 as (-> & -> & _).
  apply bind_ok_inv in H as (? & s1 & H0 & H). apply set_holder_inv in H0 as [-> _].
  kept locks H E. done.
Qed.

Lemma current_push_frame f : keeps current (push_frame f).
Proof.
  unfold push_frame, running_thread. msteps.
  apply (keeps_upd_thread current (fun _ => tt)); done.
Qed.

(** What a call does to the lock table. *)
Inductive lock_effect (st st' : kstate) : Prop :=
| le_same : locks st' = locks st -> lock_effect st st'
| le_release l :
    locks st !! l = Some (current st) -> locks st' = <[l := NULL]> (locks st) -> lock_effect st st'
| le_init l :
    locks st !! l = None -> locks st' = <[l := NULL]> (locks st) -> lock_effect st st'.

Lemma run_api_locks is_lock a st u st' :
  run_api a st = Ok (u, st') -> client_ok is_lock st a -> lock_effect st st'.
Proof.
  intros H Hc. destruct a; simpl in H, Hc; try done.
  all: try solve [apply le_same;
    unfold sema_init, sema_try_down, sem, cond_init, cond_broadcast, cond_broadcast_loop,
      cond_waiters, thread_start, sema_init, thread_exit, intr_context, thread_set_priority,
      thread_set_nice, timer_sleep in H; kept locks H E; exact E].
  - eapply le_init; [apply Hc|]. unfold lock_init, sema_init in H. by minv H.
  - apply lock_release_locks in H as [? ?]. by eapply le_release.
  - unfold cond_wait, intr_context in H.
    do 5 (apply bind_ok_inv in H as (? & ? & ?Hm & H)). minv Hm. minv Hm0. minv Hm1. minv Hm2.
    apply lock_held_inv in Hm3 as (-> & _).
    apply bind_ok_inv in H as (? & s1 & H1 & H). minv H1.
    apply bind_ok_inv in H as (? & s2 & H2 & H). unfold sema_init in H2. minv H2.
    apply bind_ok_inv in H as (? & s3 & H3 & H). apply cond_waiters_inv in H3 as [-> _].
    apply bind_ok_inv in H as (? & s4 & H4 & H). unfold set_cond in H4. minv H4.
    apply cond_waiters_inv in Hm3 as [-> _].
    apply bind_ok_inv in H as (? & s5 & H5 & H). kept locks H5 E5.
    apply current_push_frame in H5. apply lock_release_locks in H as [Hr Hr'].
    rewrite E5, H5 in *. by eapply le_release.
  - apply le_same. unfold timer_sleep, sleeper_new, sema_init in H. kept locks H E. exact E.
Qed.

Lemma run_frame_locks f st u st' :
  run_frame f st = Ok (u, st') ->
  lock_effect st st' \/ exists l, f = F_lock_acquire l /\ locks st' = <[l := current st]> (locks st).
Proof.
  intros H. destruct f; simpl in H.
  all: try solve [left; apply le_same;
    unfold cond_broadcast_loop, cond_waiters, thread_create_end, thread_start_end, kernel_thread,
      idle_loop, idle_wake, timer_sleep_insert, timer_sleep_check, timer_sleep_end, timer_elapsed in H;
    kept locks H E; exact E].
  - right. exists lock. split; [done|]. unfold lock_acquire_end, running_thread in H. minv H.
    kept locks Hm E. pose proof (sview_upd_thread _ (set_waiting_lock NULL) (fun _ => eq_refl) _ _ _ Hm) as Esv. apply thread_current_inv in Hm0 as (-> & -> & _).
    apply set_holder_inv in H as [-> _]. cbn. rewrite E. f_equal. by injection Esv.
  - left. unfold allocate_tid_end in H. minv H. kept locks Hm E.
    apply current_push_frame in Hm. apply lock_release_locks in H as [Hr Hr'].
    rewrite E, Hm in *. by eapply le_release.
Qed.

(** ** The theorems *)

(** The frames of the running thread, popped: nothing else changes. *)
Lemma pop_locks t fs st u st' :
  upd_thread t (set_kstack fs) st = Ok (u, st') -> locks st' = locks st /\ current st' = current st.
Proof. intros H. by apply upd_thread_inv in H as (th & _ & _ & ->). Qed.

(** A thread about to record itself as the holder finds none recorded. *)
Lemma claim_excludes is_lock l h fs st u s1 :
  upd_thread (current st) (set_kstack fs) st = Ok (u, s1) ->
  lstk is_lock none 0 (F_lock_acquire l :: fs) st -> locks st !! l = Some h -> h = NULL.
Proof.
  intros Hp Hl Hh. destruct (pop_lock is_lock _ l _ _ _ _ Hp Hl) as [[Hinv _] _]; [auto|].
  destruct (pop_locks _ _ _ _ _ Hp) as [El _].
  destruct (li_eq _ _ _ _ Hinv l h) as (_ & x & _ & ? & E); [cbn; by rewrite El|].
  rewrite one_eq in E. unfold held in E. destruct (h =? NULL) eqn:Hn; [by apply Z.eqb_eq|lia].
Qed.

Lemma effect_excludes st st' l h :
  lock_effect st st' -> locks st !! l = Some h -> h <> NULL ->
  locks st' !! l = Some h \/ (current st = h /\ locks st' !! l = Some NULL).
Proof.
  intros He Hl Hn. destruct He as [E|l' Hr E|l' Hr E]; rewrite E; [by left| |].
  - destruct (decide (l' = l)) as [->|Hne]; [|rewrite lookup_insert_ne by done; by left].
    right. rewrite lookup_insert_eq. split; [congruence|done].
  - left. rewrite lookup_insert_ne; [done|]. intros ->. congruence.
Qed.

(** C1: Mutual exclusion: in a kernel booted by [thread_init] whose clients
    keep to [client_ok] (they do not call [lock_try_acquire], which does not
    exclude, see [Scenarios.lock_try_acquire_not_exclusive]; their semaphores
    are not inside locks, locks are initialised once, new threads get unused
    pages, [thread_start] is called once),
    while a thread holds a lock no step of any thread and no timer interrupt
    makes another thread its holder; the only step that ends the tenure is a
    release by the holder itself, and it leaves the lock without holder. *)
Theorem lock_mutual_exclusion (is_lock : Z -> Prop) st st' l h :
  is_lock tid_lock -> reachable (client_ok is_lock) st -> step (client_ok is_lock) st st' ->
  locks st !! l = Some h -> h <> NULL ->
  locks st' !! l = Some h \/ (current st = h /\ locks st' !! l = Some NULL).
Proof.
  intros Htid Hr Hst Hl Hn. apply reachable_inv in Hr as [_ Hinv]; [|done].
  destruct Hst as [st st' H|st a st' Hs Hc H|st st' Hi H].
  - apply run_top_inv in H as (f & fs & s1 & Hs & Hp & H).
    destruct (pop_locks _ _ _ _ _ Hp) as [El Ec]. rewrite <- El in Hl. rewrite <- Ec.
    destruct (run_frame_locks _ _ _ _ H) as [He|(l' & -> & E)]; [by apply effect_excludes|].
    left. rewrite E. destruct (decide (l' = l)) as [->|Hne]; [|by rewrite lookup_insert_ne].
    rewrite El in Hl. by destruct Hn; eapply claim_excludes.
  - eapply effect_excludes; [by eapply run_api_locks|done|done].
  - left. by rewrite (locks_intr_handler_timer _ _ _ H).
Qed.

(** C2: The scheduler: in every reachable state, under either
    scheduler, the current thread is running and no other thread is; the
    ready list has no duplicate, holds only ready threads, and holds every
    ready thread but the idle thread. *)
Theorem scheduler_invariant (is_lock : Z -> Prop) st :
  is_lock tid_lock -> reachable (client_ok is_lock) st ->
  (exists th, threads st !! current st = Some th /\ status th = THREAD_RUNNING) /\
  (forall t th, threads st !! t = Some th -> status th = THREAD_RUNNING -> t = current st) /\
  NoDup (ready_list st) /\
  (forall t, t ∈ ready_list st ->
     exists th, threads st !! t = Some th /\ status th = THREAD_READY) /\
  (forall t th, threads st !! t = Some th -> status th = THREAD_READY ->
     t ∈ ready_list st \/ t = idle_thread st).
Proof.
  intros Htid Hr. apply reachable_inv in Hr as [(_ & H1 & H2 & H3 & H4 & H5) _]; [|done].
  cbn in *. assert (forall t s, (status <$> threads st) !! t = Some s ->
    exists th, threads st !! t = Some th /\ status th = s) as Hs.
  { intros t s. rewrite lookup_fmap_Some. intros (th & ? & ?). eauto. }
  assert (forall t th, threads st !! t = Some th -> (status <$> threads st) !! t = Some (status th))
    as Hs' by (intros t th Ht; by rewrite lookup_fmap, Ht).
  split; [by apply Hs|]. split; [intros t th Ht Hst; apply H2; rewrite <- Hst; by apply Hs'|].
  split; [done|]. split; [intros t Ht; by apply Hs, H4|].
  intros t th Ht Hst. apply H5. rewrite <- Hst. by apply Hs'.
Qed.

(** The semaphore of a lock is binary: in every reachable
    state its value is 0 or 1, it is 0 while the lock has a holder, and when
    it is 1 no thread is between taking the semaphore and recording itself,
    nor between forgetting itself and raising the semaphore. *)
Theorem lock_semaphore_binary (is_lock : Z -> Prop) st l h :
  is_lock tid_lock -> reachable (client_ok is_lock) st -> locks st !! l = Some h ->
  exists sm, semas st !! lock_sema l = Some sm /\ (value sm = 0 \/ value sm = 1) /\
    (h <> NULL -> value sm = 0) /\
    (value sm = 1 -> forall t th, threads st !! t = Some th -> nclaims l false (kstack th) = 0%nat).
Proof.
  intros Htid Hr Hl. apply reachable_inv in Hr as [_ [Hinv _]]; [|done].
  destruct (li_eq _ _ _ _ Hinv l h Hl) as (_ & x & Hx & Hx0 & E). cbn in Hx, E.
  apply lookup_fmap_Some in Hx as (sm & <- & Hs). exists sm. split; [done|].
  unfold none, held in E. split; [destruct (h =? NULL); lia|]. split.
  - intros Hn. rewrite (proj2 (Z.eqb_neq _ _) Hn) in E. lia.
  - intros Hv t th Ht. assert ((stack_of <$> threads st) !! t = Some (stack_of th)) as Hst
      by (by rewrite lookup_fmap, Ht).
    pose proof (total_le (nclaims l false) _ _ _ Hst) as Hle. cbn in Hle.
    destruct (h =? NULL); lia.
Qed.

End Machine.
