(* ===== verification/Scenarios.v ===== *)
(** * Runs of the kernel

    An executable scheduler of [Kernel] steps, with which concrete runs are
    shown to be runs of the machine, and the runs that the other files refer
    to: witnesses of the theorems of [Machine], and runs that show where the
    priority-donation code of src/src/threads/synch.c does not do what its
    comments say. *)

From S2P Require Import Prelude DListSort KState Threads Synch Kernel SchedInv LockInv Machine.
Import KState Threads Synch Kernel SchedInv LockInv Machine.

Module Scenarios.

Inductive action : Type :=
| Do_frame
| Do_call (a : api)
| Do_timer.

Definition act (x : action) (st : kstate) : res (unit * kstate) :=
  match x with
  | Do_frame => run_top st
  | Do_call a => match current_stack st with [] => run_api a st | _ => Err Out_of_fuel end
  | Do_timer => if intr_on st then intr_handler_timer st else Err Out_of_fuel
  end.

(** The conditions of [client_ok] as a test. *)
Definition client_okb (lockb : Z -> bool) (st : kstate) (a : api) : bool :=
  let free s := negb (lockb (s - 4)) in
  match a with
  | A_sema_init s _ | A_sema_down s | A_sema_try_down s | A_sema_up s => free s
  | A_lock_init l => lockb l && bool_decide (locks st !! l = None)
  | A_lock_try_acquire _ _ => false
  | A_cond_wait w _ _ => free (elem_sema w)
  | A_thread_start page s =>
      bool_decide (threads st !! page = None) && free s && (idle_thread st =? NULL)
      && (total npending (stack_of <$> threads st) =? 0)%nat
  | A_thread_create page _ _ => bool_decide (threads st !! page = None)
  | A_timer_sleep sl _ => free (sleep_sema sl)
  | _ => true
  end.

Lemma client_okb_ok lockb st a :
  client_okb lockb st a = true -> client_ok (fun l => lockb l = true) st a.
Proof.
  assert (forall s, negb (lockb (s - 4)) = true -> free_sema (fun l => lockb l = true) s) as Hf.
  { intros s H. unfold free_sema. by destruct (lockb (s - 4)). }
  destruct a; simpl; try done; auto.
  - intros [? ?%bool_decide_eq_true]%andb_prop. done.
  - intros [[[?%bool_decide_eq_true ?]%andb_prop ?%Z.eqb_eq]%andb_prop ?%Nat.eqb_eq]%andb_prop.
    split; [done|]. split; [auto|]. by split.
  - by intros ?%bool_decide_eq_true.
Qed.

(** Run a list of actions; [strict] asks every call to satisfy [client_okb]. *)
Fixpoint play (lockb : Z -> bool) (strict : bool) (xs : list action) (st : kstate) : res kstate :=
  match xs with
  | [] => Ok st
  | x :: xs' =>
      let ok := match x with Do_call a => client_okb lockb st a | _ => true end in
      if negb strict || ok then
        match act x st with
        | Ok (_, st') => play lockb strict xs' st'
        | Err e => Err e
        end
      else Err Out_of_fuel
  end.

Lemma act_step lockb x st u st' :
  act x st = Ok (u, st') ->
  match x with Do_call a => client_okb lockb st a | _ => true end = true ->
  step (client_ok (fun l => lockb l = true)) st st'.
Proof.
  destruct u, x as [|a|]; simpl; intros H Hc.
  - by apply step_frame.
  - destruct (current_stack st) eqn:Hs; [|done].
    eapply step_call; [done|by apply client_okb_ok|done].
  - destruct (intr_on st) eqn:Hi; [|done]. by apply step_timer.
Qed.

Lemma play_reachable lockb xs st st' :
  play lockb true xs st = Ok st' ->
  reachable (client_ok (fun l => lockb l = true)) st ->
  reachable (client_ok (fun l => lockb l = true)) st'.
Proof.
  revert st. induction xs as [|x xs IH]; simpl; intros st H Hr; [by injection H as <-|].
  destruct (match x with Do_call a => client_okb lockb st a | _ => true end) eqn:Hc; [|done].
  simpl in H. destruct (act x st) as [[u s]|] eqn:Ha; [|done].
  apply (IH s); [done|]. eapply reach_step; [done|]. by eapply act_step.
Qed.

(** ** A kernel that has booted *)

Definition main : Z := 0xc000e000.
Definition idle_page : Z := 0xc0100000.
Definition thread_1 : Z := 0xc0101000.
Definition thread_2 : Z := 0xc0102000.
Definition thread_3 : Z := 0xc0103000.
Definition all_list_at : Z := 0xc0030000.

Definition lock_a : Z := 100.
Definition lock_b : Z := 200.
Definition lock_c : Z := 300.
Definition lockb (l : Z) : bool :=
  (l =? tid_lock) || (l =? lock_a) || (l =? lock_b) || (l =? lock_c).

Definition is_lock (l : Z) : Prop := lockb l = true.

(** A call and the number of frames that run before the next action. *)
Definition calls (xs : list (action * nat)) : list action :=
  concat (map (fun '(x, n) => x :: replicate n Do_frame) xs).

Definition call (a : api) (n : nat) : action * nat := (Do_call a, n).

(** [thread_init] returns, [thread_start] runs to its end, and the main
    thread initialises three locks. *)
Definition boot_script : list action :=
  replicate 5 Do_frame
  ++ calls [call (A_thread_start idle_page 64) 9; call (A_lock_init lock_a) 0;
            call (A_lock_init lock_b) 0; call (A_lock_init lock_c) 0].

Definition run (strict : bool) (mlfqs : bool) (xs : list action) : res kstate :=
  match thread_init (boot mlfqs main all_list_at) with
  | Ok (_, st) => play lockb strict (boot_script ++ xs) st
  | Err e => Err e
  end.

Lemma run_reachable mlfqs xs st :
  run true mlfqs xs = Ok st -> reachable (client_ok is_lock) st.
Proof.
  unfold run. destruct (thread_init _) as [[[] s]|] eqn:H; [|done]. intros Hp.
  eapply play_reachable; [done|]. by eapply reach_init.
Qed.

Definition is_ok {A} (r : res A) : bool := match r with Ok _ => true | Err _ => false end.

(** The state at the end of a run that does not fault. *)
Definition state (r : res kstate) : kstate :=
  match r with Ok st => st | Err _ => boot false main all_list_at end.

Lemma state_reachable mlfqs xs :
  is_ok (run true mlfqs xs) = true -> reachable (client_ok is_lock) (state (run true mlfqs xs)).
Proof.
  intros H. apply (run_reachable mlfqs xs). by destruct (run true mlfqs xs).
Qed.

(** The state after one more action. *)
Definition after (x : action) (st : kstate) : kstate :=
  match act x st with Ok (_, st') => st' | Err _ => st end.

Lemma after_step x st :
  is_ok (act x st) = true ->
  match x with Do_call a => client_okb lockb st a | _ => true end = true ->
  step (client_ok is_lock) st (after x st).
Proof.
  intros H Hc. apply (act_step lockb x st tt); [|done]. unfold after.
  by destruct (act x st) as [[[] s]|].
Qed.

Definition prio_of (st : kstate) (t : Z) : option Z := priority <$> threads st !! t.

(** ** Runs that satisfy the hypotheses of the theorems of [Machine] *)

(** The main thread holds [lock_a]; a thread of higher priority runs. *)
Definition contended : kstate :=
  state (run true false (calls [call (A_lock_acquire lock_a) 2;
                                call (A_thread_create thread_1 [] 40) 7])).

Lemma contended_reachable : reachable (client_ok is_lock) contended.
Proof. apply state_reachable. vm_compute. reflexivity. Qed.

Lemma lock_mutual_exclusion_witness :
  let st' := after (Do_call (A_lock_acquire lock_a)) contended in
  locks st' !! lock_a = Some main \/ (current contended = main /\ locks st' !! lock_a = Some NULL).
Proof.
  apply (lock_mutual_exclusion is_lock contended _ lock_a main).
  - reflexivity.
  - exact contended_reachable.
  - apply after_step; vm_compute; reflexivity.
  - vm_compute. reflexivity.
  - discriminate.
Defined.

Lemma scheduler_invariant_witness :
  NoDup (ready_list contended) /\ ready_list contended = [main].
Proof.
  split; [|vm_compute; reflexivity].
  exact (proj1 (proj2 (proj2 (scheduler_invariant is_lock contended eq_refl contended_reachable)))).
Defined.

Lemma lock_semaphore_binary_witness :
  exists sm, semas contended !! lock_sema lock_a = Some sm /\ value sm = 0.
Proof.
  destruct (lock_semaphore_binary is_lock contended lock_a main eq_refl contended_reachable)
    as (sm & Hs & _ & Hv & _); [vm_compute; reflexivity|].
  exists sm. split; [exact Hs|]. apply Hv. discriminate.
Defined.

(** ** Where donation goes wrong *)

(** The main thread holds [lock_a]; threads of priority 33 and 32 are ready
    when one of priority 40 starts to wait for the lock. *)
Definition inversion_run : list action :=
  calls [call (A_lock_acquire lock_a) 2; call (A_thread_create thread_1 [] 33) 7;
         call (A_thread_create thread_2 [] 32) 6; call (A_thread_create thread_3 [] 40) 7;
         call (A_lock_acquire lock_a) 2].

(** A donation raises the priority of a ready thread but leaves it in its
    place in the ready list, so the scheduler runs a thread of lower
    priority: a reachable state in which a thread of priority 33 runs while
    the lock holder, at the donated priority 40, is ready. *)
Theorem donation_leaves_ready_list_unsorted :
  exists st, reachable (client_ok is_lock) st /\
    prio_of st (current st) = Some 33 /\
    main ∈ ready_list st /\ prio_of st main = Some 40.
Proof.
  exists (state (run true false inversion_run)).
  split; [apply state_reachable; vm_compute; reflexivity|].
  split; [vm_compute; reflexivity|]. split; [|vm_compute; reflexivity].
  replace (ready_list (state (run true false inversion_run))) with [thread_2; main]
    by (vm_compute; reflexivity).
  right. by left.
Qed.

(** The main thread holds [lock_a] and [lock_b]; a thread of priority 40
    waits for the first, then one of priority 50, created earlier, for the
    second. *)
Definition donors_run : list action :=
  calls [call (A_lock_acquire lock_a) 2; call (A_lock_acquire lock_b) 2;
         call (A_thread_create thread_2 [] 50) 7; call (A_timer_sleep 1000 2) 3;
         call (A_thread_create thread_1 [] 40) 7; call (A_lock_acquire lock_a) 2;
         (Do_timer, 1%nat); (Do_timer, 2%nat); call (A_lock_acquire lock_b) 3;
         call (A_lock_acquire lock_c) 2; call (A_lock_release lock_c) 0].

(** The donor list is ordered by a field other than the priority, so the
    release of an unrelated lock lowers the holder's priority below that of a
    thread that still waits for it. *)
Theorem lock_release_drops_a_donation :
  exists st, reachable (client_ok is_lock) st /\ current st = main /\
    prio_of st main = Some 40 /\
    prio_of st thread_2 = Some 50 /\
    (waiting_lock <$> threads st !! thread_2) = Some lock_b /\ locks st !! lock_b = Some main.
Proof.
  exists (state (run true false donors_run)).
  split; [apply state_reachable; vm_compute; reflexivity|].
  do 4 (split; [vm_compute; reflexivity|]). vm_compute. reflexivity.
Qed.

(** A timer interrupt inside [lock_release], between the two writes. *)
Definition released_run : list action :=
  calls [call (A_thread_create thread_3 [] 50) 7; call (A_timer_sleep 1000 2) 3;
         call (A_lock_acquire lock_b) 2; call (A_thread_create thread_2 [] 40) 7;
         call (A_lock_acquire lock_a) 2; call (A_lock_acquire lock_b) 2; (Do_timer, 1%nat);
         call (A_lock_release lock_b) 0; (Do_timer, 2%nat)].

(** The walk along nested locks reads the holder of a lock that has just
    been released: a reachable state in which [lock_acquire] faults on a null
    pointer although the lock, its holder and the caller are all valid. *)
Theorem nested_donation_null_holder :
  exists st, reachable (client_ok is_lock) st /\ current_stack st = [] /\
    locks st !! lock_a = Some thread_2 /\ current st = thread_3 /\
    run_api (A_lock_acquire lock_a) st = Err Bad_access.
Proof.
  exists (state (run true false released_run)).
  split; [apply state_reachable; vm_compute; reflexivity|].
  do 3 (split; [vm_compute; reflexivity|]). vm_compute. reflexivity.
Qed.

(** The main thread sleeps for one tick, which comes before its object is on
    the list of sleepers. *)
Definition early_run : list action := calls [call (A_timer_sleep 1000 1) 0; (Do_timer, 4%nat)].

(** [timer_sleep] then returns without waiting and without taking its
    object, which is on its stack, off the list: a reachable state in which
    the next timer interrupt uses memory of a function that has returned. *)
Theorem timer_sleep_leaves_dead_sleeper :
  exists st, reachable (client_ok is_lock) st /\ current st = main /\ current_stack st = [] /\
    blocked_threads st = [1000] /\ sleep_ticks st !! 1000 = None /\
    intr_on st = true /\ intr_handler_timer st = Err Bad_access.
Proof.
  exists (state (run true false early_run)).
  split; [apply state_reachable; vm_compute; reflexivity|].
  do 5 (split; [vm_compute; reflexivity|]). vm_compute. reflexivity.
Qed.

(** [lock_try_acquire] takes a unit from a copy of the lock's semaphore. *)
Definition try_acquired : kstate :=
  state (run false false (calls [call (A_lock_try_acquire 500 lock_a) 0;
                                 call (A_thread_create thread_1 [] 33) 7])).

(** After the main thread has the lock by [lock_try_acquire], another
    thread's [lock_acquire] also succeeds, with no release in between: the
    holder changes from one thread to the other. *)
Theorem lock_try_acquire_not_exclusive :
  exists st1 st2 st3,
    locks try_acquired !! lock_a = Some main /\ current try_acquired = thread_1 /\
    run_api (A_lock_acquire lock_a) try_acquired = Ok (tt, st1) /\
    run_top st1 = Ok (tt, st2) /\ run_top st2 = Ok (tt, st3) /\
    current_stack st3 = [] /\ locks st3 !! lock_a = Some thread_1.
Proof.
  exists (after (Do_call (A_lock_acquire lock_a)) try_acquired),
    (after Do_frame (after (Do_call (A_lock_acquire lock_a)) try_acquired)),
    (after Do_frame (after Do_frame (after (Do_call (A_lock_acquire lock_a)) try_acquired))).
  do 6 (split; [vm_compute; reflexivity|]). vm_compute. reflexivity.
Qed.

End Scenarios.
