(* ===== verification/Alarm.v ===== *)
(** * Sleeping threads wake up

    The alarm clock of src/src/devices/timer.c over the machine of [Kernel]:
    a thread that is blocked in [timer_sleep] becomes ready after as many
    timer interrupts as it has ticks left, in every run of the machine whose
    other threads do not use the semaphore on its stack.  A run ends where a
    step fails; the object of a sleeper that has returned without being
    taken off the list makes the next interrupt fail
    ([Scenarios.timer_sleep_leaves_dead_sleeper]). *)

From S2P Require Import Prelude DListSort KState Threads Synch Kernel SchedInv Scenarios.
Import KState Threads Synch Kernel SchedInv.

Module Alarm.

Section sleeper.
Context (sl t : Z).

(** The semaphore of the sleeper. *)
Local Abbreviation s0 := (sleep_sema sl).

(** ** A thread that sleeps *)

Definition clean_func (fn : thread_func) : Prop :=
  match fn with Fn_idle s => s <> s0 | Fn_client => True end.

(** What is left to do of a function does not use the semaphore. *)
Definition clean (f : frame) : Prop :=
  match f with
  | F_sema_down s _ | F_thread_start s => s <> s0
  | F_acquire_down l | F_release_up l | F_relock l => lock_sema l <> s0
  | F_cond_wait l w => lock_sema l <> s0 /\ elem_sema w <> s0
  | F_thread_create _ fn | F_kernel_thread fn => clean_func fn
  | F_timer_sleep sl' _ _ | F_timer_check sl' _ _ | F_timer_end sl' => sl' <> sl
  | _ => True
  end.

Record aview : Type := mkA {
  a_threads : gmap Z (thread_status * list frame);
  a_current : Z;
  a_sema : option semaphore;
  a_conds : gmap Z (list Z);
  a_blocked : list Z;
  a_ticks : option Z
}.

Definition state_of (th : thread) : thread_status * list frame := (status th, kstack th).

Definition av (st : kstate) : aview :=
  mkA (state_of <$> threads st) (current st) (semas st !! s0) (conds st) (blocked_threads st) (sleep_ticks st !! sl).

(** [t] waits for its semaphore, which nobody else uses, and has at most [n]
    ticks to sleep. *)
Record asleep (n : Z) (v : aview) : Prop := {
  as_blocked : exists stk, a_threads v !! t = Some (THREAD_BLOCKED, stk);
  as_current : a_current v <> t;
  as_listed : sl ∈ a_blocked v;
  as_ticks : exists m, a_ticks v = Some m /\ 0 < m <= n;
  as_sema : a_sema v = Some (mkSema 0 [t]);
  as_frames : forall u s stk, u <> t -> a_threads v !! u = Some (s, stk) -> Forall clean stk;
  as_conds : forall c ws w, a_conds v !! c = Some ws -> w ∈ ws -> elem_sema w <> s0
}.

Definition awake (v : aview) : Prop :=
  exists s stk, a_threads v !! t = Some (s, stk) /\ (s = THREAD_READY \/ s = THREAD_RUNNING).

Definition sleeps n st := asleep n (av st).
Definition woken st := awake (av st) /\ current st <> t.

(** While a step is under way, and at its end. *)
Definition under n st := sleeps n st \/ woken st.
Definition upto n st := sleeps n st \/ awake (av st).

Lemma under_current n st : under n st -> current st <> t.
Proof. intros [H|[_ H]]; [apply H|done]. Qed.

Lemma under_upto n st : under n st -> upto n st.
Proof. intros [H|[H _]]; [by left|by right]. Qed.

Lemma under_le n m st : n <= m -> under n st -> under m st.
Proof.
  intros Hle [[H1 H2 H3 (k & H4 & H5) H6 H7 H8]|H]; [left|by right]. split; try done. exists k. split; [done|lia].
Qed.

(** ** Commands that change nothing of this *)

Lemma under_keeps {A} n (m : M kstate A) : keeps av m -> pres (under n) m.
Proof.
  intros H st a st' Hu Hm. pose proof (H _ _ _ Hm) as E. pose proof (f_equal a_current E) as Ec. cbn in Ec.
  unfold under, sleeps, woken in *. by rewrite E, Ec.
Qed.

Lemma sleeps_keeps {A} n (m : M kstate A) : keeps av m -> pres (sleeps n) m.
Proof. intros H. by apply (keeps_pres av (asleep n)). Qed.

Lemma av_upd_thread u f : (forall th, state_of (f th) = state_of th) -> keeps av (upd_thread u f).
Proof. apply keeps_upd_thread. intros st ths H. unfold av. cbn. by rewrite H. Qed.

#[local] Hint Extern 3 (keeps av (upd_thread _ _)) => (by apply av_upd_thread) : msteps.
#[local] Hint Extern 3 (keeps av (level_remove _)) => (by apply level_remove_keeps) : msteps.

Lemma av_update_priority u : keeps av (update_priority u).
Proof. unfold update_priority. msteps. Qed.

Lemma av_update_recent_cpu u : keeps av (update_recent_cpu u).
Proof. unfold update_recent_cpu. msteps. Qed.

Lemma av_timer_ticks : keeps av timer_ticks.
Proof. unfold timer_ticks. msteps. Qed.

#[local] Hint Resolve av_update_priority av_update_recent_cpu av_timer_ticks : msteps.

Lemma av_thread_tick : keeps av thread_tick.
Proof.
  unfold thread_tick, is_mult_of_second, is_mult_of_four, update_load_avg, count_ready_threads, thread_foreach, intr_get_level, intr_yield_on_return, intr_context.
  msteps; apply foreach_keeps; intros ?; msteps.
Qed.

(** ** A thread changes its state *)

(** A thread but [t] changes. *)
Lemma sleeps_other n st u th :
  u <> t -> sleeps n st -> Forall clean (kstack th) -> sleeps n (set_threads (<[u := th]> (threads st)) st).
Proof.
  intros Hne [H1 H2 H3 H4 H5 H6 H7] Hcl. split; cbn; rewrite ?fmap_insert, ?(lookup_insert_ne _ u t) by done; try done.
  intros u' s stk Hu'. rewrite lookup_insert_Some. intros [[<- [= _ <-]]|[_ H]]; [done|by eapply H6].
Qed.

Lemma woken_other st u th : u <> t -> woken st -> woken (set_threads (<[u := th]> (threads st)) st).
Proof.
  intros Hne [(s & stk & Ht & Hs) Hc]. split; [|done]. exists s, stk. cbn. by rewrite fmap_insert, lookup_insert_ne.
Qed.

Lemma frames_of n st u th : sleeps n st -> u <> t -> threads st !! u = Some th -> Forall clean (kstack th).
Proof. intros H Hu Hth. apply (as_frames _ _ H u (status th)); [done|]. cbn. by rewrite lookup_fmap, Hth. Qed.

Lemma under_set_status n u s st a st' :
  u <> t \/ s = THREAD_READY -> under n st -> upd_thread u (set_status s) st = Ok (a, st') -> under n st'.
Proof.
  intros Hu Hun H. apply upd_thread_inv in H as (th & Hth & _ & ->). destruct (decide (u = t)) as [->|Hne].
  - right. split; [|exact (under_current n st Hun)]. exists s, (kstack th). cbn. rewrite fmap_insert, lookup_insert_eq. split; [done|].
    left. by destruct Hu.
  - destruct Hun as [Hs|Hw]; [left|right; by apply woken_other]. apply sleeps_other; [done|done|]. cbn. by eapply frames_of.
Qed.

Lemma sleeps_push n f : clean f -> pres (sleeps n) (push_frame f).
Proof.
  intros Hf st a st' Hs H. unfold push_frame, running_thread in H. minv H. apply upd_thread_inv in H as (th & Hth & _ & ->).
  pose proof (as_current _ _ Hs) as Hc. apply sleeps_other; [done|done|]. cbn. constructor; [done|]. by eapply frames_of.
Qed.

Lemma woken_push f : pres woken (push_frame f).
Proof.
  intros st a st' Hw H. unfold push_frame, running_thread in H. minv H. apply upd_thread_inv in H as (th & Hth & _ & ->).
  apply woken_other; [apply Hw|done].
Qed.

Lemma under_push n f : clean f -> pres (under n) (push_frame f).
Proof. intros Hf st a st' [Hs|Hw] H; [left; by eapply sleeps_push|right; by eapply woken_push]. Qed.

Lemma av_next_thread_to_run : keeps av next_thread_to_run.
Proof. unfold next_thread_to_run, highest_non_empty_level. msteps. apply highest_non_empty_loop_keeps. Qed.

(** [next] starts to run. *)
Lemma upto_run n st next th :
  under n st -> threads st !! next = Some th ->
  upto n (set_threads (<[next := set_status THREAD_RUNNING th]> (threads st)) (set_current next st)).
Proof.
  intros Hun Hth. destruct (decide (next = t)) as [->|Hne].
  - right. exists THREAD_RUNNING, (kstack th). cbn. rewrite fmap_insert, lookup_insert_eq. auto.
  - destruct Hun as [Hs|Hw].
    + left. destruct (sleeps_other n st next (set_status THREAD_RUNNING th) Hne Hs) as [H1 H2 H3 H4 H5 H6 H7]; [cbn; by eapply frames_of|by split].
    + right. by apply (woken_other st next (set_status THREAD_RUNNING th)).
Qed.

Lemma upto_delete n st u th :
  upto n st -> u <> t -> threads st !! u = Some th -> upto n (set_threads (delete u (threads st)) st).
Proof.
  intros [[H1 H2 H3 H4 H5 H6 H7]|(s & stk & Ht & Hs)] Hne Hth; [left|right].
  - split; cbn; rewrite ?fmap_delete, ?(lookup_delete_ne _ u t) by done; try done.
    intros u' s stk Hu' [_ H]%lookup_delete_Some. by eapply H6.
  - exists s, stk. cbn. by rewrite fmap_delete, lookup_delete_ne.
Qed.

Lemma schedule_upto n : hoare (under n) schedule (fun _ => upto n).
Proof.
  intros st a st' Hun H. unfold schedule, running_thread, intr_get_level in H.
  apply bind_ok_inv in H as (? & ? & Hm & H). minv Hm. apply bind_ok_inv in H as (next & s1 & Hn & H).
  pose proof (under_keeps n _ av_next_thread_to_run _ _ _ Hun Hn) as Hun1.
  pose proof (f_equal a_current (av_next_thread_to_run _ _ _ Hn)) as Ec. cbn in Ec.
  pose proof (under_current _ _ Hun) as Hc.
  minv H. apply thr_inv in Hm0 as (-> & _ & _). apply is_thread_inv in Hm2 as ->.
  assert (forall prev s2 b s3, thread_schedule_tail prev s2 = Ok (b, s3) -> prev = NULL \/ prev <> t ->
    s2 = set_current next s1 -> upto n s3) as K.
  { intros prev s2 b s3 Ht Hp ->. unfold thread_schedule_tail, running_thread, intr_get_level in Ht. minv Ht.
    apply upd_thread_inv in Hm2 as (th & Hth & _ & ->). cbn in Hth.
    pose proof (upto_run n s1 next th Hun1 Hth) as Hup. destruct (Z.eqb_spec prev NULL); [by minv Ht|]. minv Ht.
    apply thr_inv in Hm2 as (-> & Hpr & _). destruct (bool_decide _ && _); minv Ht; [|done].
    eapply (upto_delete n _ prev); [exact Hup|by destruct Hp|exact Hpr]. }
  destruct (negb (current st =? next)) eqn:E.
  - minv H. eapply K; [exact H|by right|done].
  - apply negb_false_iff, Z.eqb_eq in E. eapply K; [exact H|by left|]. rewrite <- E, <- Ec. by destruct s1.
Qed.

(** ** The running thread is another one *)

Lemma hoare_current {B} n (k : Z -> M kstate B) R :
  (forall c, c <> t -> hoare (under n) (k c) R) -> hoare (under n) (bind thread_current k) R.
Proof.
  intros Hk st a st' Hun H. apply bind_ok_inv in H as (c & s & Hc & H). apply thread_current_inv in Hc as (-> & -> & _).
  eapply Hk; [|done|done]. by eapply under_current.
Qed.

Lemma hoare_running {B} n (k : Z -> M kstate B) R :
  (forall c, c <> t -> hoare (under n) (k c) R) -> hoare (under n) (bind running_thread k) R.
Proof.
  intros Hk st a st' Hun H. apply bind_ok_inv in H as (c & s & Hc & H). unfold running_thread in Hc. minv Hc.
  eapply Hk; [|done|done]. by eapply under_current.
Qed.

Lemma hoare_pres {A B} n (m : M kstate A) (k : A -> M kstate B) R :
  pres (under n) m -> (forall a, hoare (under n) (k a) R) -> hoare (under n) (bind m k) R.
Proof. apply hoare_bind. Qed.

Lemma hoare_upto {A} n (m : M kstate A) : pres (under n) m -> hoare (under n) m (fun _ => upto n).
Proof. intros H st a st' Hun Hm. by eapply under_upto, H. Qed.

#[local] Hint Extern 5 (pres (under _) _) => (apply under_keeps; solve [msteps]) : msteps.

(** [asteps]: along the monad, with the running thread known to be another. *)
Ltac astep :=
  lazymatch goal with
  | |- hoare _ (bind thread_current _) _ => apply hoare_current; intros ? ?
  | |- hoare _ (bind running_thread _) _ => apply hoare_running; intros ? ?
  | |- hoare _ (bind _ _) _ => apply hoare_pres; [solve [msteps]|intros ?]
  | |- hoare _ (match ?x with _ => _ end) (fun _ => upto _) => destruct x
  end.
Ltac asteps := repeat astep; try solve [apply hoare_upto; msteps].

Lemma under_set_other n c s : c <> t -> pres (under n) (upd_thread c (set_status s)).
Proof. intros Hc st a st' Hun H. eapply under_set_status; [by left|done|done]. Qed.

Lemma under_set_ready n u : pres (under n) (upd_thread u (set_status THREAD_READY)).
Proof. intros st a st' Hun H. eapply under_set_status; [by right|done|done]. Qed.

#[local] Hint Resolve under_set_other under_set_ready : msteps.

Lemma thread_block_upto n : hoare (under n) thread_block (fun _ => upto n).
Proof. unfold thread_block, intr_context, intr_get_level. asteps. apply schedule_upto. Qed.

Lemma thread_unblock_under n u : pres (under n) (thread_unblock u).
Proof. unfold thread_unblock, ready_insert. msteps. Qed.

Lemma thread_yield_upto n : hoare (under n) thread_yield (fun _ => upto n).
Proof.
  unfold thread_yield, intr_context, ready_insert. asteps.
  apply hoare_pres; [by apply under_push|intros _]. apply schedule_upto.
Qed.

Lemma thread_exit_upto n : hoare (under n) thread_exit (fun _ => upto n).
Proof. unfold thread_exit, intr_context. asteps. apply schedule_upto. Qed.

#[local] Hint Resolve thread_unblock_under : msteps.

(** ** Semaphores *)

Lemma under_semas n s v st : s <> s0 -> under n st -> under n (set_semas (<[s := v]> (semas st)) st).
Proof.
  intros Hs [H|H]; [left|right; done]. unfold sleeps, av in *. cbn in *. by rewrite lookup_insert_ne.
Qed.

Lemma upd_sema_under n s v : s <> s0 -> pres (under n) (upd_sema s v).
Proof. intros Hs. unfold upd_sema, sem. msteps. apply pres_modify. intros st. by apply under_semas. Qed.

Lemma sema_init_under n s v : s <> s0 -> pres (under n) (sema_init s v).
Proof. intros Hs. unfold sema_init. msteps. apply pres_modify. intros st. by apply under_semas. Qed.

#[local] Hint Extern 1 (clean _) => (cbn; by auto) : msteps.
#[local] Hint Resolve upd_sema_under sema_init_under under_push : msteps.

Lemma sema_down_loop_upto n s old : s <> s0 -> hoare (under n) (sema_down_loop s old) (fun _ => upto n).
Proof.
  intros Hs. unfold sema_down_loop, waiters_insert, sem. asteps. apply thread_block_upto.
Qed.

Lemma sema_down_upto n s : s <> s0 -> hoare (under n) (sema_down s) (fun _ => upto n).
Proof. intros Hs. unfold sema_down, intr_context. asteps. by apply sema_down_loop_upto. Qed.

Lemma sema_try_down_under n s : s <> s0 -> pres (under n) (sema_try_down s).
Proof. intros Hs. unfold sema_try_down, sem. msteps. Qed.

(** [sema_up], up to where it may give the processor away. *)
Definition sema_wake (s : Z) : M kstate Z :=
  ASSERT (negb (s =? NULL)) ;;;
  old_level <- intr_disable ;;
  sm <- sem s ;; st <- get ;;
  t <- (match waiters sm with
        | [] => ret NULL
        | _ =>
            match DListSort.stable_sort (list_desc_prio_sort st) (waiters sm) with
            | [] => fail Assertion_failed
            | t :: rest =>
                upd_sema s (mkSema (value sm) rest) ;;; thread_unblock t ;;; ret t
            end
        end) ;;
  sm' <- sem s ;;
  upd_sema s (mkSema (u32 (value sm' + 1)) (waiters sm')) ;;;
  intr_set_level old_level ;;; ret t.

Definition sema_give (t : Z) : M kstate unit :=
  c <- intr_context ;;
  if (c : bool) then intr_yield_on_return
  else if negb (t =? NULL) then
    th <- thr t ;; cur <- thread_current ;; cth <- thr cur ;;
    if priority th >? priority cth then thread_yield else ret tt
  else ret tt.

Lemma sema_up_split s st u st' :
  sema_up s st = Ok (u, st') -> exists w s1, sema_wake s st = Ok (w, s1) /\ sema_give w s1 = Ok (u, st').
Proof.
  unfold sema_up, sema_wake. intros H.
  apply bind_ok_inv in H as (? & ? & H1 & H). apply bind_ok_inv in H as (? & ? & H2 & H).
  apply bind_ok_inv in H as (? & ? & H3 & H). apply bind_ok_inv in H as (? & ? & H4 & H).
  apply bind_ok_inv in H as (w & ? & H5 & H). apply bind_ok_inv in H as (? & ? & H6 & H).
  apply bind_ok_inv in H as (? & ? & H7 & H). apply bind_ok_inv in H as (? & s1 & H8 & H).
  exists w, s1. split; [|exact H]. mrun H1. mrun H2. mrun H3. mrun H4. mrun H5. mrun H6. mrun H7. mrun H8. done.
Qed.

Lemma sema_wake_under n s : s <> s0 -> pres (under n) (sema_wake s).
Proof. intros Hs. unfold sema_wake, sem. msteps. Qed.

Lemma sema_give_upto n w : hoare (under n) (sema_give w) (fun _ => upto n).
Proof. unfold sema_give, intr_context, intr_yield_on_return, intr_context. asteps. apply thread_yield_upto. Qed.

Lemma sema_up_upto n s : s <> s0 -> hoare (under n) (sema_up s) (fun _ => upto n).
Proof.
  intros Hs st u st' Hun H. apply sema_up_split in H as (w & s1 & H1 & H2).
  eapply sema_give_upto; [|exact H2]. by eapply sema_wake_under.
Qed.

(** In an interrupt handler. *)
Definition handling (P : kstate -> Prop) (st : kstate) : Prop := P st /\ in_external_intr st = true.

Lemma sema_give_handling (P : kstate -> Prop) w :
  (forall st, P st -> P (set_yield_on_return true st)) -> pres (handling P) (sema_give w).
Proof.
  intros HP st u st' [Hun Hc] H. unfold sema_give, intr_context in H. minv H. rewrite Hc in H.
  unfold intr_yield_on_return, intr_context in H. minv H. split; [by apply HP|done].
Qed.

#[local] Hint Extern 4 (keeps in_external_intr (upd_thread _ _)) => (unfold upd_thread; msteps) : msteps.

Lemma ctx_thread_unblock u : keeps in_external_intr (thread_unblock u).
Proof. unfold thread_unblock, ready_insert. msteps. Qed.

#[local] Hint Resolve ctx_thread_unblock : msteps.

Lemma ctx_sema_wake s : keeps in_external_intr (sema_wake s).
Proof. unfold sema_wake, sem. msteps. Qed.

Lemma sema_up_handling n s : s <> s0 -> pres (handling (under n)) (sema_up s).
Proof.
  intros Hs st u st' [Hun Hc] H. apply sema_up_split in H as (w & s1 & H1 & H2).
  eapply (sema_give_handling (under n)); [done| |exact H2]. split; [by eapply sema_wake_under|]. by rewrite (ctx_sema_wake _ _ _ _ H1).
Qed.

(** The semaphore of the sleeper. *)
Lemma woken_keeps {A} (m : M kstate A) : keeps av m -> pres woken m.
Proof.
  intros H st a st' Hu Hm. pose proof (H _ _ _ Hm) as E. pose proof (f_equal a_current E) as Ec. cbn in Ec.
  unfold woken in *. by rewrite E, Ec.
Qed.

#[local] Hint Extern 5 (pres woken _) => (apply woken_keeps; solve [msteps]) : msteps.

Lemma woken_set_ready u : pres woken (upd_thread u (set_status THREAD_READY)).
Proof.
  intros st a st' Hw H. apply upd_thread_inv in H as (th & Hth & _ & ->). destruct (decide (u = t)) as [->|Hne]; [|by apply woken_other].
  split; [|apply Hw]. exists THREAD_READY, (kstack th). cbn. rewrite fmap_insert, lookup_insert_eq. auto.
Qed.

Lemma woken_upd_sema s v : pres woken (upd_sema s v).
Proof. unfold upd_sema, sem. msteps. by apply pres_modify. Qed.

#[local] Hint Resolve woken_set_ready woken_upd_sema : msteps.

Lemma thread_unblock_woken u : pres woken (thread_unblock u).
Proof. unfold thread_unblock, ready_insert. msteps. Qed.

#[local] Hint Resolve thread_unblock_woken : msteps.

Lemma sema_wake_woken s : pres woken (sema_wake s).
Proof. unfold sema_wake, sem. msteps. Qed.

Lemma thread_unblock_wakes st u st' : current st <> t -> thread_unblock t st = Ok (u, st') -> woken st'.
Proof.
  intros Hc H. unfold thread_unblock, ready_insert in H. minv H. apply is_thread_inv in Hm as ->.
  apply thr_inv in Hm2 as (-> & Hth & _). kept current Hm1 E1. kept current Hm4 E4. cbn in E4.
  assert (woken s3) as Hw.
  { apply upd_thread_inv in Hm5 as (th & Hth' & _ & ->). split; [|cbn; congruence].
    exists THREAD_READY, (kstack th). cbn. rewrite fmap_insert, lookup_insert_eq. auto. }
  eapply woken_keeps; [|exact Hw|exact Hm6]. msteps.
Qed.

(** [t] is the one that waits. *)
Definition waits (st : kstate) : Prop := semas st !! s0 = Some (mkSema 0 [t]) /\ current st <> t.

Lemma sema_wake_wakes : hoare waits (sema_wake s0) (fun _ => woken).
Proof.
  intros st w st' [Es Hc] H. unfold sema_wake in H.
  apply bind_ok_inv in H as (? & ? & H0 & H). minv H0. apply bind_ok_inv in H as (old & s1 & H1 & H).
  kept semas H1 E1. kept current H1 E1c. rewrite <- E1 in Es.
  apply bind_ok_inv in H as (sm & ? & Hm & H). unfold sem in Hm. minv Hm.
  destruct (s0 =? NULL); [done|]. assert (sm = mkSema 0 [t]) as -> by congruence.
  apply bind_ok_inv in H as (? & ? & Hm' & H). minv Hm'. cbn [waiters value] in H.
  replace (DListSort.stable_sort (list_desc_prio_sort s1) [t]) with [t] in H by reflexivity.
  apply bind_ok_inv in H as (y & s2 & H2 & H). apply bind_ok_inv in H2 as (? & s3 & H2 & H3).
  apply bind_ok_inv in H3 as (? & s4 & H3 & H4). minv H4.
  kept current H2 E2. apply thread_unblock_wakes in H3; [|congruence]. revert H.
  match goal with |- ?m ?s = _ -> _ => assert (pres woken m) as K end; [|by apply K].
  unfold sem. msteps.
Qed.

Lemma sema_up_wakes st u st' : handling (fun st => waits st \/ woken st) st -> sema_up s0 st = Ok (u, st') -> handling woken st'.
Proof.
  intros [Hun Hc] H. apply sema_up_split in H as (w & s1 & H1 & H2).
  eapply (sema_give_handling woken); [done| |exact H2]. split; [|by rewrite (ctx_sema_wake _ _ _ _ H1)].
  destruct Hun as [Hs|Hw]; [by eapply sema_wake_wakes|by eapply sema_wake_woken].
Qed.

(** ** The timer *)

Lemma remove_first_other x y xs ys : remove_first x xs = Some ys -> y <> x -> y ∈ xs -> y ∈ ys.
Proof. intros H Hne Hy. apply remove_first_perm in H. rewrite H in Hy. apply elem_of_cons in Hy as [?|?]; done. Qed.

Lemma handling_blocked n bl st :
  (sl ∈ blocked_threads st -> sl ∈ bl) -> handling (under n) st -> handling (under n) (set_blocked_threads bl st).
Proof. intros Hbl [[[H1 H2 H3 H4 H5 H6 H7]|H] Hc]; split; try done; [left; split; cbn in *; auto|by right]. Qed.

Lemma timer_wake_other n sl' : sl' <> sl -> pres (handling (under n)) (timer_wake sl').
Proof.
  intros Hne st u st' Hh H. unfold timer_wake in H. apply bind_ok_inv in H as (x & ? & Hm & H). minv Hm.
  destruct (x >? 0); [|by minv H]. apply bind_ok_inv in H as (? & s1 & H1 & H). apply modify_inv in H1 as ->.
  assert (handling (under n) (set_sleep_ticks (<[sl' := x - 1]> (sleep_ticks st)) st)) as Hh1.
  { destruct Hh as [[Hs|Hw] Hc]; (split; [|done]); [left|by right]. unfold sleeps, av in *. cbn in *. by rewrite lookup_insert_ne. }
  destruct (x - 1 =? 0); [|by minv H]. apply bind_ok_inv in H as (? & s2 & H2 & H).
  apply (sema_up_handling n) in H2; [|unfold sleep_sema; lia|done]. minv H. apply handling_blocked; [|done].
  intros Hin. by eapply remove_first_other.
Qed.

Lemma timer_wake_self n st u st' : handling (under n) st -> timer_wake sl st = Ok (u, st') -> handling (under (n - 1)) st'.
Proof.
  intros [Hun Hc] H. unfold timer_wake in H. apply bind_ok_inv in H as (x & ? & Hm & H). minv Hm.
  assert (sleeps n st -> 0 < x <= n) as Hx.
  { intros Hs. destruct (as_ticks _ _ Hs) as (m & Em & Hr). cbn in Em. by assert (m = x) as -> by congruence. }
  destruct (Z.gtb_spec x 0) as [Hpos|Hneg].
  2:{ minv H. split; [|done]. destruct Hun as [Hs|Hw]; [|by right]. apply Hx in Hs. lia. }
  apply bind_ok_inv in H as (? & s1 & H1 & H). apply modify_inv in H1 as ->. destruct (Z.eqb_spec (x - 1) 0) as [E|Hne].
  - apply bind_ok_inv in H as (? & s2 & H2 & H). minv H. apply sema_up_wakes in H2 as [Hw Hc2]; [by split; [right|]|].
    split; [|done]. destruct Hun as [Hs|Hw]; [left|by right]. split; [apply (as_sema _ _ Hs)|apply (as_current _ _ Hs)].
  - minv H. split; [|done]. destruct Hun as [Hs|Hw]; [left|by right]. pose proof (Hx Hs). destruct Hs as [H1 H2 H3 H4 H5 H6 H7].
    split; cbn in *; try done. exists (x - 1). rewrite lookup_insert_eq. split; [done|lia].
Qed.

Lemma timer_wake_any n sl' : pres (handling (under n)) (timer_wake sl').
Proof.
  destruct (decide (sl' = sl)) as [->|]; [|by apply timer_wake_other]. intros st u st' Hh H.
  apply (timer_wake_self n) in H as [Hun Hc]; [|done]. split; [|done]. eapply under_le; [|done]. lia.
Qed.

Lemma foreach_wake n bl : sl ∈ bl -> hoare (handling (under n)) (foreach timer_wake bl) (fun _ => handling (under (n - 1))).
Proof.
  induction bl as [|x bl IH]; intros Hin; [by apply not_elem_of_nil in Hin|]. cbn [foreach]. intros st u st' Hh H.
  apply bind_ok_inv in H as ([] & s1 & H1 & H). apply elem_of_cons in Hin as [<-|Hin].
  - apply (timer_wake_self n) in H1; [|done]. revert H. apply foreach_pres; [|done]. intros. apply timer_wake_any.
  - eapply IH; [done| |exact H]. by eapply timer_wake_any.
Qed.

#[local] Hint Resolve av_thread_tick : msteps.

Lemma ctx_update_priority u : keeps in_external_intr (update_priority u).
Proof. unfold update_priority, level_remove. msteps. Qed.

Lemma ctx_thread_tick : keeps in_external_intr thread_tick.
Proof.
  unfold thread_tick, is_mult_of_second, is_mult_of_four, update_load_avg, count_ready_threads, timer_ticks, thread_foreach, intr_get_level, intr_yield_on_return, intr_context.
  msteps; apply foreach_keeps; intros ?; first [apply ctx_update_priority | unfold update_recent_cpu; msteps].
Qed.

Lemma timer_interrupt_wakes n : hoare (handling (sleeps n)) timer_interrupt (fun _ => handling (under (n - 1))).
Proof.
  intros st u st' [Hs Hc] H. unfold timer_interrupt in H. apply bind_ok_inv in H as (? & s1 & H1 & H). apply modify_inv in H1 as ->.
  apply bind_ok_inv in H as (? & s2 & H2 & H). pose proof (av_thread_tick _ _ _ H2) as E. pose proof (ctx_thread_tick _ _ _ H2) as Ec. cbn in Ec.
  assert (sleeps n s2) as Hs2 by (unfold sleeps; by rewrite E). minv H. eapply (foreach_wake n); [apply (as_listed _ _ Hs2)| |exact H].
  split; [by left|congruence].
Qed.

(** Run the primitive commands there are. *)
Ltac minvs := repeat match goal with
  | H : gets _ _ = Ok _ |- _ => minv H
  | H : ASSERT _ _ = Ok _ |- _ => minv H
  | H : modify _ _ = Ok _ |- _ => minv H
  | H : get _ = Ok _ |- _ => minv H
  end.

Lemma handler_upto n : hoare (sleeps n) intr_handler_timer (fun _ => upto (n - 1)).
Proof.
  intros st u st' Hs H. unfold intr_handler_timer, intr_get_level, intr_context in H.
  apply bind_ok_inv in H as (? & ? & H1 & H). apply modify_inv in H1 as ->.
  apply bind_ok_inv in H as (? & s1 & H1 & H). apply (sleeps_push n) in H1; [|done|exact Hs].
  do 6 (apply bind_ok_inv in H as (? & ? & ?Hm & H)). minvs.
  apply bind_ok_inv in H as (? & s2 & H2 & H). apply (timer_interrupt_wakes n) in H2 as [Hun Hc]; [|split; [exact H1|done]].
  do 6 (apply bind_ok_inv in H as (? & ? & ?Hm & H)). minvs.
  destruct (yield_on_return _); [|minv H; apply under_upto; exact Hun]. eapply thread_yield_upto; [|exact H]. exact Hun.
Qed.

(** ** The other steps *)

(** The semaphore of the lock of thread identifiers is not the sleeper's. *)
Context (Htid : lock_sema tid_lock <> s0).

Lemma donate_chain_keeps fuel : forall l p, keeps av (donate_chain fuel l p).
Proof. induction fuel as [|fuel IH]; intros l p; cbn; [msteps|]. unfold lock_holder. msteps. Qed.

#[local] Hint Resolve donate_chain_keeps : msteps.

Lemma lock_acquire_under n fuel l : lock_sema l <> s0 -> pres (under n) (lock_acquire fuel l).
Proof. intros Hl. unfold lock_acquire, lock_held_by_current_thread, donate, intr_context, lock_holder. msteps. Qed.

Lemma lock_release_under n l : lock_sema l <> s0 -> pres (under n) (lock_release l).
Proof. intros Hl. unfold lock_release, lock_held_by_current_thread, lock_holder. msteps. Qed.

#[local] Hint Resolve lock_acquire_under lock_release_under sema_try_down_under : msteps.

Lemma allocate_tid_under n u : pres (under n) (allocate_tid u).
Proof. unfold allocate_tid. msteps. Qed.

Lemma sleeps_cond n c ws st :
  Forall (fun w => elem_sema w <> s0) ws -> sleeps n st -> sleeps n (set_conds (<[c := ws]> (conds st)) st).
Proof.
  intros Hws [H1 H2 H3 H4 H5 H6 H7]. split; try done. cbn. intros c' ws' w. rewrite lookup_insert_Some.
  intros [[_ <-]|[_ Hl]] Hw; [|by eapply H7]. by eapply Forall_forall in Hws.
Qed.

Lemma cond_waiters_sleeps n c st ws st' :
  sleeps n st -> cond_waiters c st = Ok (ws, st') -> st' = st /\ Forall (fun w => elem_sema w <> s0) ws.
Proof.
  intros Hs H. unfold cond_waiters in H. minv H. destruct (c =? NULL); [done|]. split; [done|].
  apply Forall_forall. intros w Hw. by eapply (as_conds _ _ Hs).
Qed.

Lemma set_cond_sleeps n c ws : Forall (fun w => elem_sema w <> s0) ws -> pres (sleeps n) (set_cond c ws).
Proof. intros Hws. unfold set_cond, cond_waiters. msteps. apply pres_modify. intros st. by apply sleeps_cond. Qed.

Lemma cond_signal_upto n c l : hoare (sleeps n) (cond_signal c l) (fun _ => upto n).
Proof.
  intros st u st' Hs H. unfold cond_signal, intr_context in H.
  do 6 (apply bind_ok_inv in H as (? & ? & ?Hm & H)). minvs.
  apply (sleeps_keeps n) in Hm3; [|unfold lock_held_by_current_thread, lock_holder; msteps|done].
  apply bind_ok_inv in H as (old & s1 & H1 & H). apply (sleeps_keeps n) in H1; [|msteps|done].
  apply bind_ok_inv in H as (ws & s2 & H2 & H). apply (cond_waiters_sleeps n) in H2 as [-> Hws]; [|done].
  apply bind_ok_inv in H as (? & ? & Hg & H). minv Hg. apply bind_ok_inv in H as (? & s3 & H3 & H).
  assert (sleeps n s3) as Hs3.
  { destruct ws as [|w1 [|w2 ws]]; [by minv H3|by minv H3|]. apply bind_ok_inv in H3 as (? & ? & Hk & H3). minv Hk.
    eapply set_cond_sleeps; [|exact H1|exact H3]. by rewrite DListSort.stable_sort_perm. }
  apply bind_ok_inv in H as (? & s4 & H4 & H). apply (sleeps_keeps n) in H4; [|msteps|done].
  apply bind_ok_inv in H as (ws' & s5 & H5 & H). apply (cond_waiters_sleeps n) in H5 as [-> Hws']; [|done].
  destruct ws' as [|w rest]; [done|]. apply Forall_cons in Hws' as [Hw Hrest].
  apply bind_ok_inv in H as (? & s6 & H6 & H). apply (set_cond_sleeps n) in H6; [|done|done].
  eapply sema_up_upto; [exact Hw| |exact H]. by left.
Qed.

Lemma cond_broadcast_upto n c l : hoare (sleeps n) (cond_broadcast_loop c l) (fun _ => upto n).
Proof.
  intros st u st' Hs H. unfold cond_broadcast_loop in H. apply bind_ok_inv in H as (ws & s1 & H1 & H).
  apply (cond_waiters_sleeps n) in H1 as [-> _]; [|done]. destruct ws as [|w ws]; [minv H; by left|].
  apply bind_ok_inv in H as (? & s2 & H2 & H). apply (sleeps_push n) in H2; [|done|done]. by eapply cond_signal_upto.
Qed.

Lemma cond_wait_upto n w c l :
  elem_sema w <> s0 -> lock_sema l <> s0 -> hoare (sleeps n) (cond_wait w c l) (fun _ => upto n).
Proof.
  intros Hw Hl st u st' Hs H. unfold cond_wait, intr_context in H.
  do 6 (apply bind_ok_inv in H as (? & ? & ?Hm & H)). minvs.
  apply (sleeps_keeps n) in Hm3; [|unfold lock_held_by_current_thread, lock_holder; msteps|done].
  apply bind_ok_inv in H as (? & s1 & H1 & H). unfold sema_init in H1. minv H1.
  assert (sleeps n (set_semas (<[elem_sema w := mkSema (u32 0) []]> (semas x8)) x8)) as Hs1.
  { unfold sleeps, av. cbn. by rewrite lookup_insert_ne. }
  apply bind_ok_inv in H as (ws & s2 & H2 & H). apply (cond_waiters_sleeps n) in H2 as [-> Hws]; [|done].
  apply bind_ok_inv in H as (? & s3 & H3 & H). apply (set_cond_sleeps n) in H3; [|by apply Forall_app; split; [|constructor]|done].
  revert H. apply hoare_upto; [|by left]. apply pres_bind; [by apply under_push|intros _]. by apply lock_release_under.
Qed.

Lemma kernel_thread_upto n fn : clean_func fn -> hoare (under n) (kernel_thread fn) (fun _ => upto n).
Proof.
  intros Hfn. unfold kernel_thread. apply hoare_pres; [msteps|intros _]. destruct fn as [s|]; [|apply hoare_upto; msteps].
  asteps. by apply sema_up_upto.
Qed.

Lemma idle_loop_upto n : hoare (under n) idle_loop (fun _ => upto n).
Proof. unfold idle_loop. asteps. apply thread_block_upto. Qed.

(** A frame on the stack of any thread. *)
Lemma under_frame n u f : clean f -> pres (under n) (upd_thread u (fun th => set_kstack (f :: kstack th) th)).
Proof.
  intros Hf st a st' Hun H. apply upd_thread_inv in H as (th & Hth & _ & ->). destruct (decide (u = t)) as [->|Hne].
  - destruct Hun as [[(stk & H1) H2 H3 H4 H5 H6 H7]|[(s & stk & Hs & Hc) Hcur]]; [left|right].
    + split; cbn in *; try done.
      * rewrite fmap_insert, lookup_insert_eq. rewrite lookup_fmap, Hth in H1. injection H1 as E _. unfold state_of. cbn. rewrite E. eauto.
      * intros u' s stk' Hu'. rewrite fmap_insert, lookup_insert_ne by done. by apply H6.
    + split; [|done]. cbn in *. rewrite lookup_fmap, Hth in Hs. injection Hs as <- <-.
      exists (status th), (f :: kstack th). cbn. by rewrite fmap_insert, lookup_insert_eq.
  - destruct Hun as [Hs|Hw]; [left|right; by apply woken_other]. apply sleeps_other; [done|done|]. cbn. constructor; [done|]. by eapply frames_of.
Qed.

Lemma av_alloc_frame u k : keeps av (alloc_frame u k).
Proof. unfold alloc_frame. msteps. Qed.

#[local] Hint Resolve av_alloc_frame : msteps.

Lemma thread_create_end_upto n u fn : clean_func fn -> hoare (under n) (thread_create_end u fn) (fun _ => upto n).
Proof.
  intros Hfn. unfold thread_create_end. do 2 (apply hoare_pres; [msteps|intros ?]).
  apply hoare_pres; [by apply under_frame|intros _]. asteps. apply thread_yield_upto.
Qed.

Lemma timer_check_upto n sl' k start : sl' <> sl -> hoare (under n) (timer_sleep_check sl' k start) (fun _ => upto n).
Proof.
  intros Hne. unfold timer_sleep_check, timer_elapsed. asteps. apply sema_down_upto. unfold sleep_sema. lia.
Qed.

Lemma under_blocked n bl st : (sl ∈ blocked_threads st -> sl ∈ bl) -> under n st -> under n (set_blocked_threads bl st).
Proof. intros Hbl [[H1 H2 H3 H4 H5 H6 H7]|H]; [left; split; cbn in *; auto|by right]. Qed.

Lemma timer_insert_under n sl' k start : sl' <> sl -> pres (under n) (timer_sleep_insert sl' k start).
Proof.
  intros Hne. unfold timer_sleep_insert, touch_sleepers. msteps. apply pres_modify. intros st. apply under_blocked.
  rewrite insert_ordered_perm. intros ?. by right.
Qed.

Lemma timer_sleep_under n sl' k : sl' <> sl -> pres (under n) (timer_sleep sl' k).
Proof.
  intros Hne. assert (sleep_sema sl' <> s0) by (unfold sleep_sema; lia). unfold timer_sleep, sleeper_new. msteps.
  apply pres_modify. intros st [Hs|Hw]; [left|by right]. unfold sleeps, av in *. cbn in *. by rewrite lookup_insert_ne.
Qed.

Lemma timer_end_under n sl' : sl' <> sl -> pres (under n) (timer_sleep_end sl').
Proof.
  intros Hne. assert (sleep_sema sl' <> s0) by (unfold sleep_sema; lia). unfold timer_sleep_end.
  apply pres_bind; [|intros _]; apply pres_modify; intros st [Hs|Hw]; [left|by right|left|by right]; unfold sleeps, av in *; cbn in *; by rewrite lookup_delete_ne.
Qed.

(** ** Steps *)

Lemma pop_sleeps n st f fs s1 :
  sleeps n st -> current_stack st = f :: fs -> upd_thread (current st) (set_kstack fs) st = Ok (tt, s1) -> clean f /\ sleeps n s1.
Proof.
  intros Hs Hst H. apply upd_thread_inv in H as (th & Hth & _ & ->). unfold current_stack in Hst. rewrite Hth in Hst.
  pose proof (frames_of n st (current st) th Hs (as_current _ _ Hs) Hth) as Hf. rewrite Hst in Hf. apply Forall_cons in Hf as [Hf Hfs].
  split; [done|]. apply sleeps_other; [apply (as_current _ _ Hs)|done|done].
Qed.

Lemma run_frame_upto n f : clean f -> hoare (sleeps n) (run_frame f) (fun _ => upto n).
Proof.
  intros Hf.
  assert (forall m : M kstate unit, hoare (under n) m (fun _ => upto n) -> hoare (sleeps n) m (fun _ => upto n)) as K.
  { intros m Hm st u st' Hs. apply Hm. by left. }
  destruct f; cbn in Hf |- *; lazymatch goal with |- hoare _ (cond_broadcast_loop _ _) _ => idtac | _ => apply K end.
  - asteps.
  - by apply sema_down_loop_upto.
  - by apply sema_down_upto.
  - unfold lock_acquire_end. apply hoare_upto. msteps.
  - by apply sema_up_upto.
  - asteps.
  - destruct Hf. apply hoare_pres; [by apply under_push|intros _]. by apply sema_down_upto.
  - apply hoare_upto. by apply lock_acquire_under.
  - apply cond_broadcast_upto.
  - unfold allocate_tid_end. asteps.
  - asteps.
  - by apply thread_create_end_upto.
  - unfold thread_start_end. apply hoare_pres; [msteps|intros _]. by apply sema_down_upto.
  - by apply kernel_thread_upto.
  - apply idle_loop_upto.
  - unfold idle_wake. asteps.
  - apply hoare_upto. by apply timer_insert_under.
  - by apply timer_check_upto.
  - apply hoare_upto. by apply timer_end_under.
  - asteps.
Qed.

(** The calls of other threads do not name the semaphore of the sleeper,
    which is on the sleeper's stack, and new threads get unused pages. *)
Definition apart (st : kstate) (a : api) : Prop :=
  match a with
  | A_sema_init s _ | A_sema_down s | A_sema_try_down s | A_sema_up s => s <> s0
  | A_lock_init l | A_lock_acquire l | A_lock_release l => lock_sema l <> s0
  | A_lock_try_acquire copy _ => copy <> s0
  | A_cond_wait w _ l => elem_sema w <> s0 /\ lock_sema l <> s0
  | A_thread_start page s => threads st !! page = None /\ s <> s0
  | A_thread_create page _ _ => threads st !! page = None
  | A_timer_sleep sl' _ => sl' <> sl
  | _ => True
  end.

Lemma init_thread_under n page nm prio : page <> t -> pres (under n) (init_thread page nm prio).
Proof.
  intros Hp. unfold init_thread.
  apply pres_bind; [msteps|intros _]. apply pres_bind; [msteps|intros _]. apply pres_bind; [|intros _].
  { apply pres_modify. intros st [Hs|Hw]; [left|right; by apply woken_other]. apply sleeps_other; [done|done|constructor]. }
  unfold running_thread. msteps.
Qed.

Lemma thread_create_under n page nm prio fn : page <> t -> clean_func fn -> pres (under n) (thread_create page nm prio fn).
Proof.
  intros Hp Hfn. unfold thread_create. msteps; [by apply init_thread_under|apply allocate_tid_under].
Qed.

Lemma page_other n st page : sleeps n st -> threads st !! page = None -> page <> t.
Proof. intros [(stk & H) _ _ _ _ _ _] Hp ->. cbn in H. by rewrite lookup_fmap, Hp in H. Qed.

Lemma lock_try_acquire_under n copy l : copy <> s0 -> pres (under n) (lock_try_acquire copy l).
Proof.
  intros Hc. unfold lock_try_acquire, lock_held_by_current_thread, lock_holder, sem. msteps.
  - apply pres_modify. intros st. by apply under_semas.
  - apply pres_modify. intros st [Hs|Hw]; [left|by right]. unfold sleeps, av in *. cbn in *. by rewrite lookup_delete_ne.
Qed.

Lemma set_priority_upto n stray p : hoare (under n) (thread_set_priority stray p) (fun _ => upto n).
Proof.
  unfold thread_set_priority. asteps. apply thread_yield_upto.
Qed.

Lemma set_nice_upto n k : hoare (under n) (thread_set_nice k) (fun _ => upto n).
Proof. unfold thread_set_nice, intr_context. asteps. apply thread_yield_upto. Qed.

Lemma run_api_upto n a st u st' : apart st a -> sleeps n st -> run_api a st = Ok (u, st') -> upto n st'.
Proof.
  intros Ha Hs H. pose proof (page_other n st) as Hpage.
  assert (forall m : M kstate unit, hoare (under n) m (fun _ => upto n) -> m st = Ok (u, st') -> upto n st') as K
    by (intros m Hm Hr; eapply Hm; [by left|done]).
  destruct a; cbn [apart] in Ha; cbn [run_api] in H;
    lazymatch type of H with
    | cond_init _ _ = _ => idtac | cond_wait _ _ _ _ = _ => idtac | cond_signal _ _ _ = _ => idtac | cond_broadcast _ _ _ = _ => idtac
    | _ => eapply K; [|exact H]
    end.
  - apply hoare_upto. by apply sema_init_under.
  - by apply sema_down_upto.
  - apply hoare_upto. msteps.
  - by apply sema_up_upto.
  - apply hoare_upto. unfold lock_init. msteps.
  - apply hoare_upto. by apply lock_acquire_under.
  - apply hoare_upto. msteps. by apply lock_try_acquire_under.
  - apply hoare_upto. by apply lock_release_under.
  - unfold cond_init in H. minv H. left. by apply sleeps_cond.
  - destruct Ha. by eapply cond_wait_upto.
  - by eapply cond_signal_upto.
  - unfold cond_broadcast in H. do 2 (apply bind_ok_inv in H as (? & ? & ?Hm & H)). minvs. by eapply cond_broadcast_upto.
  - destruct Ha. apply hoare_upto. unfold thread_start. msteps. apply thread_create_under; auto.
  - apply hoare_upto. apply thread_create_under; [auto|done].
  - apply thread_yield_upto.
  - apply thread_exit_upto.
  - apply set_priority_upto.
  - apply set_nice_upto.
  - apply hoare_upto. by apply timer_sleep_under.
Qed.

(** ** Runs *)

(** A run: the states behind each step, with the timer interrupts marked. *)
Inductive trace : kstate -> list (bool * kstate) -> Prop :=
| trace_end st : trace st []
| trace_frame st st' l : run_top st = Ok (tt, st') -> trace st' l -> trace st ((false, st') :: l)
| trace_call st a st' l :
    current_stack st = [] -> apart st a -> run_api a st = Ok (tt, st') -> trace st' l -> trace st ((false, st') :: l)
| trace_timer st st' l :
    intr_on st = true -> intr_handler_timer st = Ok (tt, st') -> trace st' l -> trace st ((true, st') :: l).

Definition timers (l : list (bool * kstate)) : Z := Z.of_nat (length (filter (fun x => x.1 = true) l)).

Definition runs (st : kstate) : Prop :=
  exists th, threads st !! t = Some th /\ (status th = THREAD_READY \/ status th = THREAD_RUNNING).

Lemma awake_runs st : awake (av st) -> runs st.
Proof.
  intros (s & stk & H & Hs). cbn in H. rewrite lookup_fmap in H. destruct (threads st !! t) as [th|] eqn:E; [|done].
  injection H as <- <-. by exists th.
Qed.

Lemma run_top_upto n st st' : sleeps n st -> run_top st = Ok (tt, st') -> upto n st'.
Proof.
  intros Hs H. unfold run_top, running_thread in H. apply bind_ok_inv in H as (? & ? & Hm & H). minv Hm.
  apply bind_ok_inv in H as (th & ? & Ht & H). apply thr_inv in Ht as (-> & Hth & _).
  destruct (kstack th) as [|f fs] eqn:Ek; [done|]. apply bind_ok_inv in H as ([] & s1 & Hu & H).
  destruct (pop_sleeps n st f fs s1 Hs) as [Hf Hs1]; [unfold current_stack; by rewrite Hth|done|]. by eapply run_frame_upto.
Qed.

(** Every run with as many interrupts as there are ticks wakes the sleeper. *)
Lemma trace_wakes st l : trace st l -> forall n, sleeps n st -> n <= timers l -> exists b st', (b, st') ∈ l /\ runs st'.
Proof.
  assert (forall n st' b l, upto n st' -> (forall n, sleeps n st' -> n <= timers l -> exists b st'', (b, st'') ∈ l /\ runs st'') ->
    n <= timers l -> exists b' st'', (b', st'') ∈ (b, st') :: l /\ runs st'') as K.
  { intros n st' b l0 [Hs|Hw] IH Hn.
    - destruct (IH n Hs Hn) as (b' & st'' & Hin & Hr). exists b', st''. split; [by right|done].
    - exists b, st'. split; [by left|]. by apply awake_runs. }
  induction 1 as [st|st st' l H Hl IH|st a st' l Hst Ha H Hl IH|st st' l Hi H Hl IH]; intros n Hs Hn.
  - destruct (as_ticks _ _ Hs) as (m & _ & Hm). change (timers []) with 0 in Hn. lia.
  - apply (K n); [by eapply run_top_upto|done|done].
  - apply (K n); [by eapply run_api_upto|done|done].
  - apply (K (n - 1)); [by eapply handler_upto|done|]. unfold timers in *. rewrite filter_cons_True in Hn by done. cbn [length] in Hn. lia.
Qed.

End sleeper.

(** C9: A thread that sleeps wakes up: in every run of the kernel from a
    state in which thread [t] is blocked on the semaphore of its
    [timer_sleep] with at most [n] ticks left, with any calls of the other
    threads that keep to [apart] (they do not name this semaphore, which is on
    the stack of [t], and new threads get unused pages), [t] is ready to run or
    running in a state of the run as soon as the timer has interrupted [n]
    times.  A run goes on only by steps that succeed: one that uses the object
    of a sleeper that has returned, for instance, is none. *)
Theorem sleeper_wakes sl t n st l :
  lock_sema tid_lock <> sleep_sema sl -> sleeps sl t n st -> trace sl st l -> n <= timers l ->
  exists b st', (b, st') ∈ l /\ runs t st'.
Proof. intros Htid Hs Hl Hn. by eapply trace_wakes. Qed.

(** ** An instance: the main thread sleeps for two ticks *)

(** Run timer interrupts ([true]) and frames of the running thread. *)
Fixpoint states (xs : list bool) (st : kstate) : option (list (bool * kstate)) :=
  match xs with
  | [] => Some []
  | x :: xs' =>
      match (if x then if intr_on st then intr_handler_timer st else Err Out_of_fuel else run_top st) with
      | Ok (_, st') => cons (x, st') <$> states xs' st'
      | Err _ => None
      end
  end.

Lemma states_trace sl xs : forall st l, states xs st = Some l -> trace sl st l.
Proof.
  induction xs as [|x xs IH]; intros st l H; cbn in H; [injection H as <-; apply trace_end|].
  destruct (if x then _ else _) as [[[] st']|] eqn:E; [|done]. apply fmap_Some in H as (l' & Hl & ->). apply IH in Hl.
  destruct x; [|by apply trace_frame]. destruct (intr_on st) eqn:Ei; [|done]. by apply trace_timer.
Qed.

#[local] Instance clean_dec sl f : Decision (clean sl f).
Proof. destruct f; cbn; unfold clean_func; try destruct function; apply _. Defined.

Definition asleep_2 : kstate := Scenarios.state (Scenarios.run true false (Scenarios.calls [Scenarios.call (A_timer_sleep 1000 2) 3])).

#[local] Opaque asleep_2.

Lemma asleep_2_conds : a_conds (av 1000 asleep_2) = ∅.
Proof. vm_compute. reflexivity. Qed.

Lemma asleep_2_ok : sleeps 1000 Scenarios.main 2 asleep_2.
Proof.
  split.
  - eexists. vm_compute. reflexivity.
  - vm_compute. discriminate.
  - apply list_elem_of_lookup. exists 0%nat. vm_compute. reflexivity.
  - exists 2. split; [vm_compute; reflexivity|lia].
  - vm_compute. reflexivity.
  - assert (map_Forall (fun u x => u <> Scenarios.main -> Forall (clean 1000) x.2) (a_threads (av 1000 asleep_2))) as H.
    { apply (bool_decide_eq_true_1 (map_Forall _ _)). vm_compute. reflexivity. }
    intros u s stk Hu Hl. exact (H u (s, stk) Hl Hu).
  - intros c ws w Hc. rewrite asleep_2_conds, lookup_empty in Hc. discriminate Hc.
Qed.

Lemma sleeper_wakes_witness :
  exists l b st', states [true; false; true] asleep_2 = Some l /\ (b, st') ∈ l /\ runs Scenarios.main st'.
Proof.
  destruct (states [true; false; true] asleep_2) as [l|] eqn:E; [|vm_compute in E; discriminate].
  destruct (sleeper_wakes 1000 Scenarios.main 2 asleep_2 l) as (b & st' & Hin & Hr).
  - unfold lock_sema, tid_lock, sleep_sema. lia.
  - apply asleep_2_ok.
  - exact (states_trace 1000 _ _ _ E).
  - assert (timers <$> states [true; false; true] asleep_2 = Some 2) as Ht by (vm_compute; reflexivity).
    rewrite E in Ht. injection Ht as ->. lia.
  - exists l, b, st'. split; [reflexivity|]. split; [exact Hin|exact Hr].
Defined.

End Alarm.
