(* ===== verification/SchedProps.v ===== *)
(** * What scheduling and waking do

    Functional behaviour of thread.c and synch.c under the priority
    scheduler: which thread runs after a yield, which waiter a semaphore
    wakes, what a donation raises and what a release restores. *)

From S2P Require Import Prelude DListSort KState Threads Synch Kernel SchedInv LockInv.
From S2P Require Import Machine Scenarios.
Import KState Threads Synch Kernel SchedInv LockInv Machine Scenarios.

Module SchedProps.

(** ** Running forwards *)

(** Every thread structure carries the mark of [init_thread]. *)
Definition magic_ok (st : kstate) : Prop :=
  forall t th, threads st !! t = Some th -> magic th = THREAD_MAGIC.

Lemma upd_thread_run t f th st :
  threads st !! t = Some th -> t <> NULL ->
  upd_thread t f st = Ok (tt, set_threads (<[t := f th]> (threads st)) st).
Proof. intros H Hn. unfold upd_thread. by mrun (thr_run _ _ _ H Hn). Qed.

Lemma sem_run s sm st : semas st !! s = Some sm -> s <> NULL -> sem s st = Ok (sm, st).
Proof. intros H Hn. unfold sem, gets_opt. by rewrite (proj2 (Z.eqb_neq _ _) Hn), H. Qed.

Lemma upd_sema_run s v sm st :
  semas st !! s = Some sm -> s <> NULL ->
  upd_sema s v st = Ok (tt, set_semas (<[s := v]> (semas st)) st).
Proof. intros H Hn. unfold upd_sema. by mrun (sem_run _ _ _ H Hn). Qed.

Lemma lock_holder_run l h st : locks st !! l = Some h -> l <> NULL -> lock_holder l st = Ok (h, st).
Proof. intros H Hn. unfold lock_holder, gets_opt. by rewrite (proj2 (Z.eqb_neq _ _) Hn), H. Qed.

Lemma set_holder_run l h h' st :
  locks st !! l = Some h -> l <> NULL ->
  set_holder l h' st = Ok (tt, set_locks (<[l := h']> (locks st)) st).
Proof. intros H Hn. unfold set_holder. by mrun (lock_holder_run _ _ _ H Hn). Qed.

Lemma intr_disable_run st : intr_disable st = Ok (intr_on st, set_intr_on false st).
Proof. done. Qed.

Lemma intr_set_level_run old st :
  in_external_intr st = false \/ old = false ->
  intr_set_level old st = Ok (intr_on st, set_intr_on old st).
Proof.
  intros H. unfold intr_set_level, intr_enable, intr_disable, intr_get_level, intr_context.
  unfold bind, gets, modify, ASSERT. destruct old; [|done].
  destruct H as [->|?]; done.
Qed.

Lemma push_frame_run f th st :
  threads st !! current st = Some th -> current st <> NULL ->
  push_frame f st = Ok (tt, set_threads (<[current st := set_kstack (f :: kstack th) th]> (threads st)) st).
Proof.
  intros H Hn. unfold push_frame, running_thread. mnorm. by rewrite (upd_thread_run _ _ th).
Qed.

Lemma is_thread_run t th st :
  threads st !! t = Some th -> t <> NULL -> magic th = THREAD_MAGIC ->
  is_thread t st = Ok (true, st).
Proof.
  intros H Hn Hm. unfold is_thread. rewrite (proj2 (Z.eqb_neq _ _) Hn).
  mrun (thr_run _ _ _ H Hn). by rewrite Hm.
Qed.

Lemma sched_threads st t s :
  sched_ok st -> (status <$> threads st) !! t = Some s ->
  exists th, threads st !! t = Some th /\ status th = s /\ t <> NULL.
Proof.
  intros (H0 & _) Ht. cbn in H0. assert (t <> NULL) by (intros ->; congruence).
  apply lookup_fmap_Some in Ht as (th & ? & ?). eauto.
Qed.

Lemma sched_current st :
  sched_ok st ->
  exists th, threads st !! current st = Some th /\ status th = THREAD_RUNNING /\ current st <> NULL.
Proof. intros Hok. apply (sched_threads st); [done|]. apply Hok. Qed.

Lemma sched_ready st t :
  sched_ok st -> t ∈ ready_list st ->
  exists th, threads st !! t = Some th /\ status th = THREAD_READY /\ t <> NULL.
Proof. intros Hok Ht. apply (sched_threads st); [done|]. destruct Hok as (_ & _ & _ & _ & H & _). by apply H. Qed.

Lemma thread_current_at st th :
  threads st !! current st = Some th -> status th = THREAD_RUNNING -> current st <> NULL ->
  magic th = THREAD_MAGIC -> thread_current st = Ok (current st, st).
Proof.
  intros Hth Hs Hn Hm. unfold thread_current, running_thread, bind, gets.
  rewrite (is_thread_run _ _ _ Hth Hn Hm). cbn. by rewrite (thr_run _ _ _ Hth Hn), Hs.
Qed.

Lemma thread_current_run st :
  sched_ok st -> magic_ok st -> thread_current st = Ok (current st, st).
Proof.
  intros Hok Hm. destruct (sched_current _ Hok) as (th & Hth & Hs & Hn).
  eapply thread_current_at; try done. by eapply Hm.
Qed.

(** The state after switching to [next]. *)
Definition switched (next : Z) (th : thread) (rest : list Z) (st : kstate) : kstate :=
  set_thread_ticks 0 (set_threads (<[next := set_status THREAD_RUNNING th]> (threads st))
    (set_current next (set_ready_list rest st))).

Lemma set_current_id st c : current st = c -> set_current c st = st.
Proof. intros <-. by destruct st. Qed.

Lemma schedule_tail_run prev next th cth st :
  intr_on st = false -> current st = next -> threads st !! next = Some th -> next <> NULL ->
  prev = NULL \/ (prev <> NULL /\ threads st !! prev = Some cth /\ status cth <> THREAD_DYING) ->
  thread_schedule_tail prev st =
    Ok (tt, set_thread_ticks 0
              (set_threads (<[next := set_status THREAD_RUNNING th]> (threads st)) st)).
Proof.
  intros Hi <- Hn Hn0 Hp. unfold thread_schedule_tail, running_thread, intr_get_level. mnorm.
  rewrite Hi. cbn [negb]. mnorm. mrun (upd_thread_run _ (set_status THREAD_RUNNING) _ _ Hn Hn0). mnorm.
  destruct Hp as [->|(Hp0 & Hp & Hd)]; [done|]. rewrite (proj2 (Z.eqb_neq _ _) Hp0).
  set (st1 := set_thread_ticks 0 _).
  assert (exists pth, threads st1 !! prev = Some pth /\ status pth <> THREAD_DYING) as (pth & Hpt & Hpd).
  { subst st1. cbn. destruct (decide (prev = current st)) as [->|Hne].
    - rewrite lookup_insert_eq. eexists. by split.
    - rewrite lookup_insert_ne by done. eauto. }
  mrun (thr_run _ _ _ Hpt Hp0). mnorm. by rewrite (bool_decide_eq_false_2 _ Hpd).
Qed.

Lemma schedule_run st next rest th cth :
  thread_mlfqs st = false -> intr_on st = false -> ready_list st = next :: rest ->
  threads st !! next = Some th -> next <> NULL -> magic th = THREAD_MAGIC ->
  threads st !! current st = Some cth -> current st <> NULL ->
  status cth <> THREAD_RUNNING -> status cth <> THREAD_DYING ->
  schedule st = Ok (tt, switched next th rest st).
Proof.
  intros Hm Hi Hr Hn Hn0 Hmg Hc Hc0 Hs1 Hs2. unfold schedule, running_thread, intr_get_level. mnorm.
  assert (next_thread_to_run st = Ok (next, set_ready_list rest st)) as Hnx.
  { unfold next_thread_to_run, bind, gets, modify. by rewrite Hr, Hm. }
  mrun Hnx. mnorm. cbn [intr_on set_ready_list]. rewrite Hi. cbn [negb]. mnorm.
  mrun (thr_run (current st) cth (set_ready_list rest st) Hc Hc0).
  rewrite (bool_decide_eq_false_2 _ Hs1). cbn [negb]. mnorm.
  mrun (is_thread_run next th (set_ready_list rest st) Hn Hn0 Hmg). mnorm.
  destruct (current st =? next) eqn:He; cbn [negb]; mnorm.
  - apply Z.eqb_eq in He.
    rewrite (schedule_tail_run NULL next th cth); [|done|done|done|done|by left]. unfold switched.
    by rewrite <- He, (set_current_id _ (current st)).
  - rewrite (schedule_tail_run (current st) next th cth); [done|done|done|done|done|by right].
Qed.

(** ** Yielding *)

(** By descending priority, first come first served. *)
Definition by_priority (st : kstate) (a b : Z) : bool := priority_of st a >? priority_of st b.

Definition ready_sorted (st : kstate) : Prop := Sorted (nondec (by_priority st)) (ready_list st).

Lemma sort_by_priority st : thread_mlfqs st = false -> list_desc_prio_sort st = by_priority st.
Proof. intros H. unfold list_desc_prio_sort, by_priority. by rewrite H. Qed.

#[export] Instance by_priority_swo st : StrictWeakOrder (by_priority st).
Proof. apply key_gt_swo. Qed.

Lemma sorted_head_max st x xs y :
  Sorted (nondec (by_priority st)) (x :: xs) -> y ∈ x :: xs -> priority_of st y <= priority_of st x.
Proof.
  intros Hs%(DListSort.sorted_strong (by_priority st)). inversion Hs as [|? ? _ Hall]; subst.
  rewrite elem_of_cons. intros [->|Hy]; [lia|]. rewrite Forall_forall in Hall.
  specialize (Hall y Hy). unfold nondec, by_priority in Hall.
  rewrite Z.gtb_ltb, Z.ltb_ge in Hall. lia.
Qed.

Lemma sorted_priority_ext st st' l :
  (forall t, priority_of st' t = priority_of st t) ->
  Sorted (nondec (by_priority st)) l -> Sorted (nondec (by_priority st')) l.
Proof.
  intros He. induction 1 as [|x xs _ IH Hhd]; constructor; [done|].
  destruct Hhd as [|y ys H]; constructor. unfold nondec, by_priority in *. by rewrite !He.
Qed.

(** The state in which [thread_yield] calls [schedule]. *)
Definition yielding (th : thread) (st : kstate) : kstate :=
  set_threads (<[current st := set_kstack (F_yield (intr_on st) :: kstack th)
                                 (set_status THREAD_READY th)]> (threads st))
    (set_ready_list (insert_ordered (by_priority st) (current st) (ready_list st))
       (set_intr_on false st)).

Lemma thread_yield_to_schedule st th :
  sched_ok st -> magic_ok st -> thread_mlfqs st = false -> in_external_intr st = false ->
  current st <> idle_thread st -> threads st !! current st = Some th ->
  thread_yield st = schedule (yielding th st).
Proof.
  intros Hok Hmg Hm Hx Hid Hth. destruct (sched_current _ Hok) as (_ & _ & _ & Hn).
  unfold thread_yield. mrun (thread_current_run _ Hok Hmg).
  unfold intr_context. mnorm. rewrite Hx. cbn [negb]. mnorm. mrun (intr_disable_run st). mnorm.
  cbn [idle_thread set_intr_on]. rewrite (proj2 (Z.eqb_neq _ _) Hid). cbn [negb].
  unfold ready_insert. mnorm. cbn [thread_mlfqs set_ready_list set_intr_on]. rewrite Hm. mnorm.
  rewrite sort_by_priority by done.
  mrun (upd_thread_run (current st) (set_status THREAD_READY) th (set_ready_list
    (insert_ordered (by_priority st) (current st) (ready_list st)) (set_intr_on false st)) Hth Hn).
  mnorm. unfold bind. erewrite push_frame_run; [|apply lookup_insert_eq|done].
  unfold yielding. cbn. by rewrite insert_insert_eq.
Qed.

(** C24: under the priority scheduler (not the advanced one), called outside of
    interrupts by a thread other than the idle one and with a ready list that is
    ordered by priority, [thread_yield] gives the processor to a thread of the
    highest priority among the caller and the ready threads, and to another thread than the
    caller if there is one of the same priority; the caller is ready and the
    ready list stays sorted. *)
Theorem thread_yield_highest st :
  sched_ok st -> magic_ok st -> thread_mlfqs st = false -> in_external_intr st = false ->
  current st <> idle_thread st -> ready_sorted st ->
  exists st', thread_yield st = Ok (tt, st') /\
    (forall t, t ∈ current st :: ready_list st -> priority_of st t <= priority_of st (current st')) /\
    current st :: ready_list st ≡ₚ current st' :: ready_list st' /\
    (current st' = current st ->
       forall t, t ∈ ready_list st -> priority_of st t < priority_of st (current st)) /\
    (forall t, priority_of st' t = priority_of st t) /\ ready_sorted st'.
Proof.
  intros Hok Hmg Hm Hx Hid Hs. destruct (sched_current _ Hok) as (th & Hth & Hst & Hn).
  rewrite (thread_yield_to_schedule st th) by done.
  set (ins := insert_ordered (by_priority st) (current st) (ready_list st)).
  pose proof (insert_ordered_perm (by_priority st) (current st) (ready_list st)) as Hp.
  pose proof (insert_ordered_sorted (by_priority st) (current st) _ Hs) as Hs'. fold ins in Hp, Hs'.
  destruct ins as [|next rest] eqn:Hins; [by apply Permutation_nil_cons in Hp|].
  assert (next ∈ current st :: ready_list st) as Hin by (rewrite <- Hp; by left).
  assert (exists nth, threads (yielding th st) !! next = Some nth /\ magic nth = THREAD_MAGIC
    /\ next <> NULL) as (nth & Hnth & Hnm & Hn0).
  { unfold yielding. cbn. apply elem_of_cons in Hin as [->|Hin].
    - rewrite lookup_insert_eq. eexists. split; [done|]. split; [|done]. by apply (Hmg _ _ Hth).
    - destruct (sched_ready _ _ Hok Hin) as (nth & Hnt & Hns & Hn0).
      rewrite lookup_insert_ne; [|intros E; rewrite <- E in Hnt; congruence].
      exists nth. split; [done|]. split; [|done]. by eapply Hmg. }
  assert (forall t, priority_of (switched next nth rest (yielding th st)) t = priority_of st t) as Hpr.
  { intros t. unfold priority_of, switched. cbn.
    destruct (decide (t = next)) as [->|Hne].
    - rewrite lookup_insert_eq. cbn in Hnth |- *.
      destruct (decide (next = current st)) as [->|Hne].
      + rewrite lookup_insert_eq in Hnth. injection Hnth as <-. by rewrite Hth.
      + rewrite lookup_insert_ne in Hnth by done. by rewrite Hnth.
    - rewrite lookup_insert_ne by done. destruct (decide (t = current st)) as [->|].
      + by rewrite lookup_insert_eq, Hth.
      + by rewrite lookup_insert_ne. }
  exists (switched next nth rest (yielding th st)). split.
  { eapply schedule_run; [done|done|exact Hins|exact Hnth|done|done|apply lookup_insert_eq|done|done|done]. }
  cbn [current switched set_thread_ticks set_threads set_current ready_list set_ready_list].
  split; [intros t Ht; rewrite <- Hp in Ht; by eapply sorted_head_max|].
  split; [by symmetry|]. split; [|split; [done|]].
  - intros E t Ht. change (next = current st) in E. subst next ins.
    destruct (insert_ordered_split (by_priority st) (current st) (ready_list st))
      as (pre & post & E1 & E2 & Hpre & Hpost). rewrite E2 in Hins.
    destruct pre as [|y pre]; cbn in Hins.
    + cbn in E1. unfold ready_sorted in Hs. rewrite E1 in Ht, Hs. destruct post as [|p post]; [by apply elem_of_nil in Ht|].
      pose proof (sorted_head_max st p post t Hs Ht). cbn in Hpost.
      unfold by_priority in Hpost. rewrite Z.gtb_ltb, Z.ltb_lt in Hpost. lia.
    + injection Hins as -> _. exfalso.
      destruct (sched_ready st (current st) Hok) as (th' & Hth' & Hst' & _);
        [rewrite E1; by left|]. congruence.
  - apply (sorted_priority_ext st); [done|]. by inversion Hs'.
Qed.

(** ** Waking *)

Lemma thread_unblock_run t th st :
  threads st !! t = Some th -> t <> NULL -> magic th = THREAD_MAGIC ->
  status th = THREAD_BLOCKED -> thread_mlfqs st = false -> intr_on st = false ->
  thread_unblock t st =
    Ok (tt, set_threads (<[t := set_status THREAD_READY th]> (threads st))
              (set_ready_list (insert_ordered (by_priority st) t (ready_list st)) st)).
Proof.
  intros Hth Hn Hmg Hs Hm Hi. unfold thread_unblock.
  assert (forall s, intr_on s = false -> set_intr_on false s = s) as E by (intros []; cbn; by intros ->).
  mrun (is_thread_run _ _ _ Hth Hn Hmg). mnorm. mrun (intr_disable_run st). rewrite E, Hi by done.
  mrun (thr_run _ _ _ Hth Hn). rewrite Hs, bool_decide_eq_true_2 by done. mnorm.
  unfold ready_insert. mnorm. rewrite sort_by_priority by done.
  cbn [thread_mlfqs set_ready_list]. rewrite Hm. mnorm.
  mrun (upd_thread_run t (set_status THREAD_READY) th
    (set_ready_list (insert_ordered (by_priority st) t (ready_list st)) st) Hth Hn).
  unfold bind. rewrite intr_set_level_run by auto. by rewrite E.
Qed.

(** The state after [sema_up] has woken [t] and counted the unit. *)
Definition woken (s : Z) (sm : semaphore) (t : Z) (th : thread) (rest : list Z) (st : kstate)
  : kstate :=
  set_semas (<[s := mkSema (u32 (value sm + 1)) rest]> (semas st))
    (set_threads (<[t := set_status THREAD_READY th]> (threads st))
       (set_ready_list (insert_ordered (by_priority st) t (ready_list st)) st)).

(** The end of [sema_up]: the woken thread is compared with the caller. *)
Lemma sema_up_end s sm t th rest st :
  sched_ok st -> magic_ok st -> in_external_intr st = false ->
  threads st !! t = Some th -> status th = THREAD_BLOCKED -> t <> NULL ->
  (c <- intr_context ;;
   if (c : bool) then intr_yield_on_return
   else if negb (t =? NULL) then
     th <- thr t ;; cur <- thread_current ;; cth <- thr cur ;;
     if priority th >? priority cth then thread_yield else ret tt
   else ret tt) (woken s sm t th rest st)
  = if priority_of st t >? priority_of st (current st)
    then thread_yield (woken s sm t th rest st) else Ok (tt, woken s sm t th rest st).
Proof.
  intros Hok Hmg Hx Hth Hb Hn0. destruct (sched_current _ Hok) as (cth & Hcth & Hcs & Hcn).
  unfold intr_context. mnorm.
  change (in_external_intr (woken s sm t th rest st)) with (in_external_intr st). rewrite Hx.
  rewrite (proj2 (Z.eqb_neq _ _) Hn0). cbn [negb].
  assert (threads (woken s sm t th rest st) !! t = Some (set_status THREAD_READY th)) as Ht'
    by apply lookup_insert_eq.
  mrun (thr_run _ _ _ Ht' Hn0).
  assert (t <> current st) as Hne by (intros ->; congruence).
  assert (threads (woken s sm t th rest st) !! current st = Some cth) as Hc'
    by (cbn; by rewrite lookup_insert_ne).
  mrun (thread_current_at (woken s sm t th rest st) cth Hc' Hcs Hcn (Hmg _ _ Hcth)).
  mrun (thr_run _ _ _ Hc' Hcn). cbn [priority set_status]. unfold priority_of.
  rewrite Hth, Hcth. by destruct (priority th >? priority cth).
Qed.


(** ** Donation *)

(** The holders met along nested locks, from the lock [l] on. *)
Inductive chain (st : kstate) : Z -> list Z -> Prop :=
| chain_end : chain st NULL []
| chain_next l o oth os :
    l <> NULL -> locks st !! l = Some o -> o <> NULL -> threads st !! o = Some oth ->
    chain st (waiting_lock oth) os -> chain st l (o :: os).

(** What a donation does not change: the running thread, the locks, and of
    each thread the lock that it waits for and its stack. *)
Definition same_waits (st st' : kstate) : Prop :=
  current st' = current st /\ locks st' = locks st /\
  forall t, waiting_lock <$> threads st' !! t = waiting_lock <$> threads st !! t.

Definition same_stacks (st st' : kstate) : Prop :=
  forall t, kstack <$> threads st' !! t = kstack <$> threads st !! t.

Lemma chain_same_waits st st' l os : same_waits st st' -> chain st l os -> chain st' l os.
Proof.
  intros (_ & El & Ew). induction 1 as [|l o oth os Hl Ho Hn Ht Hc IH]; [constructor|].
  specialize (Ew o). rewrite Ht in Ew. cbn in Ew.
  destruct (threads st' !! o) as [oth'|] eqn:E; [|done]. injection Ew as Ew.
  apply (chain_next _ _ _ oth'); [done|by rewrite El|done|done|by rewrite Ew].
Qed.

(** A field that an update of a thread leaves alone. *)
Lemma fmap_upd {X} (g : thread -> X) (ths : gmap Z thread) t th th' u :
  ths !! t = Some th -> g th' = g th -> g <$> <[t := th']> ths !! u = g <$> ths !! u.
Proof.
  intros Ht Hg. destruct (decide (u = t)) as [->|].
  - rewrite lookup_insert_eq, Ht. cbn. by rewrite Hg.
  - by rewrite lookup_insert_ne.
Qed.

Lemma priority_of_upd t p th st u :
  threads st !! t = Some th ->
  priority_of (set_threads (<[t := set_priority p th]> (threads st)) st) u
  = if decide (u = t) then p else priority_of st u.
Proof.
  intros Ht. unfold priority_of. cbn. destruct (decide (u = t)) as [->|].
  - by rewrite lookup_insert_eq.
  - by rewrite lookup_insert_ne.
Qed.

Lemma priority_of_fmap st st' t :
  priority <$> threads st' !! t = priority <$> threads st !! t -> priority_of st' t = priority_of st t.
Proof. unfold priority_of. by destruct (threads st' !! t), (threads st !! t); intros [=]. Qed.

(** The walk along nested locks ends, and raises exactly the holders on it. *)
Lemma donate_chain_run fuel st l os p :
  chain st l os -> (length os < fuel)%nat ->
  exists st', donate_chain fuel l p st = Ok (tt, st') /\ same_waits st st' /\ same_stacks st st' /\
    (forall t, t ∈ os -> priority_of st' t = p) /\
    (forall t, t ∉ os -> priority_of st' t = priority_of st t) /\
    (forall t, donor_threads <$> threads st' !! t = donor_threads <$> threads st !! t).
Proof.
  revert st l os. induction fuel as [|fuel IH]; intros st l os Hc Hf; [lia|].
  destruct Hc as [|l o oth os Hl Ho Hn Ht Hc]; simpl.
  - exists st. do 3 (split; [done|]). split; [by intros t ?%elem_of_nil|]. done.
  - rewrite (proj2 (Z.eqb_neq _ _) Hl). mrun (lock_holder_run _ _ _ Ho Hl).
    mrun (upd_thread_run o (set_priority p) oth st Ht Hn).
    set (st1 := set_threads _ st).
    assert (threads st1 !! o = Some (set_priority p oth)) as Ht1 by apply lookup_insert_eq.
    mrun (thr_run _ _ _ Ht1 Hn). cbn [waiting_lock set_priority].
    assert (forall X (g : thread -> X) t, g (set_priority p oth) = g oth ->
      g <$> threads st1 !! t = g <$> threads st !! t) as Hk by (intros; by eapply fmap_upd).
    destruct (IH st1 (waiting_lock oth) os) as (st' & Hr & Hsw' & Hss & Hin & Hout & Hd);
      [|simpl in Hf; lia|].
    { apply (chain_same_waits st); [|done]. do 2 (split; [done|]). intros t. by apply Hk. }
    exists st'. split; [done|]. split; [|split].
    { destruct Hsw' as (E1 & E2 & W2). do 2 (split; [done|]). intros t. rewrite W2. by apply Hk. }
    { intros t. rewrite Hss. by apply Hk. }
    assert (forall t, priority_of st1 t = if decide (t = o) then p else priority_of st t) as Hp
      by (intros t; by apply priority_of_upd).
    split; [|split].
    + intros t. rewrite elem_of_cons. destruct (decide (t ∈ os)) as [?|Hno]; [auto|].
      intros [->|?]; [|done]. rewrite Hout, Hp by done. by destruct (decide (o = o)).
    + intros t. rewrite not_elem_of_cons. intros [Hne Hno]. rewrite Hout, Hp by done.
      by destruct (decide (t = o)).
    + intros t. rewrite Hd. by apply Hk.
Qed.

(** The state in which [donate] starts to walk along nested locks. *)
Definition donated (l cur owner : Z) (cth oth : thread) (ds : list Z) (st : kstate) : kstate :=
  set_threads (<[cur := set_waiting_lock l cth]>
    (<[owner := set_donor_threads ds (set_priority (priority cth) oth)]> (threads st))) st.

Lemma donate_to_chain fuel st l cur cth owner oth :
  threads st !! cur = Some cth -> cur <> NULL -> cur <> owner ->
  l <> NULL -> locks st !! l = Some owner -> owner <> NULL -> threads st !! owner = Some oth ->
  priority cth > priority oth ->
  exists ds, ds ≡ₚ cur :: donor_threads oth /\
    donate fuel l cur st
    = donate_chain fuel (waiting_lock oth) (priority cth) (donated l cur owner cth oth ds st).
Proof.
  intros Hc Hcn Hne Hl Ho Hon Hot Hp. unfold donate.
  mrun (lock_holder_run _ _ _ Ho Hl). rewrite (proj2 (Z.eqb_neq _ _) Hon).
  mrun (thr_run _ _ _ Hc Hcn). mrun (thr_run _ _ _ Hot Hon). rewrite (proj2 (Z.gtb_gt _ _) Hp).
  mrun (upd_thread_run owner (set_priority (priority cth)) oth st Hot Hon). mnorm.
  set (st1 := set_threads _ st).
  exists (insert_ordered (donor_sort st1) cur (donor_threads oth)).
  split; [apply insert_ordered_perm|].
  assert (threads st1 !! owner = Some (set_priority (priority cth) oth)) as Ho1
    by apply lookup_insert_eq.
  mrun (upd_thread_run owner
    (fun th => set_donor_threads (insert_ordered (donor_sort st1) cur (donor_threads th)) th) _ st1
    Ho1 Hon).
  cbn [donor_threads set_priority]. set (st2 := set_threads _ st1).
  assert (threads st2 !! cur = Some cth) as Hc2 by (subst st2 st1; cbn; by rewrite !lookup_insert_ne).
  mrun (upd_thread_run cur (set_waiting_lock l) cth st2 Hc2 Hcn). set (st3 := set_threads _ st2).
  assert (exists th3, threads st3 !! owner = Some th3 /\ waiting_lock th3 = waiting_lock oth)
    as (th3 & Ho3 & <-).
  { subst st3 st2. cbn. rewrite lookup_insert_ne, lookup_insert_eq by done. by eexists. }
  mrun (thr_run _ _ _ Ho3 Hon). subst st3 st2 st1. unfold donated. cbn. by rewrite insert_insert_eq.
Qed.

(** Walks that do not meet [cur] are the same after it starts to wait. *)
Lemma chain_donated st l cur cth owner oth ds l' os :
  threads st !! cur = Some cth -> threads st !! owner = Some oth -> cur <> owner -> cur ∉ os ->
  chain st l' os -> chain (donated l cur owner cth oth ds st) l' os.
Proof.
  intros Hc Hot Hne Hcos. induction 1 as [|l' o th' os ? ? ? Ht ? IH]; [constructor|].
  apply not_elem_of_cons in Hcos as [Hco Hcos]. specialize (IH Hcos).
  destruct (decide (o = owner)) as [->|Hno].
  - rewrite Hot in Ht. injection Ht as <-.
    apply (chain_next _ _ _ (set_donor_threads ds (set_priority (priority cth) oth))); [done..| |done].
    cbn. by rewrite lookup_insert_ne, lookup_insert_eq.
  - econstructor; [done..| |done]. cbn. by rewrite !lookup_insert_ne.
Qed.

Lemma donate_run fuel st l cur cth owner oth os :
  threads st !! cur = Some cth -> cur <> NULL -> cur <> owner -> cur ∉ os ->
  l <> NULL -> locks st !! l = Some owner -> owner <> NULL -> threads st !! owner = Some oth ->
  chain st (waiting_lock oth) os -> (length os < fuel)%nat -> priority cth > priority oth ->
  exists st', donate fuel l cur st = Ok (tt, st') /\
    (forall t, t ∈ owner :: os -> priority_of st' t = priority cth) /\
    (forall t, t ∉ owner :: os -> priority_of st' t = priority_of st t) /\
    (waiting_lock <$> threads st' !! cur = Some l) /\
    (exists ds, donor_threads <$> threads st' !! owner = Some ds /\ ds ≡ₚ cur :: donor_threads oth) /\
    current st' = current st /\ same_stacks st st'.
Proof.
  intros Hc Hcn Hne Hcos Hl Ho Hon Hot Hch Hf Hp.
  destruct (donate_to_chain fuel st l cur cth owner oth) as (ds & Hds & ->); [done..|].
  pose proof (chain_donated st l cur cth owner oth ds _ os Hc Hot Hne Hcos Hch) as Hch'.
  destruct (donate_chain_run fuel _ _ os (priority cth) Hch' Hf)
    as (st' & Hr & (Hcur & _ & Hw) & Hss & Hin & Hout & Hd).
  assert (threads (donated l cur owner cth oth ds st) !! owner
    = Some (set_donor_threads ds (set_priority (priority cth) oth))) as Ho3
    by (cbn; by rewrite lookup_insert_ne, lookup_insert_eq).
  exists st'. split; [done|]. split; [|split; [|split; [|split; [|split]]]].
  - intros t. rewrite elem_of_cons. destruct (decide (t ∈ os)); [auto|]. intros [->|]; [|done].
    rewrite Hout by done. unfold priority_of. by rewrite Ho3.
  - intros t. rewrite not_elem_of_cons. intros [? ?]. rewrite Hout by done. unfold priority_of. cbn.
    destruct (decide (t = cur)) as [->|]; [by rewrite lookup_insert_eq, Hc|].
    by rewrite !lookup_insert_ne.
  - rewrite Hw. cbn. by rewrite lookup_insert_eq.
  - exists ds. by rewrite Hd, Ho3.
  - done.
  - intros t. rewrite Hss. cbn.
    rewrite (fmap_upd kstack _ cur cth); [by apply (fmap_upd kstack _ owner oth)| |done].
    by rewrite lookup_insert_ne.
Qed.

Lemma held_by_current_run st l h :
  sched_ok st -> magic_ok st -> l <> NULL -> locks st !! l = Some h ->
  lock_held_by_current_thread l st = Ok (h =? current st, st).
Proof.
  intros Hok Hmg Hl Hh. unfold lock_held_by_current_thread. rewrite (proj2 (Z.eqb_neq _ _) Hl).
  cbn [negb]. mnorm. mrun (lock_holder_run _ _ _ Hh Hl). by mrun (thread_current_run _ Hok Hmg).
Qed.

(** C26: [lock_acquire], outside of interrupts, of a lock held by a thread of
    lower priority, when the chain of locks that the holder waits for is finite
    ([chain]: every lock in it has a holder, else the walk would use a null
    pointer, see [Scenarios.nested_donation_null_holder]; [os] are the holders,
    fewer than the fuel, and the caller is none of them): the holder and every holder along the chain of locks that it waits for get the
    caller's priority and no other priority changes; the caller becomes a
    donor of the holder, is recorded as waiting for the lock, and goes on to
    the [sema_down] of the lock's semaphore. *)
Theorem lock_acquire_donates fuel st l cth owner oth os :
  sched_ok st -> magic_ok st -> in_external_intr st = false ->
  threads st !! current st = Some cth -> current st ∉ owner :: os ->
  l <> NULL -> locks st !! l = Some owner -> owner <> NULL -> threads st !! owner = Some oth ->
  chain st (waiting_lock oth) os -> (length os < fuel)%nat -> priority cth > priority oth ->
  exists st', lock_acquire fuel l st = Ok (tt, st') /\
    (forall t, t ∈ owner :: os -> priority_of st' t = priority cth) /\
    (forall t, t ∉ owner :: os -> priority_of st' t = priority_of st t) /\
    (waiting_lock <$> threads st' !! current st = Some l) /\
    (exists ds, donor_threads <$> threads st' !! owner = Some ds /\
       ds ≡ₚ current st :: donor_threads oth) /\
    (kstack <$> threads st' !! current st = Some (F_acquire_down l :: F_lock_acquire l :: kstack cth)).
Proof.
  intros Hok Hmg Hx Hc [Hne Hcos]%not_elem_of_cons Hl Ho Hon Hot Hch Hf Hp.
  destruct (sched_current _ Hok) as (_ & _ & _ & Hcn).
  destruct (donate_run fuel st l (current st) cth owner oth os)
    as (st1 & Hr & Hin & Hout & Hw & (ds & Hd & Hperm) & Hcur & Hss); [done..|].
  unfold lock_acquire. rewrite (proj2 (Z.eqb_neq _ _) Hl). cbn [negb]. unfold intr_context. mnorm.
  rewrite Hx. cbn [negb]. mnorm. mrun (held_by_current_run st l owner Hok Hmg Hl Ho).
  rewrite (proj2 (Z.eqb_neq owner (current st))) by done. cbn [negb]. mnorm.
  mrun (thread_current_run _ Hok Hmg). mrun Hr.
  specialize (Hss (current st)). rewrite Hc in Hss.
  destruct (threads st1 !! current st) as [cth1|] eqn:Hc1; [|done]. injection Hss as Hk.
  rewrite <- Hcur in Hc1, Hcn. mrun (push_frame_run (F_lock_acquire l) cth1 st1 Hc1 Hcn).
  erewrite push_frame_run; [|apply lookup_insert_eq|done].
  cbn [kstack set_kstack threads set_threads current]. rewrite insert_insert_eq.
  assert (forall X (g : thread -> X) t, g (set_kstack (F_acquire_down l :: F_lock_acquire l :: kstack cth1)
    (set_kstack (F_lock_acquire l :: kstack cth1) cth1)) = g cth1 ->
    g <$> <[current st1 := set_kstack (F_acquire_down l :: F_lock_acquire l :: kstack cth1)
    (set_kstack (F_lock_acquire l :: kstack cth1) cth1)]> (threads st1) !! t
    = g <$> threads st1 !! t) as Hg by (intros; by eapply fmap_upd).
  eexists. split; [done|]. split; [|split; [|split; [|split]]].
  - intros t Ht. rewrite <- (Hin t Ht). apply priority_of_fmap. by apply (Hg _ priority).
  - intros t Ht. rewrite <- (Hout t Ht). apply priority_of_fmap. by apply (Hg _ priority).
  - cbn. rewrite <- Hcur. rewrite (Hg _ waiting_lock) by done. by rewrite Hc1.
  - exists ds. cbn. by rewrite (Hg _ donor_threads).
  - cbn. rewrite <- Hcur, lookup_insert_eq. cbn. by rewrite Hk.
Qed.

(** ** Release *)

(** What [lock_release] of [l] is to leave of the donors and of the priority of
    its caller [th]: the donors that do not wait for [l], in their order; the
    priority it had if there was no donor, its own when the last one goes, and
    else that of a donor that is left, the highest if the list was ordered. *)
Record released (st : kstate) (l : Z) (th : thread) (rest : list Z) (p : Z) : Prop := {
  re_order : rest `sublist_of` donor_threads th;
  re_donors : forall t, t ∈ rest <-> t ∈ donor_threads th /\ waiting_lock <$> threads st !! t <> Some l;
  re_none : donor_threads th = [] -> p = priority th;
  re_last : donor_threads th <> [] -> rest = [] -> p = base_priority th;
  re_left : rest <> [] -> exists d, d ∈ rest /\ p = priority_of st d;
  re_highest : Sorted (nondec (by_priority st)) (donor_threads th) -> forall d, d ∈ rest -> priority_of st d <= p
}.

Lemma list_filter_sublist {A} (f : A -> bool) l : List.filter f l `sublist_of` l.
Proof. induction l as [|x l IH]; cbn; [constructor|]. destruct (f x); by constructor. Qed.

Lemma sorted_sublist st l l' : l' `sublist_of` l -> Sorted (nondec (by_priority st)) l -> Sorted (nondec (by_priority st)) l'.
Proof.
  intros Hsub Hs%(DListSort.sorted_strong (by_priority st)). apply StronglySorted_Sorted. revert Hs. induction Hsub as [|x l1 l2 Hsub IH|x l1 l2 Hsub IH]; intros Hs.
  - constructor.
  - apply StronglySorted_inv in Hs as [Hs Hx]. constructor; [by apply IH|]. apply Forall_forall. intros y Hy. eapply Forall_forall; [exact Hx|]. by eapply sublist_subseteq.
  - apply StronglySorted_inv in Hs as [Hs _]. by apply IH.
Qed.

Lemma waiting_for_spec st l t : waiting_for st l t = false <-> waiting_lock <$> threads st !! t <> Some l.
Proof.
  unfold waiting_for. destruct (threads st !! t) as [th|]; cbn; [|done]. rewrite Z.eqb_neq. split; [congruence|]. intros H E. apply H. by rewrite E.
Qed.

(** The donors that [lock_release] keeps, and the priority of the first. *)
Lemma released_filter st l th rest p :
  rest = List.filter (fun t => negb (waiting_for st l t)) (donor_threads th) ->
  p = match donor_threads th, rest with [], _ => priority th | _, [] => base_priority th | _, d :: _ => priority_of st d end ->
  released st l th rest p.
Proof.
  intros Er Ep. assert (rest `sublist_of` donor_threads th) as Hsub by (rewrite Er; apply list_filter_sublist).
  assert (rest <> [] -> exists d r, rest = d :: r /\ p = priority_of st d) as Hp.
  { intros Hn. destruct (donor_threads th) as [|d0 ds]; [by rewrite Er in Hn|]. destruct rest as [|d r]; [done|]. by exists d, r. }
  split; [done| |by intros E; rewrite E in Ep| | |].
  - intros t. rewrite Er, <- waiting_for_spec, !list_elem_of_In, filter_In, negb_true_iff. done.
  - intros Hn E. rewrite E in Ep. by destruct (donor_threads th).
  - intros Hn. destruct (Hp Hn) as (d & r & -> & E). exists d. split; [by left|done].
  - intros Hs d Hd. assert (rest <> []) as Hn by (intros E; rewrite E in Hd; by apply not_elem_of_nil in Hd). destruct (Hp Hn) as (d1 & r & E & ->).
    apply (sorted_sublist st _ rest Hsub) in Hs. rewrite E in *. by apply (sorted_head_max st d1 r).
Qed.

(** The part of [lock_release] between the two writes of the lock. *)
Lemma release_priority_run st l th :
  threads st !! current st = Some th -> current st <> NULL ->
  (forall t, t ∈ donor_threads th -> t <> NULL /\ is_Some (threads st !! t)) ->
  exists rest p,
    (match donor_threads th with
     | [] => ret tt
     | donors =>
         st0 <- get ;;
         let rest := List.filter (fun t => negb (waiting_for st0 l t)) donors in
         upd_thread (current st) (set_donor_threads rest) ;;;
         match rest with
         | d :: _ => dth <- thr d ;; upd_thread (current st) (set_priority (priority dth))
         | [] => upd_thread (current st) (set_priority (base_priority th))
         end
     end) st = Ok (tt, set_threads (<[current st := set_priority p (set_donor_threads rest th)]> (threads st)) st) /\
    released st l th rest p.
Proof.
  intros Hth Hn Hd. destruct (donor_threads th) as [|d0 ds] eqn:Hds.
  { exists [], (priority th). split; [|by apply released_filter; rewrite Hds].
    replace (set_priority _ _) with th by (destruct th; cbn in *; by subst). rewrite insert_id by done. by destruct st. }
  mnorm. cbv zeta. destruct (List.filter _ (d0 :: ds)) as [|d rest'] eqn:Hr.
  - mrun (upd_thread_run (current st) (set_donor_threads []) th st Hth Hn). set (st2 := set_threads _ st).
    assert (threads st2 !! current st = Some (set_donor_threads [] th)) as Hth2 by apply lookup_insert_eq.
    rewrite (upd_thread_run _ _ _ _ Hth2 Hn). subst st2. cbn. rewrite insert_insert_eq.
    exists [], (base_priority th). split; [done|]. apply released_filter; by rewrite Hds.
  - mrun (upd_thread_run (current st) (set_donor_threads (d :: rest')) th st Hth Hn). set (st2 := set_threads _ st).
    assert (threads st2 !! current st = Some (set_donor_threads (d :: rest') th)) as Hth2 by apply lookup_insert_eq.
    assert (d ∈ d0 :: ds) as Hin.
    { assert (d ∈ d :: rest') as Hin by (by left). rewrite <- Hr in Hin. apply list_elem_of_In, filter_In in Hin. by apply list_elem_of_In, Hin. }
    destruct (Hd d Hin) as [Hdn [dth Hdth]].
    assert (exists dth2, threads st2 !! d = Some dth2 /\ priority dth2 = priority_of st d) as (dth2 & Hdt2 & Hdp).
    { unfold priority_of. rewrite Hdth. subst st2. cbn. destruct (decide (d = current st)) as [->|].
      - rewrite lookup_insert_eq. eexists. split; [done|]. cbn. congruence.
      - rewrite lookup_insert_ne by done. eauto. }
    mrun (thr_run _ _ _ Hdt2 Hdn). rewrite (upd_thread_run _ _ _ _ Hth2 Hn), Hdp.
    subst st2. cbn. rewrite insert_insert_eq. exists (d :: rest'), (priority_of st d). split; [done|].
    apply released_filter; by rewrite Hds.
Qed.

(** C27: [lock_release] by the holder returns: the lock has no holder; the
    donors of the caller that wait for this lock are forgotten and the others
    are kept in their order; its priority is unchanged if it had no donor, its
    own when the last donor goes, and else that of a donor that is left, which
    is the highest of them when the list of donors was ordered by priority
    (the comment of the code says the highest, but a donation does not keep the
    list ordered, see [Scenarios.lock_release_drops_a_donation]).  What remains
    to do is the [sema_up] of the semaphore; nothing else changes. *)
Theorem lock_release_restores st l th :
  sched_ok st -> magic_ok st -> l <> NULL -> locks st !! l = Some (current st) ->
  threads st !! current st = Some th ->
  (forall t, t ∈ donor_threads th -> t <> NULL /\ is_Some (threads st !! t)) ->
  exists rest p, released st l th rest p /\
    lock_release l st = Ok (tt, set_threads (<[current st := set_kstack (F_release_up l :: kstack th) (set_priority p (set_donor_threads rest th))]> (threads st))
      (set_locks (<[l := NULL]> (locks st)) st)).
Proof.
  intros Hok Hmg Hl Hh Hth Hd. destruct (sched_current _ Hok) as (_ & _ & _ & Hn).
  unfold lock_release. rewrite (proj2 (Z.eqb_neq _ _) Hl). cbn [negb]. mnorm.
  mrun (held_by_current_run st l _ Hok Hmg Hl Hh). rewrite Z.eqb_refl. mnorm.
  mrun (thread_current_run _ Hok Hmg). mrun (set_holder_run _ _ NULL _ Hh Hl).
  set (st1 := set_locks _ st).
  assert (threads st1 !! current st = Some th) as Hth1 by done. mrun (thr_run _ _ _ Hth1 Hn).
  destruct (release_priority_run st1 l th Hth1 Hn Hd) as (rest & p & Hr & Hrel).
  mrun Hr. erewrite push_frame_run; [|apply lookup_insert_eq|done].
  exists rest, p. split; [by destruct Hrel|]. cbn. by rewrite insert_insert_eq.
Qed.

(** ** Witnesses

    The theorems above at states of concrete runs: [contended], where a
    thread of priority 40 runs while the main thread, which holds [lock_a],
    is ready; and [blocked_on_lock], where it has started to wait for it. *)

Definition blocked_on_lock : kstate :=
  state (run true false (calls [call (A_lock_acquire lock_a) 2;
                                call (A_thread_create thread_1 [] 40) 7;
                                call (A_lock_acquire lock_a) 2])).

Lemma reachable_sched_ok st : reachable (client_ok is_lock) st -> sched_ok st.
Proof. intros H. by apply (reachable_inv is_lock eq_refl) in H as [? _]. Qed.

Lemma blocked_on_lock_reachable : reachable (client_ok is_lock) blocked_on_lock.
Proof. apply state_reachable. vm_compute. reflexivity. Qed.

Definition magic_okb (st : kstate) : bool :=
  forallb (fun p => magic p.2 =? THREAD_MAGIC) (map_to_list (threads st)).

Lemma magic_okb_ok st : magic_okb st = true -> magic_ok st.
Proof.
  intros H t th Ht. apply elem_of_map_to_list, list_elem_of_In in Ht.
  unfold magic_okb in H. rewrite forallb_forall in H. by apply (Z.eqb_eq _ _), (H (t, th)).
Qed.

Lemma thread_yield_highest_witness :
  exists st', thread_yield contended = Ok (tt, st') /\
    (forall t, t ∈ [thread_1; main] -> priority_of contended t <= priority_of contended (current st')).
Proof.
  destruct (thread_yield_highest contended) as (st' & Hr & Hmax & _).
  - exact (reachable_sched_ok _ contended_reachable).
  - apply magic_okb_ok. vm_compute. reflexivity.
  - vm_compute. reflexivity.
  - vm_compute. reflexivity.
  - vm_compute. discriminate.
  - unfold ready_sorted. assert (ready_list contended = [main]) as -> by (vm_compute; reflexivity).
    constructor; constructor.
  - exists st'. split; [exact Hr|exact Hmax].
Defined.


Lemma thread_at {X} (g : thread -> X) st t x :
  g <$> threads st !! t = Some x -> exists th, threads st !! t = Some th /\ g th = x.
Proof. destruct (threads st !! t) as [th|]; [|done]. intros [= <-]. eauto. Qed.

Lemma lock_acquire_donates_witness :
  exists st', lock_acquire 5 lock_a contended = Ok (tt, st') /\ priority_of st' main = 40.
Proof.
  destruct (thread_at priority contended (current contended) 40) as (cth & Hc & Hp);
    [vm_compute; reflexivity|].
  destruct (thread_at (fun th => (priority th, waiting_lock th)) contended main (31, NULL))
    as (oth & Ho & E); [vm_compute; reflexivity|].
  injection E as Ep Ew.
  destruct (lock_acquire_donates 5 contended lock_a cth main oth []) as (st' & Hr & Hin & _).
  - exact (reachable_sched_ok _ contended_reachable).
  - apply magic_okb_ok. vm_compute. reflexivity.
  - vm_compute. reflexivity.
  - exact Hc.
  - apply (bool_decide_unpack _). vm_compute. exact I.
  - discriminate.
  - vm_compute. reflexivity.
  - discriminate.
  - exact Ho.
  - rewrite Ew. constructor.
  - simpl. lia.
  - lia.
  - exists st'. split; [exact Hr|]. rewrite (Hin main (list_elem_of_here _ _)). exact Hp.
Defined.

Lemma lock_release_restores_witness :
  exists st' th', lock_release lock_a blocked_on_lock = Ok (tt, st') /\
    threads st' !! current blocked_on_lock = Some th' /\ donor_threads th' = [] /\ priority th' = 31.
Proof.
  destruct (thread_at (fun th => (donor_threads th, base_priority th)) blocked_on_lock
    (current blocked_on_lock) ([thread_1], 31)) as (th & Hth & E); [vm_compute; reflexivity|].
  injection E as Ed Eb.
  destruct (lock_release_restores blocked_on_lock lock_a th) as (rest & p & Hrel & Hr).
  - exact (reachable_sched_ok _ blocked_on_lock_reachable).
  - apply magic_okb_ok. vm_compute. reflexivity.
  - discriminate.
  - vm_compute. reflexivity.
  - exact Hth.
  - rewrite Ed. intros t Hin%list_elem_of_singleton. subst t. split; [discriminate|].
    destruct (thread_at priority blocked_on_lock thread_1 40) as (th1 & H1 & _);
      [vm_compute; reflexivity|]. exists th1. exact H1.
  - assert (rest = []) as Er.
    { destruct rest as [|d r]; [done|]. destruct (proj1 (re_donors _ _ _ _ _ Hrel d) ltac:(left)) as [Hd Hw]. rewrite Ed in Hd.
      apply list_elem_of_singleton in Hd. subst d. destruct Hw. vm_compute. reflexivity. }
    eexists _, _. split; [exact Hr|]. split; [apply lookup_insert_eq|]. split; [exact Er|].
    rewrite <- Eb. apply (re_last _ _ _ _ _ Hrel); [by rewrite Ed|exact Er].
Defined.

End SchedProps.
