(* ===== verification/Bitmap.v ===== *)
(** * Bitmaps (src/src/lib/kernel/bitmap.c)

    A bitmap is an array of 32-bit elements.  The state of the monad is the
    bitmap that the C functions get as [b]; the caller's assertion
    [b != NULL] is the existence of that state.  The abstraction [view] is
    the sequence of bits, and the operations are shown to be the obvious
    ones on it. *)

From S2P Require Import Prelude.

Module Bitmap.

Definition ELEM_BITS : Z := 32.
Definition BITMAP_ERROR : Z := 4294967295.

Record bitmap : Type := mkBitmap { bit_cnt : Z; bits : list Z }.

Definition elem_idx (bit_idx : Z) : Z := bit_idx / ELEM_BITS.
Definition bit_mask (bit_idx : Z) : Z := Z.shiftl 1 (bit_idx mod ELEM_BITS).
Definition elem_cnt (bit_cnt : Z) : Z := u32 (bit_cnt + ELEM_BITS - 1) / ELEM_BITS.
Definition byte_cnt (bit_cnt : Z) : Z := u32 (4 * elem_cnt bit_cnt).

Definition last_mask (b : bitmap) : Z :=
  let last_bits := bit_cnt b mod ELEM_BITS in
  if negb (last_bits =? 0) then Z.shiftl 1 last_bits - 1 else u32 (-1).

Definition bitmap_size : M bitmap Z := gets bit_cnt.

(** [b->bits[idx]] read and written; outside the array is a bad access. *)
Definition elem (idx : Z) : M bitmap Z := gets_opt (fun b => bits b !! Z.to_nat idx).

Definition set_elem (idx v : Z) : M bitmap unit :=
  elem idx ;;; modify (fun b => mkBitmap (bit_cnt b) (<[Z.to_nat idx := v]> (bits b))).

(** ** Single bits *)

Definition bitmap_mark (bit_idx : Z) : M bitmap unit :=
  let idx := elem_idx bit_idx in
  let mask := bit_mask bit_idx in
  e <- elem idx ;; set_elem idx (Z.lor e mask).

Definition bitmap_reset (bit_idx : Z) : M bitmap unit :=
  let idx := elem_idx bit_idx in
  let mask := bit_mask bit_idx in
  e <- elem idx ;; set_elem idx (Z.land e (u32 (Z.lnot mask))).

Definition bitmap_flip (bit_idx : Z) : M bitmap unit :=
  let idx := elem_idx bit_idx in
  let mask := bit_mask bit_idx in
  e <- elem idx ;; set_elem idx (Z.lxor e mask).

Definition bitmap_set (idx : Z) (value : bool) : M bitmap unit :=
  n <- gets bit_cnt ;; ASSERT (idx <? n) ;;;
  if value then bitmap_mark idx else bitmap_reset idx.

Definition bitmap_test (idx : Z) : M bitmap bool :=
  n <- gets bit_cnt ;; ASSERT (idx <? n) ;;;
  e <- elem (elem_idx idx) ;; ret (negb (Z.land e (bit_mask idx) =? 0)).

(** ** Several bits: each loop runs [cnt] times, from [start + i] on *)

Fixpoint set_multiple_loop (n : nat) (i : Z) (value : bool) : M bitmap unit :=
  match n with
  | O => ret tt
  | S n' => bitmap_set (u32 i) value ;;; set_multiple_loop n' (i + 1) value
  end.

Definition bitmap_set_multiple (start cnt : Z) (value : bool) : M bitmap unit :=
  n <- gets bit_cnt ;; ASSERT (start <=? n) ;;; ASSERT (u32 (start + cnt) <=? n) ;;;
  set_multiple_loop (Z.to_nat cnt) start value.

Definition bitmap_set_all (value : bool) : M bitmap unit :=
  n <- bitmap_size ;; bitmap_set_multiple 0 n value.

Fixpoint count_loop (n : nat) (i : Z) (value : bool) (value_cnt : Z) : M bitmap Z :=
  match n with
  | O => ret value_cnt
  | S n' =>
      t <- bitmap_test (u32 i) ;;
      count_loop n' (i + 1) value (if Bool.eqb t value then value_cnt + 1 else value_cnt)
  end.

Definition bitmap_count (start cnt : Z) (value : bool) : M bitmap Z :=
  n <- gets bit_cnt ;; ASSERT (start <=? n) ;;; ASSERT (u32 (start + cnt) <=? n) ;;;
  count_loop (Z.to_nat cnt) start value 0.

Fixpoint contains_loop (n : nat) (i : Z) (value : bool) : M bitmap bool :=
  match n with
  | O => ret false
  | S n' =>
      t <- bitmap_test (u32 i) ;;
      if Bool.eqb t value then ret true else contains_loop n' (i + 1) value
  end.

Definition bitmap_contains (start cnt : Z) (value : bool) : M bitmap bool :=
  n <- gets bit_cnt ;; ASSERT (start <=? n) ;;; ASSERT (u32 (start + cnt) <=? n) ;;;
  contains_loop (Z.to_nat cnt) start value.

Definition bitmap_any (start cnt : Z) : M bitmap bool := bitmap_contains start cnt true.

Definition bitmap_none (start cnt : Z) : M bitmap bool :=
  r <- bitmap_contains start cnt true ;; ret (negb r).

Definition bitmap_all (start cnt : Z) : M bitmap bool :=
  r <- bitmap_contains start cnt false ;; ret (negb r).

(** ** Searching *)

(** [n] is the number of starting points left, up to [last]. *)
Fixpoint scan_loop (n : nat) (i cnt : Z) (value : bool) : M bitmap Z :=
  match n with
  | O => ret BITMAP_ERROR
  | S n' =>
      r <- bitmap_contains i cnt (negb value) ;;
      if negb r then ret i else scan_loop n' (i + 1) cnt value
  end.

Definition bitmap_scan (start cnt : Z) (value : bool) : M bitmap Z :=
  n <- gets bit_cnt ;; ASSERT (start <=? n) ;;;
  if cnt <=? n then
    let last := n - cnt in scan_loop (Z.to_nat (last - start + 1)) start cnt value
  else ret BITMAP_ERROR.

Definition bitmap_scan_and_flip (start cnt : Z) (value : bool) : M bitmap Z :=
  idx <- bitmap_scan start cnt value ;;
  (if negb (idx =? BITMAP_ERROR) then bitmap_set_multiple idx cnt (negb value) else ret tt) ;;;
  ret idx.

(** ** Creation *)

(** [storage] is what [malloc] returned for the elements: [None] when it
    failed, else whatever the memory held; [b_ok] says whether the
    allocation of the structure itself succeeded. *)
Definition bitmap_create (b_ok : bool) (storage : option (list Z)) (bit_cnt : Z)
  : res (option bitmap) :=
  if b_ok then
    match storage with
    | None =>
        if bit_cnt =? 0 then
          match bitmap_set_all false (mkBitmap bit_cnt []) with
          | Ok (_, b) => Ok (Some b)
          | Err e => Err e
          end
        else Ok None
    | Some ws =>
        match bitmap_set_all false (mkBitmap bit_cnt ws) with
        | Ok (_, b) => Ok (Some b)
        | Err e => Err e
        end
    end
  else Ok None.

Definition bitmap_buf_size (bit_cnt : Z) : Z := u32 (8 + byte_cnt bit_cnt).

Definition bitmap_create_in_buf (bit_cnt block_size : Z) (block : list Z) : res bitmap :=
  if block_size >=? bitmap_buf_size bit_cnt then
    match bitmap_set_all false (mkBitmap bit_cnt block) with
    | Ok (_, b) => Ok b
    | Err e => Err e
    end
  else Err Assertion_failed.

Definition bitmap_file_size (b : bitmap) : Z := byte_cnt (bit_cnt b).

(** ** The bits *)

Definition bit (b : bitmap) (i : Z) : bool :=
  Z.testbit (nth (Z.to_nat (i / 32)) (bits b) 0) (i mod 32).

Record wf (b : bitmap) : Prop := {
  wf_cnt : 0 <= bit_cnt b <= 4294967264;
  wf_len : elem_cnt (bit_cnt b) <= Z.of_nat (length (bits b));
  wf_u32 : Forall in_u32 (bits b)
}.

(** The bitmap as a sequence of bits. *)
Definition view (b : bitmap) : list bool := map (bit b) (seqZ 0 (bit_cnt b)).

Lemma wf_elem b i :
  wf b -> 0 <= i < bit_cnt b ->
  exists e, bits b !! Z.to_nat (i / 32) = Some e /\ nth (Z.to_nat (i / 32)) (bits b) 0 = e /\ in_u32 e.
Proof.
  intros [Hc Hl Hu] Hi. destruct (lookup_lt_is_Some_2 (bits b) (Z.to_nat (i / 32))) as [e He].
  { unfold elem_cnt, ELEM_BITS in Hl. rewrite u32_id in Hl by lia.
    pose proof (Z.div_mod i 32). pose proof (Z.mod_pos_bound i 32).
    pose proof (Z.div_mod (bit_cnt b + 32 - 1) 32). pose proof (Z.mod_pos_bound (bit_cnt b + 32 - 1) 32).
    lia. }
  exists e. split; [done|]. split; [by apply nth_lookup_Some|].
  rewrite Forall_forall in Hu. apply Hu. by eapply list_elem_of_lookup_2.
Qed.

Lemma bit_index i : i = 32 * (i / 32) + i mod 32 /\ 0 <= i mod 32 < 32.
Proof. split; [by apply Z.div_mod|by apply Z.mod_pos_bound]. Qed.

Lemma land_bit e k : 0 <= k -> negb (Z.land e (Z.shiftl 1 k) =? 0) = Z.testbit e k.
Proof.
  intros Hk. rewrite Z.shiftl_1_l. destruct (Z.testbit e k) eqn:E.
  - apply negb_true_iff, Z.eqb_neq. intros H0.
    assert (Z.testbit (Z.land e (2 ^ k)) k = true) as Ht.
    { by rewrite Z.land_spec, E, Z.pow2_bits_true. }
    rewrite H0, Z.bits_0 in Ht. done.
  - apply negb_false_iff, Z.eqb_eq. apply Z.bits_inj'. intros n Hn.
    rewrite Z.land_spec, Z.bits_0. destruct (decide (n = k)) as [->|]; [by rewrite E|].
    by rewrite Z.pow2_bits_false, andb_false_r.
Qed.

Lemma bitmap_test_ok b i : wf b -> 0 <= i < bit_cnt b -> bitmap_test i b = Ok (bit b i, b).
Proof.
  intros Hw Hi. destruct (wf_elem b i Hw Hi) as (e & He & Hn & _).
  unfold bitmap_test, bind, gets, ASSERT. rewrite (proj2 (Z.ltb_lt _ _)) by lia.
  unfold ret at 1, elem, gets_opt, elem_idx, ELEM_BITS. rewrite He. unfold ret, bit.
  rewrite Hn. unfold bit_mask, ELEM_BITS. rewrite land_bit; [done|]. apply bit_index.
Qed.

(** Writing [f] of the element that holds bit [i]. *)
Lemma set_elem_ok b i e v :
  bits b !! Z.to_nat (i / 32) = Some e ->
  set_elem (elem_idx i) v b
  = Ok (tt, mkBitmap (bit_cnt b) (<[Z.to_nat (i / 32) := v]> (bits b))).
Proof.
  intros He. unfold set_elem, elem, bind, gets_opt, elem_idx, ELEM_BITS. by rewrite He.
Qed.

Lemma elem_ok b i e :
  bits b !! Z.to_nat (i / 32) = Some e -> elem (elem_idx i) b = Ok (e, b).
Proof. intros He. unfold elem, gets_opt, elem_idx, ELEM_BITS. by rewrite He. Qed.

Lemma in_u32_bits e : in_u32 e <-> 0 <= e /\ forall k, 32 <= k -> Z.testbit e k = false.
Proof.
  unfold in_u32. change 4294967296 with (2 ^ 32). split.
  - intros H. split; [lia|]. intros k Hk. rewrite <- (Z.mod_small e (2 ^ 32)) by lia.
    by apply Z.mod_pow2_bits_high.
  - intros [H0 Hb]. destruct (Z.eq_dec e 0) as [->|Hne]; [lia|]. split; [done|].
    apply Z.log2_lt_pow2; [lia|]. destruct (Z.lt_ge_cases (Z.log2 e) 32) as [|Hge]; [done|].
    specialize (Hb _ Hge). rewrite Z.bit_log2 in Hb by lia. done.
Qed.

(** The bits after one element is replaced. *)
Lemma insert_elem_ok b i e v :
  wf b -> 0 <= i < bit_cnt b -> bits b !! Z.to_nat (i / 32) = Some e -> in_u32 v ->
  let b' := mkBitmap (bit_cnt b) (<[Z.to_nat (i / 32) := v]> (bits b)) in
  wf b' /\ forall j, 0 <= j ->
    bit b' j = if j / 32 =? i / 32 then Z.testbit v (j mod 32) else bit b j.
Proof.
  intros [Hc Hl Hu] Hi He Hv b'. split.
  - constructor; cbn; [done|by rewrite length_insert|by apply Forall_insert].
  - intros j Hj. unfold bit, b'. cbn. destruct (j / 32 =? i / 32) eqn:E.
    + apply Z.eqb_eq in E. rewrite E. rewrite (nth_lookup_Some _ _ _ v); [done|].
      apply list_lookup_insert_eq. by eapply lookup_lt_Some.
    + apply Z.eqb_neq in E. f_equal. rewrite !nth_lookup. f_equal.
      apply list_lookup_insert_ne. pose proof (Z.div_pos j 32). pose proof (Z.div_pos i 32). lia.
Qed.

Lemma same_elem_bit i j : j / 32 = i / 32 -> (j mod 32 =? i mod 32) = (j =? i).
Proof.
  intros E. pose proof (bit_index i) as [Ei _]. pose proof (bit_index j) as [Ej _].
  destruct (Z.eqb_spec (j mod 32) (i mod 32)), (Z.eqb_spec j i); try done; try subst; try lia.
Qed.

(** [bitmap_set] changes the one bit it is given. *)
Lemma bitmap_set_ok b i v :
  wf b -> 0 <= i < bit_cnt b ->
  exists b', bitmap_set i v b = Ok (tt, b') /\ wf b' /\ bit_cnt b' = bit_cnt b /\
    forall j, 0 <= j -> bit b' j = if j =? i then v else bit b j.
Proof.
  intros Hw Hi. destruct (wf_elem b i Hw Hi) as (e & He & Hn & Hu).
  pose proof (bit_index i) as [Ei Hk].
  set (x := if v then Z.lor e (bit_mask i) else Z.land e (u32 (Z.lnot (bit_mask i)))).
  assert (forall k, 0 <= k < 32 -> Z.testbit x k = if k =? i mod 32 then v else Z.testbit e k) as Hx.
  { intros k Hk'. unfold x, bit_mask, ELEM_BITS, u32. rewrite Z.shiftl_1_l.
    change 4294967296 with (2 ^ 32). destruct v.
    - rewrite Z.lor_spec, Z.pow2_bits_eqb, Z.eqb_sym by lia. by destruct (k =? _), (Z.testbit e k).
    - rewrite Z.land_spec, Z.mod_pow2_bits_low, Z.lnot_spec, Z.pow2_bits_eqb, Z.eqb_sym by lia.
      by destruct (k =? _), (Z.testbit e k). }
  assert (in_u32 x) as Hxu.
  { apply in_u32_bits in Hu as [H0 Hb]. apply in_u32_bits. unfold x, bit_mask, ELEM_BITS, u32.
    rewrite Z.shiftl_1_l. pose proof (Z.pow_nonneg 2 (i mod 32)). destruct v.
    - split; [apply Z.lor_nonneg; lia|]. intros k Hk'.
      rewrite Z.lor_spec, Hb, Z.pow2_bits_false by lia. done.
    - split; [apply Z.land_nonneg; by left|]. intros k Hk'. by rewrite Z.land_spec, Hb. }
  destruct (insert_elem_ok b i e x Hw Hi He Hxu) as [Hw' Hb'].
  eexists. split; [|split; [exact Hw'|]].
  - unfold bitmap_set. unfold bind at 1, gets at 1. rewrite (proj2 (Z.ltb_lt _ _)) by lia.
    cbn [ASSERT]. unfold bind at 1, ret at 1.
    unfold x. destruct v; unfold bitmap_mark, bitmap_reset; mrun (elem_ok b i e He);
      by apply (set_elem_ok _ _ e).
  - split; [done|]. intros j Hj. rewrite Hb' by done.
    destruct (j / 32 =? i / 32) eqn:E.
    + apply Z.eqb_eq in E. rewrite Hx by apply bit_index. rewrite (same_elem_bit i j E).
      destruct (j =? i) eqn:Eji; [done|]. unfold bit. rewrite E. by rewrite Hn.
    + apply Z.eqb_neq in E. destruct (j =? i) eqn:Eji; [|done]. apply Z.eqb_eq in Eji. by subst.
Qed.

(** ** Ranges of bits *)

Lemma set_multiple_loop_ok n i b v :
  wf b -> 0 <= i -> i + Z.of_nat n <= bit_cnt b ->
  exists b', set_multiple_loop n i v b = Ok (tt, b') /\ wf b' /\ bit_cnt b' = bit_cnt b /\
    forall j, 0 <= j -> bit b' j = if (i <=? j) && (j <? i + Z.of_nat n) then v else bit b j.
Proof.
  revert i b. induction n as [|n IH]; intros i b Hw Hi Hn; simpl.
  - exists b. split; [done|]. split; [done|]. split; [done|]. intros j Hj.
    destruct (Z.leb_spec i j), (Z.ltb_spec j (i + Z.of_nat 0)); done || lia.
  - pose proof (wf_cnt _ Hw). rewrite u32_id by lia.
    destruct (bitmap_set_ok b i v Hw ltac:(lia)) as (b1 & Hr & Hw1 & Hc1 & Hb1).
    mrun Hr. destruct (IH (i + 1) b1 Hw1) as (b2 & Hr2 & Hw2 & Hc2 & Hb2); [lia|rewrite Hc1; lia|].
    exists b2. split; [done|]. split; [done|]. split; [congruence|]. intros j Hj.
    rewrite Hb2, Hb1 by done.
    destruct (Z.leb_spec (i + 1) j), (Z.ltb_spec j (i + 1 + Z.of_nat n)), (Z.eqb_spec j i),
      (Z.leb_spec i j), (Z.ltb_spec j (i + Z.of_nat (S n))); done || lia.
Qed.

(** The precondition the range functions assert. *)
Definition in_range (b : bitmap) (start cnt : Z) : Prop :=
  0 <= start /\ 0 <= cnt /\ start + cnt <= bit_cnt b.

Lemma range_asserts {A} b start cnt (k : Z -> M bitmap A) :
  wf b -> in_range b start cnt ->
  (n <- gets bit_cnt ;; ASSERT (start <=? n) ;;; ASSERT (u32 (start + cnt) <=? n) ;;; k n) b
  = k (bit_cnt b) b.
Proof.
  intros Hw (H1 & H2 & H3). pose proof (wf_cnt _ Hw). unfold bind, gets.
  rewrite u32_id, (proj2 (Z.leb_le start _)), (proj2 (Z.leb_le (start + cnt) _)) by lia. done.
Qed.

Lemma bitmap_set_multiple_ok b start cnt v :
  wf b -> in_range b start cnt ->
  exists b', bitmap_set_multiple start cnt v b = Ok (tt, b') /\ wf b' /\ bit_cnt b' = bit_cnt b /\
    forall j, 0 <= j -> bit b' j = if (start <=? j) && (j <? start + cnt) then v else bit b j.
Proof.
  intros Hw Hr. unfold bitmap_set_multiple. rewrite range_asserts by done.
  destruct Hr as (H1 & H2 & H3).
  destruct (set_multiple_loop_ok (Z.to_nat cnt) start b v Hw) as (b' & Hrun & Hw' & Hc & Hb);
    [lia|lia|]. rewrite Z2Nat.id in Hb by lia. eauto.
Qed.

(** The bits of a range, in order. *)
Definition range (b : bitmap) (start : Z) (n : nat) : list bool :=
  map (bit b) (seqZ start (Z.of_nat n)).

Lemma range_S b start n : range b start (S n) = bit b start :: range b (start + 1) n.
Proof.
  unfold range. rewrite seqZ_cons by lia. cbn [map].
  by replace (Z.pred (Z.of_nat (S n))) with (Z.of_nat n) by lia.
Qed.

Lemma contains_loop_ok n i b v :
  wf b -> 0 <= i -> i + Z.of_nat n <= bit_cnt b ->
  contains_loop n i v b = Ok (existsb (Bool.eqb v) (range b i n), b).
Proof.
  intros Hw. revert i. induction n as [|n IH]; intros i Hi Hn; simpl contains_loop; [done|].
  pose proof (wf_cnt _ Hw). rewrite u32_id by lia.
  mrun (bitmap_test_ok b i Hw ltac:(lia)). rewrite range_S. simpl.
  assert (Bool.eqb v (bit b i) = Bool.eqb (bit b i) v) as -> by (by destruct v, (bit b i)).
  destruct (Bool.eqb (bit b i) v); [done|]. rewrite IH by lia. done.
Qed.

Lemma bitmap_contains_ok b start cnt v :
  wf b -> in_range b start cnt ->
  bitmap_contains start cnt v b = Ok (existsb (Bool.eqb v) (range b start (Z.to_nat cnt)), b).
Proof.
  intros Hw Hr. unfold bitmap_contains. rewrite range_asserts by done.
  destruct Hr as (H1 & H2 & H3). apply contains_loop_ok; [done|lia|lia].
Qed.

Definition ones (v : bool) (l : list bool) : nat := length (List.filter (Bool.eqb v) l).

Lemma count_loop_ok n i b v acc :
  wf b -> 0 <= i -> i + Z.of_nat n <= bit_cnt b ->
  count_loop n i v acc b = Ok (acc + Z.of_nat (ones v (range b i n)), b).
Proof.
  intros Hw. revert i acc. induction n as [|n IH]; intros i acc Hi Hn; simpl count_loop.
  { unfold range, ones. simpl. unfold ret. by rewrite Z.add_0_r. }
  pose proof (wf_cnt _ Hw). rewrite u32_id by lia.
  mrun (bitmap_test_ok b i Hw ltac:(lia)). rewrite IH by lia. rewrite range_S. unfold ones. simpl.
  destruct v, (bit b i); simpl; f_equal; f_equal; lia.
Qed.

(** [bitmap_count] returns the number of bits of its range that have the
    given value, and changes nothing. *)
Theorem bitmap_count_ok b start cnt v :
  wf b -> in_range b start cnt ->
  bitmap_count start cnt v b = Ok (Z.of_nat (ones v (range b start (Z.to_nat cnt))), b).
Proof.
  intros Hw Hr. unfold bitmap_count. rewrite range_asserts by done.
  destruct Hr as (H1 & H2 & H3). rewrite count_loop_ok by (done || lia). done.
Qed.

(** ** Searching *)

(** [cnt] consecutive bits from [i] on have the value [v]. *)
Definition group (b : bitmap) (i cnt : Z) (v : bool) : Prop :=
  forall j, i <= j < i + cnt -> bit b j = v.

Lemma range_group b i n v :
  negb (existsb (Bool.eqb (negb v)) (range b i n)) = true <-> group b i (Z.of_nat n) v.
Proof.
  rewrite negb_true_iff, <- not_true_iff_false, existsb_exists. unfold group, range. split.
  - intros H j Hj. destruct (Bool.bool_dec (bit b j) v) as [|Hne]; [done|]. exfalso. apply H.
    exists (bit b j). split; [|by destruct v, (bit b j)].
    apply in_map, list_elem_of_In, elem_of_seqZ. lia.
  - intros H (x & Hin & Hx). apply in_map_iff in Hin as (j & <- & Hj).
    apply list_elem_of_In, elem_of_seqZ in Hj. rewrite H in Hx by lia. by destruct v.
Qed.

(** What a search from [start] finds: the first group, if there is one. *)
Definition scan_result (b : bitmap) (start cnt : Z) (v : bool) (r : Z) : Prop :=
  (r = BITMAP_ERROR /\ forall i, start <= i -> i + cnt <= bit_cnt b -> ~ group b i cnt v) \/
  (start <= r /\ r + cnt <= bit_cnt b /\ group b r cnt v /\
   forall i, start <= i < r -> ~ group b i cnt v).

Lemma scan_loop_ok n i b cnt v :
  wf b -> 0 <= i -> 0 <= cnt -> Z.of_nat n = Z.max 0 (bit_cnt b - cnt - i + 1) ->
  exists r, scan_loop n i cnt v b = Ok (r, b) /\ scan_result b i cnt v r.
Proof.
  intros Hw Hi Hc. revert i Hi. induction n as [|n IH]; intros i Hi Hn; simpl.
  - exists BITMAP_ERROR. split; [done|]. left. split; [done|]. intros k ? ?. lia.
  - assert (in_range b i cnt) as Hr by (unfold in_range; lia).
    mrun (bitmap_contains_ok b i cnt (negb v) Hw Hr).
    destruct (negb (existsb _ _)) eqn:E.
    + apply range_group in E. rewrite Z2Nat.id in E by lia.
      exists i. split; [done|]. right. split; [lia|]. split; [lia|]. split; [done|].
      intros k ?. lia.
    + assert (~ group b i cnt v) as Hng.
      { intros Hg. rewrite <- (Z2Nat.id cnt) in Hg by lia. apply range_group in Hg. congruence. }
      destruct (IH (i + 1)) as (r & Hrun & Hres); [lia|lia|].
      exists r. split; [done|]. destruct Hres as [[-> Hno]|(H1 & H2 & H3 & H4)].
      * left. split; [done|]. intros k Hk Hk'. destruct (Z.eq_dec k i) as [->|]; [done|].
        apply Hno; lia.
      * right. split; [lia|]. split; [done|]. split; [done|]. intros k Hk.
        destruct (Z.eq_dec k i) as [->|]; [done|]. apply H4; lia.
Qed.

Lemma bitmap_scan_ok b start cnt v :
  wf b -> 0 <= start <= bit_cnt b -> 0 <= cnt ->
  exists r, bitmap_scan start cnt v b = Ok (r, b) /\ scan_result b start cnt v r.
Proof.
  intros Hw Hs Hc. unfold bitmap_scan, bind at 1, gets. rewrite (proj2 (Z.leb_le start _)) by lia.
  unfold bind, ASSERT, ret at 1. destruct (Z.leb_spec cnt (bit_cnt b)) as [Hle|Hgt].
  - apply scan_loop_ok; [done|lia|done|]. lia.
  - exists BITMAP_ERROR. split; [done|]. left. split; [done|]. intros i ? ?. lia.
Qed.

(** [bitmap_scan_and_flip] returns the first group and turns exactly its
    bits over; when there is none it changes nothing. *)
Lemma bitmap_scan_and_flip_run b start cnt v :
  wf b -> 0 <= start <= bit_cnt b -> 0 <= cnt ->
  exists r b', bitmap_scan_and_flip start cnt v b = Ok (r, b') /\ wf b' /\
    bit_cnt b' = bit_cnt b /\ scan_result b start cnt v r /\ (r = BITMAP_ERROR -> b' = b) /\
    forall j, 0 <= j ->
      bit b' j = if negb (r =? BITMAP_ERROR) && ((r <=? j) && (j <? r + cnt))
                 then negb v else bit b j.
Proof.
  intros Hw Hs Hc. unfold bitmap_scan_and_flip.
  destruct (bitmap_scan_ok b start cnt v Hw Hs Hc) as (r & Hr & Hres). mrun Hr.
  destruct (r =? BITMAP_ERROR) eqn:E; cbn [negb andb].
  - exists r, b. rewrite E. done.
  - destruct Hres as [[-> _]|(H1 & H2 & H3 & H4)]; [done|].
    destruct (bitmap_set_multiple_ok b r cnt (negb v) Hw) as (b' & Hrun & Hw' & Hc' & Hb');
      [unfold in_range; lia|]. mrun Hrun.
    exists r, b'. rewrite E. split; [done|]. split; [done|]. split; [done|].
    split; [right; auto|]. split; [|done]. intros ->. done.
Qed.

(** ** Creation *)

Lemma bitmap_create_in_buf_ok ws n size :
  0 <= n <= 4294967264 -> elem_cnt n <= Z.of_nat (length ws) -> Forall in_u32 ws ->
  bitmap_buf_size n <= size ->
  exists b, bitmap_create_in_buf n size ws = Ok b /\ wf b /\ bit_cnt b = n /\
    forall j, 0 <= j < n -> bit b j = false.
Proof.
  intros Hn Hl Hu Hs. unfold bitmap_create_in_buf. rewrite Z.geb_leb, (proj2 (Z.leb_le _ _)) by done.
  unfold bitmap_set_all, bitmap_size. unfold bind at 1, gets. cbn [bit_cnt].
  destruct (bitmap_set_multiple_ok (mkBitmap n ws) 0 n false) as (b & Hr & Hw & Hc & Hb).
  { by constructor. }
  { unfold in_range. cbn. lia. }
  rewrite Hr. exists b. split; [done|]. split; [done|]. split; [done|]. intros j Hj.
  rewrite Hb, (proj2 (Z.leb_le _ _)), (proj2 (Z.ltb_lt _ _)) by lia. done.
Qed.

(** A new bitmap is all false, whatever the memory held. *)
Theorem bitmap_create_ok ws n :
  0 <= n <= 4294967264 -> elem_cnt n <= Z.of_nat (length ws) -> Forall in_u32 ws ->
  exists b, bitmap_create true (Some ws) n = Ok (Some b) /\ wf b /\ bit_cnt b = n /\
    view b = replicate (Z.to_nat n) false.
Proof.
  intros Hn Hl Hu. unfold bitmap_create, bitmap_set_all, bitmap_size.
  unfold bind at 1, gets. cbn [bit_cnt].
  destruct (bitmap_set_multiple_ok (mkBitmap n ws) 0 n false) as (b & Hr & Hw & Hc & Hb).
  { by constructor. }
  { unfold in_range. cbn. lia. }
  rewrite Hr. exists b. split; [done|]. split; [done|]. split; [done|].
  unfold view. rewrite Hc. cbn. apply list_eq. intros i.
  rewrite list_lookup_fmap. destruct (decide (i < Z.to_nat n)%nat) as [Hi|Hi].
  - rewrite lookup_seqZ_lt, lookup_replicate_2 by lia. cbn. rewrite Hb by lia.
    rewrite (proj2 (Z.leb_le _ _)), (proj2 (Z.ltb_lt _ _)) by lia. done.
  - rewrite lookup_seqZ_ge by lia. symmetry. apply lookup_replicate_None. lia.
Qed.

(** With a count of zero [bitmap_scan_and_flip] returns [start]; its comment
    says that it returns 0. *)
Theorem scan_empty_returns_start b start v :
  wf b -> 0 <= start <= bit_cnt b -> bitmap_scan_and_flip start 0 v b = Ok (start, b).
Proof.
  intros Hw Hs. pose proof (wf_cnt _ Hw).
  assert (bitmap_scan start 0 v b = Ok (start, b)) as Hr.
  { unfold bitmap_scan, bind at 1, gets. rewrite (proj2 (Z.leb_le start _)) by lia.
    unfold bind, ASSERT, ret at 1. rewrite (proj2 (Z.leb_le 0 _)) by lia.
    destruct (Z.to_nat (bit_cnt b - 0 - start + 1)) eqn:E; [lia|]. simpl.
    by mrun (bitmap_contains_ok b start 0 (negb v) Hw ltac:(unfold in_range; lia)). }
  unfold bitmap_scan_and_flip. mrun Hr.
  rewrite (proj2 (Z.eqb_neq _ _)) by (unfold BITMAP_ERROR; lia). cbn [negb].
  unfold bind, bitmap_set_multiple. by rewrite range_asserts by (done || unfold in_range; lia).
Qed.

(** [bitmap_set_multiple] writes exactly the bits of its range. *)
Theorem bitmap_set_multiple_exact b start cnt v :
  wf b -> in_range b start cnt ->
  exists b', bitmap_set_multiple start cnt v b = Ok (tt, b') /\ wf b' /\ bit_cnt b' = bit_cnt b /\
    forall j, 0 <= j -> bit b' j = if (start <=? j) && (j <? start + cnt) then v else bit b j.
Proof. apply bitmap_set_multiple_ok. Qed.

(** [bitmap_scan_and_flip] returns the first group of [cnt] bits with the
    given value, or the error value when there is none, and turns exactly
    the bits of the group. *)
Theorem bitmap_scan_and_flip_ok b start cnt v :
  wf b -> 0 <= start <= bit_cnt b -> 0 <= cnt ->
  exists r b', bitmap_scan_and_flip start cnt v b = Ok (r, b') /\ wf b' /\
    bit_cnt b' = bit_cnt b /\ scan_result b start cnt v r /\
    forall j, 0 <= j ->
      bit b' j = if negb (r =? BITMAP_ERROR) && ((r <=? j) && (j <? r + cnt))
                 then negb v else bit b j.
Proof.
  intros Hw Hs Hc. destruct (bitmap_scan_and_flip_run b start cnt v Hw Hs Hc)
    as (r & b' & H1 & H2 & H3 & H4 & _ & H5). by exists r, b'.
Qed.

(** No operation resizes the array of elements. *)
Lemma keeps_set_elem idx v : keeps (fun b => length (bits b)) (set_elem idx v).
Proof.
  unfold set_elem, elem. msteps. apply keeps_modify. intros b. simpl. by rewrite length_insert.
Qed.
#[local] Hint Resolve keeps_set_elem : msteps.

Lemma keeps_set_multiple start cnt v : keeps (fun b => length (bits b)) (bitmap_set_multiple start cnt v).
Proof.
  unfold bitmap_set_multiple. msteps. generalize (Z.to_nat cnt) as n. intros n. revert start.
  induction n as [|n IH]; intros start; simpl; [msteps|].
  apply keeps_bind; [|intros _; apply IH]. unfold bitmap_set, bitmap_mark, bitmap_reset, elem. msteps.
Qed.
#[local] Hint Resolve keeps_set_multiple : msteps.

Lemma keeps_scan_and_flip start cnt v : keeps (fun b => length (bits b)) (bitmap_scan_and_flip start cnt v).
Proof.
  unfold bitmap_scan_and_flip, bitmap_scan. msteps. cbv zeta. generalize (Z.to_nat (a - cnt - start + 1)) as n.
  intros n. revert start. induction n as [|n IH]; intros start; simpl; [msteps|].
  apply keeps_bind; [|intros r; destruct r; simpl; [apply IH|msteps]].
  unfold bitmap_contains. msteps. generalize (Z.to_nat cnt) as k. intros k. revert start.
  induction k as [|k IHk]; intros start; simpl; [msteps|].
  apply keeps_bind; [unfold bitmap_test, elem; msteps|]. intros t. destruct (Bool.eqb t (negb v)); [msteps|auto].
Qed.

(** ** Witnesses: a bitmap of 40 bits with bits 3, 4 and 33 set *)

Definition sample : bitmap := mkBitmap 40 [24; 2].

Lemma sample_wf : wf sample.
Proof.
  split; [simpl; lia|vm_compute; discriminate|].
  repeat constructor; unfold in_u32; lia.
Qed.

Lemma bitmap_set_multiple_exact_witness :
  exists b', bitmap_set_multiple 30 5 true sample = Ok (tt, b') /\ bit b' 31 = true /\ bit b' 36 = false.
Proof.
  destruct (bitmap_set_multiple_exact sample 30 5 true sample_wf) as (b' & Hr & _ & _ & Hb).
  - unfold in_range. simpl. lia.
  - exists b'. split; [exact Hr|]. rewrite !Hb by lia. split; vm_compute; reflexivity.
Defined.

Lemma bitmap_count_ok_witness : bitmap_count 0 40 true sample = Ok (3, sample).
Proof.
  rewrite (bitmap_count_ok sample 0 40 true sample_wf); [vm_compute; reflexivity|].
  unfold in_range. simpl. lia.
Defined.

Lemma bitmap_scan_and_flip_ok_witness :
  exists r b', bitmap_scan_and_flip 0 6 false sample = Ok (r, b') /\ scan_result sample 0 6 false r.
Proof.
  destruct (bitmap_scan_and_flip_ok sample 0 6 false sample_wf) as (r & b' & Hr & _ & _ & Hs & _).
  - simpl. lia.
  - lia.
  - exists r, b'. split; [exact Hr|exact Hs].
Defined.

Lemma bitmap_create_ok_witness :
  exists b, bitmap_create true (Some [7; 9]) 40 = Ok (Some b) /\ view b = replicate 40 false.
Proof.
  destruct (bitmap_create_ok [7; 9] 40) as (b & Hr & _ & _ & Hv).
  - lia.
  - vm_compute. discriminate.
  - repeat constructor; unfold in_u32; lia.
  - exists b. split; [exact Hr|exact Hv].
Defined.

Lemma scan_empty_returns_start_witness : bitmap_scan_and_flip 7 0 true sample = Ok (7, sample).
Proof. apply (scan_empty_returns_start sample 7 true sample_wf). simpl. lia. Defined.

End Bitmap.
