(* ===== verification/Palloc.v ===== *)
(** * Virtual addresses and the page allocator

    The address functions of src/src/threads/vaddr.h and the page allocator
    of src/src/threads/palloc.c.  Memory is a map from the kernel virtual
    address of a page to its 1024 words.  Each pool has a [Bitmap] of the
    pages in use; the pages in which [init_pool] places that bitmap are no
    longer part of the memory that the rest of the kernel accesses. *)

From S2P Require Import Prelude Bitmap.

Module Palloc.

(** ** Addresses (vaddr.h) *)

Definition PGBITS : Z := 12.
Definition PGSIZE : Z := 4096.
Definition PGMASK : Z := 4095.
Definition PHYS_BASE : Z := 3221225472.

Definition pg_ofs (va : Z) : Z := Z.land va PGMASK.
Definition pg_no (va : Z) : Z := Z.shiftr va PGBITS.
Definition pg_round_up (va : Z) : Z := Z.land (u32 (va + PGSIZE - 1)) (u32 (Z.lnot PGMASK)).
Definition pg_round_down (va : Z) : Z := Z.land va (u32 (Z.lnot PGMASK)).
Definition is_user_vaddr (va : Z) : bool := va <? PHYS_BASE.
Definition is_kernel_vaddr (va : Z) : bool := va >=? PHYS_BASE.

(** ** State *)

Record pool : Type := mkPool { pool_lock : bool; used_map : Bitmap.bitmap; base : Z }.

Record mstate : Type := mkMstate {
  kernel_pool : pool;
  user_pool : pool;
  ram : gmap Z (list Z);
  init_ram_pages : Z;
  init_page_dir : Z;
  cr3 : Z;
  tlb : gmap Z Z
}.

Definition set_kernel_pool v s := mkMstate v (user_pool s) (ram s) (init_ram_pages s) (init_page_dir s) (cr3 s) (tlb s).
Definition set_user_pool v s := mkMstate (kernel_pool s) v (ram s) (init_ram_pages s) (init_page_dir s) (cr3 s) (tlb s).
Definition set_ram v s := mkMstate (kernel_pool s) (user_pool s) v (init_ram_pages s) (init_page_dir s) (cr3 s) (tlb s).
Definition set_cr3 v s := mkMstate (kernel_pool s) (user_pool s) (ram s) (init_ram_pages s) (init_page_dir s) v (tlb s).
Definition set_tlb v s := mkMstate (kernel_pool s) (user_pool s) (ram s) (init_ram_pages s) (init_page_dir s) (cr3 s) v.

(** [true] for the user pool. *)
Definition the_pool (user : bool) (s : mstate) : pool := if user then user_pool s else kernel_pool s.
Definition set_pool (user : bool) (p : pool) (s : mstate) : mstate :=
  if user then set_user_pool p s else set_kernel_pool p s.

Definition ptov (paddr : Z) : M mstate Z := ASSERT (paddr <? PHYS_BASE) ;;; ret (u32 (paddr + PHYS_BASE)).
Definition vtop (vaddr : Z) : M mstate Z := ASSERT (is_kernel_vaddr vaddr) ;;; ret (vaddr - PHYS_BASE).

(** The pool's lock: true while the caller holds it. *)
Definition pool_acquire (user : bool) : M mstate unit :=
  p <- gets (the_pool user) ;; ASSERT (negb (pool_lock p)) ;;;
  modify (set_pool user (mkPool true (used_map p) (base p))).

Definition pool_release (user : bool) : M mstate unit :=
  p <- gets (the_pool user) ;; ASSERT (pool_lock p) ;;;
  modify (set_pool user (mkPool false (used_map p) (base p))).

(** An operation on the pool's bitmap. *)
Definition on_map {A} (user : bool) (m : M Bitmap.bitmap A) : M mstate A :=
  fun s => let p := the_pool user s in
           match m (used_map p) with
           | Ok (a, b) => Ok (a, set_pool user (mkPool (pool_lock p) b (base p)) s)
           | Err e => Err e
           end.

(** The number of pages that [memset (pages, byte, PGSIZE * page_cnt)]
    fills: the size is computed in 32 bits. *)
Definition memset_pages (page_cnt : Z) : nat := Z.to_nat (u32 (PGSIZE * page_cnt) / PGSIZE).

(** A page with every word equal. *)
Definition page_of (word : Z) : list Z := replicate 1024 word.
Arguments page_of : simpl never.

(** The pages are filled one by one; [word] has the byte four times. *)
Fixpoint fill_pages (cnt : nat) (page word : Z) : M mstate unit :=
  match cnt with
  | O => ret tt
  | S cnt' =>
      gets_opt (fun s => ram s !! page) ;;;
      modify (fun s => set_ram (<[page := page_of word]> (ram s)) s) ;;;
      fill_pages cnt' (page + PGSIZE) word
  end.

(** ** Allocation (palloc.c) *)

Definition PAL_ASSERT : Z := 1.
Definition PAL_ZERO : Z := 2.
Definition PAL_USER : Z := 4.

Definition has_flag (flags f : Z) : bool := negb (Z.land flags f =? 0).

Definition palloc_get_multiple (flags page_cnt : Z) : M mstate Z :=
  let user := has_flag flags PAL_USER in
  if page_cnt =? 0 then ret NULL
  else
    pool_acquire user ;;;
    page_idx <- on_map user (Bitmap.bitmap_scan_and_flip 0 page_cnt false) ;;
    pool_release user ;;;
    p <- gets (the_pool user) ;;
    let pages := if page_idx =? Bitmap.BITMAP_ERROR then NULL else u32 (base p + PGSIZE * page_idx) in
    if negb (pages =? NULL) then
      (if has_flag flags PAL_ZERO then fill_pages (memset_pages page_cnt) pages 0 else ret tt) ;;;
      ret pages
    else if has_flag flags PAL_ASSERT then fail Kernel_panic else ret pages.

Definition palloc_get_page (flags : Z) : M mstate Z := palloc_get_multiple flags 1.

Definition page_from_pool (p : pool) (page : Z) : bool :=
  let start_page := pg_no (base p) in
  (pg_no page >=? start_page) && (pg_no page <? u32 (start_page + Bitmap.bit_cnt (used_map p))).

(** [0xcc] in each byte. *)
Definition FREED : Z := 3435973836.

Definition palloc_free_multiple (pages page_cnt : Z) : M mstate unit :=
  ASSERT (pg_ofs pages =? 0) ;;;
  if (pages =? NULL) || (page_cnt =? 0) then ret tt
  else
    s <- get ;;
    user <- (if page_from_pool (kernel_pool s) pages then ret false
             else if page_from_pool (user_pool s) pages then ret true
             else fail Kernel_panic) ;;
    let page_idx := u32 (pg_no pages - pg_no (base (the_pool user s))) in
    fill_pages (memset_pages page_cnt) pages FREED ;;;
    a <- on_map user (Bitmap.bitmap_all page_idx page_cnt) ;; ASSERT a ;;;
    on_map user (Bitmap.bitmap_set_multiple page_idx page_cnt false).

Definition palloc_free_page (page : Z) : M mstate unit := palloc_free_multiple page 1.

(** ** Initialization *)

(** The words of [cnt] pages, which are taken out of the memory. *)
Fixpoint take_pages (cnt : nat) (page : Z) : M mstate (list Z) :=
  match cnt with
  | O => ret []
  | S cnt' =>
      ws <- gets_opt (fun s => ram s !! page) ;;
      modify (fun s => set_ram (delete page (ram s)) s) ;;;
      rest <- take_pages cnt' (page + PGSIZE) ;;
      ret (ws ++ rest)
  end.

Definition init_pool (user : bool) (base_ page_cnt : Z) : M mstate unit :=
  let bm_pages := u32 (Bitmap.bitmap_buf_size page_cnt + PGSIZE - 1) / PGSIZE in
  if bm_pages >? page_cnt then fail Kernel_panic
  else
    let page_cnt := page_cnt - bm_pages in
    ws <- take_pages (Z.to_nat bm_pages) base_ ;;
    match Bitmap.bitmap_create_in_buf page_cnt (u32 (bm_pages * PGSIZE)) (drop 2 ws) with
    | Ok b => modify (set_pool user (mkPool false b (u32 (base_ + bm_pages * PGSIZE))))
    | Err e => fail e
    end.

Definition palloc_init (user_page_limit : Z) : M mstate unit :=
  free_start <- ptov (1024 * 1024) ;;
  n <- gets init_ram_pages ;;
  free_end <- ptov (u32 (n * PGSIZE)) ;;
  let free_pages := u32 (free_end - free_start) / PGSIZE in
  let user_pages := if free_pages / 2 >? user_page_limit then user_page_limit else free_pages / 2 in
  let kernel_pages := free_pages - user_pages in
  init_pool false free_start kernel_pages ;;;
  init_pool true (u32 (free_start + kernel_pages * PGSIZE)) user_pages.

(** ** Address arithmetic *)

Lemma pg_ofs_mod va : pg_ofs va = va mod 4096.
Proof. unfold pg_ofs, PGMASK. change 4095 with (Z.ones 12). by rewrite Z.land_ones. Qed.

Lemma pg_no_div va : pg_no va = va / 4096.
Proof. unfold pg_no, PGBITS. by rewrite Z.shiftr_div_pow2. Qed.

Lemma land_PTE_ADDR va : in_u32 va -> Z.land va (u32 (Z.lnot PGMASK)) = va - va mod 4096.
Proof.
  intros Hv. change (u32 (Z.lnot PGMASK)) with (Z.shiftl (Z.ones 20) 12).
  assert (va - va mod 4096 = Z.shiftl (Z.shiftr va 12) 12) as ->.
  { rewrite Z.shiftr_div_pow2, Z.shiftl_mul_pow2 by lia. change (2 ^ 12) with 4096.
    pose proof (Z.div_mod va 4096). lia. }
  apply Bitmap.in_u32_bits in Hv as [H0 Hb].
  apply Z.bits_inj'. intros n Hn. rewrite Z.land_spec, !Z.shiftl_spec by lia.
  destruct (Z.lt_ge_cases n 12).
  - rewrite (Z.testbit_neg_r _ (n - 12)), (Z.testbit_neg_r (Z.shiftr _ _)) by lia. apply andb_false_r.
  - rewrite Z.shiftr_spec by lia. replace (n - 12 + 12) with n by lia.
    destruct (Z.lt_ge_cases n 32); [rewrite Z.ones_spec_low by lia; apply andb_true_r|].
    by rewrite Hb.
Qed.

(** Rounding down gives the first address of the page, rounding up the
    first page boundary at or after the address, except in the last page,
    where it wraps to zero. *)
Lemma pg_round_down_ok va : in_u32 va -> pg_round_down va = 4096 * (va / 4096).
Proof.
  intros Hv. unfold pg_round_down. rewrite land_PTE_ADDR by done.
  pose proof (Z.div_mod va 4096). lia.
Qed.

Lemma pg_round_up_ok va :
  in_u32 va -> pg_round_up va = u32 (4096 * ((va + 4095) / 4096)).
Proof.
  intros Hv. unfold pg_round_up, PGSIZE. rewrite land_PTE_ADDR by (unfold in_u32, u32; apply Z.mod_pos_bound; lia).
  unfold in_u32 in Hv. unfold u32. change 4294967296 with (4096 * 1048576).
  rewrite Z.mul_mod_distr_l by lia.
  replace (va + 4096 - 1) with (va + 4095) by lia. set (x := va + 4095).
  rewrite Z.rem_mul_r by lia.
  assert ((x mod 4096 + 4096 * (x / 4096 mod 1048576)) mod 4096 = x mod 4096) as ->; [|lia].
  rewrite Z.mul_comm, Z.mod_add by lia. by apply Z.mod_mod.
Qed.

(** ** The allocator's invariant *)

Definition page_at (p : pool) (i : Z) : Z := base p + PGSIZE * i.
Definition pool_end (p : pool) : Z := page_at p (Bitmap.bit_cnt (used_map p)).

Record pool_ok (p : pool) : Prop := {
  po_lock : pool_lock p = false;
  po_wf : Bitmap.wf (used_map p);
  po_base : base p mod 4096 = 0;
  po_low : PHYS_BASE <= base p;
  po_high : pool_end p <= 4294967296
}.

(** The page [page] of 1024 words is in memory. *)
Definition backed (s : mstate) (page : Z) : Prop :=
  exists ws, ram s !! page = Some ws /\ length ws = 1024%nat.

Record palloc_ok (s : mstate) : Prop := {
  pa_pool : forall user, pool_ok (the_pool user s);
  pa_apart : pool_end (kernel_pool s) <= base (user_pool s);
  pa_backed : forall user i,
    0 <= i < Bitmap.bit_cnt (used_map (the_pool user s)) -> backed s (page_at (the_pool user s) i)
}.

(** The address [a] lies in a page that is allocated from the pool. *)
Definition used (user : bool) (s : mstate) (a : Z) : bool :=
  let p := the_pool user s in
  page_from_pool p a && Bitmap.bit (used_map p) (pg_no a - pg_no (base p)).

Definition allocated (s : mstate) (a : Z) : bool := used false s a || used true s a.

(** The addresses of [cnt] pages from [first] on. *)
Definition in_pages (first cnt a : Z) : bool := (first <=? a) && (a <? first + PGSIZE * cnt).

Lemma the_pool_set u u' p s : the_pool u (set_pool u' p s) = if Bool.eqb u u' then p else the_pool u s.
Proof. by destruct u, u'. Qed.

Lemma ram_set_pool u p s : ram (set_pool u p s) = ram s.
Proof. by destruct u. Qed.

Lemma the_pool_set_ram u r s : the_pool u (set_ram r s) = the_pool u s.
Proof. by destruct u. Qed.

Lemma pool_base_div p : pool_ok p -> base p = 4096 * pg_no (base p).
Proof. intros Hp. rewrite pg_no_div. pose proof (Z.div_mod (base p) 4096). pose proof (po_base _ Hp). lia. Qed.

Lemma page_from_pool_ok p a :
  pool_ok p -> page_from_pool p a = (base p <=? a) && (a <? pool_end p).
Proof.
  intros Hp. unfold page_from_pool. pose proof (pool_base_div p Hp) as Hb. destruct Hp as [_ Hw _ Hl Hh].
  apply Bitmap.wf_cnt in Hw. unfold pool_end, page_at, PGSIZE, PHYS_BASE in *.
  rewrite (pg_no_div a). rewrite u32_id by lia.
  pose proof (Z.div_mod a 4096 ltac:(lia)). pose proof (Z.mod_pos_bound a 4096 ltac:(lia)).
  rewrite Z.geb_leb. f_equal; apply eq_true_iff_eq;
    rewrite ?Z.leb_le, ?Z.ltb_lt; lia.
Qed.

(** Pages and bits correspond. *)
Lemma used_page user s i :
  palloc_ok s -> 0 <= i < Bitmap.bit_cnt (used_map (the_pool user s)) ->
  used user s (page_at (the_pool user s) i) = Bitmap.bit (used_map (the_pool user s)) i.
Proof.
  intros Hs Hi. pose proof (pa_pool _ Hs user) as Hp. unfold used.
  rewrite page_from_pool_ok by done. rewrite !pg_no_div. unfold pool_end, page_at, PGSIZE.
  rewrite (proj2 (Z.leb_le _ _)), (proj2 (Z.ltb_lt _ _)) by lia. cbn [andb]. f_equal.
  rewrite (Z.mul_comm 4096 i), Z.div_add by lia. lia.
Qed.

(** ** Filling pages *)

Fixpoint filled (cnt : nat) (page word : Z) (r : gmap Z (list Z)) : gmap Z (list Z) :=
  match cnt with
  | O => r
  | S cnt' => filled cnt' (page + PGSIZE) word (<[page := page_of word]> r)
  end.

Lemma filled_other cnt page word r a :
  (forall k, 0 <= k < Z.of_nat cnt -> a <> page + PGSIZE * k) -> filled cnt page word r !! a = r !! a.
Proof.
  revert page r. induction cnt as [|cnt IH]; intros page r Ha; simpl; [done|].
  rewrite IH.
  - apply lookup_insert_ne. specialize (Ha 0 ltac:(lia)). lia.
  - intros k Hk. specialize (Ha (k + 1) ltac:(lia)). lia.
Qed.

Lemma filled_page cnt page word r k :
  0 <= k < Z.of_nat cnt ->
  filled cnt page word r !! (page + PGSIZE * k) = Some (page_of word).
Proof.
  revert page r k. induction cnt as [|cnt IH]; intros page r k Hk; simpl; [lia|].
  destruct (Z.eq_dec k 0) as [->|Hne].
  - rewrite Z.mul_0_r, Z.add_0_r, filled_other; [apply lookup_insert_eq|]. unfold PGSIZE. lia.
  - replace (page + PGSIZE * k) with (page + PGSIZE + PGSIZE * (k - 1)) by lia. apply IH. lia.
Qed.

Lemma fill_pages_ok cnt page word s :
  (forall k, 0 <= k < Z.of_nat cnt -> backed s (page + PGSIZE * k)) ->
  fill_pages cnt page word s = Ok (tt, set_ram (filled cnt page word (ram s)) s).
Proof.
  revert page s. induction cnt as [|cnt IH]; intros page s Hb; simpl; [by destruct s|].
  destruct (Hb 0 ltac:(lia)) as (ws & Hws & _). rewrite Z.mul_0_r, Z.add_0_r in Hws.
  unfold bind at 1, gets_opt. rewrite Hws. mnorm. rewrite IH; [done|].
  intros k Hk. destruct (Hb (k + 1) ltac:(lia)) as (ws' & Hws' & Hl). unfold backed. cbn.
  destruct (Z.eq_dec (page + PGSIZE + PGSIZE * k) page) as [->|Hne].
  - rewrite lookup_insert_eq. eauto.
  - rewrite lookup_insert_ne by lia.
    replace (page + PGSIZE + PGSIZE * k) with (page + PGSIZE * (k + 1)) by lia. eauto.
Qed.

Lemma filled_backed cnt page word s a :
  backed s a -> backed (set_ram (filled cnt page word (ram s)) s) a.
Proof.
  intros (ws & Hws & Hl). unfold backed. cbn. revert page ws Hws Hl. generalize (ram s).
  induction cnt as [|cnt IH]; intros r page ws Hws Hl; simpl; [eauto|].
  destruct (Z.eq_dec page a) as [->|Hne].
  - eapply IH; [apply lookup_insert_eq|]. apply length_replicate.
  - eapply IH; [by rewrite lookup_insert_ne|done].
Qed.

Lemma palloc_ok_filled cnt page word s :
  palloc_ok s -> palloc_ok (set_ram (filled cnt page word (ram s)) s).
Proof.
  intros [Hp Ha Hb]. constructor.
  - intros u. by rewrite the_pool_set_ram.
  - done.
  - intros u i. rewrite the_pool_set_ram. intros Hi. by apply filled_backed, Hb.
Qed.

Lemma memset_pages_ok cnt : 0 <= cnt < 1048576 -> memset_pages cnt = Z.to_nat cnt.
Proof.
  intros Hc. unfold memset_pages, PGSIZE. rewrite u32_id by lia.
  by rewrite Z.mul_comm, Z.div_mul.
Qed.

(** A pool holds fewer than 2^20 pages. *)
Lemma pool_cnt p : pool_ok p -> 0 <= Bitmap.bit_cnt (used_map p) <= 262144.
Proof.
  intros [_ Hw _ Hl Hh]. apply Bitmap.wf_cnt in Hw. unfold pool_end, page_at, PGSIZE, PHYS_BASE in *.
  lia.
Qed.

(** ** Allocating *)

(** What the allocator does not touch. *)
Definition hw (s : mstate) : Z * Z * Z * gmap Z Z :=
  (init_ram_pages s, init_page_dir s, cr3 s, tlb s).

(** The pool with another bitmap. *)
Definition set_map (user : bool) (b : Bitmap.bitmap) (s : mstate) : mstate :=
  set_pool user (mkPool false b (base (the_pool user s))) s.

Lemma hw_set_map user b s : hw (set_map user b s) = hw s.
Proof. by destruct user. Qed.

Lemma ram_set_map user b s : ram (set_map user b s) = ram s.
Proof. apply ram_set_pool. Qed.

Lemma base_set_map user b s : base (the_pool user (set_map user b s)) = base (the_pool user s).
Proof. by destruct user. Qed.

Lemma set_map_id user s : pool_lock (the_pool user s) = false -> set_map user (used_map (the_pool user s)) s = s.
Proof. destruct s as [[] [] ? ? ? ? ?], user; cbn; by intros ->. Qed.

(** The place and the size of a pool. *)
Definition extent (u : bool) (s : mstate) : Z * Z :=
  (base (the_pool u s), Bitmap.bit_cnt (used_map (the_pool u s))).

Lemma extent_set_map user b s u :
  Bitmap.bit_cnt b = Bitmap.bit_cnt (used_map (the_pool user s)) ->
  extent u (set_map user b s) = extent u s.
Proof.
  intros Hc. unfold extent, set_map. rewrite the_pool_set. destruct u, user; cbn in *; by rewrite ?Hc.
Qed.

Lemma set_map_ok user b s :
  palloc_ok s -> Bitmap.wf b -> Bitmap.bit_cnt b = Bitmap.bit_cnt (used_map (the_pool user s)) ->
  palloc_ok (set_map user b s).
Proof.
  intros [Hp Ha Hb] Hw Hc.
  assert (forall u, base (the_pool u (set_map user b s)) = base (the_pool u s) /\
            Bitmap.bit_cnt (used_map (the_pool u (set_map user b s)))
            = Bitmap.bit_cnt (used_map (the_pool u s))) as Hsame.
  { intros u. pose proof (extent_set_map user b s u Hc) as E. unfold extent in E. by injection E. }
  assert (forall u i, page_at (the_pool u (set_map user b s)) i = page_at (the_pool u s) i) as Hat.
  { intros u i. unfold page_at. by rewrite (proj1 (Hsame u)). }
  constructor.
  - intros u. destruct (Hp u) as [Hl Hw' Hb' Hlo Hhi]. destruct (Hsame u) as [Eb Ec].
    constructor; unfold pool_end; rewrite ?Hat, ?Eb, ?Ec; try done;
      unfold set_map; rewrite the_pool_set; by destruct (Bool.eqb u user).
  - change (kernel_pool ?s) with (the_pool false s). change (user_pool ?s) with (the_pool true s).
    unfold pool_end. rewrite Hat, (proj1 (Hsame true)), (proj2 (Hsame false)). exact Ha.
  - intros u i. rewrite (proj2 (Hsame u)), Hat. unfold backed. rewrite ram_set_map. apply Hb.
Qed.

Lemma used_set_map u user b s a :
  Bitmap.bit_cnt b = Bitmap.bit_cnt (used_map (the_pool user s)) ->
  used u (set_map user b s) a
  = if Bool.eqb u user
    then page_from_pool (the_pool user s) a
         && Bitmap.bit b (pg_no a - pg_no (base (the_pool user s)))
    else used u s a.
Proof.
  intros Hc. unfold used, set_map. rewrite the_pool_set.
  destruct (Bool.eqb u user) eqn:E; [|done]. unfold page_from_pool. cbn. by rewrite Hc.
Qed.

(** [cnt] pages from [first] on belong to the pool, all allocated ([v] true)
    or all free. *)
Definition page_group (v user : bool) (s : mstate) (first cnt : Z) : Prop :=
  pg_ofs first = 0 /\
  forall a, in_pages first cnt a = true ->
    page_from_pool (the_pool user s) a = true /\ used user s a = v.


Lemma page_at_no p i : pool_ok p -> pg_no (page_at p i) - pg_no (base p) = i.
Proof.
  intros Hp. rewrite !pg_no_div. unfold page_at, PGSIZE. rewrite (Z.mul_comm 4096 i), Z.div_add; lia.
Qed.

Lemma page_at_ofs p i : pool_ok p -> pg_ofs (page_at p i) = 0.
Proof.
  intros Hp. rewrite pg_ofs_mod. unfold page_at, PGSIZE. rewrite Z.mul_comm, Z.mod_add by lia.
  apply (po_base _ Hp).
Qed.

(** The index of a page in its pool. *)
Lemma pool_index p a :
  pool_ok p -> let i := pg_no a - pg_no (base p) in
  page_at p i <= a < page_at p (i + 1).
Proof.
  intros Hp i. unfold i, page_at, PGSIZE. pose proof (pool_base_div p Hp). rewrite (pg_no_div a).
  pose proof (Z.div_mod a 4096 ltac:(lia)). pose proof (Z.mod_pos_bound a 4096 ltac:(lia)). lia.
Qed.

Lemma in_pages_index p i cnt a :
  pool_ok p ->
  in_pages (page_at p i) cnt a
  = ((i <=? pg_no a - pg_no (base p)) && (pg_no a - pg_no (base p) <? i + cnt)).
Proof.
  intros Hp. pose proof (pool_index p a Hp) as Hi. unfold in_pages, page_at, PGSIZE in *.
  f_equal; apply eq_true_iff_eq; rewrite ?Z.leb_le, ?Z.ltb_lt; lia.
Qed.

Lemma page_group_ok v user s i cnt :
  palloc_ok s -> let p := the_pool user s in
  0 <= i -> i + cnt <= Bitmap.bit_cnt (used_map p) ->
  page_group v user s (page_at p i) cnt <-> Bitmap.group (used_map p) i cnt v.
Proof.
  intros Hs p Hi Hc. pose proof (pa_pool _ Hs user) as Hp. split.
  - intros [_ Hf] j Hj. unfold p in *. rewrite <- (used_page user) by (done || lia). apply Hf.
    unfold in_pages, page_at, PGSIZE. rewrite (proj2 (Z.leb_le _ _)), (proj2 (Z.ltb_lt _ _)) by lia. done.
  - intros Hg. split.
    { by apply page_at_ofs. }
    intros a Ha. unfold used. fold p. pose proof Ha as Hx. rewrite in_pages_index in Hx by done.
    apply andb_true_iff in Hx as [H1 H2]. rewrite Z.leb_le in H1. rewrite Z.ltb_lt in H2.
    rewrite Hg by lia. enough (page_from_pool p a = true) as -> by done.
    rewrite page_from_pool_ok by done. pose proof (pool_index p a Hp).
    unfold pool_end, page_at, PGSIZE in *. lia.
Qed.

(** Every group starts at some index of the pool. *)
Lemma page_group_index v user s first cnt :
  palloc_ok s -> 0 < cnt -> page_group v user s first cnt ->
  exists i, first = page_at (the_pool user s) i /\ 0 <= i /\
    i + cnt <= Bitmap.bit_cnt (used_map (the_pool user s)).
Proof.
  intros Hs Hc [Ho Hf]. pose proof (pa_pool _ Hs user) as Hp. set (p := the_pool user s) in *.
  assert (forall a, in_pages first cnt a = true -> base p <= a < pool_end p) as Hin.
  { intros a Ha. destruct (Hf a Ha) as [H _]. rewrite page_from_pool_ok in H by done.
    apply andb_true_iff in H as [H1 H2]. lia. }
  pose proof (pool_base_div p Hp) as Hb. rewrite pg_ofs_mod in Ho.
  pose proof (Z.div_mod first 4096 ltac:(lia)).
  exists (first / 4096 - pg_no (base p)). unfold in_pages, pool_end, page_at, PGSIZE in *.
  assert (base p <= first) as H1 by (apply Hin; lia).
  assert (first + 4096 * cnt - 1 < base p + 4096 * Bitmap.bit_cnt (used_map p)) as H2 by (apply Hin; lia).
  lia.
Qed.

(** The search under the pool's lock. *)
Lemma locked_scan user cnt s :
  palloc_ok s -> 0 <= cnt ->
  let b := used_map (the_pool user s) in
  exists r b',
    (forall A (k : Z -> M mstate A),
       (pool_acquire user ;;; i <- on_map user (Bitmap.bitmap_scan_and_flip 0 cnt false) ;;
        pool_release user ;;; k i) s = k r (set_map user b' s)) /\
    Bitmap.wf b' /\ Bitmap.bit_cnt b' = Bitmap.bit_cnt b /\
    Bitmap.scan_result b 0 cnt false r /\ (r = Bitmap.BITMAP_ERROR -> b' = b) /\
    forall j, 0 <= j -> Bitmap.bit b' j
      = (negb (r =? Bitmap.BITMAP_ERROR) && ((r <=? j) && (j <? r + cnt))) || Bitmap.bit b j.
Proof.
  intros Hs Hc b. pose proof (pa_pool _ Hs user) as Hp. pose proof (pool_cnt _ Hp) as Hn. fold b in Hn.
  destruct (Bitmap.bitmap_scan_and_flip_run b 0 cnt false) as (r & b' & Hrun & Hw & Hcnt & Hres & He & Hb);
    [apply (po_wf _ Hp)|lia|done|].
  exists r, b'. split.
  - intros A k. unfold pool_acquire, pool_release. mnorm. rewrite (po_lock _ Hp). cbn [negb]. mnorm.
    unfold on_map. unfold bind at 1. rewrite the_pool_set, Bool.eqb_reflx. cbn [used_map].
    fold b. rewrite Hrun. mnorm. rewrite !the_pool_set, Bool.eqb_reflx. cbn. mnorm.
    unfold set_map. f_equal. by destruct user.
  - split; [done|]. split; [done|]. split; [done|]. split; [done|]. intros j Hj. rewrite Hb by done.
    by destruct (negb _ && _).
Qed.

(** [s'] is [s] with the pages taken from a pool, and cleared if [zero]. *)
Record got (user zero : bool) (cnt first : Z) (s s' : mstate) : Prop := {
  got_ok : palloc_ok s';
  got_hw : hw s' = hw s;
  got_extent : forall u, extent u s' = extent u s;
  got_bounds : PHYS_BASE <= first /\ first + PGSIZE * cnt <= 4294967296;
  got_free : page_group false user s first cnt;
  got_used : forall u a, used u s' a = (Bool.eqb u user && in_pages first cnt a) || used u s a;
  got_other : forall a, in_pages first cnt a = false -> ram s' !! a = ram s !! a;
  got_pages : forall k, 0 <= k < cnt ->
    ram s' !! (first + PGSIZE * k)
    = if zero then Some (page_of 0) else ram s !! (first + PGSIZE * k)
}.

(** The pages after a successful search, before they are cleared. *)
Lemma scan_got user cnt r b' s :
  let p := the_pool user s in
  palloc_ok s -> 0 < cnt -> 0 <= r -> r + cnt <= Bitmap.bit_cnt (used_map p) ->
  Bitmap.wf b' -> Bitmap.bit_cnt b' = Bitmap.bit_cnt (used_map p) ->
  Bitmap.group (used_map p) r cnt false ->
  (forall j, 0 <= j -> Bitmap.bit b' j = ((r <=? j) && (j <? r + cnt)) || Bitmap.bit (used_map p) j) ->
  got user false cnt (page_at p r) s (set_map user b' s).
Proof.
  intros p Hs Hc Hr Hrc Hw Hbc Hg Hb. pose proof (pa_pool _ Hs user) as Hp. fold p in Hp.
  assert (forall a, in_pages (page_at p r) cnt a = true -> page_from_pool p a = true) as Hfrom.
  { intros a Ha. by apply (page_group_ok false user s r cnt Hs). }
  constructor; rewrite ?ram_set_map; try done.
  - by apply set_map_ok.
  - apply hw_set_map.
  - intros u. by apply extent_set_map.
  - pose proof (po_low _ Hp). pose proof (po_high _ Hp). unfold pool_end, page_at, PGSIZE in *. lia.
  - by apply page_group_ok.
  - intros u a. rewrite used_set_map by done. fold p. destruct (Bool.eqb u user) eqn:E; [|done].
    apply Bool.eqb_prop in E as ->. unfold used. fold p. cbn [andb].
    destruct (page_from_pool p a) eqn:Ef; cbn [andb].
    + rewrite Hb, in_pages_index by
        (try done; rewrite page_from_pool_ok in Ef by done; pose proof (pool_index p a Hp);
         unfold page_at, PGSIZE in *; lia). done.
    + rewrite orb_false_r. symmetry. apply not_true_iff_false. intros Hi.
      apply Hfrom in Hi. congruence.
Qed.

Lemma pool_pages_backed user s i cnt k :
  palloc_ok s -> let p := the_pool user s in
  0 <= i -> i + cnt <= Bitmap.bit_cnt (used_map p) -> 0 <= k < cnt ->
  backed s (page_at p i + PGSIZE * k).
Proof.
  intros Hs p Hi Hc Hk. replace (page_at p i + PGSIZE * k) with (page_at p (i + k)) by (unfold page_at; lia).
  apply (pa_backed _ Hs). unfold p in *. lia.
Qed.

Lemma free_group_backed user s first cnt k :
  palloc_ok s -> page_group false user s first cnt -> 0 <= k < cnt -> backed s (first + PGSIZE * k).
Proof.
  intros Hs Hf Hk.
  destruct (page_group_index false user s first cnt Hs ltac:(lia) Hf) as (i & -> & Hi & Hc).
  by apply pool_pages_backed with cnt.
Qed.

Lemma in_pages_spec first cnt a : in_pages first cnt a = true <-> first <= a < first + 4096 * cnt.
Proof. unfold in_pages, PGSIZE. lia. Qed.

Lemma got_zero user cnt first s s' :
  palloc_ok s -> 0 < cnt -> got user false cnt first s s' ->
  exists s'', fill_pages (memset_pages cnt) first 0 s' = Ok (tt, s'') /\ got user true cnt first s s''.
Proof.
  intros Hs Hc Hg. pose proof (got_bounds _ _ _ _ _ _ Hg) as Hbnd. unfold PHYS_BASE, PGSIZE in Hbnd.
  rewrite memset_pages_ok by lia. eexists. split.
  - apply fill_pages_ok. intros k Hk. destruct (free_group_backed user s first cnt k) as (ws & Hws & Hl);
      [done|apply Hg|lia|]. exists ws. rewrite (got_pages _ _ _ _ _ _ Hg) by lia. done.
  - destruct Hg as [Hok Hhw Hex Hb Hf Hu Ho Hpg]. constructor; try done.
    + by apply palloc_ok_filled.
    + intros a Ha. cbn. rewrite filled_other; [by apply Ho|]. intros k Hk Ea.
      apply not_true_iff_false in Ha. apply Ha, in_pages_spec. unfold PGSIZE in Ea. lia.
    + intros k Hk. cbn. apply filled_page. lia.
Qed.

Lemma got_group user zero cnt first s s' :
  got user zero cnt first s s' -> page_group true user s' first cnt.
Proof.
  intros Hg. split; [apply Hg|]. intros a Ha.
  assert (used user s' a = true) as Hu by (by rewrite (got_used _ _ _ _ _ _ Hg), Ha, Bool.eqb_reflx).
  split; [|done]. unfold used in Hu. by apply andb_true_iff in Hu as [? _].
Qed.

(** The whole function. *)
Lemma palloc_get_multiple_run flags cnt s :
  palloc_ok s -> 0 < cnt ->
  let user := has_flag flags PAL_USER in
  (exists first s', palloc_get_multiple flags cnt s = Ok (first, s') /\
     got user (has_flag flags PAL_ZERO) cnt first s s' /\
     forall first', page_group false user s first' cnt -> first <= first') \/
  ((forall first, ~ page_group false user s first cnt) /\
   palloc_get_multiple flags cnt s
   = if has_flag flags PAL_ASSERT then Err Kernel_panic else Ok (NULL, s)).
Proof.
  intros Hs Hc user. pose proof (pa_pool _ Hs user) as Hp. pose proof (pool_cnt _ Hp) as Hn.
  unfold palloc_get_multiple. rewrite (proj2 (Z.eqb_neq cnt 0)) by lia. fold user.
  destruct (locked_scan user cnt s Hs ltac:(lia)) as (r & b' & Hrun & Hw & Hbc & Hres & He & Hb).
  rewrite Hrun, bind_gets_l, base_set_map.
  destruct Hres as [[-> Hno]|(H1 & H2 & Hg & Hmin)].
  - right. rewrite (He eq_refl), set_map_id by apply (po_lock _ Hp). split.
    2:{ rewrite Z.eqb_refl. cbn. by destruct (has_flag flags PAL_ASSERT). }
    intros first Hf. destruct (page_group_index false user s first cnt Hs Hc Hf) as (i & -> & Hi & Hic).
    apply (Hno i Hi Hic). by apply page_group_ok.
  - left. assert ((r =? Bitmap.BITMAP_ERROR) = false) as Er.
    { apply Z.eqb_neq. unfold Bitmap.BITMAP_ERROR. lia. }
    rewrite Er in *. cbn [negb andb] in Hb.
    pose proof (scan_got user cnt r b' s Hs Hc H1 H2 Hw Hbc Hg Hb) as Hgot.
    pose proof (got_bounds _ _ _ _ _ _ Hgot) as Hbnd. unfold page_at, PHYS_BASE, PGSIZE in Hbnd.
    rewrite u32_id by (unfold PGSIZE; lia). fold (page_at (the_pool user s) r).
    rewrite (proj2 (Z.eqb_neq _ NULL)) by (unfold NULL, page_at, PGSIZE; lia). cbn [negb].
    assert (forall first', page_group false user s first' cnt -> page_at (the_pool user s) r <= first') as Hlow.
    { intros first' Hf. destruct (page_group_index false user s first' cnt Hs Hc Hf) as (i & -> & Hi & Hic).
      destruct (Z.lt_ge_cases i r) as [Hlt|]; [|unfold page_at, PGSIZE; lia].
      destruct (Hmin i ltac:(lia)). by apply page_group_ok. }
    destruct (has_flag flags PAL_ZERO).
    + destruct (got_zero user cnt _ s _ Hs Hc Hgot) as (s'' & Hfill & Hg'). mrun Hfill. eauto.
    + rewrite bind_ret_l. eauto.
Qed.

(** ** Freeing *)

(** [s'] is [s] with the pages given back to their pool. *)
Record freed (user : bool) (cnt first : Z) (s s' : mstate) : Prop := {
  fr_ok : palloc_ok s';
  fr_hw : hw s' = hw s;
  fr_used : forall u a, used u s' a = negb (Bool.eqb u user && in_pages first cnt a) && used u s a;
  fr_other : forall a, in_pages first cnt a = false -> ram s' !! a = ram s !! a;
  fr_pages : forall k, 0 <= k < cnt -> ram s' !! (first + PGSIZE * k) = Some (page_of FREED)
}.

(** The pool that [palloc_free_multiple] chooses. *)
Lemma from_one_pool user s a :
  palloc_ok s -> page_from_pool (the_pool user s) a = true ->
  (if page_from_pool (kernel_pool s) a then ret false
   else if page_from_pool (user_pool s) a then ret true else fail Kernel_panic)
  = ret (S := mstate) user.
Proof.
  intros Hs Hf. pose proof (pa_apart _ Hs) as Ha.
  pose proof (pa_pool _ Hs false) as Hk. cbn in Hk. destruct user; cbn in Hf; [|by rewrite Hf].
  rewrite Hf. enough (page_from_pool (kernel_pool s) a = false) as -> by done.
  rewrite page_from_pool_ok in Hf by apply (pa_pool _ Hs true).
  rewrite page_from_pool_ok by done. unfold pool_end in *. lia.
Qed.

(** Freeing pages of a pool, up to the check of the bitmap. *)
Lemma free_prefix user s i cnt :
  palloc_ok s -> let p := the_pool user s in
  0 <= i -> 0 < cnt -> i + cnt <= Bitmap.bit_cnt (used_map p) ->
  palloc_free_multiple (page_at p i) cnt s
  = (a <- on_map user (Bitmap.bitmap_all i cnt) ;; ASSERT a ;;;
     on_map user (Bitmap.bitmap_set_multiple i cnt false))
      (set_ram (filled (Z.to_nat cnt) (page_at p i) FREED (ram s)) s).
Proof.
  intros Hs p Hi Hc Hic. pose proof (pa_pool _ Hs user) as Hp. fold p in Hp.
  pose proof (po_low _ Hp) as Hl. pose proof (po_high _ Hp) as Hh. pose proof (pool_cnt _ Hp) as Hn.
  unfold palloc_free_multiple. rewrite page_at_ofs by done. mnorm.
  rewrite (proj2 (Z.eqb_neq _ NULL)) by (unfold NULL, page_at, PGSIZE, PHYS_BASE in *; lia).
  rewrite (proj2 (Z.eqb_neq cnt 0)) by lia. cbn [orb]. mnorm.
  rewrite (from_one_pool user s) by (rewrite ?page_from_pool_ok by done;
    unfold pool_end, page_at, PGSIZE in *; fold p; rewrite ?page_from_pool_ok by done; done || lia).
  mnorm. fold p. rewrite page_at_no, u32_id, memset_pages_ok by (done || lia).
  rewrite (bind_ok _ _ _ _ _ (fill_pages_ok (Z.to_nat cnt) (page_at p i) FREED s
    ltac:(intros k Hk; apply (pool_pages_backed user s i cnt k Hs); unfold p in *; lia))).
  done.
Qed.

(** Freeing allocated pages succeeds and frees exactly them. *)
Lemma palloc_free_multiple_run user s first cnt :
  palloc_ok s -> 0 < cnt -> page_group true user s first cnt ->
  exists s', palloc_free_multiple first cnt s = Ok (tt, s') /\ freed user cnt first s s'.
Proof.
  intros Hs Hc Hg. destruct (page_group_index true user s first cnt Hs Hc Hg) as (i & -> & Hi & Hic).
  pose proof (pa_pool _ Hs user) as Hp. pose proof (po_wf _ Hp) as Hw.
  rewrite free_prefix by done. set (s1 := set_ram _ s). pose proof (palloc_ok_filled (Z.to_nat cnt)
    (page_at (the_pool user s) i) FREED s Hs) as Hs1. fold s1 in Hs1.
  assert (the_pool user s1 = the_pool user s) as E1 by apply the_pool_set_ram.
  apply page_group_ok in Hg; [|done..]. set (b := used_map (the_pool user s)) in *.
  assert (Bitmap.in_range b i cnt) as Hr by (unfold Bitmap.in_range; lia).
  unfold Bitmap.bitmap_all, on_map. unfold bind at 1. rewrite E1. fold b.
  rewrite (bind_ok _ _ _ _ _ (Bitmap.bitmap_contains_ok b i cnt false Hw Hr)). unfold ret at 1.
  rewrite <- (Z2Nat.id cnt) in Hg by lia. apply (Bitmap.range_group b i (Z.to_nat cnt) true) in Hg.
  cbn [negb] in Hg. rewrite Hg. mnorm. rewrite the_pool_set, Bool.eqb_reflx. cbn [used_map base pool_lock].
  destruct (Bitmap.bitmap_set_multiple_ok b i cnt false Hw Hr) as (b' & Hrun & Hw' & Hc' & Hb').
  rewrite Hrun. exists (set_map user b' s1). split.
  { unfold set_map. rewrite E1. do 2 f_equal. rewrite (po_lock _ Hp). by destruct user. }
  constructor.
  - apply set_map_ok; [done..|]. by rewrite E1.
  - by rewrite hw_set_map.
  - intros u a. rewrite used_set_map by (rewrite E1; done). rewrite E1.
    destruct (Bool.eqb u user) eqn:E; cbn [andb negb].
    2:{ unfold used, s1. by rewrite the_pool_set_ram. }
    apply Bool.eqb_prop in E as ->. unfold used. destruct (page_from_pool _ a) eqn:Ef; cbn [andb].
    2:{ by rewrite andb_false_r. }
    pose proof (pool_index _ a Hp) as Hx. rewrite page_from_pool_ok in Ef by done.
    rewrite Hb', in_pages_index by (done || (unfold page_at, PGSIZE in *; lia)).
    by destruct ((i <=? _) && _).
  - intros a Ha. rewrite ram_set_map. cbn. rewrite filled_other; [done|]. intros k Hk Ea.
    apply not_true_iff_false in Ha. apply Ha, in_pages_spec. unfold PGSIZE in Ea. lia.
  - intros k Hk. rewrite ram_set_map. cbn. apply filled_page. lia.
Qed.

(** Freeing a range of a pool in which some page is free fails the
    assertion. *)
Lemma palloc_double_free user s i cnt j :
  palloc_ok s -> let p := the_pool user s in
  0 <= i -> i <= j < i + cnt -> i + cnt <= Bitmap.bit_cnt (used_map p) ->
  Bitmap.bit (used_map p) j = false ->
  palloc_free_multiple (page_at p i) cnt s = Err Assertion_failed.
Proof.
  intros Hs p Hi Hj Hic Hb. pose proof (pa_pool _ Hs user) as Hp. pose proof (po_wf _ Hp) as Hw.
  unfold p. rewrite free_prefix by (fold p; done || lia). unfold Bitmap.bitmap_all, on_map. unfold bind at 1.
  rewrite the_pool_set_ram. fold p. fold p in Hw.
  assert (Bitmap.in_range (used_map p) i cnt) as Hr by (unfold Bitmap.in_range; lia).
  rewrite (bind_ok _ _ _ _ _ (Bitmap.bitmap_contains_ok (used_map p) i cnt false Hw Hr)). unfold ret at 1.
  destruct (negb _) eqn:E; [|done].
  apply (Bitmap.range_group (used_map p) i (Z.to_nat cnt) true) in E. rewrite E in Hb by lia. done.
Qed.

(** ** Initialization *)

(** The page is in memory, with any 32-bit words. *)
Definition ram_page (s : mstate) (page : Z) : Prop :=
  exists ws, ram s !! page = Some ws /\ length ws = 1024%nat /\ Forall in_u32 ws.

(** The pages that hold a pool's bitmap. *)
Definition bm_pages (page_cnt : Z) : Z := (8 + 4 * ((page_cnt + 31) / 32) + 4095) / 4096.

Lemma bm_pages_ok n :
  1 <= n <= 262144 ->
  u32 (Bitmap.bitmap_buf_size n + PGSIZE - 1) / PGSIZE = bm_pages n /\ 1 <= bm_pages n <= n /\
  Bitmap.bitmap_buf_size (n - bm_pages n) <= bm_pages n * 4096 /\
  Bitmap.elem_cnt (n - bm_pages n) <= bm_pages n * 1024 - 2.
Proof.
  intros Hn. assert (1 <= bm_pages n <= n) as Hb.
  { unfold bm_pages. pose proof (Z.div_mod (n + 31) 32 ltac:(lia)). pose proof (Z.mod_pos_bound (n + 31) 32 ltac:(lia)).
    set (q := (n + 31) / 32) in *. pose proof (Z.div_mod (8 + 4 * q + 4095) 4096 ltac:(lia)).
    pose proof (Z.mod_pos_bound (8 + 4 * q + 4095) 4096 ltac:(lia)). lia. }
  assert (forall m, 0 <= m <= n -> Bitmap.elem_cnt m = (m + 31) / 32 /\
            Bitmap.bitmap_buf_size m = 8 + 4 * ((m + 31) / 32) /\ (m + 31) / 32 <= (n + 31) / 32 /\
            0 <= (m + 31) / 32 <= 8193) as Hm.
  { intros m Hm. unfold Bitmap.bitmap_buf_size, Bitmap.byte_cnt, Bitmap.elem_cnt, Bitmap.ELEM_BITS.
    replace (m + 32 - 1) with (m + 31) by lia. rewrite (u32_id (m + 31)) by lia.
    assert (0 <= (m + 31) / 32 <= 8193) by (split; [apply Z.div_pos; lia|apply Z.div_le_upper_bound; lia]).
    rewrite !u32_id by (rewrite ?u32_id; lia).
    split; [done|]. split; [done|]. split; [apply Z.div_le_mono; lia|done]. }
  destruct (Hm n ltac:(lia)) as (_ & E1 & _ & Hq). destruct (Hm (n - bm_pages n) ltac:(lia)) as (E2 & E3 & Hle & _).
  assert (8 + 4 * ((n + 31) / 32) <= 4096 * bm_pages n) as Hfit.
  { unfold bm_pages. set (q := (n + 31) / 32). pose proof (Z.div_mod (8 + 4 * q + 4095) 4096 ltac:(lia)).
    pose proof (Z.mod_pos_bound (8 + 4 * q + 4095) 4096 ltac:(lia)). lia. }
  split; [|split; [done|split; [rewrite E3; lia|rewrite E2; lia]]].
  rewrite E1. unfold PGSIZE, bm_pages. rewrite u32_id by lia. f_equal. lia.
Qed.

Lemma take_pages_ok cnt page s :
  (forall k, 0 <= k < Z.of_nat cnt -> ram_page s (page + PGSIZE * k)) ->
  exists ws r, take_pages cnt page s = Ok (ws, set_ram r s) /\ length ws = (1024 * cnt)%nat /\
    Forall in_u32 ws /\
    forall a, page + PGSIZE * Z.of_nat cnt <= a \/ a < page -> r !! a = ram s !! a.
Proof.
  revert page s. induction cnt as [|cnt IH]; intros page s Hb; simpl.
  - exists [], (ram s). split; [by destruct s|]. done.
  - destruct (Hb 0 ltac:(lia)) as (ws & Hws & Hl & Hu). rewrite Z.mul_0_r, Z.add_0_r in Hws.
    unfold bind at 1, gets_opt. rewrite Hws. mnorm.
    destruct (IH (page + PGSIZE) (set_ram (delete page (ram s)) s)) as (ws' & r & Hr & Hl' & Hu' & Ho).
    { intros k Hk. destruct (Hb (k + 1) ltac:(lia)) as (ws' & Hws' & H'). exists ws'. split; [|done].
      cbn. rewrite lookup_delete_ne by (unfold PGSIZE; lia). rewrite <- Hws'. f_equal. lia. }
    mrun Hr. exists (ws ++ ws'), r. split; [done|]. split; [rewrite length_app; lia|].
    split; [by apply Forall_app|]. intros a Ha. rewrite Ho by (unfold PGSIZE in *; lia). cbn.
    apply lookup_delete_ne. unfold PGSIZE in *. lia.
Qed.

(** The state that [init_pool] leaves. *)
Record pool_made (user : bool) (base_ page_cnt : Z) (s s' : mstate) : Prop := {
  pm_ok : pool_ok (the_pool user s');
  pm_base : base (the_pool user s') = base_ + PGSIZE * bm_pages page_cnt;
  pm_cnt : Bitmap.bit_cnt (used_map (the_pool user s')) = page_cnt - bm_pages page_cnt;
  pm_free : forall j, 0 <= j < page_cnt - bm_pages page_cnt ->
    Bitmap.bit (used_map (the_pool user s')) j = false;
  pm_other : the_pool (negb user) s' = the_pool (negb user) s;
  pm_hw : hw s' = hw s;
  pm_ram : forall a, base_ + PGSIZE * bm_pages page_cnt <= a \/ a < base_ -> ram s' !! a = ram s !! a
}.

Lemma init_pool_run user base_ cnt s :
  1 <= cnt <= 262144 -> base_ mod 4096 = 0 -> PHYS_BASE <= base_ -> base_ + PGSIZE * cnt < 4294967296 ->
  (forall k, 0 <= k < cnt -> ram_page s (base_ + PGSIZE * k)) ->
  exists s', init_pool user base_ cnt s = Ok (tt, s') /\ pool_made user base_ cnt s s'.
Proof.
  intros Hc Ha Hlo Hhi Hb. destruct (bm_pages_ok cnt Hc) as (Eb & Hn & Hsz & Hel).
  unfold PGSIZE, PHYS_BASE in *. unfold init_pool, PGSIZE. rewrite Eb, Z.gtb_ltb, (proj2 (Z.ltb_ge _ _)) by lia.
  destruct (take_pages_ok (Z.to_nat (bm_pages cnt)) base_ s) as (ws & r & Hr & Hl & Hu & Ho).
  { intros k Hk. apply Hb. lia. }
  unfold PGSIZE in Ho. rewrite Z2Nat.id in Ho by lia.
  mrun Hr. rewrite (u32_id (bm_pages cnt * 4096)) by lia.
  destruct (Bitmap.bitmap_create_in_buf_ok (drop 2 ws) (cnt - bm_pages cnt) (bm_pages cnt * 4096))
    as (b & -> & Hw & Hbc & Hbits); [lia|rewrite length_drop; lia|by apply Forall_drop|lia|].
  rewrite (u32_id (base_ + bm_pages cnt * 4096)) by lia.
  eexists. split; [done|].
  assert (forall A (f : pool -> A), f (the_pool user (set_pool user (mkPool false b (base_ + bm_pages cnt * 4096))
    (set_ram r s))) = f (mkPool false b (base_ + bm_pages cnt * 4096))) as Hp.
  { intros A f. by rewrite the_pool_set, Bool.eqb_reflx. }
  constructor; rewrite ?Hp, ?ram_set_pool; cbn [base used_map ram set_ram]; unfold PGSIZE; try done.
  - constructor; cbn; [done|done| | |].
    + rewrite Z.mod_add by lia. done.
    + unfold PHYS_BASE. lia.
    + unfold pool_end, page_at, PGSIZE. cbn. lia.
  - lia.
  - by destruct user.
  - by destruct user.
Qed.

(** What the loader leaves: [n] pages of memory from physical address 0. *)
Definition loaded (s : mstate) (n : Z) : Prop :=
  init_ram_pages s = n /\ 258 <= n < 262144 /\
  forall i, 256 <= i < n -> ram_page s (PHYS_BASE + PGSIZE * i).

(** The sizes of the two pools. *)
Definition user_pages (n limit : Z) : Z := Z.min ((n - 256) / 2) limit.
Definition kernel_pages (n limit : Z) : Z := n - 256 - user_pages n limit.

Lemma ram_page_backed s a : ram_page s a -> backed s a.
Proof. intros (ws & H1 & H2 & _). by exists ws. Qed.

(** [palloc_init] divides the free memory into the two pools. *)
Lemma palloc_init_run s n limit :
  loaded s n -> 1 <= limit ->
  exists s1 s', palloc_init limit s = Ok (tt, s') /\
    pool_made false (PHYS_BASE + PGSIZE * 256) (kernel_pages n limit) s s1 /\
    pool_made true (PHYS_BASE + PGSIZE * (256 + kernel_pages n limit)) (user_pages n limit) s1 s'.
Proof.
  intros (En & Hn & Hram) Hl. unfold palloc_init, ptov. cbn -[init_pool u32 PGSIZE]. mnorm. rewrite En.
  assert (0 <= (n - 256) / 2 <= n - 257) as Hhalf.
  { pose proof (Z.div_mod (n - 256) 2 ltac:(lia)). pose proof (Z.mod_pos_bound (n - 256) 2 ltac:(lia)). lia. }
  assert (1 <= (n - 256) / 2) as Hone by (apply Z.div_le_lower_bound; lia).
  change (u32 (1024 * 1024 + PHYS_BASE)) with (PHYS_BASE + PGSIZE * 256).
  unfold kernel_pages, user_pages, PGSIZE, PHYS_BASE in *.
  rewrite (u32_id (n * 4096)), (proj2 (Z.ltb_lt _ _)) by lia. mnorm.
  rewrite (u32_id (n * 4096 + _)) by lia.
  replace (u32 (n * 4096 + 3221225472 - (3221225472 + 4096 * 256)) / 4096) with (n - 256)
    by (rewrite u32_id by lia; replace (n * 4096 + 3221225472 - (3221225472 + 4096 * 256)) with ((n - 256) * 4096) by lia;
        by rewrite Z.div_mul).
  replace (if (n - 256) / 2 >? limit then limit else (n - 256) / 2) with (Z.min ((n - 256) / 2) limit)
    by (rewrite Z.gtb_ltb; destruct (Z.ltb_spec limit ((n - 256) / 2)); lia).
  set (u := Z.min ((n - 256) / 2) limit). assert (1 <= u <= n - 257) as Hu by (unfold u; lia).
  destruct (init_pool_run false (3221225472 + 4096 * 256) (n - 256 - u) s) as (s1 & Hr1 & H1);
    unfold PGSIZE, PHYS_BASE; [lia|done|lia|lia| |].
  { intros k Hk. replace (3221225472 + 4096 * 256 + 4096 * k) with (3221225472 + 4096 * (256 + k)) by lia.
    apply Hram. lia. }
  mrun Hr1. rewrite (u32_id (3221225472 + _ + _)) by lia.
  replace (3221225472 + 4096 * 256 + (n - 256 - u) * 4096) with (3221225472 + 4096 * (256 + (n - 256 - u))) by lia.
  destruct (bm_pages_ok (n - 256 - u) ltac:(lia)) as (_ & Hbm & _).
  destruct (init_pool_run true (3221225472 + 4096 * (256 + (n - 256 - u))) u s1) as (s2 & Hr2 & H2);
    unfold PGSIZE, PHYS_BASE; [lia| |lia|lia| |].
  { replace (_ + _) with ((786432 + (256 + (n - 256 - u))) * 4096) by lia. by apply Z.mod_mul. }
  { intros k Hk. destruct (Hram (256 + (n - 256 - u) + k) ltac:(lia)) as (ws & Hws & H'). exists ws.
    rewrite (pm_ram _ _ _ _ _ H1) by (unfold PGSIZE; lia). split; [|done]. rewrite <- Hws. f_equal. lia. }
  exists s1, s2. done.
Qed.

Lemma palloc_init_inv s n limit s1 s' :
  loaded s n -> 1 <= limit ->
  pool_made false (PHYS_BASE + PGSIZE * 256) (kernel_pages n limit) s s1 ->
  pool_made true (PHYS_BASE + PGSIZE * (256 + kernel_pages n limit)) (user_pages n limit) s1 s' ->
  palloc_ok s' /\ (forall a, allocated s' a = false) /\ hw s' = hw s.
Proof.
  intros (_ & Hn & Hram) Hl H1 H2.
  assert (1 <= user_pages n limit <= n - 257) as Hu.
  { unfold user_pages. assert (1 <= (n - 256) / 2) by (apply Z.div_le_lower_bound; lia).
    assert ((n - 256) / 2 <= n - 257) by (apply Z.div_le_upper_bound; lia). lia. }
  destruct (bm_pages_ok (kernel_pages n limit) ltac:(unfold kernel_pages; lia)) as (_ & Hbk & _).
  destruct (bm_pages_ok (user_pages n limit) ltac:(lia)) as (_ & Hbu & _).
  pose proof (pm_other _ _ _ _ _ H2) as Ek. cbn [negb] in Ek.
  destruct H1 as [Hok1 Hb1 Hc1 Hf1 _ Hhw1 Hr1], H2 as [Hok2 Hb2 Hc2 Hf2 _ Hhw2 Hr2].
  rewrite <- Ek in *. unfold PHYS_BASE, PGSIZE in *.
  assert (palloc_ok s') as Hok.
  { constructor.
    - by intros [].
    - change (kernel_pool s') with (the_pool false s'). change (user_pool s') with (the_pool true s').
      unfold pool_end, page_at, PGSIZE. lia.
    - intros u i Hi. apply ram_page_backed.
      assert (exists k, 256 <= k < n /\ page_at (the_pool u s') i = 3221225472 + 4096 * k /\
                ram s' !! (3221225472 + 4096 * k) = ram s !! (3221225472 + 4096 * k)) as (k & Hk & Ea & Er).
      { unfold page_at, PGSIZE, kernel_pages in *. destruct u.
        - exists (256 + (n - 256 - user_pages n limit) + bm_pages (user_pages n limit) + i).
          split; [lia|]. split; [lia|]. rewrite Hr2, Hr1 by lia. done.
        - exists (256 + bm_pages (n - 256 - user_pages n limit) + i).
          split; [lia|]. split; [lia|]. rewrite Hr2, Hr1 by lia. done. }
      destruct (Hram k Hk) as (ws & Hws & H'). exists ws. rewrite Ea, Er. done. }
  split; [done|]. split; [|congruence].
  assert (forall u a, used u s' a = false) as Hnone.
  { intros u a. unfold used. destruct (page_from_pool _ a) eqn:E; [|done]. cbn [andb].
    pose proof (pa_pool _ Hok u) as Hp. pose proof (pool_index _ a Hp) as Hi.
    rewrite page_from_pool_ok in E by done. unfold pool_end, page_at, PGSIZE in *.
    destruct u; [apply Hf2|apply Hf1]; lia. }
  intros a. unfold allocated. by rewrite !Hnone.
Qed.

(** ** Properties *)

(** [palloc_init] divides the memory from 1 MB on into the two pools: the
    user pool gets half of it, but not more than the limit; the pools do not
    overlap; the first pages of each hold its bitmap, every other page can
    be allocated, and none is allocated yet. *)
Theorem palloc_init_ok s n limit :
  loaded s n -> 1 <= limit ->
  let u := user_pages n limit in
  let k := kernel_pages n limit in
  exists s', palloc_init limit s = Ok (tt, s') /\ palloc_ok s' /\
    (forall a, allocated s' a = false) /\
    (forall a, page_from_pool (kernel_pool s') a
       = in_pages (PHYS_BASE + PGSIZE * (256 + bm_pages k)) (k - bm_pages k) a) /\
    (forall a, page_from_pool (user_pool s') a
       = in_pages (PHYS_BASE + PGSIZE * (256 + k + bm_pages u)) (u - bm_pages u) a).
Proof.
  intros Hs Hl u k. destruct (palloc_init_run s n limit Hs Hl) as (s1 & s' & Hr & H1 & H2).
  destruct (palloc_init_inv s n limit s1 s' Hs Hl H1 H2) as (Hok & Hnone & _).
  exists s'. split; [done|]. split; [done|]. split; [done|].
  pose proof (pm_other _ _ _ _ _ H2) as Ek. cbn [negb] in Ek.
  split; intros a.
  - rewrite page_from_pool_ok by apply (pa_pool _ Hok false).
    change (kernel_pool s') with (the_pool false s'). rewrite Ek. unfold pool_end, page_at, in_pages.
    rewrite (pm_base _ _ _ _ _ H1), (pm_cnt _ _ _ _ _ H1). fold k. f_equal; f_equal; unfold PGSIZE; lia.
  - rewrite page_from_pool_ok by apply (pa_pool _ Hok true).
    change (user_pool s') with (the_pool true s'). unfold pool_end, page_at, in_pages.
    rewrite (pm_base _ _ _ _ _ H2), (pm_cnt _ _ _ _ _ H2). fold k u. f_equal; f_equal; unfold PGSIZE; lia.
Qed.

(** [palloc_get_multiple] on a consistent allocator returns the lowest
    group of [page_cnt] contiguous pages of the flagged pool that are all
    free; exactly these become allocated, they are cleared if [PAL_ZERO] is
    given, and no other memory changes.  Only when there is no such group it
    returns a null pointer and changes nothing, or panics if [PAL_ASSERT] is
    given. *)
Theorem palloc_get_multiple_ok flags page_cnt s :
  palloc_ok s -> 0 < page_cnt ->
  let user := has_flag flags PAL_USER in
  (exists first s', palloc_get_multiple flags page_cnt s = Ok (first, s') /\
     got user (has_flag flags PAL_ZERO) page_cnt first s s' /\
     forall first', page_group false user s first' page_cnt -> first <= first') \/
  ((forall first, ~ page_group false user s first page_cnt) /\
   palloc_get_multiple flags page_cnt s
   = if has_flag flags PAL_ASSERT then Err Kernel_panic else Ok (NULL, s)).
Proof. apply palloc_get_multiple_run. Qed.

(** [palloc_free_multiple] gives back allocated pages of one pool: exactly
    they become free, whichever pool they came from, and no other memory
    changes.  When one of the pages is not allocated, the assertion on the
    bitmap fails. *)
Theorem palloc_free_multiple_ok user s i cnt :
  palloc_ok s -> let p := the_pool user s in
  0 <= i -> 0 < cnt -> i + cnt <= Bitmap.bit_cnt (used_map p) ->
  (page_group true user s (page_at p i) cnt ->
   exists s', palloc_free_multiple (page_at p i) cnt s = Ok (tt, s') /\ freed user cnt (page_at p i) s s') /\
  (~ page_group true user s (page_at p i) cnt ->
   palloc_free_multiple (page_at p i) cnt s = Err Assertion_failed).
Proof.
  intros Hs p Hi Hc Hic. split; [by apply palloc_free_multiple_run|].
  intros Hn. unfold p in Hn. rewrite page_group_ok in Hn by done.
  destruct (existsb (Bool.eqb false) (Bitmap.range (used_map p) i (Z.to_nat cnt))) eqn:E.
  - apply existsb_exists in E as (x & Hin & Hx). apply in_map_iff in Hin as (j & <- & Hj).
    apply list_elem_of_In, elem_of_seqZ in Hj.
    apply (palloc_double_free user s i cnt j Hs Hi ltac:(lia) Hic). fold p.
    by destruct (Bitmap.bit _ _).
  - destruct Hn. rewrite <- (Z2Nat.id cnt) by lia. apply Bitmap.range_group. cbn [negb]. fold p. by rewrite E.
Qed.

(** ** A machine with 268 pages of memory *)

Definition no_pool : pool := mkPool false (Bitmap.mkBitmap 0 []) 0.

Definition boot_ram : mstate :=
  mkMstate no_pool no_pool
    (list_to_map (map (fun i => (PHYS_BASE + PGSIZE * i, page_of 0)) (seqZ 256 12))) 268 0 0 ∅.

Definition booted : mstate :=
  match palloc_init 100 boot_ram with Ok (_, s) => s | Err _ => boot_ram end.

Lemma boot_ram_loaded : loaded boot_ram 268.
Proof.
  split; [done|]. split; [lia|]. intros i Hi. exists (page_of 0).
  split; [|split; [apply length_replicate|by apply Forall_replicate]].
  assert (i ∈ seqZ 256 12) as Hin by (apply elem_of_seqZ; lia). change (seqZ 256 12) with
    [256; 257; 258; 259; 260; 261; 262; 263; 264; 265; 266; 267] in Hin.
  repeat (apply elem_of_cons in Hin as [->|Hin]; [reflexivity|]). by apply not_elem_of_nil in Hin.
Qed.

Lemma booted_ok : palloc_ok booted /\ (forall a, allocated booted a = false) /\ hw booted = hw boot_ram.
Proof.
  destruct (palloc_init_run boot_ram 268 100 boot_ram_loaded ltac:(lia)) as (s1 & s' & Hr & H1 & H2).
  unfold booted. rewrite Hr. by apply (palloc_init_inv boot_ram 268 100 s1 s' boot_ram_loaded ltac:(lia)).
Qed.

Lemma palloc_init_ok_witness :
  loaded boot_ram 268 /\
  exists s', palloc_init 100 boot_ram = Ok (tt, s') /\ palloc_ok s' /\
    forall a, page_from_pool (user_pool s') a = in_pages (PHYS_BASE + PGSIZE * 263) 5 a.
Proof.
  split; [apply boot_ram_loaded|].
  destruct (palloc_init_ok boot_ram 268 100 boot_ram_loaded ltac:(lia)) as (s' & Hr & Hok & _ & _ & Hu).
  exists s'. split; [done|]. split; [done|]. intros a. rewrite Hu. reflexivity.
Defined.

(** The address that a run returns. *)
Definition returned (r : res (Z * mstate)) : Z :=
  match r with Ok (a, _) => a | Err _ => NULL end.

Lemma booted_get : returned (palloc_get_multiple (Z.lor PAL_USER PAL_ZERO) 2 booted) = PHYS_BASE + PGSIZE * 263.
Proof. vm_compute. reflexivity. Qed.

Lemma palloc_get_multiple_ok_witness :
  palloc_ok booted /\
  (exists s', palloc_get_multiple (Z.lor PAL_USER PAL_ZERO) 2 booted = Ok (PHYS_BASE + PGSIZE * 263, s') /\
     palloc_ok s' /\ ram s' !! (PHYS_BASE + PGSIZE * 264) = Some (page_of 0)).
Proof.
  destruct booted_ok as [Hok _]. split; [exact Hok|]. pose proof booted_get as Ha.
  destruct (palloc_get_multiple_ok (Z.lor PAL_USER PAL_ZERO) 2 booted Hok ltac:(lia))
    as [(first & s' & Hr & Hg & _)|[_ Hr]]; rewrite Hr in Ha; cbn in Ha; [|discriminate Ha].
  exists s'. rewrite Hr, Ha. split; [reflexivity|]. split; [apply Hg|].
  pose proof (got_pages _ _ _ _ _ _ Hg 1 ltac:(lia)) as Hp. rewrite Ha in Hp. exact Hp.
Defined.

Definition two_taken : mstate :=
  match palloc_get_multiple (Z.lor PAL_USER PAL_ZERO) 2 booted with Ok (_, s) => s | Err _ => booted end.

(** Two pages of the user pool are allocated. *)
Lemma two_taken_ok :
  palloc_ok two_taken /\ page_group true true two_taken (PHYS_BASE + PGSIZE * 263) 2.
Proof.
  destruct booted_ok as [Hok _]. pose proof booted_get as Ha.
  destruct (palloc_get_multiple_run (Z.lor PAL_USER PAL_ZERO) 2 booted Hok ltac:(lia))
    as [(first & s' & Hr & Hg & _)|[_ Hr]]; rewrite Hr in Ha; cbn in Ha; [|discriminate Ha].
  assert (two_taken = s') as -> by (unfold two_taken; by rewrite Hr).
  split; [apply Hg|]. rewrite <- Ha. by apply (got_group true true 2 first booted).
Qed.

Lemma two_taken_pool :
  page_at (the_pool true two_taken) 0 = PHYS_BASE + PGSIZE * 263 /\
  Bitmap.bit_cnt (used_map (the_pool true two_taken)) = 5.
Proof. split; vm_compute; reflexivity. Qed.

Lemma palloc_free_multiple_ok_witness :
  page_group true true two_taken (page_at (the_pool true two_taken) 0) 2 /\
  exists s', palloc_free_multiple (page_at (the_pool true two_taken) 0) 2 two_taken = Ok (tt, s') /\
    palloc_ok s'.
Proof.
  destruct two_taken_ok as [Hok Hg]. destruct two_taken_pool as [Hb Hc]. rewrite <- Hb in Hg.
  split; [exact Hg|].
  destruct (proj1 (palloc_free_multiple_ok true two_taken 0 2 Hok ltac:(lia) ltac:(lia) ltac:(rewrite Hc; lia)) Hg)
    as (s' & Hr & Hf). exists s'. split; [exact Hr|apply Hf].
Defined.

End Palloc.
