(* ===== verification/Pagedir.v ===== *)
(** * Page directories (src/src/threads/pte.h and src/src/userprog/pagedir.c)

    The x86 page tables as they lie in memory: a page directory is a page of
    1024 entries, and each entry that is present points to a page of 1024
    entries for pages.  The functions of [pagedir.c] work on the memory of
    [Palloc] and take page tables from its allocator.  The translation
    lookaside buffer is part of the state: it holds the entries that the
    processor has loaded through the active page directory, and loading the
    register [cr3] clears it. *)

From S2P Require Import Prelude Bitmap Palloc.
Import Palloc.

Module Pagedir.

(** ** Page table entries (pte.h) *)

Definition PTSHIFT : Z := 12.
Definition PTMASK : Z := 4190208.
Definition PDSHIFT : Z := 22.
Definition PTE_ADDR : Z := 4294963200.
Definition PTE_P : Z := 1.
Definition PTE_W : Z := 2.
Definition PTE_U : Z := 4.
Definition PTE_A : Z := 32.
Definition PTE_D : Z := 64.

Definition pt_no (va : Z) : Z := Z.shiftr (Z.land va PTMASK) PTSHIFT.
Definition pd_no (va : Z) : Z := Z.shiftr va PDSHIFT.

Definition pde_create (pt : Z) : M mstate Z :=
  ASSERT (pg_ofs pt =? 0) ;;; p <- vtop pt ;; ret (Z.lor (Z.lor (Z.lor p PTE_U) PTE_P) PTE_W).

Definition pde_get_pt (pde : Z) : M mstate Z :=
  ASSERT (has_flag pde PTE_P) ;;; ptov (Z.land pde PTE_ADDR).

Definition pte_create_kernel (page : Z) (writable : bool) : M mstate Z :=
  ASSERT (pg_ofs page =? 0) ;;; p <- vtop page ;;
  ret (Z.lor (Z.lor p PTE_P) (if writable then PTE_W else 0)).

Definition pte_create_user (page : Z) (writable : bool) : M mstate Z :=
  pte <- pte_create_kernel page writable ;; ret (Z.lor pte PTE_U).

Definition pte_get_page (pte : Z) : M mstate Z := ptov (Z.land pte PTE_ADDR).

(** ** Words of memory *)

Definition word_at (s : mstate) (a : Z) : option Z :=
  ram s !! pg_round_down a ≫= fun ws => ws !! Z.to_nat (pg_ofs a / 4).

Definition put_word (a v : Z) (s : mstate) : mstate :=
  set_ram (alter (fun ws => <[Z.to_nat (pg_ofs a / 4) := v]> ws) (pg_round_down a) (ram s)) s.

Definition load (a : Z) : M mstate Z := gets_opt (fun s => word_at s a).
Definition store (a v : Z) : M mstate unit := load a ;;; modify (put_word a v).

(** ** Operations (pagedir.c) *)

Definition pagedir_create : M mstate Z :=
  pd <- palloc_get_page 0 ;;
  (if negb (pd =? NULL) then
     ws <- gets_opt (fun s => ram s !! init_page_dir s) ;;
     gets_opt (fun s => ram s !! pd) ;;;
     modify (fun s => set_ram (<[pd := ws]> (ram s)) s)
   else ret tt) ;;;
  ret pd.

(** The loop over the entries of a page table, [n] of them left. *)
Fixpoint destroy_pt (n : nat) (pte : Z) : M mstate unit :=
  match n with
  | O => ret tt
  | S n' =>
      e <- load pte ;;
      (if has_flag e PTE_P then page <- pte_get_page e ;; palloc_free_page page else ret tt) ;;;
      destroy_pt n' (pte + 4)
  end.

(** The loop over the entries of the page directory. *)
Fixpoint destroy_pd (n : nat) (pde : Z) : M mstate unit :=
  match n with
  | O => ret tt
  | S n' =>
      e <- load pde ;;
      (if has_flag e PTE_P then pt <- pde_get_pt e ;; destroy_pt 1024 pt ;;; palloc_free_page pt
       else ret tt) ;;;
      destroy_pd n' (pde + 4)
  end.

Definition pagedir_destroy (pd : Z) : M mstate unit :=
  if pd =? NULL then ret tt
  else
    i <- gets init_page_dir ;; ASSERT (negb (pd =? i)) ;;;
    destroy_pd (Z.to_nat (pd_no PHYS_BASE)) pd ;;;
    palloc_free_page pd.

Definition lookup_page (pd vaddr : Z) (create : bool) : M mstate Z :=
  ASSERT (negb (pd =? NULL)) ;;;
  ASSERT (negb create || is_user_vaddr vaddr) ;;;
  let pde := pd + 4 * pd_no vaddr in
  e <- load pde ;;
  ok <- (if e =? 0 then
           if create then
             pt <- palloc_get_page PAL_ZERO ;;
             if pt =? NULL then ret false
             else (v <- pde_create pt ;; store pde v ;;; ret true)
           else ret false
         else ret true) ;;
  if ok then e <- load pde ;; pt <- pde_get_pt e ;; ret (pt + 4 * pt_no vaddr)
  else ret NULL.

Definition pagedir_set_page (pd upage kpage : Z) (writable : bool) : M mstate bool :=
  ASSERT (pg_ofs upage =? 0) ;;;
  ASSERT (pg_ofs kpage =? 0) ;;;
  ASSERT (is_user_vaddr upage) ;;;
  p <- vtop kpage ;; n <- gets init_ram_pages ;; ASSERT (Z.shiftr p PTSHIFT <? n) ;;;
  i <- gets init_page_dir ;; ASSERT (negb (pd =? i)) ;;;
  pte <- lookup_page pd upage true ;;
  if negb (pte =? NULL) then
    e <- load pte ;; ASSERT (negb (has_flag e PTE_P)) ;;;
    v <- pte_create_user kpage writable ;; store pte v ;;;
    ret true
  else ret false.

Definition pagedir_get_page (pd uaddr : Z) : M mstate Z :=
  ASSERT (is_user_vaddr uaddr) ;;;
  pte <- lookup_page pd uaddr false ;;
  if pte =? NULL then ret NULL
  else
    e <- load pte ;;
    if has_flag e PTE_P then page <- pte_get_page e ;; ret (page + pg_ofs uaddr) else ret NULL.

Definition pagedir_activate (pd : Z) : M mstate unit :=
  i <- gets init_page_dir ;;
  let pd := if pd =? NULL then i else pd in
  p <- vtop pd ;;
  modify (fun s => set_tlb ∅ (set_cr3 p s)).

Definition active_pd : M mstate Z := pd <- gets cr3 ;; ptov pd.

Definition invalidate_pagedir (pd : Z) : M mstate unit :=
  a <- active_pd ;; if a =? pd then pagedir_activate pd else ret tt.

Definition pagedir_clear_page (pd upage : Z) : M mstate unit :=
  ASSERT (pg_ofs upage =? 0) ;;;
  ASSERT (is_user_vaddr upage) ;;;
  pte <- lookup_page pd upage false ;;
  if pte =? NULL then ret tt
  else
    e <- load pte ;;
    if has_flag e PTE_P then
      store pte (Z.land e (u32 (Z.lnot PTE_P))) ;;; invalidate_pagedir pd
    else ret tt.

(** Reading and writing the dirty and the accessed flag differ only in the
    flag. *)
Definition pagedir_is (flag pd vpage : Z) : M mstate bool :=
  pte <- lookup_page pd vpage false ;;
  if pte =? NULL then ret false else e <- load pte ;; ret (has_flag e flag).

Definition pagedir_set (flag pd vpage : Z) (v : bool) : M mstate unit :=
  pte <- lookup_page pd vpage false ;;
  if negb (pte =? NULL) then
    e <- load pte ;;
    if v then store pte (Z.lor e flag)
    else store pte (Z.land e (u32 (Z.lnot flag))) ;;; invalidate_pagedir pd
  else ret tt.

Definition pagedir_is_dirty (pd vpage : Z) : M mstate bool := pagedir_is PTE_D pd vpage.
Definition pagedir_set_dirty (pd vpage : Z) (dirty : bool) : M mstate unit := pagedir_set PTE_D pd vpage dirty.
Definition pagedir_is_accessed (pd vpage : Z) : M mstate bool := pagedir_is PTE_A pd vpage.
Definition pagedir_set_accessed (pd vpage : Z) (accessed : bool) : M mstate unit :=
  pagedir_set PTE_A pd vpage accessed.

(** ** Address arithmetic *)

Lemma pd_no_div va : pd_no va = va / 4194304.
Proof. unfold pd_no, PDSHIFT. by rewrite Z.shiftr_div_pow2. Qed.

Lemma pt_no_div va : pt_no va = va / 4096 mod 1024.
Proof.
  unfold pt_no, PTSHIFT. rewrite Z.shiftr_land. change (Z.shiftr PTMASK 12) with (Z.ones 10).
  by rewrite Z.land_ones, Z.shiftr_div_pow2.
Qed.

Lemma pt_no_range va : 0 <= pt_no va < 1024.
Proof. rewrite pt_no_div. apply Z.mod_pos_bound. lia. Qed.

Lemma pd_no_user va : 0 <= va < PHYS_BASE -> 0 <= pd_no va < 768.
Proof.
  intros Hv. rewrite pd_no_div. unfold PHYS_BASE in Hv.
  split; [apply Z.div_pos; lia|apply Z.div_lt_upper_bound; lia].
Qed.

Lemma pg_no_split va : pg_no va = 1024 * pd_no va + pt_no va.
Proof.
  rewrite pg_no_div, pd_no_div, pt_no_div. change 4194304 with (4096 * 1024).
  rewrite <- Z.div_div by lia. apply Z.div_mod. lia.
Qed.

(** The address of a page. *)
Definition page_addr (a : Z) : Prop := a mod 4096 = 0 /\ PHYS_BASE <= a < 4294967296.

Lemma page_addr_bound a : page_addr a -> a + 4096 <= 4294967296.
Proof.
  intros [H1 H2]. pose proof (Z.div_mod a 4096 ltac:(lia)). unfold PHYS_BASE in *. lia.
Qed.

Lemma entry_addr a i :
  page_addr a -> 0 <= i < 1024 ->
  pg_round_down (a + 4 * i) = a /\ pg_ofs (a + 4 * i) / 4 = i.
Proof.
  intros Ha Hi. pose proof (page_addr_bound a Ha) as Hb. destruct Ha as [H1 H2]. unfold PHYS_BASE in *.
  pose proof (Z.div_mod a 4096 ltac:(lia)) as Hd.
  assert ((a + 4 * i) / 4096 = a / 4096) as E1.
  { symmetry. apply (Z.div_unique _ _ _ (4 * i)); lia. }
  rewrite pg_round_down_ok by (unfold in_u32; lia). rewrite pg_ofs_mod. split; [lia|].
  rewrite Z.mod_eq, E1 by lia. replace (a + 4 * i - 4096 * (a / 4096)) with (i * 4) by lia.
  by apply Z.div_mul.
Qed.

(** ** Entries *)

(** The word [i] of a page. *)
Definition word (s : mstate) (page i : Z) : Z :=
  match ram s !! page with Some ws => nth (Z.to_nat i) ws 0 | None => 0 end.

Lemma ram_page_word s page i :
  ram_page s page -> 0 <= i < 1024 ->
  exists ws, ram s !! page = Some ws /\ length ws = 1024%nat /\ ws !! Z.to_nat i = Some (word s page i) /\
    in_u32 (word s page i).
Proof.
  intros (ws & Hws & Hl & Hu) Hi. exists ws. split; [done|]. split; [done|]. unfold word. rewrite Hws.
  destruct (lookup_lt_is_Some_2 ws (Z.to_nat i)) as [x Hx]; [lia|].
  rewrite (nth_lookup_Some _ _ 0 x Hx). split; [done|].
  rewrite Forall_forall in Hu. apply Hu. by eapply list_elem_of_lookup_2.
Qed.

Lemma load_word s page i :
  page_addr page -> ram_page s page -> 0 <= i < 1024 -> load (page + 4 * i) s = Ok (word s page i, s).
Proof.
  intros Ha Hp Hi. destruct (entry_addr page i Ha Hi) as [E1 E2].
  destruct (ram_page_word s page i Hp Hi) as (ws & Hws & _ & Hx & _).
  unfold load, gets_opt, word_at. rewrite E1, E2, Hws. cbn. by rewrite Hx.
Qed.

Lemma store_word s page i v :
  page_addr page -> ram_page s page -> 0 <= i < 1024 ->
  store (page + 4 * i) v s = Ok (tt, put_word (page + 4 * i) v s).
Proof. intros Ha Hp Hi. unfold store. by mrun (load_word s page i Ha Hp Hi). Qed.

Lemma ram_put_word s page i v ws :
  page_addr page -> 0 <= i < 1024 -> ram s !! page = Some ws ->
  ram (put_word (page + 4 * i) v s) = <[page := <[Z.to_nat i := v]> ws]> (ram s).
Proof.
  intros Ha Hi Hws. destruct (entry_addr page i Ha Hi) as [E1 E2].
  unfold put_word. cbn. rewrite E1, E2. apply map_eq. intros k.
  destruct (decide (k = page)) as [->|Hne].
  - rewrite lookup_alter_eq, lookup_insert_eq, Hws. done.
  - by rewrite lookup_alter_ne, lookup_insert_ne.
Qed.

Lemma word_put s page i v page' j :
  page_addr page -> ram_page s page -> 0 <= i < 1024 -> 0 <= j < 1024 ->
  word (put_word (page + 4 * i) v s) page' j
  = if (page' =? page) && (j =? i) then v else word s page' j.
Proof.
  intros Ha Hp Hi Hj. destruct (ram_page_word s page i Hp Hi) as (ws & Hws & Hl & _ & _).
  unfold word. rewrite (ram_put_word _ _ _ _ ws) by done.
  destruct (Z.eqb_spec page' page) as [->|Hne]; cbn [andb].
  - rewrite lookup_insert_eq, Hws. destruct (Z.eqb_spec j i) as [->|Hji].
    + rewrite nth_lookup, list_lookup_insert_eq by lia. done.
    + rewrite !nth_lookup, list_lookup_insert_ne by lia. done.
  - by rewrite lookup_insert_ne.
Qed.

Lemma ram_page_put s page i v page' :
  page_addr page -> ram_page s page -> 0 <= i < 1024 -> in_u32 v ->
  ram_page s page' -> ram_page (put_word (page + 4 * i) v s) page'.
Proof.
  intros Ha Hp Hi Hv (ws' & Hws' & Hl' & Hu'). destruct (ram_page_word s page i Hp Hi) as (ws & Hws & Hl & _ & _).
  unfold ram_page. rewrite (ram_put_word _ _ _ _ ws) by done.
  destruct (decide (page' = page)) as [->|Hne].
  - rewrite lookup_insert_eq. simplify_eq. eexists. split; [done|]. rewrite length_insert. split; [done|].
    by apply Forall_insert.
  - rewrite lookup_insert_ne by done. eauto.
Qed.

(** Storing a word touches neither the allocator nor the registers. *)
Lemma put_word_other a v s :
  hw (put_word a v s) = hw s /\ (forall u, the_pool u (put_word a v s) = the_pool u s) /\
  (forall u x, used u (put_word a v s) x = used u s x).
Proof. split; [done|]. split; [by intros []|]. by intros []. Qed.

Lemma backed_put a v s page : backed s page -> backed (put_word a v s) page.
Proof.
  intros (ws & Hws & Hl). unfold backed, put_word. cbn. rewrite lookup_alter. case_decide.
  - subst. rewrite Hws. cbn. eexists. split; [done|]. by rewrite length_insert.
  - eauto.
Qed.

Lemma palloc_ok_put a v s : palloc_ok s -> palloc_ok (put_word a v s).
Proof.
  intros [Hp Ha Hb]. pose proof (put_word_other a v s) as (_ & He & _). constructor.
  - intros u. rewrite He. apply Hp.
  - done.
  - intros u i. rewrite He. intros Hi. by apply backed_put, Hb.
Qed.

(** ** The page tables of a set of page directories *)

Inductive slot : Type := Root | Table (i : Z).

#[export] Instance slot_eq_dec : EqDecision slot.
Proof. solve_decision. Defined.

(** The pages of a directory: itself, and the table of each entry for user
    addresses that is not zero. *)
Definition node (s : mstate) (pd : Z) (sl : slot) : option Z :=
  match sl with
  | Root => Some pd
  | Table i =>
      if (0 <=? i) && (i <? 768) && negb (word s pd i =? 0)
      then Some (Z.land (word s pd i) PTE_ADDR + PHYS_BASE) else None
  end.

(** Every page of the directories is an allocated page of the kernel pool
    and is used in one place only; an entry that is not zero is present. *)
Record dirs_ok (s : mstate) (D : list Z) : Prop := {
  do_node : forall pd sl a, pd ∈ D -> node s pd sl = Some a ->
    page_addr a /\ ram_page s a /\ used false s a = true;
  do_present : forall pd i, pd ∈ D -> 0 <= i < 768 -> word s pd i <> 0 ->
    has_flag (word s pd i) PTE_P = true;
  do_inj : forall pd1 sl1 pd2 sl2 a, pd1 ∈ D -> pd2 ∈ D ->
    node s pd1 sl1 = Some a -> node s pd2 sl2 = Some a -> pd1 = pd2 /\ sl1 = sl2
}.

(** The entry for the page of a user address; zero if it has no table. *)
Definition pte (s : mstate) (pd va : Z) : Z :=
  match node s pd (Table (pd_no va)) with Some pt => word s pt (pt_no va) | None => 0 end.

Definition user_va (va : Z) : Prop := 0 <= va < PHYS_BASE.

Lemma do_root s D pd : dirs_ok s D -> pd ∈ D -> page_addr pd /\ ram_page s pd /\ used false s pd = true.
Proof. intros Hd Hin. by apply (do_node _ _ Hd pd Root). Qed.

Lemma node_Table s pd i :
  0 <= i < 768 ->
  node s pd (Table i) = if word s pd i =? 0 then None else Some (Z.land (word s pd i) PTE_ADDR + PHYS_BASE).
Proof.
  intros Hi. unfold node. rewrite (proj2 (Z.leb_le _ _)), (proj2 (Z.ltb_lt _ _)) by lia. cbn [andb].
  by destruct (word s pd i =? 0).
Qed.

Lemma node_Table_range s pd i a : node s pd (Table i) = Some a -> 0 <= i < 768.
Proof. unfold node. destruct (_ && _) eqn:E; [|done]. intros _. lia. Qed.

(** Walking the table of an address that has one. *)
Definition slot_addr (pt va : Z) : Z := pt + 4 * pt_no va.

Lemma ptov_ok a s : PHYS_BASE <= a + PHYS_BASE < 4294967296 -> ptov a s = Ok (a + PHYS_BASE, s).
Proof.
  intros Ha. unfold ptov, PHYS_BASE in *. rewrite (proj2 (Z.ltb_lt _ _)) by lia. mnorm. unfold ret.
  by rewrite u32_id by lia.
Qed.

Lemma pde_walk s D pd va pt :
  dirs_ok s D -> pd ∈ D -> node s pd (Table (pd_no va)) = Some pt ->
  pde_get_pt (word s pd (pd_no va)) s = Ok (pt, s).
Proof.
  intros Hd Hin Hn. pose proof (node_Table_range _ _ _ _ Hn) as Hi.
  destruct (do_node _ _ Hd pd _ pt Hin Hn) as ([_ Hb] & _ & _). rewrite node_Table in Hn by done.
  destruct (Z.eqb_spec (word s pd (pd_no va)) 0) as [|Hnz]; [done|]. simplify_eq.
  unfold pde_get_pt. rewrite (do_present _ _ Hd) by done. mnorm. by apply ptov_ok.
Qed.

Lemma lookup_page_table s D pd va pt create :
  dirs_ok s D -> pd ∈ D -> user_va va -> node s pd (Table (pd_no va)) = Some pt ->
  lookup_page pd va create s = Ok (slot_addr pt va, s).
Proof.
  intros Hd Hin Hva Hn. destruct (do_root s D pd Hd Hin) as (Ha & Hr & _).
  pose proof (pd_no_user va Hva) as Hi. unfold lookup_page, is_user_vaddr, user_va, NULL in *.
  rewrite (proj2 (Z.eqb_neq pd 0)) by (destruct Ha; unfold PHYS_BASE in *; lia).
  rewrite (proj2 (Z.ltb_lt va _)), orb_true_r by lia. cbn [negb]. mnorm.
  pose proof (load_word s pd (pd_no va) Ha Hr ltac:(lia)) as Hl. mrun Hl.
  pose proof Hn as Hn'. rewrite node_Table in Hn' by done.
  destruct (word s pd (pd_no va) =? 0); [done|]. mnorm. mrun Hl.
  by mrun (pde_walk s D pd va pt Hd Hin Hn).
Qed.

Lemma lookup_page_none s D pd va :
  dirs_ok s D -> pd ∈ D -> user_va va -> node s pd (Table (pd_no va)) = None ->
  lookup_page pd va false s = Ok (NULL, s).
Proof.
  intros Hd Hin Hva Hn. destruct (do_root s D pd Hd Hin) as (Ha & Hr & _).
  pose proof (pd_no_user va Hva) as Hi. unfold lookup_page, is_user_vaddr, user_va, NULL in *.
  rewrite (proj2 (Z.eqb_neq pd 0)) by (destruct Ha; unfold PHYS_BASE in *; lia).
  cbn [negb orb]. mnorm.
  mrun (load_word s pd (pd_no va) Ha Hr ltac:(lia)). rewrite node_Table in Hn by done.
  by destruct (word s pd (pd_no va) =? 0).
Qed.

Lemma slot_addr_ok s D pd va pt :
  dirs_ok s D -> pd ∈ D -> node s pd (Table (pd_no va)) = Some pt ->
  slot_addr pt va <> NULL /\ load (slot_addr pt va) s = Ok (pte s pd va, s) /\
  (forall v, store (slot_addr pt va) v s = Ok (tt, put_word (slot_addr pt va) v s)) /\ in_u32 (pte s pd va).
Proof.
  intros Hd Hin Hn. destruct (do_node _ _ Hd pd _ pt Hin Hn) as (Ha & Hr & _).
  pose proof (pt_no_range va) as Hi. unfold slot_addr, pte. rewrite Hn. split.
  { destruct Ha. unfold NULL, PHYS_BASE in *. lia. }
  split; [by apply load_word|]. split; [intros v; by apply store_word|].
  by destruct (ram_page_word s pt (pt_no va) Hr Hi) as (_ & _ & _ & _ & H).
Qed.

(** ** Writing an entry of a page table *)

Lemma put_pte_node s D pd va pt v pd' sl :
  dirs_ok s D -> pd ∈ D -> pd' ∈ D -> node s pd (Table (pd_no va)) = Some pt ->
  node (put_word (slot_addr pt va) v s) pd' sl = node s pd' sl.
Proof.
  intros Hd Hin Hin' Hn. destruct (do_node _ _ Hd pd _ pt Hin Hn) as (Ha & Hr & _).
  destruct sl as [|i]; [done|]. unfold node. destruct ((0 <=? i) && (i <? 768)) eqn:Ei; [|done].
  unfold slot_addr. rewrite word_put by (done || lia || apply pt_no_range).
  destruct (Z.eqb_spec pd' pt) as [->|]; [|done].
  destruct (do_inj _ _ Hd pt Root pd _ pt Hin' Hin eq_refl Hn) as [_ ?]. done.
Qed.

Lemma put_pte_root_word s D pd va pt v pd' i :
  dirs_ok s D -> pd ∈ D -> pd' ∈ D -> node s pd (Table (pd_no va)) = Some pt -> 0 <= i < 1024 ->
  word (put_word (slot_addr pt va) v s) pd' i = word s pd' i.
Proof.
  intros Hd Hin Hin' Hn Hi. destruct (do_node _ _ Hd pd _ pt Hin Hn) as (Ha & Hr & _).
  unfold slot_addr. rewrite word_put by (done || apply pt_no_range).
  destruct (Z.eqb_spec pd' pt) as [->|]; [|done].
  destruct (do_inj _ _ Hd pt Root pd _ pt Hin' Hin eq_refl Hn) as [_ ?]. done.
Qed.

Lemma put_pte_dirs s D pd va pt v :
  dirs_ok s D -> pd ∈ D -> node s pd (Table (pd_no va)) = Some pt -> in_u32 v ->
  dirs_ok (put_word (slot_addr pt va) v s) D.
Proof.
  intros Hd Hin Hn Hv. destruct (do_node _ _ Hd pd _ pt Hin Hn) as (Ha & Hr & _).
  constructor.
  - intros pd' sl a Hin'. rewrite (put_pte_node s D pd) by done. intros Hn'.
    destruct (do_node _ _ Hd pd' sl a Hin' Hn') as (? & ? & ?). split; [done|].
    split; [apply ram_page_put; try done; apply pt_no_range|done].
  - intros pd' i Hin' Hi. rewrite (put_pte_root_word s D pd) by (done || lia). by apply Hd.
  - intros pd1 sl1 pd2 sl2 a H1 H2. rewrite !(put_pte_node s D pd) by done. by apply Hd.
Qed.

Lemma put_pte_view s D pd va pt v pd' va' :
  dirs_ok s D -> pd ∈ D -> pd' ∈ D -> node s pd (Table (pd_no va)) = Some pt ->
  pte (put_word (slot_addr pt va) v s) pd' va'
  = if (pd' =? pd) && (pg_no va' =? pg_no va) then v else pte s pd' va'.
Proof.
  intros Hd Hin Hin' Hn. destruct (do_node _ _ Hd pd _ pt Hin Hn) as (Ha & Hr & _).
  unfold pte. rewrite (put_pte_node s D pd) by done.
  pose proof (pg_no_split va) as E1. pose proof (pg_no_split va') as E2.
  pose proof (pt_no_range va) as R1. pose proof (pt_no_range va') as R2.
  destruct (node s pd' (Table (pd_no va'))) as [pt'|] eqn:Hn'.
  - unfold slot_addr. rewrite word_put by done. destruct (Z.eqb_spec pt' pt) as [->|Hne]; cbn [andb].
    + destruct (do_inj _ _ Hd _ _ _ _ pt Hin' Hin Hn' Hn) as [-> [=Ei]]. rewrite Z.eqb_refl. cbn [andb].
      destruct (Z.eqb_spec (pt_no va') (pt_no va)), (Z.eqb_spec (pg_no va') (pg_no va)); done || lia.
    + destruct (Z.eqb_spec pd' pd) as [->|]; [|done]. cbn [andb].
      destruct (Z.eqb_spec (pg_no va') (pg_no va)); [|done].
      assert (pd_no va' = pd_no va) as E by lia. rewrite E in Hn'. congruence.
  - destruct (Z.eqb_spec pd' pd) as [->|]; [|done]. cbn [andb].
    destruct (Z.eqb_spec (pg_no va') (pg_no va)); [|done].
    assert (pd_no va' = pd_no va) as E by lia. rewrite E in Hn'. congruence.
Qed.

(** ** Addresses and flags in an entry *)

Lemma land_aligned a f : a mod 4096 = 0 -> 0 <= f < 4096 -> Z.land a f = 0.
Proof.
  intros Ha Hf. apply Z.bits_inj'. intros k Hk. rewrite Z.land_spec, Z.bits_0.
  destruct (Z.lt_ge_cases k 12).
  - rewrite <- (Z.mod_pow2_bits_low a 12 k) by lia. change (2 ^ 12) with 4096. by rewrite Ha, Z.bits_0.
  - rewrite <- (Z.mod_small f (2 ^ 12)) by lia. rewrite Z.mod_pow2_bits_high by lia. apply andb_false_r.
Qed.

Lemma lor_aligned a f : a mod 4096 = 0 -> 0 <= f < 4096 -> Z.lor a f = a + f.
Proof.
  intros Ha Hf. pose proof (land_aligned a f Ha Hf) as H.
  by rewrite Z.add_nocarry_lxor, Z.lxor_lor.
Qed.

Lemma has_flag_lor a f g :
  a mod 4096 = 0 -> 0 <= g < 4096 -> has_flag (Z.lor a f) g = has_flag f g.
Proof. intros Ha Hg. unfold has_flag. by rewrite Z.land_lor_distr_l, land_aligned. Qed.

Lemma addr_lor a f :
  a mod 4096 = 0 -> 0 <= f < 4096 -> 0 <= a < 1073741824 -> Z.land (Z.lor a f) PTE_ADDR = a.
Proof.
  intros Ha Hf Hb. rewrite lor_aligned by done. change PTE_ADDR with (u32 (Z.lnot PGMASK)).
  rewrite land_PTE_ADDR by (unfold in_u32; lia).
  assert ((a + f) mod 4096 = f) as ->; [|lia].
  pose proof (Z.div_mod a 4096 ltac:(lia)). symmetry. apply (Z.mod_unique _ _ (a / 4096)); lia.
Qed.

(** The address and the flags of an entry for the page [page]. *)
Record points_to (e page : Z) (flags : Z) : Prop := {
  pt_u32 : in_u32 e;
  pt_addr : Z.land e PTE_ADDR + PHYS_BASE = page;
  pt_flags : forall g, 0 <= g < 4096 -> has_flag e g = has_flag flags g
}.

Lemma points_to_lor page flags :
  page_addr page -> 0 <= flags < 4096 -> points_to (Z.lor (page - PHYS_BASE) flags) page flags.
Proof.
  intros Hp Hf. pose proof (page_addr_bound _ Hp). destruct Hp as [Ha Hb]. unfold PHYS_BASE in *.
  assert ((page - 3221225472) mod 4096 = 0) as Hm.
  { change 3221225472 with (786432 * 4096). rewrite Zminus_mod, Z.mod_mul, Ha by lia. done. }
  constructor.
  - rewrite lor_aligned by done. unfold in_u32. lia.
  - rewrite addr_lor by (done || lia). unfold PHYS_BASE. lia.
  - intros g Hg. by apply has_flag_lor.
Qed.

Lemma vtop_ok page s : page_addr page -> vtop page s = Ok (page - PHYS_BASE, s).
Proof.
  intros [_ Hb]. unfold vtop, is_kernel_vaddr. rewrite Z.geb_leb, (proj2 (Z.leb_le _ _)) by lia. done.
Qed.

Lemma pde_create_ok pt s :
  page_addr pt -> exists e, pde_create pt s = Ok (e, s) /\ points_to e pt 7.
Proof.
  intros Hp. unfold pde_create. rewrite pg_ofs_mod. rewrite (proj1 Hp). mnorm. mrun (vtop_ok pt s Hp).
  eexists. split; [done|]. rewrite <- !Z.lor_assoc. by apply points_to_lor.
Qed.

(** The flags of an entry that [pagedir_set_page] writes. *)
Definition user_flags (writable : bool) : Z := if writable then 7 else 5.

Lemma pte_create_user_ok page w s :
  page_addr page -> exists e, pte_create_user page w s = Ok (e, s) /\ points_to e page (user_flags w).
Proof.
  intros Hp. unfold pte_create_user, pte_create_kernel. rewrite pg_ofs_mod. rewrite (proj1 Hp). mnorm.
  mrun (vtop_ok page s Hp). mnorm. eexists. split; [done|]. rewrite <- !Z.lor_assoc.
  destruct w; by apply points_to_lor.
Qed.

(** ** Adding a page table *)

(** A state in which the pages of the directories are the same. *)
Lemma dirs_frame s s' D :
  dirs_ok s D ->
  (forall pd sl a, pd ∈ D -> node s pd sl = Some a -> ram s' !! a = ram s !! a /\ used false s' a = true) ->
  dirs_ok s' D /\ (forall pd sl, pd ∈ D -> node s' pd sl = node s pd sl) /\
  (forall pd va, pd ∈ D -> pte s' pd va = pte s pd va).
Proof.
  intros Hd Hf.
  assert (forall pd sl a i, pd ∈ D -> node s pd sl = Some a -> word s' a i = word s a i) as Hw.
  { intros pd sl a i Hin Hn. unfold word. by rewrite (proj1 (Hf pd sl a Hin Hn)). }
  assert (forall pd sl, pd ∈ D -> node s' pd sl = node s pd sl) as Hnode.
  { intros pd sl Hin. destruct sl as [|i]; [done|]. unfold node. by rewrite (Hw pd Root pd). }
  split; [|split; [done|]].
  - constructor.
    + intros pd sl a Hin Hn. rewrite Hnode in Hn by done. destruct (Hf pd sl a Hin Hn) as [Hr Hu].
      destruct (do_node _ _ Hd pd sl a Hin Hn) as (Ha & (ws & Hws & H') & _).
      split; [done|]. split; [|done]. exists ws. by rewrite Hr.
    + intros pd i Hin Hi. rewrite (Hw pd Root pd) by done. by apply Hd.
    + intros pd1 sl1 pd2 sl2 a H1 H2. rewrite !Hnode by done. by apply Hd.
  - intros pd va Hin. unfold pte. rewrite Hnode by done.
    destruct (node s pd (Table (pd_no va))) eqn:Hn; [|done]. by eapply Hw.
Qed.

Lemma used_from_pool u s a : used u s a = true -> page_from_pool (the_pool u s) a = true.
Proof. unfold used. intros H. by apply andb_true_iff in H as [? _]. Qed.

Lemma one_pool s a :
  palloc_ok s -> page_from_pool (kernel_pool s) a = true -> page_from_pool (user_pool s) a = true -> False.
Proof.
  intros Hs Hk Hu. rewrite page_from_pool_ok in Hk by apply (pa_pool _ Hs false).
  rewrite page_from_pool_ok in Hu by apply (pa_pool _ Hs true). pose proof (pa_apart _ Hs). lia.
Qed.

(** Newly allocated pages hold no page of a directory. *)
Lemma got_fresh user zero cnt first s s' a :
  palloc_ok s -> got user zero cnt first s s' -> used false s a = true -> in_pages first cnt a = false.
Proof.
  intros Hs Hg Hu. apply not_true_iff_false. intros Hin.
  destruct (got_free _ _ _ _ _ _ Hg) as [_ Hf]. destruct (Hf a Hin) as [Hp Hn].
  destruct user; [|congruence]. apply used_from_pool in Hu. by eapply one_pool.
Qed.

Lemma got_dirs user zero cnt first s s' D :
  palloc_ok s -> dirs_ok s D -> got user zero cnt first s s' ->
  dirs_ok s' D /\ (forall pd sl, pd ∈ D -> node s' pd sl = node s pd sl) /\
  (forall pd va, pd ∈ D -> pte s' pd va = pte s pd va).
Proof.
  intros Hs Hd Hg. apply dirs_frame; [done|]. intros pd sl a Hin Hn.
  destruct (do_node _ _ Hd pd sl a Hin Hn) as (_ & _ & Hu).
  rewrite (got_other _ _ _ _ _ _ Hg), (got_used _ _ _ _ _ _ Hg), Hu, orb_true_r
    by (by eapply got_fresh). done.
Qed.

Lemma got_page_addr user zero first s s' : got user zero 1 first s s' -> page_addr first.
Proof.
  intros Hg. destruct (got_bounds _ _ _ _ _ _ Hg) as [Hl Hh]. destruct (got_free _ _ _ _ _ _ Hg) as [Ho _].
  rewrite pg_ofs_mod in Ho. unfold PGSIZE in Hh. split; [done|]. lia.
Qed.

Lemma got_backed_page user zero first s s' :
  palloc_ok s -> got user zero 1 first s s' -> backed s' first.
Proof.
  intros Hs Hg. destruct (free_group_backed user s first 1 0 Hs (got_free _ _ _ _ _ _ Hg) ltac:(lia)) as (ws & Hws & Hl).
  pose proof (got_pages _ _ _ _ _ _ Hg 0 ltac:(lia)) as Hp. rewrite Z.mul_0_r, Z.add_0_r in *.
  unfold backed. rewrite Hp. destruct zero; [|eauto]. exists (page_of 0). split; [done|]. apply length_replicate.
Qed.

Lemma got_zero_page user first s s' : got user true 1 first s s' ->
  ram_page s' first /\ (forall i, word s' first i = 0) /\ used user s' first = true.
Proof.
  intros Hg. pose proof (got_pages _ _ _ _ _ _ Hg 0 ltac:(lia)) as Hp.
  rewrite Z.mul_0_r, Z.add_0_r in Hp. split; [|split].
  - exists (page_of 0). split; [done|]. split; [apply length_replicate|by apply Forall_replicate].
  - intros i. unfold word. rewrite Hp. unfold page_of. rewrite nth_lookup.
    destruct (replicate 1024 0 !! Z.to_nat i) eqn:E; [|done].
    by apply lookup_replicate in E as [-> _].
  - rewrite (got_used _ _ _ _ _ _ Hg), Bool.eqb_reflx. cbn [andb].
    rewrite (proj2 (in_pages_spec _ _ _)); [done|]. lia.
Qed.

Lemma points_to_nonzero e page flags : points_to e page flags -> has_flag flags PTE_P = true -> e <> 0.
Proof.
  intros He Hf ->. rewrite <- (pt_flags _ _ _ He) in Hf by done. by vm_compute in Hf.
Qed.

Section add_table.
Context (s s1 : mstate) (D : list Z) (pd i pt e : Z).
Context (Hs : palloc_ok s) (Hd : dirs_ok s D) (Hin : pd ∈ D) (Hi : 0 <= i < 768).
Context (Hzero : word s pd i = 0) (Hg : got false true 1 pt s s1) (He : points_to e pt 7).

Let s2 : mstate := put_word (pd + 4 * i) e s1.

Lemma add_table_node pd' sl :
  pd' ∈ D ->
  node s2 pd' sl = if decide (pd' = pd /\ sl = Table i) then Some pt else node s pd' sl.
Proof.
  intros Hin'. destruct (got_dirs _ _ _ _ _ _ D Hs Hd Hg) as (Hd1 & Hn1 & _).
  destruct (do_root _ _ _ Hd1 Hin) as (Ha & Hr & _). rewrite <- Hn1 by done.
  destruct sl as [|j]; [by rewrite decide_False by naive_solver|].
  unfold node. destruct ((0 <=? j) && (j <? 768)) eqn:Ej.
  2:{ rewrite decide_False; [done|]. intros [_ [=->]]. lia. }
  unfold s2. rewrite word_put by (done || lia).
  destruct (Z.eqb_spec pd' pd) as [->|Hne]; cbn [andb].
  2:{ rewrite decide_False by naive_solver. done. }
  destruct (Z.eqb_spec j i) as [->|Hji].
  2:{ rewrite decide_False by naive_solver. done. }
  rewrite decide_True by done. pose proof (points_to_nonzero _ _ _ He eq_refl).
  rewrite (proj2 (Z.eqb_neq _ _)) by done. cbn. by rewrite (pt_addr _ _ _ He).
Qed.

Lemma add_table_word pd' j :
  pd' ∈ D -> 0 <= j < 1024 -> word s2 pd' j = if (pd' =? pd) && (j =? i) then e else word s pd' j.
Proof.
  intros Hin' Hj. destruct (got_dirs _ _ _ _ _ _ D Hs Hd Hg) as (Hd1 & _ & _).
  destruct (do_root _ _ _ Hd1 Hin) as (Ha & Hr & _). unfold s2. rewrite word_put by (done || lia).
  destruct (_ && _); [done|]. unfold word.
  destruct (do_root _ _ _ Hd Hin') as (_ & _ & Hu).
  by rewrite (got_other _ _ _ _ _ _ Hg) by (by eapply got_fresh).
Qed.

Lemma add_table_dirs : dirs_ok s2 D.
Proof.
  destruct (got_dirs _ _ _ _ _ _ D Hs Hd Hg) as (Hd1 & Hn1 & _).
  destruct (do_root _ _ _ Hd1 Hin) as (Ha & Hr & _).
  destruct (got_zero_page _ _ _ _ Hg) as (Hpt & _ & Hpu).
  assert (forall pd' sl, pd' ∈ D -> node s pd' sl <> Some pt) as Hfresh.
  { intros pd' sl Hin' Hn. destruct (do_node _ _ Hd _ _ _ Hin' Hn) as (_ & _ & Hu).
    pose proof (got_fresh _ _ _ _ _ _ _ Hs Hg Hu) as Hf. apply not_true_iff_false in Hf.
    apply Hf, in_pages_spec. lia. }
  constructor.
  - intros pd' sl a Hin'. rewrite add_table_node by done. case_decide.
    + intros [= <-]. split; [by eapply got_page_addr|]. split; [|done].
      apply ram_page_put; try done; [lia|apply He].
    + rewrite <- Hn1 by done. intros Hn. destruct (do_node _ _ Hd1 _ _ _ Hin' Hn) as (? & ? & ?).
      split; [done|]. split; [|done]. apply ram_page_put; try done; [lia|apply He].
  - intros pd' j Hin' Hj. rewrite add_table_word by (done || lia). destruct (_ && _).
    + intros _. by rewrite (pt_flags _ _ _ He).
    + by apply Hd.
  - intros pd1 sl1 pd2 sl2 a H1 H2. rewrite !add_table_node by done.
    case_decide as E1; case_decide as E2.
    + intros _ _. naive_solver.
    + intros [= <-] Hn. by destruct (Hfresh pd2 sl2).
    + intros Hn [= <-]. by destruct (Hfresh pd1 sl1).
    + by apply Hd.
Qed.

Lemma add_table_pte pd' va : pd' ∈ D -> pte s2 pd' va = pte s pd' va.
Proof.
  intros Hin'. destruct (got_dirs _ _ _ _ _ _ D Hs Hd Hg) as (Hd1 & Hn1 & Hp1).
  destruct (do_root _ _ _ Hd1 Hin) as (Ha & Hr & _).
  destruct (got_zero_page _ _ _ _ Hg) as (_ & Hz & _).
  assert (forall a j, a <> pd -> 0 <= j < 1024 -> word s2 a j = word s1 a j) as Hw.
  { intros a j Ha' Hj. unfold s2. rewrite word_put by (done || lia).
    by rewrite (proj2 (Z.eqb_neq a pd)). }
  unfold pte at 1. rewrite add_table_node by done. case_decide as E.
  - destruct E as [-> [= E]]. unfold pte. rewrite node_Table, E, Hzero, Z.eqb_refl by lia.
    rewrite Hw, Hz; [done| |apply pt_no_range]. intros ->.
    destruct (do_root _ _ _ Hd Hin) as (_ & _ & Hu).
    pose proof (got_fresh _ _ _ _ _ _ _ Hs Hg Hu) as Hf. apply not_true_iff_false in Hf.
    apply Hf, in_pages_spec. lia.
  - rewrite <- Hp1 by done. unfold pte. rewrite Hn1 by done.
    destruct (node s pd' (Table (pd_no va))) as [a|] eqn:Hn; [|done]. apply Hw; [|apply pt_no_range].
    intros ->. by destruct (do_inj _ _ Hd _ _ pd Root pd Hin' Hin Hn eq_refl) as [_ ?].
Qed.
End add_table.

(** [s'] has the same mappings as [s], but [pd] may have more tables; pages
    may have been allocated. *)
Record same_maps (D : list Z) (pd : Z) (s s' : mstate) : Prop := {
  sm_palloc : palloc_ok s';
  sm_dirs : dirs_ok s' D;
  sm_hw : hw s' = hw s;
  sm_pte : forall pd' va, pd' ∈ D -> pte s' pd' va = pte s pd' va;
  sm_node : forall pd' sl, pd' ∈ D -> pd' <> pd -> node s' pd' sl = node s pd' sl;
  sm_used : forall u a, used u s a = true -> used u s' a = true
}.

Lemma same_maps_refl D pd s : palloc_ok s -> dirs_ok s D -> same_maps D pd s s.
Proof. by constructor. Qed.

Lemma lookup_page_create s D pd va :
  palloc_ok s -> dirs_ok s D -> pd ∈ D -> user_va va ->
  (exists pt s', lookup_page pd va true s = Ok (slot_addr pt va, s') /\ same_maps D pd s s' /\
     node s' pd (Table (pd_no va)) = Some pt) \/
  (lookup_page pd va true s = Ok (NULL, s) /\ node s pd (Table (pd_no va)) = None /\
   forall first, ~ page_group false false s first 1).
Proof.
  intros Hs Hd Hin Hva. destruct (node s pd (Table (pd_no va))) as [pt|] eqn:Hn.
  { left. exists pt, s. split; [by eapply lookup_page_table|]. split; [by apply same_maps_refl|done]. }
  destruct (do_root s D pd Hd Hin) as (Ha & Hr & _). pose proof (pd_no_user va Hva) as Hi.
  assert (word s pd (pd_no va) = 0) as Hz.
  { rewrite node_Table in Hn by done. by destruct (Z.eqb_spec (word s pd (pd_no va)) 0). }
  unfold lookup_page, is_user_vaddr, user_va in *.
  rewrite (proj2 (Z.eqb_neq pd NULL)) by (destruct Ha; unfold NULL, PHYS_BASE in *; lia).
  rewrite (proj2 (Z.ltb_lt va _)), orb_true_r by lia. cbn [negb]. mnorm.
  mrun (load_word s pd (pd_no va) Ha Hr ltac:(lia)). rewrite Hz, Z.eqb_refl. mnorm. unfold palloc_get_page.
  destruct (palloc_get_multiple_run PAL_ZERO 1 s Hs ltac:(lia)) as [(pt & s1 & Hrun & Hg & _)|[Hno Hrun]].
  2:{ right. by mrun Hrun. }
  left. change (has_flag PAL_ZERO PAL_USER) with false in Hg. change (has_flag PAL_ZERO PAL_ZERO) with true in Hg.
  pose proof (got_page_addr _ _ _ _ _ Hg) as Hpa. mrun Hrun.
  rewrite (proj2 (Z.eqb_neq pt NULL)) by (destruct Hpa; unfold NULL, PHYS_BASE in *; lia). mnorm.
  destruct (pde_create_ok pt s1 Hpa) as (e & Hpde & He). mrun Hpde. mnorm.
  destruct (got_dirs _ _ _ _ _ _ D Hs Hd Hg) as (Hd1 & _ & _). destruct (do_root _ _ _ Hd1 Hin) as (_ & Hr1 & _).
  mrun (store_word s1 pd (pd_no va) e Ha Hr1 ltac:(lia)). mnorm.
  pose proof (add_table_dirs s s1 D pd (pd_no va) pt e Hs Hd Hin Hi Hg He) as Hd2.
  assert (node (put_word (pd + 4 * pd_no va) e s1) pd (Table (pd_no va)) = Some pt) as Hn2.
  { rewrite (add_table_node s s1 D pd (pd_no va) pt e) by done. by rewrite decide_True. }
  destruct (do_root _ _ _ Hd2 Hin) as (_ & Hr2 & _). mrun (load_word _ pd (pd_no va) Ha Hr2 ltac:(lia)).
  mrun (pde_walk _ D pd va pt Hd2 Hin Hn2). exists pt. eexists. split; [done|]. split; [|done].
  constructor; try done.
  - apply palloc_ok_put, Hg.
  - apply (got_hw _ _ _ _ _ _ Hg).
  - intros pd' va' Hin'. by apply (add_table_pte s s1 D pd (pd_no va) pt e).
  - intros pd' sl Hin' Hne. rewrite (add_table_node s s1 D pd (pd_no va) pt e) by done.
    rewrite decide_False; [done|]. by intros [? _].
  - intros u a Hu. rewrite (proj2 (proj2 (put_word_other _ _ _))), (got_used _ _ _ _ _ _ Hg), Hu. apply orb_true_r.
Qed.

(** ** Mapping a page *)

(** [s'] is [s] with the entry of one page changed. *)
Record entry_set (D : list Z) (pd va e : Z) (s s' : mstate) : Prop := {
  es_palloc : palloc_ok s';
  es_dirs : dirs_ok s' D;
  es_pte : forall pd' va', pd' ∈ D ->
    pte s' pd' va' = if (pd' =? pd) && (pg_no va' =? pg_no va) then e else pte s pd' va';
  es_node : forall pd' sl, pd' ∈ D -> pd' <> pd -> node s' pd' sl = node s pd' sl;
  es_used : forall u a, used u s a = true -> used u s' a = true
}.

Lemma put_entry s D pd va pt e :
  palloc_ok s -> dirs_ok s D -> pd ∈ D -> node s pd (Table (pd_no va)) = Some pt -> in_u32 e ->
  entry_set D pd va e s (put_word (slot_addr pt va) e s).
Proof.
  intros Hs Hd Hin Hn He. constructor.
  - by apply palloc_ok_put.
  - by apply put_pte_dirs with pd.
  - intros pd' va' Hin'. by apply put_pte_view with D.
  - intros pd' sl Hin' _. by apply put_pte_node with D pd.
  - done.
Qed.

Definition mappable (s : mstate) (kpage : Z) : Prop :=
  page_addr kpage /\ Z.shiftr (kpage - PHYS_BASE) PTSHIFT < init_ram_pages s.

Lemma set_page_run s D pd upage kpage w :
  palloc_ok s -> dirs_ok s D -> pd ∈ D -> pd <> init_page_dir s ->
  user_va upage -> pg_ofs upage = 0 -> mappable s kpage ->
  has_flag (pte s pd upage) PTE_P = false ->
  (exists s' e, pagedir_set_page pd upage kpage w s = Ok (true, s') /\
     entry_set D pd upage e s s' /\ points_to e kpage (user_flags w) /\ hw s' = hw s) \/
  (pagedir_set_page pd upage kpage w s = Ok (false, s) /\ node s pd (Table (pd_no upage)) = None /\
   forall first, ~ page_group false false s first 1).
Proof.
  intros Hs Hd Hin Hpd Hu Ho [Hk Hm] Hp. unfold pagedir_set_page. rewrite Ho.
  rewrite (pg_ofs_mod kpage), (proj1 Hk). unfold is_user_vaddr. rewrite (proj2 (Z.ltb_lt upage _)) by apply Hu.
  mnorm. mrun (vtop_ok kpage s Hk). mnorm. rewrite (proj2 (Z.ltb_lt _ _)) by done. mnorm.
  rewrite (proj2 (Z.eqb_neq pd _)) by done. cbn [negb]. mnorm.
  destruct (lookup_page_create s D pd upage Hs Hd Hin Hu) as [(pt & s1 & Hr & Hsm & Hn)|(Hr & Hn & Hno)].
  2:{ right. mrun Hr. done. }
  left. mrun Hr. destruct Hsm as [Hs1 Hd1 Hhw Hpte Hnode Hus].
  destruct (slot_addr_ok s1 D pd upage pt Hd1 Hin Hn) as (Hnn & Hl & Hst & _).
  rewrite (proj2 (Z.eqb_neq _ NULL)) by done. cbn [negb]. mrun Hl. rewrite Hpte, Hp by done. cbn [negb]. mnorm.
  destruct (pte_create_user_ok kpage w s1 Hk) as (e & He & Hpt). mrun He. mrun (Hst e).
  exists (put_word (slot_addr pt upage) e s1), e. split; [done|]. split; [|done].
  destruct (put_entry s1 D pd upage pt e Hs1 Hd1 Hin Hn (pt_u32 _ _ _ Hpt)) as [Hs2 Hd2 Hv Hn2 Hus2].
  constructor; try done.
  - intros pd' va' Hin'. rewrite Hv by done. by rewrite Hpte.
  - intros pd' sl Hin' Hne. rewrite Hn2 by done. by apply Hnode.
Qed.

(** ** Reading, clearing and marking an entry *)

(** A lookup that does not create, and what follows it when there is a
    table. *)
Lemma with_entry {A} s D pd va (none : M mstate A) (k : Z -> M mstate A) :
  dirs_ok s D -> pd ∈ D -> user_va va ->
  (p <- lookup_page pd va false ;; if p =? NULL then none else k p) s
  = match node s pd (Table (pd_no va)) with
    | Some pt => k (slot_addr pt va) s
    | None => none s
    end.
Proof.
  intros Hd Hin Hva. destruct (node s pd (Table (pd_no va))) as [pt|] eqn:Hn.
  - mrun (lookup_page_table s D pd va pt false Hd Hin Hva Hn).
    destruct (slot_addr_ok s D pd va pt Hd Hin Hn) as (Hnn & _). by rewrite (proj2 (Z.eqb_neq _ NULL)) by done.
  - by mrun (lookup_page_none s D pd va Hd Hin Hva Hn).
Qed.

Lemma pte_none s pd va : node s pd (Table (pd_no va)) = None -> pte s pd va = 0.
Proof. unfold pte. by intros ->. Qed.

Lemma has_flag_0 f : has_flag 0 f = false.
Proof. unfold has_flag. by rewrite Z.land_0_l. Qed.

(** The kernel address of a user address, if it is mapped. *)
Definition translate (s : mstate) (pd uaddr : Z) : option Z :=
  if has_flag (pte s pd uaddr) PTE_P
  then Some (Z.land (pte s pd uaddr) PTE_ADDR + PHYS_BASE + pg_ofs uaddr) else None.

(** The frames that the entries name are below 1 GB, the limit of what the
    kernel maps. *)
Definition frames_ok (s : mstate) (D : list Z) : Prop :=
  forall pd va, pd ∈ D -> user_va va -> has_flag (pte s pd va) PTE_P = true ->
    Z.land (pte s pd va) PTE_ADDR < 1073741824.

Lemma get_page_run s D pd uaddr :
  dirs_ok s D -> frames_ok s D -> pd ∈ D -> user_va uaddr ->
  pagedir_get_page pd uaddr s = Ok (default NULL (translate s pd uaddr), s).
Proof.
  intros Hd Hf Hin Hu. unfold pagedir_get_page, is_user_vaddr. rewrite (proj2 (Z.ltb_lt _ _)) by apply Hu.
  mnorm. rewrite (with_entry s D) by done. unfold translate.
  destruct (node s pd (Table (pd_no uaddr))) as [pt|] eqn:Hn.
  2:{ by rewrite (pte_none s pd uaddr Hn). }
  destruct (slot_addr_ok s D pd uaddr pt Hd Hin Hn) as (_ & Hl & _ & Hu32). mrun Hl.
  destruct (has_flag (pte s pd uaddr) PTE_P) eqn:Hp; [|done]. unfold pte_get_page.
  specialize (Hf pd uaddr Hin Hu Hp).
  assert (0 <= Z.land (pte s pd uaddr) PTE_ADDR) by (apply Z.land_nonneg; right; done).
  by mrun (ptov_ok (Z.land (pte s pd uaddr) PTE_ADDR) s ltac:(unfold PHYS_BASE; lia)).
Qed.

(** The active directory, and the effect of loading [cr3]. *)
Definition active (s : mstate) : Z := cr3 s + PHYS_BASE.
Definition flushed (pd : Z) (s : mstate) : mstate := set_tlb ∅ (set_cr3 (pd - PHYS_BASE) s).

Lemma invalidate_run s pd :
  page_addr (active s) -> invalidate_pagedir pd s
  = Ok (tt, if active s =? pd then flushed pd s else s).
Proof.
  intros Ha. unfold invalidate_pagedir, active_pd. mnorm.
  mrun (ptov_ok (cr3 s) s (proj2 Ha)). fold (active s).
  destruct (Z.eqb_spec (active s) pd) as [<-|]; [|done]. unfold pagedir_activate. mnorm.
  rewrite (proj2 (Z.eqb_neq _ NULL)) by (destruct Ha; unfold NULL, PHYS_BASE in *; lia).
  by mrun (vtop_ok (active s) s Ha).
Qed.

Lemma flushed_same pd s :
  (forall p i, word (flushed pd s) p i = word s p i) /\ (forall u a, used u (flushed pd s) a = used u s a) /\
  ram (flushed pd s) = ram s /\ init_page_dir (flushed pd s) = init_page_dir s.
Proof. split; [done|]. split; [by intros []|done]. Qed.

Lemma entry_set_flushed D pd va e s s' b :
  entry_set D pd va e s s' -> entry_set D pd va e s (if b : bool then flushed pd s' else s').
Proof.
  destruct b; [|done]. intros [Hp Hd Hv Hn Hu]. constructor.
  - destruct Hp as [H1 H2 H3]. constructor; [|done|];
      intros []; [apply (H1 true)|apply (H1 false)|apply (H3 true)|apply (H3 false)].
  - destruct Hd as [H1 H2 H3]. by constructor.
  - done.
  - done.
  - intros u a H. rewrite (proj1 (proj2 (flushed_same pd s'))). by apply Hu.
Qed.

(** A write to the entry that is followed by an invalidation. *)
Lemma clear_entry s D pd va pt e :
  palloc_ok s -> dirs_ok s D -> pd ∈ D -> page_addr (active s) ->
  node s pd (Table (pd_no va)) = Some pt -> in_u32 e ->
  exists s', (store (slot_addr pt va) e ;;; invalidate_pagedir pd) s = Ok (tt, s') /\
    entry_set D pd va e s s' /\ active s' = active s /\ init_page_dir s' = init_page_dir s /\
    tlb s' = if active s =? pd then ∅ else tlb s.
Proof.
  intros Hs Hd Hin Ha Hn He. destruct (slot_addr_ok s D pd va pt Hd Hin Hn) as (_ & _ & Hst & _).
  mrun (Hst e). rewrite invalidate_run by done. eexists. split; [done|].
  split; [by apply entry_set_flushed, put_entry|].
  change (active (put_word ?a ?v s)) with (active s).
  destruct (Z.eqb_spec (active s) pd) as [<-|]; [|done].
  split; [|done]. unfold active, flushed. cbn. lia.
Qed.

End Pagedir.
