(* ===== verification/Malloc.v ===== *)
(** * The block allocator (src/src/threads/malloc.c)

    The descriptors and, in the memory of [Palloc], the arenas with their
    headers.  A descriptor's free list is a sequence of blocks; its links,
    which the code keeps inside the free blocks, are not part of the modelled
    memory, and no theorem speaks of the contents of free blocks.  The
    address of a descriptor is its index plus one, so that it differs from
    the null pointer of big blocks. *)

From S2P Require Import Prelude Bitmap Palloc Pagedir.
Import Palloc Pagedir.

Module Malloc.

(** ** Bytes of memory *)

Definition get_byte (w k : Z) : Z := Z.land (Z.shiftr w (8 * k)) 255.
Definition set_byte (w k v : Z) : Z :=
  Z.lor (Z.land w (Z.lnot (Z.shiftl 255 (8 * k)))) (Z.shiftl (Z.land v 255) (8 * k)).

(** The address of the word that holds a byte. *)
Definition word_of (x : Z) : Z := x - x mod 4.

Definition load_byte (x : Z) : M mstate Z := w <- load (word_of x) ;; ret (get_byte w (x mod 4)).
Definition store_byte (x v : Z) : M mstate unit :=
  w <- load (word_of x) ;; store (word_of x) (set_byte w (x mod 4) v).

Fixpoint memset (n : nat) (x v : Z) : M mstate unit :=
  match n with
  | O => ret tt
  | S n' => store_byte x v ;;; memset n' (x + 1) v
  end.

Fixpoint memcpy (n : nat) (dst src : Z) : M mstate unit :=
  match n with
  | O => ret tt
  | S n' => v <- load_byte src ;; store_byte dst v ;;; memcpy n' (dst + 1) (src + 1)
  end.

(** ** State *)

Record desc : Type := mkDesc {
  d_block_size : Z; blocks_per_arena : Z; free_list : list Z; d_lock : bool
}.

Record heap : Type := mkHeap { mem : mstate; descs : list desc; desc_cnt : Z }.

Definition set_mem v h := mkHeap v (descs h) (desc_cnt h).
Definition set_descs v h := mkHeap (mem h) v (desc_cnt h).
Definition set_desc_cnt v h := mkHeap (mem h) (descs h) v.

Definition lift {A} (m : M mstate A) : M heap A :=
  fun h => match m (mem h) with Ok (a, s) => Ok (a, set_mem s h) | Err e => Err e end.

Definition the_desc (d : Z) : M heap desc := gets_opt (fun h => descs h !! Z.to_nat d).
Definition upd_desc (d : Z) (f : desc -> desc) : M heap unit :=
  x <- the_desc d ;; modify (fun h => set_descs (<[Z.to_nat d := f x]> (descs h)) h).

Definition set_free_list l x := mkDesc (d_block_size x) (blocks_per_arena x) l (d_lock x).
Definition set_d_lock b x := mkDesc (d_block_size x) (blocks_per_arena x) (free_list x) b.

Definition desc_acquire (d : Z) : M heap unit :=
  x <- the_desc d ;; ASSERT (negb (d_lock x)) ;;; upd_desc d (set_d_lock true).
Definition desc_release (d : Z) : M heap unit :=
  x <- the_desc d ;; ASSERT (d_lock x) ;;; upd_desc d (set_d_lock false).

Definition ARENA_MAGIC : Z := 2589232877.
Definition ARENA_SIZE : Z := 12.

(** The members of the arena header at [a]. *)
Definition get_magic (a : Z) : M heap Z := lift (load a).
Definition get_desc (a : Z) : M heap Z := lift (load (a + 4)).
Definition get_free_cnt (a : Z) : M heap Z := lift (load (a + 8)).
Definition set_magic (a v : Z) : M heap unit := lift (store a v).
Definition set_desc (a v : Z) : M heap unit := lift (store (a + 4) v).
Definition set_free_cnt (a v : Z) : M heap unit := lift (store (a + 8) v).

(** The address of a descriptor. *)
Definition desc_ptr (d : Z) : Z := d + 1.
Definition desc_idx (p : Z) : Z := p - 1.

(** ** Initialization *)

Fixpoint malloc_init_loop (fuel : nat) (block_size : Z) : M heap unit :=
  match fuel with
  | O => fail Out_of_fuel
  | S fuel' =>
      if block_size <? PGSIZE / 2 then
        d <- gets desc_cnt ;;
        modify (set_desc_cnt (d + 1)) ;;;
        ASSERT (d + 1 <=? 10) ;;;
        upd_desc d (fun _ => mkDesc block_size ((PGSIZE - ARENA_SIZE) / block_size) [] false) ;;;
        malloc_init_loop fuel' (u32 (block_size * 2))
      else ret tt
  end.

Definition malloc_init : M heap unit := malloc_init_loop 12 16.

(** ** Arenas and blocks *)

Definition arena_to_block (a idx : Z) : M heap Z :=
  ASSERT (negb (a =? NULL)) ;;;
  m <- get_magic a ;; ASSERT (m =? ARENA_MAGIC) ;;;
  p <- get_desc a ;; x <- the_desc (desc_idx p) ;;
  ASSERT (idx <? blocks_per_arena x) ;;;
  ret (a + ARENA_SIZE + idx * d_block_size x).

Definition block_to_arena (b : Z) : M heap Z :=
  let a := pg_round_down b in
  ASSERT (negb (a =? NULL)) ;;;
  m <- get_magic a ;; ASSERT (m =? ARENA_MAGIC) ;;;
  p <- get_desc a ;;
  (if p =? NULL then ret tt
   else x <- the_desc (desc_idx p) ;;
        ASSERT (u32 (pg_ofs b - ARENA_SIZE) mod d_block_size x =? 0)) ;;;
  ASSERT (negb (p =? NULL) || (pg_ofs b =? ARENA_SIZE)) ;;;
  ret a.

(** The smallest descriptor for the size, or [desc_cnt]; [n] are left. *)
Fixpoint find_desc (n : nat) (d size : Z) : M heap Z :=
  match n with
  | O => ret d
  | S n' =>
      x <- the_desc d ;;
      if d_block_size x >=? size then ret d else find_desc n' (d + 1) size
  end.

(** Adds the blocks of a new arena to the free list, from [i] on. *)
Fixpoint add_blocks (n : nat) (a d i : Z) : M heap unit :=
  match n with
  | O => ret tt
  | S n' =>
      b <- arena_to_block a i ;;
      upd_desc d (fun x => set_free_list (free_list x ++ [b]) x) ;;;
      add_blocks n' a d (i + 1)
  end.

(** [list_remove] of an element, which must be in the list. *)
Definition list_remove (d b : Z) : M heap unit :=
  x <- the_desc d ;;
  if decide (b ∈ free_list x)
  then upd_desc d (set_free_list (filter (fun y => y <> b) (free_list x)))
  else fail Bad_access.

Fixpoint remove_blocks (n : nat) (a d i : Z) : M heap unit :=
  match n with
  | O => ret tt
  | S n' =>
      b <- arena_to_block a i ;; list_remove d b ;;; remove_blocks n' a d (i + 1)
  end.

(** ** Allocation and release *)

Definition malloc (size : Z) : M heap Z :=
  if size =? 0 then ret NULL
  else
    n <- gets desc_cnt ;;
    d <- find_desc (Z.to_nat n) 0 size ;;
    if d =? n then
      let page_cnt := u32 (size + ARENA_SIZE + PGSIZE - 1) / PGSIZE in
      a <- lift (palloc_get_multiple 0 page_cnt) ;;
      if a =? NULL then ret NULL
      else
        set_magic a ARENA_MAGIC ;;; set_desc a NULL ;;; set_free_cnt a page_cnt ;;;
        ret (a + ARENA_SIZE)
    else
      desc_acquire d ;;;
      x <- the_desc d ;;
      ok <- (match free_list x with
             | [] =>
                 a <- lift (palloc_get_page 0) ;;
                 if a =? NULL then ret false
                 else
                   set_magic a ARENA_MAGIC ;;; set_desc a (desc_ptr d) ;;;
                   set_free_cnt a (blocks_per_arena x) ;;;
                   add_blocks (Z.to_nat (blocks_per_arena x)) a d 0 ;;;
                   ret true
             | _ :: _ => ret true
             end) ;;
      if (ok : bool) then
        x <- the_desc d ;;
        match free_list x with
        | [] => fail Assertion_failed
        | b :: rest =>
            upd_desc d (set_free_list rest) ;;;
            a <- block_to_arena b ;;
            c <- get_free_cnt a ;; set_free_cnt a (u32 (c - 1)) ;;;
            desc_release d ;;;
            ret b
        end
      else desc_release d ;;; ret NULL.

Definition calloc (a b : Z) : M heap Z :=
  let size := u32 (a * b) in
  if (size <? a) || (size <? b) then ret NULL
  else
    p <- malloc size ;;
    (if negb (p =? NULL) then lift (memset (Z.to_nat size) p 0) else ret tt) ;;;
    ret p.

Definition block_size (block : Z) : M heap Z :=
  a <- block_to_arena block ;;
  p <- get_desc a ;;
  if negb (p =? NULL) then x <- the_desc (desc_idx p) ;; ret (d_block_size x)
  else c <- get_free_cnt a ;; ret (u32 (PGSIZE * c - pg_ofs block)).

Definition free (p : Z) : M heap unit :=
  if p =? NULL then ret tt
  else
    a <- block_to_arena p ;;
    dp <- get_desc a ;;
    if negb (dp =? NULL) then
      let d := desc_idx dp in
      x <- the_desc d ;;
      lift (memset (Z.to_nat (d_block_size x)) p 204) ;;;
      desc_acquire d ;;;
      upd_desc d (fun x => set_free_list (p :: free_list x) x) ;;;
      c <- get_free_cnt a ;; set_free_cnt a (u32 (c + 1)) ;;;
      c <- get_free_cnt a ;;
      (if c >=? blocks_per_arena x then
         ASSERT (c =? blocks_per_arena x) ;;;
         remove_blocks (Z.to_nat (blocks_per_arena x)) a d 0 ;;;
         lift (palloc_free_page a)
       else ret tt) ;;;
      desc_release d
    else
      c <- get_free_cnt a ;; lift (palloc_free_multiple a c).

Definition realloc (old_block new_size : Z) : M heap Z :=
  if new_size =? 0 then free old_block ;;; ret NULL
  else
    new_block <- malloc new_size ;;
    (if negb (old_block =? NULL) && negb (new_block =? NULL) then
       old_size <- block_size old_block ;;
       let min_size := if new_size <? old_size then new_size else old_size in
       lift (memcpy (Z.to_nat min_size) new_block old_block) ;;;
       free old_block
     else ret tt) ;;;
    ret new_block.

(** ** Memory by addresses *)

Definition page (x : Z) : Z := 4096 * (x / 4096).
Definition word_no (x : Z) : Z := x mod 4096 / 4.

(** The address lies in a page of memory. *)
Definition addressable (s : mstate) (x : Z) : Prop := page_addr (page x) /\ backed s (page x).

Definition byte (s : mstate) (x : Z) : Z := get_byte (word s (page x) (word_no x)) (x mod 4).

Lemma addr_split x : page x + 4 * word_no x = word_of x /\ 0 <= word_no x < 1024.
Proof.
  unfold page, word_no, word_of. pose proof (Z.div_mod x 4096 ltac:(lia)).
  pose proof (Z.mod_pos_bound x 4096 ltac:(lia)).
  assert (x mod 4 = x mod 4096 mod 4) as ->.
  { rewrite Z.mod_mod_divide; [done|]. by exists 1024. }
  pose proof (Z.div_mod (x mod 4096) 4 ltac:(lia)). pose proof (Z.mod_pos_bound (x mod 4096) 4 ltac:(lia)).
  lia.
Qed.

Lemma load_backed s p i :
  page_addr p -> backed s p -> 0 <= i < 1024 -> load (p + 4 * i) s = Ok (word s p i, s).
Proof.
  intros Ha (ws & Hws & Hl) Hi. destruct (entry_addr p i Ha Hi) as [E1 E2].
  unfold load, gets_opt, word_at, word. rewrite E1, E2, Hws. cbn.
  destruct (lookup_lt_is_Some_2 ws (Z.to_nat i)) as [x Hx]; [lia|].
  by rewrite Hx, (nth_lookup_Some _ _ 0 x Hx).
Qed.

Lemma store_backed s p i v :
  page_addr p -> backed s p -> 0 <= i < 1024 ->
  store (p + 4 * i) v s = Ok (tt, put_word (p + 4 * i) v s).
Proof. intros Ha Hp Hi. unfold store. by mrun (load_backed s p i Ha Hp Hi). Qed.

Lemma word_put_backed s p i v p' j :
  page_addr p -> backed s p -> 0 <= i < 1024 -> 0 <= j < 1024 ->
  word (put_word (p + 4 * i) v s) p' j = if (p' =? p) && (j =? i) then v else word s p' j.
Proof.
  intros Ha (ws & Hws & Hl) Hi Hj. unfold word. rewrite (ram_put_word _ _ _ _ ws) by done.
  destruct (Z.eqb_spec p' p) as [->|Hne]; cbn [andb].
  - rewrite lookup_insert_eq, Hws. destruct (Z.eqb_spec j i) as [->|Hji].
    + rewrite nth_lookup, list_lookup_insert_eq by lia. done.
    + rewrite !nth_lookup, list_lookup_insert_ne by lia. done.
  - by rewrite lookup_insert_ne.
Qed.

(** [s'] is [s] with other words in the addresses from [lo] to [hi]. *)
Record writes (lo hi : Z) (s s' : mstate) : Prop := {
  wr_word : forall p i, page_addr p -> 0 <= i < 1024 -> p + 4 * i + 4 <= lo \/ hi <= p + 4 * i ->
    word s' p i = word s p i;
  wr_hw : hw s' = hw s;
  wr_pool : forall u, the_pool u s' = the_pool u s;
  wr_backed : forall p, backed s p -> backed s' p
}.

Lemma writes_refl lo hi s : writes lo hi s s.
Proof. by constructor. Qed.

Lemma writes_weaken lo hi lo' hi' s s' : writes lo hi s s' -> lo' <= lo -> hi <= hi' -> writes lo' hi' s s'.
Proof. intros [Hw Hh Hp Hb] H1 H2. constructor; try done. intros p i Hp' Hi Ho. apply Hw; [done|done|lia]. Qed.

Lemma writes_trans lo hi s s1 s2 : writes lo hi s s1 -> writes lo hi s1 s2 -> writes lo hi s s2.
Proof.
  intros [W1 H1 P1 B1] [W2 H2 P2 B2]. constructor.
  - intros p i Hp Hi Ho. rewrite W2 by done. by apply W1.
  - congruence.
  - intros u. by rewrite P2.
  - intros p Hb. by apply B2, B1.
Qed.

Lemma writes_used lo hi s s' : writes lo hi s s' -> forall u a, used u s' a = used u s a.
Proof. intros Hw u a. unfold used. by rewrite (wr_pool _ _ _ _ Hw). Qed.

Lemma writes_palloc lo hi s s' : writes lo hi s s' -> palloc_ok s -> palloc_ok s'.
Proof.
  intros Hw [Hp Ha Hb]. pose proof (wr_pool _ _ _ _ Hw) as E. constructor.
  - intros u. rewrite E. apply Hp.
  - change (kernel_pool s') with (the_pool false s'). change (user_pool s') with (the_pool true s').
    rewrite !E. apply Ha.
  - intros u i. rewrite E. intros Hi. by apply (wr_backed _ _ _ _ Hw), Hb.
Qed.

Lemma put_writes s p i v :
  page_addr p -> backed s p -> 0 <= i < 1024 ->
  writes (p + 4 * i) (p + 4 * i + 4) s (put_word (p + 4 * i) v s).
Proof.
  intros Ha Hb Hi. constructor.
  - intros p' j Hp' Hj Ho. rewrite word_put_backed by done.
    destruct (Z.eqb_spec p' p) as [->|]; [|done]. by rewrite (proj2 (Z.eqb_neq j i)) by lia.
  - done.
  - by intros [].
  - intros p' Hp'. by apply backed_put.
Qed.

(** *** Bytes *)

Lemma set_byte_bit w k v n :
  0 <= k -> 0 <= n ->
  Z.testbit (set_byte w k v) n
  = if (8 * k <=? n) && (n <? 8 * k + 8) then Z.testbit v (n - 8 * k) else Z.testbit w n.
Proof.
  intros Hk Hn. unfold set_byte. rewrite Z.lor_spec, Z.land_spec, Z.lnot_spec by done.
  rewrite !Z.shiftl_spec by done. change 255 with (Z.ones 8). rewrite Z.land_spec.
  destruct (Z.leb_spec (8 * k) n); cbn [andb].
  - rewrite Z.testbit_ones_nonneg by lia. destruct (Z.ltb_spec (n - 8 * k) 8), (Z.ltb_spec n (8 * k + 8)); try lia; cbn.
    + by rewrite andb_false_r, andb_true_r.
    + by rewrite andb_true_r, andb_false_r, orb_false_r.
  - rewrite (Z.testbit_neg_r (Z.ones 8)) by lia. cbn. by rewrite andb_true_r, andb_false_r, orb_false_r.
Qed.

Lemma get_set_byte w k v j :
  0 <= k -> 0 <= j -> get_byte (set_byte w k v) j = if j =? k then Z.land v 255 else get_byte w j.
Proof.
  intros Hk Hj. apply Z.bits_inj'. intros n Hn. unfold get_byte. change 255 with (Z.ones 8).
  rewrite Z.land_spec, Z.shiftr_spec, Z.testbit_ones_nonneg, set_byte_bit by lia.
  destruct (Z.eqb_spec j k) as [->|Hne]; rewrite Z.land_spec, ?Z.shiftr_spec, Z.testbit_ones_nonneg by lia.
  - replace (n + 8 * k - 8 * k) with n by lia.
    destruct (Z.ltb_spec n 8); [|by rewrite !andb_false_r]. rewrite !andb_true_r.
    rewrite (proj2 (Z.leb_le _ _)), (proj2 (Z.ltb_lt _ _)) by lia. done.
  - destruct (Z.ltb_spec n 8); [|by rewrite !andb_false_r].
    destruct (Z.leb_spec (8 * k) (n + 8 * j)), (Z.ltb_spec (n + 8 * j) (8 * k + 8)); done || lia.
Qed.

Lemma word_of_bounds x lo hi :
  lo mod 4 = 0 -> hi mod 4 = 0 -> lo <= x < hi -> lo <= word_of x /\ word_of x + 4 <= hi.
Proof.
  intros Hl Hh Hx. unfold word_of. pose proof (Z.div_mod x 4 ltac:(lia)). pose proof (Z.mod_pos_bound x 4 ltac:(lia)).
  pose proof (Z.div_mod lo 4 ltac:(lia)). pose proof (Z.div_mod hi 4 ltac:(lia)). lia.
Qed.

Lemma load_byte_ok s x : addressable s x -> load_byte x s = Ok (byte s x, s).
Proof.
  intros [Ha Hb]. destruct (addr_split x) as [E Hi]. unfold load_byte. rewrite <- E.
  by mrun (load_backed s (page x) (word_no x) Ha Hb Hi).
Qed.

Lemma store_byte_ok s x v :
  addressable s x ->
  exists s', store_byte x v s = Ok (tt, s') /\ writes (word_of x) (word_of x + 4) s s' /\
    forall y, byte s' y = if y =? x then Z.land v 255 else byte s y.
Proof.
  intros [Ha Hb]. destruct (addr_split x) as [E Hi]. unfold store_byte. rewrite <- E.
  mrun (load_backed s (page x) (word_no x) Ha Hb Hi). rewrite store_backed by done.
  eexists. split; [done|]. split; [by apply put_writes|]. intros y.
  destruct (addr_split y) as [E' Hi']. unfold byte. rewrite word_put_backed by done.
  pose proof (Z.mod_pos_bound x 4 ltac:(lia)). pose proof (Z.mod_pos_bound y 4 ltac:(lia)).
  unfold word_of in *.
  destruct (Z.eqb_spec (page y) (page x)) as [Ep|Ep], (Z.eqb_spec (word_no y) (word_no x)) as [Ew|Ew]; cbn [andb].
  - rewrite get_set_byte by lia. rewrite Ep, Ew.
    destruct (Z.eqb_spec (y mod 4) (x mod 4)), (Z.eqb_spec y x); done || lia.
  - by destruct (Z.eqb_spec y x) as [->|].
  - by destruct (Z.eqb_spec y x) as [->|].
  - by destruct (Z.eqb_spec y x) as [->|].
Qed.

Lemma addressable_writes lo hi s s' x : writes lo hi s s' -> addressable s x -> addressable s' x.
Proof. intros Hw [Ha Hb]. split; [done|]. by apply (wr_backed _ _ _ _ Hw). Qed.

Section block.
Context (lo hi : Z) (Hlo : lo mod 4 = 0) (Hhi : hi mod 4 = 0).

Lemma memset_ok n x v s :
  lo <= x -> x + Z.of_nat n <= hi -> (forall y, lo <= y < hi -> addressable s y) ->
  exists s', memset n x v s = Ok (tt, s') /\ writes lo hi s s' /\
    forall y, byte s' y = if (x <=? y) && (y <? x + Z.of_nat n) then Z.land v 255 else byte s y.
Proof.
  revert x s. induction n as [|n IH]; intros x s Hx Hn Hadr; simpl.
  - exists s. split; [done|]. split; [apply writes_refl|]. intros y.
    destruct (Z.leb_spec x y), (Z.ltb_spec y (x + Z.of_nat 0)); done || lia.
  - destruct (store_byte_ok s x v) as (s1 & Hr & Hw & Hb); [apply Hadr; lia|]. mrun Hr.
    destruct (word_of_bounds x lo hi Hlo Hhi) as [H1 H2]; [lia|].
    apply (writes_weaken _ _ lo hi) in Hw; [|done|done].
    destruct (IH (x + 1) s1) as (s' & Hr' & Hw' & Hb'); [lia|lia| |].
    { intros y Hy. eapply addressable_writes; [done|]. by apply Hadr. }
    exists s'. split; [done|]. split; [by eapply writes_trans|]. intros y. rewrite Hb', Hb.
    destruct (Z.leb_spec (x + 1) y), (Z.ltb_spec y (x + 1 + Z.of_nat n)), (Z.eqb_spec y x),
      (Z.leb_spec x y), (Z.ltb_spec y (x + Z.of_nat (S n))); done || lia.
Qed.

Lemma memcpy_block n dst src s :
  lo <= dst -> dst + Z.of_nat n <= hi -> (forall y, lo <= y < hi -> addressable s y) ->
  (forall y, src <= y < src + Z.of_nat n -> addressable s y) ->
  src + Z.of_nat n <= lo \/ hi <= src ->
  exists s', memcpy n dst src s = Ok (tt, s') /\ writes lo hi s s' /\
    forall y, byte s' y = if (dst <=? y) && (y <? dst + Z.of_nat n) then byte s (src + (y - dst)) else byte s y.
Proof.
  revert dst src s. induction n as [|n IH]; intros dst src s Hx Hn Hadr Hsrc Hdis; simpl.
  - exists s. split; [done|]. split; [apply writes_refl|]. intros y.
    destruct (Z.leb_spec dst y), (Z.ltb_spec y (dst + Z.of_nat 0)); done || lia.
  - mrun (load_byte_ok s src (Hsrc src ltac:(lia))).
    destruct (store_byte_ok s dst (byte s src)) as (s1 & Hr & Hw & Hb); [apply Hadr; lia|]. mrun Hr.
    destruct (word_of_bounds dst lo hi Hlo Hhi) as [H1 H2]; [lia|].
    apply (writes_weaken _ _ lo hi) in Hw; [|done|done].
    destruct (IH (dst + 1) (src + 1) s1) as (s' & Hr' & Hw' & Hb'); [lia|lia| | |lia|].
    { intros y Hy. eapply addressable_writes; [done|]. by apply Hadr. }
    { intros y Hy. eapply addressable_writes; [done|]. apply Hsrc. lia. }
    exists s'. split; [done|]. split; [by eapply writes_trans|]. intros y. rewrite Hb', !Hb.
    assert (Z.land (byte s src) 255 = byte s src) as Eb.
    { unfold byte, get_byte. by rewrite <- Z.land_assoc. }
    destruct (Z.eq_dec y dst) as [->|Hne].
    + rewrite (proj2 (Z.leb_gt _ _)), (proj2 (Z.leb_le dst dst)), (proj2 (Z.ltb_lt dst (dst + Z.of_nat (S n)))) by lia.
      cbn [andb]. by rewrite Z.eqb_refl, Eb, Z.sub_diag, Z.add_0_r.
    + rewrite (proj2 (Z.eqb_neq y dst)) by done.
      destruct (Z.leb_spec (dst + 1) y), (Z.ltb_spec y (dst + 1 + Z.of_nat n)),
        (Z.leb_spec dst y), (Z.ltb_spec y (dst + Z.of_nat (S n))); cbn [andb]; try done; try lia.
      rewrite (proj2 (Z.eqb_neq _ dst)) by lia. f_equal. lia.
Qed.
End block.

End Malloc.
