(* ===== verification/MallocInv.v ===== *)
(** * The invariant of the block allocator

    A map of the arenas is ghost state: each arena is a page of blocks of one
    size or a big block of several pages.  [heap_ok] says that the headers in
    memory, the free lists and the page allocator agree with it.  The live
    blocks are those of the arenas that are on no free list; they never
    overlap. *)

From S2P Require Import Prelude Bitmap Palloc Pagedir Malloc.
Import Palloc Pagedir Malloc.

Module MallocInv.

(** ** Sizes *)

(** The blocks of descriptor [i], and their number in an arena. *)
Definition bsz (i : Z) : Z := 16 * 2 ^ i.
Definition bpa (i : Z) : Z := 4084 / bsz i.

Definition blk (a i idx : Z) : Z := a + 12 + idx * bsz i.

Lemma seven i : 0 <= i < 7 -> i = 0 \/ i = 1 \/ i = 2 \/ i = 3 \/ i = 4 \/ i = 5 \/ i = 6.
Proof. lia. Qed.

Lemma sizes i :
  0 <= i < 7 -> 16 <= bsz i <= 1024 /\ bsz i mod 4 = 0 /\ 3 <= bpa i <= 255 /\ bpa i * bsz i <= 4084.
Proof. intros Hi. by destruct (seven i Hi) as [->|[->|[->|[->|[->|[->| ->]]]]]]. Qed.

Lemma blk_bounds a i idx :
  0 <= i < 7 -> 0 <= idx < bpa i -> a + 12 <= blk a i idx /\ blk a i idx + bsz i <= a + 4096.
Proof.
  intros Hi Hx. destruct (sizes i Hi) as (H1 & _ & H2 & H3). unfold blk. split; [nia|].
  assert ((idx + 1) * bsz i <= bpa i * bsz i) by (apply Z.mul_le_mono_nonneg_r; lia). lia.
Qed.

Lemma page_inside a x : page_addr a -> a <= x < a + 4096 -> page x = a.
Proof.
  intros [Ha _] Hx. unfold page. pose proof (Z.div_mod a 4096 ltac:(lia)).
  assert (x / 4096 = a / 4096) as ->; [|lia]. symmetry. apply (Z.div_unique _ _ _ (x - a)); lia.
Qed.

Lemma page_blk a i idx : page_addr a -> 0 <= i < 7 -> 0 <= idx < bpa i -> page (blk a i idx) = a.
Proof.
  intros Ha Hi Hx. pose proof (blk_bounds a i idx Hi Hx). destruct (sizes i Hi) as (H1 & _).
  apply page_inside; [done|lia].
Qed.

Lemma blk_inj a i idx idx' : 0 <= i < 7 -> blk a i idx = blk a i idx' -> idx = idx'.
Proof. intros Hi E. destruct (sizes i Hi) as (H1 & _). unfold blk in E. nia. Qed.

Lemma blk_apart a i idx idx' :
  0 <= i < 7 -> idx <> idx' ->
  blk a i idx + bsz i <= blk a i idx' \/ blk a i idx' + bsz i <= blk a i idx.
Proof. intros Hi Hne. destruct (sizes i Hi) as (H1 & _). unfold blk. nia. Qed.

(** ** Arenas *)

Inductive kind : Type := Small (i : Z) | Big (n : Z).

Definition pages_of (k : kind) : Z := match k with Small _ => 1 | Big n => n end.
Definition code (k : kind) : Z := match k with Small i => desc_ptr i | Big _ => NULL end.
Definition kind_ok (k : kind) : Prop := match k with Small i => 0 <= i < 7 | Big n => 1 <= n < 1048576 end.

Lemma kind_pages k : kind_ok k -> 1 <= pages_of k.
Proof. destruct k; cbn; lia. Qed.

Definition fl (h : heap) (i : Z) : list Z :=
  match descs h !! Z.to_nat i with Some x => free_list x | None => [] end.

(** How many blocks of arena [a] are in a free list. *)
Definition free_in (a : Z) (l : list Z) : Z := Z.of_nat (length (filter (fun b => page b = a) l)).

Definition count (h : heap) (a : Z) (k : kind) : Z :=
  match k with Small i => free_in a (fl h i) | Big n => n end.

Record arena_ok (h : heap) (a : Z) (k : kind) : Prop := {
  ar_kind : kind_ok k;
  ar_addr : page_addr a;
  ar_used : page_group true false (mem h) a (pages_of k);
  ar_magic : word (mem h) a 0 = ARENA_MAGIC;
  ar_desc : word (mem h) a 1 = code k;
  ar_cnt : word (mem h) a 2 = count h a k
}.

(** A list of blocks of size class [i]. *)
Definition blocks_in (A : gmap Z kind) (i : Z) (l : list Z) : Prop :=
  forall b, b ∈ l -> exists a idx, A !! a = Some (Small i) /\ 0 <= idx < bpa i /\ b = blk a i idx.

Record heap_ok (h : heap) (A : gmap Z kind) : Prop := {
  ho_palloc : palloc_ok (mem h);
  ho_cnt : desc_cnt h = 7;
  ho_desc : forall i, 0 <= i < 7 -> descs h !! Z.to_nat i = Some (mkDesc (bsz i) (bpa i) (fl h i) false);
  ho_arena : forall a k, A !! a = Some k -> arena_ok h a k;
  ho_apart : forall a1 k1 a2 k2, A !! a1 = Some k1 -> A !! a2 = Some k2 -> a1 <> a2 ->
    a1 + 4096 * pages_of k1 <= a2 \/ a2 + 4096 * pages_of k2 <= a1;
  ho_nodup : forall i, 0 <= i < 7 -> NoDup (fl h i);
  ho_free : forall i, 0 <= i < 7 -> blocks_in A i (fl h i)
}.

(** The blocks in use, with their sizes. *)
Inductive live (h : heap) (A : gmap Z kind) : Z -> Z -> Prop :=
| live_small a i idx :
    A !! a = Some (Small i) -> 0 <= idx < bpa i -> blk a i idx ∉ fl h i -> live h A (blk a i idx) (bsz i)
| live_big a n : A !! a = Some (Big n) -> live h A (a + 12) (4096 * n - 12).

(** ** Live blocks do not overlap *)

Lemma live_inside h A p n :
  heap_ok h A -> live h A p n ->
  exists a k, A !! a = Some k /\ a + 12 <= p /\ p + n <= a + 4096 * pages_of k /\ 0 < n /\ p < a + 4096.
Proof.
  intros Hh Hl. destruct Hl as [a i idx HA Hx Hnf|a m HA].
  - pose proof (ar_kind _ _ _ (ho_arena _ _ Hh _ _ HA)) as Hi. cbn in Hi. destruct (sizes i Hi) as (H1 & _).
    pose proof (blk_bounds a i idx Hi Hx). exists a, (Small i). cbn. split; [done|]. lia.
  - pose proof (ar_kind _ _ _ (ho_arena _ _ Hh _ _ HA)) as Hk. cbn in Hk. exists a, (Big m). cbn. split; [done|]. lia.
Qed.

Lemma live_disjoint h A p n q m :
  heap_ok h A -> live h A p n -> live h A q m -> p <> q -> p + n <= q \/ q + m <= p.
Proof.
  intros Hh Hp Hq Hne. destruct (live_inside h A p n Hh Hp) as (a & k & HA & Hb).
  destruct (live_inside h A q m Hh Hq) as (a' & k' & HA' & Hb').
  destruct (Z.eq_dec a a') as [<-|Ha].
  2:{ destruct (ho_apart _ _ Hh a k a' k' HA HA' Ha); lia. }
  destruct Hp as [a1 i idx HA1 Hx Hnf|a1 n' HA1].
  - pose proof (ho_arena _ _ Hh _ _ HA1) as Har. pose proof (ar_kind _ _ _ Har) as Hi. cbn in Hi.
    pose proof (blk_bounds a1 i idx Hi Hx) as Hbb. destruct (sizes i Hi) as (Hs & _).
    assert (a1 = a) as ->.
    { destruct (Z.eq_dec a1 a); [done|]. destruct (ho_apart _ _ Hh a1 _ a _ HA1 HA); cbn in *; lia. }
    destruct Hq as [a2 j jdx HA2 Hy Hnf'|a2 m' HA2].
    + pose proof (ar_kind _ _ _ (ho_arena _ _ Hh _ _ HA2)) as Hj. cbn in Hj.
      pose proof (blk_bounds a2 j jdx Hj Hy). destruct (sizes j Hj) as (Hs' & _).
      assert (a2 = a) as ->.
      { destruct (Z.eq_dec a2 a); [done|]. destruct (ho_apart _ _ Hh a2 _ a _ HA2 HA); cbn in *; lia. }
      rewrite HA1 in HA2. injection HA2 as <-. apply blk_apart; [done|]. congruence.
    + assert (a2 = a) as ->.
      { destruct (Z.eq_dec a2 a); [done|]. destruct (ho_apart _ _ Hh a2 _ a _ HA2 HA); cbn in *; lia. }
      congruence.
  - destruct Hq as [a2 j jdx HA2 Hy Hnf'|a2 m' HA2].
    + pose proof (ar_kind _ _ _ (ho_arena _ _ Hh _ _ HA2)) as Hj. cbn in Hj.
      pose proof (blk_bounds a2 j jdx Hj Hy). destruct (sizes j Hj) as (Hs' & _).
      destruct (Z.eq_dec a1 a2) as [->|]; [congruence|].
      destruct (ho_apart _ _ Hh a1 _ a2 _ HA1 HA2); cbn in *; lia.
    + destruct (Z.eq_dec a1 a2) as [->|]; [lia|]. destruct (ho_apart _ _ Hh a1 _ a2 _ HA1 HA2); cbn in *; lia.
Qed.

(** ** Reading headers *)

Lemma lift_run {A} (m : M mstate A) h x s : m (mem h) = Ok (x, s) -> lift m h = Ok (x, set_mem s h).
Proof. unfold lift. by intros ->. Qed.

Lemma lift_read {A} (m : M mstate A) h x : m (mem h) = Ok (x, mem h) -> lift m h = Ok (x, h).
Proof. intros H. rewrite (lift_run m h x (mem h) H). by destruct h. Qed.

Lemma used_backed u s a : palloc_ok s -> page_addr a -> used u s a = true -> backed s a.
Proof.
  intros Hs [Ha _] Hu. apply used_from_pool in Hu. pose proof (pa_pool _ Hs u) as Hp.
  rewrite page_from_pool_ok in Hu by done. pose proof (pool_index _ a Hp) as Hi.
  assert (a = page_at (the_pool u s) (pg_no a - pg_no (base (the_pool u s)))) as E.
  { unfold page_at, PGSIZE. pose proof (pool_base_div _ Hp). rewrite (pg_no_div a).
    pose proof (Z.div_mod a 4096 ltac:(lia)). lia. }
  rewrite E. apply (pa_backed _ Hs). unfold pool_end, page_at, PGSIZE in *. lia.
Qed.

(** Every page of an arena is in memory. *)
Lemma arena_page h A a k j :
  heap_ok h A -> A !! a = Some k -> 0 <= j < pages_of k ->
  page_addr (a + 4096 * j) /\ backed (mem h) (a + 4096 * j) /\ used false (mem h) (a + 4096 * j) = true.
Proof.
  intros Hh HA Hj. destruct (ho_arena _ _ Hh _ _ HA) as [Hk Ha [Ho Hg] _ _ _].
  pose proof (ho_palloc _ _ Hh) as Hs.
  destruct (Hg (a + 4096 * j)) as [Hf Hu]; [apply in_pages_spec; lia|].
  assert (page_addr (a + 4096 * j)) as Hpa.
  { destruct Ha as [Hm Hb]. split; [rewrite Z.mul_comm, Z.mod_add by lia; done|]. split; [lia|].
    rewrite page_from_pool_ok in Hf by apply (pa_pool _ Hs false). pose proof (po_high _ (pa_pool _ Hs false)). lia. }
  split; [done|]. split; [|done]. by eapply used_backed.
Qed.

Lemma arena_backed h A a k : heap_ok h A -> A !! a = Some k -> page_addr a /\ backed (mem h) a.
Proof.
  intros Hh HA. assert (1 <= pages_of k) as Hk.
  { pose proof (ar_kind _ _ _ (ho_arena _ _ Hh _ _ HA)). destruct k; cbn in *; lia. }
  destruct (arena_page h A a k 0 Hh HA ltac:(lia)) as (H1 & H2 & _). by rewrite Z.mul_0_r, Z.add_0_r in *.
Qed.

(** The three words of a header. *)
Record header (h : heap) (a d c : Z) : Prop := {
  hd_addr : page_addr a;
  hd_backed : backed (mem h) a;
  hd_magic : word (mem h) a 0 = ARENA_MAGIC;
  hd_desc : word (mem h) a 1 = d;
  hd_cnt : word (mem h) a 2 = c
}.

Lemma get_magic_run h a d c : header h a d c -> get_magic a h = Ok (ARENA_MAGIC, h).
Proof.
  intros [Ha Hb Hm _ _]. apply lift_read. rewrite <- Hm. pose proof (load_backed (mem h) a 0 Ha Hb ltac:(lia)) as H.
  by rewrite Z.mul_0_r, Z.add_0_r in H.
Qed.

Lemma get_desc_run h a d c : header h a d c -> get_desc a h = Ok (d, h).
Proof. intros [Ha Hb _ Hd _]. apply lift_read. rewrite <- Hd. by apply (load_backed (mem h) a 1). Qed.

Lemma get_free_cnt_run h a d c : header h a d c -> get_free_cnt a h = Ok (c, h).
Proof. intros [Ha Hb _ _ Hc]. apply lift_read. rewrite <- Hc. by apply (load_backed (mem h) a 2). Qed.

Lemma set_free_cnt_run h a d c v :
  header h a d c -> set_free_cnt a v h = Ok (tt, set_mem (put_word (a + 8) v (mem h)) h) /\
  header (set_mem (put_word (a + 8) v (mem h)) h) a d v.
Proof.
  intros [Ha Hb Hm Hd Hc]. split; [apply lift_run; by apply (store_backed (mem h) a 2)|].
  change (a + 8) with (a + 4 * 2). constructor; cbn; try done; try (rewrite word_put_backed by (done || lia);
    rewrite Z.eqb_refl; done). by apply backed_put.
Qed.

Lemma arena_header h A a k : heap_ok h A -> A !! a = Some k -> header h a (code k) (count h a k).
Proof.
  intros Hh HA. destruct (arena_backed h A a k Hh HA). destruct (ho_arena _ _ Hh _ _ HA). by constructor.
Qed.

(** The descriptors have their sizes, whatever their lists and locks. *)
Definition shape (h : heap) : Prop :=
  forall i, 0 <= i < 7 -> exists x, descs h !! Z.to_nat i = Some x /\ d_block_size x = bsz i /\ blocks_per_arena x = bpa i.

Lemma heap_shape h A : heap_ok h A -> shape h.
Proof. intros Hh i Hi. eexists. split; [by apply (ho_desc _ _ Hh)|]. done. Qed.

Lemma the_desc_run h i x : descs h !! Z.to_nat i = Some x -> the_desc i h = Ok (x, h).
Proof. intros H. unfold the_desc, gets_opt. by rewrite H. Qed.

Lemma pg_ofs_inside a x : page_addr a -> a <= x < a + 4096 -> pg_ofs x = x - a.
Proof.
  intros Ha Hx. pose proof (page_inside a x Ha Hx) as E. unfold page in E. rewrite pg_ofs_mod.
  pose proof (Z.div_mod x 4096 ltac:(lia)). lia.
Qed.

Lemma pg_round_down_inside a x : page_addr a -> a <= x < a + 4096 -> pg_round_down x = a.
Proof.
  intros Ha Hx. pose proof (page_addr_bound a Ha). destruct Ha as [Hm Hb]. unfold PHYS_BASE in *.
  rewrite pg_round_down_ok by (unfold in_u32; lia). by apply page_inside.
Qed.

Lemma block_to_arena_small h a i idx c :
  header h a (desc_ptr i) c -> shape h -> 0 <= i < 7 -> 0 <= idx < bpa i ->
  block_to_arena (blk a i idx) h = Ok (a, h).
Proof.
  intros Hd Hsh Hi Hx. pose proof (hd_addr _ _ _ _ Hd) as Ha. pose proof (blk_bounds a i idx Hi Hx) as Hb.
  destruct (sizes i Hi) as (Hs & _). destruct (Hsh i Hi) as (x & Hx1 & Hx2 & _).
  unfold block_to_arena. rewrite (pg_round_down_inside a) by (done || lia).
  rewrite (proj2 (Z.eqb_neq a NULL)) by (destruct Ha; unfold NULL, PHYS_BASE in *; lia). cbn [negb]. mnorm.
  mrun (get_magic_run h a _ _ Hd). rewrite Z.eqb_refl. mnorm. mrun (get_desc_run h a _ _ Hd).
  rewrite (proj2 (Z.eqb_neq (desc_ptr i) NULL)) by (unfold desc_ptr, NULL; lia). cbn [negb orb].
  replace (desc_idx (desc_ptr i)) with i by (unfold desc_idx, desc_ptr; lia). mnorm.
  mrun (the_desc_run h i x Hx1). rewrite (pg_ofs_inside a) by (done || lia). rewrite Hx2.
  replace (u32 (blk a i idx - a - ARENA_SIZE) mod bsz i) with 0; [done|].
  rewrite u32_id by (unfold ARENA_SIZE; lia). unfold blk, ARENA_SIZE.
  replace (a + 12 + idx * bsz i - a - 12) with (idx * bsz i) by lia. symmetry. apply Z.mod_mul. lia.
Qed.

Lemma block_to_arena_big h a c : header h a NULL c -> block_to_arena (a + 12) h = Ok (a, h).
Proof.
  intros Hd. pose proof (hd_addr _ _ _ _ Hd) as Ha. unfold block_to_arena.
  rewrite (pg_round_down_inside a), (pg_ofs_inside a) by (done || lia).
  rewrite (proj2 (Z.eqb_neq a NULL)) by (destruct Ha; unfold NULL, PHYS_BASE in *; lia). cbn [negb]. mnorm.
  mrun (get_magic_run h a _ _ Hd). rewrite Z.eqb_refl. mnorm. mrun (get_desc_run h a _ _ Hd).
  rewrite Z.eqb_refl. cbn [negb orb]. mnorm.
  replace (a + 12 - a =? ARENA_SIZE) with true by (symmetry; apply Z.eqb_eq; unfold ARENA_SIZE; lia). done.
Qed.

Lemma arena_to_block_run h a i idx c :
  header h a (desc_ptr i) c -> shape h -> 0 <= i < 7 -> 0 <= idx < bpa i ->
  arena_to_block a idx h = Ok (blk a i idx, h).
Proof.
  intros Hd Hsh Hi Hx. destruct (Hsh i Hi) as (x & Hx1 & Hx2 & Hx3).
  pose proof (hd_addr _ _ _ _ Hd) as Ha. unfold arena_to_block.
  rewrite (proj2 (Z.eqb_neq a NULL)) by (destruct Ha; unfold NULL, PHYS_BASE in *; lia). cbn [negb]. mnorm.
  mrun (get_magic_run h a _ _ Hd). rewrite Z.eqb_refl. mnorm. mrun (get_desc_run h a _ _ Hd).
  replace (desc_idx (desc_ptr i)) with i by (unfold desc_idx, desc_ptr; lia).
  mrun (the_desc_run h i x Hx1). rewrite Hx2, Hx3, (proj2 (Z.ltb_lt _ _)) by lia. mnorm. done.
Qed.

(** ** Changing one free list *)

Definition with_list (h : heap) (i : Z) (l : list Z) (s : mstate) : heap :=
  mkHeap s (<[Z.to_nat i := mkDesc (bsz i) (bpa i) l false]> (descs h)) (desc_cnt h).

Lemma fl_with_list h A i l s j :
  heap_ok h A -> 0 <= i < 7 -> 0 <= j < 7 -> fl (with_list h i l s) j = if j =? i then l else fl h j.
Proof.
  intros Hh Hi Hj. unfold fl, with_list. cbn. pose proof (ho_desc _ _ Hh i Hi) as Hx. apply lookup_lt_Some in Hx.
  destruct (Z.eqb_spec j i) as [->|Hne].
  - by rewrite list_lookup_insert_eq.
  - by rewrite list_lookup_insert_ne by lia.
Qed.

Lemma desc_with_list h A i l s j :
  heap_ok h A -> 0 <= i < 7 -> 0 <= j < 7 ->
  descs (with_list h i l s) !! Z.to_nat j = Some (mkDesc (bsz j) (bpa j) (fl (with_list h i l s) j) false).
Proof.
  intros Hh Hi Hj. rewrite (fl_with_list h A) by done. cbn. pose proof (ho_desc _ _ Hh i Hi) as Hx.
  apply lookup_lt_Some in Hx. destruct (Z.eqb_spec j i) as [->|Hne].
  - by rewrite list_lookup_insert_eq.
  - rewrite list_lookup_insert_ne by lia. by apply (ho_desc _ _ Hh).
Qed.

Lemma used_group s a n :
  pg_ofs a = 0 -> (forall x, in_pages a n x = true -> used false s x = true) -> page_group true false s a n.
Proof. intros Ho Hu. split; [done|]. intros x Hx. split; [by apply used_from_pool, Hu|by apply Hu]. Qed.

(** An arena is not affected by a change elsewhere. *)
Lemma arena_keep h h' a k :
  arena_ok h a k ->
  (forall x, in_pages a (pages_of k) x = true -> used false (mem h') x = true) ->
  (forall j, 0 <= j < 3 -> word (mem h') a j = word (mem h) a j) ->
  count h' a k = count h a k -> arena_ok h' a k.
Proof.
  intros [Hk Ha [Ho Hg] Hm Hd Hc] Hu Hw Hcnt. constructor; try done.
  - by apply used_group.
  - by rewrite Hw.
  - by rewrite Hw.
  - rewrite Hw by lia. by rewrite Hcnt.
Qed.

Lemma arena_used h a k x : arena_ok h a k -> in_pages a (pages_of k) x = true -> used false (mem h) x = true.
Proof. intros Har Hx. by apply (ar_used _ _ _ Har). Qed.

(** ** Counting *)

Lemma free_in_cons a b l : free_in a (b :: l) = (if decide (page b = a) then 1 else 0) + free_in a l.
Proof. unfold free_in. rewrite filter_cons. case_decide; cbn; lia. Qed.

Lemma free_in_none a l : (forall b, b ∈ l -> page b <> a) -> free_in a l = 0.
Proof.
  intros Hn. induction l as [|b l IH]; [done|]. rewrite free_in_cons, decide_False by (apply Hn; by left).
  rewrite IH; [done|]. intros x Hx. apply Hn. by right.
Qed.

Lemma free_in_all a l : (forall b, b ∈ l -> page b = a) -> free_in a l = Z.of_nat (length l).
Proof.
  intros Hn. induction l as [|b l IH]; [done|]. rewrite free_in_cons, decide_True by (apply Hn; by left).
  rewrite IH; [cbn; lia|]. intros x Hx. apply Hn. by right.
Qed.

(** The blocks of one arena on its free list. *)
Definition blocks_of (a i : Z) : list Z := map (blk a i) (seqZ 0 (bpa i)).

Lemma elem_blocks_of a i b : b ∈ blocks_of a i <-> exists idx, 0 <= idx < bpa i /\ b = blk a i idx.
Proof.
  unfold blocks_of. rewrite list_elem_of_fmap. split.
  - intros (idx & -> & H%elem_of_seqZ). exists idx. split; [lia|done].
  - intros (idx & H & ->). exists idx. split; [done|]. apply elem_of_seqZ. lia.
Qed.

Lemma blocks_of_nodup a i : 0 <= i < 7 -> NoDup (blocks_of a i).
Proof.
  intros Hi. unfold blocks_of. apply NoDup_fmap_2_strong; [|apply NoDup_seqZ].
  intros x y _ _ E. by eapply blk_inj.
Qed.

Lemma blocks_of_length a i : 0 <= i < 7 -> Z.of_nat (length (blocks_of a i)) = bpa i.
Proof. intros Hi. destruct (sizes i Hi) as (_ & _ & H & _). unfold blocks_of. rewrite length_fmap, length_seqZ. lia. Qed.

(** The blocks of arena [a] in a list whose blocks are blocks of arenas. *)
Lemma in_arena h A i a l b :
  heap_ok h A -> 0 <= i < 7 ->
  blocks_in A i l ->
  b ∈ filter (fun x => page x = a) l -> b ∈ blocks_of a i.
Proof.
  intros Hh Hi Hl [Hp Hin]%list_elem_of_filter. destruct (Hl b Hin) as (a' & idx & HA & Hx & ->).
  destruct (arena_backed h A a' _ Hh HA) as [Ha _]. rewrite page_blk in Hp by done. subst a'.
  apply elem_blocks_of. eauto.
Qed.

Lemma free_in_le h A i a l :
  heap_ok h A -> 0 <= i < 7 -> NoDup l ->
  blocks_in A i l ->
  free_in a l <= bpa i.
Proof.
  intros Hh Hi Hnd Hl. rewrite <- (blocks_of_length a i Hi). unfold free_in. apply Nat2Z.inj_le.
  apply submseteq_length, NoDup_submseteq; [by apply NoDup_filter|]. intros b. by eapply in_arena.
Qed.

(** When an arena has as many free blocks as it has blocks, all are free. *)
Lemma all_free h A i a l b :
  heap_ok h A -> 0 <= i < 7 -> NoDup l ->
  blocks_in A i l ->
  free_in a l = bpa i -> b ∈ blocks_of a i -> b ∈ l.
Proof.
  intros Hh Hi Hnd Hl Hc Hb.
  assert (incl (blocks_of a i) (filter (fun x => page x = a) l)) as Hincl.
  { apply NoDup_length_incl.
    - apply NoDup_ListNoDup. by apply NoDup_filter.
    - pose proof (blocks_of_length a i Hi) as Hlen. unfold free_in in Hc. lia.
    - intros x Hx. apply list_elem_of_In. eapply in_arena; [done|done|done|]. by apply list_elem_of_In. }
  specialize (Hincl b). rewrite <- !list_elem_of_In in Hincl. by apply Hincl, list_elem_of_filter in Hb as [_ ?].
Qed.

(** ** Taking the first block *)

(** The free list of one class and one header change; [d] is the change of
    the count. *)
Section one_class.
Context (h : heap) (A : gmap Z kind) (i a : Z) (l : list Z).
Context (Hh : heap_ok h A) (Hi : 0 <= i < 7) (HA : A !! a = Some (Small i)).
Context (Hnd : NoDup l) (Hl : blocks_in A i l).
Context (Hothers : forall a', a' <> a -> free_in a' l = free_in a' (fl h i)).
Context (s : mstate) (Hwr : writes (a + 8) (a + 4096) (mem h) s) (Hcnt : word s a 2 = free_in a l).

Let h' : heap := with_list h i l s.

Lemma one_class_ok : heap_ok h' A.
Proof.
  pose proof (fun j => fl_with_list h A i l s j Hh Hi) as Hfl.
  destruct (arena_backed h A a _ Hh HA) as [Haddr _]. constructor.
  - apply (writes_palloc _ _ _ _ Hwr), (ho_palloc _ _ Hh).
  - apply (ho_cnt _ _ Hh).
  - intros j Hj. by apply (desc_with_list h A).
  - intros a' k HA'. pose proof (ho_arena _ _ Hh _ _ HA') as Har. destruct (arena_backed h A a' k Hh HA') as [Haddr' _].
    destruct (Z.eq_dec a' a) as [->|Hne].
    + assert (k = Small i) as -> by congruence. destruct Har as [Hk Ha Hg Hm Hd Hc]. constructor; try done.
      * apply used_group; [apply Hg|]. intros x Hx. cbn. rewrite (writes_used _ _ _ _ Hwr). by apply Hg.
      * cbn. by rewrite (wr_word _ _ _ _ Hwr) by (done || lia).
      * cbn. rewrite (wr_word _ _ _ _ Hwr) by (done || lia). exact Hd.
      * cbn [count mem with_list]. unfold h'. rewrite Hfl, Z.eqb_refl by done. exact Hcnt.
    + apply (arena_keep h); [done| | |].
      * intros x Hx. cbn. rewrite (writes_used _ _ _ _ Hwr). by apply (arena_used h a' k).
      * intros j Hj. cbn. apply (wr_word _ _ _ _ Hwr); [done|lia|].
        destruct (ho_apart _ _ Hh a' k a _ HA' HA Hne) as [H|H]; cbn in H; [|lia].
        assert (1 <= pages_of k) by (pose proof (ar_kind _ _ _ Har); destruct k; cbn in *; lia). lia.
      * destruct k as [j|n]; [|done]. cbn [count]. pose proof (ar_kind _ _ _ Har) as Hj. cbn in Hj.
        unfold h'. rewrite Hfl by done. destruct (Z.eqb_spec j i) as [->|]; [|done]. by apply Hothers.
  - apply (ho_apart _ _ Hh).
  - intros j Hj. unfold h'. rewrite Hfl by done. destruct (j =? i); [done|]. by apply (ho_nodup _ _ Hh).
  - intros j Hj. unfold h'. rewrite Hfl by done. destruct (Z.eqb_spec j i) as [->|]; [done|]. by apply (ho_free _ _ Hh).
Qed.

Lemma one_class_live p n :
  live h' A p n <->
  (live h A p n /\ ~ (p ∈ l /\ p ∉ fl h i)) \/ (p ∈ fl h i /\ (p ∉ l) /\ n = bsz i).
Proof.
  pose proof (fun j => fl_with_list h A i l s j Hh Hi) as Hfl. split.
  - intros [a' j idx HA' Hx Hn|a' m HA'].
    + pose proof (ar_kind _ _ _ (ho_arena _ _ Hh _ _ HA')) as Hj. cbn in Hj. unfold h' in Hn.
      rewrite Hfl in Hn by done. destruct (Z.eqb_spec j i) as [->|Hji].
      * destruct (decide (blk a' i idx ∈ fl h i)) as [Hf|Hf]; [by right|]. left. split; [by apply live_small|]. by intros [? _].
      * left. split; [by apply live_small|]. intros [Hin Hnf]. apply Hl in Hin as (a2 & idx2 & HA2 & Hx2 & E).
        destruct (arena_backed h A _ _ Hh HA') as [P1 _]. destruct (arena_backed h A _ _ Hh HA2) as [P2 _].
        pose proof (page_blk a' j idx P1 Hj Hx) as E1. pose proof (page_blk a2 i idx2 P2 Hi Hx2) as E2.
        rewrite E, E2 in E1. subst a2. congruence.
    + left. split; [by apply live_big|]. intros [Hin _]. apply Hl in Hin as (a2 & idx2 & HA2 & Hx2 & E).
      destruct (arena_backed h A _ _ Hh HA') as [P1 _]. destruct (arena_backed h A _ _ Hh HA2) as [P2 _].
      pose proof (page_inside a' (a' + 12) P1 ltac:(lia)) as E1. pose proof (page_blk a2 i idx2 P2 Hi Hx2) as E2.
      rewrite E, E2 in E1. subst a2. congruence.
  - intros [[Hlive Hnot]|(Hf & Hnl & ->)].
    + destruct Hlive as [a' j idx HA' Hx Hn|a' m HA']; [|by apply live_big].
      pose proof (ar_kind _ _ _ (ho_arena _ _ Hh _ _ HA')) as Hj. cbn in Hj. apply live_small; [done|done|].
      unfold h'. rewrite Hfl by done. destruct (Z.eqb_spec j i) as [->|]; [|done]. naive_solver.
    + destruct (ho_free _ _ Hh i Hi p Hf) as (a' & idx & HA' & Hx & ->). apply live_small; [done|done|].
      unfold h'. by rewrite Hfl, Z.eqb_refl.
Qed.
End one_class.

(** ** New arenas *)

Lemma pages_pos h a k : arena_ok h a k -> 1 <= pages_of k.
Proof. intros Har. by apply kind_pages, (ar_kind _ _ _ Har). Qed.

(** Newly allocated pages are apart from every arena. *)
Lemma fresh_apart h A zero n a s a' k' :
  heap_ok h A -> 1 <= n -> got false zero n a (mem h) s -> A !! a' = Some k' ->
  a' + 4096 * pages_of k' <= a \/ a + 4096 * n <= a'.
Proof.
  intros Hh Hn Hg HA'. pose proof (ho_arena _ _ Hh _ _ HA') as Har. pose proof (pages_pos _ _ _ Har) as Hk.
  destruct (Z.le_gt_cases (a' + 4096 * pages_of k') a) as [|H1]; [by left|].
  destruct (Z.le_gt_cases (a + 4096 * n) a') as [|H2]; [by right|]. exfalso.
  destruct (got_free _ _ _ _ _ _ Hg) as [_ Hf]. destruct (Hf (Z.max a a')) as [_ H].
  { apply in_pages_spec. lia. }
  rewrite (arena_used h a' k') in H; [done|done|]. apply in_pages_spec. lia.
Qed.

Section new_arena.
Context (h : heap) (A : gmap Z kind) (zero : bool) (a : Z) (k : kind) (s1 s : mstate).
Context (Hh : heap_ok h A) (Hk : kind_ok k).
Context (Hg : got false zero (pages_of k) a (mem h) s1) (Hwr : writes a (a + 12) s1 s).
Context (Hmagic : word s a 0 = ARENA_MAGIC) (Hdesc : word s a 1 = code k).

Lemma new_addr : page_addr a.
Proof.
  destruct (got_bounds _ _ _ _ _ _ Hg) as [Hl Hu]. destruct (got_free _ _ _ _ _ _ Hg) as [Ho _].
  rewrite pg_ofs_mod in Ho. split; [done|]. unfold PGSIZE in Hu. pose proof (kind_pages k Hk). lia.
Qed.

Lemma new_none : A !! a = None.
Proof.
  destruct (A !! a) as [k'|] eqn:HA; [|done]. pose proof (pages_pos _ _ _ (ho_arena _ _ Hh _ _ HA)).
  destruct (fresh_apart h A zero (pages_of k) a s1 a k' Hh (kind_pages k Hk) Hg HA) as [H'|H'];
    pose proof (kind_pages k Hk); lia.
Qed.

Lemma new_used x : used false s x = in_pages a (pages_of k) x || used false (mem h) x.
Proof. by rewrite (writes_used _ _ _ _ Hwr), (got_used _ _ _ _ _ _ Hg). Qed.

(** Words outside the new pages are unchanged. *)
Lemma new_words p j :
  page_addr p -> 0 <= j < 1024 -> p + 4096 <= a \/ a + 4096 * pages_of k <= p -> word s p j = word (mem h) p j.
Proof.
  intros Hp Hj Ho. pose proof (kind_pages k Hk).
  rewrite (wr_word _ _ _ _ Hwr) by (done || lia). unfold word.
  rewrite (got_other _ _ _ _ _ _ Hg); [done|]. apply not_true_iff_false. rewrite in_pages_spec. lia.
Qed.

Lemma new_others h' a' k' :
  mem h' = s -> A !! a' = Some k' -> count h' a' k' = count h a' k' -> arena_ok h' a' k'.
Proof.
  intros Hm HA' Hc. pose proof (ho_arena _ _ Hh _ _ HA') as Har. apply (arena_keep h); [done| | |done].
  - intros x Hx. rewrite Hm, new_used, (arena_used h a' k') by done. apply orb_true_r.
  - intros j Hj. rewrite Hm. apply new_words; [apply (ar_addr _ _ _ Har)|lia|].
    pose proof (kind_pages k Hk). pose proof (pages_pos _ _ _ Har).
    destruct (fresh_apart h A zero (pages_of k) a s1 a' k' Hh (kind_pages k Hk) Hg HA'); lia.
Qed.

(** The other parts of the invariant. *)
Lemma new_heap_ok h' :
  mem h' = s -> desc_cnt h' = 7 ->
  (forall i, 0 <= i < 7 -> descs h' !! Z.to_nat i = Some (mkDesc (bsz i) (bpa i) (fl h' i) false)) ->
  (forall a' k', A !! a' = Some k' -> count h' a' k' = count h a' k') ->
  word s a 2 = count h' a k ->
  (forall i, 0 <= i < 7 -> NoDup (fl h' i)) ->
  (forall i, 0 <= i < 7 -> blocks_in (<[a := k]> A) i (fl h' i)) ->
  heap_ok h' (<[a := k]> A).
Proof.
  intros Hm Hc Hd Hcount Hcnt Hnd Hf. pose proof new_addr as Ha. constructor; try done.
  - rewrite Hm. apply (writes_palloc _ _ _ _ Hwr), (got_ok _ _ _ _ _ _ Hg).
  - intros a' k' [[<- <-]|[Hne HA']]%lookup_insert_Some.
    + constructor; rewrite ?Hm; try done. apply used_group; [apply (got_free _ _ _ _ _ _ Hg)|].
      intros x Hx. by rewrite new_used, Hx.
    + apply new_others; auto.
  - intros a1 k1 a2 k2 [[<- <-]|[Hn1 HA1]]%lookup_insert_Some [[<- <-]|[Hn2 HA2]]%lookup_insert_Some Hne; try done.
    + destruct (fresh_apart h A zero (pages_of k) a s1 a2 k2 Hh (kind_pages k Hk) Hg HA2); [by right|by left].
    + destruct (fresh_apart h A zero (pages_of k) a s1 a1 k1 Hh (kind_pages k Hk) Hg HA1); [by left|by right].
    + by apply (ho_apart _ _ Hh).
Qed.
End new_arena.

Lemma blocks_in_weaken A i l a k : blocks_in A i l -> A !! a = None -> blocks_in (<[a := k]> A) i l.
Proof.
  intros Hl Hn b Hb. destruct (Hl b Hb) as (a' & idx & HA & Hx & ->). exists a', idx.
  rewrite lookup_insert_ne by (intros ->; congruence). done.
Qed.

(** No block of a list of blocks lies in a page that is no arena. *)
Lemma free_in_fresh h A i l a : heap_ok h A -> 0 <= i < 7 -> blocks_in A i l -> A !! a = None -> free_in a l = 0.
Proof.
  intros Hh Hi Hl Hn. apply free_in_none. intros b Hb. destruct (Hl b Hb) as (a' & idx & HA & Hx & ->).
  destruct (arena_backed h A _ _ Hh HA) as [Ha _]. rewrite page_blk by done. congruence.
Qed.

Lemma add_big h A zero a n s1 s :
  heap_ok h A -> 1 <= n < 1048576 -> got false zero n a (mem h) s1 -> writes a (a + 12) s1 s ->
  word s a 0 = ARENA_MAGIC -> word s a 1 = NULL -> word s a 2 = n ->
  heap_ok (set_mem s h) (<[a := Big n]> A) /\
  forall p m, live (set_mem s h) (<[a := Big n]> A) p m <-> live h A p m \/ (p = a + 12 /\ m = 4096 * n - 12).
Proof.
  intros Hh Hn Hg Hwr Hw0 Hw1 Hw2. pose proof (new_none h A zero a (Big n) s1 Hh Hn Hg) as Hnone. split.
  - apply (new_heap_ok h A zero a (Big n) s1 s); try done; try apply Hh.
    intros i Hi. apply blocks_in_weaken; [by apply Hh|done].
  - intros p m. split.
    + intros [a' i idx [[_ ?]|[Hne HA]]%lookup_insert_Some Hx Hnf|a' n' [[<- [= <-]]|[Hne HA]]%lookup_insert_Some];
        [done|left; by apply live_small|by right|left; by apply live_big].
    + intros [[a' i idx HA Hx Hnf|a' n' HA]|[-> ->]].
      * apply live_small; [|done|done]. by rewrite lookup_insert_ne by (intros ->; congruence).
      * apply live_big. by rewrite lookup_insert_ne by (intros ->; congruence).
      * apply live_big. apply lookup_insert_eq.
Qed.

Lemma add_small h A zero a i s1 s :
  heap_ok h A -> 0 <= i < 7 -> fl h i = [] -> got false zero 1 a (mem h) s1 -> writes a (a + 12) s1 s ->
  word s a 0 = ARENA_MAGIC -> word s a 1 = desc_ptr i -> word s a 2 = bpa i ->
  let h1 := with_list h i (blocks_of a i) s in
  heap_ok h1 (<[a := Small i]> A) /\ forall p m, live h1 (<[a := Small i]> A) p m <-> live h A p m.
Proof.
  intros Hh Hi Hempty Hg Hwr Hw0 Hw1 Hw2 h1.
  pose proof (new_none h A zero a (Small i) s1 Hh Hi Hg) as Hnone.
  pose proof (new_addr h zero a (Small i) s1 Hi Hg) as Ha.
  assert (blocks_in (<[a := Small i]> A) i (blocks_of a i)) as Hin.
  { intros b (idx & Hx & ->)%elem_blocks_of. exists a, idx. by rewrite lookup_insert_eq. }
  assert (forall b, b ∈ blocks_of a i -> page b = a) as Hpage.
  { intros b (idx & Hx & ->)%elem_blocks_of. by apply page_blk. }
  pose proof (fun j => fl_with_list h A i (blocks_of a i) s j Hh Hi) as Hfl. fold h1 in Hfl. split.
  - apply (new_heap_ok h A zero a (Small i) s1 s); try done.
    + apply Hh.
    + intros j Hj. by apply (desc_with_list h A).
    + intros a' [j|n'] HA'; [|done]. pose proof (ar_kind _ _ _ (ho_arena _ _ Hh _ _ HA')) as Hj. cbn in Hj.
      cbn [count]. rewrite Hfl by done. destruct (Z.eqb_spec j i) as [->|]; [|done]. rewrite Hempty.
      apply free_in_none. intros b Hb. rewrite (Hpage b Hb). congruence.
    + cbn [count]. rewrite Hfl, Z.eqb_refl, Hw2 by done. rewrite <- (blocks_of_length a i Hi).
      symmetry. by apply free_in_all.
    + intros j Hj. rewrite Hfl by done. destruct (j =? i); [by apply blocks_of_nodup|by apply Hh].
    + intros j Hj. rewrite Hfl by done. destruct (Z.eqb_spec j i) as [->|]; [done|].
      apply blocks_in_weaken; [by apply Hh|done].
  - intros p m. split.
    + intros [a' j idx [[<- [= <-]]|[Hne HA]]%lookup_insert_Some Hx Hnf|a' n' [[_ ?]|[Hne HA]]%lookup_insert_Some].
      * destruct Hnf. rewrite Hfl, Z.eqb_refl by done. apply elem_blocks_of. eauto.
      * pose proof (ar_kind _ _ _ (ho_arena _ _ Hh _ _ HA)) as Hj. cbn in Hj. apply live_small; [done|done|].
        rewrite Hfl in Hnf by done. destruct (Z.eqb_spec j i) as [->|]; [|done]. rewrite Hempty. apply not_elem_of_nil.
      * done.
      * by apply live_big.
    + intros [a' j idx HA Hx Hnf|a' n' HA].
      * pose proof (ar_kind _ _ _ (ho_arena _ _ Hh _ _ HA)) as Hj. cbn in Hj.
        destruct (arena_backed h A _ _ Hh HA) as [Pa _].
        apply live_small; [by rewrite lookup_insert_ne by (intros ->; congruence)|done|].
        rewrite Hfl by done. destruct (Z.eqb_spec j i) as [->|]; [|done]. intros Hb%Hpage.
        rewrite page_blk in Hb by done. congruence.
      * apply live_big. by rewrite lookup_insert_ne by (intros ->; congruence).
Qed.

(** ** Arenas that go *)

Section old_arena.
Context (h : heap) (A : gmap Z kind) (a : Z) (k : kind) (s : mstate).
Context (Hh : heap_ok h A) (HA : A !! a = Some k) (Hf : freed false (pages_of k) a (mem h) s).

Lemma old_apart a' k' x :
  A !! a' = Some k' -> a' <> a -> in_pages a' (pages_of k') x = true -> in_pages a (pages_of k) x = false.
Proof.
  intros HA' Hne Hx. apply not_true_iff_false. rewrite !in_pages_spec in *.
  destruct (ho_apart _ _ Hh a' k' a k HA' HA Hne); lia.
Qed.

Lemma old_others h' a' k' :
  mem h' = s -> A !! a' = Some k' -> a' <> a -> count h' a' k' = count h a' k' -> arena_ok h' a' k'.
Proof.
  intros Hm HA' Hne Hc. pose proof (ho_arena _ _ Hh _ _ HA') as Har. apply (arena_keep h); [done| | |done].
  - intros x Hx. rewrite Hm, (fr_used _ _ _ _ _ Hf), (old_apart a' k' x), (arena_used h a' k') by done. done.
  - intros j Hj. rewrite Hm. unfold word. rewrite (fr_other _ _ _ _ _ Hf); [done|].
    apply (old_apart a' k'); [done|done|]. pose proof (pages_pos _ _ _ Har). apply in_pages_spec. lia.
Qed.

Lemma old_heap_ok h' :
  mem h' = s -> desc_cnt h' = 7 ->
  (forall i, 0 <= i < 7 -> descs h' !! Z.to_nat i = Some (mkDesc (bsz i) (bpa i) (fl h' i) false)) ->
  (forall a' k', A !! a' = Some k' -> a' <> a -> count h' a' k' = count h a' k') ->
  (forall i, 0 <= i < 7 -> NoDup (fl h' i)) ->
  (forall i, 0 <= i < 7 -> blocks_in (delete a A) i (fl h' i)) ->
  heap_ok h' (delete a A).
Proof.
  intros Hm Hc Hd Hcount Hnd Hfr. constructor; try done.
  - rewrite Hm. apply Hf.
  - intros a' k' [Hne HA']%lookup_delete_Some. apply not_eq_sym in Hne. apply old_others; auto.
  - intros a1 k1 a2 k2 [_ H1]%lookup_delete_Some [_ H2]%lookup_delete_Some. by apply (ho_apart _ _ Hh).
Qed.
End old_arena.

Lemma remove_big h A a n s :
  heap_ok h A -> A !! a = Some (Big n) -> freed false n a (mem h) s ->
  heap_ok (set_mem s h) (delete a A) /\
  forall p m, live (set_mem s h) (delete a A) p m <-> live h A p m /\ p <> a + 12.
Proof.
  intros Hh HA Hf. split.
  - apply (old_heap_ok h A a (Big n) s); try done; try apply Hh.
    intros i Hi b Hb. destruct (ho_free _ _ Hh i Hi b Hb) as (a' & idx & HA' & Hx & ->). exists a', idx.
    rewrite lookup_delete_ne by (intros ->; congruence). done.
  - assert (forall a' k', A !! a' = Some k' -> a' <> a -> forall p, a' <= p < a' + 4096 -> p <> a + 12) as Hout.
    { intros a' k' HA' Hne p Hp ->. pose proof (pages_pos _ _ _ (ho_arena _ _ Hh _ _ HA')).
      pose proof (pages_pos _ _ _ (ho_arena _ _ Hh _ _ HA)).
      destruct (ho_apart _ _ Hh a' k' a _ HA' HA Hne); lia. }
    intros p m. split.
    + intros [a' i idx [Hne HA']%lookup_delete_Some Hx Hnf|a' n' [Hne HA']%lookup_delete_Some].
      * pose proof (ar_kind _ _ _ (ho_arena _ _ Hh _ _ HA')) as Hi. cbn in Hi. destruct (sizes i Hi) as (H1 & _).
        split; [by apply live_small|]. pose proof (blk_bounds a' i idx Hi Hx). apply (Hout a' _ HA'); [done|lia].
      * split; [by apply live_big|]. apply (Hout a' _ HA'); [done|lia].
    + intros [[a' i idx HA' Hx Hnf|a' n' HA'] Hne].
      * apply live_small; [|done|done]. by rewrite lookup_delete_ne by (intros ->; congruence).
      * apply live_big. rewrite lookup_delete_ne by (intros ->; lia). done.
Qed.

Lemma remove_small h A a i s :
  heap_ok h A -> 0 <= i < 7 -> A !! a = Some (Small i) -> freed false 1 a (mem h) s ->
  (forall b, b ∈ blocks_of a i -> b ∈ fl h i) ->
  let h' := with_list h i (filter (fun b => page b <> a) (fl h i)) s in
  heap_ok h' (delete a A) /\ forall p m, live h' (delete a A) p m <-> live h A p m.
Proof.
  intros Hh Hi HA Hf Hall h'.
  pose proof (fun j => fl_with_list h A i (filter (fun b => page b <> a) (fl h i)) s j Hh Hi) as Hfl. fold h' in Hfl.
  split.
  - apply (old_heap_ok h A a (Small i) s); try done.
    + apply Hh.
    + intros j Hj. by apply (desc_with_list h A).
    + intros a' [j|n] HA' Hne; [|done]. pose proof (ar_kind _ _ _ (ho_arena _ _ Hh _ _ HA')) as Hj. cbn in Hj.
      cbn [count]. rewrite Hfl by done. destruct (Z.eqb_spec j i) as [->|]; [|done].
      unfold free_in. do 2 f_equal. rewrite list_filter_filter. apply list_filter_iff. naive_solver.
    + intros j Hj. rewrite Hfl by done. destruct (j =? i); [apply NoDup_filter|]; by apply Hh.
    + intros j Hj b. rewrite Hfl by done. destruct (Z.eqb_spec j i) as [->|Hji].
      * intros [Hp Hb]%list_elem_of_filter. destruct (ho_free _ _ Hh i Hi b Hb) as (a' & idx & HA' & Hx & ->).
        destruct (arena_backed h A _ _ Hh HA') as [Pa _]. rewrite page_blk in Hp by done.
        exists a', idx. by rewrite lookup_delete_ne.
      * intros Hb. destruct (ho_free _ _ Hh j Hj b Hb) as (a' & idx & HA' & Hx & ->). exists a', idx.
        rewrite lookup_delete_ne by (intros ->; congruence). done.
  - intros p m. split.
    + intros [a' j idx [Hne HA']%lookup_delete_Some Hx Hnf|a' n' [Hne HA']%lookup_delete_Some]; [|by apply live_big].
      pose proof (ar_kind _ _ _ (ho_arena _ _ Hh _ _ HA')) as Hj. cbn in Hj. apply live_small; [done|done|].
      rewrite Hfl in Hnf by done. destruct (Z.eqb_spec j i) as [->|]; [|done]. intros Hb. apply Hnf.
      apply list_elem_of_filter. split; [|done]. destruct (arena_backed h A _ _ Hh HA') as [Pa _]. by rewrite page_blk.
    + intros [a' j idx HA' Hx Hnf|a' n' HA'].
      * pose proof (ar_kind _ _ _ (ho_arena _ _ Hh _ _ HA')) as Hj. cbn in Hj.
        apply live_small; [|done|].
        -- rewrite lookup_delete_ne; [done|]. intros ->. assert (j = i) as -> by congruence.
           apply Hnf, Hall, elem_blocks_of. eauto.
        -- rewrite Hfl by done. destruct (Z.eqb_spec j i) as [->|]; [|done]. by intros [_ ?]%list_elem_of_filter.
      * apply live_big. rewrite lookup_delete_ne by (intros ->; congruence). done.
Qed.

End MallocInv.
