(* ===== verification/MallocLeak.v ===== *)
(** * The block allocator gives memory back

    Two more invariants: no arena of small blocks is without a live block, and
    the pages that are in use and belong to no arena are always the same.  So
    when the last block has been freed, the page allocator is as it was. *)

From S2P Require Import Prelude Bitmap Palloc Pagedir Malloc MallocInv.
Import Palloc Pagedir Malloc MallocInv.

Module MallocLeak.

(** Every arena of small blocks has a block in use. *)
Definition tight (h : heap) (A : gmap Z kind) : Prop :=
  forall a i, A !! a = Some (Small i) -> free_in a (fl h i) < bpa i.

(** The address lies in an arena. *)
Definition foot (A : gmap Z kind) (x : Z) : Prop :=
  exists a k, A !! a = Some k /\ in_pages a (pages_of k) x = true.

(** The pages of the kernel pool that others have allocated. *)
Definition rest (h : heap) (A : gmap Z kind) (x : Z) : Prop := used false (mem h) x = true /\ ~ foot A x.

Record thrifty (h : heap) (A : gmap Z kind) (h' : heap) (A' : gmap Z kind) : Prop := {
  th_tight : tight h A -> tight h' A';
  th_rest : forall x, rest h' A' x <-> rest h A x
}.

Lemma thrifty_refl h A : thrifty h A h A.
Proof. done. Qed.

Lemma thrifty_trans h A h1 A1 h2 A2 : thrifty h A h1 A1 -> thrifty h1 A1 h2 A2 -> thrifty h A h2 A2.
Proof. intros [T1 R1] [T2 R2]. constructor; [auto|]. intros x. by rewrite R2, R1. Qed.

(** Writing to memory changes neither. *)
Lemma thrifty_writes lo hi s h A : writes lo hi (mem h) s -> thrifty h A (set_mem s h) A.
Proof. intros Hw. constructor; [done|]. intros x. unfold rest. cbn. by rewrite (writes_used _ _ _ _ Hw). Qed.

(** The free list of class [i] changes, and the count of one arena with it. *)
Lemma thrifty_list h A i a l lo hi s :
  heap_ok h A -> 0 <= i < 7 -> A !! a = Some (Small i) -> writes lo hi (mem h) s ->
  (forall a', a' <> a -> free_in a' l = free_in a' (fl h i)) -> free_in a l < bpa i ->
  thrifty h A (with_list h i l s) A.
Proof.
  intros Hh Hi HA Hw Ho Hlt. constructor.
  - intros Ht a' j HA'. pose proof (ar_kind _ _ _ (ho_arena _ _ Hh _ _ HA')) as Hj. cbn in Hj.
    rewrite (fl_with_list h A) by done. destruct (Z.eqb_spec j i) as [->|]; [|by apply Ht].
    destruct (Z.eq_dec a' a) as [->|Hne]; [done|]. rewrite Ho by done. by apply Ht.
  - intros x. unfold rest. cbn. by rewrite (writes_used _ _ _ _ Hw).
Qed.

(** A new arena. *)
Lemma rest_new h A zero a k s1 s h' :
  heap_ok h A -> kind_ok k -> got false zero (pages_of k) a (mem h) s1 -> writes a (a + 12) s1 s -> mem h' = s ->
  forall x, rest h' (<[a := k]> A) x <-> rest h A x.
Proof.
  intros Hh Hk Hg Hw Hm x. unfold rest. rewrite Hm, (new_used h zero a k s1 s Hg Hw), orb_true_iff.
  pose proof (new_none h A zero a k s1 Hh Hk Hg) as Hnone.
  assert (foot (<[a := k]> A) x <-> in_pages a (pages_of k) x = true \/ foot A x) as Hfoot.
  { split.
    - intros (a' & k' & [[<- <-]|[Hne HA']]%lookup_insert_Some & Hx); [by left|]. right. by exists a', k'.
    - intros [Hx|(a' & k' & HA' & Hx)]; [exists a, k; by rewrite lookup_insert_eq|].
      exists a', k'. rewrite lookup_insert_ne by (intros ->; congruence). done. }
  rewrite Hfoot. split; [naive_solver|]. intros [Hu Hnf]. split; [by right|]. intros [Hx|]; [|done].
  destruct (got_free _ _ _ _ _ _ Hg) as [_ Hf]. destruct (Hf x Hx) as [_ H]. congruence.
Qed.

(** An arena that goes. *)
Lemma rest_old h A a k s h' :
  heap_ok h A -> A !! a = Some k -> freed false (pages_of k) a (mem h) s -> mem h' = s ->
  forall x, rest h' (delete a A) x <-> rest h A x.
Proof.
  intros Hh HA Hf Hm x. unfold rest. rewrite Hm, (fr_used _ _ _ _ _ Hf), andb_true_iff, negb_true_iff. cbn [Bool.eqb andb].
  assert (foot A x <-> in_pages a (pages_of k) x = true \/ foot (delete a A) x) as Hfoot.
  { split.
    - intros (a' & k' & HA' & Hx). destruct (Z.eq_dec a' a) as [->|Hne]; [left; congruence|].
      right. exists a', k'. by rewrite lookup_delete_ne.
    - intros [Hx|(a' & k' & [Hne HA']%lookup_delete_Some & Hx)]; [by exists a, k|by exists a', k']. }
  rewrite Hfoot. destruct (in_pages a (pages_of k) x); naive_solver.
Qed.

(** A new arena of which one block is taken at once. *)
Lemma thrifty_new_small h A a i s1 s l :
  heap_ok h A -> 0 <= i < 7 -> fl h i = [] -> got false false 1 a (mem h) s1 -> writes a (a + 12) s1 s ->
  Z.of_nat (length l) < bpa i -> (forall b, b ∈ l -> page b = a) ->
  thrifty h A (with_list h i l s) (<[a := Small i]> A).
Proof.
  intros Hh Hi He Hg Hw Hlen Hin. constructor; [|by apply (rest_new h A false a (Small i) s1 s)].
  intros Ht a' j [[<- [= <-]]|[Hne HA']]%lookup_insert_Some.
  - rewrite (fl_with_list h A), Z.eqb_refl, free_in_all by done. done.
  - pose proof (ar_kind _ _ _ (ho_arena _ _ Hh _ _ HA')) as Hj. rewrite (fl_with_list h A) by done.
    destruct (Z.eqb_spec j i) as [->|]; [|by apply Ht].
    rewrite free_in_none; [destruct (sizes i Hi) as (_ & _ & ? & _); lia|]. intros b Hb. by rewrite (Hin b Hb).
Qed.

Lemma thrifty_new_big h A a n s1 s :
  heap_ok h A -> 1 <= n < 1048576 -> got false false n a (mem h) s1 -> writes a (a + 12) s1 s ->
  thrifty h A (set_mem s h) (<[a := Big n]> A).
Proof.
  intros Hh Hn Hg Hw. constructor; [|by apply (rest_new h A false a (Big n) s1 s)].
  intros Ht a' j [[_ ?]|[_ HA']]%lookup_insert_Some; [done|by apply Ht].
Qed.

(** The last block of an arena is freed. *)
Lemma thrifty_emptied h A a i l s2 s3 lo hi :
  heap_ok h A -> 0 <= i < 7 -> A !! a = Some (Small i) ->
  let h2 := with_list h i l s2 in
  heap_ok h2 A -> writes lo hi (mem h) s2 -> (forall a', a' <> a -> free_in a' l = free_in a' (fl h i)) ->
  freed false 1 a s2 s3 ->
  thrifty h A (with_list h2 i (filter (fun b => page b <> a) (fl h2 i)) s3) (delete a A).
Proof.
  intros Hh Hi HA h2 Hh2 Hw Ho Hf. constructor.
  - intros Ht a' j [Hne HA']%lookup_delete_Some. apply not_eq_sym in Hne.
    pose proof (ar_kind _ _ _ (ho_arena _ _ Hh _ _ HA')) as Hj. cbn in Hj. specialize (Ht a' j HA').
    rewrite (fl_with_list h2 A) by done. unfold h2. rewrite !(fl_with_list h A) by done. rewrite Z.eqb_refl.
    destruct (Z.eqb_spec j i) as [->|]; [|done]. unfold free_in in *. rewrite list_filter_filter.
    specialize (Ho a' Hne). unfold free_in in Ho. rewrite <- Ho in Ht.
    by rewrite (list_filter_iff _ (fun b => page b = a')) by naive_solver.
  - intros x. rewrite (rest_old h2 A a (Small i) s3) by done.
    unfold rest, h2. cbn. by rewrite (writes_used _ _ _ _ Hw).
Qed.

(** A big block is freed. *)
Lemma thrifty_old_big h A a n s :
  heap_ok h A -> A !! a = Some (Big n) -> freed false n a (mem h) s -> thrifty h A (set_mem s h) (delete a A).
Proof.
  intros Hh HA Hf. constructor; [|by apply (rest_old h A a (Big n) s)].
  intros Ht a' j [_ HA']%lookup_delete_Some. by apply Ht.
Qed.

(** When no block is live, there is no arena. *)
Lemma tight_empty h A : heap_ok h A -> tight h A -> (forall p n, ~ live h A p n) -> A = ∅.
Proof.
  intros Hh Ht Hnone. apply map_empty. intros a. destruct (A !! a) as [[i|n]|] eqn:HA; [exfalso|exfalso|done].
  - pose proof (ar_kind _ _ _ (ho_arena _ _ Hh _ _ HA)) as Hi. cbn in Hi. specialize (Ht a i HA).
    destruct (arena_backed h A _ _ Hh HA) as [Pa _].
    assert (bpa i <= free_in a (fl h i)); [|lia].
    rewrite <- (blocks_of_length a i Hi). unfold free_in. apply Nat2Z.inj_le.
    apply submseteq_length, NoDup_submseteq; [by apply blocks_of_nodup|]. intros b (idx & Hx & ->)%elem_blocks_of.
    apply list_elem_of_filter. split; [by apply page_blk|]. destruct (decide (blk a i idx ∈ fl h i)) as [|Hn]; [done|].
    by destruct (Hnone (blk a i idx) (bsz i)); apply live_small.
  - by destruct (Hnone (a + 12) (4096 * n - 12)); apply live_big.
Qed.

End MallocLeak.
