(* ===== verification/MallocOps.v ===== *)
(** * The block allocator's operations

    Each function of src/src/threads/malloc.c runs to completion on a
    consistent heap and changes the set of live blocks as it should. *)

From S2P Require Import Prelude Bitmap Palloc Pagedir Malloc MallocInv MallocLeak.
Import Palloc Pagedir Malloc MallocInv MallocLeak.

Module MallocOps.

(** ** Contents of live blocks *)

Definition kept (h : heap) (A : gmap Z kind) (s' : mstate) : Prop :=
  forall q m x, live h A q m -> q <= x < q + m -> byte s' x = byte (mem h) x.

Lemma live_aligned h A q m : heap_ok h A -> live h A q m -> q mod 4 = 0 /\ (q + m) mod 4 = 0.
Proof.
  intros Hh Hl. assert (forall a k, A !! a = Some k -> exists b, a = 4 * b) as Ha.
  { intros a k HA. destruct (arena_backed h A a k Hh HA) as [[Hm _] _]. exists (1024 * (a / 4096)).
    pose proof (Z.div_mod a 4096 ltac:(lia)). lia. }
  assert (forall b, (4 * b) mod 4 = 0) as H4 by (intros b; rewrite Z.mul_comm; by apply Z.mod_mul).
  destruct Hl as [a i idx HA Hx Hnf|a n HA]; destruct (Ha a _ HA) as [b ->].
  - pose proof (ar_kind _ _ _ (ho_arena _ _ Hh _ _ HA)) as Hi. cbn in Hi.
    assert (exists c, bsz i = 4 * c) as [c Ec].
    { destruct (sizes i Hi) as (_ & H & _). exists (bsz i / 4). pose proof (Z.div_mod (bsz i) 4 ltac:(lia)). lia. }
    unfold blk. rewrite Ec. replace (4 * b + 12 + idx * (4 * c)) with (4 * (b + 3 + idx * c)) by lia.
    replace (4 * (b + 3 + idx * c) + 4 * c) with (4 * (b + 3 + idx * c + c)) by lia. by rewrite !H4.
  - replace (4 * b + 12 + (4096 * n - 12)) with (4 * (b + 1024 * n)) by lia.
    replace (4 * b + 12) with (4 * (b + 3)) by lia. by rewrite !H4.
Qed.

(** The page of an address in a live block belongs to the block's arena. *)
Lemma live_page h A q m x :
  heap_ok h A -> live h A q m -> q <= x < q + m ->
  exists a k, A !! a = Some k /\ a <= page x /\ page x + 4096 <= a + 4096 * pages_of k /\
    page_addr (page x) /\ backed (mem h) (page x) /\ used false (mem h) (page x) = true.
Proof.
  intros Hh Hl Hx. destruct (live_inside h A q m Hh Hl) as (a & k & HA & H1 & H2 & _).
  destruct (arena_backed h A a k Hh HA) as [[Hm _] _].
  pose proof (Z.div_mod a 4096 ltac:(lia)). pose proof (Z.div_mod x 4096 ltac:(lia)).
  pose proof (Z.mod_pos_bound x 4096 ltac:(lia)).
  assert (0 <= x / 4096 - a / 4096 < pages_of k) as Hj by lia.
  pose proof (arena_page h A a k _ Hh HA Hj) as Hp.
  replace (a + 4096 * (x / 4096 - a / 4096)) with (page x) in Hp by (unfold page; lia).
  exists a, k. split; [done|]. unfold page in *. split; [lia|]. split; [lia|done].
Qed.

Lemma live_addressable h A q m x : heap_ok h A -> live h A q m -> q <= x < q + m -> addressable (mem h) x.
Proof. intros Hh Hl Hx. destruct (live_page h A q m x Hh Hl Hx) as (a & k & _ & _ & _ & H1 & H2 & _). by split. Qed.

(** A write outside the live blocks keeps them. *)
Lemma byte_writes lo hi h A s' q m x :
  heap_ok h A -> live h A q m -> q <= x < q + m -> writes lo hi (mem h) s' -> q + m <= lo \/ hi <= q ->
  byte s' x = byte (mem h) x.
Proof.
  intros Hh Hl Hx Hw Ho. destruct (live_aligned h A q m Hh Hl) as [E1 E2].
  destruct (word_of_bounds x q (q + m) E1 E2 Hx) as [B1 B2]. destruct (addr_split x) as [Es Hi].
  destruct (live_addressable h A q m x Hh Hl Hx) as [Ha _].
  unfold byte. rewrite (wr_word _ _ _ _ Hw) by (done || lia). done.
Qed.

(** A write to a header keeps the live blocks. *)
Lemma header_kept h A a k lo hi s' :
  heap_ok h A -> A !! a = Some k -> a <= lo -> hi <= a + 12 -> writes lo hi (mem h) s' -> kept h A s'.
Proof.
  intros Hh HA Hlo Hhi Hw q m x Hl Hx. eapply byte_writes; try done.
  destruct (live_inside h A q m Hh Hl) as (a' & k' & HA' & H1 & H2 & H3 & _).
  destruct (Z.eq_dec a' a) as [->|Hne]; [lia|].
  pose proof (pages_pos _ _ _ (ho_arena _ _ Hh _ _ HA)).
  destruct (ho_apart _ _ Hh a' k' a k HA' HA Hne); lia.
Qed.

(** So does a new arena, and one that goes, if it has no live block. *)
Lemma new_kept h A zero n a s1 s :
  heap_ok h A -> 1 <= n -> got false zero n a (mem h) s1 -> writes a (a + 12) s1 s -> kept h A s.
Proof.
  intros Hh Hn Hg Hw q m x Hl Hx. destruct (live_page h A q m x Hh Hl Hx) as (a' & k' & HA' & H1 & H2 & Hp & _).
  destruct (addr_split x) as [_ Hi]. unfold byte. f_equal.
  pose proof (fresh_apart h A zero n a s1 a' k' Hh Hn Hg HA') as Hap.
  rewrite (wr_word _ _ _ _ Hw) by (done || lia). unfold word. rewrite (got_other _ _ _ _ _ _ Hg); [done|].
  apply not_true_iff_false. rewrite in_pages_spec. lia.
Qed.

Lemma old_kept h A a k s q m x :
  heap_ok h A -> A !! a = Some k -> freed false (pages_of k) a (mem h) s ->
  live h A q m -> q <= x < q + m -> ~ (a <= q < a + 4096) -> byte s x = byte (mem h) x.
Proof.
  intros Hh HA Hf Hl Hx Hout. destruct (live_inside h A q m Hh Hl) as (a' & k' & HA' & H1 & H2 & _ & H4).
  assert (a' <> a) as Hne by (intros ->; lia).
  destruct (arena_backed h A a' _ Hh HA') as [[Hm _] _]. pose proof (Z.div_mod a' 4096 ltac:(lia)).
  pose proof (Z.div_mod x 4096 ltac:(lia)). pose proof (Z.mod_pos_bound x 4096 ltac:(lia)).
  unfold byte, word. rewrite (fr_other _ _ _ _ _ Hf); [done|].
  apply (old_apart h A a k Hh HA a' k'); [done|done|]. apply in_pages_spec. unfold page. lia.
Qed.

(** ** The size class *)

Lemma find_desc_run n d size h :
  shape h -> 0 <= d -> d + Z.of_nat n = 7 ->
  exists r, find_desc n d size h = Ok (r, h) /\ d <= r <= 7 /\ (r < 7 -> size <= bsz r) /\
    (forall j, d <= j < r -> bsz j < size).
Proof.
  intros Hsh. revert d. induction n as [|n IH]; intros d Hd Hn; cbn [find_desc].
  - exists d. split; [done|]. split; [lia|]. split; [lia|]. intros j Hj. lia.
  - destruct (Hsh d ltac:(lia)) as (x & Hx & Hb & _). mrun (the_desc_run h d x Hx). rewrite Hb, Z.geb_leb.
    destruct (Z.leb_spec size (bsz d)) as [Hle|Hgt].
    + exists d. split; [done|]. split; [lia|]. split; [done|]. intros j Hj. lia.
    + destruct (IH (d + 1)) as (r & Hr & H1 & H2 & H3); [lia|lia|]. exists r. split; [done|].
      split; [lia|]. split; [done|]. intros j Hj. destruct (Z.eq_dec j d) as [->|]; [done|]. apply H3. lia.
Qed.

(** ** Runs on descriptors *)

Lemma upd_desc_run h i x f :
  descs h !! Z.to_nat i = Some x ->
  upd_desc i f h = Ok (tt, set_descs (<[Z.to_nat i := f x]> (descs h)) h).
Proof. intros Hx. unfold upd_desc. by mrun (the_desc_run h i x Hx). Qed.

Lemma seqZ_S j n : seqZ j (Z.of_nat (S n)) = j :: seqZ (j + 1) (Z.of_nat n).
Proof.
  rewrite seqZ_cons by lia. replace (Z.pred (Z.of_nat (S n))) with (Z.of_nat n) by lia.
  by replace (Z.succ j) with (j + 1) by lia.
Qed.

(** A heap whose descriptor [i] has the list [l] and is locked. *)
Definition locked (h : heap) (i : Z) (l : list Z) (s : mstate) : heap :=
  mkHeap s (<[Z.to_nat i := mkDesc (bsz i) (bpa i) l true]> (descs h)) (desc_cnt h).

Section locked.
Context (h : heap) (A : gmap Z kind) (i : Z) (Hh : heap_ok h A) (Hi : 0 <= i < 7).

Lemma locked_desc l s : descs (locked h i l s) !! Z.to_nat i = Some (mkDesc (bsz i) (bpa i) l true).
Proof. cbn. apply list_lookup_insert_eq. pose proof (ho_desc _ _ Hh i Hi) as Hx. by apply lookup_lt_Some in Hx. Qed.

Lemma locked_shape l s : shape (locked h i l s).
Proof.
  intros j Hj. destruct (Z.eq_dec j i) as [->|Hne]; [by eexists; split; [apply locked_desc|]|].
  cbn. rewrite list_lookup_insert_ne by lia. by apply (heap_shape h A).
Qed.

Lemma acquire_run : desc_acquire i h = Ok (tt, locked h i (fl h i) (mem h)).
Proof.
  pose proof (ho_desc _ _ Hh i Hi) as Hx. unfold desc_acquire. mrun (the_desc_run h i _ Hx). cbn [d_lock negb]. mnorm.
  by rewrite (upd_desc_run h i _ _ Hx).
Qed.

Lemma release_run l s : desc_release i (locked h i l s) = Ok (tt, with_list h i l s).
Proof.
  unfold desc_release. mrun (the_desc_run _ i _ (locked_desc l s)). cbn [d_lock]. mnorm.
  rewrite (upd_desc_run _ i _ _ (locked_desc l s)). unfold set_descs, locked, with_list. cbn.
  by rewrite list_insert_insert_eq.
Qed.

Lemma set_list_run l l' s f :
  set_free_list (f (mkDesc (bsz i) (bpa i) l true)) (mkDesc (bsz i) (bpa i) l true) = mkDesc (bsz i) (bpa i) l' true ->
  upd_desc i (fun x => set_free_list (f x) x) (locked h i l s) = Ok (tt, locked h i l' s).
Proof.
  intros Hf. rewrite (upd_desc_run _ i _ _ (locked_desc l s)). rewrite Hf. unfold set_descs, locked. cbn.
  by rewrite list_insert_insert_eq.
Qed.

Lemma locked_mem l s s' : set_mem s' (locked h i l s) = locked h i l s'.
Proof. done. Qed.

(** Adding and removing the blocks of an arena. *)
Lemma add_blocks_run n a c j l s :
  header (locked h i l s) a (desc_ptr i) c -> 0 <= j -> j + Z.of_nat n = bpa i ->
  add_blocks n a i j (locked h i l s) = Ok (tt, locked h i (l ++ map (blk a i) (seqZ j (Z.of_nat n))) s).
Proof.
  revert j l. induction n as [|n IH]; intros j l Hd Hj Hn; cbn [add_blocks].
  - by rewrite app_nil_r.
  - mrun (arena_to_block_run _ a i j c Hd (locked_shape l s) Hi ltac:(lia)).
    rewrite (bind_ok _ _ _ _ _ (set_list_run l (l ++ [blk a i j]) s (fun x => free_list x ++ [blk a i j]) eq_refl)).
    rewrite IH; [|by destruct Hd|lia|lia].
    rewrite (seqZ_S j n). cbn [map]. by rewrite <- app_assoc.
Qed.

Lemma remove_blocks_run n a c j l s :
  header (locked h i l s) a (desc_ptr i) c -> 0 <= j -> j + Z.of_nat n = bpa i ->
  (forall idx, j <= idx < bpa i -> blk a i idx ∈ l) ->
  remove_blocks n a i j (locked h i l s)
  = Ok (tt, locked h i (filter (fun b => b ∉ map (blk a i) (seqZ j (Z.of_nat n))) l) s).
Proof.
  revert j l. induction n as [|n IH]; intros j l Hd Hj Hn Hall; cbn [remove_blocks].
  - unfold ret. do 3 f_equal. symmetry. cbn. induction l as [|b l IHl]; [done|]. rewrite filter_cons, decide_True.
    + f_equal. apply IHl; [by destruct Hd|]. intros idx Hidx. lia.
    + apply not_elem_of_nil.
  - mrun (arena_to_block_run _ a i j c Hd (locked_shape l s) Hi ltac:(lia)).
    unfold list_remove. rewrite bind_bind. mrun (the_desc_run _ i _ (locked_desc l s)). cbn [free_list].
    rewrite decide_True by (apply Hall; lia).
    rewrite (bind_ok _ _ _ _ _ (set_list_run l (filter (fun y => y <> blk a i j) l) s
      (fun _ => filter (fun y => y <> blk a i j) l) eq_refl)).
    rewrite IH; [|by destruct Hd|lia|lia|].
    + do 3 f_equal. rewrite list_filter_filter. apply list_filter_iff. intros b.
      rewrite (seqZ_S j n). cbn [map].
      rewrite not_elem_of_cons. naive_solver.
    + intros idx Hidx. apply list_elem_of_filter. split; [|apply Hall; lia].
      intros E%blk_inj; [lia|done].
Qed.
End locked.

(** ** [malloc] *)

Lemma make_header g a d c :
  page_addr a -> backed (mem g) a ->
  exists s g1 g2,
    (set_magic a ARENA_MAGIC g = Ok (tt, g1) /\ set_desc a d g1 = Ok (tt, g2) /\
     set_free_cnt a c g2 = Ok (tt, set_mem s g)) /\
    writes a (a + 12) (mem g) s /\ word s a 0 = ARENA_MAGIC /\ word s a 1 = d /\ word s a 2 = c.
Proof.
  intros Ha Hb. set (s1 := put_word (a + 4 * 0) ARENA_MAGIC (mem g)).
  set (s2 := put_word (a + 4 * 1) d s1). set (s3 := put_word (a + 4 * 2) c s2).
  pose proof (put_writes (mem g) a 0 ARENA_MAGIC Ha Hb ltac:(lia)) as W1. fold s1 in W1.
  pose proof (wr_backed _ _ _ _ W1 a Hb) as Hb1.
  pose proof (put_writes s1 a 1 d Ha Hb1 ltac:(lia)) as W2. fold s2 in W2. pose proof (wr_backed _ _ _ _ W2 a Hb1) as Hb2.
  pose proof (put_writes s2 a 2 c Ha Hb2 ltac:(lia)) as W3. fold s3 in W3.
  exists s3, (set_mem s1 g), (set_mem s2 g). split.
  - split; [|split].
    + apply lift_run. pose proof (store_backed (mem g) a 0 ARENA_MAGIC Ha Hb ltac:(lia)) as R1. fold s1 in R1.
      by rewrite Z.mul_0_r, Z.add_0_r in R1.
    + exact (lift_run (store (a + 4) d) (set_mem s1 g) tt s2 (store_backed s1 a 1 d Ha Hb1 ltac:(lia))).
    + exact (lift_run (store (a + 8) c) (set_mem s2 g) tt s3 (store_backed s2 a 2 c Ha Hb2 ltac:(lia))).
  - split.
    { eapply writes_trans; [eapply writes_trans|]; (eapply writes_weaken; [eassumption|lia|lia]). }
    unfold s3, s2, s1. rewrite !word_put_backed, !Z.eqb_refl by (done || lia). done.
Qed.

Section pop.
Context (h : heap) (A : gmap Z kind) (i : Z) (Hh : heap_ok h A) (Hi : 0 <= i < 7).

(** The end of [malloc]: the first block of the list. *)
Lemma pop_run l s a idx rest c :
  l = blk a i idx :: rest -> 0 <= idx < bpa i -> 1 <= c < 4294967296 ->
  header (locked h i l s) a (desc_ptr i) c ->
  (x <- the_desc i ;;
   match free_list x with
   | [] => fail Assertion_failed
   | b :: rest =>
       upd_desc i (set_free_list rest) ;;;
       a <- block_to_arena b ;;
       c <- get_free_cnt a ;; set_free_cnt a (u32 (c - 1)) ;;;
       desc_release i ;;;
       ret b
   end) (locked h i l s)
  = Ok (blk a i idx, with_list h i rest (put_word (a + 8) (c - 1) s)).
Proof.
  intros -> Hx Hc Hd. mrun (the_desc_run _ i _ (locked_desc h A i Hh Hi (blk a i idx :: rest) s)). cbn [free_list].
  mrun (set_list_run h A i Hh Hi (blk a i idx :: rest) rest s (fun _ => rest) eq_refl).
  assert (header (locked h i rest s) a (desc_ptr i) c) as Hd' by (by destruct Hd).
  mrun (block_to_arena_small _ a i idx c Hd' (locked_shape h A i Hh Hi rest s) Hi Hx).
  mrun (get_free_cnt_run _ a _ _ Hd'). rewrite u32_id by lia.
  destruct (set_free_cnt_run _ a _ _ (c - 1) Hd') as [Hr _]. mrun Hr. rewrite locked_mem.
  by mrun (release_run h A i Hh Hi rest (put_word (a + 8) (c - 1) s)).
Qed.

(** Taking the first free block keeps the invariant. *)
Lemma pop_ok a idx rest :
  A !! a = Some (Small i) -> 0 <= idx < bpa i -> fl h i = blk a i idx :: rest ->
  let h' := with_list h i rest (put_word (a + 8) (free_in a (fl h i) - 1) (mem h)) in
  heap_ok h' A /\ kept h A (mem h') /\ (forall m, ~ live h A (blk a i idx) m) /\
  forall q m, live h' A q m <-> live h A q m \/ (q = blk a i idx /\ m = bsz i).
Proof.
  intros HA Hx Hfl. set (b := blk a i idx) in *.
  destruct (arena_backed h A a _ Hh HA) as [Ha Hb]. pose proof (ho_nodup _ _ Hh i Hi) as Hnd.
  pose proof (ho_free _ _ Hh i Hi) as Hbl. rewrite Hfl in Hnd, Hbl. apply NoDup_cons in Hnd as [Hnin Hnd].
  pose proof (put_writes (mem h) a 2 (free_in a (fl h i) - 1) Ha Hb ltac:(lia)) as Hw.
  assert (page b = a) as Epage by (by apply page_blk).
  assert (b ∈ fl h i) as Hbin by (rewrite Hfl; by left).
  assert (forall m, ~ live h A b m) as Hdead.
  { intros m Hl. inversion Hl as [a' j jdx HA' Hy Hnf E1 E2|a' n HA' E1 E2].
    - pose proof (ar_kind _ _ _ (ho_arena _ _ Hh _ _ HA')) as Hj. cbn in Hj.
      destruct (arena_backed h A _ _ Hh HA') as [Pa _]. pose proof (page_blk a' j jdx Pa Hj Hy) as E.
      rewrite E1, Epage in E. subst a'. assert (j = i) as -> by congruence. by rewrite E1 in Hnf.
    - destruct (arena_backed h A _ _ Hh HA') as [Pa _]. pose proof (page_inside a' (a' + 12) Pa ltac:(lia)) as E.
      rewrite E1, Epage in E. congruence. }
  assert (forall a', a' <> a -> free_in a' rest = free_in a' (fl h i)) as Hoth.
  { intros a' Hne. rewrite Hfl, free_in_cons, decide_False by congruence. done. }
  assert (writes (a + 8) (a + 4096) (mem h) (put_word (a + 4 * 2) (free_in a (fl h i) - 1) (mem h))) as Hw'.
  { eapply writes_weaken; [done|lia|lia]. }
  assert (blocks_in A i rest) as Hbr by (intros x Hxr; apply Hbl; by right).
  split; [|split; [|split; [done|]]].
  - apply (one_class_ok h A i a rest Hh Hi HA Hnd Hbr Hoth _ Hw').
    rewrite word_put_backed, !Z.eqb_refl by (done || lia). cbn [andb].
    rewrite Hfl, free_in_cons, decide_True by done. lia.
  - apply (header_kept h A a _ (a + 4 * 2) (a + 4 * 2 + 4) _ Hh HA); [lia|lia|exact Hw].
  - intros q m. rewrite (one_class_live h A i rest Hh Hi Hbr). split.
    + intros [[Hl _]|(Hq & Hnq & ->)]; [by left|]. right. rewrite Hfl in Hq. apply elem_of_cons in Hq as [->|]; done.
    + intros [Hl|[-> ->]].
      * left. split; [done|]. intros [Hq Hnq]. apply Hnq. rewrite Hfl. by right.
      * right. done.
Qed.
End pop.

(** The pages that a request needs when no free block can serve it. *)
Definition need (size : Z) : Z := if size <=? 1024 then 1 else (size + 4107) / 4096.

(** A block of [n] bytes at [p] has become live, and nothing else changed. *)
Record allocates (p n : Z) (h : heap) (A : gmap Z kind) (h' : heap) (A' : gmap Z kind) : Prop := {
  al_ok : heap_ok h' A';
  al_null : p <> NULL;
  al_fresh : forall m, ~ live h A p m;
  al_live : forall q m, live h' A' q m <-> live h A q m \/ (q = p /\ m = n);
  al_kept : kept h A (mem h');
  al_thrifty : thrifty h A h' A'
}.

Lemma with_list_id h A i : heap_ok h A -> 0 <= i < 7 -> with_list h i (fl h i) (mem h) = h.
Proof.
  intros Hh Hi. unfold with_list. rewrite list_insert_id by (by apply (ho_desc _ _ Hh)). by destruct h.
Qed.

Lemma with_list_twice h i l s l' s' : with_list (with_list h i l s) i l' s' = with_list h i l' s'.
Proof. unfold with_list. cbn. by rewrite list_insert_insert_eq. Qed.

Lemma blk_not_null a i idx : page_addr a -> 0 <= i < 7 -> 0 <= idx < bpa i -> blk a i idx <> NULL.
Proof. intros [_ Ha] Hi Hx. pose proof (blk_bounds a i idx Hi Hx). unfold NULL, PHYS_BASE in *. lia. Qed.

Lemma blocks_of_cons a i : 0 <= i < 7 -> blocks_of a i = blk a i 0 :: map (blk a i) (seqZ 1 (bpa i - 1)).
Proof.
  intros Hi. destruct (sizes i Hi) as (_ & _ & H & _). unfold blocks_of. rewrite seqZ_cons by lia. cbn [map].
  by replace (Z.pred (bpa i)) with (bpa i - 1) by lia.
Qed.

(** A size class with free blocks. *)
Lemma malloc_listed h A i a idx rest :
  heap_ok h A -> 0 <= i < 7 -> A !! a = Some (Small i) -> 0 <= idx < bpa i -> fl h i = blk a i idx :: rest ->
  allocates (blk a i idx) (bsz i) h A
    (with_list h i rest (put_word (a + 8) (free_in a (fl h i) - 1) (mem h))) A.
Proof.
  intros Hh Hi HA Hx Hfl. destruct (pop_ok h A i Hh Hi a idx rest HA Hx Hfl) as (Hok & Hk & Hd & Hl).
  destruct (arena_backed h A _ _ Hh HA) as [Pa Hb]. constructor; try done; [by apply blk_not_null|].
  pose proof (page_blk a i idx Pa Hi Hx) as Ep.
  pose proof (free_in_le h A i a (fl h i) Hh Hi (ho_nodup _ _ Hh i Hi) (ho_free _ _ Hh i Hi)) as Hle.
  apply (thrifty_list h A i a rest (a + 8) (a + 12) _ Hh Hi HA).
  - eapply writes_weaken; [by apply (put_writes (mem h) a 2)|lia|lia].
  - intros a' Hne. rewrite Hfl, free_in_cons, decide_False by congruence. done.
  - rewrite Hfl, free_in_cons, decide_True in Hle by done. lia.
Qed.

(** A size class without free blocks, with a new arena. *)
Lemma malloc_new_arena h A i a s1 s :
  heap_ok h A -> 0 <= i < 7 -> fl h i = [] -> got false false 1 a (mem h) s1 -> writes a (a + 12) s1 s ->
  word s a 0 = ARENA_MAGIC -> word s a 1 = desc_ptr i -> word s a 2 = bpa i ->
  allocates (blk a i 0) (bsz i) h A
    (with_list h i (map (blk a i) (seqZ 1 (bpa i - 1))) (put_word (a + 8) (bpa i - 1) s)) (<[a := Small i]> A).
Proof.
  intros Hh Hi He Hg Hw H0 H1 H2. destruct (sizes i Hi) as (_ & _ & Hb & _).
  destruct (add_small h A false a i s1 s Hh Hi He Hg Hw H0 H1 H2) as [Hok1 Hl1].
  set (h1 := with_list h i (blocks_of a i) s) in *.
  assert (fl h1 i = blocks_of a i) as Hfl1 by (unfold h1; by rewrite (fl_with_list h A), Z.eqb_refl).
  assert (free_in a (fl h1 i) = bpa i) as Hc.
  { rewrite Hfl1, <- (blocks_of_length a i Hi). apply free_in_all. intros b (idx & Hx & ->)%elem_blocks_of.
    apply page_blk; [|done|done]. by apply (new_addr h false a (Small i) s1). }
  pose proof Hfl1 as Hfl2. rewrite blocks_of_cons in Hfl2 by done.
  pose proof (malloc_listed h1 _ i a 0 _ Hok1 Hi ltac:(apply lookup_insert_eq) ltac:(lia) Hfl2) as [Hok Hnn Hfr Hlv Hk _].
  rewrite Hc in *. unfold h1 in Hok, Hlv, Hk. rewrite with_list_twice in Hok, Hlv, Hk.
  constructor; try done.
  - intros m Hm. apply (Hfr m). by apply Hl1.
  - intros q m. rewrite Hlv. fold h1. by rewrite Hl1.
  - intros q m x Hq Hx. etrans; [exact (Hk q m x (proj2 (Hl1 q m) Hq) Hx)|].
    by apply (new_kept h A false 1 a s1 s Hh ltac:(lia) Hg Hw q m).
  - pose proof (new_addr h false a (Small i) s1 Hi Hg) as Pa.
    apply (thrifty_new_small h A a i s1 _ _ Hh Hi He Hg).
    + eapply writes_trans; [exact Hw|]. eapply writes_weaken; [apply (put_writes s a 2); [done| |lia]|lia|lia].
      apply (wr_backed _ _ _ _ Hw). by apply (got_backed_page false false a (mem h) s1 (ho_palloc _ _ Hh)).
    + rewrite length_map, length_seqZ. lia.
    + intros b (idx & -> & Hx%elem_of_seqZ)%list_elem_of_fmap. apply page_blk; [done|done|lia].
Qed.

Lemma flags_0 : has_flag 0 PAL_USER = false /\ has_flag 0 PAL_ZERO = false /\ has_flag 0 PAL_ASSERT = false.
Proof. done. Qed.

(** The part of [malloc] for a size class. *)
Lemma malloc_small h A i size :
  heap_ok h A -> 0 <= i < 7 -> 0 < size <= bsz i -> find_desc (Z.to_nat 7) 0 size h = Ok (i, h) ->
  (exists p h' A', malloc size h = Ok (p, h') /\ allocates p (bsz i) h A h' A') \/
  (malloc size h = Ok (NULL, h) /\ forall first, ~ page_group false false (mem h) first 1).
Proof.
  intros Hh Hi Hs Hfind. destruct (sizes i Hi) as (_ & _ & Hb & _).
  unfold malloc. rewrite (proj2 (Z.eqb_neq size 0)) by lia. mnorm. rewrite (ho_cnt _ _ Hh). mrun Hfind.
  rewrite (proj2 (Z.eqb_neq i 7)) by lia. mrun (acquire_run h A i Hh Hi).
  mrun (the_desc_run _ i _ (locked_desc h A i Hh Hi (fl h i) (mem h))). cbn [free_list].
  destruct (fl h i) as [|b rest] eqn:Hfl.
  - (* no free block *) unfold palloc_get_page.
    destruct (palloc_get_multiple_run 0 1 (mem h) (ho_palloc _ _ Hh) ltac:(lia)) as [(a & s1 & Hr & Hg & _)|[Hno Hr]].
    2:{ right. split; [|exact Hno].
        mnorm. mrun (lift_read _ (locked h i [] (mem h)) _ Hr). mnorm. rewrite Z.eqb_refl. mnorm.
        mrun (release_run h A i Hh Hi [] (mem h)). rewrite <- Hfl. by rewrite (with_list_id h A). }
    left. destruct flags_0 as (E1 & E2 & _). rewrite E1, E2 in Hg.
    pose proof (got_page_addr _ _ _ _ _ Hg) as Ha. pose proof (got_backed_page _ _ _ _ _ (ho_palloc _ _ Hh) Hg) as Hbk.
    mnorm. mrun (lift_run _ (locked h i [] (mem h)) _ _ Hr). rewrite locked_mem.
    rewrite (proj2 (Z.eqb_neq a NULL)) by (destruct Ha; unfold NULL, PHYS_BASE in *; lia). mnorm.
    destruct (make_header (locked h i [] s1) a (desc_ptr i) (bpa i) Ha Hbk) as (s & g1 & g2 & (M1 & M2 & M3) & Hw & H0 & H1 & H2).
    cbn [blocks_per_arena]. mrun M1. mnorm. mrun M2. mnorm. mrun M3. mnorm. rewrite locked_mem.
    assert (header (locked h i [] s) a (desc_ptr i) (bpa i)) as Hd.
    { constructor; try done. apply (wr_backed _ _ _ _ Hw), Hbk. }
    mrun (add_blocks_run h A i Hh Hi (Z.to_nat (bpa i)) a (bpa i) 0 [] s Hd ltac:(lia) ltac:(lia)).
    rewrite Z2Nat.id by lia. cbn [app]. fold (blocks_of a i). mnorm.
    eexists _, _, _. split.
    + apply (pop_run h A i Hh Hi _ s a 0 _ (bpa i) (blocks_of_cons a i Hi)); [lia|lia|by destruct Hd].
    + by apply (malloc_new_arena h A i a s1 s).
  - (* the first free block *)
    left. mnorm. destruct (ho_free _ _ Hh i Hi b) as (a & idx & HA & Hx & Eb); [rewrite Hfl; by left|].
    subst b. destruct (arena_backed h A _ _ Hh HA) as [Pa _].
    pose proof (arena_header h A a _ Hh HA) as Hd. cbn [code count] in Hd.
    assert (1 <= free_in a (fl h i) <= bpa i) as Hcnt.
    { split; [|by apply (free_in_le h A); [done|done|apply Hh|apply Hh]].
      rewrite Hfl, free_in_cons, decide_True by (by apply page_blk). unfold free_in. lia. }
    eexists _, _, A. split; [|by apply (malloc_listed h A i a idx rest)].
    rewrite <- Hfl. apply (pop_run h A i Hh Hi _ (mem h) a idx rest (free_in a (fl h i)) Hfl Hx); [lia|].
    by destruct Hd.
Qed.

(** The part of [malloc] for big blocks. *)
Lemma malloc_big h A size :
  heap_ok h A -> 1024 < size -> find_desc (Z.to_nat 7) 0 size h = Ok (7, h) ->
  let n := u32 (size + 4107) / 4096 in 1 <= n ->
  (exists p h' A', malloc size h = Ok (p, h') /\ allocates p (4096 * n - 12) h A h' A') \/
  (malloc size h = Ok (NULL, h) /\ forall first, ~ page_group false false (mem h) first n).
Proof.
  intros Hh Hs Hfind n Hn1.
  unfold malloc. rewrite (proj2 (Z.eqb_neq size 0)) by lia. mnorm. rewrite (ho_cnt _ _ Hh). mrun Hfind.
  rewrite Z.eqb_refl. unfold ARENA_SIZE, PGSIZE. replace (size + 12 + 4096 - 1) with (size + 4107) by lia.
  fold n. assert (1 <= n < 1048576) as Hn.
  { split; [done|]. apply Z.div_lt_upper_bound; [lia|]. unfold u32. pose proof (Z.mod_pos_bound (size + 4107) 4294967296). lia. }
  destruct (palloc_get_multiple_run 0 n (mem h) (ho_palloc _ _ Hh) ltac:(lia)) as [(a & s1 & Hr & Hg & _)|[Hno Hr]].
  2:{ right. split; [|exact Hno]. by mrun (lift_read _ h _ Hr). }
  left. destruct flags_0 as (E1 & E2 & _). rewrite E1, E2 in Hg.
  pose proof (new_addr h false a (Big n) s1 Hn Hg) as Ha.
  assert (backed s1 a) as Hbk.
  { destruct (free_group_backed false (mem h) a n 0 (ho_palloc _ _ Hh) (got_free _ _ _ _ _ _ Hg) ltac:(lia)) as (ws & Hws & Hl).
    pose proof (got_pages _ _ _ _ _ _ Hg 0 ltac:(lia)) as Hp. cbn beta iota in Hp. rewrite Z.mul_0_r, Z.add_0_r in *.
    exists ws. by rewrite Hp. }
  mrun (lift_run _ h _ _ Hr).
  rewrite (proj2 (Z.eqb_neq a NULL)) by (destruct Ha; unfold NULL, PHYS_BASE in *; lia).
  destruct (make_header (set_mem s1 h) a NULL n Ha Hbk) as (s & g1 & g2 & (M1 & M2 & M3) & Hw & H0 & H1 & H2).
  mrun M1. mrun M2. mrun M3.
  destruct (add_big h A false a n s1 s Hh Hn Hg Hw H0 H1 H2) as [Hok Hl].
  exists (a + 12), (set_mem s h), (<[a := Big n]> A). split; [done|]. constructor; try done.
  - destruct Ha. unfold NULL, PHYS_BASE in *. lia.
  - intros m Hm. destruct (live_inside h A _ m Hh Hm) as (a' & k' & HA' & B1 & B2 & B3 & B4).
    destruct (fresh_apart h A false n a s1 a' k' Hh ltac:(lia) Hg HA'); lia.
  - by apply (new_kept h A false n a s1 s Hh ltac:(lia) Hg Hw).
  - by apply (thrifty_new_big h A a n s1 s).
Qed.

Lemma malloc_block_run h A size :
  heap_ok h A -> 0 < size <= 4294963188 ->
  (exists p n h' A', malloc size h = Ok (p, h') /\ size <= n /\ allocates p n h A h' A') \/
  (malloc size h = Ok (NULL, h) /\ forall first, ~ page_group false false (mem h) first (need size)).
Proof.
  intros Hh Hs.
  destruct (find_desc_run 7 0 size h (heap_shape h A Hh) ltac:(lia) ltac:(lia)) as (i & Hfind & Hi & Hfit & Hmin).
  unfold need. destruct (Z.eq_dec i 7) as [->|Hne].
  - pose proof (Hmin 6 ltac:(lia)) as H6. change (bsz 6) with 1024 in H6.
    rewrite (proj2 (Z.leb_gt _ _)) by lia.
    assert (u32 (size + 4107) = size + 4107) as Eu by (apply u32_id; lia).
    pose proof (malloc_big h A size Hh ltac:(lia) Hfind) as Hbig. rewrite Eu in Hbig.
    destruct Hbig as [(p & h' & A' & Hr & Hal)|?]; [apply Z.div_le_lower_bound; lia|left|by right].
    exists p, (4096 * ((size + 4107) / 4096) - 12), h', A'. split; [done|]. split; [|done].
    pose proof (Z.div_mod (size + 4107) 4096 ltac:(lia)). pose proof (Z.mod_pos_bound (size + 4107) 4096 ltac:(lia)). lia.
  - specialize (Hfit ltac:(lia)). destruct (sizes i ltac:(lia)) as (Hb & _).
    rewrite (proj2 (Z.leb_le _ _)) by lia.
    destruct (malloc_small h A i size Hh ltac:(lia) ltac:(lia) Hfind) as [(p & h' & A' & Hr & Hal)|?]; [left|by right].
    exists p, (bsz i), h', A'. done.
Qed.

(** ** [free] *)

(** The block at [p] is no longer live, and nothing else changed. *)
Record frees (p : Z) (h : heap) (A : gmap Z kind) (h' : heap) (A' : gmap Z kind) : Prop := {
  fe_ok : heap_ok h' A';
  fe_live : forall q m, live h' A' q m <-> live h A q m /\ q <> p;
  fe_kept : forall q m x, live h A q m -> q <> p -> q <= x < q + m -> byte (mem h') x = byte (mem h) x;
  fe_thrifty : thrifty h A h' A'
}.

Lemma filter_same (P Q : Z -> Prop) `{forall x, Decision (P x)} `{forall x, Decision (Q x)} (l : list Z) :
  (forall x, x ∈ l -> P x <-> Q x) -> filter P l = filter Q l.
Proof.
  intros Heq. induction l as [|x l IH]; [done|]. rewrite !filter_cons.
  rewrite IH by (intros y Hy; apply Heq; by right). specialize (Heq x ltac:(by left)).
  destruct (decide (P x)), (decide (Q x)); naive_solver.
Qed.

(** The memory of a live block may be written. *)
Lemma scribble h A p n s1 :
  heap_ok h A -> live h A p n -> writes p (p + n) (mem h) s1 ->
  heap_ok (set_mem s1 h) A /\ (forall q m, live (set_mem s1 h) A q m <-> live h A q m) /\
  (forall q m x, live h A q m -> q <> p -> q <= x < q + m -> byte s1 x = byte (mem h) x).
Proof.
  intros Hh Hl Hw. destruct (live_inside h A p n Hh Hl) as (a & k & HA & B1 & B2 & B3 & _). split; [|split].
  - constructor; try apply Hh.
    + apply (writes_palloc _ _ _ _ Hw), Hh.
    + intros a' k' HA'. pose proof (ho_arena _ _ Hh _ _ HA') as Har. apply (arena_keep h); [done| | |done].
      * intros x Hx. cbn. rewrite (writes_used _ _ _ _ Hw). by apply (arena_used h a' k').
      * intros j Hj. cbn. apply (wr_word _ _ _ _ Hw); [apply Har|lia|].
        destruct (Z.eq_dec a' a) as [->|Hne]; [lia|]. pose proof (pages_pos _ _ _ Har).
        destruct (ho_apart _ _ Hh a' k' a k HA' HA Hne); lia.
  - intros q m. split; intros [a' j jdx HA' Hy Hnf|a' n' HA']; (by apply live_small) || (by apply live_big).
  - intros q m x Hq Hne Hxq. eapply byte_writes; try done.
    destruct (live_disjoint h A q m p n Hh Hq Hl Hne); [by left|by right].
Qed.

Section free_small.
Context (h : heap) (A : gmap Z kind) (a i idx : Z).
Context (Hh : heap_ok h A) (Hi : 0 <= i < 7) (HA : A !! a = Some (Small i)) (Hx : 0 <= idx < bpa i).
Context (Hlive : blk a i idx ∉ fl h i).

Let p : Z := blk a i idx.

(** The block goes to the front of its list and is counted. *)
Lemma push_ok :
  let l := p :: fl h i in
  let h' := with_list h i l (put_word (a + 8) (free_in a (fl h i) + 1) (mem h)) in
  heap_ok h' A /\ kept h A (mem h') /\ free_in a l = free_in a (fl h i) + 1 /\
  forall q m, live h' A q m <-> live h A q m /\ q <> p.
Proof.
  intros l h'. destruct (arena_backed h A _ _ Hh HA) as [Ha Hb].
  assert (page p = a) as Ep by (by apply page_blk).
  assert (free_in a l = free_in a (fl h i) + 1) as Hc.
  { unfold l. rewrite free_in_cons, decide_True by done. lia. }
  pose proof (put_writes (mem h) a 2 (free_in a (fl h i) + 1) Ha Hb ltac:(lia)) as Hw.
  assert (blocks_in A i l) as Hbl.
  { intros b [->|Hin]%elem_of_cons; [by exists a, idx|by apply (ho_free _ _ Hh i Hi)]. }
  assert (NoDup l) as Hnd by (apply NoDup_cons; split; [done|by apply Hh]).
  split; [|split; [|split; [done|]]].
  - apply (one_class_ok h A i a l Hh Hi HA Hnd Hbl).
    + intros a' Hne. unfold l. rewrite free_in_cons, decide_False by congruence. done.
    + eapply writes_weaken; [exact Hw|lia|lia].
    + change (a + 8) with (a + 4 * 2). rewrite word_put_backed, !Z.eqb_refl by (done || lia). by rewrite Hc.
  - apply (header_kept h A a _ (a + 4 * 2) (a + 4 * 2 + 4) _ Hh HA); [lia|lia|exact Hw].
  - intros q m. unfold h'. rewrite (one_class_live h A i l Hh Hi Hbl). unfold l. split.
    + intros [[Hl Hn]|(Hin & Hnin & _)].
      * split; [done|]. intros ->. apply Hn. split; [by left|done].
      * destruct Hnin. by right.
    + intros [Hl Hne]. left. split; [done|]. intros [[->|Hin]%elem_of_cons Hnin]; done.
Qed.
End free_small.

Lemma block_addressable h A q m : heap_ok h A -> live h A q m -> forall y, q <= y < q + m -> addressable (mem h) y.
Proof. intros Hh Hl y Hy. by eapply live_addressable. Qed.

(** The end of [free]: an arena without live blocks is given back. *)
Lemma free_tail h1 A a i l s2 c :
  heap_ok h1 A -> 0 <= i < 7 -> A !! a = Some (Small i) ->
  let h2 := with_list h1 i l s2 in
  heap_ok h2 A -> header (locked h1 i l s2) a (desc_ptr i) c -> c = free_in a l ->
  writes (a + 8) (a + 12) (mem h1) s2 -> (forall a', a' <> a -> free_in a' l = free_in a' (fl h1 i)) ->
  exists h' A',
    ((if c >=? bpa i then
        ASSERT (c =? bpa i) ;;;
        remove_blocks (Z.to_nat (bpa i)) a i 0 ;;;
        lift (palloc_free_page a)
      else ret tt) ;;;
     desc_release i) (locked h1 i l s2) = Ok (tt, h') /\
    heap_ok h' A' /\ (forall q m, live h' A' q m <-> live h2 A q m) /\ kept h2 A (mem h') /\ thrifty h1 A h' A'.
Proof.
  intros Hh1 Hi HA h2 Hh2 Hd Hc Hw2 Hoth. destruct (sizes i Hi) as (_ & _ & Hbp & _).
  assert (fl h2 i = l) as Hfl2 by (unfold h2; by rewrite (fl_with_list h1 A), Z.eqb_refl).
  pose proof (ho_nodup _ _ Hh2 i Hi) as Hnd. pose proof (ho_free _ _ Hh2 i Hi) as Hbl. rewrite Hfl2 in Hnd, Hbl.
  pose proof (free_in_le h2 A i a l Hh2 Hi Hnd Hbl) as Hle.
  rewrite Z.geb_leb. destruct (Z.leb_spec (bpa i) c) as [Hfull|Hpart].
  2:{ exists h2, A. mnorm. rewrite (release_run h1 A i Hh1 Hi l s2). split; [done|]. split; [done|]. split; [done|].
      split; [intros q m x _ _; done|]. apply (thrifty_list h1 A i a l (a + 8) (a + 12) s2); try done. lia. }
  assert (free_in a l = bpa i) as Hcb by lia.
  assert (forall b, b ∈ blocks_of a i -> b ∈ l) as Hall by (intros b Hb; by eapply all_free).
  replace (c =? bpa i) with true by (symmetry; apply Z.eqb_eq; lia). mnorm.
  mrun (remove_blocks_run h1 A i Hh1 Hi (Z.to_nat (bpa i)) a c 0 l s2 Hd ltac:(lia) ltac:(lia)
    ltac:(intros idx Hidx; apply Hall, elem_blocks_of; eauto)).
  rewrite Z2Nat.id by lia. fold (blocks_of a i).
  destruct (palloc_free_multiple_run false s2 a 1 (ho_palloc _ _ Hh2) ltac:(lia) (ar_used _ _ _ (ho_arena _ _ Hh2 _ _ HA)))
    as (s3 & Hr & Hf).
  mrun (lift_run (palloc_free_page a) (locked h1 i (filter (fun b => b ∉ blocks_of a i) l) s2) tt s3 Hr).
  rewrite locked_mem, (release_run h1 A i Hh1 Hi).
  assert (filter (fun b => b ∉ blocks_of a i) l = filter (fun b => page b <> a) (fl h2 i)) as ->.
  { rewrite Hfl2. apply filter_same. intros b Hb. destruct (Hbl b Hb) as (a' & idx & HA' & Hx & ->).
    destruct (arena_backed h2 A _ _ Hh2 HA') as [Pa _]. rewrite page_blk, elem_blocks_of by done. split.
    - intros Hn ->. apply Hn. eauto.
    - intros Hne (idx' & Hx' & E). destruct (arena_backed h2 A _ _ Hh2 HA) as [Pa2 _].
      pose proof (page_blk a' i idx Pa Hi Hx) as P1. rewrite E, page_blk in P1 by done. congruence. }
  rewrite <- (with_list_twice h1 i l s2).
  destruct (remove_small h2 A a i s3 Hh2 Hi HA Hf ltac:(by rewrite Hfl2)) as [Hok Hlv].
  eexists _, _. split; [done|]. split; [exact Hok|]. split; [exact Hlv|].
  split; [|by apply (thrifty_emptied h1 A a i l s2 s3 (a + 8) (a + 12))].
  intros q m x Hq Hx. apply (old_kept h2 A a (Small i) s3 q m x Hh2 HA Hf Hq Hx). intros Hin.
  apply Hlv in Hq. inversion Hq as [a' j jdx [Hne HA']%lookup_delete_Some Hy Hnf E1 E2|a' n [Hne HA']%lookup_delete_Some E1 E2].
  - pose proof (ar_kind _ _ _ (ho_arena _ _ Hh2 _ _ HA')) as Hj. cbn in Hj. destruct (sizes j Hj) as (Hs & _).
    pose proof (blk_bounds a' j jdx Hj Hy). destruct (ho_apart _ _ Hh2 a _ a' _ HA HA' Hne) as [Hap|Hap]; cbn in Hap; lia.
  - pose proof (ar_kind _ _ _ (ho_arena _ _ Hh2 _ _ HA')) as Hn. cbn in Hn.
    destruct (ho_apart _ _ Hh2 a _ a' _ HA HA' Hne) as [Hap|Hap]; cbn in Hap; lia.
Qed.

Lemma free_small_run h A a i idx :
  heap_ok h A -> 0 <= i < 7 -> A !! a = Some (Small i) -> 0 <= idx < bpa i -> blk a i idx ∉ fl h i ->
  exists h' A', free (blk a i idx) h = Ok (tt, h') /\ frees (blk a i idx) h A h' A'.
Proof.
  intros Hh Hi HA Hx Hlive. destruct (sizes i Hi) as (Hb & Hb4 & Hbp & _).
  assert (live h A (blk a i idx) (bsz i)) as Hl by (by apply live_small).
  destruct (arena_backed h A _ _ Hh HA) as [Pa _].
  pose proof (arena_header h A a _ Hh HA) as Hd. cbn [code count] in Hd.
  unfold free. rewrite (proj2 (Z.eqb_neq (blk a i idx) NULL)) by (by apply blk_not_null).
  mrun (block_to_arena_small h a i idx _ Hd (heap_shape h A Hh) Hi Hx). mrun (get_desc_run h a _ _ Hd).
  rewrite (proj2 (Z.eqb_neq (desc_ptr i) NULL)) by (unfold desc_ptr, NULL; lia). cbn [negb].
  replace (desc_idx (desc_ptr i)) with i by (unfold desc_idx, desc_ptr; lia).
  mrun (the_desc_run h i _ (ho_desc _ _ Hh i Hi)). cbn [d_block_size blocks_per_arena].
  (* the block is overwritten *)
  destruct (live_aligned h A _ _ Hh Hl) as [E1 E2].
  destruct (memset_ok (blk a i idx) (blk a i idx + bsz i) E1 E2 (Z.to_nat (bsz i)) (blk a i idx) 204 (mem h))
    as (s1 & Hms & Hw1 & _); [lia|lia|by eapply block_addressable|].
  mrun (lift_run _ h _ _ Hms).
  destruct (scribble h A _ _ s1 Hh Hl Hw1) as (Hh1 & Hl1 & Hk1).
  set (h1 := set_mem s1 h) in *. change (fl h i) with (fl h1 i) in Hlive, Hd.
  (* the block goes on its list *)
  destruct (push_ok h1 A a i idx Hh1 Hi HA Hx Hlive) as (Hh2 & Hk2 & Hc2 & Hl2).
  mrun (acquire_run h1 A i Hh1 Hi).
  mrun (set_list_run h1 A i Hh1 Hi (fl h1 i) (blk a i idx :: fl h1 i) (mem h1) (fun x => blk a i idx :: free_list x) eq_refl).
  assert (header (locked h1 i (blk a i idx :: fl h1 i) (mem h1)) a (desc_ptr i) (free_in a (fl h1 i))) as Hd2.
  { pose proof (arena_header h1 A a _ Hh1 HA) as Hd1. by destruct Hd1. }
  mrun (get_free_cnt_run _ a _ _ Hd2).
  pose proof (free_in_le h1 A i a (fl h1 i) Hh1 Hi (ho_nodup _ _ Hh1 i Hi) (ho_free _ _ Hh1 i Hi)) as Hle.
  assert (0 <= free_in a (fl h1 i)) by (unfold free_in; lia).
  rewrite u32_id by lia. destruct (set_free_cnt_run _ a _ _ (free_in a (fl h1 i) + 1) Hd2) as [Hr3 Hd3]. mrun Hr3.
  rewrite locked_mem in *. mrun (get_free_cnt_run _ a _ _ Hd3).
  destruct (free_tail h1 A a i _ _ _ Hh1 Hi HA Hh2 Hd3 (eq_sym Hc2)) as (h' & A' & Hr & Hok & Hlv & Hkp & Hth).
  { eapply writes_weaken; [apply (put_writes (mem h1) a 2); [done|apply (arena_backed h1 A _ _ Hh1 HA)|lia]|lia|lia]. }
  { intros a' Hne. rewrite free_in_cons, page_blk, decide_False by congruence. done. }
  exists h', A'. split; [exact Hr|]. constructor; [done| | |].
  - intros q m. rewrite Hlv, Hl2, Hl1. done.
  - intros q m x Hq Hne Hxq. rewrite <- (Hk1 q m x Hq Hne Hxq).
    rewrite (Hkp q m x) by (done || by apply Hl2; rewrite Hl1). exact (Hk2 q m x (proj2 (Hl1 q m) Hq) Hxq).
  - eapply thrifty_trans; [exact (thrifty_writes _ _ s1 h A Hw1)|exact Hth].
Qed.

Lemma free_big_run h A a n :
  heap_ok h A -> A !! a = Some (Big n) ->
  exists h' A', free (a + 12) h = Ok (tt, h') /\ frees (a + 12) h A h' A'.
Proof.
  intros Hh HA. pose proof (ho_arena _ _ Hh _ _ HA) as Har. pose proof (ar_kind _ _ _ Har) as Hn. cbn in Hn.
  pose proof (arena_header h A a _ Hh HA) as Hd. cbn [code count] in Hd. pose proof (hd_addr _ _ _ _ Hd) as Ha.
  unfold free. rewrite (proj2 (Z.eqb_neq (a + 12) NULL)) by (destruct Ha; unfold NULL, PHYS_BASE in *; lia).
  mrun (block_to_arena_big h a n Hd). mrun (get_desc_run h a _ _ Hd). rewrite Z.eqb_refl. cbn [negb].
  mrun (get_free_cnt_run h a _ _ Hd).
  destruct (palloc_free_multiple_run false (mem h) a n (ho_palloc _ _ Hh) ltac:(lia) (ar_used _ _ _ Har)) as (s & Hr & Hf).
  rewrite (lift_run _ h _ _ Hr). destruct (remove_big h A a n s Hh HA Hf) as [Hok Hlv].
  exists (set_mem s h), (delete a A). split; [done|].
  constructor; [done|done| |by apply (thrifty_old_big h A a n s)].
  intros q m x Hq Hne Hx. apply (old_kept h A a (Big n) s q m x Hh HA Hf Hq Hx). intros Hin.
  assert (live h A (a + 12) (4096 * n - 12)) as Hp by (by apply live_big).
  destruct (live_inside h A q m Hh Hq) as (a' & k' & HA' & B1 & B2 & B3 & B4).
  destruct (live_disjoint h A q m _ _ Hh Hq Hp Hne); [|lia].
  destruct (Z.eq_dec a' a) as [->|Hne']; [lia|]. pose proof (pages_pos _ _ _ (ho_arena _ _ Hh _ _ HA')).
  destruct (ho_apart _ _ Hh a' k' a _ HA' HA Hne') as [Hap|Hap]; cbn in Hap; lia.
Qed.

Lemma free_run h A p n :
  heap_ok h A -> live h A p n -> exists h' A', free p h = Ok (tt, h') /\ frees p h A h' A'.
Proof.
  intros Hh Hl. destruct Hl as [a i idx HA Hx Hnf|a m HA]; [|by apply (free_big_run h A a m)].
  pose proof (ar_kind _ _ _ (ho_arena _ _ Hh _ _ HA)) as Hi. by apply free_small_run.
Qed.

(** ** [calloc] and [realloc] *)

Lemma block_size_run h A p n : heap_ok h A -> live h A p n -> block_size p h = Ok (n, h).
Proof.
  intros Hh Hl. unfold block_size. destruct Hl as [a i idx HA Hx Hnf|a m HA];
    pose proof (ar_kind _ _ _ (ho_arena _ _ Hh _ _ HA)) as Hk; cbn in Hk;
    pose proof (arena_header h A a _ Hh HA) as Hd; cbn [code count] in Hd.
  - mrun (block_to_arena_small h a i idx _ Hd (heap_shape h A Hh) Hk Hx). mrun (get_desc_run h a _ _ Hd).
    rewrite (proj2 (Z.eqb_neq (desc_ptr i) NULL)) by (unfold desc_ptr, NULL; lia). cbn [negb].
    replace (desc_idx (desc_ptr i)) with i by (unfold desc_idx, desc_ptr; lia).
    by mrun (the_desc_run h i _ (ho_desc _ _ Hh i Hk)).
  - mrun (block_to_arena_big h a m Hd). mrun (get_desc_run h a _ _ Hd). rewrite Z.eqb_refl. cbn [negb].
    mrun (get_free_cnt_run h a _ _ Hd). rewrite (pg_ofs_inside a) by (apply Hd || lia).
    unfold ret, PGSIZE. rewrite u32_id by lia. do 2 f_equal. lia.
Qed.

(** A live block after an allocation. *)
Lemma allocates_new p n h A h' A' : allocates p n h A h' A' -> live h' A' p n.
Proof. intros Hal. apply (al_live _ _ _ _ _ _ Hal). by right. Qed.

Lemma allocates_old p n h A h' A' q m : allocates p n h A h' A' -> live h A q m -> live h' A' q m /\ q <> p.
Proof.
  intros Hal Hq. split; [apply (al_live _ _ _ _ _ _ Hal); by left|]. intros ->. by apply (al_fresh _ _ _ _ _ _ Hal m).
Qed.

Lemma calloc_run h A a b :
  heap_ok h A -> 0 < a -> 0 < b -> a * b <= 4294963188 ->
  (exists p n h' A', calloc a b h = Ok (p, h') /\ a * b <= n /\ allocates p n h A h' A' /\
     forall x, p <= x < p + a * b -> byte (mem h') x = 0) \/
  (calloc a b h = Ok (NULL, h) /\ forall first, ~ page_group false false (mem h) first (need (a * b))).
Proof.
  intros Hh Ha Hb Hs. unfold calloc. assert (a <= a * b) by nia. assert (b <= a * b) by nia. rewrite u32_id by lia.
  rewrite (proj2 (Z.ltb_ge _ _)), (proj2 (Z.ltb_ge (a * b) b)) by lia. cbn [orb].
  destruct (malloc_block_run h A (a * b) Hh ltac:(lia)) as [(p & n & h1 & A1 & Hr & Hn & Hal)|[Hr Hno]]; mrun Hr.
  2:{ right. done. }
  left. rewrite (proj2 (Z.eqb_neq p NULL)) by apply (al_null _ _ _ _ _ _ Hal). cbn [negb].
  pose proof (al_ok _ _ _ _ _ _ Hal) as Hh1. pose proof (allocates_new _ _ _ _ _ _ Hal) as Hl1.
  destruct (live_aligned h1 A1 p n Hh1 Hl1) as [E1 E2].
  destruct (memset_ok p (p + n) E1 E2 (Z.to_nat (a * b)) p 0 (mem h1)) as (s & Hms & Hw & Hby);
    [lia|lia|by eapply block_addressable|]. rewrite Z2Nat.id in Hby by lia.
  mrun (lift_run _ h1 _ _ Hms). destruct (scribble h1 A1 p n s Hh1 Hl1 Hw) as (Hh2 & Hl2 & Hk2).
  exists p, n, (set_mem s h1), A1. split; [done|]. split; [done|]. split.
  - destruct Hal as [_ Hnn Hfr Hlv Hk Hth]. constructor; try done; [| |by eapply thrifty_trans, thrifty_writes].
    + intros q m. by rewrite Hl2, Hlv.
    + intros q m x Hq Hx. cbn. rewrite (Hk2 q m x); [by apply (Hk q m)| |by intros ->; apply (Hfr m)|done].
      apply Hlv. by left.
  - intros x Hx. cbn. rewrite Hby, (proj2 (Z.leb_le _ _)), (proj2 (Z.ltb_lt _ _)) by lia. done.
Qed.

Lemma realloc_run h A old m size :
  heap_ok h A -> live h A old m -> 0 < size <= 4294963188 ->
  (exists p n h' A', realloc old size h = Ok (p, h') /\ size <= n /\ heap_ok h' A' /\ thrifty h A h' A' /\
     (forall q k, live h' A' q k <-> (live h A q k /\ q <> old) \/ (q = p /\ k = n)) /\
     (forall q k x, live h A q k -> q <> old -> q <= x < q + k -> byte (mem h') x = byte (mem h) x) /\
     (forall j, 0 <= j < Z.min size m -> byte (mem h') (p + j) = byte (mem h) (old + j))) \/
  (realloc old size h = Ok (NULL, h) /\ forall first, ~ page_group false false (mem h) first (need size)).
Proof.
  intros Hh Hold Hs. unfold realloc. rewrite (proj2 (Z.eqb_neq size 0)) by lia.
  destruct (malloc_block_run h A size Hh Hs) as [(p & n & h1 & A1 & Hr & Hn & Hal)|[Hr Hno]]; mrun Hr.
  2:{ right. rewrite andb_false_r. done. }
  left. destruct (live_inside h A old m Hh Hold) as (a & k & HA & B1 & B2 & B3 & _).
  destruct (arena_backed h A a k Hh HA) as [[_ Pa] _].
  rewrite (proj2 (Z.eqb_neq p NULL)) by apply (al_null _ _ _ _ _ _ Hal).
  rewrite (proj2 (Z.eqb_neq old NULL)) by (unfold NULL, PHYS_BASE in *; lia). cbn [negb andb].
  pose proof (al_ok _ _ _ _ _ _ Hal) as Hh1. pose proof (allocates_new _ _ _ _ _ _ Hal) as Hl1.
  destruct (allocates_old _ _ _ _ _ _ old m Hal Hold) as [Hold1 Hne].
  mnorm. mrun (block_size_run h1 A1 old m Hh1 Hold1).
  replace (if size <? m then size else m) with (Z.min size m) by (destruct (Z.ltb_spec size m); lia).
  destruct (live_aligned h1 A1 p n Hh1 Hl1) as [E1 E2]. set (c := Z.min size m) in *. assert (0 < c <= m /\ c <= n) as Hc by lia.
  destruct (memcpy_block p (p + n) E1 E2 (Z.to_nat c) p old (mem h1)) as (s & Hmc & Hw & Hby);
    [lia|lia|by eapply block_addressable|intros y Hy; eapply block_addressable; [exact Hh1|exact Hold1|lia]| |].
  { destruct (live_disjoint h1 A1 old m p n Hh1 Hold1 Hl1 Hne); [left|right]; lia. }
  rewrite Z2Nat.id in Hby by lia. mnorm. mrun (lift_run _ h1 _ _ Hmc). mnorm.
  destruct (scribble h1 A1 p n s Hh1 Hl1 Hw) as (Hh2 & Hl2 & Hk2).
  destruct (free_run (set_mem s h1) A1 old m Hh2 (proj2 (Hl2 old m) Hold1)) as (h3 & A3 & Hr3 & [Hok3 Hl3 Hk3 Hth3]).
  mrun Hr3. exists p, n, h3, A3. split; [done|]. split; [done|]. split; [done|]. split; [|split; [|split]].
  - eapply thrifty_trans; [apply (al_thrifty _ _ _ _ _ _ Hal)|]. eapply thrifty_trans; [by eapply thrifty_writes|done].
  - intros q j. rewrite Hl3, Hl2, (al_live _ _ _ _ _ _ Hal). split; [naive_solver|].
    intros [[? ?]|[-> ->]]; [naive_solver|]. split; [by right|]. congruence.
  - intros q j x Hq Hqo Hx. destruct (allocates_old _ _ _ _ _ _ q j Hal Hq) as [Hq1 Hqp].
    rewrite (Hk3 q j x (proj2 (Hl2 q j) Hq1) Hqo Hx). cbn. rewrite (Hk2 q j x Hq1 Hqp Hx).
    by apply (al_kept _ _ _ _ _ _ Hal q j).
  - intros j Hj. rewrite (Hk3 p n (p + j) (proj2 (Hl2 p n) Hl1)) by (congruence || lia). cbn.
    rewrite Hby, (proj2 (Z.leb_le _ _)), (proj2 (Z.ltb_lt _ _)) by lia. cbn [andb].
    replace (old + (p + j - p)) with (old + j) by lia. apply (al_kept _ _ _ _ _ _ Hal old m); [done|lia].
Qed.

End MallocOps.
