(* ===== verification/MallocProps.v ===== *)
(** * Theorems about the block allocator (src/src/threads/malloc.c)

    The functions seen by the rest of the kernel: a client that knows only
    the blocks it has been given and their sizes. *)

From S2P Require Import Prelude Bitmap Palloc Pagedir Malloc MallocInv MallocLeak MallocOps.
Import Palloc Pagedir Malloc MallocInv MallocLeak MallocOps.

Module MallocProps.

(** ** Initialization *)

Definition zero_desc : desc := mkDesc 0 0 [] false.

(** The static variables before [malloc_init]. *)
Definition loaded_heap (s : mstate) : heap := mkHeap s (replicate 10 zero_desc) 0.

Definition init_heap (s : mstate) : heap :=
  mkHeap s (map (fun i => mkDesc (bsz i) (bpa i) [] false) (seqZ 0 7) ++ replicate 3 zero_desc) 7.

Lemma malloc_init_run s : malloc_init (loaded_heap s) = Ok (tt, init_heap s).
Proof. reflexivity. Qed.

Lemma init_fl s i : 0 <= i < 7 -> fl (init_heap s) i = [].
Proof. intros Hi. by destruct (seven i Hi) as [->|[->|[->|[->|[->|[->| ->]]]]]]. Qed.

Lemma init_heap_ok s : palloc_ok s -> heap_ok (init_heap s) ∅.
Proof.
  intros Hs. constructor; try done.
  - intros i Hi. by destruct (seven i Hi) as [->|[->|[->|[->|[->|[->| ->]]]]]].
  - intros i Hi. rewrite init_fl by done. constructor.
  - intros i Hi b. rewrite init_fl by done. by intros ?%not_elem_of_nil.
Qed.

(** ** Clients *)

Inductive call : Type :=
| Malloc (size : Z) | Calloc (a b : Z) | Realloc (p size : Z) | Free (p : Z) | Write (x v : Z).

Definition exec (c : call) : M heap Z :=
  match c with
  | Malloc size => malloc size
  | Calloc a b => calloc a b
  | Realloc p size => realloc p size
  | Free p => free p ;;; ret NULL
  | Write x v => lift (store_byte x v) ;;; ret NULL
  end.

(** The largest size whose number of pages can be computed in 32 bits. *)
Definition MAX_SIZE : Z := 4294963188.

(** A pointer the client may pass on. *)
Definition owned (B : gmap Z Z) (p : Z) : Prop := p = NULL \/ is_Some (B !! p).

(** What a client with the blocks [B] may do. *)
Definition valid (B : gmap Z Z) (c : call) : Prop :=
  match c with
  | Malloc size => 0 <= size <= MAX_SIZE
  | Calloc a b => 0 <= a /\ 0 <= b /\ a * b <= MAX_SIZE
  | Realloc p size => owned B p /\ 0 <= size <= MAX_SIZE
  | Free p => owned B p
  | Write x v => exists p n, B !! p = Some n /\ p <= x < p + n
  end.

(** The blocks after a call that has returned [r]. *)
Definition grant (r size : Z) (B : gmap Z Z) : gmap Z Z := if r =? NULL then B else <[r := size]> B.

Definition effect (B : gmap Z Z) (c : call) (r : Z) : gmap Z Z :=
  match c with
  | Malloc size => grant r size B
  | Calloc a b => grant r (a * b) B
  | Realloc p size =>
      if size =? 0 then delete p B else if r =? NULL then B else <[r := size]> (delete p B)
  | Free p => delete p B
  | Write _ _ => B
  end.

(** The bytes of the blocks that the call leaves alone. *)
Definition untouched (B : gmap Z Z) (c : call) (s s' : mstate) : Prop :=
  forall q n x, B !! q = Some n -> q <= x < q + n ->
    match c with Free p => q <> p | Realloc p _ => q <> p | Write y _ => x <> y | _ => True end ->
    byte s' x = byte s x.

Inductive client (s0 : mstate) : heap -> gmap Z Z -> Prop :=
| client_init h : malloc_init (loaded_heap s0) = Ok (tt, h) -> client s0 h ∅
| client_call h B c r h' :
    client s0 h B -> valid B c -> exec c h = Ok (r, h') -> client s0 h' (effect B c r).

(** ** The invariant of a client *)

Record owns (s0 : mstate) (h : heap) (A : gmap Z kind) (B : gmap Z Z) : Prop := {
  ow_ok : heap_ok h A;
  ow_tight : tight h A;
  ow_rest : forall x, rest h A x <-> used false s0 x = true;
  ow_block : forall p n, B !! p = Some n -> 0 < n /\ exists m, n <= m /\ live h A p m;
  ow_live : forall p m, live h A p m -> is_Some (B !! p)
}.

Definition owned_by (s0 : mstate) (h : heap) (B : gmap Z Z) : Prop := exists A, owns s0 h A B.

Section client.
Context (s0 : mstate) (h : heap) (A : gmap Z kind) (B : gmap Z Z) (Ho : owns s0 h A B).

Lemma owns_null : B !! NULL = None.
Proof.
  destruct (B !! NULL) as [n|] eqn:E; [exfalso|done].
  destruct (ow_block _ _ _ _ Ho _ _ E) as (_ & m & _ & Hl).
  destruct (live_inside h A _ m (ow_ok _ _ _ _ Ho) Hl) as (a & k & HA & H1 & _).
  destruct (arena_backed h A a k (ow_ok _ _ _ _ Ho) HA) as [[_ Ha] _]. unfold NULL, PHYS_BASE in *. lia.
Qed.

Lemma owned_live p : owned B p -> p <> NULL -> exists n m, B !! p = Some n /\ 0 < n <= m /\ live h A p m.
Proof.
  intros [->|[n Hn]] Hp; [done|]. destruct (ow_block _ _ _ _ Ho _ _ Hn) as (? & m & ? & ?). by exists n, m.
Qed.

(** What one more block does. *)
Lemma grant_owns p n size h' A' :
  allocates p n h A h' A' -> 0 < size <= n -> owns s0 h' A' (<[p := size]> B).
Proof.
  intros Hal Hs. destruct Ho as [Hok Ht Hr Hb Hl]. destruct (al_thrifty _ _ _ _ _ _ Hal) as [Ht' Hr']. constructor.
  - apply Hal.
  - by apply Ht'.
  - intros x. by rewrite Hr'.
  - intros q k [[<- <-]|[Hne Hq]]%lookup_insert_Some.
    + split; [lia|]. exists n. split; [lia|]. by eapply allocates_new.
    + destruct (Hb q k Hq) as (? & m & ? & Hm). split; [done|]. exists m. split; [done|].
      by apply (al_live _ _ _ _ _ _ Hal); left.
  - intros q m [Hq|[-> ->]]%(al_live _ _ _ _ _ _ Hal); [|rewrite lookup_insert_eq; eauto].
    destruct (decide (p = q)) as [->|Hne]; [rewrite lookup_insert_eq; eauto|]. rewrite lookup_insert_ne by done. eauto.
Qed.

Lemma kept_untouched s' c : kept h A s' -> untouched B c (mem h) s'.
Proof.
  intros Hk q n x Hq Hx _. destruct (ow_block _ _ _ _ Ho _ _ Hq) as (_ & m & ? & Hl). apply (Hk q m x Hl). lia.
Qed.

Lemma grant_one p size : p <> NULL -> grant p size B = <[p := size]> B.
Proof. intros Hp. unfold grant. by rewrite (proj2 (Z.eqb_neq _ _)). Qed.

(** A call of the client runs, keeps its invariant and its blocks. *)
Definition does (c : call) : Prop :=
  exists r h', exec c h = Ok (r, h') /\ owned_by s0 h' (effect B c r) /\ untouched B c (mem h) (mem h').

Lemma does_nothing c r :
  exec c h = Ok (r, h) -> effect B c r = B -> does c.
Proof. intros Hr He. exists r, h. rewrite He. split; [done|]. split; [by exists A|done]. Qed.

Lemma does_malloc size : 0 <= size <= MAX_SIZE -> does (Malloc size).
Proof.
  intros Hs. destruct (Z.eq_dec size 0) as [->|Hne]; [by apply (does_nothing _ NULL)|].
  destruct (malloc_block_run h A size (ow_ok _ _ _ _ Ho)) as [(p & n & h' & A' & Hr & Hn & Hal)|[Hr _]];
    [unfold MAX_SIZE in Hs; lia| |by apply (does_nothing _ NULL)].
  exists p, h'. cbn [effect]. rewrite grant_one by apply Hal. split; [done|]. split.
  - exists A'. eapply grant_owns; [done|lia].
  - by apply kept_untouched, Hal.
Qed.

Lemma does_calloc a b : 0 <= a -> 0 <= b -> a * b <= MAX_SIZE -> does (Calloc a b).
Proof.
  intros Ha Hb Hs. destruct (decide (0 < a /\ 0 < b)) as [[Ha' Hb']|Hz].
  - destruct (calloc_run h A a b (ow_ok _ _ _ _ Ho) Ha' Hb' Hs) as [(p & n & h' & A' & Hr & Hn & Hal & _)|[Hr _]];
      [|by apply (does_nothing _ NULL)].
    exists p, h'. cbn [effect]. rewrite grant_one by apply Hal. split; [done|]. split.
    + exists A'. eapply grant_owns; [done|nia].
    + by apply kept_untouched, Hal.
  - apply (does_nothing _ NULL); [|done]. cbn [exec]. unfold calloc.
    assert (a * b = 0) as -> by nia. change (u32 0) with 0.
    destruct ((0 <? a) || (0 <? b)); reflexivity.
Qed.

Lemma does_free p : owned B p -> does (Free p).
Proof.
  intros Hp. destruct (Z.eq_dec p NULL) as [->|Hne].
  { apply (does_nothing _ NULL); [done|]. cbn. by rewrite delete_id by apply owns_null. }
  destruct (owned_live p Hp Hne) as (n & m & Hn & Hnm & Hl).
  destruct (free_run h A p m (ow_ok _ _ _ _ Ho) Hl) as (h' & A' & Hr & [Hok Hlv Hk Hth]).
  exists NULL, h'. cbn [effect]. split; [by cbn; mrun Hr|]. destruct Ho as [_ Ht Hre Hb Hli]. split.
  - exists A'. constructor; [done|by apply Hth|intros x; by rewrite (th_rest _ _ _ _ Hth)| |].
    + intros q k [Hqp Hq]%lookup_delete_Some. destruct (Hb q k Hq) as (? & m' & ? & ?).
      split; [done|]. exists m'. split; [done|]. by apply Hlv.
    + intros q k [Hq Hqp]%Hlv. cbn. rewrite lookup_delete_ne by congruence. eauto.
  - intros q k x Hq Hx Hqp. destruct (Hb q k Hq) as (_ & m' & ? & Hm'). apply (Hk q m' x Hm' Hqp). lia.
Qed.

Lemma does_realloc p size : owned B p -> 0 <= size <= MAX_SIZE -> does (Realloc p size).
Proof.
  intros Hp Hs. destruct (Z.eq_dec size 0) as [->|Hz].
  { destruct (does_free p Hp) as (r & h' & Hr & Hrest). exists r, h'. done. }
  destruct (Z.eq_dec p NULL) as [->|Hne].
  { destruct (does_malloc size Hs) as (r & h' & Hr & Ho' & Hu). exists r, h'.
    cbn [effect]. rewrite (proj2 (Z.eqb_neq _ _)) by done. rewrite delete_id by apply owns_null. split; [|split].
    - cbn [exec] in *. unfold realloc. rewrite (proj2 (Z.eqb_neq _ _)) by done. mrun Hr. done.
    - exact Ho'.
    - intros q n x Hq Hx _. by apply (Hu q n). }
  destruct (owned_live p Hp Hne) as (n & m & Hn & Hnm & Hl).
  destruct (realloc_run h A p m size (ow_ok _ _ _ _ Ho) Hl) as [(r & k & h' & A' & Hr & Hk & Hok & Hth & Hlv & Hkp & _)|[Hr _]];
    [unfold MAX_SIZE in Hs; lia| |].
  2:{ apply (does_nothing _ NULL); [done|]. cbn. by rewrite (proj2 (Z.eqb_neq _ _)). }
  assert (r <> NULL) as Hrn.
  { assert (live h' A' r k) as Hl' by (apply Hlv; by right).
    destruct (live_inside h' A' _ k Hok Hl') as (a & kd & HA & H1 & _).
    destruct (arena_backed h' A' a kd Hok HA) as [[_ Ha] _]. unfold NULL, PHYS_BASE in *. lia. }
  exists r, h'. cbn [effect]. rewrite !(proj2 (Z.eqb_neq _ _)) by done. split; [done|].
  destruct Ho as [_ Ht Hre Hb Hli]. split.
  - exists A'. constructor; [done|by apply Hth|intros x; by rewrite (th_rest _ _ _ _ Hth)| |].
    + intros q j [[<- <-]|[_ [Hqp Hq]%lookup_delete_Some]]%lookup_insert_Some.
      * split; [lia|]. exists k. split; [lia|]. apply Hlv. by right.
      * destruct (Hb q j Hq) as (? & m' & ? & ?). split; [done|]. exists m'. split; [done|]. apply Hlv. by left.
    + intros q j [[Hq Hqp]|[-> ->]]%Hlv; [|rewrite lookup_insert_eq; eauto].
      destruct (decide (r = q)) as [->|]; [rewrite lookup_insert_eq; eauto|].
      rewrite lookup_insert_ne, lookup_delete_ne by done. eauto.
  - intros q j x Hq Hx Hqp. destruct (Hb q j Hq) as (_ & m' & ? & Hm'). apply (Hkp q m' x Hm' Hqp). lia.
Qed.

Lemma does_write p n x v : B !! p = Some n -> p <= x < p + n -> does (Write x v).
Proof.
  intros Hp Hx. pose proof (ow_ok _ _ _ _ Ho) as Hok. destruct (ow_block _ _ _ _ Ho _ _ Hp) as (_ & m & Hnm & Hl).
  destruct (store_byte_ok (mem h) x v) as (s' & Hr & Hw & Hby); [eapply live_addressable; [done|done|lia]|].
  destruct (live_aligned h A p m Hok Hl) as [E1 E2]. destruct (word_of_bounds x p (p + m) E1 E2 ltac:(lia)) as [W1 W2].
  apply (writes_weaken _ _ p (p + m)) in Hw; [|done|done].
  destruct (scribble h A p m s' Hok Hl Hw) as (Hok' & Hlv & _).
  destruct (thrifty_writes p (p + m) s' h A Hw) as [Ht Hre].
  exists NULL, (set_mem s' h). split; [cbn; by mrun (lift_run _ h _ _ Hr)|]. split.
  - exists A. constructor; [done|by apply Ht, Ho|intros y; rewrite Hre; apply Ho| |].
    + intros q k Hq. destruct (ow_block _ _ _ _ Ho _ _ Hq) as (? & m' & ? & ?). split; [done|].
      exists m'. split; [done|]. by apply Hlv.
    + intros q k Hq%Hlv. by apply (ow_live _ _ _ _ Ho q k).
  - intros q k y Hq Hy Hne. cbn. by rewrite Hby, (proj2 (Z.eqb_neq _ _)).
Qed.
End client.

Lemma exec_does s0 h B c :
  owned_by s0 h B -> valid B c ->
  exists r h', exec c h = Ok (r, h') /\ owned_by s0 h' (effect B c r) /\ untouched B c (mem h) (mem h').
Proof.
  intros [A Ho] Hv. change (does s0 h B c). destruct c as [size|a b|p size|p|x v]; cbn [valid] in Hv.
  - by eapply does_malloc.
  - destruct Hv as (? & ? & ?). by eapply does_calloc.
  - destruct Hv. by eapply does_realloc.
  - by eapply does_free.
  - destruct Hv as (p & n & ? & ?). by eapply does_write.
Qed.

Lemma client_owns s0 h B : palloc_ok s0 -> client s0 h B -> owned_by s0 h B.
Proof.
  intros Hs. induction 1 as [h Hr|h B c r h' _ [A IH] Hv Hr].
  - rewrite malloc_init_run in Hr. injection Hr as <-. exists ∅. constructor; [by apply init_heap_ok| | | |].
    + by intros a i.
    + intros x. unfold rest. cbn. split; [by intros [? _]|]. intros Hx. split; [done|]. by intros (a & k & ? & _).
    + by intros p n.
    + intros p m [a i idx HA|a n HA]; done.
  - destruct (exec_does s0 h B c) as (r' & h2 & Hr2 & Ho & _); [by exists A|done|]. rewrite Hr in Hr2.
    by injection Hr2 as <- <-.
Qed.

(** ** Theorems *)

(** C8: a client of the allocator that starts after malloc_init, passes only
    pointers to its own blocks and writes only into its own blocks never
    makes a call fail or assert; its blocks never overlap and lie in pages
    allocated from the kernel pool; a call changes no byte of a block that it
    neither frees nor writes; and when the client has given back all blocks,
    exactly the pages that were in use before malloc_init are in use. *)
Theorem malloc_client_safe s0 h B :
  palloc_ok s0 -> client s0 h B ->
  (forall c, valid B c -> exists r h', exec c h = Ok (r, h') /\ untouched B c (mem h) (mem h')) /\
  (forall p n q m, B !! p = Some n -> B !! q = Some m -> p <> q -> p + n <= q \/ q + m <= p) /\
  (forall p n x, B !! p = Some n -> p <= x < p + n -> used false (mem h) (page x) = true) /\
  (B = ∅ -> forall x, used false (mem h) x = used false s0 x).
Proof.
  intros Hs Hc. pose proof (client_owns s0 h B Hs Hc) as Ho. split; [|destruct Ho as [A Ho]; split; [|split]].
  - intros c Hv. destruct (exec_does s0 h B c Ho Hv) as (r & h' & Hr & _ & Hu). by exists r, h'.
  - intros p n q m Hp Hq Hne. destruct (ow_block _ _ _ _ Ho _ _ Hp) as (_ & n' & ? & Hlp).
    destruct (ow_block _ _ _ _ Ho _ _ Hq) as (_ & m' & ? & Hlq).
    destruct (live_disjoint h A p n' q m' (ow_ok _ _ _ _ Ho) Hlp Hlq Hne); lia.
  - intros p n x Hp Hx. destruct (ow_block _ _ _ _ Ho _ _ Hp) as (_ & m & ? & Hl).
    destruct (live_page h A p m x (ow_ok _ _ _ _ Ho) Hl) as (a & k & _ & _ & _ & _ & _ & Hu); [lia|done].
  - intros ->. assert (A = ∅) as ->.
    { apply (tight_empty h A (ow_ok _ _ _ _ Ho) (ow_tight _ _ _ _ Ho)). intros p m Hl.
      by destruct (ow_live _ _ _ _ Ho p m Hl). }
    intros x. apply eq_true_iff_eq. rewrite <- (ow_rest _ _ _ _ Ho x). unfold rest.
    split; [|by intros [? _]]. intros Hx. split; [done|]. by intros (a & k & ? & _).
Qed.

(** malloc of a size up to [MAX_SIZE] returns a block of at least this
    size that overlaps no block in use, with the contents of those unchanged,
    or a null pointer, in which case nothing has changed and the kernel pool
    has no group of free pages as long as the request needs. *)
Theorem malloc_returns h A size :
  heap_ok h A -> 0 < size <= MAX_SIZE ->
  (exists p n h' A', malloc size h = Ok (p, h') /\ p <> NULL /\ size <= n /\ heap_ok h' A' /\
     (forall q m, live h' A' q m <-> live h A q m \/ (q = p /\ m = n)) /\
     (forall q m, live h A q m -> q + m <= p \/ p + n <= q) /\
     (forall q m x, live h A q m -> q <= x < q + m -> byte (mem h') x = byte (mem h) x)) \/
  (malloc size h = Ok (NULL, h) /\ forall first, ~ page_group false false (mem h) first (need size)).
Proof.
  intros Hh Hs. destruct (malloc_block_run h A size Hh Hs) as [(p & n & h' & A' & Hr & Hn & Hal)|?]; [left|by right].
  exists p, n, h', A'. split; [done|]. split; [apply Hal|]. split; [done|]. split; [apply Hal|]. split; [apply Hal|].
  split; [|apply Hal]. intros q m Hq. destruct (allocates_old _ _ _ _ _ _ q m Hal Hq) as [Hq' Hne].
  apply (live_disjoint h' A' q m p n (al_ok _ _ _ _ _ _ Hal) Hq'); [by eapply allocates_new|done].
Qed.

(** realloc of a block in use returns a block of at least the new size
    that starts with the bytes of the old one, as many as both sizes allow;
    the old block is free afterwards and every other block is as before; when
    no pages are left it returns a null pointer and changes nothing. *)
Theorem realloc_ok h A old m size :
  heap_ok h A -> live h A old m -> 0 < size <= MAX_SIZE ->
  (exists p n h' A', realloc old size h = Ok (p, h') /\ size <= n /\ heap_ok h' A' /\
     (forall q k, live h' A' q k <-> (live h A q k /\ q <> old) \/ (q = p /\ k = n)) /\
     (forall q k x, live h A q k -> q <> old -> q <= x < q + k -> byte (mem h') x = byte (mem h) x) /\
     (forall j, 0 <= j < Z.min size m -> byte (mem h') (p + j) = byte (mem h) (old + j))) \/
  (realloc old size h = Ok (NULL, h) /\ forall first, ~ page_group false false (mem h) first (need size)).
Proof.
  intros Hh Hl Hs.
  destruct (realloc_run h A old m size Hh Hl Hs) as [(p & n & h' & A' & ? & ? & ? & _ & ? & ? & ?)|?]; [left|by right].
  by exists p, n, h', A'.
Qed.

(** C21: sizes wrap around: when a page is free, malloc of a size within 11
    bytes of 4 GB returns a block of 4084 bytes, and calloc of 65537 elements
    of 65537 bytes is the same as calloc of 131073 bytes. *)
Theorem allocation_sizes_wrap h A first size :
  heap_ok h A -> page_group false false (mem h) first 1 -> 4294967285 <= size <= 4294967295 ->
  (exists p h' A', malloc size h = Ok (p, h') /\ p <> NULL /\ heap_ok h' A' /\ live h' A' p 4084) /\
  calloc 65537 65537 h = calloc 1 131073 h.
Proof.
  intros Hh Hg Hs. split; [|reflexivity].
  destruct (find_desc_run 7 0 size h (heap_shape h A Hh) ltac:(lia) ltac:(lia)) as (i & Hfind & Hi & Hfit & _).
  assert (i = 7) as ->.
  { destruct (Z.eq_dec i 7); [done|]. specialize (Hfit ltac:(lia)). destruct (sizes i ltac:(lia)). lia. }
  assert (u32 (size + 4107) / 4096 = 1) as E.
  { unfold u32. replace (size + 4107) with (size + 4107 - 4294967296 + 1 * 4294967296) by lia.
    rewrite Z.mod_add, Z.mod_small by lia. symmetry. apply (Z.div_unique _ _ _ (size + 4107 - 4294967296 - 4096)); lia. }
  pose proof (malloc_big h A size Hh ltac:(lia) Hfind) as Hm. rewrite E in Hm.
  destruct Hm as [(p & h' & A' & Hr & Hal)|[_ Hno]]; [lia| |by destruct (Hno first)].
  exists p, h', A'. split; [done|]. split; [apply Hal|]. split; [apply Hal|]. by eapply allocates_new.
Qed.

(** ** A run on a machine with 268 pages *)

Definition result (r : res (Z * heap)) : Z * heap :=
  match r with Ok x => x | Err _ => (NULL, loaded_heap booted) end.

Definition m0 : heap := init_heap booted.
Definition m1 : heap := snd (result (malloc 100 m0)).

#[local] Opaque m0 m1 booted.

Lemma result_ok (r : res (Z * heap)) : (exists x h, r = Ok (x, h)) -> r = Ok (fst (result r), snd (result r)).
Proof. intros (x & h & ->). reflexivity. Qed.

Lemma m1_addr : fst (result (malloc 100 m0)) = 3222278156.
Proof. vm_compute. reflexivity. Qed.

Lemma m0_client : client booted m0 ∅.
Proof. apply client_init, malloc_init_run. Qed.

(** One block of 100 bytes. *)
Lemma m1_run : malloc 100 m0 = Ok (3222278156, m1).
Proof.
  rewrite <- m1_addr. apply (result_ok (malloc 100 m0)). destruct booted_ok as [Hok _].
  destruct (exec_does booted m0 ∅ (Malloc 100) (client_owns _ _ _ Hok m0_client)) as (r & h' & Hr & _).
  { cbn. unfold MAX_SIZE. lia. }
  by exists r, h'.
Qed.

Lemma m1_client : client booted m1 {[3222278156 := 100]}.
Proof.
  apply (client_call booted m0 ∅ (Malloc 100) 3222278156 m1 m0_client); [|exact m1_run].
  cbn. unfold MAX_SIZE. lia.
Qed.

Lemma m1_owned : owned_by booted m1 {[3222278156 := 100]}.
Proof. destruct booted_ok as [Hok _]. apply (client_owns _ _ _ Hok m1_client). Qed.

Lemma malloc_client_safe_witness :
  client booted m1 {[3222278156 := 100]} /\
  used false (mem m1) 3222278144 = true /\
  exists r h2, exec (Free 3222278156) m1 = Ok (r, h2) /\ forall x, used false (mem h2) x = used false booted x.
Proof.
  destruct booted_ok as [Hok _]. split; [apply m1_client|].
  destruct (malloc_client_safe booted m1 {[3222278156 := 100]} Hok m1_client) as (Hall & _ & Hin & _).
  split; [apply (Hin 3222278156 100 3222278200); [apply lookup_singleton_eq|lia]|].
  assert (valid {[3222278156 := 100]} (Free 3222278156)) as Hv.
  { right. rewrite lookup_singleton_eq. eauto. }
  destruct (Hall (Free 3222278156) Hv) as (r & h2 & Hr & _). exists r, h2. split; [exact Hr|].
  pose proof (client_call _ _ _ _ _ _ m1_client Hv Hr) as Hc. cbn [effect] in Hc. rewrite delete_singleton_eq in Hc.
  by apply (malloc_client_safe booted h2 ∅ Hok Hc).
Defined.

Lemma m1_malloc_addr : fst (result (malloc 2000 m1)) = 3222282252.
Proof. vm_compute. reflexivity. Qed.

Lemma malloc_returns_witness :
  exists A n h' A', heap_ok m1 A /\ malloc 2000 m1 = Ok (3222282252, h') /\ 2000 <= n /\ heap_ok h' A' /\ live h' A' 3222282252 n.
Proof.
  destruct m1_owned as [A Ho]. pose proof m1_malloc_addr as Ha.
  destruct (malloc_returns m1 A 2000 (ow_ok _ _ _ _ Ho)) as [(p & n & h' & A' & Hr & _ & Hn & Hok & Hl & _)|[Hr _]];
    [unfold MAX_SIZE; lia| |]; rewrite Hr in Ha; cbn [result fst] in Ha; [|discriminate Ha].
  exists A, n, h', A'. rewrite Hr, Ha. split; [apply Ho|]. split; [reflexivity|]. split; [exact Hn|]. split; [exact Hok|].
  apply Hl. right. split; [by symmetry|reflexivity].
Defined.

Lemma m1_realloc_addr : fst (result (realloc 3222278156 200 m1)) = 3222282252.
Proof. vm_compute. reflexivity. Qed.

Lemma realloc_ok_witness :
  exists A m h' A', heap_ok m1 A /\ live m1 A 3222278156 m /\
    realloc 3222278156 200 m1 = Ok (3222282252, h') /\ heap_ok h' A' /\
    byte (mem h') (3222282252 + 99) = byte (mem m1) (3222278156 + 99).
Proof.
  destruct m1_owned as [A Ho]. pose proof m1_realloc_addr as Ha.
  destruct (ow_block _ _ _ _ Ho 3222278156 100 (lookup_singleton_eq _ _)) as (_ & m & Hm & Hl).
  destruct (realloc_ok m1 A 3222278156 m 200 (ow_ok _ _ _ _ Ho) Hl)
    as [(p & n & h' & A' & Hr & _ & Hok & _ & _ & Hb)|[Hr _]];
    [unfold MAX_SIZE; lia| |]; rewrite Hr in Ha; cbn [result fst] in Ha; [|discriminate Ha].
  exists A, m, h', A'. split; [apply Ho|]. split; [exact Hl|]. rewrite Hr, Ha. split; [reflexivity|]. split; [exact Hok|].
  rewrite <- Ha. apply Hb. lia.
Defined.

Lemma booted_page : returned (palloc_get_multiple 0 1 booted) = 3222278144.
Proof. vm_compute. reflexivity. Qed.

Lemma booted_free : exists first, page_group false false booted first 1.
Proof.
  destruct booted_ok as [Hok _]. pose proof booted_page as Ha.
  destruct (palloc_get_multiple_run 0 1 booted Hok ltac:(lia)) as [(first & s' & Hr & Hg & _)|[_ Hr]];
    rewrite Hr in Ha; cbn [returned] in Ha; [|discriminate Ha].
  exists first. apply (got_free _ _ _ _ _ _ Hg).
Qed.

Lemma allocation_sizes_wrap_witness :
  exists p h' A', malloc 4294967290 (init_heap booted) = Ok (p, h') /\ p <> NULL /\ live h' A' p 4084.
Proof.
  destruct booted_ok as [Hok _]. destruct booted_free as [first Hf].
  destruct (allocation_sizes_wrap (init_heap booted) ∅ first 4294967290 (init_heap_ok booted Hok) Hf ltac:(lia))
    as [(p & h' & A' & Hr & Hp & _ & Hl) _].
  exists p, h', A'. split; [exact Hr|]. split; [exact Hp|exact Hl].
Defined.

End MallocProps.
