(* ===== verification/Paging.v ===== *)
(** * Paging: the invariant of the page tables and of the TLB

    [vm_ok] relates the memory, the allocator, a set of page directories and
    the translation lookaside buffer.  Every function of
    src/src/userprog/pagedir.c keeps it, and so does the processor when it
    loads or updates the TLB; in particular the TLB never holds a translation
    that the active directory does not have. *)

From S2P Require Import Prelude Bitmap Palloc Pagedir.
Import Palloc Pagedir.

Module Paging.

(** ** The processor *)

(** The TLB maps the number of a page to the entry that was loaded. *)
Definition set_tlb_entry (va e : Z) (s : mstate) : mstate := set_tlb (<[pg_no va := e]> (tlb s)) s.

(** On a miss the processor walks the active directory; for a page that is
    present it sets the accessed flag and loads the entry. *)
Definition mmu_load (va : Z) : M mstate unit :=
  pd <- active_pd ;;
  p <- lookup_page pd va false ;;
  ASSERT (negb (p =? NULL)) ;;;
  e <- load p ;;
  ASSERT (has_flag e PTE_P) ;;;
  store p (Z.lor e PTE_A) ;;;
  modify (set_tlb_entry va (Z.lor e PTE_A)).

(** The first write through a loaded entry sets the dirty flag, in memory
    too. *)
Definition mmu_write (va : Z) : M mstate unit :=
  c <- gets_opt (fun s => tlb s !! pg_no va) ;;
  ASSERT (has_flag c PTE_W) ;;;
  pd <- active_pd ;;
  p <- lookup_page pd va false ;;
  e <- load p ;;
  store p (Z.lor e PTE_D) ;;;
  modify (set_tlb_entry va (Z.lor c PTE_D)).

(** ** The invariant *)

(** A loaded entry agrees with the one in memory, except that the memory may
    have the accessed or the dirty flag in addition. *)
Definition cached (c e : Z) : Prop :=
  Z.testbit c 0 = true /\
  forall k, 0 <= k -> Z.testbit c k = Z.testbit e k \/ ((k = 5 \/ k = 6) /\ Z.testbit c k = false).

Definition tlb_ok (s : mstate) : Prop :=
  forall n c, tlb s !! n = Some c -> user_va (4096 * n) /\ cached c (pte s (active s) (4096 * n)).

Record vm_ok (s : mstate) (D : list Z) : Prop := {
  vo_palloc : palloc_ok s;
  vo_dirs : dirs_ok s D;
  vo_frames : frames_ok s D;
  vo_active : active s ∈ D;
  vo_init : init_page_dir s ∈ D;
  vo_empty : forall i, node s (init_page_dir s) (Table i) = None;
  vo_tlb : tlb_ok s
}.

(** ** Bits of an entry *)

Lemma has_flag_bit e k : 0 <= k -> has_flag e (2 ^ k) = Z.testbit e k.
Proof. intros Hk. unfold has_flag. rewrite <- Z.shiftl_1_l. by apply Bitmap.land_bit. Qed.

Lemma set_bit e k j : 0 <= k -> 0 <= j -> Z.testbit (Z.lor e (2 ^ k)) j = (j =? k) || Z.testbit e j.
Proof. intros Hk Hj. rewrite Z.lor_spec, Z.pow2_bits_eqb, Z.eqb_sym by done. apply orb_comm. Qed.

Lemma clear_bit e k j :
  in_u32 e -> 0 <= k < 32 -> 0 <= j ->
  Z.testbit (Z.land e (u32 (Z.lnot (2 ^ k)))) j = negb (j =? k) && Z.testbit e j.
Proof.
  intros He Hk Hj. apply Bitmap.in_u32_bits in He as [_ He]. rewrite Z.land_spec. unfold u32.
  change 4294967296 with (2 ^ 32). destruct (Z.lt_ge_cases j 32).
  - rewrite Z.mod_pow2_bits_low, Z.lnot_spec, Z.pow2_bits_eqb, Z.eqb_sym by lia. apply andb_comm.
  - rewrite He by done. by rewrite andb_false_r.
Qed.

Lemma set_bit_u32 e k : in_u32 e -> 0 <= k < 32 -> in_u32 (Z.lor e (2 ^ k)).
Proof.
  intros He Hk. apply Bitmap.in_u32_bits in He as [H0 He]. apply Bitmap.in_u32_bits. split.
  - apply Z.lor_nonneg. split; [done|]. by apply Z.pow_nonneg.
  - intros j Hj. rewrite set_bit by lia. rewrite He by done. rewrite (proj2 (Z.eqb_neq j k)) by lia. done.
Qed.

Lemma clear_bit_u32 e k : in_u32 e -> in_u32 (Z.land e (u32 (Z.lnot (2 ^ k)))).
Proof.
  intros He. apply Bitmap.in_u32_bits in He as [H0 He]. apply Bitmap.in_u32_bits. split.
  - apply Z.land_nonneg. by left.
  - intros j Hj. by rewrite Z.land_spec, He.
Qed.

(** Entries that differ in a flag only name the same frame. *)
Lemma same_frame e e' k :
  Z.testbit PTE_ADDR k = false -> (forall j, 0 <= j -> j <> k -> Z.testbit e' j = Z.testbit e j) ->
  Z.land e' PTE_ADDR = Z.land e PTE_ADDR.
Proof.
  intros Hk He. apply Z.bits_inj'. intros j Hj. rewrite !Z.land_spec.
  destruct (Z.eq_dec j k) as [->|Hne]; [by rewrite Hk, !andb_false_r|]. by rewrite He.
Qed.

(** The flags that the processor sets. *)
Definition ad_bit (k : Z) : Prop := k = 5 \/ k = 6.

Lemma ad_bit_small k : ad_bit k -> 0 <= k < 32 /\ Z.testbit PTE_ADDR k = false.
Proof. by intros [-> | ->]. Qed.

Lemma cached_set c e k : ad_bit k -> cached c e -> cached c (Z.lor e (2 ^ k)).
Proof.
  intros Hk [Hp Hc]. split; [done|]. intros j Hj. destruct (ad_bit_small k Hk) as [Hks _].
  rewrite set_bit by lia. destruct (Z.eqb_spec j k) as [->|]; [|by apply Hc].
  cbn. destruct (Z.testbit c k) eqn:E; [by left|]. right. by split.
Qed.

Lemma cached_both c e k : ad_bit k -> cached c e -> cached (Z.lor c (2 ^ k)) (Z.lor e (2 ^ k)).
Proof.
  intros Hk [Hp Hc]. destruct (ad_bit_small k Hk) as [Hks _]. split.
  - rewrite set_bit, Hp by lia. apply orb_true_r.
  - intros j Hj. rewrite !set_bit by lia. destruct (Z.eqb_spec j k) as [->|]; [by left|]. by apply Hc.
Qed.

Lemma cached_refl e : Z.testbit e 0 = true -> cached e e.
Proof. intros He. split; [done|]. intros k Hk. by left. Qed.

(** ** One entry changes *)

Lemma pte_same_page s pd va va' : pg_no va = pg_no va' -> pte s pd va = pte s pd va'.
Proof.
  intros E. pose proof (pg_no_split va). pose proof (pg_no_split va').
  pose proof (pt_no_range va). pose proof (pt_no_range va').
  assert (pd_no va = pd_no va') as E1 by lia. assert (pt_no va = pt_no va') as E2 by lia.
  unfold pte. by rewrite E1, E2.
Qed.

Lemma pg_no_page n : pg_no (4096 * n) = n.
Proof. rewrite pg_no_div, Z.mul_comm. by apply Z.div_mul. Qed.

Lemma vm_ok_entry s s' D pd va e :
  vm_ok s D -> pd ∈ D -> entry_set D pd va e s s' ->
  active s' = active s -> init_page_dir s' = init_page_dir s -> pd <> init_page_dir s ->
  (has_flag e PTE_P = true -> Z.land e PTE_ADDR < 1073741824) ->
  (tlb s' = tlb s /\ (pd = active s -> forall c, cached c (pte s pd va) -> cached c e)) \/
  (tlb s' = if active s =? pd then ∅ else tlb s) ->
  vm_ok s' D.
Proof.
  intros [Hs Hd Hf Ha Hi He Ht] Hin [Hs' Hd' Hv Hn Hu] Ea Ei Hne Hfr Htlb.
  constructor; rewrite ?Ea, ?Ei; try done.
  - intros pd' va' Hin' Hva. rewrite Hv by done. destruct (_ && _); [done|]. by apply Hf.
  - intros i. rewrite Hn by (done || congruence). apply He.
  - intros n c Hc. rewrite Ea.
    destruct Htlb as [[Et Hcache]|Et]; rewrite Et in Hc.
    + destruct (Ht n c Hc) as [Hva Hcc]. split; [done|]. rewrite Hv by done.
      destruct (Z.eqb_spec (active s) pd) as [<-|]; cbn [andb]; [|done].
      destruct (Z.eqb_spec (pg_no (4096 * n)) (pg_no va)) as [Ep|]; [|done].
      apply Hcache; [done|]. by rewrite <- (pte_same_page _ _ _ _ Ep).
    + destruct (Z.eqb_spec (active s) pd) as [<-|Hna]; [done|].
      destruct (Ht n c Hc) as [Hva Hcc]. split; [done|]. rewrite Hv by done.
      by rewrite (proj2 (Z.eqb_neq _ _)).
Qed.

Lemma active_addr s D : vm_ok s D -> page_addr (active s).
Proof. intros Hvm. by destruct (do_root _ _ _ (vo_dirs _ _ Hvm) (vo_active _ _ Hvm)). Qed.

Lemma has_table_not_init s D pd i pt : vm_ok s D -> node s pd (Table i) = Some pt -> pd <> init_page_dir s.
Proof. intros Hvm Hn ->. rewrite (vo_empty _ _ Hvm) in Hn. done. Qed.

(** ** The operations keep the invariant *)

(** What one operation on an entry leaves. *)
Definition sets (D : list Z) (pd va e : Z) (s s' : mstate) : Prop :=
  vm_ok s' D /\ active s' = active s /\ init_page_dir s' = init_page_dir s /\
  forall pd' va', pd' ∈ D ->
    pte s' pd' va' = if (pd' =? pd) && (pg_no va' =? pg_no va) then e else pte s pd' va'.

(** Clearing flag [k] of an entry in a table, as [pagedir_clear_page] and the
    functions for the other flags do. *)
Lemma clear_flag_run s D pd va pt k :
  vm_ok s D -> pd ∈ D -> user_va va -> node s pd (Table (pd_no va)) = Some pt ->
  0 <= k < 32 -> Z.testbit PTE_ADDR k = false ->
  exists s', (store (slot_addr pt va) (Z.land (pte s pd va) (u32 (Z.lnot (2 ^ k)))) ;;; invalidate_pagedir pd) s
             = Ok (tt, s') /\
    sets D pd va (Z.land (pte s pd va) (u32 (Z.lnot (2 ^ k)))) s s'.
Proof.
  intros Hvm Hin Hva Hn Hk Hkb. pose proof (vo_dirs _ _ Hvm) as Hd.
  destruct (slot_addr_ok s D pd va pt Hd Hin Hn) as (_ & _ & _ & Hu32).
  destruct (clear_entry s D pd va pt _ (vo_palloc _ _ Hvm) Hd Hin (active_addr _ _ Hvm) Hn (clear_bit_u32 _ k Hu32))
    as (s' & Hr & Hes & Ea & Ei & Et).
  exists s'. split; [done|]. split; [|split; [done|split; [done|apply Hes]]].
  eapply (vm_ok_entry s s' D pd va); try done; [by eapply has_table_not_init| |by right].
  intros Hp. rewrite (same_frame (pte s pd va) _ k) by
    (try done; intros j Hj Hne; rewrite clear_bit by done; by rewrite (proj2 (Z.eqb_neq j k))).
  apply (vo_frames _ _ Hvm); [done|done|]. change PTE_P with (2 ^ 0) in *. rewrite has_flag_bit in * by done.
  rewrite clear_bit in Hp by done. by apply andb_true_iff in Hp as [_ ?].
Qed.

(** Setting the accessed or the dirty flag of an entry in a table. *)
Lemma set_flag_run s D pd va pt k :
  vm_ok s D -> pd ∈ D -> user_va va -> node s pd (Table (pd_no va)) = Some pt -> ad_bit k ->
  exists s', store (slot_addr pt va) (Z.lor (pte s pd va) (2 ^ k)) s = Ok (tt, s') /\
    sets D pd va (Z.lor (pte s pd va) (2 ^ k)) s s' /\ tlb s' = tlb s.
Proof.
  intros Hvm Hin Hva Hn Hk. pose proof (vo_dirs _ _ Hvm) as Hd.
  destruct (ad_bit_small k Hk) as [Hks Hka].
  destruct (slot_addr_ok s D pd va pt Hd Hin Hn) as (_ & _ & Hst & Hu32). rewrite Hst.
  eexists. split; [done|].
  pose proof (put_entry s D pd va pt _ (vo_palloc _ _ Hvm) Hd Hin Hn (set_bit_u32 _ k Hu32 Hks)) as Hes.
  split; [|done]. split; [|split; [done|split; [done|apply Hes]]].
  eapply (vm_ok_entry s _ D pd va); try done.
  - by eapply has_table_not_init.
  - intros Hp. rewrite (same_frame (pte s pd va) _ k) by
      (try done; intros j Hj Hne; rewrite set_bit by lia; by rewrite (proj2 (Z.eqb_neq j k))).
    apply (vo_frames _ _ Hvm); [done|done|]. change PTE_P with (2 ^ 0) in *. rewrite has_flag_bit in * by done.
    rewrite set_bit in Hp by lia. destruct Hk as [-> | ->]; done.
  - left. split; [done|]. intros _ c Hc. by apply cached_set.
Qed.

Lemma clear_absent e : in_u32 e -> has_flag e PTE_P = false -> Z.land e (u32 (Z.lnot PTE_P)) = e.
Proof.
  intros He Hp. change PTE_P with (2 ^ 0) in *. rewrite has_flag_bit in Hp by done.
  apply Z.bits_inj'. intros j Hj. rewrite clear_bit by done.
  destruct (Z.eqb_spec j 0) as [->|]; [by rewrite Hp|done].
Qed.

Lemma sets_same s D pd va : vm_ok s D -> sets D pd va (pte s pd va) s s.
Proof.
  intros Hvm. split; [done|]. split; [done|]. split; [done|]. intros pd' va' Hin'.
  destruct (Z.eqb_spec pd' pd) as [->|]; [|done]. cbn [andb].
  destruct (Z.eqb_spec (pg_no va') (pg_no va)); [|done]. by apply pte_same_page.
Qed.

(** [pagedir_clear_page] removes the present flag of one entry. *)
Lemma clear_page_run s D pd upage :
  vm_ok s D -> pd ∈ D -> user_va upage -> pg_ofs upage = 0 ->
  exists s', pagedir_clear_page pd upage s = Ok (tt, s') /\
    sets D pd upage (Z.land (pte s pd upage) (u32 (Z.lnot PTE_P))) s s'.
Proof.
  intros Hvm Hin Hu Ho. pose proof (vo_dirs _ _ Hvm) as Hd. unfold pagedir_clear_page, is_user_vaddr. rewrite Ho.
  rewrite (proj2 (Z.ltb_lt upage _)) by apply Hu. mnorm. rewrite (with_entry s D) by done.
  destruct (node s pd (Table (pd_no upage))) as [pt|] eqn:Hn.
  2:{ exists s. split; [done|]. pose proof (sets_same s D pd upage Hvm) as H.
      by rewrite (pte_none s pd upage Hn) in *. }
  destruct (slot_addr_ok s D pd upage pt Hd Hin Hn) as (_ & Hl & _ & Hu32). mrun Hl.
  destruct (has_flag (pte s pd upage) PTE_P) eqn:Hp.
  - by apply (clear_flag_run s D pd upage pt 0).
  - exists s. split; [done|]. rewrite clear_absent by done. by apply sets_same.
Qed.

(** [pagedir_set_dirty] and [pagedir_set_accessed]. *)
Lemma pagedir_set_run s D pd va k v :
  vm_ok s D -> pd ∈ D -> user_va va -> ad_bit k ->
  match node s pd (Table (pd_no va)) with
  | None => pagedir_set (2 ^ k) pd va v s = Ok (tt, s)
  | Some _ =>
      exists s', pagedir_set (2 ^ k) pd va v s = Ok (tt, s') /\
        sets D pd va (if v then Z.lor (pte s pd va) (2 ^ k)
                      else Z.land (pte s pd va) (u32 (Z.lnot (2 ^ k)))) s s'
  end.
Proof.
  intros Hvm Hin Hu Hk. pose proof (vo_dirs _ _ Hvm) as Hd. unfold pagedir_set.
  destruct (node s pd (Table (pd_no va))) as [pt|] eqn:Hn.
  2:{ by mrun (lookup_page_none s D pd va Hd Hin Hu Hn). }
  destruct (slot_addr_ok s D pd va pt Hd Hin Hn) as (Hnn & Hl & _ & _).
  mrun (lookup_page_table s D pd va pt false Hd Hin Hu Hn). rewrite (proj2 (Z.eqb_neq _ NULL)) by done.
  cbn [negb]. mrun Hl. destruct (ad_bit_small k Hk) as [Hks Hka]. destruct v.
  - destruct (set_flag_run s D pd va pt k Hvm Hin Hu Hn Hk) as (s' & Hr & Hset & _). eauto.
  - by apply clear_flag_run.
Qed.

Lemma pagedir_is_run s D pd va f :
  dirs_ok s D -> pd ∈ D -> user_va va -> pagedir_is f pd va s = Ok (has_flag (pte s pd va) f, s).
Proof.
  intros Hd Hin Hu. unfold pagedir_is. rewrite (with_entry s D) by done.
  destruct (node s pd (Table (pd_no va))) as [pt|] eqn:Hn.
  - destruct (slot_addr_ok s D pd va pt Hd Hin Hn) as (_ & Hl & _). by mrun Hl.
  - by rewrite pte_none, has_flag_0.
Qed.

(** [pagedir_set_page]. *)
Lemma set_page_keeps s D pd upage kpage w :
  vm_ok s D -> pd ∈ D -> pd <> init_page_dir s -> user_va upage -> pg_ofs upage = 0 -> mappable s kpage ->
  has_flag (pte s pd upage) PTE_P = false ->
  (exists s' e, pagedir_set_page pd upage kpage w s = Ok (true, s') /\
     sets D pd upage e s s' /\ points_to e kpage (user_flags w) /\ tlb s' = tlb s) \/
  (pagedir_set_page pd upage kpage w s = Ok (false, s) /\ node s pd (Table (pd_no upage)) = None /\
   forall first, ~ page_group false false s first 1).
Proof.
  intros Hvm Hin Hpd Hu Ho Hk Hp.
  destruct (set_page_run s D pd upage kpage w (vo_palloc _ _ Hvm) (vo_dirs _ _ Hvm) Hin Hpd Hu Ho Hk Hp)
    as [(s' & e & Hr & Hes & Hpt & Hhw)|?]; [|by right].
  left. exists s', e. split; [done|]. unfold hw in Hhw. injection Hhw as H1 H2 H3 H4.
  assert (active s' = active s) as Ea by (unfold active; congruence).
  split; [|done]. split; [|split; [done|split; [done|apply Hes]]].
  eapply (vm_ok_entry s s' D pd upage); try done.
  - intros _. pose proof (pt_addr _ _ _ Hpt). destruct Hk as [Hk _]. destruct Hk. unfold PHYS_BASE in *. lia.
  - left. split; [done|]. intros -> c [Hc0 Hc]. change PTE_P with (2 ^ 0) in Hp. rewrite has_flag_bit in Hp by done.
    destruct (Hc 0 ltac:(done)) as [H|[[|] _]]; congruence.
Qed.

(** [pagedir_activate]. *)
Lemma vm_ok_flushed s D pd : vm_ok s D -> pd ∈ D -> vm_ok (flushed pd s) D.
Proof.
  intros [Hs Hd Hf Ha Hi He Ht] Hin.
  assert (active (flushed pd s) = pd) as Ea by (unfold active, flushed; cbn; lia).
  constructor; rewrite ?Ea; try done.
  - destruct Hs as [H1 H2 H3]. constructor; [|done|];
      intros []; [apply (H1 true)|apply (H1 false)|apply (H3 true)|apply (H3 false)].
  - destruct Hd as [H1 H2 H3]. by constructor.
Qed.

Lemma activate_run s D pd :
  vm_ok s D -> pd ∈ D \/ pd = NULL ->
  let pd' := if pd =? NULL then init_page_dir s else pd in
  pagedir_activate pd s = Ok (tt, flushed pd' s) /\ vm_ok (flushed pd' s) D.
Proof.
  intros Hvm Hin pd'. assert (pd' ∈ D) as Hin'.
  { unfold pd'. destruct (Z.eqb_spec pd NULL); [apply (vo_init _ _ Hvm)|]. by destruct Hin. }
  destruct (do_root _ _ _ (vo_dirs _ _ Hvm) Hin') as (Ha & _ & _).
  split; [|by apply vm_ok_flushed]. unfold pagedir_activate. mnorm. fold pd'. by mrun (vtop_ok pd' s Ha).
Qed.

(** [pagedir_create]. *)
Definition copy_page (pd : Z) (ws : list Z) (s : mstate) : mstate := set_ram (<[pd := ws]> (ram s)) s.

Section create.
Context (s s1 : mstate) (D : list Z) (pd : Z) (ws : list Z).
Context (Hvm : vm_ok s D) (Hg : got false false 1 pd s s1) (Hws : ram s !! init_page_dir s = Some ws).

Let s2 : mstate := copy_page pd ws s1.

Lemma create_fresh a : used false s a = true -> a <> pd.
Proof.
  intros Hu ->. pose proof (got_fresh _ _ _ _ _ _ _ (vo_palloc _ _ Hvm) Hg Hu) as Hf.
  apply not_true_iff_false in Hf. apply Hf, in_pages_spec. lia.
Qed.

Lemma create_frame :
  dirs_ok s2 D /\ (forall pd' sl, pd' ∈ D -> node s2 pd' sl = node s pd' sl) /\
  (forall pd' va, pd' ∈ D -> pte s2 pd' va = pte s pd' va).
Proof.
  apply dirs_frame; [apply Hvm|]. intros pd' sl a Hin Hn.
  destruct (do_node _ _ (vo_dirs _ _ Hvm) _ _ _ Hin Hn) as (_ & _ & Hu). split.
  - cbn. rewrite lookup_insert_ne by (apply not_eq_sym; by apply create_fresh).
    apply (got_other _ _ _ _ _ _ Hg). by eapply got_fresh; [apply Hvm|apply Hg|].
  - change (used false s1 a = true). rewrite (got_used _ _ _ _ _ _ Hg), Hu. apply orb_true_r.
Qed.

Lemma create_word i : word s2 pd i = word s (init_page_dir s) i.
Proof. unfold word, s2. cbn. by rewrite lookup_insert_eq, Hws. Qed.

Lemma create_node sl : node s2 pd sl = match sl with Root => Some pd | Table _ => None end.
Proof.
  destruct sl as [|i]; [done|]. pose proof (vo_empty _ _ Hvm i) as He. unfold node in *.
  rewrite create_word. by destruct (_ && _).
Qed.

Lemma create_ram_page : ram_page s2 pd.
Proof.
  destruct (do_root _ _ _ (vo_dirs _ _ Hvm) (vo_init _ _ Hvm)) as (_ & (ws' & Hws' & H') & _).
  exists ws. cbn. rewrite lookup_insert_eq. split; [done|]. congruence.
Qed.

Lemma create_used : used false s2 pd = true.
Proof.
  change (used false s1 pd = true). rewrite (got_used _ _ _ _ _ _ Hg). cbn [Bool.eqb andb].
  rewrite (proj2 (in_pages_spec pd 1 pd)); [done|lia].
Qed.

Lemma create_dirs : dirs_ok s2 (pd :: D).
Proof.
  destruct create_frame as (Hd2 & Hn2 & _).
  assert (forall pd' sl, pd' ∈ D -> node s2 pd' sl <> Some pd) as Hfresh.
  { intros pd' sl Hin. rewrite Hn2 by done. intros Hn.
    destruct (do_node _ _ (vo_dirs _ _ Hvm) _ _ _ Hin Hn) as (_ & _ & Hu). by destruct (create_fresh pd). }
  constructor.
  - intros pd' sl a [->|Hin]%elem_of_cons.
    + rewrite create_node. destruct sl; [|done]. intros [= <-].
      split; [by eapply got_page_addr|]. split; [apply create_ram_page|apply create_used].
    + by apply Hd2.
  - intros pd' i [->|Hin]%elem_of_cons Hi.
    + intros Hw. pose proof (create_node (Table i)) as Hn. rewrite node_Table in Hn by done.
      by rewrite (proj2 (Z.eqb_neq _ 0)) in Hn.
    + by apply Hd2.
  - intros pd1 sl1 pd2 sl2 a [->|H1]%elem_of_cons [->|H2]%elem_of_cons; rewrite ?create_node.
    + by destruct sl1, sl2.
    + destruct sl1; [|done]. intros [= <-] Hn. by destruct (Hfresh pd2 sl2).
    + destruct sl2; [|done]. intros Hn [= <-]. by destruct (Hfresh pd1 sl1).
    + by apply Hd2.
Qed.

Lemma create_pte va : pte s2 pd va = 0.
Proof. unfold pte. by rewrite create_node. Qed.

Lemma create_vm_ok : vm_ok s2 (pd :: D).
Proof.
  destruct create_frame as (Hd2 & Hn2 & Hp2). pose proof (got_hw _ _ _ _ _ _ Hg) as Hhw.
  unfold hw in Hhw. injection Hhw as E1 E2 E3 E4.
  assert (active s2 = active s) as Ea by (unfold active; cbn; congruence).
  constructor; rewrite ?Ea.
  - destruct (got_ok _ _ _ _ _ _ Hg) as [H1 H2 H3]. constructor; [intros u; unfold s2, copy_page; by rewrite the_pool_set_ram|done|].
    intros u i. unfold s2, copy_page. rewrite the_pool_set_ram. intros Hi. destruct (H3 u i Hi) as (w & Hw & Hl).
    unfold backed. cbn. destruct (decide (page_at (the_pool u s1) i = pd)) as [->|Hne].
    + rewrite lookup_insert_eq. destruct create_ram_page as (w' & Hw' & Hl' & _). cbn in Hw'.
      rewrite lookup_insert_eq in Hw'. eauto.
    + rewrite lookup_insert_ne by done. eauto.
  - apply create_dirs.
  - intros pd' va [->|Hin]%elem_of_cons Hva.
    + rewrite create_pte, has_flag_0. done.
    + rewrite Hp2 by done. by apply (vo_frames _ _ Hvm).
  - apply elem_of_cons. right. apply Hvm.
  - apply elem_of_cons. right. cbn. rewrite E2. apply Hvm.
  - intros i. change (init_page_dir s2) with (init_page_dir s1). rewrite E2, Hn2 by apply Hvm. apply Hvm.
  - intros n c. change (tlb s2) with (tlb s1). rewrite E4, Ea. intros Hc.
    destruct (vo_tlb _ _ Hvm n c Hc) as [Hu Hcc]. split; [done|]. rewrite Hp2 by apply Hvm. done.
Qed.
End create.

Lemma create_run s D :
  vm_ok s D ->
  (exists pd s', pagedir_create s = Ok (pd, s') /\ vm_ok s' (pd :: D) /\ pd <> NULL /\ (pd ∉ D) /\
     (forall pd' va, pd' ∈ D -> pte s' pd' va = pte s pd' va) /\
     (forall va, pte s' pd va = 0) /\
     (forall i, word s' pd i = word s (init_page_dir s) i)) \/
  (pagedir_create s = Ok (NULL, s) /\ forall first, ~ page_group false false s first 1).
Proof.
  intros Hvm. unfold pagedir_create, palloc_get_page.
  destruct (palloc_get_multiple_run 0 1 s (vo_palloc _ _ Hvm) ltac:(lia)) as [(pd & s1 & Hr & Hg & _)|[Hno Hr]].
  2:{ right. mrun Hr. done. }
  left. change (has_flag 0 PAL_USER) with false in Hg. change (has_flag 0 PAL_ZERO) with false in Hg. mrun Hr.
  destruct (do_root _ _ _ (vo_dirs _ _ Hvm) (vo_init _ _ Hvm)) as (_ & (ws & Hws & _) & Hui).
  pose proof (got_page_addr _ _ _ _ _ Hg) as Hpa. pose proof (got_hw _ _ _ _ _ _ Hg) as Hhw.
  unfold hw in Hhw. injection Hhw as E1 E2 E3 E4.
  rewrite (proj2 (Z.eqb_neq pd NULL)) by (destruct Hpa; unfold NULL, PHYS_BASE in *; lia). cbn [negb]. mnorm.
  assert (ram s1 !! init_page_dir s1 = Some ws) as Hws1.
  { rewrite E2, (got_other _ _ _ _ _ _ Hg); [done|]. by eapply got_fresh; [apply Hvm|apply Hg|]. }
  unfold bind at 1, gets_opt at 1. rewrite Hws1. mnorm.
  destruct (got_backed_page false false pd s s1 (vo_palloc _ _ Hvm) Hg) as (w & Hw & _).
  unfold bind at 1, gets_opt at 1. rewrite Hw. mnorm.
  destruct (create_frame s s1 D pd ws Hvm Hg) as (_ & _ & Hp2).
  exists pd, (copy_page pd ws s1). split; [done|]. split; [by apply (create_vm_ok s s1)|].
  split; [destruct Hpa; unfold NULL, PHYS_BASE in *; lia|]. split.
  - intros Hin. destruct (do_root _ _ _ (vo_dirs _ _ Hvm) Hin) as (_ & _ & Hu).
    by destruct (create_fresh s s1 D pd Hvm Hg pd Hu).
  - split; [done|]. split; [intros va; by apply (create_pte s s1 D)|intros i; by apply create_word].
Qed.

(** ** The processor keeps the invariant *)

Lemma active_pd_run s D : vm_ok s D -> active_pd s = Ok (active s, s).
Proof.
  intros Hvm. unfold active_pd. mnorm. destruct (active_addr _ _ Hvm) as [_ Hb]. by rewrite ptov_ok.
Qed.

Lemma user_va_page va : user_va va -> user_va (4096 * pg_no va).
Proof.
  unfold user_va. rewrite pg_no_div. intros Hv. pose proof (Z.div_mod va 4096 ltac:(lia)).
  pose proof (Z.mod_pos_bound va 4096 ltac:(lia)). pose proof (Z.div_pos va 4096). lia.
Qed.

Lemma vm_ok_tlb s D va c :
  vm_ok s D -> user_va va -> cached c (pte s (active s) va) -> vm_ok (set_tlb_entry va c s) D.
Proof.
  intros [Hs Hd Hf Ha Hi He Ht] Hva Hc. constructor; try done.
  - destruct Hs as [H1 H2 H3]. constructor; [|done|];
      intros []; [apply (H1 true)|apply (H1 false)|apply (H3 true)|apply (H3 false)].
  - destruct Hd as [H1 H2 H3]. by constructor.
  - intros n x. cbn. destruct (decide (n = pg_no va)) as [->|Hne].
    + rewrite lookup_insert_eq. intros [= <-]. split; [by apply user_va_page|].
      change (cached c (pte s (active s) (4096 * pg_no va))).
      rewrite (pte_same_page s _ _ va) by apply pg_no_page. done.
    + rewrite lookup_insert_ne by done. apply Ht.
Qed.

Lemma mmu_load_keeps s D va s' : vm_ok s D -> user_va va -> mmu_load va s = Ok (tt, s') -> vm_ok s' D.
Proof.
  intros Hvm Hva. unfold mmu_load. mrun (active_pd_run s D Hvm).
  pose proof (vo_dirs _ _ Hvm) as Hd. pose proof (vo_active _ _ Hvm) as Hin.
  destruct (node s (active s) (Table (pd_no va))) as [pt|] eqn:Hn.
  2:{ by mrun (lookup_page_none s D _ va Hd Hin Hva Hn). }
  mrun (lookup_page_table s D _ va pt false Hd Hin Hva Hn).
  destruct (slot_addr_ok s D _ va pt Hd Hin Hn) as (Hnn & Hl & _ & _).
  rewrite (proj2 (Z.eqb_neq _ NULL)) by done. cbn [negb]. mnorm. mrun Hl.
  destruct (has_flag (pte s (active s) va) PTE_P) eqn:Hp; [|done]. mnorm.
  destruct (set_flag_run s D (active s) va pt 5 Hvm Hin Hva Hn ltac:(by left)) as (s1 & Hr & (Hvm1 & Ea & _ & Hv) & _).
  change (2 ^ 5) with PTE_A in *. mrun Hr. intros [= <-]. apply vm_ok_tlb; [done|done|].
  rewrite Ea, Hv, !Z.eqb_refl by done. cbn [andb]. apply cached_refl. change PTE_A with (2 ^ 5).
  rewrite set_bit by done. change PTE_P with (2 ^ 0) in Hp. rewrite has_flag_bit in Hp by done. by rewrite Hp.
Qed.

Lemma mmu_write_keeps s D va s' : vm_ok s D -> user_va va -> mmu_write va s = Ok (tt, s') -> vm_ok s' D.
Proof.
  intros Hvm Hva. unfold mmu_write. unfold bind at 1, gets_opt at 1.
  destruct (tlb s !! pg_no va) as [c|] eqn:Hc; [|done].
  destruct (has_flag c PTE_W); [|done]. mnorm. mrun (active_pd_run s D Hvm).
  pose proof (vo_dirs _ _ Hvm) as Hd. pose proof (vo_active _ _ Hvm) as Hin.
  destruct (vo_tlb _ _ Hvm _ _ Hc) as [_ Hcc]. rewrite (pte_same_page s _ _ va) in Hcc by apply pg_no_page.
  destruct (node s (active s) (Table (pd_no va))) as [pt|] eqn:Hn.
  2:{ rewrite (pte_none _ _ _ Hn) in Hcc. destruct Hcc as [H0 Hcc].
      destruct (Hcc 0 ltac:(done)) as [H|[[|] _]]; [|done|done]. by rewrite Z.bits_0, H0 in H. }
  mrun (lookup_page_table s D _ va pt false Hd Hin Hva Hn).
  destruct (slot_addr_ok s D _ va pt Hd Hin Hn) as (Hnn & Hl & _ & _). mrun Hl.
  destruct (set_flag_run s D (active s) va pt 6 Hvm Hin Hva Hn ltac:(by right)) as (s1 & Hr & (Hvm1 & Ea & _ & Hv) & _).
  change (2 ^ 6) with PTE_D in *. mrun Hr. intros [= <-]. apply vm_ok_tlb; [done|done|].
  rewrite Ea, Hv, !Z.eqb_refl by done. cbn [andb]. change PTE_D with (2 ^ 6). apply cached_both; [by right|done].
Qed.

(** ** Other changes of memory *)

(** The page is no page of a directory. *)
Definition no_node (s : mstate) (D : list Z) (a : Z) : Prop :=
  forall pd sl, pd ∈ D -> node s pd sl <> Some a.

Lemma vm_ok_frame s s' D :
  vm_ok s D -> palloc_ok s' -> hw s' = hw s ->
  (forall pd sl a, pd ∈ D -> node s pd sl = Some a -> ram s' !! a = ram s !! a /\ used false s' a = true) ->
  vm_ok s' D /\ forall pd va, pd ∈ D -> pte s' pd va = pte s pd va.
Proof.
  intros Hvm Hs' Hhw Hf. destruct (dirs_frame s s' D (vo_dirs _ _ Hvm) Hf) as (Hd & Hn & Hp).
  split; [|done]. unfold hw in Hhw. injection Hhw as E1 E2 E3 E4.
  assert (active s' = active s) as Ea by (unfold active; congruence).
  destruct Hvm as [_ _ Hfr Ha Hi He Ht]. constructor; rewrite ?Ea, ?E2; try done.
  - intros pd va Hin. rewrite Hp by done. by apply Hfr.
  - intros i. rewrite Hn by done. apply He.
  - intros n c. rewrite E4, Ea, Hp by done. apply Ht.
Qed.

(** The kernel writes to a page of its own. *)
Lemma write_page_keeps s D a ws :
  vm_ok s D -> no_node s D a -> backed s a -> length ws = 1024%nat -> vm_ok (copy_page a ws s) D.
Proof.
  intros Hvm Hno Hb Hl. apply (vm_ok_frame s); [done| |done|].
  - destruct (vo_palloc _ _ Hvm) as [H1 H2 H3].
    constructor; [intros u; unfold copy_page; by rewrite the_pool_set_ram|done|].
    intros u i. unfold copy_page. rewrite the_pool_set_ram. intros Hi. unfold backed. cbn.
    destruct (decide (page_at (the_pool u s) i = a)) as [->|Hne].
    + rewrite lookup_insert_eq. eauto.
    + rewrite lookup_insert_ne by done. by apply H3.
  - intros pd sl x Hin Hn. cbn. rewrite lookup_insert_ne by (intros ->; by destruct (Hno pd sl)).
    split; [done|]. by destruct (do_node _ _ (vo_dirs _ _ Hvm) _ _ _ Hin Hn) as (_ & _ & ?).
Qed.

(** Pages are allocated for other purposes. *)
Lemma get_multiple_keeps s D flags cnt pages s' :
  vm_ok s D -> 0 < cnt -> palloc_get_multiple flags cnt s = Ok (pages, s') -> vm_ok s' D.
Proof.
  intros Hvm Hc Hr. pose proof (vo_palloc _ _ Hvm) as Hs.
  destruct (palloc_get_multiple_run flags cnt s Hs Hc) as [(first & s1 & Hr' & Hg & _)|[_ Hr']];
    rewrite Hr' in Hr; [|destruct (has_flag flags PAL_ASSERT); by simplify_eq].
  simplify_eq. apply (vm_ok_frame s); [done|apply Hg|apply Hg|]. intros pd sl a Hin Hn.
  destruct (do_node _ _ (vo_dirs _ _ Hvm) _ _ _ Hin Hn) as (_ & _ & Hu).
  rewrite (got_used _ _ _ _ _ _ Hg), Hu, orb_true_r. split; [|done].
  apply (got_other _ _ _ _ _ _ Hg). by eapply got_fresh.
Qed.

(** Pages that hold no page of a directory are freed. *)
Lemma free_multiple_keeps s D user first cnt s' :
  vm_ok s D -> 0 < cnt -> page_group true user s first cnt ->
  (forall a, in_pages first cnt a = true -> no_node s D a) ->
  palloc_free_multiple first cnt s = Ok (tt, s') -> vm_ok s' D.
Proof.
  intros Hvm Hc Hg Hno Hr.
  destruct (palloc_free_multiple_run user s first cnt (vo_palloc _ _ Hvm) Hc Hg) as (s1 & Hr' & Hf).
  assert (s1 = s') as -> by congruence. apply (vm_ok_frame s); [done|apply Hf|apply Hf|]. intros pd sl a Hin Hn.
  assert (in_pages first cnt a = false) as Ha.
  { apply not_true_iff_false. intros H. by apply (Hno a H pd sl). }
  destruct (do_node _ _ (vo_dirs _ _ Hvm) _ _ _ Hin Hn) as (_ & _ & Hu).
  rewrite (fr_used _ _ _ _ _ Hf), Ha, Hu, andb_false_r. split; [|done]. by apply (fr_other _ _ _ _ _ Hf).
Qed.

End Paging.
