(* ===== verification/Teardown.v ===== *)
(** * Destroying a page directory

    [pagedir_destroy] of src/src/userprog/pagedir.c walks the directory, frees
    each page that is mapped, each page table and the directory itself.  The
    relation [progress] says how far the walk has come. *)

From S2P Require Import Prelude Bitmap Palloc Pagedir Paging.
Import Palloc Pagedir Paging.

Module Teardown.

(** The frame of an entry. *)
Definition frame (e : Z) : Z := Z.land e PTE_ADDR + PHYS_BASE.

Definition present (s : mstate) (pd va : Z) : Prop := has_flag (pte s pd va) PTE_P = true.

(** The pages that [pd] maps come from the user pool, and none is mapped
    twice. *)
Record owns (s : mstate) (pd : Z) : Prop := {
  ow_used : forall va, user_va va -> present s pd va -> used true s (frame (pte s pd va)) = true;
  ow_addr : forall va, user_va va -> present s pd va -> page_addr (frame (pte s pd va));
  ow_inj : forall va va', user_va va -> user_va va' -> present s pd va -> present s pd va' ->
    frame (pte s pd va) = frame (pte s pd va') -> pg_no va = pg_no va'
}.

(** ** Whole pages *)

Lemma in_page_no a x : page_addr a -> in_pages a 1 x = (pg_no x =? pg_no a).
Proof.
  intros [Ha _]. rewrite !pg_no_div. pose proof (Z.div_mod a 4096 ltac:(lia)).
  pose proof (Z.div_mod x 4096 ltac:(lia)). pose proof (Z.mod_pos_bound x 4096 ltac:(lia)).
  apply eq_true_iff_eq. rewrite in_pages_spec, Z.eqb_eq. lia.
Qed.

Lemma page_addr_inj a b : page_addr a -> page_addr b -> pg_no a = pg_no b -> a = b.
Proof.
  intros [Ha _] [Hb _]. rewrite !pg_no_div. pose proof (Z.div_mod a 4096 ltac:(lia)).
  pose proof (Z.div_mod b 4096 ltac:(lia)). lia.
Qed.

Lemma used_same_page u s a b : pg_no a = pg_no b -> used u s a = used u s b.
Proof. intros E. unfold used, page_from_pool. by rewrite E. Qed.

(** Freeing one allocated page. *)
Lemma free_page_run u s a :
  palloc_ok s -> page_addr a -> used u s a = true ->
  exists s', palloc_free_page a s = Ok (tt, s') /\ freed u 1 a s s'.
Proof.
  intros Hs Ha Hu. apply palloc_free_multiple_run; [done|lia|].
  split; [rewrite pg_ofs_mod; apply Ha|]. intros x Hx. rewrite in_page_no in Hx by done.
  apply Z.eqb_eq in Hx. rewrite (used_same_page u s x a Hx). split; [|done].
  unfold page_from_pool. rewrite Hx. by apply used_from_pool.
Qed.

Section destroy.
Context (s : mstate) (D : list Z) (pd : Z).
Context (Hs : palloc_ok s) (Hd : dirs_ok s D) (Hin : pd ∈ D) (Hown : owns s pd).

(** The walk has freed the pages with numbers below [n], and the first [t]
    tables. *)
Record progress (n t : Z) (s' : mstate) : Prop := {
  pr_ok : palloc_ok s';
  pr_hw : hw s' = hw s;
  pr_user : forall a, used true s' a = true <->
    used true s a = true /\ forall va, user_va va -> pg_no va < n -> present s pd va ->
      in_pages (frame (pte s pd va)) 1 a = false;
  pr_kernel : forall a, used false s' a = true <->
    used false s a = true /\ forall i pt, i < t -> node s pd (Table i) = Some pt -> in_pages pt 1 a = false;
  pr_ram : forall a, used false s' a = true -> ram s' !! a = ram s !! a
}.

Lemma progress_start : progress 0 0 s.
Proof.
  constructor; try done.
  - intros a. split; [|by intros [? _]]. intros Hu. split; [done|]. intros va Hva Hn.
    rewrite pg_no_div in Hn. pose proof (Z.div_pos va 4096). unfold user_va in Hva. lia.
  - intros a. split; [|by intros [? _]]. intros Hu. split; [done|]. intros i pt Hi Hn.
    apply node_Table_range in Hn. lia.
Qed.

(** Going past entries that are absent. *)
Lemma progress_skip n n' t s' :
  progress n t s' -> n <= n' ->
  (forall va, user_va va -> n <= pg_no va < n' -> ~ present s pd va) -> progress n' t s'.
Proof.
  intros [Hok Hhw Hu Hk Hr] Hn Habs. constructor; try done. intros a. rewrite Hu.
  split; intros [H1 H2]; (split; [done|]); intros va Hva Hlt Hp.
  - destruct (Z.lt_ge_cases (pg_no va) n); [by apply H2|]. by destruct (Habs va Hva).
  - apply H2; [done|lia|done].
Qed.

(** Freeing the frame of the next entry. *)
Lemma progress_frame n t s' va :
  progress n t s' -> user_va va -> pg_no va = n -> present s pd va ->
  exists s'', palloc_free_page (frame (pte s pd va)) s' = Ok (tt, s'') /\ progress (n + 1) t s''.
Proof.
  intros [Hok Hhw Hu Hk Hr] Hva Hn Hp. pose proof (ow_addr _ _ Hown va Hva Hp) as Hfa.
  assert (used true s' (frame (pte s pd va)) = true) as Hfu.
  { apply Hu. split; [by apply Hown|]. intros va' Hva' Hlt Hp'.
    pose proof (ow_addr _ _ Hown va' Hva' Hp') as Hfa'. rewrite in_page_no by done. apply Z.eqb_neq. intros E.
    apply page_addr_inj in E; [|done..]. apply (ow_inj _ _ Hown) in E; [|done..]. lia. }
  destruct (free_page_run true s' _ Hok Hfa Hfu) as (s'' & Hrun & Hf). exists s''. split; [done|].
  constructor.
  - apply Hf.
  - rewrite (fr_hw _ _ _ _ _ Hf). done.
  - intros a. rewrite (fr_used _ _ _ _ _ Hf), andb_true_iff, negb_true_iff, Hu. cbn [Bool.eqb andb].
    split.
    + intros (H1 & H2 & H3). split; [done|]. intros va' Hva' Hlt Hp'.
      destruct (Z.eq_dec (pg_no va') n) as [E|]; [|apply H3; [done|lia|done]].
      rewrite (pte_same_page _ _ va' va) by lia. done.
    + intros (H1 & H2). split; [apply H2; [done|lia|done]|]. split; [done|]. intros va' Hva' Hlt Hp'.
      apply H2; [done|lia|done].
  - intros a. rewrite (fr_used _ _ _ _ _ Hf). cbn [Bool.eqb andb negb]. apply Hk.
  - intros a Ha. rewrite (fr_used _ _ _ _ _ Hf) in Ha. cbn [Bool.eqb andb negb] in Ha.
    rewrite (fr_other _ _ _ _ _ Hf); [by apply Hr|]. apply not_true_iff_false. intros H.
    rewrite in_page_no in H by done. apply Z.eqb_eq in H. rewrite (used_same_page false s' _ _ H) in Ha.
    apply used_from_pool in Ha. apply used_from_pool in Hfu. by apply (one_pool s' (frame (pte s pd va))).
Qed.

(** Freeing the next table. *)
Lemma progress_table n t s' pt :
  progress n t s' -> node s pd (Table t) = Some pt ->
  exists s'', palloc_free_page pt s' = Ok (tt, s'') /\ progress n (t + 1) s''.
Proof.
  intros [Hok Hhw Hu Hk Hr] Hn. destruct (do_node _ _ Hd _ _ _ Hin Hn) as (Hpa & _ & Hpu).
  assert (used false s' pt = true) as Hpu'.
  { apply Hk. split; [done|]. intros i pt' Hi Hn'. destruct (do_node _ _ Hd _ _ _ Hin Hn') as (Hpa' & _ & _).
    rewrite in_page_no by done. apply Z.eqb_neq. intros E. apply page_addr_inj in E; [|done..]. subst pt'.
    destruct (do_inj _ _ Hd _ _ _ _ _ Hin Hin Hn Hn') as [_ [= E]]. lia. }
  destruct (free_page_run false s' _ Hok Hpa Hpu') as (s'' & Hrun & Hf). exists s''. split; [done|].
  constructor.
  - apply Hf.
  - rewrite (fr_hw _ _ _ _ _ Hf). done.
  - intros a. rewrite (fr_used _ _ _ _ _ Hf). cbn [Bool.eqb andb negb]. apply Hu.
  - intros a. rewrite (fr_used _ _ _ _ _ Hf), andb_true_iff, negb_true_iff, Hk. cbn [Bool.eqb andb].
    split.
    + intros (H1 & H2 & H3). split; [done|]. intros i pt' Hi Hn'.
      destruct (Z.eq_dec i t) as [->|]; [by simplify_eq|]. apply (H3 i); [lia|done].
    + intros (H1 & H2). split; [by apply (H2 t); [lia|]|]. split; [done|]. intros i pt' Hi. apply H2. lia.
  - intros a. rewrite (fr_used _ _ _ _ _ Hf), andb_true_iff, negb_true_iff. cbn [Bool.eqb andb].
    intros [H1 H2]. rewrite (fr_other _ _ _ _ _ Hf) by done. by apply Hr.
Qed.
(** Pages of the directory that the walk has not freed are as before. *)
Lemma progress_node n t s' sl a :
  progress n t s' -> node s pd sl = Some a -> (forall i, sl = Table i -> t <= i) ->
  page_addr a /\ ram_page s' a /\ (forall j, word s' a j = word s a j) /\ used false s' a = true.
Proof.
  intros Hp Hn Hsl. destruct (do_node _ _ Hd _ _ _ Hin Hn) as (Ha & (ws & Hws & H') & Hu).
  assert (used false s' a = true) as Hu'.
  { apply (pr_kernel _ _ _ Hp). split; [done|]. intros i pt Hi Hn'.
    destruct (do_node _ _ Hd _ _ _ Hin Hn') as (Hpa & _ & _). rewrite in_page_no by done.
    apply Z.eqb_neq. intros E. apply page_addr_inj in E; [|done..]. subst pt.
    destruct (do_inj _ _ Hd _ _ _ _ _ Hin Hin Hn Hn') as [_ E]. specialize (Hsl i E). lia. }
  pose proof (pr_ram _ _ _ Hp a Hu') as Hr. split; [done|]. split; [|split; [|done]].
  - exists ws. by rewrite Hr.
  - intros j. unfold word. by rewrite Hr.
Qed.

(** The address of entry [j] of table [i]. *)
Lemma entry_va i j :
  0 <= i < 768 -> 0 <= j < 1024 ->
  let va := 4096 * (1024 * i + j) in
  user_va va /\ pd_no va = i /\ pt_no va = j /\ pg_no va = 1024 * i + j.
Proof.
  intros Hi Hj va. pose proof (pg_no_page (1024 * i + j)) as E. fold va in E.
  pose proof (pg_no_split va) as E2. pose proof (pt_no_range va).
  split; [unfold user_va, va, PHYS_BASE; lia|]. lia.
Qed.

Lemma destroy_pt_run m i j pt t s' :
  node s pd (Table i) = Some pt -> 0 <= j -> j + Z.of_nat m = 1024 -> t <= i ->
  progress (1024 * i + j) t s' ->
  exists s'', destroy_pt m (pt + 4 * j) s' = Ok (tt, s'') /\ progress (1024 * (i + 1)) t s''.
Proof.
  intros Hn. pose proof (node_Table_range _ _ _ _ Hn) as Hi.
  revert j s'. induction m as [|m IH]; intros j s' Hj Hm Ht Hp; simpl.
  { exists s'. split; [done|]. by replace (1024 * (i + 1)) with (1024 * i + j) by lia. }
  destruct (progress_node _ _ _ _ _ Hp Hn ltac:(intros ? [= <-]; done)) as (Ha & Hram & Hw & _).
  mrun (load_word s' pt j Ha Hram ltac:(lia)). rewrite Hw.
  destruct (entry_va i j Hi ltac:(lia)) as (Hva & Epd & Ept & Epg). set (va := 4096 * (1024 * i + j)) in *.
  assert (word s pt j = pte s pd va) as Epte by (unfold pte; by rewrite Epd, Hn, Ept).
  rewrite Epte. replace (pt + 4 * j + 4) with (pt + 4 * (j + 1)) by lia.
  destruct (has_flag (pte s pd va) PTE_P) eqn:Hf; mnorm.
  - unfold pte_get_page. pose proof (ow_addr _ _ Hown va Hva Hf) as Hfa.
    mrun (ptov_ok (Z.land (pte s pd va) PTE_ADDR) s' (proj2 Hfa)). fold (frame (pte s pd va)).
    destruct (progress_frame _ _ _ va Hp Hva Epg Hf) as (s1 & Hr & Hp1). mrun Hr.
    apply IH; [lia|lia|done|]. by replace (1024 * i + (j + 1)) with (1024 * i + j + 1) by lia.
  - apply IH; [lia|lia|done|]. eapply progress_skip; [done|lia|]. intros va' _ Hlt Hp'.
    unfold present in Hp'. rewrite (pte_same_page s pd va' va) in Hp' by lia. congruence.
Qed.

Lemma destroy_pd_run m i s' :
  0 <= i -> i + Z.of_nat m = 768 -> progress (1024 * i) i s' ->
  exists s'', destroy_pd m (pd + 4 * i) s' = Ok (tt, s'') /\ progress (1024 * 768) 768 s''.
Proof.
  revert i s'. induction m as [|m IH]; intros i s' Hi Hm Hp; cbn [destroy_pd].
  { exists s'. split; [done|]. by replace 768 with i by lia. }
  destruct (progress_node _ _ _ Root pd Hp eq_refl ltac:(done)) as (Ha & Hram & Hw & _).
  mrun (load_word s' pd i Ha Hram ltac:(lia)). rewrite Hw.
  replace (pd + 4 * i + 4) with (pd + 4 * (i + 1)) by lia.
  destruct (has_flag (word s pd i) PTE_P) eqn:Hf; mnorm.
  - assert (exists pt, node s pd (Table i) = Some pt) as [pt Hn].
    { rewrite node_Table by lia. destruct (Z.eqb_spec (word s pd i) 0) as [E|]; [|eauto].
      by rewrite E, has_flag_0 in Hf. }
    destruct (entry_va i 0 ltac:(lia) ltac:(lia)) as (_ & Epd & _ & _).
    assert (pde_get_pt (word s pd i) s' = Ok (pt, s')) as Hwalk.
    { destruct (do_node _ _ Hd _ _ _ Hin Hn) as ([_ Hb] & _ & _).
      rewrite node_Table in Hn by lia. destruct (word s pd i =? 0); [done|]. simplify_eq.
      unfold pde_get_pt. rewrite Hf. mnorm. by apply ptov_ok. }
    mrun Hwalk.
    destruct (destroy_pt_run 1024 i 0 pt i s' Hn ltac:(lia) ltac:(lia) ltac:(lia)) as (s1 & Hr1 & Hp1).
    { by rewrite Z.add_0_r. }
    rewrite Z.mul_0_r, Z.add_0_r in Hr1. mnorm. mrun Hr1.
    destruct (progress_table _ _ _ pt Hp1 Hn) as (s2 & Hr2 & Hp2). mrun Hr2.
    apply IH; [lia|lia|done].
  - assert (node s pd (Table i) = None) as Hn.
    { rewrite node_Table by lia. destruct (Z.eqb_spec (word s pd i) 0) as [|Hnz]; [done|].
      rewrite (do_present _ _ Hd) in Hf by (done || lia). done. }
    apply IH; [lia|lia|]. apply (progress_skip _ (1024 * (i + 1))) in Hp; [|lia|].
    2:{ intros va Hva Hlt. pose proof (pg_no_split va). pose proof (pt_no_range va).
        assert (pd_no va = i) as E by lia. unfold present. rewrite pte_none by (by rewrite E).
        by rewrite has_flag_0. }
    destruct Hp as [Hok Hhw Hu Hk Hr]. constructor; try done. intros a. rewrite Hk.
    split; intros [H1 H2]; (split; [done|]); intros i' pt' Hi' Hn'.
    + destruct (Z.eq_dec i' i) as [->|]; [congruence|]. apply (H2 i'); [lia|done].
    + apply (H2 i'); [lia|done].
Qed.
End destroy.

(** The directories other than one. *)
Definition others (pd : Z) (D : list Z) : list Z := filter (fun x => x <> pd) D.

Lemma elem_others pd D x : x ∈ others pd D <-> x ∈ D /\ x <> pd.
Proof. unfold others. rewrite list_elem_of_filter. naive_solver. Qed.

(** The address [a] lies in the directory, in one of its tables or in a page
    that it maps. *)
Definition belongs (s : mstate) (pd a : Z) : Prop :=
  (exists sl n, node s pd sl = Some n /\ in_pages n 1 a = true) \/
  (exists va, user_va va /\ present s pd va /\ in_pages (frame (pte s pd va)) 1 a = true).

Lemma vm_ok_sub s D D' :
  vm_ok s D -> (forall x, x ∈ D' -> x ∈ D) -> active s ∈ D' -> init_page_dir s ∈ D' -> vm_ok s D'.
Proof.
  intros [Hs [H1 H2 H3] Hf Ha Hi He Ht] Hsub Ha' Hi'. constructor; try done.
  - constructor; [intros pd sl a Hin|intros pd i Hin|intros pd1 sl1 pd2 sl2 a Hin1 Hin2]; eauto.
  - intros pd va Hin. eauto.
Qed.

Section finish.
Context (s s1 s2 : mstate) (D : list Z) (pd : Z).
Context (Hvm : vm_ok s D) (Hin : pd ∈ D) (Hown : owns s pd).
Context (Hp : progress s pd (1024 * 768) 768 s1) (Hf : freed false 1 pd s1 s2).

(** What the kernel pool and the user pool have lost. *)
Lemma finish_kernel a :
  used false s2 a = true <->
  used false s a = true /\ forall sl n, node s pd sl = Some n -> in_pages n 1 a = false.
Proof.
  rewrite (fr_used _ _ _ _ _ Hf), andb_true_iff, negb_true_iff, (pr_kernel _ _ _ _ _ Hp). cbn [Bool.eqb andb].
  split.
  - intros (H1 & H2 & H3). split; [done|]. intros [|i] n Hn; [by simplify_eq/=|].
    pose proof (node_Table_range _ _ _ _ Hn). apply (H3 i); [lia|done].
  - intros (H1 & H2). split; [by apply (H2 Root)|]. split; [done|]. intros i pt _ Hn. by apply (H2 (Table i)).
Qed.

Lemma finish_user a :
  used true s2 a = true <->
  used true s a = true /\
  forall va, user_va va -> present s pd va -> in_pages (frame (pte s pd va)) 1 a = false.
Proof.
  rewrite (fr_used _ _ _ _ _ Hf). cbn [Bool.eqb andb negb]. rewrite (pr_user _ _ _ _ _ Hp).
  split; intros [H1 H2]; (split; [done|]); [|naive_solver].
  intros va Hva. apply H2; [done|]. rewrite pg_no_div. unfold user_va, PHYS_BASE in Hva.
  apply Z.div_lt_upper_bound; lia.
Qed.

Lemma node_used sl n a : node s pd sl = Some n -> in_pages n 1 a = true -> used false s a = true.
Proof.
  intros Hn Ha. destruct (do_node _ _ (vo_dirs _ _ Hvm) _ _ _ Hin Hn) as (Hpa & _ & Hu).
  rewrite in_page_no in Ha by done. apply Z.eqb_eq in Ha. by rewrite (used_same_page _ _ _ n).
Qed.

Lemma frame_used va a :
  user_va va -> present s pd va -> in_pages (frame (pte s pd va)) 1 a = true -> used true s a = true.
Proof.
  intros Hva Hpr Ha. rewrite in_page_no in Ha by (by apply Hown). apply Z.eqb_eq in Ha.
  rewrite (used_same_page _ _ _ _ Ha). by apply Hown.
Qed.

Lemma finish_allocated a : allocated s2 a = true <-> allocated s a = true /\ ~ belongs s pd a.
Proof.
  assert (used false s a = true -> used true s a = true -> False) as Hone.
  { intros H1 H2. apply used_from_pool in H1, H2. by eapply one_pool; [apply Hvm| |]. }
  unfold allocated. rewrite !orb_true_iff, finish_kernel, finish_user. split.
  - intros [[Hu Hn]|[Hu Hn]]; (split; [by auto|]); intros [(sl & n & Hsl & Ha)|(va & Hva & Hpr & Ha)].
    + by rewrite (Hn sl n Hsl) in Ha.
    + by apply Hone, (frame_used va).
    + by apply Hone; [apply (node_used sl n)|].
    + by rewrite (Hn va Hva Hpr) in Ha.
  - intros [[Hu|Hu] Hb]; [left|right]; (split; [done|]).
    + intros sl n Hn. apply not_true_iff_false. intros Ha. apply Hb. left. eauto.
    + intros va Hva Hpr. apply not_true_iff_false. intros Ha. apply Hb. right. eauto.
Qed.

Lemma finish_vm_ok :
  pd <> init_page_dir s -> pd <> active s ->
  vm_ok s2 (others pd D) /\ forall pd' va, pd' ∈ others pd D -> pte s2 pd' va = pte s pd' va.
Proof.
  intros Hni Hna. apply vm_ok_frame.
  - apply (vm_ok_sub s D); [done|intros x; rewrite elem_others; naive_solver|..];
      apply elem_others; split; try done; apply Hvm.
  - apply Hf.
  - rewrite (fr_hw _ _ _ _ _ Hf). apply Hp.
  - intros pd' sl a [Hin' Hne]%elem_others Hn.
    destruct (do_node _ _ (vo_dirs _ _ Hvm) _ _ _ Hin' Hn) as (Hpa & _ & Hu).
    assert (used false s2 a = true) as Hu2.
    { apply finish_kernel. split; [done|]. intros sl' n Hn'. rewrite in_page_no; [|by apply (do_node _ _ (vo_dirs _ _ Hvm) pd sl')].
      apply Z.eqb_neq. intros E. apply page_addr_inj in E; [|done|by apply (do_node _ _ (vo_dirs _ _ Hvm) pd sl')]. subst n.
      by destruct (do_inj _ _ (vo_dirs _ _ Hvm) _ _ _ _ _ Hin' Hin Hn Hn') as [? _]. }
    split; [|done]. rewrite (fr_used _ _ _ _ _ Hf), andb_true_iff, negb_true_iff in Hu2.
    destruct Hu2 as [H1 H2]. rewrite (fr_other _ _ _ _ _ Hf) by done. by apply (pr_ram _ _ _ _ _ Hp).
Qed.
End finish.

(** The whole of [pagedir_destroy]. *)
Lemma destroy_run s D pd :
  vm_ok s D -> pd ∈ D -> pd <> init_page_dir s -> pd <> active s -> owns s pd ->
  exists s', pagedir_destroy pd s = Ok (tt, s') /\ vm_ok s' (others pd D) /\
    (forall a, allocated s' a = true <-> allocated s a = true /\ ~ belongs s pd a) /\
    (forall pd' va, pd' ∈ others pd D -> pte s' pd' va = pte s pd' va).
Proof.
  intros Hvm Hin Hni Hna Hown. pose proof (vo_dirs _ _ Hvm) as Hd. pose proof (vo_palloc _ _ Hvm) as Hs.
  destruct (do_root _ _ _ Hd Hin) as (Hpa & _ & _). unfold pagedir_destroy.
  rewrite (proj2 (Z.eqb_neq pd NULL)) by (destruct Hpa; unfold NULL, PHYS_BASE in *; lia).
  mnorm. rewrite (proj2 (Z.eqb_neq pd _)) by done. cbn [negb]. mnorm.
  destruct (destroy_pd_run s D pd Hd Hin Hown 768 0 s ltac:(lia) ltac:(lia) (progress_start s pd Hs)) as (s1 & Hr & Hp).
  rewrite Z.mul_0_r, Z.add_0_r in Hr. change (Z.to_nat (pd_no PHYS_BASE)) with 768%nat. mrun Hr.
  destruct (progress_node s D pd Hd Hin _ _ _ Root pd Hp eq_refl ltac:(done)) as (_ & _ & _ & Hu1).
  destruct (free_page_run false s1 pd (pr_ok _ _ _ _ _ Hp) Hpa Hu1) as (s2 & Hr2 & Hf).
  exists s2. split; [done|].
  destruct (finish_vm_ok s s1 s2 D pd Hvm Hin Hown Hp Hf Hni Hna) as [Hvm2 Hpte].
  split; [done|]. split; [|done]. intros a. by apply (finish_allocated s s1 s2 D pd).
Qed.

End Teardown.
