(* ===== verification/PagingInit.v ===== *)
(** * The kernel's own mapping: [paging_init] of src/src/threads/init.c

    The loop maps every page of memory at [PHYS_BASE] plus its physical
    address.  The addresses of the kernel's code, which the linker defines,
    are parameters. *)

From S2P Require Import Prelude Bitmap Palloc Pagedir Paging.
Import Palloc Pagedir Paging.

Module PagingInit.

Definition set_init_page_dir (v : Z) (s : mstate) : mstate :=
  mkMstate (kernel_pool s) (user_pool s) (ram s) (init_ram_pages s) v (cr3 s) (tlb s).

Section code.
Context (_start _end_kernel_text : Z).

Definition in_kernel_text (vaddr : Z) : bool := (_start <=? vaddr) && (vaddr <? _end_kernel_text).

(** [n] pages are left, from [page] on; [pt] is the current table. *)
Fixpoint paging_loop (n : nat) (page pd pt : Z) : M mstate unit :=
  match n with
  | O => ret tt
  | S n' =>
      vaddr <- ptov (u32 (page * PGSIZE)) ;;
      let pde_idx := pd_no vaddr in
      let pte_idx := pt_no vaddr in
      e <- load (pd + 4 * pde_idx) ;;
      pt <- (if e =? 0 then
               pt <- palloc_get_page (Z.lor PAL_ASSERT PAL_ZERO) ;;
               v <- pde_create pt ;; store (pd + 4 * pde_idx) v ;;; ret pt
             else ret pt) ;;
      v <- pte_create_kernel vaddr (negb (in_kernel_text vaddr)) ;;
      store (pt + 4 * pte_idx) v ;;;
      paging_loop n' (page + 1) pd pt
  end.

Definition paging_init : M mstate unit :=
  pd <- palloc_get_page (Z.lor PAL_ASSERT PAL_ZERO) ;;
  modify (set_init_page_dir pd) ;;;
  n <- gets init_ram_pages ;;
  paging_loop (Z.to_nat n) 0 pd NULL ;;;
  i <- gets init_page_dir ;;
  p <- vtop i ;;
  modify (fun s => set_tlb ∅ (set_cr3 p s)).

(** ** Pages are taken from the kernel pool in order *)

Section pool.
Context (b c : Z).

(** The pool begins at [b], has [c] pages, and the first [k] are in use. *)
Record taken (k : Z) (s : mstate) : Prop := {
  tk_ok : palloc_ok s;
  tk_extent : extent false s = (b, c);
  tk_used : forall a, used false s a = in_pages b k a
}.

Lemma tk_base k s : taken k s -> base (the_pool false s) = b.
Proof. intros [_ He _]. by injection He. Qed.

Lemma tk_cnt k s : taken k s -> Bitmap.bit_cnt (used_map (the_pool false s)) = c.
Proof. intros [_ He _]. by injection He. Qed.

Lemma taken_page_at k s i : taken k s -> page_at (the_pool false s) i = b + 4096 * i.
Proof. intros Htk. unfold page_at, PGSIZE. by rewrite (tk_base k). Qed.

Lemma next_page k s :
  taken k s -> 0 <= k < c ->
  exists s', palloc_get_page (Z.lor PAL_ASSERT PAL_ZERO) s = Ok (b + 4096 * k, s') /\
    got false true 1 (b + 4096 * k) s s' /\ taken (k + 1) s'.
Proof.
  intros Htk Hk. pose proof (taken_page_at k s) as Hat. pose proof (tk_base k s Htk) as Hb.
  pose proof (tk_cnt k s Htk) as Hc. pose proof (tk_ok _ _ Htk) as Hs. pose proof (tk_used _ _ Htk) as Hu.
  pose proof (pa_pool _ Hs false) as Hp.
  assert (page_group false false s (b + 4096 * k) 1) as Hfree.
  { rewrite <- (Hat k Htk). apply page_group_ok; [done|lia|lia|]. intros j Hj. assert (j = k) as -> by lia.
    rewrite <- (used_page false) by (done || lia). rewrite Hu, Hat by done.
    apply not_true_iff_false. rewrite in_pages_spec. lia. }
  unfold palloc_get_page.
  destruct (palloc_get_multiple_run (Z.lor PAL_ASSERT PAL_ZERO) 1 s Hs ltac:(lia))
    as [(first & s' & Hr & Hg & Hmin)|[Hno _]]; [|by destruct (Hno _ Hfree)].
  change (has_flag (Z.lor PAL_ASSERT PAL_ZERO) PAL_USER) with false in *.
  change (has_flag (Z.lor PAL_ASSERT PAL_ZERO) PAL_ZERO) with true in *.
  assert (first = b + 4096 * k) as ->.
  { specialize (Hmin _ Hfree). destruct (got_free _ _ _ _ _ _ Hg) as [Ho Hf]. destruct (Hf first) as [Hin Hun].
    { apply in_pages_spec. lia. }
    rewrite page_from_pool_ok in Hin by done. rewrite Hb in Hin.
    rewrite Hu in Hun. apply not_true_iff_false in Hun. rewrite in_pages_spec in Hun.
    rewrite pg_ofs_mod in Ho. pose proof (po_base _ Hp) as Hb0. rewrite Hb in Hb0.
    pose proof (Z.div_mod first 4096 ltac:(lia)). pose proof (Z.div_mod b 4096 ltac:(lia)). lia. }
  exists s'. split; [done|]. split; [done|]. constructor.
  - apply Hg.
  - rewrite (got_extent _ _ _ _ _ _ Hg). apply (tk_extent _ _ Htk).
  - intros a. rewrite (got_used _ _ _ _ _ _ Hg), Hu. cbn [Bool.eqb andb].
    apply eq_true_iff_eq. rewrite orb_true_iff, !in_pages_spec. lia.
Qed.

Lemma taken_put k a v s : taken k s -> taken k (put_word a v s).
Proof. intros [Hs He Hu]. constructor; [by apply palloc_ok_put|done|done]. Qed.

Lemma taken_bounds k s : taken k s -> b mod 4096 = 0 /\ PHYS_BASE <= b /\ b + 4096 * c <= 4294967296 /\ 0 <= c.
Proof.
  intros Htk. pose proof (tk_base k s Htk) as Hb. pose proof (tk_cnt k s Htk) as Hc.
  destruct (pa_pool _ (tk_ok _ _ Htk) false) as [_ Hw Hm Hl Hh]. apply Bitmap.wf_cnt in Hw.
  unfold pool_end, page_at, PGSIZE in *. rewrite Hb in *. rewrite Hc in *. split; [done|]. lia.
Qed.
(** ** The loop *)

(** The kernel's address of a page of memory, and the flags of its entry. *)
Definition kaddr (q : Z) : Z := PHYS_BASE + 4096 * q.
Definition kflags (q : Z) : Z := if in_kernel_text (kaddr q) then 1 else 3.

(** [T] tables exist and the first [page] pages are mapped. *)
Record mapped (T page : Z) (s : mstate) : Prop := {
  mp_taken : taken (1 + T) s;
  mp_ram : forall k, 0 <= k <= T -> ram_page s (b + 4096 * k);
  mp_pde : forall i, 768 <= i < 768 + T -> points_to (word s b i) (b + 4096 * (i - 767)) 7;
  mp_none : forall i, 0 <= i < 1024 -> i < 768 \/ 768 + T <= i -> word s b i = 0;
  mp_pte : forall q, 0 <= q < page ->
    points_to (word s (b + 4096 * (1 + q / 1024)) (q mod 1024)) (kaddr q) (kflags q);
  mp_dir : init_page_dir s = b
}.

Lemma mapped_addr T page s k : mapped T page s -> 0 <= k < c -> page_addr (b + 4096 * k).
Proof.
  intros Hm Hk. destruct (taken_bounds _ _ (mp_taken _ _ _ Hm)) as (H1 & H2 & H3 & H4).
  unfold page_addr, PHYS_BASE in *. rewrite Z.mul_comm, Z.mod_add by lia. lia.
Qed.

(** The indices of a kernel address. *)
Lemma kaddr_no q : 0 <= q < 262144 -> pd_no (kaddr q) = 768 + q / 1024 /\ pt_no (kaddr q) = q mod 1024.
Proof.
  intros Hq. rewrite pd_no_div, pt_no_div. unfold kaddr, PHYS_BASE.
  replace (3221225472 + 4096 * q) with ((786432 + q) * 4096) by lia. rewrite Z.div_mul by lia.
  change 4194304 with (1024 * 4096). rewrite Z.div_mul_cancel_r by lia.
  replace (786432 + q) with (q + 768 * 1024) by lia. rewrite Z.div_add, Z.mod_add by lia. lia.
Qed.

Lemma tables_of page : 0 <= page -> page mod 1024 <> 0 -> (page + 1023) / 1024 = 1 + page / 1024.
Proof.
  intros Hp Hm. pose proof (Z.div_mod page 1024 ltac:(lia)). pose proof (Z.mod_pos_bound page 1024 ltac:(lia)).
  symmetry. apply (Z.div_unique _ _ _ (page mod 1024 - 1)); lia.
Qed.

Lemma tables_full page : 0 <= page -> page mod 1024 = 0 -> (page + 1023) / 1024 = page / 1024.
Proof.
  intros Hp Hm. pose proof (Z.div_mod page 1024 ltac:(lia)).
  symmetry. apply (Z.div_unique _ _ _ 1023); lia.
Qed.

Lemma tables_next page : 0 <= page -> (page + 1 + 1023) / 1024 = 1 + page / 1024.
Proof.
  intros Hp. replace (page + 1 + 1023) with (page + 1 * 1024) by lia. rewrite Z.div_add; lia.
Qed.

(** A new table. *)
Lemma mapped_table T page s s1 e :
  mapped T page s -> 0 <= T < 256 -> 1 + T < c -> (page + 1023) / 1024 = T -> 0 <= page ->
  got false true 1 (b + 4096 * (1 + T)) s s1 -> taken (1 + T + 1) s1 -> points_to e (b + 4096 * (1 + T)) 7 ->
  mapped (T + 1) page (put_word (b + 4 * (768 + T)) e s1).
Proof.
  intros Hm HT Hc ET Hpage Hg Htk He. pose proof (mapped_addr T page s 0 Hm ltac:(lia)) as Hb.
  rewrite Z.mul_0_r, Z.add_0_r in Hb.
  assert (forall k, 0 <= k <= T -> ram s1 !! (b + 4096 * k) = ram s !! (b + 4096 * k)) as Hsame.
  { intros k Hk. apply (got_other _ _ _ _ _ _ Hg). apply not_true_iff_false. rewrite in_pages_spec. lia. }
  assert (forall k, 0 <= k <= T + 1 -> ram_page s1 (b + 4096 * k)) as Hram.
  { intros k Hk. destruct (Z.eq_dec k (T + 1)) as [->|].
    - replace (T + 1) with (1 + T) by lia. by destruct (got_zero_page _ _ _ _ Hg).
    - destruct (mp_ram _ _ _ Hm k ltac:(lia)) as (ws & Hws & H'). exists ws. rewrite Hsame by lia. done. }
  assert (ram_page s1 b) as Hrb by (specialize (Hram 0 ltac:(lia)); by rewrite Z.mul_0_r, Z.add_0_r in Hram).
  assert (forall k j, 0 <= k <= T -> 0 <= j < 1024 ->
            word (put_word (b + 4 * (768 + T)) e s1) (b + 4096 * k) j
            = if (k =? 0) && (j =? 768 + T) then e else word s (b + 4096 * k) j) as Hw.
  { intros k j Hk Hj. rewrite word_put by (done || lia). unfold word at 1. rewrite Hsame by done.
    fold (word s (b + 4096 * k) j). destruct (Z.eqb_spec (b + 4096 * k) b), (Z.eqb_spec k 0); done || lia. }
  pose proof (fun j => Hw 0 j ltac:(lia)) as Hwb. rewrite Z.mul_0_r, Z.add_0_r, Z.eqb_refl in Hwb. cbn [andb] in Hwb.
  constructor.
  - apply taken_put. by replace (1 + (T + 1)) with (1 + T + 1) by lia.
  - intros k Hk. apply ram_page_put; try done; [lia|apply He|by apply Hram].
  - intros i Hi. rewrite Hwb by lia. destruct (Z.eqb_spec i (768 + T)) as [->|].
    + by replace (768 + T - 767) with (1 + T) by lia.
    + apply (mp_pde _ _ _ Hm). lia.
  - intros i Hi Hio. rewrite Hwb by lia. rewrite (proj2 (Z.eqb_neq i _)) by lia. apply (mp_none _ _ _ Hm); lia.
  - intros q Hq. assert (0 <= q / 1024 < T) as Hqt.
    { split; [apply Z.div_pos; lia|]. apply Z.div_lt_upper_bound; [lia|].
      pose proof (Z.div_mod (page + 1023) 1024 ltac:(lia)). pose proof (Z.mod_pos_bound (page + 1023) 1024 ltac:(lia)). lia. }
    rewrite Hw by (lia || apply Z.mod_pos_bound; lia). rewrite (proj2 (Z.eqb_neq _ 0)) by lia. cbn [andb].
    by apply (mp_pte _ _ _ Hm).
  - cbn. pose proof (got_hw _ _ _ _ _ _ Hg) as Hhw. unfold hw in Hhw. injection Hhw as _ -> _ _. apply Hm.
Qed.

(** A new entry. *)
Lemma mapped_entry T page s e :
  mapped T page s -> 0 <= page -> T = 1 + page / 1024 -> T < c -> T <= 256 ->
  points_to e (kaddr page) (kflags page) ->
  mapped T (page + 1) (put_word (b + 4096 * T + 4 * (page mod 1024)) e s).
Proof.
  intros Hm Hp HT Hc HT2 He. pose proof (Z.div_pos page 1024 ltac:(lia) ltac:(lia)).
  pose proof (Z.mod_pos_bound page 1024 ltac:(lia)) as Hj.
  pose proof (mapped_addr T page s T Hm ltac:(lia)) as Ha. pose proof (mp_ram _ _ _ Hm T ltac:(lia)) as Hr.
  assert (forall j, 0 <= j < 1024 -> word (put_word (b + 4096 * T + 4 * (page mod 1024)) e s) b j = word s b j) as Hwb.
  { intros j Hj'. rewrite word_put by done. by rewrite (proj2 (Z.eqb_neq b _)) by lia. }
  constructor.
  - apply taken_put, Hm.
  - intros k Hk. apply ram_page_put; try done; [apply He|by apply Hm].
  - intros i Hi. rewrite Hwb by lia. by apply Hm.
  - intros i Hi Hio. rewrite Hwb by lia. by apply Hm.
  - intros q Hq. pose proof (Z.mod_pos_bound q 1024 ltac:(lia)). rewrite word_put by done.
    pose proof (Z.div_mod q 1024 ltac:(lia)). pose proof (Z.div_mod page 1024 ltac:(lia)).
    destruct (Z.eqb_spec (b + 4096 * (1 + q / 1024)) (b + 4096 * T)), (Z.eqb_spec (q mod 1024) (page mod 1024));
      cbn [andb]; try (apply (mp_pte _ _ _ Hm); lia).
    assert (q = page) as -> by lia. done.
  - apply Hm.
Qed.
Lemma ptov_page q s : 0 <= q < 262144 -> ptov (u32 (q * PGSIZE)) s = Ok (kaddr q, s).
Proof.
  intros Hq. unfold PGSIZE. rewrite u32_id, ptov_ok by (unfold PHYS_BASE; lia).
  unfold kaddr. do 2 f_equal. lia.
Qed.

Lemma kaddr_addr q : 0 <= q < 262144 -> page_addr (kaddr q).
Proof.
  intros Hq. unfold page_addr, kaddr, PHYS_BASE. split; [|lia].
  replace (3221225472 + 4096 * q) with ((786432 + q) * 4096) by lia. by apply Z.mod_mul.
Qed.

Lemma pte_create_kernel_ok q s :
  0 <= q < 262144 ->
  exists e, pte_create_kernel (kaddr q) (negb (in_kernel_text (kaddr q))) s = Ok (e, s) /\
    points_to e (kaddr q) (kflags q).
Proof.
  intros Hq. pose proof (kaddr_addr q Hq) as Ha. unfold pte_create_kernel. rewrite pg_ofs_mod, (proj1 Ha). mnorm.
  mrun (vtop_ok (kaddr q) s Ha). eexists. split; [done|]. rewrite <- Z.lor_assoc. unfold kflags.
  destruct (in_kernel_text (kaddr q)); by apply points_to_lor.
Qed.

(** One round of the loop, up to the store of the entry: the table exists
    afterwards. *)
Lemma round_table page s pt :
  mapped ((page + 1023) / 1024) page s -> 0 <= page < 262144 -> 1 + page / 1024 < c ->
  (0 < page -> pt = b + 4096 * ((page + 1023) / 1024)) ->
  exists s', (e <- load (b + 4 * (768 + page / 1024)) ;;
     (if e =? 0 then
        pt <- palloc_get_page (Z.lor PAL_ASSERT PAL_ZERO) ;;
        v <- pde_create pt ;; store (b + 4 * (768 + page / 1024)) v ;;; ret pt
      else ret pt)) s = Ok (b + 4096 * (1 + page / 1024), s') /\
    mapped (1 + page / 1024) page s'.
Proof.
  intros Hm Hp Hc Hpt. pose proof (Z.div_pos page 1024 ltac:(lia) ltac:(lia)).
  assert (page / 1024 < 256) by (apply Z.div_lt_upper_bound; lia).
  pose proof (mapped_addr _ page s 0 Hm ltac:(lia)) as Hb. rewrite Z.mul_0_r, Z.add_0_r in Hb.
  pose proof (mp_ram _ _ _ Hm 0) as Hr. rewrite Z.mul_0_r, Z.add_0_r in Hr.
  destruct (Z.eq_dec (page mod 1024) 0) as [Em|Em].
  - rewrite tables_full in * by lia. mrun (load_word s b (768 + page / 1024) Hb (Hr ltac:(lia)) ltac:(lia)).
    rewrite (mp_none _ _ _ Hm), Z.eqb_refl by lia. mnorm.
    destruct (next_page (1 + page / 1024) s (mp_taken _ _ _ Hm) ltac:(lia)) as (s1 & Hrun & Hg & Htk). mrun Hrun.
    destruct (pde_create_ok (b + 4096 * (1 + page / 1024)) s1) as (e & Hpde & He).
    { apply (mapped_addr _ page s _ Hm). lia. }
    mrun Hpde.
    assert (ram_page s1 b) as Hr1.
    { destruct (Hr ltac:(lia)) as (ws & Hws & H'). exists ws. rewrite (got_other _ _ _ _ _ _ Hg); [done|].
      apply not_true_iff_false. rewrite in_pages_spec. lia. }
    mrun (store_word s1 b (768 + page / 1024) e Hb Hr1 ltac:(lia)). eexists. split; [done|].
    replace (1 + page / 1024) with (page / 1024 + 1) by lia. apply mapped_table with s; try (done || lia).
    apply tables_full; lia.
  - rewrite tables_of in * by lia. mrun (load_word s b (768 + page / 1024) Hb (Hr ltac:(lia)) ltac:(lia)).
    pose proof (mp_pde _ _ _ Hm (768 + page / 1024) ltac:(lia)) as He.
    rewrite (proj2 (Z.eqb_neq _ 0)) by (by apply (points_to_nonzero _ _ _ He)). exists s. split; [|done].
    unfold ret. rewrite Hpt; [done|]. destruct (Z.eq_dec page 0) as [->|]; [done|lia].
Qed.

Lemma paging_loop_run n page s pt :
  mapped ((page + 1023) / 1024) page s -> 0 <= page -> page + Z.of_nat n <= 262144 ->
  1 + (page + Z.of_nat n + 1023) / 1024 <= c ->
  (0 < page -> pt = b + 4096 * ((page + 1023) / 1024)) ->
  exists s', paging_loop n page b pt s = Ok (tt, s') /\
    mapped ((page + Z.of_nat n + 1023) / 1024) (page + Z.of_nat n) s'.
Proof.
  revert page s pt. induction n as [|n IH]; intros page s pt Hm Hp Hn Hc Hpt; cbn [paging_loop].
  { exists s. split; [done|]. by rewrite Z.add_0_r. }
  assert (1 + page / 1024 < c) as Hlt.
  { pose proof (tables_next page Hp). assert ((page + 1 + 1023) / 1024 <= (page + Z.of_nat (S n) + 1023) / 1024)
      by (apply Z.div_le_mono; lia). lia. }
  assert (page / 1024 < 256) by (apply Z.div_lt_upper_bound; lia).
  pose proof (Z.div_pos page 1024 ltac:(lia) ltac:(lia)).
  mrun (ptov_page page s ltac:(lia)). destruct (kaddr_no page ltac:(lia)) as [E1 E2]. rewrite E1, E2.
  destruct (round_table page s pt Hm ltac:(lia) Hlt Hpt) as (s1 & Hr & Hm1).
  rewrite <- bind_bind. mrun Hr.
  destruct (pte_create_kernel_ok page s1 ltac:(lia)) as (e & Hpte & He). mrun Hpte.
  pose proof (mapped_addr _ page s1 (1 + page / 1024) Hm1 ltac:(lia)) as Ha.
  mrun (store_word s1 (b + 4096 * (1 + page / 1024)) (page mod 1024) e Ha (mp_ram _ _ _ Hm1 (1 + page / 1024) ltac:(lia))
    ltac:(apply Z.mod_pos_bound; lia)).
  pose proof (mapped_entry _ page s1 e Hm1 Hp eq_refl Hlt ltac:(lia) He) as Hm2. rewrite <- tables_next in Hm2 by done.
  destruct (IH (page + 1) _ (b + 4096 * (1 + page / 1024)) Hm2) as (s' & Hr' & Hm');
    [lia|lia|by replace (page + 1 + Z.of_nat n) with (page + Z.of_nat (S n)) by lia|
     intros _; by rewrite tables_next|].
  exists s'. split; [by rewrite tables_next in Hr'|].
  by replace (page + Z.of_nat (S n)) with (page + 1 + Z.of_nat n) by lia.
Qed.
(** ** The whole of [paging_init] *)

Lemma taken_dir k v s : taken k s -> taken k (set_init_page_dir v s).
Proof.
  intros [[H1 H2 H3] He Hu]. constructor; [|done|done].
  constructor; [|done|]; intros []; [apply (H1 true)|apply (H1 false)|apply (H3 true)|apply (H3 false)].
Qed.

Lemma mapped_start s s1 :
  got false true 1 b s s1 -> taken 1 s1 -> mapped 0 0 (set_init_page_dir b s1).
Proof.
  intros Hg Htk. destruct (got_zero_page _ _ _ _ Hg) as (Hr & Hz & _). constructor.
  - by apply taken_dir.
  - intros k Hk. assert (k = 0) as -> by lia. by rewrite Z.mul_0_r, Z.add_0_r.
  - intros i Hi. lia.
  - intros i Hi _. apply Hz.
  - intros q Hq. lia.
  - done.
Qed.

Lemma paging_init_run s n :
  taken 0 s -> init_ram_pages s = n -> 0 <= n <= 262144 -> 1 + (n + 1023) / 1024 <= c ->
  exists s', paging_init s = Ok (tt, flushed b s') /\ mapped ((n + 1023) / 1024) n s'.
Proof.
  intros Htk En Hn Hc. assert (0 <= (n + 1023) / 1024) by (apply Z.div_pos; lia).
  destruct (next_page 0 s Htk ltac:(lia)) as (s1 & Hr & Hg & Htk1). rewrite Z.mul_0_r, Z.add_0_r in *.
  unfold paging_init. mrun Hr. mnorm.
  pose proof (got_hw _ _ _ _ _ _ Hg) as Hhw. unfold hw in Hhw. injection Hhw as E1 _ _ _.
  change (init_ram_pages (set_init_page_dir b s1)) with (init_ram_pages s1). rewrite E1, En.
  pose proof (mapped_start s s1 Hg Htk1) as Hm0.
  destruct (paging_loop_run (Z.to_nat n) 0 _ NULL Hm0) as (s' & Hr' & Hm'); [lia|lia| |lia|].
  { by rewrite Z.add_0_l, Z2Nat.id by lia. }
  rewrite Z.add_0_l, Z2Nat.id in Hm' by lia. mrun Hr'. mnorm. rewrite (mp_dir _ _ _ Hm').
  pose proof (mapped_addr _ _ _ 0 Hm' ltac:(lia)) as Hb. rewrite Z.mul_0_r, Z.add_0_r in Hb.
  mrun (vtop_ok b s' Hb). exists s'. done.
Qed.

(** The directory has no user mapping, and the state is consistent. *)
Lemma mapped_vm_ok T page s :
  mapped T page s -> 0 <= T -> 0 < c -> vm_ok (flushed b s) [b].
Proof.
  intros Hm HT Hc. pose proof (mapped_addr _ _ _ 0 Hm ltac:(lia)) as Hb. rewrite Z.mul_0_r, Z.add_0_r in Hb.
  pose proof (mp_ram _ _ _ Hm 0 ltac:(lia)) as Hr. rewrite Z.mul_0_r, Z.add_0_r in Hr.
  pose proof (mp_taken _ _ _ Hm) as [Hs _ Hu].
  assert (forall sl a, node s b sl = Some a -> sl = Root /\ a = b) as Hnode.
  { intros [|i] a; [by intros [= <-]|]. intros Hn. pose proof (node_Table_range _ _ _ _ Hn) as Hi.
    rewrite node_Table, (mp_none _ _ _ Hm) in Hn by lia. done. }
  assert (forall i, node s b (Table i) = None) as Hnone.
  { intros i. destruct (node s b (Table i)) eqn:E; [|done]. by apply Hnode in E as [? _]. }
  assert (used false s b = true) as Hub.
  { rewrite Hu. apply in_pages_spec. lia. }
  assert (active (flushed b s) = b) as Ea by (unfold active, flushed; cbn; lia).
  constructor; rewrite ?Ea.
  - destruct Hs as [H1 H2 H3]. constructor; [|done|];
      intros []; [apply (H1 true)|apply (H1 false)|apply (H3 true)|apply (H3 false)].
  - constructor.
    + intros pd sl a ->%list_elem_of_singleton Hn. apply Hnode in Hn as [_ ->]. done.
    + intros pd i ->%list_elem_of_singleton Hi Hw. destruct Hw. apply (mp_none _ _ _ Hm); lia.
    + intros pd1 sl1 pd2 sl2 a ->%list_elem_of_singleton ->%list_elem_of_singleton Hn1 Hn2.
      apply Hnode in Hn1 as [-> _]. by apply Hnode in Hn2 as [-> _].
  - intros pd va ->%list_elem_of_singleton Hva. unfold pte.
    change (node (flushed b s) b) with (node s b). by rewrite Hnone, has_flag_0.
  - by apply list_elem_of_singleton.
  - apply list_elem_of_singleton. apply (mp_dir _ _ _ Hm).
  - intros i. change (init_page_dir (flushed b s)) with (init_page_dir s). rewrite (mp_dir _ _ _ Hm). apply Hnone.
  - intros k x. done.
Qed.
End pool.
End code.

End PagingInit.
