(* ===== verification/PagingProps.v ===== *)
(** * Theorems about paging

    A step relation over the functions of src/src/userprog/pagedir.c, the page
    allocator and the processor, with the invariant of every reachable state,
    and the behaviour of the single functions. *)

From S2P Require Import Prelude Bitmap Palloc Pagedir Paging Teardown PagingInit.
Import Palloc Pagedir Paging Teardown PagingInit.

Module PagingProps.

(** ** Steps *)

(** A state and the page directories in use.  The kernel calls the functions
    in any order; a directory is destroyed when it is not active and the
    pages it maps are its own; the processor uses the active directory. *)
Inductive vm_step : mstate * list Z -> mstate * list Z -> Prop :=
| step_create s D pd s' :
    pagedir_create s = Ok (pd, s') -> vm_step (s, D) (s', if pd =? NULL then D else pd :: D)
| step_set_page s D pd upage kpage w r s' :
    pd ∈ D -> in_u32 upage -> in_u32 kpage ->
    pagedir_set_page pd upage kpage w s = Ok (r, s') -> vm_step (s, D) (s', D)
| step_clear_page s D pd upage s' :
    pd ∈ D -> in_u32 upage -> pagedir_clear_page pd upage s = Ok (tt, s') -> vm_step (s, D) (s', D)
| step_set_dirty s D pd vpage v s' :
    pd ∈ D -> user_va vpage -> pagedir_set_dirty pd vpage v s = Ok (tt, s') -> vm_step (s, D) (s', D)
| step_set_accessed s D pd vpage v s' :
    pd ∈ D -> user_va vpage -> pagedir_set_accessed pd vpage v s = Ok (tt, s') -> vm_step (s, D) (s', D)
| step_activate s D pd s' :
    pd ∈ D \/ pd = NULL -> pagedir_activate pd s = Ok (tt, s') -> vm_step (s, D) (s', D)
| step_destroy s D pd s' :
    pd ∈ D -> pd <> active s -> owns s pd -> pagedir_destroy pd s = Ok (tt, s') ->
    vm_step (s, D) (s', others pd D)
| step_load s D va s' : user_va va -> mmu_load va s = Ok (tt, s') -> vm_step (s, D) (s', D)
| step_write s D va s' : user_va va -> mmu_write va s = Ok (tt, s') -> vm_step (s, D) (s', D)
| step_page s D a ws :
    no_node s D a -> backed s a -> length ws = 1024%nat -> vm_step (s, D) (copy_page a ws s, D)
| step_get s D flags cnt pages s' :
    0 < cnt -> palloc_get_multiple flags cnt s = Ok (pages, s') -> vm_step (s, D) (s', D)
| step_free s D user first cnt s' :
    0 < cnt -> page_group true user s first cnt ->
    (forall a, in_pages first cnt a = true -> no_node s D a) ->
    palloc_free_multiple first cnt s = Ok (tt, s') -> vm_step (s, D) (s', D).

(** What the assertions of [pagedir_set_page] leave. *)
Lemma set_page_asserts pd upage kpage w s r s' :
  in_u32 upage -> in_u32 kpage -> pagedir_set_page pd upage kpage w s = Ok (r, s') ->
  user_va upage /\ pg_ofs upage = 0 /\ mappable s kpage /\ pd <> init_page_dir s.
Proof.
  intros Hu Hk H. unfold pagedir_set_page, vtop in H. minv H. minv Hm2.
  apply Z.eqb_eq in Hm, Hm0. apply Z.ltb_lt in Hm4. apply negb_true_iff, Z.eqb_neq in Hm5.
  unfold is_user_vaddr, is_kernel_vaddr, in_u32, user_va, mappable, page_addr in *. rewrite pg_ofs_mod in Hm0.
  split; [lia|]. split; [done|]. split; [|done]. split; [|done]. split; [done|]. lia.
Qed.

Lemma set_page_absent s D pd upage kpage w r s' :
  vm_ok s D -> pd ∈ D -> user_va upage -> pagedir_set_page pd upage kpage w s = Ok (r, s') ->
  has_flag (pte s pd upage) PTE_P = false.
Proof.
  intros Hvm Hin Hu H. pose proof (vo_dirs _ _ Hvm) as Hd.
  unfold pagedir_set_page, vtop in H. minv H. minv Hm2.
  destruct (lookup_page_create s D pd upage (vo_palloc _ _ Hvm) Hd Hin Hu) as [(pt & s2 & Hr & Hsm & Hn)|(_ & Hn & _)].
  2:{ by rewrite (pte_none _ _ _ Hn), has_flag_0. }
  rewrite Hr in Hm6. injection Hm6 as <- <-.
  destruct (slot_addr_ok s2 D pd upage pt (sm_dirs _ _ _ _ Hsm) Hin Hn) as (Hnn & Hl & _).
  rewrite (proj2 (Z.eqb_neq _ NULL)) in H by done. cbn [negb] in H.
  rewrite (bind_ok _ _ _ _ _ Hl) in H. apply bind_ok_inv in H as (? & ? & Hp & _).
  apply ASSERT_inv in Hp as [Hp _]. rewrite (sm_pte _ _ _ _ Hsm) in Hp by done.
  by apply negb_true_iff in Hp.
Qed.

Lemma set_flag_keeps s D pd va k v s' :
  vm_ok s D -> pd ∈ D -> user_va va -> ad_bit k -> pagedir_set (2 ^ k) pd va v s = Ok (tt, s') -> vm_ok s' D.
Proof.
  intros Hvm Hin Hu Hk H. pose proof (pagedir_set_run s D pd va k v Hvm Hin Hu Hk) as Hr.
  destruct (node s pd (Table (pd_no va))).
  - destruct Hr as (s1 & Hr & Hvm1 & _). assert (s1 = s') as <- by congruence. done.
  - assert (s' = s) as -> by congruence. done.
Qed.

Lemma step_keeps x y : vm_step x y -> vm_ok x.1 x.2 -> vm_ok y.1 y.2.
Proof.
  intros Hst. destruct Hst as
    [s D pd s' H|s D pd upage kpage w r s' Hin Hu Hk H|s D pd upage s' Hin Hu H|s D pd va v s' Hin Hu H
    |s D pd va v s' Hin Hu H|s D pd s' Hin H|s D pd s' Hin Hna Hown H|s D va s' Hu H|s D va s' Hu H
    |s D a ws Hno Hb Hl|s D flags cnt pages s' Hc H|s D user first cnt s' Hc Hg Hno H]; cbn; intros Hvm.
  - destruct (create_run s D Hvm) as [(pd' & s1 & Hr & Hvm1 & Hnn & _)|[Hr _]].
    + assert (pd' = pd /\ s1 = s') as [-> ->] by (split; congruence).
      by rewrite (proj2 (Z.eqb_neq pd NULL)).
    + assert (pd = NULL /\ s' = s) as [-> ->] by (split; congruence). done.
  - destruct (set_page_asserts _ _ _ _ _ _ _ Hu Hk H) as (Huva & Ho & Hm & Hni).
    pose proof (set_page_absent _ _ _ _ _ _ _ _ Hvm Hin Huva H) as Hp.
    destruct (set_page_keeps s D pd upage kpage w Hvm Hin Hni Huva Ho Hm Hp)
      as [(s1 & e & Hr & (Hvm1 & _) & _)|(Hr & _)].
    + assert (s1 = s') as <- by congruence. done.
    + assert (s' = s) as -> by congruence. done.
  - assert (user_va upage /\ pg_ofs upage = 0) as [Huva Ho].
    { unfold pagedir_clear_page in H. minv H. apply Z.eqb_eq in Hm.
      unfold is_user_vaddr, in_u32, user_va in *. split; [lia|done]. }
    destruct (clear_page_run s D pd upage Hvm Hin Huva Ho) as (s1 & Hr & Hvm1 & _).
    assert (s1 = s') as <- by congruence. done.
  - apply (set_flag_keeps s D pd va 6 v); [done|done|done|by right|done].
  - apply (set_flag_keeps s D pd va 5 v); [done|done|done|by left|done].
  - destruct (activate_run s D pd Hvm Hin) as [Hr Hvm1]. rewrite Hr in H. injection H as <-. done.
  - destruct (decide (pd = init_page_dir s)) as [E|Hni].
    { unfold pagedir_destroy in H. destruct (do_root _ _ _ (vo_dirs _ _ Hvm) Hin) as (Hpa & _ & _).
      rewrite (proj2 (Z.eqb_neq pd NULL)) in H by (destruct Hpa; unfold NULL, PHYS_BASE in *; lia).
      minv H. by rewrite E, Z.eqb_refl in Hm. }
    destruct (destroy_run s D pd Hvm Hin Hni Hna Hown) as (s1 & Hr & Hvm1 & _).
    assert (s1 = s') as <- by congruence. done.
  - by eapply mmu_load_keeps.
  - by eapply mmu_write_keeps.
  - by apply write_page_keeps.
  - by eapply get_multiple_keeps.
  - by eapply free_multiple_keeps.
Qed.

Lemma steps_keep x y : rtc vm_step x y -> vm_ok x.1 x.2 -> vm_ok y.1 y.2.
Proof. induction 1 as [|x y z Hst _ IH]; [done|]. intros Hvm. by apply IH, (step_keeps x). Qed.

Lemma reach_keeps s D s' D' : rtc vm_step (s, D) (s', D') -> vm_ok s D -> vm_ok s' D'.
Proof. apply (steps_keep (s, D) (s', D')). Qed.

(** ** Translation *)

(** The address that the processor uses for a user address whose entry it
    has loaded. *)
Definition tlb_translate (s : mstate) (va : Z) : option Z :=
  match tlb s !! pg_no va with
  | Some c => Some (Z.land c PTE_ADDR + PHYS_BASE + pg_ofs va)
  | None => None
  end.

Lemma cached_frame c e : cached c e -> Z.land c PTE_ADDR = Z.land e PTE_ADDR.
Proof.
  intros [_ Hc]. apply Z.bits_inj'. intros k Hk. rewrite !Z.land_spec.
  destruct (Hc k Hk) as [->|[[-> | ->] _]]; [done|by rewrite !andb_false_r..].
Qed.

Lemma cached_bit c e k : cached c e -> 0 <= k < 5 -> Z.testbit c k = Z.testbit e k.
Proof. intros [_ Hc] Hk. destruct (Hc k ltac:(lia)) as [?|[[-> | ->] _]]; [done|lia|lia]. Qed.

(** ** Properties *)

Lemma paging_init_all _start _end_kernel_text s n :
  palloc_ok s -> (forall a, used false s a = false) -> init_ram_pages s = n -> 0 <= n <= 262144 ->
  1 + (n + 1023) / 1024 <= Bitmap.bit_cnt (used_map (the_pool false s)) ->
  exists s', paging_init _start _end_kernel_text s = Ok (tt, s') /\
    vm_ok s' [init_page_dir s'] /\ active s' = init_page_dir s' /\
    forall q, 0 <= q < n ->
      exists pt, points_to (word s' (init_page_dir s') (pd_no (kaddr q))) pt 7 /\
        points_to (word s' pt (pt_no (kaddr q))) (kaddr q) (kflags _start _end_kernel_text q).
Proof.
  intros Hs Hu En Hn Hc. set (b := base (the_pool false s)). set (c := Bitmap.bit_cnt (used_map (the_pool false s))) in *.
  assert (0 <= (n + 1023) / 1024) by (apply Z.div_pos; lia).
  assert (taken b c 0 s) as Htk.
  { constructor; [done|done|]. intros a. rewrite Hu. symmetry. apply not_true_iff_false.
    rewrite in_pages_spec. lia. }
  destruct (paging_init_run _start _end_kernel_text b c s n Htk En Hn Hc) as (s' & Hr & Hm).
  exists (flushed b s'). split; [done|]. change (init_page_dir (flushed b s')) with (init_page_dir s').
  rewrite (mp_dir _ _ _ _ _ _ _ Hm). split; [by eapply mapped_vm_ok; [done|lia|lia]|].
  split; [unfold active, flushed; cbn; lia|]. intros q Hq. destruct (kaddr_no q ltac:(lia)) as [E1 E2].
  rewrite E1, E2. exists (b + 4096 * (1 + q / 1024)). split; [|by apply (mp_pte _ _ _ _ _ _ _ Hm)].
  pose proof (Z.div_pos q 1024 ltac:(lia) ltac:(lia)).
  assert (q / 1024 < (n + 1023) / 1024) as Hlt.
  { pose proof (tables_next q ltac:(lia)).
    assert ((q + 1 + 1023) / 1024 <= (n + 1023) / 1024) by (apply Z.div_le_mono; lia). lia. }
  pose proof (mp_pde _ _ _ _ _ _ _ Hm (768 + q / 1024) ltac:(lia)) as Hp.
  by replace (768 + q / 1024 - 767) with (1 + q / 1024) in Hp by lia.
Qed.

(** [paging_init], started on an allocator whose kernel pool is free and
    has a page for the directory and for each table, does not panic, maps
    every page of memory at [PHYS_BASE] plus its physical address, read-only
    exactly for the kernel's code, maps no user address, and activates the
    directory. *)
Theorem paging_init_ok _start _end_kernel_text s n :
  palloc_ok s -> (forall a, used false s a = false) -> init_ram_pages s = n -> 0 <= n <= 262144 ->
  1 + (n + 1023) / 1024 <= Bitmap.bit_cnt (used_map (the_pool false s)) ->
  exists s', paging_init _start _end_kernel_text s = Ok (tt, s') /\
    vm_ok s' [init_page_dir s'] /\ active s' = init_page_dir s' /\
    forall q, 0 <= q < n ->
      exists pt, points_to (word s' (init_page_dir s') (pd_no (kaddr q))) pt 7 /\
        points_to (word s' pt (pt_no (kaddr q))) (kaddr q) (kflags _start _end_kernel_text q).
Proof. apply paging_init_all. Qed.

(** What a state with one entry changed translates. *)
Lemma sets_translate D pd va e s s' pd' uaddr :
  sets D pd va e s s' -> pd' ∈ D ->
  translate s' pd' uaddr
  = if (pd' =? pd) && (pg_no uaddr =? pg_no va)
    then if has_flag e PTE_P then Some (Z.land e PTE_ADDR + PHYS_BASE + pg_ofs uaddr) else None
    else translate s pd' uaddr.
Proof. intros (_ & _ & _ & Hv) Hin. unfold translate. rewrite Hv by done. by destruct (_ && _). Qed.

Lemma vm_get_page s D pd uaddr :
  vm_ok s D -> pd ∈ D -> user_va uaddr ->
  pagedir_get_page pd uaddr s = Ok (default NULL (translate s pd uaddr), s).
Proof. intros Hvm. by apply get_page_run; apply Hvm. Qed.

(** C20: After [pagedir_set_page] has mapped a page, [pagedir_get_page] returns
    its kernel address plus the offset for every address in the page, and
    for every other address, in every directory, what it returned before.
    The function fails only when a page table is missing and the kernel
    pool has no free page, and then nothing has changed. *)
Theorem pagedir_set_get s D pd upage kpage w :
  vm_ok s D -> pd ∈ D -> pd <> init_page_dir s -> user_va upage -> pg_ofs upage = 0 -> mappable s kpage ->
  has_flag (pte s pd upage) PTE_P = false ->
  (exists s', pagedir_set_page pd upage kpage w s = Ok (true, s') /\ vm_ok s' D /\
     (forall uaddr, user_va uaddr -> pg_no uaddr = pg_no upage ->
        pagedir_get_page pd uaddr s' = Ok (kpage + pg_ofs uaddr, s')) /\
     (forall pd' uaddr, pd' ∈ D -> user_va uaddr -> pd' <> pd \/ pg_no uaddr <> pg_no upage ->
        pagedir_get_page pd' uaddr s' = Ok (default NULL (translate s pd' uaddr), s'))) \/
  (pagedir_set_page pd upage kpage w s = Ok (false, s) /\ node s pd (Table (pd_no upage)) = None /\
   forall first, ~ page_group false false s first 1).
Proof.
  intros Hvm Hin Hni Hu Ho Hm Hp.
  destruct (set_page_keeps s D pd upage kpage w Hvm Hin Hni Hu Ho Hm Hp)
    as [(s' & e & Hr & Hset & Hpt & _)|?]; [left|by right].
  exists s'. split; [done|]. pose proof (proj1 Hset) as Hvm'. split; [done|].
  split; [intros uaddr Hua Epg; rewrite (vm_get_page s' D pd) by done
         |intros pd' uaddr Hin' Hua Hne; rewrite (vm_get_page s' D pd') by done];
    rewrite (sets_translate D pd upage e s s' _ _ Hset) by done.
  - rewrite Epg, !Z.eqb_refl. cbn [andb]. rewrite (pt_flags _ _ _ Hpt), (pt_addr _ _ _ Hpt) by done. by destruct w.
  - destruct (Z.eqb_spec pd' pd) as [->|]; cbn [andb]; [|reflexivity].
    destruct Hne as [|Hne]; [done|]. by rewrite (proj2 (Z.eqb_neq _ _) Hne).
Qed.

(** [pagedir_clear_page] unmaps exactly the given page in the given
    directory, and when the directory is active the TLB has no entry for the
    page afterwards. *)
Theorem pagedir_clear_page_ok s D pd upage :
  vm_ok s D -> pd ∈ D -> user_va upage -> pg_ofs upage = 0 ->
  exists s', pagedir_clear_page pd upage s = Ok (tt, s') /\ vm_ok s' D /\
    (forall uaddr, user_va uaddr -> pg_no uaddr = pg_no upage ->
       pagedir_get_page pd uaddr s' = Ok (NULL, s') /\ (pd = active s -> tlb s' !! pg_no uaddr = None)) /\
    (forall pd' uaddr, pd' ∈ D -> user_va uaddr -> pd' <> pd \/ pg_no uaddr <> pg_no upage ->
       pagedir_get_page pd' uaddr s' = Ok (default NULL (translate s pd' uaddr), s')).
Proof.
  intros Hvm Hin Hu Ho. destruct (clear_page_run s D pd upage Hvm Hin Hu Ho) as (s' & Hr & Hset).
  assert (in_u32 (pte s pd upage)) as Hu32.
  { destruct (node s pd (Table (pd_no upage))) as [pt|] eqn:Hn.
    - by destruct (slot_addr_ok s D pd upage pt (vo_dirs _ _ Hvm) Hin Hn) as (_ & _ & _ & ?).
    - rewrite (pte_none _ _ _ Hn). done. }
  assert (has_flag (Z.land (pte s pd upage) (u32 (Z.lnot PTE_P))) PTE_P = false) as Hnp.
  { change PTE_P with (2 ^ 0). rewrite has_flag_bit, clear_bit by done. done. }
  exists s'. split; [done|]. pose proof (proj1 Hset) as Hvm'. split; [done|].
  split; [intros uaddr Hua Epg; rewrite (vm_get_page s' D pd) by done
         |intros pd' uaddr Hin' Hua Hne; rewrite (vm_get_page s' D pd') by done];
    rewrite (sets_translate D pd upage _ s s' _ _ Hset) by done.
  - rewrite Epg, !Z.eqb_refl. cbn [andb]. rewrite Hnp. split; [done|]. intros ->.
    destruct (tlb s' !! pg_no upage) as [c|] eqn:Hc; [|done]. destruct Hset as (_ & Ea & _ & Hv).
    destruct (vo_tlb _ _ Hvm' _ _ Hc) as [_ Hcc]. rewrite Ea, Hv, pg_no_page, !Z.eqb_refl in Hcc by done.
    cbn [andb] in Hcc. pose proof (proj1 Hcc) as H0. rewrite (cached_bit _ _ 0 Hcc) in H0 by lia.
    change PTE_P with (2 ^ 0) in *. rewrite has_flag_bit in Hnp by done. congruence.
  - destruct (Z.eqb_spec pd' pd) as [->|]; cbn [andb]; [|reflexivity].
    destruct Hne as [|Hne]; [done|]. by rewrite (proj2 (Z.eqb_neq _ _) Hne).
Qed.

(** C7: In every state that calls of the paging functions, of the allocator
    and steps of the processor reach from a consistent state, a translation
    that the TLB holds is the one that the active page directory has, with
    the same right to write. *)
Theorem tlb_coherent s D s' D' va a :
  vm_ok s D -> rtc vm_step (s, D) (s', D') -> user_va va -> tlb_translate s' va = Some a ->
  pagedir_get_page (active s') va s' = Ok (a, s') /\
  forall c, tlb s' !! pg_no va = Some c -> has_flag c PTE_W = has_flag (pte s' (active s') va) PTE_W.
Proof.
  intros Hvm Hst Hva Ht. pose proof (reach_keeps _ _ _ _ Hst Hvm) as Hvm'.
  unfold tlb_translate in Ht. destruct (tlb s' !! pg_no va) as [c|] eqn:Hc; [|done]. injection Ht as <-.
  destruct (vo_tlb _ _ Hvm' _ _ Hc) as [_ Hcc]. rewrite (pte_same_page s' _ _ va) in Hcc by apply pg_no_page.
  rewrite (vm_get_page s' D' _ va Hvm' (vo_active _ _ Hvm') Hva). unfold translate.
  assert (has_flag (pte s' (active s') va) PTE_P = true) as ->.
  { change PTE_P with (2 ^ 0). rewrite has_flag_bit, <- (cached_bit _ _ 0 Hcc) by lia. apply Hcc. }
  rewrite (cached_frame _ _ Hcc). split; [done|]. intros c' [= <-].
  change PTE_W with (2 ^ 1). rewrite !has_flag_bit by lia. by apply cached_bit.
Qed.

(** [pagedir_destroy] of a directory that is not active and owns the pages
    it maps returns; the memory of the directory, of its tables and of the
    mapped pages becomes free, nothing else does, and the other directories
    keep their mappings. *)
Theorem pagedir_destroy_ok s D pd :
  vm_ok s D -> pd ∈ D -> pd <> init_page_dir s -> pd <> active s -> owns s pd ->
  exists s', pagedir_destroy pd s = Ok (tt, s') /\ vm_ok s' (others pd D) /\
    (forall a, allocated s' a = true <-> allocated s a = true /\ ~ belongs s pd a) /\
    (forall pd' va, pd' ∈ others pd D -> pte s' pd' va = pte s pd' va).
Proof. apply destroy_run. Qed.

(** [pagedir_create] returns a new directory that has the kernel's entries
    and maps no user address, and leaves every other directory as it was; it
    returns a null pointer only when the kernel pool has no free page. *)
Theorem pagedir_create_ok s D :
  vm_ok s D ->
  (exists pd s', pagedir_create s = Ok (pd, s') /\ vm_ok s' (pd :: D) /\ (pd ∉ D) /\
     (forall uaddr, user_va uaddr -> pagedir_get_page pd uaddr s' = Ok (NULL, s')) /\
     (forall i, word s' pd i = word s (init_page_dir s) i) /\
     (forall pd' va, pd' ∈ D -> pte s' pd' va = pte s pd' va)) \/
  (pagedir_create s = Ok (NULL, s) /\ forall first, ~ page_group false false s first 1).
Proof.
  intros Hvm. destruct (create_run s D Hvm) as [(pd & s' & Hr & Hvm' & _ & Hnin & Hold & Hnew & Hw)|?]; [left|by right].
  exists pd, s'. split; [done|]. split; [done|]. split; [done|]. split; [|done].
  intros uaddr Hu. rewrite (vm_get_page s' (pd :: D) pd uaddr Hvm' ltac:(by left) Hu).
  unfold translate. by rewrite Hnew, has_flag_0.
Qed.

(** ** A run: boot, make a process's directory, map a page, switch, access *)

Definition after {A} (m : M mstate A) (s : mstate) : mstate :=
  match m s with Ok (_, s') => s' | Err _ => s end.
Definition value {A} (m : M mstate A) (s : mstate) : option A :=
  match m s with Ok (a, _) => Some a | Err _ => None end.

Lemma after_run {A} (m : M mstate A) s a : value m s = Some a -> m s = Ok (a, after m s).
Proof. unfold value, after. by destruct (m s) as [[x s']|]; [intros [= ->]|]. Qed.

Lemma after_unique {A} (m : M mstate A) s a s' : m s = Ok (a, s') -> s' = after m s.
Proof. unfold after. by intros ->. Qed.

Lemma value_unique {A} (m : M mstate A) s a b s' : m s = Ok (a, s') -> value m s = Some b -> a = b.
Proof. unfold value. intros ->. by intros [= ->]. Qed.

Definition ex_init : Z := PHYS_BASE + PGSIZE * 257.
Definition ex_dir : Z := PHYS_BASE + PGSIZE * 259.
Definition ex_kpage : Z := PHYS_BASE + PGSIZE * 263.
Definition ex_upage : Z := 134512640.

Definition ex0 : mstate := after (paging_init 0 0) booted.
Definition ex1 : mstate := after (palloc_get_multiple PAL_USER 1) ex0.
Definition ex2 : mstate := after pagedir_create ex1.
Definition ex3 : mstate := after (pagedir_set_page ex_dir ex_upage ex_kpage true) ex2.
Definition ex4 : mstate := after (pagedir_activate ex_dir) ex3.
Definition ex5 : mstate := after (mmu_load ex_upage) ex4.

Lemma ex_values :
  value (paging_init 0 0) booted = Some tt /\ init_page_dir ex0 = ex_init /\
  value (palloc_get_multiple PAL_USER 1) ex0 = Some ex_kpage /\
  value pagedir_create ex1 = Some ex_dir /\
  value (pagedir_set_page ex_dir ex_upage ex_kpage true) ex2 = Some true /\
  value (pagedir_activate ex_dir) ex3 = Some tt /\
  value (mmu_load ex_upage) ex4 = Some tt /\ tlb_translate ex5 ex_upage = Some ex_kpage.
Proof. vm_compute. repeat split; reflexivity. Qed.

Lemma ex_facts :
  init_ram_pages booted = 268 /\ Bitmap.bit_cnt (used_map (the_pool false booted)) = 5 /\
  init_page_dir ex2 = ex_init /\ init_ram_pages ex2 = 268 /\ active ex3 = ex_init /\ init_page_dir ex3 = ex_init /\
  used true ex3 ex_kpage = true /\ node ex2 ex_dir (Table (pd_no ex_upage)) = None /\
  pte ex2 ex_dir ex_upage = 0.
Proof. vm_compute. repeat split; reflexivity. Qed.

Lemma ex_runs :
  palloc_get_multiple PAL_USER 1 ex0 = Ok (ex_kpage, ex1) /\
  pagedir_create ex1 = Ok (ex_dir, ex2) /\
  pagedir_set_page ex_dir ex_upage ex_kpage true ex2 = Ok (true, ex3) /\
  pagedir_activate ex_dir ex3 = Ok (tt, ex4) /\
  mmu_load ex_upage ex4 = Ok (tt, ex5).
Proof.
  destruct ex_values as (_ & _ & H1 & H2 & H3 & H4 & H5 & _).
  unfold ex5 at 1, ex4 at 1, ex3 at 1, ex2 at 1, ex1 at 1.
  split; [exact (after_run _ _ _ H1)|]. split; [exact (after_run _ _ _ H2)|].
  split; [exact (after_run _ _ _ H3)|]. split; [exact (after_run _ _ _ H4)|exact (after_run _ _ _ H5)].
Qed.

(** Runs end in these states. *)
Lemma ex_eq :
  (forall u s, paging_init 0 0 booted = Ok (u, s) -> s = ex0) /\
  (forall p s, pagedir_create ex1 = Ok (p, s) -> s = ex2) /\
  (forall r s, pagedir_set_page ex_dir ex_upage ex_kpage true ex2 = Ok (r, s) -> s = ex3).
Proof.
  split; [|split]; intros ? ? H; apply after_unique in H; [unfold ex0|unfold ex2|unfold ex3]; exact H.
Qed.

#[local] Opaque ex0 ex1 ex2 ex3 ex4 ex5 booted.

Lemma booted_unused a : used false booted a = false.
Proof. destruct booted_ok as (_ & Hn & _). specialize (Hn a). unfold allocated in Hn. by apply orb_false_iff in Hn as [? _]. Qed.

Lemma ex0_ok : vm_ok ex0 [ex_init].
Proof.
  destruct ex_values as (Hv & Hi & _). destruct ex_facts as (Hn & Hc & _).
  destruct (paging_init_all 0 0 booted 268) as (s' & Hr & Hvm & _);
    [apply booted_ok|apply booted_unused|exact Hn|lia|rewrite Hc; done|].
  pose proof (proj1 ex_eq _ _ Hr) as E. subst s'. rewrite Hi in Hvm. exact Hvm.
Qed.

Lemma ex_in : ex_dir ∈ [ex_dir; ex_init].
Proof. by left. Qed.

Lemma ex_addrs : in_u32 ex_upage /\ in_u32 ex_kpage /\ user_va ex_upage.
Proof. unfold in_u32, user_va, ex_upage, ex_kpage, PHYS_BASE, PGSIZE. lia. Qed.

Lemma ex_next : user_va (ex_upage + 5) /\ pg_no (ex_upage + 5) = pg_no ex_upage.
Proof. vm_compute. repeat split; discriminate. Qed.

(** The steps of the run. *)
Lemma ex_steps :
  vm_step (ex0, [ex_init]) (ex1, [ex_init]) /\ vm_step (ex1, [ex_init]) (ex2, [ex_dir; ex_init]) /\
  vm_step (ex2, [ex_dir; ex_init]) (ex3, [ex_dir; ex_init]) /\
  vm_step (ex3, [ex_dir; ex_init]) (ex4, [ex_dir; ex_init]) /\
  vm_step (ex4, [ex_dir; ex_init]) (ex5, [ex_dir; ex_init]).
Proof.
  destruct ex_runs as (H1 & H2 & H3 & H4 & H5). split; [|split; [|split; [|split]]].
  - exact (step_get ex0 [ex_init] PAL_USER 1 ex_kpage ex1 eq_refl H1).
  - exact (step_create ex1 [ex_init] ex_dir ex2 H2).
  - destruct ex_addrs as (A1 & A2 & _). exact (step_set_page ex2 _ ex_dir ex_upage ex_kpage true true ex3 ex_in A1 A2 H3).
  - exact (step_activate ex3 _ ex_dir ex4 (or_introl ex_in) H4).
  - exact (step_load ex4 _ ex_upage ex5 (proj2 (proj2 ex_addrs)) H5).
Qed.

Lemma ex2_ok : vm_ok ex2 [ex_dir; ex_init].
Proof.
  destruct ex_steps as (H1 & H2 & _).
  exact (reach_keeps _ _ _ _ (rtc_l _ _ _ _ H1 (rtc_once _ _ H2)) ex0_ok).
Qed.

Lemma ex3_ok : vm_ok ex3 [ex_dir; ex_init].
Proof. destruct ex_steps as (_ & _ & H3 & _). exact (reach_keeps _ _ _ _ (rtc_once _ _ H3) ex2_ok). Qed.

Lemma ex_kpage_addr : page_addr ex_kpage /\ Z.shiftr (ex_kpage - PHYS_BASE) PTSHIFT < 268.
Proof. vm_compute. repeat split; discriminate. Qed.

Lemma ex_mappable : mappable ex2 ex_kpage.
Proof. destruct ex_facts as (_ & _ & _ & Hn & _). unfold mappable. rewrite Hn. exact ex_kpage_addr. Qed.

Lemma paging_init_ok_witness :
  (forall a, used false booted a = false) /\
  exists s', paging_init 0 0 booted = Ok (tt, s') /\ vm_ok s' [init_page_dir s'].
Proof.
  split; [apply booted_unused|]. destruct ex_facts as (Hn & Hc & _).
  destruct (paging_init_ok 0 0 booted 268) as (s' & Hr & Hvm & _);
    [apply booted_ok|apply booted_unused|exact Hn|lia|rewrite Hc; vm_compute; discriminate|].
  exists s'. split; [exact Hr|exact Hvm].
Defined.

Lemma ex_absent : has_flag (pte ex2 ex_dir ex_upage) PTE_P = false.
Proof. destruct ex_facts as (_ & _ & _ & _ & _ & _ & _ & _ & ->). reflexivity. Qed.

Lemma ex_dir_not_init : ex_dir <> init_page_dir ex2.
Proof. destruct ex_facts as (_ & _ & -> & _). discriminate. Qed.

Lemma pagedir_set_get_witness :
  vm_ok ex2 [ex_dir; ex_init] /\
  pagedir_get_page ex_dir (ex_upage + 5) ex3 = Ok (ex_kpage + 5, ex3).
Proof.
  split; [apply ex2_ok|]. destruct ex_values as (_ & _ & _ & _ & Hv & _).
  destruct (pagedir_set_get ex2 [ex_dir; ex_init] ex_dir ex_upage ex_kpage true ex2_ok ex_in
    ex_dir_not_init (proj2 (proj2 ex_addrs)) eq_refl ex_mappable ex_absent)
    as [(s' & Hr & _ & Hget & _)|(Hr & _)].
  - pose proof (proj2 (proj2 ex_eq) _ _ Hr) as E. subst s'. exact (Hget (ex_upage + 5) (proj1 ex_next) (proj2 ex_next)).
  - discriminate (value_unique _ _ _ _ _ Hr Hv).
Defined.

Lemma pagedir_clear_page_ok_witness :
  vm_ok ex3 [ex_dir; ex_init] /\
  exists s', pagedir_clear_page ex_dir ex_upage ex3 = Ok (tt, s') /\
    pagedir_get_page ex_dir ex_upage s' = Ok (NULL, s').
Proof.
  split; [apply ex3_ok|].
  destruct (pagedir_clear_page_ok ex3 [ex_dir; ex_init] ex_dir ex_upage ex3_ok ex_in (proj2 (proj2 ex_addrs)) eq_refl)
    as (s' & Hr & _ & Hget & _).
  exists s'. split; [exact Hr|]. exact (proj1 (Hget ex_upage (proj2 (proj2 ex_addrs)) eq_refl)).
Defined.

Lemma tlb_coherent_witness :
  vm_ok ex0 [ex_init] /\ rtc vm_step (ex0, [ex_init]) (ex5, [ex_dir; ex_init]) /\
  tlb_translate ex5 ex_upage = Some ex_kpage /\
  pagedir_get_page (active ex5) ex_upage ex5 = Ok (ex_kpage, ex5).
Proof.
  assert (rtc vm_step (ex0, [ex_init]) (ex5, [ex_dir; ex_init])) as Hst.
  { destruct ex_steps as (H1 & H2 & H3 & H4 & H5).
    exact (rtc_l _ _ _ _ H1 (rtc_l _ _ _ _ H2 (rtc_l _ _ _ _ H3 (rtc_l _ _ _ _ H4 (rtc_once _ _ H5))))). }
  assert (tlb_translate ex5 ex_upage = Some ex_kpage) as Ht by apply ex_values.
  split; [apply ex0_ok|]. split; [exact Hst|]. split; [exact Ht|].
  apply (tlb_coherent ex0 [ex_init] ex5 [ex_dir; ex_init] ex_upage ex_kpage ex0_ok Hst (proj2 (proj2 ex_addrs)) Ht).
Defined.

(** The directory owns the one page that it maps. *)
Lemma ex2_empty va : pte ex2 ex_dir va = 0.
Proof.
  destruct ex_steps as (H1 & _). pose proof (reach_keeps _ _ _ _ (rtc_once _ _ H1) ex0_ok) as Hvm.
  destruct ex_values as (_ & _ & _ & Hv & _).
  destruct (create_run ex1 [ex_init] Hvm) as [(pd & s' & Hr & _ & _ & _ & _ & Hz & _)|[Hr _]].
  - pose proof (proj1 (proj2 ex_eq) _ _ Hr) as E. subst s'.
    pose proof (value_unique _ _ _ _ _ Hr Hv) as E. subst pd. apply Hz.
  - discriminate (value_unique _ _ _ _ _ Hr Hv).
Qed.

Lemma ex3_owns : owns ex3 ex_dir.
Proof.
  destruct ex_values as (_ & _ & _ & _ & Hv & _).
  destruct (set_page_keeps ex2 [ex_dir; ex_init] ex_dir ex_upage ex_kpage true ex2_ok ex_in
    ex_dir_not_init (proj2 (proj2 ex_addrs)) eq_refl ex_mappable ex_absent)
    as [(s' & e & Hr & (_ & _ & _ & Hp) & Hpt & _)|(Hr & _)].
  2:{ discriminate (value_unique _ _ _ _ _ Hr Hv). }
  pose proof (proj2 (proj2 ex_eq) _ _ Hr) as E. subst s'.
  destruct ex_facts as (_ & _ & _ & _ & _ & _ & Hu & _).
  assert (forall va, user_va va -> present ex3 ex_dir va ->
            pg_no va = pg_no ex_upage /\ frame (pte ex3 ex_dir va) = ex_kpage) as Hone.
  { intros va Hva. unfold present. rewrite Hp by apply ex_in. rewrite Z.eqb_refl. cbn [andb].
    destruct (Z.eqb_spec (pg_no va) (pg_no ex_upage)) as [E|Hne].
    - intros _. split; [exact E|]. apply (pt_addr _ _ _ Hpt).
    - rewrite ex2_empty, has_flag_0. discriminate. }
  constructor.
  - intros va Hva Hpr. destruct (Hone va Hva Hpr) as [_ ->]. exact Hu.
  - intros va Hva Hpr. destruct (Hone va Hva Hpr) as [_ ->]. apply ex_kpage_addr.
  - intros va va' Hva Hva' Hpr Hpr' _. destruct (Hone va Hva Hpr) as [-> _].
    destruct (Hone va' Hva' Hpr') as [-> _]. reflexivity.
Qed.

Lemma pagedir_destroy_ok_witness :
  vm_ok ex3 [ex_dir; ex_init] /\ owns ex3 ex_dir /\
  exists s', pagedir_destroy ex_dir ex3 = Ok (tt, s') /\ vm_ok s' (others ex_dir [ex_dir; ex_init]).
Proof.
  split; [apply ex3_ok|]. split; [apply ex3_owns|].
  destruct ex_facts as (_ & _ & _ & _ & Ha & Hi & _).
  destruct (pagedir_destroy_ok ex3 [ex_dir; ex_init] ex_dir ex3_ok ex_in
    ltac:(rewrite Hi; discriminate) ltac:(rewrite Ha; discriminate) ex3_owns) as (s' & Hr & Hvm & _).
  exists s'. split; [exact Hr|exact Hvm].
Defined.

Lemma pagedir_create_ok_witness :
  vm_ok ex1 [ex_init] /\ pagedir_create ex1 = Ok (ex_dir, ex2) /\ vm_ok ex2 [ex_dir; ex_init].
Proof.
  destruct ex_steps as (H1 & _). pose proof (reach_keeps _ _ _ _ (rtc_once _ _ H1) ex0_ok) as Hvm.
  destruct ex_values as (_ & _ & _ & Hv & _). split; [exact Hvm|].
  destruct (pagedir_create_ok ex1 [ex_init] Hvm) as [(pd & s' & Hr & Hvm' & _)|[Hr _]].
  - pose proof (proj1 (proj2 ex_eq) _ _ Hr) as E. subst s'.
    pose proof (value_unique _ _ _ _ _ Hr Hv) as E. subst pd. split; [exact Hr|exact Hvm'].
  - discriminate (value_unique _ _ _ _ _ Hr Hv).
Defined.

End PagingProps.
