(* ===== verification/FsState.v ===== *)
(** * The file system: its state, the block device and allocation

    The data of src/src/filesys: the device that holds the file system, the
    open inodes, files and directories, and the free map.  The block layer
    (src/src/devices/block.c) is modelled down to its driver, which is an
    array of sectors.  [malloc] and [calloc] (src/src/threads/malloc.c) are
    modelled by their contract: each call fails or returns a block that is
    not in use; [mem] says which of the coming calls succeed, and an address
    is the name of an object, so it is never used twice. *)

From S2P Require Import Prelude Bitmap.

Module FsState.

Definition BLOCK_SECTOR_SIZE : Z := 512.
Definition FREE_MAP_SECTOR : Z := 0.
Definition ROOT_DIR_SECTOR : Z := 1.

(** ** Data *)

(** [struct inode_disk]; its 125 unused words are zero on the disk. *)
Record inode_disk : Type := mkInodeDisk { start : Z; dlength : Z; dmagic : Z }.

Record inode : Type := mkInode {
  sector : Z;
  open_cnt : Z;
  removed : bool;
  deny_write_cnt : Z;
  data : inode_disk
}.

Record file : Type := mkFile { file_inode : Z; pos : Z; deny_write : bool }.

Record dir : Type := mkDir { dir_inode : Z; dir_pos : Z }.

Record fs : Type := mkFs {
  disk : list (list Z);
  read_cnt : Z;
  write_cnt : Z;
  inodes : gmap Z inode;
  open_inodes : list Z;
  files : gmap Z file;
  dirs : gmap Z dir;
  free_map : Bitmap.bitmap;
  free_map_file : Z;
  mem : nat -> bool;
  brk : Z
}.

Definition set_disk v s := mkFs v (read_cnt s) (write_cnt s) (inodes s) (open_inodes s) (files s) (dirs s) (free_map s) (free_map_file s) (mem s) (brk s).
Definition set_read_cnt v s := mkFs (disk s) v (write_cnt s) (inodes s) (open_inodes s) (files s) (dirs s) (free_map s) (free_map_file s) (mem s) (brk s).
Definition set_write_cnt v s := mkFs (disk s) (read_cnt s) v (inodes s) (open_inodes s) (files s) (dirs s) (free_map s) (free_map_file s) (mem s) (brk s).
Definition set_inodes v s := mkFs (disk s) (read_cnt s) (write_cnt s) v (open_inodes s) (files s) (dirs s) (free_map s) (free_map_file s) (mem s) (brk s).
Definition set_open_inodes v s := mkFs (disk s) (read_cnt s) (write_cnt s) (inodes s) v (files s) (dirs s) (free_map s) (free_map_file s) (mem s) (brk s).
Definition set_files v s := mkFs (disk s) (read_cnt s) (write_cnt s) (inodes s) (open_inodes s) v (dirs s) (free_map s) (free_map_file s) (mem s) (brk s).
Definition set_dirs v s := mkFs (disk s) (read_cnt s) (write_cnt s) (inodes s) (open_inodes s) (files s) v (free_map s) (free_map_file s) (mem s) (brk s).
Definition set_free_map v s := mkFs (disk s) (read_cnt s) (write_cnt s) (inodes s) (open_inodes s) (files s) (dirs s) v (free_map_file s) (mem s) (brk s).
Definition set_free_map_file v s := mkFs (disk s) (read_cnt s) (write_cnt s) (inodes s) (open_inodes s) (files s) (dirs s) (free_map s) v (mem s) (brk s).
Definition set_mem v s := mkFs (disk s) (read_cnt s) (write_cnt s) (inodes s) (open_inodes s) (files s) (dirs s) (free_map s) (free_map_file s) v (brk s).
Definition set_brk v s := mkFs (disk s) (read_cnt s) (write_cnt s) (inodes s) (open_inodes s) (files s) (dirs s) (free_map s) (free_map_file s) (mem s) v.

(** ** Access to objects; a null or dangling pointer is a bad access *)

Definition inod (i : Z) : M fs inode :=
  gets_opt (fun s => if i =? NULL then None else inodes s !! i).

Definition upd_inode (i : Z) (f : inode -> inode) : M fs unit :=
  v <- inod i ;; modify (fun s => set_inodes (<[i := f v]> (inodes s)) s).

Definition fil (f : Z) : M fs file :=
  gets_opt (fun s => if f =? NULL then None else files s !! f).

Definition upd_file (f : Z) (g : file -> file) : M fs unit :=
  v <- fil f ;; modify (fun s => set_files (<[f := g v]> (files s)) s).

Definition directory (d : Z) : M fs dir :=
  gets_opt (fun s => if d =? NULL then None else dirs s !! d).

Definition upd_dir (d : Z) (g : dir -> dir) : M fs unit :=
  v <- directory d ;; modify (fun s => set_dirs (<[d := g v]> (dirs s)) s).

(** An operation on the free map. *)
Definition on_free_map {A} (m : M Bitmap.bitmap A) : M fs A :=
  fun s => match m (free_map s) with
           | Ok (a, b) => Ok (a, set_free_map b s)
           | Err e => Err e
           end.

(** ** Allocation *)

Definition malloc : M fs Z :=
  s <- get ;;
  put (set_mem (fun n => mem s (S n)) (set_brk (brk s + 1) s)) ;;;
  ret (if mem s 0%nat then brk s else NULL).

(** ** The block device

    The device with the file-system role: it exists and its type is not
    [BLOCK_FOREIGN], which is what [filesys_init] and [block_write] test. *)

Definition block_size : M fs Z := gets (fun s => Z.of_nat (length (disk s))).

Definition check_sector (sec : Z) : M fs unit :=
  n <- block_size ;; if sec >=? n then fail Kernel_panic else ret tt.

Definition block_read (sec : Z) : M fs (list Z) :=
  check_sector sec ;;;
  b <- gets_opt (fun s => disk s !! Z.to_nat sec) ;;
  modify (fun s => set_read_cnt (u64 (read_cnt s + 1)) s) ;;;
  ret b.

(** [buffer] is the 512 bytes that are written. *)
Definition block_write (sec : Z) (buffer : list Z) : M fs unit :=
  check_sector sec ;;;
  modify (fun s => set_disk (<[Z.to_nat sec := buffer]> (disk s)) s) ;;;
  modify (fun s => set_write_cnt (u64 (write_cnt s + 1)) s).

(** ** Bytes of integers *)

Definition le32 (n : Z) : list Z :=
  [n mod 256; n / 256 mod 256; n / 65536 mod 256; n / 16777216 mod 256].

Definition of_le32 (bs : list Z) : Z :=
  match bs with
  | a :: b :: c :: d :: _ => a + 256 * b + 65536 * c + 16777216 * d
  | _ => 0
  end.

Definition encode_inode (d : inode_disk) : list Z :=
  le32 (start d) ++ le32 (u32 (dlength d)) ++ le32 (dmagic d) ++ replicate 500 0.

Definition decode_inode (bs : list Z) : inode_disk :=
  mkInodeDisk (of_le32 bs) (s32 (of_le32 (drop 4 bs))) (of_le32 (drop 8 bs)).

Lemma le32_roundtrip n rest : in_u32 n -> of_le32 (le32 n ++ rest) = n.
Proof.
  unfold in_u32. intros Hn. unfold le32, of_le32. cbn [app].
  pose proof (Z.div_mod n 256 ltac:(lia)).
  pose proof (Z.div_mod (n / 256) 256 ltac:(lia)) as H1. rewrite Z.div_div in H1 by lia.
  change (256 * 256) with 65536 in H1.
  pose proof (Z.div_mod (n / 65536) 256 ltac:(lia)) as H2. rewrite Z.div_div in H2 by lia.
  change (65536 * 256) with 16777216 in H2.
  assert (n / 16777216 mod 256 = n / 16777216) as -> by
    (apply Z.mod_small; split; [apply Z.div_pos; lia|apply Z.div_lt_upper_bound; lia]).
  lia.
Qed.

Lemma u32_s32 z : s32 (u32 z) = s32 z.
Proof.
  unfold s32, u32. f_equal. rewrite <- (Zplus_mod_idemp_l (z mod 4294967296)), Z.mod_mod by lia.
  by rewrite Zplus_mod_idemp_l.
Qed.

(** The on-disk inode survives a write and a read of its sector. *)
Lemma inode_disk_roundtrip d :
  in_u32 (start d) -> in_s32 (dlength d) -> in_u32 (dmagic d) -> decode_inode (encode_inode d) = d.
Proof.
  intros Hs Hl Hm. unfold decode_inode, encode_inode. rewrite le32_roundtrip by done.
  change (drop 4 (le32 (start d) ++ ?x)) with x.
  change (drop 8 (le32 (start d) ++ le32 (u32 (dlength d)) ++ ?x)) with x.
  rewrite !le32_roundtrip; [|done|].
  - rewrite u32_s32, s32_id by done. by destruct d.
  - unfold in_u32, u32. apply Z.mod_pos_bound. lia.
Qed.

(** ** The device as one array of bytes *)

Definition sectors_ok (s : fs) : Prop := Forall (fun b => length b = 512%nat) (disk s).

Definition flat (s : fs) : list Z := concat (disk s).

(** Replace the bytes from position [p] on by [bs]. *)
Definition splice (p : nat) (bs l : list Z) : list Z :=
  take p l ++ bs ++ drop (p + length bs) l.

(** *** Sequences of 512-byte sectors *)

Section sectors.
Context (l : list (list Z)) (Hl : Forall (fun b => length b = 512%nat) l).

Lemma sectors_drop s b o :
  l !! s = Some b -> (o <= 512)%nat ->
  drop (512 * s + o) (concat l) = drop o b ++ drop (512 * S s) (concat l).
Proof.
  revert s. induction Hl as [|x l' Hx Hl' IH]; intros s Hs Ho; [done|]. destruct s as [|s]; simpl in Hs.
  - injection Hs as ->. rewrite Nat.mul_0_r, Nat.add_0_l, Nat.mul_1_r. cbn [concat].
    rewrite drop_app, drop_app, Hx, Nat.sub_diag, drop_0, (drop_ge b 512) by lia.
    by replace (o - 512)%nat with 0%nat by lia.
  - cbn [concat]. rewrite !drop_app, Hx, !(drop_ge x) by lia. rewrite !app_nil_l.
    replace (512 * S s + o - 512)%nat with (512 * s + o)%nat by lia.
    replace (512 * S (S s) - 512)%nat with (512 * S s)%nat by lia. by apply IH.
Qed.

Lemma sectors_length : length (concat l) = (512 * length l)%nat.
Proof.
  clear - Hl. induction l as [|x l' IH]; [done|]. apply Forall_cons in Hl as [Hx Hl'].
  cbn [concat]. rewrite length_app, Hx, IH by done. simpl. lia.
Qed.

Lemma sectors_chunk s b o n :
  l !! s = Some b -> (o + n <= 512)%nat ->
  take n (drop (512 * s + o) (concat l)) = take n (drop o b).
Proof.
  intros Hs Ho. assert (length b = 512%nat) as Hb by (rewrite Forall_forall in Hl; by eapply Hl, list_elem_of_lookup_2).
  rewrite (sectors_drop s b) by (done || lia).
  rewrite take_app_le; [done|]. rewrite length_drop. lia.
Qed.
End sectors.

Lemma splice_length p bs l : (p + length bs <= length l)%nat -> length (splice p bs l) = length l.
Proof. intros H. unfold splice. rewrite !length_app, length_take, length_drop. lia. Qed.

(** Two adjacent replacements are one. *)
Lemma splice_app p b1 b2 l :
  (p + length b1 <= length l)%nat ->
  splice (p + length b1) b2 (splice p b1 l) = splice p (b1 ++ b2) l.
Proof.
  intros H. unfold splice. rewrite length_app.
  assert (length (take p l ++ b1) = p + length b1)%nat as Hp by (rewrite length_app, length_take; lia).
  rewrite (app_assoc (take p l)), take_app_length' by done. rewrite <- !app_assoc. do 3 f_equal.
  rewrite app_assoc, drop_app, (drop_ge (take p l ++ b1)) by lia. rewrite Hp, drop_drop. simpl.
  f_equal. lia.
Qed.

Lemma splice_nil p l : splice p [] l = l.
Proof. unfold splice. simpl. rewrite Nat.add_0_r. apply take_drop. Qed.

(** Writing part of a sector is writing part of the array. *)
Lemma sectors_splice l s b o bs :
  Forall (fun b => length b = 512%nat) l -> l !! s = Some b -> (o + length bs <= 512)%nat ->
  concat (<[s := splice o bs b]> l) = splice (512 * s + o) bs (concat l).
Proof.
  intros Hl Hs Ho. pose proof Hs as Hs'. apply lookup_lt_Some in Hs'.
  assert (length b = 512%nat) as Hb by (rewrite Forall_forall in Hl; by eapply Hl, list_elem_of_lookup_2).
  assert (forall k, length (concat (take k l)) = 512 * Nat.min k (length l))%nat as Hlen.
  { intros k. rewrite sectors_length by (by apply Forall_take). by rewrite length_take. }
  rewrite insert_take_drop by done. rewrite concat_app. cbn [concat].
  assert (concat l = concat (take s l) ++ b ++ concat (drop (S s) l)) as E.
  { rewrite <- (take_drop_middle l s b Hs) at 1. by rewrite concat_app. }
  unfold splice at 2. rewrite E.
  rewrite take_app, drop_app, Hlen, Nat.min_l by lia.
  replace (512 * s + o - 512 * s)%nat with o by lia.
  replace (512 * s + o + length bs - 512 * s)%nat with (o + length bs)%nat by lia.
  rewrite (take_ge (concat (take s l))), (drop_ge (concat (take s l))) by (rewrite Hlen; lia).
  rewrite take_app_le, drop_app_le by lia. unfold splice. by rewrite <- !app_assoc.
Qed.

Lemma sectors_insert_ok l s b :
  Forall (fun b : list Z => length b = 512%nat) l -> length b = 512%nat ->
  Forall (fun b : list Z => length b = 512%nat) (<[s := b]> l).
Proof. intros Hl Hb. by apply Forall_insert. Qed.

End FsState.
