(* ===== verification/Inode.v ===== *)
(** * Inodes: reading and writing (src/src/filesys/inode.c)

    The part of inode.c that does not allocate sectors: the mapping from
    byte offsets to sectors, reading and writing with the bounce buffer, and
    the counters of an open inode.  The theorems relate the sector programs
    to the contents of a file as one sequence of bytes. *)

From S2P Require Import Prelude FsState.
Import FsState.

Module Inode.

Definition INODE_MAGIC : Z := 0x494e4f44.

(** [DIV_ROUND_UP (size, BLOCK_SECTOR_SIZE)] on an [off_t], as a [size_t]. *)
Definition bytes_to_sectors (size : Z) : Z := u32 (Z.quot (s32 (size + 512 - 1)) BLOCK_SECTOR_SIZE).

Definition byte_to_sector (i pos : Z) : M fs Z :=
  ASSERT (negb (i =? NULL)) ;;;
  v <- inod i ;;
  if pos <? dlength (data v)
  then ret (u32 (start (data v) + Z.quot pos BLOCK_SECTOR_SIZE)) else ret (u32 (-1)).

Definition inode_length (i : Z) : M fs Z := v <- inod i ;; ret (dlength (data v)).

Definition inode_get_inumber (i : Z) : M fs Z := v <- inod i ;; ret (sector v).

Definition inode_reopen (i : Z) : M fs Z :=
  if i =? NULL then ret i
  else
    upd_inode i (fun v => mkInode (sector v) (s32 (open_cnt v + 1)) (removed v) (deny_write_cnt v) (data v)) ;;;
    ret i.

Definition inode_remove (i : Z) : M fs unit :=
  ASSERT (negb (i =? NULL)) ;;;
  upd_inode i (fun v => mkInode (sector v) (open_cnt v) true (deny_write_cnt v) (data v)).

(** ** Buffers *)

(** [memcpy (buf + at_, bs, ...)] into an array of known size. *)
Definition put_bytes (buf : list Z) (at_ : Z) (bs : list Z) : M fs (list Z) :=
  if (0 <=? at_) && (at_ + Z.of_nat (length bs) <=? Z.of_nat (length buf))
  then ret (splice (Z.to_nat at_) bs buf) else fail Bad_access.

(** The [n] bytes at [buf + at_]. *)
Definition get_bytes (buf : list Z) (at_ n : Z) : M fs (list Z) :=
  if (0 <=? at_) && (at_ + n <=? Z.of_nat (length buf))
  then ret (take (Z.to_nat n) (drop (Z.to_nat at_) buf)) else fail Bad_access.

(** Allocate the bounce buffer unless it is there; says whether it is. *)
Definition get_bounce (bounce : bool) : M fs bool :=
  if bounce then ret true else p <- malloc ;; ret (negb (p =? NULL)).

(** ** Reading *)

Fixpoint read_loop (fuel : nat) (i : Z) (buffer : list Z) (size offset bytes_read : Z) (bounce : bool)
  : M fs (Z * list Z) :=
  match fuel with
  | O => fail Out_of_fuel
  | S fuel' =>
      if size >? 0 then
        sector_idx <- byte_to_sector i offset ;;
        let sector_ofs := Z.rem offset BLOCK_SECTOR_SIZE in
        len <- inode_length i ;;
        let inode_left := s32 (len - offset) in
        let sector_left := BLOCK_SECTOR_SIZE - sector_ofs in
        let min_left := if inode_left <? sector_left then inode_left else sector_left in
        let chunk_size := if size <? min_left then size else min_left in
        if chunk_size <=? 0 then ret (bytes_read, buffer)
        else if (sector_ofs =? 0) && (chunk_size =? BLOCK_SECTOR_SIZE) then
          b <- block_read sector_idx ;;
          buffer' <- put_bytes buffer bytes_read b ;;
          read_loop fuel' i buffer' (size - chunk_size) (offset + chunk_size)
            (bytes_read + chunk_size) bounce
        else
          ok <- get_bounce bounce ;;
          if negb ok then ret (bytes_read, buffer)
          else
            b <- block_read sector_idx ;;
            bs <- get_bytes b sector_ofs chunk_size ;;
            buffer' <- put_bytes buffer bytes_read bs ;;
            read_loop fuel' i buffer' (size - chunk_size) (offset + chunk_size)
              (bytes_read + chunk_size) true
      else ret (bytes_read, buffer)
  end.

(** The bytes read, and the caller's buffer afterwards. *)
Definition inode_read_at (i : Z) (buffer : list Z) (size offset : Z) : M fs (Z * list Z) :=
  read_loop (S (Z.to_nat size)) i buffer size offset 0 false.

(** ** Writing *)

Fixpoint write_loop (fuel : nat) (i : Z) (buffer : list Z) (size offset bytes_written : Z) (bounce : bool)
  : M fs Z :=
  match fuel with
  | O => fail Out_of_fuel
  | S fuel' =>
      if size >? 0 then
        sector_idx <- byte_to_sector i offset ;;
        let sector_ofs := Z.rem offset BLOCK_SECTOR_SIZE in
        len <- inode_length i ;;
        let inode_left := s32 (len - offset) in
        let sector_left := BLOCK_SECTOR_SIZE - sector_ofs in
        let min_left := if inode_left <? sector_left then inode_left else sector_left in
        let chunk_size := if size <? min_left then size else min_left in
        if chunk_size <=? 0 then ret bytes_written
        else if (sector_ofs =? 0) && (chunk_size =? BLOCK_SECTOR_SIZE) then
          bs <- get_bytes buffer bytes_written BLOCK_SECTOR_SIZE ;;
          block_write sector_idx bs ;;;
          write_loop fuel' i buffer (size - chunk_size) (offset + chunk_size)
            (bytes_written + chunk_size) bounce
        else
          ok <- get_bounce bounce ;;
          if negb ok then ret bytes_written
          else
            b <- (if (sector_ofs >? 0) || (chunk_size <? sector_left)
                  then block_read sector_idx else ret (replicate 512 0)) ;;
            bs <- get_bytes buffer bytes_written chunk_size ;;
            b' <- put_bytes b sector_ofs bs ;;
            block_write sector_idx b' ;;;
            write_loop fuel' i buffer (size - chunk_size) (offset + chunk_size)
              (bytes_written + chunk_size) true
      else ret bytes_written
  end.

Definition inode_write_at (i : Z) (buffer : list Z) (size offset : Z) : M fs Z :=
  v <- inod i ;;
  if negb (deny_write_cnt v =? 0) then ret 0
  else write_loop (S (Z.to_nat size)) i buffer size offset 0 false.

(** ** Denying writes *)

Definition set_deny (n : Z) (v : inode) : inode :=
  mkInode (sector v) (open_cnt v) (removed v) n (data v).

Definition inode_deny_write (i : Z) : M fs unit :=
  upd_inode i (fun v => set_deny (s32 (deny_write_cnt v + 1)) v) ;;;
  v <- inod i ;; ASSERT (deny_write_cnt v <=? open_cnt v).

Definition inode_allow_write (i : Z) : M fs unit :=
  v <- inod i ;;
  ASSERT (deny_write_cnt v >? 0) ;;;
  ASSERT (deny_write_cnt v <=? open_cnt v) ;;;
  upd_inode i (fun v => set_deny (deny_write_cnt v - 1) v).

(** ** What reading and writing leave alone *)

(** Everything but the device and the statistics. *)
Definition rest (s : fs) :=
  (inodes s, open_inodes s, files s, dirs s, free_map s, free_map_file s).

(** No allocation fails from now on. *)
Definition mem_ok (s : fs) : Prop := forall n, mem s n = true.

Record same_but_disk (s s' : fs) : Prop := {
  sbd_rest : rest s' = rest s;
  sbd_size : length (disk s') = length (disk s);
  sbd_sectors : sectors_ok s -> sectors_ok s';
  sbd_mem : mem_ok s -> mem_ok s';
  sbd_brk : brk s <= brk s'
}.

(** A step that does not write. *)
Definition quiet (s s' : fs) : Prop := same_but_disk s s' /\ disk s' = disk s.

#[export] Instance same_but_disk_preorder : PreOrder same_but_disk.
Proof.
  split; [by split|]. intros a b c [] []. split; try (congruence || lia || by auto).
Qed.

#[export] Instance quiet_preorder : PreOrder quiet.
Proof.
  split; [by split|]. intros a b c [H1 E1] [H2 E2]. split; [by etrans|congruence].
Qed.

Lemma sbd_inodes s s' : same_but_disk s s' -> inodes s' = inodes s.
Proof. intros [E _ _ _ _]. unfold rest in E. congruence. Qed.

(** ** The sectors of a file *)

Definition sectors_of (len : Z) : Z := (len + 511) / 512.

(** The data of a file lie on the device. *)
Record data_ok (s : fs) (d : inode_disk) : Prop := {
  do_length : 0 <= dlength d < 2147483136;
  do_start : 0 <= start d;
  do_fits : start d + sectors_of (dlength d) <= Z.of_nat (length (disk s));
  do_device : Z.of_nat (length (disk s)) <= 4294967295
}.

(** The contents of a file, from its first byte on. *)
Definition first_byte (d : inode_disk) : nat := (512 * Z.to_nat (start d))%nat.

Definition contents (s : fs) (d : inode_disk) : list Z :=
  take (Z.to_nat (dlength d)) (drop (first_byte d) (flat s)).

Lemma bytes_to_sectors_eq len : 0 <= len < 2147483136 -> bytes_to_sectors len = sectors_of len.
Proof.
  intros H. unfold bytes_to_sectors, sectors_of, BLOCK_SECTOR_SIZE.
  rewrite s32_id by lia. rewrite Z.quot_div_nonneg by lia.
  replace (len + 512 - 1) with (len + 511) by lia.
  apply u32_id. split; [apply Z.div_pos; lia|]. apply Z.div_lt_upper_bound; lia.
Qed.

Lemma data_ok_sbd s s' d : same_but_disk s s' -> data_ok s d -> data_ok s' d.
Proof. intros [_ E _ _ _] []. by constructor; rewrite ?E. Qed.

(** The sector and the place in it of the byte at [offset]. *)
Lemma offset_sector s d offset :
  data_ok s d -> sectors_ok s -> 0 <= offset < dlength d ->
  exists b, 0 <= start d + offset / 512 < Z.of_nat (length (disk s)) /\
    disk s !! Z.to_nat (start d + offset / 512) = Some b /\ length b = 512%nat /\
    (512 * Z.to_nat (start d + offset / 512) + Z.to_nat (offset mod 512)
      = first_byte d + Z.to_nat offset)%nat.
Proof.
  intros [H1 H2 H3 H4] Hok Ho. unfold sectors_of in H3.
  assert (offset / 512 < (dlength d + 511) / 512).
  { apply Z.div_lt_upper_bound; [lia|]. pose proof (Z.div_mod (dlength d + 511) 512 ltac:(lia)).
    pose proof (Z.mod_pos_bound (dlength d + 511) 512 ltac:(lia)). lia. }
  pose proof (Z.div_pos offset 512 ltac:(lia) ltac:(lia)).
  pose proof (Z.div_mod offset 512 ltac:(lia)). pose proof (Z.mod_pos_bound offset 512 ltac:(lia)).
  destruct (lookup_lt_is_Some_2 (disk s) (Z.to_nat (start d + offset / 512))) as [b Hb]; [lia|].
  exists b. split; [lia|]. split; [done|]. split; [|unfold first_byte; lia].
  unfold sectors_ok in Hok. rewrite Forall_forall in Hok. by eapply Hok, list_elem_of_lookup_2.
Qed.

Lemma inod_run i v s : inodes s !! i = Some v -> i <> NULL -> inod i s = Ok (v, s).
Proof. intros H Hn. unfold inod, gets_opt. by rewrite (proj2 (Z.eqb_neq _ _) Hn), H. Qed.

Lemma byte_to_sector_run i v s offset :
  inodes s !! i = Some v -> i <> NULL -> data_ok s (data v) -> 0 <= offset < dlength (data v) ->
  byte_to_sector i offset s = Ok (start (data v) + offset / 512, s).
Proof.
  intros Hi Hn [H1 H2 H3 H4] Ho. unfold byte_to_sector. rewrite (proj2 (Z.eqb_neq _ _) Hn).
  cbn [negb]. mnorm. mrun (inod_run _ _ _ Hi Hn). rewrite (proj2 (Z.ltb_lt _ _)) by lia.
  unfold BLOCK_SECTOR_SIZE. rewrite Z.quot_div_nonneg by lia. rewrite u32_id; [done|].
  pose proof (Z.div_pos offset 512 ltac:(lia) ltac:(lia)). unfold sectors_of in H3.
  assert (offset / 512 <= (dlength (data v) + 511) / 512) by (apply Z.div_le_mono; lia). lia.
Qed.

Lemma block_read_run s sec b :
  0 <= sec < Z.of_nat (length (disk s)) -> disk s !! Z.to_nat sec = Some b ->
  exists s', block_read sec s = Ok (b, s') /\ quiet s s' /\ forall n, mem s' n = mem s n.
Proof.
  intros Hs Hb. unfold block_read, check_sector, block_size. mnorm.
  rewrite Z.geb_leb, (proj2 (Z.leb_gt _ _)) by lia. mnorm.
  unfold bind at 1, gets_opt. rewrite Hb. mnorm. eexists. split; [done|]. by split.
Qed.

Lemma block_write_run s sec b :
  0 <= sec < Z.of_nat (length (disk s)) -> length b = 512%nat ->
  exists s', block_write sec b s = Ok (tt, s') /\ same_but_disk s s' /\
    (forall n, mem s' n = mem s n) /\ disk s' = <[Z.to_nat sec := b]> (disk s).
Proof.
  intros Hs Hb. unfold block_write, check_sector, block_size. mnorm.
  rewrite Z.geb_leb, (proj2 (Z.leb_gt _ _)) by lia. mnorm.
  eexists. split; [done|]. split; [|done]. split; cbn; try done.
  - by rewrite length_insert.
  - intros Hok. by apply sectors_insert_ok.
Qed.

Lemma malloc_run s :
  exists p s', malloc s = Ok (p, s') /\ quiet s s' /\
    (forall n, mem s' n = mem s (S n)) /\ (mem s 0%nat = true -> p = brk s).
Proof.
  unfold malloc. mnorm. unfold bind, put, ret. eexists _, _. split; [done|].
  split; [split; [split|]; cbn; try done|].
  - intros H n. apply H.
  - lia.
  - split; [done|]. by intros ->.
Qed.

(** The bounce buffer is there, or can be allocated. *)
Definition bounce_ok (bounce : bool) (s : fs) : Prop := bounce = true \/ (mem s 0%nat = true /\ brk s > 0).

Lemma get_bounce_run bounce s :
  exists ok s', get_bounce bounce s = Ok (ok, s') /\ quiet s s' /\ (bounce_ok bounce s -> ok = true).
Proof.
  unfold get_bounce. destruct bounce; [exists true, s; by split|].
  destruct (malloc_run s) as (p & s' & Hr & Hq & _ & Hp). mrun Hr.
  exists (negb (p =? NULL)), s'. split; [done|]. split; [done|].
  intros [?|[Hm Hb]]; [done|]. rewrite (Hp Hm), (proj2 (Z.eqb_neq _ _)); [done|]. unfold NULL. lia.
Qed.

(** ** The loops *)

Definition chunk (d : inode_disk) (size offset : Z) : Z :=
  Z.min size (Z.min (dlength d - offset) (512 - offset mod 512)).

(** The number of bytes that there are to transfer. *)
Definition available (d : inode_disk) (size offset : Z) : Z :=
  Z.min size (Z.max 0 (dlength d - offset)).

Lemma byte_to_sector_total i v s offset :
  inodes s !! i = Some v -> i <> NULL -> data_ok s (data v) -> 0 <= offset ->
  exists idx, byte_to_sector i offset s = Ok (idx, s) /\
    (offset < dlength (data v) -> idx = start (data v) + offset / 512).
Proof.
  intros Hi Hn Hd Ho. destruct (Z.lt_ge_cases offset (dlength (data v))) as [Hlt|Hge].
  - exists (start (data v) + offset / 512). split; [by apply byte_to_sector_run|done].
  - exists (u32 (-1)). split; [|lia]. unfold byte_to_sector. rewrite (proj2 (Z.eqb_neq _ _) Hn).
    cbn [negb]. mnorm. mrun (inod_run _ _ _ Hi Hn). by rewrite (proj2 (Z.ltb_ge _ _)) by lia.
Qed.

Lemma inode_length_run i v s :
  inodes s !! i = Some v -> i <> NULL -> inode_length i s = Ok (dlength (data v), s).
Proof. intros Hi Hn. unfold inode_length. by mrun (inod_run _ _ _ Hi Hn). Qed.

Lemma put_bytes_run s buf p bs :
  0 <= p -> p + Z.of_nat (length bs) <= Z.of_nat (length buf) ->
  put_bytes buf p bs s = Ok (splice (Z.to_nat p) bs buf, s).
Proof. intros H1 H2. unfold put_bytes. by rewrite !(proj2 (Z.leb_le _ _)) by lia. Qed.

Lemma get_bytes_run s buf p n :
  0 <= p -> p + n <= Z.of_nat (length buf) ->
  get_bytes buf p n s = Ok (take (Z.to_nat n) (drop (Z.to_nat p) buf), s).
Proof. intros H1 H2. unfold get_bytes. by rewrite !(proj2 (Z.leb_le _ _)) by lia. Qed.

(** The size of the next chunk, as the loops compute it. *)
Lemma chunk_computed d size offset :
  0 <= offset < 2147483648 -> 0 <= dlength d < 2147483136 ->
  (let inode_left := s32 (dlength d - offset) in
   let sector_left := BLOCK_SECTOR_SIZE - Z.rem offset BLOCK_SECTOR_SIZE in
   let min_left := if inode_left <? sector_left then inode_left else sector_left in
   if size <? min_left then size else min_left) = chunk d size offset.
Proof.
  intros Ho Hl. cbv zeta. unfold BLOCK_SECTOR_SIZE, chunk. rewrite s32_id, Z.rem_mod_nonneg by lia.
  destruct (Z.ltb_spec (dlength d - offset) (512 - offset mod 512)).
  - destruct (Z.ltb_spec size (dlength d - offset)); lia.
  - destruct (Z.ltb_spec size (512 - offset mod 512)); lia.
Qed.

(** One more chunk of a copy: [f] bytes from [q] on, to [p]. *)
Lemma copy_more src buf p q c k :
  (q + c + k <= length src)%nat -> (p + c + k <= length buf)%nat ->
  splice (p + c) (take k (drop (q + c) src)) (splice p (take c (drop q src)) buf)
  = splice p (take (c + k) (drop q src)) buf.
Proof.
  intros H1 H2. assert (length (take c (drop q src)) = c) as Hc by (rewrite length_take, length_drop; lia).
  rewrite <- Hc at 1. rewrite splice_app by lia. f_equal. rewrite <- (take_take_drop (drop q src) c k).
  by rewrite drop_drop.
Qed.

(** The state in which [inode_read_at] and [inode_write_at] run. *)
Definition opened (s : fs) (i : Z) (v : inode) : Prop :=
  inodes s !! i = Some v /\ i <> NULL /\ data_ok s (data v) /\ sectors_ok s /\ brk s > 0.

Lemma opened_sbd s s' i v : same_but_disk s s' -> opened s i v -> opened s' i v.
Proof.
  intros Hs (H1 & H2 & H3 & H4 & H5). pose proof (sbd_brk _ _ Hs).
  split; [by rewrite (sbd_inodes _ _ Hs)|]. split; [done|]. split; [by eapply data_ok_sbd|].
  split; [by apply (sbd_sectors _ _ Hs)|lia].
Qed.

Lemma flat_enough s i v : opened s i v ->
  (first_byte (data v) + Z.to_nat (dlength (data v)) <= length (flat s))%nat.
Proof.
  intros (_ & _ & [H1 H2 H3 H4] & Hok & _). unfold flat. rewrite sectors_length by done.
  unfold first_byte, sectors_of in *. pose proof (Z.div_mod (dlength (data v) + 511) 512 ltac:(lia)).
  pose proof (Z.mod_pos_bound (dlength (data v) + 511) 512 ltac:(lia)). lia.
Qed.

(** One round of the reading loop: the sector of the chunk is read, and the
    chunk is in place in the buffer. *)
Lemma read_chunk s i v buffer size offset done_ b c :
  opened s i v -> 0 <= offset < dlength (data v) -> c = chunk (data v) size offset -> 0 < c ->
  0 <= done_ -> done_ + c <= Z.of_nat (length buffer) ->
  disk s !! Z.to_nat (start (data v) + offset / 512) = Some b -> length b = 512%nat ->
  put_bytes buffer done_ (take (Z.to_nat c) (drop (Z.to_nat (offset mod 512)) b)) s
  = Ok (splice (Z.to_nat done_) (take (Z.to_nat c) (drop (first_byte (data v) + Z.to_nat offset) (flat s))) buffer, s).
Proof.
  intros (_ & _ & Hd & Hok & _) Ho Hc Hc0 H1 H2 Hb Hlb. unfold chunk in Hc.
  pose proof (Z.mod_pos_bound offset 512 ltac:(lia)).
  destruct (offset_sector s (data v) offset Hd Hok Ho) as (b' & Hr & Hb' & _ & <-).
  rewrite Hb in Hb'. injection Hb' as <-. unfold flat. rewrite (sectors_chunk (disk s) Hok _ b) by (done || lia).
  rewrite put_bytes_run; [done|done|]. rewrite length_take, length_drop. lia.
Qed.

Lemma read_loop_ok fuel s i v buffer size offset done_ bounce :
  opened s i v -> 0 <= offset < 2147483648 -> 0 <= size -> (Z.to_nat size < fuel)%nat ->
  0 <= done_ -> done_ + size <= Z.of_nat (length buffer) ->
  exists k s', 0 <= k <= available (data v) size offset /\ quiet s s' /\
    (bounce_ok bounce s -> k = available (data v) size offset) /\
    read_loop fuel i buffer size offset done_ bounce s
    = Ok ((done_ + k, splice (Z.to_nat done_)
             (take (Z.to_nat k) (drop (first_byte (data v) + Z.to_nat offset) (flat s))) buffer), s').
Proof.
  revert s buffer size offset done_ bounce.
  induction fuel as [|fuel IH]; intros s buffer size offset done_ bounce Ho Hoff Hs Hf Hd Hb; [lia|].
  destruct Ho as (Hi & Hn & Hdo & Hok & Hbrk). pose proof (do_length _ _ Hdo) as Hlen.
  assert (opened s i v) as Hop by done. cbn [read_loop]. unfold available. rewrite Z.gtb_ltb.
  destruct (Z.ltb_spec 0 size) as [Hpos|Hz].
  2:{ exists 0, s. rewrite splice_nil, Z.add_0_r. split; [lia|]. split; [done|]. split; [lia|done]. }
  destruct (byte_to_sector_total i v s offset) as (idx & Hidx & Hix); [done..|lia|].
  mrun Hidx. mrun (inode_length_run i v s Hi Hn). rewrite chunk_computed by done.
  set (c := chunk (data v) size offset).
  assert (c = Z.min size (Z.min (dlength (data v) - offset) (512 - offset mod 512))) as Hc by done.
  pose proof (Z.mod_pos_bound offset 512 ltac:(lia)).
  destruct (Z.leb_spec c 0) as [Hc0|Hc0].
  { exists 0, s. rewrite splice_nil, Z.add_0_r. split; [lia|]. split; [done|]. split; [lia|done]. }
  assert (offset < dlength (data v)) as Hlt by lia. rewrite (Hix Hlt) in *.
  destruct (offset_sector s (data v) offset Hdo Hok ltac:(lia)) as (b & Hin & Hdb & Hlb & _).
  assert (forall s1 bounce1, quiet s s1 -> (bounce_ok bounce s -> bounce_ok bounce1 s1) ->
    exists k s', 0 <= k <= Z.min size (Z.max 0 (dlength (data v) - offset)) /\ quiet s s' /\
      (bounce_ok bounce s -> k = Z.min size (Z.max 0 (dlength (data v) - offset))) /\
      read_loop fuel i (splice (Z.to_nat done_)
        (take (Z.to_nat c) (drop (first_byte (data v) + Z.to_nat offset) (flat s))) buffer)
        (size - c) (offset + c) (done_ + c) bounce1 s1
      = Ok ((done_ + k, splice (Z.to_nat done_)
          (take (Z.to_nat k) (drop (first_byte (data v) + Z.to_nat offset) (flat s))) buffer), s')) as Hgo.
  { intros s1 bounce1 [Hq Hdisk] Hbo. pose proof (flat_enough s i v Hop) as Hfl.
    destruct (IH s1 (splice (Z.to_nat done_)
        (take (Z.to_nat c) (drop (first_byte (data v) + Z.to_nat offset) (flat s))) buffer)
        (size - c) (offset + c) (done_ + c) bounce1) as (k & s' & Hk & Hq' & Hall & Hr);
      [by eapply opened_sbd|lia|lia|lia|lia| |].
    { rewrite splice_length; [lia|]. rewrite length_take, length_drop. lia. }
    unfold available in Hk, Hall. exists (c + k), s'. split; [lia|]. split; [by transitivity s1|].
    split; [intros Hbk; rewrite (Hall (Hbo Hbk)); lia|]. rewrite Hr.
    assert (flat s1 = flat s) as -> by (unfold flat; by rewrite Hdisk).
    replace (Z.to_nat (offset + c)) with (Z.to_nat offset + Z.to_nat c)%nat by lia.
    replace (Z.to_nat (done_ + c)) with (Z.to_nat done_ + Z.to_nat c)%nat by lia.
    replace (Z.to_nat (c + k)) with (Z.to_nat c + Z.to_nat k)%nat by lia.
    rewrite Nat.add_assoc, copy_more by lia. do 2 f_equal. f_equal. lia. }
  rewrite Z.rem_mod_nonneg by (unfold BLOCK_SECTOR_SIZE; lia). unfold BLOCK_SECTOR_SIZE.
  destruct (block_read_run s _ b Hin Hdb) as (s1 & Hr1 & Hq1 & Hm1).
  destruct ((offset mod 512 =? 0) && (c =? 512)) eqn:Hfull.
  - apply andb_prop in Hfull as [E1%Z.eqb_eq E2%Z.eqb_eq]. mrun Hr1.
    pose proof (read_chunk s1 i v buffer size offset done_ b c) as Hput.
    replace (take (Z.to_nat c) (drop (Z.to_nat (offset mod 512)) b)) with b in Hput.
    2:{ rewrite E1, E2, drop_0, take_ge; [done|]. rewrite Hlb. done. }
    rewrite (proj2 Hq1) in Hput. assert (flat s1 = flat s) as Hfs by (unfold flat; by rewrite (proj2 Hq1)).
    rewrite Hfs in Hput. mrun (Hput (opened_sbd _ _ _ _ (proj1 Hq1) Hop) ltac:(lia) eq_refl Hc0 Hd ltac:(lia) Hdb Hlb).
    apply Hgo; [done|]. intros [?|[Hm Hp]]; [by left|]. right. rewrite Hm1. split; [done|].
    pose proof (sbd_brk _ _ (proj1 Hq1)). lia.
  - destruct (get_bounce_run bounce s) as (ok & s2 & Hr2 & Hq2 & Hok2). mrun Hr2.
    destruct ok; cbn [negb].
    2:{ exists 0, s2. rewrite splice_nil, Z.add_0_r. split; [lia|]. split; [done|]. split; [|done].
        intros Hbk. by specialize (Hok2 Hbk). }
    destruct (block_read_run s2 (start (data v) + offset / 512) b) as (s3 & Hr3 & Hq3 & _);
      [by rewrite (proj2 Hq2)|by rewrite (proj2 Hq2)|].
    mrun Hr3. assert (quiet s s3) as Hq by (by etrans).
    mrun (get_bytes_run s3 b (offset mod 512) c ltac:(lia) ltac:(lia)).
    assert (flat s3 = flat s) as Hfs by (unfold flat; by rewrite (proj2 Hq)). rewrite <- Hfs in Hgo |- *.
    mrun (read_chunk s3 i v buffer size offset done_ b c (opened_sbd _ _ _ _ (proj1 Hq) Hop) ltac:(lia)
      eq_refl Hc0 Hd ltac:(lia) ltac:(by rewrite (proj2 Hq)) Hlb).
    apply Hgo; [done|]. by left.
Qed.

(** One round of the writing loop: a block that agrees with the sector but
    for the chunk is written. *)
Lemma write_chunk s i v offset b bs :
  opened s i v -> 0 <= offset < dlength (data v) ->
  disk s !! Z.to_nat (start (data v) + offset / 512) = Some b -> length b = 512%nat ->
  offset mod 512 + Z.of_nat (length bs) <= 512 ->
  exists s', block_write (start (data v) + offset / 512) (splice (Z.to_nat (offset mod 512)) bs b) s = Ok (tt, s') /\
    same_but_disk s s' /\ (forall n, mem s' n = mem s n) /\
    flat s' = splice (first_byte (data v) + Z.to_nat offset) bs (flat s).
Proof.
  intros (_ & _ & Hd & Hok & _) Ho Hb Hlb Hlen. pose proof (Z.mod_pos_bound offset 512 ltac:(lia)).
  destruct (offset_sector s (data v) offset Hd Hok Ho) as (b' & Hr & Hb' & _ & <-).
  destruct (block_write_run s _ (splice (Z.to_nat (offset mod 512)) bs b) Hr) as (s' & Hw & Hs & Hm & Hds);
    [by rewrite splice_length by lia|].
  exists s'. do 3 (split; [done|]). unfold flat. rewrite Hds. apply sectors_splice; [done|done|lia].
Qed.

Lemma write_loop_ok fuel s i v buffer size offset done_ bounce :
  opened s i v -> 0 <= offset < 2147483648 -> 0 <= size -> (Z.to_nat size < fuel)%nat ->
  0 <= done_ -> done_ + size <= Z.of_nat (length buffer) ->
  exists k s', 0 <= k <= available (data v) size offset /\ same_but_disk s s' /\
    (bounce_ok bounce s -> k = available (data v) size offset) /\
    flat s' = splice (first_byte (data v) + Z.to_nat offset)
                (take (Z.to_nat k) (drop (Z.to_nat done_) buffer)) (flat s) /\
    write_loop fuel i buffer size offset done_ bounce s = Ok (done_ + k, s').
Proof.
  revert s size offset done_ bounce.
  induction fuel as [|fuel IH]; intros s size offset done_ bounce Hop Hoff Hs Hf Hd Hb; [lia|].
  pose proof Hop as (Hi & Hn & Hdo & Hok & Hbrk). pose proof (do_length _ _ Hdo) as Hlen.
  cbn [write_loop]. unfold available. rewrite Z.gtb_ltb.
  destruct (Z.ltb_spec 0 size) as [Hpos|Hz].
  2:{ exists 0, s. rewrite splice_nil, Z.add_0_r. split; [lia|]. split; [done|]. split; [lia|done]. }
  destruct (byte_to_sector_total i v s offset) as (idx & Hidx & Hix); [done..|lia|].
  mrun Hidx. mrun (inode_length_run i v s Hi Hn). rewrite chunk_computed by done.
  set (c := chunk (data v) size offset).
  assert (c = Z.min size (Z.min (dlength (data v) - offset) (512 - offset mod 512))) as Hc by done.
  pose proof (Z.mod_pos_bound offset 512 ltac:(lia)).
  destruct (Z.leb_spec c 0) as [Hc0|Hc0].
  { exists 0, s. rewrite splice_nil, Z.add_0_r. split; [lia|]. split; [done|]. split; [lia|done]. }
  assert (offset < dlength (data v)) as Hlt by lia. rewrite (Hix Hlt) in *.
  destruct (offset_sector s (data v) offset Hdo Hok ltac:(lia)) as (b & Hin & Hdb & Hlb & _).
  assert (forall s1 bounce1, same_but_disk s s1 -> (bounce_ok bounce s -> bounce_ok bounce1 s1) ->
    flat s1 = splice (first_byte (data v) + Z.to_nat offset)
      (take (Z.to_nat c) (drop (Z.to_nat done_) buffer)) (flat s) ->
    exists k s', 0 <= k <= Z.min size (Z.max 0 (dlength (data v) - offset)) /\ same_but_disk s s' /\
      (bounce_ok bounce s -> k = Z.min size (Z.max 0 (dlength (data v) - offset))) /\
      flat s' = splice (first_byte (data v) + Z.to_nat offset)
                (take (Z.to_nat k) (drop (Z.to_nat done_) buffer)) (flat s) /\
      write_loop fuel i buffer (size - c) (offset + c) (done_ + c) bounce1 s1 = Ok (done_ + k, s')) as Hgo.
  { intros s1 bounce1 Hq Hbo Hfl1. pose proof (flat_enough s i v Hop) as Hfl.
    destruct (IH s1 (size - c) (offset + c) (done_ + c) bounce1) as (k & s' & Hk & Hq' & Hall & Hfl' & Hr);
      [by eapply opened_sbd|lia|lia|lia|lia|lia|].
    unfold available in Hk, Hall. exists (c + k), s'. split; [lia|]. split; [by transitivity s1|].
    split; [intros Hbk; rewrite (Hall (Hbo Hbk)); lia|]. split; [|rewrite Hr; do 2 f_equal; lia].
    rewrite Hfl', Hfl1.
    replace (Z.to_nat (offset + c)) with (Z.to_nat offset + Z.to_nat c)%nat by lia.
    replace (Z.to_nat (done_ + c)) with (Z.to_nat done_ + Z.to_nat c)%nat by lia.
    replace (Z.to_nat (c + k)) with (Z.to_nat c + Z.to_nat k)%nat by lia.
    rewrite Nat.add_assoc. apply copy_more; lia. }
  rewrite Z.rem_mod_nonneg by (unfold BLOCK_SECTOR_SIZE; lia). unfold BLOCK_SECTOR_SIZE.
  assert (length (take (Z.to_nat c) (drop (Z.to_nat done_) buffer)) = Z.to_nat c) as Hlc
    by (rewrite length_take, length_drop; lia).
  destruct ((offset mod 512 =? 0) && (c =? 512)) eqn:Hfull.
  - apply andb_prop in Hfull as [E1%Z.eqb_eq E2%Z.eqb_eq].
    mrun (get_bytes_run s buffer done_ 512 ltac:(lia) ltac:(lia)).
    destruct (write_chunk s i v offset b (take (Z.to_nat c) (drop (Z.to_nat done_) buffer)))
      as (s1 & Hw & Hs1 & Hm1 & Hf1); [done|lia|done|done|lia|].
    rewrite E1 in Hw. unfold splice at 1 in Hw.
    rewrite Hlc, (drop_ge b), app_nil_r, E2 in Hw by lia. mrun Hw.
    apply Hgo; [done| |done]. intros [?|[Hm Hp]]; [by left|]. right. rewrite Hm1. split; [done|].
    pose proof (sbd_brk _ _ Hs1). lia.
  - destruct (get_bounce_run bounce s) as (ok & s2 & Hr2 & Hq2 & Hok2). mrun Hr2.
    destruct ok; cbn [negb].
    2:{ exists 0, s2. rewrite splice_nil, Z.add_0_r. split; [lia|]. split; [apply Hq2|].
        split; [intros Hbk; by specialize (Hok2 Hbk)|]. split; [|done]. unfold flat. by rewrite (proj2 Hq2). }
    assert ((offset mod 512 >? 0) || (c <? 512 - offset mod 512) = true) as ->.
    { rewrite Z.gtb_ltb. destruct (Z.ltb_spec 0 (offset mod 512)); [done|]. simpl. apply Z.ltb_lt.
      destruct (Z.eqb_spec (offset mod 512) 0); [|lia]. simpl in Hfull. apply Z.eqb_neq in Hfull. lia. }
    destruct (block_read_run s2 (start (data v) + offset / 512) b) as (s3 & Hr3 & Hq3 & _);
      [by rewrite (proj2 Hq2)|by rewrite (proj2 Hq2)|].
    mrun Hr3. assert (quiet s s3) as Hq by (by transitivity s2).
    mrun (get_bytes_run s3 buffer done_ c ltac:(lia) ltac:(lia)).
    mrun (put_bytes_run s3 b (offset mod 512) (take (Z.to_nat c) (drop (Z.to_nat done_) buffer))
      ltac:(lia) ltac:(lia)).
    destruct (write_chunk s3 i v offset b (take (Z.to_nat c) (drop (Z.to_nat done_) buffer)))
      as (s4 & Hw & Hs4 & Hm4 & Hf4);
      [eapply opened_sbd; [apply Hq|done]|lia|by rewrite (proj2 Hq)|done|lia|].
    mrun Hw. apply Hgo; [transitivity s3; [apply Hq|done]|by left|].
    rewrite Hf4. unfold flat. by rewrite (proj2 Hq).
Qed.

(** ** Reading and writing as operations on contents *)

Lemma contents_length s i v : opened s i v -> length (contents s (data v)) = Z.to_nat (dlength (data v)).
Proof.
  intros Ho. pose proof (flat_enough s i v Ho). unfold contents.
  rewrite length_take, length_drop. lia.
Qed.

Lemma contents_slice s d offset k :
  0 <= offset -> offset + k <= dlength d ->
  take (Z.to_nat k) (drop (Z.to_nat offset) (contents s d))
  = take (Z.to_nat k) (drop (first_byte d + Z.to_nat offset) (flat s)).
Proof.
  intros Ho Hk. unfold contents.
  rewrite skipn_firstn_comm, take_take, drop_drop. f_equal. lia.
Qed.

Lemma inode_read_at_ok s i v buffer size offset :
  opened s i v -> 0 <= offset < 2147483648 -> 0 <= size <= Z.of_nat (length buffer) ->
  exists k s', inode_read_at i buffer size offset s
    = Ok ((k, take (Z.to_nat k) (drop (Z.to_nat offset) (contents s (data v)))
              ++ drop (Z.to_nat k) buffer), s') /\
    0 <= k <= available (data v) size offset /\ quiet s s' /\
    (mem_ok s -> k = available (data v) size offset).
Proof.
  intros Hop Ho Hs.
  destruct (read_loop_ok (S (Z.to_nat size)) s i v buffer size offset 0 false) as (k & s' & Hk & Hq & Hall & Hr);
    [done|done|lia|lia|lia|lia|].
  exists k, s'. unfold inode_read_at. rewrite Hr. split; [|split; [done|split; [done|]]].
  - do 3 f_equal. unfold available in Hk. destruct (decide (k = 0)) as [->|Hk0]; [done|].
    rewrite contents_slice by lia. unfold splice. simpl. do 2 f_equal.
    pose proof (flat_enough s i v Hop). rewrite length_take, length_drop. lia.
  - intros Hm. apply Hall. right. split; [apply Hm|apply Hop].
Qed.

(** Two files with no sector in common. *)
Definition disjoint_data (d d' : inode_disk) : Prop :=
  start d + sectors_of (dlength d) <= start d' \/ start d' + sectors_of (dlength d') <= start d.

Lemma take_splice_below p bs l n : (n <= p)%nat -> (p <= length l)%nat -> take n (splice p bs l) = take n l.
Proof.
  intros Hn Hp. unfold splice. rewrite take_app_le by (rewrite length_take; lia).
  rewrite take_take. f_equal. lia.
Qed.

Lemma drop_splice_above p bs l n :
  (p + length bs <= n)%nat -> (p + length bs <= length l)%nat -> drop n (splice p bs l) = drop n l.
Proof.
  intros Hn Hl. unfold splice. rewrite app_assoc, drop_app.
  rewrite length_app, length_take, (drop_ge (take p l ++ bs)) by (rewrite length_app, length_take; lia).
  simpl. rewrite drop_drop. f_equal. lia.
Qed.

Lemma splice_app_l p q bs l :
  (p + q + length bs <= length l)%nat -> drop p (splice (p + q) bs l) = splice q bs (drop p l).
Proof.
  intros H. unfold splice. rewrite drop_app_le by (rewrite length_take; lia).
  rewrite skipn_firstn_comm, drop_drop. f_equal; [f_equal; lia|]. do 2 f_equal. lia.
Qed.

Lemma take_splice p bs l n :
  (p + length bs <= n)%nat -> (n <= length l)%nat -> take n (splice p bs l) = splice p bs (take n l).
Proof.
  intros Hn Hl. unfold splice. rewrite take_app, length_take, take_take, (take_take l p n).
  replace (Nat.min n p) with p by lia. replace (Nat.min p n) with p by lia. f_equal.
  rewrite take_app. rewrite (take_ge bs) by lia. f_equal.
  rewrite skipn_firstn_comm. f_equal. lia.
Qed.

(** The bytes of the device that are not the file's. *)
Lemma contents_frame s s' d d' offset bs :
  data_ok s d -> sectors_ok s -> 0 <= offset -> offset + Z.of_nat (length bs) <= dlength d ->
  flat s' = splice (first_byte d + Z.to_nat offset) bs (flat s) ->
  0 <= dlength d' -> 0 <= start d' -> disjoint_data d d' -> contents s' d' = contents s d'.
Proof.
  intros [H1 H2 H3 H4] Hok Ho Hb Hf Hd' Hs' Hdis. unfold contents. rewrite Hf.
  assert (length (flat s) = (512 * length (disk s))%nat) as Hlen by (by apply sectors_length).
  unfold disjoint_data, sectors_of, first_byte in *.
  pose proof (Z.div_mod (dlength d + 511) 512 ltac:(lia)).
  pose proof (Z.mod_pos_bound (dlength d + 511) 512 ltac:(lia)).
  pose proof (Z.div_mod (dlength d' + 511) 512 ltac:(lia)).
  pose proof (Z.mod_pos_bound (dlength d' + 511) 512 ltac:(lia)).
  destruct Hdis as [Hdis|Hdis].
  - rewrite drop_splice_above; [done|lia|lia].
  - rewrite !firstn_skipn_comm. f_equal. apply take_splice_below; lia.
Qed.

Lemma inode_write_at_ok s i v buffer size offset :
  opened s i v -> deny_write_cnt v = 0 -> 0 <= offset < 2147483648 ->
  0 <= size <= Z.of_nat (length buffer) ->
  exists k s', inode_write_at i buffer size offset s = Ok (k, s') /\
    0 <= k <= available (data v) size offset /\ same_but_disk s s' /\
    (mem_ok s -> k = available (data v) size offset) /\
    contents s' (data v) = splice (Z.to_nat offset) (take (Z.to_nat k) buffer) (contents s (data v)) /\
    (forall d', 0 <= dlength d' -> 0 <= start d' ->
       (0 < dlength (data v) -> 0 < dlength d' -> disjoint_data (data v) d') ->
       contents s' d' = contents s d').
Proof.
  intros Hop Hd Ho Hs. pose proof Hop as (Hi & Hn & Hdo & Hok & Hbrk).
  destruct (write_loop_ok (S (Z.to_nat size)) s i v buffer size offset 0 false)
    as (k & s' & Hk & Hq & Hall & Hf & Hr); [done|done|lia|lia|lia|lia|].
  exists k, s'. unfold inode_write_at. mrun (inod_run _ _ _ Hi Hn). rewrite Hd. cbn [negb Z.eqb].
  split; [done|]. split; [done|]. split; [done|].
  split; [intros Hm; apply Hall; right; split; [apply Hm|done]|].
  rewrite drop_0 in Hf. set (bs := take (Z.to_nat k) buffer) in *.
  assert (length bs = Z.to_nat k) as Hlb by (unfold bs, available in *; rewrite length_take; lia).
  unfold available in Hk. destruct (decide (k = 0)) as [Hk0|Hk0].
  { assert (bs = []) as Hnil by (apply nil_length_inv; lia). rewrite Hnil, splice_nil in Hf.
    unfold contents. by rewrite Hnil, splice_nil, Hf. }
  split.
  - unfold contents. rewrite Hf. pose proof (flat_enough s i v Hop).
    rewrite splice_app_l by lia. apply take_splice; [lia|]. rewrite length_drop. lia.
  - intros d' H1 H2 H3. destruct (decide (dlength d' = 0)) as [E|]; [unfold contents; by rewrite E|].
    apply (contents_frame s s' (data v) d' offset bs); try done; try lia. apply H3; lia.
Qed.

End Inode.
