(* ===== verification/FileOps.v ===== *)
(** * Files, the free map, and the life of an inode

    src/src/filesys/file.c, src/src/filesys/free-map.c, the functions of
    src/src/lib/kernel/bitmap.c that use a file, and the functions of
    src/src/filesys/inode.c that allocate or release sectors. *)

From S2P Require Import Prelude KState Bitmap FsState Inode.
Import FsState Inode.

Module FileOps.

(** ** Reading and writing open files (file.c) *)

Definition file_get_inode (f : Z) : M fs Z := v <- fil f ;; ret (file_inode v).

Definition file_read_at (f : Z) (buffer : list Z) (size file_ofs : Z) : M fs (Z * list Z) :=
  v <- fil f ;; inode_read_at (file_inode v) buffer size file_ofs.

Definition file_write_at (f : Z) (buffer : list Z) (size file_ofs : Z) : M fs Z :=
  v <- fil f ;; inode_write_at (file_inode v) buffer size file_ofs.

Definition advance (f n : Z) : M fs unit :=
  upd_file f (fun v => mkFile (file_inode v) (s32 (pos v + n)) (deny_write v)).

Definition file_read (f : Z) (buffer : list Z) (size : Z) : M fs (Z * list Z) :=
  v <- fil f ;;
  r <- inode_read_at (file_inode v) buffer size (pos v) ;;
  advance f r.1 ;;; ret r.

Definition file_write (f : Z) (buffer : list Z) (size : Z) : M fs Z :=
  v <- fil f ;;
  n <- inode_write_at (file_inode v) buffer size (pos v) ;;
  advance f n ;;; ret n.

Definition file_length (f : Z) : M fs Z :=
  ASSERT (negb (f =? NULL)) ;;; v <- fil f ;; inode_length (file_inode v).

Definition file_seek (f new_pos : Z) : M fs unit :=
  ASSERT (negb (f =? NULL)) ;;; ASSERT (new_pos >=? 0) ;;;
  upd_file f (fun v => mkFile (file_inode v) new_pos (deny_write v)).

Definition file_tell (f : Z) : M fs Z :=
  ASSERT (negb (f =? NULL)) ;;; v <- fil f ;; ret (pos v).

Definition file_deny_write (f : Z) : M fs unit :=
  ASSERT (negb (f =? NULL)) ;;;
  v <- fil f ;;
  if deny_write v then ret tt
  else upd_file f (fun v => mkFile (file_inode v) (pos v) true) ;;; inode_deny_write (file_inode v).

Definition file_allow_write (f : Z) : M fs unit :=
  ASSERT (negb (f =? NULL)) ;;;
  v <- fil f ;;
  if deny_write v
  then upd_file f (fun v => mkFile (file_inode v) (pos v) false) ;;; inode_allow_write (file_inode v)
  else ret tt.

(** ** The free map as bytes (bitmap.c) *)

(** The elements as they lie in memory. *)
Definition words_bytes (ws : list Z) : list Z := concat (map le32 ws).

Fixpoint bytes_words (bs : list Z) : list Z :=
  match bs with
  | a :: b :: c :: d :: rest => of_le32 [a; b; c; d] :: bytes_words rest
  | _ => []
  end.

Definition bitmap_write (f : Z) : M fs bool :=
  b <- gets free_map ;;
  let size := s32 (Bitmap.byte_cnt (Bitmap.bit_cnt b)) in
  n <- file_write_at f (words_bytes (Bitmap.bits b)) size 0 ;;
  ret (n =? size).

Definition bitmap_read (f : Z) : M fs bool :=
  b <- gets free_map ;;
  if Bitmap.bit_cnt b >? 0 then
    let size := s32 (Bitmap.byte_cnt (Bitmap.bit_cnt b)) in
    r <- file_read_at f (words_bytes (Bitmap.bits b)) size 0 ;;
    modify (fun s => set_free_map (Bitmap.mkBitmap (Bitmap.bit_cnt b) (bytes_words r.2)) s) ;;;
    let last := Bitmap.elem_cnt (Bitmap.bit_cnt b) - 1 in
    on_free_map (e <- Bitmap.elem last ;; Bitmap.set_elem last (Z.land e (Bitmap.last_mask b))) ;;;
    ret (r.1 =? size)
  else ret true.

(** ** The free map (free-map.c) *)

(** [words] is what the memory of the new bitmap held. *)
Definition free_map_init (words : list Z) : M fs unit :=
  n <- block_size ;;
  p <- malloc ;;
  q <- (if p =? NULL then ret NULL else malloc) ;;
  match Bitmap.bitmap_create (negb (p =? NULL)) (if q =? NULL then None else Some words) n with
  | Ok (Some b) =>
      modify (set_free_map b) ;;;
      on_free_map (Bitmap.bitmap_mark FREE_MAP_SECTOR) ;;;
      on_free_map (Bitmap.bitmap_mark ROOT_DIR_SECTOR)
  | Ok None => fail Kernel_panic
  | Err e => fail e
  end.

(** The first of [cnt] sectors, unless there are none or the free map could
    not be written. *)
Definition free_map_allocate (cnt : Z) : M fs (option Z) :=
  sec <- on_free_map (Bitmap.bitmap_scan_and_flip 0 cnt false) ;;
  f <- gets free_map_file ;;
  failed <- (if negb (sec =? Bitmap.BITMAP_ERROR) && negb (f =? NULL)
             then w <- bitmap_write f ;; ret (negb w) else ret false) ;;
  if (failed : bool) then
    on_free_map (Bitmap.bitmap_set_multiple sec cnt false) ;;; ret None
  else ret (if sec =? Bitmap.BITMAP_ERROR then None else Some sec).

Definition free_map_release (sec cnt : Z) : M fs unit :=
  a <- on_free_map (Bitmap.bitmap_all sec cnt) ;; ASSERT a ;;;
  on_free_map (Bitmap.bitmap_set_multiple sec cnt false) ;;;
  f <- gets free_map_file ;;
  bitmap_write f ;;; ret tt.

(** ** Creating, opening and closing inodes (inode.c) *)

Definition inode_init : M fs unit := modify (set_open_inodes []).

Fixpoint write_zeros (n : nat) (sec : Z) : M fs unit :=
  match n with
  | O => ret tt
  | S n' => block_write (u32 sec) (replicate 512 0) ;;; write_zeros n' (sec + 1)
  end.

Definition inode_create (sec len : Z) : M fs bool :=
  ASSERT (len >=? 0) ;;;
  p <- malloc ;;
  if p =? NULL then ret false
  else
    let sectors := bytes_to_sectors len in
    r <- free_map_allocate sectors ;;
    match r with
    | None => ret false
    | Some st =>
        block_write sec (encode_inode (mkInodeDisk st len INODE_MAGIC)) ;;;
        (if sectors >? 0 then write_zeros (Z.to_nat sectors) st else ret tt) ;;;
        ret true
    end.

(** The loop over the open inodes. *)
Fixpoint find_open (sec : Z) (is_ : list Z) : M fs Z :=
  match is_ with
  | [] => ret NULL
  | i :: rest => v <- inod i ;; if sector v =? sec then ret i else find_open sec rest
  end.

Definition inode_open (sec : Z) : M fs Z :=
  is_ <- gets open_inodes ;;
  i <- find_open sec is_ ;;
  if negb (i =? NULL) then inode_reopen i ;;; ret i
  else
    p <- malloc ;;
    if p =? NULL then ret NULL
    else
      modify (fun s => set_open_inodes (p :: open_inodes s) s) ;;;
      b <- block_read sec ;;
      modify (fun s => set_inodes (<[p := mkInode sec 1 false 0 (decode_inode b)]> (inodes s)) s) ;;;
      ret p.

Definition inode_close (i : Z) : M fs unit :=
  if i =? NULL then ret tt
  else
    upd_inode i (fun v => mkInode (sector v) (s32 (open_cnt v - 1)) (removed v) (deny_write_cnt v) (data v)) ;;;
    v <- inod i ;;
    if open_cnt v =? 0 then
      rest <- gets_opt (fun s => KState.remove_first i (open_inodes s)) ;;
      modify (set_open_inodes rest) ;;;
      (if removed v then
         free_map_release (sector v) 1 ;;;
         free_map_release (start (data v)) (bytes_to_sectors (dlength (data v)))
       else ret tt) ;;;
      modify (fun s => set_inodes (delete i (inodes s)) s)
    else ret tt.

(** ** Opening and closing files (file.c) *)

Definition file_open (i : Z) : M fs Z :=
  p <- malloc ;;
  if negb (i =? NULL) && negb (p =? NULL)
  then modify (fun s => set_files (<[p := mkFile i 0 false]> (files s)) s) ;;; ret p
  else inode_close i ;;; ret NULL.

Definition file_reopen (f : Z) : M fs Z :=
  v <- fil f ;; i <- inode_reopen (file_inode v) ;; file_open i.

Definition file_close (f : Z) : M fs unit :=
  if f =? NULL then ret tt
  else
    file_allow_write f ;;;
    v <- fil f ;;
    inode_close (file_inode v) ;;;
    modify (fun s => set_files (delete f (files s)) s).

(** ** The free-map file (free-map.c) *)

Definition free_map_open : M fs unit :=
  i <- inode_open FREE_MAP_SECTOR ;;
  f <- file_open i ;;
  modify (set_free_map_file f) ;;;
  if f =? NULL then fail Kernel_panic
  else r <- bitmap_read f ;; if (r : bool) then ret tt else fail Kernel_panic.

Definition free_map_close : M fs unit := f <- gets free_map_file ;; file_close f.

Definition free_map_create : M fs unit :=
  b <- gets free_map ;;
  ok <- inode_create FREE_MAP_SECTOR (s32 (Bitmap.bitmap_file_size b)) ;;
  if negb ok then fail Kernel_panic
  else
    i <- inode_open FREE_MAP_SECTOR ;;
    f <- file_open i ;;
    modify (set_free_map_file f) ;;;
    if f =? NULL then fail Kernel_panic
    else w <- bitmap_write f ;; if (w : bool) then ret tt else fail Kernel_panic.

End FileOps.
