(* ===== verification/Directory.v ===== *)
(** * Directories and the file system's interface

    src/src/filesys/directory.c and src/src/filesys/filesys.c.  A directory
    is a file of 20-byte entries; a name is the list of its bytes, without
    the terminator. *)

From S2P Require Import Prelude FsState Inode FileOps.
Import FsState Inode FileOps.

Module Directory.

Definition NAME_MAX : Z := 14.

(** ** Entries *)

(** [sizeof (struct dir_entry)]: a sector number, 15 bytes of name, a flag. *)
Definition ENTRY_SIZE : Z := 20.

Definition entry_sector (e : list Z) : Z := of_le32 e.

Definition entry_in_use (e : list Z) : bool := negb (nth 19 e 0 =? 0).

(** The bytes from [e.name] to the end of the structure. *)
Definition entry_name (e : list Z) : list Z := drop 4 e.

(** [strcmp (name, e.name) == 0]; [None] when the comparison runs past the
    end of the structure. *)
Fixpoint streq (name bytes : list Z) : option bool :=
  match bytes with
  | [] => None
  | b :: bs =>
      match name with
      | [] => Some (b =? 0)
      | c :: name' => if b =? c then streq name' bs else Some false
      end
  end.

(** The string at the start of [bytes]. *)
Fixpoint cstring (bytes : list Z) : option (list Z) :=
  match bytes with
  | [] => None
  | b :: bs => if b =? 0 then Some [] else option_map (cons b) (cstring bs)
  end.

(** [e.in_use = true; strlcpy (e.name, name, ...); e.inode_sector = sec]. *)
Definition fill_entry (e name : list Z) (sec : Z) : list Z :=
  splice 0 (le32 sec) (splice 4 (take 14 name ++ [0]) (splice 19 [1] e)).

Definition clear_entry (e : list Z) : list Z := splice 19 [0] e.

(** ** Opening and closing *)

Definition dir_create (sec entry_cnt : Z) : M fs bool :=
  inode_create sec (s32 (u32 (entry_cnt * ENTRY_SIZE))).

Definition dir_open (i : Z) : M fs Z :=
  p <- malloc ;;
  if negb (i =? NULL) && negb (p =? NULL)
  then modify (fun s => set_dirs (<[p := mkDir i 0]> (dirs s)) s) ;;; ret p
  else inode_close i ;;; ret NULL.

Definition dir_open_root : M fs Z := i <- inode_open ROOT_DIR_SECTOR ;; dir_open i.

Definition dir_reopen (d : Z) : M fs Z :=
  v <- directory d ;; i <- inode_reopen (dir_inode v) ;; dir_open i.

Definition dir_close (d : Z) : M fs unit :=
  if d =? NULL then ret tt
  else
    v <- directory d ;;
    inode_close (dir_inode v) ;;;
    modify (fun s => set_dirs (delete d (dirs s)) s).

Definition dir_get_inode (d : Z) : M fs Z := v <- directory d ;; ret (dir_inode v).

(** ** Searching

    [e] is the local [struct dir_entry], whose first contents are whatever
    the stack held. *)

(** The number of rounds a loop over the entries can take. *)
Definition entry_fuel (i : Z) : M fs nat := len <- inode_length i ;; ret (S (Z.to_nat len)).

Fixpoint lookup_loop (fuel : nat) (i : Z) (name e : list Z) (ofs : Z) : M fs (option (list Z * Z)) :=
  match fuel with
  | O => fail Out_of_fuel
  | S fuel' =>
      r <- inode_read_at i e ENTRY_SIZE ofs ;;
      if r.1 =? ENTRY_SIZE then
        same <- (if entry_in_use r.2 then gets_opt (fun _ => streq name (entry_name r.2)) else ret false) ;;
        if (same : bool) then ret (Some (r.2, ofs)) else lookup_loop fuel' i name r.2 (ofs + ENTRY_SIZE)
      else ret None
  end.

(** The entry and its offset. *)
Definition lookup (d : Z) (name e : list Z) : M fs (option (list Z * Z)) :=
  ASSERT (negb (d =? NULL)) ;;;
  v <- directory d ;;
  fuel <- entry_fuel (dir_inode v) ;;
  lookup_loop fuel (dir_inode v) name e 0.

(** Whether the name was found, and the inode opened for it. *)
Definition dir_lookup (d : Z) (name e : list Z) : M fs (bool * Z) :=
  ASSERT (negb (d =? NULL)) ;;;
  r <- lookup d name e ;;
  i <- (match r with Some (e', _) => inode_open (entry_sector e') | None => ret NULL end) ;;
  ret (negb (i =? NULL), i).

(** ** Adding and removing *)

(** The loop that looks for a free slot: the entry read last, and where. *)
Fixpoint free_slot_loop (fuel : nat) (i : Z) (e : list Z) (ofs : Z) : M fs (list Z * Z) :=
  match fuel with
  | O => fail Out_of_fuel
  | S fuel' =>
      r <- inode_read_at i e ENTRY_SIZE ofs ;;
      if r.1 =? ENTRY_SIZE then
        if negb (entry_in_use r.2) then ret (r.2, ofs)
        else free_slot_loop fuel' i r.2 (ofs + ENTRY_SIZE)
      else ret (r.2, ofs)
  end.

Definition dir_add (d : Z) (name : list Z) (sec : Z) (e : list Z) : M fs bool :=
  ASSERT (negb (d =? NULL)) ;;;
  if (Z.of_nat (length name) =? 0) || (Z.of_nat (length name) >? NAME_MAX) then ret false
  else
    r <- lookup d name e ;;
    match r with
    | Some _ => ret false
    | None =>
        v <- directory d ;;
        fuel <- entry_fuel (dir_inode v) ;;
        slot <- free_slot_loop fuel (dir_inode v) e 0 ;;
        n <- inode_write_at (dir_inode v) (fill_entry slot.1 name sec) ENTRY_SIZE slot.2 ;;
        ret (n =? ENTRY_SIZE)
    end.

Definition dir_remove (d : Z) (name e : list Z) : M fs bool :=
  ASSERT (negb (d =? NULL)) ;;;
  r <- lookup d name e ;;
  match r with
  | None => inode_close NULL ;;; ret false
  | Some (e', ofs) =>
      i <- inode_open (entry_sector e') ;;
      if i =? NULL then inode_close i ;;; ret false
      else
        v <- directory d ;;
        n <- inode_write_at (dir_inode v) (clear_entry e') ENTRY_SIZE ofs ;;
        if negb (n =? ENTRY_SIZE) then inode_close i ;;; ret false
        else inode_remove i ;;; inode_close i ;;; ret true
  end.

Fixpoint readdir_loop (fuel : nat) (d i : Z) (e : list Z) : M fs (option (list Z)) :=
  match fuel with
  | O => fail Out_of_fuel
  | S fuel' =>
      v <- directory d ;;
      r <- inode_read_at i e ENTRY_SIZE (dir_pos v) ;;
      if r.1 =? ENTRY_SIZE then
        upd_dir d (fun v => mkDir (dir_inode v) (s32 (dir_pos v + ENTRY_SIZE))) ;;;
        if entry_in_use r.2 then
          nm <- gets_opt (fun _ => cstring (entry_name r.2)) ;; ret (Some (take 14 nm))
        else readdir_loop fuel' d i r.2
      else ret None
  end.

Definition dir_readdir (d : Z) (e : list Z) : M fs (option (list Z)) :=
  v <- directory d ;;
  fuel <- entry_fuel (dir_inode v) ;;
  readdir_loop fuel d (dir_inode v) e.

(** ** The file system (filesys.c) *)

Definition do_format : M fs unit :=
  free_map_create ;;;
  ok <- dir_create ROOT_DIR_SECTOR 16 ;;
  if negb ok then fail Kernel_panic else free_map_close.

Definition filesys_init (words : list Z) (format : bool) : M fs unit :=
  inode_init ;;;
  free_map_init words ;;;
  (if format then do_format else ret tt) ;;;
  free_map_open.

Definition filesys_done : M fs unit := free_map_close.

Definition filesys_create (name e : list Z) (initial_size : Z) : M fs bool :=
  d <- dir_open_root ;;
  r <- (if d =? NULL then ret (false, 0)
        else
          a <- free_map_allocate 1 ;;
          match a with
          | None => ret (false, 0)
          | Some sec =>
              c <- inode_create sec initial_size ;;
              if (c : bool) then ok <- dir_add d name sec e ;; ret (ok, sec) else ret (false, sec)
          end) ;;
  (if negb r.1 && negb (r.2 =? 0) then free_map_release r.2 1 else ret tt) ;;;
  dir_close d ;;;
  ret r.1.

Definition filesys_open (name e : list Z) : M fs Z :=
  d <- dir_open_root ;;
  i <- (if d =? NULL then ret NULL else r <- dir_lookup d name e ;; ret r.2) ;;
  dir_close d ;;;
  file_open i.

Definition filesys_remove (name e : list Z) : M fs bool :=
  d <- dir_open_root ;;
  ok <- (if d =? NULL then ret false else dir_remove d name e) ;;
  dir_close d ;;;
  ret ok.

End Directory.
