(* ===== verification/FsInv.v ===== *)
(** * The file-system invariant

    Which sectors belong to which file, and that no operation gives a sector
    to two files.  [live] is the set of inodes that exist on the device, by
    the sector of the inode: the files that a directory names, the files that
    are removed but still open, the root directory and the free map. *)

From S2P Require Import Prelude KState Bitmap FsState Inode FileOps Directory.
Import FsState Inode FileOps Directory.

Module FsInv.

(** ** Extents *)

Definition in_data (d : inode_disk) (x : Z) : Prop := start d <= x < start d + sectors_of (dlength d).

(** The sectors of the inode in sector [sec] whose contents are [d]. *)
Definition in_file (sec : Z) (d : inode_disk) (x : Z) : Prop := x = sec \/ in_data d x.

(** A sector as a file of one sector. *)
Definition header (sec : Z) : inode_disk := mkInodeDisk sec 512 0.

Definition apart (d d' : inode_disk) : Prop := forall x, in_data d x -> in_data d' x -> False.

Lemma sectors_of_pos len : 0 < len -> 0 < sectors_of len.
Proof. intros H. unfold sectors_of. apply Z.div_str_pos. lia. Qed.

Lemma apart_disjoint d d' :
  apart d d' -> 0 < dlength d -> 0 < dlength d' -> disjoint_data d d'.
Proof.
  intros Ha H1%sectors_of_pos H2%sectors_of_pos. unfold disjoint_data.
  destruct (Z.le_gt_cases (start d + sectors_of (dlength d)) (start d')) as [|Hlt]; [by left|].
  destruct (Z.le_gt_cases (start d' + sectors_of (dlength d')) (start d)) as [|Hlt']; [by right|].
  exfalso. apply (Ha (Z.max (start d) (start d'))); unfold in_data; lia.
Qed.

Lemma in_header sec x : in_data (header sec) x <-> x = sec.
Proof. unfold in_data, header, sectors_of. cbn [start dlength]. change ((512 + 511) / 512) with 1. lia. Qed.

Lemma header_contents s sec b :
  sectors_ok s -> 0 <= sec -> disk s !! Z.to_nat sec = Some b <->
  sec < Z.of_nat (length (disk s)) /\ contents s (header sec) = b.
Proof.
  intros Hok Hs. assert (forall b', disk s !! Z.to_nat sec = Some b' -> contents s (header sec) = b') as H.
  { intros b' Hb. pose proof Hb as Hl. unfold sectors_ok in Hok. rewrite Forall_forall in Hok.
    apply list_elem_of_lookup_2, Hok in Hl. unfold contents, first_byte, header, flat.
    cbn [start dlength]. rewrite <- (Nat.add_0_r (512 * Z.to_nat sec)).
    rewrite (sectors_chunk (disk s)) with (b := b'); [|by apply Forall_forall|done|done].
    rewrite drop_0. apply take_ge. lia. }
  split.
  - intros Hb. split; [apply lookup_lt_Some in Hb; lia|by apply H].
  - intros [Hlt <-]. destruct (lookup_lt_is_Some_2 (disk s) (Z.to_nat sec)) as [b' Hb']; [lia|].
    by rewrite (H b' Hb').
Qed.

(** ** What a write leaves alone *)

(** The contents of every extent that has no sector in common with [P]. *)
Definition untouched (P : Z -> Prop) (s s' : fs) : Prop :=
  forall d, 0 <= dlength d -> 0 <= start d -> (forall x, P x -> in_data d x -> False) ->
    contents s' d = contents s d.

Lemma untouched_weaken (P Q : Z -> Prop) s s' :
  untouched P s s' -> (forall x, P x -> Q x) -> untouched Q s s'.
Proof. intros H HPQ d H1 H2 H3. apply H; eauto. Qed.

Lemma untouched_trans P s1 s2 s3 : untouched P s1 s2 -> untouched P s2 s3 -> untouched P s1 s3.
Proof. intros H1 H2 d ? ? ?. rewrite H2, H1; done. Qed.

Lemma untouched_disk P s s' : disk s' = disk s -> untouched P s s'.
Proof. intros E d _ _ _. unfold contents, flat. by rewrite E. Qed.

Lemma inode_write_untouched s i v buffer size offset :
  opened s i v -> deny_write_cnt v = 0 -> 0 <= offset < 2147483648 ->
  0 <= size <= Z.of_nat (length buffer) -> mem_ok s ->
  exists s', inode_write_at i buffer size offset s = Ok (available (data v) size offset, s') /\
    same_but_disk s s' /\
    contents s' (data v)
      = splice (Z.to_nat offset) (take (Z.to_nat (available (data v) size offset)) buffer) (contents s (data v)) /\
    untouched (in_data (data v)) s s'.
Proof.
  intros Hop Hd Ho Hs Hm.
  destruct (inode_write_at_ok s i v buffer size offset Hop Hd Ho Hs) as (k & s' & Hr & Hk & Hsb & Hall & Hc & Hf).
  rewrite (Hall Hm) in *. exists s'. do 3 (split; [done|]). intros d' H1 H2 H3.
  apply Hf; [done|done|]. intros. by apply apart_disjoint.
Qed.

(** ** The invariant *)

(** The inode [d] is in the sector [sec]. *)
Record on_disk (s : fs) (sec : Z) (d : inode_disk) : Prop := {
  od_sec : 0 <= sec < Z.of_nat (length (disk s));
  od_data : data_ok s d;
  od_magic : in_u32 (dmagic d);
  od_header : contents s (header sec) = encode_inode d;
  od_self : ~ in_data d sec
}.

(** All but that the free-map file holds the free map, and that the list of
    open inodes is complete: it is not while one is being closed. *)
Record fs_inv0 (live : gmap Z inode_disk) (s : fs) : Prop := {
  fi_sectors : sectors_ok s;
  fi_mem : mem_ok s;
  fi_map : Bitmap.wf (free_map s);
  fi_cnt : Bitmap.bit_cnt (free_map s) = Z.of_nat (length (disk s));
  fi_words : Z.of_nat (length (Bitmap.bits (free_map s))) = Bitmap.elem_cnt (Bitmap.bit_cnt (free_map s));
  fi_brk : 0 < brk s;
  fi_fresh : forall a, brk s <= a -> inodes s !! a = None /\ files s !! a = None /\ dirs s !! a = None;
  fi_live : forall sec d, live !! sec = Some d -> on_disk s sec d;
  fi_used : forall sec d x, live !! sec = Some d -> in_file sec d x -> Bitmap.bit (free_map s) x = true;
  fi_apart : forall sec d sec' d' x, live !! sec = Some d -> live !! sec' = Some d' ->
    in_file sec d x -> in_file sec' d' x -> sec = sec';
  fi_open : forall i v, i ∈ open_inodes s -> inodes s !! i = Some v ->
    i <> NULL /\ live !! sector v = Some (data v) /\ 0 < open_cnt v < 2147483648;
  fi_list : NoDup (open_inodes s) /\ forall i, i ∈ open_inodes s -> is_Some (inodes s !! i);
  fi_same : forall i j v w, i ∈ open_inodes s -> j ∈ open_inodes s ->
    inodes s !! i = Some v -> inodes s !! j = Some w -> sector v = sector w -> i = j;
  fi_file : exists fl v, free_map_file s <> NULL /\ files s !! free_map_file s = Some fl /\
    file_inode fl ∈ open_inodes s /\ inodes s !! file_inode fl = Some v /\ sector v = FREE_MAP_SECTOR /\ deny_write_cnt v = 0 /\
    dlength (data v) = 4 * Z.of_nat (length (Bitmap.bits (free_map s)))
}.

(** The bytes of a file that hold a bitmap; the unused bits of the last
    element may differ. *)
Definition holds_map (b : Bitmap.bitmap) (bs : list Z) : Prop :=
  exists ws, bs = words_bytes ws /\ length ws = length (Bitmap.bits b) /\ Forall in_u32 ws /\
    forall x, 0 <= x < Bitmap.bit_cnt b -> Bitmap.bit (Bitmap.mkBitmap (Bitmap.bit_cnt b) ws) x = Bitmap.bit b x.

Definition coherent (live : gmap Z inode_disk) (s : fs) : Prop :=
  forall d, live !! FREE_MAP_SECTOR = Some d -> holds_map (free_map s) (contents s d).

Definition listed (s : fs) : Prop := forall i v, inodes s !! i = Some v -> i ∈ open_inodes s.

Definition fs_inv (live : gmap Z inode_disk) (s : fs) : Prop :=
  fs_inv0 live s /\ coherent live s /\ listed s.

(** The sectors of the free-map file. *)
Definition map_data (live : gmap Z inode_disk) (x : Z) : Prop :=
  exists d, live !! FREE_MAP_SECTOR = Some d /\ in_data d x.

Lemma inv_opened live s i v :
  fs_inv0 live s -> i ∈ open_inodes s -> inodes s !! i = Some v -> opened s i v.
Proof.
  intros Hi Hin Hv. destruct (fi_open _ _ Hi i v Hin Hv) as (Hn & Hl & _).
  destruct (fi_live _ _ Hi _ _ Hl). split; [done|]. split; [done|]. split; [done|].
  split; [apply (fi_sectors _ _ Hi)|]. pose proof (fi_brk _ _ Hi). lia.
Qed.

(** A file and what is not the file. *)
Lemma live_apart live s sec d sec' d' :
  fs_inv0 live s -> live !! sec = Some d -> live !! sec' = Some d' -> sec <> sec' ->
  forall x, in_data d x -> ~ in_file sec' d' x.
Proof.
  intros Hi H1 H2 Hne x Hx Hx'. apply Hne. eapply (fi_apart _ _ Hi); [done|done| |done]. by right.
Qed.

(** Writes outside the headers keep the invariant, but for the contents of
    the free-map file. *)
Lemma fs_inv0_disk live s s' P :
  fs_inv0 live s -> same_but_disk s s' -> untouched P s s' ->
  (forall sec d, live !! sec = Some d -> ~ P sec) -> fs_inv0 live s'.
Proof.
  intros Hi Hs Hu HP. pose proof (sbd_rest _ _ Hs) as Hr. unfold rest in Hr.
  injection Hr as E1 E2 E3 E4 E5 E6. pose proof (sbd_size _ _ Hs) as Esz.
  pose proof (sbd_brk _ _ Hs) as Hb. destruct Hi.
  split; rewrite ?E1, ?E2, ?E3, ?E4, ?E5, ?E6, ?Esz; try done.
  - by apply (sbd_sectors _ _ Hs).
  - by apply (sbd_mem _ _ Hs).
  - lia.
  - intros a Ha. apply fi_fresh0. lia.
  - intros sec d Hd. destruct (fi_live0 sec d Hd) as [H1 H2 H3 H4 H5].
    split; [by rewrite Esz|by eapply data_ok_sbd|done| |done].
    rewrite Hu; [done|done|cbn; lia|]. intros x Hx ->%in_header. by eapply HP.
Qed.

Lemma coherent_disk live s s' P :
  coherent live s -> same_but_disk s s' -> untouched P s s' ->
  (forall d, live !! FREE_MAP_SECTOR = Some d -> 0 <= dlength d /\ 0 <= start d) ->
  (forall x, P x -> ~ map_data live x) -> coherent live s'.
Proof.
  intros Hc Hs Hu Hd HP d Hl. pose proof (sbd_rest _ _ Hs) as Hr. unfold rest in Hr.
  injection Hr as _ _ _ _ -> _. destruct (Hd d Hl).
  assert (contents s' d = contents s d) as ->; [|by apply Hc]. apply Hu; [done|done|].
  intros x Hx Hin. apply (HP x Hx). by exists d.
Qed.

Lemma listed_sbd s s' : listed s -> same_but_disk s s' -> listed s'.
Proof.
  intros Hl Hs i v. pose proof (sbd_rest _ _ Hs) as Hr. unfold rest in Hr. injection Hr as -> -> _ _ _ _.
  apply Hl.
Qed.

(** ** Writing the free map *)

Lemma words_bytes_length ws : length (words_bytes ws) = (4 * length ws)%nat.
Proof. unfold words_bytes. induction ws as [|w ws IH]; cbn; [done|]. rewrite IH. lia. Qed.

(** The size of the free map fits an [off_t]. *)
Lemma map_size live s :
  fs_inv0 live s ->
  s32 (Bitmap.byte_cnt (Bitmap.bit_cnt (free_map s))) = 4 * Z.of_nat (length (Bitmap.bits (free_map s))) /\
  4 * Z.of_nat (length (Bitmap.bits (free_map s))) < 2147483648.
Proof.
  intros Hi. pose proof (Bitmap.wf_cnt _ (fi_map _ _ Hi)) as Hc. rewrite (fi_words _ _ Hi).
  unfold Bitmap.byte_cnt. assert (0 <= Bitmap.elem_cnt (Bitmap.bit_cnt (free_map s)) < 134217728) as H.
  { unfold Bitmap.elem_cnt, Bitmap.ELEM_BITS. rewrite u32_id by lia.
    split; [apply Z.div_pos; lia|apply Z.div_lt_upper_bound; lia]. }
  rewrite u32_id, s32_id by lia. lia.
Qed.

Lemma bitmap_write_ok live s :
  fs_inv0 live s ->
  exists s', bitmap_write (free_map_file s) s = Ok (true, s') /\ fs_inv0 live s' /\ coherent live s' /\
    same_but_disk s s' /\ untouched (map_data live) s s'.
Proof.
  intros Hi. destruct (fi_file _ _ Hi) as (fl & v & Hn & Hf & Hin & Hv & Hsec & Hdeny & Hlen).
  destruct (fi_open _ _ Hi _ _ Hin Hv) as (_ & Hl & _). rewrite Hsec in Hl.
  destruct (map_size _ _ Hi) as [Hsz Hlt]. pose proof (inv_opened _ _ _ _ Hi Hin Hv) as Hop.
  set (bs := words_bytes (Bitmap.bits (free_map s))).
  assert (length bs = (4 * length (Bitmap.bits (free_map s)))%nat) as Hbl by apply words_bytes_length.
  destruct (inode_write_untouched s (file_inode fl) v bs (4 * Z.of_nat (length (Bitmap.bits (free_map s)))) 0)
    as (s' & Hw & Hs & Hc & Hu); [done|done|lia|lia|apply (fi_mem _ _ Hi)|].
  assert (available (data v) (4 * Z.of_nat (length (Bitmap.bits (free_map s)))) 0
    = 4 * Z.of_nat (length (Bitmap.bits (free_map s)))) as Hav by (unfold available; lia).
  rewrite Hav in *. assert (untouched (map_data live) s s') as Hum.
  { apply (untouched_weaken _ _ _ _ Hu). intros x Hx. by exists (data v). }
  exists s'. split; [|split; [|split; [|done]]].
  - unfold bitmap_write. mnorm. rewrite Hsz. unfold file_write_at, fil. unfold bind at 1, bind at 1, gets_opt.
    rewrite (proj2 (Z.eqb_neq _ _) Hn), Hf. fold bs. rewrite Hw. by rewrite Z.eqb_refl.
  - apply (fs_inv0_disk _ s _ (map_data live)); [done|done|done|].
    intros sec d Hd (d0 & Hd0 & Hx). destruct (decide (sec = FREE_MAP_SECTOR)) as [->|Hne].
    + assert (d = d0) as -> by congruence. by apply (od_self _ _ _ (fi_live _ _ Hi _ _ Hd)).
    + eapply (live_apart _ _ FREE_MAP_SECTOR d0 sec d Hi); [done|done|done|done|by left].
  - intros d Hd. assert (d = data v) as -> by congruence. rewrite Hc.
    pose proof (sbd_rest _ _ Hs) as Hr. unfold rest in Hr. injection Hr as _ _ _ _ -> _. fold bs.
    unfold splice. rewrite (take_ge bs) by lia. cbn [Z.to_nat take app Nat.add]. rewrite drop_ge, app_nil_r.
    + exists (Bitmap.bits (free_map s)). split; [done|]. split; [done|]. split; [apply (fi_map _ _ Hi)|].
      intros x _. by destruct (free_map s).
    + rewrite (contents_length s _ v Hop). lia.
Qed.

(** ** Allocating and releasing sectors *)

Lemma fs_inv0_map live s b :
  fs_inv0 live s -> Bitmap.wf b -> Bitmap.bit_cnt b = Bitmap.bit_cnt (free_map s) ->
  length (Bitmap.bits b) = length (Bitmap.bits (free_map s)) ->
  (forall sec d x, live !! sec = Some d -> in_file sec d x -> Bitmap.bit b x = true) ->
  fs_inv0 live (set_free_map b s).
Proof.
  intros [] Hw Hc Hl Hu. split; cbn; try done.
  - congruence.
  - congruence.
  - intros sec d Hd. destruct (fi_live0 sec d Hd) as [H1 H2 H3 H4 H5]. split; try done.
    destruct H2. by split.
  - destruct fi_file0 as (fl & v & H). exists fl, v. by rewrite Hl.
Qed.

(** What changes besides the device when sectors are allocated or released:
    the free map. *)
Definition same_but_map (s s' : fs) : Prop :=
  exists s1, same_but_disk (set_free_map (free_map s') s) s1 /\ s' = s1.

Lemma same_but_map_intro s b s' : same_but_disk (set_free_map b s) s' -> same_but_map s s'.
Proof.
  intros H. exists s'. split; [|done]. pose proof (sbd_rest _ _ H) as Hr. unfold rest in Hr.
  injection Hr as _ _ _ _ E _. cbn in E. by rewrite E.
Qed.

Lemma same_but_map_fields s s' :
  same_but_map s s' ->
  inodes s' = inodes s /\ open_inodes s' = open_inodes s /\ files s' = files s /\ dirs s' = dirs s /\
  free_map_file s' = free_map_file s /\ length (disk s') = length (disk s) /\ brk s <= brk s'.
Proof.
  intros (s1 & H & ->). pose proof (sbd_rest _ _ H) as Hr. unfold rest in Hr.
  injection Hr as E1 E2 E3 E4 E6. cbn in *. pose proof (sbd_size _ _ H). pose proof (sbd_brk _ _ H). done.
Qed.

Lemma on_free_map_run {A} (m : M Bitmap.bitmap A) s a b :
  m (free_map s) = Ok (a, b) -> on_free_map m s = Ok (a, set_free_map b s).
Proof. intros H. unfold on_free_map. by rewrite H. Qed.

(** Free sectors are taken: they were in no file. *)
Definition allocated_at (s s' : fs) (a cnt : Z) : Prop :=
  0 <= a /\ a + cnt <= Z.of_nat (length (disk s)) /\
  (forall x, a <= x < a + cnt -> Bitmap.bit (free_map s) x = false) /\
  (forall x, 0 <= x -> Bitmap.bit (free_map s') x
     = if (a <=? x) && (x <? a + cnt) then true else Bitmap.bit (free_map s) x).

Lemma free_map_allocate_ok live s cnt :
  fs_inv live s -> 0 <= cnt ->
  exists r s', free_map_allocate cnt s = Ok (r, s') /\ fs_inv live s' /\
    same_but_map s s' /\ untouched (map_data live) s s' /\
    match r with
    | Some a => allocated_at s s' a cnt /\ (forall i, 0 <= i < a -> ~ Bitmap.group (free_map s) i cnt false)
    | None => (forall x, 0 <= x -> Bitmap.bit (free_map s') x = Bitmap.bit (free_map s) x) /\
              (forall i, 0 <= i -> i + cnt <= Z.of_nat (length (disk s)) ->
                 ~ Bitmap.group (free_map s) i cnt false)
    end.
Proof.
  intros (Hi & Hcoh & Hls) Hcnt. pose proof (Bitmap.wf_cnt _ (fi_map _ _ Hi)) as Hb.
  destruct (Bitmap.bitmap_scan_and_flip_run (free_map s) 0 cnt false) as (a & b & Hr & Hw & Hc & Hres & Herr & Hbit);
    [apply Hi|lia|done|].
  pose proof (Bitmap.keeps_scan_and_flip 0 cnt false _ _ _ Hr) as Hlen. cbn in Hlen.
  assert (fs_inv0 live (set_free_map b s)) as Hi1.
  { apply fs_inv0_map; [done..|]. intros sec d x Hd Hx. pose proof (fi_used _ _ Hi sec d x Hd Hx) as Hu.
    destruct (Z.le_gt_cases 0 x) as [Hx0|Hx0].
    - rewrite Hbit by done. by destruct (_ && _).
    - exfalso. destruct (fi_live _ _ Hi sec d Hd) as [? [] _ _ _]. destruct Hx as [->|[]]; lia. }
  unfold free_map_allocate. mrun (on_free_map_run _ s _ _ Hr). mnorm.
  change (free_map_file (set_free_map b s)) with (free_map_file s).
  destruct (fi_file _ _ Hi) as (_ & _ & Hn & _). rewrite (proj2 (Z.eqb_neq _ _) Hn). rewrite andb_true_r.
  pose proof (fi_cnt _ _ Hi) as Hcd.
  destruct (Z.eqb_spec a Bitmap.BITMAP_ERROR) as [He|He]; cbn [negb] in *.
  - mnorm. eexists _, _. split; [done|].
    destruct Hres as [[_ Hno]|(H1 & H2 & _)]; [|unfold Bitmap.BITMAP_ERROR in *; lia].
    rewrite (Herr He). assert (set_free_map (free_map s) s = s) as -> by (by destruct s).
    split; [done|]. split; [apply (same_but_map_intro s (free_map s)); by destruct s|].
    split; [by apply untouched_disk|]. split; [done|]. by rewrite <- Hcd.
  - destruct (bitmap_write_ok live _ Hi1) as (s' & Hwr & Hi2 & Hc2 & Hs & Hu).
    change (free_map_file (set_free_map b s)) with (free_map_file s) in Hwr. mnorm. mrun Hwr. mnorm.
    eexists _, s'. split; [done|].
    split; [split; [done|split; [done|by apply (listed_sbd (set_free_map b s))]]|]. split; [by eapply same_but_map_intro|].
    split; [exact Hu|]. destruct Hres as [[? _]|(H1 & H2 & H3 & H4)]; [done|]. split; [|exact H4].
    unfold allocated_at. assert (free_map s' = b) as -> by (pose proof (sbd_rest _ _ Hs) as E; unfold rest in E; by injection E).
    split; [done|]. split; [lia|]. split; [exact H3|]. intros x Hx. by rewrite Hbit.
Qed.

Lemma free_map_release_ok live s sec cnt :
  fs_inv0 live s -> 0 <= sec -> 0 <= cnt -> sec + cnt <= Z.of_nat (length (disk s)) ->
  Bitmap.group (free_map s) sec cnt true ->
  (forall sec' d x, live !! sec' = Some d -> in_file sec' d x -> ~ (sec <= x < sec + cnt)) ->
  exists s', free_map_release sec cnt s = Ok (tt, s') /\ fs_inv0 live s' /\ coherent live s' /\
    same_but_map s s' /\ untouched (map_data live) s s' /\
    (forall x, 0 <= x -> Bitmap.bit (free_map s') x
       = if (sec <=? x) && (x <? sec + cnt) then false else Bitmap.bit (free_map s) x).
Proof.
  intros Hi H1 H2 H3 Hg Hout. pose proof (fi_cnt _ _ Hi) as Hcd.
  assert (Bitmap.in_range (free_map s) sec cnt) as Hr by (unfold Bitmap.in_range; lia).
  unfold free_map_release.
  assert (Bitmap.bitmap_all sec cnt (free_map s) = Ok (true, free_map s)) as Hall.
  { unfold Bitmap.bitmap_all. mrun (Bitmap.bitmap_contains_ok _ _ _ false (fi_map _ _ Hi) Hr).
    unfold ret. f_equal. f_equal. apply (Bitmap.range_group _ _ _ true). by rewrite Z2Nat.id. }
  mrun (on_free_map_run _ s _ _ Hall). mnorm.
  assert (set_free_map (free_map s) s = s) as -> by (by destruct s).
  destruct (Bitmap.bitmap_set_multiple_ok (free_map s) sec cnt false (fi_map _ _ Hi) Hr)
    as (b & Hset & Hw & Hc & Hbit).
  pose proof (Bitmap.keeps_set_multiple sec cnt false _ _ _ Hset) as Hlen. cbn in Hlen.
  mrun (on_free_map_run _ s _ _ Hset). mnorm.
  assert (fs_inv0 live (set_free_map b s)) as Hi1.
  { apply fs_inv0_map; [done..|]. intros sec' d x Hd Hx. pose proof (fi_used _ _ Hi sec' d x Hd Hx) as Hu.
    assert (0 <= x) as Hx0.
    { destruct (fi_live _ _ Hi sec' d Hd) as [? [] _ _ _]. destruct Hx as [->|[]]; lia. }
    rewrite Hbit by done. destruct ((sec <=? x) && (x <? sec + cnt)) eqn:E; [|done].
    apply andb_prop in E as [E1%Z.leb_le E2%Z.ltb_lt]. exfalso. by eapply Hout. }
  destruct (bitmap_write_ok live _ Hi1) as (s' & Hwr & Hi2 & Hc2 & Hs & Hu).
  change (free_map_file (set_free_map b s)) with (free_map_file s) in *. mrun Hwr.
  exists s'. split; [done|]. split; [done|]. split; [done|]. split; [by eapply same_but_map_intro|]. split; [exact Hu|].
  assert (free_map s' = b) as -> by (pose proof (sbd_rest _ _ Hs) as E; unfold rest in E; by injection E).
  exact Hbit.
Qed.

(** ** Creating an inode *)

Lemma block_write_ok s sec b :
  sectors_ok s -> 0 <= sec < Z.of_nat (length (disk s)) -> Z.of_nat (length (disk s)) <= 4294967295 ->
  length b = 512%nat ->
  exists s', block_write sec b s = Ok (tt, s') /\ same_but_disk s s' /\
    contents s' (header sec) = b /\ untouched (eq sec) s s'.
Proof.
  intros Hok Hs Hdev Hb. destruct (block_write_run s sec b Hs Hb) as (s' & Hr & Hsb & _ & Hd).
  exists s'. split; [done|]. split; [done|].
  assert (sectors_ok s') as Hok' by (by apply (sbd_sectors _ _ Hsb)). split.
  - apply (header_contents s' sec b Hok'); [lia|]. rewrite Hd. apply list_lookup_insert_eq. lia.
  - intros d H1 H2 Hd'. destruct (decide (dlength d = 0)) as [E|]; [unfold contents; by rewrite E|].
    destruct (lookup_lt_is_Some_2 (disk s) (Z.to_nat sec)) as [b0 Hb0]; [lia|].
    assert (length b0 = 512%nat) as Hl0.
    { unfold sectors_ok in Hok. rewrite Forall_forall in Hok. by eapply Hok, list_elem_of_lookup_2. }
    apply (contents_frame s s' (header sec) d 0 b); try done.
    + split; cbn; [lia|lia|change (sectors_of 512) with 1; lia|done].
    + cbn [header dlength]. lia.
    + unfold flat. rewrite Hd. unfold first_byte, header. cbn [start].
      replace b with (splice 0 b b0) at 1.
      * apply sectors_splice; [done|done|lia].
      * unfold splice. simpl. rewrite Hb, drop_ge, app_nil_r; [done|lia].
    + apply apart_disjoint; [|cbn; lia|lia]. intros x Hx%in_header Hin. by eapply Hd'.
Qed.

Lemma write_zeros_ok n : forall s a,
  sectors_ok s -> 0 <= a -> a + Z.of_nat n <= Z.of_nat (length (disk s)) ->
  Z.of_nat (length (disk s)) <= 4294967295 ->
  exists s', write_zeros n a s = Ok (tt, s') /\ same_but_disk s s' /\
    untouched (fun x => a <= x < a + Z.of_nat n) s s' /\
    (forall x, a <= x < a + Z.of_nat n -> contents s' (header x) = replicate 512 0).
Proof.
  induction n as [|n IH]; intros s a Hok Ha Hn Hdev; cbn [write_zeros].
  - exists s. split; [done|]. split; [done|]. split; [by apply untouched_disk|]. lia.
  - rewrite u32_id by lia.
    destruct (block_write_ok s a (replicate 512 0) Hok) as (s1 & Hr & Hs1 & Hc1 & Hu1); [lia|done|by rewrite length_replicate|].
    mrun Hr. pose proof (sbd_size _ _ Hs1) as Hsz.
    destruct (IH s1 (a + 1)) as (s2 & Hr2 & Hs2 & Hu2 & Hc2);
      [by apply (sbd_sectors _ _ Hs1)|lia|lia|lia|].
    exists s2. split; [done|]. split; [by transitivity s1|]. split.
    + apply (untouched_trans _ _ s1).
      * apply (untouched_weaken _ _ _ _ Hu1). intros x <-. lia.
      * apply (untouched_weaken _ _ _ _ Hu2). intros x Hx. lia.
    + intros x Hx. destruct (decide (x = a)) as [->|Hne]; [|apply Hc2; lia].
      rewrite Hu2; [done|cbn; lia|cbn; lia|]. intros y Hy ->%in_header. lia.
Qed.

Lemma concat_zeros (l : list (list Z)) :
  Forall (eq (replicate 512 0)) l -> concat l = replicate (512 * length l) 0.
Proof.
  induction 1 as [|x l <- _ IH]; [done|]. cbn [concat length]. rewrite IH, <- replicate_add. f_equal. lia.
Qed.

(** A file all of whose sectors are zero. *)
Lemma contents_zero s d :
  sectors_ok s -> data_ok s d -> (forall x, in_data d x -> contents s (header x) = replicate 512 0) ->
  contents s d = replicate (Z.to_nat (dlength d)) 0.
Proof.
  intros Hok [H1 H2 H3 H4] Hz. unfold contents, flat.
  set (n := Z.to_nat (sectors_of (dlength d))). set (a := Z.to_nat (start d)).
  assert (0 <= sectors_of (dlength d) /\ dlength d <= 512 * sectors_of (dlength d)) as [Hn0 Hn].
  { unfold sectors_of. pose proof (Z.div_mod (dlength d + 511) 512 ltac:(lia)).
    pose proof (Z.mod_pos_bound (dlength d + 511) 512 ltac:(lia)). split; [apply Z.div_pos; lia|lia]. }
  assert (concat (take n (drop a (disk s))) = replicate (512 * n) 0) as E.
  { assert (length (take n (drop a (disk s))) = n) as Hl by (rewrite length_take, length_drop; lia).
    rewrite concat_zeros; [by rewrite Hl|]. apply Forall_lookup. intros k b Hk.
    apply lookup_take_Some in Hk as [Hk Hkn]. rewrite lookup_drop in Hk. symmetry.
    rewrite <- (Hz (start d + Z.of_nat k)) by (unfold in_data; lia). symmetry.
    apply (header_contents s (start d + Z.of_nat k) b Hok); [lia|].
    replace (Z.to_nat (start d + Z.of_nat k)) with (a + k)%nat by lia. done. }
  assert (concat (disk s) = concat (take a (disk s)) ++ concat (take n (drop a (disk s)))
    ++ concat (drop n (drop a (disk s)))) as ->.
  { rewrite <- !concat_app, take_drop, take_drop. done. }
  assert (length (concat (take a (disk s))) = first_byte d) as Hfb.
  { rewrite sectors_length by (by apply Forall_take). rewrite length_take. unfold first_byte. lia. }
  rewrite <- Hfb, drop_app_length, E, take_app_le by (rewrite length_replicate; lia).
  rewrite take_replicate. f_equal. lia.
Qed.

(** The sector [sec] is allocated but belongs to no file. *)
Definition reserved (live : gmap Z inode_disk) (s : fs) (sec : Z) : Prop :=
  0 <= sec < Z.of_nat (length (disk s)) /\ Bitmap.bit (free_map s) sec = true /\
  forall sec' d, live !! sec' = Some d -> ~ in_file sec' d sec.

(** The contents of all files but [sec]. *)
Definition other_files (live : gmap Z inode_disk) (sec : Z) (s s' : fs) : Prop :=
  forall sec' d, live !! sec' = Some d -> sec' <> sec -> contents s' d = contents s d.

(** The contents of all files but the free map. *)
Definition files_kept (live : gmap Z inode_disk) (s s' : fs) : Prop :=
  forall sec d, live !! sec = Some d -> sec <> FREE_MAP_SECTOR -> contents s' d = contents s d.

#[export] Instance files_kept_preorder live : PreOrder (files_kept live).
Proof. split; [by intros ? ? ?|]. intros a b c H1 H2 sec d Hd Hn. by rewrite (H2 sec d), (H1 sec d). Qed.

Lemma live_sizes live s sec d : fs_inv0 live s -> live !! sec = Some d -> 0 <= dlength d /\ 0 <= start d.
Proof. intros Hi Hd. destruct (fi_live _ _ Hi sec d Hd) as [_ [] _ _ _]. lia. Qed.

Lemma map_live live s : fs_inv0 live s -> exists d, live !! FREE_MAP_SECTOR = Some d.
Proof.
  intros Hi. destruct (fi_file _ _ Hi) as (fl & v & _ & _ & Hin & Hv & Hsec & _).
  destruct (fi_open _ _ Hi _ _ Hin Hv) as (_ & Hl & _). rewrite Hsec in Hl. eauto.
Qed.

Lemma untouched_kept live s s' : fs_inv0 live s -> untouched (map_data live) s s' -> files_kept live s s'.
Proof.
  intros Hi Hu sec d Hd Hn. destruct (live_sizes _ _ _ _ Hi Hd). apply Hu; [done|done|].
  intros x (d0 & Hd0 & Hx) Hin. eapply (live_apart _ _ FREE_MAP_SECTOR d0 sec d Hi); eauto. by right.
Qed.

Lemma fs_inv_quiet live s s' : fs_inv live s -> quiet s s' -> fs_inv live s' /\ files_kept live s s'.
Proof.
  intros (Hi & Hc & Hl) [Hs Hd]. assert (untouched (fun _ => False) s s') as Hu by (by apply untouched_disk).
  split; [split; [|split]|].
  - by apply (fs_inv0_disk live s s' (fun _ => False)); [..|intros ? ? ? []].
  - apply (coherent_disk live s s' (fun _ => False)); [done|done|done| |by intros ? []].
    intros d Hd'. by eapply live_sizes.
  - by apply (listed_sbd s).
  - intros sec d _ _. unfold contents, flat. by rewrite Hd.
Qed.

Lemma encode_length d : length (encode_inode d) = 512%nat.
Proof. unfold encode_inode. rewrite !length_app, length_replicate. done. Qed.

Lemma fs_inv0_add live s sec d :
  fs_inv0 live s -> live !! sec = None -> on_disk s sec d ->
  (forall x, in_file sec d x -> Bitmap.bit (free_map s) x = true) ->
  (forall sec' d' x, live !! sec' = Some d' -> in_file sec' d' x -> ~ in_file sec d x) ->
  fs_inv0 (<[sec := d]> live) s.
Proof.
  intros [] Hn Hod Hu Hdis. split; try done.
  - intros sec' d'. rewrite lookup_insert_Some. intros [[<- <-]|[_ H]]; auto.
  - intros sec' d' x. rewrite lookup_insert_Some. intros [[<- <-]|[_ H]] Hx; eauto.
  - intros s1 d1 s2 d2 x. rewrite !lookup_insert_Some.
    intros [[<- <-]|[N1 H1]] [[<- <-]|[N2 H2]] Hx1 Hx2; [done| | |by eapply fi_apart0].
    + exfalso. by eapply Hdis.
    + exfalso. by eapply Hdis.
  - intros i v Hin Hv. destruct (fi_open0 i v Hin Hv) as (? & Hl & ?). split; [done|]. split; [|done].
    rewrite lookup_insert_ne; [done|]. intros ->. congruence.
Qed.

Lemma malloc_inv live s :
  fs_inv live s ->
  exists s', malloc s = Ok (brk s, s') /\ fs_inv live s' /\ quiet s s' /\ brk s' = brk s + 1.
Proof.
  intros Hi. destruct (malloc_run s) as (p & s' & Hr & Hq & _ & Hp).
  rewrite (Hp (fi_mem _ _ (proj1 Hi) 0%nat)) in Hr. exists s'. split; [done|].
  split; [by apply (fs_inv_quiet _ s)|]. split; [done|].
  unfold malloc in Hr. minv Hr. unfold put in *. naive_solver.
Qed.

Lemma device_bound live s : fs_inv0 live s -> Z.of_nat (length (disk s)) <= 4294967264.
Proof. intros Hi. rewrite <- (fi_cnt _ _ Hi). apply (Bitmap.wf_cnt _ (fi_map _ _ Hi)). Qed.

(** The command with which [inode_create] writes the inode [d] and zeros. *)
Definition write_inode (sec : Z) (d : inode_disk) (n : Z) : M fs unit :=
  block_write sec (encode_inode d) ;;;
  if n >? 0 then write_zeros (Z.to_nat n) (start d) else ret tt.

Lemma write_inode_ok s sec d :
  sectors_ok s -> 0 <= sec < Z.of_nat (length (disk s)) -> data_ok s d -> ~ in_data d sec ->
  exists s', write_inode sec d (sectors_of (dlength d)) s = Ok (tt, s') /\ same_but_disk s s' /\
    untouched (in_file sec d) s s' /\ contents s' (header sec) = encode_inode d /\
    contents s' d = replicate (Z.to_nat (dlength d)) 0.
Proof.
  intros Hok Hsec Hd Hself. pose proof Hd as [Hd1 Hd2 Hd3 Hd4]. unfold write_inode.
  destruct (block_write_ok s sec (encode_inode d)) as (s1 & Hr1 & Hs1 & Hc1 & Hu1);
    [done|done|lia|apply encode_length|]. mrun Hr1.
  pose proof (sbd_size _ _ Hs1) as Hsz. pose proof (sbd_sectors _ _ Hs1 Hok) as Hok1.
  assert (exists s2, (if sectors_of (dlength d) >? 0
      then write_zeros (Z.to_nat (sectors_of (dlength d))) (start d) else ret tt) s1 = Ok (tt, s2) /\
    same_but_disk s1 s2 /\ untouched (in_data d) s1 s2 /\
    (forall x, in_data d x -> contents s2 (header x) = replicate 512 0)) as (s2 & Hr2 & Hs2 & Hu2 & Hz2).
  { rewrite Z.gtb_ltb. destruct (Z.ltb_spec 0 (sectors_of (dlength d))) as [Hp|Hp].
    - destruct (write_zeros_ok (Z.to_nat (sectors_of (dlength d))) s1 (start d)) as (s2 & H1 & H2 & H3 & H4);
        [done|lia|lia|lia|]. rewrite Z2Nat.id in H3, H4 by lia. by exists s2.
    - exists s1. split; [done|]. split; [done|]. split; [by apply untouched_disk|]. intros x []. lia. }
  assert (same_but_disk s s2) as Hs by (by transitivity s1).
  exists s2. split; [done|]. split; [done|]. split; [|split].
  - apply (untouched_trans _ _ s1).
    + apply (untouched_weaken _ _ _ _ Hu1). intros x <-. by left.
    + apply (untouched_weaken _ _ _ _ Hu2). intros x Hx. by right.
  - rewrite Hu2; [done|done|cbn; lia|]. by intros x Hx ->%in_header.
  - apply contents_zero; [by apply (sbd_sectors _ _ Hs)|by eapply data_ok_sbd|done].
Qed.

(** What [inode_create] writes, once it has its sectors. *)
Lemma create_writes live s sec d n :
  fs_inv live s -> reserved live s sec -> data_ok s d -> in_u32 (dmagic d) ->
  n = sectors_of (dlength d) ->
  (forall x, in_data d x -> Bitmap.bit (free_map s) x = true /\ x <> sec /\
     forall sec' d', live !! sec' = Some d' -> ~ in_file sec' d' x) ->
  exists s', write_inode sec d n s = Ok (tt, s') /\
    fs_inv (<[sec := d]> live) s' /\ same_but_disk s s' /\
    contents s' d = replicate (Z.to_nat (dlength d)) 0 /\ files_kept live s s'.
Proof.
  intros (Hi & Hcoh & Hls) (Hsec & Hbit & Hout) Hd Hmg -> Hfresh. pose proof Hd as [Hd1 Hd2 Hd3 Hd4].
  assert (~ in_data d sec) as Hself by (intros Hx; by apply (Hfresh sec Hx)).
  destruct (write_inode_ok s sec d (fi_sectors _ _ Hi) Hsec Hd Hself) as (s2 & Hr & Hs & Hu & Hh & Hz).
  assert (forall sec' d' x, live !! sec' = Some d' -> in_file sec' d' x -> ~ in_file sec d x) as Hdis.
  { intros sec' d' x Hl Hx [->|Hin]; [by eapply Hout|]. by eapply (proj2 (proj2 (Hfresh x Hin))). }
  exists s2. split; [done|]. assert (fs_inv0 live s2) as Hi2.
  { apply (fs_inv0_disk live s s2 (in_file sec d)); [done|done|done|].
    intros sec' d' Hl. eapply Hdis; [done|by left]. }
  assert (live !! sec = None) as Hnone.
  { destruct (live !! sec) as [d'|] eqn:E; [|done]. exfalso. eapply Hout; [done|by left]. }
  split; [split; [|split]|split; [done|split; [done|]]].
  - apply fs_inv0_add; [done|done| | |done].
    + split; [by rewrite (sbd_size _ _ Hs)|by eapply data_ok_sbd|done|done|done].
    + pose proof (sbd_rest _ _ Hs) as E. unfold rest in E. injection E as _ _ _ _ -> _.
      intros x [->|Hx]; [done|]. by apply Hfresh.
  - intros d0. rewrite lookup_insert_ne.
    + apply (coherent_disk live s s2 (in_file sec d)); [done|done|done| |].
      * intros d1 H. by eapply live_sizes.
      * intros x Hx (d1 & H1 & H2). eapply Hdis; [done|by right|done].
    + intros ->. destruct (map_live _ _ Hi). congruence.
  - by apply (listed_sbd s).
  - intros sec' d' Hl _. destruct (live_sizes _ _ _ _ Hi Hl). apply Hu; [done|done|].
    intros x Hx Hin. eapply Hdis; [done|by right|done].
Qed.

Lemma reserved_map live s s' sec :
  reserved live s sec -> same_but_map s s' ->
  (forall x, 0 <= x -> Bitmap.bit (free_map s) x = true -> Bitmap.bit (free_map s') x = true) ->
  reserved live s' sec.
Proof.
  intros (H1 & H2 & H3) Hs Hb. destruct (same_but_map_fields _ _ Hs) as (_ & _ & _ & _ & _ & E & _).
  split; [by rewrite E|]. split; [apply Hb; [lia|done]|done].
Qed.

(** A file's worth of sectors that [free_map_allocate] has returned. *)
Lemma allocated_fresh live s s' a cnt x :
  fs_inv0 live s -> allocated_at s s' a cnt -> a <= x < a + cnt ->
  Bitmap.bit (free_map s') x = true /\ forall sec d, live !! sec = Some d -> ~ in_file sec d x.
Proof.
  intros Hi (H1 & H2 & H3 & H4) Hx. split.
  - rewrite H4 by lia. by rewrite (proj2 (Z.leb_le _ _)), (proj2 (Z.ltb_lt _ _)) by lia.
  - intros sec d Hd Hin. pose proof (fi_used _ _ Hi _ _ _ Hd Hin) as E. rewrite H3 in E by done. done.
Qed.

(** [inode_create] in a reserved sector gives a new file of zeros and leaves
    every other file as it is; or the free map is unchanged, because it has
    no group of sectors that is long enough. *)
Lemma inode_create_ok live s sec len :
  fs_inv live s -> reserved live s sec -> 0 <= len < 2147483136 ->
  exists ok s', inode_create sec len s = Ok (ok, s') /\ files_kept live s s' /\ same_but_map s s' /\
    if (ok : bool) then exists d, dlength d = len /\ fs_inv (<[sec := d]> live) s' /\
      contents s' d = replicate (Z.to_nat len) 0 /\ allocated_at s s' (start d) (sectors_of len)
    else fs_inv live s' /\ (forall x, 0 <= x -> Bitmap.bit (free_map s') x = Bitmap.bit (free_map s) x) /\
      (forall i, 0 <= i -> i + sectors_of len <= Z.of_nat (length (disk s)) ->
         ~ Bitmap.group (free_map s) i (sectors_of len) false).
Proof.
  intros Hi Hres Hlen. unfold inode_create. rewrite Z.geb_leb, (proj2 (Z.leb_le _ _)) by lia. mnorm.
  destruct (malloc_inv live s Hi) as (s1 & Hr1 & Hi1 & Hq1 & _). mrun Hr1.
  pose proof (fi_brk _ _ (proj1 Hi)). rewrite (proj2 (Z.eqb_neq (brk s) NULL)) by (unfold NULL; lia).
  rewrite bytes_to_sectors_eq by done. cbv zeta. set (n := sectors_of len).
  assert (0 <= n) as Hn by (unfold n, sectors_of; apply Z.div_pos; lia).
  destruct (free_map_allocate_ok live s1 n Hi1 Hn) as (r & s2 & Hr2 & Hi2 & Hm2 & Hu2 & Hcase). mrun Hr2.
  pose proof (untouched_kept _ _ _ (proj1 Hi1) Hu2) as Hk2.
  destruct (fs_inv_quiet _ _ _ Hi Hq1) as [_ Hk1].
  assert (free_map s1 = free_map s /\ length (disk s1) = length (disk s)) as [Em Ed].
  { destruct Hq1 as [Hs1 E]. rewrite E. pose proof (sbd_rest _ _ Hs1) as R. unfold rest in R. by injection R. }
  assert (forall s3, same_but_map s1 s3 -> same_but_map s s3) as Hsm.
  { intros s3 (s4 & H4 & ->). exists s4. split; [|done]. transitivity (set_free_map (free_map s4) s1); [|done].
    destruct Hq1 as [[R1 R2 R3 R4 R5] E]. unfold rest in R1. injection R1 as E1 E2 E3 E4 _ E6.
    split; cbn; try done. unfold rest. cbn. by rewrite E1, E2, E3, E4, E6. }
  destruct r as [a|].
  - destruct Hcase as [Hal _]. pose proof Hal as (C1 & C2 & C3 & C4).
    set (d := mkInodeDisk a len INODE_MAGIC).
    destruct (same_but_map_fields _ _ Hm2) as (_ & _ & _ & _ & _ & Hsz & _).
    pose proof (device_bound _ _ (proj1 Hi2)).
    destruct (create_writes live s2 sec d n) as (s3 & Hr3 & Hi3 & Hs3 & Hc3 & Hk3).
    + done.
    + apply (reserved_map _ s1); [|done|].
      * destruct Hres as (R1 & R2 & R3). split; [by rewrite Ed|]. by rewrite Em.
      * intros x Hx Hb. rewrite C4 by done. by destruct (_ && _).
    + split; cbn; [lia|done|rewrite Hsz; done|lia].
    + done.
    + done.
    + intros x Hx. destruct (allocated_fresh live s1 s2 a n x (proj1 Hi1) Hal Hx) as [H1 H2].
      split; [done|]. split; [|done]. intros ->. destruct Hres as (_ & Hb & _).
      rewrite <- Em, (C3 sec) in Hb by exact Hx. done.
    + unfold write_inode in Hr3. cbn [start d] in Hr3. rewrite <- bind_bind. mrun Hr3. exists true, s3. split; [done|].
      split; [by transitivity s2; [transitivity s1|]|]. split.
      { apply Hsm. destruct Hm2 as (s2' & Hm2 & ->). pose proof (sbd_rest _ _ Hs3) as R.
        unfold rest in R. injection R as _ _ _ _ E _. exists s3. split; [|done]. rewrite E. by transitivity s2'. }
      exists d. split; [done|]. split; [done|]. split; [done|].
      pose proof (sbd_rest _ _ Hs3) as R. unfold rest in R. injection R as _ _ _ _ E _.
      unfold allocated_at. rewrite E, <- Em, <- Ed. done.
  - exists false, s2. split; [done|]. split; [by transitivity s1|]. split; [by apply Hsm|]. split; [done|].
    rewrite <- Em, <- Ed. exact Hcase.
Qed.

(** ** Opening and closing an inode *)

Lemma upd_inode_run i f v s :
  inodes s !! i = Some v -> i <> NULL ->
  upd_inode i f s = Ok (tt, set_inodes (<[i := f v]> (inodes s)) s).
Proof. intros H Hn. unfold upd_inode. by mrun (inod_run _ _ _ H Hn). Qed.

(** A change of an open inode's counters. *)
Lemma fs_inv_upd_inode live s i v v' :
  fs_inv live s -> inodes s !! i = Some v -> sector v' = sector v -> data v' = data v ->
  0 < open_cnt v' < 2147483648 -> (sector v = FREE_MAP_SECTOR -> deny_write_cnt v' = deny_write_cnt v) ->
  fs_inv live (set_inodes (<[i := v']> (inodes s)) s).
Proof.
  intros (Hi & Hc & Hl) Hv Hs Hd Hp Hdeny. pose proof (Hl i v Hv) as Hin.
  assert (forall j w, <[i := v']> (inodes s) !! j = Some w ->
    exists w0, inodes s !! j = Some w0 /\ sector w = sector w0 /\ data w = data w0) as Hold.
  { intros j w. rewrite lookup_insert_Some. intros [[<- <-]|[_ Hw]]; eauto. }
  split; [|split; [exact Hc|intros j w (w0 & Hw & _)%Hold; by eapply Hl]].
  destruct Hi. split; cbn; try done.
  - intros a Ha. destruct (fi_fresh0 a Ha) as (H1 & H2 & H3). rewrite lookup_insert_ne by congruence. done.
  - intros sec d Hl'. destruct (fi_live0 sec d Hl') as [H1 H2 H3 H4 H5]. split; try done. destruct H2. by split.
  - intros j w Hj. rewrite lookup_insert_Some. intros [[<- <-]|[_ Hw]]; [|by apply fi_open0].
    destruct (fi_open0 i v Hin Hv) as (H1 & H2 & _). rewrite Hs, Hd. done.
  - destruct fi_list0 as [H1 H2]. split; [done|]. intros j Hj. destruct (decide (i = j)) as [->|].
    + rewrite lookup_insert_eq. eauto.
    + rewrite lookup_insert_ne by done. auto.
  - intros j k w w' Hj Hk (w0 & Hw & E & _)%Hold (w0' & Hw' & E' & _)%Hold Es.
    eapply (fi_same0 j k w0 w0'); [done..|congruence].
  - destruct fi_file0 as (fl & w & H1 & H2 & H3 & H4 & H5 & H6). exists fl.
    destruct (decide (i = file_inode fl)) as [->|].
    + exists v'. rewrite lookup_insert_eq. assert (w = v) as -> by congruence.
      rewrite Hs, Hd. rewrite Hdeny by apply H5. done.
    + exists w. by rewrite lookup_insert_ne.
Qed.

Lemma find_open_ok live s sec : forall is_,
  fs_inv0 live s -> (forall i, i ∈ is_ -> i ∈ open_inodes s) ->
  exists i, find_open sec is_ s = Ok (i, s) /\
    ((i = NULL /\ forall j v, j ∈ is_ -> inodes s !! j = Some v -> sector v <> sec) \/
     exists v, i ∈ open_inodes s /\ inodes s !! i = Some v /\ sector v = sec).
Proof.
  induction is_ as [|j is_ IH]; intros Hi Hall; cbn [find_open].
  - exists NULL. split; [done|]. left. split; [done|]. by intros j v ?%elem_of_nil.
  - pose proof (Hall j ltac:(by left)) as Hj. destruct (proj2 (fi_list _ _ Hi) j Hj) as [v Hv].
    destruct (fi_open _ _ Hi j v Hj Hv) as (Hn & _).
    mrun (inod_run _ _ _ Hv Hn). destruct (Z.eqb_spec (sector v) sec) as [E|E].
    + exists j. split; [done|]. right. eauto.
    + destruct IH as (i & Hr & Hcase); [done|intros k Hk; apply Hall; by right|].
      exists i. split; [done|]. destruct Hcase as [[-> H]|H]; [left|by right]. split; [done|].
      intros k w [->|Hk]%elem_of_cons Hw; [congruence|eauto].
Qed.

(** The state after an inode has been opened as [i]. *)
Record opens (s : fs) (sec : Z) (d : inode_disk) (i : Z) (s' : fs) : Prop := {
  op_inode : exists v, inodes s' = <[i := v]> (inodes s) /\ sector v = sec /\ data v = d /\
    match inodes s !! i with
    | Some v0 => removed v = removed v0 /\ deny_write_cnt v = deny_write_cnt v0 /\
                 sector v0 = sec /\ open_cnt v = open_cnt v0 + 1
    | None => removed v = false /\ deny_write_cnt v = 0 /\ open_cnt v = 1
    end;
  op_files : files s' = files s /\ dirs s' = dirs s /\ free_map s' = free_map s /\
             free_map_file s' = free_map_file s;
  op_disk : disk s' = disk s;
  op_brk : brk s <= brk s' /\ i < brk s'
}.

Lemma fs_inv_new_inode live s sec d p :
  fs_inv live s -> live !! sec = Some d -> 0 < p -> (forall a, brk s <= a -> a <> p) ->
  inodes s !! p = None -> (forall j v, inodes s !! j = Some v -> sector v <> sec) ->
  fs_inv live (set_inodes (<[p := mkInode sec 1 false 0 d]> (inodes s)) (set_open_inodes (p :: open_inodes s) s)).
Proof.
  intros (Hi & Hc & Hls) Hl Hp Hbrk Hnone Hno. split; [|split; [exact Hc|]].
  2:{ intros j w. cbn. rewrite lookup_insert_Some. intros [[<- _]|[_ Hw]]; [by left|]. right. by eapply Hls. }
  destruct Hi. pose proof (proj2 fi_list0) as Hsome. split; cbn; try done.
  - intros a Ha. destruct (fi_fresh0 a Ha) as (H1 & H2 & H3).
    rewrite lookup_insert_ne by (intros ->; by apply (Hbrk a)). done.
  - intros sec' d' Hl'. destruct (fi_live0 sec' d' Hl') as [H1 H2 H3 H4 H5]. split; try done. destruct H2. by split.
  - intros j w Hj. rewrite lookup_insert_Some. intros [[<- <-]|[Hne Hw]].
    + cbn. split; [unfold NULL; lia|]. split; [done|lia].
    + apply fi_open0; [|done]. by apply elem_of_cons in Hj as [->|].
  - destruct fi_list0 as [H1 H2]. split.
    + constructor; [|done]. intros Hin. destruct (H2 p Hin). congruence.
    + intros j [->|Hj]%elem_of_cons; [rewrite lookup_insert_eq; eauto|].
      destruct (H2 j Hj). rewrite lookup_insert_ne by congruence. eauto.
  - intros j k w w' Hj Hk. rewrite !lookup_insert_Some.
    intros [[<- <-]|[N1 H1]] [[<- <-]|[N2 H2]] E; cbn in E; [done| | |].
    + exfalso. by eapply Hno.
    + exfalso. by eapply Hno.
    + apply elem_of_cons in Hj as [->|Hj]; [done|]. apply elem_of_cons in Hk as [->|Hk]; [done|].
      by eapply fi_same0.
  - destruct fi_file0 as (fl & w & H1 & H2 & H3 & H4 & H5). exists fl, w.
    rewrite lookup_insert_ne by congruence. do 2 (split; [done|]). split; [by right|done].
Qed.

(** The count of openers of a sector's inode has room. *)
Definition can_open (s : fs) (sec : Z) : Prop :=
  forall i v, inodes s !! i = Some v -> sector v = sec -> open_cnt v < 2147483647.

Lemma inode_open_ok live s sec d :
  fs_inv live s -> live !! sec = Some d -> can_open s sec ->
  exists i s', inode_open sec s = Ok (i, s') /\ fs_inv live s' /\ opens s sec d i s' /\ i <> NULL.
Proof.
  intros Hi Hl Hroom. unfold inode_open. mnorm.
  destruct (find_open_ok live s sec (open_inodes s) (proj1 Hi)) as (i & Hr & Hcase); [done|]. mrun Hr.
  destruct Hcase as [[-> Hno]|(v & Hin & Hv & Hsec)].
  - cbn [Z.eqb negb NULL]. destruct (malloc_inv live s Hi) as (s1 & Hr1 & Hi1 & Hq1 & Hb1). mrun Hr1.
    pose proof (fi_brk _ _ (proj1 Hi)) as Hb0.
    rewrite (proj2 (Z.eqb_neq (brk s) NULL)) by (unfold NULL; lia). mnorm.
    set (s2 := set_open_inodes (brk s :: open_inodes s1) s1).
    destruct (fi_live _ _ (proj1 Hi1) sec d Hl) as [H1 H2 H3 H4 H5].
    assert (disk s2 !! Z.to_nat sec = Some (encode_inode d)) as Hd.
    { apply (header_contents s1 sec); [apply Hi1|lia|]. split; [lia|done]. }
    destruct (block_read_run s2 sec (encode_inode d)) as (s3 & Hr3 & Hq3 & _); [done|done|]. mrun Hr3. mnorm.
    assert (decode_inode (encode_inode d) = d) as ->.
    { destruct H2 as [D1 D2 D3 D4]. apply inode_disk_roundtrip; [|unfold in_s32; lia|done].
      unfold in_u32. unfold sectors_of in D3. pose proof (Z.div_pos (dlength d + 511) 512). lia. }
    pose proof Hq1 as [[R1 R2 R3 R4 R5] E1]. unfold rest in R1. injection R1 as A1 A2 A3 A4 A5 A6.
    pose proof Hq3 as [[Q1 Q2 Q3 Q4 Q5] E3]. unfold rest in Q1. injection Q1 as B1 B2 B3 B4 B5 B6. cbn in *.
    destruct (fi_fresh _ _ (proj1 Hi) (brk s) ltac:(lia)) as (Hf & _).
    assert (fs_inv live (set_inodes (<[brk s := mkInode sec 1 false 0 d]> (inodes s3)) s3)) as Hi4.
    { destruct (fs_inv_quiet live (set_inodes (<[brk s := mkInode sec 1 false 0 d]> (inodes s1)) s2)
        (set_inodes (<[brk s := mkInode sec 1 false 0 d]> (inodes s3)) s3)) as [H _]; [| |exact H].
      - apply fs_inv_new_inode; [done|done|lia|lia|by rewrite A1|].
        intros j v Hv. rewrite A1 in Hv. eapply Hno; [|done].
        by eapply (proj2 (proj2 Hi)).
      - split; [split; cbn; try done|done]. unfold rest. cbn. by rewrite B1, B2, B3, B4, B5, B6. }
    eexists _, _. split; [done|]. split; [done|]. split; [|unfold NULL; lia].
    split; cbn; [|by rewrite B3, B4, B5, B6|congruence|lia].
    exists (mkInode sec 1 false 0 d). rewrite B1, A1, Hf. done.
  - destruct (fi_open _ _ (proj1 Hi) i v Hin Hv) as (Hn & Hlv & Hpos).
    rewrite (proj2 (Z.eqb_neq _ _) Hn). cbn [negb]. unfold inode_reopen.
    rewrite (proj2 (Z.eqb_neq _ _) Hn). mnorm. specialize (Hroom i v Hv Hsec).
    mrun (upd_inode_run i (fun v => mkInode (sector v) (s32 (open_cnt v + 1)) (removed v) (deny_write_cnt v) (data v))
      v s Hv Hn). mnorm. rewrite s32_id by lia.
    eexists _, _. split; [done|]. split; [by eapply fs_inv_upd_inode; [..|cbn; lia|]|]. split; [|done].
    assert (data v = d) as <- by congruence.
    split; cbn; [|done|done|].
    + eexists. split; [done|]. rewrite Hv. done.
    + split; [done|]. destruct (Z.lt_ge_cases i (brk s)) as [|Hge]; [done|].
      destruct (fi_fresh _ _ (proj1 Hi) i Hge) as [? _]. congruence.
Qed.

Lemma remove_listed i is_ : i ∈ is_ -> exists rest, KState.remove_first i is_ = Some rest /\ is_ ≡ₚ i :: rest.
Proof.
  induction is_ as [|j is_ IH]; [by intros ?%elem_of_nil|]. cbn [KState.remove_first].
  rewrite elem_of_cons. destruct (Z.eqb_spec j i) as [->|Hne]; [by exists is_|].
  intros [->|Hin]; [done|]. destruct (IH Hin) as (rest & -> & Hp). exists (j :: rest). split; [done|].
  rewrite Hp. apply Permutation_swap.
Qed.

Lemma fs_inv0_unlist live s i v rest :
  fs_inv0 live s -> open_inodes s ≡ₚ i :: rest -> inodes s !! i = Some v -> sector v <> FREE_MAP_SECTOR ->
  fs_inv0 live (set_open_inodes rest s).
Proof.
  intros [] Hp Hv Hsec. assert (forall j, j ∈ rest -> j ∈ open_inodes s) as Hsub.
  { intros j Hj. rewrite Hp. by right. }
  split; cbn; try done; eauto.
  - intros sec d Hl. destruct (fi_live0 sec d Hl) as [H1 H2 H3 H4 H5]. split; try done. destruct H2. by split.
  - destruct fi_list0 as [H1 H2]. rewrite Hp in H1. apply NoDup_cons in H1 as [_ H1]. eauto.
  - destruct fi_file0 as (fl & w & H1 & H2 & H3 & H4 & H5 & H6). exists fl, w. do 2 (split; [done|]).
    split; [|done]. rewrite Hp in H3. apply elem_of_cons in H3 as [E|]; [|done]. congruence.
Qed.

Lemma fs_inv0_unlive live s sec :
  fs_inv0 live s -> (forall j w, j ∈ open_inodes s -> inodes s !! j = Some w -> sector w <> sec) ->
  fs_inv0 (delete sec live) s.
Proof.
  intros [] Hno. split; try done.
  - intros sec' d [_ H]%lookup_delete_Some. auto.
  - intros sec' d x [_ H]%lookup_delete_Some. eauto.
  - intros s1 d1 s2 d2 x [_ H1]%lookup_delete_Some [_ H2]%lookup_delete_Some. eauto.
  - intros j w Hj Hw. destruct (fi_open0 j w Hj Hw) as (H1 & H2 & H3). split; [done|]. split; [|done].
    apply lookup_delete_Some. split; [|done]. intros E. by apply (Hno j w).
Qed.

(** Inodes that are not on the list do not matter. *)
Lemma fs_inv0_inodes live s m :
  fs_inv0 live s -> (forall j, j ∈ open_inodes s -> m !! j = inodes s !! j) ->
  (forall a, brk s <= a -> m !! a = None) -> fs_inv0 live (set_inodes m s).
Proof.
  intros [] E Hf. split; cbn; try done.
  - intros a Ha. destruct (fi_fresh0 a Ha) as (_ & H2). split; [by apply Hf|done].
  - intros sec d Hl. destruct (fi_live0 sec d Hl) as [H1 H2 H3 H4 H5]. split; try done. destruct H2. by split.
  - intros j w Hj. rewrite E by done. by apply fi_open0.
  - destruct fi_list0 as [H1 H2]. split; [done|]. intros j Hj. rewrite E by done. auto.
  - intros j k w w' Hj Hk. rewrite !E by done. by apply fi_same0.
  - destruct fi_file0 as (fl & w & H1 & H2 & H3 & H4). exists fl, w. by rewrite E.
Qed.

(** The sectors of a file that is no longer live are given back. *)
Lemma release_file_ok live s sec d :
  fs_inv0 live s -> live !! sec = None -> on_disk s sec d ->
  (forall x, in_file sec d x -> Bitmap.bit (free_map s) x = true) ->
  (forall sec' d' x, live !! sec' = Some d' -> in_file sec' d' x -> ~ in_file sec d x) ->
  exists s', (free_map_release sec 1 ;;; free_map_release (start d) (bytes_to_sectors (dlength d))) s = Ok (tt, s') /\
    fs_inv0 live s' /\ coherent live s' /\ same_but_map s s' /\ untouched (map_data live) s s' /\
    (forall x, 0 <= x -> in_file sec d x -> Bitmap.bit (free_map s') x = false) /\
    (forall x, 0 <= x -> ~ in_file sec d x -> Bitmap.bit (free_map s') x = Bitmap.bit (free_map s) x).
Proof.
  intros Hi Hn [H1 H2 H3 H4 H5] Hu Hdis. pose proof H2 as [D1 D2 D3 D4]. rewrite bytes_to_sectors_eq by done.
  assert (0 <= sectors_of (dlength d)) as Hs0 by (unfold sectors_of; apply Z.div_pos; lia).
  destruct (free_map_release_ok live s sec 1) as (s1 & Hr1 & Hi1 & _ & Hm1 & Hu1 & Hb1);
    [done|lia|lia|lia| | |].
  { intros x Hx. apply Hu. left. lia. }
  { intros sec' d' x Hl Hx Hr. eapply Hdis; [done|done|]. left. lia. }
  mrun Hr1. destruct (same_but_map_fields _ _ Hm1) as (_ & _ & _ & _ & _ & Hsz & _).
  destruct (free_map_release_ok live s1 (start d) (sectors_of (dlength d)))
    as (s2 & Hr2 & Hi2 & Hc2 & Hm2 & Hu2 & Hb2); [done|lia|lia|lia| | |].
  { intros x Hx. rewrite Hb1 by lia. destruct ((sec <=? x) && (x <? sec + 1)) eqn:E; [|apply Hu; by right].
    apply andb_prop in E as [E1%Z.leb_le E2%Z.ltb_lt]. exfalso. apply H5. by replace sec with x by lia. }
  { intros sec' d' x Hl Hx Hr. eapply Hdis; [done|done|]. by right. }
  exists s2. split; [done|]. split; [done|]. split; [done|]. split; [|split; [by eapply untouched_trans|split]].
  - destruct Hm1 as (s1' & Hm1 & ->), Hm2 as (s2' & Hm2 & ->). exists s2'. split; [|done].
    transitivity (set_free_map (free_map s2') s1'); [|done].
    destruct Hm1 as [R1 R2 R3 R4 R5]. unfold rest in R1. injection R1 as E1 E2 E3 E4 E6. cbn in *.
    split; cbn; try done. unfold rest. cbn. by rewrite E1, E2, E3, E4, E6.
  - intros x Hx Hin. rewrite Hb2, Hb1 by done. unfold in_file, in_data in Hin.
    destruct (Z.leb_spec (start d) x), (Z.ltb_spec x (start d + sectors_of (dlength d))),
      (Z.leb_spec sec x), (Z.ltb_spec x (sec + 1)); try done; lia.
  - intros x Hx Hin. rewrite Hb2, Hb1 by done. unfold in_file, in_data in Hin.
    destruct (Z.leb_spec (start d) x), (Z.ltb_spec x (start d + sectors_of (dlength d))),
      (Z.leb_spec sec x), (Z.ltb_spec x (sec + 1)); try done; exfalso; apply Hin; lia.
Qed.

(** The last opener of a removed file. *)
Definition dies (v : inode) : bool := (open_cnt v =? 1) && removed v.

Definition live_after (v : inode) (live : gmap Z inode_disk) : gmap Z inode_disk :=
  if dies v then delete (sector v) live else live.

Definition set_open_cnt (n : Z) (v : inode) : inode :=
  mkInode (sector v) n (removed v) (deny_write_cnt v) (data v).

(** [inode_close] drops a reference.  With the last one the inode leaves the
    memory, and if the file was removed its sectors are free again; no other
    file changes. *)
Lemma inode_close_ok live s i v :
  fs_inv live s -> inodes s !! i = Some v -> sector v <> FREE_MAP_SECTOR ->
  exists s', inode_close i s = Ok (tt, s') /\ fs_inv (live_after v live) s' /\
    files_kept (live_after v live) s s' /\
    (files s' = files s /\ dirs s' = dirs s /\ free_map_file s' = free_map_file s /\
     length (disk s') = length (disk s) /\ brk s <= brk s') /\
    inodes s' = (if open_cnt v =? 1 then delete i (inodes s)
                 else <[i := set_open_cnt (open_cnt v - 1) v]> (inodes s)) /\
    (forall x, 0 <= x -> Bitmap.bit (free_map s') x =
       if bool_decide (dies v = true /\ in_file (sector v) (data v) x) then false
       else Bitmap.bit (free_map s) x).
Proof.
  intros (Hi & Hc & Hls) Hv Hsec. pose proof (Hls i v Hv) as Hin.
  destruct (fi_open _ _ Hi i v Hin Hv) as (Hn & Hlv & Hcnt).
  unfold inode_close. rewrite (proj2 (Z.eqb_neq _ _) Hn).
  mrun (upd_inode_run i (fun v => mkInode (sector v) (s32 (open_cnt v - 1)) (removed v) (deny_write_cnt v) (data v))
    v s Hv Hn). rewrite s32_id by lia. fold (set_open_cnt (open_cnt v - 1) v).
  set (s1 := set_inodes _ s).
  assert (inodes s1 !! i = Some (set_open_cnt (open_cnt v - 1) v)) as Hv1 by apply lookup_insert_eq.
  mrun (inod_run _ _ _ Hv1 Hn). cbn [open_cnt set_open_cnt removed sector data].
  unfold live_after, dies. destruct (Z.eqb_spec (open_cnt v) 1) as [E1|E1]; cbn [andb].
  2:{ rewrite (proj2 (Z.eqb_neq _ _)) by lia. exists s1. split; [done|]. split.
      { by apply (fs_inv_upd_inode live s i v); [..|cbn; lia|]. }
      split; [done|]. split; [done|]. split; [done|]. intros x _.
      rewrite bool_decide_eq_false_2; [done|by intros []]. }
  rewrite E1. change (1 - 1 =? 0) with true. cbv iota.
  destruct (remove_listed i (open_inodes s) Hin) as (lst & Hrm & Hperm).
  unfold bind at 1, gets_opt. change (open_inodes s1) with (open_inodes s). rewrite Hrm. mnorm.
  assert (i ∉ lst) as Hni by (pose proof (proj1 (fi_list _ _ Hi)) as Hd; rewrite Hperm in Hd; by apply NoDup_cons in Hd as [? _]).
  set (s2 := set_open_inodes lst s1).
  assert (fs_inv0 live s2) as Hi2.
  { change s2 with (set_inodes (inodes s1) (set_open_inodes lst s)). apply fs_inv0_inodes.
    - by eapply fs_inv0_unlist.
    - intros j Hj. cbn in Hj |- *. apply lookup_insert_ne. congruence.
    - intros a Ha. cbn. destruct (fi_fresh _ _ Hi a Ha) as [? _]. rewrite lookup_insert_ne by congruence. done. }
  assert (forall lv s3, fs_inv0 lv s3 -> coherent lv s3 -> same_but_map s2 s3 ->
    fs_inv lv (set_inodes (delete i (inodes s3)) s3)) as Hend.
  { intros lv s3 H3 Hc3 Hm. destruct (same_but_map_fields _ _ Hm) as (F1 & F2 & _).
    assert (i ∉ open_inodes s3) as Hni3 by (by rewrite F2). split; [|split; [exact Hc3|]].
    - apply fs_inv0_inodes; [done|intros j Hj; apply lookup_delete_ne; congruence|].
      intros a Ha. apply lookup_delete_None. right. by apply (fi_fresh _ _ H3).
    - intros j w. cbn. rewrite lookup_delete_Some, F1, F2. cbn. intros [Hne Hw].
      rewrite lookup_insert_ne in Hw by done. apply Hls in Hw. rewrite Hperm in Hw.
      by apply elem_of_cons in Hw as [->|]. }
  assert (fs_inv0 (delete (sector v) live) s2) as Hi2'.
  { apply fs_inv0_unlive; [done|]. intros j w Hj Hw E. cbn in Hj, Hw.
    rewrite lookup_insert_ne in Hw by congruence. apply Hni.
    replace i with j; [done|]. apply (fi_same _ _ Hi j i w v); [rewrite Hperm; by right|done..]. }
  destruct (removed v) eqn:Hrem.
  - destruct (release_file_ok (delete (sector v) live) s2 (sector v) (data v))
      as (s3 & Hr3 & Hi3 & Hc3 & Hm3 & Hu3 & Hb3 & Hb3').
    + done.
    + apply lookup_delete_eq.
    + apply (fi_live _ _ Hi2 _ _ Hlv).
    + intros x Hx. by apply (fi_used _ _ Hi2 _ _ _ Hlv).
    + intros sec' d' x [Hne Hl]%lookup_delete_Some Hx Hx'. apply Hne. symmetry.
      by apply (fi_apart _ _ Hi2 sec' d' (sector v) (data v) x).
    + mrun Hr3. pose proof (Hend _ _ Hi3 Hc3 Hm3) as Hfin. eexists. split; [done|]. split; [done|].
      destruct (same_but_map_fields _ _ Hm3) as (F1 & F2 & F3 & F4 & F5 & F6 & F7). split; [|split; [|split]].
      * exact (untouched_kept _ s2 s3 Hi2' Hu3).
      * done.
      * cbn. rewrite F1. cbn. by rewrite delete_insert_eq.
      * intros x Hx. cbn. destruct (decide (in_file (sector v) (data v) x)) as [Hin'|Hin'].
        { rewrite bool_decide_eq_true_2 by done. by apply Hb3. }
        { rewrite bool_decide_eq_false_2 by (by intros []). by rewrite Hb3'. }
  - mnorm. eexists. split; [done|]. split; [apply Hend; [done|exact Hc|]|].
    { apply (same_but_map_intro s2 (free_map s2)). by destruct s2. }
    split; [done|]. split; [done|]. split; [cbn; by rewrite delete_insert_eq|].
    intros x _. rewrite bool_decide_eq_false_2; [done|by intros []].
Qed.

(** ** Writing a file *)

(** A write to an open file keeps the invariant and the other files. *)
Lemma write_file_ok live s i v buffer size offset :
  fs_inv live s -> inodes s !! i = Some v -> sector v <> FREE_MAP_SECTOR -> deny_write_cnt v = 0 ->
  0 <= offset < 2147483648 -> 0 <= size <= Z.of_nat (length buffer) ->
  exists s', inode_write_at i buffer size offset s = Ok (available (data v) size offset, s') /\
    fs_inv live s' /\ same_but_disk s s' /\
    contents s' (data v)
      = splice (Z.to_nat offset) (take (Z.to_nat (available (data v) size offset)) buffer) (contents s (data v)) /\
    other_files live (sector v) s s'.
Proof.
  intros (Hi & Hc & Hls) Hv Hsec Hdeny Ho Hs. pose proof (Hls i v Hv) as Hin.
  destruct (fi_open _ _ Hi i v Hin Hv) as (_ & Hl & _).
  destruct (inode_write_untouched s i v buffer size offset) as (s' & Hr & Hsb & Hcon & Hu);
    [by eapply inv_opened|done..|apply (fi_mem _ _ Hi)|].
  assert (forall sec d x, live !! sec = Some d -> sec <> sector v -> in_data (data v) x -> ~ in_file sec d x) as Hap.
  { intros sec d x Hd Hne. by apply (live_apart live s (sector v) (data v) sec d Hi). }
  exists s'. split; [done|]. split; [split; [|split]|split; [done|split; [done|]]].
  - apply (fs_inv0_disk live s s' (in_data (data v))); [done..|]. intros sec d Hd Hx.
    destruct (decide (sec = sector v)) as [->|Hne].
    + assert (d = data v) as -> by congruence. by apply (od_self _ _ _ (fi_live _ _ Hi _ _ Hd)).
    + apply (Hap sec d sec); [done..|]. by left.
  - apply (coherent_disk live s s' (in_data (data v))); [done..| |].
    + intros d Hd. by eapply live_sizes.
    + intros x Hx (d & Hd & Hx'). apply (Hap FREE_MAP_SECTOR d x); [done|congruence|done|]. by right.
  - by apply (listed_sbd s).
  - intros sec d Hd Hne. destruct (live_sizes _ _ _ _ Hi Hd). apply Hu; [done|done|].
    intros x Hx Hx'. apply (Hap sec d x); [done..|]. by right.
Qed.


End FsInv.
