(* ===== verification/DirProps.v ===== *)
(** * Directories as finite maps

    The loops of src/src/filesys/directory.c over the 20-byte entries of a
    directory, refined to operations on the list of its entries, and that
    list to a finite map from names to sectors. *)

From S2P Require Import Prelude KState Bitmap FsState Inode FileOps Directory FsInv.
Import FsState Inode FileOps Directory FsInv.

Module DirProps.

(** ** Entries *)

(** The entries of a directory with the contents [bs]. *)
Definition entries (bs : list Z) : list (list Z) :=
  map (fun k => take 20 (drop (20 * k) bs)) (seq 0 (length bs / 20)).

Lemma entries_length bs : length (entries bs) = (length bs / 20)%nat.
Proof. unfold entries. by rewrite length_map, length_seq. Qed.

Lemma entries_lookup bs k e :
  entries bs !! k = Some e <-> (k < length bs / 20)%nat /\ e = take 20 (drop (20 * k) bs).
Proof.
  unfold entries. change (map ?f ?l) with (f <$> l). rewrite list_lookup_fmap, fmap_Some. split.
  - intros (x & [-> Hk]%lookup_seq & ->). done.
  - intros [Hk ->]. exists k. split; [by apply lookup_seq|done].
Qed.

Lemma div20 n k : (k < n / 20 -> 20 * k + 20 <= n)%nat.
Proof. intros H. pose proof (Nat.div_mod n 20 ltac:(lia)). lia. Qed.

Lemma entry_length bs e : e ∈ entries bs -> length e = 20%nat.
Proof.
  intros [k Hk]%list_elem_of_lookup. apply entries_lookup in Hk as [Hk ->].
  apply div20 in Hk. rewrite length_take, length_drop. lia.
Qed.

(** Writing one entry. *)
Lemma entries_splice bs k e :
  (length bs mod 20 = 0)%nat -> (k < length bs / 20)%nat -> length e = 20%nat ->
  entries (splice (20 * k) e bs) = <[k := e]> (entries bs).
Proof.
  intros Hm Hk He. pose proof (div20 _ _ Hk) as Hk'. apply list_eq. intros j.
  assert (length (splice (20 * k) e bs) = length bs) as Hl by (apply splice_length; lia).
  apply option_eq. intros x. rewrite entries_lookup, Hl.
  destruct (decide (j = k)) as [->|Hne].
  - rewrite list_lookup_insert_eq by (by rewrite entries_length).
    assert (take 20 (drop (20 * k) (splice (20 * k) e bs)) = e) as E.
    { rewrite <- (Nat.add_0_r (20 * k)) at 2. rewrite splice_app_l by lia. unfold splice. simpl.
      rewrite He. by rewrite take_app_length'. }
    rewrite E. naive_solver.
  - rewrite list_lookup_insert_ne, entries_lookup by done.
    assert ((j < length bs / 20)%nat -> take 20 (drop (20 * j) (splice (20 * k) e bs)) = take 20 (drop (20 * j) bs)) as E.
    { intros Hj. apply div20 in Hj. destruct (Nat.lt_ge_cases j k).
      - rewrite !firstn_skipn_comm. f_equal. apply take_splice_below; lia.
      - f_equal. apply drop_splice_above; lia. }
    split; intros [Hj ->]; (split; [done|]); by rewrite E.
Qed.

(** ** Names *)

(** What an entry says: nothing, or a name and a sector. *)
Definition binding (e : list Z) : option (list Z * Z) :=
  if entry_in_use e then
    match cstring (entry_name e) with Some nm => Some (nm, entry_sector e) | None => None end
  else None.

(** A name that can be looked up: bytes that are not zero. *)
Definition name_ok (name : list Z) : Prop := Forall (fun c => c <> 0) name.

(** An entry whose name is terminated. *)
Definition entry_ok (e : list Z) : Prop :=
  length e = 20%nat /\ (entry_in_use e = true -> is_Some (cstring (entry_name e))).

Lemma streq_cstring name bytes nm :
  name_ok name -> cstring bytes = Some nm -> streq name bytes = Some (bool_decide (name = nm)).
Proof.
  intros Hn. revert name Hn nm. induction bytes as [|b bytes IH]; intros name Hn nm H; [done|].
  cbn [cstring] in H. destruct (Z.eqb_spec b 0) as [->|Hb].
  - injection H as <-. destruct name as [|c name]; cbn [streq].
    + by rewrite bool_decide_eq_true_2.
    + apply Forall_cons in Hn as [Hc _]. rewrite (proj2 (Z.eqb_neq _ _)) by done.
      by rewrite bool_decide_eq_false_2.
  - destruct (cstring bytes) as [nm'|] eqn:E; [|done]. injection H as <-.
    destruct name as [|c name]; cbn [streq].
    + rewrite (proj2 (Z.eqb_neq _ _)) by done. by rewrite bool_decide_eq_false_2.
    + apply Forall_cons in Hn as [Hc Hn]. destruct (Z.eqb_spec b c) as [->|Hbc].
      * rewrite (IH name Hn nm') by done. f_equal. apply bool_decide_ext. naive_solver.
      * rewrite bool_decide_eq_false_2; [done|]. naive_solver.
Qed.

Lemma cstring_app name rest : name_ok name -> cstring (name ++ 0 :: rest) = Some name.
Proof.
  induction 1 as [|c name Hc _ IH]; [done|]. cbn [app cstring].
  rewrite (proj2 (Z.eqb_neq _ _)) by done. by rewrite IH.
Qed.

Lemma splice_0 bs l : splice 0 bs l = bs ++ drop (length bs) l.
Proof. done. Qed.

Lemma nth_drop_0 n (l : list Z) : nth n l 0 = nth 0 (drop n l) 0.
Proof. by rewrite !nth_lookup, lookup_drop, Nat.add_0_r. Qed.

Lemma nth_splice_above n p bs l :
  (p + length bs <= n)%nat -> (p + length bs <= length l)%nat -> nth n (splice p bs l) 0 = nth n l 0.
Proof. intros H1 H2. by rewrite nth_drop_0, drop_splice_above, <- nth_drop_0. Qed.

(** A filled entry says what it was filled with. *)
Lemma fill_entry_ok e name sec :
  length e = 20%nat -> name_ok name -> (length name <= 14)%nat -> in_u32 sec ->
  length (fill_entry e name sec) = 20%nat /\ binding (fill_entry e name sec) = Some (name, sec) /\
  entry_ok (fill_entry e name sec).
Proof.
  intros He Hn Hl Hs. unfold fill_entry. rewrite take_ge by lia.
  set (e1 := splice 19 [1] e).
  assert (length e1 = 20%nat) as H1 by (unfold e1; rewrite splice_length; simpl; lia).
  set (e2 := splice 4 (name ++ [0]) e1).
  assert (length e2 = 20%nat) as H2 by (unfold e2; rewrite splice_length; rewrite ?length_app; simpl; lia).
  assert (length (splice 0 (le32 sec) e2) = 20%nat) as H3 by (rewrite splice_length; simpl; lia).
  assert (entry_name (splice 0 (le32 sec) e2) = name ++ 0 :: drop (5 + length name) e1) as Hnm.
  { unfold entry_name. rewrite drop_splice_above by (simpl; lia). unfold e2.
    rewrite <- (Nat.add_0_r 4) at 2. rewrite splice_app_l by (rewrite length_app; simpl; lia).
    rewrite splice_0, drop_drop, length_app, <- app_assoc. simpl. do 3 f_equal. lia. }
  assert (entry_in_use (splice 0 (le32 sec) e2) = true) as Hu.
  { unfold entry_in_use. rewrite nth_splice_above by (simpl; lia). unfold e2.
    rewrite nth_splice_above by (rewrite length_app; simpl; lia). unfold e1.
    rewrite nth_drop_0. rewrite <- (Nat.add_0_r 19) at 2. rewrite splice_app_l by (simpl; lia). done. }
  assert (cstring (entry_name (splice 0 (le32 sec) e2)) = Some name) as Hc by (rewrite Hnm; by apply cstring_app).
  split; [done|]. split; [|split; [done|by rewrite Hc]].
  unfold binding. rewrite Hu, Hc. do 2 f_equal. unfold entry_sector. by apply le32_roundtrip.
Qed.

Lemma clear_entry_ok e :
  length e = 20%nat ->
  length (clear_entry e) = 20%nat /\ binding (clear_entry e) = None /\ entry_ok (clear_entry e).
Proof.
  intros He. unfold clear_entry. assert (length (splice 19 [0] e) = 20%nat) as Hl by (rewrite splice_length; simpl; lia).
  assert (entry_in_use (splice 19 [0] e) = false) as Hu.
  { unfold entry_in_use. rewrite nth_drop_0. rewrite <- (Nat.add_0_r 19) at 2. rewrite splice_app_l by (simpl; lia). done. }
  split; [done|]. split; [unfold binding; by rewrite Hu|]. split; [done|]. by rewrite Hu.
Qed.

(** ** Directories as maps *)

Record dir_ok (bs : list Z) : Prop := {
  dk_size : (length bs mod 20 = 0)%nat;
  dk_entries : Forall entry_ok (entries bs);
  dk_names : NoDup (omap binding (entries bs)).*1
}.

(** The files of a directory: names to sectors. *)
Definition dir_map (bs : list Z) : gmap (list Z) Z := list_to_map (omap binding (entries bs)).

Lemma dir_map_lookup bs name sec :
  dir_ok bs -> dir_map bs !! name = Some sec <-> exists e, e ∈ entries bs /\ binding e = Some (name, sec).
Proof.
  intros [_ _ Hnd]. unfold dir_map. rewrite <- elem_of_list_to_map by done. by rewrite list_elem_of_omap.
Qed.

Lemma dir_map_none bs name :
  dir_map bs !! name = None <-> forall e sec, e ∈ entries bs -> binding e <> Some (name, sec).
Proof.
  unfold dir_map. rewrite <- not_elem_of_list_to_map. rewrite list_elem_of_fmap. split.
  - intros H e sec He Hb. apply H. exists (name, sec). split; [done|]. apply list_elem_of_omap. eauto.
  - intros H ([nm sec] & -> & (e & He & Hb)%list_elem_of_omap). by eapply H.
Qed.

(** Replacing an entry is replacing its binding. *)
Lemma bindings_insert bs k e e' :
  entries bs !! k = Some e ->
  exists rest, omap binding (entries bs) ≡ₚ omap binding [e] ++ rest /\
    omap binding (<[k := e']> (entries bs)) ≡ₚ omap binding [e'] ++ rest.
Proof.
  intros Hk. exists (omap binding (delete k (entries bs))). split.
  - rewrite <- omap_app. by rewrite (delete_Permutation _ _ _ Hk) at 1.
  - rewrite <- omap_app. apply omap_Permutation.
    rewrite (delete_Permutation (<[k:=e']> (entries bs)) k e').
    + simpl. f_equiv. rewrite !delete_take_drop. rewrite take_insert_ge, drop_insert_lt by lia. done.
    + apply list_lookup_insert_eq. by eapply lookup_lt_Some.
Qed.

Lemma entries_write bs k e :
  dir_ok bs -> (k < length (entries bs))%nat -> entry_ok e ->
  let bs' := splice (20 * k) e bs in
  entries bs' = <[k := e]> (entries bs) /\ length bs' = length bs /\ Forall entry_ok (entries bs').
Proof.
  intros [H1 H2 H3] Hk He bs'. rewrite entries_length in Hk. pose proof (div20 _ _ Hk).
  assert (entries bs' = <[k := e]> (entries bs)) as E by (apply entries_splice; [done|done|apply He]).
  split; [done|]. split; [apply splice_length; destruct He; lia|]. rewrite E. by apply Forall_insert.
Qed.

Lemma dir_map_add bs k e e' name sec :
  dir_ok bs -> entries bs !! k = Some e -> binding e = None -> entry_ok e' -> binding e' = Some (name, sec) ->
  dir_map bs !! name = None ->
  dir_ok (splice (20 * k) e' bs) /\ dir_map (splice (20 * k) e' bs) = <[name := sec]> (dir_map bs).
Proof.
  intros Hok Hk Hb He' Hb' Hn. destruct (entries_write bs k e' Hok) as (E & El & Hall);
    [by eapply lookup_lt_Some|done|]. pose proof Hok as [H1 H2 H3].
  destruct (bindings_insert bs k e e' Hk) as (rest & P1 & P2). simpl in P1, P2. rewrite Hb in P1. rewrite Hb' in P2.
  rewrite <- E in P2. simpl in P1, P2.
  assert (name ∉ rest.*1) as Hnot.
  { rewrite <- P1. by apply not_elem_of_list_to_map. }
  assert (NoDup (omap binding (entries (splice (20 * k) e' bs))).*1) as Hnd.
  { rewrite P2. simpl. constructor; [done|]. by rewrite <- P1. }
  split; [split; [by rewrite El|done|done]|].
  unfold dir_map. rewrite (list_to_map_proper _ _ Hnd P2), (list_to_map_proper _ _ H3 P1). done.
Qed.

Lemma dir_map_remove bs k e e' name sec :
  dir_ok bs -> entries bs !! k = Some e -> binding e = Some (name, sec) -> entry_ok e' -> binding e' = None ->
  dir_ok (splice (20 * k) e' bs) /\ dir_map (splice (20 * k) e' bs) = delete name (dir_map bs).
Proof.
  intros Hok Hk Hb He' Hb'. destruct (entries_write bs k e' Hok) as (E & El & Hall);
    [by eapply lookup_lt_Some|done|]. pose proof Hok as [H1 H2 H3].
  destruct (bindings_insert bs k e e' Hk) as (rest & P1 & P2). simpl in P1, P2. rewrite Hb in P1. rewrite Hb' in P2.
  rewrite <- E in P2. simpl in P1, P2.
  assert (NoDup (name :: rest.*1)) as Hnd by (rewrite P1 in H3; exact H3). apply NoDup_cons in Hnd as [Hnot Hnd].
  assert (NoDup (omap binding (entries (splice (20 * k) e' bs))).*1) as Hnd' by (by rewrite P2).
  split; [split; [by rewrite El|done|done]|].
  unfold dir_map. rewrite (list_to_map_proper _ _ Hnd' P2), (list_to_map_proper _ _ H3 P1). simpl.
  rewrite delete_insert_id; [done|]. by apply not_elem_of_list_to_map.
Qed.


(** ** The loops *)

Section loops.
Context (i : Z) (v : inode).

(** An inode that is open and holds a directory. *)
Record dir_state (s : fs) : Prop := {
  ds_open : opened s i v;
  ds_mem : mem_ok s;
  ds_ok : dir_ok (contents s (data v))
}.

Lemma dir_state_quiet s s' :
  dir_state s -> quiet s s' -> dir_state s' /\ contents s' (data v) = contents s (data v).
Proof.
  intros [H1 H2 H3] [Hs Hd]. assert (contents s' (data v) = contents s (data v)) as E by (unfold contents, flat; by rewrite Hd).
  split; [|done]. split; [by eapply opened_sbd|by apply (sbd_mem _ _ Hs)|by rewrite E].
Qed.

Lemma dir_size s : dir_state s -> dlength (data v) = 20 * Z.of_nat (length (entries (contents s (data v)))).
Proof.
  intros [H1 _ [Hm _ _]]. rewrite entries_length. pose proof (contents_length s i v H1) as Hl.
  destruct H1 as (_ & _ & [Hd _ _ _] & _). rewrite Hl in *.
  pose proof (Nat.div_mod (Z.to_nat (dlength (data v))) 20 ltac:(lia)). lia.
Qed.

(** One call of [inode_read_at] reads one entry. *)
Lemma read_entry s e k :
  dir_state s -> length e = 20%nat -> (k <= length (entries (contents s (data v))))%nat ->
  exists s', quiet s s' /\ inode_read_at i e ENTRY_SIZE (20 * Z.of_nat k) s
    = Ok (match entries (contents s (data v)) !! k with Some e' => (20, e') | None => (0, e) end, s').
Proof.
  intros Hds He Hk. pose proof (dir_size s Hds) as Hsz. pose proof Hds as [Hop Hm _].
  pose proof Hop as (_ & _ & [Hd _ _ _] & _).
  destruct (inode_read_at_ok s i v e ENTRY_SIZE (20 * Z.of_nat k) Hop) as (n & s' & Hr & Hn & Hq & Hall);
    [lia|unfold ENTRY_SIZE; lia|].
  exists s'. split; [done|]. rewrite Hr, (Hall Hm). do 2 f_equal. unfold available, ENTRY_SIZE. rewrite Hsz.
  set (es := entries (contents s (data v))) in *. destruct (es !! k) as [e'|] eqn:E.
  - apply entries_lookup in E as [Hlt ->]. rewrite <- entries_length in Hlt. fold es in Hlt.
    replace (Z.min 20 _) with 20 by lia. change (Z.to_nat 20) with 20%nat.
    rewrite (drop_ge e) by lia. rewrite app_nil_r. do 3 f_equal. lia.
  - apply lookup_ge_None in E. replace (Z.min 20 _) with 0 by lia. done.
Qed.

(** The first entry from the [k]th on that satisfies [P]. *)
Fixpoint first_entry (P : list Z -> bool) (es : list (list Z)) (k : nat) : option (list Z * nat) :=
  match es with
  | [] => None
  | e :: es' => if P e then Some (e, k) else first_entry P es' (S k)
  end.

Lemma first_entry_some P es k e j :
  first_entry P es k = Some (e, j) -> P e = true /\ (k <= j)%nat /\ es !! (j - k)%nat = Some e.
Proof.
  revert k. induction es as [|x es IH]; intros k; cbn [first_entry]; [done|]. destruct (P x) eqn:HP.
  - intros [= <- <-]. rewrite Nat.sub_diag. done.
  - intros (H1 & H2 & H3)%IH. split; [done|]. split; [lia|]. by replace (j - k)%nat with (S (j - S k)) by lia.
Qed.

Lemma first_entry_none P es k e : first_entry P es k = None -> e ∈ es -> P e = false.
Proof.
  revert k. induction es as [|x es IH]; intros k; cbn [first_entry]; [by intros _ ?%elem_of_nil|].
  destruct (P x) eqn:HP; [done|]. intros H [->|He]%elem_of_cons; [done|eauto].
Qed.

(** An entry in use under the name. *)
Definition is_named (name e : list Z) : bool := entry_in_use e && bool_decide (cstring (entry_name e) = Some name).

Lemma is_named_binding name e : is_named name e = true <-> binding e = Some (name, entry_sector e).
Proof.
  unfold is_named, binding. destruct (entry_in_use e); [|done]. cbn [andb].
  destruct (cstring (entry_name e)) as [nm|]; rewrite bool_decide_eq_true; naive_solver.
Qed.

Lemma binding_sector e name sec : binding e = Some (name, sec) -> sec = entry_sector e.
Proof. unfold binding. destruct (entry_in_use e); [|done]. destruct (cstring _); naive_solver. Qed.

Lemma lookup_loop_ok name (Hname : name_ok name) : forall fuel s e k,
  dir_state s -> length e = 20%nat -> (k <= length (entries (contents s (data v))))%nat ->
  (length (entries (contents s (data v))) - k < fuel)%nat ->
  exists s', quiet s s' /\ lookup_loop fuel i name e (20 * Z.of_nat k) s
    = Ok (match first_entry (is_named name) (drop k (entries (contents s (data v)))) k with
          | Some (e', j) => Some (e', 20 * Z.of_nat j) | None => None end, s').
Proof.
  induction fuel as [|fuel IH]; intros s e k Hds He Hk Hf; [lia|]. cbn [lookup_loop].
  destruct (read_entry s e k Hds He Hk) as (s1 & Hq1 & Hr1). mrun Hr1.
  destruct (dir_state_quiet s s1 Hds Hq1) as [Hds1 E1].
  set (es := entries (contents s (data v))) in *. destruct (es !! k) as [e'|] eqn:E; cbn [fst snd].
  2:{ change (0 =? ENTRY_SIZE) with false. cbv iota. exists s1. split; [done|].
      apply lookup_ge_None in E. rewrite drop_ge by lia. done. }
  change (20 =? ENTRY_SIZE) with true. cbv iota.
  assert (entry_ok e') as [He' Hterm].
  { destruct Hds as [_ _ [_ Hall _]]. rewrite Forall_forall in Hall. by eapply Hall, list_elem_of_lookup_2. }
  assert ((if entry_in_use e' then gets_opt (fun _ => streq name (entry_name e')) else ret false) s1
    = Ok (is_named name e', s1)) as Hsame.
  { unfold is_named. destruct (entry_in_use e'); [|done]. destruct (Hterm eq_refl) as [nm Hnm].
    unfold gets_opt. rewrite (streq_cstring name _ nm), Hnm by done. cbn [andb]. do 2 f_equal.
    apply bool_decide_ext. naive_solver. }
  mrun Hsame. rewrite (drop_S es e' k E). cbn [first_entry].
  destruct (is_named name e'); [by exists s1|]. fold es in IH.
  destruct (IH s1 e' (S k)) as (s2 & Hq2 & Hr2); [done|done| | |].
  - rewrite E1. fold es. apply lookup_lt_Some in E. lia.
  - rewrite E1. fold es. apply lookup_lt_Some in E. lia.
  - exists s2. split; [by transitivity s1|]. rewrite E1 in Hr2. fold es in Hr2.
    replace (20 * Z.of_nat k + ENTRY_SIZE) with (20 * Z.of_nat (S k)) by (unfold ENTRY_SIZE; lia). done.
Qed.

Lemma free_slot_loop_ok : forall fuel s e k,
  dir_state s -> length e = 20%nat -> (k <= length (entries (contents s (data v))))%nat ->
  (length (entries (contents s (data v))) - k < fuel)%nat ->
  exists s' e', quiet s s' /\ length e' = 20%nat /\ free_slot_loop fuel i e (20 * Z.of_nat k) s
    = Ok (match first_entry (fun e => negb (entry_in_use e)) (drop k (entries (contents s (data v)))) k with
          | Some (e', j) => (e', 20 * Z.of_nat j) | None => (e', dlength (data v)) end, s').
Proof.
  induction fuel as [|fuel IH]; intros s e k Hds He Hk Hf; [lia|]. cbn [free_slot_loop].
  destruct (read_entry s e k Hds He Hk) as (s1 & Hq1 & Hr1). mrun Hr1.
  destruct (dir_state_quiet s s1 Hds Hq1) as [Hds1 E1]. pose proof (dir_size s Hds) as Hsz.
  set (es := entries (contents s (data v))) in *. destruct (es !! k) as [e'|] eqn:E; cbn [fst snd].
  2:{ change (0 =? ENTRY_SIZE) with false. cbv iota. exists s1, e. split; [done|]. split; [done|].
      apply lookup_ge_None in E. rewrite drop_ge by lia. rewrite Hsz. unfold ret. do 3 f_equal. lia. }
  change (20 =? ENTRY_SIZE) with true. cbv iota.
  assert (length e' = 20%nat) as He' by (eapply entry_length, list_elem_of_lookup_2; exact E).
  rewrite (drop_S es e' k E). cbn [first_entry].
  destruct (negb (entry_in_use e')); [by exists s1, e|]. fold es in IH.
  destruct (IH s1 e' (S k)) as (s2 & e2 & Hq2 & He2 & Hr2); [done|done| | |].
  - rewrite E1. fold es. apply lookup_lt_Some in E. lia.
  - rewrite E1. fold es. apply lookup_lt_Some in E. lia.
  - exists s2, e2. split; [by transitivity s1|]. split; [done|]. rewrite E1 in Hr2. fold es in Hr2.
    replace (20 * Z.of_nat k + ENTRY_SIZE) with (20 * Z.of_nat (S k)) by (unfold ENTRY_SIZE; lia). done.
Qed.

End loops.


End DirProps.
