(* ===== verification/FileSys.v ===== *)
(** * The file system's interface

    The operations of src/src/filesys/directory.c and
    src/src/filesys/filesys.c on a device that satisfies the file-system
    invariant: a directory is a finite map from names to sectors, and what an
    operation does to it leaves every other file as it is. *)

From S2P Require Import Prelude KState Bitmap FsState Inode FileOps Directory FsInv DirProps.
Import FsState Inode FileOps Directory FsInv DirProps.

Module FileSys.

(** ** A directory that is open *)

(** [d] is an open directory whose inode is [i]. *)
Record is_dir (s : fs) (d i : Z) (v : inode) : Prop := {
  id_null : d <> NULL;
  id_dir : exists pos, dirs s !! d = Some (mkDir i pos);
  id_inode : inodes s !! i = Some v;
  id_sector : sector v <> FREE_MAP_SECTOR;
  id_ok : dir_ok (contents s (data v))
}.

Lemma is_dir_state live s d i v : fs_inv live s -> is_dir s d i v -> dir_state i v s.
Proof.
  intros (Hi & _ & Hls) [_ _ Hv _ Hok]. split; [|apply (fi_mem _ _ Hi)|done].
  eapply inv_opened; [done| |done]. by eapply Hls.
Qed.

Lemma directory_run s d i v :
  is_dir s d i v -> exists pos, directory d s = Ok (mkDir i pos, s).
Proof.
  intros [Hn [pos Hd] _ _ _]. exists pos. unfold directory, gets_opt. by rewrite (proj2 (Z.eqb_neq _ _) Hn), Hd.
Qed.

Lemma entry_fuel_run s d i v :
  is_dir s d i v -> i <> NULL -> entry_fuel i s = Ok (S (Z.to_nat (dlength (data v))), s).
Proof. intros [_ _ Hv _ _] Hn. unfold entry_fuel, inode_length. mnorm. by mrun (inod_run _ _ _ Hv Hn). Qed.

Lemma is_dir_quiet s s' d i v :
  is_dir s d i v -> quiet s s' -> is_dir s' d i v /\ contents s' (data v) = contents s (data v).
Proof.
  intros [H1 H2 H3 H4 H5] [Hs Hd].
  assert (contents s' (data v) = contents s (data v)) as E by (unfold contents, flat; by rewrite Hd).
  pose proof (sbd_rest _ _ Hs) as R. unfold rest in R. injection R as E1 _ _ E4 _ _.
  split; [|done]. by split; rewrite ?E1, ?E4, ?E.
Qed.

(** The names of an open directory. *)
Definition names_of (s : fs) (v : inode) : gmap (list Z) Z := dir_map (contents s (data v)).

Lemma lookup_ok live s d i v name e :
  fs_inv live s -> is_dir s d i v -> name_ok name -> length e = 20%nat ->
  exists s', quiet s s' /\
    ((lookup d name e s = Ok (None, s') /\ names_of s v !! name = None) \/
     exists e' k sec, lookup d name e s = Ok (Some (e', 20 * Z.of_nat k), s') /\
       entries (contents s (data v)) !! k = Some e' /\ binding e' = Some (name, sec) /\
       names_of s v !! name = Some sec).
Proof.
  intros Hi Hd Hn He. pose proof (is_dir_state _ _ _ _ _ Hi Hd) as Hds.
  destruct (directory_run _ _ _ _ Hd) as [pos Hdr]. pose proof (ds_open _ _ _ Hds) as (_ & Hin & _).
  pose proof (dir_size i v s Hds) as Hsz.
  destruct (lookup_loop_ok i v name Hn (S (Z.to_nat (dlength (data v)))) s e 0) as (s' & Hq & Hr); [done|done|lia|lia|].
  exists s'. split; [done|]. unfold lookup. rewrite (proj2 (Z.eqb_neq _ _) (id_null _ _ _ _ Hd)). mnorm.
  mrun Hdr. cbn [dir_inode]. mrun (entry_fuel_run _ _ _ _ Hd Hin). change (20 * Z.of_nat 0) with 0 in Hr. rewrite Hr.
  unfold names_of. rewrite drop_0 in *. destruct (first_entry _ _ _) as [[e' k]|] eqn:E.
  - apply first_entry_some in E as (Hnm & _ & Hk). rewrite Nat.sub_0_r in Hk. apply is_named_binding in Hnm.
    right. exists e', k, (entry_sector e'). split; [done|]. split; [done|]. split; [done|].
    apply dir_map_lookup; [apply Hd|]. exists e'. split; [by eapply list_elem_of_lookup_2|done].
  - left. split; [done|]. apply dir_map_none. intros e' sec He' Hb.
    pose proof (first_entry_none _ _ _ _ E He') as Hf. pose proof (binding_sector _ _ _ Hb) as ->.
    apply is_named_binding in Hb. congruence.
Qed.

(** ** Adding a name *)

(** Why [dir_add] fails. *)
Definition cannot_add (s : fs) (v : inode) (name : list Z) : Prop :=
  (length name = 0)%nat \/ (14 < length name)%nat \/ is_Some (names_of s v !! name) \/
  forall e, e ∈ entries (contents s (data v)) -> entry_in_use e = true.

Lemma other_files_quiet live sec s s' : quiet s s' -> other_files live sec s s'.
Proof. intros [_ Hd] sec' d _ _. unfold contents, flat. by rewrite Hd. Qed.

Lemma other_files_trans live sec s1 s2 s3 :
  other_files live sec s1 s2 -> other_files live sec s2 s3 -> other_files live sec s1 s3.
Proof. intros H1 H2 sec' d Hd Hn. by rewrite (H2 sec' d), (H1 sec' d). Qed.

(** The write of an entry. *)
Lemma write_entry live s d i v e k :
  fs_inv live s -> is_dir s d i v -> deny_write_cnt v = 0 -> length e = 20%nat ->
  (k < length (entries (contents s (data v))))%nat ->
  exists s', inode_write_at i e ENTRY_SIZE (20 * Z.of_nat k) s = Ok (20, s') /\ fs_inv live s' /\ same_but_disk s s' /\
    contents s' (data v) = splice (20 * k) e (contents s (data v)) /\ other_files live (sector v) s s'.
Proof.
  intros Hi Hd Hdeny He Hk. pose proof (is_dir_state _ _ _ _ _ Hi Hd) as Hds.
  pose proof (dir_size i v s Hds) as Hsz. pose proof (ds_open _ _ _ Hds) as (_ & _ & [Hl _ _ _] & _).
  destruct (write_file_ok live s i v e ENTRY_SIZE (20 * Z.of_nat k)) as (s' & Hr & Hi' & Hsb & Hc & Ho);
    [done|apply Hd|apply Hd|done|lia|unfold ENTRY_SIZE; lia|].
  assert (available (data v) ENTRY_SIZE (20 * Z.of_nat k) = 20) as Ha by (unfold available, ENTRY_SIZE; lia).
  rewrite Ha in *. exists s'. split; [done|]. split; [done|]. split; [done|]. split; [|done].
  rewrite Hc. rewrite take_ge by lia. f_equal. lia.
Qed.

(** A write at the end of the directory writes nothing. *)
Lemma write_past_end live s d i v e :
  fs_inv live s -> is_dir s d i v -> deny_write_cnt v = 0 -> length e = 20%nat ->
  exists s', inode_write_at i e ENTRY_SIZE (dlength (data v)) s = Ok (0, s') /\ fs_inv live s' /\ same_but_disk s s' /\
    contents s' (data v) = contents s (data v) /\ other_files live (sector v) s s'.
Proof.
  intros Hi Hd Hdeny He. pose proof (is_dir_state _ _ _ _ _ Hi Hd) as Hds.
  pose proof (ds_open _ _ _ Hds) as (_ & _ & [Hl _ _ _] & _).
  destruct (write_file_ok live s i v e ENTRY_SIZE (dlength (data v))) as (s' & Hr & Hi' & Hsb & Hc & Ho);
    [done|apply Hd|apply Hd|done|lia|unfold ENTRY_SIZE; lia|].
  assert (available (data v) ENTRY_SIZE (dlength (data v)) = 0) as Ha by (unfold available, ENTRY_SIZE; lia).
  rewrite Ha in *. exists s'. split; [done|]. split; [done|]. split; [done|]. split; [|done].
  rewrite Hc. apply splice_nil.
Qed.

Lemma is_dir_write s s' d i v :
  is_dir s d i v -> same_but_disk s s' -> dir_ok (contents s' (data v)) -> is_dir s' d i v.
Proof.
  intros [H1 H2 H3 H4 _] Hs H5. pose proof (sbd_rest _ _ Hs) as R. unfold rest in R. injection R as E1 _ _ E4 _ _.
  by split; rewrite ?E1, ?E4.
Qed.

(** The loop of [dir_add]: a slot that is not in use, or the end. *)
Lemma free_slot_ok live s d i v e :
  fs_inv live s -> is_dir s d i v -> length e = 20%nat ->
  exists s' e', quiet s s' /\ length e' = 20%nat /\
    ((exists k, free_slot_loop (S (Z.to_nat (dlength (data v)))) i e 0 s = Ok ((e', 20 * Z.of_nat k), s') /\
        entries (contents s (data v)) !! k = Some e' /\ entry_in_use e' = false) \/
     (free_slot_loop (S (Z.to_nat (dlength (data v)))) i e 0 s = Ok ((e', dlength (data v)), s') /\
        forall x, x ∈ entries (contents s (data v)) -> entry_in_use x = true)).
Proof.
  intros Hi Hd He. pose proof (is_dir_state _ _ _ _ _ Hi Hd) as Hds. pose proof (dir_size i v s Hds) as Hsz.
  destruct (free_slot_loop_ok i v (S (Z.to_nat (dlength (data v)))) s e 0) as (s' & e' & Hq & He' & Hr);
    [done|done|lia|lia|].
  change (20 * Z.of_nat 0) with 0 in Hr. rewrite drop_0 in Hr.
  destruct (first_entry _ _ _) as [[e2 k]|] eqn:E.
  - apply first_entry_some in E as (Hnu%negb_true_iff & _ & Hk). rewrite Nat.sub_0_r in Hk.
    exists s', e2. split; [done|]. split; [eapply entry_length, list_elem_of_lookup_2; exact Hk|]. left. by exists k.
  - exists s', e'. split; [done|]. split; [done|]. right. split; [done|]. intros x Hx.
    pose proof (first_entry_none _ _ _ _ E Hx) as Hf. by apply negb_false_iff.
Qed.

Lemma dir_add_ok live s d i v name sec e :
  fs_inv live s -> is_dir s d i v -> deny_write_cnt v = 0 -> name_ok name -> in_u32 sec -> length e = 20%nat ->
  exists ok s', dir_add d name sec e s = Ok (ok, s') /\ fs_inv live s' /\ is_dir s' d i v /\
    same_but_disk s s' /\ other_files live (sector v) s s' /\
    if (ok : bool) then ~ cannot_add s v name /\ names_of s' v = <[name := sec]> (names_of s v)
    else cannot_add s v name /\ contents s' (data v) = contents s (data v).
Proof.
  intros Hi Hd Hdeny Hn Hsec He. unfold dir_add. rewrite (proj2 (Z.eqb_neq _ _) (id_null _ _ _ _ Hd)). mnorm.
  destruct ((Z.of_nat (length name) =? 0) || (Z.of_nat (length name) >? NAME_MAX)) eqn:Hlen.
  { exists false, s. split; [done|]. split; [done|]. split; [done|]. split; [done|]. split; [done|]. split; [|done].
    apply orb_prop in Hlen as [H%Z.eqb_eq|H]; unfold cannot_add; [left; lia|right; left].
    rewrite Z.gtb_ltb in H. apply Z.ltb_lt in H. unfold NAME_MAX in H. lia. }
  apply orb_false_elim in Hlen as [Hl1%Z.eqb_neq Hl2]. rewrite Z.gtb_ltb in Hl2. apply Z.ltb_ge in Hl2. unfold NAME_MAX in Hl2.
  destruct (lookup_ok live s d i v name e Hi Hd Hn He) as (s1 & Hq1 & Hcase).
  destruct (fs_inv_quiet _ _ _ Hi Hq1) as [Hi1 _]. destruct (is_dir_quiet _ _ _ _ _ Hd Hq1) as [Hd1 E1].
  destruct Hcase as [[Hr Hno]|(e' & k & sec' & Hr & _ & _ & Hsome)]; mrun Hr.
  2:{ exists false, s1. split; [done|]. split; [done|]. split; [done|]. split; [apply Hq1|].
      split; [by apply other_files_quiet|]. split; [|done]. right. right. left. by exists sec'. }
  destruct (directory_run _ _ _ _ Hd1) as [pos Hdr]. mrun Hdr. cbn [dir_inode].
  pose proof (ds_open _ _ _ (is_dir_state _ _ _ _ _ Hi1 Hd1)) as (_ & Hin & _).
  mrun (entry_fuel_run _ _ _ _ Hd1 Hin).
  destruct (free_slot_ok live s1 d i v e Hi1 Hd1 He) as (s2 & e2 & Hq2 & He2 & Hcase).
  destruct (fs_inv_quiet _ _ _ Hi1 Hq2) as [Hi2 _]. destruct (is_dir_quiet _ _ _ _ _ Hd1 Hq2) as [Hd2 E2].
  destruct (fill_entry_ok e2 name sec He2 Hn ltac:(lia) Hsec) as (Hf1 & Hf2 & Hf3).
  rewrite E1 in *. destruct Hcase as [(k & Hr2 & Hk & Hfree)|[Hr2 Hfull]]; mrun Hr2; cbn [fst snd].
  - destruct (write_entry live s2 d i v (fill_entry e2 name sec) k) as (s3 & Hr3 & Hi3 & Hs3 & Hc3 & Ho3);
      [done|done|done|done|rewrite E2; by eapply lookup_lt_Some|]. mrun Hr3.
    destruct (dir_map_add (contents s (data v)) k e2 (fill_entry e2 name sec) name sec) as [Hok Hmap];
      [apply Hd|done|unfold binding; by rewrite Hfree|done|done|exact Hno|].
    assert (contents s3 (data v) = splice (20 * k) (fill_entry e2 name sec) (contents s (data v))) as E3 by congruence.
    exists true, s3. split; [done|]. split; [done|]. split; [apply (is_dir_write s2); [done|done|by rewrite E3]|].
    split; [transitivity s1; [apply Hq1|]; transitivity s2; [apply Hq2|done]|].
    split; [by eapply other_files_trans, other_files_trans; [apply other_files_quiet|apply other_files_quiet|]|].
    split; [|unfold names_of; by rewrite E3].
    intros [?|[?|[[? Hs]|Hall]]]; [lia|lia|congruence|].
    rewrite (Hall e2) in Hfree by (by eapply list_elem_of_lookup_2). done.
  - destruct (write_past_end live s2 d i v (fill_entry e2 name sec)) as (s3 & Hr3 & Hi3 & Hs3 & Hc3 & Ho3); [done..|].
    mrun Hr3. exists false, s3. split; [done|]. split; [done|].
    split; [apply (is_dir_write s2); [done|done|rewrite Hc3; apply Hd2]|].
    split; [transitivity s1; [apply Hq1|]; transitivity s2; [apply Hq2|done]|].
    split; [by eapply other_files_trans, other_files_trans; [apply other_files_quiet|apply other_files_quiet|]|].
    split; [|congruence]. do 3 right. exact Hfull.
Qed.


(** ** Opening and closing a directory *)

(** Handles that are allocated already. *)
Lemma fs_inv_handles live s fl dr :
  fs_inv live s -> (forall a, brk s <= a -> fl !! a = None /\ dr !! a = None) ->
  fl !! free_map_file s = files s !! free_map_file s ->
  fs_inv live (set_files fl (set_dirs dr s)).
Proof.
  intros ([] & Hc & Hl) Hfresh Hmap. split; [|split; [exact Hc|exact Hl]]. split; cbn; try done.
  - intros a Ha. destruct (fi_fresh0 a Ha) as (H1 & _). by destruct (Hfresh a Ha).
  - intros sec d Hd. destruct (fi_live0 sec d Hd) as [H1 H2 H3 H4 H5]. split; try done. destruct H2. by split.
  - destruct fi_file0 as (f & w & H1 & H2 & H3). exists f, w. by rewrite Hmap.
Qed.

Lemma fs_inv_set_dirs live s dr :
  fs_inv live s -> (forall a, brk s <= a -> dr !! a = None) -> fs_inv live (set_dirs dr s).
Proof.
  intros Hi Hd. replace (set_dirs dr s) with (set_files (files s) (set_dirs dr s)) by (by destruct s).
  apply fs_inv_handles; [done| |done]. intros a Ha. split; [by apply (fi_fresh _ _ (proj1 Hi))|by apply Hd].
Qed.

Lemma fs_inv_set_files live s fl :
  fs_inv live s -> (forall a, brk s <= a -> fl !! a = None) ->
  fl !! free_map_file s = files s !! free_map_file s -> fs_inv live (set_files fl s).
Proof.
  intros Hi Hf Hm. replace (set_files fl s) with (set_files fl (set_dirs (dirs s) s)) by (by destruct s).
  apply fs_inv_handles; [done| |done]. intros a Ha. split; [by apply Hf|by apply (fi_fresh _ _ (proj1 Hi))].
Qed.

(** The parts of a state that handles do not touch. *)
Definition same_store (s s' : fs) : Prop :=
  disk s' = disk s /\ free_map s' = free_map s /\ free_map_file s' = free_map_file s.

#[export] Instance same_store_preorder : PreOrder same_store.
Proof. split; [done|]. intros a b c (?&?&?) (?&?&?). split; [congruence|]. split; congruence. Qed.

Lemma same_store_contents s s' d : same_store s s' -> contents s' d = contents s d.
Proof. intros (E & _). unfold contents, flat. by rewrite E. Qed.

Lemma quiet_store s s' : quiet s s' -> same_store s s'.
Proof. intros [Hs E]. pose proof (sbd_rest _ _ Hs) as R. unfold rest in R. by injection R as _ _ _ _ ? ?. Qed.

Lemma dir_open_ok live s i v :
  fs_inv live s -> inodes s !! i = Some v -> i <> NULL -> sector v <> FREE_MAP_SECTOR -> dir_ok (contents s (data v)) ->
  exists d s', dir_open i s = Ok (d, s') /\ fs_inv live s' /\ is_dir s' d i v /\ same_store s s' /\
    inodes s' = inodes s /\ files s' = files s /\ dirs s' = <[d := mkDir i 0]> (dirs s) /\ dirs s !! d = None /\ brk s <= brk s'.
Proof.
  intros Hi Hv Hn Hsec Hok. unfold dir_open. destruct (malloc_inv live s Hi) as (s1 & Hr & Hi1 & Hq & Hb). mrun Hr.
  pose proof (fi_brk _ _ (proj1 Hi)) as Hpos.
  rewrite (proj2 (Z.eqb_neq _ _) Hn), (proj2 (Z.eqb_neq (brk s) NULL)) by (unfold NULL; lia). cbn [negb andb]. mnorm.
  destruct (fi_fresh _ _ (proj1 Hi) (brk s) ltac:(lia)) as (_ & _ & Hfree).
  pose proof (quiet_store _ _ Hq) as Hst. pose proof (sbd_rest _ _ (proj1 Hq)) as R. unfold rest in R.
  injection R as E1 E2 E3 E4 E5 E6.
  assert (fs_inv live (set_dirs (<[brk s := mkDir i 0]> (dirs s1)) s1)) as Hi2.
  { apply fs_inv_set_dirs; [done|]. intros a Ha. rewrite lookup_insert_ne by lia.
    by apply (fi_fresh _ _ (proj1 Hi1)). }
  eexists _, _. split; [done|]. split; [done|]. cbn. rewrite E1, E3, E4. split.
  - split; cbn; [unfold NULL; lia|exists 0; apply lookup_insert_eq|by rewrite E1|done|].
    rewrite <- (same_store_contents _ _ (data v) Hst) in Hok. exact Hok.
  - split; [exact Hst|]. split; [done|]. split; [done|]. split; [done|]. split; [done|lia].
Qed.

Lemma dir_close_ok live s d i v :
  fs_inv live s -> is_dir s d i v -> dies v = false ->
  exists s', dir_close d s = Ok (tt, s') /\ fs_inv live s' /\ files_kept live s s' /\
    files s' = files s /\ dirs s' = delete d (dirs s) /\ length (disk s') = length (disk s) /\
    inodes s' = (if open_cnt v =? 1 then delete i (inodes s)
                 else <[i := set_open_cnt (open_cnt v - 1) v]> (inodes s)) /\
    (forall x, 0 <= x -> Bitmap.bit (free_map s') x = Bitmap.bit (free_map s) x).
Proof.
  intros Hi Hd Hdies. unfold dir_close. rewrite (proj2 (Z.eqb_neq _ _) (id_null _ _ _ _ Hd)).
  destruct (directory_run _ _ _ _ Hd) as [pos Hdr]. mrun Hdr. cbn [dir_inode].
  destruct (inode_close_ok live s i v Hi (id_inode _ _ _ _ Hd) (id_sector _ _ _ _ Hd))
    as (s1 & Hr & Hi1 & Hk & (F1 & F2 & F3 & F4 & F5) & Hino & Hbits). mrun Hr. unfold live_after in *. rewrite Hdies in *.
  eexists. split; [done|]. split.
  { apply fs_inv_set_dirs; [done|]. intros a Ha. apply lookup_delete_None. right.
    by apply (fi_fresh _ _ (proj1 Hi1)). }
  split; [exact Hk|]. cbn. split; [done|]. split; [by rewrite F2|]. split; [done|]. split; [done|].
  intros x Hx. rewrite Hbits by done. rewrite bool_decide_eq_false_2; [done|by intros []].
Qed.


(** ** The root directory *)

(** The names of the root directory. *)
Definition names (live : gmap Z inode_disk) (s : fs) : gmap (list Z) Z :=
  match live !! ROOT_DIR_SECTOR with Some d => dir_map (contents s d) | None => ∅ end.

(** The root directory is not removed nor protected, and what is removed has
    no name. *)
Definition clean (N : gmap (list Z) Z) (v : inode) : Prop :=
  (sector v = ROOT_DIR_SECTOR -> deny_write_cnt v = 0) /\
  (removed v = true -> sector v <> FREE_MAP_SECTOR /\ sector v <> ROOT_DIR_SECTOR /\
     forall name, N !! name <> Some (sector v)).

(** The file system between two calls of its interface. *)
Record fs_ok (live : gmap Z inode_disk) (s : fs) : Prop := {
  fo_inv : fs_inv live s;
  fo_root : exists d, live !! ROOT_DIR_SECTOR = Some d /\ dir_ok (contents s d);
  fo_named : forall name sec, names live s !! name = Some sec ->
    sec <> FREE_MAP_SECTOR /\ sec <> ROOT_DIR_SECTOR /\ is_Some (live !! sec);
  fo_inj : forall n1 n2 sec, names live s !! n1 = Some sec -> names live s !! n2 = Some sec -> n1 = n2;
  fo_open : forall i v, inodes s !! i = Some v -> clean (names live s) v
}.

(** Closing undoes opening. *)
Lemma close_restores live s sec d i s' v :
  fs_inv live s -> live !! sec = Some d -> opens s sec d i s' -> inodes s' = <[i := v]> (inodes s) ->
  (if open_cnt v =? 1 then delete i (inodes s') else <[i := set_open_cnt (open_cnt v - 1) v]> (inodes s')) = inodes s.
Proof.
  intros (Hi & _ & Hls) Hl [(w & Ew & H1 & H2 & H3) _ _ _] Ev.
  assert (w = v) as ->.
  { apply (f_equal (fun m => m !! i)) in Ev. rewrite Ew, !lookup_insert_eq in Ev. by injection Ev. }
  rewrite Ew. destruct (inodes s !! i) as [v0|] eqn:E.
  - destruct H3 as (R1 & R2 & R3 & R4). destruct (fi_open _ _ Hi i v0 (Hls i v0 E) E) as (_ & Hl0 & Hc).
    rewrite (proj2 (Z.eqb_neq _ _)) by lia. rewrite insert_insert_eq.
    assert (set_open_cnt (open_cnt v - 1) v = v0) as ->; [|by apply insert_id].
    unfold set_open_cnt. destruct v0 as [q1 q2 q3 q4 q5]. cbn in *. f_equal; try congruence; lia.
  - destruct H3 as (_ & _ & R3). rewrite R3. cbn. by rewrite delete_insert_id.
Qed.

(** The root directory has been opened as [d]. *)
Record root_opened (live : gmap Z inode_disk) (s : fs) (d i : Z) (v : inode) (s' : fs) : Prop := {
  ro_inv : fs_inv live s';
  ro_dir : is_dir s' d i v;
  ro_store : same_store s s';
  ro_sector : sector v = ROOT_DIR_SECTOR /\ live !! ROOT_DIR_SECTOR = Some (data v);
  ro_clean : deny_write_cnt v = 0 /\ removed v = false;
  ro_files : files s' = files s;
  ro_dirs : delete d (dirs s') = dirs s;
  ro_inodes : inodes s' = <[i := v]> (inodes s) /\ (forall w, inodes s !! i = Some w -> sector w = ROOT_DIR_SECTOR);
  ro_restore : (if open_cnt v =? 1 then delete i (inodes s')
                else <[i := set_open_cnt (open_cnt v - 1) v]> (inodes s')) = inodes s
}.

Lemma dir_open_root_ok live s :
  fs_ok live s -> can_open s ROOT_DIR_SECTOR ->
  exists d i v s', dir_open_root s = Ok (d, s') /\ root_opened live s d i v s'.
Proof.
  intros [Hi (dr & Hl & Hok) _ _ Hcl] Hroom. unfold dir_open_root.
  destruct (inode_open_ok live s ROOT_DIR_SECTOR dr Hi Hl Hroom) as (i & s1 & Hr & Hi1 & Hop & Hn). mrun Hr.
  pose proof Hop as [(v & Ev & H1 & H2 & H3) (F1 & F2 & F3 & F4) Ed [B1 B2]].
  assert (inodes s1 !! i = Some v) as Hv by (rewrite Ev; apply lookup_insert_eq).
  assert (same_store s s1) as Hst by done.
  destruct (dir_open_ok live s1 i v) as (d & s2 & Hr2 & Hi2 & Hd2 & Hst2 & E1 & E2 & E3 & E4 & B3); [done|done|done| | |].
  { by rewrite H1. } { rewrite H2. by rewrite (same_store_contents _ _ dr Hst). }
  exists d, i, v, s2. split; [done|]. split; [done|done|by transitivity s1|by rewrite H2| |congruence| | |].
  - destruct (inodes s !! i) as [v0|] eqn:E; [|naive_solver]. destruct H3 as (R1 & R2 & R3 & _).
    destruct (Hcl i v0 E) as [C1 C2]. rewrite R1, R2. split; [by apply C1|].
    destruct (removed v0); [|done]. destruct (C2 eq_refl) as (_ & ? & _). done.
  - rewrite E3, F2. apply delete_insert_id. by rewrite <- F2.
  - rewrite E1, Ev. split; [done|]. intros w Hw. rewrite Hw in H3. naive_solver.
  - rewrite E1. by eapply (close_restores live s).
Qed.

Lemma root_close_ok live live' s0 s1 s d i v :
  root_opened live s0 d i v s1 -> fs_inv live' s -> is_dir s d i v -> inodes s = inodes s1 -> dirs s = dirs s1 ->
  exists s', dir_close d s = Ok (tt, s') /\ fs_inv live' s' /\ files_kept live' s s' /\
    files s' = files s /\ dirs s' = dirs s0 /\ inodes s' = inodes s0 /\ length (disk s') = length (disk s) /\
    (forall x, 0 <= x -> Bitmap.bit (free_map s') x = Bitmap.bit (free_map s) x).
Proof.
  intros Hro Hi Hd E1 E2. destruct (dir_close_ok live' s d i v Hi Hd) as (s' & Hr & Hi' & Hk & F1 & F2 & F3 & F4 & F5).
  { unfold dies. destruct (ro_clean _ _ _ _ _ _ Hro) as [_ ->]. by rewrite andb_false_r. }
  exists s'. split; [done|]. split; [done|]. split; [done|]. split; [done|].
  split; [rewrite F2, E2; apply Hro|]. split; [rewrite F4, E1; apply Hro|]. done.
Qed.


(** ** Creating a file *)

(** The contents of all files but the free map and the root directory. *)
Definition user_files_kept (live : gmap Z inode_disk) (s s' : fs) : Prop :=
  forall sec d, live !! sec = Some d -> sec <> FREE_MAP_SECTOR -> sec <> ROOT_DIR_SECTOR -> contents s' d = contents s d.

#[export] Instance user_files_kept_preorder live : PreOrder (user_files_kept live).
Proof. split; [by intros ? ? ?|]. intros a b c H1 H2 sec d Hd Hn Hr. by rewrite (H2 sec d), (H1 sec d). Qed.

Lemma files_kept_user live s s' : files_kept live s s' -> user_files_kept live s s'.
Proof. intros H sec d Hd Hn _. by apply (H sec). Qed.

Lemma other_files_user live s s' : other_files live ROOT_DIR_SECTOR s s' -> user_files_kept live s s'.
Proof. intros H sec d Hd _ Hr. by apply (H sec). Qed.

Lemma same_store_user live s s' : same_store s s' -> user_files_kept live s s'.
Proof. intros H sec d _ _ _. by apply same_store_contents. Qed.

Lemma is_dir_map s s' d i v :
  is_dir s d i v -> same_but_map s s' -> contents s' (data v) = contents s (data v) -> is_dir s' d i v.
Proof.
  intros [H1 H2 H3 H4 H5] Hm E. destruct (same_but_map_fields _ _ Hm) as (E1 & _ & _ & E4 & _).
  by split; rewrite ?E1, ?E4, ?E.
Qed.

Lemma names_eq live s d : live !! ROOT_DIR_SECTOR = Some d -> names live s = dir_map (contents s d).
Proof. intros H. unfold names. by rewrite H. Qed.

(** Nothing that the interface shows has changed. *)
Lemma fs_ok_keep live s s' d :
  fs_ok live s -> fs_inv live s' -> inodes s' = inodes s -> live !! ROOT_DIR_SECTOR = Some d ->
  contents s' d = contents s d -> fs_ok live s' /\ names live s' = names live s.
Proof.
  intros [H1 (dr & Hr & Hok) H3 H4 H5] Hi E Hd Ec. assert (dr = d) as -> by congruence.
  assert (names live s' = names live s) as En by (rewrite !(names_eq live _ d Hd); by rewrite Ec).
  split; [|done]. split; [done| | | |].
  - exists d. by rewrite Ec.
  - intros name sec. rewrite En. apply H3.
  - intros n1 n2 sec. rewrite En. apply H4.
  - intros i v. rewrite E, En. apply H5.
Qed.

(** A new file has a name. *)
Lemma fs_ok_name live s s' name sec d dr :
  fs_ok live s -> fs_inv (<[sec := d]> live) s' -> inodes s' = inodes s -> live !! sec = None ->
  live !! ROOT_DIR_SECTOR = Some dr -> dir_ok (contents s' dr) -> names live s !! name = None ->
  dir_map (contents s' dr) = <[name := sec]> (names live s) ->
  fs_ok (<[sec := d]> live) s' /\ names (<[sec := d]> live) s' = <[name := sec]> (names live s).
Proof.
  intros [H1 _ H3 H4 H5] Hi E Hn Hr Hok Hno Hmap.
  assert ((<[sec := d]> live) !! ROOT_DIR_SECTOR = Some dr) as Hr' by (by rewrite lookup_insert_ne by congruence).
  assert (names (<[sec := d]> live) s' = <[name := sec]> (names live s)) as En by (by rewrite (names_eq _ _ dr Hr')).
  destruct (map_live _ _ (proj1 H1)) as [dm Hm].
  assert (forall n, names live s !! n <> Some sec) as Hnew.
  { intros n Hs. destruct (H3 n sec Hs) as (_ & _ & [? ?]). congruence. }
  split; [|done]. split; [done| | | |].
  - by exists dr.
  - intros n sec'. rewrite En, lookup_insert_Some. intros [[<- <-]|[_ Hs]].
    + split; [congruence|]. split; [congruence|]. rewrite lookup_insert_eq. eauto.
    + destruct (H3 n sec' Hs) as (A1 & A2 & [x A3]). do 2 (split; [done|]).
      rewrite lookup_insert_ne by congruence. eauto.
  - intros n1 n2 sec'. rewrite En, !lookup_insert_Some.
    intros [[<- <-]|[_ Hs1]] [[<- Hx]|[_ Hs2]]; [done| | |by eapply H4].
    + by destruct (Hnew n2).
    + subst. by destruct (Hnew n1).
  - intros i v Hv. rewrite E in Hv. destruct (H5 i v Hv) as [C1 C2]. split; [done|].
    intros Hrem. destruct (C2 Hrem) as (A1 & A2 & A3). do 2 (split; [done|]). intros n. rewrite En, lookup_insert_Some.
    intros [[_ Es]|[_ Hs]]; [|by eapply A3].
    destruct (fi_open _ _ (proj1 H1) i v (proj2 (proj2 H1) i v Hv) Hv) as (_ & Hl & _). congruence.
Qed.

(** [n] sectors from [a] on were free and are not any more; the rest of the
    free map is the same. *)
Definition took (s s' : fs) (a n : Z) : Prop :=
  0 <= a /\ (forall x, a <= x < a + n -> Bitmap.bit (free_map s) x = false) /\
  forall x, 0 <= x -> Bitmap.bit (free_map s') x
    = if (a <=? x) && (x <? a + n) then true else Bitmap.bit (free_map s) x.

Definition same_bits (s s' : fs) : Prop := forall x, 0 <= x -> Bitmap.bit (free_map s') x = Bitmap.bit (free_map s) x.

(** Why a name cannot be added to the root directory. *)
Definition cannot_name (live : gmap Z inode_disk) (s : fs) (name : list Z) : Prop :=
  (length name = 0)%nat \/ (14 < length name)%nat \/ is_Some (names live s !! name) \/
  forall d e, live !! ROOT_DIR_SECTOR = Some d -> e ∈ entries (contents s d) -> entry_in_use e = true.


(** What happens between opening and closing the root directory. *)
Definition create_body (d : Z) (name e : list Z) (initial_size : Z) : M fs (bool * Z) :=
  a <- free_map_allocate 1 ;;
  match a with
  | None => ret (false, 0)
  | Some sec =>
      c <- inode_create sec initial_size ;;
      if (c : bool) then ok <- dir_add d name sec e ;; ret (ok, sec) else ret (false, sec)
  end.

(** There are no free sectors in a row for an inode and [size] bytes. *)
Definition no_room (s : fs) (size : Z) : Prop :=
  forall i, 0 <= i -> i + (1 + sectors_of size) <= Z.of_nat (length (disk s)) ->
    ~ Bitmap.group (free_map s) i (1 + sectors_of size) false.

(** The outcome when no file has been created: the sector of the inode is
    reserved, and besides that [n] sectors from [a] on. *)
Record body_failed (live : gmap Z inode_disk) (s : fs) (v : inode) (name : list Z) (size sec : Z) (s' : fs) : Prop := {
  bf_inv : fs_inv live s';
  bf_kept : files_kept live s s';
  bf_sector : sec = 0 /\ same_bits s s' /\ no_room s size \/
    sec <> 0 /\ reserved live s' sec /\ Bitmap.bit (free_map s) sec = false /\
    exists a n, 0 <= a /\ ((n = 0 /\ no_room s size) \/ (n = sectors_of size /\ cannot_add s v name)) /\
      (forall x, a <= x < a + n -> x <> sec /\ Bitmap.bit (free_map s) x = false) /\
      (forall x, 0 <= x -> Bitmap.bit (free_map s') x
         = if (x =? sec) || (a <=? x) && (x <? a + n) then true else Bitmap.bit (free_map s) x)
}.

Record body_created (live : gmap Z inode_disk) (s : fs) (v : inode) (name : list Z) (size sec : Z) (s' : fs) : Prop := {
  bc_live : live !! sec = None;
  bc_kept : user_files_kept live s s';
  bc_names : names_of s v !! name = None /\ names_of s' v = <[name := sec]> (names_of s v);
  bc_file : exists d, fs_inv (<[sec := d]> live) s' /\ dlength d = size /\ contents s' d = replicate (Z.to_nat size) 0
}.

Lemma same_but_map_trans_sbd s1 s2 s3 : same_but_map s1 s2 -> same_but_disk s2 s3 -> same_but_map s1 s3.
Proof.
  intros (s2' & H & ->) H3. exists s3. split; [|done]. pose proof (sbd_rest _ _ H3) as R. unfold rest in R.
  injection R as _ _ _ _ -> _. by transitivity s2'.
Qed.

#[export] Instance same_but_map_preorder : PreOrder same_but_map.
Proof.
  split.
  - intros s. apply (same_but_map_intro s (free_map s)). by destruct s.
  - intros s1 s2 s3 (s2' & H2 & ->) (s3' & H3 & ->). exists s3'. split; [|done].
    transitivity (set_free_map (free_map s3') s2'); [|done].
    destruct H2 as [R1 R2 R3 R4 R5]. unfold rest in R1. injection R1 as E1 E2 E3 E4 E6. cbn in *.
    split; cbn; try done. unfold rest. cbn. by rewrite E1, E2, E3, E4, E6.
Qed.

(** A sector that has just been allocated. *)
Lemma allocated_reserved live s s' sec :
  fs_inv live s -> allocated_at s s' sec 1 -> length (disk s') = length (disk s) ->
  reserved live s' sec /\ live !! sec = None /\ sec <> 0 /\ in_u32 sec /\ Bitmap.bit (free_map s) sec = false.
Proof.
  intros Hi Ha El. destruct (allocated_fresh live s s' sec 1 sec (proj1 Hi) Ha ltac:(lia)) as [Hb Hno].
  destruct Ha as (H1 & H2 & H3 & _). pose proof (device_bound _ _ (proj1 Hi)) as Hdev.
  assert (live !! sec = None) as Hn.
  { destruct (live !! sec) as [d|] eqn:E; [|done]. exfalso. apply (Hno sec d E). by left. }
  split; [split; [lia|done]|]. split; [done|]. split; [|split; [unfold in_u32; lia|apply H3; lia]].
  destruct (map_live _ _ (proj1 Hi)) as [dm Hm]. unfold FREE_MAP_SECTOR in Hm. congruence.
Qed.

(** A file that is no longer wanted: its inode's sector is reserved. *)
Lemma forget_file live s sec d :
  fs_inv (<[sec := d]> live) s -> live !! sec = None ->
  (forall i v, inodes s !! i = Some v -> sector v <> sec) ->
  fs_inv live s /\ reserved live s sec.
Proof.
  intros (Hi & Hc & Hls) Hn Hop. assert (sec <> FREE_MAP_SECTOR) as Hne.
  { intros ->. destruct (fi_file _ _ Hi) as (fl & w & _ & _ & _ & Hw & Hs & _). by apply (Hop _ w Hw). }
  split; [split; [|split; [|done]]|].
  - rewrite <- (delete_insert_id live sec d Hn). apply fs_inv0_unlive; [done|]. eauto.
  - intros dm Hm. apply Hc. by rewrite lookup_insert_ne.
  - assert ((<[sec := d]> live) !! sec = Some d) as Hl by apply lookup_insert_eq.
    destruct (fi_live _ _ Hi sec d Hl) as [H1 _ _ _ _]. split; [done|].
    split; [apply (fi_used _ _ Hi sec d); [done|by left]|].
    intros sec' d' Hl' Hx. assert (sec' <> sec) as Hne' by congruence. apply Hne'.
    apply (fi_apart _ _ Hi sec' d' sec d sec); [by rewrite lookup_insert_ne|done|done|by left].
Qed.


(** When the first free sector is taken, the rest of a free group is left. *)
Lemma first_fit_room s s1 sec size :
  0 <= sectors_of size -> allocated_at s s1 sec 1 -> (forall i, 0 <= i < sec -> ~ Bitmap.group (free_map s) i 1 false) ->
  length (disk s1) = length (disk s) ->
  (forall i, 0 <= i -> i + sectors_of size <= Z.of_nat (length (disk s1)) -> ~ Bitmap.group (free_map s1) i (sectors_of size) false) ->
  no_room s size.
Proof.
  intros Hn (_ & _ & _ & Hb) Hfirst El Hno g Hg Hgl Hgr.
  assert (sec <= g) as Hle.
  { destruct (Z.le_gt_cases sec g) as [|Hlt]; [done|]. exfalso. apply (Hfirst g); [lia|]. intros x Hx. apply Hgr. lia. }
  apply (Hno (g + 1)); [lia|rewrite El; lia|]. intros x Hx. rewrite Hb by lia.
  rewrite (proj2 (Z.ltb_ge x (sec + 1))) by lia. rewrite andb_false_r. apply Hgr. lia.
Qed.

Lemma create_body_ok live s d i v name size e :
  fs_inv live s -> is_dir s d i v -> sector v = ROOT_DIR_SECTOR -> live !! ROOT_DIR_SECTOR = Some (data v) ->
  deny_write_cnt v = 0 -> name_ok name -> 0 <= size < 2147483136 -> length e = 20%nat ->
  exists ok sec s', create_body d name e size s = Ok ((ok, sec), s') /\ same_but_map s s' /\ is_dir s' d i v /\
    if (ok : bool) then body_created live s v name size sec s' else body_failed live s v name size sec s'.
Proof.
  intros Hi Hd Hsec Hl Hdeny Hn Hsz He. unfold create_body.
  assert (0 <= sectors_of size) as Hsz0 by (unfold sectors_of; apply Z.div_pos; lia).
  destruct (free_map_allocate_ok live s 1 Hi ltac:(lia)) as (r & s1 & Hr1 & Hi1 & Hm1 & Hu1 & Hcase1). mrun Hr1.
  pose proof (untouched_kept _ _ _ (proj1 Hi) Hu1) as Hk1.
  assert (is_dir s1 d i v) as Hd1 by (apply (is_dir_map s); [done|done|by apply (Hk1 ROOT_DIR_SECTOR)]).
  destruct r as [sec|].
  2:{ exists false, 0, s1. split; [done|]. split; [done|]. split; [done|]. split; [done|done|]. left. split; [done|]. split; [exact (proj1 Hcase1)|].
      intros g Hg Hgl Hgr. apply (proj2 Hcase1 g); [done|lia|]. intros x Hx. apply Hgr. lia. }
  destruct (same_but_map_fields _ _ Hm1) as (Ei1 & _ & _ & _ & _ & El1 & _).
  destruct Hcase1 as [Hal1 Hfirst].
  destruct (allocated_reserved live s s1 sec Hi Hal1 El1) as (Hres & Hnl & Hn0 & Hu32 & Hfree).
  pose proof Hal1 as (_ & _ & _ & Hb1).
  destruct (inode_create_ok live s1 sec size Hi1 Hres Hsz) as (c & s2 & Hr2 & Hk2 & Hm2 & Hcase2). mrun Hr2.
  assert (is_dir s2 d i v) as Hd2 by (apply (is_dir_map s1); [done|done|by apply (Hk2 ROOT_DIR_SECTOR)]).
  assert (contents s2 (data v) = contents s (data v)) as Ec.
  { rewrite (Hk2 ROOT_DIR_SECTOR) by done. by apply (Hk1 ROOT_DIR_SECTOR). }
  destruct c.
  2:{ destruct Hcase2 as (Hi2 & Hb2 & Hno2). exists false, sec, s2. split; [done|]. split; [by transitivity s1|]. split; [done|].
      split; [done|by transitivity s1|]. right. split; [done|]. split; [by apply (reserved_map live s1); [..|intros x Hx; rewrite Hb2]|].
      split; [done|]. exists 0, 0. split; [done|]. split; [left; split; [done|by apply (first_fit_room s s1 sec)]|].
      split; [lia|]. intros x Hx. rewrite Hb2, Hb1 by done.
      destruct (Z.eqb_spec x sec), (Z.leb_spec sec x), (Z.ltb_spec x (sec + 1)), (Z.leb_spec 0 x), (Z.ltb_spec x (0 + 0));
        cbn; try done; lia. }
  destruct Hcase2 as (dk & Hdl & Hi2 & Hz & Hal).
  destruct (dir_add_ok _ s2 d i v name sec e Hi2 Hd2 Hdeny Hn Hu32 He) as (ok & s3 & Hr3 & Hi3 & Hd3 & Hs3 & Ho3 & Hcase3).
  mrun Hr3. assert (same_but_map s s3) as Hm3.
  { apply (same_but_map_trans_sbd s s2); [by transitivity s1|done]. }
  assert (forall sec' d', live !! sec' = Some d' -> (<[sec := dk]> live) !! sec' = Some d') as Hsub.
  { intros sec' d' H. by rewrite lookup_insert_ne by congruence. }
  assert (user_files_kept live s s3) as Huk.
  { transitivity s2; [transitivity s1; by apply files_kept_user|]. intros sec' d' Hd' _ Hnr. apply (Ho3 sec'); [by apply Hsub|congruence]. }
  assert (sec <> ROOT_DIR_SECTOR) as Hnr by congruence. rewrite Hsec in Ho3.
  exists ok, sec, s3. split; [done|]. split; [done|]. split; [done|]. destruct ok.
  - destruct Hcase3 as [Hcan Hmap]. split; [done|done| |].
    + unfold names_of in *. rewrite Ec in Hmap. split; [|done].
      destruct (dir_map (contents s (data v)) !! name) eqn:E; [|done]. exfalso. apply Hcan. right. right. left.
      unfold names_of. rewrite Ec, E. eauto.
    + exists dk. split; [done|]. split; [done|]. rewrite <- Hz. apply (Ho3 sec); [apply lookup_insert_eq|done].
  - destruct Hcase3 as [Hcan Hsame].
    destruct (forget_file live s3 sec dk Hi3 Hnl) as [Hi3' Hres3].
    { intros j w Hw. destruct (same_but_map_fields _ _ Hm3) as (Ei3 & _). rewrite Ei3 in Hw.
      destruct (fi_open _ _ (proj1 Hi) j w (proj2 (proj2 Hi) j w Hw) Hw) as (_ & Hlw & _). congruence. }
    split; [done| |].
    + intros sec' d' Hd' Hnf. destruct (decide (sec' = ROOT_DIR_SECTOR)) as [->|]; [|by apply (Huk sec')].
      assert (d' = data v) as -> by congruence. congruence.
    + right. split; [done|]. split; [done|]. split; [done|]. exists (start dk), (sectors_of size).
      destruct Hal as (A1 & A2 & A3 & A4). split; [done|]. split; [right; split; [done|]|split].
      * unfold cannot_add, names_of in *. by rewrite Ec in Hcan.
      * intros x Hx. specialize (A3 x Hx). rewrite Hb1 in A3 by lia.
        destruct ((sec <=? x) && (x <? sec + 1)) eqn:E; [done|]. split; [|done]. intros ->.
        rewrite (proj2 (Z.leb_le _ _)), (proj2 (Z.ltb_lt _ _)) in E by lia. done.
      * intros x Hx. pose proof (sbd_rest _ _ Hs3) as R. unfold rest in R. injection R as _ _ _ _ -> _.
        rewrite A4, Hb1 by done.
        destruct (Z.eqb_spec x sec), (Z.leb_spec sec x), (Z.ltb_spec x (sec + 1)); cbn; try lia; by destruct (_ && _).
Qed.


(** Giving back the sector of the inode of a file that was not created. *)
Lemma create_cleanup live s s1 v name size sec :
  body_failed live s v name size sec s1 -> (exists d, live !! ROOT_DIR_SECTOR = Some d) ->
  exists s', (if negb (sec =? 0) then free_map_release sec 1 else ret tt) s1 = Ok (tt, s') /\ fs_inv live s' /\
    same_but_map s1 s' /\ files_kept live s s' /\
    exists a n, took s s' a n /\ ((n = 0 /\ no_room s size) \/ (n = sectors_of size /\ cannot_add s v name)).
Proof.
  intros [Hi Hk Hcase] [dr Hdr]. destruct Hcase as [(-> & Hb & Hno)|(Hn0 & Hres & Hfree & a & n & Ha & Hwhy & Hr & Hb)].
  - exists s1. split; [done|]. split; [done|]. split; [done|]. split; [done|]. exists 0, 0.
    split; [|by left]. split; [done|]. split; [lia|]. intros x Hx. rewrite Hb by done.
    destruct (Z.leb_spec 0 x), (Z.ltb_spec x (0 + 0)); cbn; try done; lia.
  - rewrite (proj2 (Z.eqb_neq _ _) Hn0). cbn [negb]. destruct Hres as (R1 & R2 & R3).
    destruct (free_map_release_ok live s1 sec 1) as (s2 & Hr2 & Hi2 & Hc2 & Hm2 & Hu2 & Hb2); [apply Hi|lia|lia|lia| | |].
    + intros x Hx. by replace x with sec by lia.
    + intros sec' d x Hl Hx Hrange. apply (R3 sec' d Hl). by replace sec with x by lia.
    + exists s2. split; [done|]. split.
      { split; [done|]. split; [done|]. intros j w. destruct (same_but_map_fields _ _ Hm2) as (-> & -> & _). apply Hi. }
      split; [done|]. split; [transitivity s1; [done|]; by apply (untouched_kept live); [apply Hi|]|].
      exists a, n. split; [|done]. split; [done|]. split; [intros x Hx; by apply Hr|].
      intros x Hx. rewrite Hb2, Hb by done.
      destruct (Z.eqb_spec x sec) as [Ex|Ex], (Z.leb_spec sec x), (Z.ltb_spec x (sec + 1)); cbn; try done; try lia.
      subst x. rewrite Hfree. destruct ((a <=? sec) && (sec <? a + n)) eqn:E; [|done]. exfalso.
      apply andb_prop in E as [E1%Z.leb_le E2%Z.ltb_lt]. by destruct (Hr sec).
Qed.

(** The result of [filesys_create]. *)
Record created (live : gmap Z inode_disk) (s : fs) (name : list Z) (size sec : Z) (d : inode_disk) (s' : fs) : Prop := {
  cr_fresh : names live s !! name = None /\ live !! sec = None;
  cr_ok : fs_ok (<[sec := d]> live) s';
  cr_names : names (<[sec := d]> live) s' = <[name := sec]> (names live s);
  cr_zeros : dlength d = size /\ contents s' d = replicate (Z.to_nat size) 0;
  cr_kept : user_files_kept live s s'
}.

Record not_created (live : gmap Z inode_disk) (s : fs) (name : list Z) (size : Z) (s' : fs) : Prop := {
  nc_ok : fs_ok live s';
  nc_names : names live s' = names live s;
  nc_kept : files_kept live s s';
  nc_map : exists a n, took s s' a n /\
    ((n = 0 /\ no_room s size) \/ (n = sectors_of size /\ cannot_name live s name))
}.

Lemma filesys_create_run live s name e size :
  fs_ok live s -> can_open s ROOT_DIR_SECTOR -> name_ok name -> 0 <= size < 2147483136 -> length e = 20%nat ->
  exists ok s', filesys_create name e size s = Ok (ok, s') /\
    (inodes s' = inodes s /\ files s' = files s /\ dirs s' = dirs s) /\
    if (ok : bool) then exists sec d, created live s name size sec d s' else not_created live s name size s'.
Proof.
  intros Hok Hroom Hn Hsz He. unfold filesys_create.
  destruct (dir_open_root_ok live s Hok Hroom) as (d & i & v & s1 & Hr1 & Hro). mrun Hr1.
  pose proof Hro as [Hi1 Hd1 Hst1 [Hsec Hl] [Hdeny _] Hf1 _ _ _].
  rewrite (proj2 (Z.eqb_neq _ _) (id_null _ _ _ _ Hd1)).
  destruct (create_body_ok live s1 d i v name size e) as (ok & sec & s2 & Hr2 & Hm2 & Hd2 & Hcase); [done..|].
  unfold create_body in Hr2. mrun Hr2. cbn [fst snd].
  destruct (same_but_map_fields _ _ Hm2) as (E1 & _ & E3 & E4 & _).
  assert (names_of s1 v = names live s) as En.
  { rewrite (names_eq live s _ Hl). unfold names_of. by rewrite (same_store_contents s s1). }
  destruct ok; cbn [negb andb].
  - mnorm. destruct Hcase as [Hnl Hk2 [Hno Hmap] (dk & Hi2 & Hdl & Hz)].
    destruct (root_close_ok live (<[sec := dk]> live) s s1 s2 d i v)
      as (s3 & Hr3 & Hi3 & Hk3 & F1 & F2 & F3 & _ & _); [done..|]. mrun Hr3.
    exists true, s3. split; [done|]. split; [split; [done|]; split; [congruence|done]|]. exists sec, dk.
    assert (sec <> ROOT_DIR_SECTOR) as Hnr by congruence.
    assert (sec <> FREE_MAP_SECTOR) as Hnf.
    { destruct (map_live _ _ (proj1 Hi1)) as [dm Hm]. congruence. }
    assert (contents s3 (data v) = contents s2 (data v)) as Ec.
    { apply (Hk3 ROOT_DIR_SECTOR); [by rewrite lookup_insert_ne|done]. }
    destruct (fs_ok_name live s s3 name sec dk (data v)) as [Hok3 Hnm3]; [done..| | | |].
    + rewrite Ec. apply Hd2.
    + by rewrite <- En.
    + rewrite Ec, <- En. exact Hmap.
    + split; [by rewrite <- En|done|done| |].
      * split; [done|]. rewrite <- Hz. apply (Hk3 sec); [apply lookup_insert_eq|done].
      * transitivity s1; [by apply same_store_user|]. transitivity s2; [done|].
        intros sec' d' Hd' Hnf' _. apply (Hk3 sec'); [|done]. by rewrite lookup_insert_ne by congruence.
  - destruct (create_cleanup live s1 s2 v name size sec Hcase) as (s3 & Hr3 & Hi3 & Hm3 & Hk3 & a & n & Ht & Hwhy); [eauto|].
    mrun Hr3. destruct (same_but_map_fields _ _ Hm3) as (G1 & _ & G3 & G4 & _).
    assert (contents s3 (data v) = contents s1 (data v)) as Ec by (by apply (Hk3 ROOT_DIR_SECTOR)).
    destruct (root_close_ok live live s s1 s3 d i v) as (s4 & Hr4 & Hi4 & Hk4 & F1 & F2 & F3 & _ & Hb4); [done|done| |congruence|congruence|].
    { destruct Hd1 as [H1 H2 H3 H4 H5]. split; [done|by rewrite G4, E4|by rewrite G1, E1|done|by rewrite Ec]. }
    mrun Hr4. exists false, s4. split; [done|]. split; [split; [done|]; split; [congruence|done]|].
    assert (files_kept live s s4) as Hk.
    { transitivity s1; [|by transitivity s3]. intros sec' d' _ _. by apply same_store_contents. }
    destruct (fs_ok_keep live s s4 (data v)) as [Hok4 Hnm4]; [done..|by apply (Hk ROOT_DIR_SECTOR)|].
    split; [done|done|done|]. exists a, n. destruct Ht as (T1 & T2 & T3). pose proof Hst1 as Hst1'. destruct Hst1 as (_ & Em & _). split; rewrite ?Em in *.
    + split; [done|]. split; [done|]. intros x Hx. rewrite Hb4, T3 by done. done.
    + destruct Hwhy as [[-> Hno]|[-> Hcan]].
      { left. split; [done|]. unfold no_room in *. destruct Hst1' as (Ed & _). by rewrite <- Ed, <- Em. }
      right. split; [done|].
      destruct Hcan as [?|[?|[Hs|Hall]]]; [by left|by right; left| |].
      * right. right. left. by rewrite <- En.
      * do 3 right. intros dr x Hdr Hx. assert (dr = data v) as -> by congruence. apply Hall.
        rewrite (same_store_contents s s1); [done|]. apply Hro.
Qed.


(** ** Opening a file *)

(** [fs_ok] when the store has the same contents and the open inodes are clean. *)
Lemma fs_ok_inodes live s s' :
  fs_ok live s -> fs_inv live s' -> files_kept live s s' ->
  (forall i v, inodes s' !! i = Some v -> clean (names live s) v) -> fs_ok live s' /\ names live s' = names live s.
Proof.
  intros [H1 (dr & Hr & Hok) H3 H4 H5] Hi Hk Hcl.
  assert (contents s' dr = contents s dr) as Ec by (by apply (Hk ROOT_DIR_SECTOR)).
  assert (names live s' = names live s) as En by (rewrite !(names_eq live _ dr Hr); by rewrite Ec).
  split; [|done]. split; [done|exists dr; by rewrite Ec| | |]; rewrite En; done.
Qed.

Lemma opens_clean N s sec d j s' w :
  opens s sec d j s' -> sec <> ROOT_DIR_SECTOR -> (forall i v, inodes s !! i = Some v -> clean N v) ->
  inodes s' !! j = Some w -> clean N w.
Proof.
  intros [(w' & E & H1 & H2 & H3) _ _ _] Hne Hcl Hw. rewrite E, lookup_insert_eq in Hw. injection Hw as ->.
  split; [congruence|]. intros Hrem. destruct (inodes s !! j) as [v0|] eqn:E0; [|destruct H3; congruence].
  destruct H3 as (R1 & _ & R3 & _). destruct (Hcl j v0 E0) as [_ C]. rewrite H1, <- R3. apply C. congruence.
Qed.

(** Opening another inode while the root directory is open. *)
Lemma is_dir_opens s sec d0 j s' d i v :
  is_dir s d i v -> opens s sec d0 j s' -> sector v <> sec ->
  is_dir s' d i v /\ i <> j.
Proof.
  intros [H1 H2 H3 H4 H5] [(w & E & W1 & W2 & W3) (F1 & F2 & F3 & F4) Ed _] Hne.
  assert (i <> j) as Hij.
  { intros ->. rewrite H3 in W3. destruct W3 as (_ & _ & R & _). done. }
  split; [|done]. split; [done|by rewrite F2|by rewrite E, lookup_insert_ne|done|].
  unfold contents, flat in *. by rewrite Ed.
Qed.

(** The inodes after the root directory has been closed again. *)
Lemma restore_other live s d i v s1 j w :
  root_opened live s d i v s1 -> i <> j ->
  (if open_cnt v =? 1 then delete i (<[j := w]> (inodes s1))
   else <[i := set_open_cnt (open_cnt v - 1) v]> (<[j := w]> (inodes s1))) = <[j := w]> (inodes s).
Proof.
  intros Hro Hij. rewrite <- (ro_restore _ _ _ _ _ _ Hro). destruct (open_cnt v =? 1).
  - by rewrite delete_insert_ne.
  - by rewrite insert_insert_ne.
Qed.

Lemma file_open_ok live s j w :
  fs_inv live s -> inodes s !! j = Some w -> j <> NULL ->
  exists f s', file_open j s = Ok (f, s') /\ fs_inv live s' /\ same_store s s' /\ inodes s' = inodes s /\
    dirs s' = dirs s /\ files s' = <[f := mkFile j 0 false]> (files s) /\ files s !! f = None /\ f <> NULL.
Proof.
  intros Hi Hw Hn. unfold file_open. destruct (malloc_inv live s Hi) as (s1 & Hr & Hi1 & Hq & Hb). mrun Hr.
  pose proof (fi_brk _ _ (proj1 Hi)) as Hpos.
  rewrite (proj2 (Z.eqb_neq _ _) Hn), (proj2 (Z.eqb_neq (brk s) NULL)) by (unfold NULL; lia). cbn [negb andb]. mnorm.
  destruct (fi_fresh _ _ (proj1 Hi) (brk s) ltac:(lia)) as (_ & Hfree & _).
  pose proof (quiet_store _ _ Hq) as Hst. pose proof (sbd_rest _ _ (proj1 Hq)) as R. unfold rest in R.
  injection R as E1 E2 E3 E4 E5 E6.
  eexists _, _. split; [done|]. split.
  { apply fs_inv_set_files; [done| |].
    - intros a Ha. rewrite lookup_insert_ne by lia. by apply (fi_fresh _ _ (proj1 Hi1)).
    - apply lookup_insert_ne. destruct (fi_file _ _ (proj1 Hi)) as (fl & _ & _ & Hf & _). congruence. }
  split; [exact Hst|]. cbn. rewrite E1, E3, E4. do 4 (split; [done|]). unfold NULL. lia.
Qed.

(** What closing does to an inode that has just been opened. *)
Lemma reopened_restore live s sec j w :
  fs_inv live s ->
  (forall w0, inodes s !! j = Some w0 -> w = set_open_cnt (open_cnt w0 + 1) w0 /\ sector w0 = sec) ->
  (inodes s !! j = None -> open_cnt w = 1 /\ deny_write_cnt w = 0 /\ forall k x, inodes s !! k = Some x -> sector x <> sec) ->
  deny_write_cnt w = match inodes s !! j with Some w0 => deny_write_cnt w0 | None => 0 end /\
  (if open_cnt w =? 1 then delete j (<[j := w]> (inodes s))
   else <[j := set_open_cnt (open_cnt w - 1) w]> (<[j := w]> (inodes s))) = inodes s.
Proof.
  intros Hi Hold Hnew. destruct (inodes s !! j) as [w0|] eqn:E.
  - destruct (Hold w0 eq_refl) as [-> _]. split; [done|]. rewrite insert_insert_eq. cbn [set_open_cnt open_cnt].
    destruct (fi_open _ _ (proj1 Hi) j w0 (proj2 (proj2 Hi) j w0 E) E) as (_ & _ & Hc).
    rewrite (proj2 (Z.eqb_neq _ _)) by lia. apply insert_id. rewrite E. f_equal. destruct w0. unfold set_open_cnt. cbn.
    f_equal. lia.
  - destruct (Hnew eq_refl) as (-> & -> & _). split; [done|]. cbn. by rewrite delete_insert_id.
Qed.

(** The file has been opened as [f]. *)
Record file_opened (live : gmap Z inode_disk) (s : fs) (sec f : Z) (s' : fs) : Prop := {
  fo_handle : exists j w, files s' = <[f := mkFile j 0 false]> (files s) /\ inodes s' = <[j := w]> (inodes s) /\
    sector w = sec /\ live !! sec = Some (data w) /\ j <> NULL /\ removed w = false /\
    deny_write_cnt w = match inodes s !! j with Some w0 => deny_write_cnt w0 | None => 0 end /\
    (if open_cnt w =? 1 then delete j (inodes s') else <[j := set_open_cnt (open_cnt w - 1) w]> (inodes s')) = inodes s;
  fo_new : f <> NULL /\ files s !! f = None;
  fo_dirs : dirs s' = dirs s
}.

(** Opening the inode that the root directory names, then closing the directory. *)
Lemma open_named live s s1 s2 d i v sec :
  fs_ok live s -> root_opened live s d i v s1 -> quiet s1 s2 -> (exists name, names live s !! name = Some sec) ->
  can_open s sec ->
  exists j w s3, inode_open sec s2 = Ok (j, s3) /\ fs_inv live s3 /\ is_dir s3 d i v /\ i <> j /\ j <> NULL /\
    inodes s3 = <[j := w]> (inodes s1) /\ dirs s3 = dirs s1 /\ files s3 = files s /\ same_store s s3 /\
    sector w = sec /\ live !! sec = Some (data w) /\ clean (names live s) w /\
    (forall w0, inodes s !! j = Some w0 -> w = set_open_cnt (open_cnt w0 + 1) w0 /\ sector w0 = sec) /\
    (inodes s !! j = None -> open_cnt w = 1 /\ deny_write_cnt w = 0 /\ forall k x, inodes s !! k = Some x -> sector x <> sec).
Proof.
  intros Hok Hro Hq [name Hname] Hroom. destruct (fo_named _ _ Hok name sec Hname) as (Hnf & Hnr & [ds Hds]).
  pose proof Hro as [Hi1 Hd1 Hst1 [Hsec Hl] _ Hf1 _ [Hino1 Hroot1] _].
  destruct (fs_inv_quiet _ _ _ Hi1 Hq) as [Hi2 _]. destruct (is_dir_quiet _ _ _ _ _ Hd1 Hq) as [Hd2 _].
  pose proof (sbd_rest _ _ (proj1 Hq)) as R. unfold rest in R. injection R as E1 E2 E3 E4 E5 E6.
  assert (forall j x, inodes s2 !! j = Some x -> sector x = sec -> inodes s !! j = Some x) as Hback.
  { intros j x Hx Hs. rewrite E1, Hino1 in Hx. apply lookup_insert_Some in Hx as [[-> ->]|[_ Hx]]; [congruence|done]. }
  destruct (inode_open_ok live s2 sec ds Hi2 Hds) as (j & s3 & Hr & Hi3 & Hop & Hjn).
  { intros j x Hx Hs. apply (Hroom j x); [by apply Hback|done]. }
  destruct (is_dir_opens _ _ _ _ _ _ _ _ Hd2 Hop) as [Hd3 Hij]; [congruence|].
  assert (forall k x, inodes s2 !! k = Some x -> clean (names live s) x) as Hcl2.
  { intros k x. rewrite E1, Hino1, lookup_insert_Some. intros [[-> ->]|[_ Hx]]; [|by eapply fo_open].
    destruct (ro_clean _ _ _ _ _ _ Hro) as [C1 C2]. split; congruence. }
  pose proof Hop as [(w & Ew & W1 & W2 & W3) (F1 & F2 & F3 & F4) Ed _].
  assert (inodes s3 !! j = Some w) as Hw by (rewrite Ew; apply lookup_insert_eq).
  pose proof (opens_clean _ _ _ _ _ _ _ Hop Hnr Hcl2 Hw) as Hclw.
  assert (inodes s2 !! j = inodes s !! j) as Ej by (rewrite E1, Hino1; by apply lookup_insert_ne).
  exists j, w, s3. split; [done|]. split; [done|]. split; [done|]. split; [done|]. split; [done|].
  split; [by rewrite Ew, E1|]. split; [congruence|]. split; [congruence|].
  split; [transitivity s1; [done|]; transitivity s2; [by apply quiet_store|done]|].
  split; [done|]. split; [congruence|]. split; [done|]. rewrite Ej in W3. split.
  - intros w0 Hw0. rewrite Hw0 in W3. destruct W3 as (R1 & R2 & R3 & R4). split; [|done].
    assert (data w0 = data w) as Edata.
    { destruct (fi_open _ _ (proj1 (fo_inv _ _ Hok)) j w0 (proj2 (proj2 (fo_inv _ _ Hok)) j w0 Hw0) Hw0) as (_ & H & _). congruence. }
    destruct w, w0. unfold set_open_cnt. cbn in *. congruence.
  - intros Hnone. rewrite Hnone in W3. split; [naive_solver|]. split; [naive_solver|]. intros k x Hk Hs.
    assert (inodes s3 !! k = Some x) as Hk3.
    { rewrite Ew, E1, Hino1. rewrite !lookup_insert_ne; [done| |congruence].
      intros ->. apply Hnr. rewrite <- Hs. by apply Hroot1. }
    assert (k = j) as ->; [|congruence].
    apply (fi_same _ _ (proj1 Hi3) k j x w); [by eapply (proj2 (proj2 Hi3))|by eapply (proj2 (proj2 Hi3))|done|done|congruence].
Qed.


(** Looking a name up in the root directory. *)
Lemma root_lookup live s d i v s1 name e :
  root_opened live s d i v s1 -> name_ok name -> length e = 20%nat ->
  exists s2, quiet s1 s2 /\
    ((lookup d name e s1 = Ok (None, s2) /\ names live s !! name = None) \/
     exists e' k, lookup d name e s1 = Ok (Some (e', 20 * Z.of_nat k), s2) /\
       entries (contents s1 (data v)) !! k = Some e' /\ binding e' = Some (name, entry_sector e') /\
       names live s !! name = Some (entry_sector e')).
Proof.
  intros Hro Hn He. pose proof Hro as [Hi1 Hd1 Hst1 [_ Hl] _ _ _ _ _].
  assert (names_of s1 v = names live s) as En.
  { rewrite (names_eq live s _ Hl). unfold names_of. by rewrite (same_store_contents s s1). }
  destruct (lookup_ok live s1 d i v name e Hi1 Hd1 Hn He) as (s2 & Hq & Hcase). exists s2. split; [done|].
  rewrite En in Hcase. destruct Hcase as [Hcase|(e' & k & sec & H1 & H2 & H3 & H4)]; [by left|right].
  pose proof (binding_sector _ _ _ H3) as ->. by exists e', k.
Qed.

Lemma same_store_kept live s s' : same_store s s' -> files_kept live s s'.
Proof. intros H sec d _ _. by apply same_store_contents. Qed.

Lemma filesys_open_run live s name e :
  fs_ok live s -> can_open s ROOT_DIR_SECTOR -> name_ok name -> length e = 20%nat ->
  (forall sec, names live s !! name = Some sec -> can_open s sec) ->
  exists f s', filesys_open name e s = Ok (f, s') /\ fs_ok live s' /\ names live s' = names live s /\ files_kept live s s' /\
    match names live s !! name with
    | Some sec => file_opened live s sec f s'
    | None => f = NULL /\ inodes s' = inodes s /\ files s' = files s /\ dirs s' = dirs s
    end.
Proof.
  intros Hok Hroom Hn He Hcan. unfold filesys_open.
  destruct (dir_open_root_ok live s Hok Hroom) as (d & i & v & s1 & Hr1 & Hro). mrun Hr1.
  pose proof (id_null _ _ _ _ (ro_dir _ _ _ _ _ _ Hro)) as Hdn. rewrite (proj2 (Z.eqb_neq _ _) Hdn).
  destruct (root_lookup live s d i v s1 name e Hro Hn He) as (s2 & Hq & Hcase).
  unfold dir_lookup. rewrite (proj2 (Z.eqb_neq _ _) Hdn). mnorm.
  destruct Hcase as [[Hr2 Hno]|(e' & k & Hr2 & _ & _ & Hsome)]; mrun Hr2; mnorm.
  - destruct (fs_inv_quiet _ _ _ (ro_inv _ _ _ _ _ _ Hro) Hq) as [Hi2 _].
    destruct (is_dir_quiet _ _ _ _ _ (ro_dir _ _ _ _ _ _ Hro) Hq) as [Hd2 _].
    pose proof (sbd_rest _ _ (proj1 Hq)) as R. unfold rest in R. injection R as E1 _ E3 E4 _ _.
    destruct (root_close_ok live live s s1 s2 d i v) as (s3 & Hr3 & Hi3 & Hk3 & F1 & F2 & F3 & _); [done..|].
    mrun Hr3. unfold file_open. destruct (malloc_inv live s3 Hi3) as (s4 & Hr4 & Hi4 & Hq4 & _). mrun Hr4.
    cbn [negb andb Z.eqb NULL]. unfold inode_close. cbn [Z.eqb NULL]. mnorm.
    pose proof (sbd_rest _ _ (proj1 Hq4)) as R. unfold rest in R. injection R as G1 _ G3 G4 _ _.
    assert (files_kept live s s4) as Hk.
    { transitivity s1; [apply same_store_kept, Hro|]. transitivity s2; [by apply same_store_kept, quiet_store|].
      transitivity s3; [done|]. by apply same_store_kept, quiet_store. }
    destruct (fs_ok_inodes live s s4) as [Hok4 Hnm4]; [done..| |].
    { rewrite G1, F3. apply Hok. }
    exists NULL, s4. split; [done|]. split; [done|]. split; [done|]. split; [done|]. rewrite Hno. split; [done|].
    split; [congruence|]. split; [|congruence]. rewrite G3, F1, E3. apply Hro.
  - destruct (open_named live s s1 s2 d i v (entry_sector e'))
      as (j & w & s3 & Hr3 & Hi3 & Hd3 & Hij & Hjn & Ei3 & Ed3 & Ef3 & Hst3 & Hw & Hlw & Hclw & Hold & Hnew); [done..|eauto|by apply Hcan|].
    mrun Hr3. mnorm. cbn [snd].
    destruct (dir_close_ok live s3 d i v Hi3 Hd3) as (s4 & Hr4 & Hi4 & Hk4 & F1 & F2 & F3 & F4 & F5).
    { unfold dies. destruct (ro_clean _ _ _ _ _ _ Hro) as [_ ->]. by rewrite andb_false_r. }
    mrun Hr4. rewrite Ei3, (restore_other live s d i v s1 j w Hro Hij) in F4.
    destruct (file_open_ok live s4 j w Hi4) as (f & s5 & Hr5 & Hi5 & Hst5 & G1 & G2 & G3 & G4 & G5);
      [by rewrite F4, lookup_insert_eq|done|].
    assert (files_kept live s s5) as Hk.
    { transitivity s3; [by apply same_store_kept|]. transitivity s4; [done|]. by apply same_store_kept. }
    destruct (fs_ok_inodes live s s5) as [Hok5 Hnm5]; [done..| |].
    { intros k' x. rewrite G1, F4, lookup_insert_Some. intros [[<- <-]|[_ Hx]]; [done|]. by eapply fo_open. }
    exists f, s5. split; [done|]. split; [done|]. split; [done|]. split; [done|]. rewrite Hsome.
    split; [|rewrite <- Ef3, <- F1; done|].
    + exists j, w. rewrite G3, G1, F1, F4, Ef3. split; [done|]. split; [done|]. split; [done|]. split; [done|]. split; [done|].
      split; [|apply (reopened_restore live s (entry_sector e') j w (fo_inv _ _ Hok) Hold Hnew)].
      destruct (removed w) eqn:Hrem; [|done]. destruct (proj2 Hclw Hrem) as (_ & _ & Hnn). by rewrite Hw in Hnn; destruct (Hnn name).
    + rewrite G2, F2, Ed3. apply Hro.
Qed.


(** ** Removing a file *)

Definition is_open (s : fs) (sec : Z) : Prop := exists j w, inodes s !! j = Some w /\ sector w = sec.

(** The inode of a removed file. *)
Definition mark_removed (w : inode) : inode := mkInode (sector w) (open_cnt w) true (deny_write_cnt w) (data w).

(** Exactly the sectors of the file are free again. *)
Definition sectors_freed (live : gmap Z inode_disk) (s : fs) (sec : Z) (s' : fs) : Prop :=
  exists d, live !! sec = Some d /\ forall x, 0 <= x ->
    (in_file sec d x -> Bitmap.bit (free_map s') x = false) /\
    (~ in_file sec d x -> Bitmap.bit (free_map s') x = Bitmap.bit (free_map s) x).

(** The name is gone.  A file that is open stays until it is closed; one that
    is not gives its sectors back. *)
Record removed_file (live live' : gmap Z inode_disk) (s : fs) (name : list Z) (sec : Z) (s' : fs) : Prop := {
  rf_ok : fs_ok live' s';
  rf_names : names live' s' = delete name (names live s);
  rf_kept : user_files_kept live' s s';
  rf_handles : files s' = files s /\ dirs s' = dirs s;
  rf_sectors : (is_open s sec /\ live' = live /\ same_bits s s' /\
      exists j w, inodes s !! j = Some w /\ sector w = sec /\ inodes s' = <[j := mark_removed w]> (inodes s)) \/
    (~ is_open s sec /\ live' = delete sec live /\ inodes s' = inodes s /\
     sectors_freed live s sec s')
}.

(** [fs_ok] after a name has been removed. *)
Lemma fs_ok_unname live live' s s' name sec dr :
  fs_ok live s -> fs_inv live' s' -> names live s !! name = Some sec ->
  (live' = live \/ live' = delete sec live) -> live !! ROOT_DIR_SECTOR = Some dr ->
  dir_ok (contents s' dr) -> dir_map (contents s' dr) = delete name (names live s) ->
  (forall i v, inodes s' !! i = Some v -> inodes s !! i = Some v \/ (sector v = sec /\ removed v = true)) ->
  fs_ok live' s' /\ names live' s' = delete name (names live s).
Proof.
  intros [H1 _ H3 H4 H5] Hi Hname Hlive Hr Hok Hmap Hino. destruct (H3 name sec Hname) as (N1 & N2 & N3).
  assert (forall x d, live !! x = Some d -> x <> sec -> live' !! x = Some d) as Hsub.
  { intros x d Hx Hne. destruct Hlive as [->| ->]; [done|]. by rewrite lookup_delete_ne. }
  pose proof (Hsub ROOT_DIR_SECTOR dr Hr ltac:(congruence)) as Hr'.
  assert (names live' s' = delete name (names live s)) as En by (by rewrite (names_eq _ _ dr Hr')).
  split; [|done]. split; [done|by exists dr| | |]; rewrite En.
  - intros n x [Hne Hx]%lookup_delete_Some. destruct (H3 n x Hx) as (A1 & A2 & [dx A3]). do 2 (split; [done|]).
    exists dx. apply Hsub; [done|]. intros ->. apply Hne. by apply (H4 name n sec).
  - intros n1 n2 x [_ Hx1]%lookup_delete_Some [_ Hx2]%lookup_delete_Some. by eapply H4.
  - intros i v [Hv|[Hs Hrem]]%Hino.
    + destruct (H5 i v Hv) as [C1 C2]. split; [done|]. intros Hrem. destruct (C2 Hrem) as (A1 & A2 & A3).
      do 2 (split; [done|]). intros n [_ Hx]%lookup_delete_Some. by eapply A3.
    + split; [congruence|]. intros _. rewrite Hs. do 2 (split; [done|]). intros n [Hne Hx]%lookup_delete_Some.
      apply Hne. by apply (H4 name n sec).
Qed.

(** [inode_remove] and [inode_close] of a file other than the directory's. *)
Lemma unlink_inode live s j w sec :
  fs_inv live s -> inodes s !! j = Some w -> sector w = sec -> sec <> FREE_MAP_SECTOR -> j <> NULL ->
  exists s', (inode_remove j ;;; inode_close j) s = Ok (tt, s') /\
    fs_inv (live_after (mark_removed w) live) s' /\ files_kept (live_after (mark_removed w) live) s s' /\
    files s' = files s /\ dirs s' = dirs s /\
    inodes s' = (if open_cnt w =? 1 then delete j (inodes s)
                 else <[j := set_open_cnt (open_cnt w - 1) (mark_removed w)]> (inodes s)) /\
    (forall x, 0 <= x -> Bitmap.bit (free_map s') x =
       if bool_decide (open_cnt w = 1 /\ in_file sec (data w) x) then false else Bitmap.bit (free_map s) x).
Proof.
  intros Hi Hw Hs Hnf Hn. destruct (fi_open _ _ (proj1 Hi) j w (proj2 (proj2 Hi) j w Hw) Hw) as (_ & _ & Hc).
  unfold inode_remove. rewrite (proj2 (Z.eqb_neq _ _) Hn). cbn [negb]. mnorm.
  mrun (upd_inode_run j mark_removed w s Hw Hn).
  set (s1 := set_inodes _ s). assert (fs_inv live s1) as Hi1 by (by apply (fs_inv_upd_inode live s j w)).
  assert (inodes s1 !! j = Some (mark_removed w)) as Hw1 by apply lookup_insert_eq.
  destruct (inode_close_ok live s1 j (mark_removed w) Hi1 Hw1) as (s2 & Hr2 & Hi2 & Hk2 & (F1 & F2 & _) & F4 & F5);
    [cbn; congruence|].
  exists s2. split; [done|]. split; [done|]. split; [exact Hk2|]. split; [done|]. split; [done|]. split.
  - rewrite F4. cbn [mark_removed open_cnt inodes s1 set_inodes]. unfold s1. cbn. destruct (open_cnt w =? 1).
    + by rewrite delete_insert_eq.
    + by rewrite insert_insert_eq.
  - intros x Hx. rewrite F5 by done. unfold dies. cbn [mark_removed open_cnt removed sector data]. rewrite andb_true_r, Hs.
    erewrite bool_decide_ext; [done|]. by rewrite Z.eqb_eq.
Qed.


(** The result of [filesys_remove] without such a name. *)
Definition not_removed (live : gmap Z inode_disk) (s s' : fs) : Prop :=
  fs_ok live s' /\ names live s' = names live s /\ files_kept live s s' /\
  inodes s' = inodes s /\ files s' = files s /\ dirs s' = dirs s.

(** The part of [dir_remove] behind the search. *)
Definition remove_body (d : Z) (e' : list Z) (ofs : Z) : M fs bool :=
  i <- inode_open (entry_sector e') ;;
  if i =? NULL then inode_close i ;;; ret false
  else
    v <- directory d ;;
    n <- inode_write_at (dir_inode v) (clear_entry e') ENTRY_SIZE ofs ;;
    if negb (n =? ENTRY_SIZE) then inode_close i ;;; ret false
    else inode_remove i ;;; inode_close i ;;; ret true.

(** After [remove_body], with the root directory still open. *)
Record body_removed (live live' : gmap Z inode_disk) (s s1 : fs) (d i : Z) (v : inode) (name : list Z) (sec : Z)
    (s' : fs) : Prop := {
  br_inv : fs_inv live' s';
  br_dir : is_dir s' d i v;
  br_names : names_of s' v = delete name (names live s);
  br_kept : user_files_kept live' s s';
  br_handles : files s' = files s /\ dirs s' = dirs s1;
  br_sectors : (live' = live /\ same_bits s s' /\
      exists j w, inodes s !! j = Some w /\ sector w = sec /\ i <> j /\ inodes s' = <[j := mark_removed w]> (inodes s1)) \/
    (~ is_open s sec /\ live' = delete sec live /\ inodes s' = inodes s1 /\ sectors_freed live s sec s')
}.

Lemma live_after_sub v live sec d : live_after v live !! sec = Some d -> live !! sec = Some d.
Proof. unfold live_after. destruct (dies v); [|done]. by intros [_ H]%lookup_delete_Some. Qed.

Lemma remove_body_ok live s s1 s2 d i v e' k name :
  fs_ok live s -> root_opened live s d i v s1 -> quiet s1 s2 ->
  entries (contents s1 (data v)) !! k = Some e' -> binding e' = Some (name, entry_sector e') ->
  names live s !! name = Some (entry_sector e') -> can_open s (entry_sector e') ->
  exists live' s', remove_body d e' (20 * Z.of_nat k) s2 = Ok (true, s') /\
    body_removed live live' s s1 d i v name (entry_sector e') s'.
Proof.
  intros Hok Hro Hq He' Hb Hname Hroom. pose proof Hro as [_ _ Hst1 [Hsec Hl] [Hdeny _] _ _ [Hino1 Hroot1] _].
  set (sec := entry_sector e') in *. destruct (fo_named _ _ Hok name sec Hname) as (Hnf & Hnr & _).
  destruct (open_named live s s1 s2 d i v sec)
    as (j & w & s3 & Hr3 & Hi3 & Hd3 & Hij & Hjn & Ei3 & Ed3 & Ef3 & Hst3 & Hw & Hlw & _ & Hold & Hnew); [done..|eauto|done|].
  unfold remove_body. fold sec. mrun Hr3. rewrite (proj2 (Z.eqb_neq _ _) Hjn).
  destruct (directory_run _ _ _ _ Hd3) as [pos Hdr]. mrun Hdr. cbn [dir_inode].
  assert (contents s3 (data v) = contents s1 (data v)) as Ec3.
  { by rewrite (same_store_contents s s3), (same_store_contents s s1). }
  assert (length e' = 20%nat) as Hlen by (eapply entry_length, list_elem_of_lookup_2; exact He').
  destruct (clear_entry_ok e' Hlen) as (C1 & C2 & C3).
  destruct (write_entry live s3 d i v (clear_entry e') k) as (s4 & Hr4 & Hi4 & Hs4 & Hc4 & Ho4);
    [done|done|done|done|rewrite Ec3; by eapply lookup_lt_Some|].
  mrun Hr4. change (negb (20 =? ENTRY_SIZE)) with false. cbv iota.
  destruct (dir_map_remove (contents s1 (data v)) k e' (clear_entry e') name sec) as [Hdok Hmap];
    [apply Hro|done..|]. rewrite <- Ec3, <- Hc4 in Hdok, Hmap.
  pose proof (sbd_rest _ _ Hs4) as R. unfold rest in R. injection R as G1 _ G3 G4 G5 _.
  assert (inodes s4 !! j = Some w) as Hw4 by (rewrite G1, Ei3; apply lookup_insert_eq).
  destruct (unlink_inode live s4 j w sec Hi4 Hw4 Hw Hnf Hjn) as (s5 & Hr5 & Hi5 & Hk5 & F1 & F2 & F3 & F5).
  rewrite <- bind_bind. mrun Hr5. set (live' := live_after (mark_removed w) live) in *. exists live', s5. split; [done|].
  assert (live' !! ROOT_DIR_SECTOR = Some (data v)) as Hl'.
  { unfold live', live_after. destruct (dies _); [|done]. rewrite lookup_delete_ne; [done|cbn; congruence]. }
  assert (contents s5 (data v) = contents s4 (data v)) as Ec5 by (by apply (Hk5 ROOT_DIR_SECTOR)).
  assert (names_of s1 v = names live s) as En.
  { rewrite (names_eq live s _ Hl). unfold names_of. by rewrite (same_store_contents s s1). }
  split; [done| | | | |].
  - destruct Hd3 as [D1 D2 D3 D4 D5]. split; [done|by rewrite F2, G4| |done|by rewrite Ec5].
    rewrite F3, G1. destruct (open_cnt w =? 1); [rewrite lookup_delete_ne|rewrite lookup_insert_ne]; done.
  - unfold names_of. rewrite Ec5, Hmap, Ec3. by rewrite <- En.
  - intros x dx Hx Hxf Hxr. rewrite (Hk5 x dx Hx Hxf). apply live_after_sub in Hx.
    rewrite (Ho4 x dx Hx) by congruence. by apply same_store_contents.
  - rewrite F1, F2, G3, G4, Ef3, Ed3. done.
  - assert (free_map s4 = free_map s) as Em by (rewrite G5; apply Hst3). rewrite Em in F5.
    rewrite G1, Ei3 in F3. destruct (inodes s !! j) as [w0|] eqn:Ej.
    + destruct (Hold w0 eq_refl) as [-> Hs0]. left.
      destruct (fi_open _ _ (proj1 (fo_inv _ _ Hok)) j w0 (proj2 (proj2 (fo_inv _ _ Hok)) j w0 Ej) Ej) as (_ & _ & Hcnt).
      unfold live', live_after, dies. cbn [mark_removed set_open_cnt open_cnt] in *.
      rewrite (proj2 (Z.eqb_neq _ _)) in F3 |- * by lia. cbn [andb]. split; [done|]. split.
      * intros x Hx. rewrite F5 by done. rewrite bool_decide_eq_false_2; [done|lia].
      * exists j, w0. split; [done|]. split; [done|]. split; [done|]. rewrite F3, insert_insert_eq. f_equal.
        unfold mark_removed, set_open_cnt. cbn. f_equal. lia.
    + destruct (Hnew eq_refl) as (Hone & _ & Hno). right. unfold live', live_after, dies. cbn [mark_removed open_cnt removed sector].
      rewrite Hone in *. cbn [Z.eqb Pos.eqb andb] in *. rewrite Hw. split; [intros (k' & x & Hx & Hs); by apply (Hno k' x)|].
      split; [done|]. split.
      * rewrite F3. apply delete_insert_id. by rewrite Hino1, lookup_insert_ne.
      * exists (data w). split; [done|]. intros x Hx. rewrite F5 by done. split; intros Hin.
        { by rewrite bool_decide_eq_true_2. } { rewrite bool_decide_eq_false_2; [done|by intros [_ ?]]. }
Qed.

Lemma filesys_remove_run live s name e :
  fs_ok live s -> can_open s ROOT_DIR_SECTOR -> name_ok name -> length e = 20%nat ->
  (forall sec, names live s !! name = Some sec -> can_open s sec) ->
  exists s', match names live s !! name with
    | Some sec => filesys_remove name e s = Ok (true, s') /\ exists live', removed_file live live' s name sec s'
    | None => filesys_remove name e s = Ok (false, s') /\ not_removed live s s'
    end.
Proof.
  intros Hok Hroom Hn He Hcan. unfold filesys_remove.
  destruct (dir_open_root_ok live s Hok Hroom) as (d & i & v & s1 & Hr1 & Hro). mrun Hr1.
  pose proof (id_null _ _ _ _ (ro_dir _ _ _ _ _ _ Hro)) as Hdn. rewrite (proj2 (Z.eqb_neq _ _) Hdn).
  destruct (root_lookup live s d i v s1 name e Hro Hn He) as (s2 & Hq & Hcase).
  unfold dir_remove. rewrite (proj2 (Z.eqb_neq _ _) Hdn). mnorm.
  destruct Hcase as [[Hr2 Hno]|(e' & k & Hr2 & Hk & Hb & Hsome)]; mrun Hr2; cbn beta iota.
  - destruct (fs_inv_quiet _ _ _ (ro_inv _ _ _ _ _ _ Hro) Hq) as [Hi2 _].
    destruct (is_dir_quiet _ _ _ _ _ (ro_dir _ _ _ _ _ _ Hro) Hq) as [Hd2 _].
    pose proof (sbd_rest _ _ (proj1 Hq)) as R. unfold rest in R. injection R as E1 _ E3 E4 _ _.
    unfold inode_close at 1. cbn [Z.eqb NULL]. mnorm.
    destruct (root_close_ok live live s s1 s2 d i v) as (s3 & Hr3 & Hi3 & Hk3 & F1 & F2 & F3 & _); [done..|].
    mrun Hr3. exists s3. rewrite Hno. split; [done|].
    assert (files_kept live s s3) as Hkept.
    { transitivity s1; [apply same_store_kept, Hro|]. transitivity s2; [by apply same_store_kept, quiet_store|done]. }
    destruct (fs_ok_inodes live s s3) as [Hok3 Hnm3]; [done..|rewrite F3; apply Hok|].
    split; [done|]. split; [done|]. split; [done|]. split; [done|]. split; [|done]. rewrite F1, E3. apply Hro.
  - destruct (remove_body_ok live s s1 s2 d i v e' k name) as (live' & s3 & Hr3 & [Hi3 Hd3 Hn3 Hk3 [F1 F2] Hs3]);
      [done..|by apply Hcan|]. unfold remove_body in Hr3. mrun Hr3. rewrite Hsome.
    destruct (dir_close_ok live' s3 d i v Hi3 Hd3) as (s4 & Hr4 & Hi4 & Hk4 & G1 & G2 & _ & G4 & G5).
    { unfold dies. destruct (ro_clean _ _ _ _ _ _ Hro) as [_ ->]. by rewrite andb_false_r. }
    mrun Hr4. exists s4. split; [done|]. exists live'. destruct (ro_sector _ _ _ _ _ _ Hro) as [Hsec Hl].
    destruct (fo_named _ _ Hok name _ Hsome) as (_ & Hnr & _).
    assert (live' !! ROOT_DIR_SECTOR = Some (data v)) as Hl'.
    { destruct Hs3 as [(-> & _)|(_ & -> & _)]; [done|]. rewrite lookup_delete_ne; [done|congruence]. }
    assert (contents s4 (data v) = contents s3 (data v)) as Ec by (by apply (Hk4 ROOT_DIR_SECTOR)).
    assert (inodes s4 = inodes s \/ exists j w, sector w = entry_sector e' /\ inodes s !! j = Some w /\
      inodes s4 = <[j := mark_removed w]> (inodes s)) as Hino.
    { rewrite G4. destruct Hs3 as [(_ & _ & j & w & Hj & Hw & Hij & ->)|(_ & _ & -> & _)].
      - right. exists j, w. split; [done|]. split; [done|]. by apply (restore_other live s d i v s1).
      - left. apply Hro. }
    destruct (fs_ok_unname live live' s s4 name (entry_sector e') (data v)) as [Hok4 Hnm4];
      [done|done|done|naive_solver|done|rewrite Ec; apply Hd3|rewrite Ec; exact Hn3| |].
    { intros j x Hx. destruct Hino as [E|(j' & w & Hw & Hj & E)]; rewrite E in Hx; [by left|].
      apply lookup_insert_Some in Hx as [[_ <-]|[_ Hx]]; [by right|by left]. }
    split; [done|done| |by rewrite G1, G2, F2, (ro_dirs _ _ _ _ _ _ Hro)|].
    + transitivity s3; [done|]. by apply files_kept_user.
    + destruct Hs3 as [(-> & Hbits & j & w & Hj & Hw & Hij & Ei)|(Hno & -> & Ei & dx & Hdx & Hbits)]; [left|right].
      * split; [by exists j, w|]. split; [done|]. split; [intros x Hx; by rewrite G5, Hbits|].
        exists j, w. split; [done|]. split; [done|]. rewrite G4, Ei. by apply (restore_other live s d i v s1).
      * split; [done|]. split; [done|]. split; [rewrite G4, Ei; apply Hro|]. exists dx. split; [done|].
        intros x Hx. by rewrite G5 by done; apply Hbits.
Qed.


End FileSys.
