(* ===== verification/Mount.v ===== *)
(** * Formatting and mounting

    [filesys_init] of src/src/filesys/filesys.c: formatting a device
    establishes the file-system invariant with an empty root directory, and
    mounting a device again finds the files that were there. *)

From S2P Require Import Prelude KState Bitmap FsState Inode FileOps Directory FsInv DirProps FileSys.
Import FsState Inode FileOps Directory FsInv DirProps FileSys.

Module Mount.

(** ** The store: the device and the free map *)

(** The part of the invariant that is not about open files. *)
Record store_inv (live : gmap Z inode_disk) (s : fs) : Prop := {
  si_sectors : sectors_ok s;
  si_map : Bitmap.wf (free_map s);
  si_cnt : Bitmap.bit_cnt (free_map s) = Z.of_nat (length (disk s));
  si_words : Z.of_nat (length (Bitmap.bits (free_map s))) = Bitmap.elem_cnt (Bitmap.bit_cnt (free_map s));
  si_live : forall sec d, live !! sec = Some d -> on_disk s sec d;
  si_used : forall sec d x, live !! sec = Some d -> in_file sec d x -> Bitmap.bit (free_map s) x = true;
  si_apart : forall sec d sec' d' x, live !! sec = Some d -> live !! sec' = Some d' ->
    in_file sec d x -> in_file sec' d' x -> sec = sec'
}.

Lemma fs_inv0_store live s : fs_inv0 live s -> store_inv live s.
Proof. intros []. by split. Qed.

Lemma on_disk_disk s s' sec d : disk s' = disk s -> on_disk s sec d -> on_disk s' sec d.
Proof.
  intros E [H1 [] H3 H4 H5]. split; [by rewrite E|by split; rewrite ?E|done| |done].
  unfold contents, flat in *. by rewrite E.
Qed.

Lemma store_inv_same live s s' :
  store_inv live s -> disk s' = disk s -> free_map s' = free_map s -> store_inv live s'.
Proof.
  intros [] Ed Em. split; rewrite ?Em, ?Ed; try done.
  - unfold sectors_ok in *. by rewrite Ed.
  - intros sec d Hl. by eapply on_disk_disk, si_live0.
Qed.

(** No file is open. *)
Record boot (s : fs) : Prop := {
  bt_inodes : inodes s = ∅;
  bt_files : files s = ∅;
  bt_dirs : dirs s = ∅;
  bt_brk : 0 < brk s;
  bt_mem : mem_ok s
}.

Lemma malloc_ok s :
  mem_ok s -> exists s', malloc s = Ok (brk s, s') /\ quiet s s' /\ brk s' = brk s + 1.
Proof.
  intros Hm. unfold malloc. mnorm. unfold bind, put, ret. rewrite (Hm 0%nat). eexists. split; [done|].
  split; [split; [split|]; cbn; try done|done]; [intros H n; apply H|lia].
Qed.

(** No file is open, and the list of open inodes is empty. *)
Definition idle (s : fs) : Prop := boot s /\ open_inodes s = [].

(** The free map's file has been opened. *)
Record attached (live : gmap Z inode_disk) (b : Bitmap.bitmap) (d : inode_disk) (s : fs) (f i : Z) (s' : fs) : Prop := {
  at_inv : fs_inv0 live (set_free_map b s');
  at_f : f <> NULL /\ free_map_file s' = f;
  at_i : i <> NULL;
  at_disk : disk s' = disk s /\ free_map s' = free_map s;
  at_inodes : inodes s' = {[ i := mkInode FREE_MAP_SECTOR 1 false 0 d ]} /\ open_inodes s' = [i];
  at_files : files s' = {[ f := mkFile i 0 false ]} /\ dirs s' = ∅
}.

(** Opening an inode when none is open. *)
Lemma inode_open_first s sec d :
  idle s -> sectors_ok s -> on_disk s sec d ->
  exists i s', inode_open sec s = Ok (i, s') /\ i <> NULL /\ disk s' = disk s /\ free_map s' = free_map s /\
    inodes s' = {[ i := mkInode sec 1 false 0 d ]} /\ open_inodes s' = [i] /\ files s' = ∅ /\ dirs s' = ∅ /\
    0 < i < brk s' /\ mem_ok s'.
Proof.
  intros [[E1 E2 E3 Hb Hm] E4] Hok [H1 [D1 D2 D3 D4] H3 H4 H5]. unfold inode_open. mnorm. rewrite E4. cbn [find_open]. mnorm.
  cbn [Z.eqb NULL negb]. destruct (malloc_ok s Hm) as (s1 & Hr1 & Hq1 & Hb1). mrun Hr1.
  rewrite (proj2 (Z.eqb_neq (brk s) NULL)) by (unfold NULL; lia). mnorm.
  pose proof Hq1 as [[R1 _ _ R4 _] Ed1]. unfold rest in R1. injection R1 as A1 A2 A3 A4 A5 A6.
  set (s2 := set_open_inodes _ s1).
  destruct (block_read_run s2 sec (encode_inode d)) as (s3 & Hr3 & Hq3 & _); [cbn; rewrite Ed1; lia| |].
  { cbn. rewrite Ed1. apply (header_contents s sec); [done|lia|]. split; [lia|done]. }
  mrun Hr3. mnorm.
  assert (decode_inode (encode_inode d) = d) as ->.
  { apply inode_disk_roundtrip; [|unfold in_s32; lia|done]. unfold in_u32.
    assert (0 <= sectors_of (dlength d)) by (unfold sectors_of; apply Z.div_pos; lia). lia. }
  pose proof Hq3 as [[Q1 _ _ Q4 Q5] Ed3]. unfold rest in Q1. injection Q1 as B1 B2 B3 B4 B5 B6. cbn in *.
  eexists _, _. split; [done|]. cbn. rewrite Ed3, B1, B2, B3, B4, B5, Ed1, A1, A2, A3, A4, A5, E1, E2, E3, E4.
  split; [unfold NULL; lia|]. repeat (split; [done|]). split; [lia|]. by apply Q4, R4.
Qed.

Lemma file_open_first s i :
  mem_ok s -> 0 < brk s -> i <> NULL ->
  exists s', file_open i s = Ok (brk s, s') /\ disk s' = disk s /\ free_map s' = free_map s /\ inodes s' = inodes s /\
    open_inodes s' = open_inodes s /\ files s' = <[brk s := mkFile i 0 false]> (files s) /\ dirs s' = dirs s /\
    brk s' = brk s + 1 /\ mem_ok s'.
Proof.
  intros Hm Hb Hi. unfold file_open. destruct (malloc_ok s Hm) as (s1 & Hr1 & Hq1 & Hb1). mrun Hr1.
  rewrite (proj2 (Z.eqb_neq _ _) Hi), (proj2 (Z.eqb_neq (brk s) NULL)) by (unfold NULL; lia). cbn [negb andb]. mnorm.
  pose proof Hq1 as [[R1 _ _ R4 _] Ed1]. unfold rest in R1. injection R1 as A1 A2 A3 A4 A5 A6.
  eexists. split; [done|]. cbn. rewrite A3. repeat (split; [done|]). by apply R4.
Qed.

Lemma attach_map live b d s :
  idle s -> store_inv live (set_free_map b s) -> live !! FREE_MAP_SECTOR = Some d ->
  dlength d = 4 * Z.of_nat (length (Bitmap.bits b)) ->
  exists f i s', attached live b d s f i s' /\
    forall A (k : Z -> M fs A),
      (i <- inode_open FREE_MAP_SECTOR ;; f <- file_open i ;; modify (set_free_map_file f) ;;; k f) s = k f s'.
Proof.
  intros Hidle Hst Hl Hlen. pose proof (si_live _ _ Hst _ _ Hl) as Hod.
  destruct (inode_open_first s FREE_MAP_SECTOR d Hidle) as (i & s1 & Hr1 & Hi & A1 & A2 & A3 & A4 & A5 & A6 & A7 & A8);
    [apply Hst|by apply (on_disk_disk (set_free_map b s))|].
  destruct (file_open_first s1 i A8 ltac:(lia) Hi) as (s2 & Hr2 & B1 & B2 & B3 & B4 & B5 & B6 & B7 & B8).
  exists (brk s1), i, (set_free_map_file (brk s1) s2). split.
  2:{ intros A k. mrun Hr1. mrun Hr2. by mnorm. }
  split; cbn; [|split; [unfold NULL; lia|done]|done|split; congruence|split; congruence|].
  2:{ split; [by rewrite B5, A5|congruence]. }
  assert (disk s2 = disk s) as Ed by congruence.
  destruct (store_inv_same live (set_free_map b s) (set_free_map b s2) Hst) as [S1 S2 S3 S4 S5 S6 S7]; [done|done|].
  cbn in *. split; cbn; try done.
  - lia.
  - intros a Ha. rewrite B3, A3, B5, A5, B6, A6. rewrite lookup_singleton_ne, lookup_insert_ne by lia. done.
  - intros sec d' Hd'. by apply (on_disk_disk (set_free_map b s2)), S5.
  - intros j w. rewrite B3, A3, lookup_singleton_Some. intros _ [<- <-]. cbn. split; [done|]. split; [done|lia].
  - rewrite B4, A4, B3, A3. split; [apply NoDup_singleton|]. intros j ->%list_elem_of_singleton. rewrite lookup_singleton_eq. eauto.
  - rewrite B4, A4. by intros j k w w' ->%list_elem_of_singleton ->%list_elem_of_singleton.
  - exists (mkFile i 0 false), (mkInode FREE_MAP_SECTOR 1 false 0 d). cbn.
    rewrite B5, A5, lookup_insert_eq, B3, A3, lookup_singleton_eq, B4, A4.
    split; [unfold NULL; lia|]. split; [done|]. split; [by apply list_elem_of_singleton|done].
Qed.

(** ** Reading the free map *)

Lemma bytes_words_words ws : Forall in_u32 ws -> bytes_words (words_bytes ws) = ws.
Proof.
  induction 1 as [|w ws Hw _ IH]; [done|]. unfold words_bytes. cbn [map concat].
  change (concat (map le32 ws)) with (words_bytes ws). unfold le32. cbn [app bytes_words]. rewrite IH. f_equal.
  by apply (le32_roundtrip w []).
Qed.

Lemma last_mask_bits b k :
  0 <= k < 32 -> (Bitmap.bit_cnt b mod 32 <> 0 -> k < Bitmap.bit_cnt b mod 32) ->
  Z.testbit (Bitmap.last_mask b) k = true.
Proof.
  intros Hk Hlt. unfold Bitmap.last_mask, Bitmap.ELEM_BITS. pose proof (Z.mod_pos_bound (Bitmap.bit_cnt b) 32 ltac:(lia)).
  destruct (Z.eqb_spec (Bitmap.bit_cnt b mod 32) 0) as [E|E]; cbn [negb].
  - change (u32 (-1)) with (Z.ones 32). apply Z.ones_spec_low. lia.
  - rewrite Z.shiftl_1_l, Z.sub_1_r, <- Z.ones_equiv. apply Z.ones_spec_low. lia.
Qed.

(** The unused bits of the last element are cleared, the others kept. *)
Lemma mask_last_ok b b0 :
  Bitmap.wf b -> 0 < Bitmap.bit_cnt b -> Bitmap.bit_cnt b0 = Bitmap.bit_cnt b ->
  let last := Bitmap.elem_cnt (Bitmap.bit_cnt b) - 1 in
  exists b', (e <- Bitmap.elem last ;; Bitmap.set_elem last (Z.land e (Bitmap.last_mask b0))) b = Ok (tt, b') /\
    Bitmap.wf b' /\ Bitmap.bit_cnt b' = Bitmap.bit_cnt b /\ length (Bitmap.bits b') = length (Bitmap.bits b) /\
    forall x, 0 <= x < Bitmap.bit_cnt b -> Bitmap.bit b' x = Bitmap.bit b x.
Proof.
  intros Hw Hpos Hb0 last. pose proof Hw as [Hc _ Hu]. set (i := Bitmap.bit_cnt b - 1).
  assert (last = Bitmap.elem_idx i) as ->.
  { unfold last, i, Bitmap.elem_cnt, Bitmap.elem_idx, Bitmap.ELEM_BITS. rewrite u32_id by lia.
    replace (Bitmap.bit_cnt b + 32 - 1) with (Bitmap.bit_cnt b - 1 + 1 * 32) by lia. rewrite Z.div_add by lia. lia. }
  destruct (Bitmap.wf_elem b i Hw) as (e & He & _ & Hue); [unfold i; lia|].
  assert (in_u32 (Z.land e (Bitmap.last_mask b0))) as Hv.
  { apply Bitmap.in_u32_bits in Hue as [E1 E2]. apply Bitmap.in_u32_bits. split; [apply Z.land_nonneg; by left|].
    intros k Hk. by rewrite Z.land_spec, E2. }
  destruct (Bitmap.insert_elem_ok b i e _ Hw ltac:(unfold i; lia) He Hv) as [Hw' Hb'].
  mrun (Bitmap.elem_ok b i e He). rewrite (Bitmap.set_elem_ok b i e _ He). eexists. split; [done|].
  split; [done|]. split; [done|]. split; [apply length_insert|]. intros x Hx. rewrite Hb' by lia.
  destruct (Z.eqb_spec (x / 32) (i / 32)) as [E|E]; [|done]. rewrite Z.land_spec.
  pose proof (Bitmap.bit_index x) as [Ex Rx]. pose proof (Bitmap.bit_index (Bitmap.bit_cnt b)) as [Ec Rc].
  pose proof (Bitmap.bit_index i) as [Ei Ri].
  rewrite last_mask_bits; [|done|rewrite Hb0; unfold i in *; lia]. rewrite andb_true_r. unfold Bitmap.bit.
  by rewrite E, (nth_lookup_Some _ _ _ e He).
Qed.


(** The free map agrees with [b], bit for bit. *)
Definition same_map (b b' : Bitmap.bitmap) : Prop :=
  Bitmap.bit_cnt b' = Bitmap.bit_cnt b /\ length (Bitmap.bits b') = length (Bitmap.bits b) /\
  forall x, 0 <= x < Bitmap.bit_cnt b -> Bitmap.bit b' x = Bitmap.bit b x.

Lemma fs_inv0_same_map live s b b' :
  fs_inv0 live (set_free_map b s) -> Bitmap.wf b' -> same_map b b' -> fs_inv0 live (set_free_map b' s).
Proof.
  intros Hi Hw (E1 & E2 & E3). replace (set_free_map b' s) with (set_free_map b' (set_free_map b s)) by (by destruct s).
  apply fs_inv0_map; [done..|]. intros sec d x Hl Hx. rewrite E3; [by apply (fi_used _ _ Hi sec d)|].
  pose proof (fi_cnt _ _ Hi) as Hc. destruct (fi_live _ _ Hi sec d Hl) as [H1 [D1 D2 D3 D4] _ _ _]. cbn in *.
  rewrite Hc. destruct Hx as [->|[]]; lia.
Qed.

Lemma fs_inv0_quiet_map live s s' b :
  fs_inv0 live (set_free_map b s) -> quiet s s' -> fs_inv0 live (set_free_map b s').
Proof.
  intros Hi [[R1 R2 R3 R4 R5] E]. unfold rest in R1. injection R1 as A1 A2 A3 A4 A5 A6.
  apply (fs_inv0_disk live (set_free_map b s) _ (fun _ => False)); [done| |by apply untouched_disk|by intros ? ? ? []].
  split; cbn; [unfold rest; cbn; congruence|done|done|done|done].
Qed.

Lemma bitmap_read_ok live b d s0 f i s :
  attached live b d s0 f i s -> live !! FREE_MAP_SECTOR = Some d ->
  Bitmap.bit_cnt (free_map s) = Bitmap.bit_cnt b -> length (Bitmap.bits (free_map s)) = length (Bitmap.bits b) ->
  holds_map b (contents s d) ->
  exists s', bitmap_read f s = Ok (true, s') /\ fs_inv0 live s' /\ same_map b (free_map s') /\ disk s' = disk s /\
    inodes s' = inodes s /\ open_inodes s' = open_inodes s /\ files s' = files s /\ dirs s' = dirs s.
Proof.
  intros [Hi [Hf Hff] Hin _ [Ei Eo] [Ef Ed]] Hl Hc Hlen (ws & Hws & Hwl & Hwu & Hbits).
  destruct (fi_live _ _ Hi _ _ Hl) as [H1 [D1 D2 D3 D4] _ _ _]. cbn in H1, D3, D4.
  pose proof (fi_cnt _ _ Hi) as Hn. pose proof (fi_map _ _ Hi) as [Wc Wl _]. cbn in Hn, Wc, Wl.
  destruct (fi_file _ _ Hi) as (fl & v & _ & Hfl & _ & Hv & _ & _ & Hdl). cbn in Hfl, Hv, Hdl.
  rewrite Hff, Ef, lookup_singleton_eq in Hfl. injection Hfl as <-. cbn in Hv. rewrite Ei, lookup_singleton_eq in Hv. injection Hv as <-.
  cbn in Hdl. destruct (map_size _ _ Hi) as [Hsz _]. cbn in Hsz.
  assert (opened s i (mkInode FREE_MAP_SECTOR 1 false 0 d)) as Hop.
  { split; [rewrite Ei; apply lookup_singleton_eq|]. split; [done|]. split; [by split|].
    split; [apply (fi_sectors _ _ Hi)|]. pose proof (fi_brk _ _ Hi). cbn in *. lia. }
  set (buf := words_bytes (Bitmap.bits (free_map s))).
  assert (length buf = (4 * length (Bitmap.bits b))%nat) as Hbl by (unfold buf; by rewrite words_bytes_length, Hlen).
  destruct (inode_read_at_ok s i _ buf (dlength d) 0 Hop) as (k & s1 & Hr & Hk & Hq & Hall); [lia|lia|].
  assert (k = dlength d) as ->.
  { rewrite Hall by apply (fi_mem _ _ Hi). unfold available. cbn. lia. }
  cbn [data] in Hr. rewrite Z2Nat.inj_0, drop_0, take_ge, drop_ge, app_nil_r, Hws in Hr
    by (rewrite ?Hws, ?words_bytes_length; lia).
  unfold bitmap_read. mnorm. rewrite Hc, Z.gtb_ltb, (proj2 (Z.ltb_lt _ _)) by lia. rewrite Hsz, <- Hdl.
  fold buf. unfold file_read_at, fil. unfold bind at 1, bind at 1, gets_opt.
  rewrite (proj2 (Z.eqb_neq _ _) Hf), Ef, lookup_singleton_eq. cbn [file_inode]. rewrite Hr. mnorm. cbn [fst snd].
  rewrite bytes_words_words by done. set (s2 := set_free_map _ s1).
  destruct (mask_last_ok (Bitmap.mkBitmap (Bitmap.bit_cnt b) ws) (free_map s)) as (b' & Hm & Hw' & Hc' & Hl' & Hb');
    [by split; cbn; rewrite ?Hwl|cbn; lia|done|]. cbn [Bitmap.bit_cnt] in Hm.
  mrun (on_free_map_run _ s2 _ _ Hm). mnorm. rewrite Z.eqb_refl. eexists. split; [done|].
  assert (same_map b b') as Hsame.
  { split; [done|]. cbn in Hl', Hb'. split; [by rewrite Hl'|]. intros x Hx. by rewrite Hb', Hbits. }
  pose proof Hq as [[R1 _ _ _ _] E]. unfold rest in R1. injection R1 as A1 A2 A3 A4 A5 A6. cbn.
  split; [|split; [done|]; repeat (split; [congruence|]); congruence]. replace (set_free_map b' s2) with (set_free_map b' s1) by (by destruct s1).
  apply (fs_inv0_same_map live s1 b b'); [|done|done]. by apply (fs_inv0_quiet_map live s s1).
Qed.

(** Opening the free map of a device whose free-map file holds [b]. *)
Lemma free_map_open_ok live b d s :
  idle s -> store_inv live (set_free_map b s) -> live !! FREE_MAP_SECTOR = Some d ->
  dlength d = 4 * Z.of_nat (length (Bitmap.bits b)) ->
  Bitmap.bit_cnt (free_map s) = Bitmap.bit_cnt b -> length (Bitmap.bits (free_map s)) = length (Bitmap.bits b) ->
  holds_map b (contents s d) ->
  exists s', free_map_open s = Ok (tt, s') /\ fs_inv live s' /\ same_map b (free_map s') /\ disk s' = disk s /\
    dirs s' = ∅ /\ exists i, inodes s' = {[ i := mkInode FREE_MAP_SECTOR 1 false 0 d ]}.
Proof.
  intros Hid Hst Hl Hdl Hc Hlen Hh. destruct (attach_map live b d s Hid Hst Hl Hdl) as (f & i & s1 & Hat & Hk).
  pose proof Hat as [Hi1 [Hf _] _ [Ed1 Em1] [Ei1 Eo1] [Ef1 Er1]].
  unfold free_map_open. rewrite Hk. rewrite (proj2 (Z.eqb_neq _ _) Hf).
  assert (contents s1 d = contents s d) as Ec by (unfold contents, flat; by rewrite Ed1).
  destruct (bitmap_read_ok live b d s f i s1 Hat Hl) as (s2 & Hr2 & Hi2 & Hsm & Ed2 & Ei2 & Eo2 & _ & Er2);
    [by rewrite Em1|by rewrite Em1|by rewrite Ec|]. mrun Hr2.
  exists s2. split; [done|]. split; [split; [done|split]|split; [done|]].
  - intros d' Hd'. assert (d' = d) as -> by congruence.
    assert (contents s2 d = contents s d) as -> by (unfold contents, flat; by rewrite Ed2, Ed1).
    destruct Hh as (ws & W1 & W2 & W3 & W4), Hsm as (M1 & M2 & M3). exists ws. split; [done|]. split; [congruence|].
    split; [done|]. rewrite M1. intros x Hx. rewrite M3 by done. by apply W4.
  - intros j w. rewrite Ei2, Ei1, Eo2, Eo1, lookup_singleton_Some. intros [<- _]. by apply list_elem_of_singleton.
  - split; [congruence|]. split; [congruence|]. exists i. congruence.
Qed.


(** ** The free map of a new device *)

Lemma bitmap_mark_ok b i :
  Bitmap.wf b -> 0 <= i < Bitmap.bit_cnt b ->
  exists b', Bitmap.bitmap_mark i b = Ok (tt, b') /\ Bitmap.wf b' /\ Bitmap.bit_cnt b' = Bitmap.bit_cnt b /\
    length (Bitmap.bits b') = length (Bitmap.bits b) /\
    forall j, 0 <= j -> Bitmap.bit b' j = if j =? i then true else Bitmap.bit b j.
Proof.
  intros Hw Hi. destruct (Bitmap.bitmap_set_ok b i true Hw Hi) as (b' & Hr & Hw' & Hc & Hb).
  assert (Bitmap.bitmap_mark i b = Ok (tt, b')) as Hm.
  { revert Hr. unfold Bitmap.bitmap_set, Bitmap.bitmap_size. unfold bind at 1, gets. by rewrite (proj2 (Z.ltb_lt _ _)) by lia. }
  exists b'. split; [done|]. split; [done|]. split; [done|]. split; [|done].
  revert Hm. unfold Bitmap.bitmap_mark. 
  assert (keeps (fun b => length (Bitmap.bits b)) (Bitmap.bitmap_mark i)) as Hk.
  { unfold Bitmap.bitmap_mark. msteps. apply Bitmap.keeps_set_elem. }
  apply Hk.
Qed.

Lemma free_map_init_ok s words :
  idle s -> 2 <= Z.of_nat (length (disk s)) <= 4294967264 ->
  Z.of_nat (length words) = Bitmap.elem_cnt (Z.of_nat (length (disk s))) -> Forall in_u32 words ->
  exists s', free_map_init words s = Ok (tt, s') /\ idle s' /\ disk s' = disk s /\ free_map_file s' = free_map_file s /\
    Bitmap.wf (free_map s') /\ Bitmap.bit_cnt (free_map s') = Z.of_nat (length (disk s)) /\
    length (Bitmap.bits (free_map s')) = length words /\
    forall x, 0 <= x < Z.of_nat (length (disk s)) ->
      Bitmap.bit (free_map s') x = (x =? FREE_MAP_SECTOR) || (x =? ROOT_DIR_SECTOR).
Proof.
  intros [[E1 E2 E3 Hb Hm] E4] Hn Hwl Hwu. unfold free_map_init, block_size. mnorm. set (n := Z.of_nat (length (disk s))) in *.
  destruct (malloc_ok s Hm) as (s1 & Hr1 & Hq1 & Hb1). mrun Hr1.
  rewrite (proj2 (Z.eqb_neq (brk s) NULL)) by (unfold NULL; lia). cbn [negb].
  pose proof (sbd_mem _ _ (proj1 Hq1) Hm) as Hm1.
  destruct (malloc_ok s1 Hm1) as (s2 & Hr2 & Hq2 & Hb2). mrun Hr2.
  rewrite (proj2 (Z.eqb_neq (brk s1) NULL)) by (unfold NULL; lia).
  assert (exists b, Bitmap.bitmap_create true (Some words) n = Ok (Some b) /\ Bitmap.wf b /\ Bitmap.bit_cnt b = n /\
    length (Bitmap.bits b) = length words /\ forall x, 0 <= x < n -> Bitmap.bit b x = false) as (b & Hbc & Hw & Hc & Hl & Hbits).
  { unfold Bitmap.bitmap_create, Bitmap.bitmap_set_all, Bitmap.bitmap_size. unfold bind at 1, gets. cbn [Bitmap.bit_cnt].
    destruct (Bitmap.bitmap_set_multiple_ok (Bitmap.mkBitmap n words) 0 n false) as (b & Hr & Hw & Hc & Hbits).
    - split; cbn; [lia|lia|done].
    - unfold Bitmap.in_range. cbn. lia.
    - rewrite Hr. exists b. split; [done|]. split; [done|]. split; [done|].
      split; [exact (Bitmap.keeps_set_multiple 0 n false _ _ _ Hr)|]. intros x Hx. rewrite Hbits by lia.
      rewrite (proj2 (Z.leb_le _ _)), (proj2 (Z.ltb_lt _ _)) by lia. done. }
  rewrite Hbc. mnorm.
  destruct (bitmap_mark_ok b FREE_MAP_SECTOR Hw) as (b1 & Hk1 & Hw1 & Hc1 & Hl1 & Hbits1); [unfold FREE_MAP_SECTOR; lia|].
  destruct (bitmap_mark_ok b1 ROOT_DIR_SECTOR Hw1) as (b2 & Hk2 & Hw2 & Hc2 & Hl2 & Hbits2); [unfold ROOT_DIR_SECTOR; lia|].
  mrun (on_free_map_run _ (set_free_map b s2) _ _ Hk1).
  rewrite (on_free_map_run _ (set_free_map b1 (set_free_map b s2)) _ _ Hk2).
  pose proof (quiet_preorder.(PreOrder_Transitive) _ _ _ Hq1 Hq2) as Hq. destruct Hq as [[R1 _ _ R4 R5] Ed]. unfold rest in R1. injection R1 as A1 A2 A3 A4 A5 A6.
  eexists. split; [done|]. cbn. split; [split; [split; cbn; [congruence|congruence|congruence|lia|by apply R4]|cbn; congruence]|].
  split; [done|]. split; [done|]. split; [done|]. split; [congruence|]. split; [congruence|].
  intros x Hx. rewrite Hbits2, Hbits1, Hbits by lia.
  by destruct (x =? ROOT_DIR_SECTOR), (x =? FREE_MAP_SECTOR).
Qed.


(** ** Formatting *)

(** [free_map_create] makes the file that holds the free map. *)
Definition map_len (n : Z) : Z := 4 * Bitmap.elem_cnt n.

(** A device of [n] sectors with room for the free map and a root directory. *)
Definition big_enough (n : Z) : Prop := 2 + sectors_of (map_len n) + 1 <= n <= 4294967264.

Lemma map_len_bound n : big_enough n -> 0 < map_len n < 536870912 /\ s32 (Bitmap.byte_cnt n) = map_len n.
Proof.
  intros [H1 H2]. assert (0 <= sectors_of (map_len n)) as Hs.
  { unfold sectors_of, map_len, Bitmap.elem_cnt, Bitmap.ELEM_BITS. apply Z.div_pos; [|lia].
    assert (0 <= u32 (n + 32 - 1) / 32) by (apply Z.div_pos; [apply Z.mod_pos_bound; lia|lia]). lia. }
  assert (3 <= n) as H3 by lia. unfold map_len, Bitmap.byte_cnt, Bitmap.elem_cnt, Bitmap.ELEM_BITS.
  rewrite (u32_id (n + 32 - 1)) by lia.
  pose proof (Z.div_mod (n + 32 - 1) 32 ltac:(lia)). pose proof (Z.mod_pos_bound (n + 32 - 1) 32 ltac:(lia)).
  assert (0 < (n + 32 - 1) / 32 < 134217728) as Hb by lia. rewrite u32_id, s32_id by lia. lia.
Qed.

(** The inode of the free map after [inode_create] on a new device. *)
Definition map_inode (n : Z) : inode_disk := mkInodeDisk 2 (map_len n) INODE_MAGIC.

(** The sectors in use on a device with nothing but the free map. *)
Definition first_map (b : Bitmap.bitmap) : Prop :=
  forall x, 0 <= x < Bitmap.bit_cnt b -> Bitmap.bit b x = (x <? 2 + sectors_of (map_len (Bitmap.bit_cnt b))).

Lemma inode_create_map s n :
  idle s -> sectors_ok s -> n = Z.of_nat (length (disk s)) -> big_enough n -> free_map_file s = NULL ->
  Bitmap.wf (free_map s) -> Bitmap.bit_cnt (free_map s) = n ->
  Z.of_nat (length (Bitmap.bits (free_map s))) = Bitmap.elem_cnt n ->
  (forall x, 0 <= x < n -> Bitmap.bit (free_map s) x = (x =? FREE_MAP_SECTOR) || (x =? ROOT_DIR_SECTOR)) ->
  exists s', inode_create FREE_MAP_SECTOR (map_len n) s = Ok (true, s') /\ idle s' /\ length (disk s') = length (disk s) /\
    store_inv {[ FREE_MAP_SECTOR := map_inode n ]} s' /\ first_map (free_map s').
Proof.
  intros [[E1 E2 E3 Hb Hm] E4] Hsok Hn Hbig Hnull Hw Hc Hl Hbits. pose proof (map_len_bound n Hbig) as [Hml _].
  unfold inode_create. rewrite Z.geb_leb, (proj2 (Z.leb_le _ _)) by lia. mnorm.
  destruct (malloc_ok s Hm) as (s1 & Hr1 & Hq1 & Hb1). mrun Hr1.
  rewrite (proj2 (Z.eqb_neq (brk s) NULL)) by (unfold NULL; lia). rewrite bytes_to_sectors_eq by lia. cbv zeta.
  set (k := sectors_of (map_len n)). assert (0 <= k) as Hk by (unfold k, sectors_of; apply Z.div_pos; lia).
  pose proof Hq1 as [[R1 _ R3 R4 R5] Ed1]. unfold rest in R1. injection R1 as A1 A2 A3 A4 A5 A6.
  destruct (Bitmap.bitmap_scan_and_flip_run (free_map s1) 0 k false) as (a & b & Hr & Hwb & Hcb & Hres & _ & Hbb);
    [by rewrite A5|rewrite A5, Hc; lia|done|]. rewrite A5, Hc in *.
  assert (a = 2) as ->.
  { assert (Bitmap.group (free_map s) 2 k false) as Hg.
    { intros x Hx. rewrite Hbits by (unfold big_enough, k in *; lia).
      rewrite (proj2 (Z.eqb_neq _ _)), (proj2 (Z.eqb_neq _ _)) by (unfold FREE_MAP_SECTOR, ROOT_DIR_SECTOR; lia). done. }
    destruct Hres as [[_ Hno]|(H1 & H2 & H3 & H4)].
    - exfalso. apply (Hno 2); [lia|unfold big_enough, k in *; lia|done].
    - destruct (Z.lt_trichotomy a 2) as [Hlt|[->|Hgt]]; [|done|].
      + assert (0 < k) as Hkp by (unfold k; apply sectors_of_pos; lia). specialize (H3 a ltac:(lia)).
        rewrite Hbits in H3 by (unfold big_enough, k in *; lia). unfold FREE_MAP_SECTOR, ROOT_DIR_SECTOR in H3.
        destruct (Z.eqb_spec a 0), (Z.eqb_spec a 1); try done; lia.
      + exfalso. apply (H4 2); [lia|done]. }
  unfold free_map_allocate. rewrite !bind_bind. rewrite <- A5 in Hr. mrun (on_free_map_run _ s1 _ _ Hr). mnorm. cbn [free_map_file set_free_map].
  rewrite A6, Hnull. change (2 =? Bitmap.BITMAP_ERROR) with false. cbn [Z.eqb NULL negb andb]. mnorm.
  set (s2 := set_free_map b s1). set (d := mkInodeDisk 2 (map_len n) INODE_MAGIC).
  assert (data_ok s2 d) as Hd.
  { split; cbn; [lia|lia|rewrite Ed1; fold k; unfold big_enough, k in *; lia|rewrite Ed1; unfold big_enough in *; lia]. }
  assert (~ in_data d FREE_MAP_SECTOR) as Hself by (unfold in_data, FREE_MAP_SECTOR; cbn; lia).
  destruct (write_inode_ok s2 FREE_MAP_SECTOR d) as (s3 & Hr3 & Hs3 & _ & Hh3 & _);
    [by apply R3|cbn; rewrite Ed1; unfold FREE_MAP_SECTOR, big_enough in *; lia|done|done|].
  unfold write_inode in Hr3. cbn [start dlength d] in Hr3. fold k in Hr3. rewrite <- bind_bind. mrun Hr3.
  exists s3. split; [done|]. pose proof Hs3 as [Q1 Q2 Q3 Q4 Q5]. unfold rest in Q1. injection Q1 as B1 B2 B3 B4 B5 B6. cbn in Q2, Q5, B1, B2, B3, B4, B5, B6, Hbb.
  assert (forall x, 0 <= x < n -> Bitmap.bit b x = (x <? 2 + k)) as Hbx.
  { intros x Hx. rewrite Hbb, Hbits by lia. unfold FREE_MAP_SECTOR, ROOT_DIR_SECTOR.
    destruct (Z.leb_spec 2 x), (Z.ltb_spec x (2 + k)), (Z.eqb_spec x 0), (Z.eqb_spec x 1); cbn; try done; lia. }
  split; [split; [split; [congruence|congruence|congruence|lia|by apply Q4, R4]|congruence]|].
  split; [congruence|]. split; [|unfold first_map; rewrite B5, Hcb; exact Hbx].
  assert (forall x, in_file FREE_MAP_SECTOR d x -> 0 <= x < 2 + k) as Hin.
  { intros x [->|[H1 H2]]; unfold FREE_MAP_SECTOR; cbn in *; [|fold k in H2]; lia. }
  split.
  - apply Q3, R3, Hsok.
  - by rewrite B5.
  - rewrite B5, Q2, Ed1. congruence.
  - rewrite B5, Hcb. pose proof (Bitmap.keeps_scan_and_flip 0 k false _ _ _ Hr) as Hlen. cbn in Hlen. congruence.
  - intros sec d'. rewrite lookup_singleton_Some. intros [<- <-]. fold d.
    split; [rewrite Q2, Ed1; unfold FREE_MAP_SECTOR, big_enough in *; lia|by eapply data_ok_sbd|done|done|done].
  - intros sec d' x. rewrite lookup_singleton_Some. intros [<- <-] Hx%Hin. rewrite B5, Hbx by (unfold big_enough, k in *; lia).
    apply Z.ltb_lt. lia.
  - intros sec d' sec' d'' x [<- _]%lookup_singleton_Some [<- _]%lookup_singleton_Some. done.
Qed.


Lemma same_but_map_sbd s s' : same_but_disk s s' -> same_but_map s s'.
Proof. apply (same_but_map_trans_sbd s s s'). reflexivity. Qed.

(** The state after [free_map_create]: only the free map's file is open. *)
Record mapped (live : gmap Z inode_disk) (d : inode_disk) (s : fs) (i f : Z) : Prop := {
  mp_inv : fs_inv live s;
  mp_live : live !! FREE_MAP_SECTOR = Some d;
  mp_file : free_map_file s = f /\ f <> NULL /\ i <> NULL;
  mp_inodes : inodes s = {[ i := mkInode FREE_MAP_SECTOR 1 false 0 d ]} /\ open_inodes s = [i];
  mp_files : files s = {[ f := mkFile i 0 false ]} /\ dirs s = ∅
}.

Lemma mapped_keep live live' d s i f s' :
  mapped live d s i f -> fs_inv live' s' -> same_but_map s s' -> live' !! FREE_MAP_SECTOR = Some d -> mapped live' d s' i f.
Proof.
  intros [_ _ M3 M4 M5] Hi Hs Hl. destruct (same_but_map_fields _ _ Hs) as (E1 & E2 & E3 & E4 & E5 & _).
  split; [done|done|by rewrite E5|by rewrite E1, E2|by rewrite E3, E4].
Qed.

Lemma free_map_create_ok s n :
  idle s -> sectors_ok s -> n = Z.of_nat (length (disk s)) -> big_enough n -> free_map_file s = NULL ->
  Bitmap.wf (free_map s) -> Bitmap.bit_cnt (free_map s) = n ->
  Z.of_nat (length (Bitmap.bits (free_map s))) = Bitmap.elem_cnt n ->
  (forall x, 0 <= x < n -> Bitmap.bit (free_map s) x = (x =? FREE_MAP_SECTOR) || (x =? ROOT_DIR_SECTOR)) ->
  exists i f s', free_map_create s = Ok (tt, s') /\ mapped {[ FREE_MAP_SECTOR := map_inode n ]} (map_inode n) s' i f /\
    first_map (free_map s') /\ length (disk s') = length (disk s).
Proof.
  intros Hid Hok Hn Hbig Hnull Hw Hc Hl Hbits. unfold free_map_create. mnorm.
  unfold Bitmap.bitmap_file_size. rewrite Hc, (proj2 (map_len_bound n Hbig)).
  destruct (inode_create_map s n) as (s1 & Hr1 & Hid1 & Hsz1 & Hst1 & Hf1); [done..|]. mrun Hr1. cbn [negb].
  set (live := {[ FREE_MAP_SECTOR := map_inode n ]}) in *.
  assert (live !! FREE_MAP_SECTOR = Some (map_inode n)) as Hlive by apply lookup_singleton_eq.
  pose proof (si_cnt _ _ Hst1) as Hcnt. pose proof (si_words _ _ Hst1) as Hwd.
  destruct (attach_map live (free_map s1) (map_inode n) s1) as (f & i & s2 & Hat & Hk); [done| |done| |].
  { apply (store_inv_same live s1); [done|done|done]. }
  { rewrite Hwd, Hcnt, Hsz1, <- Hn. done. }
  rewrite Hk. pose proof Hat as [Hi2 [Hf Hff] Hin [Ed2 Em2] [Ei2 Eo2] [Ef2 Er2]]. rewrite (proj2 (Z.eqb_neq _ _) Hf).
  assert (set_free_map (free_map s1) s2 = s2) as E by (rewrite <- Em2; by destruct s2). rewrite E in Hi2.
  destruct (bitmap_write_ok live s2 Hi2) as (s3 & Hr3 & Hi3 & Hc3 & Hs3 & _). rewrite Hff in Hr3. mrun Hr3.
  exists i, f, s3. split; [done|]. destruct (same_but_map_fields _ _ (same_but_map_sbd _ _ Hs3)) as (G1 & G2 & G3 & G4 & G5 & G6 & _).
  pose proof (sbd_rest _ _ Hs3) as R. unfold rest in R. injection R as _ _ _ _ G7 _.
  split; [split|split; [by rewrite G7, Em2|congruence]].
  - split; [done|]. split; [done|]. apply (listed_sbd s2); [|done]. intros j w. rewrite Ei2, Eo2.
    intros [<- _]%lookup_singleton_Some. by apply list_elem_of_singleton.
  - done.
  - by rewrite G5.
  - by rewrite G1, G2.
  - by rewrite G3, G4.
Qed.

(** Closing the free map's file, the last that is open. *)
Lemma free_map_close_ok live d s i f :
  mapped live d s i f ->
  exists s', free_map_close s = Ok (tt, s') /\ idle s' /\ disk s' = disk s /\ free_map s' = free_map s.
Proof.
  intros [(Hi & _) Hl (Hf & Hfn & Hin) [Ei Eo] [Ef Er]]. unfold free_map_close. mnorm. rewrite Hf.
  unfold file_close. rewrite (proj2 (Z.eqb_neq _ _) Hfn). unfold file_allow_write. rewrite (proj2 (Z.eqb_neq _ _) Hfn).
  cbn [negb]. mnorm.
  assert (fil f s = Ok (mkFile i 0 false, s)) as Hfil.
  { unfold fil, gets_opt. by rewrite (proj2 (Z.eqb_neq _ _) Hfn), Ef, lookup_singleton_eq. }
  mrun Hfil. cbn [deny_write]. mnorm. mrun Hfil. cbn [file_inode]. unfold inode_close. rewrite (proj2 (Z.eqb_neq _ _) Hin). mnorm.
  assert (inodes s !! i = Some (mkInode FREE_MAP_SECTOR 1 false 0 d)) as Hv by (rewrite Ei; apply lookup_singleton_eq).
  mrun (upd_inode_run i (fun v => mkInode (sector v) (s32 (open_cnt v - 1)) (removed v) (deny_write_cnt v) (data v))
    _ s Hv Hin). cbn [sector open_cnt removed deny_write_cnt data]. change (s32 (1 - 1)) with 0.
  set (s1 := set_inodes _ s).
  assert (inodes s1 !! i = Some (mkInode FREE_MAP_SECTOR 0 false 0 d)) as Hv1 by apply lookup_insert_eq.
  mnorm. mrun (inod_run _ _ _ Hv1 Hin). cbn [open_cnt removed]. change (0 =? 0) with true. cbv iota.
  mnorm. unfold bind at 1, gets_opt. change (open_inodes s1) with (open_inodes s). rewrite Eo. cbn [KState.remove_first].
  rewrite Z.eqb_refl. mnorm. eexists. split; [done|]. cbn. rewrite Ei, Ef.
  split; [split; [|done]|done]. split; cbn; [|by rewrite delete_singleton_eq|done|apply (fi_brk _ _ Hi)|apply (fi_mem _ _ Hi)].
  by rewrite insert_singleton_eq, delete_singleton_eq.
Qed.


(** A directory of zeros is empty. *)
Lemma empty_dir : dir_ok (replicate 320 0) /\ dir_map (replicate 320 0) = ∅.
Proof.
  assert (entries (replicate 320 0) = replicate 16 (replicate 20 0)) as E by (vm_compute; reflexivity).
  split; [split|unfold dir_map]; rewrite ?E; [done| |simpl; constructor|done].
  apply Forall_replicate. split; [done|]. by intros [].
Qed.

(** The free map's file is open, the root directory is made, and nothing
    else is on the device. *)
Lemma do_format_ok s n :
  idle s -> sectors_ok s -> n = Z.of_nat (length (disk s)) -> big_enough n -> free_map_file s = NULL ->
  Bitmap.wf (free_map s) -> Bitmap.bit_cnt (free_map s) = n ->
  Z.of_nat (length (Bitmap.bits (free_map s))) = Bitmap.elem_cnt n ->
  (forall x, 0 <= x < n -> Bitmap.bit (free_map s) x = (x =? FREE_MAP_SECTOR) || (x =? ROOT_DIR_SECTOR)) ->
  exists dr s', do_format s = Ok (tt, s') /\ idle s' /\
    let live := <[ROOT_DIR_SECTOR := dr]> {[ FREE_MAP_SECTOR := map_inode n ]} in
    store_inv live s' /\ holds_map (free_map s') (contents s' (map_inode n)) /\
    dlength dr = 320 /\ contents s' dr = replicate 320 0 /\ Bitmap.bit_cnt (free_map s') = n.
Proof.
  intros Hid Hok Hn Hbig Hnull Hw Hc Hl Hbits. unfold do_format.
  destruct (free_map_create_ok s n) as (i & f & s1 & Hr1 & Hmap1 & Hf1 & Hsz1); [done..|]. mrun Hr1.
  pose proof Hmap1 as [Hi1 Hl1 _ _ _]. set (live := {[ FREE_MAP_SECTOR := map_inode n ]}) in *.
  pose proof (fi_cnt _ _ (proj1 Hi1)) as Hcnt. rewrite Hsz1, <- Hn in Hcnt.
  unfold first_map in Hf1. rewrite Hcnt in Hf1. destruct Hbig as [Hb1 Hb2].
  pose proof (proj1 (map_len_bound n (conj Hb1 Hb2))) as Hml.
  assert (0 <= sectors_of (map_len n)) as Hs0 by (unfold sectors_of; apply Z.div_pos; lia).
  assert (reserved live s1 ROOT_DIR_SECTOR) as Hres.
  { split; [rewrite Hsz1; unfold ROOT_DIR_SECTOR; lia|]. split.
    - rewrite Hf1 by (unfold ROOT_DIR_SECTOR; lia). apply Z.ltb_lt. unfold ROOT_DIR_SECTOR. lia.
    - intros sec d' [<- <-]%lookup_singleton_Some [H|[H _]]; unfold FREE_MAP_SECTOR, ROOT_DIR_SECTOR in *; [lia|]. cbn in H. lia. }
  unfold dir_create. change (s32 (u32 (16 * ENTRY_SIZE))) with 320.
  destruct (inode_create_ok live s1 ROOT_DIR_SECTOR 320 Hi1 Hres ltac:(lia)) as (ok & s2 & Hr2 & _ & Hm2 & Hcase).
  mrun Hr2. destruct ok.
  2:{ destruct Hcase as (_ & _ & Hno). exfalso. change (sectors_of 320) with 1 in Hno.
      apply (Hno (2 + sectors_of (map_len n))); [lia|rewrite Hsz1; lia|]. intros x Hx.
      rewrite Hf1 by lia. apply Z.ltb_ge. lia. }
  destruct Hcase as (dr & Hdl & Hi2 & Hz & _). cbn [negb].
  assert ((<[ROOT_DIR_SECTOR := dr]> live) !! FREE_MAP_SECTOR = Some (map_inode n)) as Hl2 by (by rewrite lookup_insert_ne).
  pose proof (mapped_keep live _ _ s1 i f s2 Hmap1 Hi2 Hm2 Hl2) as Hmap2.
  destruct (free_map_close_ok _ _ _ _ _ Hmap2) as (s3 & Hr3 & Hid3 & Ed3 & Em3). rewrite Hr3.
  exists dr, s3. split; [done|]. split; [done|]. cbv zeta.
  assert (forall d, contents s3 d = contents s2 d) as Ec by (intros d; unfold contents, flat; by rewrite Ed3).
  split; [apply (store_inv_same _ s2); [apply fs_inv0_store, Hi2|done|done]|].
  split; [rewrite Em3, Ec; by apply Hi2|]. split; [done|]. split; [by rewrite Ec|].
  rewrite Em3, (fi_cnt _ _ (proj1 Hi2)). destruct (same_but_map_fields _ _ Hm2) as (_ & _ & _ & _ & _ & -> & _). congruence.
Qed.

Lemma inode_init_idle s : boot s -> inode_init s = Ok (tt, set_open_inodes [] s) /\ idle (set_open_inodes [] s).
Proof. intros []. split; [done|]. by split. Qed.

(** The memory that [free_map_init] gets for the elements of the map. *)
Definition map_words (n : Z) (words : list Z) : Prop :=
  Z.of_nat (length words) = Bitmap.elem_cnt n /\ Forall in_u32 words.

Lemma filesys_format_run s words :
  boot s -> sectors_ok s -> free_map_file s = NULL -> big_enough (Z.of_nat (length (disk s))) ->
  map_words (Z.of_nat (length (disk s))) words ->
  exists live s', filesys_init words true s = Ok (tt, s') /\ fs_ok live s' /\ names live s' = ∅ /\
    length (disk s') = length (disk s) /\ dirs s' = ∅ /\
    (forall i v, inodes s' !! i = Some v -> open_cnt v = 1 /\ deny_write_cnt v = 0).
Proof.
  intros Hb Hok Hnull Hbig [Hwl Hwu]. set (n := Z.of_nat (length (disk s))) in *. unfold filesys_init.
  destruct (inode_init_idle s Hb) as [Hr0 Hid0]. mrun Hr0. set (s0 := set_open_inodes [] s) in *.
  assert (2 <= n <= 4294967264) as Hn.
  { destruct Hbig. pose proof (proj1 (map_len_bound n ltac:(done))).
    assert (0 <= sectors_of (map_len n)) by (unfold sectors_of; apply Z.div_pos; lia). lia. }
  destruct (free_map_init_ok s0 words Hid0) as (s1 & Hr1 & Hid1 & Ed1 & Ef1 & Hw1 & Hc1 & Hl1 & Hb1); [done..|].
  mrun Hr1. assert (n = Z.of_nat (length (disk s1))) as Hn1 by (by rewrite Ed1).
  destruct (do_format_ok s1 n) as (dr & s2 & Hr2 & Hid2 & Hst2 & Hh2 & Hdl & Hz & Hc2);
    [done|unfold sectors_ok; by rewrite Ed1|done|done|by rewrite Ef1|done|done|by rewrite Hl1|done|]. mrun Hr2.
  set (live := <[ROOT_DIR_SECTOR := dr]> {[ FREE_MAP_SECTOR := map_inode n ]}) in *.
  assert (live !! FREE_MAP_SECTOR = Some (map_inode n)) as Hlm by (unfold live; by rewrite lookup_insert_ne).
  assert (live !! ROOT_DIR_SECTOR = Some dr) as Hlr by apply lookup_insert_eq.
  destruct (free_map_open_ok live (free_map s2) (map_inode n) s2) as (s3 & Hr3 & Hi3 & _ & Ed3 & Er3 & i & Ei3);
    [done| |done| |done|done|done|].
  { by apply (store_inv_same live s2). }
  { rewrite (si_words _ _ Hst2), Hc2. done. }
  exists live, s3. split; [done|]. assert (contents s3 dr = replicate 320 0) as Ec.
  { rewrite <- Hz. unfold contents, flat. by rewrite Ed3. }
  destruct empty_dir as [Hdok Hdmap].
  assert (names live s3 = ∅) as En by (rewrite (names_eq live s3 dr Hlr), Ec; done).
  split; [|split; [done|split; [|split; [done|]]]].
  - split; [done|exists dr; by rewrite Ec| | |]; rewrite En.
    + intros name sec H. by rewrite lookup_empty in H.
    + intros n1 n2 sec H. by rewrite lookup_empty in H.
    + intros j v. rewrite Ei3. intros [<- <-]%lookup_singleton_Some. by split.
  - rewrite Ed3. pose proof (si_cnt _ _ Hst2) as H. lia.
  - intros j v. rewrite Ei3. by intros [<- <-]%lookup_singleton_Some.
Qed.

(** ** Mounting *)

Lemma filesys_mount_run live s s0 words :
  fs_ok live s -> boot s0 -> disk s0 = disk s -> map_words (Z.of_nat (length (disk s))) words ->
  exists s', filesys_init words false s0 = Ok (tt, s') /\ fs_ok live s' /\ names live s' = names live s /\
    disk s' = disk s /\ (forall i v, inodes s' !! i = Some v -> open_cnt v = 1 /\ deny_write_cnt v = 0) /\
    (forall x, 0 <= x < Z.of_nat (length (disk s)) -> Bitmap.bit (free_map s') x = Bitmap.bit (free_map s) x).
Proof.
  intros Hok Hb Ed [Hwl Hwu]. pose proof (fo_inv _ _ Hok) as (Hi & Hcoh & _). unfold filesys_init.
  destruct (inode_init_idle s0 Hb) as [Hr0 Hid0]. mrun Hr0. set (s1 := set_open_inodes [] s0) in *.
  pose proof (fi_cnt _ _ Hi) as Hcnt. pose proof (Bitmap.wf_cnt _ (fi_map _ _ Hi)) as Hbd.
  destruct (map_live _ _ Hi) as [dm Hdm]. destruct (fo_root _ _ Hok) as (dr & Hdr & _).
  destruct (fi_live _ _ Hi _ _ Hdr) as [Hrs _ _ _ _].
  destruct (free_map_init_ok s1 words Hid0) as (s2 & Hr2 & Hid2 & Ed2 & _ & _ & Hc2 & Hl2 & _);
    [cbn; rewrite Ed; unfold ROOT_DIR_SECTOR in *; lia|cbn; by rewrite Ed|done|]. cbn in Ed2, Hc2. rewrite Ed in Ed2, Hc2.
  mrun Hr2. mnorm. pose proof (fi_words _ _ Hi) as Hwd. rewrite Hcnt in Hwd.
  destruct (free_map_open_ok live (free_map s) dm s2) as (s3 & Hr3 & Hi3 & (M1 & M2 & M3) & Ed3 & _ & i & Ei3);
    [done| |done| |congruence|lia| |].
  { apply (store_inv_same live s); [by apply fs_inv0_store|done|done]. }
  { destruct (fi_file _ _ Hi) as (fl & v & _ & _ & Hin & Hv & Hs & _ & Hd). rewrite <- Hd.
    destruct (fi_open _ _ Hi _ _ Hin Hv) as (_ & Hlv & _). rewrite Hs in Hlv. congruence. }
  { assert (contents s2 dm = contents s dm) as -> by (unfold contents, flat; by rewrite Ed2). by apply Hcoh. }
  exists s3. split; [done|]. assert (disk s3 = disk s) as E by congruence.
  destruct (fs_ok_inodes live s s3) as [Hok3 Hnm3]; [done|done| | |].
  - intros sec d _ _. unfold contents, flat. by rewrite E.
  - intros j v. rewrite Ei3. intros [<- <-]%lookup_singleton_Some. by split.
  - split; [done|]. split; [done|]. split; [done|]. split; [|rewrite <- Hcnt; exact M3].
    intros j v. rewrite Ei3. by intros [<- <-]%lookup_singleton_Some.
Qed.


End Mount.
