(* ===== verification/FsRefine.v ===== *)
(** * The file system refines a map of names to contents

    Sequences of calls of the interface of src/src/filesys/filesys.c and
    src/src/filesys/file.c, with restarts of the machine in between, behave
    like operations on a finite map from names to byte sequences. *)

From S2P Require Import Prelude KState Bitmap FsState Inode FileOps Directory FsInv DirProps FileSys Mount.
Import FsState Inode FileOps Directory FsInv DirProps FileSys Mount.

Module FsRefine.

(** ** The abstract state *)

Abbreviation afs := (gmap (list Z) (list Z)).

Definition abs (live : gmap Z inode_disk) (s : fs) : afs :=
  omap (fun sec => match live !! sec with Some d => Some (contents s d) | None => None end) (names live s).

Lemma abs_lookup live s name bs :
  abs live s !! name = Some bs <-> exists sec d, names live s !! name = Some sec /\ live !! sec = Some d /\ contents s d = bs.
Proof.
  unfold abs. rewrite lookup_omap. destruct (names live s !! name) as [sec|]; simpl; [|naive_solver].
  destruct (live !! sec) as [d|] eqn:E; naive_solver.
Qed.

Lemma abs_none live s name : fs_ok live s -> abs live s !! name = None <-> names live s !! name = None.
Proof.
  intros Hok. unfold abs. rewrite lookup_omap. destruct (names live s !! name) as [sec|] eqn:E; simpl; [|done].
  destruct (fo_named _ _ Hok name sec E) as (_ & _ & [d ->]). done.
Qed.


Lemma abs_kept live s s' :
  fs_ok live s -> names live s' = names live s -> files_kept live s s' -> abs live s' = abs live s.
Proof.
  intros Hok En Hk. apply map_eq. intros name. apply option_eq. intros bs. rewrite !abs_lookup, En.
  split; intros (sec & d & H1 & H2 & H3); exists sec, d; (split; [done|]); (split; [done|]);
    rewrite <- H3; [symmetry|]; apply (Hk sec); try done; by apply (fo_named _ _ Hok name).
Qed.

Lemma abs_created live s name size sec d s' :
  fs_ok live s -> created live s name size sec d s' ->
  abs (<[sec := d]> live) s' = <[name := replicate (Z.to_nat size) 0]> (abs live s).
Proof.
  intros Hok [[Hn1 Hn2] Hok' En [Hd Hz] Hk]. apply map_eq. intros n. apply option_eq. intros bs.
  rewrite abs_lookup, En. destruct (decide (n = name)) as [->|Hne].
  - rewrite !lookup_insert_eq. split.
    + intros (? & ? & [= <-] & H2 & <-). rewrite lookup_insert_eq in H2. injection H2 as <-. by rewrite Hz.
    + intros [= <-]. exists sec, d. by rewrite lookup_insert_eq.
  - rewrite !lookup_insert_ne, abs_lookup by done.
    split; intros (x & dx & H1 & H2 & H3); exists x, dx; destruct (fo_named _ _ Hok n x H1) as (N1 & N2 & [dx' N3]);
      (split; [done|]); rewrite lookup_insert_ne in * by congruence; (split; [done|]);
      rewrite <- H3; [symmetry|]; by apply (Hk x).
Qed.

Lemma abs_removed live live' s name sec s' :
  fs_ok live s -> names live s !! name = Some sec -> removed_file live live' s name sec s' ->
  abs live' s' = delete name (abs live s).
Proof.
  intros Hok Hn [Hok' En Hk _ Hs]. apply map_eq. intros n. apply option_eq. intros bs.
  rewrite abs_lookup, En, lookup_delete_Some, abs_lookup.
  assert (forall x, n <> name -> names live s !! n = Some x -> live' !! x = live !! x) as Hl.
  { intros x Hne Hx. destruct Hs as [(_ & -> & _)|(_ & -> & _)]; [done|]. apply lookup_delete_ne.
    intros ->. apply Hne. by apply (fo_inj _ _ Hok n name x). }
  split.
  - intros (x & dx & [Hne H1]%lookup_delete_Some & H2 & H3). split; [done|]. exists x, dx. split; [done|].
    destruct (fo_named _ _ Hok n x H1) as (N1 & N2 & _). split; [by rewrite <- (Hl x)|].
    rewrite <- H3. symmetry. by apply (Hk x).
  - intros (Hne & x & dx & H1 & H2 & H3). exists x, dx. rewrite lookup_delete_ne by done. split; [done|].
    destruct (fo_named _ _ Hok n x H1) as (N1 & N2 & _). rewrite <- (Hl x) in H2 by done. split; [done|].
    rewrite <- H3. by apply (Hk x).
Qed.

(** ** Reading and writing a named file *)

(** The counters of the open inodes have room, and no file is protected. *)
Definition steady (s : fs) : Prop :=
  forall i v, inodes s !! i = Some v -> open_cnt v < 2147483646 /\ deny_write_cnt v = 0.

Lemma steady_can_open s sec : steady s -> can_open s sec.
Proof. intros H i v Hv _. destruct (H i v Hv). lia. Qed.

(** Closing a handle that [filesys_open] has made. *)
Lemma file_close_ok live s f j w :
  fs_ok live s -> files s !! f = Some (mkFile j 0 false) -> f <> NULL -> inodes s !! j = Some w ->
  sector w <> FREE_MAP_SECTOR -> removed w = false ->
  exists s', file_close f s = Ok (tt, s') /\ fs_inv live s' /\ files_kept live s s' /\
    inodes s' = (if open_cnt w =? 1 then delete j (inodes s) else <[j := set_open_cnt (open_cnt w - 1) w]> (inodes s)).
Proof.
  intros Hok Hf Hfn Hj Hsec Hrem. pose proof (fo_inv _ _ Hok) as Hi. unfold file_close, file_allow_write.
  rewrite (proj2 (Z.eqb_neq _ _) Hfn). cbn [negb]. mnorm.
  assert (fil f s = Ok (mkFile j 0 false, s)) as Hfil by (unfold fil, gets_opt; by rewrite (proj2 (Z.eqb_neq _ _) Hfn), Hf).
  mrun Hfil. cbn [deny_write]. mnorm. mrun Hfil. cbn [file_inode].
  destruct (inode_close_ok live s j w Hi Hj Hsec) as (s1 & Hr1 & Hi1 & Hk1 & (F1 & _ & F3 & _) & F4 & _). mrun Hr1.
  unfold live_after, dies in *. rewrite Hrem, andb_false_r in *. eexists. split; [done|]. split.
  - apply fs_inv_set_files; [done| |].
    + intros a Ha. apply lookup_delete_None. right. by apply (fi_fresh _ _ (proj1 Hi1)).
    + apply lookup_delete_ne. intros ->. rewrite F3 in Hf.
      destruct (fi_file _ _ (proj1 Hi)) as (fl & v & _ & Hfl & _ & Hv & Hs & _). rewrite Hf in Hfl. injection Hfl as <-.
      cbn in Hv. congruence.
  - split; [exact Hk1|exact F4].
Qed.

(** The calls of a client, each on a file that it opens and closes. *)
Definition with_file {A} (name e : list Z) (body : Z -> M fs A) : M fs (option A) :=
  f <- filesys_open name e ;;
  if f =? NULL then ret None
  else r <- body f ;; file_close f ;;; ret (Some r).

(** A use of an open file that changes at most its contents. *)
Lemma with_file_ok {A} live s name e (body : Z -> M fs A) (R : list Z -> A -> list Z -> Prop) :
  fs_ok live s -> steady s -> name_ok name -> length e = 20%nat ->
  (forall s1 f j w, fs_ok live s1 -> files s1 !! f = Some (mkFile j 0 false) -> f <> NULL -> inodes s1 !! j = Some w ->
     names live s1 = names live s -> files_kept live s s1 ->
     sector w <> FREE_MAP_SECTOR -> sector w <> ROOT_DIR_SECTOR -> deny_write_cnt w = 0 ->
     live !! sector w = Some (data w) ->
     exists r s2, body f s1 = Ok (r, s2) /\ fs_inv live s2 /\ same_but_disk s1 s2 /\
       other_files live (sector w) s1 s2 /\ R (contents s1 (data w)) r (contents s2 (data w))) ->
  exists r s', with_file name e body s = Ok (r, s') /\ fs_ok live s' /\ steady s' /\
    match r with
    | None => abs live s !! name = None /\ abs live s' = abs live s
    | Some a => exists bs bs', abs live s !! name = Some bs /\ R bs a bs' /\ abs live s' = <[name := bs']> (abs live s)
    end.
Proof.
  intros Hok Hst Hn He Hbody. unfold with_file.
  destruct (filesys_open_run live s name e Hok (steady_can_open _ _ Hst) Hn He) as (f & s1 & Hr1 & Hok1 & En1 & Hk1 & Hcase).
  { intros sec _. by apply steady_can_open. }
  mrun Hr1. destruct (names live s !! name) as [sec|] eqn:Hname.
  2:{ destruct Hcase as (-> & Ei & _). cbn [Z.eqb NULL]. exists None, s1. split; [done|]. split; [done|].
      split; [intros i v; rewrite Ei; apply Hst|]. split; [by apply abs_none|by apply abs_kept]. }
  destruct Hcase as [(j & w & Ef & Ei & Hsec & Hl & Hjn & Hrem & Hdeny & Hrest) [Hfn _] _].
  rewrite (proj2 (Z.eqb_neq _ _) Hfn). destruct (fo_named _ _ Hok name sec Hname) as (Hnf & Hnr & _). rewrite <- Hsec in Hl, Hnf, Hnr.
  assert (deny_write_cnt w = 0) as Hd0.
  { rewrite Hdeny. destruct (inodes s !! j) as [w0|] eqn:E; [|done]. by apply (Hst j w0). }
  destruct (Hbody s1 f j w) as (r & s2 & Hr2 & Hi2 & Hs2 & Ho2 & HR);
    [done|by rewrite Ef, lookup_insert_eq|done|by rewrite Ei, lookup_insert_eq|done..|]. mrun Hr2.
  pose proof (sbd_rest _ _ Hs2) as R2. unfold rest in R2. injection R2 as A1 A2 A3 A4 A5 A6.
  destruct (fo_root _ _ Hok) as (dr & Hdr & _).
  destruct (fs_ok_keep live s1 s2 dr) as [Hok2 En2]; [done..|by apply (Ho2 ROOT_DIR_SECTOR)|].
  destruct (file_close_ok live s2 f j w) as (s3 & Hr3 & Hi3 & Hk3 & Ei3);
    [done|by rewrite A3, Ef, lookup_insert_eq|done|by rewrite A1, Ei, lookup_insert_eq|done|done|]. mrun Hr3.
  rewrite A1, Hrest in Ei3.
  destruct (fs_ok_inodes live s2 s3) as [Hok3 En3]; [done|done|done| |].
  { intros i v. rewrite Ei3, En2, En1. apply Hok. }
  exists (Some r), s3. split; [done|]. split; [done|]. split; [intros i v; rewrite Ei3; apply Hst|].
  rewrite <- Hsec in Hname. exists (contents s (data w)), (contents s3 (data w)).
  assert (contents s1 (data w) = contents s (data w)) as E1 by (by apply (Hk1 (sector w))).
  assert (contents s3 (data w) = contents s2 (data w)) as E3 by (by apply (Hk3 (sector w))).
  split; [apply abs_lookup; by exists (sector w), (data w)|]. split; [by rewrite <- E1, E3|].
  apply map_eq. intros n. apply option_eq. intros bs. rewrite abs_lookup, En3, En2, En1.
  destruct (decide (n = name)) as [->|Hne].
  - rewrite lookup_insert_eq. split; [intros (x & dx & H1 & H2 & H3)|intros [= <-]]; [|by exists (sector w), (data w)].
    assert (x = sector w) as -> by congruence. congruence.
  - rewrite lookup_insert_ne, abs_lookup by done.
    assert (forall x dx, names live s !! n = Some x -> live !! x = Some dx -> contents s3 dx = contents s dx) as Hc.
    { intros x dx Hx Hdx. destruct (fo_named _ _ Hok n x Hx) as (N1 & N2 & _).
      rewrite (Hk3 x dx), (Ho2 x dx), (Hk1 x dx); try done. intros ->. apply Hne. by apply (fo_inj _ _ Hok n name (sector w)). }
    split; intros (x & dx & H1 & H2 & H3); exists x, dx; (split; [done|]); (split; [done|]); rewrite <- H3; [symmetry|]; by apply (Hc x).
Qed.


(** ** Calls and their specification *)

Inductive call : Type :=
| Create (name : list Z) (initial_size : Z)
| Remove (name : list Z)
| Write (name buffer : list Z) (ofs : Z)
| Read (name : list Z) (size ofs : Z).

Inductive result : Type :=
| Done (ok : bool)
| Count (n : option Z)
| Data (bytes : option (list Z)).

(** Names have no null byte, and sizes and offsets fit an [off_t]. *)
Definition valid (c : call) : Prop :=
  match c with
  | Create name size => name_ok name /\ 0 <= size < 2147483136
  | Remove name => name_ok name
  | Write name buffer ofs => name_ok name /\ 0 <= ofs < 2147483648
  | Read name size ofs => name_ok name /\ 0 <= size /\ 0 <= ofs < 2147483648
  end.

(** [e] is what the local variables of the directory functions held. *)
Definition run_call (e : list Z) (c : call) : M fs result :=
  match c with
  | Create name size => ok <- filesys_create name e size ;; ret (Done ok)
  | Remove name => ok <- filesys_remove name e ;; ret (Done ok)
  | Write name buffer ofs =>
      n <- with_file name e (fun f => file_write_at f buffer (Z.of_nat (length buffer)) ofs) ;; ret (Count n)
  | Read name size ofs =>
      r <- with_file name e (fun f =>
             r <- file_read_at f (replicate (Z.to_nat size) 0) size ofs ;; ret (take (Z.to_nat r.1) r.2)) ;;
      ret (Data r)
  end.

(** The bytes of [bs] that a transfer of [size] bytes at [ofs] reaches. *)
Definition reach (bs : list Z) (size ofs : Z) : Z := Z.min size (Z.max 0 (Z.of_nat (length bs) - ofs)).

Inductive fs_spec : call -> afs -> result -> afs -> Prop :=
| spec_create m name size :
    m !! name = None -> fs_spec (Create name size) m (Done true) (<[name := replicate (Z.to_nat size) 0]> m)
| spec_create_fails m name size : fs_spec (Create name size) m (Done false) m
| spec_remove m name : is_Some (m !! name) -> fs_spec (Remove name) m (Done true) (delete name m)
| spec_remove_none m name : m !! name = None -> fs_spec (Remove name) m (Done false) m
| spec_write m name buffer ofs bs :
    m !! name = Some bs ->
    let k := reach bs (Z.of_nat (length buffer)) ofs in
    fs_spec (Write name buffer ofs) m (Count (Some k))
      (<[name := splice (Z.to_nat ofs) (take (Z.to_nat k) buffer) bs]> m)
| spec_write_none m name buffer ofs : m !! name = None -> fs_spec (Write name buffer ofs) m (Count None) m
| spec_read m name size ofs bs :
    m !! name = Some bs ->
    fs_spec (Read name size ofs) m (Data (Some (take (Z.to_nat (reach bs size ofs)) (drop (Z.to_nat ofs) bs)))) m
| spec_read_none m name size ofs : m !! name = None -> fs_spec (Read name size ofs) m (Data None) m.

Lemma live_contents_length live s sec d :
  fs_inv live s -> live !! sec = Some d -> Z.of_nat (length (contents s d)) = dlength d.
Proof.
  intros Hi Hl. destruct (fi_live _ _ (proj1 Hi) sec d Hl) as [_ [D1 D2 D3 D4] _ _ _].
  unfold contents, flat. rewrite length_take, length_drop, sectors_length by apply (fi_sectors _ _ (proj1 Hi)).
  assert (dlength d <= 512 * sectors_of (dlength d)).
  { unfold sectors_of. pose proof (Z.div_mod (dlength d + 511) 512 ltac:(lia)).
    pose proof (Z.mod_pos_bound (dlength d + 511) 512 ltac:(lia)). lia. }
  unfold first_byte. lia.
Qed.

Lemma fil_run s f fl : files s !! f = Some fl -> f <> NULL -> fil f s = Ok (fl, s).
Proof. intros H Hn. unfold fil, gets_opt. by rewrite (proj2 (Z.eqb_neq _ _) Hn), H. Qed.

Lemma write_call live s name e buffer ofs :
  fs_ok live s -> steady s -> valid (Write name buffer ofs) -> length e = 20%nat ->
  exists r s', run_call e (Write name buffer ofs) s = Ok (r, s') /\ fs_ok live s' /\ steady s' /\
    fs_spec (Write name buffer ofs) (abs live s) r (abs live s').
Proof.
  intros Hok Hst [Hn Ho] He. unfold run_call.
  destruct (with_file_ok live s name e (fun f => file_write_at f buffer (Z.of_nat (length buffer)) ofs)
    (fun bs k bs' => k = reach bs (Z.of_nat (length buffer)) ofs /\
       bs' = splice (Z.to_nat ofs) (take (Z.to_nat k) buffer) bs)) as (r & s' & Hr & Hok' & Hst' & Hcase); [done..| |].
  { intros s1 f j w Hok1 Hf Hfn Hj _ _ Hnf _ Hdeny Hl. unfold file_write_at. mrun (fil_run _ _ _ Hf Hfn). cbn [file_inode].
    destruct (write_file_ok live s1 j w buffer (Z.of_nat (length buffer)) ofs) as (s2 & Hr & Hi2 & Hs2 & Hc2 & Ho2);
      [apply Hok1|done..|lia|].
    eexists _, s2. split; [done|]. split; [done|]. split; [done|]. split; [done|].
    split; [|done]. unfold reach, available. by rewrite (live_contents_length live s1 (sector w)) by (done || apply Hok1). }
  mrun Hr. exists (Count r), s'. split; [done|]. split; [done|]. split; [done|]. destruct r as [k|].
  - destruct Hcase as (bs & bs' & Hbs & [-> ->] & ->). by apply spec_write.
  - destruct Hcase as [Hnone ->]. by apply spec_write_none.
Qed.

Lemma read_call live s name e size ofs :
  fs_ok live s -> steady s -> valid (Read name size ofs) -> length e = 20%nat ->
  exists r s', run_call e (Read name size ofs) s = Ok (r, s') /\ fs_ok live s' /\ steady s' /\
    fs_spec (Read name size ofs) (abs live s) r (abs live s').
Proof.
  intros Hok Hst (Hn & Hsz & Ho) He. unfold run_call.
  match goal with |- context [with_file name e ?b] =>
    destruct (with_file_ok live s name e b
      (fun bs a bs' => a = take (Z.to_nat (reach bs size ofs)) (drop (Z.to_nat ofs) bs) /\ bs' = bs))
      as (r & s' & Hr & Hok' & Hst' & Hcase); [done..| |] end.
  { intros s1 f j w Hok1 Hf Hfn Hj _ _ Hnf _ _ Hl. unfold file_read_at. mnorm. mrun (fil_run _ _ _ Hf Hfn). cbn [file_inode].
    destruct (inode_read_at_ok s1 j w (replicate (Z.to_nat size) 0) size ofs) as (k & s2 & Hr & Hk & Hq & Hall);
      [|done|rewrite length_replicate; lia|].
    { eapply inv_opened; [apply Hok1| |done]. by eapply (proj2 (proj2 (fo_inv _ _ Hok1))). }
    mrun Hr. destruct (fs_inv_quiet live s1 s2 (fo_inv _ _ Hok1) Hq) as [Hi2 _].
    eexists _, s2. split; [done|]. split; [done|]. split; [apply Hq|]. split; [by apply other_files_quiet|]. split.
    - cbn [fst snd]. rewrite (Hall (fi_mem _ _ (proj1 (fo_inv _ _ Hok1)))).
      assert (available (data w) size ofs = reach (contents s1 (data w)) size ofs) as ->.
      { unfold reach, available. by rewrite (live_contents_length live s1 (sector w)) by (done || apply Hok1). }
      set (n := Z.to_nat (reach _ size ofs)).
      assert (n <= length (drop (Z.to_nat ofs) (contents s1 (data w))))%nat as Hn' by (rewrite length_drop; unfold n, reach; lia).
      rewrite take_app_le by (rewrite length_take; lia). by rewrite take_take, Nat.min_id.
    - destruct Hq as [_ E]. unfold contents, flat. by rewrite E. }
  mrun Hr. exists (Data r), s'. split; [done|]. split; [done|]. split; [done|]. destruct r as [k|].
  - destruct Hcase as (bs & bs' & Hbs & [-> ->] & ->). rewrite insert_id by done. by apply spec_read.
  - destruct Hcase as [Hnone ->]. by apply spec_read_none.
Qed.

(** Every call returns and does what the specification says. *)
Lemma call_refines live s e c :
  fs_ok live s -> steady s -> valid c -> length e = 20%nat ->
  exists r s' live', run_call e c s = Ok (r, s') /\ fs_ok live' s' /\ steady s' /\ fs_spec c (abs live s) r (abs live' s').
Proof.
  intros Hok Hst Hv He. destruct c as [name size|name|name buffer ofs|name size ofs].
  - destruct Hv as [Hn Hsz]. unfold run_call.
    destruct (filesys_create_run live s name e size Hok (steady_can_open _ _ Hst) Hn Hsz He) as (ok & s' & Hr & (Ei & _) & Hcase).
    mrun Hr. assert (steady s') as Hst' by (intros i v; rewrite Ei; apply Hst). destruct ok.
    + destruct Hcase as (sec & d & Hc). exists (Done true), s', (<[sec := d]> live). split; [done|].
      split; [apply Hc|]. split; [done|]. rewrite (abs_created live s name size sec d s' Hok Hc).
      apply spec_create. apply abs_none; [done|]. apply Hc.
    + destruct Hcase as [Hok' En Hk _]. exists (Done false), s', live. split; [done|]. split; [done|]. split; [done|].
      rewrite (abs_kept live s s' Hok En Hk). apply spec_create_fails.
  - unfold run_call. destruct (filesys_remove_run live s name e Hok (steady_can_open _ _ Hst) Hv He) as (s' & Hcase).
    { intros sec _. by apply steady_can_open. }
    destruct (names live s !! name) as [sec|] eqn:E; destruct Hcase as [Hr Hcase]; mrun Hr.
    + destruct Hcase as (live' & Hrem). exists (Done true), s', live'. split; [done|]. split; [apply Hrem|].
      split.
      * destruct Hrem as [_ _ _ _ [(_ & _ & _ & j & w & Hj & _ & Ei)|(_ & _ & Ei & _)]]; intros i v; rewrite Ei; [|apply Hst].
        rewrite lookup_insert_Some. intros [[<- <-]|[_ Hx]]; [apply (Hst j w Hj)|by apply (Hst i)].
      * rewrite (abs_removed live live' s name sec s' Hok E Hrem). apply spec_remove.
        destruct (abs live s !! name) eqn:Ea; [eauto|]. apply abs_none in Ea; [congruence|done].
    + destruct Hcase as (Hok' & En & Hk & Ei & _). exists (Done false), s', live. split; [done|]. split; [done|].
      split; [intros i v; rewrite Ei; apply Hst|]. rewrite (abs_kept live s s' Hok En Hk). apply spec_remove_none. by apply abs_none.
  - destruct (write_call live s name e buffer ofs Hok Hst Hv He) as (r & s' & H). by exists r, s', live.
  - destruct (read_call live s name e size ofs Hok Hst Hv He) as (r & s' & H). by exists r, s', live.
Qed.


(** ** Sequences of calls and restarts *)

Inductive event : Type :=
| Called (c : call) (r : result)
| Restarted.

(** A restart loses the memory and keeps the device. *)
Inductive step : fs -> event -> fs -> Prop :=
| step_call s e c r s' :
    valid c -> length e = 20%nat -> run_call e c s = Ok (r, s') -> step s (Called c r) s'
| step_restart s words s0 s' :
    boot s0 -> disk s0 = disk s -> map_words (Z.of_nat (length (disk s))) words ->
    filesys_init words false s0 = Ok (tt, s') -> step s Restarted s'.

Inductive steps : fs -> list event -> fs -> Prop :=
| steps_nil s : steps s [] s
| steps_cons s ev s' evs s'' : step s ev s' -> steps s' evs s'' -> steps s (ev :: evs) s''.

Inductive spec_steps : afs -> list event -> afs -> Prop :=
| spec_nil m : spec_steps m [] m
| spec_called m c r m' evs m'' :
    fs_spec c m r m' -> spec_steps m' evs m'' -> spec_steps m (Called c r :: evs) m''
| spec_restarted m evs m' : spec_steps m evs m' -> spec_steps m (Restarted :: evs) m'.

Lemma step_refines live s ev s' :
  fs_ok live s -> steady s -> step s ev s' ->
  exists live', fs_ok live' s' /\ steady s' /\
    match ev with Called c r => fs_spec c (abs live s) r (abs live' s') | Restarted => abs live' s' = abs live s end.
Proof.
  intros Hok Hst Hstep. destruct Hstep as [s e c r s' Hv He Hr|s words s0 s' Hb Hd Hw Hr].
  - destruct (call_refines live s e c Hok Hst Hv He) as (r' & s2 & live' & Hr' & H). rewrite Hr in Hr'.
    injection Hr' as <- <-. eauto.
  - destruct (filesys_mount_run live s s0 words Hok Hb Hd Hw) as (s2 & Hr' & Hok' & En & Ed & Hcnt & _).
    rewrite Hr in Hr'. injection Hr' as <-. exists live. split; [done|]. split.
    + intros i v Hv. destruct (Hcnt i v Hv) as [-> ->]. lia.
    + apply abs_kept; [done|done|]. intros sec d _ _. unfold contents, flat. by rewrite Ed.
Qed.

Lemma steps_refine live s evs s' :
  fs_ok live s -> steady s -> steps s evs s' ->
  exists live', fs_ok live' s' /\ steady s' /\ spec_steps (abs live s) evs (abs live' s').
Proof.
  intros Hok Hst Hsteps. revert live Hok Hst. induction Hsteps as [s|s ev s1 evs s2 Hstep _ IH]; intros live Hok Hst.
  - exists live. split; [done|]. split; [done|]. constructor.
  - destruct (step_refines live s ev s1 Hok Hst Hstep) as (live1 & Hok1 & Hst1 & Hev).
    destruct (IH live1 Hok1 Hst1) as (live2 & Hok2 & Hst2 & Hevs). exists live2. split; [done|]. split; [done|].
    destruct ev as [c r|]; [by econstructor|]. constructor. by rewrite <- Hev.
Qed.


Lemma spec_snoc m evs m' c r m'' :
  spec_steps m evs m' -> fs_spec c m' r m'' -> spec_steps m (evs ++ [Called c r]) m''.
Proof.
  intros H Hc. induction H; cbn [app]; [|by econstructor; eauto|by constructor; auto].
  econstructor; [done|constructor].
Qed.


End FsRefine.
