(* ===== verification/FsProps.v ===== *)
(** * Theorems on the file system

    What src/src/filesys promises to its callers, with runs on a device of 64
    sectors as instances. *)

From S2P Require Import Prelude KState Bitmap FsState Inode FileOps Directory FsInv DirProps FileSys Mount FsRefine.
Import FsState Inode FileOps Directory FsInv DirProps FileSys Mount FsRefine.

Module FsProps.

(** ** The whole file system *)

(** C4: On a formatted device every sequence of calls of the file system and
    of restarts of the machine behaves like operations on a finite map from
    names to contents that starts empty, and after it every call returns
    again and does what the map says. *)
Theorem filesys_refines_map s0 words s evs s' :
  boot s0 -> sectors_ok s0 -> free_map_file s0 = NULL -> big_enough (Z.of_nat (length (disk s0))) ->
  map_words (Z.of_nat (length (disk s0))) words ->
  filesys_init words true s0 = Ok (tt, s) -> steps s evs s' ->
  exists m, spec_steps ∅ evs m /\
    forall e c, valid c -> length e = 20%nat ->
      exists r s'' m', run_call e c s' = Ok (r, s'') /\ fs_spec c m r m' /\ spec_steps ∅ (evs ++ [Called c r]) m'.
Proof.
  intros Hb Hok Hnull Hbig Hw Hr Hsteps.
  destruct (filesys_format_run s0 words Hb Hok Hnull Hbig Hw) as (live & s1 & Hr1 & Hok1 & En1 & _ & _ & Hcnt).
  rewrite Hr in Hr1. injection Hr1 as <-.
  assert (steady s) as Hst by (intros i v Hv; destruct (Hcnt i v Hv) as [-> ->]; lia).
  assert (abs live s = ∅) as Ea.
  { apply map_eq. intros n. rewrite lookup_empty. apply abs_none; [done|]. by rewrite En1, lookup_empty. }
  destruct (steps_refine live s evs s' Hok1 Hst Hsteps) as (live' & Hok' & Hst' & Hspec). rewrite Ea in Hspec.
  exists (abs live' s'). split; [done|]. intros e c Hv He.
  destruct (call_refines live' s' e c Hok' Hst' Hv He) as (r & s2 & live2 & Hr2 & Hok2 & Hst2 & Hc).
  exists r, s2, (abs live2 s2). split; [done|]. split; [done|]. by apply spec_snoc with (abs live' s').
Qed.

(** Formatting a device that has room for the free map and a root
    directory succeeds, whatever the device and the memory held, and
    establishes the file-system invariant with an empty root directory. *)
Theorem filesys_format_ok s words :
  boot s -> sectors_ok s -> free_map_file s = NULL -> big_enough (Z.of_nat (length (disk s))) ->
  map_words (Z.of_nat (length (disk s))) words ->
  exists live s', filesys_init words true s = Ok (tt, s') /\ fs_ok live s' /\ names live s' = ∅.
Proof.
  intros H1 H2 H3 H4 H5. destruct (filesys_format_run s words H1 H2 H3 H4 H5) as (live & s' & Hr & Hok & Hn & _). eauto.
Qed.

(** C18: Mounting a device again, after a restart at any point between two
    calls, succeeds and finds the same names, the same contents and the same
    free sectors. *)
Theorem filesys_mount_ok live s s0 words :
  fs_ok live s -> boot s0 -> disk s0 = disk s -> map_words (Z.of_nat (length (disk s))) words ->
  exists s', filesys_init words false s0 = Ok (tt, s') /\ fs_ok live s' /\ names live s' = names live s /\
    (forall sec d, live !! sec = Some d -> contents s' d = contents s d) /\
    (forall x, 0 <= x < Z.of_nat (length (disk s)) -> Bitmap.bit (free_map s') x = Bitmap.bit (free_map s) x).
Proof.
  intros H1 H2 H3 H4. destruct (filesys_mount_run live s s0 words H1 H2 H3 H4) as (s' & Hr & Hok & Hn & Hd & _ & Hb).
  exists s'. split; [done|]. split; [done|]. split; [done|]. split; [|done]. intros sec d _. unfold contents, flat. by rewrite Hd.
Qed.

(** ** Creating and removing *)

(** [filesys_create] returns and keeps the invariant and the contents of
    every other file.  When it succeeds the name was free, its new file is
    all zeros and in sectors that no file had; when it fails the names and
    the contents are as before. *)
Theorem filesys_create_ok live s name e size :
  fs_ok live s -> can_open s ROOT_DIR_SECTOR -> name_ok name -> 0 <= size < 2147483136 -> length e = 20%nat ->
  exists ok s', filesys_create name e size s = Ok (ok, s') /\
    if (ok : bool) then exists sec d, created live s name size sec d s' else not_created live s name size s'.
Proof.
  intros H1 H2 H3 H4 H5. destruct (filesys_create_run live s name e size H1 H2 H3 H4 H5) as (ok & s' & Hr & _ & Hc). eauto.
Qed.

(** [filesys_remove] of a name that exists removes exactly this name; the
    sectors of its file are free afterwards, and no others, unless the file is
    open, in which case it keeps its contents; no other file changes. *)
Theorem filesys_remove_ok live s name e sec :
  fs_ok live s -> can_open s ROOT_DIR_SECTOR -> name_ok name -> length e = 20%nat ->
  names live s !! name = Some sec -> can_open s sec ->
  exists live' s', filesys_remove name e s = Ok (true, s') /\ removed_file live live' s name sec s'.
Proof.
  intros H1 H2 H3 H4 H5 H6. destruct (filesys_remove_run live s name e H1 H2 H3 H4) as (s' & Hc).
  { intros sec' E. by replace sec' with sec by congruence. }
  rewrite H5 in Hc. destruct Hc as (Hr & live' & Hrem). eauto.
Qed.

(** C19: [filesys_create] of a name that exists fails, and when the device has
    room for the file it marks the free sectors that the file would have had
    as used, although no file has them afterwards: it releases the sector of
    the inode but not the data's. *)
Theorem filesys_create_leaks live s name e size sec :
  fs_ok live s -> can_open s ROOT_DIR_SECTOR -> name_ok name -> 0 <= size < 2147483136 -> length e = 20%nat ->
  names live s !! name = Some sec -> ~ no_room s size ->
  exists s' a, filesys_create name e size s = Ok (false, s') /\ fs_ok live s' /\ took s s' a (sectors_of size) /\
    forall sec' d x, live !! sec' = Some d -> a <= x < a + sectors_of size -> ~ in_file sec' d x.
Proof.
  intros H1 H2 H3 H4 H5 Hn Hroom.
  destruct (filesys_create_run live s name e size H1 H2 H3 H4 H5) as (ok & s' & Hr & _ & Hc). destruct ok.
  - destruct Hc as (sec' & d & [[Hno _] _ _ _ _]). congruence.
  - destruct Hc as [Hok _ _ (a & n & Ht & [[_ Hno]|[-> _]])]; [done|]. exists s', a. do 3 (split; [done|]).
    intros sec' d x Hl Hx Hin. destruct Ht as (_ & Hfree & _).
    pose proof (fi_used _ _ (proj1 (fo_inv _ _ H1)) sec' d x Hl Hin) as Hu. rewrite Hfree in Hu by done. done.
Qed.

(** ** Inodes and the free map *)

(** What [inode_write_at] writes to an open file is what
    [inode_read_at] reads from it, for every offset and length, also across
    sectors and at the end of the file, where both stop; no other file
    changes. *)
Theorem inode_write_read live s i v buffer size ofs rbuf :
  fs_inv live s -> inodes s !! i = Some v -> sector v <> FREE_MAP_SECTOR -> deny_write_cnt v = 0 ->
  0 <= ofs < 2147483648 -> 0 <= size <= Z.of_nat (length buffer) -> length rbuf = length buffer ->
  exists k s1 s2, inode_write_at i buffer size ofs s = Ok (k, s1) /\
    k = Z.min size (Z.max 0 (dlength (data v) - ofs)) /\
    inode_read_at i rbuf size ofs s1 = Ok ((k, take (Z.to_nat k) buffer ++ drop (Z.to_nat k) rbuf), s2) /\
    fs_inv live s2 /\ other_files live (sector v) s s2.
Proof.
  intros Hi Hv Hnf Hdeny Ho Hs Hrb. pose proof (proj2 (proj2 Hi) i v Hv) as Hin.
  destruct (write_file_ok live s i v buffer size ofs) as (s1 & Hw & Hi1 & Hs1 & Hc1 & Ho1); [done..|].
  assert (inodes s1 !! i = Some v) as Hv1 by (by rewrite (sbd_inodes _ _ Hs1)).
  pose proof (inv_opened live s1 i v (proj1 Hi1) (proj2 (proj2 Hi1) i v Hv1) Hv1) as Hop.
  destruct (inode_read_at_ok s1 i v rbuf size ofs Hop Ho) as (k & s2 & Hr & Hk & Hq & Hall); [by rewrite Hrb|].
  rewrite (Hall (fi_mem _ _ (proj1 Hi1))) in Hr. set (k0 := available (data v) size ofs) in *.
  exists k0, s1, s2. split; [done|]. split; [done|]. split; [|split].
  - rewrite Hr. do 3 f_equal. rewrite Hc1. unfold splice.
    pose proof (inv_opened live s i v (proj1 Hi) Hin Hv) as Hop0. pose proof (contents_length s i v Hop0) as Hlen.
    pose proof (live_sizes live s _ _ (proj1 Hi) (proj1 (proj2 (fi_open _ _ (proj1 Hi) i v Hin Hv)))) as [Hd0 _].
    destruct (decide (k0 = 0)) as [->|Hne]; [done|]. unfold k0, available in Hne |- *.
    rewrite drop_app_ge, length_take, Hlen by (rewrite length_take; lia).
    replace (Z.to_nat ofs - Nat.min (Z.to_nat ofs) (Z.to_nat (dlength (data v))))%nat with 0%nat by lia.
    rewrite drop_0, take_app_le by (rewrite length_take; lia). by rewrite take_take, Nat.min_id.
  - by apply (fs_inv_quiet live s1 s2 Hi1 Hq).
  - by apply (other_files_trans live _ s s1), other_files_quiet.
Qed.

(** [inode_create] in a sector that is marked as used but belongs to no
    file takes only sectors that were free: the new inode and its data share
    no sector with any other file, and no other file changes; it fails only
    when the free map has no group of sectors that is long enough, and then
    changes nothing. *)
Theorem inode_create_isolated live s sec len :
  fs_inv live s -> reserved live s sec -> 0 <= len < 2147483136 ->
  exists ok s', inode_create sec len s = Ok (ok, s') /\ files_kept live s s' /\
    if (ok : bool) then exists d, dlength d = len /\ fs_inv (<[sec := d]> live) s' /\
      contents s' d = replicate (Z.to_nat len) 0 /\
      (forall sec' d' x, live !! sec' = Some d' -> in_file sec' d' x -> ~ in_file sec d x)
    else fs_inv live s' /\ same_bits s s' /\
      forall i, 0 <= i -> i + sectors_of len <= Z.of_nat (length (disk s)) ->
        ~ Bitmap.group (free_map s) i (sectors_of len) false.
Proof.
  intros Hi Hres Hlen. destruct (inode_create_ok live s sec len Hi Hres Hlen) as (ok & s' & Hr & Hk & _ & Hc).
  exists ok, s'. split; [done|]. split; [done|]. destruct ok; [|done].
  destruct Hc as (d & Hd & Hi' & Hz & _). exists d. split; [done|]. split; [done|]. split; [done|].
  intros sec' d' x Hl Hx Hx'. destruct Hres as (_ & _ & Hno). assert (sec' <> sec) as Hne.
  { intros ->. by apply (Hno sec d'); [|left]. }
  apply Hne. apply (fi_apart _ _ (proj1 Hi') sec' d' sec d x); [by rewrite lookup_insert_ne|apply lookup_insert_eq|done|done].
Qed.

(** ** Directories *)

(** [dir_add] binds a name to a sector in the map that the directory is,
    exactly when the name has 1 to 14 bytes, is not bound yet and a slot is
    free; otherwise the directory is unchanged.  No other file changes. *)
Theorem dir_add_binds live s d i v name sec e :
  fs_inv live s -> is_dir s d i v -> deny_write_cnt v = 0 -> name_ok name -> in_u32 sec -> length e = 20%nat ->
  exists ok s', dir_add d name sec e s = Ok (ok, s') /\ fs_inv live s' /\ is_dir s' d i v /\
    other_files live (sector v) s s' /\
    if (ok : bool) then ~ cannot_add s v name /\ names_of s' v = <[name := sec]> (names_of s v)
    else cannot_add s v name /\ names_of s' v = names_of s v.
Proof.
  intros H1 H2 H3 H4 H5 H6. destruct (dir_add_ok live s d i v name sec e H1 H2 H3 H4 H5 H6) as (ok & s' & Hr & Hi & Hd & _ & Ho & Hc).
  exists ok, s'. do 4 (split; [done|]). destruct ok; [done|]. destruct Hc as [Hc E]. split; [done|]. unfold names_of. by rewrite E.
Qed.

(** ** A device of 64 sectors *)

(** The machine when it starts: a device with old contents, and nothing open. *)
Definition machine (d : list (list Z)) : fs :=
  mkFs d 0 0 ∅ [] ∅ ∅ (Bitmap.mkBitmap 0 []) 0 (fun _ => true) 1.

Definition used_disk : list (list Z) := replicate 64 (replicate 512 7).
Definition junk : list Z := replicate 20 9.
Definition garbage : list Z := [5; 4294967295].

Definition after {A} (m : M fs A) (s : fs) : fs := match m s with Ok (_, s') => s' | Err _ => s end.

Definition formatted : fs := after (filesys_init garbage true) (machine used_disk).

Lemma machine_boot d : boot (machine d).
Proof. by split. Qed.

Lemma used_disk_ok : sectors_ok (machine used_disk).
Proof. apply Forall_replicate. by rewrite length_replicate. Qed.

Lemma used_disk_big : big_enough (Z.of_nat (length (disk (machine used_disk)))).
Proof. unfold big_enough. vm_compute. split; intros [=]. Qed.

Lemma garbage_words : map_words (Z.of_nat (length (disk (machine used_disk)))) garbage.
Proof. split; [reflexivity|]. repeat constructor; unfold in_u32; lia. Qed.

Lemma format_run : filesys_init garbage true (machine used_disk) = Ok (tt, formatted).
Proof. vm_compute. reflexivity. Qed.

(** The file [AB] of 700 bytes, and three bytes written across its sectors. *)
Definition with_file_AB : fs := after (run_call junk (Create [65; 66] 700)) formatted.
Definition written : fs := after (run_call junk (Write [65; 66] [1; 2; 3] 510)) with_file_AB.
Definition restarted : fs := after (filesys_init garbage false) (machine (disk written)).

Definition calls : list event :=
  [Called (Create [65; 66] 700) (Done true); Called (Write [65; 66] [1; 2; 3] 510) (Count (Some 3));
   Restarted; Called (Read [65; 66] 4 511) (Data (Some [2; 3; 0; 0]))].

Lemma AB_ok : name_ok [65; 66].
Proof. repeat constructor; lia. Qed.

Lemma calls_run : exists s', steps formatted calls s'.
Proof.
  eexists. eapply steps_cons.
  { apply (step_call _ junk _ _ with_file_AB); [split; [apply AB_ok|lia]|done|vm_compute; reflexivity]. }
  eapply steps_cons.
  { apply (step_call _ junk _ _ written); [split; [apply AB_ok|lia]|done|vm_compute; reflexivity]. }
  eapply steps_cons.
  { apply (step_restart _ garbage (machine (disk written)) restarted); [apply machine_boot|done| |vm_compute; reflexivity].
    split; [vm_compute; reflexivity|apply garbage_words]. }
  eapply steps_cons; [|constructor].
  apply (step_call _ junk _ _ (after (run_call junk (Read [65; 66] 4 511)) restarted));
    [split; [apply AB_ok|lia]|done|vm_compute; reflexivity].
Qed.

Lemma filesys_refines_map_witness : exists m, spec_steps ∅ calls m.
Proof.
  destruct calls_run as [s' Hs].
  destruct (filesys_refines_map (machine used_disk) garbage formatted calls s' (machine_boot _) used_disk_ok eq_refl
    used_disk_big garbage_words format_run Hs) as (m & Hm & _). exists m. exact Hm.
Defined.

Lemma filesys_format_ok_witness :
  exists live s', filesys_init garbage true (machine used_disk) = Ok (tt, s') /\ fs_ok live s' /\ names live s' = ∅.
Proof.
  exact (filesys_format_ok (machine used_disk) garbage (machine_boot _) used_disk_ok eq_refl used_disk_big garbage_words).
Defined.


Lemma run_unique {A} (m : M fs A) s a s1 b s2 : m s = Ok (a, s1) -> m s = Ok (b, s2) -> a = b /\ s1 = s2.
Proof. intros -> [= -> ->]. done. Qed.

#[local] Opaque formatted with_file_AB.

(** The states above satisfy the invariant. *)
Lemma formatted_ok : exists live, fs_ok live formatted /\ steady formatted /\ names live formatted = ∅.
Proof.
  destruct (filesys_format_run (machine used_disk) garbage (machine_boot _) used_disk_ok eq_refl used_disk_big garbage_words)
    as (live & s & Hr & Hok & Hn & _ & _ & Hc).
  destruct (run_unique _ _ _ _ _ _ format_run Hr) as [_ <-]. exists live. split; [done|]. split; [|done].
  intros i v Hv. destruct (Hc i v Hv) as [-> ->]. lia.
Qed.

Lemma create_AB_run : filesys_create [65; 66] junk 700 formatted = Ok (true, with_file_AB).
Proof. vm_compute. reflexivity. Qed.

Lemma with_file_AB_ok :
  exists live sec, fs_ok live with_file_AB /\ steady with_file_AB /\ names live with_file_AB !! [65; 66] = Some sec.
Proof.
  destruct formatted_ok as (live & Hok & Hst & _).
  destruct (filesys_create_run live formatted [65; 66] junk 700 Hok (steady_can_open _ _ Hst) AB_ok ltac:(lia) eq_refl)
    as (ok & s & Hr & (Ei & _) & Hc).
  pose proof create_AB_run as Hr'.
  destruct (run_unique _ _ _ _ _ _ Hr' Hr) as [<- <-]. destruct Hc as (sec & d & [_ Hok' Hn _ _]).
  exists (<[sec := d]> live), sec. split; [done|]. split; [intros i v; rewrite Ei; apply Hst|].
  by rewrite Hn, lookup_insert_eq.
Qed.

Lemma filesys_mount_ok_witness :
  exists live s', filesys_init garbage false (machine (disk with_file_AB)) = Ok (tt, s') /\ fs_ok live s'.
Proof.
  destruct with_file_AB_ok as (live & sec & Hok & _).
  destruct (filesys_mount_ok live with_file_AB (machine (disk with_file_AB)) garbage Hok (machine_boot _) eq_refl)
    as (s' & Hr & Hok' & _).
  - split; [vm_compute; reflexivity|apply garbage_words].
  - exists live, s'. split; [exact Hr|exact Hok'].
Defined.

Lemma filesys_create_ok_witness :
  exists live s' sec d, filesys_create [65; 66] junk 700 formatted = Ok (true, s') /\
    created live formatted [65; 66] 700 sec d s'.
Proof.
  destruct formatted_ok as (live & Hok & Hst & _).
  destruct (filesys_create_ok live formatted [65; 66] junk 700 Hok (steady_can_open _ _ Hst) AB_ok ltac:(lia) eq_refl)
    as (ok & s' & Hr & Hc).
  pose proof create_AB_run as Hr'.
  destruct (run_unique _ _ _ _ _ _ Hr' Hr) as [<- <-]. destruct Hc as (sec & d & Hc). exists live, with_file_AB, sec, d. split; [exact Hr'|exact Hc].
Defined.

Lemma filesys_remove_ok_witness :
  exists live live' sec s', filesys_remove [65; 66] junk with_file_AB = Ok (true, s') /\
    removed_file live live' with_file_AB [65; 66] sec s'.
Proof.
  destruct with_file_AB_ok as (live & sec & Hok & Hst & Hn).
  destruct (filesys_remove_ok live with_file_AB [65; 66] junk sec Hok (steady_can_open _ _ Hst) AB_ok eq_refl Hn
    (steady_can_open _ _ Hst)) as (live' & s' & Hr & Hrem). exists live, live', sec, s'. split; [exact Hr|exact Hrem].
Defined.

Lemma filesys_create_leaks_witness :
  exists s' a, filesys_create [65; 66] junk 700 with_file_AB = Ok (false, s') /\ took with_file_AB s' a 2.
Proof.
  destruct with_file_AB_ok as (live & sec & Hok & Hst & Hn).
  destruct (filesys_create_leaks live with_file_AB [65; 66] junk 700 sec Hok (steady_can_open _ _ Hst) AB_ok ltac:(lia) eq_refl Hn)
    as (s' & a & Hr & _ & Ht & _).
  - intros H. apply (H 40); [lia|vm_compute; intros [=]|]. intros j Hj. change (sectors_of 700) with 2 in Hj.
    assert (j = 40 \/ j = 41 \/ j = 42) as [-> | [-> | ->]] by lia; vm_compute; reflexivity.
  - exists s', a. split; [exact Hr|exact Ht].
Defined.

Lemma inode_write_read_witness :
  exists live s i k s1 s2, inode_write_at i [1; 2; 3] 3 510 s = Ok (k, s1) /\ fs_inv live s2 /\
    inode_read_at i [0; 0; 0] 3 510 s1 = Ok ((k, take (Z.to_nat k) [1; 2; 3] ++ drop (Z.to_nat k) [0; 0; 0]), s2).
Proof.
  destruct with_file_AB_ok as (live & sec & Hok & Hst & Hn).
  destruct (filesys_open_run live with_file_AB [65; 66] junk Hok (steady_can_open _ _ Hst) AB_ok eq_refl)
    as (f & s & Hr & Hok' & _ & _ & Hc); [intros ? _; by apply steady_can_open|].
  rewrite Hn in Hc. destruct Hc as [(i & w & _ & Ei & Hs & _ & _ & _ & Hd & _) _ _].
  destruct (inode_write_read live s i w [1; 2; 3] 3 510 [0; 0; 0] (fo_inv _ _ Hok')) as (k & s1 & s2 & H1 & _ & H2 & H3 & _).
  - by rewrite Ei, lookup_insert_eq.
  - rewrite Hs. by apply (fo_named _ _ Hok [65; 66]).
  - rewrite Hd. destruct (inodes with_file_AB !! i) as [w0|] eqn:E; [by apply (Hst i w0)|done].
  - lia.
  - cbn. lia.
  - done.
  - exists live, s, i, k, s1, s2. split; [exact H1|]. split; [exact H3|exact H2].
Defined.

(** The first sector that a formatted device gives away. *)
Definition reserved_one : fs := after (free_map_allocate 1) formatted.

Lemma inode_create_isolated_witness :
  exists live ok s', inode_create 4 700 reserved_one = Ok (ok, s') /\ files_kept live reserved_one s'.
Proof.
  destruct formatted_ok as (live & Hok & _).
  destruct (free_map_allocate_ok live formatted 1 (fo_inv _ _ Hok) ltac:(lia)) as (r & s & Hr & Hi & Hm & _ & Hc).
  assert (free_map_allocate 1 formatted = Ok (Some 4, reserved_one)) as Hr' by (vm_compute; reflexivity).
  destruct (run_unique _ _ _ _ _ _ Hr' Hr) as [<- <-]. destruct (same_but_map_fields _ _ Hm) as (_ & _ & _ & _ & _ & El & _).
  destruct (allocated_reserved live formatted reserved_one 4 (fo_inv _ _ Hok) (proj1 Hc) El) as (Hres & _).
  destruct (inode_create_isolated live reserved_one 4 700 Hi Hres ltac:(lia)) as (ok & s' & H1 & H2 & _).
  exists live, ok, s'. split; [exact H1|exact H2].
Defined.

Lemma dir_add_binds_witness :
  exists live s d i v ok s', dir_add d [67] 9 junk s = Ok (ok, s') /\ is_dir s' d i v /\ fs_inv live s'.
Proof.
  destruct with_file_AB_ok as (live & sec & Hok & Hst & _).
  destruct (dir_open_root_ok live with_file_AB Hok (steady_can_open _ _ Hst)) as (d & i & v & s & _ & Hro).
  destruct (dir_add_binds live s d i v [67] 9 junk (ro_inv _ _ _ _ _ _ Hro) (ro_dir _ _ _ _ _ _ Hro)
    (proj1 (ro_clean _ _ _ _ _ _ Hro))) as (ok & s' & H1 & H2 & H3 & _).
  - repeat constructor; lia.
  - unfold in_u32. lia.
  - done.
  - exists live, s, d, i, v, ok, s'. split; [exact H1|]. split; [exact H3|exact H2].
Defined.


End FsProps.
