(* ===== verification/Arith64.v ===== *)
(** * 64-bit division (src/src/lib/arithmetic.c)

    The routines the compiler calls for 64-bit division, built on the 32-bit
    DIVL instruction, and their correctness against the division of [Z]. *)

From S2P Require Import Prelude.
From Stdlib Require Import Zquot.

Module Arith64.


(** DIVL: a divide error when the divisor is zero or the quotient does not
    fit in 32 bits. *)
Definition divl (n d : Z) : res Z :=
  if (d =? 0) || (n / d >? 4294967295) then Err Divide_error else Ok (n / d).

Definition nlz (x : Z) : Z :=
  let n := 0 in
  let '(n, x) := if x <=? 0x0000FFFF then (n + 16, u32 (Z.shiftl x 16)) else (n, x) in
  let '(n, x) := if x <=? 0x00FFFFFF then (n + 8, u32 (Z.shiftl x 8)) else (n, x) in
  let '(n, x) := if x <=? 0x0FFFFFFF then (n + 4, u32 (Z.shiftl x 4)) else (n, x) in
  let '(n, x) := if x <=? 0x3FFFFFFF then (n + 2, u32 (Z.shiftl x 2)) else (n, x) in
  if x <=? 0x7FFFFFFF then n + 1 else n.

(** [n1 % d0] and [n1 / d0] are 32-bit divisions of the compiler, which
    fault on a zero divisor as DIVL does. *)
Definition udiv64 (n d : Z) : res Z :=
  if Z.shiftr d 32 =? 0 then
    let b := Z.shiftl 1 32 in
    let n1 := u32 (Z.shiftr n 32) in
    let n0 := u32 n in
    let d0 := u32 d in
    if d0 =? 0 then Err Divide_error
    else
      match divl (u64 (b * (n1 mod d0) + n0)) d0 with
      | Ok q => Ok (u64 (q + u64 (b * (n1 / d0))))
      | Err e => Err e
      end
  else if n <? d then Ok 0
  else
    let d1 := u32 (Z.shiftr d 32) in
    let s := nlz d1 in
    match divl (Z.shiftr n 1) (u32 (Z.shiftr (u64 (Z.shiftl d s)) 32)) with
    | Ok q0 =>
        let q := Z.shiftr q0 (31 - s) in
        Ok (if u64 (n - u64 (u64 (q - 1) * d)) <? d then u64 (q - 1) else q)
    | Err e => Err e
    end.

(** The result type of [umod64] is [uint32_t]. *)
Definition umod64 (n d : Z) : res Z :=
  match udiv64 n d with Ok q => Ok (u32 (u64 (n - u64 (d * q)))) | Err e => Err e end.

Definition sdiv64 (n d : Z) : res Z :=
  let n_abs := if n >=? 0 then u64 n else u64 (- u64 n) in
  let d_abs := if d >=? 0 then u64 d else u64 (- u64 d) in
  match udiv64 n_abs d_abs with
  | Ok q_abs =>
      Ok (if Bool.eqb (n <? 0) (d <? 0) then s64 q_abs else s64 (- s64 q_abs))
  | Err e => Err e
  end.

(** The result type of [smod64] is [int32_t]. *)
Definition smod64 (n d : Z) : res Z :=
  match sdiv64 n d with Ok q => Ok (s32 (s64 (n - s64 (d * q)))) | Err e => Err e end.

Definition __divdi3 (n d : Z) : res Z := sdiv64 n d.
Definition __moddi3 (n d : Z) : res Z := smod64 n d.
Definition __udivdi3 (n d : Z) : res Z := udiv64 n d.
Definition __umoddi3 (n d : Z) : res Z := umod64 n d.

(** ** Machine arithmetic *)

Lemma shiftr_div a n : 0 <= n -> Z.shiftr a n = a / 2 ^ n.
Proof. apply Z.shiftr_div_pow2. Qed.

(** ** Leading zeros *)

Ltac nlz_step :=
  match goal with
  | |- context [if ?a <=? ?b then _ else _] =>
      destruct (Z.leb_spec a b); [rewrite ?u32_id by (rewrite ?Z.shiftl_mul_pow2 by lia; lia)|];
      rewrite ?Z.shiftl_mul_pow2 in * by lia
  end.

(** [nlz] shifts the highest bit set to the top. *)
Lemma nlz_ok x :
  0 < x < 4294967296 -> 0 <= nlz x <= 31 /\ 2147483648 <= x * 2 ^ nlz x < 4294967296.
Proof.
  intros Hx. unfold nlz. repeat nlz_step; cbn -[Z.mul]; lia.
Qed.

(** ** Unsigned division *)

Lemma divl_ok n d : 0 < d -> 0 <= n -> n < d * 4294967296 -> divl n d = Ok (n / d).
Proof.
  intros Hd Hn Hlt. unfold divl. rewrite (proj2 (Z.eqb_neq d 0)) by lia.
  assert (n / d < 4294967296) by (apply Z.div_lt_upper_bound; lia).
  rewrite Z.gtb_ltb, (proj2 (Z.ltb_ge _ _)) by lia. done.
Qed.

(** Schoolbook division of a two-digit number by one digit. *)
Lemma short_division n d b :
  0 < d -> 0 < b -> n / d = (b * (n / b mod d) + n mod b) / d + b * (n / b / d).
Proof.
  intros Hd Hb. rewrite <- Z.div_add by lia. f_equal.
  pose proof (Z.div_mod n b ltac:(lia)). pose proof (Z.div_mod (n / b) d ltac:(lia)). nia.
Qed.

(** The estimate of the quotient from the leading 32 bits of the divisor is
    the quotient or one more: [A] is the normalising power of two and [B] the
    weight of the digits dropped. *)
Lemma estimate n d A B v :
  in_u64 n -> A * B = 4294967296 -> 0 < A -> B = 2 \/ 4 <= B ->
  v = d / B -> 2147483648 <= v ->
  n / d <= n / (v * B) <= n / d + 1.
Proof.
  intros Hn HAB HA HB Hv Hv31.
  pose proof (Z.div_mod d B ltac:(lia)) as Hd. pose proof (Z.mod_pos_bound d B ltac:(lia)) as Hm.
  rewrite <- Hv in Hd. set (e := v * B) in *.
  assert (0 < e <= d) as He by (subst e; nia).
  assert (d - e <= B - 1) as Hde by (subst e; lia).
  split; [apply Z.div_le_compat_l; unfold in_u64 in Hn; lia|].
  set (Q := n / d). pose proof (Z.div_mod n d ltac:(lia)) as Hnd.
  pose proof (Z.mod_pos_bound n d ltac:(lia)) as Hr. fold Q in Hnd.
  assert (0 <= Q) as HQ by (apply Z.div_pos; unfold in_u64 in Hn; lia).
  assert (Q + 1 <= 2 * A) as HQA.
  { assert (Q * (2147483648 * B) <= Q * d) by (apply Z.mul_le_mono_nonneg_l; subst e; nia).
    assert (Q * (2147483648 * B) < 18446744073709551616) as H1 by (unfold in_u64 in Hn; lia).
    assert (18446744073709551616 = 2 * A * (2147483648 * B)) as H2 by nia.
    rewrite H2 in H1. apply Z.mul_lt_mono_pos_r in H1; lia. }
  assert ((Q + 1) * (d - e) <= e) as Hkey.
  { assert ((Q + 1) * (d - e) <= 2 * A * (B - 1)) by (apply Z.mul_le_mono_nonneg; lia).
    assert (2147483648 * B <= e) by (subst e; nia). nia. }
  apply Z.lt_succ_r. apply Z.div_lt_upper_bound; [lia|]. nia.
Qed.

Lemma pow_split s : 0 <= s <= 31 ->
  2 ^ s * 2 ^ (32 - s) = 4294967296 /\ 0 < 2 ^ s /\ (2 ^ (32 - s) = 2 \/ 4 <= 2 ^ (32 - s)).
Proof.
  intros Hs. split; [rewrite <- Z.pow_add_r by lia; by replace (s + (32 - s)) with 32 by lia|].
  split; [by apply Z.pow_pos_nonneg; lia|].
  destruct (Z.eq_dec s 31) as [->|]; [by left|right].
  change 4 with (2 ^ 2). apply Z.pow_le_mono_r; lia.
Qed.

(** The divisor normalised and cut to 32 bits. *)
Lemma normalised d s :
  in_u64 d -> 4294967296 <= d -> s = nlz (d / 4294967296) ->
  0 <= s <= 31 /\ u32 (Z.shiftr (u64 (Z.shiftl d s)) 32) = d / 2 ^ (32 - s) /\
  2147483648 <= d / 2 ^ (32 - s) < 4294967296.
Proof.
  intros Hd Hd32 ->. set (s := nlz _). unfold in_u64 in Hd.
  assert (0 < d / 4294967296 < 4294967296) as Hd1
    by (split; [apply Z.div_str_pos; lia|apply Z.div_lt_upper_bound; lia]).
  destruct (nlz_ok _ Hd1) as [Hs Hn]. fold s in Hs, Hn.
  destruct (pow_split s Hs) as (HAB & HA & HB).
  pose proof (Z.div_mod d 4294967296 ltac:(lia)) as Hdm.
  pose proof (Z.mod_pos_bound d 4294967296 ltac:(lia)) as Hmm.
  assert (d * 2 ^ s / 4294967296 = d / 2 ^ (32 - s)) as Hdiv.
  { rewrite <- HAB. rewrite (Z.mul_comm d), Z.div_mul_cancel_l by lia. done. }
  assert (in_u64 (d * 2 ^ s)) as Hfit by (unfold in_u64; nia).
  assert (2147483648 <= d * 2 ^ s / 4294967296 < 4294967296) as Hr.
  { split; [apply Z.div_le_lower_bound; [lia|nia]|].
    apply Z.div_lt_upper_bound; [lia|]. unfold in_u64 in Hfit. lia. }
  split; [done|]. rewrite Z.shiftl_mul_pow2, u64_id by (lia || done).
  rewrite Z.shiftr_div_pow2 by lia. change (2 ^ 32) with 4294967296.
  rewrite u32_id by lia. rewrite Hdiv in *. done.
Qed.

(** One step back from an estimate that is at most one too large. *)
Lemma correct_estimate n d q :
  in_u64 n -> 0 < d -> d <= n -> n / d <= q <= n / d + 1 ->
  (if u64 (n - u64 (u64 (q - 1) * d)) <? d then u64 (q - 1) else q) = n / d.
Proof.
  intros Hn Hd Hdn Hq. unfold in_u64 in *.
  pose proof (Z.div_mod n d ltac:(lia)) as Hdm. pose proof (Z.mod_pos_bound n d Hd) as Hr.
  assert (1 <= n / d) as H1 by (apply Z.div_le_lower_bound; lia).
  assert (n / d <= n) as HQn by (apply Z.div_le_upper_bound; nia).
  assert (0 <= (q - 1) * d <= n) as Hp by nia.
  rewrite (u64_id (q - 1)) by (unfold in_u64; lia).
  rewrite (u64_id ((q - 1) * d)) by (unfold in_u64; lia).
  rewrite u64_id by (unfold in_u64; lia).
  destruct (Z.ltb_spec (n - (q - 1) * d) d); nia.
Qed.

(** [udiv64] divides: it returns the quotient for every divisor but zero,
    without a divide error. *)
Lemma udiv64_ok n d : in_u64 n -> in_u64 d -> d <> 0 -> udiv64 n d = Ok (n / d).
Proof.
  intros Hn Hd H0. unfold udiv64. rewrite !shiftr_div by lia. unfold in_u64 in *.
  change (2 ^ 32) with 4294967296. change (2 ^ 1) with 2.
  destruct (Z.eqb_spec (d / 4294967296) 0) as [Hz|Hz].
  - apply Z.div_small_iff in Hz; [|lia]. assert (0 < d < 4294967296) as Hd32 by lia.
    rewrite (u32_id d) by lia. rewrite (proj2 (Z.eqb_neq d 0)) by lia.
    change (Z.shiftl 1 32) with 4294967296.
    assert (0 <= n / 4294967296 < 4294967296)
      by (split; [apply Z.div_pos; lia|apply Z.div_lt_upper_bound; lia]).
    rewrite (u32_id (n / 4294967296)) by done. change (u32 n) with (n mod 4294967296).
    set (n1 := n / 4294967296) in *.
    pose proof (Z.mod_pos_bound n1 d ltac:(lia)). pose proof (Z.mod_pos_bound n 4294967296 ltac:(lia)).
    pose proof (Z.div_mod n1 d ltac:(lia)). pose proof (Z.div_pos n1 d ltac:(lia) ltac:(lia)).
    rewrite (u64_id (_ + _)) by (unfold in_u64; nia).
    rewrite divl_ok by nia. rewrite (short_division n d 4294967296) by lia. fold n1.
    assert (0 <= n / d < 18446744073709551616) as Hq
      by (split; [apply Z.div_pos; lia|apply Z.div_lt_upper_bound; nia]).
    rewrite (short_division n d 4294967296) in Hq by lia. fold n1 in Hq.
    assert (0 <= (4294967296 * (n1 mod d) + n mod 4294967296) / d) by (apply Z.div_pos; nia).
    rewrite (u64_id (4294967296 * (n1 / d))) by (unfold in_u64; lia).
    by rewrite u64_id by (unfold in_u64; lia).
  - assert (4294967296 <= d) as Hge.
    { destruct (Z.lt_ge_cases d 4294967296); [|done]. by rewrite Z.div_small in Hz by lia. }
    destruct (Z.ltb_spec n d) as [Hlt|Hle]; [by rewrite Z.div_small by lia|].
    assert (d / 4294967296 < 4294967296) by (apply Z.div_lt_upper_bound; lia).
    assert (0 <= d / 4294967296) by (apply Z.div_pos; lia).
    rewrite (u32_id (d / 4294967296)) by lia.
    destruct (normalised d (nlz (d / 4294967296)) Hd Hge eq_refl) as (Hs & Hv & Hvr).
    set (s := nlz _) in *. rewrite shiftr_div in Hv by lia.
    change (2 ^ 32) with 4294967296 in Hv. rewrite Hv. clear Hv.
    destruct (pow_split s Hs) as (HAB & HA & HB). set (v := d / 2 ^ (32 - s)) in *.
    pose proof (Z.div_mod n 2 ltac:(lia)). pose proof (Z.mod_pos_bound n 2 ltac:(lia)).
    rewrite divl_ok by lia. rewrite Z.shiftr_div_pow2 by lia.
    assert (n / 2 / v / 2 ^ (31 - s) = n / (v * 2 ^ (32 - s))) as ->.
    { rewrite Z.div_div, Z.div_div by lia. f_equal.
      replace (32 - s) with (Z.succ (31 - s)) by lia. rewrite Z.pow_succ_r by lia. ring. }
    f_equal. apply correct_estimate; [done|lia|done|].
    apply (estimate n d (2 ^ s)); [done|done|done|done|done|lia].
Qed.

(** ** Signed division *)

Lemma abs_u64 n : in_s64 n -> (if n >=? 0 then u64 n else u64 (- u64 n)) = Z.abs n.
Proof.
  intros Hn. unfold in_s64 in Hn. destruct (Z.geb_spec n 0) as [Hp|Hp].
  - rewrite u64_id by (unfold in_u64; lia). lia.
  - assert (u64 n = n + 18446744073709551616) as ->.
    { unfold u64. symmetry. apply (Z.mod_unique _ _ (-1)); lia. }
    unfold u64. symmetry. apply (Z.mod_unique _ _ (-1)); lia.
Qed.

(** [sdiv64] truncates towards zero, as C requires, for every quotient that
    is a 64-bit integer. *)
Lemma sdiv64_ok n d :
  in_s64 n -> in_s64 d -> d <> 0 -> ~ (n = -9223372036854775808 /\ d = -1) ->
  sdiv64 n d = Ok (Z.quot n d).
Proof.
  intros Hn Hd H0 Hov. unfold sdiv64. rewrite (abs_u64 n Hn), (abs_u64 d Hd).
  unfold in_s64 in *. rewrite udiv64_ok by (unfold in_u64; lia). f_equal.
  pose proof (Z.quot_div n d H0) as Hq.
  assert (0 <= Z.abs n / Z.abs d <= Z.abs n) as Hr
    by (split; [apply Z.div_pos; lia|apply Z.div_le_upper_bound; nia]).
  assert (Z.abs n / Z.abs d <= 9223372036854775807 \/ Z.abs n / Z.abs d = 9223372036854775808)
    as [Hs|Hs] by lia.
  - rewrite (s64_id (Z.abs n / _)) by (unfold in_s64; lia).
    rewrite s64_id by (unfold in_s64; lia).
    destruct (Z.ltb_spec n 0), (Z.ltb_spec d 0); cbn [Bool.eqb]; rewrite Hq.
    + rewrite !Z.sgn_neg by lia. lia.
    + rewrite (Z.sgn_neg n), (Z.sgn_pos d) by lia. lia.
    + destruct (Z.eq_dec n 0) as [->|]; [reflexivity|].
      rewrite (Z.sgn_pos n), (Z.sgn_neg d) by lia. lia.
    + destruct (Z.eq_dec n 0) as [->|]; [reflexivity|]. rewrite !Z.sgn_pos by lia. lia.
  - assert (n = -9223372036854775808) as -> by lia.
    assert (Z.abs d = 1) as Hd1.
    { destruct (Z.le_gt_cases (Z.abs d) 1); [lia|].
      pose proof (Z.div_lt_upper_bound (Z.abs (-9223372036854775808)) (Z.abs d) 9223372036854775808).
      lia. }
    assert (d = 1) as -> by lia. reflexivity.
Qed.

(** ** Remainders *)

(** The remainder routines return the low 32 bits of the remainder. *)
Theorem umod64_low n d :
  in_u64 n -> in_u64 d -> d <> 0 -> umod64 n d = Ok (u32 (n mod d)).
Proof.
  intros Hn Hd H0. unfold umod64. rewrite udiv64_ok by done. f_equal. f_equal.
  unfold in_u64 in *. pose proof (Z.div_mod n d H0). pose proof (Z.mod_pos_bound n d ltac:(lia)).
  assert (0 <= n / d) by (apply Z.div_pos; lia).
  rewrite (u64_id (d * (n / d))) by (unfold in_u64; nia).
  rewrite u64_id by (unfold in_u64; lia). lia.
Qed.

Theorem smod64_low n d :
  in_s64 n -> in_s64 d -> d <> 0 -> ~ (n = -9223372036854775808 /\ d = -1) ->
  smod64 n d = Ok (s32 (Z.rem n d)).
Proof.
  intros Hn Hd H0 Hov. unfold smod64. rewrite sdiv64_ok by done. f_equal. f_equal.
  unfold in_s64 in *. pose proof (Z.quot_rem n d H0) as Hqr.
  assert (Z.abs (Z.rem n d) <= Z.abs n) as Hb.
  { pose proof (Z.rem_bound_abs n d H0). pose proof (Z.quot_abs n d H0).
    pose proof (Z.rem_abs n d H0) as E. rewrite <- E.
    apply Z.rem_le; lia. }
  assert (0 <= n * Z.rem n d) by (rewrite Z.mul_comm; by apply Z.rem_sign_mul).
  assert (in_s64 (d * Z.quot n d)) as Hf by (unfold in_s64; nia).
  rewrite (s64_id (d * _)) by done. rewrite s64_id by (unfold in_s64; nia). lia.
Qed.

(** They are the remainders where these fit in 32 bits, and not beyond: the
    comment of [umod64] promises the remainder. *)
Theorem umod64_truncated :
  in_u64 4294967296 /\ in_u64 8589934592 /\
  4294967296 mod 8589934592 = 4294967296 /\ __umoddi3 4294967296 8589934592 = Ok 0.
Proof. split; [done|]. split; [done|]. split; vm_compute; reflexivity. Qed.

(** ** The division library of the compiler *)

(** C31: [udiv64], which gcc calls as [__udivdi3] for 64-bit unsigned division,
    returns the quotient for every pair of operands: the correction steps of
    the algorithm are right and its [divl] never overflows. *)
Theorem udivdi3_correct n d : in_u64 n -> in_u64 d -> d <> 0 -> __udivdi3 n d = Ok (n / d).
Proof. apply udiv64_ok. Qed.

Lemma udivdi3_correct_witness :
  __udivdi3 18446744073709551615 6442450944 = Ok (18446744073709551615 / 6442450944).
Proof. apply udivdi3_correct; [|unfold in_u64|]; unfold in_u64; lia. Defined.

(** Signed 64-bit division truncates towards zero, for every pair of operands
    whose quotient exists. *)
Theorem divdi3_correct n d :
  in_s64 n -> in_s64 d -> d <> 0 -> ~ (n = -9223372036854775808 /\ d = -1) ->
  __divdi3 n d = Ok (Z.quot n d).
Proof. apply sdiv64_ok. Qed.

Lemma divdi3_correct_witness : __divdi3 (-9223372036854775808) 7 = Ok (-1317624576693539401).
Proof.
  rewrite (divdi3_correct (-9223372036854775808) 7); [vm_compute; reflexivity|..]; unfold in_s64; lia.
Defined.

Lemma umod64_low_witness : umod64 18446744073709551615 6442450944 = Ok (u32 (18446744073709551615 mod 6442450944)).
Proof. apply umod64_low; unfold in_u64; lia. Defined.

End Arith64.
