(* ===== verification/CString.v ===== *)
(** * Byte and string functions (src/src/lib/string.c)

    Memory is a finite map from addresses to bytes; reading or writing
    outside it is a bad access.  A pointer is an address.  Loops that count a
    size down recurse on it; loops that look for a terminator take [fuel],
    and the theorems give the fuel that suffices. *)

From S2P Require Import Prelude.

Module CString.

Abbreviation mem := (gmap Z Z).

Definition load (p : Z) : M mem Z := gets_opt (fun m => m !! p).

Definition store (p v : Z) : M mem unit :=
  load p ;;; modify (fun m => <[p := u8 v]> m).

Definition nonnull (p size : Z) : bool := negb (p =? NULL) || (size =? 0).

(** ** Blocks *)

Fixpoint copy_up (n : nat) (dst src : Z) : M mem unit :=
  match n with
  | O => ret tt
  | S n' => c <- load src ;; store dst c ;;; copy_up n' (dst + 1) (src + 1)
  end.

Definition memcpy (dst src size : Z) : M mem Z :=
  ASSERT (nonnull dst size) ;;; ASSERT (nonnull src size) ;;;
  copy_up (Z.to_nat size) dst src ;;; ret dst.

Fixpoint copy_down (n : nat) (dst src : Z) : M mem unit :=
  match n with
  | O => ret tt
  | S n' => c <- load (src - 1) ;; store (dst - 1) c ;;; copy_down n' (dst - 1) (src - 1)
  end.

(** The local [dst] is what is returned, after the loop has moved it. *)
Definition memmove (dst src size : Z) : M mem Z :=
  ASSERT (nonnull dst size) ;;; ASSERT (nonnull src size) ;;;
  if dst <? src then copy_up (Z.to_nat size) dst src ;;; ret (dst + size)
  else copy_down (Z.to_nat size) (dst + size) (src + size) ;;; ret dst.

Fixpoint cmp_loop (n : nat) (a b : Z) : M mem Z :=
  match n with
  | O => ret 0
  | S n' =>
      x <- load a ;; y <- load b ;;
      if negb (x =? y) then ret (if x >? y then 1 else -1) else cmp_loop n' (a + 1) (b + 1)
  end.

Definition memcmp (a b size : Z) : M mem Z :=
  ASSERT (nonnull a size) ;;; ASSERT (nonnull b size) ;;; cmp_loop (Z.to_nat size) a b.

Fixpoint chr_loop (n : nat) (block ch : Z) : M mem Z :=
  match n with
  | O => ret NULL
  | S n' => x <- load block ;; if x =? ch then ret block else chr_loop n' (block + 1) ch
  end.

Definition memchr (block ch size : Z) : M mem Z :=
  ASSERT (nonnull block size) ;;; chr_loop (Z.to_nat size) block (u8 ch).

Fixpoint set_loop (n : nat) (dst value : Z) : M mem unit :=
  match n with
  | O => ret tt
  | S n' => store dst value ;;; set_loop n' (dst + 1) value
  end.

Definition memset (dst value size : Z) : M mem Z :=
  ASSERT (nonnull dst size) ;;; set_loop (Z.to_nat size) dst value ;;; ret dst.

(** ** Strings *)

Fixpoint strcmp_loop (fuel : nat) (a b : Z) : M mem Z :=
  match fuel with
  | O => fail Out_of_fuel
  | S fuel' =>
      x <- load a ;; y <- load b ;;
      if negb (x =? 0) && (x =? y) then strcmp_loop fuel' (a + 1) (b + 1)
      else ret (if x <? y then -1 else if x >? y then 1 else 0)
  end.

Definition strcmp (fuel : nat) (a b : Z) : M mem Z :=
  ASSERT (negb (a =? NULL)) ;;; ASSERT (negb (b =? NULL)) ;;; strcmp_loop fuel a b.

Fixpoint strchr_loop (fuel : nat) (string c : Z) : M mem Z :=
  match fuel with
  | O => fail Out_of_fuel
  | S fuel' =>
      x <- load string ;;
      if x =? c then ret string
      else if x =? 0 then ret NULL
      else strchr_loop fuel' (string + 1) c
  end.

Definition strchr (fuel : nat) (string c : Z) : M mem Z :=
  ASSERT (negb (string =? NULL)) ;;; strchr_loop fuel string (u8 c).

Fixpoint strlen_loop (fuel : nat) (p : Z) : M mem Z :=
  match fuel with
  | O => fail Out_of_fuel
  | S fuel' => x <- load p ;; if x =? 0 then ret p else strlen_loop fuel' (p + 1)
  end.

Definition strlen (fuel : nat) (string : Z) : M mem Z :=
  ASSERT (negb (string =? NULL)) ;;; p <- strlen_loop fuel string ;; ret (p - string).

Fixpoint strnlen_loop (fuel : nat) (string length maxlen : Z) : M mem Z :=
  match fuel with
  | O => fail Out_of_fuel
  | S fuel' =>
      x <- load (string + length) ;;
      if negb (x =? 0) && (length <? maxlen) then strnlen_loop fuel' string (length + 1) maxlen
      else ret length
  end.

Definition strnlen (fuel : nat) (string maxlen : Z) : M mem Z := strnlen_loop fuel string 0 maxlen.

(** [strcspn] stops at a character of [stop], [strspn] at one not in it. *)
Fixpoint span_loop (fuel : nat) (string set length : Z) (in_set : bool) : M mem Z :=
  match fuel with
  | O => fail Out_of_fuel
  | S fuel' =>
      x <- load (string + length) ;;
      if x =? 0 then ret length
      else
        r <- strchr fuel set x ;;
        if Bool.eqb (negb (r =? NULL)) in_set
        then span_loop fuel' string set (length + 1) in_set else ret length
  end.

Definition strcspn (fuel : nat) (string stop : Z) : M mem Z := span_loop fuel string stop 0 false.
Definition strspn (fuel : nat) (string skip : Z) : M mem Z := span_loop fuel string skip 0 true.

Fixpoint strpbrk (fuel : nat) (string stop : Z) : M mem Z :=
  match fuel with
  | O => fail Out_of_fuel
  | S fuel' =>
      x <- load string ;;
      if x =? 0 then ret NULL
      else r <- strchr fuel stop x ;;
           if negb (r =? NULL) then ret string else strpbrk fuel' (string + 1) stop
  end.

Fixpoint strrchr_loop (fuel : nat) (string c p : Z) : M mem Z :=
  match fuel with
  | O => fail Out_of_fuel
  | S fuel' =>
      x <- load string ;;
      if x =? 0 then ret p
      else strrchr_loop fuel' (string + 1) c (if x =? c then string else p)
  end.

Definition strrchr (fuel : nat) (string c : Z) : M mem Z := strrchr_loop fuel string (u8 c) NULL.

(** [n] is the number of positions left to try. *)
Fixpoint strstr_loop (n : nat) (haystack needle needle_len : Z) : M mem Z :=
  match n with
  | O => ret NULL
  | S n' =>
      r <- memcmp haystack needle needle_len ;;
      if r =? 0 then ret haystack else strstr_loop n' (haystack + 1) needle needle_len
  end.

Definition strstr (fuel : nat) (haystack needle : Z) : M mem Z :=
  haystack_len <- strlen fuel haystack ;;
  needle_len <- strlen fuel needle ;;
  if haystack_len >=? needle_len
  then strstr_loop (Z.to_nat (haystack_len - needle_len + 1)) haystack needle needle_len
  else ret NULL.

(** Skip characters in [delimiters]; [None] when the string ends first. *)
Fixpoint tok_skip (fuel : nat) (s delimiters : Z) : M mem (option Z * Z) :=
  match fuel with
  | O => fail Out_of_fuel
  | S fuel' =>
      x <- load s ;; r <- strchr fuel delimiters x ;;
      if negb (r =? NULL) then
        if x =? 0 then ret (None, s) else tok_skip fuel' (s + 1) delimiters
      else ret (Some s, s)
  end.

Fixpoint tok_end (fuel : nat) (s delimiters : Z) : M mem Z :=
  match fuel with
  | O => fail Out_of_fuel
  | S fuel' =>
      x <- load s ;; r <- strchr fuel delimiters x ;;
      if r =? NULL then tok_end fuel' (s + 1) delimiters else ret s
  end.

(** The token and the new value of [*save_ptr]. *)
Definition strtok_r (fuel : nat) (s delimiters save : Z) : M mem (Z * Z) :=
  ASSERT (negb (delimiters =? NULL)) ;;;
  let s := if s =? NULL then save else s in
  ASSERT (negb (s =? NULL)) ;;;
  ' (t, s1) <- tok_skip fuel s delimiters ;;
  match t with
  | None => ret (NULL, s1)
  | Some token =>
      e <- tok_end fuel token delimiters ;;
      x <- load e ;;
      if negb (x =? 0) then store e 0 ;;; ret (token, e + 1) else ret (token, e)
  end.

Definition strlcpy (fuel : nat) (dst src size : Z) : M mem Z :=
  ASSERT (negb (dst =? NULL)) ;;; ASSERT (negb (src =? NULL)) ;;;
  src_len <- strlen fuel src ;;
  (if size >? 0 then
     let dst_len := if src_len <? size - 1 then src_len else size - 1 in
     memcpy dst src dst_len ;;; store (dst + dst_len) 0
   else ret tt) ;;;
  ret src_len.

Definition strlcat (fuel : nat) (dst src size : Z) : M mem Z :=
  ASSERT (negb (dst =? NULL)) ;;; ASSERT (negb (src =? NULL)) ;;;
  src_len <- strlen fuel src ;;
  dst_len <- strlen fuel dst ;;
  (if (size >? 0) && (dst_len <? size) then
     let copy_cnt := if src_len <? size - dst_len - 1 then src_len else size - dst_len - 1 in
     memcpy (dst + dst_len) src copy_cnt ;;; store (dst + dst_len + copy_cnt) 0
   else ret tt) ;;;
  ret (src_len + dst_len).

(** ** Memory blocks *)

(** The byte at [p], and a block of them. *)
Definition is_byte (m : mem) (p : Z) : Prop := exists b, m !! p = Some b /\ 0 <= b < 256.

Definition block (m : mem) (p n : Z) : Prop := forall i, 0 <= i < n -> is_byte m (p + i).

(** Memory after the [n] bytes at [src] have been put at [dst]. *)
Definition copied (m : mem) (dst src n : Z) (m' : mem) : Prop :=
  forall a, m' !! a = if (dst <=? a) && (a <? dst + n) then m !! (src + (a - dst)) else m !! a.

Lemma u8_id b : 0 <= b < 256 -> u8 b = b.
Proof. intros H. unfold u8. by apply Z.mod_small. Qed.

Lemma load_ok m p b : m !! p = Some b -> load p m = Ok (b, m).
Proof. intros H. unfold load, gets_opt. by rewrite H. Qed.

Lemma store_ok m p b v :
  m !! p = Some b -> 0 <= v < 256 -> store p v m = Ok (tt, <[p := v]> m).
Proof. intros H Hv. unfold store. mrun (load_ok _ _ _ H). unfold modify. by rewrite u8_id. Qed.

Lemma block_tail m p n : block m p n -> block m (p + 1) (n - 1).
Proof. intros H i Hi. replace (p + 1 + i) with (p + (1 + i)) by lia. apply H. lia. Qed.

Lemma is_byte_insert m p v a : 0 <= v < 256 -> is_byte m a -> is_byte (<[p := v]> m) a.
Proof.
  intros Hv (b & Hb & Hr). unfold is_byte. destruct (decide (a = p)) as [->|].
  - exists v. by rewrite lookup_insert_eq.
  - exists b. by rewrite lookup_insert_ne.
Qed.

Ltac case_range := repeat
  match goal with
  | |- context [?a <=? ?b] => destruct (Z.leb_spec a b)
  | |- context [?a <? ?b] => destruct (Z.ltb_spec a b)
  end; cbn [andb].

(** Copying upwards is right when the destination does not lie above the
    source inside it. *)
Lemma copy_up_ok n dst src m :
  block m src (Z.of_nat n) -> block m dst (Z.of_nat n) ->
  dst < src \/ src + Z.of_nat n <= dst ->
  exists m', copy_up n dst src m = Ok (tt, m') /\ copied m dst src (Z.of_nat n) m'.
Proof.
  revert dst src m. induction n as [|n IH]; intros dst src m Hs Hd Ho.
  { exists m. split; [done|]. intros a. case_range; done || lia. }
  destruct (Hs 0 ltac:(lia)) as (c & Hc & Hcr). destruct (Hd 0 ltac:(lia)) as (x & Hx & _).
  rewrite Z.add_0_r in Hc, Hx. simpl. mrun (load_ok _ _ _ Hc). mrun (store_ok _ _ _ c Hx Hcr).
  replace (Z.of_nat n) with (Z.of_nat (S n) - 1) in IH by lia.
  destruct (IH (dst + 1) (src + 1) (<[dst := c]> m)) as (m' & Hr & Hm').
  { intros i Hi. apply is_byte_insert; [done|]. by apply (block_tail _ _ _ Hs). }
  { intros i Hi. apply is_byte_insert; [done|]. by apply (block_tail _ _ _ Hd). }
  { lia. }
  exists m'. split; [done|]. intros a. rewrite Hm'.
  case_range; try lia;
    first [rewrite lookup_insert_ne by lia; first [done | f_equal; lia]
          |replace a with dst by lia; rewrite lookup_insert_eq, Z.sub_diag, Z.add_0_r; done].
Qed.

(** Copying downwards is right when the destination does not lie below. *)
Lemma copy_down_ok n dst src m :
  block m src (Z.of_nat n) -> block m dst (Z.of_nat n) -> src <= dst ->
  exists m', copy_down n (dst + Z.of_nat n) (src + Z.of_nat n) m = Ok (tt, m') /\
    copied m dst src (Z.of_nat n) m'.
Proof.
  revert m. induction n as [|n IH]; intros m Hs Hd Ho.
  { exists m. split; [done|]. intros a. case_range; done || lia. }
  destruct (Hs (Z.of_nat n) ltac:(lia)) as (c & Hc & Hcr).
  destruct (Hd (Z.of_nat n) ltac:(lia)) as (x & Hx & _). simpl copy_down.
  replace (src + Z.of_nat (S n) - 1) with (src + Z.of_nat n) by lia.
  replace (dst + Z.of_nat (S n) - 1) with (dst + Z.of_nat n) by lia.
  mrun (load_ok _ _ _ Hc). mrun (store_ok _ _ _ c Hx Hcr).
  destruct (IH (<[dst + Z.of_nat n := c]> m)) as (m' & Hr & Hm').
  { intros i Hi. apply is_byte_insert; [done|]. apply Hs. lia. }
  { intros i Hi. apply is_byte_insert; [done|]. apply Hd. lia. }
  { done. }
  exists m'. split; [done|]. intros a. rewrite Hm'.
  case_range; try lia;
    first [rewrite lookup_insert_ne by lia; done
          |replace a with (dst + Z.of_nat n) by lia; rewrite lookup_insert_eq;
           replace (src + (dst + Z.of_nat n - dst)) with (src + Z.of_nat n) by lia; done].
Qed.

(** [memmove] copies whatever the overlap.  It returns its own moving
    pointer: one past the destination when it has copied upwards. *)
Theorem memmove_ok dst src size m :
  0 <= size -> dst <> NULL -> src <> NULL -> block m src size -> block m dst size ->
  exists m', memmove dst src size m = Ok (if dst <? src then dst + size else dst, m') /\
    copied m dst src size m'.
Proof.
  intros H0 Hd Hs Hbs Hbd. unfold memmove, nonnull.
  rewrite (proj2 (Z.eqb_neq _ _) Hd), (proj2 (Z.eqb_neq _ _) Hs). cbn [negb orb ASSERT].
  unfold bind at 1, ret at 1. unfold bind at 1, ret at 1.
  rewrite <- (Z2Nat.id size) in Hbs, Hbd by lia.
  destruct (Z.ltb_spec dst src).
  - destruct (copy_up_ok (Z.to_nat size) dst src m Hbs Hbd) as (m' & Hr & Hm'); [by left|].
    mrun Hr. exists m'. split; [done|]. by rewrite Z2Nat.id in Hm' by lia.
  - destruct (copy_down_ok (Z.to_nat size) dst src m Hbs Hbd) as (m' & Hr & Hm'); [lia|].
    rewrite Z2Nat.id in Hr, Hm' by lia. mrun Hr. by exists m'.
Qed.

Lemma memcpy_ok dst src size m :
  0 <= size -> dst <> NULL -> src <> NULL -> block m src size -> block m dst size ->
  dst < src \/ src + size <= dst ->
  exists m', memcpy dst src size m = Ok (dst, m') /\ copied m dst src size m'.
Proof.
  intros H0 Hd Hs Hbs Hbd Ho. unfold memcpy, nonnull.
  rewrite (proj2 (Z.eqb_neq _ _) Hd), (proj2 (Z.eqb_neq _ _) Hs). cbn [negb orb ASSERT].
  unfold bind at 1, ret at 1. unfold bind at 1, ret at 1.
  rewrite <- (Z2Nat.id size) in Hbs, Hbd by lia.
  destruct (copy_up_ok (Z.to_nat size) dst src m Hbs Hbd) as (m' & Hr & Hm'); [lia|].
  mrun Hr. exists m'. split; [done|]. by rewrite Z2Nat.id in Hm' by lia.
Qed.

(** ** Strings in memory *)

(** The bytes [s] at [p], followed by a null byte. *)
Fixpoint cstr (m : mem) (p : Z) (s : list Z) : Prop :=
  match s with
  | [] => m !! p = Some 0
  | c :: s' => m !! p = Some c /\ 0 < c < 256 /\ cstr m (p + 1) s'
  end.

(** A string reads the same in a memory that agrees on its bytes. *)
Lemma cstr_agree m m' p s :
  (forall a, p <= a <= p + Z.of_nat (length s) -> m' !! a = m !! a) -> cstr m p s -> cstr m' p s.
Proof.
  revert p. induction s as [|c s IH]; simpl; intros p Ha H.
  - rewrite Ha by lia. done.
  - destruct H as (H1 & H2 & H3). split; [rewrite Ha by lia; done|]. split; [done|].
    apply IH; [|done]. intros a ?. apply Ha. lia.
Qed.

Lemma cstr_block m p s : cstr m p s -> block m p (Z.of_nat (length s) + 1).
Proof.
  revert p. induction s as [|c s IH]; simpl; intros p H i Hi.
  - replace (p + i) with p by lia. exists 0. done.
  - destruct H as (H1 & H2 & H3). destruct (Z.eq_dec i 0) as [->|].
    + rewrite Z.add_0_r. exists c. split; [done|lia].
    + replace (p + i) with (p + 1 + (i - 1)) by lia. apply IH; [done|lia].
Qed.

Lemma cstr_app m p s t :
  cstr m p (s ++ t) <->
  (forall i c, s !! i = Some c -> m !! (p + Z.of_nat i) = Some c /\ 0 < c < 256) /\
  cstr m (p + Z.of_nat (length s)) t.
Proof.
  revert p. induction s as [|x s IH]; simpl; intros p.
  - rewrite Z.add_0_r. split; [intros H; split; [by intros i c|done]|by intros [_ H]].
  - rewrite IH. replace (p + 1 + Z.of_nat (length s)) with (p + Z.of_nat (S (length s))) by lia.
    split.
    + intros (H1 & H2 & H3 & H4). split; [|done]. intros [|i] c Hc.
      * injection Hc as <-. by rewrite Z.add_0_r.
      * replace (p + Z.of_nat (S i)) with (p + 1 + Z.of_nat i) by lia. by apply H3.
    + intros (H1 & H2). split; [|split; [|split; [|done]]].
      * rewrite <- (Z.add_0_r p). by apply (H1 0%nat).
      * by apply (H1 0%nat).
      * intros i c Hc. replace (p + 1 + Z.of_nat i) with (p + Z.of_nat (S i)) by lia. by apply H1.
Qed.

Lemma cstr_nth m p s i c :
  cstr m p s -> s !! i = Some c -> m !! (p + Z.of_nat i) = Some c /\ 0 < c < 256.
Proof.
  intros H. rewrite <- (app_nil_r s) in H. apply cstr_app in H as [H _]. apply H.
Qed.

Lemma cstr_end m p s : cstr m p s -> m !! (p + Z.of_nat (length s)) = Some 0.
Proof. intros H. rewrite <- (app_nil_r s) in H. by apply cstr_app in H as [_ H]. Qed.

Lemma assert_nonnull {A} p (k : M mem A) m :
  p <> NULL -> (ASSERT (negb (p =? NULL)) ;;; k) m = k m.
Proof. intros H. by rewrite (proj2 (Z.eqb_neq _ _) H). Qed.

Lemma strlen_loop_ok fuel m p s :
  cstr m p s -> (length s < fuel)%nat -> strlen_loop fuel p m = Ok (p + Z.of_nat (length s), m).
Proof.
  revert p s. induction fuel as [|fuel IH]; intros p s H Hf; [lia|].
  destruct s as [|c s]; simpl in H |- *.
  - mrun (load_ok _ _ _ H). unfold ret. by rewrite Z.add_0_r.
  - destruct H as (H1 & H2 & H3). mrun (load_ok _ _ _ H1).
    rewrite (proj2 (Z.eqb_neq c 0)) by lia. rewrite (IH _ s) by (done || simpl in Hf; lia).
    f_equal. f_equal. lia.
Qed.

(** [strlen] returns the number of bytes before the null byte. *)
Lemma strlen_ok fuel m p s :
  cstr m p s -> p <> NULL -> (length s < fuel)%nat ->
  strlen fuel p m = Ok (Z.of_nat (length s), m).
Proof.
  intros H Hp Hf. unfold strlen. rewrite assert_nonnull by done.
  mrun (strlen_loop_ok _ _ _ _ H Hf). unfold ret. f_equal. f_equal. lia.
Qed.

(** Lexicographic comparison of byte strings. *)
Fixpoint lexcmp (s t : list Z) : Z :=
  match s, t with
  | [], [] => 0
  | [], _ :: _ => -1
  | _ :: _, [] => 1
  | x :: s', y :: t' => if x =? y then lexcmp s' t' else if x <? y then -1 else 1
  end.

Lemma lexcmp_eq s t : lexcmp s t = 0 <-> s = t.
Proof.
  revert t. induction s as [|x s IH]; intros [|y t]; simpl; [done..|].
  destruct (Z.eqb_spec x y) as [->|Hne].
  - rewrite IH. split; [by intros ->|by intros [= ->]].
  - destruct (x <? y); split; [done|congruence|done|congruence].
Qed.

Lemma strcmp_loop_ok fuel m a b s t :
  cstr m a s -> cstr m b t -> (length s < fuel)%nat -> strcmp_loop fuel a b m = Ok (lexcmp s t, m).
Proof.
  revert a b s t. induction fuel as [|fuel IH]; intros a b s t Ha Hb Hf; [lia|].
  destruct s as [|x s], t as [|y t]; simpl in Ha, Hb |- *.
  - by mrun (load_ok _ _ _ Ha); mrun (load_ok _ _ _ Hb).
  - destruct Hb as (Hb & Hy & _). mrun (load_ok _ _ _ Ha). mrun (load_ok _ _ _ Hb).
    cbn [negb Z.eqb andb]. by rewrite (proj2 (Z.ltb_lt 0 y)) by lia.
  - destruct Ha as (Ha & Hx & _). mrun (load_ok _ _ _ Ha). mrun (load_ok _ _ _ Hb).
    rewrite (proj2 (Z.eqb_neq x 0)) by lia. cbn [negb andb].
    rewrite (proj2 (Z.ltb_ge x 0)), Z.gtb_ltb, (proj2 (Z.ltb_lt 0 x)) by lia. done.
  - destruct Ha as (Ha & Hx & Ha'), Hb as (Hb & Hy & Hb').
    mrun (load_ok _ _ _ Ha). mrun (load_ok _ _ _ Hb).
    rewrite (proj2 (Z.eqb_neq x 0)) by lia. cbn [negb andb].
    destruct (Z.eqb_spec x y) as [->|Hne]; [apply IH; [done|done|simpl in Hf; lia]|].
    destruct (Z.ltb_spec x y); [done|]. rewrite Z.gtb_ltb, (proj2 (Z.ltb_lt y x)) by lia. done.
Qed.

(** [strcmp] is the comparison of byte strings. *)
Theorem strcmp_ok fuel m a b s t :
  cstr m a s -> cstr m b t -> a <> NULL -> b <> NULL -> (length s < fuel)%nat ->
  strcmp fuel a b m = Ok (lexcmp s t, m).
Proof.
  intros Ha Hb Ha0 Hb0 Hf. unfold strcmp. rewrite !assert_nonnull by done.
  by apply strcmp_loop_ok.
Qed.

(** [strlcpy] into a buffer apart from the source: at most [size - 1] bytes
    and always a terminator; the result is the source's length. *)
Theorem strlcpy_ok fuel m dst src size s :
  cstr m src s -> block m dst size -> dst <> NULL -> src <> NULL -> 0 < size ->
  (length s < fuel)%nat ->
  dst + size <= src \/ src + Z.of_nat (length s) < dst ->
  exists m', strlcpy fuel dst src size m = Ok (Z.of_nat (length s), m') /\
    cstr m' dst (take (Z.to_nat (size - 1)) s) /\
    forall a, a < dst \/ dst + size <= a -> m' !! a = m !! a.
Proof.
  intros Hs Hb Hd0 Hs0 Hsz Hf Hov. unfold strlcpy. rewrite !assert_nonnull by done.
  mrun (strlen_ok _ _ _ _ Hs Hs0 Hf). rewrite Z.gtb_ltb, (proj2 (Z.ltb_lt 0 size)) by lia.
  set (n := if Z.of_nat (length s) <? size - 1 then Z.of_nat (length s) else size - 1).
  assert (n = Z.min (Z.of_nat (length s)) (size - 1)) as Hn.
  { unfold n. destruct (Z.ltb_spec (Z.of_nat (length s)) (size - 1)); lia. }
  destruct (memcpy_ok dst src n m) as (m1 & Hr & Hm1); [lia|done|done| | |lia|].
  { intros i Hi. apply (cstr_block _ _ _ Hs). lia. }
  { intros i Hi. apply Hb. lia. }
  unfold bind at 1. unfold bind at 1. rewrite Hr.
  destruct (Hb n ltac:(lia)) as (x & Hx & _).
  assert (m1 !! (dst + n) = Some x) as Hx1 by (rewrite Hm1; case_range; done || lia).
  rewrite (store_ok _ _ _ 0 Hx1) by lia. exists (<[dst + n := 0]> m1). split; [done|].
  split.
  - assert (length (take (Z.to_nat (size - 1)) s) = Z.to_nat n) as Hlen
      by (rewrite length_take; lia).
    rewrite <- (app_nil_r (take _ s)). apply cstr_app. split.
    + intros i c Hi. pose proof (lookup_lt_Some _ _ _ Hi) as Hlt. rewrite Hlen in Hlt.
      apply lookup_take_Some in Hi as [Hi _]. destruct (cstr_nth _ _ _ _ _ Hs Hi) as [Hc Hr'].
      rewrite lookup_insert_ne, Hm1 by lia. split; [|done]. case_range; try lia.
      replace (src + (dst + Z.of_nat i - dst)) with (src + Z.of_nat i) by lia. done.
    + rewrite Hlen, Z2Nat.id by lia. apply lookup_insert_eq.
  - intros a Ha. rewrite lookup_insert_ne, Hm1 by lia. case_range; done || lia.
Qed.

(** ** Tokens *)

Definition memb (c : Z) (s : list Z) : bool := existsb (Z.eqb c) s.

Lemma strchr_loop_ok fuel m p s c :
  cstr m p s -> 0 < p -> (length s < fuel)%nat ->
  exists r, strchr_loop fuel p c m = Ok (r, m) /\ (r =? NULL) = negb ((c =? 0) || memb c s).
Proof.
  revert p s. induction fuel as [|fuel IH]; intros p s H Hp Hf; [lia|].
  destruct s as [|x s]; simpl in H |- *.
  - mrun (load_ok _ _ _ H). rewrite (Z.eqb_sym c). destruct (Z.eqb_spec 0 c).
    + exists p. split; [done|]. simpl. apply Z.eqb_neq. unfold NULL. lia.
    + by exists NULL.
  - destruct H as (H1 & H2 & H3). mrun (load_ok _ _ _ H1). rewrite (Z.eqb_sym c x).
    destruct (Z.eqb_spec x c) as [->|].
    + exists p. split; [done|]. rewrite orb_true_r. apply Z.eqb_neq. unfold NULL. lia.
    + rewrite (proj2 (Z.eqb_neq x 0)) by lia. apply IH; [done|lia|simpl in Hf; lia].
Qed.

Lemma strchr_ok fuel m p s c :
  cstr m p s -> 0 < p -> 0 <= c < 256 -> (length s < fuel)%nat ->
  exists r, strchr fuel p c m = Ok (r, m) /\ (r =? NULL) = negb ((c =? 0) || memb c s).
Proof.
  intros H Hp Hc Hf. unfold strchr. rewrite assert_nonnull by (unfold NULL; lia).
  rewrite u8_id by done. by apply strchr_loop_ok.
Qed.

(** The longest prefix whose elements satisfy [f], and the rest. *)
Fixpoint span (f : Z -> bool) (s : list Z) : list Z * list Z :=
  match s with
  | [] => ([], [])
  | x :: s' => if f x then let '(a, b) := span f s' in (x :: a, b) else ([], s)
  end.

Lemma span_app f s a b : span f s = (a, b) -> s = a ++ b.
Proof.
  revert a b. induction s as [|x s IH]; simpl; intros a b H; [by injection H as <- <-|].
  destruct (f x); [|by injection H as <- <-].
  destruct (span f s) as [a' b'] eqn:E. injection H as <- <-. simpl. f_equal. by apply IH.
Qed.

Section tokens.
Context (m : mem) (d : Z) (ds : list Z) (Hd : cstr m d ds) (Hd0 : 0 < d).

Lemma tok_skip_ok fuel s str pre rest :
  cstr m s str -> 0 < s -> (length str + length ds < fuel)%nat ->
  span (fun c => memb c ds) str = (pre, rest) ->
  tok_skip fuel s d m =
    Ok ((match rest with [] => None | _ => Some (s + Z.of_nat (length pre)) end,
         s + Z.of_nat (length pre)), m).
Proof.
  revert s str pre rest. induction fuel as [|fuel IH]; intros s str pre rest H Hs Hf Hsp; [lia|].
  destruct str as [|x str]; simpl in H, Hsp |- *.
  - injection Hsp as <- <-. mrun (load_ok _ _ _ H).
    destruct (strchr_ok (S fuel) m d ds 0 Hd Hd0) as (r & Hr & Hn); [lia|simpl in Hf; lia|].
    mrun Hr. rewrite Hn. cbn [Z.eqb orb negb length Z.of_nat]. by rewrite Z.add_0_r.
  - destruct H as (H1 & H2 & H3). mrun (load_ok _ _ _ H1).
    destruct (strchr_ok (S fuel) m d ds x Hd Hd0) as (r & Hr & Hn); [lia|simpl in Hf; lia|].
    mrun Hr. rewrite Hn. rewrite (proj2 (Z.eqb_neq x 0)) by lia. cbn [orb].
    destruct (memb x ds); cbn [negb].
    + destruct (span (fun c => memb c ds) str) as [a b] eqn:E. injection Hsp as <- <-.
      rewrite (IH (s + 1) str a b) by (done || lia || simpl in Hf; lia).
      simpl length. replace (s + 1 + Z.of_nat (length a)) with (s + Z.of_nat (S (length a))) by lia.
      done.
    + injection Hsp as <- <-. simpl. by rewrite Z.add_0_r.
Qed.

Lemma tok_end_ok fuel s str tok rest :
  cstr m s str -> 0 < s -> (length str + length ds < fuel)%nat ->
  span (fun c => negb (memb c ds)) str = (tok, rest) ->
  tok_end fuel s d m = Ok (s + Z.of_nat (length tok), m).
Proof.
  revert s str tok rest. induction fuel as [|fuel IH]; intros s str tok rest H Hs Hf Hsp; [lia|].
  destruct str as [|x str]; simpl in H, Hsp |- *.
  - injection Hsp as <- <-. mrun (load_ok _ _ _ H).
    destruct (strchr_ok (S fuel) m d ds 0 Hd Hd0) as (r & Hr & Hn); [lia|simpl in Hf; lia|].
    mrun Hr. rewrite Hn. cbn [Z.eqb orb negb length Z.of_nat]. by rewrite Z.add_0_r.
  - destruct H as (H1 & H2 & H3). mrun (load_ok _ _ _ H1).
    destruct (strchr_ok (S fuel) m d ds x Hd Hd0) as (r & Hr & Hn); [lia|simpl in Hf; lia|].
    mrun Hr. rewrite Hn. rewrite (proj2 (Z.eqb_neq x 0)) by lia. cbn [orb].
    destruct (memb x ds); cbn [negb] in *.
    + injection Hsp as <- <-. simpl. by rewrite Z.add_0_r.
    + destruct (span (fun c => negb (memb c ds)) str) as [a b] eqn:E. injection Hsp as <- <-.
      rewrite (IH (s + 1) str a b) by (done || lia || simpl in Hf; lia).
      simpl length. by replace (s + 1 + Z.of_nat (length a)) with (s + Z.of_nat (S (length a))) by lia.
Qed.

(** The same, with the position that is saved. *)
Lemma strtok_r_run fuel s save str pre rest tok rest2 :
  let p := if s =? NULL then save else s in
  cstr m p str -> 0 < p ->
  d + Z.of_nat (length ds) < p \/ p + Z.of_nat (length str) < d ->
  (length str + length ds < fuel)%nat ->
  span (fun c => memb c ds) str = (pre, rest) ->
  span (fun c => negb (memb c ds)) rest = (tok, rest2) ->
  exists r sv m', strtok_r fuel s d save m = Ok ((r, sv), m') /\
    (forall a, a < p \/ p + Z.of_nat (length str) < a -> m' !! a = m !! a) /\
    match rest with
    | [] => r = NULL /\ m' = m /\ cstr m' sv []
    | _ => r = p + Z.of_nat (length pre) /\ cstr m' r tok /\ cstr m' sv (tail rest2) /\
           sv + Z.of_nat (length (tail rest2)) = p + Z.of_nat (length str)
    end.
Proof.
  intros p Hp Hp0 Hov Hf H1 H2. unfold strtok_r.
  rewrite assert_nonnull by (unfold NULL; lia). fold p.
  rewrite assert_nonnull by (unfold NULL; lia).
  mrun (tok_skip_ok fuel p str pre rest Hp Hp0 Hf H1).
  pose proof (span_app _ _ _ _ H1) as Hs1. pose proof (span_app _ _ _ _ H2) as Hs2.
  assert (length str = length pre + length rest)%nat as Hl1 by (rewrite Hs1; apply length_app).
  rewrite Hs1 in Hp. apply cstr_app in Hp as [_ Hrest].
  set (q := p + Z.of_nat (length pre)) in *.
  destruct rest as [|c rest'] eqn:Hrs.
  { exists NULL, q, m. split; [done|]. split; [done|]. split; [done|]. split; [done|]. exact Hrest. }
  rewrite <- Hrs in *. clear Hrs c rest'.
  assert (length rest = length tok + length rest2)%nat as Hl2 by (rewrite Hs2; apply length_app).
  mrun (tok_end_ok fuel q rest tok rest2 Hrest ltac:(lia) ltac:(lia) H2).
  pose proof Hrest as Hr0. rewrite Hs2 in Hr0. apply cstr_app in Hr0 as [Htok Hend].
  set (e := q + Z.of_nat (length tok)) in *.
  destruct rest2 as [|x rest2]; simpl in Hend.
  - mrun (load_ok _ _ _ Hend). cbn [negb Z.eqb].
    exists q, e, m. split; [done|]. split; [done|]. split; [done|].
    rewrite Hs2, app_nil_r in Hrest. split; [done|]. split; [done|]. simpl in Hl2 |- *. unfold e, q. lia.
  - destruct Hend as (Hx & Hxr & Htail). mrun (load_ok _ _ _ Hx).
    rewrite (proj2 (Z.eqb_neq x 0)) by lia. cbn [negb].
    mrun (store_ok _ _ _ 0 Hx ltac:(lia)).
    exists q, (e + 1), (<[e := 0]> m). simpl in Hl2. split; [done|].
    split; [intros a Ha; rewrite lookup_insert_ne; [done|lia]|]. split; [done|]. split.
    + rewrite <- (app_nil_r tok). apply cstr_app. split; [|apply lookup_insert_eq].
      intros i y Hi. pose proof (lookup_lt_Some _ _ _ Hi).
      rewrite lookup_insert_ne by lia. by apply Htok.
    + simpl. split; [|unfold e, q; lia].
      eapply cstr_agree; [|exact Htail]. intros a Ha. rewrite lookup_insert_ne; [done|lia].
Qed.

(** [strtok_r] on a string [str]: the delimiters before the token are
    skipped; with nothing left it returns a null pointer and the position of
    the terminator; otherwise the token is the longest run of other bytes,
    made a string of its own, and the saved position holds what follows the
    delimiter that ended it. *)
Theorem strtok_r_ok fuel s save str pre rest tok rest2 :
  let p := if s =? NULL then save else s in
  cstr m p str -> 0 < p ->
  d + Z.of_nat (length ds) < p \/ p + Z.of_nat (length str) < d ->
  (length str + length ds < fuel)%nat ->
  span (fun c => memb c ds) str = (pre, rest) ->
  span (fun c => negb (memb c ds)) rest = (tok, rest2) ->
  exists r sv m', strtok_r fuel s d save m = Ok ((r, sv), m') /\
    (forall a, a < p \/ p + Z.of_nat (length str) < a -> m' !! a = m !! a) /\
    match rest with
    | [] => r = NULL /\ m' = m /\ cstr m' sv []
    | _ => r = p + Z.of_nat (length pre) /\ cstr m' r tok /\ cstr m' sv (tail rest2)
    end.
Proof.
  intros p Hp Hp0 Hov Hf H1 H2.
  destruct (strtok_r_run fuel s save str pre rest tok rest2 Hp Hp0 Hov Hf H1 H2) as (r & sv & m' & Hr & Hm & Hres).
  exists r, sv, m'. split; [done|]. split; [done|]. destruct rest; [done|]. by destruct Hres as (? & ? & ? & _).
Qed.

End tokens.

(** ** Witnesses *)

(** A memory that holds the bytes [bs] from [p] on. *)
Definition poke (p : Z) (bs : list Z) (m : mem) : mem :=
  list_to_map (imap (fun i b => (p + Z.of_nat i, b)) bs) ∪ m.

(** "a b" at 16, "ab" at 32, " " at 48, and eight bytes of buffer at 64. *)
Definition sample : mem :=
  poke 16 [97; 32; 98; 0] (poke 32 [97; 98; 0] (poke 48 [32; 0] (poke 64 (replicate 8 255) ∅))).

Fixpoint blockb (m : mem) (p : Z) (n : nat) : bool :=
  match n with
  | O => true
  | S n' => match m !! p with Some b => (0 <=? b) && (b <? 256) | None => false end && blockb m (p + 1) n'
  end.

Lemma blockb_ok m p n : 0 <= n -> blockb m p (Z.to_nat n) = true -> block m p n.
Proof.
  intros Hn. rewrite <- (Z2Nat.id n Hn) at 2. generalize (Z.to_nat n) as k. clear n Hn. intros k.
  revert p. induction k as [|k IH]; intros p; simpl; [intros _ i Hi; lia|].
  rewrite andb_true_iff. intros [Hb Hr] i Hi. destruct (decide (i = 0)) as [->|Hne].
  - rewrite Z.add_0_r. destruct (m !! p) as [b|] eqn:E; [|done].
    rewrite andb_true_iff, Z.leb_le, Z.ltb_lt in Hb. by exists b.
  - specialize (IH _ Hr (i - 1) ltac:(lia)). by replace (p + i) with (p + 1 + (i - 1)) by lia.
Qed.

#[export] Instance cstr_dec m p s : Decision (cstr m p s).
Proof. revert p. induction s as [|c s IH]; intros p; simpl; apply _. Defined.

Lemma memmove_ok_witness :
  exists m', memmove 66 64 5 sample = Ok (66, m') /\ copied sample 66 64 5 m'.
Proof.
  apply (memmove_ok 66 64 5 sample).
  - lia.
  - discriminate.
  - discriminate.
  - apply blockb_ok; [lia|vm_compute; reflexivity].
  - apply blockb_ok; [lia|vm_compute; reflexivity].
Defined.

Lemma strcmp_ok_witness : strcmp 5 16 32 sample = Ok (-1, sample).
Proof.
  apply (strcmp_ok 5 sample 16 32 [97; 32; 98] [97; 98]).
  - apply (bool_decide_unpack _). vm_compute. exact I.
  - apply (bool_decide_unpack _). vm_compute. exact I.
  - discriminate.
  - discriminate.
  - simpl. lia.
Defined.

Lemma strlcpy_ok_witness :
  exists m', strlcpy 5 64 16 3 sample = Ok (3, m') /\ cstr m' 64 [97; 32].
Proof.
  destruct (strlcpy_ok 5 sample 64 16 3 [97; 32; 98]) as (m' & H1 & H2 & _).
  - apply (bool_decide_unpack _). vm_compute. exact I.
  - apply blockb_ok; [lia|vm_compute; reflexivity].
  - discriminate.
  - discriminate.
  - lia.
  - simpl. lia.
  - simpl. lia.
  - exists m'. split; [exact H1|exact H2].
Defined.

Lemma strtok_r_ok_witness :
  exists r sv m', strtok_r 6 16 48 NULL sample = Ok ((r, sv), m') /\
    r = 16 /\ cstr m' r [97] /\ cstr m' sv [98].
Proof.
  destruct (strtok_r_ok sample 48 [32]) with
    (fuel := 6%nat) (s := 16) (save := NULL) (str := [97; 32; 98]) (pre := @nil Z)
    (rest := [97; 32; 98]) (tok := [97]) (rest2 := [32; 98]) as (r & sv & m' & H1 & _ & H2 & H3 & H4).
  - apply (bool_decide_unpack _). vm_compute. exact I.
  - lia.
  - apply (bool_decide_unpack _). vm_compute. exact I.
  - simpl. lia.
  - simpl. lia.
  - simpl. lia.
  - reflexivity.
  - reflexivity.
  - exists r, sv, m'. split; [exact H1|]. split; [exact H2|]. split; [exact H3|exact H4].
Defined.

End CString.
