(* ===== verification/StdLib.v ===== *)
(** * Number parsing, sorting and searching (src/src/lib/stdlib.c)

    [atoi], the heap sort behind [qsort], and binary search.  An array is
    the sequence of its elements, each of which is its [size] bytes; the
    1-based indexes of the C code are kept. *)

From S2P Require Import Prelude DListOps.
Import DListOps.

Module StdLib.

(** ** atoi *)

Definition isspace (c : Z) : bool :=
  (c =? 32) || (c =? 12) || (c =? 10) || (c =? 13) || (c =? 9) || (c =? 11).

Definition isdigit (c : Z) : bool := (c >=? 48) && (c <=? 57).

(** A C string is given as the bytes before its terminator. *)
Fixpoint skip_spaces (s : list Z) : list Z :=
  match s with
  | c :: s' => if isspace c then skip_spaces s' else s
  | [] => []
  end.

Fixpoint parse_digits (value : Z) (s : list Z) : Z :=
  match s with
  | c :: s' => if isdigit c then parse_digits (s32 (s32 (value * 10) - (c - 48))) s' else value
  | [] => value
  end.

Definition atoi (s : list Z) : Z :=
  let s := skip_spaces s in
  let '(negative, s) :=
    match s with
    | c :: s' => if c =? 43 then (false, s') else if c =? 45 then (true, s') else (false, s)
    | [] => (false, s)
    end in
  let value := parse_digits 0 s in
  if negative then value else s32 (- value).

(** ** Heap sort *)

Section sort.
Context {E : Type} `{!Inhabited E} (compare : E -> E -> Z).

(** The element with 1-based index [i]. *)
Definition el (a : list E) (i : nat) : E := a !!! (i - 1)%nat.

Definition do_swap (a : list E) (a_idx b_idx : nat) : list E :=
  <[(a_idx - 1)%nat := el a b_idx]> (<[(b_idx - 1)%nat := el a a_idx]> a).

Definition do_compare (a : list E) (a_idx b_idx : nat) : Z := compare (el a a_idx) (el a b_idx).

Fixpoint heapify (fuel : nat) (a : list E) (i cnt : nat) : res (list E) :=
  match fuel with
  | O => Err Out_of_fuel
  | S fuel' =>
      let left := (2 * i)%nat in
      let right := (2 * i + 1)%nat in
      let max := i in
      let max := if (left <=? cnt)%nat && (do_compare a left max >? 0) then left else max in
      let max := if (right <=? cnt)%nat && (do_compare a right max >? 0) then right else max in
      if (max =? i)%nat then Ok a else heapify fuel' (do_swap a i max) max cnt
  end.

Fixpoint build_heap (i : nat) (a : list E) (cnt : nat) : res (list E) :=
  match i with
  | O => Ok a
  | S i' =>
      match heapify (S cnt) a i cnt with
      | Ok a' => build_heap i' a' cnt
      | Err e => Err e
      end
  end.

(** [n] counts [i] down from [n + 1] to 2. *)
Fixpoint sort_heap (n : nat) (a : list E) : res (list E) :=
  match n with
  | O => Ok a
  | S n' =>
      let i := S n in
      match heapify (S i) (do_swap a 1 i) 1 (i - 1) with
      | Ok a' => sort_heap n' a'
      | Err e => Err e
      end
  end.

Definition sort (a : list E) (cnt : nat) : res (list E) :=
  match build_heap (cnt / 2) a cnt with
  | Ok a' => sort_heap (cnt - 1) a'
  | Err e => Err e
  end.

(** [qsort] passes [compare] through [compare_thunk]. *)
Definition qsort (a : list E) (cnt : nat) : res (list E) := sort a cnt.

(** ** Binary search *)

(** [first] and [last] are element indexes; the result is the index of a
    match. *)
Fixpoint binary_search_loop (fuel : nat) (key : E) (a : list E) (first last : nat)
  : res (option nat) :=
  match fuel with
  | O => Err Out_of_fuel
  | S fuel' =>
      if (first <? last)%nat then
        let range := (last - first)%nat in
        let middle := (first + range / 2)%nat in
        match a !! middle with
        | None => Err Bad_access
        | Some x =>
            let cmp := compare key x in
            if cmp <? 0 then binary_search_loop fuel' key a first middle
            else if cmp >? 0 then binary_search_loop fuel' key a (S middle) last
            else Ok (Some middle)
        end
      else Ok None
  end.

Definition binary_search (key : E) (a : list E) (cnt : nat) : res (option nat) :=
  binary_search_loop (S cnt) key a 0 cnt.

Definition bsearch (key : E) (a : list E) (cnt : nat) : res (option nat) := binary_search key a cnt.

(** ** Swapping *)

Lemma do_swap_length a i j : length (do_swap a i j) = length a.
Proof. unfold do_swap. by rewrite !length_insert. Qed.

Lemma el_insert a i k x :
  (1 <= i <= length a)%nat -> (1 <= k)%nat ->
  el (<[(i - 1)%nat := x]> a) k = if (k =? i)%nat then x else el a k.
Proof.
  intros Hi Hk. unfold el. destruct (Nat.eqb_spec k i) as [->|Hne].
  - rewrite list_lookup_total_insert_eq by lia. done.
  - rewrite list_lookup_total_insert_ne by lia. done.
Qed.

Lemma el_swap a i j k :
  (1 <= i <= length a)%nat -> (1 <= j <= length a)%nat -> (1 <= k)%nat ->
  el (do_swap a i j) k = if (k =? i)%nat then el a j else if (k =? j)%nat then el a i else el a k.
Proof.
  intros Hi Hj Hk. unfold do_swap. rewrite el_insert by (rewrite ?length_insert; lia).
  destruct (k =? i)%nat; [done|]. by rewrite el_insert by lia.
Qed.

Lemma swap_perm_lt a i j :
  (1 <= i)%nat -> (i < j <= length a)%nat -> do_swap a i j ≡ₚ a.
Proof.
  intros Hi Hj.
  destruct (lookup_lt_is_Some_2 a (i - 1)) as [x Hx]; [lia|].
  destruct (lookup_lt_is_Some_2 a (j - 1)) as [y Hy]; [lia|].
  assert (el a i = x) as Ex by (by apply list_lookup_total_correct).
  assert (el a j = y) as Ey by (by apply list_lookup_total_correct).
  unfold do_swap. rewrite Ex, Ey. clear Ex Ey.
  apply list_elem_of_split_length in Hx as (l1 & l2 & -> & Hl1).
  rewrite length_app in Hj. simpl in Hj.
  rewrite lookup_app_r in Hy by lia. rewrite <- Hl1 in Hy.
  destruct (j - 1 - (i - 1))%nat as [|n] eqn:En; [lia|]. simpl in Hy.
  apply list_elem_of_split_length in Hy as (l3 & l4 & -> & Hl3).
  assert (<[(j - 1)%nat := x]> (l1 ++ x :: l3 ++ y :: l4) = l1 ++ x :: l3 ++ x :: l4) as ->.
  { rewrite insert_app_r_alt by lia. rewrite <- Hl1, En. simpl.
    rewrite insert_app_r_alt by lia. rewrite <- Hl3, Nat.sub_diag. done. }
  rewrite insert_app_r_alt by lia. rewrite <- Hl1, Nat.sub_diag. simpl.
  apply Permutation_app_head.
  transitivity (y :: x :: l3 ++ l4); [constructor; symmetry; apply Permutation_middle|].
  transitivity (x :: y :: l3 ++ l4); [apply perm_swap|]. constructor. apply Permutation_middle.
Qed.

Lemma swap_comm a i j :
  (1 <= i <= length a)%nat -> (1 <= j <= length a)%nat -> i <> j -> do_swap a i j = do_swap a j i.
Proof.
  intros Hi Hj Hne. unfold do_swap. apply list_insert_insert_ne. lia.
Qed.

Lemma swap_perm a i j :
  (1 <= i <= length a)%nat -> (1 <= j <= length a)%nat -> do_swap a i j ≡ₚ a.
Proof.
  intros Hi Hj. destruct (Nat.lt_trichotomy i j) as [H|[->|H]].
  - apply swap_perm_lt; lia.
  - unfold do_swap. rewrite list_insert_insert_eq, list_insert_id; [done|].
    apply list_lookup_lookup_total_lt. lia.
  - rewrite swap_comm by lia. apply swap_perm_lt; lia.
Qed.

(** ** Heaps *)

(** [compare] orders the elements: "greater" is a strict weak order. *)
Context `{!StrictWeakOrder (fun x y => compare x y >? 0)}.

Definition le (x y : E) : Prop := (compare x y >? 0) = false.

Lemma le_trans x y z : le x y -> le y z -> le x z.
Proof. apply (swo_ntrans (less := fun x y => compare x y >? 0)). Qed.

Lemma gt_le x y : (compare x y >? 0) = true -> le y x.
Proof. apply (swo_asym (less := fun x y => compare x y >? 0)). Qed.

Lemma le_refl x : le x x.
Proof. apply (swo_irrefl (fun x y => compare x y >? 0)). Qed.

Definition child (c i : nat) : Prop := c = (2 * i)%nat \/ c = (2 * i + 1)%nat.

(** The nodes from [k] on, but for [i], are not less than their children. *)
Definition heap_but (i : option nat) (a : list E) (k cnt : nat) : Prop :=
  forall j c, (k <= j)%nat -> Some j <> i -> child c j -> (c <= cnt)%nat -> le (el a c) (el a j).

(** What [heapify] keeps: only node [i] may be less than its children, and
    these do not exceed its parent. *)
Definition sifting (a : list E) (i k cnt : nat) : Prop :=
  heap_but (Some i) a k cnt /\
  forall p c, (k <= p)%nat -> child i p -> child c i -> (c <= cnt)%nat -> le (el a c) (el a p).

(** The index [heapify] chooses. *)
Definition largest (a : list E) (i cnt : nat) : nat :=
  let m := if (2 * i <=? cnt)%nat && (do_compare a (2 * i) i >? 0) then (2 * i)%nat else i in
  if (2 * i + 1 <=? cnt)%nat && (do_compare a (2 * i + 1) m >? 0) then (2 * i + 1)%nat else m.

Lemma largest_cases a i cnt :
  let m := largest a i cnt in
  (m = i \/ child m i /\ (m <= cnt)%nat) /\ le (el a i) (el a m) /\
  (forall c, child c i -> (c <= cnt)%nat -> le (el a c) (el a m)).
Proof.
  unfold largest, do_compare.
  destruct (Nat.leb_spec (2 * i) cnt) as [Hl|Hl], (Nat.leb_spec (2 * i + 1) cnt) as [Hr|Hr];
    cbn [andb]; try lia.
  - destruct (compare (el a (2 * i)) (el a i) >? 0) eqn:E1;
      destruct (compare (el a (2 * i + 1)) _ >? 0) eqn:E2; cbn zeta;
      (split; [unfold child; auto|split]);
      try (by apply gt_le); try apply le_refl;
      try (eapply le_trans; [by apply gt_le|by apply gt_le]);
      intros c [->| ->] Hc; try apply le_refl; try done; try (by apply gt_le).
    eapply le_trans; [exact E1|by apply gt_le].
  - destruct (compare (el a (2 * i)) (el a i) >? 0) eqn:E1; cbn zeta;
      (split; [unfold child; auto|split]); try (by apply gt_le); try apply le_refl;
      intros c [->| ->] Hc; try lia; try apply le_refl; done.
  - cbn zeta. split; [auto|]. split; [apply le_refl|]. intros c [->| ->] Hc; lia.
Qed.

Lemma sifting_done a i k cnt : sifting a i k cnt -> largest a i cnt = i -> heap_but None a k cnt.
Proof.
  intros [H1 _] Hm. destruct (largest_cases a i cnt) as (_ & _ & Hc). rewrite Hm in Hc.
  intros j c Hj _ Hch Hcn. destruct (Nat.eq_dec j i) as [->|Hne]; [by apply Hc|].
  apply (H1 j c); [done|congruence|done|done].
Qed.

Lemma sifting_step a i k cnt m :
  (1 <= k <= i)%nat -> (i <= cnt)%nat -> (cnt <= length a)%nat ->
  m = largest a i cnt -> m <> i -> sifting a i k cnt -> sifting (do_swap a i m) m k cnt.
Proof.
  intros Hk Hi Hn Hm Hne [H1 H2].
  destruct (largest_cases a i cnt) as (Hcase & Hle & Hmax). rewrite <- Hm in *.
  destruct Hcase as [?|[Hch Hmn]]; [done|].
  assert (i < m)%nat as Him by (unfold child in Hch; lia).
  assert (forall x, (1 <= x)%nat -> el (do_swap a i m) x
    = if (x =? i)%nat then el a m else if (x =? m)%nat then el a i else el a x) as Hel
    by (intros x Hx; apply el_swap; lia).
  split.
  - intros j c Hj Hjm Hc Hcn. assert (j <> m) by congruence.
    assert (1 <= c)%nat by (unfold child in Hc; lia). rewrite !Hel by lia.
    destruct (Nat.eqb_spec j i) as [->|Hji].
    + destruct (Nat.eqb_spec c i) as [->|]; [unfold child in Hc; lia|].
      destruct (Nat.eqb_spec c m); [done|]. by apply Hmax.
    + destruct (Nat.eqb_spec j m) as [->|]; [done|].
      destruct (Nat.eqb_spec c i) as [->|Hci]; [by apply (H2 j m)|].
      destruct (Nat.eqb_spec c m) as [->|].
      * unfold child in *. lia.
      * apply (H1 j c); [done|congruence|done|done].
  - intros p c Hp Hpm Hcm Hcn. assert (p = i) as -> by (unfold child in *; lia).
    assert (1 <= c)%nat by (unfold child in Hcm; lia). rewrite !Hel by lia.
    rewrite Nat.eqb_refl. destruct (Nat.eqb_spec c i); [unfold child in Hcm; lia|].
    destruct (Nat.eqb_spec c m); [unfold child in Hcm; lia|].
    apply (H1 m c); [lia|congruence|done|done].
Qed.

(** [heapify] makes a heap of the nodes from [k] on, permutes the array, and
    leaves alone what lies below [k] or after the [cnt] elements. *)
Lemma heapify_ok fuel a i k cnt :
  (1 <= k <= i)%nat -> (i <= cnt)%nat -> (cnt <= length a)%nat -> (cnt < fuel + i)%nat ->
  sifting a i k cnt ->
  exists a', heapify fuel a i cnt = Ok a' /\ a' ≡ₚ a /\ heap_but None a' k cnt /\
    forall x, (1 <= x)%nat -> (x < k \/ cnt < x)%nat -> el a' x = el a x.
Proof.
  revert a i. induction fuel as [|fuel IH]; intros a i Hk Hi Hn Hf Hs; [lia|].
  change (heapify (S fuel) a i cnt) with
    (if (largest a i cnt =? i)%nat then Ok a
     else heapify fuel (do_swap a i (largest a i cnt)) (largest a i cnt) cnt).
  destruct (Nat.eqb_spec (largest a i cnt) i) as [Hm|Hm].
  - exists a. split; [done|]. split; [done|]. split; [by eapply sifting_done|done].
  - set (m := largest a i cnt) in *.
    destruct (largest_cases a i cnt) as ([?|[Hch Hmn]] & _); [done|]. fold m in Hch, Hmn.
    assert (i < m)%nat by (unfold child in Hch; lia).
    destruct (IH (do_swap a i m) m) as (a' & Hr & Hp & Hh & Ho);
      [lia|done|by rewrite do_swap_length|lia|by eapply sifting_step|].
    exists a'. split; [done|]. split; [rewrite Hp; apply swap_perm; lia|]. split; [done|].
    intros x Hx Hout. rewrite Ho by done. rewrite el_swap by lia.
    destruct (Nat.eqb_spec x i); [lia|]. destruct (Nat.eqb_spec x m); [lia|]. done.
Qed.

Lemma build_heap_ok i a cnt :
  (i <= cnt)%nat -> (cnt <= length a)%nat -> heap_but None a (S i) cnt ->
  exists a', build_heap i a cnt = Ok a' /\ a' ≡ₚ a /\ heap_but None a' 1 cnt.
Proof.
  revert a. induction i as [|i IH]; intros a Hi Hn Hh.
  - by exists a.
  - cbn [build_heap].
    destruct (heapify_ok (S cnt) a (S i) (S i) cnt) as (a1 & Hr & Hp & Hh1 & _); [lia|lia|lia|lia| |].
    { split.
      - intros j c Hj Hne Hc Hcn. apply (Hh j c); [|done|done|done].
        assert (j <> S i) by congruence. lia.
      - intros p c Hpk Hch _ _. unfold child in Hch. lia. }
    rewrite Hr. destruct (IH a1) as (a2 & Hr2 & Hp2 & Hh2);
      [lia|by rewrite (Permutation_length Hp)|done|].
    exists a2. split; [done|]. split; [by rewrite Hp2|done].
Qed.

Lemma heap_root a cnt j :
  heap_but None a 1 cnt -> (1 <= j <= cnt)%nat -> le (el a j) (el a 1).
Proof.
  intros Hh. induction (lt_wf j) as [j _ IH]. intros Hj.
  destruct (Nat.eq_dec j 1%nat) as [->|Hne]; [apply le_refl|].
  pose proof (Nat.div_mod j 2 ltac:(lia)). pose proof (Nat.mod_upper_bound j 2 ltac:(lia)).
  eapply le_trans; [|apply (IH (j / 2)%nat); lia].
  apply (Hh (j / 2)%nat j); [lia|done| |lia]. unfold child. lia.
Qed.

(** Elements sorted from [lo] to [hi], by 1-based index. *)
Definition sorted_from (a : list E) (lo hi : nat) : Prop :=
  forall x y, (lo <= x <= y)%nat -> (y <= hi)%nat -> le (el a x) (el a y).

(** The state of the second loop: a heap of [i] elements, then the sorted
    rest, none of whose elements is less than one in the heap. *)
Definition sorting (a : list E) (i cnt : nat) : Prop :=
  heap_but None a 1 i /\ sorted_from a (S i) cnt /\
  forall x y, (1 <= x <= i)%nat -> (i < y <= cnt)%nat -> le (el a x) (el a y).

(** A permutation that fixes the elements after [n] permutes those before. *)
Lemma perm_prefix a a' n :
  a' ≡ₚ a -> (n <= length a)%nat -> (forall x, (n < x)%nat -> el a' x = el a x) ->
  forall x, (1 <= x <= n)%nat -> exists y, (1 <= y <= n)%nat /\ el a' x = el a y.
Proof.
  intros Hp Hn He x Hx. pose proof (Permutation_length Hp) as Hlen.
  assert (drop n a' = drop n a) as Hd.
  { apply list_eq. intros i. rewrite !lookup_drop.
    destruct (decide (n + i < length a)%nat) as [Hi|Hi].
    - rewrite !list_lookup_lookup_total_lt by lia. f_equal.
      specialize (He (S (n + i)) ltac:(lia)). unfold el in He.
      by replace (S (n + i) - 1)%nat with (n + i)%nat in He by lia.
    - rewrite !lookup_ge_None_2 by lia. done. }
  rewrite <- (take_drop n a), <- (take_drop n a'), Hd in Hp. apply Permutation_app_inv_r in Hp.
  assert (el a' x ∈ take n a') as Hin.
  { apply list_elem_of_lookup. exists (x - 1)%nat. rewrite lookup_take_lt by lia.
    apply list_lookup_lookup_total_lt. lia. }
  rewrite Hp in Hin. apply list_elem_of_lookup in Hin as [i Hi].
  apply lookup_take_Some in Hi as [Hi Hlt]. exists (S i). split; [lia|].
  unfold el at 2. replace (S i - 1)%nat with i by lia. symmetry. by apply list_lookup_total_correct.
Qed.

Lemma sort_heap_ok n a cnt :
  (S n <= cnt)%nat -> cnt = length a -> sorting a (S n) cnt ->
  exists a', sort_heap n a = Ok a' /\ a' ≡ₚ a /\ sorted_from a' 1 cnt.
Proof.
  revert a. induction n as [|n IH]; intros a Hn Hcnt (Hh & Hst & Hle).
  - exists a. split; [done|]. split; [done|]. intros x y Hx Hy.
    destruct (Nat.eq_dec x 1%nat) as [->|]; [|apply Hst; lia].
    destruct (Nat.eq_dec y 1%nat) as [->|]; [apply le_refl|apply Hle; lia].
  - cbn [sort_heap]. replace (S (S n) - 1)%nat with (S n) by lia.
    set (i := S (S n)) in *. set (b := do_swap a 1 i).
    assert (forall x, (1 <= x)%nat ->
      el b x = if (x =? 1)%nat then el a i else if (x =? i)%nat then el a 1 else el a x) as Hb
      by (intros x Hx; apply el_swap; lia).
    assert (b ≡ₚ a) as Hpb by (apply swap_perm; lia).
    destruct (heapify_ok (S i) b 1 1 (S n)) as (a1 & Hr & Hp & Hh1 & Ho);
      [lia|lia|rewrite (Permutation_length Hpb); lia|lia| |].
    { split.
      - intros j c Hj Hne Hc Hcn. assert (j <> 1%nat) by congruence.
        assert (1 < c)%nat by (unfold child in Hc; lia). rewrite !Hb by lia.
        destruct (Nat.eqb_spec c 1); [lia|]. destruct (Nat.eqb_spec c i); [lia|].
        destruct (Nat.eqb_spec j 1); [lia|].
        destruct (Nat.eqb_spec j i); [unfold child in Hc; lia|].
        apply (Hh j c); [lia|done|done|lia].
      - intros p c Hpk Hch _ _. unfold child in Hch. lia. }
    rewrite Hr.
    assert (forall x, (S n < x)%nat -> el a1 x = if (x =? i)%nat then el a 1 else el a x) as Hhi.
    { intros x Hx. rewrite Ho, Hb by lia. destruct (Nat.eqb_spec x 1); [lia|done]. }
    assert (forall x, (1 <= x <= S n)%nat -> exists y, (1 <= y <= i)%nat /\ el a1 x = el a y) as Hlo.
    { intros x Hx. destruct (perm_prefix b a1 (S n) Hp) with (x := x) as (y & Hy & Ey);
        [rewrite (Permutation_length Hpb); lia|intros z Hz; apply Ho; lia|done|].
      rewrite Ey, Hb by lia. destruct (Nat.eqb_spec y 1); [exists i; split; [lia|done]|].
      destruct (Nat.eqb_spec y i); [lia|]. exists y. split; [lia|done]. }
    destruct (IH a1) as (a2 & Hr2 & Hp2 & Hs2); [lia| | |].
    { by rewrite (Permutation_length Hp), (Permutation_length Hpb). }
    { split; [done|]. split.
      - intros x y Hx Hy. rewrite !Hhi by lia.
        destruct (Nat.eqb_spec x i) as [->|]; destruct (Nat.eqb_spec y i) as [->|]; try lia.
        + apply le_refl.
        + apply Hle; lia.
        + apply Hst; lia.
      - intros x y Hx Hy. destruct (Hlo x Hx) as (z & Hz & ->). rewrite Hhi by lia.
        destruct (Nat.eqb_spec y i) as [->|]; [by apply (heap_root _ i)|].
        apply Hle; lia. }
    exists a2. split; [done|]. split; [by rewrite Hp2, Hp|done].
Qed.

(** [sort] returns and sorts: the result is a permutation of the array in
    which no element compares greater than a later one. *)
Theorem sort_ok a :
  exists a', sort a (length a) = Ok a' /\ a' ≡ₚ a /\
    forall x y u v, (x <= y)%nat -> a' !! x = Some u -> a' !! y = Some v -> le u v.
Proof.
  assert (forall a', a' ≡ₚ a -> sorted_from a' 1 (length a) ->
    forall x y u v, (x <= y)%nat -> a' !! x = Some u -> a' !! y = Some v -> le u v) as Hfin.
  { intros a' Hp Hs x y u v Hxy Hx Hy. pose proof (lookup_lt_Some _ _ _ Hy).
    rewrite (Permutation_length Hp) in *.
    specialize (Hs (S x) (S y) ltac:(lia) ltac:(lia)). unfold el in Hs.
    replace (S x - 1)%nat with x in Hs by lia. replace (S y - 1)%nat with y in Hs by lia.
    by rewrite (list_lookup_total_correct _ _ _ Hx), (list_lookup_total_correct _ _ _ Hy) in Hs. }
  unfold sort. destruct (build_heap_ok (length a / 2) a (length a)) as (b & Hr & Hp & Hh).
  { apply Nat.Div0.div_le_upper_bound. lia. }
  { done. }
  { intros j c Hj _ Hc Hcn. pose proof (Nat.div_mod (length a) 2 ltac:(lia)).
    pose proof (Nat.mod_upper_bound (length a) 2 ltac:(lia)). unfold child in Hc. lia. }
  rewrite Hr. destruct (length a) as [|n] eqn:Hl.
  - exists b. split; [done|]. split; [done|]. apply Hfin; [done|]. intros x y ? ?. lia.
  - destruct (sort_heap_ok n b (S n)) as (a' & Hr' & Hp' & Hs'); [done| | |].
    { by rewrite (Permutation_length Hp). }
    { split; [done|]. split; intros x y ? ?; lia. }
    replace (S n - 1)%nat with n by lia. exists a'. split; [done|].
    assert (a' ≡ₚ a) as Hpa by (by rewrite Hp'). split; [done|]. by apply Hfin.
Qed.

End sort.

(** ** Searching *)

Section search.
Context {E : Type} (compare : E -> E -> Z) (key : E) (a : list E).

(** The array is in order as far as comparisons with [key] can tell. *)
Definition ordered_for : Prop :=
  forall i j x y, (i <= j)%nat -> a !! i = Some x -> a !! j = Some y ->
    (compare key x < 0 -> compare key y < 0) /\ (compare key y > 0 -> compare key x > 0).

Definition matches (i : nat) : Prop := exists x, a !! i = Some x /\ compare key x = 0.

Context (Ho : ordered_for).

Lemma binary_search_loop_ok fuel first last :
  (last <= length a)%nat -> (last - first < fuel)%nat ->
  (forall i, matches i -> (first <= i < last)%nat) ->
  exists r, binary_search_loop compare fuel key a first last = Ok r /\
    match r with Some i => matches i | None => forall i, ~ matches i end.
Proof.
  revert first last. induction fuel as [|fuel IH]; intros first last Hl Hf Hin; [lia|].
  cbn [binary_search_loop].
  destruct (Nat.ltb_spec first last) as [Hlt|Hge].
  2:{ exists None. split; [done|]. intros i Hi. specialize (Hin i Hi). lia. }
  set (mid := (first + (last - first) / 2)%nat).
  assert (first <= mid < last)%nat as Hmid.
  { pose proof (Nat.div_lt (last - first) 2 ltac:(lia) ltac:(lia)). lia. }
  destruct (lookup_lt_is_Some_2 a mid) as [x Hx]; [lia|]. rewrite Hx.
  destruct (Z.ltb_spec (compare key x) 0) as [Hc|Hc].
  - apply IH; [lia|lia|]. intros i Hi. specialize (Hin i Hi). split; [lia|].
    destruct (Nat.lt_ge_cases i mid) as [|Hge]; [done|]. destruct Hi as (y & Hy & Hz).
    destruct (Ho mid i x y Hge Hx Hy) as [H1 _]. lia.
  - rewrite Z.gtb_ltb. destruct (Z.ltb_spec 0 (compare key x)) as [Hc'|Hc'].
    + apply IH; [lia|lia|]. intros i Hi. specialize (Hin i Hi). split; [|lia].
      destruct (Nat.lt_ge_cases mid i) as [|Hge]; [lia|]. destruct Hi as (y & Hy & Hz).
      destruct (Ho i mid y x Hge Hy Hx) as [_ H2]. lia.
    + exists (Some mid). split; [done|]. exists x. split; [done|]. lia.
Qed.

(** [binary_search] returns a match when the array has one, and a null
    pointer only when it has none. *)
Theorem binary_search_ok :
  exists r, binary_search compare key a (length a) = Ok r /\
    match r with Some i => matches i | None => forall i, ~ matches i end.
Proof.
  apply binary_search_loop_ok; [done|lia|]. intros i (x & Hx & _).
  apply lookup_lt_Some in Hx. lia.
Qed.

End search.

(** ** Decimal numbers *)

(** The value of a string of digits. *)
Definition digits_value (ds : list Z) : Z := fold_left (fun v c => v * 10 + (c - 48)) ds 0.

Lemma digits_value_mono ds : forall v,
  0 <= v -> Forall (fun c => isdigit c = true) ds ->
  v <= fold_left (fun v c => v * 10 + (c - 48)) ds v.
Proof.
  induction ds as [|c ds IH]; intros v Hv H; simpl; [lia|].
  apply Forall_cons in H as [Hc H]. unfold isdigit in Hc.
  apply andb_prop in Hc as [Hc1%Z.geb_le Hc2%Z.leb_le]. specialize (IH (v * 10 + (c - 48)) ltac:(lia) H). lia.
Qed.

Lemma parse_digits_ok ds rest : forall v,
  0 <= v -> Forall (fun c => isdigit c = true) ds ->
  match rest with c :: _ => isdigit c = false | [] => True end ->
  fold_left (fun v c => v * 10 + (c - 48)) ds v <= 2147483648 ->
  parse_digits (- v) (ds ++ rest) = - fold_left (fun v c => v * 10 + (c - 48)) ds v.
Proof.
  induction ds as [|c ds IH]; intros v Hv Hd Hr Hb; simpl.
  - destruct rest as [|c rest]; [done|]. simpl. by rewrite Hr.
  - apply Forall_cons in Hd as [Hc Hd]. rewrite Hc. pose proof Hc as Hc'. unfold isdigit in Hc.
    apply andb_prop in Hc as [Hc1%Z.geb_le Hc2%Z.leb_le]. simpl in Hb.
    pose proof (digits_value_mono ds (v * 10 + (c - 48)) ltac:(lia) Hd).
    rewrite (s32_id (- v * 10)) by (unfold in_s32; lia).
    rewrite s32_id by (unfold in_s32; lia).
    replace (- v * 10 - (c - 48)) with (- (v * 10 + (c - 48))) by lia.
    apply IH; [lia|done|done|done].
Qed.

(** The sign character of a number, if it is written. *)
Definition sign_of (sign : list Z) (negative : bool) : Prop :=
  (sign = [45] /\ negative = true) \/ (sign = [43] /\ negative = false) \/
  (sign = [] /\ negative = false).

Lemma isdigit_not_space c : isdigit c = true -> isspace c = false /\ c <> 43 /\ c <> 45.
Proof.
  unfold isdigit, isspace. intros [H1%Z.geb_le H2%Z.leb_le]%andb_prop.
  repeat (rewrite (proj2 (Z.eqb_neq c _)) by lia). split; [done|lia].
Qed.

(** [atoi]: white space, a sign, digits, then anything that is not a digit.
    Every value an [int] can hold is read, the least one included. *)
Theorem atoi_ok spaces sign negative ds rest :
  Forall (fun c => isspace c = true) spaces -> sign_of sign negative ->
  ds <> [] -> Forall (fun c => isdigit c = true) ds ->
  match rest with c :: _ => isdigit c = false | [] => True end ->
  in_s32 (if negative then - digits_value ds else digits_value ds) ->
  atoi (spaces ++ sign ++ ds ++ rest) = if negative then - digits_value ds else digits_value ds.
Proof.
  intros Hsp Hsg Hne Hd Hr Hin.
  destruct ds as [|d0 ds0]; [done|]. set (ds := d0 :: ds0) in *.
  assert (isdigit d0 = true) as Hd0 by (by apply Forall_cons in Hd as [? _]).
  destruct (isdigit_not_space _ Hd0) as (Hns & H43 & H45).
  assert (skip_spaces (spaces ++ sign ++ ds ++ rest) = sign ++ ds ++ rest) as Hskip.
  { clear - Hsp Hsg Hns. induction spaces as [|c spaces IH].
    - destruct Hsg as [[-> _]|[[-> _]|[-> _]]]; simpl; [done|done|by rewrite Hns].
    - apply Forall_cons in Hsp as [Hc Hsp]. simpl. rewrite Hc. by apply IH. }
  assert (0 <= digits_value ds) as H0 by (apply digits_value_mono; [lia|done]).
  assert (digits_value ds <= 2147483648) as Hmax by (unfold in_s32 in Hin; destruct negative; lia).
  pose proof (parse_digits_ok ds rest 0 ltac:(lia) Hd Hr Hmax) as Hp.
  fold (digits_value ds) in Hp. change (- 0) with 0 in Hp.
  unfold atoi. rewrite Hskip. destruct Hsg as [[-> ->]|[[-> ->]|[-> ->]]]; simpl app.
  - cbn [Z.eqb Pos.eqb]. exact Hp.
  - cbn [Z.eqb Pos.eqb]. change (d0 :: ds0 ++ rest) with (ds ++ rest).
    rewrite Hp, Z.opp_involutive. by apply s32_id.
  - change (ds ++ rest) with (d0 :: ds0 ++ rest). cbv iota beta.
    rewrite (proj2 (Z.eqb_neq d0 43)), (proj2 (Z.eqb_neq d0 45)) by done.
    change (d0 :: ds0 ++ rest) with (ds ++ rest). rewrite Hp, Z.opp_involutive. by apply s32_id.
Qed.

(** ** Witnesses *)

(** "  -2147483648 " *)
Lemma atoi_ok_witness :
  atoi ([32; 32] ++ [45] ++ [50; 49; 52; 55; 52; 56; 51; 54; 52; 56] ++ [32]) = -2147483648.
Proof.
  rewrite (atoi_ok [32; 32] [45] true [50; 49; 52; 55; 52; 56; 51; 54; 52; 56] [32]).
  - vm_compute. reflexivity.
  - repeat constructor.
  - left. split; reflexivity.
  - discriminate.
  - repeat constructor.
  - reflexivity.
  - unfold in_s32. vm_compute. split; [discriminate|reflexivity].
Defined.

#[export] Instance sub_swo : StrictWeakOrder (fun x y : Z => x - y >? 0).
Proof. split; intros a b; [|intros c]; rewrite !Z.gtb_ltb, ?Z.ltb_lt, ?Z.ltb_ge; lia. Qed.

Lemma sort_ok_witness : exists a', sort Z.sub [5; 3; 9; 3; 1; 7] 6 = Ok a' /\ a' ≡ₚ [5; 3; 9; 3; 1; 7].
Proof.
  destruct (sort_ok Z.sub [5; 3; 9; 3; 1; 7]) as (a' & H1 & H2 & _).
  exists a'. split; [exact H1|exact H2].
Defined.

Lemma binary_search_ok_witness :
  exists r, binary_search Z.sub 7 [1; 3; 3; 5; 7; 9] 6 = Ok r /\
    match r with Some i => matches Z.sub 7 [1; 3; 3; 5; 7; 9] i
               | None => forall i, ~ matches Z.sub 7 [1; 3; 3; 5; 7; 9] i end.
Proof.
  apply (binary_search_ok Z.sub 7 [1; 3; 3; 5; 7; 9]).
  intros i j x y Hij Hx Hy.
  assert (x <= y) as Hle; [|lia].
  do 6 (destruct i as [|i]; [do 6 (destruct j as [|j]; [simpl in *; injection Hx as <-; injection Hy as <-; lia|]);
    discriminate Hy|]). discriminate Hx.
Defined.

End StdLib.
