(* ===== verification/Hash.v ===== *)
(** * Hash tables (src/src/lib/kernel/hash.c)

    A table is an array of buckets, each the sequence of the elements in its
    list (src/src/lib/kernel/list.c, see [DListOps]).  An element is the
    address of its [struct hash_elem], which is never null.  The hash and
    comparison functions of the table are parameters; the theorems assume of
    them what hash.h asks: elements that compare equal hash alike. *)

From S2P Require Import Prelude DListOps.
Import DListOps.

Module Hash.

Record table : Type := mkTable { elem_cnt : Z; bucket_cnt : Z; buckets : list (list Z) }.

(** ** Sample hash functions *)

Definition FNV_32_PRIME : Z := 16777619.
Definition FNV_32_BASIS : Z := 2166136261.

Definition fnv_step (hash c : Z) : Z := Z.lxor (u32 (hash * FNV_32_PRIME)) c.

Definition hash_bytes (buf : list Z) : Z := fold_left fnv_step buf FNV_32_BASIS.

(** The bytes before the terminator. *)
Definition hash_string (s : list Z) : Z := fold_left fnv_step s FNV_32_BASIS.

Definition int_bytes (i : Z) : list Z :=
  map (fun k => u8 (Z.shiftr (u32 i) (8 * k))) [0; 1; 2; 3].

Definition hash_int (i : Z) : Z := hash_bytes (int_bytes i).

(** ** Sizes *)

Definition turn_off_least_1bit (x : Z) : Z := Z.land x (u32 (x - 1)).

Definition is_power_of_2 (x : Z) : bool := negb (x =? 0) && (turn_off_least_1bit x =? 0).

Definition BEST_ELEMS_PER_BUCKET : Z := 2.

Fixpoint round_down (fuel : nat) (x : Z) : option Z :=
  if is_power_of_2 x then Some x
  else match fuel with O => None | S fuel' => round_down fuel' (turn_off_least_1bit x) end.

Definition new_bucket_cnt (elem_cnt : Z) : option Z :=
  let n := elem_cnt / BEST_ELEMS_PER_BUCKET in
  let n := if n <? 4 then 4 else n in
  round_down (Z.to_nat n) n.

(** ** Lists of buckets *)

(** [list_push_front (&buckets[i], e)]. *)
Definition push_front (i : nat) (e : Z) (bs : list (list Z)) : list (list Z) :=
  alter (cons e) i bs.

(** [list_remove] of an element: out of the bucket that it is in. *)
Fixpoint remove_first (x : Z) (xs : list Z) : list Z :=
  match xs with [] => [] | y :: ys => if y =? x then ys else y :: remove_first x ys end.

Section table.
Context (hash : Z -> Z) (less : Z -> Z -> bool).

Definition bucket_idx (cnt e : Z) : nat := Z.to_nat (Z.land (hash e) (cnt - 1)).

Definition find_bucket (h : table) (e : Z) : nat := bucket_idx (bucket_cnt h) e.

Definition equal (a b : Z) : bool := negb (less a b) && negb (less b a).

Fixpoint find_in (bucket : list Z) (e : Z) : Z :=
  match bucket with
  | [] => NULL
  | hi :: rest => if equal hi e then hi else find_in rest e
  end.

Definition find_elem (h : table) (bucket : nat) (e : Z) : Z :=
  find_in (default [] (buckets h !! bucket)) e.

Definition insert_elem (h : table) (bucket : nat) (e : Z) : table :=
  mkTable (u32 (elem_cnt h + 1)) (bucket_cnt h) (push_front bucket e (buckets h)).

Definition remove_elem (h : table) (e : Z) : table :=
  mkTable (u32 (elem_cnt h - 1)) (bucket_cnt h) (map (remove_first e) (buckets h)).

(** The inner and the outer loop that move the elements of the old buckets,
    in order, to the front of the new ones. *)
Definition move_elem (cnt : Z) (bs : list (list Z)) (e : Z) : list (list Z) :=
  push_front (bucket_idx cnt e) e bs.

Definition move_bucket (cnt : Z) (bs : list (list Z)) (old : list Z) : list (list Z) :=
  fold_left (move_elem cnt) old bs.

(** [ok] says whether [malloc] finds memory for the new buckets. *)
Definition rehash (ok : bool) (h : table) : res table :=
  match new_bucket_cnt (elem_cnt h) with
  | None => Err Out_of_fuel
  | Some cnt =>
      if cnt =? bucket_cnt h then Ok h
      else if negb ok then Ok h
      else
        let empty := replicate (Z.to_nat cnt) [] in
        Ok (mkTable (elem_cnt h) cnt (fold_left (move_bucket cnt) (buckets h) empty))
  end.

Definition hash_clear (h : table) : table :=
  mkTable 0 (bucket_cnt h) (map (fun _ => []) (buckets h)).

(** [garbage] is the memory for the four buckets, [None] if there is none. *)
Definition hash_init (garbage : option (list (list Z))) : option table :=
  match garbage with
  | Some bs => Some (hash_clear (mkTable 0 4 (take 4 bs)))
  | None => None
  end.

Definition hash_insert (ok : bool) (h : table) (new : Z) : res (Z * table) :=
  let bucket := find_bucket h new in
  let old := find_elem h bucket new in
  let h1 := if old =? NULL then insert_elem h bucket new else h in
  match rehash ok h1 with Ok h2 => Ok (old, h2) | Err e => Err e end.

Definition hash_replace (ok : bool) (h : table) (new : Z) : res (Z * table) :=
  let bucket := find_bucket h new in
  let old := find_elem h bucket new in
  let h1 := if negb (old =? NULL) then remove_elem h old else h in
  let h2 := insert_elem h1 bucket new in
  match rehash ok h2 with Ok h3 => Ok (old, h3) | Err e => Err e end.

Definition hash_find (h : table) (e : Z) : Z := find_elem h (find_bucket h e) e.

Definition hash_delete (ok : bool) (h : table) (e : Z) : res (Z * table) :=
  let found := find_elem h (find_bucket h e) e in
  if negb (found =? NULL) then
    match rehash ok (remove_elem h found) with Ok h1 => Ok (found, h1) | Err e => Err e end
  else Ok (found, h).

Definition hash_size (h : table) : Z := elem_cnt h.

Definition hash_empty (h : table) : bool := elem_cnt h =? 0.

(** [hash_apply]: the elements in the order in which [action] gets them. *)
Definition hash_apply {S} (action : Z -> M S unit) (h : table) : M S unit :=
  fold_right (fun e k => action e ;;; k) (ret tt) (concat (buckets h)).

(** ** Iteration *)

(** The position of an iterator: a bucket, and an element of it or, before
    the first call of [hash_next], its head; [None] as a position is the end
    of the table. *)
Inductive position : Type :=
| At_head
| At_elem (e : Z).

Definition iterator : Type := option (nat * position).

Definition hash_first : iterator := Some (0%nat, At_head).

(** What follows [e] in its bucket. *)
Fixpoint after (e : Z) (xs : list Z) : list Z :=
  match xs with [] => [] | y :: ys => if y =? e then ys else after e ys end.

(** The buckets after the current one, from its successor on. *)
Fixpoint first_below (b : nat) (bs : list (list Z)) : Z * iterator :=
  match bs with
  | [] => (NULL, None)
  | bucket :: rest =>
      match bucket with
      | [] => first_below (S b) rest
      | e :: _ => (e, Some (b, At_elem e))
      end
  end.

(** An iterator that has returned a null pointer cannot go on: [list_next]
    asserts that its argument is not null. *)
Definition hash_next (h : table) (i : iterator) : res (Z * iterator) :=
  match i with
  | None => Err Assertion_failed
  | Some (b, pos) =>
      let bucket := default [] (buckets h !! b) in
      match (match pos with At_head => bucket | At_elem e => after e bucket end) with
      | e :: _ => Ok (e, Some (b, At_elem e))
      | [] => Ok (first_below (S b) (drop (S b) (buckets h)))
      end
  end.

(** The current element; undefined before the first [hash_next]. *)
Definition hash_cur (i : iterator) : option Z :=
  match i with None => Some NULL | Some (_, At_elem e) => Some e | Some (_, At_head) => None end.

(** The loop [while (hash_next (&i)) ...]: the elements that it visits. *)
Fixpoint iterate (fuel : nat) (h : table) (i : iterator) : res (list Z) :=
  match fuel with
  | O => Err Out_of_fuel
  | S fuel' =>
      match hash_next h i with
      | Err e => Err e
      | Ok (e, i') =>
          if e =? NULL then Ok []
          else match iterate fuel' h i' with Ok es => Ok (e :: es) | Err e => Err e end
      end
  end.

(** ** The elements and the invariant *)

Definition elems (h : table) : list Z := concat (buckets h).

(** What hash.h asks of the functions of a table. *)
Class HashSpec : Prop := {
  hash_range : forall e, in_u32 (hash e);
  hash_equal : forall a b, equal a b = true -> hash a = hash b;
  hash_less :: StrictWeakOrder less
}.

Record wf (h : table) : Prop := {
  wf_pow : exists k, 2 <= k <= 31 /\ bucket_cnt h = 2 ^ k;
  wf_len : length (buckets h) = Z.to_nat (bucket_cnt h);
  wf_place : forall i b e, buckets h !! i = Some b -> e ∈ b -> bucket_idx (bucket_cnt h) e = i;
  wf_nodup : NoDup (elems h);
  wf_null : NULL ∉ elems h;
  wf_cnt : elem_cnt h = Z.of_nat (length (elems h)) /\ elem_cnt h < 4294967295;
  wf_distinct : forall a b, a ∈ elems h -> b ∈ elems h -> equal a b = true -> a = b
}.

Context {HS : HashSpec}.

Lemma equal_refl a : equal a a = true.
Proof. unfold equal. by rewrite (swo_irrefl less a). Qed.

Lemma equal_trans a b c : equal a b = true -> equal b c = true -> equal a c = true.
Proof.
  unfold equal. rewrite !andb_true_iff, !negb_true_iff. intros [H1 H2] [H3 H4].
  split; [by apply (swo_ntrans a b c)|by apply (swo_ntrans c b a)].
Qed.

Lemma equal_sym a b : equal a b = true -> equal b a = true.
Proof. unfold equal. by rewrite andb_comm. Qed.

Lemma bucket_idx_lt cnt e k : 2 <= k <= 31 -> cnt = 2 ^ k -> (bucket_idx cnt e < Z.to_nat cnt)%nat.
Proof.
  intros Hk ->. unfold bucket_idx.
  replace (2 ^ k - 1) with (Z.ones k) by (rewrite Z.ones_equiv; lia).
  rewrite Z.land_ones by lia.
  pose proof (Z.mod_pos_bound (hash e) (2 ^ k) ltac:(apply Z.pow_pos_nonneg; lia)). lia.
Qed.

Lemma elem_of_elems h e : e ∈ elems h <-> exists i b, buckets h !! i = Some b /\ e ∈ b.
Proof.
  unfold elems. rewrite list_elem_of_In, in_concat. split.
  - intros (b & Hb & He). apply list_elem_of_In, list_elem_of_lookup in Hb as [i Hi].
    exists i, b. by rewrite list_elem_of_In.
  - intros (i & b & Hi & He). exists b. split; [|by apply list_elem_of_In].
    apply list_elem_of_In. by eapply list_elem_of_lookup_2.
Qed.

(** ** Searching *)

Lemma find_in_spec b e :
  (find_in b e = NULL /\ (NULL ∈ b \/ forall x, x ∈ b -> equal x e = false)) \/
  (find_in b e ∈ b /\ equal (find_in b e) e = true).
Proof.
  induction b as [|x b IH]; simpl.
  - left. split; [done|]. right. by intros x ?%elem_of_nil.
  - destruct (equal x e) eqn:E; [right; split; [by left|done]|].
    destruct IH as [[H1 [H2|H2]]|[H1 H2]].
    + left. split; [done|]. left. by right.
    + left. split; [done|]. right. intros y [->|Hy]%elem_of_cons; [done|auto].
    + right. split; [by right|done].
Qed.

(** What a search returns: the element equal to [e], if there is one. *)
Definition found (h : table) (e r : Z) : Prop :=
  (r = NULL /\ forall x, x ∈ elems h -> equal x e = false) \/
  (r <> NULL /\ r ∈ elems h /\ equal r e = true).

Lemma hash_find_found h e : wf h -> found h e (hash_find h e).
Proof.
  intros Hw. unfold hash_find, find_elem, find_bucket.
  destruct (wf_pow _ Hw) as (k & Hk & Hc).
  destruct (lookup_lt_is_Some_2 (buckets h) (bucket_idx (bucket_cnt h) e)) as [b Hb].
  { rewrite (wf_len _ Hw). by eapply bucket_idx_lt. }
  rewrite Hb. simpl. destruct (find_in_spec b e) as [[H1 H2]|[H1 H2]].
  - left. split; [done|]. intros x Hx. destruct H2 as [H2|H2].
    + destruct (wf_null _ Hw). apply elem_of_elems. eauto.
    + destruct (equal x e) eqn:E; [|done]. apply elem_of_elems in Hx as (i & b' & Hb' & Hx).
      pose proof (wf_place _ Hw _ _ _ Hb' Hx) as Hi. unfold bucket_idx in Hi, Hb.
      rewrite (hash_equal _ _ E) in Hi. rewrite Hi in Hb. assert (b' = b) as -> by congruence.
      rewrite <- E. by apply H2.
  - right. assert (find_in b e ∈ elems h) as Hin by (apply elem_of_elems; eauto).
    split; [|done]. intros E. rewrite E in Hin. by destruct (wf_null _ Hw).
Qed.

(** ** Buckets *)

Lemma push_front_perm i e bs :
  (i < length bs)%nat -> concat (push_front i e bs) ≡ₚ e :: concat bs.
Proof.
  revert i. induction bs as [|b bs IH]; intros [|i] Hi; simpl in *; [lia|lia|done|].
  unfold push_front in IH |- *. cbn [alter list_alter concat].
  change (list_alter (cons e) i bs) with (alter (cons e) i bs).
  rewrite IH by lia. by rewrite Permutation_middle.
Qed.

Lemma push_front_length i e bs : length (push_front i e bs) = length bs.
Proof. apply length_alter. Qed.

(** Every element is in the bucket its hash gives. *)
Definition placed (cnt : Z) (bs : list (list Z)) : Prop :=
  forall i b e, bs !! i = Some b -> e ∈ b -> bucket_idx cnt e = i.

Lemma placed_push cnt bs e : placed cnt bs -> placed cnt (push_front (bucket_idx cnt e) e bs).
Proof.
  intros Hp i b x Hi Hx. unfold push_front in Hi.
  destruct (decide (i = bucket_idx cnt e)) as [->|Hne].
  - rewrite list_lookup_alter_eq in Hi. destruct (bs !! _) as [b0|] eqn:E; [|done].
    injection Hi as <-. apply elem_of_cons in Hx as [->|Hx]; [done|]. by eapply Hp.
  - rewrite list_lookup_alter_ne in Hi by done. by eapply Hp.
Qed.

Lemma remove_bucket_perm x xs : x ∈ xs -> xs ≡ₚ x :: remove_first x xs.
Proof.
  induction xs as [|y ys IH]; simpl; [by intros ?%elem_of_nil|].
  destruct (Z.eqb_spec y x) as [->|Hne]; [done|].
  intros [->|Hx]%elem_of_cons; [done|]. rewrite (IH Hx) at 1. constructor.
Qed.

Lemma remove_first_notin x xs : x ∉ xs -> remove_first x xs = xs.
Proof.
  induction xs as [|y ys IH]; simpl; [done|]. rewrite not_elem_of_cons. intros [Hne Hx].
  destruct (Z.eqb_spec y x); [done|]. by rewrite IH.
Qed.

Lemma remove_all_perm x bs :
  NoDup (concat bs) -> x ∈ concat bs -> concat bs ≡ₚ x :: concat (map (remove_first x) bs).
Proof.
  induction bs as [|b bs IH]; simpl; [by intros _ ?%elem_of_nil|].
  rewrite NoDup_app, elem_of_app. intros (H1 & H2 & H3) [Hx|Hx].
  - assert (map (remove_first x) bs = bs) as E.
    { assert (x ∉ concat bs) as Hn by auto. clear -Hn.
      induction bs as [|b bs IH]; simpl in *; [done|].
      apply not_elem_of_app in Hn as [? ?]. by rewrite remove_first_notin, IH. }
    rewrite E. rewrite (remove_bucket_perm x b Hx) at 1. done.
  - rewrite remove_first_notin by (intros Hb; by apply (H2 x)).
    rewrite (IH H3 Hx) at 1. by rewrite Permutation_middle.
Qed.

Lemma remove_first_subset x y xs : y ∈ remove_first x xs -> y ∈ xs.
Proof.
  induction xs as [|z zs IH]; simpl; [done|]. destruct (z =? x); [by right|].
  rewrite !elem_of_cons. intros [->|?]; auto.
Qed.

(** ** Moving to new buckets *)

Lemma move_bucket_ok cnt k old bs :
  2 <= k <= 31 -> cnt = 2 ^ k -> length bs = Z.to_nat cnt -> placed cnt bs ->
  length (move_bucket cnt bs old) = Z.to_nat cnt /\ placed cnt (move_bucket cnt bs old) /\
  concat (move_bucket cnt bs old) ≡ₚ old ++ concat bs.
Proof.
  intros Hk Hc. revert bs. induction old as [|e old IH]; intros bs Hl Hp; [done|].
  destruct (IH (move_elem cnt bs e)) as (H1 & H2 & H3).
  { unfold move_elem. by rewrite push_front_length. }
  { by apply placed_push. }
  split; [done|]. split; [done|]. cbn [move_bucket fold_left] in *. unfold move_bucket in H3.
  rewrite H3. unfold move_elem. rewrite push_front_perm.
  - symmetry. apply Permutation_middle.
  - rewrite Hl. by eapply bucket_idx_lt.
Qed.

Lemma move_all_ok cnt k olds bs :
  2 <= k <= 31 -> cnt = 2 ^ k -> length bs = Z.to_nat cnt -> placed cnt bs ->
  let r := fold_left (move_bucket cnt) olds bs in
  length r = Z.to_nat cnt /\ placed cnt r /\ concat r ≡ₚ concat olds ++ concat bs.
Proof.
  intros Hk Hc. revert bs. induction olds as [|old olds IH]; intros bs Hl Hp; [done|]. simpl.
  destruct (move_bucket_ok cnt k old bs Hk Hc Hl Hp) as (H1 & H2 & H3).
  destruct (IH _ H1 H2) as (H4 & H5 & H6). split; [done|]. split; [done|].
  rewrite H6, H3. by rewrite !app_assoc, (Permutation_app_comm (concat olds)).
Qed.

(** ** Powers of two *)

Lemma turn_off_pow k : 0 <= k <= 31 -> turn_off_least_1bit (2 ^ k) = 0.
Proof.
  intros Hk. unfold turn_off_least_1bit, u32.
  pose proof (Z.pow_pos_nonneg 2 k ltac:(lia) ltac:(lia)).
  assert (2 ^ k <= 2 ^ 31) by (apply Z.pow_le_mono_r; lia).
  rewrite Z.mod_small by lia. replace (2 ^ k - 1) with (Z.ones k) by (rewrite Z.ones_equiv; lia).
  rewrite Z.land_ones by lia. by apply Z.mod_same; lia.
Qed.

(** Below the highest bit only: the rest of a number that is no power of two. *)
Lemma turn_off_high x :
  0 < x < 4294967296 -> x <> 2 ^ Z.log2 x ->
  2 ^ Z.log2 x <= turn_off_least_1bit x < x.
Proof.
  intros Hx Hne. unfold turn_off_least_1bit, u32. rewrite Z.mod_small by lia.
  destruct (Z.log2_spec x ltac:(lia)) as [H1 H2].
  assert (Z.log2 (x - 1) = Z.log2 x) as Hl by (apply Z.log2_unique; [apply Z.log2_nonneg|lia]).
  split.
  - assert (Z.testbit (Z.land x (x - 1)) (Z.log2 x) = true) as Hb.
    { rewrite Z.land_spec, Z.bit_log2 by lia. rewrite <- Hl, Z.bit_log2; [done|].
      assert (0 < 2 ^ Z.log2 x) by (apply Z.pow_pos_nonneg; [lia|apply Z.log2_nonneg]). lia. }
    destruct (Z.le_gt_cases (2 ^ Z.log2 x) (Z.land x (x - 1))) as [|Hlt]; [done|].
    assert (0 <= Z.land x (x - 1)) by (apply Z.land_nonneg; lia).
    rewrite (Z.bits_above_log2 (Z.land x (x - 1))) in Hb; [done|lia|].
    destruct (Z.eq_dec (Z.land x (x - 1)) 0) as [E|]; [by rewrite E, Z.bits_0 in Hb|].
    apply Z.log2_lt_pow2; lia.
  - assert (Z.land x (x - 1) <= x - 1); [|lia].
    apply Z.ldiff_le; [lia|]. apply Z.bits_inj'. intros n Hn.
    rewrite Z.ldiff_spec, Z.land_spec, Z.bits_0.
    by destruct (Z.testbit x n), (Z.testbit (x - 1) n).
Qed.

Lemma power_of_2_iff x :
  0 < x < 4294967296 -> is_power_of_2 x = true <-> x = 2 ^ Z.log2 x.
Proof.
  intros Hx. unfold is_power_of_2. rewrite (proj2 (Z.eqb_neq x 0)) by lia. cbn [negb andb].
  rewrite Z.eqb_eq. destruct (Z.eq_dec x (2 ^ Z.log2 x)) as [E|Hne].
  - split; [done|]. intros _. rewrite E. apply turn_off_pow. split; [apply Z.log2_nonneg|].
    assert (Z.log2 x < 32); [|lia]. apply Z.log2_lt_pow2; lia.
  - pose proof (turn_off_high x Hx Hne).
    assert (0 < 2 ^ Z.log2 x) by (apply Z.pow_pos_nonneg; [lia|apply Z.log2_nonneg]).
    split; [lia|done].
Qed.

(** The loop ends with the highest power of two not above [x]. *)
Lemma round_down_ok fuel x :
  0 < x < 4294967296 -> (Z.to_nat x <= fuel)%nat -> round_down fuel x = Some (2 ^ Z.log2 x).
Proof.
  revert x. induction fuel as [|fuel IH]; intros x Hx Hf; [lia|]. cbn [round_down].
  destruct (is_power_of_2 x) eqn:E.
  - apply power_of_2_iff in E; [|done]. by rewrite <- E.
  - assert (x <> 2 ^ Z.log2 x) as Hne by (intros Hq; apply power_of_2_iff in Hq; [congruence|done]).
    pose proof (turn_off_high x Hx Hne) as Ht. destruct (Z.log2_spec x ltac:(lia)).
    assert (0 < 2 ^ Z.log2 x) by (apply Z.pow_pos_nonneg; [lia|apply Z.log2_nonneg]).
    assert (Z.log2 (turn_off_least_1bit x) = Z.log2 x) as El
      by (apply Z.log2_unique; [apply Z.log2_nonneg|lia]).
    rewrite IH by lia. by rewrite El.
Qed.

Lemma new_bucket_cnt_ok n :
  0 <= n < 4294967296 -> exists k, 2 <= k <= 31 /\ new_bucket_cnt n = Some (2 ^ k).
Proof.
  intros Hn. unfold new_bucket_cnt, BEST_ELEMS_PER_BUCKET.
  set (m := if n / 2 <? 4 then 4 else n / 2).
  assert (4 <= m < 4294967296) as Hm.
  { pose proof (Z.div_lt_upper_bound n 2 2147483648 ltac:(lia) ltac:(lia)).
    unfold m. destruct (Z.ltb_spec (n / 2) 4); lia. }
  exists (Z.log2 m). split; [|by apply round_down_ok; lia].
  split; [apply (Z.log2_le_mono 4 m); lia|].
  assert (Z.log2 m < 32); [|lia]. apply Z.log2_lt_pow2; lia.
Qed.

(** [rehash] keeps the elements and the invariant, whether or not it finds
    memory for new buckets. *)
Lemma rehash_ok ok h :
  wf h -> exists h', rehash ok h = Ok h' /\ wf h' /\ elems h' ≡ₚ elems h.
Proof.
  intros Hw. destruct (wf_cnt _ Hw) as [Hc1 Hc2]. unfold rehash.
  destruct (new_bucket_cnt_ok (elem_cnt h)) as (k & Hk & ->); [lia|].
  destruct (2 ^ k =? bucket_cnt h); [by exists h|]. destruct ok; simpl; [|by exists h].
  eexists. split; [done|].
  destruct (move_all_ok (2 ^ k) k (buckets h) (replicate (Z.to_nat (2 ^ k)) []) Hk eq_refl)
    as (H1 & H2 & H3).
  { apply length_replicate. }
  { intros i b e Hi He. apply lookup_replicate in Hi as [-> _]. by apply elem_of_nil in He. }
  assert (concat (replicate (Z.to_nat (2 ^ k)) ([] : list Z)) = []) as E.
  { generalize (Z.to_nat (2 ^ k)). intros n. by induction n. }
  rewrite E, app_nil_r in H3. split; [|done].
  constructor; cbn [bucket_cnt buckets elem_cnt]; unfold elems; cbn [buckets].
  - eauto.
  - done.
  - done.
  - rewrite H3. apply (wf_nodup _ Hw).
  - rewrite H3. apply (wf_null _ Hw).
  - rewrite (Permutation_length H3). apply (wf_cnt _ Hw).
  - intros a b. rewrite H3. apply (wf_distinct _ Hw).
Qed.

(** ** Insertion and removal *)

Lemma insert_elem_run h e :
  wf h -> e <> NULL -> e ∉ elems h -> (forall x, x ∈ elems h -> equal x e = false) ->
  elem_cnt h + 1 < 4294967295 ->
  wf (insert_elem h (find_bucket h e) e) /\
  elems (insert_elem h (find_bucket h e) e) ≡ₚ e :: elems h.
Proof.
  intros Hw He Hn Hneq Hlt. destruct (wf_pow _ Hw) as (k & Hk & Hc).
  destruct (wf_cnt _ Hw) as [Hc1 Hc2].
  assert (elems (insert_elem h (find_bucket h e) e) ≡ₚ e :: elems h) as Hp.
  { unfold elems, insert_elem. cbn [buckets]. apply push_front_perm.
    rewrite (wf_len _ Hw). by eapply bucket_idx_lt. }
  split; [|done]. constructor; cbn [bucket_cnt insert_elem buckets elem_cnt].
  - eauto.
  - rewrite push_front_length. apply (wf_len _ Hw).
  - apply placed_push. exact (wf_place _ Hw).
  - rewrite Hp. constructor; [done|apply (wf_nodup _ Hw)].
  - rewrite Hp. apply not_elem_of_cons. split; [done|apply (wf_null _ Hw)].
  - rewrite Hp. simpl. unfold u32. rewrite Z.mod_small by lia. lia.
  - intros a b. rewrite !Hp, !elem_of_cons. intros [->|Ha] [->|Hb] E; [done| | |].
    + apply equal_sym in E. rewrite Hneq in E; done.
    + rewrite Hneq in E; done.
    + by apply (wf_distinct _ Hw).
Qed.

Lemma remove_elem_ok h e :
  wf h -> e ∈ elems h -> wf (remove_elem h e) /\ elems h ≡ₚ e :: elems (remove_elem h e).
Proof.
  intros Hw He. destruct (wf_cnt _ Hw) as [Hc1 Hc2].
  assert (elems h ≡ₚ e :: elems (remove_elem h e)) as Hp
    by (apply remove_all_perm; [apply (wf_nodup _ Hw)|done]).
  pose proof (wf_nodup _ Hw) as Hnd. rewrite Hp in Hnd. apply NoDup_cons in Hnd as [Hn1 Hn2].
  split; [|done]. constructor; cbn [bucket_cnt remove_elem buckets elem_cnt].
  - apply (wf_pow _ Hw).
  - rewrite length_map. apply (wf_len _ Hw).
  - intros i b x Hi Hx. rewrite list_lookup_fmap in Hi.
    destruct (buckets h !! i) as [b0|] eqn:Eb; [|done]. injection Hi as <-.
    eapply (wf_place _ Hw); [done|]. by eapply remove_first_subset.
  - done.
  - intros Hx. destruct (wf_null _ Hw). rewrite Hp. by right.
  - pose proof (Permutation_length Hp) as Hl. simpl in Hl.
    unfold u32. rewrite Z.mod_small by lia. lia.
  - intros a b Ha Hb. apply (wf_distinct _ Hw); rewrite Hp; by right.
Qed.

Lemma hash_insert_run ok h new :
  wf h -> new <> NULL -> new ∉ elems h -> elem_cnt h + 1 < 4294967295 ->
  exists old h', hash_insert ok h new = Ok (old, h') /\ wf h' /\ found h new old /\
    elems h' ≡ₚ if old =? NULL then new :: elems h else elems h.
Proof.
  intros Hw Hn Hin Hlt. unfold hash_insert. fold (hash_find h new).
  pose proof (hash_find_found h new Hw) as Hf. set (old := hash_find h new) in *.
  destruct (Z.eqb_spec old NULL) as [E|E].
  - destruct Hf as [[_ Hneq]|[? _]]; [|done].
    destruct (insert_elem_run h new Hw Hn Hin Hneq Hlt) as [Hw1 Hp1].
    destruct (rehash_ok ok _ Hw1) as (h' & Hr & Hw' & Hp'). rewrite Hr.
    exists old, h'. split; [done|]. split; [done|]. split; [by left|].
    rewrite E. simpl. by rewrite Hp'.
  - destruct (rehash_ok ok _ Hw) as (h' & Hr & Hw' & Hp'). rewrite Hr.
    exists old, h'. split; [done|]. split; [done|]. split; [done|].
    by rewrite (proj2 (Z.eqb_neq _ _) E).
Qed.

(** C29: [hash_insert]: an equal element that is in the table is returned and the
    table keeps its elements; otherwise the new element is added. *)
Theorem hash_insert_ok ok h new :
  wf h -> new <> NULL -> new ∉ elems h -> elem_cnt h + 1 < 4294967295 ->
  exists old h', hash_insert ok h new = Ok (old, h') /\ wf h' /\ found h new old /\
    elems h' ≡ₚ if old =? NULL then new :: elems h else elems h.
Proof. apply hash_insert_run. Qed.

(** [hash_delete] removes the equal element and returns it. *)
Theorem hash_delete_ok ok h e :
  wf h ->
  exists r h', hash_delete ok h e = Ok (r, h') /\ wf h' /\ found h e r /\
    if r =? NULL then h' = h else elems h ≡ₚ r :: elems h'.
Proof.
  intros Hw. unfold hash_delete. fold (hash_find h e).
  pose proof (hash_find_found h e Hw) as Hf. set (r := hash_find h e) in *.
  destruct (Z.eqb_spec r NULL) as [E|E]; cbn [negb].
  - exists r, h. rewrite E. split; [done|]. split; [done|]. split; [by rewrite <- E|done].
  - destruct Hf as [[? _]|(_ & Hin & He)]; [done|].
    destruct (remove_elem_ok h r Hw Hin) as [Hw1 Hp1].
    destruct (rehash_ok ok _ Hw1) as (h' & Hr & Hw' & Hp'). rewrite Hr.
    exists r, h'. rewrite (proj2 (Z.eqb_neq _ _) E). split; [done|]. split; [done|].
    split; [by right|]. by rewrite Hp1, Hp'.
Qed.

(** [hash_replace] puts the new element in the place of the equal one. *)
Theorem hash_replace_ok ok h new :
  wf h -> new <> NULL -> new ∉ elems h -> elem_cnt h + 1 < 4294967295 ->
  exists old h', hash_replace ok h new = Ok (old, h') /\ wf h' /\ found h new old /\
    if old =? NULL then elems h' ≡ₚ new :: elems h
    else exists rest, elems h ≡ₚ old :: rest /\ elems h' ≡ₚ new :: rest.
Proof.
  intros Hw Hn Hin Hlt. unfold hash_replace. fold (hash_find h new).
  pose proof (hash_find_found h new Hw) as Hf. set (old := hash_find h new) in *.
  destruct (Z.eqb_spec old NULL) as [E|E]; cbn [negb].
  - destruct Hf as [[_ Hneq]|[? _]]; [|done].
    destruct (insert_elem_run h new Hw Hn Hin Hneq Hlt) as [Hw1 Hp1].
    destruct (rehash_ok ok _ Hw1) as (h' & Hr & Hw' & Hp'). rewrite Hr.
    exists old, h'. split; [done|]. split; [done|]. split; [by left|].
    rewrite E. simpl. by rewrite Hp'.
  - destruct Hf as [[? _]|(_ & Hold & He)]; [done|].
    destruct (remove_elem_ok h old Hw Hold) as [Hw1 Hp1]. set (h1 := remove_elem h old) in *.
    assert (forall x, x ∈ elems h1 -> equal x new = false) as Hneq.
    { intros x Hx. destruct (equal x new) eqn:Ex; [|done].
      assert (x = old) as ->.
      { apply (wf_distinct _ Hw); [rewrite Hp1; by right|done|].
        eapply equal_trans; [done|by apply equal_sym]. }
      pose proof (wf_nodup _ Hw) as Hnd. rewrite Hp1 in Hnd. by apply NoDup_cons in Hnd as [? _]. }
    destruct (insert_elem_run h1 new Hw1 Hn) as [Hw2 Hp2]; [|done| |].
    { intros Hx. apply Hin. rewrite Hp1. by right. }
    { pose proof (wf_cnt _ Hw1) as [Hc1 _]. pose proof (wf_cnt _ Hw) as [Hc _].
      pose proof (Permutation_length Hp1) as Hl. simpl in Hl. lia. }
    change (find_bucket h new) with (find_bucket h1 new).
    destruct (rehash_ok ok _ Hw2) as (h' & Hr & Hw' & Hp'). rewrite Hr.
    exists old, h'. rewrite (proj2 (Z.eqb_neq _ _) E). split; [done|]. split; [done|].
    split; [by right|]. exists (elems h1). split; [done|]. by rewrite Hp'.
Qed.

(** [hash_init] gives an empty table. *)
Lemma hash_init_ok bs :
  (4 <= length bs)%nat -> exists h, hash_init (Some bs) = Some h /\ wf h /\ elems h = [].
Proof.
  intros Hl. destruct bs as [|b1 [|b2 [|b3 [|b4 bs]]]]; simpl in Hl; try lia.
  eexists. split; [done|]. split; [|done]. constructor; cbn.
  - exists 2. done.
  - done.
  - intros i b e Hi He.
    destruct i as [|[|[|[|i]]]]; simpl in Hi; try done; injection Hi as <-; by apply elem_of_nil in He.
  - constructor.
  - apply not_elem_of_nil.
  - done.
  - by intros a b ?%elem_of_nil.
Qed.

(** ** Iteration *)

(** The elements an iterator still has to visit. *)
Definition to_visit (h : table) (i : iterator) : list Z :=
  match i with
  | None => []
  | Some (b, pos) =>
      let bucket := default [] (buckets h !! b) in
      (match pos with At_head => bucket | At_elem e => after e bucket end)
      ++ concat (drop (S b) (buckets h))
  end.

Lemma after_app e pre post : e ∉ pre -> after e (pre ++ e :: post) = post.
Proof.
  induction pre as [|x pre IH]; simpl; intros Hn.
  - by rewrite Z.eqb_refl.
  - apply not_elem_of_cons in Hn as [Hne Hn]. destruct (Z.eqb_spec x e); [done|]. auto.
Qed.

Lemma after_suffix e xs : exists pre, xs = pre ++ after e xs.
Proof.
  induction xs as [|x xs [pre IH]]; simpl; [by exists []|]. destruct (x =? e).
  - by exists [x].
  - exists (x :: pre). simpl. by rewrite <- IH.
Qed.

Lemma after_next e x xs post : NoDup xs -> after e xs = x :: post -> after x xs = post.
Proof.
  intros Hnd H. destruct (after_suffix e xs) as [pre Hp]. rewrite H in Hp. rewrite Hp in Hnd |- *.
  apply after_app. apply NoDup_app in Hnd as (_ & Hd & _). intros Hx. apply (Hd x Hx). by left.
Qed.

Lemma first_below_ok h b bs :
  drop b (buckets h) = bs ->
  match concat bs with
  | [] => first_below b bs = (NULL, None)
  | e :: es => exists i, first_below b bs = (e, i) /\ to_visit h i = es /\ i <> None
  end.
Proof.
  revert b. induction bs as [|bucket rest IH]; intros b Hd; [done|].
  assert (buckets h !! b = Some bucket /\ drop (S b) (buckets h) = rest) as [Hb Hr].
  { split.
    - rewrite <- (Nat.add_0_r b), <- lookup_drop. by rewrite Hd.
    - replace (S b) with (b + 1)%nat by lia. rewrite <- drop_drop, Hd. done. }
  destruct bucket as [|e r]; simpl; [by apply IH|].
  eexists. split; [done|]. split; [|done]. simpl. rewrite Hb. simpl. rewrite Z.eqb_refl. by rewrite Hr.
Qed.

Lemma hash_next_ok h i :
  wf h -> i <> None ->
  match to_visit h i with
  | [] => hash_next h i = Ok (NULL, None)
  | e :: es => exists i', hash_next h i = Ok (e, i') /\ to_visit h i' = es /\ i' <> None
  end.
Proof.
  intros Hw Hi. destruct i as [[b pos]|]; [|done]. unfold to_visit, hash_next. cbn zeta.
  assert (NoDup (default [] (buckets h !! b))) as Hnd.
  { destruct (buckets h !! b) as [bk|] eqn:E; [|constructor]. simpl.
    pose proof (wf_nodup _ Hw) as Hn. unfold elems in Hn.
    rewrite <- (take_drop_middle _ _ _ E), concat_app in Hn. simpl in Hn.
    apply NoDup_app in Hn as (_ & _ & Hn). by apply NoDup_app in Hn as (? & _). }
  set (bucket := default [] (buckets h !! b)) in *.
  destruct (match pos with At_head => bucket | At_elem e => after e bucket end) as [|e es] eqn:E.
  - pose proof (first_below_ok h (S b) _ eq_refl) as Hf. simpl.
    destruct (concat (drop (S b) (buckets h))) as [|x xs]; [by rewrite Hf|].
    destruct Hf as (i' & -> & ? & ?). by exists i'.
  - simpl. eexists. split; [done|]. split; [|done]. fold bucket. f_equal. destruct pos as [|e0].
    + change (after e bucket = es). rewrite E. simpl. by rewrite Z.eqb_refl.
    + by apply (after_next e0).
Qed.

Lemma to_visit_elems h i e : wf h -> e ∈ to_visit h i -> e ∈ elems h.
Proof.
  intros Hw. destruct i as [[b pos]|]; [|by intros ?%elem_of_nil]. unfold to_visit.
  rewrite elem_of_app. intros [He|He].
  - destruct (buckets h !! b) as [bk|] eqn:Hb; simpl in He.
    + apply elem_of_elems. exists b, bk. split; [done|]. destruct pos as [|e0]; [done|].
      destruct (after_suffix e0 bk) as [pre Hp]. rewrite Hp. rewrite elem_of_app. by right.
    + destruct pos; simpl in He; by apply elem_of_nil in He.
  - unfold elems. rewrite <- (take_drop (S b) (buckets h)), concat_app, elem_of_app. by right.
Qed.

Lemma iterate_ok h i :
  wf h -> i <> None -> iterate (length (to_visit h i) + 1) h i = Ok (to_visit h i).
Proof.
  intros Hw Hi. assert (forall e, e ∈ to_visit h i -> e <> NULL) as Hnn.
  { intros e He ->. by apply (wf_null _ Hw), (to_visit_elems h i). }
  remember (to_visit h i) as vs eqn:Hvs. revert i Hi Hvs.
  induction vs as [|e es IH]; intros i Hi Hvs; pose proof (hash_next_ok h i Hw Hi) as Hn;
    rewrite <- Hvs in Hn; simpl.
  - by rewrite Hn.
  - destruct Hn as (i' & -> & Hv & Hi'). rewrite (proj2 (Z.eqb_neq e NULL)) by (apply Hnn; by left).
    rewrite (IH (fun x Hx => Hnn x (list_elem_of_further _ _ _ Hx)) i' Hi' (eq_sym Hv)). done.
Qed.

Lemma first_to_visit h : wf h -> to_visit h hash_first = elems h.
Proof.
  intros Hw. unfold to_visit, hash_first, elems. destruct (wf_pow _ Hw) as (k & Hk & Hc).
  pose proof (wf_len _ Hw) as Hl. destruct (buckets h) as [|b bs]; [|done].
  simpl in Hl. pose proof (Z.pow_pos_nonneg 2 k ltac:(lia) ltac:(lia)). lia.
Qed.

(** [hash_find] returns the element of the table that is equal to the one
    given, and a null pointer exactly when there is none. *)
Theorem hash_find_correct h e :
  wf h ->
  (hash_find h e = NULL <-> forall x, x ∈ elems h -> equal x e = false) /\
  (forall x, x ∈ elems h -> equal x e = true -> hash_find h e = x).
Proof.
  intros Hw. destruct (hash_find_found h e Hw) as [[E Hno]|(Hn & Hin & He)]; split.
  - done.
  - intros x Hx Hxe. rewrite (Hno x Hx) in Hxe. done.
  - split; [done|]. intros Hno. rewrite (Hno _ Hin) in He. done.
  - intros x Hx Hxe. apply (wf_distinct _ Hw); [done|done|].
    apply (equal_trans _ e); [done|]. by apply equal_sym.
Qed.

(** C30: A loop of [hash_next] from [hash_first] on visits every element of the
    table exactly once, and ends. *)
Theorem hash_iteration_complete h :
  wf h -> iterate (length (elems h) + 1) h hash_first = Ok (elems h) /\ NoDup (elems h).
Proof.
  intros Hw. split; [|apply (wf_nodup _ Hw)]. rewrite <- (first_to_visit h Hw) at 1 2.
  by apply iterate_ok.
Qed.

End table.

(** ** Witnesses: a table of addresses, hashed with [hash_int] *)

Lemma lxor_u32 a b : in_u32 a -> in_u32 b -> in_u32 (Z.lxor a b).
Proof.
  unfold in_u32. change 4294967296 with (2 ^ 32). intros Ha Hb.
  rewrite <- (Z.mod_small a (2 ^ 32)), <- (Z.mod_small b (2 ^ 32)) by lia.
  rewrite <- !Z.land_ones by lia.
  set (x := Z.lxor _ _).
  assert (x = Z.land x (Z.ones 32)) as ->.
  { subst x. apply Z.bits_inj'. intros n Hn. rewrite Z.land_spec, !Z.lxor_spec, !Z.land_spec.
    destruct (Z.testbit (Z.ones 32) n); by rewrite ?andb_true_r, ?andb_false_r. }
  rewrite Z.land_ones by lia. apply Z.mod_pos_bound. lia.
Qed.

Lemma hash_int_range i : in_u32 (hash_int i).
Proof.
  unfold hash_int, hash_bytes.
  assert (Forall in_u32 (int_bytes i)) as Hb.
  { unfold int_bytes. apply Forall_fmap, Forall_forall. intros k _. unfold compose, in_u32, u8.
    pose proof (Z.mod_pos_bound (Z.shiftr (u32 i) (8 * k)) 256 ltac:(lia)). lia. }
  assert (in_u32 FNV_32_BASIS) as Hv by (unfold in_u32, FNV_32_BASIS; lia). revert Hv.
  generalize FNV_32_BASIS. induction Hb as [|c cs Hc _ IH]; intros v Hv; [done|]. simpl. apply IH.
  apply lxor_u32; [|done]. unfold in_u32, u32. apply Z.mod_pos_bound. lia.
Qed.

#[export] Instance int_spec : HashSpec hash_int Z.ltb.
Proof.
  split; [exact hash_int_range| |exact (key_lt_swo (fun a => a))].
  intros a b H. unfold equal in H. rewrite andb_true_iff, !negb_true_iff, !Z.ltb_ge in H.
  f_equal. lia.
Qed.

(** The invariant as a test. *)
Definition wfb (hash : Z -> Z) (less : Z -> Z -> bool) (k : Z) (h : table) : bool :=
  (2 <=? k) && (k <=? 31) && (bucket_cnt h =? 2 ^ k) &&
  (length (buckets h) =? Z.to_nat (bucket_cnt h))%nat &&
  forallb (fun '(i, b) => forallb (fun e => (bucket_idx hash (bucket_cnt h) e =? i)%nat) b)
    (imap pair (buckets h)) &&
  bool_decide (NoDup (elems h)) && bool_decide (NULL ∉ elems h) &&
  (elem_cnt h =? Z.of_nat (length (elems h))) && (elem_cnt h <? 4294967295) &&
  forallb (fun a => forallb (fun b => negb (equal less a b) || (a =? b)) (elems h)) (elems h).

Lemma wfb_ok hash less k h : wfb hash less k h = true -> wf hash less h.
Proof.
  unfold wfb. rewrite !andb_true_iff, !bool_decide_eq_true, !Z.leb_le, !Z.eqb_eq, Z.ltb_lt, Nat.eqb_eq,
    !forallb_forall.
  intros (((((((((H1 & H2) & H3) & H4) & H5) & H6) & H7) & H8) & H9) & H10).
  constructor; [by exists k|done| |done|done|done|].
  - intros i b e Hi He. assert (In (i, b) (imap pair (buckets h))) as Hin.
    { apply list_elem_of_In, elem_of_lookup_imap. by exists i, b. }
    specialize (H5 _ Hin). simpl in H5. rewrite forallb_forall in H5.
    by apply Nat.eqb_eq, H5, list_elem_of_In.
  - intros a b Ha Hb He. apply list_elem_of_In in Ha, Hb. specialize (H10 a Ha).
    rewrite forallb_forall in H10. specialize (H10 b Hb). rewrite He in H10. by apply Z.eqb_eq.
Qed.

(** Insert a list of elements into a new table. *)
Fixpoint fill (es : list Z) (h : table) : table :=
  match es with
  | [] => h
  | e :: es' =>
      match hash_insert hash_int Z.ltb true h e with Ok (_, h') => fill es' h' | Err _ => h end
  end.

Definition sample : table :=
  fill [16; 20; 24; 28; 32; 36; 40; 44; 48; 52; 56; 60; 64; 68; 72; 76; 80] (mkTable 0 4 [[]; []; []; []]).

Lemma sample_table_wf : wf hash_int Z.ltb sample.
Proof. apply (wfb_ok _ _ 3). vm_compute. reflexivity. Qed.

Lemma hash_insert_ok_witness :
  exists old h', hash_insert hash_int Z.ltb true sample 100 = Ok (old, h') /\ wf hash_int Z.ltb h' /\
    found Z.ltb sample 100 old.
Proof.
  destruct (hash_insert_ok hash_int Z.ltb true sample 100 sample_table_wf) as (old & h' & H1 & H2 & H3 & _).
  - discriminate.
  - apply (bool_decide_unpack _). vm_compute. exact I.
  - vm_compute. reflexivity.
  - exists old, h'. split; [exact H1|]. split; [exact H2|exact H3].
Defined.

Lemma hash_replace_ok_witness :
  exists old h', hash_replace hash_int Z.ltb true sample 100 = Ok (old, h') /\ wf hash_int Z.ltb h' /\
    found Z.ltb sample 100 old.
Proof.
  destruct (hash_replace_ok hash_int Z.ltb true sample 100 sample_table_wf) as (old & h' & H1 & H2 & H3 & _).
  - discriminate.
  - apply (bool_decide_unpack _). vm_compute. exact I.
  - vm_compute. reflexivity.
  - exists old, h'. split; [exact H1|]. split; [exact H2|exact H3].
Defined.

Lemma hash_delete_ok_witness :
  exists r h', hash_delete hash_int Z.ltb true sample 48 = Ok (r, h') /\ wf hash_int Z.ltb h' /\
    found Z.ltb sample 48 r.
Proof.
  destruct (hash_delete_ok hash_int Z.ltb true sample 48 sample_table_wf) as (r & h' & H1 & H2 & H3 & _).
  exists r, h'. split; [exact H1|]. split; [exact H2|exact H3].
Defined.

Lemma hash_find_correct_witness : hash_find hash_int Z.ltb sample 48 = 48.
Proof.
  apply (hash_find_correct hash_int Z.ltb sample 48 sample_table_wf).
  - apply (bool_decide_unpack _). vm_compute. exact I.
  - reflexivity.
Defined.

Lemma hash_iteration_complete_witness : iterate 18 sample hash_first = Ok (elems sample).
Proof. exact (proj1 (hash_iteration_complete hash_int Z.ltb sample sample_table_wf)). Defined.

End Hash.
