(* ===== verification/Args.v ===== *)
(** * Passing arguments to a user program (src/src/userprog/process.c)

    The command line lies in a page of the kernel, the user's stack below
    [PHYS_BASE], both in the byte memory of [CString].  The array in which
    [num_tokens] copies its string is at an address given as a parameter, as
    is the string of delimiters; the array of argument addresses is a list. *)

From S2P Require Import Prelude Bitmap Palloc CString.
Import CString.

Module Args.

Abbreviation PHYS_BASE := Palloc.PHYS_BASE.

Definition MAX_ARGS_SIZE : Z := 4096.
Definition WORD_SIZE : Z := 4.

(** ** Words *)

Definition load_word (p : Z) : M mem Z :=
  a <- load p ;; b <- load (p + 1) ;; c <- load (p + 2) ;; d <- load (p + 3) ;;
  ret (a + Z.shiftl b 8 + Z.shiftl c 16 + Z.shiftl d 24).

Definition store_word (p v : Z) : M mem unit :=
  store p v ;;; store (p + 1) (Z.shiftr v 8) ;;; store (p + 2) (Z.shiftr v 16) ;;; store (p + 3) (Z.shiftr v 24).

Section process.
(** The fuel of string functions, the delimiters and the local array. *)
Context (fuel : nat) (space strcopy : Z).

(** ** Counting tokens *)

Fixpoint count_loop (n : nat) (token save_ptr count : Z) : M mem Z :=
  match n with
  | O => fail Out_of_fuel
  | S n' =>
      if token =? NULL then ret count
      else
        ' (token, save_ptr) <- strtok_r fuel NULL space save_ptr ;;
        count_loop n' token save_ptr (count + 1)
  end.

Definition num_tokens (str : Z) : M mem Z :=
  l <- strlen fuel str ;;
  strlcpy fuel strcopy str (l + 1) ;;;
  ' (token, save_ptr) <- strtok_r fuel strcopy space NULL ;;
  count_loop fuel token save_ptr 0.

(** ** Pushing *)

Definition push_arg (arg esp : Z) : M mem Z :=
  l <- strlen fuel arg ;;
  let arglen := l + 1 in
  let esp := u32 (esp - arglen) in
  strlcpy fuel esp arg arglen ;;; ret esp.

Definition push_byte (esp : Z) : M mem Z :=
  let esp := u32 (esp - 1) in store esp 0 ;;; ret esp.

Definition push_arg_ptr (arg_ptr esp : Z) : M mem Z :=
  let esp := u32 (esp - 4) in store_word esp arg_ptr ;;; ret esp.

Fixpoint push_bytes (n : nat) (esp : Z) : M mem Z :=
  match n with
  | O => ret esp
  | S n' => esp <- push_byte esp ;; push_bytes n' esp
  end.

(** The loop over the arguments; [None] when there are too many bytes. *)
Fixpoint push_loop (n : nat) (arg arg_save_ptr argc : Z) (argvAddr : list Z) (esp : Z)
  : M mem (option (list Z) * Z) :=
  match n with
  | O => fail Out_of_fuel
  | S n' =>
      if arg =? NULL then ret (Some argvAddr, esp)
      else if s32 (PHYS_BASE - esp) >? MAX_ARGS_SIZE then ret (None, esp)
      else
        ASSERT (Z.of_nat (length argvAddr) <? argc) ;;;
        esp <- push_arg arg esp ;;
        ' (arg, arg_save_ptr) <- strtok_r fuel NULL space arg_save_ptr ;;
        push_loop n' arg arg_save_ptr argc (argvAddr ++ [esp]) esp
  end.

(** The addresses of the first [n] arguments, the last one first. *)
Fixpoint push_ptrs (n : nat) (argvAddr : list Z) (esp : Z) : M mem Z :=
  match n with
  | O => ret esp
  | S n' =>
      a <- gets_opt (fun _ => argvAddr !! n') ;;
      esp <- push_arg_ptr a esp ;; push_ptrs n' argvAddr esp
  end.

(** The end of [push_arguments], with all strings on the stack: the result and
    the new stack pointer. *)
Definition push_frame (argc : Z) (argvAddr : list Z) (esp : Z) : M mem (Z * Z) :=
  let num_word_align := WORD_SIZE - esp mod WORD_SIZE in
  esp <- push_bytes (Z.to_nat num_word_align) esp ;;
  esp <- push_arg_ptr 0 esp ;;
  esp <- push_ptrs (Z.to_nat argc) argvAddr esp ;;
  let arg_base_ptr := esp in
  let esp := u32 (esp - 4) in store_word esp arg_base_ptr ;;;
  let esp := u32 (esp - 4) in store_word esp argc ;;;
  let esp := u32 (esp - 4) in store_word esp NULL ;;;
  ret (1, esp).

Definition push_arguments (file_name arguments esp : Z) : M mem (Z * Z) :=
  t <- num_tokens arguments ;;
  let argc := t + 1 in
  esp <- push_arg file_name esp ;;
  ' (arg, arg_save_ptr) <- strtok_r fuel arguments space NULL ;;
  ' (r, esp) <- push_loop fuel arg arg_save_ptr argc [esp] esp ;;
  match r with
  | None => ret (0, esp)
  | Some argvAddr => push_frame argc argvAddr esp
  end.

(** What [start_process] does to the command line and the stack: it splits
    off the name and pushes it with the rest. *)
Definition start_process_args (file_name_ esp : Z) : M mem (Z * Z) :=
  ' (name_of_file, file_name) <- strtok_r fuel file_name_ space file_name_ ;;
  push_arguments name_of_file file_name esp.
End process.

(** ** The words of a string *)

(** [cur] is the part of the current word that has been read, backwards. *)
Fixpoint words_from (cur s : list Z) : list (list Z) :=
  match s with
  | [] => match cur with [] => [] | _ => [rev cur] end
  | c :: s' =>
      if c =? 32 then match cur with [] => words_from [] s' | _ => rev cur :: words_from [] s' end
      else words_from (c :: cur) s'
  end.

Definition words (s : list Z) : list (list Z) := words_from [] s.

Example words_ex : words [32; 97; 98; 32; 32; 99; 32] = [[97; 98]; [99]].
Proof. reflexivity. Qed.

Lemma words_skip s pre rest : span (fun c => memb c [32]) s = (pre, rest) -> words s = words rest.
Proof.
  revert pre rest. induction s as [|c s IH]; simpl; intros pre rest H; [by injection H as <- <-|].
  unfold memb in H. simpl in H. rewrite orb_false_r in H. unfold words. simpl.
  destruct (Z.eqb_spec c 32) as [->|Hc].
  - destruct (span _ s) as [a b] eqn:E. injection H as <- <-. by apply (IH a).
  - injection H as <- <-. simpl. by rewrite (proj2 (Z.eqb_neq c 32)).
Qed.

Lemma words_from_app cur s tok rest :
  span (fun c => negb (memb c [32])) s = (tok, rest) -> cur ++ tok <> [] ->
  words_from (rev cur) s = (cur ++ tok) :: words (tail rest).
Proof.
  assert (forall l : list Z, l <> [] -> match rev l with [] => [] | _ => [rev (rev l)] end = [l]) as Hrev.
  { intros l Hl. destruct (rev l) eqn:E; [by rewrite <- (rev_involutive l), E in Hl|].
    rewrite <- (rev_involutive l), E. done. }
  revert cur tok rest. induction s as [|c s IH]; simpl; intros cur tok rest H Hne.
  - injection H as <- <-. rewrite app_nil_r in *. by apply Hrev.
  - unfold memb in H. simpl in H. rewrite orb_false_r in H. destruct (Z.eqb_spec c 32) as [->|Hc]; cbn [negb] in H.
    + injection H as <- <-. rewrite app_nil_r in *. cbn [tail]. specialize (Hrev cur Hne).
      destruct (rev cur) as [|x l]; [done|]. cbn [rev] in *. by injection Hrev as ->.
    + destruct (span _ s) as [a b] eqn:E. injection H as <- <-.
      specialize (IH (cur ++ [c]) a b eq_refl). rewrite <- app_assoc, rev_app_distr in IH.
      apply IH. by destruct cur.
Qed.

Lemma span_head f s a c b : span f s = (a, c :: b) -> f c = false.
Proof.
  revert a. induction s as [|x s IH]; cbn [span]; intros a H; [done|].
  destruct (f x) eqn:E; [|by injection H as _ <- _]. destruct (span f s) as [a' b']. injection H as _ ->. by apply (IH a').
Qed.

Lemma words_tok s pre rest tok rest2 :
  span (fun c => memb c [32]) s = (pre, rest) -> span (fun c => negb (memb c [32])) rest = (tok, rest2) ->
  words s = match rest with [] => [] | _ => tok :: words (tail rest2) end.
Proof.
  intros H1 H2. rewrite (words_skip s pre rest H1). destruct rest as [|c rest]; [done|].
  assert (tok <> []) as Hne.
  { pose proof (span_head _ _ _ _ _ H1) as Hc. cbn [span] in H2. rewrite Hc in H2. cbn [negb] in H2.
    destruct (span _ rest). by injection H2 as <- <-. }
  by apply (words_from_app [] (c :: rest) tok rest2).
Qed.

(** ** Tokens of a string in memory *)

(** Nothing outside the addresses from [lo] to [hi] has changed. *)
Definition only (lo hi : Z) (m m' : mem) : Prop := forall a, a < lo \/ hi < a -> m' !! a = m !! a.

Lemma only_refl lo hi m : only lo hi m m.
Proof. done. Qed.

Lemma only_trans lo hi m m1 m2 : only lo hi m m1 -> only lo hi m1 m2 -> only lo hi m m2.
Proof. intros H1 H2 a Ha. rewrite H2 by done. by apply H1. Qed.

Lemma only_weaken lo hi lo' hi' m m' : only lo hi m m' -> lo' <= lo -> hi <= hi' -> only lo' hi' m m'.
Proof. intros H ? ? a Ha. apply H. lia. Qed.

Lemma only_cstr lo hi m m' p s :
  only lo hi m m' -> p + Z.of_nat (length s) < lo \/ hi < p -> cstr m p s -> cstr m' p s.
Proof. intros H Hp. apply cstr_agree. intros a Ha. apply H. lia. Qed.

(** A part of memory where there are bytes stays one. *)
Lemma only_block lo hi m m' p n :
  only lo hi m m' -> p + n <= lo \/ hi < p -> block m p n -> block m' p n.
Proof. intros H Hp Hb i Hi. destruct (Hb i Hi) as (b & Hm & Hr). exists b. rewrite H by lia. done. Qed.

(** [token] and [sv] in the area from [lo] to [hi] are the next token and the
    place to go on, with the words [ws] left. *)
Definition pending (m : mem) (lo hi token sv : Z) (ws : list (list Z)) : Prop :=
  match ws with
  | [] => token = NULL
  | tok :: ws' =>
      0 < token /\ lo <= token /\ token + Z.of_nat (length tok) <= hi /\ cstr m token tok /\
      exists rest, cstr m sv rest /\ words rest = ws' /\ lo <= sv /\ sv + Z.of_nat (length rest) = hi
  end.

Lemma pending_agree m m' lo hi t sv ws :
  (forall a, lo <= a <= hi -> m' !! a = m !! a) -> pending m lo hi t sv ws -> pending m' lo hi t sv ws.
Proof.
  intros Ha. destruct ws as [|tok ws]; [done|]. intros (H1 & H2 & H3 & H4 & rest & H5 & H6 & H7 & H8).
  split; [done|]. split; [done|]. split; [done|]. split; [eapply cstr_agree; [|done]; intros a ?; apply Ha; lia|].
  exists rest. split; [eapply cstr_agree; [|done]; intros a ?; apply Ha; lia|]. done.
Qed.

Section tokens.
Context (fuel : nat) (space : Z) (Hs0 : 0 < space).

Lemma tok_step m s save str :
  let p := if s =? NULL then save else s in
  cstr m space [32] -> cstr m p str -> 0 < p ->
  space + 1 < p \/ p + Z.of_nat (length str) < space -> (length str + 1 < fuel)%nat ->
  exists r sv m', strtok_r fuel s space save m = Ok ((r, sv), m') /\
    only p (p + Z.of_nat (length str)) m m' /\ pending m' p (p + Z.of_nat (length str)) r sv (words str).
Proof.
  intros p Hsp Hp Hp0 Hov Hf.
  destruct (span (fun c => memb c [32]) str) as [pre rest] eqn:E1.
  destruct (span (fun c => negb (memb c [32])) rest) as [tok rest2] eqn:E2.
  destruct (strtok_r_run m space [32] Hsp Hs0 fuel s save str pre rest tok rest2) as (r & sv & m' & Hr & Hm & Hres);
    [done|done|simpl; fold p; lia|simpl; lia|done|done|].
  fold p in Hm, Hres. exists r, sv, m'. split; [done|]. split; [exact Hm|].
  rewrite (words_tok str pre rest tok rest2 E1 E2). pose proof (span_app _ _ _ _ E1) as A1.
  pose proof (span_app _ _ _ _ E2) as A2.
  assert (length str = length pre + length rest)%nat by (rewrite A1; apply length_app).
  assert (length rest = length tok + length rest2)%nat by (rewrite A2; apply length_app).
  assert (length (tail rest2) <= length rest2)%nat by (destruct rest2; simpl; lia).
  destruct rest as [|c rest]; [apply Hres|]. destruct Hres as (-> & Htok & Hsv & Hpos). cbn [pending].
  split; [lia|]. split; [lia|]. split; [lia|]. split; [done|]. exists (tail rest2).
  split; [done|]. split; [done|]. split; lia.
Qed.

Lemma next_token m lo hi token sv tok ws :
  cstr m space [32] -> 0 < lo -> space + 1 < lo \/ hi < space -> hi - lo + 2 <= Z.of_nat fuel ->
  pending m lo hi token sv (tok :: ws) ->
  exists r sv' m', strtok_r fuel NULL space sv m = Ok ((r, sv'), m') /\
    only lo hi m m' /\ pending m' lo hi r sv' ws.
Proof.
  intros Hsp Hlo Hov Hf (_ & _ & _ & _ & rest & Hr & <- & Hsv & Hhi).
  destruct (tok_step m NULL sv rest Hsp) as (r & sv' & m' & Hrun & Hm & Hp);
    cbn [NULL Z.eqb] in *; [done|lia|lia|lia|].
  rewrite Hhi in Hm, Hp. exists r, sv', m'. split; [done|]. split; [eapply only_weaken; [done|lia|lia]|].
  destruct (words rest) as [|t ws]; [done|]. destruct Hp as (P1 & P2 & P3 & P4 & rest' & P5 & P6 & P7 & P8).
  split; [done|]. split; [lia|]. split; [done|]. split; [done|]. exists rest'. split; [done|]. split; [done|]. lia.
Qed.

Lemma count_tokens_ok n m lo hi token sv count ws :
  cstr m space [32] -> 0 < lo -> space + 1 < lo \/ hi < space -> hi - lo + 2 <= Z.of_nat fuel ->
  pending m lo hi token sv ws -> (length ws < n)%nat ->
  exists m', count_loop fuel space n token sv count m = Ok (count + Z.of_nat (length ws), m') /\ only lo hi m m'.
Proof.
  intros Hsp Hlo Hov Hf. revert m token sv count ws Hsp. induction n as [|n IH]; intros m token sv count ws Hsp Hp Hn; [lia|].
  cbn [count_loop]. destruct ws as [|tok ws].
  - rewrite Hp. exists m. cbn. by rewrite Z.add_0_r.
  - rewrite (proj2 (Z.eqb_neq token NULL)) by (destruct Hp; unfold NULL; lia).
    destruct (next_token m lo hi token sv tok ws Hsp Hlo Hov Hf Hp) as (r & sv' & m1 & Hr & H1 & Hp1). mrun Hr.
    destruct (IH m1 r sv' (count + 1) ws) as (m' & Hr' & H2).
    { eapply only_cstr; [exact H1|simpl; lia|done]. }
    { done. }
    { simpl in Hn. lia. }
    exists m'. rewrite Hr'. split; [|by eapply only_trans]. cbn [length]. do 2 f_equal. lia.
Qed.

Lemma words_length s : (length (words s) <= length s)%nat.
Proof.
  assert (forall s cur, length (words_from cur s) <= length s + match cur with [] => 0 | _ => 1 end)%nat as H.
  { clear. induction s as [|c s IH]; intros cur; simpl; [by destruct cur|]. destruct (c =? 32).
    - destruct cur; simpl; specialize (IH []); simpl in IH; lia.
    - specialize (IH (c :: cur)). simpl in IH. lia. }
  specialize (H s []). cbn iota in H. unfold words. rewrite Nat.add_0_r in H. exact H.
Qed.

Lemma num_tokens_ok m strcopy str s :
  cstr m space [32] -> cstr m str s -> 0 < str -> 0 < strcopy -> block m strcopy (Z.of_nat (length s) + 1) ->
  strcopy + Z.of_nat (length s) < str \/ str + Z.of_nat (length s) < strcopy ->
  space + 1 < strcopy \/ strcopy + Z.of_nat (length s) < space -> (length s + 2 <= fuel)%nat ->
  exists m', num_tokens fuel space strcopy str m = Ok (Z.of_nat (length (words s)), m') /\
    only strcopy (strcopy + Z.of_nat (length s)) m m'.
Proof.
  intros Hsp Hs Hs1 Hc0 Hb Hov1 Hov2 Hf. unfold num_tokens. mrun (strlen_ok fuel m str s Hs ltac:(unfold NULL; lia) ltac:(lia)).
  destruct (strlcpy_ok fuel m strcopy str (Z.of_nat (length s) + 1) s) as (m1 & Hr1 & Hc1 & H1);
    [done|done|unfold NULL; lia|unfold NULL; lia|lia|lia|lia|].
  rewrite take_ge in Hc1 by lia. mrun Hr1.
  assert (only strcopy (strcopy + Z.of_nat (length s)) m m1) as O1 by (intros a Ha; apply H1; lia).
  assert ((strcopy =? NULL) = false) as Ez by (apply Z.eqb_neq; unfold NULL; lia).
  destruct (tok_step m1 strcopy NULL s) as (r & sv & m2 & Hr2 & O2 & Hp); rewrite ?Ez in *; try done; [|lia|].
  { eapply only_cstr; [exact O1|simpl; lia|done]. }
  mrun Hr2. pose proof (words_length s).
  destruct (count_tokens_ok fuel m2 strcopy (strcopy + Z.of_nat (length s)) r sv 0 (words s)) as (m3 & Hr3 & O3);
    [|done|lia|lia|done|lia|].
  { eapply only_cstr; [exact (only_trans _ _ _ _ _ O1 O2)|simpl; lia|done]. }
  exists m3. rewrite Hr3. split; [done|]. eapply only_trans; [|exact O3]. by eapply only_trans.
Qed.
End tokens.

(** ** The stack *)

(** Addresses for which the arithmetic on the stack pointer does not wrap. *)
Lemma sub_u32 esp k : 0 <= k -> 0 <= esp - k -> esp < 4294967296 -> u32 (esp - k) = esp - k.
Proof. intros. apply u32_id. lia. Qed.

Definition word_is (m : mem) (p v : Z) : Prop := load_word p m = Ok (v, m).

Lemma word_is_bytes m p v :
  word_is m p v <->
  exists a b c d, m !! p = Some a /\ m !! (p + 1) = Some b /\ m !! (p + 2) = Some c /\ m !! (p + 3) = Some d /\
    v = a + Z.shiftl b 8 + Z.shiftl c 16 + Z.shiftl d 24.
Proof.
  unfold word_is, load_word, load, gets_opt, bind, ret. split.
  - intros H. repeat (case_match; simplify_eq). eauto 10.
  - intros (a & b & c & d & -> & -> & -> & -> & ->). done.
Qed.

Lemma word_is_agree m m' p v :
  (forall a, p <= a <= p + 3 -> m' !! a = m !! a) -> word_is m p v -> word_is m' p v.
Proof. intros Ha. rewrite !word_is_bytes. by rewrite !Ha by lia. Qed.

Lemma bytes_of_word v :
  0 <= v < 4294967296 ->
  u8 v + Z.shiftl (u8 (Z.shiftr v 8)) 8 + Z.shiftl (u8 (Z.shiftr v 16)) 16 + Z.shiftl (u8 (Z.shiftr v 24)) 24 = v.
Proof.
  intros Hv. unfold u8. rewrite !Z.shiftl_mul_pow2, !Z.shiftr_div_pow2 by lia.
  change (2 ^ 8) with 256. change (2 ^ 16) with 65536. change (2 ^ 24) with 16777216.
  assert (v / 65536 = v / 256 / 256) as -> by (by rewrite Z.div_div).
  assert (v / 16777216 = v / 256 / 256 / 256) as -> by (by rewrite !Z.div_div).
  pose proof (Z.div_mod v 256 ltac:(lia)). pose proof (Z.div_mod (v / 256) 256 ltac:(lia)).
  pose proof (Z.div_mod (v / 256 / 256) 256 ltac:(lia)). pose proof (Z.div_mod (v / 256 / 256 / 256) 256 ltac:(lia)).
  assert (v / 256 / 256 / 256 / 256 = 0) by (rewrite !Z.div_div by lia; apply Z.div_small; lia). lia.
Qed.

Lemma store_word_ok m p v :
  block m p 4 -> 0 <= v < 4294967296 ->
  exists m', store_word p v m = Ok (tt, m') /\ word_is m' p v /\ only p (p + 3) m m'.
Proof.
  intros Hb Hv. destruct (Hb 0 ltac:(lia)) as (b0 & H0 & _). destruct (Hb 1 ltac:(lia)) as (b1 & H1 & _).
  destruct (Hb 2 ltac:(lia)) as (b2 & H2 & _). destruct (Hb 3 ltac:(lia)) as (b3 & H3 & _). rewrite Z.add_0_r in H0.
  unfold store_word, store. unfold bind, load, gets_opt, modify. cbn.
  rewrite H0, lookup_insert_ne, H1 by lia. rewrite !lookup_insert_ne, H2 by lia. rewrite !lookup_insert_ne, H3 by lia.
  eexists. split; [done|]. split.
  - apply word_is_bytes. eexists _, _, _, _.
    rewrite !lookup_insert_eq, !(lookup_insert_ne _ (p + 3)), !(lookup_insert_ne _ (p + 2)), !(lookup_insert_ne _ (p + 1)) by lia.
    rewrite !lookup_insert_eq. do 4 (split; [done|]). by rewrite bytes_of_word.
  - intros a Ha. by rewrite !lookup_insert_ne by lia.
Qed.

Lemma store_byte_block m p : is_byte m p -> store p 0 m = Ok (tt, <[p := 0]> m).
Proof. intros (b & Hb & _). by apply (store_ok m p b 0). Qed.

Section push.
Context (fuel : nat) (bot : Z) (Hbot : 0 < bot).

(** The bytes from [bot] up to [esp] may be overwritten. *)
Lemma push_arg_ok m arg s esp :
  cstr m arg s -> 0 < arg -> (length s < fuel)%nat -> esp < 4294967296 ->
  let esp' := esp - (Z.of_nat (length s) + 1) in
  bot <= esp' -> block m esp' (Z.of_nat (length s) + 1) ->
  esp <= arg \/ arg + Z.of_nat (length s) < esp' ->
  exists m', push_arg fuel arg esp m = Ok (esp', m') /\ cstr m' esp' s /\ only esp' (esp - 1) m m'.
Proof.
  intros Hs Ha Hf He esp' Hlo Hb Hov. unfold push_arg.
  mrun (strlen_ok fuel m arg s Hs ltac:(unfold NULL; lia) Hf). rewrite sub_u32 by lia. fold esp'.
  destruct (strlcpy_ok fuel m esp' arg (Z.of_nat (length s) + 1) s) as (m1 & Hr1 & Hc1 & H1);
    [done|done|unfold NULL; lia|unfold NULL; lia|lia|lia|lia|].
  rewrite take_ge in Hc1 by lia. mrun Hr1. exists m1. split; [done|]. split; [done|]. intros a Hx. apply H1. lia.
Qed.

Lemma push_bytes_ok n m esp :
  bot <= esp - Z.of_nat n -> esp < 4294967296 -> block m (esp - Z.of_nat n) (Z.of_nat n) ->
  exists m', push_bytes n esp m = Ok (esp - Z.of_nat n, m') /\ only (esp - Z.of_nat n) (esp - 1) m m'.
Proof.
  revert m esp. induction n as [|n IH]; intros m esp Hlo He Hb.
  - exists m. cbn. by rewrite Z.sub_0_r.
  - cbn [push_bytes]. unfold push_byte. rewrite sub_u32 by lia.
    pose proof (Hb (Z.of_nat n) ltac:(lia)) as Hy.
    replace (esp - Z.of_nat (S n) + Z.of_nat n) with (esp - 1) in Hy by lia.
    assert ((store (esp - 1) 0 ;;; ret (esp - 1)) m = Ok (esp - 1, <[esp - 1 := 0]> m)) as Hr.
    { by mrun (store_byte_block m (esp - 1) Hy). }
    mrun Hr. destruct (IH (<[esp - 1 := 0]> m) (esp - 1)) as (m' & Hr' & Ho); [lia|lia| |].
    + intros i Hi. replace (esp - 1 - Z.of_nat n + i) with (esp - Z.of_nat (S n) + i) by lia.
      apply is_byte_insert; [lia|]. apply Hb. lia.
    + exists m'. replace (esp - Z.of_nat (S n)) with (esp - 1 - Z.of_nat n) by lia. split; [done|].
      intros a Ha. rewrite Ho by lia. by rewrite lookup_insert_ne by lia.
Qed.

Lemma push_arg_ptr_ok m v esp :
  bot <= esp - 4 -> esp < 4294967296 -> block m (esp - 4) 4 -> 0 <= v < 4294967296 ->
  exists m', push_arg_ptr v esp m = Ok (esp - 4, m') /\ word_is m' (esp - 4) v /\ only (esp - 4) (esp - 1) m m'.
Proof.
  intros Hlo He Hb Hv. unfold push_arg_ptr. rewrite sub_u32 by lia.
  destruct (store_word_ok m (esp - 4) v Hb Hv) as (m' & Hr & Hw & Ho). mrun Hr. exists m'.
  split; [done|]. split; [done|]. eapply only_weaken; [done|lia|lia].
Qed.

Lemma push_ptrs_ok n m argv esp :
  (n <= length argv)%nat -> Forall (fun v => 0 <= v < 4294967296) argv ->
  bot <= esp - 4 * Z.of_nat n -> esp < 4294967296 -> block m (esp - 4 * Z.of_nat n) (4 * Z.of_nat n) ->
  exists m', push_ptrs n argv esp m = Ok (esp - 4 * Z.of_nat n, m') /\
    (forall i v, (i < n)%nat -> argv !! i = Some v -> word_is m' (esp - 4 * Z.of_nat n + 4 * Z.of_nat i) v) /\
    only (esp - 4 * Z.of_nat n) (esp - 1) m m'.
Proof.
  revert m esp. induction n as [|n IH]; intros m esp Hn Hall Hlo He Hb.
  - exists m. cbn. rewrite Z.sub_0_r. split; [done|]. split; [intros; lia|done].
  - cbn [push_ptrs]. destruct (lookup_lt_is_Some_2 argv n) as [v Hv]; [lia|].
    unfold gets_opt at 1. unfold bind at 1. rewrite Hv.
    pose proof (proj1 (Forall_lookup _ _) Hall n v Hv) as Hv0. cbn beta in Hv0.
    destruct (push_arg_ptr_ok m v esp) as (m1 & Hr1 & Hw1 & O1); [lia|lia| |done|].
    { intros i Hi. replace (esp - 4 + i) with (esp - 4 * Z.of_nat (S n) + (4 * Z.of_nat n + i)) by lia. apply Hb. lia. }
    mrun Hr1. replace (esp - 4 * Z.of_nat (S n)) with (esp - 4 - 4 * Z.of_nat n) in * by lia.
    destruct (IH m1 (esp - 4)) as (m' & Hr & Hw & O2); [lia|done|lia|lia| |].
    { eapply only_block; [exact O1|lia|]. intros i Hi. apply Hb. lia. }
    exists m'. split; [done|]. split.
    + intros i w Hi Hiw. destruct (decide (i = n)) as [->|]; [|apply Hw; [lia|done]].
      assert (w = v) as -> by congruence. replace (esp - 4 - 4 * Z.of_nat n + 4 * Z.of_nat n) with (esp - 4) by lia.
      eapply word_is_agree; [|exact Hw1]. intros a Ha. apply O2. lia.
    + intros a Ha. rewrite O2 by lia. apply O1. lia.
Qed.
End push.

(** ** The arguments on the stack *)

(** The bytes of the strings with their terminators. *)
Definition size (ws : list (list Z)) : Z := foldr (fun w n => Z.of_nat (length w) + 1 + n) 0 ws.

(** The bytes that are pushed to align the stack pointer, and the whole frame. *)
Definition padding (ws : list (list Z)) : Z := 4 - (PHYS_BASE - size ws) mod 4.
Definition frame_size (ws : list (list Z)) : Z := size ws + padding ws + 4 * (Z.of_nat (length ws) + 1) + 12.

Lemma size_nonneg ws : Z.of_nat (length ws) <= size ws.
Proof. induction ws as [|w ws IH]; simpl; lia. Qed.

Definition pushed (m : mem) (esp : Z) (argv : list Z) (ws : list (list Z)) : Prop :=
  Forall2 (fun a w => cstr m a w /\ esp <= a /\ a + Z.of_nat (length w) < PHYS_BASE) argv ws.

Lemma pushed_agree m m' esp esp' argv ws :
  (forall a, esp <= a < PHYS_BASE -> m' !! a = m !! a) -> esp' <= esp -> pushed m esp argv ws -> pushed m' esp' argv ws.
Proof.
  intros Ha He Hp. eapply Forall2_impl; [exact Hp|]. intros a w (H1 & H2 & H3). split; [|lia].
  eapply cstr_agree; [|done]. intros x Hx. apply Ha. lia.
Qed.

Section frame.
Context (fuel : nat) (space strcopy : Z) (Hspace : PHYS_BASE <= space).

Let bot : Z := PHYS_BASE - 4096.

Lemma bot_pos : 0 < bot /\ PHYS_BASE < 4294967296.
Proof. unfold bot, Palloc.PHYS_BASE. lia. Qed.

Lemma push_loop_ok n m lo hi arg sv argc argv old esp ws :
  cstr m space [32] -> PHYS_BASE <= lo -> space + 1 < lo \/ hi < space -> hi - lo + 2 <= Z.of_nat fuel ->
  pending m lo hi arg sv ws -> pushed m esp argv old -> (length ws < n)%nat ->
  Z.of_nat (length old + length ws) <= argc -> bot <= esp - size ws -> esp <= PHYS_BASE -> block m bot (esp - bot) ->
  exists m' argv', push_loop fuel space n arg sv argc argv esp m = Ok ((Some argv', esp - size ws), m') /\
    pushed m' (esp - size ws) argv' (old ++ ws) /\
    forall a, a < lo \/ hi < a -> a < esp - size ws \/ esp <= a -> m' !! a = m !! a.
Proof.
  destruct bot_pos as [Hb0 Hpb].
  revert m arg sv argv old esp ws. induction n as [|n IH]; intros m arg sv argv old esp ws Hsp Hlo Hov Hf Hp Hpu Hn Hc Hb He Hbl; [lia|].
  cbn [push_loop]. destruct ws as [|tok ws].
  { rewrite Hp. exists m, argv. cbn. rewrite Z.sub_0_r, app_nil_r. done. }
  cbn [size foldr] in *. fold (size ws) in *. pose proof (size_nonneg ws).
  pose proof Hp as (P1 & P2 & P3 & P4 & _).
  rewrite (proj2 (Z.eqb_neq arg NULL)) by (unfold NULL; lia).
  rewrite s32_id, Z.gtb_ltb, (proj2 (Z.ltb_ge _ _)) by (unfold MAX_ARGS_SIZE, bot in *; lia).
  pose proof (Forall2_length _ _ _ Hpu) as Hlen. simpl in Hc, Hn.
  rewrite (proj2 (Z.ltb_lt _ _)) by lia. mnorm. set (esp1 := esp - (Z.of_nat (length tok) + 1)).
  destruct (push_arg_ok fuel bot Hb0 m arg tok esp P4 P1) as (m1 & Hr1 & Hc1 & O1); [lia|lia|unfold esp1 in *; lia| |lia|].
  { intros i Hi. replace (esp - (Z.of_nat (length tok) + 1) + i) with (bot + (esp1 - bot + i)) by (unfold esp1; lia).
    apply Hbl. unfold esp1. lia. }
  fold esp1 in Hr1, Hc1, O1. mrun Hr1.
  assert (pending m1 lo hi arg sv (tok :: ws)) as Hp1.
  { eapply pending_agree; [|exact Hp]. intros a Ha. apply O1. lia. }
  destruct (next_token fuel space ltac:(lia) m1 lo hi arg sv tok ws) as (r & sv' & m2 & Hr2 & O2 & Hp2);
    [|lia|done|done|done|].
  { eapply only_cstr; [exact O1|simpl; lia|done]. }
  mrun Hr2.
  destruct (IH m2 r sv' (argv ++ [esp1]) (old ++ [tok]) esp1 ws) as (m' & argv' & Hr & Hpu' & Ho);
    try done; try (unfold esp1 in *; lia).
  - eapply only_cstr; [exact O2|simpl; lia|]. eapply only_cstr; [exact O1|simpl; lia|done].
  - apply Forall2_app.
    + apply (pushed_agree m _ esp); [|unfold esp1; lia|exact Hpu]. intros a Ha. rewrite O2 by lia. apply O1. lia.
    + constructor; [|constructor]. split; [eapply only_cstr; [exact O2|unfold esp1 in *; lia|done]|]. unfold esp1 in *. lia.
  - rewrite length_app. simpl. lia.
  - eapply only_block; [exact O2|unfold esp1 in *; lia|]. eapply only_block; [exact O1|lia|].
    intros i Hi. apply Hbl. unfold esp1 in *. lia.
  - exists m', argv'. replace (esp - (Z.of_nat (length tok) + 1 + size ws)) with (esp1 - size ws) by (unfold esp1; lia).
    split; [done|]. split; [by rewrite <- app_assoc in Hpu'|]. intros a Ha1 Ha2.
    rewrite Ho by (unfold esp1 in *; lia). rewrite O2 by lia. apply O1. unfold esp1 in *. lia.
Qed.
End frame.

(** What a C program finds on its stack: a return address, the number of
    arguments, the array of their addresses with its null pointer, and the
    strings. *)
Record c_frame (m : mem) (esp : Z) (ws : list (list Z)) : Prop := {
  cf_return : word_is m esp NULL;
  cf_argc : word_is m (esp + 4) (Z.of_nat (length ws));
  cf_argv : word_is m (esp + 8) (esp + 12);
  cf_args : forall i w, ws !! i = Some w ->
    exists a, word_is m (esp + 12 + 4 * Z.of_nat i) a /\ cstr m a w /\ esp <= a /\ a + Z.of_nat (length w) < PHYS_BASE;
  cf_null : word_is m (esp + 12 + 4 * Z.of_nat (length ws)) 0
}.

Lemma padding_ok ws : 1 <= padding ws <= 4.
Proof. unfold padding. pose proof (Z.mod_pos_bound (PHYS_BASE - size ws) 4 ltac:(lia)). lia. Qed.

(** The padding would have to be the remainder itself: the stack pointer ends
    up on a word only when the strings have an even number of bytes. *)
Lemma frame_alignment ws : (PHYS_BASE - frame_size ws) mod 4 = 2 * (size ws mod 2).
Proof.
  unfold frame_size, padding, Palloc.PHYS_BASE. set (s := size ws). set (n := Z.of_nat (length ws)).
  pose proof (Z.div_mod (3221225472 - s) 4 ltac:(lia)). pose proof (Z.mod_pos_bound (3221225472 - s) 4 ltac:(lia)).
  pose proof (Z.div_mod s 2 ltac:(lia)). pose proof (Z.mod_pos_bound s 2 ltac:(lia)).
  set (r := (3221225472 - s) mod 4) in *. set (q := (3221225472 - s) / 4) in *.
  set (t := s mod 2) in *. set (h := s / 2) in *.
  symmetry. apply (Z.mod_unique _ _ (q - 5 - n + if 2 <=? r then 1 else 0)); [lia|].
  destruct (Z.leb_spec 2 r); lia.
Qed.

Lemma block_sub m p n q k : block m p n -> p <= q -> q + k <= p + n -> block m q k.
Proof. intros Hb H1 H2 i Hi. replace (q + i) with (p + (q - p + i)) by lia. apply Hb. lia. Qed.

(** The words above the strings. *)
Lemma push_frame_ok m ws argv :
  let bot := PHYS_BASE - 4096 in let esp := PHYS_BASE - size ws in
  pushed m esp argv ws -> frame_size ws <= 4096 -> block m bot (esp - bot) ->
  exists m', push_frame (Z.of_nat (length ws)) argv esp m = Ok ((1, PHYS_BASE - frame_size ws), m') /\
    c_frame m' (PHYS_BASE - frame_size ws) ws /\
    forall a, a < PHYS_BASE - frame_size ws \/ esp <= a -> m' !! a = m !! a.
Proof.
  intros bot esp Hpu Hfit Hbl. destruct bot_pos as [Hb0 Hpb]. fold bot in Hb0.
  pose proof (Forall2_length _ _ _ Hpu) as Hlen. pose proof (padding_ok ws) as Hpad. pose proof (size_nonneg ws).
  set (n := Z.of_nat (length ws)) in *. assert (0 <= n) by lia.
  unfold frame_size in *. fold n in Hfit |- *. set (k := padding ws) in *.
  unfold push_frame. replace (WORD_SIZE - esp mod WORD_SIZE) with k by done.
  destruct (push_bytes_ok bot Hb0 (Z.to_nat k) m esp) as (m1 & Hr1 & O1);
    rewrite ?Z2Nat.id in * by lia; [lia|lia|eapply block_sub; [done|lia|lia]|]. mrun Hr1.
  assert (block m1 bot (esp - k - bot)) as B1 by (eapply only_block; [done|lia|eapply block_sub; [done|lia|lia]]).
  destruct (push_arg_ptr_ok bot Hb0 m1 0 (esp - k)) as (m2 & Hr2 & W2 & O2); [lia|lia|eapply block_sub; [done|lia|lia]|lia|].
  mrun Hr2.
  assert (block m2 bot (esp - k - 4 - bot)) as B2 by (eapply only_block; [done|lia|eapply block_sub; [done|lia|lia]]).
  destruct (push_ptrs_ok bot Hb0 (Z.to_nat n) m2 argv (esp - k - 4)) as (m3 & Hr3 & W3 & O3);
    rewrite ?Z2Nat.id in * by lia; [unfold n; lia| |lia|lia|eapply block_sub; [done|lia|lia]|].
  { eapply Forall2_Forall_l; [exact Hpu|]. apply Forall_true. intros w a (_ & ? & ?). lia. }
  mrun Hr3. set (base := esp - k - 4 - 4 * n) in *.
  assert (block m3 bot (base - bot)) as B3 by (eapply only_block; [done|lia|eapply block_sub; [done|lia|lia]]).
  rewrite (sub_u32 base 4) by lia.
  destruct (store_word_ok m3 (base - 4) base) as (m4 & Hr4 & W4 & O4); [eapply block_sub; [done|lia|lia]|lia|]. mrun Hr4.
  assert (block m4 bot (base - 4 - bot)) as B4 by (eapply only_block; [done|lia|eapply block_sub; [done|lia|lia]]).
  rewrite (sub_u32 (base - 4) 4) by lia.
  destruct (store_word_ok m4 (base - 4 - 4) n) as (m5 & Hr5 & W5 & O5); [eapply block_sub; [done|lia|lia]|lia|]. mrun Hr5.
  assert (block m5 bot (base - 4 - 4 - bot)) as B5 by (eapply only_block; [done|lia|eapply block_sub; [done|lia|lia]]).
  rewrite (sub_u32 (base - 4 - 4) 4) by lia.
  destruct (store_word_ok m5 (base - 4 - 4 - 4) NULL) as (m6 & Hr6 & W6 & O6);
    [eapply block_sub; [done|lia|lia]|unfold NULL; lia|]. mrun Hr6.
  replace (PHYS_BASE - (size ws + k + 4 * (n + 1) + 12)) with (base - 4 - 4 - 4) by (unfold base, esp; lia).
  exists m6. split; [done|]. set (e := base - 4 - 4 - 4) in *. split.
  - constructor.
    + done.
    + apply (word_is_agree m5); [intros a Ha; apply O6; unfold e in *; lia|].
      by replace (e + 4) with (base - 4 - 4) by (unfold e; lia).
    + replace (e + 12) with base by (unfold e; lia). replace (e + 8) with (base - 4) by (unfold e; lia).
      apply (word_is_agree m4); [intros a Ha; rewrite O6, O5 by (unfold e in *; lia); done|done].
    + intros i w Hw. destruct (Forall2_lookup_r _ _ _ _ _ Hpu Hw) as (a & Ha & Hc & Ha1 & Ha2). exists a.
      pose proof (lookup_lt_Some _ _ _ Hw). split; [|split; [|unfold e, base; lia]].
      * replace (e + 12 + 4 * Z.of_nat i) with (base + 4 * Z.of_nat i) by (unfold e; lia).
        apply (word_is_agree m3); [intros x Hx; rewrite O6, O5, O4 by (unfold e in *; lia); done|].
        apply W3; [unfold n; lia|done].
      * eapply cstr_agree; [|exact Hc]. intros x Hx. rewrite O6, O5, O4, O3, O2, O1 by (unfold e, base in *; lia). done.
    + fold n. replace (e + 12 + 4 * n) with (esp - k - 4) by (unfold e, base; lia).
      apply (word_is_agree m2); [intros x Hx; rewrite O6, O5, O4, O3 by (unfold e, base in *; lia); done|done].
  - intros a Ha. rewrite O6, O5, O4, O3, O2, O1 by (unfold e, base in *; lia). done.
Qed.

(** ** The whole *)

Section start.
Context (fuel : nat) (space strcopy : Z) (Hspace : PHYS_BASE <= space) (Hcopy : PHYS_BASE <= strcopy).

Lemma push_arguments_ok m file_name arguments name rest :
  cstr m space [32] -> cstr m file_name name -> cstr m arguments rest ->
  block m strcopy (Z.of_nat (length rest) + 1) -> block m (PHYS_BASE - 4096) 4096 ->
  PHYS_BASE <= file_name -> PHYS_BASE <= arguments ->
  let hi := arguments + Z.of_nat (length rest) in
  space + 1 < arguments \/ hi < space ->
  strcopy + Z.of_nat (length rest) < arguments \/ hi < strcopy ->
  space + 1 < strcopy \/ strcopy + Z.of_nat (length rest) < space ->
  strcopy + Z.of_nat (length rest) < file_name \/ file_name + Z.of_nat (length name) < strcopy ->
  (length rest + 2 <= fuel)%nat -> (length name < fuel)%nat -> frame_size (name :: words rest) <= 4096 ->
  exists m', push_arguments fuel space strcopy file_name arguments PHYS_BASE m
      = Ok ((1, PHYS_BASE - frame_size (name :: words rest)), m') /\
    c_frame m' (PHYS_BASE - frame_size (name :: words rest)) (name :: words rest) /\
    forall a, (a < arguments \/ hi < a) -> (a < strcopy \/ strcopy + Z.of_nat (length rest) < a) ->
      (a < PHYS_BASE - frame_size (name :: words rest) \/ PHYS_BASE <= a) -> m' !! a = m !! a.
Proof.
  intros Hsp Hname Hrest Hbc Hbs Hf0 Ha0 hi Hov1 Hov2 Hov3 Hov4 Hfu Hfn Hfit. destruct bot_pos as [Hb0 Hpb].
  pose proof (size_nonneg (words rest)) as Hws. pose proof (padding_ok (name :: words rest)) as Hpad.
  assert (size (name :: words rest) = Z.of_nat (length name) + 1 + size (words rest)) as Esz by done.
  assert (size (name :: words rest) <= 4096) as Hsz by (unfold frame_size in Hfit; lia).
  assert (0 < PHYS_BASE) as Hpos by lia. unfold push_arguments.
  destruct (num_tokens_ok fuel space ltac:(lia) m strcopy arguments rest) as (m1 & Hr1 & O1); [done|done|lia|lia|done|done|done|done|].
  mrun Hr1.
  destruct (push_arg_ok fuel (PHYS_BASE - 4096) Hb0 m1 file_name name PHYS_BASE) as (m2 & Hr2 & Hc2 & O2);
    [eapply only_cstr; [exact O1|lia|done]|lia|lia|lia|lia| |lia|].
  { eapply only_block; [exact O1|lia|]. eapply block_sub; [exact Hbs|lia|lia]. }
  mrun Hr2. set (esp1 := PHYS_BASE - (Z.of_nat (length name) + 1)) in *.
  assert (cstr m2 space [32]) as Hsp2.
  { eapply only_cstr; [exact O2|simpl; lia|]. eapply only_cstr; [exact O1|simpl; lia|done]. }
  assert (cstr m2 arguments rest) as Hrest2.
  { eapply only_cstr; [exact O2|lia|]. eapply only_cstr; [exact O1|lia|done]. }
  assert ((arguments =? NULL) = false) as Ez by (apply Z.eqb_neq; unfold NULL; lia).
  destruct (tok_step fuel space ltac:(lia) m2 arguments NULL rest) as (r & sv & m3 & Hr3 & O3 & Hp);
    rewrite ?Ez in *; try done; [lia|lia|].
  fold hi in O3, Hp. mrun Hr3. pose proof (words_length rest) as Hwl.
  destruct (push_loop_ok fuel space Hspace fuel m3 arguments hi r sv (Z.of_nat (length (words rest)) + 1) [esp1] [name] esp1 (words rest))
    as (m4 & argv & Hr4 & Hpu & O4); try done; try (unfold esp1, hi in *; lia).
  - eapply only_cstr; [exact O3|simpl; lia|done].
  - constructor; [|constructor]. split; [eapply only_cstr; [exact O3|unfold esp1 in *; lia|done]|]. unfold esp1. lia.
  - simpl. lia.
  - eapply only_block; [exact O3|unfold esp1 in *; lia|]. eapply only_block; [exact O2|unfold esp1 in *; lia|].
    eapply only_block; [exact O1|unfold esp1 in *; lia|]. eapply block_sub; [exact Hbs|lia|unfold esp1; lia].
  - mrun Hr4. replace (esp1 - size (words rest)) with (PHYS_BASE - size (name :: words rest)) in * by (unfold esp1; lia).
    destruct (push_frame_ok m4 (name :: words rest) argv Hpu Hfit) as (m5 & Hr5 & Hcf & O5).
    { intros i Hi. assert (is_byte m (PHYS_BASE - 4096 + i)) as (b & Hb & Hbr) by (apply Hbs; lia). exists b.
      rewrite O4, O3, O2, O1 by (unfold esp1, hi in *; lia). done. }
    exists m5. replace (Z.of_nat (length (words rest)) + 1) with (Z.of_nat (length (name :: words rest))) by (simpl; lia).
    rewrite Hr5. split; [done|]. split; [done|]. intros a H1 H2 H3.
    assert (frame_size (name :: words rest) >= size (name :: words rest)) by (unfold frame_size; lia).
    rewrite O5, O4, O3, O2, O1 by (unfold esp1, hi in *; lia). done.
Qed.

(** C22: starting a process with a command line whose frame fits the stack
    page leaves, at the stack pointer that start_process passes to the
    program, a return address, the number of words of the command line, the
    address of the array of arguments, the array with the address of each
    word as a string of its own and a null pointer, and changes no other
    memory but the command line and the scratch copy.  The stack pointer is
    a multiple of 4 only when the strings have an even number of bytes. *)
Theorem start_process_args_ok m cmd s name args :
  cstr m space [32] -> cstr m cmd s -> words s = name :: args -> block m (PHYS_BASE - 4096) 4096 ->
  block m strcopy (Z.of_nat (length s) + 1) -> PHYS_BASE <= cmd ->
  space + 1 < cmd \/ cmd + Z.of_nat (length s) < space ->
  strcopy + Z.of_nat (length s) < cmd \/ cmd + Z.of_nat (length s) < strcopy ->
  space + 1 < strcopy \/ strcopy + Z.of_nat (length s) < space ->
  (length s + 2 <= fuel)%nat -> frame_size (name :: args) <= 4096 ->
  exists esp m', start_process_args fuel space strcopy cmd PHYS_BASE m = Ok ((1, esp), m') /\
    c_frame m' esp (name :: args) /\ esp = PHYS_BASE - frame_size (name :: args) /\
    esp mod 4 = 2 * (size (name :: args) mod 2) /\
    forall a, (a < cmd \/ cmd + Z.of_nat (length s) < a) -> (a < strcopy \/ strcopy + Z.of_nat (length s) < a) ->
      (a < esp \/ PHYS_BASE <= a) -> m' !! a = m !! a.
Proof.
  intros Hsp Hs Hw Hbs Hbc Hc0 Hov1 Hov2 Hov3 Hfu Hfit. destruct bot_pos as [Hb0 Hpb].
  assert (0 < PHYS_BASE) as Hpos by (unfold Palloc.PHYS_BASE; lia). unfold start_process_args.
  assert ((cmd =? NULL) = false) as Ez by (apply Z.eqb_neq; unfold NULL; lia).
  destruct (tok_step fuel space ltac:(lia) m cmd cmd s) as (r & sv & m1 & Hr1 & O1 & Hp);
    rewrite ?Ez in *; try done; [lia|lia|]. mrun Hr1.
  rewrite Hw in Hp. destruct Hp as (P1 & P2 & P3 & P4 & rest & P5 & P6 & P7 & P8). subst args.
  assert (length rest <= length s)%nat by lia. assert (length name <= length s)%nat by lia.
  destruct (push_arguments_ok m1 r sv name rest) as (m2 & Hr2 & Hcf & O2); try done; try lia.
  - eapply only_cstr; [exact O1|simpl; lia|done].
  - eapply only_block; [exact O1|lia|]. eapply block_sub; [exact Hbc|lia|lia].
  - eapply only_block; [exact O1|lia|done].
  - eexists _, m2. split; [done|]. split; [done|]. split; [done|]. split; [apply frame_alignment|].
    intros a H1 H2 H3. rewrite O2 by lia. apply O1. lia.
Qed.
End start.

(** ** Concrete command lines *)

(** A memory with the stack page, the delimiters at [PHYS_BASE + 16], the
    command line at [PHYS_BASE + 4096] and room for the copy. *)
Definition page_space : Z := PHYS_BASE + 16.
Definition page_cmd : Z := PHYS_BASE + 4096.
Definition page_copy : Z := PHYS_BASE + 8192.

Definition machine (s : list Z) : mem :=
  poke (PHYS_BASE - 4096) (replicate 4096 0)
    (poke page_space [32; 0] (poke page_cmd (s ++ [0]) (poke page_copy (replicate (length s + 1) 0) ∅))).

(** "ls  -l" *)
Definition ls_l : list Z := [108; 115; 32; 32; 45; 108].

Lemma start_process_args_ok_witness :
  words ls_l = [[108; 115]; [45; 108]] /\
  exists esp m', start_process_args 8 page_space page_copy page_cmd PHYS_BASE (machine ls_l) = Ok ((1, esp), m') /\
    word_is m' (esp + 4) 2 /\ esp = PHYS_BASE - 32.
Proof.
  split; [reflexivity|].
  destruct (start_process_args_ok 8 page_space page_copy ltac:(vm_compute; discriminate) ltac:(vm_compute; discriminate)
    (machine ls_l) page_cmd ls_l [108; 115] [[45; 108]]) as (esp & m' & Hr & Hcf & He & _).
  - apply (bool_decide_unpack _). vm_compute. exact I.
  - apply (bool_decide_unpack _). vm_compute. exact I.
  - reflexivity.
  - apply blockb_ok; [lia|]. vm_compute. reflexivity.
  - apply blockb_ok; [lia|]. vm_compute. reflexivity.
  - vm_compute. discriminate.
  - left. vm_compute. reflexivity.
  - right. vm_compute. reflexivity.
  - left. vm_compute. reflexivity.
  - vm_compute. repeat constructor.
  - vm_compute. discriminate.
  - exists esp, m'. split; [exact Hr|]. split; [apply (cf_argc _ _ _ Hcf)|]. exact He.
Defined.

(** the limit of MAX_ARGS_SIZE bytes does not keep the frame inside the
    stack page: the strings of 700 one-letter arguments take 1400 bytes, but
    with the addresses of the arguments push_arguments goes below the page,
    and the kernel faults. *)
Theorem push_arguments_overflows :
  let s := concat (replicate 700 [97; 32]) in
  size (words s) <= MAX_ARGS_SIZE /\
  start_process_args 2000 page_space page_copy page_cmd PHYS_BASE (machine s) = Err Bad_access.
Proof. split; [by vm_compute|]. vm_compute. reflexivity. Qed.

End Args.
