(* ===== verification/Spt.v ===== *)
(** * The supplemental page table (src/src/vm/page.c)

    The table of a process: a hash table ([Hash]) of page structures, with
    their user address as key.  Page structures are objects in a store; an
    uninitialized member is [None].  [malloc] fails or returns a new object,
    as a stream of answers says.  The functions that evict or bring in pages
    (spt_page_removed, spt_get_frame, new_page_on_stack) need the frame table
    and the swap area and are not modelled. *)

From S2P Require Import Prelude DListOps Bitmap Palloc FsState Hash.
Import DListOps Hash.

Module Spt.

Inductive page_location : Type := MMF | MEM | SWAP.

Record page : Type := mkPage {
  addr : option Z;
  pfile : option FsState.file;
  upage : Z;
  page_read_bytes : Z;
  page_zero_bytes : Z;
  file_offset : Z;
  writable : bool;
  p_loc : page_location;
  s_index : option Z
}.

Record vm : Type := mkVm { pages : gmap Z page; spt : table; answers : nat -> bool; brk : Z }.

Definition set_pages v st := mkVm v (spt st) (answers st) (brk st).
Definition set_spt v st := mkVm (pages st) v (answers st) (brk st).

(** ** Allocation *)

(** Whether the next allocation succeeds. *)
Definition answer : M vm bool :=
  st <- get ;;
  put (mkVm (pages st) (spt st) (fun n => answers st (S n)) (brk st)) ;;;
  ret (answers st 0%nat).

Definition malloc : M vm Z :=
  ok <- answer ;;
  st <- get ;;
  put (mkVm (pages st) (spt st) (answers st) (brk st + 1)) ;;;
  ret (if (ok : bool) then brk st else NULL).

(** ** Keys *)

Definition key (ps : gmap Z page) (e : Z) : Z :=
  match ps !! e with Some p => upage p | None => 0 end.

Definition spt_hash (ps : gmap Z page) (e : Z) : Z := hash_int (key ps e).

Definition spt_less (ps : gmap Z page) (a b : Z) : bool := key ps a <? key ps b.

(** [hash_insert], with an allocation for new buckets. *)
Definition table_insert (e : Z) : M vm Z :=
  ok <- answer ;;
  st <- get ;;
  match hash_insert (spt_hash (pages st)) (spt_less (pages st)) ok (spt st) e with
  | Ok (old, t) => put (set_spt t st) ;;; ret old
  | Err x => fail x
  end.

(** ** Operations *)

(** [garbage] is the memory for the buckets. *)
Definition spt_init (garbage : option (list (list Z))) : M vm unit :=
  match hash_init garbage with
  | Some t => modify (set_spt t)
  | None => ret tt
  end.

Definition new_page (p : Z) (pg : page) : M vm unit :=
  modify (fun st => set_pages (<[p := pg]> (pages st)) st).

Definition spt_load_page (file : FsState.file) (ofs : Z) (writable : bool) (upage page_read_bytes page_zero_bytes : Z)
  : M vm bool :=
  page_created <- malloc ;;
  if negb (page_created =? NULL) then
    new_page page_created
      (mkPage None (Some file) upage page_read_bytes page_zero_bytes ofs writable MMF None) ;;;
    old <- table_insert page_created ;;
    ret (old =? NULL)
  else ret false.

Definition spt_page_created (file : FsState.file) (addr file_offset : Z) (writable : bool)
    (upage page_read_bytes page_zero_bytes : Z) : M vm bool :=
  page_created <- malloc ;;
  if negb (page_created =? NULL) then
    new_page page_created
      (mkPage (Some addr) (Some file) upage page_read_bytes page_zero_bytes file_offset writable MMF None) ;;;
    old <- table_insert page_created ;;
    ret (old =? NULL)
  else ret false.

Definition sp_create (upage offset : Z) (writable : bool) (page_read_bytes page_zero_bytes : Z) : M vm Z :=
  new_pg <- malloc ;;
  if negb (new_pg =? NULL) then
    new_page new_pg (mkPage None None upage page_read_bytes page_zero_bytes offset writable MEM None) ;;;
    table_insert new_pg ;;;
    ret new_pg
  else ret NULL.

(** The local variable [to_return], of which only the key matters. *)
Definition TO_RETURN : Z := -1.

Definition spt_get (addr : Z) : M vm Z :=
  st <- get ;;
  let rounded_addr := Palloc.pg_round_down addr in
  let ps := <[TO_RETURN := mkPage None None rounded_addr 0 0 0 false MMF None]> (pages st) in
  ret (hash_find (spt_hash ps) (spt_less ps) (spt st) TO_RETURN).

(** ** The table as a map *)

#[export] Instance key_spec ps : HashSpec (spt_hash ps) (spt_less ps).
Proof.
  split.
  - intros e. apply hash_int_range.
  - intros a b H. unfold equal, spt_less in H. rewrite andb_true_iff, !negb_true_iff, !Z.ltb_ge in H.
    unfold spt_hash. f_equal. lia.
  - exact (key_lt_swo (key ps)).
Qed.

Lemma equal_key ps a b : equal (spt_less ps) a b = true <-> key ps a = key ps b.
Proof. unfold equal, spt_less. rewrite andb_true_iff, !negb_true_iff, !Z.ltb_ge. lia. Qed.

Lemma key_agree ps ps' (es : list Z) :
  (forall e, e ∈ es -> ps' !! e = ps !! e) -> forall e, e ∈ es -> key ps' e = key ps e.
Proof. intros H e He. unfold key. by rewrite H. Qed.

Lemma wf_agree ps ps' h :
  (forall e, e ∈ elems h -> ps' !! e = ps !! e) ->
  wf (spt_hash ps) (spt_less ps) h -> wf (spt_hash ps') (spt_less ps') h.
Proof.
  intros Ha [W1 W2 W3 W4 W5 W6 W7]. pose proof (key_agree ps ps' _ Ha) as Hk. constructor; try done.
  - intros i b e Hi He. rewrite <- (W3 i b e Hi He). unfold bucket_idx, spt_hash. rewrite Hk; [done|].
    apply list_elem_of_In, in_concat. exists b. split; [|by apply list_elem_of_In].
    by eapply list_elem_of_In, list_elem_of_lookup_2.
  - intros a b Hx Hy. rewrite equal_key, !Hk by done. intros E. apply W7; [done|done|]. by apply equal_key.
Qed.

(** [T] maps user pages to their structures. *)
Record spt_ok (st : vm) (T : gmap Z page) : Prop := {
  so_wf : wf (spt_hash (pages st)) (spt_less (pages st)) (spt st);
  so_elem : forall e, e ∈ elems (spt st) -> exists p, pages st !! e = Some p /\ T !! upage p = Some p;
  so_map : forall u p, T !! u = Some p -> upage p = u /\ exists e, e ∈ elems (spt st) /\ pages st !! e = Some p;
  so_brk : 0 < brk st /\ forall e, is_Some (pages st !! e) -> 0 < e < brk st
}.

(** The table has as many elements as the map. *)
Lemma elem_cnt_le st T : spt_ok st T -> elem_cnt (spt st) <= Z.of_nat (size T).
Proof.
  intros [Hw He Hm Hb]. destruct (wf_cnt _ _ _ Hw) as [-> _].
  assert (NoDup (map (key (pages st)) (elems (spt st)))) as Hnd.
  { apply NoDup_fmap_2_strong; [|by eapply wf_nodup]. intros a b Ha Hb' E.
    apply (wf_distinct _ _ _ Hw a b Ha Hb'). by apply equal_key. }
  rewrite <- size_dom, <- (length_map (key (pages st))), <- (size_list_to_set (C := gset Z)) by done.
  apply Nat2Z.inj_le, subseteq_size. intros k. rewrite elem_of_list_to_set, elem_of_dom.
  intros (e & -> & Hin)%list_elem_of_fmap. destruct (He e Hin) as (p & Hp & HT). unfold key. rewrite Hp. by exists p.
Qed.

(** ** New entries *)

(** What the functions that add a page have in common. *)
Definition create (pg : page) : M vm bool :=
  page_created <- malloc ;;
  if negb (page_created =? NULL) then
    new_page page_created pg ;;;
    old <- table_insert page_created ;;
    ret (old =? NULL)
  else ret false.

Definition draw (st : vm) : vm := mkVm (pages st) (spt st) (fun n => answers st (S n)) (brk st).

Lemma answer_run st : answer st = Ok (answers st 0%nat, draw st).
Proof. reflexivity. Qed.

Lemma malloc_draw st :
  malloc st = Ok (if answers st 0%nat then brk st else NULL, mkVm (pages st) (spt st) (fun n => answers st (S n)) (brk st + 1)).
Proof. reflexivity. Qed.

Lemma table_insert_run e st old t :
  hash_insert (spt_hash (pages st)) (spt_less (pages st)) (answers st 0%nat) (spt st) e = Ok (old, t) ->
  table_insert e st = Ok (old, set_spt t (draw st)).
Proof.
  intros H. unfold table_insert. mrun (answer_run st). mnorm.
  change (pages (draw st)) with (pages st). change (spt (draw st)) with (spt st). by rewrite H.
Qed.

(** The elements of the table do not see a new object. *)
Lemma fresh_elem st T e : spt_ok st T -> e ∈ elems (spt st) -> e <> brk st.
Proof. intros Hs He ->. destruct (so_elem _ _ Hs _ He) as (p & Hp & _). pose proof (proj2 (so_brk _ _ Hs) (brk st) ltac:(eauto)). lia. Qed.

Section insert.
Context (st : vm) (T : gmap Z page) (pg : page) (Hs : spt_ok st T) (Hsize : Z.of_nat (size T) + 1 < 4294967295).

Let p : Z := brk st.
Let ps : gmap Z page := <[p := pg]> (pages st).

Lemma old_pages e : e ∈ elems (spt st) -> ps !! e = pages st !! e.
Proof. intros He. unfold ps. rewrite lookup_insert_ne; [done|]. by apply not_eq_sym, (fresh_elem st T). Qed.

Lemma insert_run ok :
  exists old t, hash_insert (spt_hash ps) (spt_less ps) ok (spt st) p = Ok (old, t) /\
    wf (spt_hash ps) (spt_less ps) t /\
    (if old =? NULL then T !! upage pg = None /\ elems t ≡ₚ p :: elems (spt st)
     else is_Some (T !! upage pg) /\ elems t ≡ₚ elems (spt st)).
Proof.
  pose proof (wf_agree (pages st) ps (spt st) old_pages (so_wf _ _ Hs)) as Hw.
  pose proof (elem_cnt_le st T Hs) as Hle. destruct (so_brk _ _ Hs) as [Hb0 _].
  destruct (hash_insert_run (spt_hash ps) (spt_less ps) ok (spt st) p Hw) as (old & t & Hr & Hwt & Hf & Hp);
    [unfold p, NULL; lia|intros Hin; by apply (fresh_elem st T p Hs Hin)|lia|].
  assert (key ps p = upage pg) as Hkp by (unfold key, ps; by rewrite lookup_insert_eq).
  exists old, t. split; [done|]. split; [done|]. destruct Hf as [[-> Hno]|(Hn & Hin & He)].
  - rewrite Z.eqb_refl in *. split; [|done]. destruct (T !! upage pg) as [q|] eqn:E; [exfalso|done].
    destruct (so_map _ _ Hs _ _ E) as (Hu & e & Hin & Hq). specialize (Hno e Hin).
    assert (equal (spt_less ps) e p = true); [|congruence]. apply equal_key. rewrite Hkp.
    unfold key. by rewrite old_pages, Hq.
  - rewrite (proj2 (Z.eqb_neq _ _) Hn) in *. split; [|done]. apply equal_key in He. rewrite Hkp in He.
    destruct (so_elem _ _ Hs _ Hin) as (q & Hq & HT). unfold key in He. rewrite old_pages, Hq in He by done.
    rewrite <- He. by exists q.
Qed.

(** The state with the new page, in the table or not. *)
Lemma insert_ok t b m :
  wf (spt_hash ps) (spt_less ps) t ->
  (if b : bool then T !! upage pg = None /\ elems t ≡ₚ p :: elems (spt st) else elems t ≡ₚ elems (spt st)) ->
  spt_ok (mkVm ps t m (p + 1)) (if b then <[upage pg := pg]> T else T).
Proof.
  intros Hw Hb. destruct (so_brk _ _ Hs) as [Hb0 Hbr].
  assert (forall e, e ∈ elems (spt st) -> exists q, ps !! e = Some q /\ T !! upage q = Some q) as Hold.
  { intros e He. rewrite old_pages by done. by apply (so_elem _ _ Hs). }
  constructor; [done| | |].
  - cbn. intros e He. destruct b.
    + destruct Hb as [Hnone Hp]. rewrite Hp in He. apply elem_of_cons in He as [->|He].
      * exists pg. unfold ps. by rewrite !lookup_insert_eq.
      * destruct (Hold e He) as (q & Hq & HT). exists q. rewrite lookup_insert_ne by congruence. done.
    + rewrite Hb in He. by apply Hold.
  - cbn. intros u q. destruct b.
    + destruct Hb as [Hnone Hp]. intros [[<- <-]|[Hne HT]]%lookup_insert_Some.
      * split; [done|]. exists p. rewrite Hp. split; [by left|]. unfold ps. apply lookup_insert_eq.
      * destruct (so_map _ _ Hs _ _ HT) as (? & e & He & Hq). split; [done|]. exists e. rewrite Hp, old_pages by done.
        split; [by right|done].
    + intros HT. destruct (so_map _ _ Hs _ _ HT) as (? & e & He & Hq). split; [done|]. exists e.
      rewrite Hb, old_pages by done. done.
  - cbn. split; [unfold p; lia|]. intros e. unfold ps. destruct (decide (p = e)) as [<-|Hne]; [unfold p; lia|].
    rewrite lookup_insert_ne by done. intros He%Hbr. unfold p. lia.
Qed.

Lemma create_page_run :
  exists b st', create pg st = Ok (b, st') /\ spt_ok st' (if b then <[upage pg := pg]> T else T) /\
    (b = true -> T !! upage pg = None) /\
    (answers st 0%nat = true -> T !! upage pg = None -> b = true) /\
    answers st' = fun n => answers st ((if answers st 0%nat then 2 else 1) + n)%nat.
Proof.
  destruct (so_brk _ _ Hs) as [Hb0 Hbr]. unfold create. mrun (malloc_draw st).
  destruct (answers st 0%nat) eqn:Ea.
  - rewrite (proj2 (Z.eqb_neq _ _)) by (unfold NULL; lia). cbn [negb]. unfold new_page. mnorm.
    unfold set_pages. cbn [pages spt answers brk]. fold p ps.
    destruct (insert_run (answers st 1%nat)) as (old & t & Hr & Hw & Hres).
    mrun (table_insert_run p (mkVm ps (spt st) (fun n => answers st (S n)) (p + 1)) old t Hr).
    exists (old =? NULL), (set_spt t (mkVm ps (spt st) (fun n => answers st (S (S n))) (p + 1))). split; [done|].
    unfold set_spt. cbn [pages spt answers brk]. destruct (Z.eqb_spec old NULL).
    + split; [by apply (insert_ok t true)|]. split; [by intros _; apply Hres|]. done.
    + destruct Hres as [Hsome Hp]. split; [by apply (insert_ok t false)|]. split; [done|].
      split; [|done]. intros _ Hnone. rewrite Hnone in Hsome. by destruct Hsome.
  - rewrite Z.eqb_refl. cbn [negb]. eexists false, _. split; [done|]. split; [|done].
    constructor; cbn; try apply Hs. split; [lia|]. intros e He%Hbr. lia.
Qed.
End insert.

Lemma spt_load_page_create file ofs w u r z :
  spt_load_page file ofs w u r z = create (mkPage None (Some file) u r z ofs w MMF None).
Proof. reflexivity. Qed.

Lemma spt_page_created_create file a ofs w u r z :
  spt_page_created file a ofs w u r z = create (mkPage (Some a) (Some file) u r z ofs w MMF None).
Proof. reflexivity. Qed.

(** ** Finding *)

Lemma spt_get_run st T a :
  spt_ok st T ->
  exists r, spt_get a st = Ok (r, st) /\
    match T !! Palloc.pg_round_down a with
    | Some pg => r <> NULL /\ pages st !! r = Some pg
    | None => r = NULL
    end.
Proof.
  intros Hs. unfold spt_get. mnorm. unfold ret. eexists. split; [done|].
  set (u := Palloc.pg_round_down a). set (ps := <[TO_RETURN := _]> (pages st)).
  assert (forall e, e ∈ elems (spt st) -> ps !! e = pages st !! e) as Hold.
  { intros e He. destruct (so_elem _ _ Hs e He) as (q & Hq & _). destruct (proj2 (so_brk _ _ Hs) e ltac:(eauto)).
    unfold ps, TO_RETURN. by rewrite lookup_insert_ne by lia. }
  pose proof (wf_agree (pages st) ps (spt st) Hold (so_wf _ _ Hs)) as Hw.
  assert (key ps TO_RETURN = u) as Hk by (unfold key, ps; by rewrite lookup_insert_eq).
  destruct (hash_find_found _ _ (spt st) TO_RETURN Hw) as [[-> Hno]|(Hn & Hin & He)].
  - destruct (T !! u) as [q|] eqn:E; [exfalso|done]. destruct (so_map _ _ Hs _ _ E) as (Hu & e & Hin & Hq).
    specialize (Hno e Hin). assert (equal (spt_less ps) e TO_RETURN = true); [|congruence].
    apply equal_key. rewrite Hk. unfold key. by rewrite Hold, Hq.
  - apply equal_key in He. rewrite Hk in He. destruct (so_elem _ _ Hs _ Hin) as (q & Hq & HT).
    unfold key in He. rewrite Hold, Hq in He by done. rewrite He in HT. by rewrite HT.
Qed.

(** A new table is empty. *)
Lemma spt_init_run garbage st :
  (4 <= length garbage)%nat -> pages st = ∅ -> 0 < brk st ->
  exists st', spt_init (Some garbage) st = Ok (tt, st') /\ spt_ok st' ∅ /\ answers st' = answers st.
Proof.
  intros Hg Hp Hb. destruct (hash_init_ok (spt_hash ∅) (spt_less ∅) garbage Hg) as (t & Ht & Hw & He).
  unfold spt_init. rewrite Ht. eexists. split; [done|]. split; [|done]. constructor; cbn; rewrite ?Hp.
  - done.
  - intros e. rewrite He. by intros ?%not_elem_of_nil.
  - done.
  - split; [done|]. intros e [x Hx]. done.
Qed.

(** spt_load_page returns; it fails when there is no memory or when the
    table has an entry for the page, and then changes no entry; otherwise
    spt_get with any address in the page returns the new structure, with the
    members it has been given, and every other address finds what it found
    before. *)
Theorem spt_load_get st T file ofs w u r z :
  spt_ok st T -> Z.of_nat (size T) + 1 < 4294967295 -> u mod 4096 = 0 -> 0 <= u < 4294963200 ->
  exists b st' T', spt_load_page file ofs w u r z st = Ok (b, st') /\ spt_ok st' T' /\
    (answers st 0%nat = true -> T !! u = None -> b = true) /\
    (b = false -> T' = T) /\
    (b = true -> T !! u = None /\
       (forall a, u <= a < u + 4096 -> exists p, spt_get a st' = Ok (p, st') /\ p <> NULL /\
          pages st' !! p = Some (mkPage None (Some file) u r z ofs w MMF None)) /\
       (forall a, 0 <= a < 4294967296 -> a < u \/ u + 4096 <= a ->
          T' !! Palloc.pg_round_down a = T !! Palloc.pg_round_down a)).
Proof.
  intros Hs Hsz Hm Hu. rewrite spt_load_page_create. set (pg := mkPage _ _ _ _ _ _ _ _ _).
  destruct (create_page_run st T pg Hs Hsz) as (b & st' & Hr & Hs' & Hnone & Hok & _). cbn [upage pg] in *.
  exists b, st', (if b then <[u := pg]> T else T). split; [done|]. split; [done|]. split; [done|].
  split; [by intros ->|]. intros ->. specialize (Hnone eq_refl). split; [done|].
  pose proof (Z.div_mod u 4096 ltac:(lia)) as Du. split.
  - intros a Ha. destruct (spt_get_run st' _ a Hs') as (p & Hg & Hp). exists p.
    assert (Palloc.pg_round_down a = u) as E.
    { rewrite Palloc.pg_round_down_ok by (unfold in_u32; lia). assert (a / 4096 = u / 4096); [|lia].
      symmetry. apply (Z.div_unique _ _ _ (a - u)); lia. }
    rewrite E, lookup_insert_eq in Hp. done.
  - intros a Ha Hne. apply lookup_insert_ne. intros E.
    rewrite Palloc.pg_round_down_ok in E by (unfold in_u32; lia). pose proof (Z.div_mod a 4096 ltac:(lia)).
    pose proof (Z.mod_pos_bound a 4096 ltac:(lia)). lia.
Qed.

(** ** A table *)

Definition vm0 : vm := mkVm ∅ (mkTable 0 0 []) (fun _ => true) 1.

Definition empty_vm : vm :=
  match spt_init (Some (replicate 4 [])) vm0 with Ok (_, st) => st | Err _ => vm0 end.

Lemma empty_vm_ok : spt_ok empty_vm ∅.
Proof.
  destruct (spt_init_run (replicate 4 []) vm0) as (st & Hr & Hs & _); [simpl; lia|done|cbn; lia|].
  unfold empty_vm. by rewrite Hr.
Qed.

Lemma spt_load_get_witness :
  exists st' p, spt_load_page (FsState.mkFile 1 0 false) 0 true 134512640 100 3996 empty_vm = Ok (true, st') /\
    spt_get 134512700 st' = Ok (p, st') /\ p <> NULL.
Proof.
  destruct (spt_load_get empty_vm ∅ (FsState.mkFile 1 0 false) 0 true 134512640 100 3996 empty_vm_ok)
    as (b & st' & T' & Hr & _ & Hok & _ & Hget); [vm_compute; reflexivity|reflexivity|lia|].
  rewrite (Hok eq_refl eq_refl) in *. destruct (Hget eq_refl) as (_ & Hin & _).
  destruct (Hin 134512700 ltac:(lia)) as (p & Hg & Hp & _). exists st', p. split; [exact Hr|]. split; [exact Hg|exact Hp].
Defined.

End Spt.
