(* ===== verification/Elf.v ===== *)
(** * Loading an executable (src/src/userprog/process.c)

    [load] reads the headers of an ELF file and enters its segments in the
    supplemental page table ([Spt]).  The file is its contents: [file_read]
    after [file_seek] returns the bytes at that offset, as far as there are
    any (FsProps proves this of the file system).  Creating the page
    directory and mapping the stack page are left to [Pagedir]. *)

From S2P Require Import Prelude DListOps Bitmap Palloc FsState Hash Spt.
Import Spt.

Module Elf.

Abbreviation PGSIZE := Palloc.PGSIZE.
Abbreviation PGMASK := Palloc.PGMASK.
Abbreviation PHYS_BASE := Palloc.PHYS_BASE.

(** ** Headers *)

Record Elf32_Ehdr : Type := mkEhdr {
  e_ident : list Z; e_type : Z; e_machine : Z; e_version : Z; e_entry : Z; e_phoff : Z; e_shoff : Z; e_flags : Z;
  e_ehsize : Z; e_phentsize : Z; e_phnum : Z; e_shentsize : Z; e_shnum : Z; e_shstrndx : Z
}.

Record Elf32_Phdr : Type := mkPhdr {
  p_type : Z; p_offset : Z; p_vaddr : Z; p_paddr : Z; p_filesz : Z; p_memsz : Z; p_flags : Z; p_align : Z
}.

Definition SIZEOF_EHDR : Z := 52.
Definition SIZEOF_PHDR : Z := 32.

Definition PT_NULL : Z := 0.
Definition PT_LOAD : Z := 1.
Definition PT_DYNAMIC : Z := 2.
Definition PT_INTERP : Z := 3.
Definition PT_NOTE : Z := 4.
Definition PT_SHLIB : Z := 5.
Definition PT_PHDR : Z := 6.
Definition PT_STACK : Z := 1685382481.

Definition PF_W : Z := 2.

(** Members of a structure that has been read into memory. *)
Definition byte_at (buf : list Z) (o : nat) : Z := nth o buf 0.
Definition half_at (buf : list Z) (o : nat) : Z := byte_at buf o + Z.shiftl (byte_at buf (o + 1)) 8.
Definition word_at (buf : list Z) (o : nat) : Z := half_at buf o + Z.shiftl (half_at buf (o + 2)) 16.

Definition get_ehdr (b : list Z) : Elf32_Ehdr :=
  mkEhdr (take 16 b) (half_at b 16) (half_at b 18) (word_at b 20) (word_at b 24) (word_at b 28) (word_at b 32)
    (word_at b 36) (half_at b 40) (half_at b 42) (half_at b 44) (half_at b 46) (half_at b 48) (half_at b 50).

Definition get_phdr (b : list Z) : Elf32_Phdr :=
  mkPhdr (word_at b 0) (word_at b 4) (word_at b 8) (word_at b 12) (word_at b 16) (word_at b 20) (word_at b 24) (word_at b 28).

(** The first bytes of an ELF file for 32-bit little-endian machines. *)
Definition ELF_IDENT : list Z := [127; 69; 76; 70; 1; 1; 1].

Section load.
(** The contents of the file, and the structure of the open file. *)
Context (data : list Z) (file : FsState.file).

Definition file_length : Z := Z.of_nat (length data).

Definition file_read (ofs size : Z) : list Z := take (Z.to_nat size) (drop (Z.to_nat ofs) data).

(** ** Segments *)

Definition validate_segment (phdr : Elf32_Phdr) : bool :=
  if negb (Z.land (p_offset phdr) PGMASK =? Z.land (p_vaddr phdr) PGMASK) then false
  else if p_offset phdr >? u32 file_length then false
  else if p_memsz phdr <? p_filesz phdr then false
  else if p_memsz phdr =? 0 then false
  else if negb (Palloc.is_user_vaddr (p_vaddr phdr)) then false
  else if negb (Palloc.is_user_vaddr (u32 (p_vaddr phdr + p_memsz phdr))) then false
  else if u32 (p_vaddr phdr + p_memsz phdr) <? p_vaddr phdr then false
  else if p_vaddr phdr <? PGSIZE then false
  else true.

Fixpoint load_segment_loop (fuel : nat) (ofs upage read_bytes zero_bytes : Z) (writable : bool) : M vm bool :=
  match fuel with
  | O => fail Out_of_fuel
  | S fuel' =>
      if (read_bytes >? 0) || (zero_bytes >? 0) then
        let page_read_bytes := if read_bytes <? PGSIZE then read_bytes else PGSIZE in
        let page_zero_bytes := u32 (PGSIZE - page_read_bytes) in
        ok <- spt_load_page file ofs writable upage page_read_bytes page_zero_bytes ;;
        if negb ok then ret false
        else load_segment_loop fuel' (s32 (ofs + page_read_bytes)) (u32 (upage + PGSIZE))
               (u32 (read_bytes - page_read_bytes)) (u32 (zero_bytes - page_zero_bytes)) writable
      else ret true
  end.

Definition load_segment (ofs upage read_bytes zero_bytes : Z) (writable : bool) : M vm bool :=
  ASSERT (u32 (read_bytes + zero_bytes) mod PGSIZE =? 0) ;;;
  ASSERT (Palloc.pg_ofs upage =? 0) ;;;
  ASSERT (ofs mod PGSIZE =? 0) ;;;
  load_segment_loop (Z.to_nat ((read_bytes + zero_bytes) / PGSIZE) + 1) ofs upage read_bytes zero_bytes writable.

Definition ROUND_UP (x step : Z) : Z := u32 (u32 (x + step - 1) / step * step).

(** The case of a loadable segment: [false] when [load] gives up. *)
Definition load_pt_load (phdr : Elf32_Phdr) : M vm bool :=
  if validate_segment phdr then
    let writable := negb (Z.land (p_flags phdr) PF_W =? 0) in
    let file_page := Z.land (p_offset phdr) (u32 (Z.lnot PGMASK)) in
    let mem_page := Z.land (p_vaddr phdr) (u32 (Z.lnot PGMASK)) in
    let page_offset := Z.land (p_vaddr phdr) PGMASK in
    let read_bytes := if p_filesz phdr >? 0 then u32 (page_offset + p_filesz phdr) else 0 in
    let zero_bytes :=
      if p_filesz phdr >? 0
      then u32 (ROUND_UP (u32 (page_offset + p_memsz phdr)) PGSIZE - read_bytes)
      else ROUND_UP (u32 (page_offset + p_memsz phdr)) PGSIZE in
    load_segment (s32 file_page) mem_page read_bytes zero_bytes writable
  else ret false.

(** ** The program headers; [n] are left, the next one at [file_ofs]. *)
Fixpoint load_phdrs (n : nat) (file_ofs : Z) : M vm bool :=
  match n with
  | O => ret true
  | S n' =>
      if (file_ofs <? 0) || (file_ofs >? file_length) then ret false
      else
        let buf := file_read file_ofs SIZEOF_PHDR in
        if negb (Z.of_nat (length buf) =? SIZEOF_PHDR) then ret false
        else
          let phdr := get_phdr buf in
          let file_ofs := s32 (file_ofs + SIZEOF_PHDR) in
          let t := p_type phdr in
          if (t =? PT_DYNAMIC) || (t =? PT_INTERP) || (t =? PT_SHLIB) then ret false
          else if t =? PT_LOAD then
            ok <- load_pt_load phdr ;;
            if negb ok then ret false else load_phdrs n' file_ofs
          else load_phdrs n' file_ofs
  end.

(** The test of the executable header. *)
Definition check_ehdr (buf : list Z) : bool :=
  let ehdr := get_ehdr buf in
  (Z.of_nat (length buf) =? SIZEOF_EHDR) && bool_decide (take 7 (e_ident ehdr) = ELF_IDENT) &&
  (e_type ehdr =? 2) && (e_machine ehdr =? 3) && (e_version ehdr =? 1) &&
  (e_phentsize ehdr =? SIZEOF_PHDR) && negb (e_phnum ehdr >? 1024).

(** From the executable header to the last program header; the result is
    whether [load] goes on, and the entry point. *)
Definition load_headers : M vm (bool * Z) :=
  let buf := file_read 0 SIZEOF_EHDR in
  let ehdr := get_ehdr buf in
  if negb (check_ehdr buf) then ret (false, 0)
  else
    ok <- load_phdrs (Z.to_nat (e_phnum ehdr)) (s32 (e_phoff ehdr)) ;;
    ret (ok, e_entry ehdr).

(** ** What a page of the table stands for *)

(** The byte at address [v] when the page has been brought in: a byte of the
    file, [None] past its end, or zero. *)
Definition promised (pg : page) (v : Z) : option Z :=
  if v - upage pg <? page_read_bytes pg then data !! Z.to_nat (file_offset pg + (v - upage pg)) else Some 0.

(** The table promises the bytes [c] from [u] up to [u + n]. *)
Definition maps (T : gmap Z page) (w : bool) (u n : Z) (c : Z -> option Z) : Prop :=
  forall v, u <= v < u + n ->
    exists pg, T !! Palloc.pg_round_down v = Some pg /\ pfile pg = Some file /\ writable pg = w /\ p_loc pg = MMF /\
      forall b, c v = Some b -> promised pg v = Some b.

(** The segment as the format defines it. *)
Definition segment (phdr : Elf32_Phdr) (v : Z) : option Z :=
  if v - p_vaddr phdr <? p_filesz phdr then data !! Z.to_nat (p_offset phdr + (v - p_vaddr phdr)) else Some 0.

End load.

(** ** Tables of user pages *)

Definition user_table (T : gmap Z page) : Prop :=
  forall u, is_Some (T !! u) -> u mod 4096 = 0 /\ 0 <= u < PHYS_BASE.

Lemma multiples_size (T : gmap Z page) N :
  0 <= N -> (forall u, is_Some (T !! u) -> exists k, u = 4096 * k /\ 0 <= k < N) -> Z.of_nat (size T) <= N.
Proof.
  intros HN Hu. rewrite <- size_dom. set (l := map (fun k => 4096 * k) (seqZ 0 N)).
  assert (dom T ⊆ (list_to_set l : gset Z)) as Hsub.
  { intros u Hd. apply elem_of_dom, Hu in Hd as (k & -> & Hk). apply elem_of_list_to_set, list_elem_of_fmap.
    exists k. split; [done|]. apply elem_of_seqZ. lia. }
  apply subseteq_size in Hsub. rewrite size_list_to_set in Hsub.
  2:{ apply NoDup_fmap_2; [|apply NoDup_seqZ]. intros x y E. lia. }
  assert (Z.of_nat (length l) = N) as E; [|lia]. unfold l. rewrite length_map, length_seqZ. lia.
Qed.

Lemma user_table_size T : user_table T -> Z.of_nat (size T) <= 786432.
Proof.
  intros Hu. apply multiples_size; [lia|]. intros u Hx. destruct (Hu u Hx) as [Hm Hr]. exists (u / 4096).
  pose proof (Z.div_mod u 4096 ltac:(lia)). unfold Palloc.PHYS_BASE in Hr. lia.
Qed.

Lemma user_table_insert T u pg :
  user_table T -> u mod 4096 = 0 -> 0 <= u < PHYS_BASE -> user_table (<[u := pg]> T).
Proof. intros Hu Hm Hr x [p [[<- _]|[_ Hx]]%lookup_insert_Some]; [done|]. apply Hu. eauto. Qed.

Lemma round_down_in u v : u mod 4096 = 0 -> 0 <= u -> u <= v < u + 4096 -> u + 4096 <= 4294967296 -> Palloc.pg_round_down v = u.
Proof.
  intros Hm Hu Hv Hb. rewrite Palloc.pg_round_down_ok by (unfold in_u32; lia).
  pose proof (Z.div_mod u 4096 ltac:(lia)). assert (v / 4096 = u / 4096); [|lia].
  symmetry. apply (Z.div_unique _ _ _ (v - u)); lia.
Qed.

Section proofs.
Context (data : list Z) (file : FsState.file).

Lemma maps_mono T T' w u n c : T ⊆ T' -> maps data file T w u n c -> maps data file T' w u n c.
Proof.
  intros Hs Hm v Hv. destruct (Hm v Hv) as (pg & HT & Hrest). exists pg. split; [|done].
  by eapply lookup_weaken.
Qed.

(** The bytes that a segment of [R] bytes of the file from [ofs] and zeros
    has at [u]. *)
Definition filled (ofs u R v : Z) : option Z :=
  if v - u <? R then (if (0 <=? ofs) && (ofs + (v - u) <? 2147483648) then data !! Z.to_nat (ofs + (v - u)) else None) else Some 0.

Lemma load_segment_loop_ok fuel st T ofs u R Zr w :
  spt_ok st T -> user_table T -> u mod 4096 = 0 -> 0 <= u -> u + R + Zr <= PHYS_BASE -> (R + Zr) mod 4096 = 0 ->
  0 <= R -> 0 <= Zr -> (R + Zr) / 4096 < Z.of_nat fuel ->
  exists b st' T', load_segment_loop file fuel ofs u R Zr w st = Ok (b, st') /\ spt_ok st' T' /\ user_table T' /\ T ⊆ T' /\
    (b = true -> maps data file T' w u (R + Zr) (filled ofs u R)).
Proof.
  revert st T ofs u R Zr. induction fuel as [|fuel IH]; intros st T ofs u R Zr Hs Hu Hm Hu0 Htop Hrz HR HZ Hf.
  { pose proof (Z.div_pos (R + Zr) 4096 ltac:(lia) ltac:(lia)). lia. }
  cbn [load_segment_loop]. rewrite !Z.gtb_ltb.
  destruct (decide (R + Zr = 0)) as [E|Hpos].
  { rewrite !(proj2 (Z.ltb_ge _ _)) by lia. exists true, st, T. cbn [orb].
    split; [done|]. split; [done|]. split; [done|]. split; [done|]. intros _ v Hv. lia. }
  assert (((0 <? R) || (0 <? Zr)) = true) as ->.
  { destruct (Z.ltb_spec 0 R), (Z.ltb_spec 0 Zr); done || lia. }
  assert (4096 <= R + Zr) as Hpg.
  { pose proof (Z.div_mod (R + Zr) 4096 ltac:(lia)). lia. }
  unfold Palloc.PGSIZE, Palloc.PHYS_BASE in *. set (r := if R <? 4096 then R else 4096).
  assert (0 <= r <= 4096 /\ r <= R /\ 4096 - r <= Zr /\ (r < 4096 -> r = R)) as (Hr1 & Hr2 & Hr3 & Hr4).
  { unfold r. destruct (Z.ltb_spec R 4096); lia. }
  rewrite (u32_id (4096 - r)) by lia. rewrite spt_load_page_create.
  set (pg := mkPage None (Some file) u r (4096 - r) ofs w MMF None).
  destruct (create_page_run st T pg Hs) as (b & st1 & Hrun & Hs1 & Hnone & _ & _).
  { pose proof (user_table_size T Hu). lia. }
  mrun Hrun. destruct b; cbn [negb].
  2:{ exists false, st1, T. split; [done|]. split; [done|]. split; [done|]. split; [done|]. discriminate. }
  specialize (Hnone eq_refl). cbn [upage pg] in Hnone, Hs1.
  rewrite (u32_id (u + 4096)), (u32_id (R - r)), (u32_id (Zr - (4096 - r))) by lia.
  destruct (IH st1 (<[u := pg]> T) (s32 (ofs + r)) (u + 4096) (R - r) (Zr - (4096 - r))) as (b & st' & T' & Hr & Hs' & Hu' & Hsub & Hmap).
  - done.
  - apply user_table_insert; [done|done|unfold Palloc.PHYS_BASE; lia].
  - rewrite <- (Z.mul_1_l 4096) at 1. by rewrite Z.mod_add by lia.
  - lia.
  - lia.
  - replace (R - r + (Zr - (4096 - r))) with (R + Zr + -1 * 4096) by lia. by rewrite Z.mod_add by lia.
  - lia.
  - lia.
  - replace (R - r + (Zr - (4096 - r))) with (R + Zr + -1 * 4096) by lia. rewrite Z.div_add by lia. lia.
  - exists b, st', T'. split; [done|]. split; [done|]. split; [done|].
    assert (T ⊆ T') as Hsub'.
    { etrans; [|exact Hsub]. by apply insert_subseteq. }
    split; [done|]. intros Hb v Hv. destruct (decide (v < u + 4096)) as [Hin|Hout].
    + exists pg. rewrite (round_down_in u v) by lia.
      split; [eapply lookup_weaken; [apply lookup_insert_eq|exact Hsub]|]. do 3 (split; [done|]).
      intros c. unfold filled, promised. cbn [upage page_read_bytes file_offset pg].
      destruct (Z.ltb_spec (v - u) R), (Z.ltb_spec (v - u) r); try lia; [|done].
      by destruct ((0 <=? ofs) && (ofs + (v - u) <? 2147483648)).
    + destruct (Hmap Hb v) as (q & HT & H1 & H2 & H3 & Hc); [lia|]. exists q. do 4 (split; [done|]).
      intros c Hfc. apply Hc. unfold filled in *. destruct (Z.ltb_spec (v - u) R) as [Hlt|Hge].
      * assert (r = 4096) as Er by (unfold r in *; destruct (Z.ltb_spec R 4096); lia). rewrite Er in *.
        destruct (Z.leb_spec 0 ofs); [|done]. destruct (Z.ltb_spec (ofs + (v - u)) 2147483648); [|done]. cbn [andb] in Hfc.
        rewrite s32_id by lia. rewrite (proj2 (Z.ltb_lt _ _)), (proj2 (Z.leb_le _ _)), (proj2 (Z.ltb_lt _ _)) by lia.
        cbn [andb]. by replace (ofs + 4096 + (v - (u + 4096))) with (ofs + (v - u)) by lia.
      * by rewrite (proj2 (Z.ltb_ge _ _)) by lia.
Qed.
(** ** Segments *)

Context (Hlen : Z.of_nat (length data) < 2147483648).

Definition phdr_ok (phdr : Elf32_Phdr) : Prop :=
  in_u32 (p_offset phdr) /\ in_u32 (p_vaddr phdr) /\ in_u32 (p_filesz phdr) /\ in_u32 (p_memsz phdr).

(** What [validate_segment] makes sure of. *)
Lemma validate_segment_true phdr :
  phdr_ok phdr -> validate_segment data phdr = true ->
  p_offset phdr mod 4096 = p_vaddr phdr mod 4096 /\ p_offset phdr <= Z.of_nat (length data) /\
  p_filesz phdr <= p_memsz phdr /\ 0 < p_memsz phdr /\ 4096 <= p_vaddr phdr /\ p_vaddr phdr + p_memsz phdr < PHYS_BASE.
Proof.
  unfold phdr_ok, in_u32. intros (Ho & Hv & Hf & Hm). unfold validate_segment. change PGMASK with (Z.ones 12).
  rewrite !Z.land_ones by lia. change (2 ^ 12) with 4096. unfold file_length. rewrite (u32_id (Z.of_nat _)) by lia.
  unfold Palloc.is_user_vaddr. unfold u32, Palloc.PGSIZE, Palloc.PHYS_BASE.
  destruct (Z.eqb_spec (p_offset phdr mod 4096) (p_vaddr phdr mod 4096)); cbn [negb]; [|done].
  rewrite Z.gtb_ltb. destruct (Z.ltb_spec (Z.of_nat (length data)) (p_offset phdr)); [done|].
  destruct (Z.ltb_spec (p_memsz phdr) (p_filesz phdr)); [done|].
  destruct (Z.eqb_spec (p_memsz phdr) 0); [done|].
  destruct (Z.ltb_spec (p_vaddr phdr) 3221225472); cbn [negb]; [|done].
  set (ev := (p_vaddr phdr + p_memsz phdr) mod 4294967296).
  destruct (Z.ltb_spec ev 3221225472); cbn [negb]; [|done].
  destruct (Z.ltb_spec ev (p_vaddr phdr)); [done|]. destruct (Z.ltb_spec (p_vaddr phdr) 4096); [done|]. intros _.
  assert (ev = p_vaddr phdr + p_memsz phdr) as E; [|lia].
  unfold ev in *. pose proof (Z.div_mod (p_vaddr phdr + p_memsz phdr) 4294967296 ltac:(lia)).
  assert ((p_vaddr phdr + p_memsz phdr) / 4294967296 = 0 \/ (p_vaddr phdr + p_memsz phdr) / 4294967296 = 1) as [E|E]; [|lia|lia].
  pose proof (Z.div_pos (p_vaddr phdr + p_memsz phdr) 4294967296 ltac:(lia) ltac:(lia)).
  pose proof (Z.div_lt_upper_bound (p_vaddr phdr + p_memsz phdr) 4294967296 2 ltac:(lia) ltac:(lia)). lia.
Qed.

Lemma round_up_ok x : 0 <= x < 4294963200 ->
  ROUND_UP x 4096 mod 4096 = 0 /\ x <= ROUND_UP x 4096 < x + 4096.
Proof.
  intros Hx. unfold ROUND_UP. rewrite (u32_id (x + 4096 - 1)) by lia.
  pose proof (Z.div_mod (x + 4096 - 1) 4096 ltac:(lia)). pose proof (Z.mod_pos_bound (x + 4096 - 1) 4096 ltac:(lia)).
  rewrite u32_id by lia. split; [by apply Z.mod_mul|lia].
Qed.

Lemma load_pt_load_ok phdr st T :
  phdr_ok phdr -> spt_ok st T -> user_table T ->
  exists b st' T', load_pt_load data file phdr st = Ok (b, st') /\ spt_ok st' T' /\ user_table T' /\ T ⊆ T' /\
    (b = true -> maps data file T' (negb (Z.land (p_flags phdr) PF_W =? 0)) (p_vaddr phdr) (p_memsz phdr) (segment data phdr)).
Proof.
  intros Hp Hs Hu. unfold load_pt_load. destruct (validate_segment data phdr) eqn:Ev.
  2:{ exists false, st, T. split; [done|]. split; [done|]. split; [done|]. split; [done|]. discriminate. }
  destruct (validate_segment_true phdr Hp Ev) as (Hoff & Hol & Hfm & Hm0 & Hv0 & Htop).
  destruct Hp as (Ho & Hv & Hf & Hm). unfold in_u32 in *. set (w := negb _).
  change (Z.land (p_offset phdr) (u32 (Z.lnot PGMASK))) with (Palloc.pg_round_down (p_offset phdr)).
  change (Z.land (p_vaddr phdr) (u32 (Z.lnot PGMASK))) with (Palloc.pg_round_down (p_vaddr phdr)).
  rewrite !Palloc.pg_round_down_ok by (unfold in_u32; lia). change PGMASK with (Z.ones 12).
  rewrite Z.land_ones by lia. change (2 ^ 12) with 4096.
  pose proof (Z.div_mod (p_offset phdr) 4096 ltac:(lia)) as Do. pose proof (Z.div_mod (p_vaddr phdr) 4096 ltac:(lia)) as Dv.
  pose proof (Z.mod_pos_bound (p_vaddr phdr) 4096 ltac:(lia)) as Hpo. rewrite Hoff in Do.
  set (po := p_vaddr phdr mod 4096) in *. set (fp := 4096 * (p_offset phdr / 4096)) in *.
  set (mp := 4096 * (p_vaddr phdr / 4096)) in *. unfold Palloc.PHYS_BASE, Palloc.PGSIZE in *.
  rewrite !(u32_id (po + _)) by lia. destruct (round_up_ok (po + p_memsz phdr) ltac:(lia)) as [Hru1 Hru2].
  set (ru := ROUND_UP (po + p_memsz phdr) 4096) in *.
  assert (mp mod 4096 = 0) as Hmp by (unfold mp; rewrite Z.mul_comm; by apply Z.mod_mul).
  assert (0 <= fp /\ 0 <= mp) as [Hfp Hmp0] by lia.
  assert (mp + ru <= 3221225472) as Hend.
  { pose proof (Z.div_mod ru 4096 ltac:(lia)). unfold mp in *. lia. }
  set (R := if p_filesz phdr >? 0 then po + p_filesz phdr else 0).
  set (Zr := if p_filesz phdr >? 0 then u32 (ru - R) else ru).
  assert (0 <= R /\ 0 <= Zr /\ R + Zr = ru) as (HR & HZ & Hsum).
  { unfold Zr, R. rewrite Z.gtb_ltb. destruct (Z.ltb_spec 0 (p_filesz phdr)); [rewrite u32_id by lia|]; lia. }
  unfold load_segment. rewrite (s32_id fp), (u32_id (R + Zr)) by lia. rewrite Hsum. unfold Palloc.PGSIZE. rewrite Hru1.
  rewrite Palloc.pg_ofs_mod, Hmp. assert (fp mod 4096 = 0) as -> by (unfold fp; rewrite Z.mul_comm; by apply Z.mod_mul).
  mnorm. rewrite <- Hsum.
  destruct (load_segment_loop_ok (Z.to_nat ((R + Zr) / 4096) + 1) st T fp mp R Zr w)
    as (b & st' & T' & Hr & Hs' & Hu' & Hsub & Hmap); try done; try (unfold Palloc.PHYS_BASE; lia).
  { by rewrite Hsum. }
  exists b, st', T'. do 4 (split; [done|]). intros Hb v Hv'.
  destruct (Hmap Hb v) as (pg & HT & H1 & H2 & H3 & Hc); [lia|]. exists pg. do 4 (split; [done|]).
  intros c Hseg. apply Hc. unfold filled. unfold segment in Hseg.
  assert ((v - mp <? R) = (v - p_vaddr phdr <? p_filesz phdr)) as ->.
  { unfold R. rewrite Z.gtb_ltb. destruct (Z.ltb_spec 0 (p_filesz phdr)), (Z.ltb_spec (v - p_vaddr phdr) (p_filesz phdr));
      (apply Z.ltb_lt || apply Z.ltb_ge); lia. }
  destruct (Z.ltb_spec (v - p_vaddr phdr) (p_filesz phdr)); [|done].
  replace (fp + (v - mp)) with (p_offset phdr + (v - p_vaddr phdr)) by lia.
  pose proof (lookup_lt_Some _ _ _ Hseg).
  rewrite (proj2 (Z.leb_le _ _)), (proj2 (Z.ltb_lt _ _)) by lia. done.
Qed.
(** ** The file *)

(** The program header number [i]. *)
Definition phdr_at (i : Z) : Elf32_Phdr :=
  get_phdr (file_read data (s32 (e_phoff (get_ehdr (file_read data 0 SIZEOF_EHDR))) + SIZEOF_PHDR * i) SIZEOF_PHDR).

(** Every loadable segment of the headers from [ofs] on is in the table. *)
Definition loaded (T : gmap Z page) (phdr : Elf32_Phdr) : Prop :=
  p_type phdr = PT_LOAD ->
  maps data file T (negb (Z.land (p_flags phdr) PF_W =? 0)) (p_vaddr phdr) (p_memsz phdr) (segment data phdr).

Lemma loaded_mono T T' phdr : T ⊆ T' -> loaded T phdr -> loaded T' phdr.
Proof. intros Hs Hl Ht. by apply (maps_mono T), Hl. Qed.

Context (Hbytes : Forall (fun b => 0 <= b < 256) data).

Lemma byte_at_range buf o : Forall (fun b => 0 <= b < 256) buf -> 0 <= byte_at buf o < 256.
Proof.
  intros Hb. unfold byte_at. rewrite nth_lookup. destruct (buf !! o) as [x|] eqn:E; [|cbn; lia].
  cbn. by eapply (proj1 (Forall_lookup _ _) Hb).
Qed.

Lemma word_at_range buf o : Forall (fun b => 0 <= b < 256) buf -> in_u32 (word_at buf o).
Proof.
  intros Hb. unfold word_at, half_at, in_u32. rewrite !Z.shiftl_mul_pow2 by lia.
  change (2 ^ 8) with 256. change (2 ^ 16) with 65536.
  pose proof (byte_at_range buf o Hb). pose proof (byte_at_range buf (o + 1) Hb).
  pose proof (byte_at_range buf (o + 2) Hb). pose proof (byte_at_range buf (o + 2 + 1) Hb). lia.
Qed.

Lemma file_read_bytes ofs n : Forall (fun b => 0 <= b < 256) (file_read data ofs n).
Proof. unfold file_read. by apply Forall_take, Forall_drop. Qed.

Lemma get_phdr_ok ofs : phdr_ok (get_phdr (file_read data ofs SIZEOF_PHDR)).
Proof. pose proof (file_read_bytes ofs SIZEOF_PHDR). unfold phdr_ok, get_phdr. cbn. split; [|split; [|split]]; by apply word_at_range. Qed.

Lemma load_phdrs_ok n ofs st T :
  spt_ok st T -> user_table T ->
  exists b st' T', load_phdrs data file n ofs st = Ok (b, st') /\ spt_ok st' T' /\ user_table T' /\ T ⊆ T' /\
    (b = true -> forall i, 0 <= i < Z.of_nat n -> loaded T' (get_phdr (file_read data (ofs + SIZEOF_PHDR * i) SIZEOF_PHDR))).
Proof.
  revert ofs st T. induction n as [|n IH]; intros ofs st T Hs Hu.
  { exists true, st, T. do 4 (split; [done|]). intros _ i Hi. lia. }
  assert (exists b st' T', @ret vm bool false st = Ok (b, st') /\ spt_ok st' T' /\ user_table T' /\ T ⊆ T' /\
    (b = true -> forall i, 0 <= i < Z.of_nat (S n) -> loaded T' (get_phdr (file_read data (ofs + SIZEOF_PHDR * i) SIZEOF_PHDR)))) as Hfalse.
  { exists false, st, T. do 4 (split; [done|]). discriminate. }
  cbn [load_phdrs]. destruct ((ofs <? 0) || (ofs >? file_length data)) eqn:Eo; [exact Hfalse|].
  apply orb_false_iff in Eo as [E1 E2]. apply Z.ltb_ge in E1. rewrite Z.gtb_ltb in E2. apply Z.ltb_ge in E2.
  destruct (Z.of_nat (length (file_read data ofs SIZEOF_PHDR)) =? SIZEOF_PHDR) eqn:El; cbn [negb]; [|exact Hfalse].
  apply Z.eqb_eq in El. set (phdr := get_phdr (file_read data ofs SIZEOF_PHDR)).
  assert (ofs + SIZEOF_PHDR <= Z.of_nat (length data)) as Hend.
  { unfold file_read, SIZEOF_PHDR in *. rewrite length_take, length_drop in El. lia. }
  rewrite (s32_id (ofs + SIZEOF_PHDR)) by (unfold SIZEOF_PHDR in *; lia).
  destruct ((p_type phdr =? PT_DYNAMIC) || (p_type phdr =? PT_INTERP) || (p_type phdr =? PT_SHLIB)); [exact Hfalse|].
  assert (forall st1 T1, spt_ok st1 T1 -> user_table T1 -> T ⊆ T1 -> loaded T1 phdr ->
    exists b st' T', load_phdrs data file n (ofs + SIZEOF_PHDR) st1 = Ok (b, st') /\ spt_ok st' T' /\ user_table T' /\ T ⊆ T' /\
      (b = true -> forall i, 0 <= i < Z.of_nat (S n) -> loaded T' (get_phdr (file_read data (ofs + SIZEOF_PHDR * i) SIZEOF_PHDR)))) as Hgo.
  { intros st1 T1 Hs1 Hu1 Hsub1 Hl1. destruct (IH (ofs + SIZEOF_PHDR) st1 T1 Hs1 Hu1) as (b & st' & T' & Hr & Hs' & Hu' & Hsub & Hall).
    exists b, st', T'. do 3 (split; [done|]). split; [by etrans|]. intros Hb i Hi.
    destruct (Z.eq_dec i 0) as [->|Hne].
    - rewrite Z.mul_0_r, Z.add_0_r. by eapply loaded_mono.
    - specialize (Hall Hb (i - 1) ltac:(lia)).
      by replace (ofs + SIZEOF_PHDR + SIZEOF_PHDR * (i - 1)) with (ofs + SIZEOF_PHDR * i) in Hall by lia. }
  destruct (Z.eqb_spec (p_type phdr) PT_LOAD) as [Et|Et].
  - destruct (load_pt_load_ok phdr st T (get_phdr_ok ofs) Hs Hu) as (b & st1 & T1 & Hr & Hs1 & Hu1 & Hsub1 & Hm). mrun Hr.
    destruct b; cbn [negb]; [by apply (Hgo st1 T1); try done; intros _; apply Hm|].
    exists false, st1, T1. do 4 (split; [done|]). discriminate.
  - apply (Hgo st T); [done|done|done|]. intros Ht. by destruct Et.
Qed.
End proofs.

(** C23: reading the headers of any file and entering its segments returns and
    keeps the table a map of user pages with all its old entries; and when it
    succeeds, the file has the header of an executable for this machine and,
    for every loadable segment, the table holds a page for every address of
    the segment, writable as the segment says, that stands for the byte of
    the file at the segment's offset, or for zero behind the bytes of the
    file. *)
Theorem load_headers_ok data file st T :
  Z.of_nat (length data) < 2147483648 -> Forall (fun b => 0 <= b < 256) data -> spt_ok st T -> user_table T ->
  let ehdr := get_ehdr (file_read data 0 SIZEOF_EHDR) in
  exists b entry st' T', load_headers data file st = Ok ((b, entry), st') /\
    spt_ok st' T' /\ user_table T' /\ T ⊆ T' /\
    (b = true ->
     check_ehdr (file_read data 0 SIZEOF_EHDR) = true /\ entry = e_entry ehdr /\
     forall i, 0 <= i < e_phnum ehdr -> loaded data file T' (phdr_at data i)).
Proof.
  intros Hl Hb Hs Hu ehdr. unfold load_headers. fold ehdr. destruct (check_ehdr (file_read data 0 SIZEOF_EHDR)) eqn:E; cbn [negb].
  2:{ exists false, 0, st, T. do 4 (split; [done|]). discriminate. }
  destruct (load_phdrs_ok data file Hl Hb (Z.to_nat (e_phnum ehdr)) (s32 (e_phoff ehdr)) st T Hs Hu)
    as (b & st' & T' & Hr & Hs' & Hu' & Hsub & Hall).
  mrun Hr. exists b, (e_entry ehdr), st', T'. do 4 (split; [done|]). intros ->. split; [done|]. split; [done|].
  intros i Hi. apply Hall; [done|]. lia.
Qed.

(** ** An executable *)

(** One segment of four bytes of the file, writable, with 5000 bytes of
    memory at 0x8048054. *)
Definition program : list Z :=
  ELF_IDENT ++ replicate 9 0 ++ [2; 0; 3; 0; 1; 0; 0; 0; 84; 128; 4; 8; 52; 0; 0; 0; 0; 0; 0; 0; 0; 0; 0; 0;
    52; 0; 32; 0; 1; 0; 0; 0; 0; 0; 0; 0] ++
  [1; 0; 0; 0; 84; 0; 0; 0; 84; 128; 4; 8; 0; 0; 0; 0; 4; 0; 0; 0; 136; 19; 0; 0; 6; 0; 0; 0; 0; 16; 0; 0] ++
  [11; 12; 13; 14].

Lemma program_loads :
  match load_headers program (FsState.mkFile 1 0 false) empty_vm with Ok (r, _) => r | Err _ => (false, 0) end
  = (true, 134512724).
Proof. vm_compute. reflexivity. Qed.

Lemma load_headers_ok_witness :
  exists st' (T' : gmap Z page) pg, load_headers program (FsState.mkFile 1 0 false) empty_vm = Ok ((true, 134512724), st') /\
    T' !! 134512640 = Some pg /\ writable pg = true /\ promised program pg 134512727 = Some 14.
Proof.
  destruct (load_headers_ok program (FsState.mkFile 1 0 false) empty_vm ∅) as (b & entry & st' & T' & Hr & _ & _ & _ & Hall).
  - vm_compute. reflexivity.
  - apply (bool_decide_unpack _). vm_compute. exact I.
  - apply empty_vm_ok.
  - intros u [x Hx]. discriminate Hx.
  - pose proof program_loads as Hp. rewrite Hr in Hp. injection Hp as -> ->.
    destruct (Hall eq_refl) as (_ & _ & Hload). specialize (Hload 0 ltac:(split; [lia|vm_compute; reflexivity])).
    specialize (Hload ltac:(vm_compute; reflexivity)). destruct (Hload 134512727) as (pg & HT & _ & Hw & _ & Hc).
    { vm_compute. split; [discriminate|reflexivity]. }
    exists st', T', pg. split; [exact Hr|]. split; [exact HT|]. split; [exact Hw|]. apply Hc. vm_compute. reflexivity.
Defined.

End Elf.
