(* ===== verification/Stdio.v ===== *)
(** * Formatted output (src/src/lib/stdio.c)

    The functions that format call OUTPUT once for each character, and
    nothing that OUTPUT does changes what they format: here they return the
    characters in the order in which OUTPUT gets them.  The state of the
    monad is the list of arguments that [va_arg] has not consumed; an argument
    of another type than the one asked for is an access to memory that is not
    there.  A format is a list of characters that ends with the null
    character; to read behind it is a bad access. *)

From Stdlib Require Import Ascii String.
From S2P Require Import Prelude DListOps CString StdLib.

Module Stdio.

(** ** Characters *)

Definition chr (a : ascii) : Z := Z.of_N (N_of_ascii a).
Arguments chr _%_char.

Fixpoint str (s : string) : list Z :=
  match s with EmptyString => [] | String a s' => chr a :: str s' end.
Arguments str _%_string.

(** A string literal with its null character. *)
Definition lit (s : string) : list Z := str s ++ [0].
Arguments lit _%_string.

Definition isprint (c : Z) : bool := (32 <=? c) && (c <? 127).

(** ** Arguments *)

Inductive arg : Type :=
| Word (w : Z)                  (* a 32-bit integer or pointer *)
| Dword (d : Z)                 (* a 64-bit integer *)
| Str (s : option (list Z)).    (* a string, or a null pointer *)

Definition va_word : M (list arg) Z :=
  fun args => match args with Word w :: rest => Ok (u32 w, rest) | _ => Err Bad_access end.
Definition va_dword : M (list arg) Z :=
  fun args => match args with Dword d :: rest => Ok (u64 d, rest) | _ => Err Bad_access end.
Definition va_str : M (list arg) (option (list Z)) :=
  fun args => match args with Str s :: rest => Ok (s, rest) | _ => Err Bad_access end.
Definition va_int : M (list arg) Z := w <- va_word ;; ret (s32 w).

(** ** Conversions *)

Definition MINUS : Z := 1.
Definition PLUS : Z := 2.
Definition SPACE : Z := 4.
Definition POUND : Z := 8.
Definition ZERO : Z := 16.
Definition GROUP : Z := 32.

Definition has (flags f : Z) : bool := negb (Z.land flags f =? 0).

Inductive arg_type : Type := CHAR | SHORT | INT | INTMAX | LONG | LONGLONG | PTRDIFFT | SIZET.

Record conversion : Type := mkConversion { flags : Z; width : Z; precision : Z; ctype : arg_type }.

Record integer_base : Type := mkBase { base : Z; digits : list Z; xchar : Z; group : Z }.

Definition base_d : integer_base := mkBase 10 (str "0123456789") 0 3.
Definition base_o : integer_base := mkBase 8 (str "01234567") 0 3.
Definition base_x : integer_base := mkBase 16 (str "0123456789abcdef") (chr "x") 4.
Definition base_X : integer_base := mkBase 16 (str "0123456789ABCDEF") (chr "X") 4.

(** [*format] and [*format++]. *)
Definition peek (format : list Z) : M (list arg) Z :=
  match format with c :: _ => ret c | [] => fail Bad_access end.

Fixpoint parse_flags (format : list Z) (flags : Z) : M (list arg) (list Z * Z) :=
  match format with
  | [] => fail Bad_access
  | c :: format' =>
      if c =? chr "-" then parse_flags format' (Z.lor flags MINUS)
      else if c =? chr "+" then parse_flags format' (Z.lor flags PLUS)
      else if c =? chr " " then parse_flags format' (Z.lor flags SPACE)
      else if c =? chr "#" then parse_flags format' (Z.lor flags POUND)
      else if c =? chr "0" then parse_flags format' (Z.lor flags ZERO)
      else if c =? 39 then parse_flags format' (Z.lor flags GROUP)
      else ret (format, flags)
  end.

(** A number in the format. *)
Fixpoint parse_number (format : list Z) (n : Z) : M (list arg) (list Z * Z) :=
  match format with
  | [] => fail Bad_access
  | c :: format' =>
      if StdLib.isdigit c then parse_number format' (s32 (n * 10 + c - chr "0")) else ret (format, n)
  end.

Definition parse_width (format : list Z) : M (list arg) (list Z * Z) :=
  c <- peek format ;;
  if c =? chr "*" then w <- va_int ;; ret (tail format, w) else parse_number format 0.

Definition parse_precision (format : list Z) : M (list arg) (list Z * Z) :=
  c <- peek format ;;
  if c =? chr "." then
    let format := tail format in
    c <- peek format ;;
    ' (format, p) <- (if c =? chr "*" then p <- va_int ;; ret (tail format, p) else parse_number format 0) ;;
    ret (format, if p <? 0 then -1 else p)
  else ret (format, -1).

Definition parse_type (format : list Z) : M (list arg) (list Z * arg_type) :=
  c <- peek format ;;
  let next := tail format in
  if c =? chr "h" then
    c2 <- peek next ;; ret (if c2 =? chr "h" then (tail next, CHAR) else (next, SHORT))
  else if c =? chr "j" then ret (next, INTMAX)
  else if c =? chr "l" then
    c2 <- peek next ;; ret (if c2 =? chr "l" then (tail next, LONGLONG) else (next, LONG))
  else if c =? chr "t" then ret (next, PTRDIFFT)
  else if c =? chr "z" then ret (next, SIZET)
  else ret (format, INT).

Definition parse_conversion (format : list Z) : M (list arg) (list Z * conversion) :=
  ' (format, flags) <- parse_flags format 0 ;;
  let flags := if has flags MINUS then Z.land flags (Z.lnot ZERO) else flags in
  let flags := if has flags PLUS then Z.land flags (Z.lnot SPACE) else flags in
  ' (format, width) <- parse_width format ;;
  let '(width, flags) := if width <? 0 then (s32 (- width), Z.lor flags MINUS) else (width, flags) in
  ' (format, precision) <- parse_precision format ;;
  let flags := if precision >=? 0 then Z.land flags (Z.lnot ZERO) else flags in
  ' (format, type) <- parse_type format ;;
  ret (format, mkConversion flags width precision type).

(** ** Integers *)

(** The local array, from its start to [cp]. *)
Definition BUF_SIZE : Z := 64.

Definition push (buf : list Z) (c : Z) : M (list arg) (list Z) :=
  if Z.of_nat (length buf) <? BUF_SIZE then ret (buf ++ [c]) else fail Bad_access.

Definition digit (b : integer_base) (d : Z) : Z := nth (Z.to_nat d) (digits b) 0.

Fixpoint digits_loop (fuel : nat) (b : integer_base) (grouped : bool) (buf : list Z) (value digit_cnt : Z)
  : M (list arg) (list Z) :=
  match fuel with
  | O => fail Out_of_fuel
  | S fuel' =>
      if value >? 0 then
        buf <- (if grouped && (digit_cnt >? 0) && (digit_cnt mod group b =? 0) then push buf (chr ",") else ret buf) ;;
        buf <- push buf (digit b (value mod base b)) ;;
        digits_loop fuel' b grouped buf (value / base b) (digit_cnt + 1)
      else ret buf
  end.

Fixpoint zeros_loop (fuel : nat) (buf : list Z) (precision : Z) : M (list arg) (list Z) :=
  match fuel with
  | O => fail Out_of_fuel
  | S fuel' =>
      if (Z.of_nat (length buf) <? precision) && (Z.of_nat (length buf) <? BUF_SIZE - 1) then
        buf <- push buf (chr "0") ;; zeros_loop fuel' buf precision
      else ret buf
  end.

Definition output_dup (ch cnt : Z) : list Z := repeat ch (Z.to_nat cnt).

Definition sign_char (is_signed negative : bool) (flags : Z) : Z :=
  if is_signed then
    if has flags PLUS then (if negative then chr "-" else chr "+")
    else if has flags SPACE then (if negative then chr "-" else chr " ")
    else if negative then chr "-" else 0
  else 0.

Definition format_integer (value : Z) (is_signed negative : bool) (b : integer_base) (c : conversion)
  : M (list arg) (list Z) :=
  let sign := sign_char is_signed negative (flags c) in
  let x := if has (flags c) POUND && negb (value =? 0) then xchar b else 0 in
  buf <- digits_loop 65 b (has (flags c) GROUP) [] value 0 ;;
  let precision := if precision c <? 0 then 1 else precision c in
  buf <- zeros_loop 65 buf precision ;;
  buf <- (if has (flags c) POUND && (base b =? 8) &&
             match last buf with None => true | Some d => negb (d =? chr "0") end
          then push buf (chr "0") else ret buf) ;;
  let pad_cnt := width c - Z.of_nat (length buf) - (if x =? 0 then 0 else 2) - (if sign =? 0 then 0 else 1) in
  let pad_cnt := if pad_cnt <? 0 then 0 else pad_cnt in
  ret ((if has (flags c) (Z.lor MINUS ZERO) then [] else output_dup (chr " ") pad_cnt) ++
       (if sign =? 0 then [] else [sign]) ++
       (if x =? 0 then [] else [chr "0"; x]) ++
       (if has (flags c) ZERO then output_dup (chr "0") pad_cnt else []) ++
       rev buf ++
       (if has (flags c) MINUS then output_dup (chr " ") pad_cnt else [])).

Definition format_string (string : list Z) (c : conversion) : list Z :=
  let length := Z.of_nat (length string) in
  (if (width c >? length) && negb (has (flags c) MINUS) then output_dup (chr " ") (width c - length) else []) ++
  string ++
  (if (width c >? length) && has (flags c) MINUS then output_dup (chr " ") (width c - length) else []).

(** The value of a signed conversion. *)
Definition signed_value (t : arg_type) : M (list arg) Z :=
  match t with
  | CHAR => v <- va_int ;; ret (s8 v)
  | SHORT => v <- va_int ;; ret ((v + 32768) mod 65536 - 32768)
  | INT | LONG | PTRDIFFT => va_int
  | INTMAX | LONGLONG => v <- va_dword ;; ret (s64 v)
  | SIZET => v <- va_word ;; ret (if v >? 4294967295 / 2 then v - 4294967295 - 1 else v)
  end.

Definition unsigned_value (t : arg_type) : M (list arg) Z :=
  match t with
  | CHAR => v <- va_word ;; ret (u8 v)
  | SHORT => v <- va_word ;; ret (v mod 65536)
  | INT | LONG | SIZET => va_word
  | INTMAX | LONGLONG => va_dword
  | PTRDIFFT => v <- va_int ;; ret (Z.land (u64 v) (Z.lor (Z.shiftl 2147483647 1) 1))
  end.

(** The bytes of a string that [strnlen] counts; [-1] is SIZE_MAX. *)
Definition limit (s : list Z) (precision : Z) : list Z :=
  if Z.of_nat (length s) <=? u32 precision then s else take (Z.to_nat (u32 precision)) s.

(** ** The formatter *)

Fixpoint vprintf (fuel : nat) (format : list Z) : M (list arg) (list Z) :=
  match fuel with
  | O => fail Out_of_fuel
  | S fuel' =>
      c <- peek format ;;
      if c =? 0 then ret []
      else if negb (c =? chr "%") then
        rest <- vprintf fuel' (tail format) ;; ret (c :: rest)
      else
        let format := tail format in
        c <- peek format ;;
        if c =? chr "%" then rest <- vprintf fuel' (tail format) ;; ret (chr "%" :: rest)
        else
          ' (format, cv) <- parse_conversion format ;;
          k <- peek format ;;
          out <- (if (k =? chr "d") || (k =? chr "i") then
                    value <- signed_value (ctype cv) ;;
                    format_integer (if value <? 0 then u64 (- value) else value) true (value <? 0) base_d cv
                  else if (k =? chr "o") || (k =? chr "u") || (k =? chr "x") || (k =? chr "X") then
                    value <- unsigned_value (ctype cv) ;;
                    format_integer value false false
                      (if k =? chr "o" then base_o else if k =? chr "u" then base_d
                       else if k =? chr "x" then base_x else base_X) cv
                  else if k =? chr "c" then ch <- va_int ;; ret (format_string [u8 ch] cv)
                  else if k =? chr "s" then
                    s <- va_str ;;
                    ret (format_string (limit (default (str "(null)") s) (precision cv)) cv)
                  else if k =? chr "p" then
                    p <- va_word ;;
                    format_integer p false false base_x (mkConversion POUND (width cv) (precision cv) (ctype cv))
                  else
                    let unknown := if (k =? chr "f") || (k =? chr "e") || (k =? chr "E") || (k =? chr "g") ||
                                      (k =? chr "G") || (k =? chr "n")
                                   then lit "<<no %%%c in kernel>>" else lit "<<no %%%c conversion>>" in
                    fun args => match vprintf fuel' unknown [Word k] with
                                | Ok (out, _) => Ok (out, args)
                                | Err e => Err e
                                end) ;;
          rest <- vprintf fuel' (tail format) ;;
          ret (out ++ rest)
  end.

(** The text of [__printf]: the format with its arguments. *)
Definition printf (fuel : nat) (format : list Z) (args : list arg) : res (list Z) :=
  match vprintf fuel format args with Ok (out, _) => Ok out | Err e => Err e end.

Example printf_ex1 : printf 40 (lit "%5d|%-5d|%05d|%+d|%x|%#o|%'d") [Word 42; Word 42; Word (-42); Word 7; Word 255; Word 8; Word 1234567]
  = Ok (str "   42|42   |-0042|+7|ff|010|1,234,567").
Proof. reflexivity. Qed.
Example printf_ex2 : printf 60 (lit "%s %.2s %5c|%p %lld %f %y %%") [Str None; Str (Some (str "abc")); Word 65; Word 4096; Dword (-5)]
  = Ok (str "(null) ab     A|0x1000 -5 <<no %f in kernel>> <<no %y conversion>> %").
Proof. reflexivity. Qed.

(** ** Digits *)

(** The value of digits, the least significant one first. *)
Fixpoint numeral (base : Z) (ds : list Z) : Z :=
  match ds with [] => 0 | d :: ds' => d + base * numeral base ds' end.

Record base_ok (b : integer_base) : Prop := {
  bo_base : 8 <= base b;
  bo_group : 0 < group b
}.

Lemma bases_ok : base_ok base_d /\ base_ok base_o /\ base_ok base_x /\ base_ok base_X.
Proof. by repeat split. Qed.

Lemma push_run buf c args : Z.of_nat (length buf) < 64 -> push buf c args = Ok (buf ++ [c], args).
Proof. intros H. unfold push, BUF_SIZE. by rewrite (proj2 (Z.ltb_lt _ _)). Qed.

Lemma pow_step b n : 0 < b -> b ^ Z.of_nat (S n) = b * b ^ Z.of_nat n.
Proof. intros. rewrite Nat2Z.inj_succ, Z.pow_succ_r by lia. done. Qed.

(** Without grouping the buffer gets the digits of the value. *)
Lemma digits_loop_run fuel b buf v cnt args n :
  base_ok b -> 0 <= v < base b ^ Z.of_nat n -> (n < fuel)%nat -> Z.of_nat (length buf + n) <= 64 ->
  exists ds, digits_loop fuel b false buf v cnt args = Ok (buf ++ map (digit b) ds, args) /\
    numeral (base b) ds = v /\ Forall (fun d => 0 <= d < base b) ds /\ (length ds <= n)%nat.
Proof.
  intros [Hb Hg]. revert fuel buf v cnt. induction n as [|n IH]; intros [|fuel] buf v cnt Hv Hf Hl; try lia; cbn [digits_loop].
  - change (Z.of_nat 0) with 0 in Hv. rewrite Z.pow_0_r in Hv. rewrite Z.gtb_ltb, (proj2 (Z.ltb_ge _ _)) by lia.
    exists []. rewrite app_nil_r. repeat split; [cbn; lia|constructor|cbn; lia].
  - rewrite Z.gtb_ltb. destruct (Z.ltb_spec 0 v) as [Hpos|Hz].
    2:{ exists []. rewrite app_nil_r. repeat split; [cbn; lia|constructor|cbn; lia]. }
    cbn [andb]. mnorm. mrun (push_run buf (digit b (v mod base b)) args ltac:(lia)).
    rewrite pow_step in Hv by lia.
    destruct (IH fuel (buf ++ [digit b (v mod base b)]) (v / base b) (cnt + 1)) as (ds & Hr & Hn & Hd & Hlen);
      [split; [apply Z.div_pos; lia|apply Z.div_lt_upper_bound; lia]|lia|rewrite length_app; cbn; lia|].
    exists (v mod base b :: ds). rewrite Hr, <- app_assoc. split; [done|].
    pose proof (Z.mod_pos_bound v (base b) ltac:(lia)). pose proof (Z.div_mod v (base b) ltac:(lia)).
    repeat split; [cbn; lia|by constructor|cbn; lia].
Qed.

(** With or without grouping the buffer is long enough. *)
Lemma digits_loop_fits fuel b g buf v cnt args n :
  base_ok b -> 0 <= v < base b ^ Z.of_nat n -> (n < fuel)%nat -> Z.of_nat (length buf + 2 * n) <= 64 ->
  exists buf', digits_loop fuel b g buf v cnt args = Ok (buf', args) /\ (length buf' <= length buf + 2 * n)%nat.
Proof.
  intros [Hb Hg]. revert fuel buf v cnt. induction n as [|n IH]; intros [|fuel] buf v cnt Hv Hf Hl; try lia; cbn [digits_loop].
  - change (Z.of_nat 0) with 0 in Hv. rewrite Z.pow_0_r in Hv. rewrite Z.gtb_ltb, (proj2 (Z.ltb_ge _ _)) by lia.
    exists buf. split; [done|lia].
  - rewrite Z.gtb_ltb. destruct (Z.ltb_spec 0 v) as [Hpos|Hz]; [|exists buf; split; [done|lia]].
    rewrite pow_step in Hv by lia.
    assert (exists buf1, (if g && (cnt >? 0) && (cnt mod group b =? 0) then push buf (chr ",") else ret buf) args = Ok (buf1, args)
      /\ (length buf1 <= length buf + 1)%nat) as (buf1 & H1 & Hl1).
    { destruct (g && (cnt >? 0) && (cnt mod group b =? 0)).
      - rewrite push_run by lia. eexists. split; [done|]. rewrite length_app. cbn. lia.
      - exists buf. split; [done|lia]. }
    mrun H1. mrun (push_run buf1 (digit b (v mod base b)) args ltac:(lia)).
    destruct (IH fuel (buf1 ++ [digit b (v mod base b)]) (v / base b) (cnt + 1)) as (buf' & Hr & Hlen);
      [split; [apply Z.div_pos; lia|apply Z.div_lt_upper_bound; lia]|lia|rewrite length_app; cbn; lia|].
    exists buf'. split; [done|]. rewrite length_app in Hlen. cbn in Hlen. lia.
Qed.

Lemma zeros_loop_run fuel buf p args :
  Z.of_nat (length buf) <= 63 -> 63 < Z.of_nat (length buf + fuel) ->
  zeros_loop fuel buf p args = Ok (buf ++ repeat 48 (Z.to_nat (Z.min p 63 - Z.of_nat (length buf))), args).
Proof.
  revert buf. induction fuel as [|fuel IH]; intros buf Hl Hf; [lia|]. cbn [zeros_loop]. unfold BUF_SIZE.
  destruct (Z.ltb_spec (Z.of_nat (length buf)) p), (Z.ltb_spec (Z.of_nat (length buf)) (64 - 1)); cbn [andb].
  1:{ mrun (push_run buf (chr "0") args ltac:(lia)). rewrite IH; rewrite length_app; cbn [length]; [|lia|lia].
      replace (Z.to_nat (Z.min p 63 - Z.of_nat (length buf)))
        with (S (Z.to_nat (Z.min p 63 - Z.of_nat (length buf + 1)))) by lia. cbn [repeat]. by rewrite <- app_assoc. }
  all: replace (Z.to_nat _) with 0%nat by lia; cbn [repeat]; by rewrite app_nil_r.
Qed.

(** A value of 64 bits has at most 22 digits. *)
Lemma digits_22 b v : base_ok b -> in_u64 v -> 0 <= v < base b ^ Z.of_nat 22.
Proof.
  intros [Hb _] Hv. unfold in_u64 in Hv. split; [lia|]. pose proof (Z.pow_le_mono_l 8 (base b) (Z.of_nat 22) ltac:(lia)) as H.
  change (8 ^ Z.of_nat 22) with 73786976294838206464 in H. lia.
Qed.

(** The parts of a formatted integer around its digits. *)
Definition pad_cnt (value : Z) (is_signed negative : bool) (b : integer_base) (c : conversion) (n : nat) : Z :=
  let x := if has (flags c) POUND && negb (value =? 0) then xchar b else 0 in
  let sign := sign_char is_signed negative (flags c) in
  Z.max 0 (width c - Z.of_nat n - (if x =? 0 then 0 else 2) - (if sign =? 0 then 0 else 1)).

Definition around (value : Z) (is_signed negative : bool) (b : integer_base) (c : conversion) (ds : list Z) : list Z :=
  let x := if has (flags c) POUND && negb (value =? 0) then xchar b else 0 in
  let sign := sign_char is_signed negative (flags c) in
  let n := Z.to_nat (pad_cnt value is_signed negative b c (length ds)) in
  (if has (flags c) (Z.lor MINUS ZERO) then [] else repeat 32 n) ++
  (if sign =? 0 then [] else [sign]) ++ (if x =? 0 then [] else [48; x]) ++
  (if has (flags c) ZERO then repeat 48 n else []) ++ ds ++
  (if has (flags c) MINUS then repeat 32 n else []).

Lemma format_integer_tail value is_signed negative b c buf (args : list arg) :
  (let pad_cnt := width c - Z.of_nat (length buf)
       - (if (if has (flags c) POUND && negb (value =? 0) then xchar b else 0) =? 0 then 0 else 2)
       - (if sign_char is_signed negative (flags c) =? 0 then 0 else 1) in
   let pad_cnt := if pad_cnt <? 0 then 0 else pad_cnt in
   ret ((if has (flags c) (Z.lor MINUS ZERO) then [] else output_dup (chr " ") pad_cnt) ++
       (if sign_char is_signed negative (flags c) =? 0 then [] else [sign_char is_signed negative (flags c)]) ++
       (if (if has (flags c) POUND && negb (value =? 0) then xchar b else 0) =? 0 then []
        else [chr "0"; if has (flags c) POUND && negb (value =? 0) then xchar b else 0]) ++
       (if has (flags c) ZERO then output_dup (chr "0") pad_cnt else []) ++
       rev buf ++
       (if has (flags c) MINUS then output_dup (chr " ") pad_cnt else []))) args
  = Ok (around value is_signed negative b c (rev buf), args).
Proof.
  cbv zeta. unfold around, pad_cnt, output_dup, ret. rewrite length_rev. do 2 f_equal.
  set (e := width c - _ - _ - _). replace (if e <? 0 then 0 else e) with (Z.max 0 e) by (destruct (Z.ltb_spec e 0); lia). done.
Qed.

(** Every conversion of every value fits the buffer. *)
Lemma format_integer_total value is_signed negative b c args :
  base_ok b -> in_u64 value ->
  exists ds, format_integer value is_signed negative b c args = Ok (around value is_signed negative b c ds, args).
Proof.
  intros Hb Hv. unfold format_integer.
  destruct (digits_loop_fits 65 b (has (flags c) GROUP) [] value 0 args 22 Hb (digits_22 b value Hb Hv))
    as (buf1 & H1 & L1); [lia|cbn; lia|]. cbn [length] in L1. mrun H1.
  set (p := if precision c <? 0 then 1 else precision c).
  mrun (zeros_loop_run 65 buf1 p args ltac:(lia) ltac:(lia)).
  set (buf2 := buf1 ++ _). assert (Z.of_nat (length buf2) <= 63) as L2 by (unfold buf2; rewrite length_app, repeat_length; lia).
  assert (exists buf3, (if has (flags c) POUND && (base b =? 8) && match last buf2 with None => true | Some d => negb (d =? chr "0") end
    then push buf2 (chr "0") else ret buf2) args = Ok (buf3, args)) as (buf3 & H3).
  { destruct (has (flags c) POUND && (base b =? 8) && _); [rewrite push_run by lia; eauto|by exists buf2]. }
  mrun H3. exists (rev buf3). apply format_integer_tail.
Qed.

(** Without grouping: the digits of the value behind zeros. *)
Lemma format_integer_digits n value is_signed negative b c args :
  base_ok b -> 0 <= value < base b ^ Z.of_nat n -> (n <= 22)%nat -> has (flags c) GROUP = false ->
  exists ds z, format_integer value is_signed negative b c args
      = Ok (around value is_signed negative b c (repeat 48 z ++ rev (map (digit b) ds)), args) /\
    numeral (base b) ds = value /\ Forall (fun d => 0 <= d < base b) ds /\ (length ds <= n)%nat /\
    (precision c <> 0 -> (0 < z + length ds)%nat) /\
    (has (flags c) POUND = false -> z = Z.to_nat (Z.min (if precision c <? 0 then 1 else precision c) 63 - Z.of_nat (length ds))).
Proof.
  intros Hb Hv Hn22 Hg. unfold format_integer. rewrite Hg.
  destruct (digits_loop_run 65 b [] value 0 args n Hb Hv)
    as (ds & H1 & Hn & Hd & L1); [lia|cbn; lia|]. mrun H1. cbn [app].
  set (p := if precision c <? 0 then 1 else precision c).
  assert (length (map (digit b) ds) = length ds) as Lm by apply length_map.
  mrun (zeros_loop_run 65 (map (digit b) ds) p args ltac:(lia) ltac:(lia)). rewrite Lm.
  set (k := Z.to_nat (Z.min p 63 - Z.of_nat (length ds))). set (buf2 := map (digit b) ds ++ repeat 48 k).
  assert (rev buf2 = repeat 48 k ++ rev (map (digit b) ds)) as Hrev.
  { unfold buf2. rewrite rev_app_distr. f_equal. clear. induction k as [|k IH]; [done|]. cbn [repeat rev]. rewrite IH.
    clear. induction k as [|k IH]; [done|]. cbn. by rewrite IH. }
  assert (precision c <> 0 -> (0 < k + length ds)%nat) as Hpos.
  { intros Hp. assert (1 <= p \/ precision c < 0) as [H|H]; unfold p in *; destruct (Z.ltb_spec (precision c) 0); lia. }
  destruct (has (flags c) POUND && (base b =? 8) && _) eqn:E.
  - mrun (push_run buf2 (chr "0") args ltac:(unfold buf2; rewrite length_app, repeat_length; lia)).
    exists ds, (S k). rewrite format_integer_tail, rev_app_distr, Hrev. cbn [rev app repeat].
    split; [done|]. split; [done|]. split; [done|]. split; [done|]. split; [intros; lia|].
    intros Hp. rewrite Hp in E. done.
  - mnorm. exists ds, k. rewrite format_integer_tail, Hrev. done.
Qed.

(** ** Printing and reading back *)

Lemma digit_d d : 0 <= d < 10 -> digit base_d d = 48 + d.
Proof.
  intros Hd. assert (d = 0 \/ d = 1 \/ d = 2 \/ d = 3 \/ d = 4 \/ d = 5 \/ d = 6 \/ d = 7 \/ d = 8 \/ d = 9) as H by lia.
  by destruct H as [->|[->|[->|[->|[->|[->|[->|[->|[->| ->]]]]]]]]].
Qed.

Lemma isdigit_between c : StdLib.isdigit c = true <-> 48 <= c <= 57.
Proof. unfold StdLib.isdigit. rewrite andb_true_iff, Z.geb_le, Z.leb_le. lia. Qed.

Lemma digits_value_snoc ds c : StdLib.digits_value (ds ++ [c]) = StdLib.digits_value ds * 10 + (c - 48).
Proof. unfold StdLib.digits_value. by rewrite fold_left_app. Qed.

Lemma digits_value_zeros k ds : StdLib.digits_value (repeat 48 k ++ ds) = StdLib.digits_value ds.
Proof. unfold StdLib.digits_value. rewrite fold_left_app. f_equal. induction k as [|k IH]; [done|exact IH]. Qed.

Lemma digits_value_numeral ds :
  Forall (fun d => 0 <= d < 10) ds -> StdLib.digits_value (rev (map (digit base_d) ds)) = numeral 10 ds.
Proof.
  induction 1 as [|d ds Hd _ IH]; [done|]. cbn [map rev numeral]. rewrite digits_value_snoc, IH, digit_d by done. lia.
Qed.

Lemma Forall_repeat {A} (P : A -> Prop) a k : P a -> Forall P (repeat a k).
Proof. intros Ha. induction k as [|k IH]; cbn; by constructor. Qed.

Lemma digits_are_digits k ds :
  Forall (fun d => 0 <= d < 10) ds ->
  Forall (fun c => StdLib.isdigit c = true) (repeat 48 k ++ rev (map (digit base_d) ds)).
Proof.
  intros Hd. apply Forall_app. split; [by apply Forall_repeat|]. apply Forall_rev, Forall_fmap.
  eapply Forall_impl; [exact Hd|]. intros d Hr. cbn beta in Hr. apply isdigit_between. unfold compose. rewrite digit_d; lia.
Qed.

Lemma sign_of_char negative flags :
  exists sp sg, (if sign_char true negative flags =? 0 then [] else [sign_char true negative flags]) = sp ++ sg /\
    Forall (fun c => StdLib.isspace c = true) sp /\ StdLib.sign_of sg negative.
Proof.
  unfold sign_char. destruct (has flags PLUS); [|destruct (has flags SPACE)]; destruct negative; cbn [Z.eqb chr].
  - exists [], [45]. split; [done|]. split; [constructor|]. by left.
  - exists [], [43]. split; [done|]. split; [constructor|]. by right; left.
  - exists [], [45]. split; [done|]. split; [constructor|]. by left.
  - exists [32], []. split; [done|]. split; [by repeat constructor|]. by right; right.
  - exists [], [45]. split; [done|]. split; [constructor|]. by left.
  - exists [], []. split; [done|]. split; [constructor|]. by right; right.
Qed.

(** a decimal conversion of any [int], with any flags but grouping, any
    width and any precision but 0, gives a text that [atoi] reads as the
    same number. *)
Theorem format_integer_atoi v c args :
  in_s32 v -> has (flags c) GROUP = false -> precision c <> 0 ->
  exists out, format_integer (if v <? 0 then u64 (- v) else v) true (v <? 0) base_d c args = Ok (out, args) /\
    StdLib.atoi out = v.
Proof.
  intros Hv Hg Hp. unfold in_s32 in Hv. set (a := if v <? 0 then u64 (- v) else v).
  assert (a = Z.abs v) as Ea.
  { unfold a. destruct (Z.ltb_spec v 0); [rewrite u64_id by lia|]; lia. }
  destruct bases_ok as [Hb _].
  destruct (format_integer_digits 22 a true (v <? 0) base_d c args Hb) as (ds & z & Hr & Hn & Hd & _ & Hlen & _);
    [apply digits_22; [done|unfold in_u64; lia]|done|done|].
  eexists. split; [exact Hr|]. unfold around. cbn [xchar base_d]. replace (if _ && _ then 0 else 0) with 0 by (by destruct (_ && _)).
  cbn [Z.eqb app]. set (n := Z.to_nat _). change (base base_d) with 10 in *.
  destruct (sign_of_char (v <? 0) (flags c)) as (sp & sg & -> & Hsp & Hsg). specialize (Hlen Hp).
  set (lead := if has (flags c) (Z.lor MINUS ZERO) then [] else repeat 32 n).
  set (rest := if has (flags c) MINUS then repeat 32 n else []).
  assert (exists k, (if has (flags c) ZERO then repeat 48 n else []) ++ (repeat 48 z ++ rev (map (digit base_d) ds)) ++ rest
    = (repeat 48 (k + z) ++ rev (map (digit base_d) ds)) ++ rest) as (k & ->).
  { destruct (has (flags c) ZERO); [exists n|exists 0%nat; done]. by rewrite repeat_app, !app_assoc. }
  rewrite <- !app_assoc, (app_assoc lead sp), (app_assoc (repeat 48 (k + z))).
  rewrite (StdLib.atoi_ok (lead ++ sp) sg (v <? 0) (repeat 48 (k + z) ++ rev (map (digit base_d) ds)) rest).
  - rewrite digits_value_zeros, digits_value_numeral, Hn by done. destruct (Z.ltb_spec v 0); lia.
  - apply Forall_app. split; [|done]. unfold lead. destruct (has (flags c) (Z.lor MINUS ZERO)); [constructor|by apply Forall_repeat].
  - done.
  - intros E. apply (f_equal length) in E. rewrite length_app, repeat_length, length_rev, length_map in E. cbn in E. lia.
  - by apply digits_are_digits.
  - unfold rest. destruct (has (flags c) MINUS); [|done]. by destruct n.
  - rewrite digits_value_zeros, digits_value_numeral, Hn by done. unfold in_s32. destruct (Z.ltb_spec v 0); lia.
Qed.

Lemma format_integer_atoi_witness :
  exists out, format_integer 42 true true base_d (mkConversion ZERO 6 (-1) INT) [] = Ok (out, []) /\ StdLib.atoi out = -42.
Proof.
  exact (format_integer_atoi (-42) (mkConversion ZERO 6 (-1) INT) [] ltac:(unfold in_s32; lia) eq_refl ltac:(discriminate)).
Defined.

(** ** Termination *)

(** The outcomes of a parser: what is left of the format is no longer, and
    the only fault is to read an argument or a character that is not there. *)
Definition parsed {A} (format : list Z) (r : res ((list Z * A) * list arg)) : Prop :=
  match r with Ok (f, _, _) => (length f <= length format)%nat | Err e => e = Bad_access end.

Definition accessed {A} (r : res (A * list arg)) : Prop :=
  match r with Ok _ => True | Err e => e = Bad_access end.

Lemma accessed_bind {A B} (m : M (list arg) A) (k : A -> M (list arg) B) args :
  accessed (m args) -> (forall a args', m args = Ok (a, args') -> accessed (k a args')) -> accessed (bind m k args).
Proof. intros Hm Hk. unfold bind. destruct (m args) as [[a args']|e] eqn:E; [by apply Hk|exact Hm]. Qed.

Lemma parsed_bind {A B} f (m : M (list arg) (list Z * A)) (k : list Z * A -> M (list arg) (list Z * B)) args :
  parsed f (m args) -> (forall f' a args', (length f' <= length f)%nat -> parsed f' (k (f', a) args')) ->
  parsed f (bind m k args).
Proof.
  intros Hm Hk. unfold bind. destruct (m args) as [[[f' a] args']|e] eqn:E; [|exact Hm]. cbn in Hm.
  specialize (Hk f' a args' Hm). unfold parsed in *. destruct (k (f', a) args') as [[[f2 b] args2]|e2]; [lia|done].
Qed.

Lemma parse_flags_parsed f : forall flags args, parsed f (parse_flags f flags args).
Proof.
  induction f as [|c f IH]; intros flags args; [done|]. cbn [parse_flags].
  assert (forall fl, parsed (c :: f) (parse_flags f fl args)) as H.
  { intros fl. specialize (IH fl args). unfold parsed in *. destruct (parse_flags f fl args) as [[[f2 b] args2]|e2]; [cbn; lia|done]. }
  repeat match goal with |- context [if ?b then _ else _] => destruct b end; auto. cbn. lia.
Qed.

Lemma parse_number_parsed f : forall n args, parsed f (parse_number f n args).
Proof.
  induction f as [|c f IH]; intros n args; [done|]. cbn [parse_number]. destruct (StdLib.isdigit c); [|cbn; lia].
  specialize (IH (s32 (n * 10 + c - chr "0")) args). unfold parsed in *.
  destruct (parse_number f _ args) as [[[f2 b] args2]|e2]; [cbn; lia|done].
Qed.

Lemma parse_star_parsed f args :
  parsed f ((c <- peek f ;; if c =? chr "*" then w <- va_int ;; ret (tail f, w) else parse_number f 0) args).
Proof.
  destruct f as [|c f]; [done|]. cbn [peek]. mnorm. destruct (c =? chr "*"); [|apply parse_number_parsed].
  unfold va_int, va_word. destruct args as [|[] args]; cbn; try done. lia.
Qed.

Lemma parse_precision_parsed f args : parsed f (parse_precision f args).
Proof.
  destruct f as [|c f]; [done|]. unfold parse_precision. cbn [peek tail]. mnorm. destruct (c =? chr "."); [|cbn; lia].
  assert (parsed f ((c <- peek f ;; ' (format, p) <- (if c =? chr "*" then p <- va_int ;; ret (tail f, p) else parse_number f 0) ;;
    ret (format, if p <? 0 then -1 else p)) args)) as H.
  { pose proof (parse_star_parsed f args) as H. revert H. destruct f as [|c2 f]; [done|]. cbn [peek]. mnorm. intros H.
    apply parsed_bind; [exact H|]. intros. cbn. lia. }
  unfold parsed in *. destruct (bind (peek f) _ args) as [[[f2 b] args2]|e2]; [cbn; lia|done].
Qed.

Lemma parse_type_parsed f args : parsed f (parse_type f args).
Proof.
  destruct f as [|c [|c2 f]]; [done| |]; unfold parse_type; cbn [peek tail]; mnorm;
    repeat (cbn; match goal with |- context [if ?b then _ else _] => destruct b end); cbn; first [done | lia].
Qed.

Lemma parse_conversion_parsed f args : parsed f (parse_conversion f args).
Proof.
  unfold parse_conversion. apply parsed_bind; [apply parse_flags_parsed|]. intros f1 fl1 args1 H1.
  apply parsed_bind; [apply parse_star_parsed|]. intros f2 w2 args2 H2.
  destruct (if w2 <? 0 then _ else _) as [width flags2].
  apply parsed_bind; [apply parse_precision_parsed|]. intros f3 p3 args3 H3.
  apply parsed_bind; [apply parse_type_parsed|]. intros f4 t4 args4 H4. cbn. lia.
Qed.

(** The values that the integer conversions get. *)
Lemma va_int_inv args v args' : va_int args = Ok (v, args') -> in_s32 v.
Proof. unfold va_int, va_word. destruct args as [|[] args]; cbn; try done. intros [= <- _]. apply s32_range. Qed.

Lemma va_word_inv args v args' : va_word args = Ok (v, args') -> in_u32 v.
Proof.
  unfold va_word. destruct args as [|[] args]; cbn; try done. intros [= <- _]. unfold in_u32, u32.
  apply Z.mod_pos_bound. lia.
Qed.

Lemma va_dword_inv args v args' : va_dword args = Ok (v, args') -> in_u64 v.
Proof.
  unfold va_dword. destruct args as [|[] args]; cbn; try done. intros [= <- _]. unfold in_u64, u64.
  apply Z.mod_pos_bound. lia.
Qed.

Lemma accessed_va args : accessed (va_int args) /\ accessed (va_word args) /\ accessed (va_dword args) /\ accessed (va_str args).
Proof. by destruct args as [|[] args]. Qed.

Lemma in_s32_s64 v : in_s32 v -> in_s64 v.
Proof. unfold in_s32, in_s64. lia. Qed.

Lemma signed_value_range t args :
  accessed (signed_value t args) /\ forall v args', signed_value t args = Ok (v, args') -> in_s64 v.
Proof.
  destruct (accessed_va args) as (Ai & Aw & Ad & _). split.
  - destruct t; cbn [signed_value]; try done; apply accessed_bind; by intros.
  - intros v args' H. destruct t; cbn [signed_value] in H; unfold in_s64;
      try (by apply va_int_inv, in_s32_s64 in H);
      apply bind_ok_inv in H as (w & args1 & Hw & H); apply ret_inv in H as [-> _].
    + unfold s8. pose proof (Z.mod_pos_bound (w + 128) 256). lia.
    + pose proof (Z.mod_pos_bound (w + 32768) 65536). lia.
    + unfold s64. pose proof (Z.mod_pos_bound (w + 9223372036854775808) 18446744073709551616). lia.
    + unfold s64. pose proof (Z.mod_pos_bound (w + 9223372036854775808) 18446744073709551616). lia.
    + apply va_word_inv in Hw. unfold in_u32 in Hw. destruct (w >? _); lia.
Qed.

Lemma unsigned_value_range t args :
  accessed (unsigned_value t args) /\ forall v args', unsigned_value t args = Ok (v, args') -> in_u64 v.
Proof.
  destruct (accessed_va args) as (Ai & Aw & Ad & _). split.
  - destruct t; cbn [unsigned_value]; try done; apply accessed_bind; by intros.
  - intros v args' H. destruct t; cbn [unsigned_value] in H; unfold in_u64;
      try (apply va_word_inv in H; unfold in_u32 in H; lia); try (by apply va_dword_inv in H);
      apply bind_ok_inv in H as (w & args1 & Hw & H); apply ret_inv in H as [-> _].
    + unfold u8. pose proof (Z.mod_pos_bound w 256). lia.
    + pose proof (Z.mod_pos_bound w 65536). lia.
    + change (Z.lor (Z.shiftl 2147483647 1) 1) with (Z.ones 32). rewrite Z.land_ones by lia.
      pose proof (Z.mod_pos_bound (u64 w) (2 ^ 32)). lia.
Qed.

Lemma format_integer_accessed value is_signed negative b c args :
  base_ok b -> in_u64 value -> accessed (format_integer value is_signed negative b c args).
Proof. intros Hb Hv. by destruct (format_integer_total value is_signed negative b c args Hb Hv) as (ds & ->). Qed.

Lemma magnitude_u64 v : in_s64 v -> in_u64 (if v <? 0 then u64 (- v) else v).
Proof. unfold in_s64, in_u64. intros H. destruct (Z.ltb_spec v 0); [rewrite u64_id by lia|]; lia. Qed.

(** The texts of the conversions that are not there. *)
Lemma vprintf_unknown n k args :
  accessed (match vprintf (24 + n) (lit "<<no %%%c in kernel>>") [Word k] with
            | Ok (out, _) => Ok (out, args) | Err e => Err e end) /\
  accessed (match vprintf (24 + n) (lit "<<no %%%c conversion>>") [Word k] with
            | Ok (out, _) => Ok (out, args) | Err e => Err e end).
Proof. done. Qed.

Lemma vprintf_accessed fuel : forall format args,
  (length format + 24 < fuel)%nat -> accessed (vprintf fuel format args).
Proof.
  destruct bases_ok as (Bd & Bo & Bx & BX).
  induction fuel as [|fuel IH]; intros format args Hf; [lia|]. cbn [vprintf].
  destruct format as [|c f]; [done|]. cbn [peek tail length] in *. mnorm.
  destruct (c =? 0); [done|].
  destruct (negb (c =? chr "%")); [apply accessed_bind; [apply IH; lia|done]|].
  destruct f as [|c2 f]; [done|]. cbn [peek tail length] in *. mnorm.
  destruct (c2 =? chr "%"); [apply accessed_bind; [apply IH; lia|done]|].
  pose proof (parse_conversion_parsed (c2 :: f) args) as Hp.
  unfold bind at 1. destruct (parse_conversion (c2 :: f) args) as [[[f1 cv] args1]|e]; [|exact Hp]. cbn [parsed length] in Hp.
  destruct f1 as [|k f1]; [done|]. cbn [peek tail length] in *. mnorm.
  apply accessed_bind; [|intros out args2 _; apply accessed_bind; [apply IH; lia|done]].
  destruct ((k =? chr "d") || (k =? chr "i")).
  { destruct (signed_value_range (ctype cv) args1) as [Ha Hv]. apply accessed_bind; [done|]. intros v args2 H.
    apply format_integer_accessed; [done|]. by eapply magnitude_u64, Hv. }
  destruct ((k =? chr "o") || (k =? chr "u") || (k =? chr "x") || (k =? chr "X")).
  { destruct (unsigned_value_range (ctype cv) args1) as [Ha Hv]. apply accessed_bind; [done|]. intros v args2 H.
    apply format_integer_accessed; [|by eapply Hv]. by destruct (k =? chr "o"), (k =? chr "u"), (k =? chr "x"). }
  destruct (accessed_va args1) as (Ai & Aw & _ & As).
  destruct (k =? chr "c"); [by apply accessed_bind|].
  destruct (k =? chr "s"); [by apply accessed_bind|].
  destruct (k =? chr "p").
  { apply accessed_bind; [done|]. intros w args2 H. apply va_word_inv in H. unfold in_u32 in H.
    apply format_integer_accessed; [done|]. unfold in_u64. lia. }
  replace fuel with (24 + (fuel - 24))%nat by lia. destruct (vprintf_unknown (fuel - 24) k args1) as [H1 H2].
  match goal with |- context [if ?b then lit _ else _] => by destruct b end.
Qed.

(** formatting ends for every format and all arguments: with fuel for the
    characters of the format (and for those of the text of a conversion that
    is not supported) it gives a text, and the only other outcome is an access
    to an argument or to a character of the format that is not there.  The
    digits of every integer fit the local array. *)
Theorem vprintf_ends fuel format args :
  (length format + 24 < fuel)%nat ->
  (exists out args', vprintf fuel format args = Ok (out, args')) \/ vprintf fuel format args = Err Bad_access.
Proof.
  intros Hf. pose proof (vprintf_accessed fuel format args Hf) as H.
  destruct (vprintf fuel format args) as [[out args']|e]; [eauto|cbn in H; subst e; by right].
Qed.

Lemma vprintf_ends_witness :
  (exists out args', vprintf 40 (lit "%5d %y") [Word 7] = Ok (out, args')) \/ vprintf 40 (lit "%5d %y") [Word 7] = Err Bad_access.
Proof. apply (vprintf_ends 40 (lit "%5d %y") [Word 7]). cbn. lia. Defined.

(** ** Success depends only on the types of the arguments *)

Definition same_shape (a b : arg) : Prop :=
  match a, b with Word _, Word _ | Dword _, Dword _ | Str _, Str _ => True | _, _ => False end.

(** The two runs succeed with related values, or fail in the same way. *)
Definition sim {A} (R : A -> A -> Prop) (r1 r2 : res (A * list arg)) : Prop :=
  match r1, r2 with
  | Ok (a, args1), Ok (b, args2) => R a b /\ Forall2 same_shape args1 args2
  | Err e, Err e' => e = e'
  | _, _ => False
  end.

Definition any {A} (a b : A) : Prop := True.
Definition same_format {A} (a b : list Z * A) : Prop := a.1 = b.1.
Definition same_type (a b : list Z * conversion) : Prop := a.1 = b.1 /\ ctype a.2 = ctype b.2.

Lemma sim_bind {A B} (R : A -> A -> Prop) (Q : B -> B -> Prop) m1 m2 k1 k2 args1 args2 :
  sim R (m1 args1) (m2 args2) ->
  (forall a b x y, R a b -> Forall2 same_shape x y -> sim Q (k1 a x) (k2 b y)) ->
  sim Q (bind m1 k1 args1) (bind m2 k2 args2).
Proof.
  intros Hm Hk. unfold bind. destruct (m1 args1) as [[a x]|e], (m2 args2) as [[b y]|e']; cbn in Hm; try done.
  destruct Hm. by apply Hk.
Qed.

Lemma sim_va x y :
  Forall2 same_shape x y ->
  sim any (va_int x) (va_int y) /\ sim any (va_word x) (va_word y) /\ sim any (va_dword x) (va_dword y) /\ sim any (va_str x) (va_str y).
Proof. intros H. destruct H as [|[] [] x y Hs H]; try done. Qed.

Lemma sim_ret {A} (R : A -> A -> Prop) a b x y : R a b -> Forall2 same_shape x y -> sim R (ret a x) (ret b y).
Proof. done. Qed.

Lemma sim_flags f : forall a b x y, Forall2 same_shape x y -> sim same_format (parse_flags f a x) (parse_flags f b y).
Proof.
  induction f as [|c f IH]; intros a b x y H; [done|]. cbn [parse_flags].
  repeat match goal with |- context [if ?t then _ else _] => destruct t end; auto. by apply sim_ret.
Qed.

Lemma sim_number f : forall a b x y, Forall2 same_shape x y -> sim same_format (parse_number f a x) (parse_number f b y).
Proof. induction f as [|c f IH]; intros a b x y H; [done|]. cbn [parse_number]. destruct (StdLib.isdigit c); auto. by apply sim_ret. Qed.

Lemma sim_star f x y :
  Forall2 same_shape x y ->
  sim same_format ((c <- peek f ;; if c =? chr "*" then w <- va_int ;; ret (tail f, w) else parse_number f 0) x)
                  ((c <- peek f ;; if c =? chr "*" then w <- va_int ;; ret (tail f, w) else parse_number f 0) y).
Proof.
  intros H. destruct f as [|c f]; [done|]. cbn [peek]. mnorm. destruct (c =? chr "*"); [|by apply sim_number].
  apply (sim_bind any); [by apply sim_va|]. intros. by apply sim_ret.
Qed.

Lemma sim_precision f x y : Forall2 same_shape x y -> sim same_format (parse_precision f x) (parse_precision f y).
Proof.
  intros H. destruct f as [|c f]; [done|]. unfold parse_precision. cbn [peek tail]. mnorm. destruct (c =? chr "."); [|by apply sim_ret].
  pose proof (sim_star f x y H) as Hs. destruct f as [|c2 f]; [done|]. cbn [peek tail] in *. mnorm.
  change (sim same_format ((if c2 =? chr "*" then w <- va_int ;; ret (f, w) else parse_number (c2 :: f) 0) x)
                          ((if c2 =? chr "*" then w <- va_int ;; ret (f, w) else parse_number (c2 :: f) 0) y)) in Hs.
  apply (sim_bind same_format); [exact Hs|]. intros [] [] u v Hr Hv. by apply sim_ret.
Qed.

Lemma sim_type f x y : Forall2 same_shape x y -> sim eq (parse_type f x) (parse_type f y).
Proof.
  intros H. destruct f as [|c [|c2 f]]; [done| |]; unfold parse_type; cbn [peek tail]; mnorm;
    repeat (cbn; match goal with |- context [if ?b then _ else _] => destruct b end); cbn; done.
Qed.

Lemma sim_conversion f x y : Forall2 same_shape x y -> sim same_type (parse_conversion f x) (parse_conversion f y).
Proof.
  intros H. unfold parse_conversion. apply (sim_bind same_format); [by apply sim_flags|]. intros [f1 a1] [f1' b1] x1 y1 [= ->] H1.
  apply (sim_bind same_format); [by apply sim_star|]. intros [f2 a2] [f2' b2] x2 y2 [= ->] H2.
  destruct (if a2 <? 0 then _ else _) as [w1 fl1], (if b2 <? 0 then _ else _) as [w2 fl2].
  apply (sim_bind same_format); [by apply sim_precision|]. intros [f3 a3] [f3' b3] x3 y3 [= ->] H3.
  apply (sim_bind eq); [by apply sim_type|]. intros [f4 a4] [f4' b4] x4 y4 [= -> ->] H4. by apply sim_ret.
Qed.

Lemma sim_signed t x y : Forall2 same_shape x y -> sim (fun a b => in_s64 a /\ in_s64 b) (signed_value t x) (signed_value t y).
Proof.
  intros H. destruct (signed_value_range t x) as [_ Rx], (signed_value_range t y) as [_ Ry].
  assert (sim any (signed_value t x) (signed_value t y)) as Hs.
  { destruct (sim_va x y H) as (Si & Sw & Sd & _).
    destruct t; cbn [signed_value]; try done; (apply (sim_bind any); [done|]; intros; by apply sim_ret). }
  unfold sim in *. destruct (signed_value t x) as [[a u]|e], (signed_value t y) as [[b v]|e']; try done.
  destruct Hs as [_ Hs]. split; [|done]. split; [by eapply Rx|by eapply Ry].
Qed.

Lemma sim_unsigned t x y : Forall2 same_shape x y -> sim (fun a b => in_u64 a /\ in_u64 b) (unsigned_value t x) (unsigned_value t y).
Proof.
  intros H. destruct (unsigned_value_range t x) as [_ Rx], (unsigned_value_range t y) as [_ Ry].
  assert (sim any (unsigned_value t x) (unsigned_value t y)) as Hs.
  { destruct (sim_va x y H) as (Si & Sw & Sd & _).
    destruct t; cbn [unsigned_value]; try done; (apply (sim_bind any); [done|]; intros; by apply sim_ret). }
  unfold sim in *. destruct (unsigned_value t x) as [[a u]|e], (unsigned_value t y) as [[b v]|e']; try done.
  destruct Hs as [_ Hs]. split; [|done]. split; [by eapply Rx|by eapply Ry].
Qed.

Lemma sim_format v1 v2 s1 s2 n1 n2 b c1 c2 x y :
  base_ok b -> in_u64 v1 -> in_u64 v2 -> Forall2 same_shape x y ->
  sim any (format_integer v1 s1 n1 b c1 x) (format_integer v2 s2 n2 b c2 y).
Proof.
  intros Hb H1 H2 H. destruct (format_integer_total v1 s1 n1 b c1 x Hb H1) as (d1 & ->).
  by destruct (format_integer_total v2 s2 n2 b c2 y Hb H2) as (d2 & ->).
Qed.

Lemma sim_vprintf fuel : forall f x y,
  (length f + 24 < fuel)%nat -> Forall2 same_shape x y -> sim any (vprintf fuel f x) (vprintf fuel f y).
Proof.
  destruct bases_ok as (Bd & Bo & Bx & BX).
  induction fuel as [|fuel IH]; intros f x y Hf H; [lia|]. cbn [vprintf].
  destruct f as [|c f]; [done|]. cbn [peek tail length] in *. mnorm. destruct (c =? 0); [by apply sim_ret|].
  destruct (negb (c =? chr "%")).
  { apply (sim_bind any); [apply IH; [lia|done]|]. intros. by apply sim_ret. }
  destruct f as [|c2 f]; [done|]. cbn [peek tail length] in *. mnorm.
  destruct (c2 =? chr "%").
  { apply (sim_bind any); [apply IH; [lia|done]|]. intros. by apply sim_ret. }
  apply (sim_bind (fun a b => same_type a b /\ (length a.1 <= S (length f))%nat)).
  { pose proof (parse_conversion_parsed (c2 :: f) x) as Hp. pose proof (sim_conversion (c2 :: f) x y H) as Hc. unfold sim in *.
    destruct (parse_conversion (c2 :: f) x) as [[[f1 cv] x1]|e], (parse_conversion (c2 :: f) y) as [[[f1' cv'] y1]|e']; done || by destruct Hc. }
  intros [f1 cv] [f1' cv'] x1 y1 [[Hf1 Ht] Hp] H1. cbn [fst snd length] in Hf1, Ht, Hp. subst f1'.
  destruct f1 as [|k f1]; [done|]. cbn [peek tail length] in *. mnorm.
  destruct (sim_va x1 y1 H1) as (Si & Sw & _ & Ss).
  apply (sim_bind any).
  2:{ intros a b u v _ Hv. apply (sim_bind any); [apply IH; [lia|done]|]. intros. by apply sim_ret. }
  destruct ((k =? chr "d") || (k =? chr "i")).
  { rewrite Ht. apply (sim_bind (fun a b => in_s64 a /\ in_s64 b)); [by apply sim_signed|]. intros a b u v [Ha Hb] Hv.
    apply sim_format; [done|by apply magnitude_u64..|done]. }
  destruct ((k =? chr "o") || (k =? chr "u") || (k =? chr "x") || (k =? chr "X")).
  { rewrite Ht. apply (sim_bind (fun a b => in_u64 a /\ in_u64 b)); [by apply sim_unsigned|]. intros a b u v [Ha Hb] Hv.
    apply sim_format; [|done..]. by destruct (k =? chr "o"), (k =? chr "u"), (k =? chr "x"). }
  destruct (k =? chr "c"); [apply (sim_bind any); [done|]; intros; by apply sim_ret|].
  destruct (k =? chr "s"); [apply (sim_bind any); [done|]; intros; by apply sim_ret|].
  destruct (k =? chr "p").
  { apply (sim_bind (fun a b => in_u64 a /\ in_u64 b)); [by apply (sim_unsigned INT)|]. intros a b u v [Ha Hb] Hv.
    by apply sim_format. }
  match goal with |- context [vprintf fuel ?u [Word k]] => destruct (vprintf fuel u [Word k]) as [[out r]|e] end; done.
Qed.

(** A format that works for one list of arguments works for every list of
    the same types. *)
Lemma printf_shape fuel format args args' text :
  (length format + 24 < fuel)%nat -> Forall2 same_shape args args' -> printf fuel format args = Ok text ->
  exists text', printf fuel format args' = Ok text'.
Proof.
  intros Hf H. unfold printf. pose proof (sim_vprintf fuel format args args' Hf H) as Hs. unfold sim in Hs.
  destruct (vprintf fuel format args) as [[o r]|e], (vprintf fuel format args') as [[o' r']|e']; try done. eauto.
Qed.

(** A format that ends with a single percent sign: the terminator is taken
    for the conversion, and the loop goes on behind it. *)
Lemma vprintf_percent fuel args : (30 < fuel)%nat -> vprintf fuel (lit "%") args = Err Bad_access.
Proof. intros H. by replace fuel with (30 + (fuel - 30))%nat by lia. Qed.

(** ** Output to a buffer *)

Record vsnprintf_aux : Type := mkAux { aux_p : Z; aux_length : Z; aux_max_length : Z }.

Definition vsnprintf_helper (ch : Z) (aux : vsnprintf_aux) : M CString.mem vsnprintf_aux :=
  if aux_length aux <? aux_max_length aux then
    CString.store (aux_p aux) ch ;;;
    ret (mkAux (aux_p aux + 1) (s32 (aux_length aux + 1)) (aux_max_length aux))
  else ret (mkAux (aux_p aux) (s32 (aux_length aux + 1)) (aux_max_length aux)).

(** OUTPUT is called for each character of the text. *)
Fixpoint output_all (text : list Z) (aux : vsnprintf_aux) : M CString.mem vsnprintf_aux :=
  match text with
  | [] => ret aux
  | ch :: text' => aux <- vsnprintf_helper ch aux ;; output_all text' aux
  end.

Definition vsnprintf (fuel : nat) (buffer buf_size : Z) (format : list Z) (args : list arg) : M CString.mem Z :=
  let aux := mkAux buffer 0 (s32 (if buf_size >? 0 then buf_size - 1 else 0)) in
  match printf fuel format args with
  | Err e => fail e
  | Ok text =>
      aux <- output_all text aux ;;
      (if buf_size >? 0 then CString.store (aux_p aux) 0 else ret tt) ;;;
      ret (aux_length aux)
  end.

Definition snprintf (fuel : nat) (buffer buf_size : Z) (format : list Z) (args : list arg) : M CString.mem Z :=
  vsnprintf fuel buffer buf_size format args.

(** Memory after characters of the text have been put in the buffer from
    index [l] up to [max]. *)
Definition placed (m : CString.mem) (buffer l max : Z) (text : list Z) (m' : CString.mem) : Prop :=
  forall a, m' !! a = if (buffer + l <=? a) && (a <? buffer + Z.min max (l + Z.of_nat (length text)))
                      then u8 <$> text !! Z.to_nat (a - buffer - l) else m !! a.

Lemma store_u8 m p c : CString.is_byte m p -> CString.store p c m = Ok (tt, <[p := u8 c]> m).
Proof. intros (b & Hb & _). unfold CString.store. by mrun (CString.load_ok _ _ _ Hb). Qed.

Lemma u8_range c : 0 <= u8 c < 256.
Proof. apply Z.mod_pos_bound. lia. Qed.

Lemma output_all_run text : forall m buffer l max,
  0 <= l -> l + Z.of_nat (length text) < 2147483648 -> CString.block m buffer max ->
  exists m', output_all text (mkAux (buffer + Z.min max l) l max) m
      = Ok (mkAux (buffer + Z.min max (l + Z.of_nat (length text))) (l + Z.of_nat (length text)) max, m') /\
    placed m buffer l max text m'.
Proof.
  induction text as [|c text IH]; intros m buffer l max Hl Hn Hb; cbn [output_all length] in *.
  { exists m. rewrite Z.add_0_r. split; [done|]. intros a. cbn [length]. rewrite Z.add_0_r.
    destruct (Z.leb_spec (buffer + l) a), (Z.ltb_spec a (buffer + Z.min max l)); try done. lia. }
  unfold vsnprintf_helper. cbn [aux_p aux_length aux_max_length]. rewrite s32_id by lia.
  destruct (Z.ltb_spec l max) as [Hlt|Hge].
  - rewrite Z.min_r by lia. pose proof (Hb l ltac:(lia)) as Hbyte. mnorm. mrun (store_u8 m (buffer + l) c Hbyte).
    mnorm. set (m1 := <[buffer + l := u8 c]> m).
    destruct (IH m1 buffer (l + 1) max) as (m' & Hr & Hp); [lia|lia| |].
    { intros i Hi. apply CString.is_byte_insert; [apply u8_range|by apply Hb]. }
    rewrite Z.min_r in Hr by lia. replace (buffer + l + 1) with (buffer + (l + 1)) by lia. rewrite Hr.
    replace (l + 1 + Z.of_nat (length text)) with (l + Z.of_nat (S (length text))) by lia. exists m'. split; [done|].
    intros a. rewrite Hp. cbn [length].
    replace (l + Z.of_nat (S (length text))) with (l + 1 + Z.of_nat (length text)) by lia. unfold m1.
    destruct (Z.ltb_spec a (buffer + Z.min max (l + 1 + Z.of_nat (length text)))); cbn [andb];
      destruct (Z.leb_spec (buffer + (l + 1)) a), (Z.leb_spec (buffer + l) a); cbn [andb]; try lia;
      try (rewrite lookup_insert_ne by lia; done).
    + replace (Z.to_nat (a - buffer - l)) with (S (Z.to_nat (a - buffer - (l + 1)))) by lia. done.
    + replace a with (buffer + l) by lia. rewrite lookup_insert_eq. by replace (Z.to_nat _) with 0%nat by lia.
  - rewrite Z.min_l by lia. mnorm. destruct (IH m buffer (l + 1) max) as (m' & Hr & Hp); [lia|lia|done|].
    rewrite Z.min_l in Hr by lia. rewrite Hr.
    replace (l + 1 + Z.of_nat (length text)) with (l + Z.of_nat (S (length text))) by lia. exists m'. split; [done|].
    intros a. rewrite Hp. cbn [length].
    destruct (Z.leb_spec (buffer + (l + 1)) a), (Z.ltb_spec a (buffer + Z.min max (l + 1 + Z.of_nat (length text)))),
      (Z.leb_spec (buffer + l) a), (Z.ltb_spec a (buffer + Z.min max (l + Z.of_nat (S (length text))))); cbn [andb]; try done; lia.
Qed.

(** C34: [snprintf] puts into the buffer the longest part of the text that
    leaves room for the terminator, terminates it, changes nothing outside
    the buffer, and returns the length of the whole text; with a size of 0
    nothing is written. *)
Theorem snprintf_ok fuel m buffer buf_size format args text :
  printf fuel format args = Ok text -> Z.of_nat (length text) < 2147483648 ->
  0 <= buf_size <= 2147483648 -> CString.block m buffer buf_size ->
  exists m', snprintf fuel buffer buf_size format args m = Ok (Z.of_nat (length text), m') /\
    let n := Z.min (Z.max 0 (buf_size - 1)) (Z.of_nat (length text)) in
    (forall i c, 0 <= i < n -> text !! Z.to_nat i = Some c -> m' !! (buffer + i) = Some (u8 c)) /\
    (0 < buf_size -> m' !! (buffer + n) = Some 0) /\
    (forall a, a < buffer \/ buffer + buf_size <= a -> m' !! a = m !! a).
Proof.
  intros Ht Hlen Hsize Hb. unfold snprintf, vsnprintf. rewrite Ht. rewrite Z.gtb_ltb.
  set (max := Z.max 0 (buf_size - 1)).
  replace (s32 (if 0 <? buf_size then buf_size - 1 else 0)) with max
    by (rewrite s32_id; destruct (Z.ltb_spec 0 buf_size); lia).
  destruct (output_all_run text m buffer 0 max) as (m1 & Hr & Hp); [lia|lia|intros i Hi; apply Hb; lia|].
  replace (buffer + Z.min max 0) with buffer in Hr by lia. rewrite !Z.add_0_l in Hr. mrun Hr. cbn [aux_p aux_length].
  set (n := Z.min max (Z.of_nat (length text))) in *.
  assert (forall i c, 0 <= i < n -> text !! Z.to_nat i = Some c -> m1 !! (buffer + i) = Some (u8 c)) as Hin.
  { intros i c Hi Hc. rewrite Hp. rewrite (proj2 (Z.leb_le _ _)), (proj2 (Z.ltb_lt _ _)) by lia. cbn [andb].
    replace (Z.to_nat (buffer + i - buffer - 0)) with (Z.to_nat i) by lia. by rewrite Hc. }
  assert (forall a, a < buffer \/ buffer + n <= a -> m1 !! a = m !! a) as Hout.
  { intros a Ha. rewrite Hp, Z.add_0_l. fold n.
    destruct (Z.leb_spec (buffer + 0) a), (Z.ltb_spec a (buffer + n)); cbn [andb]; try done; lia. }
  destruct (Z.ltb_spec 0 buf_size) as [Hpos|Hz].
  - assert (CString.is_byte m1 (buffer + n)) as Hbyte.
    { unfold CString.is_byte. rewrite Hout by lia. apply (Hb n). lia. }
    mrun (store_u8 m1 (buffer + n) 0 Hbyte). eexists. split; [done|]. split; [|split].
    + intros i c Hi Hc. rewrite lookup_insert_ne by lia. by apply Hin.
    + intros _. by rewrite lookup_insert_eq.
    + intros a Ha. rewrite lookup_insert_ne by lia. apply Hout. lia.
  - mnorm. exists m1. split; [done|]. split; [done|]. split; [lia|]. intros a Ha. apply Hout. lia.
Qed.

Lemma snprintf_ok_witness :
  exists m', snprintf 40 100 4 (lit "%d!") [Word 1234] (list_to_map ((fun i => (100 + Z.of_nat i, 7)) <$> seq 0 6))
    = Ok (5, m') /\ m' !! 103 = Some 0 /\ m' !! 104 = Some 7.
Proof.
  destruct (snprintf_ok 40 (list_to_map ((fun i => (100 + Z.of_nat i, 7)) <$> seq 0 6)) 100 4 (lit "%d!") [Word 1234] (str "1234!"))
    as (m' & H1 & H2 & H3 & H4).
  - reflexivity.
  - reflexivity.
  - lia.
  - intros i Hi. exists 7. split; [|lia]. assert (i = 0 \/ i = 1 \/ i = 2 \/ i = 3) as Hd by lia.
    by destruct Hd as [->|[->|[->| ->]]].
  - exists m'. split; [exact H1|]. split; [by apply H3|]. rewrite H4 by lia. reflexivity.
Defined.

(** ** Dumps *)

(** The number of bytes on a line. *)
Definition hex_line_count (ofs : Z) (size : nat) : nat :=
  let start := ofs mod 16 in Z.to_nat (if 16 - start >? Z.of_nat size then Z.of_nat size else 16 - start).

Definition text_of (format : list Z) (args : list arg) : list Z :=
  match printf 60 format args with Ok t => t | Err _ => [] end.

Definition hex_line (ofs : Z) (buf : list Z) (ascii : bool) : list Z :=
  let start := Z.to_nat (ofs mod 16) in
  let n := hex_line_count ofs (length buf) in
  let e := (start + n)%nat in
  let bytes := take n buf in
  text_of (lit "%08jx  ") [Dword (16 * (ofs / 16))] ++
  concat (repeat (str "   ") start) ++
  concat (imap (fun j b => text_of (lit "%02hhx%c") [Word b; Word (if (start + j =? 7)%nat then chr "-" else chr " ")]) bytes) ++
  (if ascii then
     concat (repeat (str "   ") (16 - e)) ++ str "|" ++ repeat (chr " ") start ++
     concat (map (fun b => text_of (lit "%c") [Word (if isprint b then b else chr ".")]) bytes) ++
     repeat (chr " ") (16 - e) ++ str "|"
   else []) ++ [10].

Fixpoint hex_dump (fuel : nat) (ofs : Z) (buf : list Z) (ascii : bool) : res (list Z) :=
  match fuel with
  | O => Err Out_of_fuel
  | S fuel' =>
      match buf with
      | [] => Ok []
      | _ :: _ =>
          let n := hex_line_count ofs (length buf) in
          match hex_dump fuel' (u32 (ofs + Z.of_nat n)) (drop n buf) ascii with
          | Ok t => Ok (hex_line ofs buf ascii ++ t)
          | Err e => Err e
          end
      end
  end.

Fixpoint human_size (size : Z) (factors : list (list Z)) : Z * list Z :=
  match factors with
  | [] => (size, [])
  | f :: rest =>
      match rest with
      | [] => (size, f)
      | _ => if size >=? 1024 then human_size (size / 1024) rest else (size, f)
      end
  end.

Definition print_human_readable_size (size : Z) : list Z :=
  if size =? 1 then str "1 byte"
  else let '(n, f) := human_size size [str "bytes"; str "kB"; str "MB"; str "GB"; str "TB"] in
       text_of (lit "%llu %s") [Dword n; Str (Some f)].

Example human_ex : print_human_readable_size 262144 = str "256 kB".
Proof. reflexivity. Qed.
Example hex_ex : hex_dump 5 5 [65; 66; 0; 255] true
  = Ok (str "00000000                 41 42 00-ff                      |     AB..       |" ++ [10]).
Proof. reflexivity. Qed.

(** A dump ends, and has a line for each 16-byte row that the bytes touch. *)
Lemma hex_dump_total fuel : forall ofs buf ascii,
  0 <= ofs -> (length buf < fuel)%nat -> exists t, hex_dump fuel ofs buf ascii = Ok t.
Proof.
  induction fuel as [|fuel IH]; intros ofs buf ascii Ho Hf; [lia|]. cbn [hex_dump].
  destruct buf as [|b buf]; [by exists []|].
  assert (0 < hex_line_count ofs (length (b :: buf)))%nat as Hn.
  { unfold hex_line_count. pose proof (Z.mod_pos_bound ofs 16 ltac:(lia)). cbn [length].
    rewrite Z.gtb_ltb. destruct (Z.ltb_spec (Z.of_nat (S (length buf))) (16 - ofs mod 16)); lia. }
  destruct (IH (u32 (ofs + Z.of_nat (hex_line_count ofs (length (b :: buf)))))
    (drop (hex_line_count ofs (length (b :: buf))) (b :: buf)) ascii) as (t & ->); [| |eauto].
  - unfold u32. apply Z.mod_pos_bound. lia.
  - rewrite length_drop. cbn [length] in *. lia.
Qed.

End Stdio.
