(* ===== verification/Descriptors.v ===== *)
(** * Descriptor tables and interrupt dispatch

    The segment descriptors of src/src/userprog/gdt.c, the task-state segment
    of src/src/userprog/tss.c, and of src/src/threads/interrupt.c the gates of
    the interrupt table, the registration of handlers, the interrupt
    controllers and the dispatch of interrupts. *)

From Stdlib Require Import String.
From S2P Require Import Prelude CString StdLib Stdio.
Import Stdio.

Module Descriptors.

(** ** Segments (userprog/gdt.c) *)

Definition SEL_NULL : Z := 0x00.
Definition SEL_KCSEG : Z := 0x08.
Definition SEL_KDSEG : Z := 0x10.
Definition SEL_UCSEG : Z := 0x1B.
Definition SEL_UDSEG : Z := 0x23.
Definition SEL_TSS : Z := 0x28.
Definition SEL_CNT : nat := 6.

Inductive seg_class : Type := CLS_SYSTEM | CLS_CODE_DATA.
Inductive seg_granularity : Type := GRAN_BYTE | GRAN_PAGE.

Definition class_no (c : seg_class) : Z := match c with CLS_SYSTEM => 0 | CLS_CODE_DATA => 1 end.
Definition gran_no (g : seg_granularity) : Z := match g with GRAN_BYTE => 0 | GRAN_PAGE => 1 end.

Definition make_seg_desc (base limit : Z) (class : seg_class) (type dpl : Z) (granularity : seg_granularity) : res Z :=
  if negb (limit <=? 0xfffff) then Err Assertion_failed
  else if negb ((type >=? 0) && (type <=? 15)) then Err Assertion_failed
  else if negb ((dpl >=? 0) && (dpl <=? 3)) then Err Assertion_failed
  else
    let e0 := Z.lor (Z.land limit 0xffff) (u32 (Z.shiftl base 16)) in
    let e1 := Z.lor (Z.lor (Z.lor (Z.lor (Z.lor (Z.lor (Z.lor (Z.lor
                (Z.land (Z.shiftr base 16) 0xff)
                (Z.shiftl type 8))
                (Z.shiftl (class_no class) 12))
                (Z.shiftl dpl 13))
                (Z.shiftl 1 15))
                (Z.land limit 0xf0000))
                (Z.shiftl 1 22))
                (u32 (Z.shiftl (gran_no granularity) 23)))
                (Z.land base 0xff000000) in
    Ok (Z.lor e0 (Z.shiftl e1 32)).

Definition make_code_desc (dpl : Z) : res Z := make_seg_desc 0 0xfffff CLS_CODE_DATA 10 dpl GRAN_PAGE.
Definition make_data_desc (dpl : Z) : res Z := make_seg_desc 0 0xfffff CLS_CODE_DATA 2 dpl GRAN_PAGE.
Definition make_tss_desc (laddr : Z) : res Z := make_seg_desc (u32 laddr) 0x67 CLS_SYSTEM 9 0 GRAN_BYTE.
Definition make_gdtr_operand (limit base : Z) : Z := Z.lor limit (Z.shiftl (u32 base) 16).

(** ** The task-state segment (userprog/tss.c) *)

(** The members of [struct tss] that are used. *)
Record tss : Type := mkTss { esp0 : Z; ss0 : Z; iomap : Z }.

(** [gdt], the address and contents of the task-state segment, and what
    [lgdt] and [ltr] have loaded. *)
Record cpu : Type := mkCpu {
  gdt : list Z;
  tss_addr : Z;
  the_tss : tss;
  gdtr : option Z;
  tr : option Z
}.

Definition set_gdt v c := mkCpu v (tss_addr c) (the_tss c) (gdtr c) (tr c).
Definition set_tss_addr v c := mkCpu (gdt c) v (the_tss c) (gdtr c) (tr c).
Definition set_tss v c := mkCpu (gdt c) (tss_addr c) v (gdtr c) (tr c).
Definition set_gdtr v c := mkCpu (gdt c) (tss_addr c) (the_tss c) v (tr c).
Definition set_tr v c := mkCpu (gdt c) (tss_addr c) (the_tss c) (gdtr c) v.

Definition tss_get : M cpu Z := t <- gets tss_addr ;; ASSERT (negb (t =? NULL)) ;;; ret t.

(** [cur] is [thread_current ()]. *)
Definition tss_update (cur : Z) : M cpu unit :=
  t <- gets tss_addr ;; ASSERT (negb (t =? NULL)) ;;;
  modify (fun c => set_tss (mkTss (u32 (cur + 4096)) (ss0 (the_tss c)) (iomap (the_tss c))) c).

(** [page] is what [palloc_get_page (PAL_ASSERT | PAL_ZERO)] returned. *)
Definition tss_init (page cur : Z) : M cpu unit :=
  modify (set_tss_addr page) ;;;
  modify (set_tss (mkTss 0 0 0)) ;;;
  modify (fun c => set_tss (mkTss (esp0 (the_tss c)) SEL_KDSEG (iomap (the_tss c))) c) ;;;
  modify (fun c => set_tss (mkTss (esp0 (the_tss c)) (ss0 (the_tss c)) 0xdfff) c) ;;;
  tss_update cur.

Definition set_desc (sel : Z) (d : res Z) : M cpu unit :=
  v <- (fun c => match d with Ok v => Ok (v, c) | Err e => Err e end) ;;
  modify (fun c => set_gdt (<[Z.to_nat (sel / 8) := v]> (gdt c)) c).

(** [gdt_addr] is the address of the table. *)
Definition gdt_init (gdt_addr : Z) : M cpu unit :=
  set_desc SEL_NULL (Ok 0) ;;;
  set_desc SEL_KCSEG (make_code_desc 0) ;;;
  set_desc SEL_KDSEG (make_data_desc 0) ;;;
  set_desc SEL_UCSEG (make_code_desc 3) ;;;
  set_desc SEL_UDSEG (make_data_desc 3) ;;;
  t <- tss_get ;;
  set_desc SEL_TSS (make_tss_desc t) ;;;
  modify (set_gdtr (Some (make_gdtr_operand (Z.of_nat (8 * SEL_CNT) - 1) gdt_addr))) ;;;
  modify (set_tr (Some SEL_TSS)).

(** ** Gates (threads/interrupt.c) *)

Definition make_gate (function dpl type : Z) : res Z :=
  if function =? NULL then Err Assertion_failed
  else if negb ((dpl >=? 0) && (dpl <=? 3)) then Err Assertion_failed
  else if negb ((type >=? 0) && (type <=? 15)) then Err Assertion_failed
  else
    let e0 := Z.lor (Z.land function 0xffff) (Z.shiftl SEL_KCSEG 16) in
    let e1 := Z.lor (Z.lor (Z.lor (Z.lor (Z.land function 0xffff0000) (Z.shiftl 1 15)) (Z.shiftl dpl 13)) (Z.shiftl 0 12)) (Z.shiftl type 8) in
    Ok (Z.lor e0 (Z.shiftl e1 32)).

Definition make_intr_gate (function dpl : Z) : res Z := make_gate function dpl 14.
Definition make_trap_gate (function dpl : Z) : res Z := make_gate function dpl 15.
Definition make_idtr_operand (limit base : Z) : Z := Z.lor limit (Z.shiftl (u32 base) 16).

(** ** Handlers and dispatch *)

Definition INTR_CNT : nat := 256.
Definition PIC0_CTRL : Z := 0x20.
Definition PIC0_DATA : Z := 0x21.
Definition PIC1_CTRL : Z := 0xa0.
Definition PIC1_DATA : Z := 0xa1.

(** The tables, the flags, the processor's interrupt flag and interrupt
    table register, what was written to ports and to the console.  A handler
    is known by its address. *)
Record istate : Type := mkIstate {
  idt : list Z;
  intr_handlers : list Z;
  intr_names : list (list Z);
  unexpected_cnt : list Z;
  in_external_intr : bool;
  yield_on_return : bool;
  intr_on : bool;
  idtr : option Z;
  ports : list (Z * Z);
  console : list Z
}.

Definition set_idt v s := mkIstate v (intr_handlers s) (intr_names s) (unexpected_cnt s) (in_external_intr s) (yield_on_return s) (intr_on s) (idtr s) (ports s) (console s).
Definition set_handlers v s := mkIstate (idt s) v (intr_names s) (unexpected_cnt s) (in_external_intr s) (yield_on_return s) (intr_on s) (idtr s) (ports s) (console s).
Definition set_names v s := mkIstate (idt s) (intr_handlers s) v (unexpected_cnt s) (in_external_intr s) (yield_on_return s) (intr_on s) (idtr s) (ports s) (console s).
Definition set_unexpected v s := mkIstate (idt s) (intr_handlers s) (intr_names s) v (in_external_intr s) (yield_on_return s) (intr_on s) (idtr s) (ports s) (console s).
Definition set_external v s := mkIstate (idt s) (intr_handlers s) (intr_names s) (unexpected_cnt s) v (yield_on_return s) (intr_on s) (idtr s) (ports s) (console s).
Definition set_yield v s := mkIstate (idt s) (intr_handlers s) (intr_names s) (unexpected_cnt s) (in_external_intr s) v (intr_on s) (idtr s) (ports s) (console s).
Definition set_idtr v s := mkIstate (idt s) (intr_handlers s) (intr_names s) (unexpected_cnt s) (in_external_intr s) (yield_on_return s) (intr_on s) v (ports s) (console s).
Definition set_ports v s := mkIstate (idt s) (intr_handlers s) (intr_names s) (unexpected_cnt s) (in_external_intr s) (yield_on_return s) (intr_on s) (idtr s) v (console s).
Definition set_console v s := mkIstate (idt s) (intr_handlers s) (intr_names s) (unexpected_cnt s) (in_external_intr s) (yield_on_return s) (intr_on s) (idtr s) (ports s) v.

Definition outb (port data : Z) : M istate unit := modify (fun s => set_ports (ports s ++ [(port, data)]) s).

Definition pic_init : M istate unit :=
  outb PIC0_DATA 0xff ;;; outb PIC1_DATA 0xff ;;;
  outb PIC0_CTRL 0x11 ;;; outb PIC0_DATA 0x20 ;;; outb PIC0_DATA 0x04 ;;; outb PIC0_DATA 0x01 ;;;
  outb PIC1_CTRL 0x11 ;;; outb PIC1_DATA 0x28 ;;; outb PIC1_DATA 0x02 ;;; outb PIC1_DATA 0x01 ;;;
  outb PIC0_DATA 0x00 ;;; outb PIC1_DATA 0x00.

Definition pic_end_of_interrupt (irq : Z) : M istate unit :=
  ASSERT ((irq >=? 0x20) && (irq <? 0x30)) ;;;
  outb 0x20 0x20 ;;;
  if irq >=? 0x28 then outb 0xa0 0x20 else ret tt.

Definition set_gate (vec : nat) (g : res Z) : M istate unit :=
  v <- (fun s => match g with Ok v => Ok (v, s) | Err e => Err e end) ;;
  modify (fun s => set_idt (<[vec := v]> (idt s)) s).

Definition exception_names : list (nat * string) :=
  [(0, "#DE Divide Error"); (1, "#DB Debug Exception"); (2, "NMI Interrupt"); (3, "#BP Breakpoint Exception");
   (4, "#OF Overflow Exception"); (5, "#BR BOUND Range Exceeded Exception"); (6, "#UD Invalid Opcode Exception");
   (7, "#NM Device Not Available Exception"); (8, "#DF Double Fault Exception"); (9, "Coprocessor Segment Overrun");
   (10, "#TS Invalid TSS Exception"); (11, "#NP Segment Not Present"); (12, "#SS Stack Fault Exception");
   (13, "#GP General Protection Exception"); (14, "#PF Page-Fault Exception"); (16, "#MF x87 FPU Floating-Point Error");
   (17, "#AC Alignment Check Exception"); (18, "#MC Machine-Check Exception"); (19, "#XF SIMD Floating-Point Exception")]%string%nat.

Section dispatch.
(** The address of the stub of a vector, and of the table. *)
Context (intr_stubs : nat -> Z) (idt_addr : Z).

Fixpoint gates_loop (n : nat) (i : nat) : M istate unit :=
  match n with O => ret tt | S n' => set_gate i (make_intr_gate (intr_stubs i) 0) ;;; gates_loop n' (S i) end.

Definition name_all (l : list (nat * string)) (names : list (list Z)) : list (list Z) :=
  fold_left (fun names p => <[p.1 := str p.2]> names) l names.

Definition intr_init : M istate unit :=
  pic_init ;;;
  gates_loop INTR_CNT 0 ;;;
  modify (set_idtr (Some (make_idtr_operand (Z.of_nat (8 * INTR_CNT) - 1) idt_addr))) ;;;
  modify (fun s => set_names (name_all exception_names (repeat (str "unknown") INTR_CNT)) s).

Definition register_handler (vec_no : nat) (dpl : Z) (level : bool) (handler : Z) (name : list Z) : M istate unit :=
  h <- gets_opt (fun s => intr_handlers s !! vec_no) ;; ASSERT (h =? NULL) ;;;
  (if level then set_gate vec_no (make_trap_gate (intr_stubs vec_no) dpl) else set_gate vec_no (make_intr_gate (intr_stubs vec_no) dpl)) ;;;
  modify (fun s => set_handlers (<[vec_no := handler]> (intr_handlers s)) s) ;;;
  modify (fun s => set_names (<[vec_no := name]> (intr_names s)) s).

Definition intr_register_ext (vec_no : nat) (handler : Z) (name : list Z) : M istate unit :=
  ASSERT ((0x20 <=? vec_no)%nat && (vec_no <=? 0x2f)%nat) ;;; register_handler vec_no 0 false handler name.

Definition intr_register_int (vec_no : nat) (dpl : Z) (level : bool) (handler : Z) (name : list Z) : M istate unit :=
  ASSERT ((vec_no <? 0x20)%nat || (0x2f <? vec_no)%nat) ;;; register_handler vec_no dpl level handler name.

Definition unexpected_interrupt (vec_no : nat) : M istate unit :=
  c <- gets_opt (fun s => unexpected_cnt s !! vec_no) ;;
  let n := u32 (c + 1) in
  modify (fun s => set_unexpected (<[vec_no := n]> (unexpected_cnt s)) s) ;;;
  if Z.land n (u32 (n - 1)) =? 0 then
    name <- gets_opt (fun s => intr_names s !! vec_no) ;;
    match printf 120 (lit "Unexpected interrupt %#04x (%s)
") [Word (Z.of_nat vec_no); Str (Some name)] with
    | Ok text => modify (fun s => set_console (console s ++ text) s)
    | Err e => fail e
    end
  else ret tt.

(** The handlers of the rest of the kernel, by address. *)
Context (call : Z -> M istate unit).

(** The result says whether [thread_yield] is called at the end. *)
Definition intr_handler (vec_no : nat) : M istate bool :=
  let external := (0x20 <=? vec_no)%nat && (vec_no <? 0x30)%nat in
  (if external then
     l <- gets intr_on ;; ASSERT (negb l) ;;;
     c <- gets in_external_intr ;; ASSERT (negb c) ;;;
     modify (set_external true) ;;; modify (set_yield false)
   else ret tt) ;;;
  handler <- gets_opt (fun s => intr_handlers s !! vec_no) ;;
  (if negb (handler =? NULL) then call handler
   else if (vec_no =? 0x27)%nat || (vec_no =? 0x2f)%nat then ret tt
   else unexpected_interrupt vec_no) ;;;
  if external then
    l <- gets intr_on ;; ASSERT (negb l) ;;;
    c <- gets in_external_intr ;; ASSERT c ;;;
    modify (set_external false) ;;;
    pic_end_of_interrupt (Z.of_nat vec_no) ;;;
    gets yield_on_return
  else ret false.

End dispatch.

(** ** Fields of words *)

Definition bits (lo n x : Z) : Z := (x / 2 ^ lo) mod 2 ^ n.

Lemma bits_testbit lo n x i : 0 <= lo -> 0 <= n -> 0 <= i -> Z.testbit (bits lo n x) i = (i <? n) && Z.testbit x (i + lo).
Proof.
  intros Hlo Hn Hi. unfold bits. destruct (Z.ltb_spec i n).
  - rewrite Z.mod_pow2_bits_low, Z.div_pow2_bits by lia. done.
  - by rewrite Z.mod_pow2_bits_high by lia.
Qed.

Lemma bits_lor lo n a b : 0 <= lo -> 0 <= n -> bits lo n (Z.lor a b) = Z.lor (bits lo n a) (bits lo n b).
Proof.
  intros Hlo Hn. apply Z.bits_inj'. intros i Hi. rewrite Z.lor_spec, !bits_testbit, Z.lor_spec by lia. by destruct (i <? n).
Qed.

Lemma bits_range lo n x : 0 <= n -> 0 <= bits lo n x < 2 ^ n.
Proof. intros Hn. apply Z.mod_pos_bound. by apply Z.pow_pos_nonneg. Qed.

(** A field that was put at [k]. *)
Lemma bits_at k n x : 0 <= k -> 0 <= x < 2 ^ n -> bits k n (Z.shiftl x k) = x.
Proof.
  intros Hk Hx. unfold bits. rewrite Z.shiftl_mul_pow2, Z.div_mul by lia. by apply Z.mod_small.
Qed.

Lemma bits_above lo n x k : 0 <= n -> 0 <= lo -> lo + n <= k -> bits lo n (Z.shiftl x k) = 0.
Proof.
  intros Hn Hlo Hk. apply Z.bits_inj'. intros i Hi. rewrite bits_testbit, Z.shiftl_spec, Z.bits_0 by lia.
  destruct (Z.ltb_spec i n); [|done]. by rewrite Z.testbit_neg_r by lia.
Qed.

Lemma bits_below lo n x k w : 0 <= k -> 0 <= x < 2 ^ w -> 0 <= w -> k + w <= lo -> bits lo n (Z.shiftl x k) = 0.
Proof.
  intros Hk Hx Hw Hlo. unfold bits. rewrite Z.shiftl_mul_pow2 by lia. rewrite Z.div_small; [apply Zmod_0_l|].
  assert (2 ^ w * 2 ^ k <= 2 ^ lo) by (rewrite <- Z.pow_add_r by lia; apply Z.pow_le_mono_r; lia). nia.
Qed.

Lemma land_low x n : 0 <= n -> Z.land x (2 ^ n - 1) = bits 0 n x.
Proof. intros Hn. unfold bits. rewrite Z.pow_0_r, Z.div_1_r, <- Z.land_ones by lia. by rewrite Z.ones_equiv. Qed.

Lemma land_field x lo n : 0 <= lo -> 0 <= n -> Z.land x ((2 ^ n - 1) * 2 ^ lo) = Z.shiftl (bits lo n x) lo.
Proof.
  intros Hlo Hn. apply Z.bits_inj'. intros i Hi. rewrite Z.land_spec, Z.shiftl_spec by lia.
  replace (2 ^ n - 1) with (Z.ones n) by (rewrite Z.ones_equiv; lia). rewrite <- Z.shiftl_mul_pow2, Z.shiftl_spec by lia.
  destruct (Z_lt_ge_dec i lo); [rewrite !(Z.testbit_neg_r _ (i - lo)) by lia; by rewrite andb_false_r|].
  rewrite bits_testbit by lia. rewrite Z.testbit_ones_nonneg by lia. replace (i - lo + lo) with i by lia. apply andb_comm.
Qed.

Lemma three_parts x : 0 <= x < 2 ^ 32 -> bits 0 16 x + 65536 * bits 16 8 x + 16777216 * bits 24 8 x = x.
Proof.
  intros Hx. unfold bits. change (2 ^ 0) with 1. change (2 ^ 16) with 65536. change (2 ^ 8) with 256. change (2 ^ 24) with 16777216. change (2 ^ 32) with 4294967296 in Hx.
  Z.to_euclidean_division_equations. lia.
Qed.

Lemma two_parts x : 0 <= x < 2 ^ 32 -> bits 0 16 x + 65536 * bits 16 16 x = x.
Proof.
  intros Hx. unfold bits. change (2 ^ 0) with 1. change (2 ^ 16) with 65536. change (2 ^ 32) with 4294967296 in Hx.
  Z.to_euclidean_division_equations. lia.
Qed.

Lemma limit_parts x : 0 <= x < 2 ^ 20 -> bits 0 16 x + 65536 * bits 16 4 x = x.
Proof.
  intros Hx. unfold bits. change (2 ^ 0) with 1. change (2 ^ 16) with 65536. change (2 ^ 4) with 16. change (2 ^ 20) with 1048576 in Hx.
  Z.to_euclidean_division_equations. lia.
Qed.

(** ** What the processor reads *)

Record segment : Type := mkSegment {
  s_base : Z; s_limit : Z; s_class : Z; s_type : Z; s_dpl : Z; s_present : Z; s_32bit : Z; s_granularity : Z
}.

(** The fields of a descriptor, as the manual of the processor has them. *)
Definition decode_segment (d : Z) : segment :=
  mkSegment (bits 16 16 d + 65536 * bits 32 8 d + 16777216 * bits 56 8 d) (bits 0 16 d + 65536 * bits 48 4 d)
    (bits 44 1 d) (bits 40 4 d) (bits 45 2 d) (bits 47 1 d) (bits 54 1 d) (bits 55 1 d).

Record gate : Type := mkGate { g_offset : Z; g_selector : Z; g_type : Z; g_system : Z; g_dpl : Z; g_present : Z }.

Definition decode_gate (d : Z) : gate :=
  mkGate (bits 0 16 d + 65536 * bits 48 16 d) (bits 16 16 d) (bits 40 4 d) (bits 44 1 d) (bits 45 2 d) (bits 47 1 d).

Lemma u32_shift x k : 0 <= k <= 32 -> u32 (Z.shiftl x k) = Z.shiftl (bits 0 (32 - k) x) k.
Proof.
  intros Hk. unfold u32. change 4294967296 with (2 ^ 32). apply Z.bits_inj'. intros i Hi. rewrite Z.shiftl_spec by lia.
  destruct (Z_lt_ge_dec i 32).
  - rewrite Z.mod_pow2_bits_low, Z.shiftl_spec by lia. destruct (Z_lt_ge_dec i k); [by rewrite !(Z.testbit_neg_r _ (i - k)) by lia|].
    rewrite bits_testbit by lia. rewrite (proj2 (Z.ltb_lt _ _)) by lia. by rewrite Z.add_0_r.
  - rewrite Z.mod_pow2_bits_high by lia. rewrite bits_testbit by lia. by rewrite (proj2 (Z.ltb_ge _ _)) by lia.
Qed.

(** A disjunction of parts, in a list of values and places. *)
Definition parts (l : list (Z * Z)) : Z := foldr (fun p x => Z.lor (Z.shiftl p.1 p.2) x) 0 l.

(** The field at [k] of a disjunction whose other parts are elsewhere. *)
Fixpoint field (lo n : Z) (l : list (Z * Z * Z)) : Z :=
  match l with
  | [] => 0
  | (x, k, w) :: l' => if (k =? lo) && (w =? n) then x else field lo n l'
  end.

(** [parts] with the widths of the parts, none of which overlap. *)
Fixpoint apart (lo n : Z) (l : list (Z * Z * Z)) : bool :=
  match l with
  | [] => true
  | (_, k, w) :: l' => ((k + w <=? lo) || (lo + n <=? k)) && (0 <=? k) && (0 <=? w) && apart lo n l'
  end.

Fixpoint disjoint (l : list (Z * Z * Z)) : bool :=
  match l with [] => true | (_, k, w) :: l' => apart k w l' && (0 <=? k) && (0 <=? w) && disjoint l' end.

Definition sized (l : list (Z * Z * Z)) : Prop := Forall (fun p => 0 <= p.1.1 < 2 ^ p.2) l.

Definition word_of (l : list (Z * Z * Z)) : Z := parts (map fst l).

Lemma bits_apart lo n l : 0 <= lo -> 0 <= n -> apart lo n l = true -> sized l -> bits lo n (word_of l) = 0.
Proof.
  intros Hlo Hn. induction l as [|[[x k] w] l IH]; cbn [apart]; intros Ha Hs.
  - unfold word_of, parts, bits. cbn. rewrite Zdiv_0_l. apply Zmod_0_l.
  - apply andb_prop in Ha as [[[Hk H1]%andb_prop H2]%andb_prop Ha]. apply Forall_cons in Hs as [Hx Hs]. cbn in Hx.
    unfold word_of, parts. cbn [map foldr fst snd]. rewrite bits_lor by done. fold (parts (map fst l)). fold (word_of l).
    rewrite (IH Ha Hs), Z.lor_0_r. apply orb_true_iff in Hk as [Hk|Hk]; [apply bits_below with w; lia|apply bits_above; lia].
Qed.

Lemma bits_field lo n l :
  0 <= lo -> 0 <= n -> disjoint l = true -> sized l -> existsb (fun p => (p.1.2 =? lo) && (p.2 =? n)) l = true ->
  bits lo n (word_of l) = field lo n l.
Proof.
  intros Hlo Hn. induction l as [|[[x k] w] l IH]; cbn [disjoint existsb field]; intros Hd Hs He; [done|].
  apply andb_prop in Hd as [[[Ha H1]%andb_prop H2]%andb_prop Hd]. apply Forall_cons in Hs as [Hx Hs]. cbn in Hx, He.
  unfold word_of, parts. cbn [map foldr fst snd]. rewrite bits_lor by done. fold (parts (map fst l)). fold (word_of l).
  destruct ((k =? lo) && (w =? n)) eqn:E.
  - apply andb_prop in E as [->%Z.eqb_eq ->%Z.eqb_eq]. rewrite bits_at, bits_apart, Z.lor_0_r by done. done.
  - cbn in He. rewrite (IH Hd Hs He).
    assert (exists x0, (x0, lo, n) ∈ l) as (x0 & Hin).
    { apply existsb_exists in He as ([[x0 k0] w0] & Hin & [H3%Z.eqb_eq H4%Z.eqb_eq]%andb_prop). cbn in *. subst. exists x0. by apply list_elem_of_In. }
    assert (k + w <= lo \/ lo + n <= k) as Hk.
    { clear -Ha Hin. induction l as [|[[y k1] w1] l IH]; [by apply not_elem_of_nil in Hin|]. cbn [apart] in Ha.
      apply andb_prop in Ha as [[[Hk _]%andb_prop _]%andb_prop Ha]. apply elem_of_cons in Hin as [[= <- <- <-]|Hin]; [|by apply IH].
      apply orb_true_iff in Hk as [Hk|Hk]; lia. }
    destruct Hk as [Hk|Hk]; [rewrite (bits_below lo n x k w) by lia|rewrite bits_above by lia]; apply Z.lor_0_l.
Qed.

(** A segment descriptor and its parts. *)
Definition seg_parts (base limit class type dpl gran : Z) : list (Z * Z * Z) :=
  [(bits 0 16 limit, 0, 16); (bits 0 16 base, 16, 16); (bits 16 8 base, 32, 8); (type, 40, 4); (class, 44, 1); (dpl, 45, 2); (1, 47, 1);
   (bits 16 4 limit, 48, 4); (1, 54, 1); (gran, 55, 1); (bits 24 8 base, 56, 8)].

Lemma make_seg_desc_parts base limit class type dpl gran :
  0 <= base < 2 ^ 32 -> 0 <= limit < 2 ^ 20 -> 0 <= type < 16 -> 0 <= dpl < 4 ->
  make_seg_desc base limit class type dpl gran = Ok (word_of (seg_parts base limit (class_no class) type dpl (gran_no gran))).
Proof.
  intros Hb Hl Ht Hd. unfold make_seg_desc.
  rewrite (proj2 (Z.leb_le limit _)), !Z.geb_leb, (proj2 (Z.leb_le 0 type)), (proj2 (Z.leb_le type 15)), (proj2 (Z.leb_le 0 dpl)), (proj2 (Z.leb_le dpl 3)) by lia.
  cbn [negb andb]. f_equal.
  change 0xffff with (2 ^ 16 - 1). change 0xff with (2 ^ 8 - 1). change 0xf0000 with ((2 ^ 4 - 1) * 2 ^ 16). change 0xff000000 with ((2 ^ 8 - 1) * 2 ^ 24).
  rewrite !land_low, !land_field, !u32_shift by lia.
  replace (bits 0 8 (Z.shiftr base 16)) with (bits 16 8 base) by (unfold bits; rewrite Z.shiftr_div_pow2 by lia; by rewrite Z.pow_0_r, Z.div_1_r).
  replace (bits 0 (32 - 23) (gran_no gran)) with (gran_no gran) by (by destruct gran).
  change (32 - 16) with 16.
  rewrite !Z.shiftl_lor, !Z.shiftl_shiftl by lia. cbn [Z.add]. unfold word_of, parts, seg_parts. cbn [map foldr fst snd].
  rewrite Z.shiftl_0_r, Z.lor_0_r, <- !Z.lor_assoc. done.
Qed.

Lemma seg_parts_sized base limit class type dpl gran :
  0 <= base < 2 ^ 32 -> 0 <= limit < 2 ^ 20 -> 0 <= type < 16 -> 0 <= dpl < 4 -> sized (seg_parts base limit (class_no class) type dpl (gran_no gran)).
Proof.
  intros Hb Hl Ht Hd. repeat constructor; cbn [fst snd]; try (apply bits_range; lia); try (destruct class; cbn; lia); try (destruct gran; cbn; lia); cbn; lia.
Qed.

(** The processor reads from a segment descriptor what it was made from; and
    making one fails only for values that have no place in it. *)
Theorem make_seg_desc_ok base limit class type dpl gran :
  0 <= base < 2 ^ 32 -> 0 <= limit ->
  if (limit <=? 0xfffff) && ((0 <=? type) && (type <=? 15)) && ((0 <=? dpl) && (dpl <=? 3)) then
    exists d, make_seg_desc base limit class type dpl gran = Ok d /\
      decode_segment d = mkSegment base limit (class_no class) type dpl 1 1 (gran_no gran)
  else make_seg_desc base limit class type dpl gran = Err Assertion_failed.
Proof.
  intros Hb Hl. destruct (_ && _ && _) eqn:E.
  - apply andb_prop in E as [[H1%Z.leb_le [H2%Z.leb_le H3%Z.leb_le]%andb_prop]%andb_prop [H4%Z.leb_le H5%Z.leb_le]%andb_prop].
    eexists. split; [apply make_seg_desc_parts; lia|].
    pose proof (seg_parts_sized base limit class type dpl gran ltac:(lia) ltac:(lia) ltac:(lia) ltac:(lia)) as Hs.
    unfold decode_segment. rewrite !bits_field by (done || lia). unfold seg_parts. cbn [field Z.eqb Pos.eqb andb].
    f_equal; [apply three_parts|apply limit_parts]; lia.
  - unfold make_seg_desc. rewrite !Z.geb_leb. destruct (limit <=? _); [|done]. cbn [negb andb] in *.
    destruct ((0 <=? type) && (type <=? 15)); [|done]. cbn [negb andb] in *. by destruct ((0 <=? dpl) && (dpl <=? 3)).
Qed.

(** ** Gates *)

Definition gate_parts (function dpl type : Z) : list (Z * Z * Z) :=
  [(bits 0 16 function, 0, 16); (SEL_KCSEG, 16, 16); (bits 16 16 function, 48, 16); (1, 47, 1); (dpl, 45, 2); (0, 44, 1); (type, 40, 4)].

Lemma make_gate_parts function dpl type :
  0 < function < 2 ^ 32 -> 0 <= dpl < 4 -> 0 <= type < 16 -> make_gate function dpl type = Ok (word_of (gate_parts function dpl type)).
Proof.
  intros Hf Hd Ht. unfold make_gate.
  rewrite (proj2 (Z.eqb_neq function NULL)), !Z.geb_leb, (proj2 (Z.leb_le 0 type)), (proj2 (Z.leb_le type 15)), (proj2 (Z.leb_le 0 dpl)), (proj2 (Z.leb_le dpl 3)) by (unfold NULL; lia).
  cbn [negb andb]. f_equal. change 0xffff with (2 ^ 16 - 1). change 0xffff0000 with ((2 ^ 16 - 1) * 2 ^ 16).
  rewrite !land_low, !land_field by lia. rewrite !Z.shiftl_lor, !Z.shiftl_shiftl by lia. cbn [Z.add].
  unfold word_of, parts, gate_parts. cbn [map foldr fst snd]. rewrite !Z.shiftl_0_l, !Z.shiftl_0_r, !Z.lor_0_l, !Z.lor_0_r, <- !Z.lor_assoc. done.
Qed.

(** The processor reads from a gate the function, the kernel's code segment,
    the privilege level and the type it was made from. *)
Lemma make_gate_ok function dpl type :
  0 < function < 2 ^ 32 -> 0 <= dpl < 4 -> 0 <= type < 16 ->
  exists g, make_gate function dpl type = Ok g /\ decode_gate g = mkGate function SEL_KCSEG type 0 dpl 1.
Proof.
  intros Hf Hd Ht. eexists. split; [by apply make_gate_parts|].
  assert (sized (gate_parts function dpl type)) as Hs.
  { unfold sized, gate_parts, SEL_KCSEG. repeat (apply Forall_cons; split; [cbn [fst snd]; first [apply bits_range; lia|cbn; lia]|]). apply Forall_nil_2. }
  unfold decode_gate. rewrite !bits_field by (done || lia). unfold gate_parts. cbn [field Z.eqb Pos.eqb andb].
  f_equal. apply two_parts. lia.
Qed.

(** ** The tables after initialization *)

(** What a selector stands for. *)
Definition segment_at (c : cpu) (sel : Z) : option segment := decode_segment <$> gdt c !! Z.to_nat (sel / 8).

Definition flat_code dpl : segment := mkSegment 0 0xfffff 1 10 dpl 1 1 1.
Definition flat_data dpl : segment := mkSegment 0 0xfffff 1 2 dpl 1 1 1.

(** After initialization the selectors of the kernel are segments of ring 0
    and those of user programs of ring 3, all over the whole address space;
    the task register has a segment at the task-state segment, by which an
    interrupt in user mode switches to the top of the stack of the running
    thread in the kernel's data segment. *)
Theorem gdt_init_ok c page cur gdt_addr :
  length (gdt c) = SEL_CNT -> 0 < page < 2 ^ 32 -> 0 <= cur < 2 ^ 32 - 4096 -> 0 <= gdt_addr < 2 ^ 32 ->
  exists c', (tss_init page cur ;;; gdt_init gdt_addr) c = Ok (tt, c') /\
    segment_at c' SEL_KCSEG = Some (flat_code 0) /\ segment_at c' SEL_KDSEG = Some (flat_data 0) /\
    segment_at c' SEL_UCSEG = Some (flat_code 3) /\ segment_at c' SEL_UDSEG = Some (flat_data 3) /\
    tr c' = Some SEL_TSS /\ segment_at c' SEL_TSS = Some (mkSegment page 0x67 0 9 0 1 1 0) /\
    the_tss c' = mkTss (cur + 4096) SEL_KDSEG 0xdfff /\
    gdtr c' = Some (47 + 65536 * gdt_addr).
Proof.
  intros Hlen Hp Hc Ha. destruct c as [g ta ts gr r]. cbn in Hlen. unfold SEL_CNT in Hlen. do 6 (destruct g as [|? g]; [done|]). destruct g; [|done]. clear Hlen.
  pose proof (make_seg_desc_ok page 0x67 CLS_SYSTEM 9 0 GRAN_BYTE ltac:(lia) ltac:(lia)) as (d & Hd & Hdec).
  assert (make_tss_desc page = Ok d) as Ht by (unfold make_tss_desc; rewrite u32_id by (change (2 ^ 32) with 4294967296 in *; lia); done).
  assert (exists k1 k2 k3 k4, make_code_desc 0 = Ok k1 /\ make_data_desc 0 = Ok k2 /\ make_code_desc 3 = Ok k3 /\ make_data_desc 3 = Ok k4 /\
    decode_segment k1 = flat_code 0 /\ decode_segment k2 = flat_data 0 /\ decode_segment k3 = flat_code 3 /\ decode_segment k4 = flat_data 3)
    as (k1 & k2 & k3 & k4 & E1 & E2 & E3 & E4 & D1 & D2 & D3 & D4) by (do 4 eexists; repeat split; vm_compute; reflexivity).
  unfold tss_init, gdt_init, tss_update, tss_get, set_desc. rewrite E1, E2, E3, E4.
  eexists. split.
  { unfold bind, gets, modify, ASSERT. cbn -[make_tss_desc make_gdtr_operand Z.eqb NULL u32 Z.div].
    rewrite (proj2 (Z.eqb_neq page NULL)) by (unfold NULL; lia). cbn -[make_tss_desc make_gdtr_operand u32 Z.div Z.eqb NULL].
    rewrite (proj2 (Z.eqb_neq page NULL)) by (unfold NULL; lia). cbn -[make_tss_desc make_gdtr_operand u32 Z.div]. rewrite Ht. reflexivity. }
  unfold segment_at. cbn -[decode_segment make_gdtr_operand u32].
  change (Z.to_nat (SEL_TSS / 8)) with 5%nat. change (Z.to_nat (SEL_UDSEG / 8)) with 4%nat. change (Z.to_nat (SEL_UCSEG / 8)) with 3%nat.
  change (Z.to_nat (SEL_KDSEG / 8)) with 2%nat. change (Z.to_nat (SEL_KCSEG / 8)) with 1%nat. change (Z.to_nat (SEL_NULL / 8)) with 0%nat.
  cbn -[decode_segment make_gdtr_operand u32].
  rewrite D1, D2, D3, D4, Hdec.
  do 6 (split; [reflexivity|]).
  split; [by rewrite u32_id by (change (2 ^ 32) with 4294967296 in *; lia)|]. f_equal. unfold make_gdtr_operand.
  rewrite u32_id by (change (2 ^ 32) with 4294967296 in *; lia). rewrite Z.lor_comm, <- Z.add_nocarry_lor; [rewrite Z.shiftl_mul_pow2 by lia; lia|].
  apply Z.bits_inj'. intros i Hi. rewrite Z.land_spec, Z.shiftl_spec, Z.bits_0 by lia. destruct (Z_lt_ge_dec i 16).
  - by rewrite Z.testbit_neg_r by lia.
  - change (Z.of_nat 48 - 1) with 47. rewrite (Z.bits_above_log2 47 i); [apply andb_false_r|done|]. change (Z.log2 47) with 5. lia.
Qed.

Lemma gdt_init_ok_witness :
  exists c', (tss_init 0xc0105000 0xc000e000 ;;; gdt_init 0xc0030100) (mkCpu (repeat 0 SEL_CNT) 0 (mkTss 0 0 0) None None) = Ok (tt, c') /\
    segment_at c' SEL_UCSEG = Some (flat_code 3) /\ esp0 (the_tss c') = 0xc000f000.
Proof.
  destruct (gdt_init_ok (mkCpu (repeat 0 SEL_CNT) 0 (mkTss 0 0 0) None None) 0xc0105000 0xc000e000 0xc0030100) as (c' & Hr & _ & _ & Hu & _ & _ & _ & Ht & _);
    [reflexivity|lia..|]. exists c'. split; [exact Hr|]. split; [exact Hu|]. rewrite Ht. reflexivity.
Defined.

(** ** Dispatch *)

Section handlers.
Context (intr_stubs : nat -> Z) (call : Z -> M istate unit).

Lemma pic_end_run irq s :
  (32 <= irq < 48)%nat ->
  pic_end_of_interrupt (Z.of_nat irq) s = Ok (tt, set_ports (ports s ++ (0x20, 0x20) :: if (40 <=? irq)%nat then [(0xa0, 0x20)] else []) s).
Proof.
  intros Hi. unfold pic_end_of_interrupt, outb. rewrite !Z.geb_leb, (proj2 (Z.leb_le 0x20 _)), (proj2 (Z.ltb_lt _ 0x30)) by lia. cbn [andb]. mnorm.
  destruct (Nat.leb_spec 40 irq).
  - rewrite (proj2 (Z.leb_le _ _)) by lia. unfold modify. cbn. by rewrite <- app_assoc.
  - rewrite (proj2 (Z.leb_gt _ _)) by lia. done.
Qed.

(** A handler of an external interrupt keeps interrupts off and stays in
    the context of the interrupt, as the comments ask of it. *)
Definition behaves (h : Z) : Prop :=
  forall s u s', intr_on s = false -> in_external_intr s = true -> call h s = Ok (u, s') -> intr_on s' = false /\ in_external_intr s' = true.

(** An external interrupt that arrives with interrupts off, outside of
    another one, runs its handler exactly once in the context of the interrupt,
    and when the handler returns the interrupt is acknowledged, at the slave
    controller too if it came from there, the context is left, and the
    processor is yielded exactly if the handler asked for it. *)
Theorem external_interrupt_ok vec h s s1 :
  (32 <= vec < 48)%nat -> intr_handlers s !! vec = Some h -> h <> NULL -> behaves h ->
  intr_on s = false -> in_external_intr s = false ->
  call h (set_yield false (set_external true s)) = Ok (tt, s1) ->
  intr_handler call vec s = Ok (yield_on_return s1,
    set_ports (ports s1 ++ (0x20, 0x20) :: if (40 <=? vec)%nat then [(0xa0, 0x20)] else []) (set_external false s1)).
Proof.
  intros Hv Hh Hn Hb Hi Hc Hcall. destruct (Hb _ _ _ (Hi : intr_on (set_yield false (set_external true s)) = false) eq_refl Hcall) as [Hi1 Hc1].
  unfold intr_handler. rewrite (proj2 (Nat.leb_le 32 vec)), (proj2 (Nat.ltb_lt vec 48)) by lia. cbn [andb]. mnorm. rewrite Hi. mnorm. rewrite Hc. mnorm.
  unfold bind at 1, gets_opt. cbn [intr_handlers set_yield set_external]. rewrite Hh, (proj2 (Z.eqb_neq h NULL) Hn). cbn [negb].
  mrun Hcall. mnorm. rewrite Hi1. mnorm. rewrite Hc1. mnorm. mrun (pic_end_run vec (set_external false s1) Hv). done.
Qed.

End handlers.

(** The timer, which asks for a yield. *)
Lemma external_interrupt_ok_witness :
  let s := mkIstate [] (<[32%nat := 0xc0021000]> (repeat 0 256)) [] [] false false false None [] [] in
  intr_handler (fun _ => modify (set_yield true)) 32 s = Ok (true, set_ports [(0x20, 0x20)] (set_yield true s)).
Proof.
  intros s. apply (external_interrupt_ok (fun _ => modify (set_yield true)) 32 0xc0021000 s (set_yield true (set_external true s))); try reflexivity; [lia|discriminate|].
  intros s0 u s' H1 H2 [= _ <-]. split; [exact H1|exact H2].
Defined.

End Descriptors.
