(* ===== verification/Ustar.v ===== *)
(** * Archive headers (src/src/lib/ustar.c)

    A header is the list of its 512 bytes, and a field of the packed struct
    is a range of it.  File names are the characters before the terminator.
    [strlcpy] and [snprintf] on a field of the struct are the lists that
    [CString.strlcpy_ok] and [Stdio.snprintf_ok] give for memory. *)

From Stdlib Require Import Ascii String.
From S2P Require Import Prelude DListOps CString StdLib Stdio.

Module Ustar.
Import Stdio.

(** ** The header *)

Definition USTAR_HEADER_SIZE : nat := 512.

Inductive ustar_type : Type := USTAR_REGULAR | USTAR_DIRECTORY | USTAR_EOF.

Definition typeflag_of (t : ustar_type) : Z :=
  match t with USTAR_REGULAR => chr "0" | USTAR_DIRECTORY => chr "5" | USTAR_EOF => -1 end.

(** Offset and size of the fields. *)
Definition f_name : nat * nat := (0, 100)%nat.
Definition f_mode : nat * nat := (100, 8)%nat.
Definition f_uid : nat * nat := (108, 8)%nat.
Definition f_gid : nat * nat := (116, 8)%nat.
Definition f_size : nat * nat := (124, 12)%nat.
Definition f_mtime : nat * nat := (136, 12)%nat.
Definition f_chksum : nat * nat := (148, 8)%nat.
Definition f_typeflag : nat * nat := (156, 1)%nat.
Definition f_linkname : nat * nat := (157, 100)%nat.
Definition f_magic : nat * nat := (257, 6)%nat.
Definition f_version : nat * nat := (263, 2)%nat.
Definition f_uname : nat * nat := (265, 32)%nat.
Definition f_gname : nat * nat := (297, 32)%nat.
Definition f_devmajor : nat * nat := (329, 8)%nat.
Definition f_devminor : nat * nat := (337, 8)%nat.
Definition f_prefix : nat * nat := (345, 155)%nat.
Definition f_padding : nat * nat := (500, 12)%nat.

Definition field (f : nat * nat) (h : list Z) : list Z := take f.2 (drop f.1 h).

(** Put bytes at an offset. *)
Definition write (h : list Z) (ofs : nat) (bs : list Z) : list Z :=
  take ofs h ++ bs ++ drop (ofs + length bs) h.

Definition strlcpy_field (h : list Z) (f : nat * nat) (s : list Z) : list Z :=
  write h f.1 (take (f.2 - 1) s ++ [0]).

Definition snprintf_field (h : list Z) (f : nat * nat) (format : list Z) (v : Z) : res (list Z) :=
  match printf 60 format [Word v] with
  | Ok text => Ok (write h f.1 (take (f.2 - 1) (map u8 text) ++ [0]))
  | Err e => Err e
  end.

(** ** Operations *)

Definition in_chksum_field (i : nat) : bool := (f_chksum.1 <=? i)%nat && (i <? f_chksum.1 + f_chksum.2)%nat.

Fixpoint chksum_loop (header : list Z) (i : nat) (chksum : Z) : Z :=
  match header with
  | [] => chksum
  | b :: header' => chksum_loop header' (S i) (u32 (chksum + if in_chksum_field i then chr " " else b))
  end.

Definition calculate_chksum (h : list Z) : Z := chksum_loop h 0 0.

(** [strchr (file_name, '/') + 1]. *)
Fixpoint after_slash (s : list Z) : list Z :=
  match s with [] => [] | c :: s' => if c =? chr "/" then s' else after_slash s' end.

Fixpoint starts (p s : list Z) : bool :=
  match p, s with
  | [], _ => true
  | a :: p', b :: s' => (a =? b) && starts p' s'
  | _, [] => false
  end.

Definition antisocial (s : list Z) : bool := starts (str "/") s || starts (str "./") s || starts (str "../") s.

Fixpoint strip_antisocial_prefixes (fuel : nat) (file_name : list Z) : res (list Z) :=
  match fuel with
  | O => Err Out_of_fuel
  | S fuel' =>
      if antisocial file_name then strip_antisocial_prefixes fuel' (after_slash file_name)
      else Ok (if bool_decide (file_name = []) || bool_decide (file_name = str "..") then str "." else file_name)
  end.

Notation "x <~ m ;; k" := (match m with Ok x => k | Err e => Err e end)
  (at level 100, m at next level, right associativity).

(** [None] is the return value false, for a name that is too long. *)
Definition ustar_make_header (file_name : list Z) (type : ustar_type) (size : Z) : res (option (list Z)) :=
  match type with
  | USTAR_EOF => Err Assertion_failed
  | _ =>
      file_name <~ strip_antisocial_prefixes (S (length file_name)) file_name ;;
      if (99 <? length file_name)%nat then Ok None
      else
        let h := repeat 0 USTAR_HEADER_SIZE in
        let h := strlcpy_field h f_name file_name in
        h <~ snprintf_field h f_mode (lit "%07o") (match type with USTAR_REGULAR => 420 | _ => 493 end) ;;
        let h := strlcpy_field h f_uid (str "0000000") in
        let h := strlcpy_field h f_gid (str "0000000") in
        h <~ snprintf_field h f_size (lit "%011o") size ;;
        h <~ snprintf_field h f_mtime (lit "%011o") 1136102400 ;;
        let h := write h 156 [typeflag_of type] in
        let h := strlcpy_field h f_magic (str "ustar") in
        let h := write h 263 [chr "0"; chr "0"] in
        let h := strlcpy_field h f_gname (str "root") in
        let h := strlcpy_field h f_uname (str "root") in
        h <~ snprintf_field h f_chksum (lit "%07o") (calculate_chksum h) ;;
        Ok (Some h)
  end.

(** The loop over a field: the value, or [None] for a bad field. *)
Fixpoint octal_loop (s : list Z) (ofs : nat) (value : Z) : option Z :=
  match s with
  | [] => None
  | c :: s' =>
      if (c >=? chr "0") && (c <=? chr "7") then
        if value >? 4294967295 / 8 then None else octal_loop s' (S ofs) (u32 (c - chr "0" + value * 8))
      else if (c =? chr " ") || (c =? 0) then (if (0 <? ofs)%nat then Some value else None)
      else None
  end.

Definition parse_octal_field (s : list Z) : option Z := octal_loop s 0 0.

Fixpoint is_all_zeros (block : list Z) : bool :=
  match block with [] => true | b :: block' => if negb (b =? 0) then false else is_all_zeros block' end.

(** The characters of an array before the terminator. *)
Fixpoint string_at (bs : list Z) : list Z :=
  match bs with [] => [] | b :: bs' => if b =? 0 then [] else b :: string_at bs' end.

(** What is stored in the out parameters, or the message. *)
Inductive parsed_header : Type :=
| Parsed (file_name : option (list Z)) (type : ustar_type) (size : Z)
| Bad_header (message : string).

Definition ustar_parse_header (header : list Z) : res parsed_header :=
  let h f := field f header in
  let typeflag := nth 156 header 0 in
  if is_all_zeros header then Ok (Parsed None USTAR_EOF 0)
  else if negb (bool_decide (h f_magic = lit "ustar")) then Ok (Bad_header "not a ustar archive")
  else if negb (nth 263 header 0 =? chr "0") || negb (nth 264 header 0 =? chr "0")
  then Ok (Bad_header "invalid ustar version")
  else match parse_octal_field (h f_chksum) with
  | None => Ok (Bad_header "corrupt chksum field")
  | Some chksum =>
  if negb (chksum =? calculate_chksum header) then Ok (Bad_header "checksum mismatch")
  else if negb (nth 99 header 0 =? 0) || negb (nth 345 header 0 =? 0) then Ok (Bad_header "file name too long")
  else if negb (typeflag =? typeflag_of USTAR_REGULAR) && negb (typeflag =? typeflag_of USTAR_DIRECTORY)
  then Ok (Bad_header "unimplemented file type")
  else
    let done (type : ustar_type) (size_ul : Z) :=
      let name := string_at (h f_name) in
      name <~ strip_antisocial_prefixes (S (length name)) name ;;
      Ok (Parsed (Some name) type size_ul) in
    if typeflag =? typeflag_of USTAR_REGULAR then
      match parse_octal_field (h f_size) with
      | None => Ok (Bad_header "corrupt file size field")
      | Some size_ul => if size_ul >? 2147483647 then Ok (Bad_header "file too large") else done USTAR_REGULAR size_ul
      end
    else done USTAR_DIRECTORY 0
  end.

Example make_parse_ex :
  match ustar_make_header (str "/../a/b.txt") USTAR_REGULAR 1000 with
  | Ok (Some h) => ustar_parse_header h = Ok (Parsed (Some (str "a/b.txt")) USTAR_REGULAR 1000)
  | _ => False
  end.
Proof. vm_compute. reflexivity. Qed.

(** ** Names *)

Lemma starts_spec p s : starts p s = true <-> exists t, s = p ++ t.
Proof.
  revert s. induction p as [|a p IH]; intros [|b s]; cbn; [split; eauto..| |].
  - split; [done|by intros (t & ?)].
  - rewrite andb_true_iff, Z.eqb_eq, IH. split.
    + intros [-> (t & ->)]. by exists t.
    + intros (t & [= -> ->]). split; [done|eauto].
Qed.

Lemma after_slash_shorter s : antisocial s = true -> (length (after_slash s) < length s)%nat.
Proof.
  assert (forall t, length (after_slash t) <= length t)%nat as Hle.
  { induction t as [|c t IH]; [done|]. cbn. destruct (c =? chr "/"); lia. }
  destruct s as [|c s]; [done|]. intros H. cbn [after_slash length]. destruct (c =? chr "/"); [lia|].
  specialize (Hle s). lia.
Qed.

(** What stripping ensures: none of the three prefixes, not empty, not the
    parent directory.  Components [..] further on are not looked at. *)
Definition sociable (s : list Z) : Prop := antisocial s = false /\ s <> [] /\ s <> str "..".

(** A stripped name has no dangerous prefix, is a suffix of the name or the
    current directory, and is not changed when it is stripped again. *)
Lemma strip_run fuel s :
  (length s < fuel)%nat ->
  exists t, strip_antisocial_prefixes fuel s = Ok t /\ sociable t /\ (t = str "." \/ exists p, s = p ++ t).
Proof.
  revert s. induction fuel as [|fuel IH]; intros s Hf; [lia|]. cbn [strip_antisocial_prefixes].
  destruct (antisocial s) eqn:E.
  - pose proof (after_slash_shorter s E). destruct (IH (after_slash s)) as (t & -> & Ht & Hp); [lia|].
    exists t. split; [done|]. split; [done|]. destruct Hp as [->|(p & Hp)]; [by left|]. right.
    assert (exists q, s = q ++ after_slash s) as (q & Hq).
    { clear. induction s as [|c s (q & IH)]; [by exists []|]. cbn. destruct (c =? chr "/"); [by exists [c]|].
      exists (c :: q). cbn. by rewrite <- IH. }
    exists (q ++ p). by rewrite <- app_assoc, <- Hp.
  - eexists. split; [done|]. do 2 case_bool_decide; cbn; subst; try (split; [by repeat split|by left]).
    split; [by repeat split|]. right. by exists [].
Qed.

Lemma strip_sociable fuel s : (0 < fuel)%nat -> sociable s -> strip_antisocial_prefixes fuel s = Ok s.
Proof.
  intros Hf (H1 & H2 & H3). destruct fuel; [lia|]. cbn. rewrite H1. by rewrite !bool_decide_eq_false_2.
Qed.

(** ** Fields *)

Lemma write_length h ofs bs : (ofs + length bs <= length h)%nat -> length (write h ofs bs) = length h.
Proof. intros H. unfold write. rewrite !length_app, length_take, length_drop. lia. Qed.

Lemma write_lookup h ofs bs i :
  (ofs + length bs <= length h)%nat ->
  write h ofs bs !! i = if decide (ofs <= i < ofs + length bs)%nat then bs !! (i - ofs)%nat else h !! i.
Proof.
  intros H. unfold write. destruct (decide _) as [Hi|Hi].
  - rewrite lookup_app_r; rewrite length_take; [|lia]. rewrite lookup_app_l by lia. f_equal. lia.
  - destruct (decide (i < ofs)%nat).
    + rewrite lookup_app_l by (rewrite length_take; lia). by rewrite lookup_take_lt.
    + rewrite lookup_app_r; rewrite length_take; [|lia]. rewrite lookup_app_r by lia.
      rewrite lookup_drop. f_equal. lia.
Qed.

Lemma field_lookup f h i : field f h !! i = if decide (i < f.2)%nat then h !! (f.1 + i)%nat else None.
Proof.
  unfold field. destruct (decide _); [by rewrite lookup_take_lt, lookup_drop by done|].
  rewrite lookup_take_ge by lia. done.
Qed.

Definition disjoint_from (f : nat * nat) (ofs n : nat) : Prop := (f.1 + f.2 <= ofs \/ ofs + n <= f.1)%nat.

Lemma field_write_ne f h ofs bs :
  (ofs + length bs <= length h)%nat -> disjoint_from f ofs (length bs) -> field f (write h ofs bs) = field f h.
Proof.
  intros Hl Hd. apply list_eq. intros i. rewrite !field_lookup. destruct (decide _); [|done].
  rewrite write_lookup by done. destruct (decide _); [|done]. unfold disjoint_from in Hd. lia.
Qed.

(** The bytes written at the start of a field. *)
Lemma field_write_eq f h bs :
  (f.1 + length bs <= length h)%nat -> (length bs <= f.2)%nat ->
  field f (write h f.1 bs) = bs ++ drop (length bs) (field f h).
Proof.
  intros Hl Hb. apply list_eq. intros i. rewrite field_lookup, lookup_app. destruct (decide (i < f.2)%nat).
  - rewrite write_lookup by done. destruct (decide _) as [Hi|Hi].
    + replace (f.1 + i - f.1)%nat with i by lia. destruct (bs !! i) eqn:E; [done|].
      apply lookup_ge_None in E. lia.
    + rewrite (lookup_ge_None_2 bs) by lia. rewrite lookup_drop, field_lookup.
      rewrite decide_True by lia. f_equal. lia.
  - rewrite (lookup_ge_None_2 bs) by lia. rewrite lookup_drop, field_lookup. by rewrite decide_False by lia.
Qed.

Lemma nth_field f h i : (i < f.2)%nat -> nth (f.1 + i) h 0 = nth i (field f h) 0.
Proof. intros Hi. rewrite !nth_lookup, field_lookup. by rewrite decide_True. Qed.

(** ** Checksums *)

Lemma chksum_loop_bound h : forall i c,
  Forall (fun b => 0 <= b < 256) h -> 0 <= c -> c + 256 * Z.of_nat (length h) < 4294967296 ->
  0 <= chksum_loop h i c <= c + 255 * Z.of_nat (length h).
Proof.
  induction h as [|b h IH]; intros i c Hb Hc Hl; cbn [chksum_loop length] in *; [lia|].
  apply Forall_cons in Hb as [Hb Hh].
  assert (0 <= (if in_chksum_field i then chr " " else b) < 256) as Hx by (destruct (in_chksum_field i); [change (chr " ") with 32; lia|lia]).
  rewrite u32_id by lia. specialize (IH (S i) (c + if in_chksum_field i then chr " " else b) Hh ltac:(lia) ltac:(lia)). lia.
Qed.

Lemma chksum_loop_ext h h' : forall i c,
  length h = length h' -> (forall k, in_chksum_field (i + k) = false -> h !! k = h' !! k) ->
  chksum_loop h i c = chksum_loop h' i c.
Proof.
  revert h'. induction h as [|b h IH]; intros [|b' h'] i c Hl He; try done. cbn [chksum_loop]. injection Hl as Hl.
  replace (if in_chksum_field i then chr " " else b) with (if in_chksum_field i then chr " " else b').
  - apply IH; [done|]. intros k Hk. apply (He (S k)). by replace (i + S k)%nat with (S i + k)%nat by lia.
  - destruct (in_chksum_field i) eqn:E; [done|]. specialize (He 0%nat). rewrite Nat.add_0_r in He. by injection (He E).
Qed.

(** The checksum does not depend on its own field. *)
Lemma chksum_write h bs :
  length h = 512%nat -> length bs = 8%nat -> calculate_chksum (write h 148 bs) = calculate_chksum h.
Proof.
  intros Hl Hb. apply chksum_loop_ext; [apply write_length; lia|]. intros k Hk. rewrite write_lookup by lia.
  destruct (decide _) as [Hd|]; [|done]. exfalso. cbn [Nat.add] in Hk. unfold in_chksum_field, f_chksum in Hk. cbn [fst snd] in Hk.
  rewrite andb_false_iff, Nat.leb_gt, Nat.ltb_ge in Hk. lia.
Qed.

(** ** Octal fields *)

Definition is_octal (c : Z) : Prop := 48 <= c <= 55.

Definition octal_value (v : Z) (s : list Z) : Z := fold_left (fun v c => v * 8 + (c - 48)) s v.

Lemma octal_value_le s : forall v, 0 <= v -> Forall is_octal s -> v <= octal_value v s.
Proof.
  induction s as [|c s IH]; intros v Hv Hs; [cbn; lia|]. apply Forall_cons in Hs as [Hc Hs]. unfold is_octal in Hc.
  specialize (IH (v * 8 + (c - 48)) ltac:(lia) Hs). unfold octal_value in *. cbn. lia.
Qed.

Lemma octal_loop_run s : forall rest ofs v,
  Forall is_octal s -> 0 <= v -> octal_value v s < 4294967296 -> (0 < ofs + length s)%nat ->
  octal_loop (s ++ 0 :: rest) ofs v = Some (octal_value v s).
Proof.
  induction s as [|c s IH]; intros rest ofs v Hs Hv Hl Ho; cbn [app octal_loop length] in *.
  { rewrite (proj2 (Nat.ltb_lt _ _)) by lia. done. }
  apply Forall_cons in Hs as [Hc Hs]. unfold is_octal in Hc.
  change (chr "0") with 48. change (chr "7") with 55. rewrite (proj2 (Z.geb_le _ _)), (proj2 (Z.leb_le _ _)) by lia. cbn [andb].
  pose proof (octal_value_le s (v * 8 + (c - 48)) ltac:(lia) Hs) as Hle. unfold octal_value in *. cbn [fold_left] in Hl.
  rewrite Z.gtb_ltb, (proj2 (Z.ltb_ge _ _)) by (change (4294967295 / 8) with 536870911; lia).
  rewrite u32_id by lia. replace (c - 48 + v * 8) with (v * 8 + (c - 48)) by lia. cbn [fold_left].
  apply IH; [done|lia|done|lia].
Qed.

Lemma digit_o d : 0 <= d < 8 -> digit base_o d = 48 + d.
Proof.
  intros Hd. assert (d = 0 \/ d = 1 \/ d = 2 \/ d = 3 \/ d = 4 \/ d = 5 \/ d = 6 \/ d = 7) as H by lia.
  by destruct H as [->|[->|[->|[->|[->|[->|[->| ->]]]]]]].
Qed.

Lemma octal_value_numeral ds :
  Forall (fun d => 0 <= d < 8) ds ->
  octal_value 0 (rev (map (digit base_o) ds)) = numeral 8 ds /\ Forall is_octal (rev (map (digit base_o) ds)).
Proof.
  induction 1 as [|d ds Hd _ [IH1 IH2]]; [by split; [|constructor]|]. cbn [map rev numeral]. unfold octal_value in *.
  rewrite fold_left_app, IH1, digit_o by done. cbn [fold_left]. split; [lia|].
  apply Forall_app. split; [done|]. repeat constructor; unfold is_octal; lia.
Qed.

Lemma octal_value_zeros k ds : octal_value 0 (repeat 48 k ++ ds) = octal_value 0 ds.
Proof. unfold octal_value. rewrite fold_left_app. f_equal. induction k as [|k IH]; [done|exact IH]. Qed.

(** "%0<w>o" of a value of at most [w] digits gives exactly [w] of them. *)
Lemma octal_text w v args :
  (0 < w <= 22)%nat -> 0 <= v < 8 ^ Z.of_nat w ->
  exists ds, format_integer v false false base_o (mkConversion ZERO (Z.of_nat w) (-1) INT) args = Ok (ds, args) /\
    length ds = w /\ Forall is_octal ds /\ octal_value 0 ds = v.
Proof.
  intros Hw Hv. destruct bases_ok as (_ & Bo & _).
  destruct (format_integer_digits w v false false base_o (mkConversion ZERO (Z.of_nat w) (-1) INT) args Bo Hv)
    as (ds & z & Hr & Hn & Hd & Hl & _ & Hz); [lia|done|]. specialize (Hz eq_refl).
  cbn [flags precision] in Hz. change (-1 <? 0) with true in Hz. cbn iota in Hz.
  eexists. split; [exact Hr|]. unfold around, pad_cnt. cbn [flags width].
  change (has ZERO (Z.lor MINUS ZERO)) with true. change (has ZERO ZERO) with true. change (has ZERO MINUS) with false.
  change (has ZERO POUND) with false. cbn [andb sign_char Z.eqb app]. rewrite app_nil_r.
  destruct (octal_value_numeral ds Hd) as [Ho Hf]. rewrite app_assoc, <- repeat_app.
  split; [|split].
  - rewrite !length_app, !repeat_length, !length_rev, !length_map. lia.
  - apply Forall_app. split; [|done]. by apply Forall_repeat.
  - by rewrite octal_value_zeros, Ho.
Qed.

Lemma map_u8_octal ds : Forall is_octal ds -> map u8 ds = ds.
Proof.
  induction 1 as [|c ds Hc _ IH]; [done|]. cbn. unfold is_octal in Hc. rewrite CString.u8_id, IH by lia. done.
Qed.

(** A number field is filled with digits and a terminator. *)
Lemma snprintf_octal h f w format v :
  (w, format) = (7%nat, lit "%07o") \/ (w, format) = (11%nat, lit "%011o") -> f.2 = S w -> u32 v < 8 ^ Z.of_nat w ->
  exists ds, snprintf_field h f format v = Ok (write h f.1 (ds ++ [0])) /\
    length ds = w /\ Forall is_octal ds /\ octal_value 0 ds = u32 v.
Proof.
  intros Hw Hf Hv. assert (0 < w <= 22)%nat as Hr by (destruct Hw as [[= -> _]|[= -> _]]; lia).
  destruct (octal_text w (u32 v) [] Hr) as (ds & Ht & Hl & Ho & Hs); [split; [apply Z.mod_pos_bound; lia|done]|].
  exists ds. unfold snprintf_field, printf.
  assert (vprintf 60 format [Word v] = Ok (ds ++ [], [])) as ->.
  { transitivity ((out <- format_integer (u32 v) false false base_o (mkConversion ZERO (Z.of_nat w) (-1) INT) ;; ret (out ++ [])) []);
      [by destruct Hw as [[= -> ->]|[= -> ->]]|by mrun Ht]. }
  rewrite app_nil_r, map_u8_octal, take_ge by (done || lia). done.
Qed.

(** ** Composing a header *)

Definition byte (b : Z) : Prop := 0 <= b < 256.

(** An array of 512 bytes. *)
Record hdr (h : list Z) : Prop := { hdr_length : length h = 512%nat; hdr_bytes : Forall byte h }.

Lemma hdr_zero : hdr (repeat 0 USTAR_HEADER_SIZE).
Proof. split; [done|]. apply Forall_repeat. unfold byte. lia. Qed.

Lemma hdr_write h ofs bs : hdr h -> (ofs + length bs <= 512)%nat -> Forall byte bs -> hdr (write h ofs bs).
Proof.
  intros [Hl Hb] Ho Hbs. split; [rewrite write_length; lia|]. unfold write.
  apply Forall_app. split; [by apply Forall_take|]. apply Forall_app. split; [done|by apply Forall_drop].
Qed.

Lemma field_keep f h ofs bs :
  hdr h -> (ofs + length bs <= 512)%nat -> disjoint_from f ofs (length bs) -> field f (write h ofs bs) = field f h.
Proof. intros [Hl _] Ho Hd. apply field_write_ne; [lia|done]. Qed.

Lemma field_fill f h bs :
  hdr h -> (f.1 + f.2 <= 512)%nat -> length bs = f.2 -> field f (write h f.1 bs) = bs.
Proof.
  intros [Hl _] Ho Hb. rewrite field_write_eq by lia. rewrite drop_ge; [by rewrite app_nil_r|].
  unfold field. rewrite length_take, length_drop. lia.
Qed.

Lemma octal_bytes ds : Forall is_octal ds -> Forall byte (ds ++ [0]).
Proof.
  intros H. apply Forall_app. split; [|by repeat constructor]. eapply Forall_impl; [exact H|].
  unfold is_octal, byte. intros. lia.
Qed.

Lemma calculate_chksum_range h : hdr h -> 0 <= calculate_chksum h < 2097152.
Proof.
  intros [Hl Hb]. pose proof (chksum_loop_bound h 0 0 Hb ltac:(lia)) as H. unfold calculate_chksum. rewrite Hl in H. lia.
Qed.

Lemma parse_octal_digits ds v :
  Forall is_octal ds -> ds <> [] -> octal_value 0 ds = v -> in_u32 v -> parse_octal_field (ds ++ [0]) = Some v.
Proof.
  intros Ho Hne <- Hv. unfold in_u32 in Hv. apply octal_loop_run; [done|lia|lia|].
  destruct ds; [done|cbn; lia].
Qed.

(** The fields that the parser looks at. *)
Record made (h : list Z) (name : list Z) (type : ustar_type) (size : Z) : Prop := {
  md_hdr : hdr h;
  md_name : field f_name h = name ++ repeat 0 (100 - length name);
  md_size : parse_octal_field (field f_size h) = Some (u32 size);
  md_chksum : parse_octal_field (field f_chksum h) = Some (calculate_chksum h);
  md_typeflag : field f_typeflag h = [typeflag_of type];
  md_magic : field f_magic h = lit "ustar";
  md_version : field f_version h = [48; 48];
  md_prefix : field f_prefix h = repeat 0 155
}.

Ltac sizes := rewrite ?length_app, ?length_take, ?repeat_length; unfold USTAR_HEADER_SIZE; cbn [length str f_name f_mode f_uid f_gid f_size f_mtime f_chksum f_typeflag f_magic f_version f_uname f_gname f_prefix fst snd]; lia.
Ltac keep := rewrite field_keep; [|solve [eauto]|sizes|unfold disjoint_from; sizes].

Lemma drop_repeat {A} (a : A) n k : drop k (repeat a n) = repeat a (n - k).
Proof. revert n. induction k as [|k IH]; intros [|n]; by cbn. Qed.

Lemma make_header_run file_name t type size :
  type <> USTAR_EOF -> strip_antisocial_prefixes (S (length file_name)) file_name = Ok t ->
  (length t <= 99)%nat -> Forall byte t ->
  exists h, ustar_make_header file_name type size = Ok (Some h) /\ made h t type size.
Proof.
  intros Hty Hs Hl Hb. unfold ustar_make_header.
  set (mode := match type with USTAR_REGULAR => 420 | _ => 493 end).
  assert (forall X (a b : X), match type with USTAR_EOF => a | _ => b end = b) as -> by (by destruct type).
  rewrite Hs. rewrite (proj2 (Nat.ltb_ge _ _)) by lia. cbv zeta.
  set (h0 := repeat 0 USTAR_HEADER_SIZE). set (h1 := strlcpy_field h0 f_name t).
  assert (hdr h1) as H1.
  { apply hdr_write; [apply hdr_zero|sizes|]. apply Forall_app. split; [by apply Forall_take|by repeat constructor]. }
  destruct (snprintf_octal h1 f_mode 7 (lit "%07o") mode) as (d2 & -> & L2 & O2 & _);
    [by left|done|by unfold mode; destruct type|].
  cbv zeta iota beta. set (h2 := write h1 _ _). assert (hdr h2) as H2 by (apply hdr_write; [done|sizes|by apply octal_bytes]).
  set (h3 := strlcpy_field h2 f_uid (str "0000000")). assert (hdr h3) as H3 by (apply hdr_write; [done|sizes|by repeat constructor]).
  set (h4 := strlcpy_field h3 f_gid (str "0000000")). assert (hdr h4) as H4 by (apply hdr_write; [done|sizes|by repeat constructor]).
  destruct (snprintf_octal h4 f_size 11 (lit "%011o") size) as (d5 & -> & L5 & O5 & V5);
    [by right|done|change (8 ^ Z.of_nat 11) with 8589934592; unfold u32; pose proof (Z.mod_pos_bound size 4294967296); lia|].
  cbv zeta iota beta. set (h5 := write h4 _ _). assert (hdr h5) as H5 by (apply hdr_write; [done|sizes|by apply octal_bytes]).
  destruct (snprintf_octal h5 f_mtime 11 (lit "%011o") 1136102400) as (d6 & -> & L6 & O6 & _); [by right|done|done|].
  cbv zeta iota beta. set (h6 := write h5 _ _). assert (hdr h6) as H6 by (apply hdr_write; [done|sizes|by apply octal_bytes]).
  set (h7 := write h6 156 _). assert (hdr h7) as H7 by (apply hdr_write; [done|sizes|by destruct type; repeat constructor]).
  set (h8 := strlcpy_field h7 f_magic (str "ustar")). assert (hdr h8) as H8 by (apply hdr_write; [done|sizes|by repeat constructor]).
  set (h9 := write h8 263 _). assert (hdr h9) as H9 by (apply hdr_write; [done|sizes|by repeat constructor]).
  set (h10 := strlcpy_field h9 f_gname (str "root")). assert (hdr h10) as H10 by (apply hdr_write; [done|sizes|by repeat constructor]).
  set (h11 := strlcpy_field h10 f_uname (str "root")). assert (hdr h11) as H11 by (apply hdr_write; [done|sizes|by repeat constructor]).
  pose proof (calculate_chksum_range h11 H11) as Hc.
  destruct (snprintf_octal h11 f_chksum 7 (lit "%07o") (calculate_chksum h11)) as (d12 & -> & L12 & O12 & V12);
    [by left|done|rewrite u32_id by lia; change (8 ^ Z.of_nat 7) with 2097152; lia|].
  rewrite u32_id in V12 by lia.
  set (h12 := write h11 _ _). assert (hdr h12) as H12 by (apply hdr_write; [done|sizes|by apply octal_bytes]).
  exists h12. split; [done|]. split; [done|..].
  - unfold h12, h11, h10, h9, h8, h7, h6, h5, h4, h3, h2, strlcpy_field. repeat keep. unfold h1, h0, strlcpy_field.
    rewrite take_ge by sizes. rewrite field_write_eq by sizes.
    change (field f_name (repeat 0 USTAR_HEADER_SIZE)) with (repeat 0 100). rewrite drop_repeat, <- app_assoc. f_equal.
    rewrite length_app. cbn [length]. replace (100 - length t)%nat with (S (100 - (length t + 1))) by lia. done.
  - unfold h12, h11, h10, h9, h8, h7, h6, strlcpy_field. repeat keep. unfold h5. rewrite field_fill; [|done|sizes..].
    apply parse_octal_digits; [done|by destruct d5|done|]. unfold in_u32, u32. apply Z.mod_pos_bound. lia.
  - unfold h12. rewrite field_fill; [|done|sizes..]. unfold f_chksum at 1. cbn [fst].
    rewrite chksum_write; [|apply H11|sizes]. apply parse_octal_digits; [done|by destruct d12|done|].
    unfold in_u32. lia.
  - unfold h12, h11, h10, h9, h8, strlcpy_field. repeat keep. unfold h7. apply (field_fill f_typeflag); [done|sizes..].
  - unfold h12, h11, h10, h9, strlcpy_field. repeat keep. unfold h8, strlcpy_field. by rewrite field_fill; [|done|sizes..].
  - unfold h12, h11, h10, strlcpy_field. repeat keep. unfold h9. apply (field_fill f_version); [done|sizes..].
  - unfold h12, h11, h10, h9, h8, h7, h6, h5, h4, h3, h2, h1, strlcpy_field. repeat keep.
    rewrite field_keep; [done|apply hdr_zero|sizes|unfold disjoint_from; sizes].
Qed.

(** ** Reading a header back *)

Lemma all_zeros_nth h i : is_all_zeros h = true -> nth i h 0 = 0.
Proof.
  revert i. induction h as [|b h IH]; intros [|i]; cbn; try done; destruct (Z.eqb_spec b 0); cbn; try done. intros H. by apply IH.
Qed.

Lemma string_at_app s rest : Forall (fun c => 0 < c < 256) s -> string_at (s ++ 0 :: rest) = s.
Proof.
  induction 1 as [|c s Hc _ IH]; [done|]. cbn. rewrite (proj2 (Z.eqb_neq _ _)) by lia. by rewrite IH.
Qed.

Lemma parse_made h t type size :
  made h t type size -> type <> USTAR_EOF -> (length t <= 99)%nat -> Forall (fun c => 0 < c < 256) t -> sociable t ->
  ustar_parse_header h =
    Ok (match type with
        | USTAR_REGULAR => if u32 size >? 2147483647 then Bad_header "file too large" else Parsed (Some t) type (u32 size)
        | _ => Parsed (Some t) type 0
        end).
Proof.
  intros [Hh Hn Hsz Hck Htf Hmg Hvr Hpf] Hty Hl Hb Hsoc. unfold ustar_parse_header.
  replace (is_all_zeros h) with false.
  2:{ destruct (is_all_zeros h) eqn:E; [|done]. apply (all_zeros_nth h 257) in E.
      pose proof (nth_field f_magic h 0 ltac:(cbn; lia)) as En. rewrite Hmg in En.
      change (nth 257 h 0 = 117) in En. rewrite E in En. done. }
  assert (nth 263 h 0 = 48) as E1 by (etransitivity; [apply (nth_field f_version h 0); cbn; lia|by rewrite Hvr]).
  assert (nth 264 h 0 = 48) as E2 by (etransitivity; [apply (nth_field f_version h 1); cbn; lia|by rewrite Hvr]).
  assert (nth 345 h 0 = 0) as E3 by (etransitivity; [apply (nth_field f_prefix h 0); cbn; lia|by rewrite Hpf]).
  assert (nth 156 h 0 = typeflag_of type) as E4 by (etransitivity; [apply (nth_field f_typeflag h 0); cbn; lia|by rewrite Htf]).
  assert (nth 99 h 0 = 0) as E5.
  { etransitivity; [apply (nth_field f_name h 99); cbn; lia|]. rewrite Hn, app_nth2 by lia. by rewrite nth_repeat_lt by lia. }
  rewrite Hmg, bool_decide_eq_true_2, E1, E2, Hck, (Z.eqb_refl (calculate_chksum h)), E3, E4, E5, Hn by done. cbn [negb orb].
  change (48 =? chr "0") with true. change (0 =? 0) with true. cbn [negb orb].
  assert (string_at (t ++ repeat 0 (100 - length t)) = t) as ->.
  { replace (100 - length t)%nat with (S (99 - length t)) by lia. by apply string_at_app. }
  rewrite strip_sociable by (done || lia). rewrite Hsz.
  destruct type; [|done|congruence]. cbn. by destruct (u32 size >? 2147483647).
Qed.

(** C35: a header that has been composed for a file is parsed as the stripped
    name, the type and the size of the file (0 for a directory); when the
    stripped name is longer than 99 characters nothing is composed.  The
    stripped name does not start with a slash, with a dot and a slash or with
    two dots and a slash, and is neither empty nor the parent directory; only
    prefixes are taken away, so that a name such as [a/../../x] stays as it
    is. *)
Theorem ustar_roundtrip file_name type size :
  Forall (fun c => 0 < c < 256) file_name -> type <> USTAR_EOF -> 0 <= size < 2147483648 ->
  exists t, strip_antisocial_prefixes (S (length file_name)) file_name = Ok t /\ sociable t /\
    (if (99 <? length t)%nat then ustar_make_header file_name type size = Ok None
     else exists h, ustar_make_header file_name type size = Ok (Some h) /\ length h = USTAR_HEADER_SIZE /\
       ustar_parse_header h = Ok (Parsed (Some t) type (match type with USTAR_REGULAR => size | _ => 0 end))).
Proof.
  intros Hn Hty Hs. destruct (strip_run (S (length file_name)) file_name ltac:(lia)) as (t & Ht & Hsoc & Hp).
  exists t. split; [done|]. split; [done|].
  assert (Forall (fun c => 0 < c < 256) t) as Hb.
  { destruct Hp as [->|(p & ->)]; [by repeat constructor|by apply Forall_app in Hn as [_ Hn]]. }
  destruct (Nat.ltb_spec 99 (length t)) as [Hlong|Hl].
  - unfold ustar_make_header. rewrite Ht, (proj2 (Nat.ltb_lt _ _)) by lia. by destruct type.
  - destruct (make_header_run file_name t type size Hty Ht Hl) as (h & Hm & Hd).
    { eapply Forall_impl; [exact Hb|]. unfold byte. intros c Hc. cbn in Hc. lia. }
    exists h. split; [done|]. split; [apply (md_hdr _ _ _ _ Hd)|].
    rewrite (parse_made h t type size) by done. rewrite u32_id by lia.
    rewrite Z.gtb_ltb, (proj2 (Z.ltb_ge _ _)) by lia. by destruct type.
Qed.

Lemma ustar_roundtrip_witness :
  exists h, ustar_make_header (str "../a") USTAR_REGULAR 9 = Ok (Some h) /\ length h = USTAR_HEADER_SIZE /\
    ustar_parse_header h = Ok (Parsed (Some (str "a")) USTAR_REGULAR 9).
Proof.
  destruct (ustar_roundtrip (str "../a") USTAR_REGULAR 9) as (t & Ht & _ & H).
  - repeat constructor.
  - discriminate.
  - lia.
  - injection Ht as <-. exact H.
Defined.

(** ** Damaged headers *)

(** Without wrap-around the checksum is a sum. *)
Fixpoint chksum_sum (h : list Z) (i : nat) : Z :=
  match h with [] => 0 | b :: h' => (if in_chksum_field i then chr " " else b) + chksum_sum h' (S i) end.

Lemma chksum_loop_sum h : forall i c,
  Forall byte h -> 0 <= c -> c + 256 * Z.of_nat (length h) < 4294967296 -> chksum_loop h i c = c + chksum_sum h i.
Proof.
  induction h as [|b h IH]; intros i c Hb Hc Hl; cbn [chksum_loop chksum_sum length] in *; [lia|].
  apply Forall_cons in Hb as [Hb Hh]. unfold byte in Hb.
  assert (0 <= (if in_chksum_field i then chr " " else b) < 256) as Hx by (destruct (in_chksum_field i); [change (chr " ") with 32; lia|lia]).
  rewrite u32_id by lia. rewrite IH by (done || lia). lia.
Qed.

Lemma chksum_sum_insert h k b x : forall i,
  h !! k = Some x -> in_chksum_field (i + k) = false -> chksum_sum (<[k := b]> h) i = chksum_sum h i + (b - x).
Proof.
  revert k. induction h as [|y h IH]; intros [|k] i Hx Hf; try done; simpl in *.
  - injection Hx as ->. rewrite Nat.add_0_r in Hf. rewrite Hf. lia.
  - rewrite (IH k (S i) Hx); [lia|]. by rewrite <- Nat.add_succ_comm in Hf.
Qed.

(** a header of which one byte outside the checksum field has been
    changed is not parsed: an error message is returned. *)
Theorem ustar_detects_damage file_name type size h k x b :
  Forall (fun c => 0 < c < 256) file_name -> ustar_make_header file_name type size = Ok (Some h) ->
  h !! k = Some x -> byte b -> b <> x -> in_chksum_field k = false ->
  exists message, ustar_parse_header (<[k := b]> h) = Ok (Bad_header message).
Proof.
  intros Hn Hm Hk Hb Hne Hf.
  assert (exists t, made h t type size) as (t & [Hh _ _ Hck _ Hmg _ _]).
  { assert (type <> USTAR_EOF) as Hty by (intros ->; done).
    destruct (strip_run (S (length file_name)) file_name ltac:(lia)) as (t & Ht & _ & Hp).
    assert (length t <= 99)%nat as Hl.
    { unfold ustar_make_header in Hm. rewrite Ht in Hm. destruct (Nat.ltb_spec 99 (length t)); [by destruct type|lia]. }
    destruct (make_header_run file_name t type size Hty Ht Hl) as (h' & Hm' & Hd); [|exists t; congruence].
    destruct Hp as [->|(p & ->)]; [by repeat constructor|]. apply Forall_app in Hn as [_ Hn].
    eapply Forall_impl; [exact Hn|]. unfold byte. intros c Hc. cbn in Hc. lia. }
  set (h' := <[k := b]> h). destruct Hh as [Hl Hbytes].
  assert (field f_chksum h' = field f_chksum h) as Hfk.
  { apply list_eq. intros i. rewrite !field_lookup. destruct (decide _) as [Hi|]; [|done]. unfold h'. rewrite list_lookup_insert_ne; [done|].
    intros ->. unfold in_chksum_field in Hf. rewrite andb_false_iff, Nat.leb_gt, Nat.ltb_ge in Hf. lia. }
  assert (calculate_chksum h' <> calculate_chksum h) as Hdiff.
  { unfold calculate_chksum. assert (Forall byte h') by (by apply Forall_insert). assert (length h' = 512%nat) by (unfold h'; by rewrite length_insert).
    rewrite !chksum_loop_sum by (done || lia). unfold h'. rewrite (chksum_sum_insert h k b x 0 Hk Hf). lia. }
  unfold ustar_parse_header. destruct (is_all_zeros h') eqn:Ez.
  { exfalso. assert (forall i, (i < 6)%nat -> i <> (k - 257)%nat \/ (k < 257)%nat -> nth (257 + i) h' 0 = nth i (lit "ustar") 0) as Hnth.
    { intros i Hi Hik. unfold h'. rewrite nth_lookup, list_lookup_insert_ne by lia. rewrite <- nth_lookup.
      etransitivity; [apply (nth_field f_magic h i); cbn; lia|by rewrite Hmg]. }
    destruct (decide (k = 257%nat)) as [->|].
    - specialize (Hnth 1%nat ltac:(lia) ltac:(lia)). rewrite all_zeros_nth in Hnth by done. done.
    - specialize (Hnth 0%nat ltac:(lia) ltac:(lia)). rewrite all_zeros_nth in Hnth by done. done. }
  destruct (negb (bool_decide _)); [eauto|]. destruct (_ || _); [eauto|].
  rewrite Hfk, Hck. rewrite (proj2 (Z.eqb_neq _ _)) by done. eauto.
Qed.

Lemma ustar_detects_damage_witness :
  match ustar_make_header (str "a") USTAR_DIRECTORY 0 with
  | Ok (Some h) => exists message, ustar_parse_header (<[0%nat := 98]> h) = Ok (Bad_header message)
  | _ => False
  end.
Proof.
  destruct (ustar_make_header (str "a") USTAR_DIRECTORY 0) as [[h|]|e] eqn:E; try (vm_compute in E; discriminate E).
  apply (ustar_detects_damage (str "a") USTAR_DIRECTORY 0 h 0 97 98).
  - repeat constructor.
  - exact E.
  - vm_compute in E. injection E as <-. reflexivity.
  - unfold byte. lia.
  - lia.
  - reflexivity.
Defined.

End Ustar.
