(* ===== verification/Archive.v ===== *)
(** * Archives as sequences of sectors

    What a device that holds a ustar archive means, and the sectors that the
    archive of a list of files consists of: the specification of the loops of
    fsutil_extract and fsutil_append in src/src/filesys/fsutil.c, and the round
    trip between the two. *)

From Stdlib Require Import Ascii String.
From S2P Require Import Prelude KState FsState Inode Stdio Ustar.
Import FsState Inode.

Module Archive.
Import Stdio Ustar.

(** ** Reading *)

Inductive item : Type :=
| Dir (name : list Z)
| File (name bytes : list Z).

(** How an archive ends: with a sector of zeros, before [rest]; with a file of
    which there are not all sectors; with a bad header or none. *)
Inductive ending : Type :=
| Eof (rest : list (list Z))
| Truncated (name : list Z) (size : Z)
| Broken.

Fixpoint untar (fuel : nat) (l : list (list Z)) : list item * ending :=
  match fuel with
  | O => ([], Broken)
  | S fuel' =>
      match l with
      | [] => ([], Broken)
      | h :: l' =>
          match ustar_parse_header h with
          | Ok (Parsed _ USTAR_EOF _) => ([], Eof l')
          | Ok (Parsed (Some name) USTAR_DIRECTORY _) =>
              let r := untar fuel' l' in (Dir name :: r.1, r.2)
          | Ok (Parsed (Some name) USTAR_REGULAR size) =>
              let k := Z.to_nat (sectors_of size) in
              if (length l' <? k)%nat then ([], Truncated name size)
              else let r := untar fuel' (drop k l') in
                   (File name (take (Z.to_nat size) (concat (take k l'))) :: r.1, r.2)
          | _ => ([], Broken)
          end
      end
  end.

(** A parser that has no other outcome. *)
Definition header_ok (p : parsed_header) : Prop :=
  match p with
  | Parsed (Some name) USTAR_EOF _ => False
  | Parsed (Some name) _ size => Forall (fun c => c <> 0) name /\ 0 <= size <= 2147483647
  | Parsed None t _ => t = USTAR_EOF
  | Bad_header _ => True
  end.

Lemma octal_loop_pos s : forall ofs v w, octal_loop s ofs v = Some w -> 0 <= v -> 0 <= w.
Proof.
  induction s as [|c s IH]; intros ofs v w; [done|]. cbn [octal_loop]. destruct (_ && _).
  - destruct (_ >? _); [done|]. intros H _. apply (IH _ _ _ H). unfold u32. apply Z.mod_pos_bound. lia.
  - destruct (_ || _); [|done]. destruct (_ <? _)%nat; [|done]. by intros [= ->].
Qed.

Lemma string_at_nonzero bs : Forall (fun c => c <> 0) (string_at bs).
Proof. induction bs as [|b bs IH]; cbn; [done|]. destruct (Z.eqb_spec b 0); by constructor. Qed.

Lemma parse_header_ok h : exists p, ustar_parse_header h = Ok p /\ header_ok p.
Proof.
  unfold ustar_parse_header. destruct (is_all_zeros h); [by eexists|]. destruct (negb (bool_decide _)); [by eexists|].
  destruct (_ || _); [by eexists|]. destruct (parse_octal_field (field f_chksum h)); [|by eexists].
  destruct (negb _); [by eexists|]. destruct (_ || _); [by eexists|]. destruct (negb _ && negb _); [by eexists|].
  set (name := string_at (field f_name h)).
  destruct (strip_run (S (length name)) name ltac:(lia)) as (t & -> & _ & Ht).
  assert (Forall (fun c => c <> 0) t) as Hn.
  { destruct Ht as [->|(p & Hp)]; [by repeat constructor|]. pose proof (string_at_nonzero (field f_name h)) as H.
    fold name in H. rewrite Hp in H. by apply Forall_app in H as [_ H]. }
  destruct (_ =? typeflag_of USTAR_REGULAR).
  - destruct (parse_octal_field (field f_size h)) as [v|] eqn:E; [|by eexists].
    apply octal_loop_pos in E; [|lia]. rewrite Z.gtb_ltb. destruct (Z.ltb_spec 2147483647 v); [by eexists|].
    eexists. split; [done|]. split; [done|lia].
  - eexists. split; [done|]. split; [done|lia].
Qed.

(** ** Writing *)

(** [k] sectors of 512 bytes that hold [bs]. *)
Fixpoint sectors_for (k : nat) (bs : list Z) : list (list Z) :=
  match k with
  | O => []
  | S k' => (take 512 bs ++ repeat 0 (512 - length (take 512 bs))) :: sectors_for k' (drop 512 bs)
  end.

Definition size_of (bs : list Z) : Z := Z.of_nat (length bs).

Definition data_sectors (bs : list Z) : list (list Z) := sectors_for (Z.to_nat (sectors_of (size_of bs))) bs.

(** The sectors of one file. *)
Definition tar_file (name bs : list Z) : option (list (list Z)) :=
  match ustar_make_header name USTAR_REGULAR (size_of bs) with
  | Ok (Some h) => Some (h :: data_sectors bs)
  | _ => None
  end.

Fixpoint tar (files : list (list Z * list Z)) : option (list (list Z)) :=
  match files with
  | [] => Some []
  | (name, bs) :: rest =>
      match tar_file name bs, tar rest with
      | Some l, Some l' => Some (l ++ l')
      | _, _ => None
      end
  end.

(** The name of a file in the archive. *)
Definition stripped (name : list Z) : list Z :=
  match strip_antisocial_prefixes (S (length name)) name with Ok t => t | Err _ => name end.

Lemma sectors_for_length k bs : length (sectors_for k bs) = k.
Proof. revert bs. induction k as [|k IH]; intros bs; cbn; [done|]. by rewrite IH. Qed.

Lemma sectors_for_512 k bs : Forall (fun x => length x = 512%nat) (sectors_for k bs).
Proof.
  revert bs. induction k as [|k IH]; intros bs; cbn [sectors_for]; constructor; [|done].
  rewrite length_app, repeat_length, length_take. lia.
Qed.

Lemma sectors_for_concat k : forall bs, (length bs <= 512 * k)%nat -> take (length bs) (concat (sectors_for k bs)) = bs.
Proof.
  induction k as [|k IH]; intros bs Hl; cbn [sectors_for concat].
  { destruct bs; [done|]. cbn in Hl. lia. }
  destruct (Nat.le_gt_cases (length bs) 512) as [Hs|Hs].
  - rewrite (take_ge bs) by lia. rewrite <- app_assoc, take_app_length. done.
  - rewrite length_take, Nat.min_l, Nat.sub_diag, app_nil_r by lia.
    rewrite take_app, length_take, Nat.min_l, take_take, Nat.min_r by lia.
    pose proof (IH (drop 512 bs)) as E. rewrite length_drop in E. rewrite E by lia. apply take_drop.
Qed.

Lemma sectors_enough size : 0 <= size -> size <= 512 * sectors_of size < size + 512.
Proof.
  intros H. unfold sectors_of. pose proof (Z.div_mod (size + 511) 512 ltac:(lia)).
  pose proof (Z.mod_pos_bound (size + 511) 512 ltac:(lia)). lia.
Qed.

Lemma data_sectors_concat bs : take (length bs) (concat (data_sectors bs)) = bs.
Proof.
  apply sectors_for_concat. pose proof (sectors_enough (size_of bs) ltac:(unfold size_of; lia)). unfold size_of in *. lia.
Qed.

(** ** Round trip *)

(** A file that can be archived. *)
Definition archivable (f : list Z * list Z) : Prop :=
  Forall (fun c => 0 < c < 256) f.1 /\ size_of f.2 <= 2147483647 /\ (length (stripped f.1) <= 99)%nat.

Definition as_item (f : list Z * list Z) : item := File (stripped f.1) f.2.

Lemma tar_file_ok name bs :
  archivable (name, bs) ->
  exists h, tar_file name bs = Some (h :: data_sectors bs) /\ length h = 512%nat /\
    ustar_make_header name USTAR_REGULAR (size_of bs) = Ok (Some h) /\
    ustar_parse_header h = Ok (Parsed (Some (stripped name)) USTAR_REGULAR (size_of bs)).
Proof.
  intros (Hn & Hs & Hl). cbn [fst snd] in *. unfold stripped in *.
  destruct (strip_run (S (length name)) name ltac:(lia)) as (t & Ht & Hsoc & Hp). rewrite Ht in *.
  assert (Forall (fun c => 0 < c < 256) t) as Hb.
  { destruct Hp as [->|(p & ->)]; [by repeat constructor|by apply Forall_app in Hn as [_ Hn]]. }
  destruct (make_header_run name t USTAR_REGULAR (size_of bs)) as (h & Hm & Hd); [done|done|done| |].
  { eapply Forall_impl; [exact Hb|]. unfold byte. intros c Hc. cbn in Hc. lia. }
  exists h. unfold tar_file. rewrite Hm. split; [done|]. split; [apply (md_hdr _ _ _ _ Hd)|]. split; [done|].
  rewrite (parse_made h t USTAR_REGULAR (size_of bs)) by done.
  rewrite u32_id by (unfold size_of in *; lia). by rewrite Z.gtb_ltb, (proj2 (Z.ltb_ge _ _)) by lia.
Qed.

Lemma tar_ok files : Forall archivable files -> exists l, tar files = Some l.
Proof.
  induction 1 as [|[name bs] files Hf _ (l & IH)]; [by exists []|]. cbn.
  destruct (tar_file_ok name bs Hf) as (h & -> & _). rewrite IH. by eexists.
Qed.

(** Reading one file of an archive. *)
Lemma untar_file name bs rest fuel :
  archivable (name, bs) -> exists h, tar_file name bs = Some (h :: data_sectors bs) /\
    untar (S fuel) ((h :: data_sectors bs) ++ rest) = let r := untar fuel rest in (as_item (name, bs) :: r.1, r.2).
Proof.
  intros Hf. destruct (tar_file_ok name bs Hf) as (h & Ht & _ & _ & Hp). exists h. split; [done|].
  cbn [app untar]. rewrite Hp.
  assert (length (data_sectors bs) = Z.to_nat (sectors_of (size_of bs))) as E by apply sectors_for_length.
  rewrite length_app, E, (proj2 (Nat.ltb_ge _ _)) by lia.
  rewrite <- E, take_app_length, drop_app_length. unfold as_item. cbn [fst snd].
  unfold size_of. rewrite Nat2Z.id. by rewrite data_sectors_concat.
Qed.

Lemma untar_app files : forall l rest fuel,
  Forall archivable files -> tar files = Some l -> (length files < fuel)%nat ->
  exists fuel', (fuel - length files = S fuel')%nat /\
    untar fuel (l ++ rest) = let r := untar (S fuel') rest in (map as_item files ++ r.1, r.2).
Proof.
  induction files as [|[name bs] files IH]; intros l rest fuel Hf Ht Hfuel; cbn [tar length map app] in *.
  - injection Ht as <-. destruct fuel as [|fuel]; [lia|]. exists fuel. split; [lia|].
    cbn [app]. by destruct (untar (S fuel) rest).
  - apply Forall_cons in Hf as [Hf Hrest]. destruct fuel as [|fuel]; [lia|].
    destruct (untar_file name bs (match tar files with Some l' => l' | None => [] end ++ rest) fuel Hf) as (h & Eh & Eu).
    rewrite Eh in Ht. destruct (tar files) as [l'|] eqn:El; [|done]. injection Ht as <-.
    destruct (IH l' rest fuel Hrest eq_refl ltac:(lia)) as (fuel' & E1 & E2). exists fuel'. split; [lia|].
    rewrite (app_comm_cons _ _ h), <- app_assoc, Eu, E2. cbv zeta. cbn [fst snd]. done.
Qed.

(** The sector behind the last file. *)
Lemma parse_zeros : ustar_parse_header (repeat 0 512) = Ok (Parsed None USTAR_EOF 0).
Proof. vm_compute. reflexivity. Qed.

Lemma parse_marker b : b <> 0 -> ustar_parse_header (repeat 0 511 ++ [b]) = Ok (Bad_header "not a ustar archive").
Proof.
  intros Hb. unfold ustar_parse_header.
  assert (is_all_zeros (repeat 0 511 ++ [b]) = false) as ->.
  { destruct (is_all_zeros _) eqn:E; [|done]. apply (all_zeros_nth _ 511) in E.
    rewrite app_nth2 in E by (rewrite repeat_length; lia). rewrite repeat_length in E. cbn in E. congruence. }
  assert (field f_magic (repeat 0 511 ++ [b]) = repeat 0 6) as ->; [|done].
  unfold field, f_magic. cbn [fst snd]. rewrite drop_app_le by (rewrite repeat_length; lia).
  rewrite drop_repeat, take_app_le by (rewrite repeat_length; lia). reflexivity.
Qed.

End Archive.
