(* ===== verification/FsUtil.v ===== *)
(** * The file-system actions of the kernel command line

    src/src/filesys/fsutil.c: listing, printing and deleting files, and
    copying them from and to a scratch device in the format of lib/ustar.c.
    The state is that of the file system, the sectors of the scratch device,
    the two static variables [sector] and the console.  [argv[1]] is the
    argument [file_name]; [e] is what the local variables of the directory
    functions held.  A [PANIC] carries no message.  [free] has no effect on
    this state. *)

From Stdlib Require Import Ascii String.
From S2P Require Import Prelude KState FsState Inode FileOps Directory Stdio Ustar.
Import FsState Inode FileOps Directory.

Module FsUtil.
Import Stdio Ustar.

Record st : Type := mkSt {
  fsys : fs;
  scratch : option (list (list Z));  (* the device with the role BLOCK_SCRATCH *)
  extract_sector : Z;  (* [sector] of fsutil_extract *)
  append_sector : Z;  (* [sector] of fsutil_append *)
  console : list Z
}.

Definition set_fsys v s := mkSt v (scratch s) (extract_sector s) (append_sector s) (console s).
Definition set_scratch v s := mkSt (fsys s) v (extract_sector s) (append_sector s) (console s).
Definition set_extract v s := mkSt (fsys s) (scratch s) v (append_sector s) (console s).
Definition set_append v s := mkSt (fsys s) (scratch s) (extract_sector s) v (console s).
Definition set_console v s := mkSt (fsys s) (scratch s) (extract_sector s) (append_sector s) v.

Definition on_fs {A} (m : M fs A) : M st A :=
  fun s => match m (fsys s) with Ok (a, f) => Ok (a, set_fsys f s) | Err e => Err e end.

Definition of_res {A} (r : res A) : M st A := fun s => match r with Ok a => Ok (a, s) | Err e => Err e end.

Definition PANIC {A} : M st A := fail Kernel_panic.

Definition print (text : list Z) : M st unit := modify (fun s => set_console (console s ++ text) s).

Definition kprintf (format : list Z) (args : list arg) : M st unit :=
  text <- of_res (printf 120 format args) ;; print text.

(** ** The scratch device *)

Definition sectors : M st (list (list Z)) := gets_opt scratch.

Definition scratch_size : M st Z := l <- sectors ;; ret (Z.of_nat (length l)).

Definition scratch_check (sec : Z) : M st unit := n <- scratch_size ;; if sec >=? n then PANIC else ret tt.

Definition scratch_read (sec : Z) : M st (list Z) :=
  scratch_check sec ;;; l <- sectors ;; gets_opt (fun _ => l !! Z.to_nat sec).

(** [buffer] is the 512 bytes that are written. *)
Definition scratch_write (sec : Z) (buffer : list Z) : M st unit :=
  scratch_check sec ;;; l <- sectors ;; modify (set_scratch (Some (<[Z.to_nat sec := buffer]> l))).

(** [sector++] *)
Definition next_extract : M st Z := sec <- gets extract_sector ;; modify (set_extract (u32 (sec + 1))) ;;; ret sec.
Definition next_append : M st Z := sec <- gets append_sector ;; modify (set_append (u32 (sec + 1))) ;;; ret sec.

Definition zeros : list Z := repeat 0 512.

(** ** Listing, printing, deleting *)

Fixpoint ls_loop (fuel : nat) (d : Z) (e : list Z) : M st unit :=
  match fuel with
  | O => fail Out_of_fuel
  | S fuel' =>
      r <- on_fs (dir_readdir d e) ;;
      match r with
      | Some name => kprintf (lit "%s
") [Str (Some name)] ;;; ls_loop fuel' d e
      | None => ret tt
      end
  end.

Definition fsutil_ls (fuel : nat) (e : list Z) : M st unit :=
  kprintf (lit "Files in the root directory:
") [] ;;;
  d <- on_fs dir_open_root ;;
  if d =? NULL then PANIC
  else
    ls_loop fuel d e ;;;
    kprintf (lit "End of listing.
") [].

Definition PGSIZE : Z := 4096.

Fixpoint cat_loop (fuel : nat) (f : Z) (buffer : list Z) : M st unit :=
  match fuel with
  | O => fail Out_of_fuel
  | S fuel' =>
      pos <- on_fs (file_tell f) ;;
      r <- on_fs (file_read f buffer PGSIZE) ;;
      if r.1 =? 0 then ret tt
      else
        let bytes := take (Z.to_nat r.1) r.2 in
        text <- of_res (hex_dump (S (length bytes)) (u32 pos) bytes true) ;;
        print text ;;;
        cat_loop fuel' f r.2
  end.

(** [page] is what [palloc_get_page] returns: the bytes of the page. *)
Definition fsutil_cat (fuel : nat) (file_name e : list Z) (page : option (list Z)) : M st unit :=
  kprintf (lit "Printing '%s' to the console...
") [Str (Some file_name)] ;;;
  f <- on_fs (filesys_open file_name e) ;;
  if f =? NULL then PANIC
  else
    match page with
    | None => PANIC
    | Some buffer => cat_loop fuel f buffer ;;; on_fs (file_close f)
    end.

Definition fsutil_rm (file_name e : list Z) : M st unit :=
  kprintf (lit "Deleting '%s'...
") [Str (Some file_name)] ;;;
  ok <- on_fs (filesys_remove file_name e) ;;
  if negb ok then PANIC else ret tt.

(** ** From the scratch device into the file system *)

Definition chunk (size : Z) : Z := if size >? 512 then 512 else size.

(** The loop [while (size > 0)]. *)
Fixpoint copy_in (fuel : nat) (dst size : Z) : M st unit :=
  match fuel with
  | O => fail Out_of_fuel
  | S fuel' =>
      if size >? 0 then
        sec <- next_extract ;;
        data <- scratch_read sec ;;
        n <- on_fs (file_write dst data (chunk size)) ;;
        if negb (n =? chunk size) then PANIC else copy_in fuel' dst (size - chunk size)
      else ret tt
  end.

(** What is done for a regular file of the archive. *)
Definition put_file (file_name e : list Z) (size : Z) : M st unit :=
  kprintf (lit "Putting '%s' into the file system...
") [Str (Some file_name)] ;;;
  ok <- on_fs (filesys_create file_name e size) ;;
  if negb ok then PANIC
  else
    dst <- on_fs (filesys_open file_name e) ;;
    if dst =? NULL then PANIC
    else copy_in (S (Z.to_nat (sectors_of size))) dst size ;;; on_fs (file_close dst).

Fixpoint extract_loop (fuel : nat) (e : list Z) : M st unit :=
  match fuel with
  | O => fail Out_of_fuel
  | S fuel' =>
      sec <- next_extract ;;
      header <- scratch_read sec ;;
      r <- of_res (ustar_parse_header header) ;;
      match r with
      | Bad_header _ => PANIC
      | Parsed _ USTAR_EOF _ => ret tt
      | Parsed (Some file_name) USTAR_DIRECTORY _ =>
          kprintf (lit "ignoring directory %s
") [Str (Some file_name)] ;;; extract_loop fuel' e
      | Parsed (Some file_name) USTAR_REGULAR size => put_file file_name e size ;;; extract_loop fuel' e
      | Parsed None _ _ => fail Bad_access
      end
  end.

Definition fsutil_extract (e : list Z) : M st unit :=
  header <- on_fs malloc ;;
  data <- on_fs malloc ;;
  if (header =? NULL) || (data =? NULL) then PANIC
  else
    src <- gets scratch ;;
    match src with
    | None => PANIC
    | Some l =>
        kprintf (lit "Extracting ustar archive from scratch device into file system...
") [] ;;;
        extract_loop (S (length l)) e ;;;
        kprintf (lit "Erasing ustar archive...
") [] ;;;
        scratch_write 0 zeros ;;;
        scratch_write 1 zeros
    end.

(** ** From the file system to the scratch device *)

Fixpoint copy_out (fuel : nat) (src size : Z) (buffer : list Z) : M st unit :=
  match fuel with
  | O => fail Out_of_fuel
  | S fuel' =>
      if size >? 0 then
        sec <- gets append_sector ;;
        n <- scratch_size ;;
        if sec >=? n then PANIC
        else
          r <- on_fs (file_read src buffer (chunk size)) ;;
          if negb (r.1 =? chunk size) then PANIC
          else
            let buffer := take (Z.to_nat (chunk size)) r.2 ++ repeat 0 (512 - Z.to_nat (chunk size)) in
            sec <- next_append ;;
            scratch_write sec buffer ;;;
            copy_out fuel' src (size - chunk size) buffer
      else ret tt
  end.

(** [behind] is the byte of memory behind the 512 bytes of the buffer. *)
Definition fsutil_append (file_name e : list Z) (behind : Z) : M st unit :=
  kprintf (lit "Appending '%s' to ustar archive on scratch device...
") [Str (Some file_name)] ;;;
  p <- on_fs malloc ;;
  if p =? NULL then PANIC
  else
    src <- on_fs (filesys_open file_name e) ;;
    if src =? NULL then PANIC
    else
      size <- on_fs (file_length src) ;;
      dst <- gets scratch ;;
      match dst with
      | None => PANIC
      | Some _ =>
          h <- of_res (ustar_make_header file_name USTAR_REGULAR size) ;;
          match h with
          | None => PANIC
          | Some buffer =>
              sec <- next_append ;;
              scratch_write sec buffer ;;;
              copy_out (S (Z.to_nat (sectors_of size))) src size buffer ;;;
              sec <- gets append_sector ;;
              scratch_write sec zeros ;;;
              scratch_write sec (tail zeros ++ [behind]) ;;;
              on_fs (file_close src)
          end
      end.

End FsUtil.
