(* ===== verification/Random.v ===== *)
(** * Pseudo-random numbers (src/src/lib/random.c)

    The static variables of the generator are the state of the monad.  An
    index outside [s] is a bad access. *)

From stdpp Require Import sorting.
From S2P Require Import Prelude DListOps.

Module Random.

Record prng : Type := mkPrng { s : list Z; s_i : Z; s_j : Z; inited : bool }.

Definition with_s (v : list Z) (g : prng) : prng := mkPrng v (s_i g) (s_j g) (inited g).

(** ** Operations *)

Definition read_s (i : Z) : M prng Z := gets_opt (fun g => s g !! Z.to_nat i).

Definition swap_byte (a b : Z) : M prng unit :=
  t <- read_s a ;; u <- read_s b ;;
  modify (fun g => with_s (<[Z.to_nat b := t]> (<[Z.to_nat a := u]> (s g))) g).

(** Byte [k] of the seed, which is in memory with its low byte first. *)
Definition seedp (seed k : Z) : Z := u8 (Z.shiftr seed (8 * k)).

(** The loop from [i] on, with [n] rounds left. *)
Fixpoint init_loop (n : nat) (seed i j : Z) : M prng unit :=
  match n with
  | O => ret tt
  | S n' =>
      x <- read_s i ;;
      let j := u8 (j + (x + seedp seed (i mod 4))) in
      swap_byte i j ;;; init_loop n' seed (i + 1) j
  end.

Definition random_init (seed : Z) : M prng unit :=
  modify (with_s (Z.of_nat <$> seq 0 256)) ;;;
  init_loop 256 seed 0 0 ;;;
  modify (fun g => mkPrng (s g) 0 0 true).

Definition random_byte : M prng Z :=
  modify (fun g => mkPrng (s g) (u8 (s_i g + 1)) (s_j g) (inited g)) ;;;
  i <- gets s_i ;;
  x <- read_s i ;;
  modify (fun g => mkPrng (s g) (s_i g) (u8 (s_j g + x)) (inited g)) ;;;
  j <- gets s_j ;;
  swap_byte i j ;;;
  a <- read_s i ;; b <- read_s j ;;
  read_s (u8 (a + b)).

Fixpoint bytes_loop (size : nat) : M prng (list Z) :=
  match size with
  | O => ret []
  | S size' => b <- random_byte ;; rest <- bytes_loop size' ;; ret (b :: rest)
  end.

Definition random_bytes (size : nat) : M prng (list Z) :=
  b <- gets inited ;;
  (if negb b then random_init 0 else ret tt) ;;;
  bytes_loop size.

Fixpoint of_bytes (bs : list Z) : Z :=
  match bs with [] => 0 | b :: bs' => b + 256 * of_bytes bs' end.

Definition random_ulong : M prng Z := bs <- random_bytes 4 ;; ret (of_bytes bs).

Definition prng0 : prng := mkPrng (repeat 0 256) 0 0 false.

(** ** The invariant: [s] is a permutation of the bytes *)

Definition is_perm (l : list Z) : Prop := l ≡ₚ Z.of_nat <$> seq 0 256.

Record inv (g : prng) : Prop := {
  inv_perm : is_perm (s g);
  inv_i : 0 <= s_i g < 256;
  inv_j : 0 <= s_j g < 256
}.

Lemma is_perm_length l : is_perm l -> length l = 256%nat.
Proof. intros H. apply Permutation_length in H. by rewrite length_fmap, length_seq in H. Qed.

Lemma is_perm_byte l b : is_perm l -> b ∈ l -> 0 <= b < 256.
Proof. intros H Hb. unfold is_perm in H. rewrite H in Hb. apply list_elem_of_fmap in Hb as (k & -> & Hk). apply elem_of_seq in Hk. lia. Qed.

Lemma read_s_run g i : is_perm (s g) -> 0 <= i < 256 -> exists b, read_s i g = Ok (b, g) /\ s g !! Z.to_nat i = Some b /\ 0 <= b < 256.
Proof.
  intros Hp Hi. destruct (lookup_lt_is_Some_2 (s g) (Z.to_nat i)) as (b & Hb); [rewrite is_perm_length by done; lia|].
  exists b. unfold read_s, gets_opt. rewrite Hb. split; [done|]. split; [done|].
  eapply is_perm_byte; [done|]. by eapply list_elem_of_lookup_2.
Qed.

(** Swapping two elements of a list permutes it. *)
Lemma swap_byte_perm (l : list Z) a b x y :
  l !! a = Some x -> l !! b = Some y -> <[b := x]> (<[a := y]> l) ≡ₚ l.
Proof.
  intros Ha Hb. destruct (decide (a = b)) as [->|Hne].
  { rewrite list_insert_insert_eq. rewrite list_insert_id; [done|congruence]. }
  apply Permutation_inj. split; [by rewrite !length_insert|].
  exists (fun i => if decide (i = a) then b else if decide (i = b) then a else i). split.
  - intros i j. repeat destruct (decide _); congruence.
  - intros i. pose proof (lookup_lt_Some _ _ _ Ha). pose proof (lookup_lt_Some _ _ _ Hb).
    destruct (decide (i = a)) as [->|].
    + rewrite list_lookup_insert_ne by done. by rewrite list_lookup_insert_eq.
    + destruct (decide (i = b)) as [->|].
      * rewrite list_lookup_insert_eq by (by rewrite length_insert). done.
      * by rewrite !list_lookup_insert_ne by done.
Qed.

Lemma swap_byte_run g a b :
  is_perm (s g) -> 0 <= a < 256 -> 0 <= b < 256 ->
  exists l, swap_byte a b g = Ok (tt, with_s l g) /\ is_perm l.
Proof.
  intros Hp Ha Hb. destruct (read_s_run g a Hp Ha) as (x & Hx & Lx & _), (read_s_run g b Hp Hb) as (y & Hy & Ly & _).
  unfold swap_byte. mrun Hx. mrun Hy. eexists. split; [done|]. unfold is_perm. rewrite swap_byte_perm; done.
Qed.

Lemma u8_bound z : 0 <= u8 z < 256.
Proof. apply Z.mod_pos_bound. lia. Qed.

Lemma init_loop_run n : forall g seed i j,
  is_perm (s g) -> 0 <= i -> i + Z.of_nat n <= 256 ->
  exists l, init_loop n seed i j g = Ok (tt, with_s l g) /\ is_perm l.
Proof.
  induction n as [|n IH]; intros g seed i j Hp Hi Hn; cbn [init_loop].
  { exists (s g). split; [by destruct g|done]. }
  destruct (read_s_run g i Hp ltac:(lia)) as (x & Hx & _ & _). mrun Hx.
  destruct (swap_byte_run g i (u8 (j + (x + seedp seed (i mod 4)))) Hp ltac:(lia) ltac:(apply u8_bound)) as (l & Hs & Hl).
  mrun Hs. destruct (IH (with_s l g) seed (i + 1) (u8 (j + (x + seedp seed (i mod 4)))) Hl) as (l2 & Hr & Hl2); [lia|lia|].
  exists l2. by rewrite Hr.
Qed.

Lemma random_init_run seed g : exists g', random_init seed g = Ok (tt, g') /\ inv g' /\ inited g' = true.
Proof.
  unfold random_init. mnorm.
  destruct (init_loop_run 256 (with_s (Z.of_nat <$> seq 0 256) g) seed 0 0) as (l & Hr & Hl); [apply Permutation_refl|lia|lia|].
  mrun Hr. eexists. split; [done|]. split; [|done]. split; [done|cbn; lia|cbn; lia].
Qed.

Lemma random_byte_run g : inv g -> exists b g', random_byte g = Ok (b, g') /\ inv g' /\ inited g' = inited g /\ 0 <= b < 256.
Proof.
  intros [Hp _ Hj]. unfold random_byte. mnorm. cbn [s_i].
  set (i := u8 (s_i g + 1)). pose proof (u8_bound (s_i g + 1)) as Hi. fold i in Hi.
  destruct (read_s_run (mkPrng (s g) i (s_j g) (inited g)) i Hp Hi) as (x & Hx & _ & _). mrun Hx. mnorm. cbn [s s_i s_j inited].
  set (j := u8 (s_j g + x)). pose proof (u8_bound (s_j g + x)) as Hj2. fold j in Hj2.
  destruct (swap_byte_run (mkPrng (s g) i j (inited g)) i j Hp Hi Hj2) as (l & Hs & Hl). mrun Hs. set (g' := with_s l _).
  destruct (read_s_run g' i Hl Hi) as (a & Ha & _ & _). mrun Ha.
  destruct (read_s_run g' j Hl Hj2) as (b & Hb & _ & _). mrun Hb.
  destruct (read_s_run g' (u8 (a + b)) Hl (u8_bound _)) as (c & Hc & _ & Rc).
  exists c, g'. split; [done|]. split; [|done]. by split.
Qed.

Lemma bytes_loop_run n : forall g, inv g ->
  exists bs g', bytes_loop n g = Ok (bs, g') /\ inv g' /\ inited g' = inited g /\ length bs = n /\ Forall (fun b => 0 <= b < 256) bs.
Proof.
  induction n as [|n IH]; intros g Hg; cbn [bytes_loop]; [exists [], g; repeat split; first [apply Hg|constructor]|].
  destruct (random_byte_run g Hg) as (b & g1 & H1 & Hg1 & Hi1 & Hb). mrun H1.
  destruct (IH g1 Hg1) as (bs & g2 & H2 & Hg2 & Hi2 & Hl & Hbs). mrun H2.
  exists (b :: bs), g2. split; [done|]. split; [done|]. split; [congruence|]. split; [cbn; lia|by constructor].
Qed.

(** The state as the program starts, or after any call. *)
Definition usable (g : prng) : Prop := inited g = true -> inv g.

(** in every state that the program can be in, asking for bytes succeeds
    and gives as many bytes as asked for; the table of the generator stays a
    permutation of the 256 byte values, also when the generator initializes
    itself. *)
Theorem random_bytes_ok size g :
  usable g ->
  exists bs g', random_bytes size g = Ok (bs, g') /\ length bs = size /\ Forall (fun b => 0 <= b < 256) bs /\
    inited g' = true /\ inv g'.
Proof.
  intros Hu. unfold random_bytes. mnorm.
  assert (exists g1, (if negb (inited g) then random_init 0 else ret tt) g = Ok (tt, g1) /\ inv g1 /\ inited g1 = true) as (g1 & H1 & Hi & Hd).
  { destruct (inited g) eqn:E; [exists g; by repeat split; try apply Hu|apply random_init_run]. }
  mrun H1. destruct (bytes_loop_run size g1 Hi) as (bs & g2 & -> & Hi2 & Hd2 & Hl & Hb).
  exists bs, g2. split; [done|]. split; [done|]. split; [done|]. split; [congruence|done].
Qed.

Lemma random_bytes_ok_witness :
  exists bs g', random_bytes 3 prng0 = Ok (bs, g') /\ length bs = 3%nat /\ Forall (fun b => 0 <= b < 256) bs /\
    inited g' = true /\ inv g'.
Proof. apply (random_bytes_ok 3 prng0). unfold usable. discriminate. Defined.

End Random.
