(* ===== verification/Rtc.v ===== *)
(** * The clock hardware (src/src/devices/rtc.c, pit.c)

    The real-time clock is read through registers that change while they are
    read: [cmos k index] is the byte that read number [k] finds in register
    [index].  The programmable timer is what is written to its ports. *)

From S2P Require Import Prelude.

Module Rtc.

(** ** The real-time clock *)

Definition RTC_REG_SEC : Z := 0.
Definition RTC_REG_MIN : Z := 2.
Definition RTC_REG_HOUR : Z := 4.
Definition RTC_REG_MDAY : Z := 7.
Definition RTC_REG_MON : Z := 8.
Definition RTC_REG_YEAR : Z := 9.

Definition bcd_to_bin (x : Z) : Z := Z.land x 0x0f + Z.shiftr x 4 * 10.

Definition days_per_month : list Z := [31; 28; 31; 30; 31; 30; 31; 31; 30; 31; 30; 31].

(** The components of the time. *)
Record components : Type := mkTime { sec : Z; min : Z; hour : Z; mday : Z; mon : Z; year : Z }.

Section clock.
Context (cmos : nat -> Z -> Z).

(** The state is the number of reads there have been. *)
Definition cmos_read (index : Z) : M nat Z :=
  fun k => Ok (u8 (cmos k index), S k).

Definition read_bin (index : Z) : M nat Z := x <- cmos_read index ;; ret (bcd_to_bin x).

(** The [do] loop; a clock that is never stable runs out of fuel. *)
Fixpoint read_time (fuel : nat) : M nat components :=
  match fuel with
  | O => fail Out_of_fuel
  | S fuel' =>
      s <- read_bin RTC_REG_SEC ;;
      mi <- read_bin RTC_REG_MIN ;;
      h <- read_bin RTC_REG_HOUR ;;
      d <- read_bin RTC_REG_MDAY ;;
      mo <- read_bin RTC_REG_MON ;;
      y <- read_bin RTC_REG_YEAR ;;
      s' <- read_bin RTC_REG_SEC ;;
      if negb (s =? s') then read_time fuel' else ret (mkTime s mi h d mo y)
  end.

(** The loop over the months, from [i] on. *)
Fixpoint months_loop (n : nat) (i time : Z) : M nat Z :=
  match n with
  | O => ret time
  | S n' =>
      d <- gets_opt (fun _ => days_per_month !! Z.to_nat (i - 1)) ;;
      months_loop n' (i + 1) (u32 (time + s32 (d * 24 * 60 * 60)))
  end.

(** [time_t] is an unsigned long; the products are ints. *)
Definition to_seconds (c : components) : M nat Z :=
  let y := (if year c <? 70 then year c + 100 else year c) - 70 in
  let time := u32 (s32 ((y * 365 + Z.quot (y - 1) 4) * 24 * 60 * 60)) in
  time <- months_loop (Z.to_nat (mon c)) 1 time ;;
  let time := if (mon c >? 2) && (Z.rem y 4 =? 0) then u32 (time + 24 * 60 * 60) else time in
  let time := u32 (time + (mday c - 1) * 24 * 60 * 60) in
  let time := u32 (time + hour c * 60 * 60) in
  let time := u32 (time + min c * 60) in
  ret (u32 (time + sec c)).

Definition rtc_get_time (fuel : nat) : M nat Z := c <- read_time fuel ;; to_seconds c.

End clock.

(** ** The interval timer *)

Definition u16 (z : Z) : Z := z mod 65536.

Definition PIT_HZ : Z := 1193180.
Definition PIT_PORT_CONTROL : Z := 0x43.
Definition PIT_PORT_COUNTER (channel : Z) : Z := 0x40 + channel.

Definition pit_count (frequency : Z) : Z :=
  if frequency <? 19 then 0
  else if frequency >? PIT_HZ then 2
  else u16 (Z.quot (PIT_HZ + Z.quot frequency 2) frequency).

(** The state is the list of the bytes that have been written to ports. *)
Definition outb (port data : Z) : M (list (Z * Z)) unit := modify (fun l => l ++ [(port, u8 data)]).

Definition pit_configure_channel (channel mode frequency : Z) : M (list (Z * Z)) unit :=
  ASSERT ((channel =? 0) || (channel =? 2)) ;;;
  ASSERT ((mode =? 2) || (mode =? 3)) ;;;
  let count := pit_count frequency in
  outb PIT_PORT_CONTROL (Z.lor (Z.lor (Z.shiftl channel 6) 0x30) (Z.shiftl mode 1)) ;;;
  outb (PIT_PORT_COUNTER channel) count ;;;
  outb (PIT_PORT_COUNTER channel) (Z.shiftr count 8).

(** ** The calendar *)

Definition leap (y : Z) : bool := (y mod 4 =? 0) && negb (y mod 100 =? 0) || (y mod 400 =? 0).

Definition month_length (y m : Z) : Z :=
  nth (Z.to_nat (m - 1)) days_per_month 0 + if (m =? 2) && leap y then 1 else 0.

Definition sum (l : list Z) : Z := foldr Z.add 0 l.

(** Days from January 1, 1970 to the first day of a month. *)
Definition days_before (y m : Z) : Z :=
  sum (map (fun y => if leap y then 366 else 365) (seqZ 1970 (y - 1970))) + sum (map (month_length y) (seqZ 1 (m - 1))).

(** Seconds since the epoch. *)
Definition unix_time (y m d h mi s : Z) : Z := (((days_before y m + d - 1) * 24 + h) * 60 + mi) * 60 + s.

(** What a clock that stands still shows at a time. *)
Record shows (cmos : nat -> Z -> Z) (y m d h mi s : Z) : Prop := {
  sh_reg : forall k, bcd_to_bin (u8 (cmos k RTC_REG_SEC)) = s /\ bcd_to_bin (u8 (cmos k RTC_REG_MIN)) = mi /\
    bcd_to_bin (u8 (cmos k RTC_REG_HOUR)) = h /\ bcd_to_bin (u8 (cmos k RTC_REG_MDAY)) = d /\
    bcd_to_bin (u8 (cmos k RTC_REG_MON)) = m /\ bcd_to_bin (u8 (cmos k RTC_REG_YEAR)) = y mod 100;
  sh_year : 1970 <= y <= 2037;
  sh_mon : 1 <= m <= 12;
  sh_mday : 1 <= d <= month_length y m;
  sh_hour : 0 <= h < 24;
  sh_min : 0 <= mi < 60;
  sh_sec : 0 <= s < 60
}.

(** The days that [rtc_get_time] counts up to a month, for all years and
    months at once. *)
Definition counted (y m : Z) : Z :=
  let y := y - 1970 in
  y * 365 + Z.quot (y - 1) 4 + sum (take (Z.to_nat m) days_per_month) + if (m >? 2) && (Z.rem y 4 =? 0) then 1 else 0.

Definition year_months : list (Z * Z) := list_prod (seqZ 1970 68) (seqZ 1 12).

Lemma counted_ok y m : 1970 <= y <= 2037 -> 1 <= m <= 12 -> 27 <= counted y m - days_before y m <= 32 /\ 0 <= counted y m <= 24836.
Proof.
  intros Hy Hm.
  assert (Forall (fun x => 27 <= counted x.1 x.2 - days_before x.1 x.2 <= 32 /\ 0 <= counted x.1 x.2 <= 24836) year_months) as H.
  { apply (bool_decide_eq_true_1 (Forall _ _)). vm_compute. reflexivity. }
  rewrite Forall_forall in H. apply (H (y, m)). apply list_elem_of_In, in_prod; apply list_elem_of_In, elem_of_seqZ; lia.
Qed.

Lemma month_length_le y m : 1 <= m <= 12 -> 28 <= month_length y m <= 31.
Proof.
  intros Hm. unfold month_length. assert (m = 1 \/ m = 2 \/ m = 3 \/ m = 4 \/ m = 5 \/ m = 6 \/ m = 7 \/ m = 8 \/ m = 9 \/ m = 10 \/ m = 11 \/ m = 12) as Hc by lia.
  destruct_or! Hc; subst m; destruct (leap y); vm_compute; split; discriminate.
Qed.

Lemma u32_plus a b : u32 (u32 a + b) = u32 (a + b).
Proof. unfold u32. apply Z.add_mod_idemp_l. lia. Qed.

Lemma months_loop_run n : forall i time k,
  1 <= i -> Z.of_nat n + i <= 13 ->
  months_loop n i (u32 time) k = Ok (u32 (time + sum (take n (drop (Z.to_nat (i - 1)) days_per_month)) * 86400), k).
Proof.
  induction n as [|n IH]; intros i time k Hi Hn; cbn [months_loop]; [by rewrite take_0, Z.mul_0_l, Z.add_0_r|].
  destruct (lookup_lt_is_Some_2 days_per_month (Z.to_nat (i - 1))) as (d & Hd); [cbn; lia|].
  rewrite (drop_S _ _ _ Hd). unfold gets_opt, bind. rewrite Hd.
  assert (28 <= d <= 31) as Hr.
  { assert (Forall (fun d => 28 <= d <= 31) days_per_month) as H by (repeat constructor; lia). by eapply Forall_lookup_1 in H. }
  rewrite s32_id by (unfold in_s32; lia). rewrite u32_plus, IH by lia. do 3 f_equal. cbn [take sum foldr].
  replace (Z.to_nat (i + 1 - 1)) with (S (Z.to_nat (i - 1))) by lia. unfold sum. lia.
Qed.

Lemma to_seconds_run y m d h mi s k :
  1970 <= y <= 2037 -> 1 <= m <= 12 -> 1 <= d <= 31 -> 0 <= h < 24 -> 0 <= mi < 60 -> 0 <= s < 60 ->
  to_seconds (mkTime s mi h d m (y mod 100)) k = Ok ((((counted y m + d - 1) * 24 + h) * 60 + mi) * 60 + s, k).
Proof.
  intros Hy Hm Hd Hh Hmi Hs. destruct (counted_ok y m Hy Hm) as [_ Hc]. unfold to_seconds. cbn [year mon mday hour min sec].
  assert ((if y mod 100 <? 70 then y mod 100 + 100 else y mod 100) - 70 = y - 1970) as ->.
  { destruct (Z_lt_ge_dec y 2000).
    - replace y with (y - 1900 + 19 * 100) by lia. rewrite Z.mod_add, Z.mod_small by lia. rewrite (proj2 (Z.ltb_ge _ _)) by lia. lia.
    - replace y with (y - 2000 + 20 * 100) by lia. rewrite Z.mod_add, Z.mod_small by lia. rewrite (proj2 (Z.ltb_lt _ _)) by lia. lia. }
  unfold bind. rewrite months_loop_run by lia. replace (Z.to_nat (1 - 1)) with 0%nat by lia. rewrite drop_0.
  set (y' := y - 1970) in *. set (ms := sum (take (Z.to_nat m) days_per_month)) in *.
  assert (0 <= Z.quot (y' - 1) 4 + 0 <= 17 \/ y' = 0) as Hq.
  { destruct (decide (y' = 0)); [by right|left]. rewrite Z.quot_div_nonneg by (subst y'; lia).
    pose proof (Z.div_pos (y' - 1) 4). pose proof (Z.div_le_upper_bound (y' - 1) 4 17). subst y'. lia. }
  assert (s32 ((y' * 365 + Z.quot (y' - 1) 4) * 24 * 60 * 60) = (y' * 365 + Z.quot (y' - 1) 4) * 86400) as ->.
  { rewrite s32_id; [lia|]. unfold in_s32. destruct Hq as [Hq|E]; [subst y'; lia|]. rewrite E. by vm_compute. }
  unfold counted in *. fold y' ms in Hc |- *. cbn beta zeta in *. set (q := Z.quot (y' - 1) 4) in *.
  destruct ((m >? 2) && _); repeat (rewrite u32_plus || rewrite <- Z.add_assoc); unfold ret; (rewrite u32_id; [f_equal; f_equal; lia|lia]).
Qed.

Lemma read_time_run cmos fuel y m d h mi s k :
  shows cmos y m d h mi s -> exists k', read_time cmos (S fuel) k = Ok (mkTime s mi h d m (y mod 100), k').
Proof.
  intros [Hr _ _ _ _ _ _]. eexists. cbn [read_time]. unfold read_bin, cmos_read, bind, ret.
  repeat match goal with |- context [bcd_to_bin (u8 (cmos ?k ?r))] =>
    let H := fresh in pose proof (Hr k) as H; destruct H as (H1 & H2 & H3 & H4 & H5 & H6); rewrite ?H1, ?H2, ?H3, ?H4, ?H5, ?H6; clear H1 H2 H3 H4 H5 H6 end.
  rewrite Z.eqb_refl. done.
Qed.

(** The clock is read wrong: for every date from 1970 to 2037 the
    function returns, and what it returns is between 27 and 32 whole days
    later than the time that the clock shows, because the days of the current
    month are added, and leap days are counted for the wrong years. *)
Theorem rtc_get_time_late cmos fuel y m d h mi s k :
  shows cmos y m d h mi s -> (0 < fuel)%nat ->
  exists k' late, rtc_get_time cmos fuel k = Ok (unix_time y m d h mi s + late * 86400, k') /\ 27 <= late <= 32.
Proof.
  intros Hsh Hf. destruct fuel as [|fuel]; [lia|]. destruct (read_time_run cmos fuel y m d h mi s k Hsh) as (k' & Hr).
  destruct Hsh as [_ Hy Hm Hd Hh Hmi Hs]. pose proof (month_length_le y m Hm). destruct (counted_ok y m Hy Hm) as [Hl _].
  exists k', (counted y m - days_before y m). split; [|done]. unfold rtc_get_time. mrun Hr.
  rewrite to_seconds_run by lia. unfold unix_time. do 2 f_equal. lia.
Qed.

(** March 1, 2000, 12:30:15 is read as April 1. *)
Definition a_day (_ : nat) (index : Z) : Z :=
  if index =? RTC_REG_SEC then 0x15 else if index =? RTC_REG_MIN then 0x30 else if index =? RTC_REG_HOUR then 0x12
  else if index =? RTC_REG_MDAY then 0x01 else if index =? RTC_REG_MON then 0x03 else 0.

Lemma rtc_get_time_late_witness :
  exists k' late, rtc_get_time a_day 1 0%nat = Ok (951913815 + late * 86400, k') /\ 27 <= late <= 32.
Proof.
  destruct (rtc_get_time_late a_day 1 2000 3 1 12 30 15 0%nat) as (k' & late & Hr & Hl); [|lia|].
  - split; try lia; [by intros k|vm_compute; split; discriminate].
  - exists k', late. split; [exact Hr|exact Hl].
Defined.

(** ** The interval timer *)

(** The timer is programmed with the count that is closest to the wanted
    frequency, low byte first; a frequency that is too low gives the longest
    period.  From 795454 Hz on, in mode 2 as well, the count is 1, which the
    timer does not take. *)
Theorem pit_configure_channel_ok channel mode frequency l :
  channel = 0 \/ channel = 2 -> mode = 2 \/ mode = 3 ->
  exists count, pit_configure_channel channel mode frequency l =
    Ok (tt, l ++ [(0x43, 64 * channel + 48 + 2 * mode); (0x40 + channel, count mod 256); (0x40 + channel, count / 256)]) /\
    (frequency < 19 -> count = 0) /\
    (19 <= frequency <= PIT_HZ -> 1 <= count < 65536 /\ 2 * Z.abs (count * frequency - PIT_HZ) <= frequency) /\
    (795454 <= frequency <= PIT_HZ -> count = 1).
Proof.
  intros Hc Hm. exists (pit_count frequency).
  assert (forall f, 19 <= f <= PIT_HZ -> let c := (PIT_HZ + f / 2) / f in pit_count f = c /\ 1 <= c < 65536 /\ 2 * Z.abs (c * f - PIT_HZ) <= f) as Hk.
  { intros f Hf c. assert (f * c <= PIT_HZ + f / 2 < f * (c + 1)) as Hdiv.
    { split; [apply Z.mul_div_le; lia|]. unfold c. apply Z.mul_succ_div_gt. lia. }
    assert (2 * (f / 2) <= f < 2 * (f / 2) + 2) as Hh by (pose proof (Z.div_mod f 2); pose proof (Z.mod_pos_bound f 2); lia). unfold PIT_HZ in *.
    assert (1 <= c < 65536) by nia. split; [|split; [done|nia]].
    unfold pit_count, PIT_HZ. rewrite (proj2 (Z.ltb_ge _ _)), Z.gtb_ltb, (proj2 (Z.ltb_ge _ _)) by lia.
    rewrite (Z.quot_div_nonneg f 2), Z.quot_div_nonneg by lia. fold c. unfold u16. apply Z.mod_small. lia. }
  split; [|split; [|split]].
  - unfold pit_configure_channel. assert (0 <= pit_count frequency < 65536) as Hr.
    { unfold pit_count. destruct (_ <? _); [lia|]. destruct (_ >? _); [lia|]. unfold u16. apply Z.mod_pos_bound. lia. }
    destruct Hc as [-> | ->], Hm as [-> | ->]; unfold outb; mnorm; unfold modify, u8; rewrite <- !app_assoc;
      rewrite Z.shiftr_div_pow2 by lia; (rewrite (Z.mod_small (_ / _)); [done|split; [apply Z.div_pos; lia|apply Z.div_lt_upper_bound; lia]]).
  - intros Hf. unfold pit_count. by rewrite (proj2 (Z.ltb_lt _ _)).
  - intros Hf. destruct (Hk frequency Hf) as (-> & H1 & H2). done.
  - intros Hf. destruct (Hk frequency) as (-> & H1 & H2); [lia|]. unfold PIT_HZ in *. nia.
Qed.

End Rtc.
