(* ===== verification/Vga.v ===== *)
(** * The text display (src/src/devices/vga.c, speaker.c)

    The frame buffer is an array of rows of cells, a character and an
    attribute each.  What is written to I/O ports is a list; [crt] is what the
    display controller has in its registers when the cursor is looked for.
    An access outside of the frame buffer is a bad access.

    The display refines an endless roll of paper of which the last 25 rows
    are visible. *)

From S2P Require Import Prelude Rtc.

Module Vga.

Definition COL_CNT : Z := 80.
Definition ROW_CNT : Z := 25.
Definition GRAY_ON_BLACK : Z := 0x07.

Abbreviation cell := (Z * Z)%type.

Inductive event : Type :=
| Outb (port data : Z)
| Outw (port data : Z)
| Msleep (ms : Z).

Record vga : Type := mkVga {
  cx : Z;
  cy : Z;
  fb : list (list cell);
  inited : bool;
  intr_on : bool;
  gate : Z;                   (* the register of the speaker port *)
  events : list event
}.

Definition set_cx v s := mkVga v (cy s) (fb s) (inited s) (intr_on s) (gate s) (events s).
Definition set_cy v s := mkVga (cx s) v (fb s) (inited s) (intr_on s) (gate s) (events s).
Definition set_fb v s := mkVga (cx s) (cy s) v (inited s) (intr_on s) (gate s) (events s).
Definition set_inited v s := mkVga (cx s) (cy s) (fb s) v (intr_on s) (gate s) (events s).
Definition set_intr v s := mkVga (cx s) (cy s) (fb s) (inited s) v (gate s) (events s).
Definition set_events v s := mkVga (cx s) (cy s) (fb s) (inited s) (intr_on s) (gate s) v.
Definition set_gate v s := mkVga (cx s) (cy s) (fb s) (inited s) (intr_on s) v (events s).

Definition log (e : event) : M vga unit := modify (fun s => set_events (events s ++ [e]) s).

Definition intr_disable : M vga bool := l <- gets intr_on ;; modify (set_intr false) ;;; ret l.
Definition intr_set_level (l : bool) : M vga unit := modify (set_intr l).

(** ** The speaker *)

Definition SPEAKER_PORT_GATE : Z := 0x61.
Definition SPEAKER_GATE_ENABLE : Z := 0x03.

(** The timer channel of the speaker. *)
Definition pit_configure_channel (channel mode frequency : Z) : M vga unit :=
  fun s => match Rtc.pit_configure_channel channel mode frequency [] with
           | Ok (_, l) => Ok (tt, set_events (events s ++ map (fun p => Outb p.1 p.2) l) s)
           | Err e => Err e
           end.

Definition out_gate (v : Z) : M vga unit := modify (set_gate v) ;;; log (Outb SPEAKER_PORT_GATE v).

Definition speaker_off : M vga unit :=
  old_level <- intr_disable ;;
  g <- gets gate ;; out_gate (Z.land g (u8 (Z.lnot SPEAKER_GATE_ENABLE))) ;;;
  intr_set_level old_level.

Definition speaker_on (frequency : Z) : M vga unit :=
  if (frequency >=? 20) && (frequency <=? 20000) then
    old_level <- intr_disable ;;
    pit_configure_channel 2 3 frequency ;;;
    g <- gets gate ;; out_gate (Z.lor g SPEAKER_GATE_ENABLE) ;;;
    intr_set_level old_level
  else speaker_off.

Definition speaker_beep : M vga unit :=
  l <- gets intr_on ;;
  if (l : bool) then speaker_on 440 ;;; log (Msleep 250) ;;; speaker_off else ret tt.

(** ** The display *)

Section display.
Context (crt : Z -> Z).

(** [fb[y][x][0] = c; fb[y][x][1] = a;]. *)
Definition poke (y x c a : Z) : M vga unit :=
  row <- gets_opt (fun s => if y <? 0 then None else fb s !! Z.to_nat y) ;;
  (if (0 <=? x) && (x <? Z.of_nat (length row)) then ret tt else fail Bad_access) ;;;
  modify (fun s => set_fb (<[Z.to_nat y := <[Z.to_nat x := (u8 c, a)]> row]> (fb s)) s).

Definition move_cursor : M vga unit :=
  x <- gets cx ;; y <- gets cy ;;
  let cp := (x + COL_CNT * y) mod 65536 in
  log (Outw 0x3d4 (Z.lor 0x0e (Z.land cp 0xff00))) ;;;
  log (Outw 0x3d4 (Z.lor 0x0f (Z.shiftl cp 8) mod 65536)).

Definition find_cursor : M vga (Z * Z) :=
  log (Outb 0x3d4 0x0e) ;;;
  let cp := (Z.shiftl (u8 (crt 0x0e)) 8) mod 65536 in
  log (Outb 0x3d4 0x0f) ;;;
  let cp := Z.lor cp (u8 (crt 0x0f)) in
  ret (cp mod COL_CNT, cp / COL_CNT).

Definition init : M vga unit :=
  i <- gets inited ;;
  if negb i then
    ' (x, y) <- find_cursor ;;
    modify (set_cx x) ;;; modify (set_cy y) ;;; modify (set_inited true)
  else ret tt.

Fixpoint clear_row_loop (n : nat) (y x : Z) : M vga unit :=
  match n with O => ret tt | S n' => poke y x 32 GRAY_ON_BLACK ;;; clear_row_loop n' y (x + 1) end.

Definition clear_row (y : Z) : M vga unit := clear_row_loop (Z.to_nat COL_CNT) y 0.

Fixpoint cls_loop (n : nat) (y : Z) : M vga unit :=
  match n with O => ret tt | S n' => clear_row y ;;; cls_loop n' (y + 1) end.

Definition cls : M vga unit :=
  cls_loop (Z.to_nat ROW_CNT) 0 ;;; modify (set_cy 0) ;;; modify (set_cx 0) ;;; move_cursor.

(** [memmove (&fb[0], &fb[1], sizeof fb[0] * (ROW_CNT - 1))]. *)
Definition scroll : M vga unit :=
  f <- gets fb ;;
  (if (length f =? Z.to_nat ROW_CNT)%nat then ret tt else fail Bad_access) ;;;
  modify (set_fb (take (Z.to_nat ROW_CNT - 1) (drop 1 f) ++ drop (Z.to_nat ROW_CNT - 1) f)).

Definition newline : M vga unit :=
  modify (set_cx 0) ;;;
  y <- gets cy ;;
  modify (set_cy (y + 1)) ;;;
  if y + 1 >=? ROW_CNT then
    modify (set_cy (ROW_CNT - 1)) ;;; scroll ;;; clear_row (ROW_CNT - 1)
  else ret tt.

Definition vga_putc (c : Z) : M vga unit :=
  old_level <- intr_disable ;;
  init ;;;
  (if c =? 10 then newline
   else if c =? 12 then cls
   else if c =? 8 then x <- gets cx ;; if x >? 0 then modify (set_cx (x - 1)) else ret tt
   else if c =? 13 then modify (set_cx 0)
   else if c =? 9 then
     x <- gets cx ;;
     let x := (x + 1 + 7) / 8 * 8 in
     modify (set_cx x) ;;;
     if x >=? COL_CNT then newline else ret tt
   else if c =? 7 then
     intr_set_level old_level ;;; speaker_beep ;;; intr_disable ;;; ret tt
   else
     x <- gets cx ;; y <- gets cy ;;
     poke y x c GRAY_ON_BLACK ;;;
     modify (set_cx (x + 1)) ;;;
     if x + 1 >=? COL_CNT then newline else ret tt) ;;;
  move_cursor ;;;
  intr_set_level old_level.

(** ** Paper *)

Record paper : Type := mkPaper { rows : list (list cell); prow : nat; pcol : nat }.

Definition blank : list cell := repeat (32, GRAY_ON_BLACK) 80.

Definition p_newline (p : paper) : paper :=
  let r := S (prow p) in
  mkPaper (if (length (rows p) <=? r)%nat then rows p ++ [blank] else rows p) r 0.

Definition p_move (p : paper) (col : nat) : paper :=
  if (80 <=? col)%nat then p_newline p else mkPaper (rows p) (prow p) col.

Definition p_put (p : paper) (x : cell) : paper :=
  let rows' := match rows p !! prow p with Some r => <[prow p := <[pcol p := x]> r]> (rows p) | None => rows p end in
  p_move (mkPaper rows' (prow p) (pcol p)) (S (pcol p)).

Definition p_putc (c : Z) (p : paper) : paper :=
  if c =? 10 then p_newline p
  else if c =? 12 then mkPaper (take (length (rows p) - 25) (rows p) ++ repeat blank 25) (length (rows p) - 25) 0
  else if c =? 8 then mkPaper (rows p) (prow p) (pcol p - 1)
  else if c =? 13 then mkPaper (rows p) (prow p) 0
  else if c =? 9 then p_move p (8 * S (pcol p / 8))
  else if c =? 7 then p
  else p_put p (u8 c, GRAY_ON_BLACK).

(** The display shows the end of the paper; first but for the column. *)
Record shows_rows (s : vga) (rs : list (list cell)) (r : nat) : Prop := {
  sh_fb : fb s = drop (length rs - 25) rs;
  sh_len : (25 <= length rs)%nat;
  sh_rows : Forall (fun r => length r = 80%nat) rs;
  sh_row : Z.of_nat r = cy s + Z.of_nat (length rs - 25);
  sh_cy : 0 <= cy s < 25
}.

Record shows (s : vga) (p : paper) : Prop := {
  sh_all : shows_rows s (rows p) (prow p);
  sh_col : Z.of_nat (pcol p) = cx s;
  sh_cx : 0 <= cx s < 80
}.

(** What the commands leave alone. *)
Definition rest (s : vga) : bool * bool := (inited s, intr_on s).

Lemma fb_length s rs r : shows_rows s rs r -> length (fb s) = 25%nat.
Proof. intros [-> Hl _ _ _]. rewrite length_drop. lia. Qed.

Lemma fb_rows s rs r y row : shows_rows s rs r -> fb s !! y = Some row -> length row = 80%nat.
Proof. intros [-> _ Hr _ _] H. rewrite lookup_drop in H. by eapply Forall_lookup_1 in Hr. Qed.

(** ** Commands *)

Lemma poke_run s y x c a row :
  0 <= y -> fb s !! Z.to_nat y = Some row -> 0 <= x < Z.of_nat (length row) ->
  poke y x c a s = Ok (tt, set_fb (<[Z.to_nat y := <[Z.to_nat x := (u8 c, a)]> row]> (fb s)) s).
Proof.
  intros Hy Hr Hx. unfold poke. unfold bind at 1, gets_opt. rewrite (proj2 (Z.ltb_ge _ _) Hy), Hr.
  rewrite (proj2 (Z.leb_le _ _)), (proj2 (Z.ltb_lt _ _)) by lia. cbn [andb]. by mnorm.
Qed.

Lemma set_fb_fb a b s : set_fb a (set_fb b s) = set_fb a s.
Proof. done. Qed.

Lemma clear_row_loop_run n : forall s y x row,
  0 <= y -> fb s !! Z.to_nat y = Some row -> length row = 80%nat -> 0 <= x -> x + Z.of_nat n = 80 ->
  clear_row_loop n y x s = Ok (tt, set_fb (<[Z.to_nat y := take (Z.to_nat x) row ++ repeat (32, GRAY_ON_BLACK) n]> (fb s)) s).
Proof.
  induction n as [|n IH]; intros s y x row Hy Hr Hl Hx Hn; cbn [clear_row_loop].
  - rewrite take_ge by lia. rewrite app_nil_r, list_insert_id by done. by destruct s.
  - mrun (poke_run s y x 32 GRAY_ON_BLACK row Hy Hr ltac:(lia)). set (s1 := set_fb _ s). pose proof (lookup_lt_Some _ _ _ Hr).
    rewrite (IH s1 y (x + 1) (<[Z.to_nat x := (32, GRAY_ON_BLACK)]> row)); try lia.
    + subst s1. rewrite set_fb_fb. cbn [fb set_fb]. rewrite list_insert_insert_eq. do 4 f_equal.
      replace (Z.to_nat (x + 1)) with (S (Z.to_nat x)) by lia. rewrite (take_S_r _ _ (32, GRAY_ON_BLACK)) by (apply list_lookup_insert_eq; lia).
      rewrite take_insert_ge by lia. by rewrite <- app_assoc.
    + subst s1. cbn [fb set_fb]. rewrite list_lookup_insert_eq by done. done.
    + rewrite length_insert. done.
Qed.

Lemma clear_row_run s y row :
  0 <= y -> fb s !! Z.to_nat y = Some row -> length row = 80%nat -> clear_row y s = Ok (tt, set_fb (<[Z.to_nat y := blank]> (fb s)) s).
Proof. intros Hy Hr Hl. unfold clear_row. rewrite (clear_row_loop_run _ s y 0 row) by (done || lia). done. Qed.

Lemma cls_loop_run n : forall s y,
  length (fb s) = 25%nat -> Forall (fun r => length r = 80%nat) (fb s) -> 0 <= y -> y + Z.of_nat n = 25 ->
  cls_loop n y s = Ok (tt, set_fb (take (Z.to_nat y) (fb s) ++ repeat blank n) s).
Proof.
  induction n as [|n IH]; intros s y Hl Hr Hy Hn; cbn [cls_loop].
  - rewrite take_ge by lia. rewrite app_nil_r. by destruct s.
  - destruct (lookup_lt_is_Some_2 (fb s) (Z.to_nat y)) as (row & Hrow); [lia|].
    mrun (clear_row_run s y row Hy Hrow (Forall_lookup_1 _ _ _ _ Hr Hrow)). rewrite IH; cbn [fb set_fb].
    + rewrite set_fb_fb. do 3 f_equal. replace (Z.to_nat (y + 1)) with (S (Z.to_nat y)) by lia.
      rewrite (take_S_r _ _ blank) by (apply list_lookup_insert_eq; lia). rewrite take_insert_ge by lia. by rewrite <- app_assoc.
    + by rewrite length_insert.
    + by apply Forall_insert.
    + lia.
    + lia.
Qed.

Lemma move_cursor_run s : exists e, move_cursor s = Ok (tt, set_events e s).
Proof. eexists. unfold move_cursor, log. mnorm. unfold modify. cbn. destruct s. reflexivity. Qed.

Lemma scroll_run s : length (fb s) = 25%nat -> scroll s = Ok (tt, set_fb (drop 1 (fb s) ++ drop 24 (fb s)) s).
Proof.
  intros Hl. unfold scroll. mnorm. rewrite Hl. change (25 =? Z.to_nat ROW_CNT)%nat with true. mnorm. unfold modify.
  change (Z.to_nat ROW_CNT - 1)%nat with 24%nat. rewrite take_ge by (rewrite length_drop; lia). done.
Qed.

(** The display moves to the next row. *)
Lemma newline_run s rs r col :
  shows_rows s rs r -> exists s', newline s = Ok (tt, s') /\ shows s' (p_newline (mkPaper rs r col)) /\ rest s' = rest s.
Proof.
  intros Hs. pose proof (fb_length _ _ _ Hs) as Hfl. pose proof Hs as [Hfb Hlen Hrows Hrow Hcy]. unfold newline. mnorm. unfold ROW_CNT.
  cbn [cy set_cx]. rewrite Z.geb_leb. destruct (Z.leb_spec 25 (cy s + 1)) as [Hend|Hmore].
  - change (25 - 1) with 24. set (s1 := set_cy 24 (set_cy (cy s + 1) (set_cx 0 s))). mnorm. fold s1. mrun (scroll_run s1 Hfl).
    destruct (lookup_lt_is_Some_2 (fb s) 24) as (row & Hr24); [lia|].
    assert (fb (set_fb (drop 1 (fb s1) ++ drop 24 (fb s1)) s1) !! 24%nat = Some row) as Hrow24.
    { cbn [fb set_fb]. change (fb s1) with (fb s). rewrite lookup_app_r by (rewrite length_drop; lia). rewrite length_drop, Hfl, lookup_drop. exact Hr24. }
    rewrite (clear_row_run _ 24 row ltac:(lia) Hrow24 (fb_rows _ _ _ _ _ Hs Hr24)).
    eexists. split; [reflexivity|]. split; [|done]. unfold p_newline. cbn [rows prow].
    rewrite (proj2 (Nat.leb_le _ _)) by lia. split; cbn; [|lia|lia]. split; cbn.
    + rewrite length_app. cbn [length]. replace (length rs + 1 - 25)%nat with (S (length rs - 25)) by lia.
      rewrite drop_app_le by lia. replace (S (length rs - 25)) with (length rs - 25 + 1)%nat by lia. rewrite <- drop_drop, <- Hfb.
      change (fb s1) with (fb s). rewrite insert_app_r_alt by (rewrite length_drop; lia). f_equal. rewrite length_drop, Hfl.
      rewrite (drop_S _ _ _ Hr24), drop_ge by lia. done.
    + rewrite length_app. cbn. lia.
    + apply Forall_app. split; [done|]. by repeat constructor.
    + rewrite length_app. cbn. lia.
    + lia.
  - mnorm. eexists. split; [reflexivity|]. split; [|done]. unfold p_newline. cbn [rows prow].
    rewrite (proj2 (Nat.leb_gt _ _)) by lia. split; cbn; [|lia|lia]. split; cbn; try done; lia.
Qed.

(** The cursor goes to a column, which may be the end of the row. *)
Lemma move_run s rs r col x :
  shows_rows s rs r -> 0 <= x -> Z.of_nat col = x ->
  exists s', (modify (set_cx x) ;;; if x >=? COL_CNT then newline else ret tt) s = Ok (tt, s') /\
    shows s' (p_move (mkPaper rs r 0) col) /\ rest s' = rest s.
Proof.
  intros Hs Hx Hc. assert (shows_rows (set_cx x s) rs r) as Hs1 by (by destruct Hs). mnorm. unfold p_move, COL_CNT.
  rewrite Z.geb_leb. destruct (Z.leb_spec 80 x).
  - rewrite (proj2 (Nat.leb_le _ _)) by lia. destruct (newline_run (set_cx x s) rs r 0 Hs1) as (s' & Hr & Hs' & E). exists s'. done.
  - rewrite (proj2 (Nat.leb_gt _ _)) by lia. eexists. split; [reflexivity|]. split; [|done]. by split; cbn; try lia.
Qed.

Lemma p_newline_col rs r c c' : p_newline (mkPaper rs r c) = p_newline (mkPaper rs r c').
Proof. done. Qed.

Lemma p_move_col p c : p_move p c = p_move (mkPaper (rows p) (prow p) 0) c.
Proof. by destruct p. Qed.

Lemma speaker_beep_run s : exists g e, speaker_beep s = Ok (tt, set_events e (set_gate g s)).
Proof.
  unfold speaker_beep. mnorm. destruct s as [x y f i l g e]. cbn [intr_on]. destruct l; [|by exists g, e].
  unfold speaker_on, speaker_off, intr_disable, intr_set_level, out_gate, log, pit_configure_channel.
  do 2 eexists. cbv [bind gets modify ret]. cbn. reflexivity.
Qed.

(** What a character does, once the display is initialized. *)
Lemma vga_putc_run c s p :
  shows s p -> inited s = true ->
  exists s', vga_putc c s = Ok (tt, s') /\ shows s' (p_putc c p) /\ rest s' = rest s.
Proof.
  intros Hs Hi. set (s0 := set_intr false s). assert (shows s0 p) as Hs0 by (destruct Hs as [[] ? ?]; by split).
  assert (exists s1, (if c =? 10 then newline
   else if c =? 12 then cls
   else if c =? 8 then x <- gets cx ;; if x >? 0 then modify (set_cx (x - 1)) else ret tt
   else if c =? 13 then modify (set_cx 0)
   else if c =? 9 then
     x <- gets cx ;;
     let x := (x + 1 + 7) / 8 * 8 in
     modify (set_cx x) ;;;
     if x >=? COL_CNT then newline else ret tt
   else if c =? 7 then
     intr_set_level (intr_on s) ;;; speaker_beep ;;; intr_disable ;;; ret tt
   else
     x <- gets cx ;; y <- gets cy ;;
     poke y x c GRAY_ON_BLACK ;;;
     modify (set_cx (x + 1)) ;;;
     if x + 1 >=? COL_CNT then newline else ret tt) s0 = Ok (tt, s1) /\ shows s1 (p_putc c p) /\ inited s1 = true /\ intr_on s1 = false) as (s1 & Hr & Hs1 & Hi1 & Hl1).
  2:{ unfold vga_putc, intr_disable at 1. mnorm. fold s0. unfold init. mnorm. rewrite (Hi : inited s0 = true). cbn [negb]. mnorm.
      mrun Hr. destruct (move_cursor_run s1) as (e & He). mrun He. unfold intr_set_level, modify. eexists. split; [reflexivity|].
      split; [by destruct Hs1 as [[] ? ?]|]. unfold rest. cbn. by rewrite Hi, Hi1. }
  assert (forall m p', (exists s1, m s0 = Ok (tt, s1) /\ shows s1 p' /\ rest s1 = rest s0) -> exists s1, m s0 = Ok (tt, s1) /\ shows s1 p' /\ inited s1 = true /\ intr_on s1 = false) as K.
  { intros m p' (s1 & H1 & H2 & H3). exists s1. split; [done|]. split; [done|]. unfold rest in H3. injection H3 as -> ->. done. }
  destruct Hs0 as [Hrows Hcol Hcx]. unfold p_putc.
  destruct p as [rs r col]. cbn [rows prow pcol] in *. pose proof (fb_length _ _ _ Hrows) as Hfl.
  destruct (c =? 10); [apply K; by apply newline_run|].
  destruct (c =? 12).
  { apply K. unfold cls. pose proof Hrows as [Hfb Hlen Hall Hrow Hcy].
    assert (Forall (fun r => length r = 80%nat) (fb s0)) as Hall0 by (rewrite Hfb; by apply Forall_drop).
    mrun (cls_loop_run (Z.to_nat ROW_CNT) s0 0 Hfl Hall0 ltac:(lia) eq_refl). mnorm.
    destruct (move_cursor_run (set_cx 0 (set_cy 0 (set_fb (take (Z.to_nat 0) (fb s0) ++ repeat blank (Z.to_nat ROW_CNT)) s0)))) as (e & He).
    rewrite He. eexists. split; [reflexivity|]. split; [|done].
    assert (length (take (length rs - 25) rs ++ repeat blank 25) = length rs) as El by (rewrite length_app, length_take, repeat_length; lia).
    split; [|done|done]. cbn [rows prow]. split; cbn [fb set_events set_cx set_cy set_fb cy].
    - rewrite El, drop_app_length' by (rewrite length_take; lia). done.
    - rewrite El. done.
    - apply Forall_app. split; [by apply Forall_take|]. apply Forall_forall. intros x Hx%list_elem_of_In%repeat_spec. by subst x.
    - rewrite El. lia.
    - lia. }
  destruct (c =? 8).
  { apply K. mnorm. destruct (Z.gtb_spec (cx s0) 0).
    - eexists. split; [reflexivity|]. split; [|done]. split; [by destruct Hrows|cbn [pcol cx set_cx]; lia..].
    - eexists. split; [reflexivity|]. split; [|done]. split; [done|cbn [pcol]; lia|done]. }
  destruct (c =? 13). { apply K. eexists. split; [reflexivity|]. split; [|done]. split; [by destruct Hrows|cbn [pcol cx set_cx]; lia..]. }
  destruct (c =? 9).
  { apply K. mnorm. rewrite p_move_col. cbn [rows prow]. apply move_run; [done|apply Z.mul_nonneg_nonneg; [apply Z.div_pos; lia|lia]|].
    replace (cx s0 + 1 + 7) with (cx s0 + 1 * 8) by lia. rewrite Z.div_add by lia. rewrite <- Hcol.
    replace (Z.of_nat col / 8) with (Z.of_nat (col / 8)) by (by rewrite Nat2Z.inj_div). lia. }
  destruct (c =? 7).
  { unfold intr_set_level. mnorm. destruct (speaker_beep_run (set_intr (intr_on s) s0)) as (g & e & He). mrun He. unfold intr_disable. mnorm.
    eexists. split; [reflexivity|]. split; [|done]. split; [by destruct Hrows|done|done]. }
  apply K. mnorm. pose proof Hrows as [Hfb Hlen Hall Hrow Hcy].
  destruct (lookup_lt_is_Some_2 (fb s0) (Z.to_nat (cy s0))) as (row & Hr); [lia|]. pose proof (fb_rows _ _ _ _ _ Hrows Hr) as Hl80.
  mrun (poke_run s0 (cy s0) (cx s0) c GRAY_ON_BLACK row ltac:(lia) Hr ltac:(lia)).
  assert (rs !! r = Some row) as Hrs by (rewrite Hfb, lookup_drop in Hr; rewrite <- Hr; f_equal; lia).
  unfold p_put. cbn [rows prow pcol]. rewrite Hrs, p_move_col. cbn [rows prow].
  set (x := (u8 c, GRAY_ON_BLACK)).
  destruct (move_run (set_fb (<[Z.to_nat (cy s0) := <[Z.to_nat (cx s0) := x]> row]> (fb s0)) s0) (<[r := <[col := x]> row]> rs) r (S col) (cx s0 + 1))
    as (s' & A & B & C); [|lia|lia|by exists s'].
  split; cbn [fb set_fb cy]; rewrite ?length_insert; try done.
  - rewrite drop_insert_ge by lia. rewrite <- Hfb. replace (Z.to_nat (cy s0)) with (r - (length rs - 25))%nat by lia.
    replace (Z.to_nat (cx s0)) with col by lia. done.
  - apply Forall_insert; [done|]. by rewrite length_insert.
Qed.

(** ** Text *)

Fixpoint puts (cs : list Z) : M vga unit :=
  match cs with [] => ret tt | c :: cs' => vga_putc c ;;; puts cs' end.

Lemma puts_run cs : forall s p, shows s p -> inited s = true ->
  exists s', puts cs s = Ok (tt, s') /\ shows s' (fold_left (fun p c => p_putc c p) cs p) /\ rest s' = rest s.
Proof.
  induction cs as [|c cs IH]; intros s p Hs Hi; cbn [puts fold_left]; [by exists s|].
  destruct (vga_putc_run c s p Hs Hi) as (s1 & Hr & Hs1 & E1). mrun Hr.
  destruct (IH s1 (p_putc c p) Hs1) as (s' & Hr' & Hs' & E'); [unfold rest in E1; congruence|]. exists s'. by rewrite E'.
Qed.

(** The position that the hardware has. *)
Definition hardware_cursor : Z := 256 * u8 (crt 0x0e) + u8 (crt 0x0f).

Definition first_paper (f : list (list cell)) : paper :=
  mkPaper f (Z.to_nat (hardware_cursor / 80)) (Z.to_nat (hardware_cursor mod 80)).

Lemma find_cursor_run s : exists e, find_cursor s = Ok ((hardware_cursor mod 80, hardware_cursor / 80), set_events e s).
Proof.
  unfold find_cursor, log, hardware_cursor, COL_CNT. pose proof (Z.mod_pos_bound (crt 0x0e) 256 ltac:(lia)). pose proof (Z.mod_pos_bound (crt 0x0f) 256 ltac:(lia)).
  set (h := u8 (crt 0x0e)). set (l := u8 (crt 0x0f)). assert (0 <= h < 256) by done. assert (0 <= l < 256) by done.
  replace (Z.lor (Z.shiftl h 8 mod 65536) l) with (256 * h + l).
  - eexists. mnorm. unfold ret. cbn. destruct s. reflexivity.
  - rewrite Z.shiftl_mul_pow2 by lia. change (2 ^ 8) with 256. rewrite Z.mod_small by lia. rewrite <- Z.add_nocarry_lor; [lia|].
    apply Z.bits_inj'. intros i Hi. rewrite Z.land_spec, Z.bits_0. change 256 with (2 ^ 8). rewrite <- Z.shiftl_mul_pow2, Z.shiftl_spec by lia.
    destruct (Z_lt_ge_dec i 8); [by rewrite Z.testbit_neg_r by lia|]. rewrite <- (Z.mod_small l (2 ^ 8)) by (change (2 ^ 8) with 256; lia).
    rewrite Z.mod_pow2_bits_high by lia. apply andb_false_r.
Qed.

(** ** The cursor of the hardware *)

(** The registers of the display controller after a list of accesses to I/O
    ports: a word written to port 0x3d4 has the number of a register in its
    low byte and the value in its high byte. *)
Definition registers (l : list event) : Z -> Z :=
  fold_left (fun r e =>
    match e with
    | Outw port d => if port =? 0x3d4 then fun i => if i =? d mod 256 then d / 256 else r i else r
    | _ => r
    end) l crt.

Definition cursor_of (r : Z -> Z) : Z := 256 * u8 (r 0x0e) + u8 (r 0x0f).

Lemma cursor_words_table : forallb (fun cp =>
  let a := Z.lor 0x0e (Z.land cp 0xff00) in let b := (Z.lor 0x0f (Z.shiftl cp 8)) mod 65536 in
  (a mod 256 =? 14) && (b mod 256 =? 15) && (256 * u8 (a / 256) + u8 (b / 256) =? cp)) (seqZ 0 2000) = true.
Proof. vm_compute. reflexivity. Qed.

(** The words that [move_cursor] writes set the registers to the cursor. *)
Lemma move_cursor_sets l x y : 0 <= x < 80 -> 0 <= y < 25 ->
  let cp := (x + COL_CNT * y) mod 65536 in
  cursor_of (registers (l ++ [Outw 0x3d4 (Z.lor 0x0e (Z.land cp 0xff00)); Outw 0x3d4 (Z.lor 0x0f (Z.shiftl cp 8) mod 65536)])) = x + 80 * y.
Proof.
  intros Hx Hy cp. assert (cp = x + 80 * y) as Ecp by (unfold cp, COL_CNT; apply Z.mod_small; lia). clearbody cp.
  pose proof (proj1 (forallb_forall _ _) cursor_words_table cp) as H. specialize (H ltac:(apply list_elem_of_In, elem_of_seqZ; lia)). cbv zeta in H.
  apply andb_true_iff in H as [H H3%Z.eqb_eq]. apply andb_true_iff in H as [H1%Z.eqb_eq H2%Z.eqb_eq].
  unfold registers. rewrite fold_left_app. cbn [fold_left]. change (0x3d4 =? 0x3d4) with true. cbv iota.
  unfold cursor_of. rewrite H1, H2. change (0x0e =? 15) with false. change (0x0e =? 14) with true. change (0x0f =? 15) with true. cbv iota. by rewrite H3.
Qed.

(** Commands only add to the list of accesses. *)
Definition grows {A} (m : M vga A) : Prop := forall s a s', m s = Ok (a, s') -> exists l, events s' = events s ++ l.

Lemma grows_bind {A B} (m : M vga A) (k : A -> M vga B) : grows m -> (forall a, grows (k a)) -> grows (bind m k).
Proof.
  intros Hm Hk s b s' H. apply bind_ok_inv in H as (a & s1 & H1 & H2). apply Hm in H1 as [l1 E1]. apply Hk in H2 as [l2 E2].
  exists (l1 ++ l2). by rewrite E2, E1, app_assoc.
Qed.

Lemma grows_keeps {A} (m : M vga A) : keeps events m -> grows m.
Proof. intros Hm s a s' H%Hm. exists []. by rewrite H, app_nil_r. Qed.

Lemma grows_log e : grows (log e).
Proof. intros s a s' [= _ <-]. by exists [e]. Qed.

Lemma grows_pit c m f : grows (pit_configure_channel c m f).
Proof. intros s a s'. unfold pit_configure_channel. destruct (Rtc.pit_configure_channel _ _ _ _) as [[? l]|]; [|done]. intros [= _ <-]. by eexists. Qed.

Ltac grow :=
  repeat lazymatch goal with
  | |- grows (bind _ _) => apply grows_bind; [|intros ?]
  | |- grows (log _) => apply grows_log
  | |- grows (pit_configure_channel _ _ _) => apply grows_pit
  | |- grows (match ?x with _ => _ end) => destruct x
  | |- grows _ => apply grows_keeps; solve [msteps]
  end.

Lemma clear_row_grows n : forall y x, grows (clear_row_loop n y x).
Proof. induction n as [|n IH]; intros y x; cbn [clear_row_loop]; [grow|]. apply grows_bind; [unfold poke; grow|intros _; apply IH]. Qed.

Lemma cls_loop_grows n : forall y, grows (cls_loop n y).
Proof. induction n as [|n IH]; intros y; cbn [cls_loop]; [grow|]. apply grows_bind; [apply clear_row_grows|intros _; apply IH]. Qed.

Lemma newline_grows : grows newline.
Proof. unfold newline, scroll. grow. apply clear_row_grows. Qed.

Lemma init_grows : grows init.
Proof. unfold init, find_cursor. grow. Qed.

(** A character is written, and then the cursor of the hardware is set. *)
Lemma vga_putc_events c s s' : vga_putc c s = Ok (tt, s') -> exists l, let cp := (cx s' + COL_CNT * cy s') mod 65536 in
  events s' = (events s ++ l) ++ [Outw 0x3d4 (Z.lor 0x0e (Z.land cp 0xff00)); Outw 0x3d4 (Z.lor 0x0f (Z.shiftl cp 8) mod 65536)].
Proof.
  unfold vga_putc. intros H. apply bind_ok_inv in H as (old & s1 & H1 & H). apply bind_ok_inv in H as (? & s2 & H2 & H). apply bind_ok_inv in H as (? & s3 & H3 & H).
  assert (events s1 = events s) as E1 by (unfold intr_disable in H1; by minv H1). apply init_grows in H2 as [l2 E2].
  assert (exists l3, events s3 = events s2 ++ l3) as [l3 E3].
  { revert H3. match goal with |- ?m _ = _ -> _ => assert (grows m) as K; [|apply K] end.
    unfold cls, move_cursor, speaker_beep, speaker_on, speaker_off, out_gate, intr_disable, intr_set_level, poke.
    grow; first [apply newline_grows|apply cls_loop_grows]. }
  exists (l2 ++ l3). cbv [move_cursor log intr_set_level bind gets modify] in H. injection H as <-. cbn [events set_intr set_events cx cy]. rewrite E3, E2, E1. by rewrite <- !app_assoc.
Qed.

(** The hardware shows the cursor where the next character goes. *)
Definition points (s0 s : vga) : Prop := exists l, events s = events s0 ++ l /\ cursor_of (registers l) = cx s + 80 * cy s.

Lemma puts_points s0 cs : forall s p s', shows s p -> inited s = true -> points s0 s -> puts cs s = Ok (tt, s') -> points s0 s'.
Proof.
  induction cs as [|c cs IH]; intros s p s' Hs Hi Hc H; cbn [puts] in H; [by injection H as <-|].
  destruct (vga_putc_run c s p Hs Hi) as (s1 & Hr & Hs1 & E1). rewrite (bind_ok _ _ _ _ _ Hr) in H. unfold rest in E1. injection E1 as E1 _.
  apply (IH s1 (p_putc c p)); [done|congruence| |done]. destruct Hc as (l & El & _). apply vga_putc_events in Hr as [l' E]. cbv zeta in E.
  rewrite El, <- !app_assoc in E. eexists. split; [exact E|]. rewrite app_assoc. destruct Hs1 as [[_ _ _ _ Hcy] _ Hcx]. by apply move_cursor_sets.
Qed.

(** C12: Any text can be written to a display that has not been used yet,
    when the hardware has its cursor on the screen (below position 80 * 25),
    without a write outside of the frame buffer: the display shows the last 25
    rows of a roll of paper on which the text is typed, [cx] and [cy] are where
    the next character goes, and the words written to the ports set the cursor
    of the hardware to that place.  The interrupt level is as before. *)
Theorem vga_refines_paper cs s :
  inited s = false -> length (fb s) = 25%nat -> Forall (fun r => length r = 80%nat) (fb s) -> hardware_cursor < 2000 ->
  exists s' l, (init ;;; puts cs) s = Ok (tt, s') /\ shows s' (fold_left (fun p c => p_putc c p) cs (first_paper (fb s))) /\ intr_on s' = intr_on s /\
    events s' = events s ++ l /\ cursor_of (registers l) = cx s' + 80 * cy s'.
Proof.
  intros Hi Hl Hr Hc. assert (0 <= hardware_cursor) as H0.
  { unfold hardware_cursor, u8. pose proof (Z.mod_pos_bound (crt 0x0e) 256). pose proof (Z.mod_pos_bound (crt 0x0f) 256). lia. }
  unfold init. mnorm. rewrite Hi. cbn [negb]. destruct (find_cursor_run s) as (e & He). rewrite !bind_bind. mrun He. mnorm.
  set (s1 := set_inited true _).
  assert (0 <= hardware_cursor / 80 < 25) by (split; [apply Z.div_pos|apply Z.div_lt_upper_bound]; lia).
  pose proof (Z.mod_pos_bound hardware_cursor 80).
  assert (shows s1 (first_paper (fb s))) as Hs1.
  { split; [|unfold s1; cbn; lia..]. split; unfold s1; cbn [fb set_inited set_cy set_cx set_events cy first_paper rows prow].
    - by rewrite Hl.
    - lia.
    - done.
    - lia.
    - lia. }
  assert (points s s1) as Hp1.
  { unfold find_cursor, log in He. mnorm. exists [Outb 0x3d4 0x0e; Outb 0x3d4 0x0f]. unfold s1. cbn [events set_inited set_cy set_cx set_events cx cy]. split.
    - unfold bind, modify, ret in He. cbn in He. injection He as _ _ He. rewrite <- He. by rewrite <- app_assoc.
    - change (cursor_of (registers [Outb 0x3d4 0x0e; Outb 0x3d4 0x0f])) with hardware_cursor. pose proof (Z.div_mod hardware_cursor 80). lia. }
  destruct (puts_run cs s1 _ Hs1 eq_refl) as (s' & Hp & Hs' & E). destruct (puts_points s cs s1 _ s' Hs1 eq_refl Hp1 Hp) as (l & El & Ec).
  exists s', l. split; [done|]. split; [done|]. unfold rest in E. injection E as _ E. by rewrite E.
Qed.

End display.

(** A line that is longer than a row, at the end of the screen. *)
Lemma vga_refines_paper_witness :
  let s := mkVga 0 0 (repeat blank 25) false true 0 [] in
  let crt := fun r => if r =? 0x0e then 7 else 200 in
  exists s', (init crt ;;; puts crt (repeat 65 41 ++ [10; 66])) s = Ok (tt, s') /\ cx s' = 1 /\ cy s' = 24 /\ intr_on s' = true.
Proof.
  intros s crt. destruct (vga_refines_paper crt (repeat 65 41 ++ [10; 66]) s) as (s' & l & Hr & Hs & Hi & _);
    [reflexivity|reflexivity|apply Forall_forall; intros x Hx%list_elem_of_In%repeat_spec; subst x; reflexivity|vm_compute; reflexivity|].
  exists s'. split; [exact Hr|]. destruct Hs as [[_ _ _ Hrow _] Hcol _]. split; [|split; [|exact Hi]].
  - rewrite <- Hcol. vm_compute. reflexivity.
  - assert (cy s' = Z.of_nat (prow (fold_left (fun p c => p_putc c p) (repeat 65 41 ++ [10; 66]) (first_paper crt (fb s)))) -
      Z.of_nat (length (rows (fold_left (fun p c => p_putc c p) (repeat 65 41 ++ [10; 66]) (first_paper crt (fb s)))) - 25)) as -> by lia.
    vm_compute. reflexivity.
Defined.

End Vga.
