(* ===== verification/Intq.v ===== *)
(** * Interrupt queues (src/src/devices/intq.c)

    A circular buffer between threads and interrupt handlers.  Its functions
    run with interrupts off, so a thread inside of them is only ever
    interrupted where it blocks: in [thread_block] of [wait], in the lock of
    the queue, or where releasing the lock gives way to the thread that was
    waiting for it.  The threads that are inside, the place where each of
    them stopped, and what has been stored and taken so far are the state of
    the machine; which thread runs next, which waiter of the lock is taken
    and whether the release of the lock yields is left open, so the theorems
    hold for every scheduler.

    The lock of the queue is its semaphore: its value and its waiters. *)

From S2P Require Import Prelude.

Module Intq.

Definition INTQ_BUFSIZE : Z := 64.

Record intq : Type := mkIntq {
  lock_value : Z;
  lock_waiters : list Z;
  not_full : Z;
  not_empty : Z;
  buf : list Z;
  head : Z;
  tail : Z
}.

(** Calls of threads and where a thread stopped in one. *)
Inductive call : Type := Getc | Putc (byte : Z).
Inductive place : Type := At_loop | In_acquire | In_wait.

Record tstate : Type := mkT { op : call; pc : place; blocked : bool }.

Record world : Type := mkWorld {
  queue : intq;
  threads : gmap Z tstate;
  stored : list Z;
  taken : list Z
}.

#[export] Instance call_eq_dec : EqDecision call.
Proof. solve_decision. Defined.
#[export] Instance place_eq_dec : EqDecision place.
Proof. solve_decision. Defined.

Definition set_lock v ws q := mkIntq v ws (not_full q) (not_empty q) (buf q) (head q) (tail q).
Definition set_not_full v q := mkIntq (lock_value q) (lock_waiters q) v (not_empty q) (buf q) (head q) (tail q).
Definition set_not_empty v q := mkIntq (lock_value q) (lock_waiters q) (not_full q) v (buf q) (head q) (tail q).
Definition set_buf v q := mkIntq (lock_value q) (lock_waiters q) (not_full q) (not_empty q) v (head q) (tail q).
Definition set_head v q := mkIntq (lock_value q) (lock_waiters q) (not_full q) (not_empty q) (buf q) v (tail q).
Definition set_tail v q := mkIntq (lock_value q) (lock_waiters q) (not_full q) (not_empty q) (buf q) (head q) v.

Definition upd_queue (f : intq -> intq) : M world unit :=
  modify (fun w => mkWorld (f (queue w)) (threads w) (stored w) (taken w)).
Definition set_thread (t : Z) (v : tstate) : M world unit :=
  modify (fun w => mkWorld (queue w) (<[t := v]> (threads w)) (stored w) (taken w)).
Definition leave (t : Z) : M world unit :=
  modify (fun w => mkWorld (queue w) (delete t (threads w)) (stored w) (taken w)).
Definition log_stored (b : Z) : M world unit :=
  modify (fun w => mkWorld (queue w) (threads w) (stored w ++ [b]) (taken w)).
Definition log_taken (b : Z) : M world unit :=
  modify (fun w => mkWorld (queue w) (threads w) (stored w) (taken w ++ [b])).

(** [thread_unblock]. *)
Definition thread_unblock (t : Z) : M world unit :=
  v <- gets_opt (fun w => threads w !! t) ;;
  ASSERT (blocked v) ;;;
  set_thread t (mkT (op v) (pc v) false).

(** ** The queue *)

Definition next (pos : Z) : Z := (pos + 1) mod INTQ_BUFSIZE.
Definition intq_empty (q : intq) : bool := head q =? tail q.
Definition intq_full (q : intq) : bool := next (head q) =? tail q.

(** What is in the memory of the queue before does not matter. *)
Definition intq_init (b : list Z) : intq := mkIntq 1 [] NULL NULL b 0 0.

Definition condition (c : call) (q : intq) : bool := match c with Getc => intq_empty q | Putc _ => intq_full q end.
Definition waiter (c : call) (q : intq) : Z := match c with Getc => not_empty q | Putc _ => not_full q end.
Definition is_get (c : call) : bool := match c with Getc => true | Putc _ => false end.
Definition set_waiter (c : call) (t : Z) (q : intq) : intq := match c with Getc => set_not_empty t q | Putc _ => set_not_full t q end.

(** [wait] for the condition of [c], by thread [t]: it stops there. *)
Definition wait (t : Z) (c : call) : M world unit :=
  q <- gets queue ;;
  ASSERT (condition c q) ;;;
  upd_queue (set_waiter c t) ;;;
  set_thread t (mkT c In_wait true).

(** [signal] of the condition of [c]. *)
Definition signal (c : call) : M world unit :=
  q <- gets queue ;;
  ASSERT (negb (condition c q)) ;;;
  if negb (waiter c q =? NULL) then thread_unblock (waiter c q) ;;; upd_queue (set_waiter c NULL) else ret tt.

(** The lock: [sema_down] in its loop, [sema_up] with the waiter at [pick]. *)
Definition lock_acquire (t : Z) (c : call) (k : M world unit) : M world unit :=
  q <- gets queue ;;
  if lock_value q =? 0 then upd_queue (set_lock 0 (lock_waiters q ++ [t])) ;;; set_thread t (mkT c In_acquire true)
  else upd_queue (set_lock (lock_value q - 1) (lock_waiters q)) ;;; k.

Definition lock_release (pick : nat) : M world unit :=
  q <- gets queue ;;
  match lock_waiters q with
  | [] => upd_queue (set_lock (lock_value q + 1) [])
  | ws =>
      u <- gets_opt (fun _ => ws !! pick) ;;
      upd_queue (set_lock (lock_value q) (delete pick ws)) ;;;
      thread_unblock u ;;;
      q <- gets queue ;;
      upd_queue (set_lock (lock_value q + 1) (lock_waiters q))
  end.

(** After the loops. *)
Definition take : M world unit :=
  q <- gets queue ;;
  byte <- gets_opt (fun _ => buf q !! Z.to_nat (tail q)) ;;
  upd_queue (fun q => set_tail (next (tail q)) q) ;;;
  signal (Putc 0) ;;;
  log_taken byte.

Definition store (byte : Z) : M world unit :=
  q <- gets queue ;;
  (if head q <? Z.of_nat (length (buf q)) then upd_queue (fun q => set_buf (<[Z.to_nat (head q) := byte]> (buf q)) q) else fail Bad_access) ;;;
  upd_queue (fun q => set_head (next (head q)) q) ;;;
  signal Getc ;;;
  log_stored byte.

Definition finish (c : call) : M world unit := match c with Getc => take | Putc b => store b end.

(** The body of [intq_getc] and [intq_putc], from the test of the loop to the
    next place where the thread stops or returns. *)
Definition loop (t : Z) (c : call) : M world unit :=
  q <- gets queue ;;
  if condition c q then lock_acquire t c (wait t c)
  else finish c ;;; leave t.

(** In an interrupt handler the loop fails its first assertion. *)
Definition handler (c : call) : M world unit :=
  q <- gets queue ;;
  if condition c q then fail Assertion_failed else finish c.

(** Thread [t] runs on from where it stopped. *)
Definition resume (t : Z) (yields : bool) (pick : nat) : M world unit :=
  v <- gets_opt (fun w => threads w !! t) ;;
  match pc v with
  | At_loop => loop t (op v)
  | In_acquire => lock_acquire t (op v) (wait t (op v))
  | In_wait =>
      lock_release pick ;;;
      set_thread t (mkT (op v) At_loop false) ;;;
      if yields then ret tt else loop t (op v)
  end.

(** ** Runs *)

Inductive event : Type :=
| Call (t : Z) (c : call)
| Resume (t : Z) (yields : bool) (pick : nat)
| Handler (c : call).

(** What can happen: a thread that is outside calls, a thread that is not
    blocked runs, a handler runs that has checked the queue. *)
Definition enabled (w : world) (e : event) : bool :=
  match e with
  | Call t c => negb (t =? NULL) && bool_decide (threads w !! t = None)
  | Resume t yields pick =>
      match threads w !! t with
      | Some v => negb (blocked v) && (bool_decide (lock_waiters (queue w) = []) || (pick <? length (lock_waiters (queue w)))%nat)
      | None => false
      end
  | Handler c => negb (condition c (queue w))
  end.

Definition step (e : event) : M world unit :=
  match e with
  | Call t c => set_thread t (mkT c At_loop false) ;;; loop t c
  | Resume t yields pick => resume t yields pick
  | Handler c => handler c
  end.

Fixpoint run (es : list event) (w : world) : res (unit * world) :=
  match es with
  | [] => Ok (tt, w)
  | e :: es' => match step e w with Ok (_, w') => run es' w' | Err x => Err x end
  end.

(** Every event of the run is enabled where it happens. *)
Fixpoint possible (es : list event) (w : world) : bool :=
  match es with
  | [] => true
  | e :: es' => enabled w e && match step e w with Ok (_, w') => possible es' w' | Err _ => true end
  end.

Definition start (b : list Z) : world := mkWorld (intq_init b) ∅ [] [].

(** Two threads wait for a key; two keys arrive; the second thread panics. *)
Definition two_readers : list event :=
  [Call 1 Getc; Call 2 Getc; Handler (Putc 97); Resume 1 true 0; Resume 2 false 0].

(** ** The bytes in the queue *)

Definition count (q : intq) : Z := (head q - tail q) mod 64.

Definition cell (q : intq) (k : Z) : Z := default 0 (buf q !! Z.to_nat ((tail q + k) mod 64)).

Definition contents (q : intq) : list Z := map (cell q) (seqZ 0 (count q)).

Record q_ok (q : intq) : Prop := {
  qo_buf : length (buf q) = 64%nat;
  qo_head : 0 <= head q < 64;
  qo_tail : 0 <= tail q < 64
}.

Lemma count_cases q : q_ok q ->
  count q = head q - tail q /\ tail q <= head q \/ count q = head q - tail q + 64 /\ head q < tail q.
Proof.
  intros [_ Hh Ht]. unfold count. destruct (Z.le_gt_cases (tail q) (head q)); [left; by rewrite Z.mod_small by lia|right].
  replace (head q - tail q) with (head q - tail q + 64 + (-1) * 64) by lia. rewrite Z.mod_add, Z.mod_small by lia. lia.
Qed.

Lemma next_cases p : 0 <= p < 64 -> next p = p + 1 /\ p < 63 \/ next p = 0 /\ p = 63.
Proof.
  intros Hp. unfold next, INTQ_BUFSIZE. destruct (decide (p = 63)) as [->|]; [right; done|left]. rewrite Z.mod_small by lia. lia.
Qed.

Lemma mod64_cases p : 0 <= p < 128 -> p mod 64 = p /\ p < 64 \/ p mod 64 = p - 64 /\ 64 <= p.
Proof.
  intros Hp. destruct (Z.lt_ge_cases p 64); [left; by rewrite Z.mod_small by lia|right].
  replace p with (p - 64 + 1 * 64) at 1 by lia. rewrite Z.mod_add, Z.mod_small by lia. lia.
Qed.

Lemma empty_count q : q_ok q -> intq_empty q = (count q =? 0).
Proof. intros H. unfold intq_empty. pose proof (count_cases q H). destruct H. apply eq_true_iff_eq. rewrite !Z.eqb_eq. lia. Qed.

Lemma full_count q : q_ok q -> intq_full q = (count q =? 63).
Proof.
  intros H. unfold intq_full. pose proof (count_cases q H). pose proof (next_cases (head q) (qo_head _ H)). destruct H.
  apply eq_true_iff_eq. rewrite !Z.eqb_eq. lia.
Qed.

Lemma queue_length q : q_ok q -> Z.of_nat (length (contents q)) = count q.
Proof.
  intros H. unfold contents. rewrite length_map, length_seqZ. pose proof (count_cases q H). destruct H. lia.
Qed.

Lemma contents_take q : q_ok q -> intq_empty q = false ->
  exists b, buf q !! Z.to_nat (tail q) = Some b /\ q_ok (set_tail (next (tail q)) q) /\
    contents q = b :: contents (set_tail (next (tail q)) q) /\ count (set_tail (next (tail q)) q) = count q - 1.
Proof.
  intros H He. rewrite empty_count in He by done. apply Z.eqb_neq in He. pose proof (next_cases (tail q) (qo_tail _ H)) as Hn.
  assert (q_ok (set_tail (next (tail q)) q)) as H' by (destruct H; split; cbn; lia || done).
  pose proof (count_cases q H) as Hc. pose proof (count_cases _ H') as Hc'. cbn in Hc'. pose proof H as [Hb Hh Ht].
  destruct (lookup_lt_is_Some_2 (buf q) (Z.to_nat (tail q))) as [b Eb]; [lia|]. exists b. split; [done|]. split; [done|].
  assert (count (set_tail (next (tail q)) q) = count q - 1) as E by lia. split; [|done]. unfold contents. rewrite E.
  rewrite (seqZ_cons 0 (count q)) by lia. cbn [map]. f_equal.
  - unfold cell. rewrite Z.add_0_r, Z.mod_small, Eb by lia. done.
  - rewrite <- Z.sub_1_r. change (seqZ (Z.succ 0) (count q - 1)) with (seqZ (1 + 0) (count q - 1)). rewrite <- (fmap_add_seqZ 1 0), map_map. apply map_ext_in. intros k Hk. unfold cell. cbn [tail set_tail buf].
    do 3 f_equal. unfold next, INTQ_BUFSIZE. rewrite Zplus_mod_idemp_l. f_equal. lia.
Qed.

Lemma contents_store q b : q_ok q -> intq_full q = false ->
  let q' := set_head (next (head q)) (set_buf (<[Z.to_nat (head q) := b]> (buf q)) q) in
  q_ok q' /\ contents q' = contents q ++ [b] /\ count q' = count q + 1.
Proof.
  intros H Hf q'. rewrite full_count in Hf by done. apply Z.eqb_neq in Hf. pose proof (next_cases (head q) (qo_head _ H)) as Hn.
  assert (q_ok q') as H' by (destruct H; split; cbn; [by rewrite length_insert|lia..]).
  pose proof (count_cases q H) as Hc. pose proof (count_cases _ H') as Hc'. cbn in Hc'. pose proof H as [Hb Hh Ht].
  assert (count q' = count q + 1) as E by lia. split; [done|]. split; [|done]. unfold contents. rewrite E, seqZ_app by lia.
  rewrite map_app. f_equal.
  - apply map_ext_in. intros k Hk%list_elem_of_In%elem_of_seqZ. unfold cell. cbn [q' tail buf set_head set_buf]. rewrite list_lookup_insert_ne; [done|].
    pose proof (mod64_cases (tail q + k)). lia.
  - rewrite seqZ_cons by lia. change (seqZ _ (Z.pred 1)) with (@nil Z). cbn [map]. rewrite Z.add_0_l. unfold cell. cbn [q' tail buf set_head set_buf].
    replace ((tail q + count q) mod 64) with (head q); [by rewrite list_lookup_insert_eq by lia|].
    pose proof (mod64_cases (tail q + count q)). lia.
Qed.

(** ** The invariant *)

(** The lock is held by the one thread that is in [wait]; its waiters are the
    threads blocked on it; and a thread blocked in [wait] is registered in
    the queue, whose state is still the one it waits for.  The calls are
    among [K]; and with [alone] there is never more than one thread inside,
    which then never waits for the lock. *)
(** Case analysis on look-ups in changed thread tables. *)
Ltac inserts :=
  repeat match goal with
  | H : <[_ := _]> _ !! _ = Some _ |- _ => apply lookup_insert_Some in H as [[? ?]|[? ?]]; simplify_eq; cbn [op pc blocked] in *
  | H : delete _ _ !! _ = Some _ |- _ => apply lookup_delete_Some in H as [? ?]
  end; try done.

Section invariant.
Context (K : call -> Prop) (alone : bool).

Definition lone (th : gmap Z tstate) : Prop :=
  alone = true -> forall t v, th !! t = Some v -> pc v <> In_acquire /\ forall t' v', th !! t' = Some v' -> t' = t.

Record inv (w : world) : Prop := {
  i_queue : q_ok (queue w);
  i_fifo : stored w = taken w ++ contents (queue w);
  i_null : threads w !! NULL = None;
  i_lock : lock_value (queue w) = 0 /\ (exists t v, threads w !! t = Some v /\ pc v = In_wait) \/
           lock_value (queue w) = 1 /\ forall t v, threads w !! t = Some v -> pc v <> In_wait;
  i_one : forall t v t' v', threads w !! t = Some v -> threads w !! t' = Some v' -> pc v = In_wait -> pc v' = In_wait -> t = t';
  i_nodup : NoDup (lock_waiters (queue w));
  i_waiters : forall t, t ∈ lock_waiters (queue w) <-> exists v, threads w !! t = Some v /\ pc v = In_acquire /\ blocked v = true;
  i_loop : forall t v, threads w !! t = Some v -> pc v = At_loop -> blocked v = false;
  i_wait : forall t v, threads w !! t = Some v -> pc v = In_wait -> blocked v = true -> waiter (op v) (queue w) = t /\ condition (op v) (queue w) = true;
  i_registered : forall c, waiter c (queue w) <> NULL ->
    exists v, threads w !! waiter c (queue w) = Some v /\ pc v = In_wait /\ blocked v = true /\ (is_get (op v) = is_get c);
  i_handover : lock_waiters (queue w) <> [] -> lock_value (queue w) = 0 \/
    exists t v, threads w !! t = Some v /\ pc v = In_acquire /\ blocked v = false;
  i_calls : forall t v, threads w !! t = Some v -> K (op v);
  i_lone : lone (threads w)
}.

Lemma start_inv b : length b = 64%nat -> inv (start b).
Proof.
  intros Hb.
  assert (forall t v (P : Prop), threads (start b) !! t = Some v -> P) as Hno by (intros t v P; cbn; by rewrite lookup_empty).
  split; try (intros; eapply Hno; eassumption); [by split|done|done|right; split; [done|]; intros; by eapply Hno|apply NoDup_nil_2| |by intros []|done|intros Ha t v Hv; by eapply Hno].
  intros t. cbn. rewrite elem_of_nil. split; [done|]. intros (v & Hv & _). by eapply Hno.
Qed.

Lemma lone_insert th t v v' : th !! t = Some v -> lone th -> (alone = true -> pc v' <> In_acquire) -> lone (<[t := v']> th).
Proof.
  intros Ht Hl Hp Ha t1 u1 H1. specialize (Hl Ha). split; [inserts; [by apply Hp|by apply (Hl t1 u1)]|].
  intros t2 u2 H2. inserts; naive_solver.
Qed.

Lemma lone_delete th t : lone th -> lone (delete t th).
Proof. intros Hl Ha t1 u1 H1. inserts. destruct (Hl Ha t1 u1) as [P A]; [done|]. split; [done|]. intros t2 u2 H2. inserts. eauto. Qed.

(** The thread that was waiting for [c] runs again. *)
Definition woken (c : call) (w : world) : world :=
  match threads w !! waiter c (queue w) with
  | Some v => mkWorld (set_waiter c NULL (queue w)) (<[waiter c (queue w) := mkT (op v) (pc v) false]> (threads w)) (stored w) (taken w)
  | None => w
  end.

Lemma woken_stored c w : stored (woken c w) = stored w.
Proof. unfold woken. by case_match. Qed.

Lemma woken_taken c w : taken (woken c w) = taken w.
Proof. unfold woken. by case_match. Qed.

Lemma waiter_set c q t : waiter c (set_waiter c t q) = t.
Proof. by destruct c. Qed.

Lemma waiter_set_other c c' q t : is_get c <> is_get c' -> waiter c (set_waiter c' t q) = waiter c q.
Proof. by destruct c, c'. Qed.

Lemma waiter_kind c c' q : is_get c = is_get c' -> waiter c q = waiter c' q.
Proof. by destruct c, c'. Qed.

Lemma condition_kind c c' q : is_get c = is_get c' -> condition c q = condition c' q.
Proof. by destruct c, c'. Qed.

(** The buffer changes so that the condition of [c] does not hold any more,
    while only callers of [c] can be waiting; they are woken. *)
Lemma inv_buffer w q' st tk c :
  inv w -> q_ok q' -> st = tk ++ contents q' -> lock_value q' = lock_value (queue w) -> lock_waiters q' = lock_waiters (queue w) ->
  (forall c, waiter c q' = waiter c (queue w)) ->
  (forall t v, threads w !! t = Some v -> pc v = In_wait -> blocked v = true -> is_get (op v) = is_get c) ->
  inv (woken c (mkWorld q' (threads w) st tk)).
Proof.
  intros Hi Hq Hf Hl Hw Hwt Hk. unfold woken. cbn [queue threads stored taken].
  destruct (threads w !! waiter c q') as [v|] eqn:Ev.
  - rewrite Hwt in *. destruct (decide (waiter c (queue w) = NULL)) as [E|Hne]; [by rewrite E, (i_null _ Hi) in Ev|].
    destruct (i_registered _ Hi c Hne) as (v' & Ev' & Hpc & Hb & Hg). rewrite Ev in Ev'. injection Ev' as <-. destruct Hi.
    split; cbn [queue threads stored taken].
    + by destruct c, Hq.
    + by destruct c.
    + by rewrite lookup_insert_ne.
    + destruct i_lock0 as [[? (t & u & Ht & Hu)]|[? Hn]]; [left|by edestruct Hn].
      replace (lock_value (set_waiter c NULL q')) with 0 by (destruct c; cbn; congruence). split; [done|].
      eexists _, _. split; [apply lookup_insert_eq|done].
    + intros t1 u1 t2 u2 H1 H2 P1 P2. by inserts; eauto.
    + by destruct c; cbn; rewrite ?Hw.
    + intros t. replace (lock_waiters (set_waiter c NULL q')) with (lock_waiters (queue w)) by (by destruct c; cbn; rewrite Hw).
      rewrite i_waiters0. split; intros (u & Hu & P & B); [|by inserts; eauto]. exists u. split; [|done]. rewrite lookup_insert_ne; [done|]. intros <-. congruence.
    + intros t u Hu P. by inserts; eauto.
    + intros t u Hu P B. inserts. pose proof (Hk t u ltac:(done) P B) as E. destruct (i_wait0 t u) as [W _]; try done. rewrite (waiter_kind _ c _ E) in W. congruence.
    + intros c' Hc'. destruct (decide (is_get c' = is_get c)) as [E|E]; [by rewrite (waiter_kind _ c _ E), waiter_set in Hc'|].
      rewrite waiter_set_other, Hwt in Hc' |- * by done. destruct (i_registered0 c' Hc') as (u & Hu & P & B & G). rewrite (Hk _ u Hu P B) in G. congruence.
    + replace (lock_waiters (set_waiter c NULL q')) with (lock_waiters (queue w)) by (by destruct c; cbn; rewrite Hw).
      intros Hne'. left. replace (lock_value (set_waiter c NULL q')) with (lock_value (queue w)) by (by destruct c; cbn; rewrite Hl).
      destruct i_lock0 as [[? _]|[_ Hn]]; [done|by edestruct Hn].
    + intros t u Hu. inserts; eauto.
    + by apply (lone_insert _ _ v); [..|intros _; cbn; rewrite Hpc].
  - rewrite Hwt in Ev. assert (waiter c (queue w) = NULL) as E by (destruct (decide (waiter c (queue w) = NULL)); [done|]; destruct (i_registered _ Hi c) as (v & ? & _); congruence).
    assert (forall t v, threads w !! t = Some v -> pc v = In_wait -> blocked v = true -> False) as Hnone.
    { intros t v Hv P B. destruct (i_wait _ Hi t v Hv P B) as [W _]. rewrite (waiter_kind _ c _ (Hk t v Hv P B)), E in W. subst t. by rewrite (i_null _ Hi) in Hv. }
    destruct Hi. split; cbn [queue threads stored taken]; rewrite ?Hl, ?Hw; try done.
    + intros t v Hv P B. by edestruct Hnone.
    + intros c'. rewrite Hwt. apply i_registered0.
Qed.

Lemma signal_run c w :
  condition c (queue w) = false -> threads w !! NULL = None ->
  (waiter c (queue w) <> NULL -> exists v, threads w !! waiter c (queue w) = Some v /\ blocked v = true) ->
  signal c w = Ok (tt, woken c w).
Proof.
  intros Hc Hn Hw. unfold signal, woken. mnorm. rewrite Hc. cbn [negb]. mnorm. destruct (Z.eqb_spec (waiter c (queue w)) NULL) as [E|Hne]; cbn [negb].
  - by rewrite E, Hn.
  - destruct (Hw Hne) as (v & Ev & Hb). unfold thread_unblock, bind, gets_opt. rewrite Ev. unfold ASSERT. rewrite Hb. done.
Qed.

(** The other threads as they were. *)
Definition same_threads (w w' : world) : Prop :=
  (forall t v, threads w !! t = Some v -> pc v <> In_wait -> threads w' !! t = Some v) /\
  (forall t v', threads w' !! t = Some v' -> exists v, threads w !! t = Some v /\ op v' = op v /\ pc v' = pc v).

Lemma woken_same c w : (forall v, threads w !! waiter c (queue w) = Some v -> pc v = In_wait) -> same_threads w (woken c w).
Proof.
  intros Hp. unfold woken. destruct (threads w !! waiter c (queue w)) as [u|] eqn:Eu; [|split; eauto]. split; cbn [threads].
  - intros t v Hv P. rewrite lookup_insert_ne; [done|]. intros <-. rewrite Eu in Hv. injection Hv as <-. by apply P, Hp.
  - intros t v' Hv'. inserts; eauto.
Qed.

(** What a call that has been carried out adds to the histories. *)
Definition logs (c : call) (w w' : world) : Prop :=
  match c with
  | Getc => stored w' = stored w /\ exists b, taken w' = taken w ++ [b]
  | Putc b => stored w' = stored w ++ [b] /\ taken w' = taken w
  end.

(** What [take] and [store] do after they have changed the buffer. *)
Lemma signalled w q' c st tk :
  inv w -> q_ok q' -> st = tk ++ contents q' -> lock_value q' = lock_value (queue w) -> lock_waiters q' = lock_waiters (queue w) ->
  (forall c, waiter c q' = waiter c (queue w)) -> condition c q' = false ->
  (forall t v, threads w !! t = Some v -> pc v = In_wait -> blocked v = true -> is_get (op v) = is_get c) ->
  let w1 := mkWorld q' (threads w) (stored w) (taken w) in
  let w2 := mkWorld (queue (woken c w1)) (threads (woken c w1)) st tk in
  signal c w1 = Ok (tt, woken c w1) /\ inv w2 /\ same_threads w w2.
Proof.
  intros Hi Hq Hf Hl Hw Hwt Hc Hk w1 w2.
  assert (forall v, threads w1 !! waiter c (queue w1) = Some v -> pc v = In_wait /\ blocked v = true) as Hreg.
  { intros v Hv. cbn in Hv. rewrite Hwt in Hv. destruct (decide (waiter c (queue w) = NULL)) as [E|Hne]; [by rewrite E, (i_null _ Hi) in Hv|].
    destruct (i_registered _ Hi c Hne) as (u & Hu & P & B & _). rewrite Hu in Hv. by injection Hv as <-. }
  assert (w2 = woken c (mkWorld q' (threads w) st tk)) as E2 by (unfold w2, woken; cbn [w1 queue threads]; by destruct (threads w !! waiter c q')).
  split; [|split].
  - apply signal_run; [done|apply (i_null _ Hi)|]. intros Hne. cbn in Hne. rewrite Hwt in Hne. destruct (i_registered _ Hi c Hne) as (v & Hv & _ & B & _).
    exists v. cbn. by rewrite Hwt.
  - rewrite E2. by apply inv_buffer.
  - rewrite E2. apply (woken_same c (mkWorld q' (threads w) st tk)). intros v Hv. by apply Hreg.
Qed.

Lemma no_other_kind w c : inv w -> condition c (queue w) = false ->
  forall t v, threads w !! t = Some v -> pc v = In_wait -> blocked v = true -> is_get (op v) <> is_get c.
Proof.
  intros Hi Hc t v Hv P B E. destruct (i_wait _ Hi t v Hv P B) as [_ C]. rewrite (condition_kind _ c _ E) in C. congruence.
Qed.

Lemma finish_ok w c : inv w -> condition c (queue w) = false -> exists w', finish c w = Ok (tt, w') /\ inv w' /\ same_threads w w' /\ logs c w w'.
Proof.
  intros Hi He. pose proof (no_other_kind w c Hi He) as Hk. pose proof (i_queue _ Hi) as Hq0. pose proof (count_cases _ Hq0) as Hcc. destruct c as [|b].
  - destruct (contents_take _ Hq0 He) as (b & Eb & Hq & Ec & Hn).
    destruct (signalled w (set_tail (next (tail (queue w))) (queue w)) (Putc 0) (stored w) (taken w ++ [b])) as (Hs & H); try done.
    + by rewrite (i_fifo _ Hi), Ec, <- app_assoc.
    + cbn [condition]. rewrite full_count by done. apply Z.eqb_neq. destruct Hq0. lia.
    + intros t v Hv P B. specialize (Hk t v Hv P B). destruct (op v); cbn in *; congruence.
    + eexists. split; [|destruct H; split_and!; [done|done|by cbn; eauto..]]. unfold finish, take. mnorm. unfold gets_opt at 1. rewrite (bind_ok _ _ w b w) by (cbn beta; by rewrite Eb).
      unfold upd_queue. mnorm. mrun Hs. unfold log_taken, log_stored, modify. by rewrite woken_stored, woken_taken.
  - destruct (contents_store _ b Hq0 He) as (Hq & Ec & Hn).
    destruct (signalled w (set_head (next (head (queue w))) (set_buf (<[Z.to_nat (head (queue w)) := b]> (buf (queue w))) (queue w))) Getc (stored w ++ [b]) (taken w)) as (Hs & H); try done.
    + by rewrite (i_fifo _ Hi), Ec, <- app_assoc.
    + intros t v Hv P B. specialize (Hk t v Hv P B). destruct (op v); cbn in *; congruence.
    + eexists. split; [|destruct H; split_and!; [done|done|by cbn; eauto..]]. unfold finish, store. mnorm. rewrite (proj2 (Z.ltb_lt _ _)) by (destruct Hq0 as [-> ? ?]; lia).
      unfold upd_queue. mnorm. mrun Hs. unfold log_taken, log_stored, modify. by rewrite woken_stored, woken_taken.
Qed.

Lemma leave_ok w t v : inv w -> threads w !! t = Some v -> pc v = At_loop -> inv (mkWorld (queue w) (delete t (threads w)) (stored w) (taken w)).
Proof.
  intros Hi Hv Hp. pose proof (i_loop _ Hi t v Hv Hp) as Hb.
  assert (forall t' u, threads w !! t' = Some u -> pc u <> At_loop -> delete t (threads w) !! t' = Some u) as Hkeep.
  { intros t' u Hu P. rewrite lookup_delete_ne; [done|]. intros ->. congruence. }
  destruct Hi. split; cbn [queue threads stored taken]; try done.
  - by rewrite lookup_delete_None; right.
  - destruct i_lock0 as [[? (t' & u & Hu & P)]|[? Hn]]; [left|right]; (split; [done|]).
    + exists t', u. split; [apply Hkeep; congruence|done].
    + intros t' u Hu. inserts. eauto.
  - intros. inserts. eauto.
  - intros t'. rewrite i_waiters0. split; intros (u & Hu & P & B); [|inserts; eauto]. exists u. split; [apply Hkeep; congruence|done].
  - intros. inserts. eauto.
  - intros. inserts. eauto.
  - intros c Hne. destruct (i_registered0 c Hne) as (u & Hu & P & R). exists u. split; [apply Hkeep; congruence|done].
  - intros Hne. destruct (i_handover0 Hne) as [|(t' & u & Hu & P & B)]; [by left|right]. exists t', u. split; [apply Hkeep; congruence|done].
  - intros. inserts. eauto.
  - by apply lone_delete.
Qed.

Lemma call_ok w t c : inv w -> K c -> (alone = true -> threads w = ∅) -> t <> NULL -> threads w !! t = None -> inv (mkWorld (queue w) (<[t := mkT c At_loop false]> (threads w)) (stored w) (taken w)).
Proof.
  intros Hi HK Ha Hn Ht.
  assert (forall t' u, threads w !! t' = Some u -> <[t := mkT c At_loop false]> (threads w) !! t' = Some u) as Hkeep.
  { intros t' u Hu. rewrite lookup_insert_ne; [done|]. intros ->. congruence. }
  destruct Hi. split; cbn [queue threads stored taken]; try done.
  - by rewrite lookup_insert_ne.
  - destruct i_lock0 as [[? (t' & u & Hu & P)]|[? Hno]]; [left; eauto 6|right]. split; [done|]. intros t' u Hu. inserts. eauto.
  - intros. inserts. eauto.
  - intros t'. rewrite i_waiters0. split; intros (u & Hu & P & B); [|inserts; eauto]. eauto.
  - intros. inserts. eauto.
  - intros. inserts. eauto.
  - intros c' Hne. destruct (i_registered0 c' Hne) as (u & Hu & R). eauto.
  - intros Hne. destruct (i_handover0 Hne) as [|(t' & u & Hu & P & B)]; [by left|right; eauto 6].
  - intros. inserts; eauto.
  - intros H t1 u1 H1. rewrite (Ha H) in H1. inserts. split; [done|]. intros t2 u2 H2. rewrite (Ha H) in H2. by inserts.
Qed.

(** A thread that is not in [wait] blocks on the lock. *)
Lemma block_ok w t v : inv w -> threads w !! t = Some v -> pc v <> In_wait -> blocked v = false -> lock_value (queue w) = 0 ->
  inv (mkWorld (set_lock 0 (lock_waiters (queue w) ++ [t]) (queue w)) (<[t := mkT (op v) In_acquire true]> (threads w)) (stored w) (taken w)).
Proof.
  intros Hi Ht Hp Hb Hl.
  assert (t ∉ lock_waiters (queue w)) as Hnew by (rewrite (i_waiters _ Hi); intros (u & Hu & _ & B); congruence).
  assert (forall t' u, threads w !! t' = Some u -> pc u = In_wait -> <[t := mkT (op v) In_acquire true]> (threads w) !! t' = Some u) as Hkeep.
  { intros t' u Hu P. rewrite lookup_insert_ne; [done|]. intros ->. congruence. }
  destruct Hi. split; cbn [queue threads stored taken lock_value lock_waiters set_lock]; try done.
  - by destruct i_queue0.
  - rewrite lookup_insert_ne; [done|]. intros ->. congruence.
  - destruct i_lock0 as [[? (t' & u & Hu & P)]|[? Hno]]; [left; eauto 6|congruence].
  - intros. inserts. eauto.
  - apply NoDup_app. split; [done|]. split; [set_solver|apply NoDup_singleton].
  - intros t'. rewrite elem_of_app, i_waiters0, list_elem_of_singleton. split.
    + intros [(u & Hu & P & B)| ->]; [exists u; split; [|done]|by eexists; rewrite lookup_insert_eq]. rewrite lookup_insert_ne; [done|]. intros ->. congruence.
    + intros (u & Hu & P & B). inserts; [by right|]. left. eauto.
  - intros. inserts. eauto.
  - intros t' u Hu P B. inserts. by apply (i_wait0 t' u).
  - intros c' Hne. destruct (i_registered0 c') as (u & Hu & P & R); [by destruct c'|]. exists u. split; [|done]. destruct c'; by apply Hkeep.
  - by left.
  - intros. inserts; eauto.
  - apply (lone_insert _ _ v); [done..|]. intros Ha. destruct i_lock0 as [[_ (t' & u & Hu & P)]|[]]; [|lia].
    destruct (i_lone0 Ha t' u Hu) as [_ E]. rewrite <- (E t v Ht) in Hu. congruence.
Qed.

(** A thread takes the free lock and waits. *)
Lemma wait_ok w t v : inv w -> threads w !! t = Some v -> pc v <> In_wait -> blocked v = false -> lock_value (queue w) = 1 ->
  condition (op v) (queue w) = true ->
  inv (mkWorld (set_waiter (op v) t (set_lock 0 (lock_waiters (queue w)) (queue w))) (<[t := mkT (op v) In_wait true]> (threads w)) (stored w) (taken w)).
Proof.
  intros Hi Ht Hp Hb Hl Hc.
  assert (forall t' u, threads w !! t' = Some u -> pc u <> In_wait) as Hno by (destruct (i_lock _ Hi) as [[? _]|[_ ?]]; [congruence|done]).
  assert (forall c, waiter c (queue w) = NULL) as Hnull.
  { intros c. destruct (decide (waiter c (queue w) = NULL)); [done|]. destruct (i_registered _ Hi c) as (u & Hu & P & _); [done|]. by apply Hno in Hu. }
  assert (forall q, lock_waiters (set_waiter (op v) t q) = lock_waiters q /\ lock_value (set_waiter (op v) t q) = lock_value q) as Hset by (by destruct (op v)).
  destruct Hi. split; cbn [queue threads stored taken]; rewrite ?(proj1 (Hset _)), ?(proj2 (Hset _)); cbn [lock_waiters lock_value set_lock]; try done.
  - by destruct (op v), i_queue0.
  - by destruct (op v).
  - rewrite lookup_insert_ne; [done|]. intros ->. congruence.
  - left. split; [done|]. eexists _, _. by rewrite lookup_insert_eq.
  - intros t1 u1 t2 u2 H1 H2 P1 P2. inserts; by edestruct Hno.
  - intros t'. rewrite i_waiters0. split; intros (u & Hu & P & B); [|inserts; eauto]. exists u. split; [|done]. rewrite lookup_insert_ne; [done|]. intros ->. congruence.
  - intros. inserts. eauto.
  - intros t' u Hu P B. inserts; [|by edestruct Hno]. rewrite waiter_set. split; [done|]. by destruct (op v).
  - intros c' Hne. destruct (decide (is_get c' = is_get (op v))) as [E|E].
    + rewrite (waiter_kind _ _ _ E), waiter_set. eexists. rewrite lookup_insert_eq. by split.
    + rewrite waiter_set_other in Hne by done. by specialize (Hnull c'); destruct c'.
  - by left.
  - intros. inserts; eauto.
  - by apply (lone_insert _ _ v).
Qed.

(** The holder of the lock gives it back. *)
Lemma unlock_ok w t v : inv w -> threads w !! t = Some v -> pc v = In_wait -> blocked v = false ->
  (lock_waiters (queue w) <> [] -> exists t v, threads w !! t = Some v /\ pc v = In_acquire /\ blocked v = false) ->
  inv (mkWorld (set_lock 1 (lock_waiters (queue w)) (queue w)) (<[t := mkT (op v) At_loop false]> (threads w)) (stored w) (taken w)).
Proof.
  intros Hi Ht Hp Hb Hr.
  assert (forall t' u, threads w !! t' = Some u -> pc u = In_wait -> t' = t) as Hone by (intros t' u Hu P; by eapply (i_one _ Hi)).
  assert (forall t' u, threads w !! t' = Some u -> pc u = In_acquire -> <[t := mkT (op v) At_loop false]> (threads w) !! t' = Some u) as Hkeep.
  { intros t' u Hu P. rewrite lookup_insert_ne; [done|]. intros ->. congruence. }
  destruct Hi. split; cbn [queue threads stored taken lock_value lock_waiters set_lock]; try done.
  - by destruct i_queue0.
  - rewrite lookup_insert_ne; [done|]. intros ->. congruence.
  - right. split; [done|]. intros t' u Hu P. inserts. by apply H, eq_sym, (Hone t' u).
  - intros. inserts. eauto.
  - intros t'. rewrite i_waiters0. split; intros (u & Hu & P & B); [|inserts; eauto]. eauto.
  - intros. inserts. eauto.
  - intros t' u Hu P B. inserts. by edestruct H; rewrite (Hone t' u).
  - intros c' Hne. destruct (i_registered0 c') as (u & Hu & P & B & R); [by destruct c'|]. rewrite (Hone _ u Hu P) in Hu. congruence.
  - intros Hne. right. destruct (Hr Hne) as (t' & u & Hu & P & B). eauto 6.
  - intros. inserts; eauto.
  - by apply (lone_insert _ _ v).
Qed.

Lemma delete_one (l : list Z) k t : NoDup l -> l !! k = Some t -> NoDup (delete k l) /\ forall x, x ∈ delete k l <-> x ∈ l /\ x <> t.
Proof.
  intros Hnd (l1 & l2 & -> & ->)%list_elem_of_split_length. rewrite delete_middle.
  apply NoDup_app in Hnd as (N1 & N2 & N3). apply NoDup_cons in N3 as [N3 N4]. split; [apply NoDup_app; set_solver|set_solver].
Qed.

(** A waiter of the lock is taken off the list. *)
Lemma unblock_ok w k t v : inv w -> lock_waiters (queue w) !! k = Some t -> threads w !! t = Some v -> lock_value (queue w) = 0 ->
  inv (mkWorld (set_lock 0 (delete k (lock_waiters (queue w))) (queue w)) (<[t := mkT (op v) (pc v) false]> (threads w)) (stored w) (taken w)).
Proof.
  intros Hi Hk Ht Hl.
  assert (pc v = In_acquire) as Hp.
  { destruct (proj1 (i_waiters _ Hi t)) as (u & Hu & P & _); [by eapply list_elem_of_lookup_2|]. congruence. }
  destruct (delete_one _ _ _ (i_nodup _ Hi) Hk) as [Hnd Hdel].
  assert (forall t' u, threads w !! t' = Some u -> pc u = In_wait -> <[t := mkT (op v) (pc v) false]> (threads w) !! t' = Some u) as Hkeep.
  { intros t' u Hu P. rewrite lookup_insert_ne; [done|]. intros ->. congruence. }
  destruct Hi. split; cbn [queue threads stored taken lock_value lock_waiters set_lock]; try done.
  - by destruct i_queue0.
  - rewrite lookup_insert_ne; [done|]. intros ->. congruence.
  - destruct i_lock0 as [[? (t' & u & Hu & P)]|[? Hno]]; [left; eauto 6|congruence].
  - intros t1 u1 t2 u2 H1 H2 P1 P2. inserts; [congruence..|]. eauto.
  - intros t'. rewrite Hdel, i_waiters0. split.
    + intros [(u & Hu & R) Hne]. exists u. by rewrite lookup_insert_ne.
    + intros (u & Hu & P & B). inserts. eauto.
  - intros t' u Hu P. inserts. eauto.
  - intros t' u Hu P B. inserts. by apply (i_wait0 t' u).
  - intros c' Hne. destruct (i_registered0 c') as (u & Hu & P & R); [by destruct c'|]. exists u. split; [|done]. destruct c'; by apply Hkeep.
  - by left.
  - intros. inserts; eauto.
  - apply (lone_insert _ _ v); [done..|]. intros Ha. by destruct (i_lone0 Ha t v Ht).
Qed.

(** ** Steps *)

Lemma lock_value_cases w : inv w -> lock_value (queue w) = 0 \/ lock_value (queue w) = 1.
Proof. intros Hi. destruct (i_lock _ Hi) as [[]|[]]; auto. Qed.

(** Nothing has been stored or taken; or the call of [t] has returned. *)
Definition untouched (w w' : world) : Prop :=
  taken w' = taken w /\ head (queue w') = head (queue w) /\ tail (queue w') = tail (queue w).

Definition progressed (t : Z) (c : call) (w w' : world) : Prop :=
  (is_get c = false -> taken w' = taken w) /\
  (threads w' !! t = None \/ head (queue w') = head (queue w) /\ tail (queue w') = tail (queue w)).

Lemma untouched_progressed t c w w' : untouched w w' -> progressed t c w w'.
Proof. intros (H1 & H2 & H3). split; auto. Qed.

Lemma acquire_ok w t v : inv w -> threads w !! t = Some v -> pc v <> In_wait -> blocked v = false ->
  (exists w', lock_acquire t (op v) (wait t (op v)) w = Ok (tt, w') /\ inv w' /\ untouched w w') \/
  lock_acquire t (op v) (wait t (op v)) w = Err Assertion_failed /\ condition (op v) (queue w) = false.
Proof.
  intros Hi Ht Hp Hb. unfold lock_acquire. mnorm. destruct (lock_value_cases w Hi) as [Hl|Hl]; rewrite Hl; cbn [Z.eqb].
  - left. unfold upd_queue, set_thread. mnorm. cbn [queue threads stored taken].
    eexists. split; [reflexivity|]. cbn [queue threads stored taken]. by split; [apply block_ok|].
  - unfold wait, upd_queue. mnorm. cbn [queue].
    replace (condition (op v) (set_lock (1 - 1) (lock_waiters (queue w)) (queue w))) with (condition (op v) (queue w)) by (by destruct (op v)).
    destruct (condition (op v) (queue w)) eqn:Hc; [left|by right]. eexists. split; [unfold set_thread, bind, modify, ASSERT, ret; reflexivity|]. cbn [threads stored taken queue]. split; [by apply wait_ok|]. by destruct (op v).
Qed.

Lemma loop_ok w t c : inv w -> threads w !! t = Some (mkT c At_loop false) -> exists w', loop t c w = Ok (tt, w') /\ inv w' /\ progressed t c w w'.
Proof.
  intros Hi Ht. unfold loop. mnorm. destruct (condition c (queue w)) eqn:Hc.
  - destruct (acquire_ok w t _ Hi Ht) as [(w' & Hr & Hi' & Hw')|[_ H]]; [done|done|exists w'; eauto using untouched_progressed|]. cbn in H. congruence.
  - destruct (finish_ok w c Hi Hc) as (w' & Hr & Hi' & [Hs _] & Hlog). mrun Hr. eexists. split; [reflexivity|].
    split; [by apply (leave_ok w' t (mkT c At_loop false)); [|apply Hs|]|]. split; [destruct c; [done|]; by destruct Hlog|]. left. apply lookup_delete_eq.
Qed.

Lemma release_ok w t v k : inv w -> threads w !! t = Some v -> pc v = In_wait -> blocked v = false ->
  lock_waiters (queue w) = [] \/ (k < length (lock_waiters (queue w)))%nat ->
  exists w', (forall A (m : M world A), (lock_release k ;;; set_thread t (mkT (op v) At_loop false) ;;; m) w = m w') /\ inv w' /\
    threads w' !! t = Some (mkT (op v) At_loop false) /\ untouched w w'.
Proof.
  intros Hi Ht Hp Hb Hk. assert (lock_value (queue w) = 0) as Hl by (destruct (i_lock _ Hi) as [[? _]|[_ Hn]]; [done|by edestruct Hn]).
  destruct (decide (lock_waiters (queue w) = [])) as [E|Hne].
  - eexists. split; [|split; [apply (unlock_ok w t v Hi Ht Hp Hb); by rewrite E|by split; [apply lookup_insert_eq|]]].
    intros A m. unfold lock_release, upd_queue, set_thread. mnorm. rewrite E, Hl. mnorm. done.
  - destruct (lookup_lt_is_Some_2 (lock_waiters (queue w)) k) as [u Hu]; [tauto|].
    destruct (proj1 (i_waiters _ Hi u)) as (x & Hx & Px & Bx); [by eapply list_elem_of_lookup_2|].
    pose proof (unblock_ok w k u x Hi Hu Hx Hl) as Hi1. set (w1 := mkWorld _ _ _ _) in Hi1. assert (t <> u) as Htu by congruence.
    assert (threads w1 !! t = Some v) as Ht1 by (cbn; by rewrite lookup_insert_ne).
    eexists. split; [|split; [apply (unlock_ok w1 t v Hi1 Ht1 Hp Hb)|by split; [apply lookup_insert_eq|]]].
    + intros A m. unfold lock_release. mnorm. destruct (lock_waiters (queue w)) as [|y ws] eqn:Ew; [done|].
      mnorm. erewrite bind_ok by (unfold gets_opt; by rewrite Hu). unfold upd_queue, thread_unblock. mnorm.
      erewrite bind_ok by (unfold gets_opt; cbn [threads]; by rewrite Hx). rewrite Bx.
      unfold set_thread. mnorm. cbn [queue threads stored taken lock_value lock_waiters set_lock]. unfold w1. rewrite Hl. done.
    + intros _. exists u, (mkT (op x) (pc x) false). cbn. by rewrite lookup_insert_eq.
Qed.

(** The only way a step fails: a thread gets the lock that it has waited
    for, and the queue is not in the state any more that it wants to wait
    for. *)
Definition misfire (w : world) (e : event) : Prop :=
  exists t y k v, e = Resume t y k /\ threads w !! t = Some v /\ pc v = In_acquire /\ condition (op v) (queue w) = false.

(** What the calls of a run have to satisfy. *)
Definition allowed (w : world) (e : event) : Prop :=
  match e with Call _ c => K c /\ (alone = true -> threads w = ∅) | _ => True end.

(** What an event has done. *)
Definition outcome (e : event) (w w' : world) : Prop :=
  match e with
  | Handler c => logs c w w'
  | Call t _ | Resume t _ _ => exists c, K c /\ progressed t c w w'
  end.

Lemma step_ok w e : inv w -> enabled w e = true -> allowed w e ->
  (exists w', step e w = Ok (tt, w') /\ inv w' /\ outcome e w w') \/
  step e w = Err Assertion_failed /\ misfire w e.
Proof.
  intros Hi He Hal. destruct e as [t c|t y k|c]; cbn [enabled step allowed outcome] in *.
  - left. apply andb_true_iff in He as [Hn Ht]. apply negb_true_iff, Z.eqb_neq in Hn. apply bool_decide_eq_true in Ht.
    unfold set_thread. mnorm. destruct Hal as [HKc Hal]. pose proof (call_ok w t c Hi HKc Hal Hn Ht) as Hi1. set (w1 := mkWorld _ _ _ _) in Hi1 |- *.
    destruct (loop_ok w1 t c Hi1 (lookup_insert_eq _ _ _)) as (w' & Hr & Hi' & Hw').
    exists w'. eauto.
  - destruct (threads w !! t) as [v|] eqn:Ht; [|done]. apply andb_true_iff in He as [Hb Hk]. apply negb_true_iff in Hb.
    assert (lock_waiters (queue w) = [] \/ (k < length (lock_waiters (queue w)))%nat) as Hk'.
    { apply orb_true_iff in Hk as [H|H]; [left; by apply bool_decide_eq_true in H|right; by apply Nat.ltb_lt]. }
    pose proof (i_calls _ Hi t v Ht) as HKv.
    unfold resume. rewrite (bind_ok _ _ w v w) by (unfold gets_opt; by rewrite Ht). destruct (pc v) eqn:Hp.
    + left. destruct (loop_ok w t (op v)) as (w' & Hr & Hi' & Hw'); [done|destruct v; cbn in *; congruence|].
      exists w'. eauto.
    + destruct (acquire_ok w t v) as [(w' & Hr & Hi' & Hw')|[H Hc]]; [done|done|congruence|done|left; exists w'; eauto 6 using untouched_progressed|right].
      split; [done|]. exists t, y, k, v. done.
    + left. destruct (release_ok w t v k) as (w' & Hr & Hi' & Ht' & Hw'); [done..|]. rewrite Hr. destruct y; [exists w'; eauto 6 using untouched_progressed|].
      destruct (loop_ok w' t (op v)) as (w'' & Hr' & Hi'' & Hw''); [done..|]. exists w''. split; [done|]. split; [done|].
      exists (op v). split; [done|]. destruct Hw' as (E1 & E2 & E3), Hw'' as (F1 & F2). rewrite E1 in F1. rewrite E2, E3 in F2. by split.
  - left. apply negb_true_iff in He. unfold handler. mnorm. rewrite He. destruct (finish_ok w c Hi He) as (w' & Hr & Hi' & _ & Hlog). eauto.
Qed.

Fixpoint all_allowed (es : list event) (w : world) : Prop :=
  match es with
  | [] => True
  | e :: es' => allowed w e /\ match step e w with Ok (_, w') => all_allowed es' w' | Err _ => True end
  end.

Lemma run_inv es : forall w, inv w -> possible es w = true -> all_allowed es w ->
  (exists w', run es w = Ok (tt, w') /\ inv w') \/ alone = false /\ run es w = Err Assertion_failed.
Proof.
  induction es as [|e es IH]; intros w Hi Hp Ha; cbn [run possible all_allowed] in *; [left; eauto|].
  apply andb_true_iff in Hp as [He Hp]. destruct Ha as [Ha1 Ha2].
  destruct (step_ok w e Hi He Ha1) as [(w' & Hs & Hi' & _)|[Hs (t & y & k & v & -> & Hv & P & _)]]; rewrite Hs in *; [by apply IH|right].
  split; [|done]. apply not_true_iff_false. intros E. by destruct (i_lone _ Hi E t v Hv).
Qed.

End invariant.

(** ** What the queue guarantees *)

Lemma fifo_of_inv K al w : inv K al w -> stored w = taken w ++ contents (queue w) /\ (length (contents (queue w)) <= 63)%nat.
Proof.
  intros Hi. split; [apply (i_fifo _ _ _ Hi)|]. pose proof (queue_length _ (i_queue _ _ _ Hi)). pose proof (count_cases _ (i_queue _ _ _ Hi)).
  destruct (i_queue _ _ _ Hi). lia.
Qed.

(** a queue that at most one thread uses at a time, while interrupt
    handlers add and remove bytes, never fails an assertion, however the
    thread and the handlers are interleaved, and bytes come out once, in the
    order in which they went in. *)
Theorem intq_alone_ok b es :
  length b = 64%nat -> possible es (start b) = true -> all_allowed (fun _ => True) true es (start b) ->
  exists w, run es (start b) = Ok (tt, w) /\ stored w = taken w ++ contents (queue w) /\ (length (contents (queue w)) <= 63)%nat.
Proof.
  intros Hb Hp Ha. destruct (run_inv (fun _ => True) true es (start b)) as [(w & Hr & Hi)|[? _]]; [by apply start_inv|done|done| |done].
  exists w. split; [done|]. by eapply fifo_of_inv.
Qed.

Lemma same_kind_allowed g es : Forall (fun e => match e with Call _ c => is_get c = g | _ => True end) es ->
  forall w, all_allowed (fun c => is_get c = g) false es w.
Proof.
  induction 1 as [|e es He Hes IH]; intros w; cbn [all_allowed]; [done|]. split; [by destruct e|]. destruct (step e w) as [[[] w']|]; [apply IH|done].
Qed.

Lemma progress K al w t v : inv K al w -> threads w !! t = Some v ->
  (exists t' v', threads w !! t' = Some v' /\ blocked v' = false) \/
  exists t' v', threads w !! t' = Some v' /\ condition (op v') (queue w) = true.
Proof.
  intros Hi Hv. assert (forall t v, threads w !! t = Some v -> pc v = In_wait -> (exists t' v', threads w !! t' = Some v' /\ blocked v' = false) \/
    exists t' v', threads w !! t' = Some v' /\ condition (op v') (queue w) = true) as Hwait.
  { intros t1 v1 H1 P1. destruct (blocked v1) eqn:B; [right|left; eauto]. destruct (i_wait _ _ _ Hi t1 v1 H1 P1 B) as [_ C]. eauto. }
  destruct (blocked v) eqn:B; [|left; eauto]. destruct (pc v) eqn:P.
  - rewrite (i_loop _ _ _ Hi t v Hv P) in B. done.
  - destruct (i_handover _ _ _ Hi) as [Hl|(t' & v' & H' & _ & B')]; [|destruct (i_lock _ _ _ Hi) as [[_ (t' & v' & H' & P')]|[]]; [by apply (Hwait t' v')|lia]|left; eauto].
    intros E. assert (t ∈ lock_waiters (queue w)) as Hin by (apply (i_waiters _ _ _ Hi); eauto). rewrite E in Hin. by apply not_elem_of_nil in Hin.
  - by apply (Hwait t v).
Qed.

(** C10: with any number of threads that all read, or all write, and any
    scheduler: as long as no assertion has failed, bytes come out once and in
    order, and no wake-up is lost: when there is something to read (room to
    write) and threads are inside, then one of them can run. *)
Theorem intq_no_lost_wakeup b c es w :
  length b = 64%nat -> possible es (start b) = true -> Forall (fun e => match e with Call _ c' => is_get c' = is_get c | _ => True end) es ->
  run es (start b) = Ok (tt, w) ->
  (stored w = taken w ++ contents (queue w) /\ (length (contents (queue w)) <= 63)%nat) /\
  (condition c (queue w) = false -> threads w <> ∅ -> exists t v, threads w !! t = Some v /\ blocked v = false).
Proof.
  intros Hb Hp Hk Hr. destruct (run_inv (fun c' => is_get c' = is_get c) false es (start b)) as [(w' & Hr' & Hi)|[_ ?]];
    [by apply start_inv|done|by apply same_kind_allowed| |congruence].
  rewrite Hr in Hr'. injection Hr' as <-. split; [by eapply fifo_of_inv|]. intros Hc Hne.
  destruct (map_choose _ Hne) as (t & v & Hv). destruct (progress _ _ w t v Hi Hv) as [H|(t' & v' & H' & C)]; [done|].
  pose proof (i_calls _ _ _ Hi t' v' H') as E. cbn in E. rewrite (condition_kind _ c _ E) in C. congruence.
Qed.

(** two threads that wait for input stop the kernel.  Thread 1 waits
    with the lock of the queue, thread 2 for the lock; a key arrives, thread
    1 releases the lock and gives way to thread 2, which gets the lock and
    fails the assertion of [wait] that the queue is empty. *)
Theorem intq_two_readers_panic : exists es b,
  length b = 64%nat /\ possible es (start b) = true /\ run es (start b) = Err Assertion_failed.
Proof. exists two_readers, (replicate 64 0). split_and!; vm_compute; reflexivity. Qed.

(** ** Instances *)

Definition one_reader : list event := [Handler (Putc 97); Call 1 Getc; Call 1 Getc; Handler (Putc 98); Resume 1 false 0].

Lemma intq_alone_ok_witness : exists w, run one_reader (start (replicate 64 0)) = Ok (tt, w) /\ taken w = [97; 98] /\
  stored w = taken w ++ contents (queue w).
Proof.
  destruct (intq_alone_ok (replicate 64 0) one_reader) as (w & Hr & Hs & _); [reflexivity|vm_compute; reflexivity| |].
  - vm_compute. repeat split.
  - exists w. split; [done|]. split; [|done]. vm_compute in Hr. injection Hr as <-. reflexivity.
Defined.

Definition two_wait : list event := [Call 1 Getc; Call 2 Getc; Handler (Putc 97)].

Lemma intq_no_lost_wakeup_witness : exists w, run two_wait (start (replicate 64 0)) = Ok (tt, w) /\ exists t v, threads w !! t = Some v /\ blocked v = false.
Proof.
  destruct (run two_wait (start (replicate 64 0))) as [[[] w]|] eqn:E; [|vm_compute in E; discriminate].
  exists w. split; [done|]. apply (intq_no_lost_wakeup (replicate 64 0) Getc two_wait w); [reflexivity|vm_compute; reflexivity|repeat constructor|done| |].
  - vm_compute in E. injection E as <-. reflexivity.
  - vm_compute in E. injection E as <-. intros H. apply (f_equal (lookup 1)) in H. vm_compute in H. discriminate.
Defined.

End Intq.
