(* ===== verification/CharDevices.v ===== *)
(** * Keyboard, serial port and input buffer (src/src/devices/kbd.c, serial.c, input.c)

    Two interrupt queues of [Intq]: the input buffer, which the keyboard and
    the serial port fill and threads read, and the transmit queue of the
    serial port, which threads fill and the interrupt handler empties.  The
    registers of the 16550A are the ones the driver uses, with the divisor
    latch behind the same ports.  What the devices answer is given as
    streams: line status, received bytes and scancodes. *)

From S2P Require Import Prelude Intq.
Import Intq.

Module CharDevices.

(** ** State *)

Record uart : Type := mkUart { ier : Z; lcr : Z; ls : Z; ms : Z; sent : list Z }.

Inductive serial_mode : Type := UNINIT | POLL | QUEUE.

#[export] Instance serial_mode_eq_dec : EqDecision serial_mode.
Proof. solve_decision. Defined.

Record kbd : Type := mkKbd {
  left_shift : bool; right_shift : bool;
  left_alt : bool; right_alt : bool;
  left_ctrl : bool; right_ctrl : bool;
  caps_lock : bool;
  key_cnt : Z
}.

Record dev : Type := mkDev {
  keyboard : kbd;
  input : world;
  txq : world;
  mode : serial_mode;
  port : uart;
  rebooted : bool;
  lsr : nat -> Z;
  rbr : nat -> Z;
  scancodes : nat -> Z
}.

Definition set_keyboard v s := mkDev v (input s) (txq s) (mode s) (port s) (rebooted s) (lsr s) (rbr s) (scancodes s).
Definition set_input v s := mkDev (keyboard s) v (txq s) (mode s) (port s) (rebooted s) (lsr s) (rbr s) (scancodes s).
Definition set_txq v s := mkDev (keyboard s) (input s) v (mode s) (port s) (rebooted s) (lsr s) (rbr s) (scancodes s).
Definition set_mode v s := mkDev (keyboard s) (input s) (txq s) v (port s) (rebooted s) (lsr s) (rbr s) (scancodes s).
Definition set_port v s := mkDev (keyboard s) (input s) (txq s) (mode s) v (rebooted s) (lsr s) (rbr s) (scancodes s).
Definition set_rebooted v s := mkDev (keyboard s) (input s) (txq s) (mode s) (port s) v (lsr s) (rbr s) (scancodes s).
Definition set_lsr v s := mkDev (keyboard s) (input s) (txq s) (mode s) (port s) (rebooted s) v (rbr s) (scancodes s).
Definition set_rbr v s := mkDev (keyboard s) (input s) (txq s) (mode s) (port s) (rebooted s) (lsr s) v (scancodes s).
Definition set_scancodes v s := mkDev (keyboard s) (input s) (txq s) (mode s) (port s) (rebooted s) (lsr s) (rbr s) v.

Definition on_input {A} (m : M world A) : M dev A :=
  fun s => match m (input s) with Ok (a, w) => Ok (a, set_input w s) | Err e => Err e end.
Definition on_txq {A} (m : M world A) : M dev A :=
  fun s => match m (txq s) with Ok (a, w) => Ok (a, set_txq w s) | Err e => Err e end.

(** ** Ports *)

Definition IO_BASE : Z := 0x3f8.
Definition RBR_REG : Z := IO_BASE + 0.
Definition THR_REG : Z := IO_BASE + 0.
Definition IER_REG : Z := IO_BASE + 1.
Definition LS_REG : Z := IO_BASE + 0.
Definition MS_REG : Z := IO_BASE + 1.
Definition FCR_REG : Z := IO_BASE + 2.
Definition LCR_REG : Z := IO_BASE + 3.
Definition MCR_REG : Z := IO_BASE + 4.
Definition LSR_REG : Z := IO_BASE + 5.
Definition IER_RECV : Z := 0x01.
Definition IER_XMIT : Z := 0x02.
Definition LCR_N81 : Z := 0x03.
Definition LCR_DLAB : Z := 0x80.
Definition MCR_OUT2 : Z := 0x08.
Definition LSR_DR : Z := 0x01.
Definition LSR_THRE : Z := 0x20.

(** The registers of the device: the first two ports are the divisor latch
    while bit 7 of the line control register is set. *)
Definition uart_write (p v : Z) (u : uart) : uart :=
  if p =? LCR_REG then mkUart (ier u) v (ls u) (ms u) (sent u)
  else if p =? IO_BASE then
    if Z.testbit (lcr u) 7 then mkUart (ier u) (lcr u) v (ms u) (sent u) else mkUart (ier u) (lcr u) (ls u) (ms u) (sent u ++ [v])
  else if p =? IO_BASE + 1 then
    if Z.testbit (lcr u) 7 then mkUart (ier u) (lcr u) (ls u) v (sent u) else mkUart v (lcr u) (ls u) (ms u) (sent u)
  else u.

Definition outb (p v : Z) : M dev unit := modify (fun s => set_port (uart_write p (u8 v) (port s)) s).

Definition inb_lsr : M dev Z := f <- gets lsr ;; modify (set_lsr (fun n => f (S n))) ;;; ret (f 0%nat).
Definition inb_rbr : M dev Z := f <- gets rbr ;; modify (set_rbr (fun n => f (S n))) ;;; ret (u8 (f 0%nat)).
Definition inb_data : M dev Z := f <- gets scancodes ;; modify (set_scancodes (fun n => f (S n))) ;;; ret (u8 (f 0%nat)).

(** ** The serial port *)

Definition input_full : M dev bool := w <- gets input ;; ret (intq_full (queue w)).
Definition txq_empty : M dev bool := w <- gets txq ;; ret (intq_empty (queue w)).
Definition txq_full : M dev bool := w <- gets txq ;; ret (intq_full (queue w)).

(** [intq_getc (&txq)] where the queue is not empty. *)
Definition txq_getc : M dev Z :=
  on_txq (handler Getc) ;;; w <- gets txq ;; ret (default 0 (last (taken w))).

Definition set_serial (bps : Z) : M dev unit :=
  let base_rate := 1843200 / 16 in
  let divisor := base_rate / bps in
  ASSERT ((300 <=? bps) && (bps <=? 115200)) ;;;
  outb LCR_REG (Z.lor LCR_N81 LCR_DLAB) ;;;
  outb LS_REG (Z.land divisor 0xff) ;;;
  outb MS_REG (Z.shiftr divisor 8) ;;;
  outb LCR_REG LCR_N81.

(** What the memory of the queue holds is kept. *)
Definition init_poll : M dev unit :=
  m <- gets mode ;; ASSERT (bool_decide (m = UNINIT)) ;;;
  outb IER_REG 0 ;;;
  outb FCR_REG 0 ;;;
  set_serial 9600 ;;;
  outb MCR_REG MCR_OUT2 ;;;
  w <- gets txq ;; modify (set_txq (start (buf (queue w)))) ;;;
  modify (set_mode POLL).

Definition write_ier : M dev unit :=
  empty <- txq_empty ;;
  let ier := if negb empty then Z.lor 0 IER_XMIT else 0 in
  full <- input_full ;;
  let ier := if negb full then Z.lor ier IER_RECV else ier in
  outb IER_REG ier.

Definition serial_init_queue : M dev unit :=
  m <- gets mode ;;
  (if decide (m = UNINIT) then init_poll else ret tt) ;;;
  m <- gets mode ;; ASSERT (bool_decide (m = POLL)) ;;;
  modify (set_mode QUEUE) ;;;
  write_ier.

Definition serial_notify : M dev unit :=
  m <- gets mode ;; if decide (m = QUEUE) then write_ier else ret tt.

Fixpoint poll (fuel : nat) : M dev unit :=
  match fuel with
  | O => fail Out_of_fuel
  | S fuel' => v <- inb_lsr ;; if Z.land v LSR_THRE =? 0 then poll fuel' else ret tt
  end.

Definition putc_poll (fuel : nat) (byte : Z) : M dev unit := poll fuel ;;; outb THR_REG byte.

(** The rest of a function after the thread [t] has run in a queue: it has
    returned, or it stopped there and the rest is done when it returns. *)
Definition when_returned (t : Z) (q : dev -> world) (m : M dev unit) : M dev unit :=
  w <- gets q ;; match threads w !! t with None => m | Some _ => ret tt end.

(** [old_level] is true when interrupts were on. *)
Definition serial_putc (fuel : nat) (t : Z) (old_level : bool) (byte : Z) : M dev unit :=
  m <- gets mode ;;
  if negb (bool_decide (m = QUEUE)) then
    (if decide (m = UNINIT) then init_poll else ret tt) ;;;
    putc_poll fuel byte
  else
    full <- txq_full ;;
    (if negb old_level && full then b <- txq_getc ;; putc_poll fuel b else ret tt) ;;;
    on_txq (step (Call t (Putc byte))) ;;;
    when_returned t txq write_ier.

Definition serial_putc_resume (t : Z) (yields : bool) (pick : nat) : M dev unit :=
  on_txq (step (Resume t yields pick)) ;;; when_returned t txq write_ier.

Fixpoint serial_flush (n fuel : nat) : M dev unit :=
  match n with
  | O => fail Out_of_fuel
  | S n' => e <- txq_empty ;; if (e : bool) then ret tt else b <- txq_getc ;; putc_poll fuel b ;;; serial_flush n' fuel
  end.

(** ** The input buffer *)

Definition input_init : M dev unit := w <- gets input ;; modify (set_input (start (buf (queue w)))).

Definition input_putc (key : Z) : M dev unit :=
  full <- input_full ;; ASSERT (negb full) ;;;
  on_input (handler (Putc key)) ;;;
  serial_notify.

Definition input_getc (t : Z) : M dev unit :=
  on_input (step (Call t Getc)) ;;; when_returned t input serial_notify.

Definition input_getc_resume (t : Z) (yields : bool) (pick : nat) : M dev unit :=
  on_input (step (Resume t yields pick)) ;;; when_returned t input serial_notify.

(** ** The interrupt of the serial port *)

Fixpoint receive (n : nat) : M dev unit :=
  match n with
  | O => fail Out_of_fuel
  | S n' =>
      full <- input_full ;;
      if (full : bool) then ret tt
      else
        v <- inb_lsr ;;
        if Z.land v LSR_DR =? 0 then ret tt else b <- inb_rbr ;; input_putc b ;;; receive n'
  end.

Fixpoint transmit (n : nat) : M dev unit :=
  match n with
  | O => fail Out_of_fuel
  | S n' =>
      empty <- txq_empty ;;
      if (empty : bool) then ret tt
      else
        v <- inb_lsr ;;
        if Z.land v LSR_THRE =? 0 then ret tt else b <- txq_getc ;; outb THR_REG b ;;; transmit n'
  end.

(** A queue holds less than 64 bytes. *)
Definition serial_interrupt : M dev unit := receive 64 ;;; transmit 64 ;;; write_ier.

(** ** The keyboard *)

Record keymap : Type := mkKeymap { first_scancode : Z; chars : list Z }.

Definition invariant_keymap : list keymap :=
  [ mkKeymap 0x01 [27]; mkKeymap 0x0e [8]; mkKeymap 0x0f [9; 81; 87; 69; 82; 84; 89; 85; 73; 79; 80]; mkKeymap 0x1c [13];
    mkKeymap 0x1e [65; 83; 68; 70; 71; 72; 74; 75; 76]; mkKeymap 0x2c [90; 88; 67; 86; 66; 78; 77]; mkKeymap 0x37 [42];
    mkKeymap 0x39 [32]; mkKeymap 0x53 [127] ].

Definition unshifted_keymap : list keymap :=
  [ mkKeymap 0x02 [49; 50; 51; 52; 53; 54; 55; 56; 57; 48; 45; 61]; mkKeymap 0x1a [91; 93]; mkKeymap 0x27 [59; 39; 96];
    mkKeymap 0x2b [92]; mkKeymap 0x33 [44; 46; 47] ].

Definition shifted_keymap : list keymap :=
  [ mkKeymap 0x02 [33; 64; 35; 36; 37; 94; 38; 42; 40; 41; 95; 43]; mkKeymap 0x1a [123; 125]; mkKeymap 0x27 [58; 34; 126];
    mkKeymap 0x2b [124]; mkKeymap 0x33 [60; 62; 63] ].

(** The terminator of the table is its end. *)
Fixpoint map_key (k : list keymap) (scancode : Z) : option Z :=
  match k with
  | [] => None
  | m :: k' =>
      if (first_scancode m <=? scancode) && (scancode <? first_scancode m + Z.of_nat (length (chars m)))
      then chars m !! Z.to_nat (scancode - first_scancode m)
      else map_key k' scancode
  end.

Definition isupper (c : Z) : bool := (65 <=? c) && (c <=? 90).
Definition tolower (c : Z) : Z := if isupper c then c - 65 + 97 else c.

Definition shift (k : kbd) : bool := left_shift k || right_shift k.
Definition alt (k : kbd) : bool := left_alt k || right_alt k.
Definition ctrl (k : kbd) : bool := left_ctrl k || right_ctrl k.

(** The three look-ups in a condition. *)
Definition find_char (shift : bool) (code : Z) : option Z :=
  match map_key invariant_keymap code with
  | Some c => Some c
  | None => if negb shift then map_key unshifted_keymap code else map_key shifted_keymap code
  end.

(** Ctrl, Shift, Caps Lock and Alt. *)
Definition translate (k : kbd) (c : Z) : Z :=
  let c := if ctrl k && (0x40 <=? c) && (c <? 0x60) then u8 (c - 0x40)
           else if Bool.eqb (shift k) (caps_lock k) then tolower c else c in
  if alt k then u8 (c + 0x80) else c.

Definition toggle_caps (k : kbd) : kbd :=
  mkKbd (left_shift k) (right_shift k) (left_alt k) (right_alt k) (left_ctrl k) (right_ctrl k) (negb (caps_lock k)) (key_cnt k).
Definition count_key (k : kbd) : kbd :=
  mkKbd (left_shift k) (right_shift k) (left_alt k) (right_alt k) (left_ctrl k) (right_ctrl k) (caps_lock k) (s64 (key_cnt k + 1)).

(** The table of shift keys. *)
Definition shift_key (code : Z) (down : bool) (k : kbd) : kbd :=
  if code =? 0x2a then mkKbd down (right_shift k) (left_alt k) (right_alt k) (left_ctrl k) (right_ctrl k) (caps_lock k) (key_cnt k)
  else if code =? 0x36 then mkKbd (left_shift k) down (left_alt k) (right_alt k) (left_ctrl k) (right_ctrl k) (caps_lock k) (key_cnt k)
  else if code =? 0x38 then mkKbd (left_shift k) (right_shift k) down (right_alt k) (left_ctrl k) (right_ctrl k) (caps_lock k) (key_cnt k)
  else if code =? 0xe038 then mkKbd (left_shift k) (right_shift k) (left_alt k) down (left_ctrl k) (right_ctrl k) (caps_lock k) (key_cnt k)
  else if code =? 0x1d then mkKbd (left_shift k) (right_shift k) (left_alt k) (right_alt k) down (right_ctrl k) (caps_lock k) (key_cnt k)
  else if code =? 0xe01d then mkKbd (left_shift k) (right_shift k) (left_alt k) (right_alt k) (left_ctrl k) down (caps_lock k) (key_cnt k)
  else k.

Definition upd_kbd (f : kbd -> kbd) : M dev unit := modify (fun s => set_keyboard (f (keyboard s)) s).

(** After [shutdown_reboot] nothing more happens. *)
Definition keyboard_interrupt : M dev unit :=
  k <- gets keyboard ;;
  code <- inb_data ;;
  code <- (if code =? 0xe0 then b <- inb_data ;; ret (Z.lor (Z.shiftl code 8) b) else ret code) ;;
  let release := negb (Z.land code 0x80 =? 0) in
  let code := Z.land code (Z.lnot 0x80) in
  if code =? 0x3a then if negb release then upd_kbd toggle_caps else ret tt
  else match find_char (shift k) code with
  | Some c =>
      if negb release then
        if (c =? 127) && ctrl k && alt k then modify (set_rebooted true)
        else
          let c := translate k c in
          full <- input_full ;;
          if negb full then upd_kbd count_key ;;; input_putc c else ret tt
      else ret tt
  | None => upd_kbd (shift_key code (negb release))
  end.

(** ** The devices at work *)

Inductive devent : Type :=
| Serial_putc (t : Z) (old_level : bool) (byte : Z)
| Serial_putc_resume (t : Z) (yields : bool) (pick : nat)
| Input_getc (t : Z)
| Input_getc_resume (t : Z) (yields : bool) (pick : nat)
| Serial_interrupt
| Keyboard_interrupt
| Serial_flush.

Definition dev_step (fuel : nat) (e : devent) : M dev unit :=
  match e with
  | Serial_putc t l b => serial_putc fuel t l b
  | Serial_putc_resume t y k => serial_putc_resume t y k
  | Input_getc t => input_getc t
  | Input_getc_resume t y k => input_getc_resume t y k
  | Serial_interrupt => serial_interrupt
  | Keyboard_interrupt => keyboard_interrupt
  | Serial_flush => serial_flush 64 fuel
  end.

(** Threads that run are not blocked, and one thread at a time writes to the
    serial port and one reads the input. *)
Definition dev_enabled (s : dev) (e : devent) : bool :=
  match e with
  | Serial_putc t _ b => bool_decide (threads (txq s) = ∅) && negb (t =? NULL)
  | Serial_putc_resume t y k => enabled (txq s) (Resume t y k)
  | Input_getc t => bool_decide (threads (input s) = ∅) && negb (t =? NULL)
  | Input_getc_resume t y k => enabled (input s) (Resume t y k)
  | _ => true
  end.

Fixpoint dev_run (fuel : nat) (es : list devent) (s : dev) : res (unit * dev) :=
  match es with
  | [] => Ok (tt, s)
  | e :: es' => match dev_step fuel e s with Ok (_, s') => dev_run fuel es' s' | Err x => Err x end
  end.

Fixpoint dev_possible (fuel : nat) (es : list devent) (s : dev) : bool :=
  match es with
  | [] => true
  | e :: es' => dev_enabled s e && match dev_step fuel e s with Ok (_, s') => dev_possible fuel es' s' | Err _ => true end
  end.

(** The transmitter is ready once in [fuel] reads of the line status. *)
Definition ready (fuel : nat) (f : nat -> Z) : Prop := forall n, exists k, (k < fuel)%nat /\ Z.land (f (n + k)%nat) LSR_THRE <> 0.

Definition writes (c : call) : Prop := is_get c = false.
Definition reads (c : call) : Prop := is_get c = true.

(** ** The invariant *)

Section invariant.
Context (fuel : nat) (sent0 : list Z).

(** All but the interrupt enable register, which is set at the end. *)
Record core (s : dev) : Prop := {
  c_tx : inv writes true (txq s);
  c_in : inv reads true (input s);
  c_mode : mode s = QUEUE;
  c_dlab : Z.testbit (lcr (port s)) 7 = false;
  c_ready : ready fuel (lsr s)
}.

Definition sent_ok (s : dev) : Prop := sent (port s) = sent0 ++ map u8 (taken (txq s)).

(** The interrupts that are needed are on. *)
Definition ier_ok (s : dev) : Prop :=
  (intq_empty (queue (txq s)) = false -> Z.testbit (ier (port s)) 1 = true) /\
  (intq_full (queue (input s)) = false -> Z.testbit (ier (port s)) 0 = true).

Definition dinv (s : dev) : Prop := core s /\ sent_ok s /\ ier_ok s.

Lemma ready_drop k f : ready fuel f -> ready fuel (fun n => f (n + k)%nat).
Proof. intros H n. destruct (H (n + k)%nat) as (j & Hj & E). exists j. split; [done|]. by replace (n + j + k)%nat with (n + k + j)%nat by lia. Qed.

Lemma write_ier_ok s : core s -> sent_ok s -> exists s', write_ier s = Ok (tt, s') /\ dinv s' /\ txq s' = txq s /\ input s' = input s /\ ls (port s') = ls (port s) /\ ms (port s') = ms (port s).
Proof.
  intros [] Hs. unfold write_ier, txq_empty, input_full, outb. mnorm.
  eexists. split; [reflexivity|]. unfold uart_write.
  change (IER_REG =? LCR_REG) with false. change (IER_REG =? IO_BASE) with false. change (IER_REG =? IO_BASE + 1) with true. cbn iota. rewrite c_dlab0.
  split; [|done]. split; [by split|]. split; [done|]. unfold ier_ok. cbn [port set_port ier txq input].
  split; intros E; rewrite E; [destruct (intq_full _)|destruct (intq_empty _)]; done.
Qed.

(** After a step of a queue: the rest is done when the thread has returned,
    and when it has not the queues are in a state for which the register is
    already right. *)
Lemma step_alone K w e : inv K true w -> enabled w e = true -> allowed K true w e ->
  exists w', step e w = Ok (tt, w') /\ inv K true w' /\ outcome K e w w'.
Proof.
  intros Hi He Ha. destruct (step_ok K true w e Hi He Ha) as [H|[_ (t & y & k & v & -> & Hv & P & _)]]; [done|].
  by destruct (i_lone _ _ _ Hi eq_refl t v Hv).
Qed.

Lemma on_txq_ok {A} (m : M world A) s a w : m (txq s) = Ok (a, w) -> on_txq m s = Ok (a, set_txq w s).
Proof. unfold on_txq. by intros ->. Qed.

Lemma on_input_ok {A} (m : M world A) s a w : m (input s) = Ok (a, w) -> on_input m s = Ok (a, set_input w s).
Proof. unfold on_input. by intros ->. Qed.

Lemma core_set_txq s w : core s -> inv writes true w -> core (set_txq w s).
Proof. by intros [] H. Qed.

Lemma core_set_input s w : core s -> inv reads true w -> core (set_input w s).
Proof. by intros [] H. Qed.

Lemma unchanged_conditions (w w' : world) : head (queue w') = head (queue w) -> tail (queue w') = tail (queue w) ->
  intq_empty (queue w') = intq_empty (queue w) /\ intq_full (queue w') = intq_full (queue w).
Proof. intros H1 H2. unfold intq_empty, intq_full. by rewrite H1, H2. Qed.

Lemma notify_eq s : mode s = QUEUE -> serial_notify s = write_ier s.
Proof. intros H. unfold serial_notify. mnorm. by rewrite decide_True. Qed.

(** The thread [t] has run in the transmit queue. *)
Lemma txq_returned s t c w : dinv s -> inv writes true w -> writes c -> progressed t c (txq s) w ->
  exists s', when_returned t txq write_ier (set_txq w s) = Ok (tt, s') /\ dinv s'.
Proof.
  intros (Hc & Hs & Hier) Hw HK [Ht Hb]. assert (sent_ok (set_txq w s)) as Hs' by (unfold sent_ok; cbn; by rewrite (Ht HK)).
  unfold when_returned. mnorm. cbn [txq set_txq]. destruct (threads w !! t) eqn:E.
  - exists (set_txq w s). split; [done|]. split; [by apply core_set_txq|]. split; [done|]. destruct Hb as [Hb|[H1 H2]]; [congruence|].
    destruct (unchanged_conditions _ _ H1 H2) as [E1 E2]. unfold ier_ok. cbn. rewrite E1. apply Hier.
  - destruct (write_ier_ok (set_txq w s)) as (s' & H1 & H2 & _); [by apply core_set_txq|done|eauto].
Qed.

(** The thread [t] has run in the input buffer. *)
Lemma input_returned s t c w : dinv s -> inv reads true w -> reads c -> progressed t c (input s) w ->
  exists s', when_returned t input serial_notify (set_input w s) = Ok (tt, s') /\ dinv s'.
Proof.
  intros (Hc & Hs & Hier) Hw HK [_ Hb]. unfold when_returned. mnorm. cbn [input set_input]. destruct (threads w !! t) eqn:E.
  - exists (set_input w s). split; [done|]. split; [by apply core_set_input|]. split; [done|]. destruct Hb as [Hb|[H1 H2]]; [congruence|].
    destruct (unchanged_conditions _ _ H1 H2) as [E1 E2]. unfold ier_ok. cbn. rewrite E2. apply Hier.
  - rewrite notify_eq by apply Hc. destruct (write_ier_ok (set_input w s)) as (s' & H1 & H2 & _); [by apply core_set_input|done|eauto].
Qed.

(** ** Handlers on the queues *)

Lemma getc_ok K w : inv K true w -> intq_empty (queue w) = false ->
  exists w' b, handler Getc w = Ok (tt, w') /\ inv K true w' /\ taken w' = taken w ++ [b] /\
    contents (queue w) = b :: contents (queue w') /\ (threads w = ∅ -> threads w' = ∅).
Proof.
  intros Hi He. destruct (finish_ok K true w Getc Hi He) as (w' & Hr & Hi' & [_ Hsame] & Hst & b & Hb). exists w', b.
  split; [unfold handler; mnorm; cbn [condition]; by rewrite He|]. split; [done|]. split; [done|]. split.
  - pose proof (i_fifo _ _ _ Hi) as F1. pose proof (i_fifo _ _ _ Hi') as F2. rewrite Hst, Hb, F1, <- app_assoc in F2. by apply app_inv_head in F2.
  - intros E. apply map_empty. intros t. destruct (threads w' !! t) as [v|] eqn:Ev; [|done]. apply Hsame in Ev as (u & Hu & _). by rewrite E, lookup_empty in Hu.
Qed.

Lemma putc_ok K w b : inv K true w -> intq_full (queue w) = false ->
  exists w', handler (Putc b) w = Ok (tt, w') /\ inv K true w' /\ contents (queue w') = contents (queue w) ++ [b].
Proof.
  intros Hi He. destruct (finish_ok K true w (Putc b) Hi He) as (w' & Hr & Hi' & _ & Hst & Hb). exists w'.
  split; [unfold handler; mnorm; cbn [condition]; by rewrite He|]. split; [done|].
  pose proof (i_fifo _ _ _ Hi) as F1. pose proof (i_fifo _ _ _ Hi') as F2. rewrite Hst, Hb, F1, <- app_assoc in F2. by apply app_inv_head in F2.
Qed.

Lemma txq_getc_ok s : dinv s -> intq_empty (queue (txq s)) = false ->
  exists w b, txq_getc s = Ok (b, set_txq w s) /\ inv writes true w /\ taken w = taken (txq s) ++ [b] /\
    contents (queue (txq s)) = b :: contents (queue w) /\ (threads (txq s) = ∅ -> threads w = ∅).
Proof.
  intros ([] & _) He. destruct (getc_ok _ _ c_tx0 He) as (w & b & Hr & Hw & Ht & Hco & Hth). exists w, b. split; [|done].
  unfold txq_getc. mrun (on_txq_ok _ _ _ _ Hr). mnorm. cbn [txq set_txq]. by rewrite Ht, last_snoc.
Qed.

(** A byte has been taken from the queue and is written to the device. *)
Lemma sent_dinv s w b g : dinv s -> intq_empty (queue (txq s)) = false -> inv writes true w -> taken w = taken (txq s) ++ [b] -> ready fuel g ->
  exists s', outb THR_REG b (set_lsr g (set_txq w s)) = Ok (tt, s') /\ dinv s' /\ txq s' = w /\ input s' = input s.
Proof.
  intros (Hc & Hs & Hier) He Hw Ht Hg. eexists. split; [reflexivity|]. unfold uart_write.
  change (THR_REG =? LCR_REG) with false. change (THR_REG =? IO_BASE) with true. cbn iota. cbn [port set_lsr set_txq]. rewrite (c_dlab _ Hc).
  split; [|done]. destruct Hc. split; [by split|]. split.
  - unfold sent_ok. cbn. by rewrite Ht, map_app, Hs, app_assoc.
  - destruct Hier as [H1 H2]. split; cbn; [intros _; by apply H1|done].
Qed.

Lemma poll_ok m : forall s, (exists k, (k < m)%nat /\ Z.land (lsr s k) LSR_THRE <> 0) ->
  exists g j, poll m s = Ok (tt, set_lsr g s) /\ forall n, g n = lsr s (n + j)%nat.
Proof.
  induction m as [|m IH]; intros s (k & Hk & E); [lia|]. cbn [poll]. unfold inb_lsr. mnorm.
  destruct (Z.eqb_spec (Z.land (lsr s 0%nat) LSR_THRE) 0) as [E0|_].
  - destruct k as [|k]; [done|]. destruct (IH (set_lsr (fun n => lsr s (S n)) s)) as (g & j & Hr & Hg); [exists k; split; [lia|done]|].
    exists g, (S j). rewrite Hr. split; [done|]. intros n. rewrite Hg. cbn. f_equal. lia.
  - eexists _, 1%nat. split; [reflexivity|]. intros n. cbn. f_equal. lia.
Qed.

Lemma ready_ext g f j : ready fuel f -> (forall n, g n = f (n + j)%nat) -> ready fuel g.
Proof. intros Hf Hg n. destruct (ready_drop j f Hf n) as (k & Hk & E). exists k. split; [done|]. by rewrite Hg. Qed.

Lemma drain_ok s : dinv s -> intq_empty (queue (txq s)) = false ->
  exists s', (b <- txq_getc ;; putc_poll fuel b) s = Ok (tt, s') /\ dinv s' /\ input s' = input s /\
    (threads (txq s) = ∅ -> threads (txq s') = ∅) /\ length (contents (queue (txq s))) = S (length (contents (queue (txq s')))).
Proof.
  intros Hd He. destruct (txq_getc_ok s Hd He) as (w & b & Hr & Hw & Ht & Hco & Hth). mrun Hr. unfold putc_poll.
  pose proof (c_ready _ (proj1 Hd)) as Hrd. destruct (poll_ok fuel (set_txq w s) (Hrd 0%nat)) as (g & j & Hp & Hg). mrun Hp.
  destruct (sent_dinv s w b g Hd He Hw Ht) as (s' & Ho & Hd' & Ew & Ei); [by eapply ready_ext|].
  exists s'. split; [done|]. split; [done|]. split; [done|]. rewrite Ew. split; [done|]. by rewrite Hco.
Qed.

Lemma nonempty_contents K w : inv K true w -> contents (queue w) = [] -> intq_empty (queue w) = true.
Proof.
  intros Hi E. pose proof (queue_length _ (i_queue _ _ _ Hi)) as H. rewrite E in H. rewrite empty_count by apply (i_queue _ _ _ Hi). by rewrite <- H.
Qed.

Lemma flush_ok n : forall s, dinv s -> (length (contents (queue (txq s))) < n)%nat ->
  exists s', serial_flush n fuel s = Ok (tt, s') /\ dinv s'.
Proof.
  induction n as [|n IH]; intros s Hd Hn; [lia|]. cbn [serial_flush]. unfold txq_empty. mnorm.
  destruct (intq_empty (queue (txq s))) eqn:He; [by exists s|]. destruct (drain_ok s Hd He) as (s1 & Hr & Hd1 & _ & _ & Hl).
  destruct (IH s1 Hd1) as (s2 & Hr2 & Hd2); [lia|]. exists s2. split; [|done]. rewrite <- Hr2. rewrite <- bind_bind. by rewrite (bind_ok _ _ _ _ _ Hr).
Qed.

Lemma transmit_ok n : forall s, dinv s -> (length (contents (queue (txq s))) < n)%nat ->
  exists s', transmit n s = Ok (tt, s') /\ dinv s'.
Proof.
  induction n as [|n IH]; intros s Hd Hn; [lia|]. cbn [transmit]. unfold txq_empty, inb_lsr. mnorm.
  destruct (intq_empty (queue (txq s))) eqn:He; [by exists s|]. mnorm. set (g := fun n => lsr s (S n)).
  assert (ready fuel g) as Hg by (apply (ready_ext g (lsr s) 1); [apply Hd|intros k; unfold g; f_equal; lia]).
  assert (dinv (set_lsr g s)) as Hd1 by (destruct Hd as ([] & H1 & H2); by split; [split|split]).
  destruct (Z.land (lsr s 0%nat) LSR_THRE =? 0); [by exists (set_lsr g s)|].
  destruct (txq_getc_ok (set_lsr g s) Hd1 He) as (w & b & Hr & Hw & Ht & Hco & _). mrun Hr.
  destruct (sent_dinv (set_lsr g s) w b g Hd1 He Hw Ht Hg) as (s2 & Ho & Hd2 & Ew & _). mrun Ho. apply IH; [done|].
  rewrite Ew. cbn [txq set_lsr] in Hco. rewrite Hco in Hn. cbn in Hn. lia.
Qed.

Lemma input_putc_ok s b : dinv s -> intq_full (queue (input s)) = false ->
  exists s', input_putc b s = Ok (tt, s') /\ dinv s' /\ contents (queue (input s')) = contents (queue (input s)) ++ [b] /\ txq s' = txq s.
Proof.
  intros (Hc & Hs & Hier) Hf. unfold input_putc, input_full. mnorm. rewrite Hf. mnorm.
  destruct (putc_ok _ _ b (c_in _ Hc) Hf) as (w & Hr & Hw & Hco). mrun (on_input_ok _ _ _ _ Hr). rewrite notify_eq by apply Hc.
  destruct (write_ier_ok (set_input w s)) as (s' & H1 & H2 & E1 & E2 & _); [by apply core_set_input|done|]. exists s'. rewrite E1, E2. done.
Qed.

Lemma contents_bound K w : inv K true w -> (length (contents (queue w)) < 64)%nat.
Proof. intros Hi. destruct (fifo_of_inv K true w Hi) as [_ H]. lia. Qed.

Lemma receive_ok n : forall s, dinv s -> (64 - length (contents (queue (input s))) <= n)%nat -> exists s', receive n s = Ok (tt, s') /\ dinv s'.
Proof.
  induction n as [|n IH]; intros s Hd Hn; [pose proof (contents_bound _ _ (c_in _ (proj1 Hd))); lia|].
  cbn [receive]. unfold input_full, inb_lsr, inb_rbr. mnorm. destruct (intq_full (queue (input s))) eqn:Hf; [by exists s|]. mnorm. set (g := fun n => lsr s (S n)).
  assert (ready fuel g) as Hg by (apply (ready_ext g (lsr s) 1); [apply Hd|intros k; unfold g; f_equal; lia]).
  assert (forall r, dinv (set_rbr r (set_lsr g s))) as Hd1 by (intros r; destruct Hd as ([] & H1 & H2); by split; [split|split]).
  destruct (Z.land (lsr s 0%nat) LSR_DR =? 0); [exists (set_lsr g s); split; [done|]; apply (Hd1 (rbr s))|]. mnorm. cbn [rbr set_lsr].
  destruct (input_putc_ok _ (u8 (rbr s 0%nat)) (Hd1 (fun k => rbr s (S k))) Hf) as (s2 & Hr & Hd2 & Hco & _). mrun Hr.
  apply IH; [done|]. rewrite Hco, length_app. cbn. pose proof (contents_bound _ _ (c_in _ (proj1 Hd))). lia.
Qed.

Lemma serial_interrupt_ok s : dinv s -> exists s', serial_interrupt s = Ok (tt, s') /\ dinv s'.
Proof.
  intros Hd. unfold serial_interrupt. destruct (receive_ok 64 s Hd) as (s1 & H1 & Hd1); [lia|]. mrun H1.
  destruct (transmit_ok 64 s1 Hd1) as (s2 & H2 & Hd2); [apply (contents_bound writes), Hd1|]. mrun H2.
  destruct (write_ier_ok s2) as (s3 & H3 & Hd3 & _); [apply Hd2..|eauto].
Qed.

Lemma dinv_keyboard s k c : dinv s -> dinv (set_keyboard k (set_scancodes c s)).
Proof. by intros ([] & H1 & H2); split; [split|split]. Qed.

Lemma keyboard_interrupt_ok s : dinv s -> exists s', keyboard_interrupt s = Ok (tt, s') /\ dinv s'.
Proof.
  intros Hd. unfold keyboard_interrupt, inb_data, upd_kbd. mnorm.
  match goal with |- exists s', bind ?m _ _ = _ /\ _ => assert (exists code g, m (set_scancodes (fun n => scancodes s (S n)) s) = Ok (code, set_scancodes g s)) as (code & g & Hr) end.
  { destruct (u8 (scancodes s 0%nat) =? 0xe0); [|by eexists _, _]. mnorm. by eexists _, _. }
  mrun Hr. destruct (Z.land code (Z.lnot 0x80) =? 0x3a).
  { destruct (Z.land code 0x80 =? 0); cbn [negb]; eexists; (split; [reflexivity|]); [apply dinv_keyboard, Hd|apply (dinv_keyboard s (keyboard s)), Hd]. }
  destruct (find_char (shift (keyboard s)) (Z.land code (Z.lnot 0x80))) as [c|]; [|by eexists; split; [reflexivity|apply dinv_keyboard, Hd]].
  destruct (Z.land code 0x80 =? 0); cbn [negb]; [|by eexists; split; [reflexivity|apply (dinv_keyboard s (keyboard s)), Hd]].
  destruct ((c =? 127) && ctrl (keyboard s) && alt (keyboard s)).
  { eexists. split; [reflexivity|]. by destruct Hd as ([] & H1 & H2); split; [split|split]. }
  unfold input_full. mnorm. cbn [input set_scancodes]. destruct (intq_full (queue (input s))) eqn:Hf; cbn [negb].
  - eexists. split; [reflexivity|apply (dinv_keyboard s (keyboard s)), Hd].
  - mnorm. edestruct (input_putc_ok (set_keyboard (count_key (keyboard s)) (set_scancodes g s))) as (s' & H1 & H2 & _); [by apply dinv_keyboard|done|eauto].
Qed.

Lemma serial_putc_ok s t l b : dinv s -> threads (txq s) = ∅ -> t <> NULL -> exists s', serial_putc fuel t l b s = Ok (tt, s') /\ dinv s'.
Proof.
  intros Hd Hth Hn. unfold serial_putc. mnorm. rewrite bool_decide_eq_true_2 by apply Hd. cbn [negb]. unfold txq_full. mnorm.
  assert (exists s1, (if negb l && intq_full (queue (txq s)) then b <- txq_getc ;; putc_poll fuel b else ret tt) s = Ok (tt, s1) /\ dinv s1 /\ threads (txq s1) = ∅)
    as (s1 & H1 & Hd1 & Hth1).
  { destruct (negb l && intq_full (queue (txq s))) eqn:E; [|by exists s]. apply andb_true_iff in E as [_ E].
    destruct (drain_ok s Hd) as (s1 & H1 & Hd1 & _ & Hth1 & _); [|by eauto]. pose proof (i_queue _ _ _ (c_tx _ (proj1 Hd))) as Hq.
    rewrite full_count in E by done. rewrite empty_count by done. apply Z.eqb_eq in E. by rewrite E. }
  mrun H1. destruct (step_alone writes (txq s1) (Call t (Putc b))) as (w & Hr & Hw & c & HK & Hp); [apply Hd1| |by split|].
  { cbn [enabled]. rewrite Hth1, lookup_empty, bool_decide_eq_true_2 by done. by rewrite (proj2 (Z.eqb_neq _ _) Hn). }
  mrun (on_txq_ok _ _ _ _ Hr). by apply (txq_returned s1 t c w).
Qed.

Lemma dev_step_ok s e : dinv s -> dev_enabled s e = true -> exists s', dev_step fuel e s = Ok (tt, s') /\ dinv s'.
Proof.
  intros Hd He. destruct e as [t l b|t y k|t|t y k| | |]; cbn [dev_step dev_enabled] in *.
  - apply andb_true_iff in He as [H1 H2]. apply bool_decide_eq_true in H1. apply negb_true_iff, Z.eqb_neq in H2. by apply serial_putc_ok.
  - destruct (step_alone writes (txq s) (Resume t y k)) as (w & Hr & Hw & c & HK & Hp); [apply Hd|done|done|].
    unfold serial_putc_resume. mrun (on_txq_ok _ _ _ _ Hr). by apply (txq_returned s t c w).
  - apply andb_true_iff in He as [H1 H2]. apply bool_decide_eq_true in H1. apply negb_true_iff, Z.eqb_neq in H2.
    destruct (step_alone reads (input s) (Call t Getc)) as (w & Hr & Hw & c & HK & Hp); [apply Hd| |by split|].
    { cbn [enabled]. rewrite H1, lookup_empty, bool_decide_eq_true_2 by done. by rewrite (proj2 (Z.eqb_neq _ _) H2). }
    unfold input_getc. mrun (on_input_ok _ _ _ _ Hr). by apply (input_returned s t c w).
  - destruct (step_alone reads (input s) (Resume t y k)) as (w & Hr & Hw & c & HK & Hp); [apply Hd|done|done|].
    unfold input_getc_resume. mrun (on_input_ok _ _ _ _ Hr). by apply (input_returned s t c w).
  - by apply serial_interrupt_ok.
  - by apply keyboard_interrupt_ok.
  - apply flush_ok; [done|]. apply (contents_bound writes), Hd.
Qed.

Lemma dev_run_ok es : forall s, dinv s -> dev_possible fuel es s = true -> exists s', dev_run fuel es s = Ok (tt, s') /\ dinv s'.
Proof.
  induction es as [|e es IH]; intros s Hd Hp; cbn [dev_run dev_possible] in *; [eauto|]. apply andb_true_iff in Hp as [He Hp].
  destruct (dev_step_ok s e Hd He) as (s' & Hs & Hd'). rewrite Hs in *. by apply IH.
Qed.

End invariant.

(** ** Start-up *)

(** [input_init] and [serial_init_queue], as [main] calls them; what was
    printed before, [bs], is sent by polling. *)
Definition devices_init : M dev unit := input_init ;;; serial_init_queue.

Fixpoint print_polled (fuel : nat) (t : Z) (bs : list Z) : M dev unit :=
  match bs with [] => ret tt | b :: bs' => serial_putc fuel t false b ;;; print_polled fuel t bs' end.

Definition powered_on (s : dev) : Prop :=
  mode s = UNINIT /\ length (buf (queue (txq s))) = 64%nat /\ length (buf (queue (input s))) = 64%nat.

(** The port in polling mode, with [bs] sent so far. *)
Record polled (fuel : nat) (bs : list Z) (s : dev) : Prop := {
  p_mode : mode s = POLL;
  p_txq : exists b, length b = 64%nat /\ txq s = start b;
  p_input : length (buf (queue (input s))) = 64%nat;
  p_port : lcr (port s) = 3 /\ ls (port s) = 12 /\ ms (port s) = 0;
  p_sent : sent (port s) = bs;
  p_lsr : ready fuel (lsr s)
}.

(** The writes of [init_poll] after the first one. *)
Lemma init_port i l a b c :
  uart_write MCR_REG (u8 MCR_OUT2) (uart_write LCR_REG (u8 LCR_N81) (uart_write MS_REG (u8 (Z.shiftr (1843200 / 16 / 9600) 8))
    (uart_write LS_REG (u8 (Z.land (1843200 / 16 / 9600) 0xff)) (uart_write LCR_REG (u8 (Z.lor LCR_N81 LCR_DLAB))
      (uart_write FCR_REG (u8 0) (mkUart i l a b c)))))) = mkUart i 3 12 0 c.
Proof. reflexivity. Qed.

Lemma first_write u : exists i a b, uart_write IER_REG (u8 0) u = mkUart i (lcr u) a b (sent u).
Proof.
  unfold uart_write. change (IER_REG =? LCR_REG) with false. change (IER_REG =? IO_BASE) with false. change (IER_REG =? IO_BASE + 1) with true. cbn iota.
  destruct (Z.testbit (lcr u) 7); eauto.
Qed.

Lemma init_poll_ok fuel s : powered_on s -> ready fuel (lsr s) -> exists s', init_poll s = Ok (tt, s') /\ polled fuel (sent (port s)) s'.
Proof.
  intros (Hm & Ht & Hi) Hr. unfold init_poll. mnorm. rewrite Hm, bool_decide_eq_true_2 by done. mnorm. unfold set_serial, outb.
  change ((300 <=? 9600) && (9600 <=? 115200)) with true. mnorm. eexists. split; [reflexivity|]. destruct (first_write (port s)) as (i & a & b & E).
  cbn [port set_mode set_txq set_port txq]. rewrite E, init_port.
  split; [done|eexists; split; [exact Ht|reflexivity]|done|done|done|done].
Qed.

Lemma putc_polled fuel bs s t l b : polled fuel bs s -> exists s', serial_putc fuel t l b s = Ok (tt, s') /\ polled fuel (bs ++ [u8 b]) s'.
Proof.
  intros []. unfold serial_putc. mnorm. rewrite p_mode0, bool_decide_eq_false_2, decide_False by done. cbn [negb]. mnorm. unfold putc_poll.
  destruct (poll_ok fuel s (p_lsr0 0%nat)) as (g & j & Hp & Hg). mrun Hp. eexists. split; [reflexivity|]. destruct p_port0 as (E1 & E2 & E3).
  split; cbn [mode port set_port set_lsr]; try done; [| |by eapply ready_ext]; unfold uart_write;
    change (THR_REG =? LCR_REG) with false; change (THR_REG =? IO_BASE) with true; cbn iota; rewrite E1; cbn; [done|by rewrite p_sent0].
Qed.

Lemma print_polled_ok fuel t bs : forall bs0 s, polled fuel bs0 s ->
  exists s', print_polled fuel t bs s = Ok (tt, s') /\ polled fuel (bs0 ++ map u8 bs) s'.
Proof.
  induction bs as [|b bs IH]; intros bs0 s Hp; cbn [print_polled map]; [rewrite app_nil_r; by exists s|].
  destruct (putc_polled fuel bs0 s t false b Hp) as (s1 & H1 & Hp1). mrun H1. destruct (IH _ s1 Hp1) as (s2 & H2 & Hp2).
  exists s2. rewrite <- app_assoc in Hp2. done.
Qed.

Lemma init_queue_ok fuel bs s : polled fuel bs s -> exists s', devices_init s = Ok (tt, s') /\ dinv fuel bs s' /\ ls (port s') = 12 /\ ms (port s') = 0.
Proof.
  intros []. destruct p_port0 as (E1 & E2 & E3), p_txq0 as (b & Hb & E4). unfold devices_init, input_init, serial_init_queue. mnorm. cbn [mode set_input].
  rewrite p_mode0, decide_False by done. mnorm. cbn [mode set_input]. rewrite p_mode0, bool_decide_eq_true_2 by done. mnorm.
  match goal with |- exists s', write_ier ?x = _ /\ _ => destruct (write_ier_ok fuel bs x) as (s' & H1 & H2 & _ & _ & H3 & H4) end.
  - split; cbn [txq input mode port lsr set_mode set_input]; [rewrite E4|..]; [by apply start_inv..|done|by rewrite E1|done].
  - unfold sent_ok. cbn. by rewrite E4, p_sent0, app_nil_r.
  - exists s'. split; [done|]. split; [done|]. cbn in H3, H4. by rewrite H3, H4.
Qed.

(** A blocked thread waits for the state that keeps it waiting. *)
Lemma blocked_waits K w t v : inv K true w -> threads w !! t = Some v -> blocked v = true -> condition (op v) (queue w) = true.
Proof.
  intros Hi Hv B. destruct (i_lone _ _ _ Hi eq_refl t v Hv) as [P _]. destruct (pc v) eqn:E; [|done|by apply (i_wait _ _ _ Hi t v)].
  rewrite (i_loop _ _ _ Hi t v Hv E) in B. done.
Qed.

Lemma full_not_empty q : q_ok q -> intq_full q = true -> intq_empty q = false.
Proof. intros Hq. rewrite full_count, empty_count by done. intros ->%Z.eqb_eq. done. Qed.

Lemma empty_not_full q : q_ok q -> intq_empty q = true -> intq_full q = false.
Proof. intros Hq. rewrite full_count, empty_count by done. intros ->%Z.eqb_eq. done. Qed.

(** C5: whatever was printed by polling before, after start-up any sequence of
    output, input, flushes and interrupts of the keyboard and the serial
    port, with one thread at a time in each queue, runs without a failed
    assertion and without an endless loop, as long as the transmitter
    becomes ready now and then.  The port runs at 9600 bps, the bytes sent
    and still queued are the bytes printed, once and in order; keys and
    received bytes are delivered in order; and a thread that waits for room
    in the queue, or for a key, has the interrupt on that will wake it. *)
Theorem char_devices_ok fuel t bs es s :
  powered_on s -> ready fuel (lsr s) -> bs <> [] ->
  exists s1 s2, (print_polled fuel t bs ;;; devices_init) s = Ok (tt, s1) /\ ls (port s1) = 12 /\ ms (port s1) = 0 /\
    (dev_possible fuel es s1 = true ->
     dev_run fuel es s1 = Ok (tt, s2) /\
     sent (port s2) ++ map u8 (contents (queue (txq s2))) = sent (port s) ++ map u8 bs ++ map u8 (stored (txq s2)) /\
     stored (input s2) = taken (input s2) ++ contents (queue (input s2)) /\
     (forall t' v, threads (txq s2) !! t' = Some v -> blocked v = true -> Z.testbit (ier (port s2)) 1 = true) /\
     (forall t' v, threads (input s2) !! t' = Some v -> blocked v = true -> Z.testbit (ier (port s2)) 0 = true)).
Proof.
  intros Hon Hr Hbs. destruct bs as [|b bs]; [done|].
  destruct (init_poll_ok fuel s Hon Hr) as (s0 & H0 & Hp0). destruct (putc_polled fuel _ s0 t false b Hp0) as (s0' & H0' & Hp0').
  destruct (print_polled_ok fuel t bs _ s0' Hp0') as (s0'' & H0'' & Hp0'').
  assert (print_polled fuel t (b :: bs) s = Ok (tt, s0'')) as Hprint.
  { cbn [print_polled]. erewrite bind_ok; [exact H0''|]. rewrite <- H0'. unfold serial_putc. mnorm. destruct Hon as [Hm _].
    rewrite Hm, (p_mode _ _ _ Hp0). rewrite !bool_decide_eq_false_2, decide_True, decide_False by done. cbn [negb]. mnorm. by mrun H0. }
  mrun Hprint. destruct (init_queue_ok fuel _ s0'' Hp0'') as (s1 & H1 & Hd1 & Hls & Hms). exists s1.
  destruct (dev_possible fuel es s1) eqn:Hposs; [|by exists s1].
  destruct (dev_run_ok fuel _ es s1 Hd1 Hposs) as (s2 & H2 & [] & Hs2 & Hier). exists s2. split_and!; try done.
  intros _. split; [done|]. split; [|split; [apply (i_fifo _ _ _ c_in0)|split]].
  - rewrite Hs2, (i_fifo _ _ _ c_tx0), map_app, <- !app_assoc. done.
  - intros t' v Hv B. apply Hier, full_not_empty; [apply (i_queue _ _ _ c_tx0)|]. pose proof (blocked_waits _ _ _ _ c_tx0 Hv B) as C.
    pose proof (i_calls _ _ _ c_tx0 t' v Hv) as G. unfold writes in G. by destruct (op v).
  - intros t' v Hv B. apply Hier, empty_not_full; [apply (i_queue _ _ _ c_in0)|]. pose proof (blocked_waits _ _ _ _ c_in0 Hv B) as C.
    pose proof (i_calls _ _ _ c_in0 t' v Hv) as G. unfold reads in G. by destruct (op v).
Qed.

(** ** An instance *)

(** A line status that is always ready, and the key A pressed. *)
Definition cold : dev :=
  mkDev (mkKbd false false false false false false false 0) (start (replicate 64 0)) (start (replicate 64 0)) UNINIT (mkUart 0 0 0 0 []) false
    (fun _ => LSR_THRE) (fun _ => 0) (fun _ => 0x1e).

Definition session : list devent :=
  [Serial_putc 1 true 66; Serial_interrupt; Input_getc 2; Serial_putc 1 true 67; Keyboard_interrupt; Input_getc_resume 2 false 0].

Definition cold_result : res (unit * dev) := (print_polled 1 1 [65] ;;; devices_init) cold.

Lemma char_devices_ok_witness : exists s1 s2, cold_result = Ok (tt, s1) /\ dev_run 1 session s1 = Ok (tt, s2) /\
  sent (port s2) ++ map u8 (contents (queue (txq s2))) = [65; 66; 67] /\ taken (input s2) = [97].
Proof.
  destruct (char_devices_ok 1 1 [65] session cold) as (s1 & s2 & H1 & _ & _ & H2); [by split_and!|intros n; exists 0%nat; split; [lia|done]|done|].
  assert (cold_result = Ok (tt, s1)) as H1' by exact H1. clear H1. exists s1, s2. split; [done|].
  assert (dev_possible 1 session s1 = true) as Hp by (vm_compute in H1'; injection H1' as <-; vm_compute; reflexivity).
  destruct (H2 Hp) as (Hr & Hs & Hf & _). split; [done|]. rewrite Hs. vm_compute in H1'. injection H1' as <-. vm_compute in Hr. injection Hr as <-.
  split; vm_compute; reflexivity.
Defined.

End CharDevices.
