(* ===== verification/Blocks.v ===== *)
(** * Block devices and partitions (src/src/devices/block.c, partition.c)

    A device is a [struct block] at an address; its driver is the IDE disk
    that it stands for, an array of sectors, or a partition of another
    device ([struct partition]).  [malloc] is modelled by its contract: each
    call fails or returns an address that is not in use.  What is printed is
    appended to [console]. *)

From Stdlib Require Import Ascii String.
From S2P Require Import Prelude DListOps CString StdLib Stdio FsState.

Module Blocks.
Import Stdio.

(** ** Data *)

Inductive block_type : Type :=
  BLOCK_KERNEL | BLOCK_FILESYS | BLOCK_SCRATCH | BLOCK_SWAP | BLOCK_RAW | BLOCK_FOREIGN.

#[export] Instance block_type_eq_dec : EqDecision block_type.
Proof. solve_decision. Defined.

(** [ops] and [aux] of a device. *)
Inductive driver : Type :=
| Ide (d : Z)                       (* an ATA disk *)
| Partition (block start : Z).      (* [struct partition] *)

Record block : Type := mkBlock {
  name : list Z;
  type : block_type;
  size : Z;
  aux : driver;
  read_cnt : Z;
  write_cnt : Z
}.

Record st : Type := mkSt {
  blocks : gmap Z block;
  all_blocks : list Z;
  block_by_role : list (option Z);
  disks : gmap Z (list (list Z));
  mem : nat -> bool;
  brk : Z;
  console : list Z
}.

Definition set_blocks v s := mkSt v (all_blocks s) (block_by_role s) (disks s) (mem s) (brk s) (console s).
Definition set_all_blocks v s := mkSt (blocks s) v (block_by_role s) (disks s) (mem s) (brk s) (console s).
Definition set_roles v s := mkSt (blocks s) (all_blocks s) v (disks s) (mem s) (brk s) (console s).
Definition set_disks v s := mkSt (blocks s) (all_blocks s) (block_by_role s) v (mem s) (brk s) (console s).
Definition set_mem v s := mkSt (blocks s) (all_blocks s) (block_by_role s) (disks s) v (brk s) (console s).
Definition set_brk v s := mkSt (blocks s) (all_blocks s) (block_by_role s) (disks s) (mem s) v (console s).
Definition set_console v s := mkSt (blocks s) (all_blocks s) (block_by_role s) (disks s) (mem s) (brk s) v.

Definition malloc : M st Z :=
  s <- get ;;
  put (set_mem (fun n => mem s (S n)) (set_brk (brk s + 1) s)) ;;;
  ret (if mem s 0%nat then brk s else NULL).

Definition kprint (text : list Z) : M st unit := modify (fun s => set_console (console s ++ text) s).

(** [printf] to the console. *)
Definition kprintf (format : list Z) (args : list arg) : M st unit :=
  match printf 120 format args with Ok text => kprint text | Err e => fail e end.

Definition blk (b : Z) : M st block := gets_opt (fun s => if b =? NULL then None else blocks s !! b).
Definition upd_block (b : Z) (f : block -> block) : M st unit :=
  v <- blk b ;; modify (fun s => set_blocks (<[b := f v]> (blocks s)) s).

(** ** Devices *)

Definition block_type_name (t : block_type) : list Z :=
  match t with
  | BLOCK_KERNEL => str "kernel" | BLOCK_FILESYS => str "filesys" | BLOCK_SCRATCH => str "scratch"
  | BLOCK_SWAP => str "swap" | BLOCK_RAW => str "raw" | BLOCK_FOREIGN => str "foreign"
  end.

(** The number of a role; [BLOCK_RAW] and [BLOCK_FOREIGN] are none. *)
Definition BLOCK_ROLE_CNT : nat := 4.
Definition role_no (t : block_type) : nat :=
  match t with BLOCK_KERNEL => 0 | BLOCK_FILESYS => 1 | BLOCK_SCRATCH => 2 | BLOCK_SWAP => 3 | BLOCK_RAW => 4 | BLOCK_FOREIGN => 5 end.

Definition block_get_role (role : block_type) : M st (option Z) :=
  ASSERT (role_no role <? BLOCK_ROLE_CNT)%nat ;;; gets_opt (fun s => block_by_role s !! role_no role).

Definition block_set_role (role : block_type) (b : option Z) : M st unit :=
  ASSERT (role_no role <? BLOCK_ROLE_CNT)%nat ;;;
  modify (fun s => set_roles (<[role_no role := b]> (block_by_role s)) s).

Definition block_first : M st (option Z) := gets (fun s => head (all_blocks s)).

Fixpoint after (b : Z) (l : list Z) : option (option Z) :=
  match l with [] => None | x :: l' => if x =? b then Some (head l') else after b l' end.

(** The element behind the one of [b]; a device that is not in the list has
    no list element. *)
Definition block_next (b : Z) : M st (option Z) := gets_opt (fun s => after b (all_blocks s)).

Fixpoint by_name_loop (name0 : list Z) (l : list Z) : M st (option Z) :=
  match l with
  | [] => ret None
  | b :: l' => v <- blk b ;; if bool_decide (name0 = name v) then ret (Some b) else by_name_loop name0 l'
  end.

Definition block_get_by_name (name0 : list Z) : M st (option Z) :=
  l <- gets all_blocks ;; by_name_loop name0 l.

Definition block_size (b : Z) : M st Z := v <- blk b ;; ret (size v).
Definition block_name (b : Z) : M st (list Z) := v <- blk b ;; ret (name v).
Definition get_block_type (b : Z) : M st block_type := v <- blk b ;; ret (type v).

Definition check_sector (b sector : Z) : M st unit :=
  n <- block_size b ;; if sector >=? n then fail Kernel_panic else ret tt.

(** The disk driver: the sectors of an IDE disk. *)
Definition ide_read (d sector : Z) : M st (list Z) :=
  gets_opt (fun s => l ← disks s !! d; l !! Z.to_nat sector).
Definition ide_write (d sector : Z) (buffer : list Z) : M st unit :=
  l <- gets_opt (fun s => disks s !! d) ;;
  modify (fun s => set_disks (<[d := <[Z.to_nat sector := buffer]> l]> (disks s)) s).

(** [block_read] calls the driver, and the driver of a partition
    ([partition_read]) calls [block_read] of the device below; [fuel] bounds
    the depth. *)
Fixpoint block_read (fuel : nat) (b sector : Z) : M st (list Z) :=
  match fuel with
  | O => fail Out_of_fuel
  | S fuel' =>
      check_sector b sector ;;;
      v <- blk b ;;
      buffer <- match aux v with
                | Ide d => ide_read d sector
                | Partition b' start => block_read fuel' b' (u32 (start + sector))
                end ;;
      upd_block b (fun v => mkBlock (name v) (type v) (size v) (aux v) (u64 (read_cnt v + 1)) (write_cnt v)) ;;;
      ret buffer
  end.

Fixpoint block_write (fuel : nat) (b sector : Z) (buffer : list Z) : M st unit :=
  match fuel with
  | O => fail Out_of_fuel
  | S fuel' =>
      check_sector b sector ;;;
      v <- blk b ;;
      ASSERT (negb (bool_decide (type v = BLOCK_FOREIGN))) ;;;
      match aux v with
      | Ide d => ide_write d sector buffer
      | Partition b' start => block_write fuel' b' (u32 (start + sector)) buffer
      end ;;;
      upd_block b (fun v => mkBlock (name v) (type v) (size v) (aux v) (read_cnt v) (u64 (write_cnt v + 1)))
  end.

Fixpoint print_stats_loop (roles : list (option Z)) : M st unit :=
  match roles with
  | [] => ret tt
  | None :: roles' => print_stats_loop roles'
  | Some b :: roles' =>
      v <- blk b ;;
      kprintf (lit "%s (%s): %llu reads, %llu writes
") [Str (Some (name v)); Str (Some (block_type_name (type v))); Dword (read_cnt v); Dword (write_cnt v)] ;;;
      print_stats_loop roles'
  end.

Definition block_print_stats : M st unit := roles <- gets block_by_role ;; print_stats_loop roles.

Definition block_register (name0 : list Z) (type0 : block_type) (extra_info : option (list Z)) (size0 : Z) (aux0 : driver) : M st Z :=
  b <- malloc ;;
  (if b =? NULL then fail Kernel_panic else ret tt) ;;;
  let v := mkBlock (take 15 name0) type0 size0 aux0 0 0 in
  modify (fun s => set_all_blocks (all_blocks s ++ [b]) s) ;;;
  modify (fun s => set_blocks (<[b := v]> (blocks s)) s) ;;;
  kprintf (lit "%s: %'u sectors (") [Str (Some (name v)); Word size0] ;;;
  kprint (print_human_readable_size (u64 (size0 * 512))) ;;;
  kprintf (lit ")") [] ;;;
  match extra_info with Some i => kprintf (lit ", %s") [Str (Some i)] | None => ret tt end ;;;
  kprint [10] ;;;
  ret b.

(** ** Partitions *)

(** An entry of the table; the encoded cylinders, heads and sectors are not
    used. *)
Record partition_table_entry : Type := mkPte { bootable : Z; ptype : Z; offset : Z; psize : Z }.

Definition decode_pte (bs : list Z) : partition_table_entry :=
  mkPte (nth 0 bs 0) (nth 4 bs 0) (FsState.of_le32 (drop 8 bs)) (FsState.of_le32 (drop 12 bs)).

(** [pt->partitions[i]]. *)
Definition pt_entry (pt : list Z) (i : nat) : partition_table_entry := decode_pte (take 16 (drop (446 + 16 * i) pt)).
Definition pt_signature (pt : list Z) : Z := nth 510 pt 0 + 256 * nth 511 pt 0.

Definition is_extended (t : Z) : bool := (t =? 5) || (t =? 15) || (t =? 133) || (t =? 197).

Definition type_of_partition (part_type : Z) : block_type :=
  if part_type =? 32 then BLOCK_KERNEL else if part_type =? 33 then BLOCK_FILESYS
  else if part_type =? 34 then BLOCK_SCRATCH else if part_type =? 35 then BLOCK_SWAP else BLOCK_FOREIGN.

Definition partition_type_name (type : Z) : string :=
  match type with
  | 0 => "Empty"
  | 1 => "FAT12"
  | 2 => "XENIX root"
  | 3 => "XENIX usr"
  | 4 => "FAT16 <32M"
  | 5 => "Extended"
  | 6 => "FAT16"
  | 7 => "HPFS/NTFS"
  | 8 => "AIX"
  | 9 => "AIX bootable"
  | 10 => "OS/2 Boot Manager"
  | 11 => "W95 FAT32"
  | 12 => "W95 FAT32 (LBA)"
  | 14 => "W95 FAT16 (LBA)"
  | 15 => "W95 Ext'd (LBA)"
  | 16 => "OPUS"
  | 17 => "Hidden FAT12"
  | 18 => "Compaq diagnostics"
  | 20 => "Hidden FAT16 <32M"
  | 22 => "Hidden FAT16"
  | 23 => "Hidden HPFS/NTFS"
  | 24 => "AST SmartSleep"
  | 27 => "Hidden W95 FAT32"
  | 28 => "Hidden W95 FAT32 (LBA)"
  | 30 => "Hidden W95 FAT16 (LBA)"
  | 32 => "Pintos OS kernel"
  | 33 => "Pintos file system"
  | 34 => "Pintos scratch"
  | 35 => "Pintos swap"
  | 36 => "NEC DOS"
  | 57 => "Plan 9"
  | 60 => "PartitionMagic recovery"
  | 64 => "Venix 80286"
  | 65 => "PPC PReP Boot"
  | 66 => "SFS"
  | 77 => "QNX4.x"
  | 78 => "QNX4.x 2nd part"
  | 79 => "QNX4.x 3rd part"
  | 80 => "OnTrack DM"
  | 81 => "OnTrack DM6 Aux1"
  | 82 => "CP/M"
  | 83 => "OnTrack DM6 Aux3"
  | 84 => "OnTrackDM6"
  | 85 => "EZ-Drive"
  | 86 => "Golden Bow"
  | 92 => "Priam Edisk"
  | 97 => "SpeedStor"
  | 99 => "GNU HURD or SysV"
  | 100 => "Novell Netware 286"
  | 101 => "Novell Netware 386"
  | 112 => "DiskSecure Multi-Boot"
  | 117 => "PC/IX"
  | 128 => "Old Minix"
  | 129 => "Minix / old Linux"
  | 130 => "Linux swap / Solaris"
  | 131 => "Linux"
  | 132 => "OS/2 hidden C: drive"
  | 133 => "Linux extended"
  | 134 => "NTFS volume set"
  | 135 => "NTFS volume set"
  | 136 => "Linux plaintext"
  | 142 => "Linux LVM"
  | 147 => "Amoeba"
  | 148 => "Amoeba BBT"
  | 159 => "BSD/OS"
  | 160 => "IBM Thinkpad hibernation"
  | 165 => "FreeBSD"
  | 166 => "OpenBSD"
  | 167 => "NeXTSTEP"
  | 168 => "Darwin UFS"
  | 169 => "NetBSD"
  | 171 => "Darwin boot"
  | 183 => "BSDI fs"
  | 184 => "BSDI swap"
  | 187 => "Boot Wizard hidden"
  | 190 => "Solaris boot"
  | 191 => "Solaris"
  | 193 => "DRDOS/sec (FAT-12)"
  | 196 => "DRDOS/sec (FAT-16 < 32M)"
  | 198 => "DRDOS/sec (FAT-16)"
  | 199 => "Syrinx"
  | 218 => "Non-FS data"
  | 219 => "CP/M / CTOS / ..."
  | 222 => "Dell Utility"
  | 223 => "BootIt"
  | 225 => "DOS access"
  | 227 => "DOS R/O"
  | 228 => "SpeedStor"
  | 235 => "BeOS fs"
  | 238 => "EFI GPT"
  | 239 => "EFI (FAT-12/16/32)"
  | 240 => "Linux/PA-RISC boot"
  | 241 => "SpeedStor"
  | 244 => "SpeedStor"
  | 242 => "DOS secondary"
  | 253 => "Linux raid autodetect"
  | 254 => "LANstep"
  | 255 => "BBT"
  | _ => "Unknown"
  end%string.

(** [snprintf] into an array of [n] characters. *)
Definition snprintf_array (n : nat) (format : list Z) (args : list arg) : M st (list Z) :=
  match printf 120 format args with Ok text => ret (take (n - 1) text) | Err e => fail e end.

Definition found_partition (b part_type start size0 part_nr : Z) : M st unit :=
  n <- block_size b ;;
  bname <- block_name b ;;
  if start >=? n then
    kprintf (lit "%s%d: Partition starts past end of device (sector %u)
") [Str (Some bname); Word part_nr; Word start]
  else if (u32 (start + size0) <? start) || (u32 (start + size0) >? n) then
    kprintf (lit "%s%d: Partition end (%u) past end of device (%u)
") [Str (Some bname); Word part_nr; Word (u32 (start + size0)); Word n]
  else
    p <- malloc ;;
    (if p =? NULL then fail Kernel_panic else ret tt) ;;;
    pname <- snprintf_array 16 (lit "%s%d") [Str (Some bname); Word part_nr] ;;
    extra_info <- snprintf_array 128 (lit "%s (%02x)") [Str (Some (str (partition_type_name part_type))); Word part_type] ;;
    block_register pname (type_of_partition part_type) (Some extra_info) size0 (Partition b start) ;;;
    ret tt.

(** The loop over the entries from [i] on; [recur] reads another table. *)
Fixpoint entries_loop (recur : Z -> Z -> Z -> M st Z) (b sector primary_extended_sector : Z) (es : list partition_table_entry) (part_nr : Z) : M st Z :=
  match es with
  | [] => ret part_nr
  | e :: es' =>
      part_nr <- (if (psize e =? 0) || (ptype e =? 0) then ret part_nr
                  else if is_extended (ptype e) then
                    bname <- block_name b ;;
                    kprintf (lit "%s: Extended partition in sector %u
") [Str (Some bname); Word sector] ;;;
                    (if sector =? 0 then recur (offset e) (offset e) part_nr
                     else recur (u32 (offset e + primary_extended_sector)) primary_extended_sector part_nr)
                  else
                    let part_nr := s32 (part_nr + 1) in
                    found_partition b (ptype e) (u32 (offset e + sector)) (psize e) part_nr ;;;
                    ret part_nr) ;;
      entries_loop recur b sector primary_extended_sector es' part_nr
  end.

(** Returns the new value of the part number; [fuel] bounds the nesting. *)
Fixpoint read_partition_table (fuel : nat) (b sector primary_extended_sector part_nr : Z) : M st Z :=
  match fuel with
  | O => fail Out_of_fuel
  | S fuel' =>
      n <- block_size b ;;
      bname <- block_name b ;;
      if sector >=? n then
        kprintf (lit "%s: Partition table at sector %u past end of device.
") [Str (Some bname); Word sector] ;;; ret part_nr
      else
        p <- malloc ;;
        (if p =? NULL then fail Kernel_panic else ret tt) ;;;
        depth <- gets (fun s => S (length (all_blocks s))) ;;
        pt <- block_read depth b 0 ;;
        if negb (pt_signature pt =? 43605) then
          (if primary_extended_sector =? 0
           then kprintf (lit "%s: Invalid partition table signature
") [Str (Some bname)]
           else kprintf (lit "%s: Invalid extended partition table in sector %u
") [Str (Some bname); Word sector]) ;;; ret part_nr
        else
          entries_loop (fun sec prim nr => read_partition_table fuel' b sec prim nr) b sector primary_extended_sector
            (map (pt_entry pt) (seq 0 4)) part_nr
  end.

Definition partition_scan (fuel : nat) (b : Z) : M st unit :=
  part_nr <- read_partition_table fuel b 0 0 0 ;;
  if part_nr =? 0 then
    bname <- block_name b ;; kprintf (lit "%s: Device contains no partitions
") [Str (Some bname)]
  else ret tt.

(** ** Messages never fail *)

Definition zero_arg (a : arg) : arg := match a with Word _ => Word 0 | Dword _ => Dword 0 | Str _ => Str None end.

Definition format_ok (format : list Z) (args : list arg) : bool :=
  (length format + 24 <? 120)%nat && match printf 120 format (map zero_arg args) with Ok _ => true | Err _ => false end.

Lemma printf_works format args : format_ok format args = true -> exists text, printf 120 format args = Ok text.
Proof.
  unfold format_ok. rewrite andb_true_iff, Nat.ltb_lt. intros [Hl H].
  destruct (printf 120 format (map zero_arg args)) as [t|e] eqn:E; [|done].
  eapply printf_shape; [exact Hl| |exact E]. clear. induction args as [|[] args IH]; by constructor.
Qed.

Lemma kprintf_run format args s :
  format_ok format args = true -> exists t, kprintf format args s = Ok (tt, set_console t s).
Proof. intros H. destruct (printf_works format args H) as (t & E). unfold kprintf. rewrite E. by eexists. Qed.

Lemma snprintf_array_run n format args s :
  format_ok format args = true -> exists t, snprintf_array n format args s = Ok (t, s).
Proof. intros H. destruct (printf_works format args H) as (t & E). unfold snprintf_array. rewrite E. by eexists. Qed.

(** ** The invariant *)

(** A disk has as many sectors of 512 bytes as its device says; a partition
    lies inside a device that was registered before it. *)
Record wf (s : st) : Prop := {
  wf_listed : forall b, b ∈ all_blocks s <-> is_Some (blocks s !! b);
  wf_nodup : NoDup (all_blocks s);
  wf_addr : forall b, is_Some (blocks s !! b) -> 0 < b < brk s;
  wf_brk : 0 < brk s;
  wf_size : forall b v, blocks s !! b = Some v -> 0 <= size v < 4294967296;
  wf_ide : forall b v d, blocks s !! b = Some v -> aux v = Ide d ->
    exists l, disks s !! d = Some l /\ Z.of_nat (length l) = size v /\ Forall (fun x => length x = 512%nat) l;
  wf_part : forall i b v p start, all_blocks s !! i = Some b -> blocks s !! b = Some v -> aux v = Partition p start ->
    exists j vp, all_blocks s !! j = Some p /\ (j < i)%nat /\ blocks s !! p = Some vp /\
      0 <= start /\ start + size v <= size vp /\ type vp <> BLOCK_FOREIGN;
  wf_roles : length (block_by_role s) = BLOCK_ROLE_CNT
}.

Lemma wf_console t s : wf s -> wf (set_console t s).
Proof. intros []. by split. Qed.

(** Where a sector of a device is on a disk. *)
Inductive located (s : st) : Z -> Z -> Z -> Z -> Prop :=
| Loc_ide b v d k :
    blocks s !! b = Some v -> aux v = Ide d -> 0 <= k < size v -> located s b k d k
| Loc_part b v p start k d j :
    blocks s !! b = Some v -> aux v = Partition p start -> 0 <= k < size v ->
    located s p (start + k) d j -> located s b k d j.

Lemma located_fun s b k d j d' j' : located s b k d j -> located s b k d' j' -> d' = d /\ j' = j.
Proof.
  intros H. revert d' j'. induction H as [b v d k Hb Ha Hk|b v p start k d j Hb Ha Hk Hl IH]; intros d' j' H'.
  - inversion H'; subst; naive_solver congruence.
  - inversion H' as [b0 v0 d0 k0 Hb0 Ha0|b0 v0 p0 start0 k0 d0 j0 Hb0 Ha0 Hk0 Hl0]; subst; [congruence|].
    apply IH. congruence.
Qed.

(** The sectors of a device are consecutive sectors of one disk. *)
Lemma located_shift s b k d j k' v :
  located s b k d j -> blocks s !! b = Some v -> 0 <= k' < size v -> wf s -> located s b k' d (j + (k' - k)).
Proof.
  intros H. revert k' v. induction H as [b v d k Hb Ha Hk|b v p start k d j Hb Ha Hk Hl IH]; intros k' v' Hv Hk' Hwf.
  - assert (v' = v) as -> by congruence. replace (k + (k' - k)) with k' by lia. by eapply Loc_ide.
  - assert (v' = v) as -> by congruence.
    pose proof (proj2 (wf_listed s Hwf b) (ex_intro _ v Hb)) as Hin. apply list_elem_of_lookup in Hin as (i & Hi).
    destruct (wf_part s Hwf i b v p start Hi Hb Ha) as (m & vp & _ & _ & Hp & Hs & Hle & _).
    eapply Loc_part; [done..|]. replace (j + (k' - k)) with (j + (start + k' - (start + k))) by lia.
    eapply IH; [done|lia|done].
Qed.

(** In range, every sector is on a disk. *)
Lemma located_total s i b v k :
  wf s -> all_blocks s !! i = Some b -> blocks s !! b = Some v -> 0 <= k < size v ->
  exists d j l x, located s b k d j /\ disks s !! d = Some l /\ 0 <= j /\ l !! Z.to_nat j = Some x /\ length x = 512%nat.
Proof.
  intros Hwf. revert b v k. induction (lt_wf i) as [i _ IH]. intros b v k Hi Hb Hk. destruct (aux v) as [d|p start] eqn:Ha.
  - destruct (wf_ide s Hwf b v d Hb Ha) as (l & Hl & Hlen & Hsec).
    destruct (lookup_lt_is_Some_2 l (Z.to_nat k)) as (x & Hx); [lia|].
    exists d, k, l, x. split; [by eapply Loc_ide|]. split; [done|]. split; [lia|]. split; [done|].
    rewrite Forall_forall in Hsec. apply Hsec. by eapply list_elem_of_lookup_2.
  - destruct (wf_part s Hwf i b v p start Hi Hb Ha) as (m & vp & Hm & Hlt & Hp & Hs & Hle & _).
    destruct (IH m Hlt p vp (start + k) Hm Hp ltac:(lia)) as (d & j & l & x & Hloc & H).
    exists d, j, l, x. split; [by eapply Loc_part|done].
Qed.

(** ** Reading and writing *)

Definition dev (v : block) : list Z * block_type * Z * driver := (name v, type v, size v, aux v).

(** Only the counters of devices differ, and sectors of disks. *)
Record same_devs (s s' : st) : Prop := {
  sd_blocks : forall b, dev <$> blocks s' !! b = dev <$> blocks s !! b;
  sd_list : all_blocks s' = all_blocks s;
  sd_roles : block_by_role s' = block_by_role s;
  sd_brk : brk s' = brk s;
  sd_disks : forall d l, disks s !! d = Some l ->
    exists l', disks s' !! d = Some l' /\ length l' = length l /\ (Forall (fun x => length x = 512%nat) l -> Forall (fun x => length x = 512%nat) l')
}.

Lemma same_devs_refl s : same_devs s s.
Proof. split; try done. intros d l H. eauto. Qed.

Lemma same_devs_trans s1 s2 s3 : same_devs s1 s2 -> same_devs s2 s3 -> same_devs s1 s3.
Proof.
  intros [a1 a2 a3 a4 a5] [b1 b2 b3 b4 b5]. split; [|congruence..|].
  - intros b. by rewrite b1.
  - intros d l H. destruct (a5 d l H) as (l2 & H2 & L2 & F2), (b5 d l2 H2) as (l3 & H3 & L3 & F3).
    exists l3. split; [done|]. split; [congruence|auto].
Qed.

Lemma same_devs_block s s' b v : same_devs s s' -> blocks s !! b = Some v -> exists v', blocks s' !! b = Some v' /\ dev v' = dev v.
Proof. intros H Hb. pose proof (sd_blocks _ _ H b) as E. rewrite Hb in E. destruct (blocks s' !! b) as [v'|]; [|done]. injection E as E1 E2 E3 E4.
  exists v'. split; [done|]. unfold dev. congruence. Qed.

Lemma same_devs_block_inv s s' b v : same_devs s s' -> blocks s' !! b = Some v -> exists v', blocks s !! b = Some v' /\ dev v' = dev v.
Proof. intros H Hb. pose proof (sd_blocks _ _ H b) as E. rewrite Hb in E. destruct (blocks s !! b) as [v'|]; [|done]. injection E as E1 E2 E3 E4.
  exists v'. split; [done|]. unfold dev. congruence. Qed.

Lemma wf_same s s' : same_devs s s' -> wf s -> wf s'.
Proof.
  intros H Hwf. pose proof H as [Hb Hl Hr Hk Hd]. split; rewrite ?Hl, ?Hr, ?Hk.
  - intros b. by rewrite (wf_listed s Hwf b), <- (fmap_is_Some dev (blocks s !! b)), <- (fmap_is_Some dev (blocks s' !! b)), Hb.
  - apply Hwf.
  - intros b [v Hv]. destruct (same_devs_block_inv _ _ _ _ H Hv) as (v' & Hv' & _). apply (wf_addr s Hwf). eauto.
  - exact (wf_brk s Hwf).
  - intros b v Hv. destruct (same_devs_block_inv _ _ _ _ H Hv) as (v' & Hv' & [= E1 E2 E3 E4]). rewrite <- E3. by eapply wf_size.
  - intros b v d Hv Ha. destruct (same_devs_block_inv _ _ _ _ H Hv) as (v' & Hv' & [= E1 E2 E3 E4]). rewrite <- E4 in Ha.
    destruct (wf_ide s Hwf b v' d Hv' Ha) as (l & L1 & L2 & L3). destruct (Hd d l L1) as (l' & D1 & D2 & D3).
    exists l'. split; [done|]. split; [lia|auto].
  - intros i b v p start Hi Hv Ha. destruct (same_devs_block_inv _ _ _ _ H Hv) as (v' & Hv' & [= E1 E2 E3 E4]). rewrite <- E4 in Ha.
    destruct (wf_part s Hwf i b v' p start Hi Hv' Ha) as (j & vp & P1 & P2 & P3 & P4 & P5 & P6).
    destruct (same_devs_block _ _ _ _ H P3) as (vp' & Q1 & [= F1 F2 F3 F4]).
    exists j, vp'. split; [done|]. split; [done|]. split; [done|]. split; [done|]. split; [lia|congruence].
  - apply Hwf.
Qed.

Lemma located_same s s' b k d j : same_devs s s' -> located s b k d j -> located s' b k d j.
Proof.
  intros Hs. induction 1 as [b v d k Hb Ha Hk|b v p start k d j Hb Ha Hk Hl IH];
    destruct (same_devs_block _ _ _ _ Hs Hb) as (v' & Hv' & [= E1 E2 E3 E4]).
  - eapply Loc_ide; [done|congruence|lia].
  - apply (Loc_part s' b v' p start); [done|congruence|lia|done].
Qed.

Lemma blk_run s b v : wf s -> blocks s !! b = Some v -> blk b s = Ok (v, s).
Proof.
  intros Hwf Hb. unfold blk, gets_opt. pose proof (wf_addr s Hwf b ltac:(eauto)). rewrite (proj2 (Z.eqb_neq _ _)) by (unfold NULL; lia).
  by rewrite Hb.
Qed.

Lemma upd_block_run s b v f :
  wf s -> blocks s !! b = Some v -> dev (f v) = dev v ->
  upd_block b f s = Ok (tt, set_blocks (<[b := f v]> (blocks s)) s) /\ same_devs s (set_blocks (<[b := f v]> (blocks s)) s).
Proof.
  intros Hwf Hb Hf. split; [unfold upd_block; by mrun (blk_run s b v Hwf Hb)|].
  split; try done; [|eauto]. intros b'. cbn [blocks set_blocks]. destruct (decide (b' = b)) as [->|].
  - rewrite lookup_insert_eq, Hb. cbn. by rewrite Hf.
  - by rewrite lookup_insert_ne.
Qed.

Lemma check_sector_run s b v k :
  wf s -> blocks s !! b = Some v -> check_sector b k s = if k >=? size v then Err Kernel_panic else Ok (tt, s).
Proof.
  intros Hwf Hb. unfold check_sector, block_size. rewrite bind_bind. mrun (blk_run s b v Hwf Hb). mnorm. by destruct (k >=? size v).
Qed.

Lemma driver_read_run s i b k d j l x fuel :
  wf s -> all_blocks s !! i = Some b -> located s b k d j -> (i < fuel)%nat ->
  disks s !! d = Some l -> l !! Z.to_nat j = Some x ->
  exists s', block_read fuel b k s = Ok (x, s') /\ same_devs s s' /\ disks s' = disks s /\ mem s' = mem s.
Proof.
  intros Hwf Hi Hloc. revert i fuel Hi.
  induction Hloc as [b v d k Hb Ha Hk|b v p start k d j Hb Ha Hk Hl IH]; intros i [|fuel] Hi Hf Hd Hx; try lia; cbn [block_read].
  all: rewrite (bind_ok _ _ _ tt s) by (rewrite (check_sector_run s b v k Hwf Hb), Z.geb_leb, (proj2 (Z.leb_gt _ _)) by lia; done).
  all: mrun (blk_run s b v Hwf Hb); rewrite Ha.
  - rewrite (bind_ok _ _ _ x s) by (unfold ide_read, gets_opt; cbn; rewrite Hd; cbn; by rewrite Hx).
    edestruct (upd_block_run s b v) as [E Hs]; [done..| |mrun E]; [reflexivity|]. eexists. split; [done|]. done.
  - destruct (wf_part s Hwf i b v p start Hi Hb Ha) as (m & vp & Hm & Hlt & Hp & Hs & Hle & _).
    pose proof (wf_size s Hwf p vp Hp). rewrite u32_id by lia.
    destruct (IH m fuel Hm ltac:(lia) Hd Hx) as (s1 & Hr & Hs1 & Hd1 & Hm1). mrun Hr.
    destruct (same_devs_block _ _ _ _ Hs1 Hb) as (v1 & Hv1 & _). pose proof (wf_same _ _ Hs1 Hwf) as Hwf1.
    edestruct (upd_block_run s1 b v1) as [E Hs2]; [done..| |mrun E]; [reflexivity|].
    eexists. split; [done|]. split; [by eapply same_devs_trans|done].
Qed.

(** The disks after a sector has been written. *)
Definition written (s : st) (d j : Z) (buffer : list Z) (s' : st) : Prop :=
  exists l, disks s !! d = Some l /\ disks s' = <[d := <[Z.to_nat j := buffer]> l]> (disks s).

Lemma driver_write_run s i b k d j v buffer fuel :
  wf s -> all_blocks s !! i = Some b -> located s b k d j -> (i < fuel)%nat ->
  blocks s !! b = Some v -> type v <> BLOCK_FOREIGN -> length buffer = 512%nat ->
  exists s', block_write fuel b k buffer s = Ok (tt, s') /\ same_devs s s' /\ written s d j buffer s'.
Proof.
  intros Hwf Hi Hloc Hf0 Hv0 Ht0 Hbuf. revert i fuel v Hi Hf0 Hv0 Ht0.
  induction Hloc as [b v d k Hb Ha Hk|b v p start k d j Hb Ha Hk Hl IH]; intros i [|fuel] v0 Hi Hf Hv Ht; try lia; cbn [block_write];
    assert (v0 = v) as -> by congruence.
  all: rewrite (bind_ok _ _ _ tt s) by (rewrite (check_sector_run s b v k Hwf Hb), Z.geb_leb, (proj2 (Z.leb_gt _ _)) by lia; done).
  all: mrun (blk_run s b v Hwf Hb); rewrite bool_decide_eq_false_2 by done; cbn [negb]; mnorm; rewrite Ha.
  - destruct (wf_ide s Hwf b v d Hb Ha) as (l & Hd & Hlen & Hsec).
    set (s1 := set_disks (<[d := <[Z.to_nat k := buffer]> l]> (disks s)) s).
    rewrite (bind_ok _ _ _ tt s1) by (unfold ide_write, bind, gets_opt; by rewrite Hd).
    assert (same_devs s s1) as Hs1.
    { split; try done. intros d' l' H'. unfold s1. cbn [disks set_disks]. destruct (decide (d' = d)) as [->|].
      - rewrite lookup_insert_eq. eexists. split; [done|]. assert (l' = l) as -> by congruence. rewrite length_insert.
        split; [done|]. intros. by apply Forall_insert.
      - rewrite lookup_insert_ne by done. eauto. }
    pose proof (wf_same _ _ Hs1 Hwf) as Hwf1.
    edestruct (upd_block_run s1 b v) as [E Hs2]; [done..| |rewrite E]; [reflexivity|].
    eexists. split; [done|]. split; [by eapply same_devs_trans|]. by exists l.
  - destruct (wf_part s Hwf i b v p start Hi Hb Ha) as (m & vp & Hm & Hlt & Hp & Hs & Hle & Hpt).
    pose proof (wf_size s Hwf p vp Hp). rewrite u32_id by lia.
    destruct (IH m fuel vp Hm ltac:(lia) Hp Hpt) as (s1 & Hr & Hs1 & Hd1). mrun Hr.
    destruct (same_devs_block _ _ _ _ Hs1 Hb) as (v1 & Hv1 & _). pose proof (wf_same _ _ Hs1 Hwf) as Hwf1.
    edestruct (upd_block_run s1 b v1) as [E Hs2]; [done..| |rewrite E]; [reflexivity|].
    eexists. split; [done|]. split; [by eapply same_devs_trans|]. exact Hd1.
Qed.

(** in a well-formed state, reading a sector of a device gives the
    512 bytes of the one sector of the one disk that it stands for, through
    any nesting of partitions, and changes nothing but counters; reading a
    sector behind the end of the device panics. *)
Theorem device_read_ok s i b v k :
  wf s -> all_blocks s !! i = Some b -> blocks s !! b = Some v -> 0 <= k ->
  if k >=? size v then block_read (S i) b k s = Err Kernel_panic
  else exists d j l x s', located s b k d j /\ disks s !! d = Some l /\ l !! Z.to_nat j = Some x /\ length x = 512%nat /\
    block_read (S i) b k s = Ok (x, s') /\ wf s' /\ disks s' = disks s.
Proof.
  intros Hwf Hi Hb Hk. destruct (k >=? size v) eqn:E.
  - cbn [block_read]. unfold bind at 1. by rewrite (check_sector_run s b v k Hwf Hb), E.
  - rewrite Z.geb_leb, Z.leb_gt in E. destruct (located_total s i b v k Hwf Hi Hb ltac:(lia)) as (d & j & l & x & Hloc & Hd & Hj & Hx & Hlen).
    destruct (driver_read_run s i b k d j l x (S i) Hwf Hi Hloc ltac:(lia) Hd Hx) as (s' & Hr & Hs & Hds & _).
    exists d, j, l, x, s'. pose proof (wf_same _ _ Hs Hwf). done.
Qed.

(** Two sectors of devices that are the same sector of a disk. *)
Definition overlap (s : st) (b k b' k' : Z) : Prop := exists d j, located s b k d j /\ located s b' k' d j.

(** C17: after a sector of a device has been written, a read of any sector of
    any device gives the new bytes if it stands for the same sector of the
    same disk, and otherwise what it gave before.  A sector behind the end of
    the device is never written. *)
Theorem device_write_ok s i b v k buffer :
  wf s -> all_blocks s !! i = Some b -> blocks s !! b = Some v -> 0 <= k -> type v <> BLOCK_FOREIGN -> length buffer = 512%nat ->
  if k >=? size v then block_write (S i) b k buffer s = Err Kernel_panic
  else exists s', block_write (S i) b k buffer s = Ok (tt, s') /\ wf s' /\
    forall i' b' v' k', all_blocks s !! i' = Some b' -> blocks s !! b' = Some v' -> 0 <= k' < size v' ->
      exists x s1 x' s2, block_read (S i') b' k' s = Ok (x, s1) /\ block_read (S i') b' k' s' = Ok (x', s2) /\
        (overlap s b k b' k' -> x' = buffer) /\ (~ overlap s b k b' k' -> x' = x).
Proof.
  intros Hwf Hi Hb Hk Ht Hbuf. destruct (k >=? size v) eqn:E.
  { cbn [block_write]. unfold bind at 1. by rewrite (check_sector_run s b v k Hwf Hb), E. }
  rewrite Z.geb_leb, Z.leb_gt in E. destruct (located_total s i b v k Hwf Hi Hb ltac:(lia)) as (d & j & l & x & Hloc & Hd & Hj & Hx & Hlen).
  destruct (driver_write_run s i b k d j v buffer (S i) Hwf Hi Hloc ltac:(lia) Hb Ht Hbuf) as (s' & Hr & Hs & (l0 & Hl0 & Hw)).
  pose proof (wf_same _ _ Hs Hwf) as Hwf'. exists s'. split; [done|]. split; [done|].
  assert (l0 = l) as -> by congruence. intros i' b' v' k' Hi' Hb' Hk'.
  destruct (located_total s i' b' v' k' Hwf Hi' Hb' Hk') as (d' & j' & l' & x0 & Hloc' & Hd' & Hj' & Hx' & Hlen').
  destruct (driver_read_run s i' b' k' d' j' l' x0 (S i') Hwf Hi' Hloc' ltac:(lia) Hd' Hx') as (s1 & Hr1 & _ & _).
  assert (all_blocks s' !! i' = Some b') as Hi2 by (by rewrite (sd_list _ _ Hs)).
  pose proof (located_same _ _ _ _ _ _ Hs Hloc') as Hloc2.
  assert (disks s' !! d' = Some (if decide (d' = d) then <[Z.to_nat j := buffer]> l else l')) as Hd2.
  { rewrite Hw. destruct (decide (d' = d)) as [->|]; [by rewrite lookup_insert_eq|by rewrite lookup_insert_ne]. }
  destruct (decide (d' = d /\ j' = j)) as [[-> ->]|Hne].
  - destruct (driver_read_run s' i' b' k' d j _ buffer (S i') Hwf' Hi2 Hloc2 ltac:(lia) Hd2) as (s2 & Hr2 & _ & _).
    { rewrite decide_True by done. apply list_lookup_insert_eq. by eapply lookup_lt_Some. }
    exists x0, s1, buffer, s2. split; [done|]. split; [done|]. split; [done|]. intros Hn. destruct Hn. by exists d, j.
  - destruct (driver_read_run s' i' b' k' d' j' _ x0 (S i') Hwf' Hi2 Hloc2 ltac:(lia) Hd2) as (s2 & Hr2 & _ & _).
    { destruct (decide (d' = d)) as [->|]; [|done]. assert (l' = l) as -> by congruence.
      rewrite list_lookup_insert_ne; [done|]. intros Ej. apply Hne. split; [done|lia]. }
    exists x0, s1, x0, s2. split; [done|]. split; [done|]. split; [|done].
    intros (d2 & j2 & H1 & H2). destruct (located_fun _ _ _ _ _ _ _ Hloc H1) as [-> ->].
    destruct (located_fun _ _ _ _ _ _ _ Hloc' H2) as [-> ->]. by destruct Hne.
Qed.

(** partitions of one device whose ranges do not meet have no sector in
    common: what is written to one is never seen in the other. *)
Theorem partitions_disjoint s b v b' v' p start start' k k' :
  wf s -> blocks s !! b = Some v -> aux v = Partition p start -> blocks s !! b' = Some v' -> aux v' = Partition p start' ->
  start + size v <= start' \/ start' + size v' <= start ->
  0 <= k < size v -> 0 <= k' < size v' -> ~ overlap s b k b' k'.
Proof.
  intros Hwf Hb Ha Hb' Ha' Hdis Hk Hk' (d & j & H1 & H2).
  inversion H1 as [|b0 v0 p0 st0 k0 d0 j0 Q1 Q2 Q3 Q4]; subst; [congruence|].
  inversion H2 as [|b1 v1 p1 st1 k1 d1 j1 R1 R2 R3 R4]; subst; [congruence|].
  assert (v0 = v) as -> by congruence. assert (v1 = v') as -> by congruence.
  rewrite Ha in Q2. injection Q2 as <- <-. rewrite Ha' in R2. injection R2 as <- <-.
  pose proof (proj2 (wf_listed s Hwf b) (ex_intro _ v Hb)) as Hin. apply list_elem_of_lookup in Hin as (i & Hi).
  destruct (wf_part s Hwf i b v p start Hi Hb Ha) as (m & vp & _ & _ & Hp & Hs & Hle & _).
  pose proof (proj2 (wf_listed s Hwf b') (ex_intro _ v' Hb')) as Hin'. apply list_elem_of_lookup in Hin' as (i' & Hi').
  destruct (wf_part s Hwf i' b' v' p start' Hi' Hb' Ha') as (m' & vp' & _ & _ & Hp' & Hs' & Hle' & _).
  assert (vp' = vp) as -> by congruence.
  pose proof (located_shift s p (start + k) d j (start' + k') vp Q4 Hp ltac:(lia) Hwf) as Hsh.
  destruct (located_fun _ _ _ _ _ _ _ R4 Hsh) as [_ Hj]. lia.
Qed.

(** ** Registering devices *)

(** Memory does not run out. *)
Definition rich (s : st) : Prop := forall n, mem s n = true.

Definition alloc (s : st) : st := set_mem (fun n => mem s (S n)) (set_brk (brk s + 1) s).

Lemma malloc_gives s : rich s -> malloc s = Ok (brk s, alloc s).
Proof. intros H. unfold malloc, bind, get, put, ret. by rewrite H. Qed.

Lemma wf_alloc s : wf s -> wf (alloc s).
Proof.
  intros []. split; try done; cbn.
  - intros b Hb. specialize (wf_addr0 b Hb). lia.
  - lia.
Qed.

(** A device that may be registered. *)
Definition fits (s : st) (v : block) : Prop :=
  0 <= size v < 4294967296 /\
  match aux v with
  | Ide d => exists l, disks s !! d = Some l /\ Z.of_nat (length l) = size v /\ Forall (fun x => length x = 512%nat) l
  | Partition p start => exists vp, blocks s !! p = Some vp /\ 0 <= start /\ start + size v <= size vp /\ type vp <> BLOCK_FOREIGN
  end.

Definition add_block (b : Z) (v : block) (s : st) : st :=
  set_blocks (<[b := v]> (blocks s)) (set_all_blocks (all_blocks s ++ [b]) s).

Lemma wf_add s v : wf s -> fits s v -> wf (add_block (brk s) v (alloc s)).
Proof.
  intros Hwf [Hsz Hfit].
  assert (blocks s !! brk s = None) as Hnew.
  { destruct (blocks s !! brk s) eqn:E; [|done]. pose proof (wf_addr s Hwf (brk s) ltac:(eauto)). lia. }
  assert (brk s ∉ all_blocks s) as Hnin by (rewrite (wf_listed s Hwf), Hnew; by intros []).
  split; cbn.
  - intros b. rewrite elem_of_app, list_elem_of_singleton, (wf_listed s Hwf). destruct (decide (b = brk s)) as [->|].
    + rewrite lookup_insert_eq. split; [eauto|by right].
    + rewrite lookup_insert_ne by done. naive_solver.
  - apply NoDup_app. split; [apply Hwf|]. split; [|apply NoDup_singleton]. intros x Hx ->%list_elem_of_singleton. done.
  - intros b Hb. pose proof (wf_brk s Hwf). destruct (decide (b = brk s)) as [->|]; [lia|]. rewrite lookup_insert_ne in Hb by done.
    pose proof (wf_addr s Hwf b Hb). lia.
  - pose proof (wf_brk s Hwf). lia.
  - intros b v0 Hb. destruct (decide (b = brk s)) as [->|].
    + rewrite lookup_insert_eq in Hb. by injection Hb as <-.
    + rewrite lookup_insert_ne in Hb by done. by eapply wf_size.
  - intros b v0 d Hb Ha. destruct (decide (b = brk s)) as [->|].
    + rewrite lookup_insert_eq in Hb. injection Hb as <-. by rewrite Ha in Hfit.
    + rewrite lookup_insert_ne in Hb by done. by eapply wf_ide.
  - intros i b v0 p start Hi Hb Ha. destruct (decide (b = brk s)) as [->|Hne].
    + rewrite lookup_insert_eq in Hb. injection Hb as <-. rewrite Ha in Hfit. destruct Hfit as (vp & Hp & H1 & H2 & H3).
      assert (p <> brk s) by congruence.
      pose proof (proj2 (wf_listed s Hwf p) (ex_intro _ vp Hp)) as Hin. apply list_elem_of_lookup in Hin as (j & Hj).
      pose proof (lookup_lt_Some _ _ _ Hj). exists j, vp. rewrite lookup_app_l by done. rewrite lookup_insert_ne by done.
      split; [done|]. split; [|done]. apply lookup_app_Some in Hi as [Hi|[Hi _]]; [|lia].
      destruct Hnin. by eapply list_elem_of_lookup_2.
    + rewrite lookup_insert_ne in Hb by done. apply lookup_app_Some in Hi as [Hi|[_ Hi]].
      2:{ apply list_lookup_singleton_Some in Hi as [_ Hi]. congruence. }
      destruct (wf_part s Hwf i b v0 p start Hi Hb Ha) as (j & vp & H1 & H2 & H3 & H4).
      assert (p <> brk s) by congruence. exists j, vp. rewrite lookup_app_l by (by eapply lookup_lt_Some). rewrite lookup_insert_ne by done. done.
  - apply Hwf.
Qed.

Lemma located_add s v b k d j : wf s -> located s b k d j -> located (add_block (brk s) v (alloc s)) b k d j.
Proof.
  intros Hwf H. induction H as [b v0 d k Hb Ha Hk|b v0 p start k d j Hb Ha Hk Hl IH];
    assert (b <> brk s) as Hne by (intros ->; pose proof (wf_addr s Hwf (brk s) ltac:(eauto)); lia).
  - apply (Loc_ide _ b v0); [cbn; by rewrite lookup_insert_ne|done..].
  - apply (Loc_part _ b v0 p start); [cbn; by rewrite lookup_insert_ne|done..].
Qed.

Lemma block_register_run s name0 type0 extra size0 aux0 :
  rich s ->  wf s -> fits s (mkBlock (take 15 name0) type0 size0 aux0 0 0) ->
  exists t, block_register name0 type0 extra size0 aux0 s =
    Ok (brk s, set_console t (add_block (brk s) (mkBlock (take 15 name0) type0 size0 aux0 0 0) (alloc s))).
Proof.
  intros Hr Hwf Hfit. unfold block_register. mrun (malloc_gives s Hr). pose proof (wf_brk s Hwf).
  rewrite (proj2 (Z.eqb_neq _ _)) by (unfold NULL; lia). mnorm. unfold kprint.
  set (v := mkBlock _ _ _ _ _ _). cbn [name].
  edestruct (kprintf_run (lit "%s: %'u sectors (") [Str (Some (take 15 name0)); Word size0]) as (t1 & E1); [reflexivity|mrun E1]. mnorm.
  edestruct (kprintf_run (lit ")") []) as (t2 & E2); [reflexivity|mrun E2].
  destruct extra as [i|].
  - edestruct (kprintf_run (lit ", %s") [Str (Some i)]) as (t3 & E3); [reflexivity|mrun E3]. mnorm. by eexists.
  - mnorm. by eexists.
Qed.

(** ** Scanning *)

(** The device [b] of [n] sectors, whose first sector is [pt]. *)
Definition ready (s : st) (b n : Z) (pt : list Z) : Prop :=
  wf s /\ rich s /\ exists v d j l, blocks s !! b = Some v /\ size v = n /\ type v <> BLOCK_FOREIGN /\
    located s b 0 d j /\ disks s !! d = Some l /\ l !! Z.to_nat j = Some pt.

Definition info (v : block) : block_type * Z * driver := (type v, size v, aux v).

(** Devices have been added, in this order; those there were are the same. *)
Definition grows (s s' : st) (new : list (block_type * Z * driver)) : Prop :=
  disks s' = disks s /\
  (forall b v, blocks s !! b = Some v -> exists v', blocks s' !! b = Some v' /\ dev v' = dev v) /\
  exists bs, all_blocks s' = all_blocks s ++ bs /\
    Forall2 (fun b i => exists v, blocks s' !! b = Some v /\ info v = i) bs new.

Lemma grows_trans s1 s2 s3 n1 n2 : grows s1 s2 n1 -> grows s2 s3 n2 -> grows s1 s3 (n1 ++ n2).
Proof.
  intros (D1 & K1 & bs1 & L1 & F1) (D2 & K2 & bs2 & L2 & F2). split; [congruence|]. split.
  - intros b v Hb. destruct (K1 b v Hb) as (v1 & Hv1 & E1), (K2 b v1 Hv1) as (v2 & Hv2 & E2). exists v2. split; [done|congruence].
  - exists (bs1 ++ bs2). split; [by rewrite L2, L1, app_assoc|]. apply Forall2_app; [|done].
    eapply Forall2_impl; [exact F1|]. intros b i (v & Hv & Hi). destruct (K2 b v Hv) as (v' & Hv' & E). exists v'. split; [done|].
    injection E as E1 E2 E3 E4. unfold info in *. congruence.
Qed.

Lemma same_devs_grows s s' : same_devs s s' -> disks s' = disks s -> grows s s' [].
Proof.
  intros H Hd. split; [done|]. split; [intros b v Hb; by eapply same_devs_block|]. exists []. rewrite app_nil_r. by split; [apply H|constructor].
Qed.

Lemma console_same t s : same_devs s (set_console t s).
Proof. split; try done. intros d l H. eauto. Qed.

Lemma alloc_grows s : grows s (alloc s) [].
Proof. split; [done|]. split; [by eauto|]. exists []. by rewrite app_nil_r. Qed.

Lemma located_eq s s' b k d j : blocks s' = blocks s -> located s b k d j -> located s' b k d j.
Proof.
  intros E. induction 1 as [b v d k Hb Ha Hk|b v p start k d j Hb Ha Hk Hl IH]; rewrite <- E in Hb; [by eapply Loc_ide|by eapply Loc_part].
Qed.

Lemma ready_same s s' b n pt : ready s b n pt -> same_devs s s' -> disks s' = disks s -> rich s' -> ready s' b n pt.
Proof.
  intros (Hwf & _ & v & d & j & l & Hb & Hn & Ht & Hloc & Hd & Hl) Hs Hds Hr.
  split; [by eapply wf_same|]. split; [done|].
  destruct (same_devs_block _ _ _ _ Hs Hb) as (v' & Hv' & [= E1 E2 E3 E4]).
  exists v', d, j, l. split; [done|]. split; [congruence|]. split; [congruence|].
  split; [by eapply located_same|]. split; [congruence|done].
Qed.

Lemma ready_alloc s b n pt : ready s b n pt -> ready (alloc s) b n pt.
Proof.
  intros (Hwf & Hr & v & d & j & l & Hb & Hn & Ht & Hloc & Hd & Hl). split; [by apply wf_alloc|].
  split; [intros k; apply Hr|]. exists v, d, j, l. split; [done|]. split; [done|]. split; [done|].
  split; [by apply (located_eq s)|done].
Qed.

Lemma ready_add s b n pt v :
  ready s b n pt -> fits s v -> ready (add_block (brk s) v (alloc s)) b n pt /\ grows s (add_block (brk s) v (alloc s)) [info v].
Proof.
  intros (Hwf & Hr & v0 & d & j & l & Hb & Hn & Ht & Hloc & Hd & Hl) Hfit.
  assert (forall x u, blocks s !! x = Some u -> x <> brk s) as Hne by (intros x u Hx ->; pose proof (wf_addr s Hwf (brk s) ltac:(eauto)); lia).
  split.
  - split; [by apply wf_add|]. split; [intros k; apply Hr|]. exists v0, d, j, l. cbn. rewrite lookup_insert_ne by (apply not_eq_sym; by eapply Hne).
    split; [done|]. split; [done|]. split; [done|]. split; [by apply located_add|done].
  - split; [done|]. split.
    + intros x u Hx. exists u. cbn. rewrite lookup_insert_ne by (apply not_eq_sym; by eapply Hne). done.
    + exists [brk s]. split; [done|]. constructor; [|constructor]. exists v. cbn. by rewrite lookup_insert_eq.
Qed.

Lemma blk_ready s b n pt : ready s b n pt -> exists nm, block_size b s = Ok (n, s) /\ block_name b s = Ok (nm, s).
Proof.
  intros (Hwf & _ & v & _ & _ & _ & Hb & <- & _). exists (name v). unfold block_size, block_name.
  split; by mrun (blk_run s b v Hwf Hb).
Qed.

(** The devices that come of an entry. *)
Definition partition_of (b n t start size0 : Z) : list (block_type * Z * driver) :=
  if (start <? n) && (start + size0 <=? n) then [(type_of_partition t, size0, Partition b start)] else [].

Lemma ready_console s t b n pt : ready s b n pt -> ready (set_console t s) b n pt /\ grows s (set_console t s) [].
Proof.
  intros H. pose proof (console_same t s). split; [|by apply same_devs_grows]. destruct H as (Hwf & Hr & H). by eapply ready_same.
Qed.

Lemma found_run s b n pt t start size0 nr :
  ready s b n pt -> in_u32 start -> in_u32 size0 ->
  exists s', found_partition b t start size0 nr s = Ok (tt, s') /\ ready s' b n pt /\ grows s s' (partition_of b n t start size0).
Proof.
  intros Hrd Hst Hsz. unfold in_u32 in *. destruct (blk_ready s b n pt Hrd) as (nm & Hn & Hnm). unfold found_partition. mrun Hn. mrun Hnm.
  assert (0 <= n < 4294967296) as Hr by (destruct Hrd as (Hwf & _ & v & _ & _ & _ & Hb & <- & _); by eapply wf_size).
  assert (forall f args, format_ok f args = true -> exists s', kprintf f args s = Ok (tt, s') /\ ready s' b n pt /\ grows s s' []) as Htalk.
  { intros f args Hf. destruct (kprintf_run f args s Hf) as (t0 & E). exists (set_console t0 s). split; [done|by apply ready_console]. }
  unfold partition_of. rewrite Z.geb_leb. destruct (Z.leb_spec n start) as [Hpast|Hin].
  { rewrite (proj2 (Z.ltb_ge _ _)) by lia. by apply Htalk. }
  rewrite (proj2 (Z.ltb_lt start n)) by lia. cbn [andb].
  replace ((u32 (start + size0) <? start) || (u32 (start + size0) >? n)) with (negb (start + size0 <=? n)).
  2:{ rewrite Z.gtb_ltb. unfold u32. destruct (Z.leb_spec (start + size0) n) as [Hle|Hgt]; cbn [negb].
      - rewrite Z.mod_small by lia. destruct (Z.ltb_spec (start + size0) start), (Z.ltb_spec n (start + size0)); lia || done.
      - destruct (Z.leb_spec 4294967296 (start + size0)) as [Hov|].
        + replace ((start + size0) mod 4294967296) with (start + size0 - 4294967296)
            by (apply (Z.mod_unique _ _ 1); lia).
          by rewrite (proj2 (Z.ltb_lt (start + size0 - 4294967296) start)) by lia.
        + rewrite Z.mod_small by lia. rewrite (proj2 (Z.ltb_lt n _)) by lia. by rewrite orb_true_r. }
  destruct (Z.leb_spec (start + size0) n) as [Hle|Hgt]; cbn [negb]; [|by apply Htalk].
  mrun (malloc_gives s (proj1 (proj2 Hrd))). assert (0 < brk s) by (apply (wf_brk s), Hrd).
  rewrite (proj2 (Z.eqb_neq _ _)) by (unfold NULL; lia). mnorm.
  pose proof (ready_alloc _ _ _ _ Hrd) as Hrd1. set (s1 := alloc s) in *.
  edestruct (snprintf_array_run 16 (lit "%s%d") [Str (Some nm); Word nr] s1) as (pname & E1); [reflexivity|mrun E1].
  edestruct (snprintf_array_run 128 (lit "%s (%02x)") [Str (Some (str (partition_type_name t))); Word t] s1) as (ex & E2); [reflexivity|mrun E2].
  set (v := mkBlock (take 15 pname) (type_of_partition t) size0 (Partition b start) 0 0).
  assert (fits s1 v) as Hfit.
  { split; [cbn; lia|]. cbn. destruct Hrd1 as (_ & _ & v0 & _ & _ & _ & Hb & Hn0 & Ht & _). exists v0. split; [done|]. lia || (split; [lia|split; [lia|done]]). }
  destruct (block_register_run s1 pname (type_of_partition t) (Some ex) size0 (Partition b start)) as (t3 & E3); [apply Hrd1..|exact Hfit|].
  mrun E3. destruct (ready_add s1 b n pt v Hrd1 Hfit) as [Hrd2 Hg2]. destruct (ready_console _ t3 _ _ _ Hrd2) as [Hrd3 Hg3].
  eexists. split; [done|]. split; [exact Hrd3|].
  exact (grows_trans _ _ _ _ _ (alloc_grows s) (grows_trans _ _ _ _ _ Hg2 Hg3)).
Qed.

Lemma ready_read s b n pt :
  ready s b n pt -> exists s', block_read (S (length (all_blocks s))) b 0 s = Ok (pt, s') /\ ready s' b n pt /\ grows s s' [].
Proof.
  intros Hrd. pose proof Hrd as (Hwf & Hr & v & d & j & l & Hb & Hn & Ht & Hloc & Hd & Hl).
  pose proof (proj2 (wf_listed s Hwf b) (ex_intro _ v Hb)) as Hin. apply list_elem_of_lookup in Hin as (i & Hi).
  pose proof (lookup_lt_Some _ _ _ Hi).
  destruct (driver_read_run s i b 0 d j l pt (S (length (all_blocks s))) Hwf Hi Hloc ltac:(lia) Hd Hl) as (s' & E & Hs & Hds & Hm).
  exists s'. split; [done|]. split; [|by apply same_devs_grows]. eapply ready_same; [done..|]. intros k. by rewrite Hm.
Qed.

(** The read of a table in a sector of the device up to its entries. *)
Lemma read_table_run fuel s b n pt sector prim nr :
  ready s b n pt -> sector < n -> pt_signature pt = 43605 ->
  exists s', ready s' b n pt /\ grows s s' [] /\
    read_partition_table (S fuel) b sector prim nr s =
    entries_loop (fun sec prim nr => read_partition_table fuel b sec prim nr) b sector prim (map (pt_entry pt) (seq 0 4)) nr s'.
Proof.
  intros Hrd Hsec Hsig. destruct (blk_ready s b n pt Hrd) as (nm & Hn & Hnm). cbn [read_partition_table]. mrun Hn. mrun Hnm.
  rewrite Z.geb_leb, (proj2 (Z.leb_gt _ _)) by lia. mrun (malloc_gives s (proj1 (proj2 Hrd))).
  assert (0 < brk s) by (apply (wf_brk s), Hrd). rewrite (proj2 (Z.eqb_neq _ _)) by (unfold NULL; lia). mnorm.
  destruct (ready_read (alloc s) b n pt (ready_alloc _ _ _ _ Hrd)) as (s' & E & Hrd' & Hg).
  exists s'. split; [done|]. split; [exact (grows_trans _ _ _ _ _ (alloc_grows s) Hg)|]. mrun E. rewrite Hsig. done.
Qed.

Definition no_extended (es : list partition_table_entry) : Prop :=
  Forall (fun e => (psize e =? 0) || (ptype e =? 0) = true \/ is_extended (ptype e) = false) es.

Definition empty_entry (e : partition_table_entry) : bool := (psize e =? 0) || (ptype e =? 0).

Definition partitions_of (b n : Z) (es : list partition_table_entry) : list (block_type * Z * driver) :=
  concat (map (fun e => if empty_entry e then [] else partition_of b n (ptype e) (offset e) (psize e)) es).

Lemma entries_run recur b n pt es : forall s nr,
  ready s b n pt -> no_extended es -> Forall (fun e => in_u32 (offset e) /\ in_u32 (psize e)) es ->
  exists nr' s', entries_loop recur b 0 0 es nr s = Ok (nr', s') /\ ready s' b n pt /\ grows s s' (partitions_of b n es).
Proof.
  induction es as [|e es IH]; intros s nr Hrd Hne Hr; cbn [entries_loop].
  { exists nr, s. split; [done|]. split; [done|]. apply same_devs_grows; [apply same_devs_refl|done]. }
  apply Forall_cons in Hne as [He Hne]. apply Forall_cons in Hr as [[Ho Hp] Hr]. unfold partitions_of. cbn [map concat]. unfold empty_entry at 1.
  destruct ((psize e =? 0) || (ptype e =? 0)) eqn:Ee.
  { mnorm. by apply IH. }
  destruct He as [He|He]; [done|]. rewrite He, Z.add_0_r. unfold in_u32 in Ho. rewrite u32_id by done.
  destruct (found_run s b n pt (ptype e) (offset e) (psize e) (s32 (nr + 1)) Hrd Ho Hp) as (s1 & E1 & Hrd1 & Hg1).
  rewrite bind_bind. mrun E1. mnorm. destruct (IH s1 (s32 (nr + 1)) Hrd1 Hne Hr) as (nr' & s' & E & Hrd' & Hg').
  exists nr', s'. split; [done|]. split; [done|]. by eapply grows_trans.
Qed.

Lemma of_le32_range bs : Forall (fun x => 0 <= x < 256) bs -> in_u32 (FsState.of_le32 bs).
Proof.
  unfold in_u32. intros H. destruct bs as [|a [|b [|c [|d bs]]]]; cbn; try lia.
  rewrite !Forall_cons in H. destruct H as (Ha & Hb & Hc & Hd & _). lia.
Qed.

Lemma pt_entry_range pt i :
  Forall (fun x => 0 <= x < 256) pt -> in_u32 (offset (pt_entry pt i)) /\ in_u32 (psize (pt_entry pt i)).
Proof. intros H. cbn. split; apply of_le32_range, Forall_drop, Forall_take, Forall_drop, H. Qed.

(** scanning a device whose table has no extended partition ends, and
    registers exactly the entries that are not empty and lie inside the
    device, in the order of the table, with the type that their code stands
    for; the devices there were are not changed and the state stays
    well-formed. *)
Theorem partition_scan_ok fuel s b n pt :
  ready s b n pt -> (0 < fuel)%nat -> 0 < n -> pt_signature pt = 43605 -> Forall (fun x => 0 <= x < 256) pt ->
  no_extended (map (pt_entry pt) (seq 0 4)) ->
  exists s', partition_scan fuel b s = Ok (tt, s') /\ wf s' /\ grows s s' (partitions_of b n (map (pt_entry pt) (seq 0 4))).
Proof.
  intros Hrd Hf Hn Hsig Hb Hne. destruct fuel as [|fuel]; [lia|]. unfold partition_scan.
  destruct (read_table_run fuel s b n pt 0 0 0 Hrd Hn Hsig) as (s1 & Hrd1 & Hg1 & E1).
  destruct (entries_run (fun sec prim nr => read_partition_table fuel b sec prim nr) b n pt (map (pt_entry pt) (seq 0 4)) s1 0 Hrd1 Hne)
    as (nr & s2 & E2 & Hrd2 & Hg2).
  { apply Forall_forall. intros e He. apply list_elem_of_fmap in He as (i & -> & _). by apply pt_entry_range. }
  rewrite (bind_ok _ _ _ nr s2) by congruence. pose proof (grows_trans _ _ _ _ _ Hg1 Hg2) as Hg.
  destruct (nr =? 0).
  - destruct (blk_ready s2 b n pt Hrd2) as (nm & _ & Hnm). mrun Hnm.
    edestruct (kprintf_run (lit "%s: Device contains no partitions
") [Str (Some nm)] s2) as (t & E3); [reflexivity|]. rewrite E3.
    destruct (ready_console s2 t b n pt Hrd2) as [Hrd3 Hg3]. eexists. split; [done|]. split; [apply Hrd3|].
    rewrite <- (app_nil_r (partitions_of _ _ _)). by eapply grows_trans.
  - exists s2. split; [done|]. split; [apply Hrd2|done].
Qed.

(** ** Extended partitions *)

(** The same state with [l'] on disk [d]. *)
Definition other (d : Z) (l' : list (list Z)) (s : st) : st := set_disks (<[d := l']> (disks s)) s.

Section one_table.
Context (b d n : Z) (l : list (list Z)) (pt : list Z) (Hn : n < 4294967296) (Hpt : l !! 0%nat = Some pt).

(** [b] is a disk of [n] sectors. *)
Definition raw (s : st) : Prop :=
  0 < b < brk s /\ disks s !! d = Some l /\ exists v, blocks s !! b = Some v /\ aux v = Ide d /\ size v = n.

Lemma raw_blk s : raw s -> exists v, blk b s = Ok (v, s) /\ aux v = Ide d /\ size v = n /\ blocks s !! b = Some v.
Proof.
  intros (Hb & _ & v & Hv & Ha & Hs). exists v. unfold blk, gets_opt. by rewrite (proj2 (Z.eqb_neq b NULL)), Hv by (unfold NULL; lia).
Qed.

(** The sectors behind the first do not matter to [m]. *)
Definition blind {A} (m : M st A) : Prop := forall s l', raw s -> l' !! 0%nat = Some pt ->
  match m s with
  | Ok (a, s') => m (other d l' s) = Ok (a, other d l' s') /\ raw s'
  | Err e => m (other d l' s) = Err e
  end.

Lemma blind_bind {A B} (m : M st A) (k : A -> M st B) : blind m -> (forall a, blind (k a)) -> blind (bind m k).
Proof.
  intros Hm Hk s l' Hs Hl'. specialize (Hm s l' Hs Hl'). unfold bind at 1. destruct (m s) as [[a s1]|e] eqn:E.
  - destruct Hm as [Hm Hs1]. specialize (Hk a s1 l' Hs1 Hl'). destruct (k a s1) as [[? ?]|]; by mrun Hm.
  - by apply bind_err.
Qed.

Lemma blind_ret {A} (a : A) : blind (ret a).
Proof. done. Qed.

Lemma blind_fail {A} e : blind (@fail st A e).
Proof. done. Qed.

Lemma blind_gets {A} (f : st -> A) : (forall s l', f (other d l' s) = f s) -> blind (gets f).
Proof. intros H s l' Hs Hl'. unfold gets. by rewrite H. Qed.

Lemma blind_kprint t : blind (kprint t).
Proof. done. Qed.

Lemma blind_kprintf f args : blind (kprintf f args).
Proof. unfold kprintf. destruct (printf 120 f args); [apply blind_kprint|apply blind_fail]. Qed.

Lemma blind_snprintf k f args : blind (snprintf_array k f args).
Proof. unfold snprintf_array. destruct (printf 120 f args); [apply blind_ret|apply blind_fail]. Qed.

Lemma blind_blk : blind (blk b).
Proof.
  intros s l' Hs Hl'. destruct (raw_blk s Hs) as (v & E & _ & _ & Hv). rewrite E. split; [|done].
  unfold blk, gets_opt in E |- *. destruct (b =? NULL); [done|]. cbn. by rewrite Hv.
Qed.

(** [malloc] does not give the address of the device. *)
Lemma blind_malloc {B} (k : Z -> M st B) : (forall p, p <> b -> blind (k p)) -> blind (bind malloc k).
Proof.
  intros Hk s l' (Hb & Hd & Hv) Hl'. unfold malloc. rewrite !bind_bind, !bind_get_l, !bind_bind.
  apply (Hk (if mem s 0%nat then brk s else NULL)) with (s := alloc s); [case_match; unfold NULL; lia| |done].
  split; [cbn; lia|done].
Qed.

Lemma blind_blk_bind {B} (k : block -> M st B) :
  (forall v, aux v = Ide d -> size v = n -> blind (k v)) -> blind (bind (blk b) k).
Proof.
  intros Hk s l' Hs Hl'. destruct (raw_blk s Hs) as (v & E & Ha & Hsz & _).
  pose proof (blind_blk s l' Hs Hl') as E'. rewrite E in E'. destruct E' as [E' _].
  mrun E. mrun E'. by apply Hk.
Qed.

Lemma blind_upd f : (forall v, aux (f v) = aux v /\ size (f v) = size v) -> blind (upd_block b f).
Proof.
  intros Hf. apply blind_blk_bind. intros v Ha Hsz s l' (Hb & Hd & _) Hl'. split; [done|]. split; [done|]. split; [done|].
  exists (f v). destruct (Hf v) as [-> ->]. cbn. by rewrite lookup_insert_eq.
Qed.

Lemma blind_ide : blind (ide_read d 0).
Proof.
  intros s l' Hs Hl'. pose proof Hs as (_ & Hd & _). change (ide_read d 0) with (gets_opt (fun s : st => l ← disks s !! d; l !! 0%nat)).
  unfold gets_opt, other. cbn [disks set_disks]. rewrite lookup_insert_eq, Hd. cbn [mbind option_bind]. by rewrite Hl', Hpt.
Qed.

Lemma blind_block_size : blind (block_size b).
Proof. unfold block_size. apply blind_blk_bind. intros v _ _. apply blind_ret. Qed.

Lemma blind_block_name : blind (block_name b).
Proof. unfold block_name. apply blind_blk_bind. intros v _ _. apply blind_ret. Qed.

Lemma blind_if {A} (c : bool) (m1 m2 : M st A) : blind m1 -> blind m2 -> blind (if c then m1 else m2).
Proof. by destruct c. Qed.

Lemma blind_read k : blind (block_read k b 0).
Proof.
  destruct k as [|k]; [done|]. cbn [block_read]. unfold check_sector. apply blind_bind; [apply blind_bind; [apply blind_block_size|]|]; intros m.
  { apply blind_if; [apply blind_fail|apply blind_ret]. }
  apply blind_blk_bind. intros v Ha _. rewrite Ha. apply blind_bind; [apply blind_ide|intros buffer].
  apply blind_bind; [by apply blind_upd|]. intros _. apply blind_ret.
Qed.

(** A device at another address. *)
Lemma blind_add p v : p <> b -> blind (modify (fun s => set_blocks (<[p := v]> (blocks s)) s)).
Proof.
  intros Hp s l' (Hb & Hd & u & Hu & Hau) Hl'. split; [done|]. split; [done|]. split; [done|]. exists u. cbn.
  by rewrite lookup_insert_ne.
Qed.

Create HintDb blind.
#[local] Hint Resolve blind_ret blind_fail blind_kprint blind_kprintf blind_snprintf blind_blk blind_read
  blind_block_size blind_block_name blind_add : blind.
#[local] Ltac blind := repeat first [solve [auto with blind] | apply blind_if | apply blind_malloc; intros ? ? | apply blind_bind; [|intros ?]].

Lemma blind_block_register name0 type0 extra size0 aux0 : blind (block_register name0 type0 extra size0 aux0).
Proof.
  unfold block_register. apply blind_malloc. intros p Hp. cbn zeta. blind; [by intros s l' Hs Hl'|]. destruct extra; blind.
Qed.

#[local] Hint Resolve blind_block_register : blind.

Lemma blind_found t start size0 nr : blind (found_partition b t start size0 nr).
Proof. unfold found_partition. blind. Qed.
#[local] Hint Resolve blind_found : blind.

Lemma blind_entries recur sector prim es : forall nr,
  (forall sec prim nr, blind (recur sec prim nr)) -> blind (entries_loop recur b sector prim es nr).
Proof.
  induction es as [|e es IH]; intros nr Hr; cbn [entries_loop]; blind; by apply IH.
Qed.

#[local] Hint Resolve blind_entries : blind.

Lemma blind_table fuel : forall sector prim nr, blind (read_partition_table fuel b sector prim nr).
Proof.
  induction fuel as [|fuel IH]; intros sector prim nr; cbn [read_partition_table]; blind. by apply blind_gets.
Qed.

(** What a scan does depends on the first sector of the disk only. *)
Lemma blind_scan fuel : blind (partition_scan fuel b).
Proof. unfold partition_scan. blind. apply blind_table. Qed.


(** Reading sector 0 gives the table; [malloc] is not called. *)
Lemma raw_read s k : raw s -> 0 < n -> exists s', block_read (S k) b 0 s = Ok (pt, s') /\ raw s' /\ mem s' = mem s.
Proof.
  intros Hr Hn0. destruct (raw_blk s Hr) as (v & E & Ha & Hs & Hv). destruct Hr as (Hb & Hd & _).
  exists (set_blocks (<[b := mkBlock (name v) (type v) (size v) (aux v) (u64 (read_cnt v + 1)) (write_cnt v)]> (blocks s)) s). split.
  - cbn [block_read]. unfold check_sector, block_size. rewrite !bind_bind. mrun E. mnorm. rewrite Hs, Z.geb_leb, (proj2 (Z.leb_gt _ _)) by lia. mnorm.
    mrun E. rewrite Ha, (bind_ok _ _ s pt s).
    2:{ change (gets_opt (fun s : st => l ← disks s !! d; l !! 0%nat) s = Ok (pt, s)). unfold gets_opt. rewrite Hd. cbn [mbind option_bind]. by rewrite Hpt. }
    unfold upd_block. rewrite !bind_bind. mrun E. mnorm. by rewrite Hs, Ha.
  - split; [|done]. split; [done|]. split; [done|]. eexists. cbn. rewrite lookup_insert_eq. done.
Qed.

(** The first entry of the table is an extended partition in the first half
    of the disk: each table that is read leads to another one, and [malloc]
    is called for each. *)
Lemma table_nested fuel : forall sector nr s, let e := pt_entry pt 0 in
  raw s -> pt_signature pt = 43605 -> empty_entry e = false -> is_extended (ptype e) = true ->
  0 < offset e -> 2 * offset e < n -> 0 <= sector < n ->
  read_partition_table fuel b sector (if sector =? 0 then 0 else offset e) nr s =
  Err (if forallb (mem s) (seq 0 fuel) then Out_of_fuel else Kernel_panic).
Proof.
  induction fuel as [|fuel IH]; intros sector nr s e Hr Hsig He Hx Ho Hn2 Hs; [done|].
  destruct (raw_blk s Hr) as (v & E & _ & Hsz & _). cbn [read_partition_table]. unfold block_size, block_name at 1.
  rewrite !bind_bind. mrun E. mnorm. mrun E. mnorm. rewrite Hsz, Z.geb_leb, (proj2 (Z.leb_gt _ _)) by lia.
  rewrite (bind_ok malloc _ s (if mem s 0%nat then brk s else NULL) (alloc s)) by done. cbn [seq forallb]. destruct (mem s 0%nat) eqn:Em; [|done].
  pose proof (proj1 Hr). rewrite (proj2 (Z.eqb_neq (brk s) NULL)) by (unfold NULL; lia). mnorm.
  assert (raw (alloc s)) as Hr1 by (destruct Hr as [? Hr]; split; [cbn; lia|exact Hr]).
  destruct (raw_read (alloc s) (length (all_blocks s)) Hr1 ltac:(lia)) as (s1 & E1 & Hr2 & Hm). mrun E1. rewrite Hsig. cbn [negb Z.eqb Pos.eqb].
  cbn [seq map entries_loop]. fold e. unfold empty_entry in He. rewrite He, Hx.
  destruct (raw_blk s1 Hr2) as (v1 & E2 & _). unfold block_name. rewrite !bind_bind. mrun E2. mnorm.
  edestruct (kprintf_run (lit "%s: Extended partition in sector %u
") [Str (Some (name v1)); Word sector] s1) as (t & E3); [reflexivity|]. mrun E3.
  assert (forallb (mem s) (seq 1 fuel) = forallb (mem (set_console t s1)) (seq 0 fuel)) as ->.
  { cbn [mem set_console]. rewrite Hm, <- seq_shift. clear. induction (seq 0 fuel) as [|k ks IHk]; [done|]. cbn. by rewrite IHk. }
  assert (raw (set_console t s1)) as Hr3 by exact Hr2. apply bind_err. destruct (Z.eqb_spec sector 0) as [->|Hnz].
  - specialize (IH (offset e) nr (set_console t s1) Hr3 Hsig He Hx Ho Hn2 ltac:(lia)).
    rewrite (proj2 (Z.eqb_neq _ _)) in IH by lia. exact IH.
  - rewrite u32_id by lia. specialize (IH (offset e + offset e) nr (set_console t s1) Hr3 Hsig He Hx Ho Hn2 ltac:(lia)).
    rewrite (proj2 (Z.eqb_neq _ _)) in IH by lia. exact IH.
Qed.

End one_table.

(** C33: an extended partition is never followed.  What the scan of a disk
    does, the messages, the devices it registers and its end, depends on
    sector 0 only: with any other contents of the sectors behind it, it does
    the same.  And where the first entry of the table in sector 0 is an
    extended partition and twice its offset is inside the disk, whatever the
    other entries are, the scan does not return: every table that is read is
    that one again, and [malloc] is called for each, until a call of it
    fails, which is a panic of the kernel.  (The size of the kernel's stack,
    which the calls nest on, is not modelled.) *)
Theorem extended_partition_loops s b v d l pt :
  wf s -> blocks s !! b = Some v -> aux v = Ide d -> disks s !! d = Some l -> l !! 0%nat = Some pt ->
  (forall fuel l', l' !! 0%nat = Some pt ->
     match partition_scan fuel b s with
     | Ok (_, s') => partition_scan fuel b (other d l' s) = Ok (tt, other d l' s')
     | Err e => partition_scan fuel b (other d l' s) = Err e
     end) /\
  (let e := pt_entry pt 0 in
   pt_signature pt = 43605 -> empty_entry e = false -> is_extended (ptype e) = true ->
   0 < offset e -> 2 * offset e < size v ->
   forall fuel, partition_scan fuel b s = Err (if forallb (mem s) (seq 0 fuel) then Out_of_fuel else Kernel_panic)).
Proof.
  intros Hwf Hb Ha Hd Hpt. pose proof (wf_size s Hwf b v Hb) as [_ Hn].
  assert (raw b d (size v) l s) as Hr by (split; [apply (wf_addr s Hwf); eauto|split; [done|by exists v]]).
  split.
  - intros fuel l' Hl'. pose proof (blind_scan b d (size v) l pt Hpt fuel s l' Hr Hl') as H.
    destruct (partition_scan fuel b s) as [[[] s']|e]; [by destruct H|done].
  - intros e Hsig He Hx Ho Hn2 fuel. unfold partition_scan. apply bind_err.
    exact (table_nested b d (size v) l pt Hn Hpt fuel 0 0 s Hr Hsig He Hx Ho Hn2 ltac:(lia)).
Qed.

(** ** Devices of an example *)

Definition no_devices (l : list (list Z)) : st := mkSt ∅ [] (repeat None 4) {[0 := l]} (fun _ => true) 1 [].

Definition hda (l : list (list Z)) : block := mkBlock (str "hda") BLOCK_RAW (Z.of_nat (length l)) (Ide 0) 0 0.

Definition one_disk (l : list (list Z)) : st := add_block 1 (hda l) (alloc (no_devices l)).

Definition part_dev (start size0 : Z) : block := mkBlock (str "hda1") BLOCK_FILESYS size0 (Partition 1 start) 0 0.

(** Two partitions of the disk: sectors 2 to 4 and 5 to 6. *)
Definition two_parts (l : list (list Z)) : st :=
  add_block 3 (part_dev 5 2) (alloc (add_block 2 (part_dev 2 3) (alloc (one_disk l)))).

Section example_devices.
Context (l : list (list Z)) (Hl : Forall (fun x => length x = 512%nat) l) (Hn : Z.of_nat (length l) < 4294967296).

Lemma no_devices_wf : wf (no_devices l).
Proof.
  split; cbn; try done.
  - intros b. rewrite lookup_empty. split; [by intros H%elem_of_nil|by intros []].
  - constructor.
  - intros b [x Hx]. by rewrite lookup_empty in Hx.
Qed.

Lemma one_disk_wf : wf (one_disk l).
Proof.
  apply (wf_add (no_devices l)); [apply no_devices_wf|]. split; [cbn; lia|]. cbn. exists l. by rewrite lookup_singleton_eq.
Qed.

Lemma one_disk_ready pt : head l = Some pt -> ready (one_disk l) 1 (Z.of_nat (length l)) pt.
Proof.
  intros Hh. rewrite head_lookup in Hh. pose proof (lookup_lt_Some _ _ _ Hh). split; [apply one_disk_wf|]. split; [done|].
  exists (hda l), 0, 0, l. split; [done|]. split; [done|]. split; [done|]. split; [|by split].
  apply (Loc_ide _ 1 (hda l)); [done|done|cbn; lia].
Qed.

Lemma two_parts_wf : 7 <= Z.of_nat (length l) -> wf (two_parts l).
Proof.
  intros H7. apply (wf_add (add_block 2 (part_dev 2 3) (alloc (one_disk l)))); [apply (wf_add (one_disk l)); [apply one_disk_wf|]|].
  - split; [cbn; lia|]. exists (hda l). split; [done|]. cbn. lia || (split; [lia|split; [lia|done]]).
  - split; [cbn; lia|]. exists (hda l). split; [done|]. cbn. lia || (split; [lia|split; [lia|done]]).
Qed.
End example_devices.

Definition zeros : list Z := repeat 0 512.
Definition ex_disk : list (list Z) := repeat zeros 8.

Lemma ex_disk_sectors : Forall (fun x => length x = 512%nat) ex_disk.
Proof. by repeat constructor. Qed.

Lemma device_read_ok_witness :
  block_read 2 2 3 (two_parts ex_disk) = Err Kernel_panic.
Proof.
  exact (device_read_ok (two_parts ex_disk) 1 2 (part_dev 2 3) 3
    (two_parts_wf ex_disk ex_disk_sectors ltac:(reflexivity) ltac:(cbn; lia)) eq_refl eq_refl ltac:(lia)).
Defined.

Lemma device_write_ok_witness :
  exists s', block_write 2 2 1 (repeat 7 512) (two_parts ex_disk) = Ok (tt, s') /\ wf s'.
Proof.
  destruct (device_write_ok (two_parts ex_disk) 1 2 (part_dev 2 3) 1 (repeat 7 512)
    (two_parts_wf ex_disk ex_disk_sectors ltac:(reflexivity) ltac:(cbn; lia)) eq_refl eq_refl ltac:(lia) ltac:(discriminate) eq_refl)
    as (s' & H1 & H2 & _).
  exists s'. split; assumption.
Defined.

Lemma partitions_disjoint_witness : ~ overlap (two_parts ex_disk) 2 2 3 0.
Proof.
  apply (partitions_disjoint (two_parts ex_disk) 2 (part_dev 2 3) 3 (part_dev 5 2) 1 2 5 2 0
    (two_parts_wf ex_disk ex_disk_sectors ltac:(reflexivity) ltac:(cbn; lia)) eq_refl eq_refl eq_refl eq_refl);
    cbn; lia.
Defined.

(** A table with one entry. *)
Definition ex_table (t start size0 : Z) : list Z :=
  repeat 0 446 ++ [0; 0; 0; 0; t; 0; 0; 0] ++ FsState.le32 start ++ FsState.le32 size0 ++ repeat 0 48 ++ [85; 170].

Lemma all_bytes l : forallb (fun x => (0 <=? x) && (x <? 256)) l = true -> Forall (fun x => 0 <= x < 256) l.
Proof. rewrite forallb_forall, Forall_forall. intros H x Hx%list_elem_of_In. specialize (H x Hx). lia. Qed.

Lemma partition_scan_ok_witness :
  exists s', partition_scan 1 1 (one_disk (ex_table 33 2 5 :: ex_disk)) = Ok (tt, s') /\ wf s' /\
    grows (one_disk (ex_table 33 2 5 :: ex_disk)) s' [(BLOCK_FILESYS, 5, Partition 1 2)].
Proof.
  apply (partition_scan_ok 1 (one_disk (ex_table 33 2 5 :: ex_disk)) 1 9 (ex_table 33 2 5)).
  - apply (one_disk_ready (ex_table 33 2 5 :: ex_disk)); [|reflexivity..]. constructor; [reflexivity|exact ex_disk_sectors].
  - lia.
  - lia.
  - reflexivity.
  - apply all_bytes. reflexivity.
  - repeat (constructor; [first [by left | by right]|]). constructor.
Defined.

Definition ex_nested : list (list Z) := ex_table 5 4 2 :: ex_disk.

(** With memory for five tables. *)
Definition ex_nested_st : st := set_mem (fun k => (k <? 5)%nat) (one_disk ex_nested).

Lemma ex_nested_wf : wf ex_nested_st.
Proof.
  assert (wf (one_disk ex_nested)) as [] by (apply one_disk_wf; [constructor; [done|apply ex_disk_sectors]|done]). by split.
Qed.

Lemma extended_partition_loops_witness :
  partition_scan 4 1 ex_nested_st = Err Out_of_fuel /\ partition_scan 10 1 ex_nested_st = Err Kernel_panic /\
  partition_scan 10 1 (other 0 (ex_table 5 4 2 :: map (fun _ => ex_table 33 1 1) ex_disk) ex_nested_st) = Err Kernel_panic.
Proof.
  destruct (extended_partition_loops ex_nested_st 1 (hda ex_nested) 0 ex_nested (ex_table 5 4 2) ex_nested_wf
    eq_refl eq_refl eq_refl eq_refl) as [H1 H2].
  specialize (H2 eq_refl eq_refl eq_refl ltac:(vm_compute; reflexivity) ltac:(vm_compute; reflexivity)).
  pose proof (H2 4%nat) as E4. pose proof (H2 10%nat) as E10. split; [exact E4|]. split; [exact E10|].
  specialize (H1 10%nat (ex_table 5 4 2 :: map (fun _ => ex_table 33 1 1) ex_disk) eq_refl). rewrite E10 in H1. exact H1.
Defined.

End Blocks.
