(* ===== verification/Ide.v ===== *)
(** * Disks (src/src/devices/ide.c)

    The driver of the two ATA channels, against a model of the hardware: the
    command block registers of a channel, its two disks, and the phases of a
    command in programmed I/O.  Time passes while the driver sleeps; a
    command keeps the channel busy for a number of such rounds that the
    hardware chooses.  An interrupt is delivered when the line is raised.

    A lock is a flag, since one thread at a time is followed.  A thread that
    waits for an interrupt that never comes does not return. *)

From Stdlib Require Import Ascii String.
From S2P Require Import Prelude StdLib Stdio Blocks FsState.

Module Ide.
Import Stdio.

(** ** Registers and bits *)

Definition STA_BSY : Z := 0x80.
Definition STA_DRDY : Z := 0x40.
Definition STA_DRQ : Z := 0x08.
Definition CTL_SRST : Z := 0x04.
Definition DEV_MBS : Z := 0xa0.
Definition DEV_LBA : Z := 0x40.
Definition DEV_DEV : Z := 0x10.
Definition CMD_IDENTIFY_DEVICE : Z := 0xec.
Definition CMD_READ_SECTOR_RETRY : Z := 0x20.
Definition CMD_WRITE_SECTOR_RETRY : Z := 0x30.

(** ** The hardware of a channel *)

(** [Busy n irq p]: busy for [n] more rounds, then [p], with an interrupt if
    [irq].  In [Data_in] the bytes wait to be read, in [Data_out] the disk
    waits for the bytes of sector [k] of device [dev]. *)
Inductive phase : Type :=
| Idle
| Busy (n : nat) (irq : bool) (p : phase)
| Data_in (bs : list Z)
| Data_out (dev k : Z).

Record hw : Type := mkHw {
  h_disks : list (option (list (list Z)));  (* what device 0 and device 1 hold *)
  h_ident : list (list Z);  (* their answers to IDENTIFY DEVICE *)
  h_nsect : Z; h_lbal : Z; h_lbam : Z; h_lbah : Z; h_device : Z;
  h_phase : phase;
  h_intrq : bool;
  h_delay : nat -> nat  (* how long the next commands take *)
}.

Definition with_phase (p : phase) (i : bool) (h : hw) : hw :=
  mkHw (h_disks h) (h_ident h) (h_nsect h) (h_lbal h) (h_lbam h) (h_lbah h) (h_device h) p i (h_delay h).

Definition selected (h : hw) : Z := if Z.land (h_device h) DEV_DEV =? 0 then 0 else 1.

Definition media (h : hw) (dev : Z) : option (list (list Z)) :=
  match h_disks h !! Z.to_nat dev with Some (Some l) => Some l | _ => None end.

(** The sector that the registers name in LBA mode. *)
Definition lba (h : hw) : Z := h_lbal h + 256 * h_lbam h + 65536 * h_lbah h + 16777216 * Z.land (h_device h) 15.

Definition status_of (h : hw) : Z :=
  match media h (selected h) with
  | None => 0
  | Some _ => match h_phase h with Idle => STA_DRDY | Busy _ _ _ => STA_BSY | Data_in _ | Data_out _ _ => Z.lor STA_DRDY STA_DRQ end
  end.

(** Reading the register at an offset from the base. *)
Definition hw_in (reg : Z) (h : hw) : Z * hw :=
  if reg =? 1 then (match media h (selected h) with Some _ => 1 | None => 0 end, h)
  else if reg =? 2 then (match media h (selected h) with Some _ => h_nsect h | None => 0 end, h)
  else if reg =? 3 then (match media h (selected h) with Some _ => h_lbal h | None => 0 end, h)
  else if reg =? 4 then (match media h (selected h) with Some _ => h_lbam h | None => 0 end, h)
  else if reg =? 5 then (match media h (selected h) with Some _ => h_lbah h | None => 0 end, h)
  else if reg =? 6 then (h_device h, h)
  else if reg =? 7 then (status_of h, with_phase (h_phase h) false h)
  else (status_of h, h).

Definition next_delay (h : hw) : nat * hw :=
  (h_delay h 0%nat, mkHw (h_disks h) (h_ident h) (h_nsect h) (h_lbal h) (h_lbam h) (h_lbah h) (h_device h) (h_phase h) (h_intrq h) (fun n => h_delay h (S n))).

(** A command to the selected disk.  One that names no sector of it ends at
    once, with an interrupt and no data. *)
Definition hw_command (cmd : Z) (h : hw) : hw :=
  match media h (selected h) with
  | None => h
  | Some l =>
      let '(d, h) := next_delay h in
      if cmd =? CMD_READ_SECTOR_RETRY then
        match l !! Z.to_nat (lba h) with Some x => with_phase (Busy d true (Data_in x)) false h | None => with_phase (Busy d true Idle) false h end
      else if cmd =? CMD_WRITE_SECTOR_RETRY then
        match l !! Z.to_nat (lba h) with Some _ => with_phase (Busy d false (Data_out (selected h) (lba h))) false h | None => with_phase (Busy d true Idle) false h end
      else if cmd =? CMD_IDENTIFY_DEVICE then
        match h_ident h !! Z.to_nat (selected h) with Some x => with_phase (Busy d true (Data_in x)) false h | None => h end
      else h
  end.

Definition hw_out (reg v : Z) (h : hw) : hw :=
  if reg =? 2 then mkHw (h_disks h) (h_ident h) v (h_lbal h) (h_lbam h) (h_lbah h) (h_device h) (h_phase h) (h_intrq h) (h_delay h)
  else if reg =? 3 then mkHw (h_disks h) (h_ident h) (h_nsect h) v (h_lbam h) (h_lbah h) (h_device h) (h_phase h) (h_intrq h) (h_delay h)
  else if reg =? 4 then mkHw (h_disks h) (h_ident h) (h_nsect h) (h_lbal h) v (h_lbah h) (h_device h) (h_phase h) (h_intrq h) (h_delay h)
  else if reg =? 5 then mkHw (h_disks h) (h_ident h) (h_nsect h) (h_lbal h) (h_lbam h) v (h_device h) (h_phase h) (h_intrq h) (h_delay h)
  else if reg =? 6 then mkHw (h_disks h) (h_ident h) (h_nsect h) (h_lbal h) (h_lbam h) (h_lbah h) v (h_phase h) (h_intrq h) (h_delay h)
  else if reg =? 7 then hw_command v h
  else if negb (reg =? 0x206) || (Z.land v CTL_SRST =? 0) then h
  else
    let '(d, h) := next_delay h in
    mkHw (h_disks h) (h_ident h) 1 1 0 0 0 (Busy d false Idle) false (h_delay h).

(** The data register, a sector of 512 bytes at once. *)
Definition hw_insw (h : hw) : option (list Z * hw) :=
  match h_phase h with Data_in bs => Some (bs, with_phase Idle (h_intrq h) h) | _ => None end.

Definition hw_outsw (bs : list Z) (h : hw) : option hw :=
  match h_phase h with
  | Data_out dev k =>
      match media h dev with
      | Some l =>
          let '(d, h) := next_delay h in
          Some (with_phase (Busy d true Idle) (h_intrq h)
            (mkHw (<[Z.to_nat dev := Some (<[Z.to_nat k := bs]> l)]> (h_disks h)) (h_ident h) (h_nsect h) (h_lbal h) (h_lbam h) (h_lbah h)
               (h_device h) (h_phase h) (h_intrq h) (h_delay h)))
      | None => None
      end
  | _ => None
  end.

(** A round of time. *)
Definition hw_tick (h : hw) : hw :=
  match h_phase h with
  | Busy (S n) irq p => with_phase (Busy n irq p) (h_intrq h) h
  | Busy O irq p => with_phase p (irq || h_intrq h) h
  | _ => h
  end.

(** ** The driver's state *)

Record ata_disk : Type := mkAta { d_name : list Z; d_channel : nat; dev_no : Z; is_ata : bool }.

Record channel : Type := mkChannel {
  c_name : list Z; reg_base : Z; irq : Z; lock : bool; expecting_interrupt : bool; completion_wait : Z; devices : list ata_disk
}.

Record st : Type := mkSt { channels : list channel; ports : list hw; console : list Z; intr_on : bool }.

Definition set_channels v s := mkSt v (ports s) (console s) (intr_on s).
Definition set_ports v s := mkSt (channels s) v (console s) (intr_on s).
Definition set_console v s := mkSt (channels s) (ports s) v (intr_on s).

Definition CHANNEL_CNT : nat := 2.

Definition chan (c : nat) : M st channel := gets_opt (fun s => channels s !! c).
Definition upd_chan (c : nat) (f : channel -> channel) : M st unit :=
  v <- chan c ;; modify (fun s => set_channels (<[c := f v]> (channels s)) s).

Definition set_lock b v := mkChannel (c_name v) (reg_base v) (irq v) b (expecting_interrupt v) (completion_wait v) (devices v).
Definition set_expecting b v := mkChannel (c_name v) (reg_base v) (irq v) (lock v) b (completion_wait v) (devices v).
Definition set_wait n v := mkChannel (c_name v) (reg_base v) (irq v) (lock v) (expecting_interrupt v) n (devices v).
Definition set_devices l v := mkChannel (c_name v) (reg_base v) (irq v) (lock v) (expecting_interrupt v) (completion_wait v) l.

Definition kprintf (format : list Z) (args : list arg) : M st unit :=
  match printf 120 format args with
  | Ok text => modify (fun s => set_console (console s ++ text) s)
  | Err e => fail e
  end.

(** ** I/O ports *)

(** The channel that answers at a port, and the register. *)
Definition decode (port : Z) : option (nat * Z) :=
  if (0x1f0 <=? port) && (port <? 0x1f8) || (port =? 0x3f6) then Some (0%nat, port - 0x1f0)
  else if (0x170 <=? port) && (port <? 0x178) || (port =? 0x376) then Some (1%nat, port - 0x170)
  else None.

Definition on_port {A} (port : Z) (f : Z -> hw -> option (A * hw)) : M st A :=
  fun s => match decode port with
  | Some (k, reg) =>
      match ports s !! k with
      | Some h => match f reg h with Some (a, h') => Ok (a, set_ports (<[k := h']> (ports s)) s) | None => Err Bad_access end
      | None => Err Bad_access
      end
  | None => Err Bad_access
  end.

Definition inb (port : Z) : M st Z := on_port port (fun reg h => Some (hw_in reg h)).
Definition outb (port v : Z) : M st unit := on_port port (fun reg h => Some (tt, hw_out reg (u8 v) h)).
Definition insw (port : Z) : M st (list Z) := on_port port (fun _ h => hw_insw h).
Definition outsw (port : Z) (bs : list Z) : M st unit :=
  on_port port (fun _ h => if negb (length bs =? 512)%nat then None else match hw_outsw bs h with Some h' => Some (tt, h') | None => None end).

Definition reg_data (c : channel) : Z := reg_base c + 0.
Definition reg_error (c : channel) : Z := reg_base c + 1.
Definition reg_nsect (c : channel) : Z := reg_base c + 2.
Definition reg_lbal (c : channel) : Z := reg_base c + 3.
Definition reg_lbam (c : channel) : Z := reg_base c + 4.
Definition reg_lbah (c : channel) : Z := reg_base c + 5.
Definition reg_device (c : channel) : Z := reg_base c + 6.
Definition reg_status (c : channel) : Z := reg_base c + 7.
Definition reg_command (c : channel) : Z := reg_status c.
Definition reg_ctl (c : channel) : Z := reg_base c + 0x206.
Definition reg_alt_status (c : channel) : Z := reg_ctl c.

(** ** Interrupts and time *)

Definition sema_up (c : nat) : M st unit := upd_chan c (fun v => set_wait (completion_wait v + 1) v).

(** The loop over the channels. *)
Fixpoint handler_loop (n : nat) (c : nat) (vec_no : Z) : M st unit :=
  match n with
  | O => fail Assertion_failed
  | S n' =>
      v <- chan c ;;
      if vec_no =? irq v then
        if expecting_interrupt v then inb (reg_status v) ;;; sema_up c
        else kprintf (lit "%s: unexpected interrupt
") [Str (Some (c_name v))]
      else handler_loop n' (S c) vec_no
  end.

Definition interrupt_handler (vec_no : Z) : M st unit := handler_loop CHANNEL_CNT 0 vec_no.

(** The lines of the two channels. *)
Definition lines (s : st) : list Z := omap (fun '(k, h) => if h_intrq h then Some (Z.of_nat k + 14 + 0x20) else None) (imap (fun k h => (k, h)) (ports s)).

Fixpoint deliver (vecs : list Z) : M st unit :=
  match vecs with [] => ret tt | v :: vecs' => interrupt_handler v ;;; deliver vecs' end.

(** A round of time: the hardware goes on, then the interrupts come. *)
Definition pass_time : M st unit :=
  modify (fun s => set_ports (map hw_tick (ports s)) s) ;;;
  s <- get ;; deliver (lines s).

(** [timer_usleep], [timer_msleep], [timer_nsleep] *)
Definition timer_sleep : M st unit := pass_time.

Definition rounds (h : hw) : nat := match h_phase h with Busy n _ _ => S n | _ => O end.

Fixpoint sema_down_loop (fuel : nat) (c : nat) : M st unit :=
  match fuel with
  | O => fail Out_of_fuel
  | S fuel' =>
      v <- chan c ;;
      if completion_wait v >? 0 then upd_chan c (fun v => set_wait (completion_wait v - 1) v)
      else pass_time ;;; sema_down_loop fuel' c
  end.

Definition sema_down (c : nat) : M st unit :=
  h <- gets_opt (fun s => ports s !! c) ;; sema_down_loop (S (rounds h)) c.

Definition lock_acquire (c : nat) : M st unit :=
  v <- chan c ;; if lock v then fail Assertion_failed else upd_chan c (set_lock true).

Definition lock_release (c : nat) : M st unit :=
  v <- chan c ;; if lock v then upd_chan c (set_lock false) else fail Assertion_failed.

(** ** Low-level primitives *)

Fixpoint idle_loop (n : nat) (d : ata_disk) : M st unit :=
  match n with
  | O => kprintf (lit "%s: idle timeout
") [Str (Some (d_name d))]
  | S n' =>
      c <- chan (d_channel d) ;;
      v <- inb (reg_status c) ;;
      if Z.land v (Z.lor STA_BSY STA_DRQ) =? 0 then ret tt else timer_sleep ;;; idle_loop n' d
  end.

Definition wait_until_idle (d : ata_disk) : M st unit := idle_loop 1000 d.

(** [n] rounds are left; [i] is their number so far. *)
Fixpoint busy_loop (n : nat) (i : Z) (d : ata_disk) : M st bool :=
  match n with
  | O => kprintf (lit "failed
") [] ;;; ret false
  | S n' =>
      (if i =? 700 then kprintf (lit "%s: busy, waiting...") [Str (Some (d_name d))] else ret tt) ;;;
      c <- chan (d_channel d) ;;
      v <- inb (reg_alt_status c) ;;
      if Z.land v STA_BSY =? 0 then
        (if i >=? 700 then kprintf (lit "ok
") [] else ret tt) ;;;
        v <- inb (reg_alt_status c) ;;
        ret (negb (Z.land v STA_DRQ =? 0))
      else timer_sleep ;;; busy_loop n' (i + 1) d
  end.

Definition wait_while_busy (d : ata_disk) : M st bool := busy_loop 3000 0 d.

Definition select_device (d : ata_disk) : M st unit :=
  c <- chan (d_channel d) ;;
  let dev := if dev_no d =? 1 then Z.lor DEV_MBS DEV_DEV else DEV_MBS in
  outb (reg_device c) dev ;;;
  inb (reg_alt_status c) ;;;
  timer_sleep.

Definition select_device_wait (d : ata_disk) : M st unit :=
  wait_until_idle d ;;; select_device d ;;; wait_until_idle d.

(** ** Reading and writing sectors *)

Definition select_sector (d : ata_disk) (sec_no : Z) : M st unit :=
  ASSERT (sec_no <? Z.shiftl 1 28) ;;;
  select_device_wait d ;;;
  c <- chan (d_channel d) ;;
  outb (reg_nsect c) 1 ;;;
  outb (reg_lbal c) sec_no ;;;
  outb (reg_lbam c) (Z.shiftr sec_no 8) ;;;
  outb (reg_lbah c) (Z.shiftr sec_no 16) ;;;
  outb (reg_device c) (Z.lor (Z.lor (Z.lor DEV_MBS DEV_LBA) (if dev_no d =? 1 then DEV_DEV else 0)) (Z.shiftr sec_no 24)).

Definition issue_pio_command (c : nat) (command : Z) : M st unit :=
  on <- gets intr_on ;;
  ASSERT on ;;;
  upd_chan c (set_expecting true) ;;;
  v <- chan c ;; outb (reg_command v) command.

Definition input_sector (c : nat) : M st (list Z) := v <- chan c ;; insw (reg_data v).
Definition output_sector (c : nat) (sector : list Z) : M st unit := v <- chan c ;; outsw (reg_data v) sector.

Definition ide_read (d : ata_disk) (sec_no : Z) : M st (list Z) :=
  let c := d_channel d in
  lock_acquire c ;;;
  select_sector d sec_no ;;;
  issue_pio_command c CMD_READ_SECTOR_RETRY ;;;
  sema_down c ;;;
  ok <- wait_while_busy d ;;
  if negb ok then fail Kernel_panic
  else
    buffer <- input_sector c ;;
    lock_release c ;;;
    ret buffer.

Definition ide_write (d : ata_disk) (sec_no : Z) (buffer : list Z) : M st unit :=
  let c := d_channel d in
  lock_acquire c ;;;
  select_sector d sec_no ;;;
  issue_pio_command c CMD_WRITE_SECTOR_RETRY ;;;
  ok <- wait_while_busy d ;;
  if negb ok then fail Kernel_panic
  else
    output_sector c buffer ;;;
    sema_down c ;;;
    lock_release c.

(** ** Detection and identification *)

Definition disk (c : nat) (dev : nat) : M st ata_disk :=
  v <- chan c ;; gets_opt (fun _ => devices v !! dev).

Definition set_is_ata (c dev : nat) (b : bool) : M st unit :=
  d <- disk c dev ;;
  upd_chan c (fun v => set_devices (<[dev := mkAta (d_name d) (d_channel d) (dev_no d) b]> (devices v)) v).

(** Whether a device answers on the registers. *)
Definition probe (c dev : nat) : M st bool :=
  d <- disk c dev ;;
  select_device d ;;;
  v <- chan c ;;
  outb (reg_nsect v) 0x55 ;;; outb (reg_lbal v) 0xaa ;;;
  outb (reg_nsect v) 0xaa ;;; outb (reg_lbal v) 0x55 ;;;
  outb (reg_nsect v) 0x55 ;;; outb (reg_lbal v) 0xaa ;;;
  a <- inb (reg_nsect v) ;;
  if negb (a =? 0x55) then ret false else b <- inb (reg_lbal v) ;; ret (b =? 0xaa).

Fixpoint signature_loop (n : nat) (c : nat) : M st unit :=
  match n with
  | O => ret tt
  | S n' =>
      v <- chan c ;;
      a <- inb (reg_nsect v) ;;
      done <- (if negb (a =? 1) then ret false else b <- inb (reg_lbal v) ;; ret (b =? 1)) ;;
      if (done : bool) then ret tt else timer_sleep ;;; signature_loop n' c
  end.

Definition reset_channel (c : nat) : M st unit :=
  present0 <- probe c 0 ;;
  present1 <- probe c 1 ;;
  v <- chan c ;;
  outb (reg_ctl v) 0 ;;;
  timer_sleep ;;;
  outb (reg_ctl v) CTL_SRST ;;;
  timer_sleep ;;;
  outb (reg_ctl v) 0 ;;;
  timer_sleep ;;;
  (if (present0 : bool) then d <- disk c 0 ;; select_device d ;;; wait_while_busy d ;;; ret tt else ret tt) ;;;
  (if (present1 : bool) then d <- disk c 1 ;; select_device d ;;; signature_loop 3000 c ;;; wait_while_busy d ;;; ret tt else ret tt).

Definition check_device_type (c dev : nat) : M st bool :=
  d <- disk c dev ;;
  select_device d ;;;
  v <- chan c ;;
  error <- inb (reg_error v) ;;
  lbam <- inb (reg_lbam v) ;;
  lbah <- inb (reg_lbah v) ;;
  status <- inb (reg_status v) ;;
  if (negb (error =? 1) && (negb (error =? 0x81) || (dev_no d =? 1)))
     || (Z.land status STA_DRDY =? 0) || negb (Z.land status STA_BSY =? 0)
  then set_is_ata c dev false ;;; ret (negb (error =? 0x81))
  else
    set_is_ata c dev ((lbam =? 0) && (lbah =? 0) || (lbam =? 0x3c) && (lbah =? 0xc3)) ;;;
    ret true.

Fixpoint swap_pairs (bs : list Z) : list Z :=
  match bs with a :: b :: rest => b :: a :: swap_pairs rest | _ => bs end.

(** The loop that finds the end: [size] is the index of the terminator. *)
Fixpoint trim (string : list Z) (size : nat) : nat :=
  match size with
  | O => O
  | S size' =>
      let c := nth size' string 0 in
      if negb (c =? 0) && negb (StdLib.isspace c) then size else trim string size'
  end.

(** The characters of the string; [string] is [size] bytes. *)
Definition descramble_ata_string (string : list Z) : list Z :=
  let string := swap_pairs string in
  take (trim string (length string - 1)) string.

(** The C string at the start of the bytes. *)
Fixpoint c_string (bs : list Z) : list Z :=
  match bs with [] => [] | b :: bs' => if b =? 0 then [] else b :: c_string bs' end.

Definition quote : list Z := [34].

(** What the disk is registered with: its capacity and the text; [None] when
    it is not registered. *)
Definition identify_ata_device (c dev : nat) : M st (option (Z * list Z)) :=
  d <- disk c dev ;;
  ASSERT (is_ata d) ;;;
  select_device_wait d ;;;
  issue_pio_command c CMD_IDENTIFY_DEVICE ;;;
  sema_down c ;;;
  ok <- wait_while_busy d ;;
  if negb ok then set_is_ata c dev false ;;; ret None
  else
    id <- input_sector c ;;
    let capacity := FsState.of_le32 (drop 120 id) in
    let model := c_string (descramble_ata_string (take 20 (drop 20 id))) in
    let serial := c_string (descramble_ata_string (take 40 (drop 54 id))) in
    let extra_info := str "model " ++ quote ++ model ++ quote ++ str ", serial " ++ quote ++ serial ++ quote in
    if capacity >=? 1024 * 1024 * 1024 / 512 then
      kprintf (lit "%s: ignoring ") [Str (Some (d_name d))] ;;;
      modify (fun s => set_console (console s ++ print_human_readable_size (u32 (capacity * 512))) s) ;;;
      kprintf (lit "disk for safety
") [] ;;;
      set_is_ata c dev false ;;; ret None
    else ret (Some (capacity, take 127 extra_info)).

(** ** Initialization *)

Definition init_channel (chan_no : nat) : M st unit :=
  let name := str "ide" ++ [48 + Z.of_nat chan_no] in
  let dev n := mkAta (str "hd" ++ [97 + Z.of_nat chan_no * 2 + n]) chan_no n false in
  let '(base, vec) := match chan_no with O => (0x1f0, 14 + 0x20) | _ => (0x170, 15 + 0x20) end in
  modify (fun s => set_channels (<[chan_no := mkChannel name base vec false false 0 [dev 0; dev 1]]> (channels s)) s).

(** The disks of a channel that are registered, with their numbers. *)
Definition start_channel (c : nat) : M st (list (nat * Z * list Z)) :=
  init_channel c ;;;
  reset_channel c ;;;
  more <- check_device_type c 0 ;;
  (if (more : bool) then check_device_type c 1 ;;; ret tt else ret tt) ;;;
  d0 <- disk c 0 ;;
  r0 <- (if is_ata d0 then identify_ata_device c 0 else ret None) ;;
  d1 <- disk c 1 ;;
  r1 <- (if is_ata d1 then identify_ata_device c 1 else ret None) ;;
  ret (match r0 with Some (n, i) => [(0%nat, n, i)] | None => [] end ++ match r1 with Some (n, i) => [(1%nat, n, i)] | None => [] end).

Definition ide_init : M st (list (nat * Z * list Z) * list (nat * Z * list Z)) :=
  a <- start_channel 0 ;; b <- start_channel 1 ;; ret (a, b).

End Ide.
