(* ===== verification/IdeProps.v ===== *)
(** * Disks: proofs

    The driver of [Ide], run on the hardware, gives what an array of sectors
    per disk gives: every read returns the sector that was last written, and a
    write changes one sector of one disk.  The proofs follow one channel: its
    part of the state is a pair of driver record and hardware, the rest stays
    put, and every primitive has a rule on such states. *)

From Stdlib Require Import Ascii String.
From S2P Require Import Prelude StdLib Stdio Blocks FsState Ide.

Module IdeProps.
Import Stdio Ide.

(** ** States seen from a channel *)

Definition base (c : nat) : Z := match c with O => 0x1f0 | _ => 0x170 end.
Definition vec (c : nat) : Z := Z.of_nat c + 14 + 0x20.

(** The state in which channel [c] holds [v] and its hardware is [h]. *)
Definition at_chan (s : st) (c : nat) (v : channel) (h : hw) : st :=
  mkSt (<[c := v]> (channels s)) (<[c := h]> (ports s)) (console s) (intr_on s).

(** What a channel's record holds once it is set up. *)
Definition set_up (c : nat) (v : channel) : Prop := reg_base v = base c /\ irq v = vec c.

Definition still (h : hw) : Prop := h_phase h = Idle /\ h_intrq h = false.

(** Both channels are set up, and the hardware of the others is still. *)
Record around (c : nat) (s : st) : Prop := mkAround {
  ar_c : (c < 2)%nat;
  ar_channels : length (channels s) = 2%nat;
  ar_ports : length (ports s) = 2%nat;
  ar_up : forall k v, channels s !! k = Some v -> set_up k v;
  ar_still : forall k h, ports s !! k = Some h -> k <> c -> still h;
  ar_intr : intr_on s = true
}.

Lemma at_at s c v h v' h' : at_chan (at_chan s c v h) c v' h' = at_chan s c v' h'.
Proof. unfold at_chan. cbn. by rewrite !list_insert_insert_eq. Qed.

Lemma decode_reg c reg :
  (c < 2)%nat -> 0 <= reg < 8 \/ reg = 0x206 -> decode (base c + reg) = Some (c, reg).
Proof.
  intros Hc Hr. unfold decode, base. destruct c as [|[|c]]; [| |lia].
  - case_match; [do 2 f_equal; lia|destruct Hr as [?| ->]; lia].
  - repeat case_match; try (destruct Hr as [?| ->]; lia). do 2 f_equal. lia.
Qed.

Section Rules.
Context (s : st) (c : nat) (Har : around c s).

Lemma ch_lookup v h : channels (at_chan s c v h) !! c = Some v.
Proof. destruct Har. cbn. apply list_lookup_insert_eq. lia. Qed.

Lemma ht_lookup v h : ports (at_chan s c v h) !! c = Some h.
Proof. destruct Har. cbn. apply list_lookup_insert_eq. lia. Qed.

Lemma run_chan v h : chan c (at_chan s c v h) = Ok (v, at_chan s c v h).
Proof. unfold chan, gets_opt. by rewrite ch_lookup. Qed.

Lemma run_upd f v h : upd_chan c f (at_chan s c v h) = Ok (tt, at_chan s c (f v) h).
Proof.
  unfold upd_chan. mrun (run_chan v h). unfold modify, at_chan, set_channels. cbn.
  by rewrite list_insert_insert_eq.
Qed.

Lemma run_port {A} reg (f : Z -> hw -> option (A * hw)) v h :
  set_up c v -> 0 <= reg < 8 \/ reg = 0x206 ->
  on_port (reg_base v + reg) f (at_chan s c v h) =
  match f reg h with Some (a, h') => Ok (a, at_chan s c v h') | None => Err Bad_access end.
Proof.
  intros [Hb _] Hr. unfold on_port. rewrite Hb, decode_reg, ht_lookup by (destruct Har; done).
  case_match; [|done]. case_match. unfold at_chan, set_ports. cbn. by rewrite list_insert_insert_eq.
Qed.

Lemma run_inb reg v h :
  set_up c v -> 0 <= reg < 8 \/ reg = 0x206 ->
  inb (reg_base v + reg) (at_chan s c v h) = Ok ((hw_in reg h).1, at_chan s c v (hw_in reg h).2).
Proof. intros Hv Hr. unfold inb. rewrite run_port by done. by destruct (hw_in reg h). Qed.

Lemma run_outb reg x v h :
  set_up c v -> 0 <= reg < 8 \/ reg = 0x206 ->
  outb (reg_base v + reg) x (at_chan s c v h) = Ok (tt, at_chan s c v (hw_out reg (u8 x) h)).
Proof. intros Hv Hr. unfold outb. by rewrite run_port by done. Qed.

(** ** Time *)

Lemma still_tick h : still h -> hw_tick h = h.
Proof. intros [Hp _]. unfold hw_tick. by rewrite Hp. Qed.

Lemma deliver_one x s1 : deliver [x] s1 = interrupt_handler x s1.
Proof. cbn [deliver]. unfold bind. destruct (interrupt_handler x s1) as [[[] ?]|]; done. Qed.

(** The lines after the hardware of the channel has gone on. *)
Lemma run_pass v h :
  pass_time (at_chan s c v h) =
  (if h_intrq (hw_tick h) then interrupt_handler (vec c) else ret tt) (at_chan s c v (hw_tick h)).
Proof.
  destruct Har as [Hc Hch Hpo _ Hst _], s as [chs pos con on]. cbn in Hch, Hpo, Hst.
  destruct pos as [|a [|b [|]]]; try done.
  unfold pass_time. rewrite bind_modify_l, bind_get_l. unfold set_ports, at_chan, lines.
  destruct c as [|[|]]; [| |lia]; cbn -[vec interrupt_handler deliver].
  - assert (Hb : still b) by (apply (Hst 1%nat); done). rewrite (still_tick b) by done.
    destruct Hb as [_ ->]. destruct (h_intrq (hw_tick h)); [apply deliver_one|done].
  - assert (Ha : still a) by (apply (Hst 0%nat); done). rewrite (still_tick a) by done.
    destruct Ha as [_ ->]. destruct (h_intrq (hw_tick h)); [apply deliver_one|done].
Qed.

Lemma pass_quiet v h : h_intrq (hw_tick h) = false -> pass_time (at_chan s c v h) = Ok (tt, at_chan s c v (hw_tick h)).
Proof. intros H. by rewrite run_pass, H. Qed.

(** The handler reads the status and wakes the waiter. *)
Lemma run_handler v h :
  set_up c v -> expecting_interrupt v = true ->
  interrupt_handler (vec c) (at_chan s c v h) =
  Ok (tt, at_chan s c (set_wait (completion_wait v + 1) v) (with_phase (h_phase h) false h)).
Proof.
  intros Hv He. unfold interrupt_handler, CHANNEL_CNT.
  assert (H : forall n, handler_loop (S n) c (vec c) (at_chan s c v h) =
    Ok (tt, at_chan s c (set_wait (completion_wait v + 1) v) (with_phase (h_phase h) false h))).
  { intros n. cbn [handler_loop]. mrun (run_chan v h). rewrite (proj2 Hv), Z.eqb_refl, He.
    unfold reg_status. mrun (run_inb 7 v h Hv ltac:(lia)). unfold sema_up. by rewrite run_upd. }
  destruct Har as [Hc Hch _ Hup _ _]. destruct c as [|[|]]; [apply H| |lia].
  destruct (channels s) as [|v0 [|v1 [|]]] eqn:Ec; try done.
  destruct (Hup 0%nat v0 eq_refl) as [_ Hi].
  set (n := 1%nat) in |- * at 1. cbn [handler_loop]. rewrite (bind_ok _ _ _ v0 (at_chan s 1 v h)).
  2:{ unfold chan, gets_opt, at_chan. cbn. by rewrite Ec. }
  rewrite Hi. change (vec 1 =? vec 0) with false. cbn iota. apply H.
Qed.

Lemma pass_irq v h :
  set_up c v -> expecting_interrupt v = true -> h_intrq (hw_tick h) = true ->
  pass_time (at_chan s c v h) =
  Ok (tt, at_chan s c (set_wait (completion_wait v + 1) v) (with_phase (h_phase (hw_tick h)) false (hw_tick h))).
Proof. intros Hv He Hi. rewrite run_pass, Hi. by apply run_handler. Qed.

Lemma sema_down_runs v n : forall h p,
  set_up c v -> expecting_interrupt v = true -> completion_wait v = 0 ->
  h_phase h = Busy n true p -> h_intrq h = false ->
  sema_down_loop (S (S n)) c (at_chan s c v h) = Ok (tt, at_chan s c v (with_phase p false h)).
Proof.
  induction n as [|n IH]; intros h p Hv He Hw Hp Hi; cbn [sema_down_loop];
    mrun (run_chan v h); rewrite Hw; change (0 >? 0) with false; cbn iota.
  - assert (Ht : hw_tick h = with_phase p true h) by (unfold hw_tick; by rewrite Hp).
    rewrite (bind_ok _ _ _ tt (at_chan s c (set_wait 1 v) (with_phase p false h))).
    2:{ rewrite pass_irq by (done || by rewrite Ht). by rewrite Ht, Hw. }
    mrun (run_chan (set_wait 1 v) (with_phase p false h)). cbn -[at_chan upd_chan]. rewrite run_upd.
    do 3 f_equal. destruct v; cbn in *. by subst.
  - assert (Ht : hw_tick h = with_phase (Busy n true p) (h_intrq h) h) by (unfold hw_tick; by rewrite Hp).
    rewrite (bind_ok _ _ _ tt (at_chan s c v (hw_tick h))) by (apply pass_quiet; by rewrite Ht).
    change (sema_down_loop (S (S n)) c (at_chan s c v (hw_tick h)) = Ok (tt, at_chan s c v (with_phase p false h))).
    rewrite (IH (hw_tick h) p) by (done || by rewrite Ht). by rewrite Ht.
Qed.

(** A command that ends with an interrupt wakes the thread that waits. *)
Lemma run_sema_down v h n p :
  set_up c v -> expecting_interrupt v = true -> completion_wait v = 0 ->
  h_phase h = Busy n true p -> h_intrq h = false ->
  sema_down c (at_chan s c v h) = Ok (tt, at_chan s c v (with_phase p false h)).
Proof.
  intros Hv He Hw Hp Hi. unfold sema_down.
  rewrite (bind_ok _ _ _ h (at_chan s c v h)) by (unfold gets_opt; by rewrite ht_lookup).
  unfold rounds. rewrite Hp. by apply sema_down_runs.
Qed.

(** ** Selecting a sector *)

Lemma still_same h : still h -> with_phase (h_phase h) false h = h.
Proof. intros [_ <-]. by destruct h. Qed.

Lemma idle_bits h : still h -> (Z.land (status_of h) (Z.lor STA_BSY STA_DRQ) =? 0) = true.
Proof. intros [Hp _]. unfold status_of. rewrite Hp. by case_match. Qed.

Lemma run_wait_idle d v h :
  d_channel d = c -> set_up c v -> still h ->
  wait_until_idle d (at_chan s c v h) = Ok (tt, at_chan s c v h).
Proof.
  intros Hd Hv Hs. unfold wait_until_idle. generalize 999%nat as n. intros n.
  change (idle_loop (S n) d (at_chan s c v h) = Ok (tt, at_chan s c v h)). cbn [idle_loop].
  rewrite Hd. mrun (run_chan v h). unfold reg_status. mrun (run_inb 7 v h Hv ltac:(lia)).
  change (hw_in 7 h) with (status_of h, with_phase (h_phase h) false h). cbn [fst snd].
  by rewrite idle_bits, still_same by done.
Qed.

Definition set_device (x : Z) (h : hw) : hw :=
  mkHw (h_disks h) (h_ident h) (h_nsect h) (h_lbal h) (h_lbam h) (h_lbah h) x (h_phase h) (h_intrq h) (h_delay h).

Definition device_byte (dev : Z) : Z := if dev =? 1 then 0xb0 else 0xa0.

Lemma run_select d v h :
  d_channel d = c -> set_up c v -> still h ->
  select_device d (at_chan s c v h) = Ok (tt, at_chan s c v (set_device (device_byte (dev_no d)) h)).
Proof.
  intros Hd Hv Hs. unfold select_device. rewrite Hd. mrun (run_chan v h). unfold reg_device.
  mrun (run_outb 6 (if dev_no d =? 1 then Z.lor DEV_MBS DEV_DEV else DEV_MBS) v h Hv ltac:(lia)).
  unfold reg_alt_status, reg_ctl.
  match goal with |- context [at_chan s c v ?h'] => set (h1 := h') end.
  assert (E : h1 = set_device (device_byte (dev_no d)) h) by (subst h1; unfold device_byte; by destruct (dev_no d =? 1)).
  mrun (run_inb 0x206 v h1 Hv ltac:(lia)). change (hw_in 0x206 h1).2 with h1.
  rewrite E. assert (Hs1 : still (set_device (device_byte (dev_no d)) h)) by done.
  unfold timer_sleep. rewrite pass_quiet; rewrite still_tick by done; [done|apply Hs1].
Qed.

Lemma run_select_wait d v h :
  d_channel d = c -> set_up c v -> still h ->
  select_device_wait d (at_chan s c v h) = Ok (tt, at_chan s c v (set_device (device_byte (dev_no d)) h)).
Proof.
  intros Hd Hv Hs. unfold select_device_wait. mrun (run_wait_idle d v h Hd Hv Hs).
  mrun (run_select d v h Hd Hv Hs). by apply run_wait_idle.
Qed.

(** The registers of the hardware once they name a sector. *)
Definition addressed (dev sec : Z) (h : hw) : hw :=
  mkHw (h_disks h) (h_ident h) 1 (u8 sec) (u8 (Z.shiftr sec 8)) (u8 (Z.shiftr sec 16))
    (u8 (Z.lor (Z.lor (Z.lor DEV_MBS DEV_LBA) (if dev =? 1 then DEV_DEV else 0)) (Z.shiftr sec 24)))
    (h_phase h) (h_intrq h) (h_delay h).

Lemma run_select_sector d sec v h :
  d_channel d = c -> set_up c v -> still h -> sec < 2 ^ 28 ->
  select_sector d sec (at_chan s c v h) = Ok (tt, at_chan s c v (addressed (dev_no d) sec h)).
Proof.
  intros Hd Hv Hs Hr. unfold select_sector.
  assert (Hb : (sec <? Z.shiftl 1 28) = true) by (change (Z.shiftl 1 28) with (2 ^ 28); lia).
  rewrite Hb, bind_ASSERT_l.
  mrun (run_select_wait d v h Hd Hv Hs). rewrite Hd.
  mrun (run_chan v (set_device (device_byte (dev_no d)) h)).
  unfold reg_nsect, reg_lbal, reg_lbam, reg_lbah, reg_device.
  do 4 (erewrite bind_ok by (apply run_outb; [done|lia])).
  by rewrite run_outb by (done || lia).
Qed.

Lemma run_issue cmd v h :
  set_up c v ->
  issue_pio_command c cmd (at_chan s c v h) =
  Ok (tt, at_chan s c (set_expecting true v) (hw_command (u8 cmd) h)).
Proof.
  intros Hv. unfold issue_pio_command. rewrite bind_gets_l. cbn [intr_on at_chan].
  rewrite (ar_intr _ _ Har), bind_ASSERT_l. mrun (run_upd (set_expecting true) v h).
  mrun (run_chan (set_expecting true v) h). unfold reg_command, reg_status.
  by rewrite run_outb by (done || lia).
Qed.

End Rules.

(** ** The wait for the disk *)

(** The driver's names of disks: hda to hdd. *)
Definition named (d : ata_disk) : Prop := exists k, 0 <= k < 4 /\ d_name d = str "hd" ++ [97 + k].

Lemma around_console c s t : around c s -> around c (set_console t s).
Proof. intros []. by constructor. Qed.

Lemma at_console s c v h t : set_console t (at_chan s c v h) = at_chan (set_console t s) c v h.
Proof. done. Qed.

Lemma run_kprintf format args s c v h :
  (exists text, printf 120 format args = Ok text) ->
  exists t, kprintf format args (at_chan s c v h) = Ok (tt, at_chan (set_console t s) c v h).
Proof. intros [text H]. unfold kprintf. rewrite H. by exists (console s ++ text). Qed.

Lemma busy_prints d : named d -> exists text, printf 120 (lit "%s: busy, waiting...") [Str (Some (d_name d))] = Ok text.
Proof.
  intros (k & Hk & ->). assert (Hc : k = 0 \/ k = 1 \/ k = 2 \/ k = 3) by lia.
  destruct Hc as [->|[->|[-> | ->]]]; eexists; vm_compute; reflexivity.
Qed.

(** What is printed depends on the round only. *)
Lemma run_notice d i s c v h :
  named d -> exists t,
  (if i =? 700 then kprintf (lit "%s: busy, waiting...") [Str (Some (d_name d))] else ret tt) (at_chan s c v h) =
  Ok (tt, at_chan (set_console t s) c v h).
Proof.
  intros Hn. case_match; [by apply run_kprintf, busy_prints|]. exists (console s). by destruct s.
Qed.

Lemma run_done i s c v h :
  exists t, (if i >=? 700 then kprintf (lit "ok
") [] else ret tt) (at_chan s c v h) = Ok (tt, at_chan (set_console t s) c v h).
Proof.
  case_match; [apply run_kprintf; eexists; vm_compute; reflexivity|]. exists (console s). by destruct s.
Qed.

(** The hardware has bytes for the driver, or waits for some. *)
Definition transfers (h : hw) : Prop :=
  h_intrq h = false /\ (exists l, media h (selected h) = Some l) /\
  match h_phase h with Data_in _ | Data_out _ _ => True | _ => False end.

Lemma transfers_status h : transfers h -> status_of h = 0x48.
Proof. intros (_ & [l Hl] & Hp). unfold status_of. rewrite Hl. by destruct (h_phase h). Qed.

Lemma run_ready d s c v h m i :
  around c s -> named d -> d_channel d = c -> set_up c v -> transfers h ->
  exists t, busy_loop (S m) i d (at_chan s c v h) = Ok (true, at_chan (set_console t s) c v h).
Proof.
  intros Ha Hn Hd Hv Ht. cbn [busy_loop].
  destruct (run_notice d i s c v h Hn) as [t1 E1]. mrun E1. rewrite Hd.
  pose proof (around_console c s t1 Ha) as Ha1. mrun (run_chan _ c Ha1 v h).
  unfold reg_alt_status, reg_ctl. mrun (run_inb _ c Ha1 0x206 v h Hv ltac:(lia)).
  change (hw_in 0x206 h) with (status_of h, h). cbn [fst snd]. rewrite (transfers_status h Ht).
  change (Z.land 0x48 STA_BSY =? 0) with true. cbn iota.
  destruct (run_done i (set_console t1 s) c v h) as [t2 E2]. mrun E2.
  pose proof (around_console c _ t2 Ha1) as Ha2. mrun (run_inb _ c Ha2 0x206 v h Hv ltac:(lia)).
  change (hw_in 0x206 h) with (status_of h, h). cbn [fst snd]. rewrite (transfers_status h Ht).
  by exists t2.
Qed.

(** A round in which the disk is busy. *)
Lemma busy_step d s c v h m i :
  around c s -> named d -> d_channel d = c -> set_up c v -> status_of h = STA_BSY ->
  exists t, busy_loop (S m) i d (at_chan s c v h) = (pass_time ;;; busy_loop m (i + 1) d) (at_chan (set_console t s) c v h).
Proof.
  intros Ha Hn Hd Hv Hs. cbn [busy_loop].
  destruct (run_notice d i s c v h Hn) as [t1 E1]. mrun E1. rewrite Hd.
  pose proof (around_console c s t1 Ha) as Ha1. mrun (run_chan _ c Ha1 v h).
  unfold reg_alt_status, reg_ctl. mrun (run_inb _ c Ha1 0x206 v h Hv ltac:(lia)).
  change (hw_in 0x206 h) with (status_of h, h). cbn [fst snd]. rewrite Hs. by exists t1.
Qed.

Lemma status_busy h n q p : (exists l, media h (selected h) = Some l) -> h_phase h = Busy n q p -> status_of h = STA_BSY.
Proof. intros [l Hl] Hp. unfold status_of. by rewrite Hl, Hp. Qed.

(** A command that is followed by a transfer is waited for, as long as the
    disk takes no more rounds than the driver. *)
Lemma run_busy d c v p n : forall s h m i,
  around c s -> named d -> d_channel d = c -> set_up c v -> h_intrq h = false ->
  h_phase h = Busy n false p -> transfers (with_phase p false h) -> (n + 2 <= m)%nat ->
  exists t, busy_loop m i d (at_chan s c v h) = Ok (true, at_chan (set_console t s) c v (with_phase p false h)).
Proof.
  induction n as [|n IH]; intros s h m i Ha Hn Hd Hv Hi Hp Ht Hm; (destruct m as [|m]; [lia|]);
    (destruct (busy_step d s c v h m i Ha Hn Hd Hv) as [t1 ->]; [by eapply status_busy; [apply Ht|]|]);
    pose proof (around_console c s t1 Ha) as Ha1.
  - assert (Hk : hw_tick h = with_phase p false h) by (unfold hw_tick; by rewrite Hp, Hi).
    mrun (pass_quiet _ c Ha1 v h ltac:(by rewrite Hk)). rewrite Hk.
    destruct m as [|m]; [lia|].
    destruct (run_ready d _ c v _ m (i + 1) Ha1 Hn Hd Hv Ht) as [t E]. by exists t.
  - assert (Hk : hw_tick h = with_phase (Busy n false p) false h) by (unfold hw_tick; by rewrite Hp, Hi).
    mrun (pass_quiet _ c Ha1 v h ltac:(by rewrite Hk)). rewrite Hk.
    destruct (IH (set_console t1 s) (with_phase (Busy n false p) false h) m (i + 1)) as [t E]; [done..|lia|].
    by exists t.
Qed.

(** The end of the rounds. *)
Lemma run_failed i d s c v h : exists s', busy_loop 0 i d (at_chan s c v h) = Ok (false, s').
Proof.
  cbn [busy_loop]. destruct (run_kprintf (lit "failed
") [] s c v h) as [t E]; [eexists; vm_compute; reflexivity|].
  rewrite (bind_ok _ _ _ _ _ E). by eexists.
Qed.

(** A disk that has nothing to transfer. *)
Lemma run_no_data d s c v h m i :
  around c s -> named d -> d_channel d = c -> set_up c v -> still h -> (exists l, media h (selected h) = Some l) ->
  exists s', busy_loop m i d (at_chan s c v h) = Ok (false, s').
Proof.
  intros Ha Hn Hd Hv Hs [l Hl]. destruct m as [|m]; [apply run_failed|]. cbn [busy_loop].
  destruct (run_notice d i s c v h Hn) as [t1 E1]. mrun E1. rewrite Hd.
  pose proof (around_console c s t1 Ha) as Ha1. mrun (run_chan _ c Ha1 v h).
  unfold reg_alt_status, reg_ctl. mrun (run_inb _ c Ha1 0x206 v h Hv ltac:(lia)).
  change (hw_in 0x206 h) with (status_of h, h). cbn [fst snd].
  assert (Hst : status_of h = STA_DRDY) by (unfold status_of; by rewrite Hl, (proj1 Hs)).
  rewrite Hst. change (Z.land STA_DRDY STA_BSY =? 0) with true. cbn iota.
  destruct (run_done i (set_console t1 s) c v h) as [t2 E2]. mrun E2.
  pose proof (around_console c _ t2 Ha1) as Ha2. mrun (run_inb _ c Ha2 0x206 v h Hv ltac:(lia)).
  change (hw_in 0x206 h) with (status_of h, h). cbn [fst snd]. rewrite Hst. by eexists.
Qed.

(** A command that ends without data, or that takes too long, fails. *)
Lemma run_abort d c n : forall s v h m i,
  around c s -> named d -> d_channel d = c -> set_up c v -> expecting_interrupt v = true -> h_intrq h = false ->
  h_phase h = Busy n true Idle -> (exists l, media h (selected h) = Some l) ->
  exists s', busy_loop m i d (at_chan s c v h) = Ok (false, s').
Proof.
  induction n as [|n IH]; intros s v h m i Ha Hn Hd Hv He Hi Hp Hl; (destruct m as [|m]; [apply run_failed|]);
    (destruct (busy_step d s c v h m i Ha Hn Hd Hv) as [t1 ->]; [by eapply status_busy|]);
    pose proof (around_console c s t1 Ha) as Ha1.
  - assert (Hk : hw_tick h = with_phase Idle true h) by (unfold hw_tick; by rewrite Hp).
    mrun (pass_irq _ c Ha1 v h Hv He ltac:(by rewrite Hk)). rewrite Hk. by apply run_no_data.
  - assert (Hk : hw_tick h = with_phase (Busy n true Idle) false h) by (unfold hw_tick; by rewrite Hp, Hi).
    mrun (pass_quiet _ c Ha1 v h ltac:(by rewrite Hk)). rewrite Hk. by apply IH.
Qed.

Lemma run_slow d c v p n : forall s h m i,
  around c s -> named d -> d_channel d = c -> set_up c v -> h_intrq h = false ->
  h_phase h = Busy n false p -> (exists l, media h (selected h) = Some l) -> (m <= n)%nat ->
  exists s', busy_loop m i d (at_chan s c v h) = Ok (false, s').
Proof.
  induction n as [|n IH]; intros s h m i Ha Hn Hd Hv Hi Hp Hl Hm; (destruct m as [|m]; [apply run_failed|]); [lia|].
  destruct (busy_step d s c v h m i Ha Hn Hd Hv) as [t1 ->]; [by eapply status_busy|].
  pose proof (around_console c s t1 Ha) as Ha1.
  assert (Hk : hw_tick h = with_phase (Busy n false p) false h) by (unfold hw_tick; by rewrite Hp, Hi).
  mrun (pass_quiet _ c Ha1 v h ltac:(by rewrite Hk)). rewrite Hk. apply IH; [done..|lia].
Qed.

(** ** The sector that the registers name *)

Lemma top_nibble sec : 0 <= sec < 2 ^ 28 -> 0 <= Z.shiftr sec 24 < 16.
Proof. intros Hs. rewrite Z.shiftr_div_pow2 by lia. change (2 ^ 28) with 268435456 in Hs. change (2 ^ 24) with 16777216.
  Z.div_mod_to_equations. lia.
Qed.

(** The device register splits into its fields. *)
Lemma device_fields dev q :
  0 <= q < 16 ->
  let b := u8 (Z.lor (Z.lor (Z.lor DEV_MBS DEV_LBA) (if dev =? 1 then DEV_DEV else 0)) q) in
  Z.land b 15 = q /\ (Z.land b DEV_DEV =? 0) = negb (dev =? 1).
Proof.
  intros Hq. assert (Hc : Forall (fun q => forall b : bool,
    let v := u8 (Z.lor (Z.lor (Z.lor DEV_MBS DEV_LBA) (if b then DEV_DEV else 0)) q) in
    Z.land v 15 = q /\ (Z.land v DEV_DEV =? 0) = negb b) (seqZ 0 16)).
  { let l := eval vm_compute in (seqZ 0 16) in change (seqZ 0 16) with l.
    repeat (apply Forall_cons; split; [by intros []|]). apply Forall_nil_2. }
  rewrite Forall_forall in Hc. apply (Hc q). apply elem_of_seqZ. lia.
Qed.

Lemma lba_addressed dev sec h : 0 <= sec < 2 ^ 28 -> lba (addressed dev sec h) = sec.
Proof.
  intros Hs. unfold lba, addressed. cbn [h_lbal h_lbam h_lbah h_device].
  destruct (device_fields dev _ (top_nibble sec Hs)) as [-> _].
  rewrite !Z.shiftr_div_pow2 by lia. unfold u8.
  change (2 ^ 8) with 256. change (2 ^ 16) with 65536. change (2 ^ 24) with 16777216.
  Z.div_mod_to_equations. lia.
Qed.

Lemma selected_addressed dev sec h : dev = 0 \/ dev = 1 -> 0 <= sec < 2 ^ 28 -> selected (addressed dev sec h) = dev.
Proof.
  intros Hd Hs. unfold selected, addressed. cbn [h_device].
  destruct (device_fields dev _ (top_nibble sec Hs)) as [_ ->]. by destruct Hd as [->| ->].
Qed.

(** ** The commands *)

(** The hardware once the next command has drawn its delay. *)
Definition drawn (h : hw) : hw :=
  mkHw (h_disks h) (h_ident h) (h_nsect h) (h_lbal h) (h_lbam h) (h_lbah h) (h_device h) (h_phase h) (h_intrq h) (fun n => h_delay h (S n)).

Lemma command_read h dev sec l x :
  dev = 0 \/ dev = 1 -> 0 <= sec < 2 ^ 28 -> media h dev = Some l -> l !! Z.to_nat sec = Some x ->
  hw_command (u8 CMD_READ_SECTOR_RETRY) (addressed dev sec h) =
  with_phase (Busy (h_delay h 0%nat) true (Data_in x)) false (drawn (addressed dev sec h)).
Proof.
  intros Hd Hs Hl Hx. unfold hw_command. rewrite selected_addressed by done.
  change (media (addressed dev sec h) dev) with (media h dev). rewrite Hl. cbn [next_delay].
  change (lba _) with (lba (addressed dev sec h)). rewrite lba_addressed by done.
  change (u8 CMD_READ_SECTOR_RETRY =? CMD_READ_SECTOR_RETRY) with true. cbn iota. by rewrite Hx.
Qed.

Lemma command_write h dev sec l x :
  dev = 0 \/ dev = 1 -> 0 <= sec < 2 ^ 28 -> media h dev = Some l -> l !! Z.to_nat sec = Some x ->
  hw_command (u8 CMD_WRITE_SECTOR_RETRY) (addressed dev sec h) =
  with_phase (Busy (h_delay h 0%nat) false (Data_out dev sec)) false (drawn (addressed dev sec h)).
Proof.
  intros Hd Hs Hl Hx. unfold hw_command. rewrite selected_addressed by done.
  change (media (addressed dev sec h) dev) with (media h dev). rewrite Hl. cbn [next_delay].
  change (u8 CMD_WRITE_SECTOR_RETRY =? CMD_READ_SECTOR_RETRY) with false.
  change (u8 CMD_WRITE_SECTOR_RETRY =? CMD_WRITE_SECTOR_RETRY) with true. cbn iota.
  change (lba _) with (lba (addressed dev sec h)). change (selected _) with (selected (addressed dev sec h)).
  by rewrite lba_addressed, Hx, selected_addressed by done.
Qed.

Lemma command_beyond h dev sec l cmd :
  dev = 0 \/ dev = 1 -> 0 <= sec < 2 ^ 28 -> media h dev = Some l -> l !! Z.to_nat sec = None ->
  cmd = CMD_READ_SECTOR_RETRY \/ cmd = CMD_WRITE_SECTOR_RETRY ->
  hw_command (u8 cmd) (addressed dev sec h) = with_phase (Busy (h_delay h 0%nat) true Idle) false (drawn (addressed dev sec h)).
Proof.
  intros Hd Hs Hl Hx Hc. unfold hw_command. rewrite selected_addressed by done.
  change (media (addressed dev sec h) dev) with (media h dev). rewrite Hl. cbn [next_delay].
  change (lba _) with (lba (addressed dev sec h)). rewrite lba_addressed, Hx by done. by destruct Hc as [->| ->].
Qed.

(** ** The driver at rest *)

(** Nothing is under way: the locks are free, the semaphores at zero, the
    hardware is still. *)
Record ready (s : st) : Prop := mkReady {
  rd_channels : length (channels s) = 2%nat;
  rd_ports : length (ports s) = 2%nat;
  rd_chan : forall k v, channels s !! k = Some v -> set_up k v /\ lock v = false /\ completion_wait v = 0;
  rd_still : forall k h, ports s !! k = Some h -> still h;
  rd_intr : intr_on s = true
}.

(** No command takes longer than the driver waits. *)
Definition quick (s : st) : Prop := forall c h, ports s !! c = Some h -> forall n, (h_delay h n + 2 <= 3000)%nat.

(** A disk of one of the channels, as [init_channel] makes them. *)
Definition drive (d : ata_disk) : Prop := (d_channel d < 2)%nat /\ (dev_no d = 0 \/ dev_no d = 1) /\ named d.

(** What the disks hold. *)
Definition view (s : st) : list (list (option (list (list Z)))) := map h_disks (ports s).

Definition content (D : list (list (option (list (list Z))))) (d : ata_disk) : option (list (list Z)) :=
  match D !! d_channel d with
  | Some ds => match ds !! Z.to_nat (dev_no d) with Some (Some l) => Some l | _ => None end
  | None => None
  end.

Lemma ready_split s c :
  ready s -> (c < 2)%nat -> exists v h,
    s = at_chan s c v h /\ around c s /\ set_up c v /\ lock v = false /\ completion_wait v = 0 /\ still h /\
    ports s !! c = Some h.
Proof.
  intros [Hc Hp Hch Hst Hi] Hk.
  destruct (lookup_lt_is_Some_2 (channels s) c) as [v Ev]; [lia|].
  destruct (lookup_lt_is_Some_2 (ports s) c) as [h Eh]; [lia|].
  exists v, h. destruct (Hch c v Ev) as (? & ? & ?). pose proof (Hst c h Eh) as Hs.
  split_and!; try done.
  - unfold at_chan. rewrite !list_insert_id by done. by destruct s.
  - constructor; try done; intros; [by apply Hch|by eapply Hst].
Qed.

Lemma ready_join s c v h t :
  ready s -> (c < 2)%nat -> set_up c v -> lock v = false -> completion_wait v = 0 -> still h ->
  ready (at_chan (set_console t s) c v h).
Proof.
  intros [Hc Hp Hch Hst Hi] Hk. intros. constructor; cbn; rewrite ?length_insert; try done.
  - intros k w. destruct (decide (k = c)) as [->|]; [rewrite list_lookup_insert_eq by lia; by intros [= <-]|].
    rewrite list_lookup_insert_ne by done. apply Hch.
  - intros k w. destruct (decide (k = c)) as [->|]; [rewrite list_lookup_insert_eq by lia; by intros [= <-]|].
    rewrite list_lookup_insert_ne by done. apply Hst.
Qed.

Lemma quick_join s c v h h' t :
  quick s -> ports s !! c = Some h -> (exists k, forall n, h_delay h' n = h_delay h (k + n)%nat) -> quick (at_chan (set_console t s) c v h').
Proof.
  intros Hq Hh [j Hj] k w. cbn. destruct (decide (k = c)) as [->|].
  - rewrite list_lookup_insert_eq by (by eapply lookup_lt_Some). intros [= <-] n. rewrite Hj. by eapply Hq.
  - rewrite list_lookup_insert_ne by done. apply Hq.
Qed.

Lemma content_media s d h : ports s !! d_channel d = Some h -> content (view s) d = media h (dev_no d).
Proof. intros H. unfold content, view. by rewrite list_lookup_fmap, H. Qed.

Lemma view_same s c v h h' t : ports s !! c = Some h -> h_disks h' = h_disks h -> view (at_chan (set_console t s) c v h') = view s.
Proof.
  intros Hh Hd. unfold view. cbn. rewrite list_fmap_insert, Hd. apply list_insert_id.
  by rewrite list_lookup_fmap, Hh.
Qed.

(** ** Reading and writing *)

Lemma select_locked s d v h sec {A} (k : M st A) :
  around (d_channel d) s -> set_up (d_channel d) v -> lock v = false -> still h -> sec < 2 ^ 28 ->
  (lock_acquire (d_channel d) ;;; select_sector d sec ;;; k) (at_chan s (d_channel d) v h) =
  k (at_chan s (d_channel d) (set_lock true v) (addressed (dev_no d) sec h)).
Proof.
  intros Ha Hv Hl Hs Hr. unfold lock_acquire at 1. rewrite bind_bind. mrun (run_chan _ _ Ha v h). rewrite Hl.
  mrun (run_upd _ _ Ha (set_lock true) v h).
  by mrun (run_select_sector _ _ Ha d sec (set_lock true v) h eq_refl Hv Hs Hr).
Qed.

Lemma ide_read_ok s d sec l x :
  ready s -> drive d -> 0 <= sec < 2 ^ 28 -> content (view s) d = Some l -> l !! Z.to_nat sec = Some x ->
  exists s', ide_read d sec s = Ok (x, s') /\ ready s' /\ (quick s -> quick s') /\ view s' = view s.
Proof.
  intros Hr (Hc & Hdev & Hn) Hsec Hl Hx.
  destruct (ready_split s _ Hr Hc) as (v & h & E & Ha & Hv & Hlk & Hw & Hst & Hh).
  rewrite (content_media _ _ _ Hh) in Hl.
  cut (exists s', ide_read d sec (at_chan s (d_channel d) v h) = Ok (x, s') /\ ready s' /\ (quick s -> quick s') /\ view s' = view s); [by rewrite <-E|].
  clear E. unfold ide_read. rewrite select_locked by (done || lia).
  mrun (run_issue _ _ Ha CMD_READ_SECTOR_RETRY (set_lock true v) (addressed (dev_no d) sec h) Hv).
  rewrite (command_read h _ sec l x) by done.
  erewrite bind_ok by (eapply run_sema_down; done).
  set (h1 := with_phase (Data_in x) false _).
  assert (Ht : transfers h1).
  { split_and!; [done| |done]. exists l. change (selected h1) with (selected (addressed (dev_no d) sec h)).
    by rewrite selected_addressed. }
  set (v1 := set_expecting true (set_lock true v)).
  destruct (run_ready d s _ v1 h1 2999 0 Ha Hn eq_refl Hv Ht) as [t Eb].
  unfold wait_while_busy. change 3000%nat with (S 2999). mrun Eb. cbn [negb].
  pose proof (around_console _ s t Ha) as Ha1.
  unfold input_sector. rewrite bind_bind. mrun (run_chan _ _ Ha1 v1 h1).
  unfold insw, reg_data. rewrite (bind_ok _ _ _ x (at_chan (set_console t s) (d_channel d) v1 (with_phase Idle false h1))).
  2:{ by rewrite (run_port _ _ Ha1 0) by (done || lia). }
  unfold lock_release. rewrite bind_bind. mrun (run_chan _ _ Ha1 v1 (with_phase Idle false h1)). cbn [lock v1 set_expecting set_lock].
  mrun (run_upd _ _ Ha1 (set_lock false) v1 (with_phase Idle false h1)).
  eexists. split; [reflexivity|]. split; [by apply ready_join|].
  split; [intros Hq; apply (quick_join s _ _ h); try done; by exists 1%nat|].
  by apply (view_same _ _ _ h).
Qed.

(** The hardware that has taken the bytes of a sector. *)
Definition stored (dev sec : Z) (l : list (list Z)) (bs : list Z) (h : hw) : hw :=
  mkHw (<[Z.to_nat dev := Some (<[Z.to_nat sec := bs]> l)]> (h_disks h)) (h_ident h) (h_nsect h) (h_lbal h) (h_lbam h) (h_lbah h)
    (h_device h) (Busy (h_delay h 0%nat) true Idle) false (fun n => h_delay h (S n)).

Lemma run_output s c v h dev sec l bs :
  around c s -> set_up c v -> h_phase h = Data_out dev sec -> h_intrq h = false -> media h dev = Some l -> length bs = 512%nat ->
  output_sector c bs (at_chan s c v h) = Ok (tt, at_chan s c v (stored dev sec l bs h)).
Proof.
  intros Ha Hv Hp Hi Hl Hb. unfold output_sector. mrun (run_chan _ _ Ha v h). unfold outsw, reg_data.
  rewrite (run_port _ _ Ha 0) by (done || lia). rewrite Hb. cbn [negb Nat.eqb].
  unfold hw_outsw. rewrite Hp, Hl. cbn [next_delay]. by rewrite Hi.
Qed.

(** A disk's contents replaced. *)
Definition replace (D : list (list (option (list (list Z))))) (d : ata_disk) (l : list (list Z)) : list (list (option (list (list Z)))) :=
  alter (fun ds => <[Z.to_nat (dev_no d) := Some l]> ds) (d_channel d) D.

Lemma view_replaced s d v h h' l t :
  ports s !! d_channel d = Some h -> h_disks h' = <[Z.to_nat (dev_no d) := Some l]> (h_disks h) ->
  view (at_chan (set_console t s) (d_channel d) v h') = replace (view s) d l.
Proof.
  intros Hh Hd. unfold view, replace. cbn. rewrite list_fmap_insert, Hd.
  apply list_eq. intros k. destruct (decide (k = d_channel d)) as [->|Hk].
  - rewrite list_lookup_alter_eq, list_lookup_insert_eq, list_lookup_fmap, Hh; [done|].
    rewrite length_fmap. by eapply lookup_lt_Some.
  - by rewrite list_lookup_insert_ne, list_lookup_alter_ne by done.
Qed.

Lemma ide_write_ok s d sec l bs :
  ready s -> quick s -> drive d -> 0 <= sec < 2 ^ 28 -> content (view s) d = Some l -> is_Some (l !! Z.to_nat sec) -> length bs = 512%nat ->
  exists s', ide_write d sec bs s = Ok (tt, s') /\ ready s' /\ quick s' /\ view s' = replace (view s) d (<[Z.to_nat sec := bs]> l).
Proof.
  intros Hr Hq (Hc & Hdev & Hn) Hsec Hl [x Hx] Hb.
  destruct (ready_split s _ Hr Hc) as (v & h & E & Ha & Hv & Hlk & Hw & Hst & Hh).
  rewrite (content_media _ _ _ Hh) in Hl.
  cut (exists s', ide_write d sec bs (at_chan s (d_channel d) v h) = Ok (tt, s') /\ ready s' /\ quick s' /\
    view s' = replace (view s) d (<[Z.to_nat sec := bs]> l)); [by rewrite <-E|].
  clear E. unfold ide_write. rewrite select_locked by (done || lia).
  mrun (run_issue _ _ Ha CMD_WRITE_SECTOR_RETRY (set_lock true v) (addressed (dev_no d) sec h) Hv).
  rewrite (command_write h _ sec l x) by done.
  set (h0 := with_phase (Busy _ _ _) false _). set (v1 := set_expecting true (set_lock true v)).
  set (h1 := with_phase (Data_out (dev_no d) sec) false h0).
  assert (Ht : transfers h1).
  { split_and!; [done| |done]. exists l. change (selected h1) with (selected (addressed (dev_no d) sec h)).
    by rewrite selected_addressed. }
  destruct (run_busy d _ v1 _ _ s h0 3000 0 Ha Hn eq_refl Hv eq_refl eq_refl Ht (Hq _ _ Hh 0%nat)) as [t Eb].
  unfold wait_while_busy. mrun Eb. cbn [negb]. fold h1.
  pose proof (around_console _ s t Ha) as Ha1.
  mrun (run_output _ _ v1 h1 (dev_no d) sec l bs Ha1 Hv eq_refl eq_refl Hl Hb).
  erewrite bind_ok by (eapply run_sema_down; done).
  set (h2 := with_phase Idle false _).
  unfold lock_release. mrun (run_chan _ _ Ha1 v1 h2). cbn [lock v1 set_expecting set_lock].
  rewrite (run_upd _ _ Ha1 (set_lock false) v1 h2).
  eexists. split; [reflexivity|]. split; [by apply ready_join|].
  split; [apply (quick_join s _ _ h); try done; by exists 2%nat|].
  by apply (view_replaced s d _ h).
Qed.

(** A sector beyond the end of the disk. *)
Lemma ide_read_beyond s d sec l :
  ready s -> drive d -> 0 <= sec < 2 ^ 28 -> content (view s) d = Some l -> l !! Z.to_nat sec = None ->
  ide_read d sec s = Err Kernel_panic.
Proof.
  intros Hr (Hc & Hdev & Hn) Hsec Hl Hx.
  destruct (ready_split s _ Hr Hc) as (v & h & E & Ha & Hv & Hlk & Hw & Hst & Hh).
  rewrite (content_media _ _ _ Hh) in Hl. rewrite E. clear E.
  unfold ide_read. rewrite select_locked by (done || lia).
  mrun (run_issue _ _ Ha CMD_READ_SECTOR_RETRY (set_lock true v) (addressed (dev_no d) sec h) Hv).
  rewrite (command_beyond h _ sec l) by (done || by left).
  erewrite bind_ok by (eapply run_sema_down; done).
  set (h1 := with_phase Idle false _).
  destruct (run_no_data d s _ (set_expecting true (set_lock true v)) h1 3000 0 Ha Hn eq_refl Hv) as [s' E]; [done| |].
  { exists l. change (selected h1) with (selected (addressed (dev_no d) sec h)). by rewrite selected_addressed. }
  unfold wait_while_busy. by rewrite (bind_ok _ _ _ _ _ E).
Qed.

Lemma ide_write_beyond s d sec l bs :
  ready s -> drive d -> 0 <= sec < 2 ^ 28 -> content (view s) d = Some l -> l !! Z.to_nat sec = None ->
  ide_write d sec bs s = Err Kernel_panic.
Proof.
  intros Hr (Hc & Hdev & Hn) Hsec Hl Hx.
  destruct (ready_split s _ Hr Hc) as (v & h & E & Ha & Hv & Hlk & Hw & Hst & Hh).
  rewrite (content_media _ _ _ Hh) in Hl. rewrite E. clear E.
  unfold ide_write. rewrite select_locked by (done || lia).
  mrun (run_issue _ _ Ha CMD_WRITE_SECTOR_RETRY (set_lock true v) (addressed (dev_no d) sec h) Hv).
  rewrite (command_beyond h _ sec l) by (done || by right).
  set (h0 := with_phase (Busy _ _ _) false _).
  destruct (run_abort d _ _ s (set_expecting true (set_lock true v)) h0 3000 0 Ha Hn eq_refl Hv eq_refl eq_refl eq_refl) as [s' E].
  { exists l. change (selected h0) with (selected (addressed (dev_no d) sec h)). by rewrite selected_addressed. }
  unfold wait_while_busy. by rewrite (bind_ok _ _ _ _ _ E).
Qed.

(** The next command of the drive's channel keeps it busy for all the rounds
    of the driver. *)
Definition slow (s : st) (d : ata_disk) : Prop := exists h, ports s !! d_channel d = Some h /\ (3000 <= h_delay h 0)%nat.

Lemma ide_write_slow s d sec l bs :
  ready s -> drive d -> 0 <= sec < 2 ^ 28 -> content (view s) d = Some l -> is_Some (l !! Z.to_nat sec) -> slow s d ->
  ide_write d sec bs s = Err Kernel_panic.
Proof.
  intros Hr (Hc & Hdev & Hn) Hsec Hl [x Hx] (h' & Hh' & Hd).
  destruct (ready_split s _ Hr Hc) as (v & h & E & Ha & Hv & Hlk & Hw & Hst & Hh).
  assert (h' = h) as -> by congruence.
  rewrite (content_media _ _ _ Hh) in Hl. rewrite E. clear E.
  unfold ide_write. rewrite select_locked by (done || lia).
  mrun (run_issue _ _ Ha CMD_WRITE_SECTOR_RETRY (set_lock true v) (addressed (dev_no d) sec h) Hv).
  rewrite (command_write h _ sec l x) by done.
  set (h0 := with_phase (Busy _ _ _) false _).
  destruct (run_slow d _ (set_expecting true (set_lock true v)) _ _ s h0 3000 0 Ha Hn eq_refl Hv eq_refl eq_refl) as [s' E]; [|done|].
  { exists l. change (selected h0) with (selected (addressed (dev_no d) sec h)). by rewrite selected_addressed. }
  unfold wait_while_busy. by rewrite (bind_ok _ _ _ _ _ E).
Qed.

(** ** Disks as arrays of sectors *)

Inductive request : Type := Read (d : ata_disk) (sec : Z) | Write (d : ata_disk) (sec : Z) (bs : list Z).

Definition disks : Type := list (list (option (list (list Z)))).

Definition spec_read (d : ata_disk) (sec : Z) : M disks (list Z) :=
  l <- gets_opt (fun D => content D d) ;;
  match l !! Z.to_nat sec with Some x => ret x | None => fail Kernel_panic end.

Definition spec_write (d : ata_disk) (sec : Z) (bs : list Z) : M disks unit :=
  l <- gets_opt (fun D => content D d) ;;
  match l !! Z.to_nat sec with Some _ => modify (fun D => replace D d (<[Z.to_nat sec := bs]> l)) | None => fail Kernel_panic end.

(** Requests in order; what the reads give. *)
Fixpoint requests {S} (rd : ata_disk -> Z -> M S (list Z)) (wr : ata_disk -> Z -> list Z -> M S unit) (rs : list request) : M S (list (list Z)) :=
  match rs with
  | [] => ret []
  | Read d sec :: rs' => x <- rd d sec ;; xs <- requests rd wr rs' ;; ret (x :: xs)
  | Write d sec bs :: rs' => wr d sec bs ;;; requests rd wr rs'
  end.

(** A request to a disk that is there. *)
Definition proper (D : disks) (r : request) : Prop :=
  match r with
  | Read d sec => drive d /\ 0 <= sec < 2 ^ 28 /\ is_Some (content D d)
  | Write d sec bs => drive d /\ 0 <= sec < 2 ^ 28 /\ is_Some (content D d) /\ length bs = 512%nat
  end.

Lemma content_replace D d d' l : is_Some (content D d') -> is_Some (content (replace D d l) d').
Proof.
  unfold content, replace. destruct (decide (d_channel d' = d_channel d)) as [->|]; [|by rewrite list_lookup_alter_ne].
  rewrite list_lookup_alter_eq. destruct (D !! d_channel d) as [ds|]; cbn; [|done].
  destruct (decide (Z.to_nat (dev_no d') = Z.to_nat (dev_no d))) as [->|]; [|by rewrite list_lookup_insert_ne].
  destruct (decide (Z.to_nat (dev_no d) < length ds)%nat); [by rewrite list_lookup_insert_eq|].
  by rewrite list_insert_ge by lia.
Qed.

Lemma proper_replace D d l rs : Forall (proper D) rs -> Forall (proper (replace D d l)) rs.
Proof. intros H. eapply Forall_impl; [exact H|]. intros []; cbn; intuition auto using content_replace. Qed.

(** C13: The driver refines the arrays: any requests to the disks of both channels
    give the bytes, the contents and the failures of plain arrays of sectors. *)
Theorem ide_refines_arrays s rs :
  ready s -> quick s -> Forall (proper (view s)) rs ->
  match requests spec_read spec_write rs (view s) with
  | Ok (xs, D) => exists s', requests ide_read ide_write rs s = Ok (xs, s') /\ ready s' /\ quick s' /\ view s' = D
  | Err e => requests ide_read ide_write rs s = Err e
  end.
Proof.
  revert s. induction rs as [|[d sec|d sec bs] rs IH]; intros s Hr Hq Hp; cbn [requests].
  - by exists s.
  - apply Forall_cons in Hp as [(Hd & Hs & [l Hl]) Hp].
    destruct (l !! Z.to_nat sec) as [x|] eqn:Hx.
    + destruct (ide_read_ok s d sec l x Hr Hd Hs Hl Hx) as (s1 & E & Hr1 & Hq1 & Hv1).
      rewrite (bind_ok _ _ _ x (view s)) by (unfold spec_read, bind, gets_opt; by rewrite Hl, Hx).
      specialize (IH s1 Hr1 (Hq1 Hq)). rewrite Hv1 in IH. specialize (IH Hp).
      rewrite (bind_ok _ _ _ _ _ E). unfold bind, ret.
      destruct (requests spec_read spec_write rs (view s)) as [[xs D]|e]; [|by rewrite IH].
      destruct IH as (s' & -> & ? & ? & ?). by exists s'.
    + rewrite (bind_err _ _ _ Kernel_panic) by (unfold spec_read, bind, gets_opt; by rewrite Hl, Hx).
      apply bind_err. by apply (ide_read_beyond s d sec l).
  - apply Forall_cons in Hp as [(Hd & Hs & [l Hl] & Hb) Hp].
    destruct (l !! Z.to_nat sec) as [x|] eqn:Hx.
    + destruct (ide_write_ok s d sec l bs Hr Hq Hd Hs Hl (mk_is_Some _ _ Hx) Hb) as (s1 & E & Hr1 & Hq1 & Hv1).
      rewrite (bind_ok _ _ _ tt (replace (view s) d (<[Z.to_nat sec := bs]> l)))
        by (unfold spec_write, bind, gets_opt; by rewrite Hl, Hx).
      rewrite (bind_ok _ _ _ _ _ E), <-Hv1. apply IH; [done..|]. rewrite Hv1. by apply proper_replace.
    + rewrite (bind_err _ _ _ Kernel_panic) by (unfold spec_write, bind, gets_opt; by rewrite Hl, Hx).
      apply bind_err. by apply (ide_write_beyond s d sec l).
Qed.

(** A disk that keeps a write command busy for 3000 rounds stops the kernel. *)
Theorem ide_write_gives_up s d sec bs :
  ready s -> proper (view s) (Write d sec bs) -> slow s d -> ide_write d sec bs s = Err Kernel_panic.
Proof.
  intros Hr (Hd & Hs & [l Hl] & Hb) Hw.
  destruct (l !! Z.to_nat sec) as [x|] eqn:Hx; [by apply (ide_write_slow s d sec l)|by apply (ide_write_beyond s d sec l)].
Qed.

(** ** A machine *)

Module Sample.

Definition sector (x : Z) : list Z := replicate 512 x.

Definition hw_of (a b : option (list (list Z))) (n : nat) : hw := mkHw [a; b] [] 0 0 0 0 0 Idle false (fun _ => n).

Definition chan_of (c : nat) : channel := mkChannel (str "ide0") (base c) (vec c) false false 0 [].

Definition machine (n : nat) : st :=
  mkSt [chan_of 0; chan_of 1] [hw_of (Some [sector 1; sector 2]) None n; hw_of None (Some [sector 3]) n] [] true.

Definition hda : ata_disk := mkAta (str "hda") 0 0 true.
Definition hdd : ata_disk := mkAta (str "hdd") 1 1 true.

Lemma machine_ready n : ready (machine n).
Proof.
  constructor; try done.
  - intros [|[|k]] v; [intros [= <-]; by vm_compute..|done].
  - intros [|[|k]] h; [intros [= <-]; by vm_compute..|done].
Qed.

Lemma machine_quick n : (n + 2 <= 3000)%nat -> quick (machine n).
Proof. intros Hn [|[|k]] h; [intros [= <-] ?; done..|done]. Qed.

Lemma hda_drive : drive hda.
Proof. split_and!; [by cbn; lia|by left|]. exists 0. split; [lia|done]. Qed.

Lemma hdd_drive : drive hdd.
Proof. split_and!; [by cbn; lia|by right|]. exists 3. split; [lia|done]. Qed.

Lemma read_proper D d sec l : drive d -> 0 <= sec < 2 ^ 28 -> content D d = Some l -> proper D (Read d sec).
Proof. intros Hd Hs Hl. by refine (conj Hd (conj Hs (mk_is_Some _ _ Hl))). Qed.

Lemma write_proper D d sec bs l :
  drive d -> 0 <= sec < 2 ^ 28 -> content D d = Some l -> length bs = 512%nat -> proper D (Write d sec bs).
Proof. intros Hd Hs Hl Hb. by refine (conj Hd (conj Hs (conj (mk_is_Some _ _ Hl) Hb))). Qed.

Lemma hda_content n : content (view (machine n)) hda = Some [sector 1; sector 2].
Proof. done. Qed.

Lemma hdd_content n : content (view (machine n)) hdd = Some [sector 3].
Proof. done. Qed.

#[local] Hint Resolve hda_drive hdd_drive hda_content hdd_content : core.

Lemma hda_read n sec : 0 <= sec < 2 ^ 28 -> proper (view (machine n)) (Read hda sec).
Proof. intros. by eapply read_proper. Qed.

Lemma hdd_read n sec : 0 <= sec < 2 ^ 28 -> proper (view (machine n)) (Read hdd sec).
Proof. intros. by eapply read_proper. Qed.

Lemma hda_write n sec x : 0 <= sec < 2 ^ 28 -> proper (view (machine n)) (Write hda sec (sector x)).
Proof. intros. by eapply write_proper. Qed.

End Sample.
Import Sample.

(** The witness of [ide_refines_arrays]: both channels, a sector that is
    overwritten and one beyond the end. *)
Lemma ide_refines_arrays_witness :
  (exists s', requests ide_read ide_write [Write hda 1 (sector 7); Read hda 1; Read hda 0; Read hdd 0] (machine 3) =
     Ok ([sector 7; sector 1; sector 3], s')) /\
  requests ide_read ide_write [Read hda 2] (machine 3) = Err Kernel_panic.
Proof.
  split.
  - pose proof (ide_refines_arrays (machine 3) [Write hda 1 (sector 7); Read hda 1; Read hda 0; Read hdd 0]
      (machine_ready 3) (machine_quick 3 ltac:(lia))) as R.
    destruct R as (s' & E & _); [|by exists s'].
    repeat apply Forall_cons_2; [by apply hda_write|by apply hda_read..|by apply hdd_read|apply Forall_nil_2].
  - refine (ide_refines_arrays (machine 3) [Read hda 2] (machine_ready 3) (machine_quick 3 ltac:(lia)) _).
    apply Forall_cons_2; [by apply hda_read|apply Forall_nil_2].
Defined.

Lemma ide_write_gives_up_witness : ide_write hda 1 (sector 7) (machine 3000) = Err Kernel_panic.
Proof.
  apply (ide_write_gives_up (machine 3000) hda 1 (sector 7) (machine_ready 3000)); [by apply hda_write|].
  exists (hw_of (Some [sector 1; sector 2]) None 3000). split; [done|cbn; lia].
Defined.

(** [ide_init] on hardware with a disk of 16 sectors as device 0 of the first
    channel: it is found, with its model and serial number, and the channel is
    at rest. *)
Definition answer : list Z :=
  replicate 20 0 ++ str "1234" ++ replicate 30 0 ++ str "EQUM  " ++ replicate 60 0 ++ [16; 0; 0; 0] ++ replicate 388 0.

Definition powered : st :=
  mkSt (replicate 2 (mkChannel [] 0 0 false false 0 []))
    [mkHw [Some (replicate 16 (sector 9)); None] [answer] 0 0 0 0 0 Idle false (fun _ => 3%nat); hw_of None None 3] [] true.

Definition resting (s : st) (c : nat) : bool :=
  match channels s !! c, ports s !! c with
  | Some v, Some h => negb (lock v) && (completion_wait v =? 0) && match h_phase h with Idle => negb (h_intrq h) | _ => false end
  | _, _ => false
  end.

Example ide_init_finds :
  match ide_init powered with
  | Ok (r, s) => r = ([(0%nat, 16, str "model " ++ quote ++ str "2143" ++ quote ++ str ", serial " ++ quote ++ str "QEMU" ++ quote)], []) /\
      resting s 0 = true /\ resting s 1 = true /\ console s = []
  | Err _ => False
  end.
Proof. by vm_compute. Qed.

End IdeProps.
