(* ===== verification/Console.v ===== *)
(** * The console of the kernel (src/src/lib/kernel/console.c)

    Printing under a lock that its holder can take again.  The functions take
    the calling thread; [acquire_console] says whether the lock was there or
    the thread has to wait.  A machine lets threads take the steps of their
    calls in any order, with interrupt handlers that print in between; it
    prints as if the calls were atomic. *)

From Stdlib Require Import Ascii String.
From S2P Require Import Prelude StdLib Stdio.

Module Console.

(** ** State *)

Record st : Type := mkSt {
  use_console_lock : bool;
  console_lock_depth : Z;
  holder : option nat;  (* the holder of [console_lock] *)
  intr_context : bool;
  write_cnt : Z;
  shown : list (option nat * Z)  (* what went to serial port and display, with the thread; [None] for a handler *)
}.

Definition set_use_console_lock v s := mkSt v (console_lock_depth s) (holder s) (intr_context s) (write_cnt s) (shown s).
Definition set_depth v s := mkSt (use_console_lock s) v (holder s) (intr_context s) (write_cnt s) (shown s).
Definition set_holder v s := mkSt (use_console_lock s) (console_lock_depth s) v (intr_context s) (write_cnt s) (shown s).
Definition set_context v s := mkSt (use_console_lock s) (console_lock_depth s) (holder s) v (write_cnt s) (shown s).
Definition set_shown n v s := mkSt (use_console_lock s) (console_lock_depth s) (holder s) (intr_context s) n v.

(** ** Functions *)

Definition console_init : M st unit := modify (set_holder None) ;;; modify (set_use_console_lock true).

Definition console_panic : M st unit := modify (set_use_console_lock false).

Definition held_by (t : nat) : M st bool := gets (fun s => bool_decide (holder s = Some t)).

(** [lock_acquire]: false when another thread has the lock. *)
Definition lock_acquire (t : nat) : M st bool :=
  c <- gets intr_context ;; ASSERT (negb c) ;;;
  h <- gets holder ;;
  match h with
  | None => modify (set_holder (Some t)) ;;; ret true
  | Some u => ASSERT (negb (bool_decide (u = t))) ;;; ret false
  end.

Definition lock_release (t : nat) : M st unit :=
  held <- held_by t ;; ASSERT held ;;; modify (set_holder None).

Definition acquire_console (t : nat) : M st bool :=
  c <- gets intr_context ;; u <- gets use_console_lock ;;
  if negb c && u then
    held <- held_by t ;;
    if (held : bool) then modify (fun s => set_depth (s32 (console_lock_depth s + 1)) s) ;;; ret true
    else lock_acquire t
  else ret true.

Definition release_console (t : nat) : M st unit :=
  c <- gets intr_context ;; u <- gets use_console_lock ;;
  if negb c && u then
    d <- gets console_lock_depth ;;
    if d >? 0 then modify (fun s => set_depth (s32 (console_lock_depth s - 1)) s)
    else lock_release t
  else ret tt.

Definition console_locked_by_current_thread (t : nat) : M st bool :=
  c <- gets intr_context ;; u <- gets use_console_lock ;; held <- held_by t ;;
  ret (c || negb u || held).

(** [serial_putc] and [vga_putc] show the character. *)
Definition putchar_have_lock (t : nat) (c : Z) : M st unit :=
  locked <- console_locked_by_current_thread t ;;
  ASSERT locked ;;;
  modify (fun s => set_shown (s64 (write_cnt s + 1)) (shown s ++ [(if intr_context s then None else Some t, u8 c)]) s).

Fixpoint put_all (t : nat) (text : list Z) : M st unit :=
  match text with [] => ret tt | c :: text' => putchar_have_lock t c ;;; put_all t text' end.

(** A call that prints; false when the thread has to wait for the lock. *)
Definition printing (t : nat) (text : list Z) : M st bool :=
  ok <- acquire_console t ;;
  if (ok : bool) then put_all t text ;;; release_console t ;;; ret true else ret false.

(** The functions, with what they print and return. *)
Definition vprintf (t : nat) (fuel : nat) (format : list Z) (args : list Stdio.arg) : M st (option Z) :=
  match Stdio.printf fuel format args with
  | Err e => fail e
  | Ok text => ok <- printing t text ;; ret (if (ok : bool) then Some (s32 (Z.of_nat (length text))) else None)
  end.

Definition puts (t : nat) (s : list Z) : M st (option Z) :=
  ok <- printing t (s ++ [10]) ;; ret (if (ok : bool) then Some 0 else None).

Definition putbuf (t : nat) (buffer : list Z) : M st (option unit) :=
  ok <- printing t buffer ;; ret (if (ok : bool) then Some tt else None).

Definition putchar (t : nat) (c : Z) : M st (option Z) :=
  ok <- printing t [u8 c] ;; ret (if (ok : bool) then Some c else None).

(** ** Threads that print at the same time *)

(** The steps of a call; a call can start inside another of the same thread,
    between two of its characters. *)
Inductive op : Type := Acquire | Put (c : Z) | Release.

Definition exec (t : nat) (o : op) : M st bool :=
  match o with
  | Acquire => acquire_console t
  | Put c => putchar_have_lock t c ;;; ret true
  | Release => release_console t ;;; ret true
  end.

(** The steps of a thread from nesting [d] on: its calls begin and end. *)
Fixpoint closes (d : nat) (l : list op) : Prop :=
  match l with
  | [] => d = 0%nat
  | Acquire :: l' => closes (S d) l'
  | Put _ :: l' => (0 < d)%nat /\ closes d l'
  | Release :: l' => match d with O => False | S d' => closes d' l' end
  end.

(** An interrupt handler prints in the middle of thread [t]. *)
Definition handler (t : nat) (text : list Z) : M st unit :=
  modify (set_context true) ;;; printing t text ;;; modify (set_context false).

Definition config : Type := st * list (list op).

Inductive step : config -> config -> Prop :=
| step_op t o rest s s' ps :
    ps !! t = Some (o :: rest) -> exec t o s = Ok (true, s') -> step (s, ps) (s', <[t := rest]> ps)
| step_handler t text s s' ps :
    handler t text s = Ok (tt, s') -> step (s, ps) (s', ps).

(** The texts of the outermost calls, from nesting [d] on, of which [acc] is
    already out. *)
Fixpoint calls_from (d : nat) (acc : list Z) (l : list op) : list (list Z) :=
  match l with
  | [] => []
  | Acquire :: l' => calls_from (S d) (match d with O => [] | _ => acc end) l'
  | Put c :: l' => calls_from d (acc ++ [u8 c]) l'
  | Release :: l' => match d with S (S d') => calls_from (S d') acc l' | _ => acc :: calls_from 0 [] l' end
  end.

Definition calls (l : list op) : list (list Z) := calls_from 0 [] l.

(** What the threads printed, and what one thread contributes to a schedule
    of whole calls. *)
Definition by_threads (out : list (option nat * Z)) : list Z :=
  omap (fun x => match x.1 with Some _ => Some x.2 | None => None end) out.

Definition texts (t : nat) (sched : list (nat * list Z)) : list (list Z) :=
  omap (fun x => if decide (x.1 = t) then Some x.2 else None) sched.

Definition start : st := mkSt false 0 None false 0 [].

(** ** Rules for the steps *)

Ltac run_console := unfold acquire_console, release_console, console_locked_by_current_thread, lock_acquire, lock_release,
  held_by, bind, gets, modify, ASSERT, ret; cbn beta iota zeta.

Lemma acquire_free t s :
  use_console_lock s = true -> intr_context s = false -> holder s = None ->
  exec t Acquire s = Ok (true, set_holder (Some t) s).
Proof. intros Hu Hc Hh. cbn [exec]. run_console. rewrite Hu, Hc. cbn. rewrite Hh, bool_decide_eq_false_2 by done. cbn. rewrite Hc. cbn. by rewrite Hh. Qed.

Lemma acquire_again t s :
  use_console_lock s = true -> intr_context s = false -> holder s = Some t -> -1 <= console_lock_depth s < 2147483647 ->
  exec t Acquire s = Ok (true, set_depth (console_lock_depth s + 1) s).
Proof.
  intros Hu Hc Hh Hd. cbn [exec]. run_console. rewrite Hu, Hc. cbn. rewrite Hh, bool_decide_eq_true_2 by done.
  cbn. by rewrite s32_id by lia.
Qed.

Lemma acquire_waits t u s :
  use_console_lock s = true -> intr_context s = false -> holder s = Some u -> u <> t ->
  exec t Acquire s = Ok (false, s).
Proof.
  intros Hu Hc Hh Hn. cbn [exec]. run_console. rewrite Hu, Hc. cbn.
  rewrite Hh, bool_decide_eq_false_2 by congruence. cbn. rewrite Hc. cbn. rewrite Hh. cbn. by rewrite bool_decide_eq_false_2 by congruence.
Qed.

(** The state after a character of [w]. *)
Definition out (w : option nat) (c : Z) (s : st) : st := set_shown (s64 (write_cnt s + 1)) (shown s ++ [(w, u8 c)]) s.

Lemma put_run t c s :
  intr_context s = true \/ holder s = Some t ->
  putchar_have_lock t c s = Ok (tt, out (if intr_context s then None else Some t) c s).
Proof.
  intros H. unfold putchar_have_lock. run_console.
  destruct (intr_context s) eqn:E; [cbn; by rewrite E|]. destruct H as [H|H]; [done|].
  cbn. destruct (use_console_lock s); cbn; rewrite ?H, ?bool_decide_eq_true_2 by done; cbn; by rewrite E.
Qed.

Lemma release_outer t s :
  use_console_lock s = true -> intr_context s = false -> holder s = Some t -> console_lock_depth s = 0 ->
  exec t Release s = Ok (true, set_holder None s).
Proof.
  intros Hu Hc Hh Hd. cbn [exec]. run_console. rewrite Hu, Hc. cbn. rewrite Hd. cbn.
  by rewrite Hh, bool_decide_eq_true_2 by done.
Qed.

Lemma release_inner t s :
  use_console_lock s = true -> intr_context s = false -> 0 < console_lock_depth s < 2147483648 ->
  exec t Release s = Ok (true, set_depth (console_lock_depth s - 1) s).
Proof.
  intros Hu Hc Hd. cbn [exec]. run_console. rewrite Hu, Hc. cbn. rewrite (proj2 (Z.gtb_lt _ _)) by lia.
  cbn. by rewrite s32_id by lia.
Qed.

Fixpoint outs (w : option nat) (text : list Z) (s : st) : st :=
  match text with [] => s | c :: text' => outs w text' (out w c s) end.

Lemma put_all_handler t text s : intr_context s = true -> put_all t text s = Ok (tt, outs None text s).
Proof.
  revert s. induction text as [|c text IH]; intros s Hc; [done|]. cbn [put_all outs].
  mrun (put_run t c s (or_introl Hc)). rewrite Hc. by apply IH.
Qed.

(** An interrupt handler prints without the lock. *)
Lemma handler_run t text s : intr_context s = false -> handler t text s = Ok (tt, outs None text s).
Proof.
  intros Hc. unfold handler. rewrite bind_modify_l.
  assert (E : forall x s1, set_context x (outs None text s1) = outs None text (set_context x s1)).
  { intros x. induction text as [|c text' IH]; intros s1; [done|]. cbn [outs]. by rewrite IH. }
  assert (Ep : printing t text (set_context true s) = Ok (true, outs None text (set_context true s))).
  { unfold printing. rewrite (bind_ok _ _ _ true (set_context true s)) by done.
    rewrite (bind_ok _ _ _ _ _ (put_all_handler t text (set_context true s) eq_refl)).
    run_console. rewrite <-E. done. }
  rewrite (bind_ok _ _ _ _ _ Ep). unfold modify. rewrite E. by destruct s; cbn in Hc; subst.
Qed.

Lemma outs_shown w text : forall s, shown (outs w text s) = shown s ++ map (fun c => (w, u8 c)) text /\ holder (outs w text s) = holder s /\
  console_lock_depth (outs w text s) = console_lock_depth s.
Proof.
  induction text as [|c text IH]; intros s; cbn [outs map]; [by rewrite app_nil_r|]. destruct (IH (out w c s)) as (E & -> & ->).
  split; [|done]. rewrite E. cbn. by rewrite <- app_assoc.
Qed.

(** The steps of a thread, until it has to wait. *)
Fixpoint execs (t : nat) (l : list op) : M st bool :=
  match l with [] => ret true | o :: l' => ok <- exec t o ;; if (ok : bool) then execs t l' else ret false end.

(** A call of the functions is the steps of a call. *)
Lemma printing_execs t text s : printing t text s = execs t (Acquire :: map Put text ++ [Release]) s.
Proof.
  unfold printing. cbn [execs exec].
  assert (H : forall l s1, (put_all t l ;;; release_console t ;;; ret true) s1 = execs t (map Put l ++ [Release]) s1).
  { induction l as [|c l IH]; intros s1; cbn [put_all map app execs exec]; rewrite !bind_bind.
    - rewrite bind_ret_l. destruct (release_console t s1) as [[[] s2]|e] eqn:E.
      + by rewrite !(bind_ok _ _ _ _ _ E).
      + by rewrite !(bind_err _ _ _ _ E).
    - destruct (putchar_have_lock t c s1) as [[[] s2]|e] eqn:E.
      + rewrite !(bind_ok _ _ _ _ _ E), bind_ret_l. apply IH.
      + by rewrite !(bind_err _ _ _ _ E). }
  destruct (acquire_console t s) as [[[] s1]|e] eqn:E.
  - rewrite !(bind_ok _ _ _ _ _ E). apply H.
  - by rewrite !(bind_ok _ _ _ _ _ E).
  - by rewrite !(bind_err _ _ _ _ E).
Qed.

(** ** The invariant *)

(** [sched] has the calls that have ended, in their order; [partial] is what
    the holder of the lock has printed since it took it. *)
Record inv (progs : list (list op)) (c : config) (sched : list (nat * list Z)) (partial : list Z) : Prop := mkInv {
  in_use : use_console_lock c.1 = true;
  in_context : intr_context c.1 = false;
  in_length : length c.2 = length progs;
  in_count : write_cnt c.1 = s64 (Z.of_nat (length (shown c.1)));
  in_shown : by_threads (shown c.1) = concat (map snd sched) ++ partial;
  in_holder : match holder c.1 with
              | None => console_lock_depth c.1 = 0 /\ partial = []
              | Some h => 0 <= console_lock_depth c.1 /\ (h < length progs)%nat
              end;
  in_threads : forall t p rest, progs !! t = Some p -> c.2 !! t = Some rest ->
    (length rest <= length p)%nat /\
    if decide (holder c.1 = Some t)
    then closes (S (Z.to_nat (console_lock_depth c.1))) rest /\
         calls p = texts t sched ++ calls_from (S (Z.to_nat (console_lock_depth c.1))) partial rest
    else closes 0 rest /\ calls p = texts t sched ++ calls rest
}.

Lemma closes_length d l : closes d l -> (d <= length l)%nat.
Proof.
  revert d. induction l as [|[|c|] l IH]; intros d; cbn.
  - by intros ->.
  - intros H%IH. lia.
  - intros [_ H%IH]. lia.
  - destruct d as [|d]; [done|]. intros H%IH. lia.
Qed.

Lemma by_threads_out w c s : by_threads (shown (out w c s)) = by_threads (shown s) ++ match w with Some _ => [u8 c] | None => [] end.
Proof. cbn. unfold by_threads. rewrite omap_app. by destruct w. Qed.

Lemma texts_app t sched u x : texts t (sched ++ [(u, x)]) = texts t sched ++ (if decide (u = t) then [x] else []).
Proof. unfold texts. rewrite omap_app. cbn. by case_decide. Qed.

Lemma s64_succ n : s64 (s64 n + 1) = s64 (n + 1).
Proof.
  unfold s64. set (M := 18446744073709551616). set (H := 9223372036854775808). f_equal.
  replace ((n + H) mod M - H + 1 + H) with ((n + H) mod M + 1) by lia.
  rewrite Z.add_mod_idemp_l by done. f_equal. lia.
Qed.

Lemma count_out w c s :
  write_cnt s = s64 (Z.of_nat (length (shown s))) -> write_cnt (out w c s) = s64 (Z.of_nat (length (shown (out w c s)))).
Proof. intros H. cbn. rewrite H, s64_succ, length_app. f_equal. cbn. lia. Qed.

Section Steps.
Context (progs : list (list op)) (Hshort : forall t p, progs !! t = Some p -> Z.of_nat (length p) < 2147483648).

Lemma other_threads (ps : list (list op)) t rest (Q : nat -> list op -> list op -> Prop) :
  (forall p, progs !! t = Some p -> Q t p rest) ->
  (forall u p r, u <> t -> progs !! u = Some p -> ps !! u = Some r -> Q u p r) ->
  forall u p r, progs !! u = Some p -> <[t := rest]> ps !! u = Some r -> Q u p r.
Proof.
  intros Ht Ho u p r Hp Hr. destruct (decide (u = t)) as [->|Hn].
  - apply list_lookup_insert_Some in Hr as [(_ & <- & _)|[? _]]; [by apply Ht|done].
  - rewrite list_lookup_insert_ne in Hr by done. by apply Ho.
Qed.

Lemma acquire_step s ps sched partial t rest s' :
  inv progs (s, ps) sched partial -> ps !! t = Some (Acquire :: rest) -> exec t Acquire s = Ok (true, s') ->
  inv progs (s', <[t := rest]> ps) sched partial.
Proof.
  intros [Hu Hc Hl Hn Hs Hh Ht] Hps. cbn [fst snd] in *.
  destruct (lookup_lt_is_Some_2 progs t) as [p Hp]; [rewrite <-Hl; by eapply lookup_lt_Some|].
  destruct (Ht t p _ Hp Hps) as [Hlen Htt].
  destruct (holder s) as [h|] eqn:Eh; [destruct (decide (h = t)) as [->|Hne]|].
  - rewrite decide_True in Htt by done. destruct Htt as [Hcl Hca], Hh as [Hd Hb].
    pose proof (closes_length _ _ Hcl) as Hcl'. pose proof (Hshort t p Hp).
    rewrite acquire_again by (done || lia). intros [= <-].
    constructor; cbn; rewrite ?length_insert, ?Eh; try done; [lia|].
    apply other_threads.
    + intros p' Hp'. assert (p' = p) as -> by congruence. rewrite decide_True by done. cbn in Hlen, Hcl, Hca.
      replace (Z.to_nat (console_lock_depth s + 1)) with (S (Z.to_nat (console_lock_depth s))) by lia.
      split; [lia|done].
    + intros u p' r Hne Hp' Hr. specialize (Ht u p' r Hp' Hr). rewrite !decide_False in * by congruence. done.
  - rewrite (acquire_waits t h) by done. done.
  - rewrite decide_False in Htt by done. destruct Htt as [Hcl Hca], Hh as [Hd ->].
    rewrite acquire_free by done. intros [= <-].
    constructor; cbn; rewrite ?length_insert; try done; [split; [lia|by eapply lookup_lt_Some]|].
    rewrite Hd. apply other_threads.
    + intros p' Hp'. assert (p' = p) as -> by congruence. rewrite decide_True by done. cbn in Hlen, Hcl, Hca.
      split; [lia|done].
    + intros u p' r Hne Hp' Hr. specialize (Ht u p' r Hp' Hr). rewrite !decide_False in * by congruence. done.
Qed.

Lemma holds_lock s ps sched partial t o rest :
  inv progs (s, ps) sched partial -> ps !! t = Some (o :: rest) -> o <> Acquire -> holder s = Some t.
Proof.
  intros [Hu Hc Hl Hn Hs Hh Ht] Hps Ho. cbn [fst snd] in *.
  destruct (lookup_lt_is_Some_2 progs t) as [p Hp]; [rewrite <-Hl; by eapply lookup_lt_Some|].
  destruct (Ht t p _ Hp Hps) as [_ Htt]. case_decide; [done|]. destruct o; cbn in Htt; destruct Htt as [Hf _]; [done|lia|done].
Qed.

Lemma put_step s ps sched partial t c rest s' :
  inv progs (s, ps) sched partial -> ps !! t = Some (Put c :: rest) -> exec t (Put c) s = Ok (true, s') ->
  inv progs (s', <[t := rest]> ps) sched (partial ++ [u8 c]).
Proof.
  intros Hi Hps. pose proof (holds_lock _ _ _ _ _ _ _ Hi Hps ltac:(done)) as Eh.
  destruct Hi as [Hu Hc Hl Hn Hs Hh Ht]. cbn [fst snd] in *. rewrite Eh in Hh.
  cbn [exec]. rewrite (bind_ok _ _ _ _ _ (put_run t c s (or_intror Eh))). intros [= <-].
  destruct (lookup_lt_is_Some_2 progs t) as [p Hp]; [by apply Hh|]. destruct (Ht t p _ Hp Hps) as [Hlen Htt].
  constructor; cbn [fst snd]; rewrite ?length_insert; try done.
  - by apply count_out.
  - rewrite by_threads_out, Hs. cbn. rewrite Hc. by rewrite app_assoc.
  - cbn. by rewrite Eh.
  - apply other_threads.
    + intros p' Hp'. assert (p' = p) as -> by congruence. cbn [out set_shown holder console_lock_depth].
      rewrite decide_True in Htt |- * by done. destruct Htt as [[_ Hcl] Hca]. cbn in Hlen, Hca. split; [lia|done].
    + intros u p' r Hne Hp' Hr. specialize (Ht u p' r Hp' Hr). cbn [out set_shown holder console_lock_depth].
      rewrite !decide_False in * by congruence. done.
Qed.

Lemma release_step s ps sched partial t rest s' :
  inv progs (s, ps) sched partial -> ps !! t = Some (Release :: rest) -> exec t Release s = Ok (true, s') ->
  exists sched' partial', inv progs (s', <[t := rest]> ps) sched' partial'.
Proof.
  intros Hi Hps. pose proof (holds_lock _ _ _ _ _ _ _ Hi Hps ltac:(done)) as Eh.
  destruct Hi as [Hu Hc Hl Hn Hs Hh Ht]. cbn [fst snd] in *. rewrite Eh in Hh. destruct Hh as [Hd Hb].
  destruct (lookup_lt_is_Some_2 progs t) as [p Hp]; [done|]. destruct (Ht t p _ Hp Hps) as [Hlen Htt].
  rewrite decide_True in Htt by done. destruct Htt as [Hcl Hca].
  pose proof (closes_length _ _ Hcl) as Hcl'. pose proof (Hshort t p Hp). cbn [closes length calls_from] in *.
  destruct (decide (console_lock_depth s = 0)) as [E0|Hpos].
  - rewrite release_outer by done. intros [= <-]. exists (sched ++ [(t, partial)]), []. rewrite E0 in Hcl, Hca. cbn in Hcl, Hca.
    constructor; cbn [fst snd]; rewrite ?length_insert; try done.
    + change (by_threads (shown (set_holder None s))) with (by_threads (shown s)).
      rewrite Hs, map_app, concat_app. cbn. by rewrite !app_nil_r.
    + apply other_threads.
      * intros p' Hp'. assert (p' = p) as -> by congruence. cbn [set_holder holder]. rewrite decide_False by done.
        rewrite texts_app, decide_True, <-app_assoc by done. split; [lia|done].
      * intros u p' r Hne Hp' Hr. specialize (Ht u p' r Hp' Hr). cbn [set_holder holder].
        rewrite decide_False in Ht by congruence. rewrite decide_False by done.
        by rewrite texts_app, decide_False, app_nil_r by congruence.
  - rewrite release_inner by (done || lia). intros [= <-]. exists sched, partial.
    destruct (Z.to_nat (console_lock_depth s)) as [|d] eqn:Ed; [lia|].
    constructor; cbn [fst snd]; rewrite ?length_insert; try done.
    + cbn. rewrite Eh. split; [lia|done].
    + apply other_threads.
      * intros p' Hp'. assert (p' = p) as -> by congruence. cbn [set_depth holder console_lock_depth].
        rewrite decide_True by done. replace (Z.to_nat (console_lock_depth s - 1)) with d by lia. split; [lia|done].
      * intros u p' r Hne Hp' Hr. specialize (Ht u p' r Hp' Hr). cbn [set_depth holder].
        rewrite !decide_False in * by congruence. done.
Qed.

Lemma outs_facts text : forall s,
  let s' := outs None text s in
  use_console_lock s' = use_console_lock s /\ console_lock_depth s' = console_lock_depth s /\ holder s' = holder s /\
  intr_context s' = intr_context s /\ by_threads (shown s') = by_threads (shown s) /\
  (write_cnt s = s64 (Z.of_nat (length (shown s))) -> write_cnt s' = s64 (Z.of_nat (length (shown s')))).
Proof.
  induction text as [|c text IH]; intros s; [done|]. cbn [outs]. destruct (IH (out None c s)) as (-> & -> & -> & -> & -> & H).
  split_and!; try done; [by rewrite by_threads_out, app_nil_r|]. intros Hn. by apply H, count_out.
Qed.

Lemma printing_step c c' sched partial :
  inv progs c sched partial -> step c c' -> exists sched' partial', inv progs c' sched' partial'.
Proof.
  intros Hi Hst. destruct Hst as [t [|x|] rest s s' ps Hps He|t text s s' ps He].
  - exists sched, partial. by eapply acquire_step.
  - exists sched, (partial ++ [u8 x]). by eapply put_step.
  - by eapply release_step.
  - exists sched, partial. rewrite handler_run in He by apply Hi. injection He as <-.
    destruct Hi as [Hu Hc Hl Hn Hs Hh Ht]. cbn [fst snd] in *.
    destruct (outs_facts text s) as (E1 & E2 & E3 & E4 & E5 & E6).
    constructor; cbn [fst snd]; rewrite ?E1, ?E2, ?E3, ?E4, ?E5; auto.
Qed.

Lemma reach_inv c c' sched partial :
  inv progs c sched partial -> rtc step c c' -> exists sched' partial', inv progs c' sched' partial'.
Proof.
  intros Hi Hr. revert sched partial Hi. induction Hr as [|c1 c2 c3 Hst _ IH]; intros sched partial Hi; [by eexists _, _|].
  destruct (printing_step _ _ _ _ Hi Hst) as (sched' & partial' & Hi'). by eapply IH.
Qed.

End Steps.

(** ** Printing is atomic *)

(** Programs of threads that are whole calls. *)
Definition whole (progs : list (list op)) : Prop :=
  forall t p, progs !! t = Some p -> closes 0 p /\ Z.of_nat (length p) < 2147483648.

Lemma fresh_inv progs s0 : whole progs -> console_init start = Ok (tt, s0) -> inv progs (s0, progs) [] [].
Proof.
  intros Hw [= <-]. constructor; cbn; try done. intros t p rest Hp Hr. assert (rest = p) as -> by congruence.
  split; [lia|]. split; [by apply (Hw t)|done].
Qed.

Lemma calls_next d l : forall acc, closes (S d) l -> exists y more, calls_from (S d) acc l = (acc ++ y) :: more.
Proof.
  revert d. induction l as [|[|c|] l IH]; intros d acc; cbn [closes calls_from]; [done| | |].
  - apply IH.
  - intros [_ H]. destruct (IH d (acc ++ [u8 c]) H) as (y & more & ->). exists ([u8 c] ++ y), more. by rewrite app_assoc.
  - destruct d as [|d]; [|by apply IH]. intros _. exists [], (calls_from 0 [] l). by rewrite app_nil_r.
Qed.

Lemma closes_step d l : closes (S d) l -> exists o l', l = o :: l'.
Proof. destruct l; [done|by eauto]. Qed.

(** What the thread whose turn it is finds. *)
Lemma exec_result progs s ps sched partial t o rest :
  whole progs -> inv progs (s, ps) sched partial -> ps !! t = Some (o :: rest) ->
  exists s', exec t o s = Ok (bool_decide (holder s = None \/ holder s = Some t), s').
Proof.
  intros Hw Hi Hps. pose proof Hi as [Hu Hc Hl Hn Hs Hh Ht]. cbn [fst snd] in *.
  destruct (lookup_lt_is_Some_2 progs t) as [p Hp]; [rewrite <-Hl; by eapply lookup_lt_Some|].
  destruct (Hw t p Hp) as [_ Hb]. destruct (Ht t p _ Hp Hps) as [Hlen Htt].
  destruct o as [|c|].
  - destruct (holder s) as [h|] eqn:Eh; [destruct (decide (h = t)) as [->|Hne]|].
    + rewrite decide_True in Htt by done. destruct Htt as [Hcl _]. pose proof (closes_length _ _ Hcl).
      rewrite acquire_again, bool_decide_eq_true_2 by (done || lia || by right). by eexists.
    + rewrite (acquire_waits t h), bool_decide_eq_false_2 by (done || by intros [?|[= ?]]). by eexists.
    + rewrite acquire_free, bool_decide_eq_true_2 by (done || by left). by eexists.
  - pose proof (holds_lock progs _ _ _ _ _ _ _ Hi Hps ltac:(done)) as Eh.
    cbn [exec]. rewrite (bind_ok _ _ _ _ _ (put_run t c s (or_intror Eh))), bool_decide_eq_true_2 by by right. by eexists.
  - pose proof (holds_lock progs _ _ _ _ _ _ _ Hi Hps ltac:(done)) as Eh.
    rewrite decide_True in Htt by done. destruct Htt as [Hcl _]. pose proof (closes_length _ _ Hcl) as Hle. rewrite Eh in Hh.
    rewrite bool_decide_eq_true_2 by by right. cbn [length] in *.
    destruct (decide (console_lock_depth s = 0)); [rewrite release_outer by done|rewrite release_inner by (done || lia)]; by eexists.
Qed.

(** C15: However the calls of threads and the output of interrupt handlers are
    interleaved: no assertion of the console fails, neither in a thread nor in
    an interrupt handler that prints, whichever thread it interrupts; a handler
    prints its text without the lock and leaves the lock alone; some thread can
    go on until all are done; and what the threads print is the texts of whole
    outermost calls one after the other, those of a thread in its order, and
    then a part of the call that has the lock. *)
Theorem console_calls_atomic progs s0 s ps :
  whole progs -> console_init start = Ok (tt, s0) -> rtc step (s0, progs) (s, ps) ->
  (forall t o rest, ps !! t = Some (o :: rest) -> exists b s', exec t o s = Ok (b, s')) /\
  (forall t text, exists s', handler t text s = Ok (tt, s') /\ shown s' = shown s ++ map (fun c => (None, u8 c)) text /\
    holder s' = holder s /\ console_lock_depth s' = console_lock_depth s) /\
  (Forall (fun l => l = []) ps \/ exists t o rest s', ps !! t = Some (o :: rest) /\ exec t o s = Ok (true, s')) /\
  write_cnt s = s64 (Z.of_nat (length (shown s))) /\
  exists sched partial, by_threads (shown s) = concat (map snd sched) ++ partial /\
    (forall t p, progs !! t = Some p -> exists rest more, ps !! t = Some rest /\
      calls p = texts t sched ++ more /\ (rest = [] -> more = []) /\
      (holder s = Some t -> exists y more', more = (partial ++ y) :: more')) /\
    (holder s = None -> partial = []) /\ (Forall (fun l => l = []) ps -> partial = []).
Proof.
  intros Hw H0 Hr.
  destruct (reach_inv progs (fun t p Hp => proj2 (Hw t p Hp)) _ _ _ _ (fresh_inv progs s0 Hw H0) Hr) as (sched & partial & Hi).
  pose proof Hi as [Hu Hc Hl Hn Hs Hh Ht]. cbn [fst snd] in *.
  assert (Hhold : forall h, holder s = Some h -> exists o rest, ps !! h = Some (o :: rest)).
  { intros h Eh. rewrite Eh in Hh. destruct (lookup_lt_is_Some_2 progs h) as [p Hp]; [apply Hh|].
    destruct (lookup_lt_is_Some_2 ps h) as [r Hps]; [rewrite Hl; apply Hh|]. destruct (Ht h p r Hp Hps) as [_ Htt].
    rewrite decide_True in Htt by done. destruct (closes_step _ _ (proj1 Htt)) as (o & r' & ->). by exists o, r'. }
  assert (Hdone : Forall (fun l => l = []) ps -> holder s = None).
  { intros Hf. destruct (holder s) as [h|]; [|done]. destruct (Hhold h eq_refl) as (o & r & E).
    by pose proof (Forall_lookup_1 _ _ _ _ Hf E). }
  split; [|split; [|split; [|split; [done|]]]].
  - intros t o rest Hps. destruct (exec_result progs s ps sched partial t o rest Hw Hi Hps) as [s' E]. by eexists _, s'.
  - intros t text. rewrite handler_run by done. eexists. split; [reflexivity|]. apply outs_shown.
  - destruct (holder s) as [h|] eqn:Eh.
    + destruct (Hhold h eq_refl) as (o & r & Hps). right. exists h, o, r.
      destruct (exec_result progs s ps sched partial h o r Hw Hi Hps) as [s' E]. exists s'. split; [done|].
      rewrite Eh in E. by rewrite bool_decide_eq_true_2 in E by by right.
    + destruct (decide (Forall (fun l => l = []) ps)) as [|Hn']; [by left|right].
      apply not_Forall_Exists, Exists_exists in Hn' as (r & Hin & Hne); [|intros ?; apply _].
      apply list_elem_of_lookup in Hin as [t Hps]. destruct r as [|o r]; [by destruct Hne|]. exists t, o, r.
      destruct (exec_result progs s ps sched partial t o r Hw Hi Hps) as [s' E]. exists s'. split; [done|].
      rewrite Eh in E. by rewrite bool_decide_eq_true_2 in E by by left.
  - exists sched, partial. split; [done|]. split; [|split; [intros E; rewrite E in Hh; apply Hh|intros Hf; rewrite (Hdone Hf) in Hh; apply Hh]].
    intros t p Hp. destruct (lookup_lt_is_Some_2 ps t) as [r Hps]; [rewrite Hl; by eapply lookup_lt_Some|].
    destruct (Ht t p r Hp Hps) as [_ Htt]. case_decide as Eh.
    + destruct Htt as [Hcl Hca]. eexists r, _. split; [done|]. split; [done|]. split; [by intros ->|].
      intros _. by apply calls_next.
    + destruct Htt as [Hcl Hca]. eexists r, _. split; [done|]. split; [done|]. split; [by intros ->|done].
Qed.

(** ** A run *)

Inductive event : Type := Step (t : nat) | Interrupt (t : nat) (text : list Z).

Definition advance (e : event) (c : config) : option config :=
  match e with
  | Step t =>
      match c.2 !! t with
      | Some (o :: rest) => match exec t o c.1 with Ok (true, s') => Some (s', <[t := rest]> c.2) | _ => None end
      | _ => None
      end
  | Interrupt t text => match handler t text c.1 with Ok (tt, s') => Some (s', c.2) | Err _ => None end
  end.

Fixpoint advances (es : list event) (c : config) : option config :=
  match es with [] => Some c | e :: es' => match advance e c with Some c' => advances es' c' | None => None end end.

Lemma advances_rtc es c c' : advances es c = Some c' -> rtc step c c'.
Proof.
  revert c. induction es as [|e es IH]; intros [s ps]; cbn [advances]; [by intros [= ->]|].
  destruct (advance e (s, ps)) as [c1|] eqn:E; [|done]. intros H%IH. eapply rtc_l; [|exact H].
  destruct e as [t|t text]; cbn [advance fst snd] in E.
  - destruct (ps !! t) as [[|o rest]|] eqn:Hps; [done| |done]. destruct (exec t o s) as [[[] s']|] eqn:Ee; [|done..].
    injection E as <-. by eapply step_op.
  - destruct (handler t text s) as [[[] s']|] eqn:Ee; [|done]. injection E as <-. by eapply step_handler.
Qed.

(** Thread 0 prints a call with another one inside, thread 1 a call. *)
Definition sample : list (list op) :=
  [[Acquire; Put 97; Acquire; Put 98; Release; Put 99; Release]; [Acquire; Put 100; Release]].

Definition sample_run : list event :=
  [Step 0; Step 0; Interrupt 0 [33]; Step 0; Step 0; Step 0; Step 0; Step 0; Step 1; Step 1; Step 1].

Lemma console_calls_atomic_witness :
  exists c sched, advances sample_run (set_use_console_lock true start, sample) = Some c /\
    by_threads (shown c.1) = concat (map snd sched) /\ texts 0 sched = [[97; 98; 99]] /\ texts 1 sched = [[100]] /\
    length (shown c.1) = 5%nat.
Proof.
  set (s0 := set_use_console_lock true start).
  destruct (advances sample_run (s0, sample)) as [[s ps]|] eqn:E; [|by vm_compute in E].
  assert (Hps : ps = [[]; []]) by (vm_compute in E; by injection E).
  assert (Hlen : length (shown s) = 5%nat) by (vm_compute in E; injection E as <- _; done).
  destruct (console_calls_atomic sample s0 s ps) as (_ & _ & _ & _ & sched & partial & Hs & Ht & _ & Hp).
  - intros [|[|t]] p; [intros [= <-]; cbn; lia..|done].
  - done.
  - by apply (advances_rtc sample_run).
  - rewrite Hp, app_nil_r in Hs by (subst; repeat constructor).
    exists (s, ps), sched. split; [done|]. split; [done|]. subst ps.
    destruct (Ht 0%nat _ eq_refl) as (r0 & m0 & [= <-] & E0 & M0 & _).
    destruct (Ht 1%nat _ eq_refl) as (r1 & m1 & [= <-] & E1 & M1 & _).
    rewrite M0, app_nil_r in E0 by done. rewrite M1, app_nil_r in E1 by done. done.
Defined.

End Console.
