(* ===== verification/UserConsole.v ===== *)
(** * Printing in user programs (src/src/lib/user/console.c)

    Formatted output goes through a buffer of 64 characters that is written
    to a handle with the system call [write]; the state is the log of these
    calls. *)

From Stdlib Require Import Ascii String.
From S2P Require Import Prelude StdLib Stdio.

Module UserConsole.

(** ** Writes *)

(** The calls of [write] so far: the handle and the bytes. *)
Definition log : Type := list (Z * list Z).

Definition STDOUT_FILENO : Z := 1.

Definition write (handle : Z) (bytes : list Z) : M log unit := modify (fun l => l ++ [(handle, bytes)]).

(** ** Formatted output *)

(** [p] is the index in the buffer. *)
Record vhprintf_aux : Type := mkAux { buf : list Z; p : nat; char_cnt : Z; handle : Z }.

Definition flush (aux : vhprintf_aux) : M log vhprintf_aux :=
  (if (0 <? p aux)%nat then write (handle aux) (take (p aux) (buf aux)) else ret tt) ;;;
  ret (mkAux (buf aux) 0 (char_cnt aux) (handle aux)).

Definition add_char (c : Z) (aux : vhprintf_aux) : M log vhprintf_aux :=
  ASSERT (p aux <? length (buf aux))%nat ;;;
  let aux := mkAux (<[p aux := u8 c]> (buf aux)) (S (p aux)) (char_cnt aux) (handle aux) in
  aux <- (if (64 <=? p aux)%nat then flush aux else ret aux) ;;
  ret (mkAux (buf aux) (p aux) (s32 (char_cnt aux + 1)) (handle aux)).

Fixpoint add_all (text : list Z) (aux : vhprintf_aux) : M log vhprintf_aux :=
  match text with [] => ret aux | c :: text' => aux <- add_char c aux ;; add_all text' aux end.

(** [junk] is what the buffer on the stack holds. *)
Definition vhprintf (junk : list Z) (fuel : nat) (handle : Z) (format : list Z) (args : list Stdio.arg) : M log Z :=
  match Stdio.printf fuel format args with
  | Err e => fail e
  | Ok text =>
      aux <- add_all text (mkAux junk 0 0 handle) ;;
      aux <- flush aux ;;
      ret (char_cnt aux)
  end.

Definition hprintf := vhprintf.

Definition vprintf (junk : list Z) (fuel : nat) (format : list Z) (args : list Stdio.arg) : M log Z :=
  vhprintf junk fuel STDOUT_FILENO format args.

Definition putchar (c : Z) : M log Z := write STDOUT_FILENO [u8 c] ;;; ret c.

Definition puts (s : list Z) : M log Z := write STDOUT_FILENO s ;;; putchar 10 ;;; ret 0.

(** ** Every character is written once *)

(** The buffer holds [rest]; full buffers went out. *)
Definition buffered (h : Z) (l0 l : log) (text : list Z) (aux : vhprintf_aux) : Prop :=
  exists ws rest, l = l0 ++ map (fun w => (h, w)) ws /\ Forall (fun w => length w = 64%nat) ws /\
    concat ws ++ rest = map u8 text /\ take (p aux) (buf aux) = rest /\ length rest = p aux /\ (p aux < 64)%nat /\
    length (buf aux) = 64%nat /\ handle aux = h /\ char_cnt aux = s32 (Z.of_nat (length text)).

Lemma s32_succ n : s32 (s32 n + 1) = s32 (n + 1).
Proof.
  unfold s32. f_equal.
  replace ((n + 2147483648) mod 4294967296 - 2147483648 + 1 + 2147483648) with ((n + 2147483648) mod 4294967296 + 1) by lia.
  rewrite Z.add_mod_idemp_l by done. f_equal. lia.
Qed.

Lemma add_char_run h l0 l text aux c :
  buffered h l0 l text aux -> exists aux' l', add_char c aux l = Ok (aux', l') /\ buffered h l0 l' (text ++ [c]) aux'.
Proof.
  intros (ws & rest & -> & Hws & Hcat & Ht & Hlen & Hp & Hb & Hh & Hn). unfold add_char.
  rewrite (proj2 (Nat.ltb_lt _ _)), bind_ASSERT_l by lia. cbn [p buf char_cnt handle].
  assert (Htake : take (S (p aux)) (<[p aux := u8 c]> (buf aux)) = rest ++ [u8 c]).
  { rewrite (take_S_r _ _ (u8 c)) by (apply list_lookup_insert_eq; lia). by rewrite take_insert_ge, Ht by lia. }
  assert (Hcnt : s32 (char_cnt aux + 1) = s32 (Z.of_nat (length (text ++ [c])))).
  { rewrite Hn, s32_succ, length_app. f_equal. cbn. lia. }
  destruct (Nat.leb_spec 64 (S (p aux))) as [Hf|Hf].
  - unfold flush. cbn [p buf char_cnt handle]. rewrite Htake. eexists _, _. split; [reflexivity|].
    exists (ws ++ [rest ++ [u8 c]]), []. cbn [p buf char_cnt handle]. rewrite length_insert.
    split; [by rewrite Hh, map_app, app_assoc|]. split; [|split; [|split_and!; done || lia]].
    + apply Forall_app_2; [done|]. apply Forall_cons_2; [rewrite length_app; cbn; lia|apply Forall_nil_2].
    + rewrite concat_app, map_app, <-Hcat. cbn. by rewrite !app_nil_r, app_assoc.
  - eexists _, _. split; [reflexivity|]. exists ws, (rest ++ [u8 c]). cbn [p buf char_cnt handle]. rewrite length_insert, length_app.
    split_and!; try done; [|cbn; lia]. by rewrite map_app, <-Hcat, app_assoc.
Qed.

Lemma add_all_run h l0 more : forall l text aux,
  buffered h l0 l text aux -> exists aux' l', add_all more aux l = Ok (aux', l') /\ buffered h l0 l' (text ++ more) aux'.
Proof.
  induction more as [|c more IH]; intros l text aux Hb; cbn [add_all].
  - exists aux, l. by rewrite app_nil_r.
  - destruct (add_char_run h l0 l text aux c Hb) as (aux1 & l1 & E & Hb1). mrun E.
    destruct (IH l1 (text ++ [c]) aux1 Hb1) as (aux' & l' & E' & Hb'). exists aux', l'. by rewrite <-app_assoc in Hb'.
Qed.

(** C39: Formatted output of a user program goes to the handle in writes of 64
    characters and a last one of what remains, which together are the text;
    the buffer is never overrun, and the result is the length of the text. *)
Theorem vhprintf_ok junk fuel h format args text l :
  length junk = 64%nat -> Stdio.printf fuel format args = Ok text ->
  exists full rest, Forall (fun w => length w = 64%nat) full /\ (length rest < 64)%nat /\
    concat full ++ rest = map u8 text /\
    vhprintf junk fuel h format args l =
      Ok (s32 (Z.of_nat (length text)), l ++ map (fun w => (h, w)) (full ++ match rest with [] => [] | _ => [rest] end)).
Proof.
  intros Hj Ht. unfold vhprintf. rewrite Ht.
  destruct (add_all_run h l text l [] (mkAux junk 0 0 h)) as (aux & l' & E & ws & rest & -> & Hws & Hcat & Htk & Hlen & Hp & Hb & Hh & Hn).
  { exists [], []. cbn. rewrite app_nil_r. split_and!; done || lia. }
  exists ws, rest. split; [done|]. split; [lia|]. split; [done|]. mrun E. unfold flush.
  destruct rest as [|x rest]; cbn [length] in Hlen.
  - rewrite <-Hlen. cbn. by rewrite Hn, app_nil_r.
  - rewrite (proj2 (Nat.ltb_lt _ _)), Htk, Hh by lia. cbn. by rewrite Hn, map_app, app_assoc.
Qed.

Lemma vhprintf_ok_witness :
  vhprintf (repeat 0 64) 20 2 (Stdio.lit "%70d") [Stdio.Word 5] [] = Ok (70, [(2, repeat 32 64); (2, Stdio.str "     5")]).
Proof.
  destruct (vhprintf_ok (repeat 0 64) 20 2 (Stdio.lit "%70d") [Stdio.Word 5] (repeat 32 69 ++ [53]) []) as (full & rest & Hf & Hr & Hc & ->);
    [reflexivity..|].
  assert (Hlen : length (concat full ++ rest) = 70%nat) by by rewrite Hc.
  destruct Hf as [|w full Hw Hf]; [cbn in Hlen; lia|]. destruct Hf as [|w' full Hw' Hf].
  2:{ cbn in Hlen. rewrite !length_app, Hw, Hw' in Hlen. lia. }
  cbn [concat] in Hc. rewrite app_nil_r in Hc. change (map u8 (repeat 32 69 ++ [53])) with (repeat 32 64 ++ (repeat 32 5 ++ [53])) in Hc.
  apply app_inj_1 in Hc as [-> ->]; [done|by rewrite Hw].
Defined.

End UserConsole.
