(* ===== verification/Calibrate.v ===== *)
(** * Delays (src/src/devices/timer.c)

    The calibration of the busy-wait loop and the delays that use it, on a
    machine that makes a fixed number of iterations of the loop between two
    timer ticks.  The ticks that a thread sleeps are the calls of
    [timer_sleep], which [Kernel] models and [Alarm] proves. *)

From Stdlib Require Import Ascii String.
From S2P Require Import Prelude StdLib Stdio.

Module Calibrate.

Section Timing.

(** The iterations that the machine makes in a tick. *)
Context (speed : Z).

Record st : Type := mkSt {
  ticks : Z;
  phase : Z;  (* iterations since the last tick *)
  loops_per_tick : Z;
  intr_on : bool;
  slept : list Z;  (* the calls of timer_sleep *)
  console : list Z
}.

Definition set_ticks n p s := mkSt n p (loops_per_tick s) (intr_on s) (slept s) (console s).
Definition set_loops v s := mkSt (ticks s) (phase s) v (intr_on s) (slept s) (console s).
Definition set_slept v s := mkSt (ticks s) (phase s) (loops_per_tick s) (intr_on s) v (console s).
Definition set_console v s := mkSt (ticks s) (phase s) (loops_per_tick s) (intr_on s) (slept s) v.

Definition TIMER_FREQ : Z := 100.

Definition kprintf (format : list Z) (args : list Stdio.arg) : M st unit :=
  match Stdio.printf 60 format args with
  | Ok text => modify (fun s => set_console (console s ++ text) s)
  | Err e => fail e
  end.

(** ** Time *)

(** An iteration of a loop; at its end the timer may interrupt. *)
Definition barrier : M st unit :=
  modify (fun s => if phase s + 1 =? speed then set_ticks (ticks s + 1) 0 s else set_ticks (ticks s) (phase s + 1) s).

Fixpoint busy_loop (n : nat) : M st unit :=
  match n with O => ret tt | S n' => barrier ;;; busy_loop n' end.

Definition busy_wait (loops : Z) : M st unit := busy_loop (Z.to_nat loops).

Fixpoint tick_loop (fuel : nat) (start : Z) : M st unit :=
  match fuel with
  | O => fail Out_of_fuel
  | S fuel' => t <- gets ticks ;; if t =? start then barrier ;;; tick_loop fuel' start else ret tt
  end.

Definition too_many_loops (loops : Z) : M st bool :=
  start <- gets ticks ;;
  tick_loop (S (Z.to_nat speed)) start ;;;
  start <- gets ticks ;;
  busy_wait loops ;;;
  t <- gets ticks ;;
  ret (negb (start =? t)).

(** ** Calibration *)

Fixpoint double_loop (fuel : nat) : M st unit :=
  match fuel with
  | O => fail Out_of_fuel
  | S fuel' =>
      l <- gets loops_per_tick ;;
      many <- too_many_loops (u32 (Z.shiftl l 1)) ;;
      if (many : bool) then ret tt
      else
        modify (set_loops (u32 (Z.shiftl l 1))) ;;;
        ASSERT (negb (u32 (Z.shiftl l 1) =? 0)) ;;;
        double_loop fuel'
  end.

Fixpoint refine_loop (fuel : nat) (high_bit test_bit : Z) : M st unit :=
  match fuel with
  | O => fail Out_of_fuel
  | S fuel' =>
      if test_bit =? Z.shiftr high_bit 10 then ret tt
      else
        many <- too_many_loops (Z.lor high_bit test_bit) ;;
        (if (many : bool) then ret tt else modify (fun s => set_loops (Z.lor (loops_per_tick s) test_bit) s)) ;;;
        refine_loop fuel' high_bit (Z.shiftr test_bit 1)
  end.

Definition timer_calibrate : M st unit :=
  on <- gets intr_on ;;
  ASSERT on ;;;
  kprintf (Stdio.lit "Calibrating timer...  ") [] ;;;
  modify (set_loops (Z.shiftl 1 10)) ;;;
  double_loop 32 ;;;
  high_bit <- gets loops_per_tick ;;
  refine_loop 33 high_bit (Z.shiftr high_bit 1) ;;;
  l <- gets loops_per_tick ;;
  kprintf (Stdio.lit "%'llu loops/s.
") [Stdio.Dword (u64 (l * TIMER_FREQ))].

(** ** Sleeping and delays *)

Definition timer_sleep (n : Z) : M st unit := modify (fun s => set_slept (slept s ++ [n]) s).

Definition real_time_delay (num denom : Z) : M st unit :=
  ASSERT (Z.rem denom 1000 =? 0) ;;;
  l <- gets loops_per_tick ;;
  busy_wait (Z.quot (s64 (Z.quot (s64 (l * num)) 1000 * TIMER_FREQ)) (Z.quot denom 1000)).

Definition real_time_sleep (num denom : Z) : M st unit :=
  let n := Z.quot (s64 (num * TIMER_FREQ)) denom in
  on <- gets intr_on ;;
  ASSERT on ;;;
  if n >? 0 then timer_sleep n else real_time_delay num denom.

Definition timer_msleep (ms : Z) : M st unit := real_time_sleep ms 1000.
Definition timer_usleep (us : Z) : M st unit := real_time_sleep us (1000 * 1000).
Definition timer_nsleep (ns : Z) : M st unit := real_time_sleep ns (1000 * 1000 * 1000).
Definition timer_mdelay (ms : Z) : M st unit := real_time_delay ms 1000.
Definition timer_udelay (us : Z) : M st unit := real_time_delay us (1000 * 1000).
Definition timer_ndelay (ns : Z) : M st unit := real_time_delay ns (1000 * 1000 * 1000).

(** ** Time that passes *)

(** The state after [n] iterations. *)
Definition passed (n : Z) (s : st) : st := set_ticks (ticks s + (phase s + n) / speed) ((phase s + n) mod speed) s.

Context (Hspeed : 0 < speed).

Lemma barrier_run s : 0 <= phase s < speed -> barrier s = Ok (tt, passed 1 s).
Proof.
  intros Hp. unfold barrier, modify, passed. destruct (Z.eqb_spec (phase s + 1) speed) as [E|E].
  - rewrite E, Z.div_same, Z.mod_same by lia. done.
  - rewrite Z.div_small, Z.mod_small, Z.add_0_r by lia. done.
Qed.

Lemma passed_phase n s : 0 <= phase (passed n s) < speed.
Proof. cbn. by apply Z.mod_pos_bound. Qed.

Lemma passed_passed m n s : passed n (passed m s) = passed (m + n) s.
Proof.
  unfold passed, set_ticks. cbn. f_equal.
  - pose proof (Z.div_mod (phase s + m) speed ltac:(lia)) as E.
    replace (phase s + (m + n)) with ((phase s + m) / speed * speed + ((phase s + m) mod speed + n)) by lia.
    rewrite Z.div_add_l by lia. lia.
  - by rewrite Z.add_mod_idemp_l, Z.add_assoc by lia.
Qed.

Lemma passed_0 s : 0 <= phase s < speed -> passed 0 s = s.
Proof.
  intros Hp. unfold passed, set_ticks. rewrite Z.add_0_r, Z.div_small, Z.mod_small, Z.add_0_r by lia. by destruct s.
Qed.

Lemma busy_wait_run loops s : 0 <= phase s < speed -> 0 <= loops -> busy_wait loops s = Ok (tt, passed loops s).
Proof.
  intros Hp Hl. unfold busy_wait. rewrite <-(Z2Nat.id loops) at 2 by done. generalize (Z.to_nat loops). clear Hl. intros n. revert s Hp.
  induction n as [|n IH]; intros s Hp; cbn [busy_loop]; [by rewrite passed_0|].
  mrun (barrier_run s Hp). rewrite IH by apply passed_phase. rewrite passed_passed. do 3 f_equal. lia.
Qed.

Lemma tick_loop_run n : forall s start fuel,
  0 <= phase s -> phase s + Z.of_nat n = speed -> (0 < n)%nat -> (n < fuel)%nat -> ticks s = start ->
  tick_loop fuel start s = Ok (tt, set_ticks (start + 1) 0 s).
Proof.
  induction n as [|n IH]; intros s start fuel Hp He Hn Hf Ht; [lia|]. destruct fuel as [|fuel]; [lia|].
  cbn [tick_loop]. rewrite bind_gets_l, (proj2 (Z.eqb_eq _ _)) by done. mrun (barrier_run s ltac:(lia)).
  unfold passed. destruct n as [|n].
  - replace (phase s + 1) with speed by lia. rewrite Z.div_same, Z.mod_same, Ht by lia. destruct fuel as [|fuel]; [lia|]. cbn [tick_loop].
    rewrite bind_gets_l. cbn. rewrite (proj2 (Z.eqb_neq _ _)) by lia. done.
  - rewrite Z.div_small, Z.mod_small, Z.add_0_r by lia. rewrite IH by (cbn; lia). done.
Qed.

Lemma too_many_run loops s :
  0 <= phase s < speed -> 0 <= loops ->
  exists t p, too_many_loops loops s = Ok (speed <=? loops, set_ticks t p s) /\ 0 <= p < speed.
Proof.
  intros Hp Hl. unfold too_many_loops. rewrite bind_gets_l.
  rewrite (bind_ok _ _ _ _ _ (tick_loop_run (Z.to_nat (speed - phase s)) s (ticks s) (S (Z.to_nat speed))
    ltac:(lia) ltac:(lia) ltac:(lia) ltac:(lia) eq_refl)).
  rewrite bind_gets_l. mrun (busy_wait_run loops (set_ticks (ticks s + 1) 0 s) ltac:(cbn; lia) Hl). rewrite bind_gets_l.
  eexists _, _. split; [|apply (passed_phase loops (set_ticks (ticks s + 1) 0 s))]. unfold ret, passed, set_ticks. cbn. do 2 f_equal.
  rewrite Z.add_0_l. destruct (Z.leb_spec speed loops) as [H|H].
  - assert (1 <= loops / speed) by (apply Z.div_le_lower_bound; lia). rewrite (proj2 (Z.eqb_neq _ _)) by lia. done.
  - rewrite Z.div_small, Z.add_0_r, Z.eqb_refl by lia. done.
Qed.

(** ** The calibrated value *)

(** The state in which the calibration has got to [l]. *)
Definition cal (t p l : Z) (s : st) : st := mkSt t p l (intr_on s) (slept s) (console s).

Lemma double_run fuel : forall k s,
  10 <= k <= 31 -> 31 - k < Z.of_nat fuel -> 0 <= phase s < speed -> loops_per_tick s = 2 ^ k -> (2 ^ k < speed \/ k = 10) ->
  if speed <=? 2 ^ 31 then
    exists K t p, double_loop fuel s = Ok (tt, cal t p (2 ^ K) s) /\ 0 <= p < speed /\ k <= K <= 30 /\ speed <= 2 ^ (K + 1) /\
      (2 ^ K < speed \/ K = 10)
  else double_loop fuel s = Err Assertion_failed.
Proof.
  induction fuel as [|fuel IH]; intros k s Hk Hf Hp Hl Hs; [lia|]. cbn [double_loop]. rewrite bind_gets_l, Hl.
  assert (E : Z.shiftl (2 ^ k) 1 = 2 ^ (k + 1)) by (rewrite Z.shiftl_mul_pow2, Z.pow_add_r by lia; done). rewrite E.
  destruct (decide (k = 31)) as [->|Hk31].
  - change (u32 (2 ^ (31 + 1))) with 0. destruct Hs as [Hs|]; [|lia]. rewrite (proj2 (Z.leb_gt speed (2 ^ 31)) Hs).
    destruct (too_many_run 0 s Hp ltac:(lia)) as (t & p & E1 & _). mrun E1. by rewrite (proj2 (Z.leb_gt speed 0)) by lia.
  - assert (Hpow : 0 < 2 ^ (k + 1) <= 2 ^ 31) by (split; [apply Z.pow_pos_nonneg|apply Z.pow_le_mono_r]; lia).
    assert (Eu : u32 (2 ^ (k + 1)) = 2 ^ (k + 1)) by (apply Z.mod_small; change (2 ^ 31) with 2147483648 in Hpow; lia). rewrite Eu.
    destruct (too_many_run (2 ^ (k + 1)) s Hp ltac:(lia)) as (t & p & E1 & Hp1). mrun E1.
    destruct (Z.leb_spec speed (2 ^ (k + 1))) as [Hle|Hgt].
    + rewrite (proj2 (Z.leb_le speed (2 ^ 31))) by lia. exists k, t, p. unfold ret, cal, set_ticks. rewrite <-Hl.
      split_and!; try done; lia.
    + rewrite bind_modify_l, (proj2 (Z.eqb_neq (2 ^ (k + 1)) 0)), bind_ASSERT_l by lia.
      specialize (IH (k + 1) (set_loops (2 ^ (k + 1)) (set_ticks t p s)) ltac:(lia) ltac:(lia) Hp1 eq_refl (or_introl Hgt)).
      destruct (speed <=? 2 ^ 31); [|done]. destruct IH as (K & t' & p' & -> & ? & ? & ? & ?). exists K, t', p'.
      split_and!; try done; lia.
Qed.

(** The bits of the refinement from [2^j] on, when the power of two leaves
    [d] loops. *)
Definition bits (d j : Z) : Z := if d <=? 2 ^ (j + 1) then 0 else 2 ^ (Z.log2 (d - 1) + 1) - 2 ^ (j + 1).

Lemma bits_step d j : 0 <= j -> bits d (j - 1) = bits d j + (if d <=? 2 ^ j then 0 else 2 ^ j).
Proof.
  intros Hj. unfold bits. replace (j - 1 + 1) with j by lia.
  assert (H2 : 2 ^ (j + 1) = 2 * 2 ^ j) by (rewrite Z.pow_add_r by lia; lia).
  pose proof (Z.pow_pos_nonneg 2 j ltac:(lia) Hj). destruct (Z.leb_spec d (2 ^ j)), (Z.leb_spec d (2 ^ (j + 1))); try lia.
  replace (Z.log2 (d - 1)) with j; [lia|]. symmetry. apply Z.log2_unique; lia.
Qed.

(** Bits from [2^(j+1)] on have no bit below. *)
Lemma bits_multiple d j : 0 <= j -> exists c, bits d j = c * 2 ^ (j + 1).
Proof.
  intros Hj. unfold bits. pose proof (Z.pow_pos_nonneg 2 (j + 1) ltac:(lia) ltac:(lia)).
  destruct (Z.leb_spec d (2 ^ (j + 1))) as [Hd|Hd]; [by exists 0|].
  assert (Hm : j + 1 <= Z.log2 (d - 1)) by (apply Z.log2_le_pow2; lia).
  exists (2 ^ (Z.log2 (d - 1) - j) - 1).
  replace (Z.log2 (d - 1) + 1) with ((Z.log2 (d - 1) - j) + (j + 1)) by lia. rewrite Z.pow_add_r by lia. ring.
Qed.

Lemma lor_below c j : 0 <= j -> Z.lor (c * 2 ^ (j + 1)) (2 ^ j) = c * 2 ^ (j + 1) + 2 ^ j.
Proof.
  intros Hj. pose proof (Z.add_lor_land (c * 2 ^ (j + 1)) (2 ^ j)). enough (Z.land (c * 2 ^ (j + 1)) (2 ^ j) = 0) by lia.
  apply Z.bits_inj'. intros n Hn. rewrite Z.land_spec, Z.bits_0. destruct (decide (n = j)) as [->|Hne].
  - by rewrite Z.mul_pow2_bits_low by lia.
  - by rewrite Z.pow2_bits_false, andb_false_r by lia.
Qed.

Lemma refine_run k s0 fuel : forall j s,
  10 <= k <= 30 -> k - 10 <= j < k -> j - (k - 10) < Z.of_nat fuel ->
  0 <= phase s < speed -> loops_per_tick s = 2 ^ k + bits (speed - 2 ^ k) j ->
  intr_on s = intr_on s0 -> slept s = slept s0 -> console s = console s0 ->
  exists t p, refine_loop fuel (2 ^ k) (2 ^ j) s = Ok (tt, cal t p (2 ^ k + bits (speed - 2 ^ k) (k - 10)) s0) /\ 0 <= p < speed.
Proof.
  induction fuel as [|fuel IH]; intros j s Hk Hj Hf Hp Hl Hi Hsl Hc; [lia|]. cbn [refine_loop].
  rewrite Z.shiftr_div_pow2, <-Z.pow_sub_r by lia.
  destruct (decide (j = k - 10)) as [->|Hne].
  - rewrite Z.eqb_refl. exists (ticks s), (phase s). split; [|done]. unfold ret, cal. rewrite <-Hl, <-Hi, <-Hsl, <-Hc. by destruct s.
  - assert (H2 : 2 ^ (k - 10) < 2 ^ j) by (apply Z.pow_lt_mono_r; lia). rewrite (proj2 (Z.eqb_neq _ _)) by lia.
    assert (Hlor : forall x, (exists c, x = c * 2 ^ (j + 1)) -> Z.lor x (2 ^ j) = x + 2 ^ j) by (intros x [c ->]; apply lor_below; lia).
    assert (Hkm : 2 ^ k = 2 ^ (k - (j + 1)) * 2 ^ (j + 1)) by (rewrite <-Z.pow_add_r by lia; f_equal; lia).
    destruct (bits_multiple (speed - 2 ^ k) j ltac:(lia)) as [c Hbc].
    rewrite (Hlor (2 ^ k)) by (by eexists).
    destruct (too_many_run (2 ^ k + 2 ^ j) s Hp ltac:(lia)) as (t & p & E1 & Hp1). mrun E1.
    assert (Hstep : bits (speed - 2 ^ k) (j - 1) = bits (speed - 2 ^ k) j + (if speed <=? 2 ^ k + 2 ^ j then 0 else 2 ^ j)).
    { rewrite bits_step by lia. f_equal. destruct (Z.leb_spec (speed - 2 ^ k) (2 ^ j)), (Z.leb_spec speed (2 ^ k + 2 ^ j)); lia. }
    replace (Z.shiftr (2 ^ j) 1) with (2 ^ (j - 1)) by (rewrite Z.shiftr_div_pow2, <-Z.pow_sub_r by lia; done).
    destruct (speed <=? 2 ^ k + 2 ^ j).
    + rewrite bind_ret_l. apply IH; try done; cbn; lia.
    + rewrite bind_modify_l. apply IH; try done; [lia..|]. cbn [loops_per_tick set_loops set_ticks].
      rewrite Hl, Hlor, Hstep; [lia|]. exists (2 ^ (k - (j + 1)) + c). lia.
Qed.

Lemma bits_bounds d k :
  10 <= k -> 0 < d <= 2 ^ k -> d - 2 ^ (k - 9) <= bits d (k - 10) /\ 0 <= bits d (k - 10) <= 2 ^ k - 2 ^ (k - 9) /\ bits d (k - 10) < 2 * d.
Proof.
  intros Hk Hd. unfold bits. replace (k - 10 + 1) with (k - 9) by lia. pose proof (Z.pow_pos_nonneg 2 (k - 9) ltac:(lia) ltac:(lia)).
  assert (2 ^ (k - 9) <= 2 ^ k) by (apply Z.pow_le_mono_r; lia).
  destruct (Z.leb_spec d (2 ^ (k - 9))) as [H1|H1]; [lia|].
  destruct (Z.log2_spec (d - 1)) as [Hlo Hhi]; [lia|]. rewrite <-Z.add_1_r in Hhi.
  assert (Z.log2 (d - 1) < k) by (apply Z.log2_lt_pow2; lia).
  assert (2 ^ (Z.log2 (d - 1) + 1) <= 2 ^ k) by (apply Z.pow_le_mono_r; lia).
  assert (2 ^ (Z.log2 (d - 1) + 1) = 2 * 2 ^ Z.log2 (d - 1)) by (rewrite Z.pow_add_r by (try lia; apply Z.log2_nonneg); lia).
  lia.
Qed.

Lemma rate_prints n : exists text, Stdio.printf 60 (Stdio.lit "%'llu loops/s.
") [Stdio.Dword n] = Ok text.
Proof.
  eapply (Stdio.printf_shape 60 _ [Stdio.Dword 7]); [vm_compute; lia|by repeat constructor|vm_compute; reflexivity].
Qed.

(** The whole calibration from the doubling on. *)
Lemma calibrate_run s :
  intr_on s = true -> 0 <= phase s < speed ->
  if speed <=? 2 ^ 31 then
    exists K s', timer_calibrate s = Ok (tt, s') /\ 10 <= K <= 30 /\ speed <= 2 ^ (K + 1) /\ (2 ^ K < speed \/ K = 10) /\
      loops_per_tick s' = 2 ^ K + bits (speed - 2 ^ K) (K - 10) /\ slept s' = slept s /\ 0 <= phase s' < speed
  else timer_calibrate s = Err Assertion_failed.
Proof.
  intros Hi Hp. unfold timer_calibrate. rewrite bind_gets_l, Hi, bind_ASSERT_l.
  rewrite (bind_ok _ _ _ tt (set_console (console s ++ Stdio.str "Calibrating timer...  ") s)) by reflexivity.
  rewrite bind_modify_l. set (s1 := set_loops _ _).
  pose proof (double_run 32 10 s1 ltac:(lia) ltac:(lia) Hp eq_refl (or_intror eq_refl)) as H.
  destruct (speed <=? 2 ^ 31); [|by rewrite (bind_err _ _ _ _ H)].
  destruct H as (K & t & p & E & Hp1 & HK & Hle & Hor). exists K. mrun E. rewrite bind_gets_l. cbn [loops_per_tick cal].
  replace (Z.shiftr (2 ^ K) 1) with (2 ^ (K - 1)) by (rewrite Z.shiftr_div_pow2, <-Z.pow_sub_r by lia; done).
  assert (Hz : bits (speed - 2 ^ K) (K - 1) = 0).
  { unfold bits. replace (K - 1 + 1) with K by lia. rewrite (proj2 (Z.leb_le _ _)); [done|].
    rewrite Z.pow_add_r in Hle by lia. lia. }
  destruct (refine_run K (cal t p (2 ^ K) s1) 33 (K - 1) (cal t p (2 ^ K) s1)) as (t' & p' & E' & Hp2);
    try done; try lia; [cbn; rewrite Hz; lia|].
  mrun E'. rewrite bind_gets_l. cbn [loops_per_tick cal].
  destruct (rate_prints (u64 ((2 ^ K + bits (speed - 2 ^ K) (K - 10)) * TIMER_FREQ))) as [text Et].
  unfold kprintf. rewrite Et. eexists. split; [reflexivity|]. cbn. split_and!; try done; lia.
Qed.

(** C40: On a machine that makes up to 2^31 iterations in a tick the calibration
    ends with a value that is at most a 512th of its highest power of two below the
    number of iterations, and always less than twice this power of two; it
    is the power of two plus all bits below the first one that
    fits, so that it can be more than the iterations of a tick. On a faster machine the
    assertion that the value is not zero fails, and a machine
    too slow for 1024 iterations gets 1024. *)
Theorem timer_calibrate_ok s :
  intr_on s = true -> 0 <= phase s < speed ->
  (2 ^ 31 < speed -> timer_calibrate s = Err Assertion_failed) /\
  (speed <= 2 ^ 31 -> exists s', timer_calibrate s = Ok (tt, s') /\
    (speed <= 1024 -> loops_per_tick s' = 1024) /\
    (1024 < speed ->
      let H := 2 ^ Z.log2 (speed - 1) in
      H < speed <= 2 * H /\ speed - H / 512 <= loops_per_tick s' <= 2 * H - H / 512 /\
      loops_per_tick s' = H + (if speed - H <=? H / 512 then 0 else 2 ^ (Z.log2 (speed - H - 1) + 1) - H / 512))).
Proof.
  intros Hi Hp. pose proof (calibrate_run s Hi Hp) as H. split.
  { intros Hf. by rewrite (proj2 (Z.leb_gt speed (2 ^ 31)) Hf) in H. }
  intros Hf. rewrite (proj2 (Z.leb_le speed (2 ^ 31)) Hf) in H.
  destruct H as (K & s' & E & HK & Hle & Hor & Hl & _). exists s'. split; [done|].
  assert (Hpos : 0 < 2 ^ (K - 9)) by (apply Z.pow_pos_nonneg; lia).
  assert (H1024 : 2 ^ 10 <= 2 ^ K) by (apply Z.pow_le_mono_r; lia). change (2 ^ 10) with 1024 in H1024. split.
  - intros Hs. destruct Hor as [?| ->]; [lia|]. rewrite Hl. unfold bits. rewrite (proj2 (Z.leb_le _ _)) by (cbn; lia). done.
  - intros Hs. assert (HK' : 2 ^ K < speed) by (destruct Hor as [?| ->]; [done|by change (2 ^ 10) with 1024]).
    assert (Elog : Z.log2 (speed - 1) = K).
    { apply Z.log2_unique; [lia|]. rewrite <-Z.add_1_r. lia. }
    rewrite Elog. assert (E512 : 2 ^ K / 512 = 2 ^ (K - 9)) by (change 512 with (2 ^ 9); by rewrite <-Z.pow_sub_r by lia).
    assert (E2 : 2 ^ (K + 1) = 2 * 2 ^ K) by (rewrite Z.pow_add_r by lia; lia). cbn zeta. rewrite E512.
    destruct (bits_bounds (speed - 2 ^ K) K ltac:(lia) ltac:(lia)) as (Hb1 & Hb2 & _). rewrite Hl.
    split; [lia|]. split; [lia|]. unfold bits. by replace (K - 10 + 1) with (K - 9) by lia.
Qed.

(** ** Delays *)

Lemma delay_run s num denom :
  0 <= phase s < speed -> 0 <= loops_per_tick s < 4294967296 -> 0 <= num < 10000000 ->
  denom = 1000 \/ denom = 1000000 \/ denom = 1000000000 ->
  exists n, real_time_delay num denom s = Ok (tt, passed n s) /\ 0 <= n /\
    n * denom <= loops_per_tick s * num * 100 < (n + 101) * denom.
Proof.
  intros Hp Hl Hn Hd. unfold real_time_delay, TIMER_FREQ.
  assert (Hr : Z.rem denom 1000 = 0) by (by destruct Hd as [->|[->| ->]]). rewrite Hr. change (0 =? 0) with true.
  rewrite bind_ASSERT_l, bind_gets_l.
  assert (HX : 0 <= loops_per_tick s * num <= 42949672960000000) by nia.
  rewrite (s64_id (loops_per_tick s * num)), (Z.quot_div_nonneg (loops_per_tick s * num)) by lia.
  generalize dependent (loops_per_tick s * num). intros X HX.
  pose proof (Z.div_mod X 1000 ltac:(lia)) as Eq. pose proof (Z.mod_pos_bound X 1000 ltac:(lia)) as Hm.
  set (q := X / 1000) in *. rewrite s64_id by lia.
  assert (Hd' : Z.quot denom 1000 = denom / 1000 /\ denom = 1000 * (denom / 1000) /\ 0 < denom / 1000)
    by (destruct Hd as [->|[->| ->]]; done).
  destruct Hd' as (-> & Ed & Hdp). set (d := denom / 1000) in *. rewrite Z.quot_div_nonneg by lia.
  pose proof (Z.div_mod (q * 100) d ltac:(lia)) as En. pose proof (Z.mod_pos_bound (q * 100) d ltac:(lia)) as Hm'.
  assert (0 <= q * 100 / d) by (apply Z.div_pos; lia).
  exists (q * 100 / d). rewrite busy_wait_run by (done || lia). split; [done|]. split; [done|]. rewrite Ed. nia.
Qed.

(** A sleep of at least a tick calls [timer_sleep] with the ticks rounded
    down; a shorter one runs the loop, for no more iterations than the
    calibration gives for the time and at most 101 less, without overflow. *)
Theorem real_time_sleep_ok s num denom :
  intr_on s = true -> 0 <= phase s < speed -> 0 <= loops_per_tick s < 2 ^ 32 -> 0 <= num < 2 ^ 56 ->
  denom = 1000 \/ denom = 1000000 \/ denom = 1000000000 ->
  if denom <=? num * TIMER_FREQ
  then real_time_sleep num denom s = Ok (tt, set_slept (slept s ++ [num * TIMER_FREQ / denom]) s)
  else exists n, real_time_sleep num denom s = Ok (tt, passed n s) /\
    0 <= n /\ n * denom <= loops_per_tick s * num * TIMER_FREQ < (n + 101) * denom /\ n <= loops_per_tick s.
Proof.
  intros Hi Hp Hl Hn Hd. change (2 ^ 32) with 4294967296 in Hl. change (2 ^ 56) with 72057594037927936 in Hn.
  unfold real_time_sleep, TIMER_FREQ. rewrite bind_gets_l, Hi, bind_ASSERT_l.
  rewrite s64_id, Z.quot_div_nonneg by lia. destruct (Z.leb_spec denom (num * 100)) as [H|H].
  - assert (1 <= num * 100 / denom) by (apply Z.div_le_lower_bound; lia). rewrite (proj2 (Z.gtb_lt _ _)) by lia. done.
  - rewrite Z.div_small by lia. change (0 >? 0) with false. cbn iota.
    destruct (delay_run s num denom Hp Hl ltac:(lia) Hd) as (n & E & Hn0 & Hlo & Hup). exists n. rewrite E.
    split; [done|]. split; [done|]. split; [done|]. nia.
Qed.

End Timing.
(** A machine of 1540 iterations in a tick gets 2046. *)
Definition booted : st := mkSt 0 0 0 true [] [].

Lemma timer_calibrate_ok_witness : exists s', timer_calibrate 1540 booted = Ok (tt, s') /\ loops_per_tick s' = 2046.
Proof.
  destruct (timer_calibrate_ok 1540 ltac:(lia) booted eq_refl ltac:(cbn; lia)) as [_ H].
  destruct (H ltac:(lia)) as (s' & E & _ & F). exists s'. split; [done|]. by destruct (F ltac:(lia)) as (_ & _ & ->).
Defined.

Lemma real_time_sleep_ok_witness :
  real_time_sleep 1540 25 1000 booted = Ok (tt, set_slept [2] booted).
Proof. exact (real_time_sleep_ok 1540 ltac:(lia) booted 25 1000 eq_refl ltac:(cbn; lia) ltac:(cbn; lia) ltac:(lia) (or_introl eq_refl)). Defined.

End Calibrate.
