(* ===== verification/Syscall.v ===== *)
(** * System calls on files and the console (src/src/userprog/syscall.c)

    A process has its descriptors and its memory, a map of the bytes of the
    pages that its page directory has.  System calls run one at a time: a
    call that has to wait for [filesys_access] starts when it has the lock,
    so the lock is free or held by the calling process.  The file system is
    the one of [FsState]; what the keyboard delivers is a stream, and what is
    written to the console is a list.  Calls that start, await or map
    ([exec], [wait], [mmap], [munmap]) end the model of the handler with an
    outcome that says what is called. *)

From S2P Require Import Prelude KState Bitmap FsState Inode FileOps Directory CString.
Import FsState.

Module Syscall.

(** ** Data *)

Record file_descriptor : Type := mkFd { fd_no : Z; fd_file : Z }.

(** The fields of [struct thread] that belong to user programs. *)
Record proc : Type := mkProc {
  list_of_fds : list file_descriptor;
  next_fd : Z;
  executable : Z;
  has_parent : bool;
  fs_flag : bool;                 (* [filesys_access] of the thread *)
  umem : CString.mem
}.

Record sys : Type := mkSys {
  fsys : fs;
  procs : gmap Z proc;
  filesys_access : bool;
  console : list Z;
  keys : nat -> Z
}.

Definition set_fsys v s := mkSys v (procs s) (filesys_access s) (console s) (keys s).
Definition set_procs v s := mkSys (fsys s) v (filesys_access s) (console s) (keys s).
Definition set_lock v s := mkSys (fsys s) (procs s) v (console s) (keys s).
Definition set_console v s := mkSys (fsys s) (procs s) (filesys_access s) v (keys s).
Definition set_keys v s := mkSys (fsys s) (procs s) (filesys_access s) (console s) v.

Definition with_fds v p := mkProc v (next_fd p) (executable p) (has_parent p) (fs_flag p) (umem p).
Definition with_next v p := mkProc (list_of_fds p) v (executable p) (has_parent p) (fs_flag p) (umem p).
Definition with_exec v p := mkProc (list_of_fds p) (next_fd p) v (has_parent p) (fs_flag p) (umem p).
Definition with_flag v p := mkProc (list_of_fds p) (next_fd p) (executable p) (has_parent p) v (umem p).
Definition with_umem v p := mkProc (list_of_fds p) (next_fd p) (executable p) (has_parent p) (fs_flag p) v.

(** ** Access *)

Definition on_fs {A} (m : M fs A) : M sys A :=
  fun s => match m (fsys s) with Ok (a, f) => Ok (a, set_fsys f s) | Err e => Err e end.

(** [thread_current ()], for the process [t]. *)
Definition current (t : Z) : M sys proc := gets_opt (fun s => procs s !! t).
Definition upd_proc (t : Z) (f : proc -> proc) : M sys unit :=
  p <- current t ;; modify (fun s => set_procs (<[t := f p]> (procs s)) s).

Definition lock_acquire : M sys unit :=
  h <- gets filesys_access ;; ASSERT (negb h) ;;; modify (set_lock true).
Definition lock_release : M sys unit :=
  h <- gets filesys_access ;; ASSERT h ;;; modify (set_lock false).

Definition acquire_filesys_lock : M sys unit :=
  h <- gets filesys_access ;; if (h : bool) then ret tt else lock_acquire.
Definition release_filesys_lock : M sys unit :=
  h <- gets filesys_access ;; if (h : bool) then lock_release else ret tt.

Fixpoint find_fd (fd : Z) (l : list file_descriptor) : option file_descriptor :=
  match l with [] => None | d :: l' => if fd_no d =? fd then Some d else find_fd fd l' end.

Definition lookup_fd_struct (t fd : Z) : M sys (option file_descriptor) :=
  p <- current t ;; ret (find_fd fd (list_of_fds p)).

(** [list_remove] of the descriptor that was found. *)
Fixpoint remove_fd (fd : Z) (l : list file_descriptor) : list file_descriptor :=
  match l with [] => [] | d :: l' => if fd_no d =? fd then l' else d :: remove_fd fd l' end.

Definition BAD_EXIT : Z := -1.
Definition READ_FROM_KEYBOARD : Z := 0.
Definition WRITE_TO_CONSOLE : Z := 1.
Definition MAX_BUFFER : Z := 255.

(** ** The calls *)

(** [e] is what the memory of the directory entry on the stack holds. *)
Definition create (t : Z) (file : list Z) (e : list Z) (initial_size : Z) : M sys bool :=
  lock_acquire ;;;
  upd_proc t (with_flag true) ;;;
  file_created <- on_fs (Directory.filesys_create file e (s32 initial_size)) ;;
  lock_release ;;;
  upd_proc t (with_flag false) ;;;
  ret file_created.

Definition remove (t : Z) (file : list Z) (e : list Z) : M sys bool :=
  lock_acquire ;;;
  upd_proc t (with_flag true) ;;;
  file_deleted <- on_fs (Directory.filesys_remove file e) ;;
  lock_release ;;;
  upd_proc t (with_flag false) ;;;
  ret file_deleted.

Definition open (t : Z) (file : list Z) (e : list Z) : M sys Z :=
  acquire_filesys_lock ;;;
  file_struct <- on_fs (Directory.filesys_open file e) ;;
  release_filesys_lock ;;;
  if negb (file_struct =? NULL) then
    file_descriptor <- on_fs malloc ;;
    p <- current t ;;
    let fd := next_fd p in
    upd_proc t (fun p => with_next (s32 (next_fd p + 1)) p) ;;;
    (if file_descriptor =? NULL then fail Bad_access else ret tt) ;;;
    upd_proc t (fun p => with_fds (list_of_fds p ++ [mkFd fd file_struct]) p) ;;;
    ret fd
  else ret BAD_EXIT.

(** The calls on a descriptor: [body] with the lock, for its file. *)
Definition with_fd {A} (t fd : Z) (none : A) (body : Z -> M fs A) : M sys A :=
  d <- lookup_fd_struct t fd ;;
  match d with
  | Some d =>
      acquire_filesys_lock ;;;
      r <- on_fs (body (fd_file d)) ;;
      release_filesys_lock ;;;
      ret r
  | None => ret none
  end.

Definition filesize (t fd : Z) : M sys Z := with_fd t fd BAD_EXIT FileOps.file_length.

Definition seek (t fd position : Z) : M sys unit :=
  with_fd t fd tt (fun f => FileOps.file_seek f (s32 position)).

Definition tell (t fd : Z) : M sys Z := p <- with_fd t fd 0 FileOps.file_tell ;; ret (u32 p).

(** [input_getc]. *)
Definition input_getc : M sys Z :=
  k <- gets keys ;; modify (set_keys (fun n => k (S n))) ;;; ret (u8 (k 0%nat)).

Fixpoint keyboard_loop (fuel : nat) (in_size size : Z) : M sys Z :=
  match fuel with
  | O => fail Out_of_fuel
  | S fuel' =>
      if in_size <=? size then c <- input_getc ;; keyboard_loop fuel' (u8 (in_size + c)) size
      else ret in_size
  end.

(** [size] bytes of the memory of the process. *)
Fixpoint ubytes (m : CString.mem) (p : Z) (n : nat) : option (list Z) :=
  match n with
  | O => Some []
  | S n' => match m !! p, ubytes m (p + 1) n' with Some b, Some bs => Some (b :: bs) | _, _ => None end
  end.

Fixpoint uput (m : CString.mem) (p : Z) (bs : list Z) : CString.mem :=
  match bs with [] => m | b :: bs' => <[p := b]> (uput m (p + 1) bs') end.

(** [fuel] bounds the keys that are read. *)
Definition read (fuel : nat) (t fd buffer size : Z) : M sys Z :=
  if fd =? READ_FROM_KEYBOARD then keyboard_loop fuel 0 size
  else
    d <- lookup_fd_struct t fd ;;
    match d with
    | Some d =>
        acquire_filesys_lock ;;;
        p <- current t ;;
        let n := Z.max 0 (s32 size) in
        match ubytes (umem p) buffer (Z.to_nat n) with
        | None => fail Bad_access
        | Some bs =>
            r <- on_fs (FileOps.file_read (fd_file d) bs (s32 size)) ;;
            upd_proc t (fun p => with_umem (uput (umem p) buffer r.2) p) ;;;
            release_filesys_lock ;;;
            ret r.1
        end
    | None => ret BAD_EXIT
    end.

(** [putbuf]. *)
Definition putbuf (t buffer n : Z) : M sys unit :=
  p <- current t ;;
  match ubytes (umem p) buffer (Z.to_nat n) with
  | None => fail Bad_access
  | Some bs => modify (fun s => set_console (console s ++ bs) s)
  end.

Fixpoint console_loop (fuel : nat) (t buffer buffer_pos size_count : Z) : M sys (Z * Z) :=
  match fuel with
  | O => fail Out_of_fuel
  | S fuel' =>
      if size_count >? MAX_BUFFER then
        putbuf t (buffer + buffer_pos) MAX_BUFFER ;;;
        console_loop fuel' t buffer (buffer_pos + MAX_BUFFER) (size_count - MAX_BUFFER)
      else ret (buffer_pos, size_count)
  end.

Definition write (t fd buffer size : Z) : M sys Z :=
  if fd =? WRITE_TO_CONSOLE then
    ' (buffer_pos, size_count) <- (if size >? MAX_BUFFER then console_loop (S (Z.to_nat (size / MAX_BUFFER))) t buffer 0 size
                                   else ret (0, size)) ;;
    putbuf t (buffer + buffer_pos) size_count ;;;
    ret (s32 size)
  else
    d <- lookup_fd_struct t fd ;;
    match d with
    | Some d =>
        acquire_filesys_lock ;;;
        p <- current t ;;
        match ubytes (umem p) buffer (Z.to_nat (Z.max 0 (s32 size))) with
        | None => fail Bad_access
        | Some bs =>
            n <- on_fs (FileOps.file_write (fd_file d) bs (s32 size)) ;;
            release_filesys_lock ;;;
            ret n
        end
    | None => ret 0
    end.

Definition close (t fd : Z) : M sys unit :=
  d <- lookup_fd_struct t fd ;;
  match d with
  | Some d =>
      acquire_filesys_lock ;;;
      on_fs (FileOps.file_close (fd_file d)) ;;;
      release_filesys_lock ;;;
      upd_proc t (fun p => with_fds (remove_fd fd (list_of_fds p)) p)
  | None => ret tt
  end.

Fixpoint close_loop (l : list file_descriptor) : M sys unit :=
  match l with
  | [] => ret tt
  | d :: l' => on_fs (FileOps.file_close (fd_file d)) ;;; close_loop l'
  end.

(** The descriptors are freed; the list of a thread that exits is not used
    again. *)
Definition close_all_files (t : Z) : M sys unit :=
  acquire_filesys_lock ;;;
  p <- current t ;;
  close_loop (list_of_fds p) ;;;
  upd_proc t (with_fds []) ;;;
  (if has_parent p then on_fs (FileOps.file_deny_write (executable p))
   else on_fs (FileOps.file_close (executable p))) ;;;
  release_filesys_lock.

Definition deny_write_to_exec (t : Z) (name_of_file e : list Z) : M sys unit :=
  acquire_filesys_lock ;;;
  file_struct <- on_fs (Directory.filesys_open name_of_file e) ;;
  (if negb (file_struct =? NULL) then
     upd_proc t (with_exec file_struct) ;;; on_fs (FileOps.file_deny_write file_struct)
   else ret tt) ;;;
  release_filesys_lock.

(** ** The handler *)

Definition PHYS_BASE : Z := 3221225472.

Definition is_user_vaddr (p : Z) : bool := p <? PHYS_BASE.

(** How a call ends: with a value in [eax] or without, with the exit of the
    process or the machine, or by calling a function of another part. *)
Inductive outcome : Type :=
| Returns (eax : option Z)
| Exits (status : Z)
| Powers_off
| Executes (cmd_line : Z)
| Waits (pid : Z)
| Maps (fd addr : Z)
| Unmaps (mapping : Z).

Definition is_valid (t address : Z) : M sys bool :=
  p <- current t ;;
  ret (negb (address =? NULL) && is_user_vaddr address && bool_decide (is_Some (umem p !! address))).

(** [is_correct_user_memory] in a condition: it returns true, or the process
    exits. *)
Definition is_correct_user_memory (t address : Z) (k : M sys outcome) : M sys outcome :=
  b <- is_valid t address ;; if (b : bool) then k else ret (Exits BAD_EXIT).

(** [*p] for a pointer to a word. *)
Definition load_word (t p : Z) : M sys Z :=
  v <- current t ;;
  match ubytes (umem v) p 4 with
  | Some bs => ret (of_le32 bs)
  | None => fail Bad_access
  end.

(** The string at [p], which the callees read up to its terminator; [n]
    bounds its length. *)
Fixpoint ustring (m : CString.mem) (p : Z) (n : nat) : option (list Z) :=
  match n with
  | O => None
  | S n' =>
      match m !! p with
      | None => None
      | Some b => if b =? 0 then Some [] else match ustring m (p + 1) n' with Some s => Some (b :: s) | None => None end
      end
  end.

Definition load_string (t p : Z) : M sys (list Z) :=
  v <- current t ;;
  match ustring (umem v) p (S (size (umem v))) with
  | Some s => ret s
  | None => fail Bad_access
  end.

Definition arg_ptr (esp k : Z) : Z := u32 (esp + 4 * (k + 1)).

Definition of_bool (b : bool) : Z := if b then 1 else 0.

Definition syscall_handler (fuel : nat) (t esp : Z) (e : list Z) : M sys outcome :=
  is_correct_user_memory t esp (
  function_no <- load_word t esp ;;
  let arg0_ptr := arg_ptr esp 0 in
  let arg1_ptr := arg_ptr esp 1 in
  let arg2_ptr := arg_ptr esp 2 in
  let correct := is_correct_user_memory t in
  if function_no =? 0 then ret Powers_off
  else if function_no =? 1 then
    correct arg0_ptr (status <- load_word t arg0_ptr ;; ret (Exits (s32 status)))
  else if function_no =? 2 then
    correct arg0_ptr (cmd_line <- load_word t arg0_ptr ;;
      if cmd_line =? NULL then ret (Exits BAD_EXIT)
      else correct cmd_line (if negb (is_user_vaddr cmd_line) then ret (Exits BAD_EXIT) else ret (Executes cmd_line)))
  else if function_no =? 3 then
    correct arg0_ptr (pid <- load_word t arg0_ptr ;; ret (Waits (s32 pid)))
  else if function_no =? 4 then
    correct arg0_ptr (correct arg1_ptr (
      file <- load_word t arg0_ptr ;;
      correct file (
        initial_size <- load_word t arg1_ptr ;;
        if (file =? NULL) || negb (is_user_vaddr file) then ret (Exits BAD_EXIT)
        else name <- load_string t file ;; b <- create t name e initial_size ;; ret (Returns (Some (of_bool b))))))
  else if function_no =? 5 then
    correct arg0_ptr (
      file <- load_word t arg0_ptr ;;
      if (file =? NULL) || negb (is_user_vaddr file) then ret (Exits BAD_EXIT)
      else name <- load_string t file ;; b <- remove t name e ;; ret (Returns (Some (of_bool b))))
  else if function_no =? 6 then
    correct arg0_ptr (
      file <- load_word t arg0_ptr ;;
      if file =? NULL then ret (Exits BAD_EXIT)
      else correct file (if negb (is_user_vaddr file) then ret (Exits BAD_EXIT)
        else name <- load_string t file ;; fd <- open t name e ;; ret (Returns (Some (u32 fd)))))
  else if function_no =? 7 then
    correct arg0_ptr (fd <- load_word t arg0_ptr ;; r <- filesize t (s32 fd) ;; ret (Returns (Some (u32 r))))
  else if function_no =? 8 then
    correct arg0_ptr (correct arg1_ptr (correct arg2_ptr (
      fd <- load_word t arg0_ptr ;;
      buffer <- load_word t arg1_ptr ;;
      size <- load_word t arg2_ptr ;;
      if (buffer =? NULL) || negb (is_user_vaddr buffer) then ret (Exits BAD_EXIT)
      else r <- read fuel t (s32 fd) buffer size ;; ret (Returns (Some (u32 r))))))
  else if function_no =? 9 then
    correct arg0_ptr (correct arg1_ptr (correct arg2_ptr (
      fd <- load_word t arg0_ptr ;;
      buffer <- load_word t arg1_ptr ;;
      size <- load_word t arg2_ptr ;;
      if buffer =? NULL then ret (Exits BAD_EXIT)
      else correct buffer (if negb (is_user_vaddr buffer) then ret (Exits BAD_EXIT)
        else r <- write t (s32 fd) buffer size ;; ret (Returns (Some (u32 r)))))))
  else if function_no =? 10 then
    correct arg0_ptr (correct arg1_ptr (
      fd <- load_word t arg0_ptr ;;
      position <- load_word t arg1_ptr ;;
      seek t (s32 fd) position ;;; ret (Returns None)))
  else if function_no =? 11 then
    correct arg0_ptr (fd <- load_word t arg0_ptr ;; r <- tell t (s32 fd) ;; ret (Returns (Some r)))
  else if function_no =? 12 then
    correct arg0_ptr (fd <- load_word t arg0_ptr ;; close t (s32 fd) ;;; ret (Returns None))
  else if function_no =? 13 then
    correct arg0_ptr (
      fd <- load_word t arg0_ptr ;;
      addr <- load_word t arg1_ptr ;;
      ret (Maps (s32 fd) addr))
  else if function_no =? 14 then
    correct arg0_ptr (mapping <- load_word t arg0_ptr ;; ret (Unmaps (s32 mapping)))
  else ret (Returns None)).

End Syscall.
