(* ===== verification/Handles.v ===== *)
(** * Open files between system calls

    The counters of the open inodes (src/src/filesys/inode.c) agree with the
    open files (src/src/filesys/file.c): an inode is open once for each file
    that uses it, and denied as often as a file denies writes.  Every
    operation on open files returns in such a state and keeps it. *)

From S2P Require Import Prelude KState Bitmap FsState Inode FileOps Directory FsInv DirProps FileSys.
Import FsState Inode FileOps Directory FsInv DirProps FileSys.

Module Handles.

(** ** Counting files *)

Definition cnt (P : file -> bool) (m : gmap Z file) : Z :=
  Z.of_nat (length (List.filter P (map_to_list m).*2)).

Lemma filter_perm (P : file -> bool) l l' : l ≡ₚ l' -> length (List.filter P l) = length (List.filter P l').
Proof.
  induction 1 as [|x l l' _ IH|x y l|l1 l2 l3 _ IH1 _ IH2]; cbn; [done| | |congruence].
  - destruct (P x); cbn; congruence.
  - by destruct (P x), (P y).
Qed.

Definition b2z (b : bool) : Z := if b then 1 else 0.

Lemma cnt_insert P m f fl : m !! f = None -> cnt P (<[f := fl]> m) = cnt P m + b2z (P fl).
Proof.
  intros H. unfold cnt. rewrite (filter_perm P _ (fl :: (map_to_list m).*2)).
  - cbn. destruct (P fl); cbn; lia.
  - by rewrite map_to_list_insert.
Qed.

Lemma cnt_delete P m f fl : m !! f = Some fl -> cnt P (delete f m) = cnt P m - b2z (P fl).
Proof.
  intros H. rewrite <- (insert_delete_id m f fl H) at 2. rewrite cnt_insert by apply lookup_delete_eq. lia.
Qed.

Lemma cnt_replace P m f fl fl' : m !! f = Some fl -> P fl' = P fl -> cnt P (<[f := fl']> m) = cnt P m.
Proof.
  intros H E. rewrite <- insert_delete_eq, cnt_insert by apply lookup_delete_eq. rewrite (cnt_delete P m f fl H), E. lia.
Qed.

Lemma cnt_pos P m f fl : m !! f = Some fl -> P fl = true -> 0 < cnt P m.
Proof.
  intros H E. rewrite <- (insert_delete_id m f fl H), cnt_insert by apply lookup_delete_eq. rewrite E. unfold cnt, b2z. lia.
Qed.

Lemma cnt_zero P m : (forall f fl, m !! f = Some fl -> P fl = false) -> cnt P m = 0.
Proof.
  intros H. unfold cnt. replace (List.filter P (map_to_list m).*2) with (@nil file); [done|].
  assert (forall fl, fl ∈ (map_to_list m).*2 -> P fl = false) as H'.
  { intros fl ([f fl'] & -> & Hin)%list_elem_of_fmap. apply elem_of_map_to_list in Hin. by eapply H. }
  revert H'. generalize ((map_to_list m).*2). intros l. induction l as [|x l IH]; intros H'; [done|]. cbn.
  rewrite (H' x) by (by left). apply IH. intros fl Hfl. apply H'. by right.
Qed.

Lemma cnt_imp P Q m : (forall fl, P fl = true -> Q fl = true) -> cnt P m <= cnt Q m.
Proof.
  intros H. unfold cnt. induction ((map_to_list m).*2) as [|x l IH]; [done|]. cbn.
  specialize (H x). destruct (P x), (Q x); cbn; try lia; by specialize (H eq_refl).
Qed.

(** Two files that both count are two. *)
Lemma cnt_two P m f g fl gl : m !! f = Some fl -> m !! g = Some gl -> f <> g -> P fl = true -> P gl = true -> 2 <= cnt P m.
Proof.
  intros Hf Hg Hne Pf Pg. rewrite <- (insert_delete_id m f fl Hf), cnt_insert by apply lookup_delete_eq. rewrite Pf.
  pose proof (cnt_pos P (delete f m) g gl ltac:(by rewrite lookup_delete_ne) Pg). unfold b2z. lia.
Qed.

(** ** The invariant *)

Definition uses (i : Z) (fl : file) : bool := file_inode fl =? i.
Definition denies (i : Z) (fl : file) : bool := (file_inode fl =? i) && deny_write fl.

Record hinv (s : fs) : Prop := {
  hi_files : forall f fl, files s !! f = Some fl -> f <> NULL /\ 0 <= pos fl < 2147483648 /\ is_Some (inodes s !! file_inode fl);
  hi_cnt : forall i w, inodes s !! i = Some w -> open_cnt w = cnt (uses i) (files s);
  hi_deny : forall i w, inodes s !! i = Some w -> deny_write_cnt w = cnt (denies i) (files s)
}.

Lemma uses_self fl : uses (file_inode fl) fl = true.
Proof. apply Z.eqb_refl. Qed.

Lemma hinv_same s s' : hinv s -> inodes s' = inodes s -> files s' = files s -> hinv s'.
Proof. intros [H1 H2 H3] Ei Ef. split; rewrite ?Ei, ?Ef; done. Qed.

Lemma hinv_quiet s s' : hinv s -> quiet s s' -> hinv s'.
Proof. intros H [Hs _]. pose proof (sbd_rest _ _ Hs) as R. unfold rest in R. injection R as E1 _ E3 _ _ _. by eapply hinv_same. Qed.

(** One open file. *)
Lemma hinv_single s f i p w :
  files s = {[f := mkFile i p false]} -> inodes s = {[i := w]} -> f <> NULL -> 0 <= p < 2147483648 ->
  open_cnt w = 1 -> deny_write_cnt w = 0 -> hinv s.
Proof.
  intros Ef Ei Hf Hp Ho Hd. split; rewrite ?Ef, ?Ei.
  - intros g gl [<- <-]%lookup_singleton_Some. split; [done|]. split; [done|]. cbn. rewrite lookup_singleton_eq. eauto.
  - intros k w' [<- <-]%lookup_singleton_Some. rewrite <- insert_empty, cnt_insert by done. unfold uses, cnt. cbn [file_inode].
    by rewrite Z.eqb_refl, map_to_list_empty, Ho.
  - intros k w' [<- <-]%lookup_singleton_Some. rewrite <- insert_empty, cnt_insert by done. unfold denies, cnt. cbn [file_inode deny_write].
    by rewrite andb_false_r, map_to_list_empty, Hd.
Qed.

(** A file changes its position. *)
Lemma hinv_moved s f fl p :
  hinv s -> files s !! f = Some fl -> 0 <= p < 2147483648 ->
  hinv (set_files (<[f := mkFile (file_inode fl) p (deny_write fl)]> (files s)) s).
Proof.
  intros [H1 H2 H3] Hf Hp. split; cbn.
  - intros g gl. rewrite lookup_insert_Some. intros [[<- <-]|[_ Hg]]; [|by apply H1]. destruct (H1 f fl Hf) as (A & _ & B). done.
  - intros i w Hi. rewrite (cnt_replace _ _ f fl) by done. by apply H2.
  - intros i w Hi. rewrite (cnt_replace _ _ f fl) by done. by apply H3.
Qed.

(** ** The interface keeps its invariant when a file moves *)

Lemma file_not_map live s f fl w :
  fs_inv live s -> files s !! f = Some fl -> inodes s !! file_inode fl = Some w -> sector w <> FREE_MAP_SECTOR -> f <> free_map_file s.
Proof.
  intros Hi Hf Hw Hs ->. destruct (fi_file _ _ (proj1 Hi)) as (fl0 & v & _ & Hfl & _ & Hv & Hsec & _). congruence.
Qed.

Lemma fs_ok_files live s m :
  fs_ok live s -> (forall a, brk s <= a -> m !! a = None) -> m !! free_map_file s = files s !! free_map_file s ->
  fs_ok live (set_files m s) /\ names live (set_files m s) = names live s.
Proof.
  intros Hok Ha Hm. destruct (fo_root _ _ Hok) as (dr & Hdr & _).
  apply (fs_ok_keep live s _ dr); [done| |done|done|done]. by apply fs_inv_set_files; [apply Hok|..].
Qed.

Lemma fs_ok_replace live s f fl fl' w :
  fs_ok live s -> files s !! f = Some fl -> inodes s !! file_inode fl = Some w -> sector w <> FREE_MAP_SECTOR ->
  fs_ok live (set_files (<[f := fl']> (files s)) s) /\ names live (set_files (<[f := fl']> (files s)) s) = names live s.
Proof.
  intros Hok Hf Hw Hs. pose proof (file_not_map live s f fl w (fo_inv _ _ Hok) Hf Hw Hs) as Hne.
  apply fs_ok_files; [done| |by apply lookup_insert_ne].
  intros a Ha. destruct (fi_fresh _ _ (proj1 (fo_inv _ _ Hok)) a Ha) as (_ & Hn & _).
  rewrite lookup_insert_ne; [done|]. intros ->. congruence.
Qed.

(** A user's file: not the free map, not the root directory. *)
Definition user_file (s : fs) (f : Z) (fl : file) (w : inode) : Prop :=
  files s !! f = Some fl /\ inodes s !! file_inode fl = Some w /\ sector w <> FREE_MAP_SECTOR /\ sector w <> ROOT_DIR_SECTOR.

Section operations.
Context (live : gmap Z inode_disk) (s : fs) (Hok : fs_ok live s) (Hh : hinv s).

Lemma fil_runs f fl : files s !! f = Some fl -> f <> NULL /\ fil f s = Ok (fl, s).
Proof.
  intros Hf. destruct (hi_files s Hh f fl Hf) as (Hn & _). split; [done|]. unfold fil, gets_opt. by rewrite (proj2 (Z.eqb_neq _ _) Hn), Hf.
Qed.

Lemma inod_runs i w : inodes s !! i = Some w -> i <> NULL /\ inod i s = Ok (w, s) /\ live !! sector w = Some (data w).
Proof.
  intros Hw. destruct (fo_inv _ _ Hok) as (Hi & _ & Hl). destruct (fi_open _ _ Hi i w (Hl i w Hw) Hw) as (Hn & Hlive & _).
  split; [done|]. split; [|done]. by apply inod_run.
Qed.

Definition at_pos (f : Z) (fl : file) (p : Z) (s' : fs) : fs := set_files (<[f := mkFile (file_inode fl) p (deny_write fl)]> (files s')) s'.

Lemma advance_run s1 f fl n :
  files s1 !! f = Some fl -> f <> NULL -> 0 <= pos fl + n < 2147483648 -> advance f n s1 = Ok (tt, at_pos f fl (pos fl + n) s1).
Proof.
  intros Hf Hn Hp. unfold advance, upd_file. assert (fil f s1 = Ok (fl, s1)) as E by (unfold fil, gets_opt; by rewrite (proj2 (Z.eqb_neq _ _) Hn), Hf).
  mrun E. rewrite s32_id by lia. done.
Qed.

Lemma file_length_run f fl w : user_file s f fl w -> file_length f s = Ok (dlength (data w), s).
Proof.
  intros (Hf & Hw & _). destruct (fil_runs f fl Hf) as [Hn E], (inod_runs _ w Hw) as (_ & Ew & _).
  unfold file_length. rewrite (proj2 (Z.eqb_neq _ _) Hn). cbn [negb]. mnorm. mrun E. unfold inode_length. by mrun Ew.
Qed.

Lemma file_tell_run f fl w : user_file s f fl w -> file_tell f s = Ok (pos fl, s).
Proof.
  intros (Hf & _). destruct (fil_runs f fl Hf) as [Hn E]. unfold file_tell. rewrite (proj2 (Z.eqb_neq _ _) Hn). cbn [negb]. mnorm. by mrun E.
Qed.

Lemma file_seek_run f fl w p :
  user_file s f fl w -> 0 <= p < 2147483648 ->
  file_seek f p s = Ok (tt, at_pos f fl p s) /\ fs_ok live (at_pos f fl p s) /\ names live (at_pos f fl p s) = names live s /\ hinv (at_pos f fl p s).
Proof.
  intros (Hf & Hw & Hs & _) Hp. destruct (fil_runs f fl Hf) as [Hn E]. split.
  - unfold file_seek. rewrite (proj2 (Z.eqb_neq _ _) Hn), (proj2 (Z.geb_le _ _)) by lia. cbn [negb]. mnorm.
    unfold upd_file. by mrun E.
  - destruct (fs_ok_replace live s f fl (mkFile (file_inode fl) p (deny_write fl)) w Hok Hf Hw Hs). split; [done|]. split; [done|].
    by apply hinv_moved.
Qed.

(** The bytes that a transfer moves. *)
Definition moved (w : inode) (size p : Z) : Z := Z.min size (Z.max 0 (dlength (data w) - p)).

Lemma moved_range w size p : live !! sector w = Some (data w) -> 0 <= size -> 0 <= p < 2147483648 -> 0 <= moved w size p /\ 0 <= p + moved w size p < 2147483648.
Proof.
  intros Hl Hs Hp. destruct (fi_live _ _ (proj1 (fo_inv _ _ Hok)) _ _ Hl) as [_ [] _ _ _]. unfold moved. lia.
Qed.

Lemma file_read_run f fl w buffer size :
  user_file s f fl w -> 0 <= size <= Z.of_nat (length buffer) -> let k := moved w size (pos fl) in
  exists s', file_read f buffer size s
      = Ok ((k, take (Z.to_nat k) (drop (Z.to_nat (pos fl)) (contents s (data w))) ++ drop (Z.to_nat k) buffer), at_pos f fl (pos fl + k) s') /\
    quiet s s' /\ fs_ok live (at_pos f fl (pos fl + k) s') /\ names live (at_pos f fl (pos fl + k) s') = names live s /\ hinv (at_pos f fl (pos fl + k) s').
Proof.
  intros (Hf & Hw & Hs & _) Hsz k. destruct (fil_runs f fl Hf) as [Hn E], (inod_runs _ w Hw) as (_ & Ew & Hl).
  destruct (hi_files s Hh f fl Hf) as (_ & Hp & _). destruct (moved_range w size (pos fl) Hl ltac:(lia) Hp) as [Hk1 Hk2]. fold k in Hk1, Hk2.
  unfold file_read. mrun E. pose proof (fo_inv _ _ Hok) as Hi.
  destruct (inode_read_at_ok s (file_inode fl) w buffer size (pos fl)) as (k' & s' & Hr & _ & Hq & Hall); [|done|done|].
  { eapply inv_opened; [apply Hi| |done]. by eapply (proj2 (proj2 Hi)). }
  rewrite (Hall (fi_mem _ _ (proj1 Hi))) in Hr. change (available (data w) size (pos fl)) with k in Hr. mrun Hr. cbn [fst].
  pose proof (sbd_rest _ _ (proj1 Hq)) as R. unfold rest in R. injection R as E1 _ E3 _ _ _.
  rewrite <- E3 in Hf. mrun (advance_run s' f fl k Hf Hn Hk2). exists s'. split; [done|]. split; [done|].
  destruct (fs_inv_quiet live s s' Hi Hq) as [Hi' Hk']. destruct (fo_root _ _ Hok) as (dr & Hdr & _).
  destruct (fs_ok_keep live s s' dr Hok Hi' E1 Hdr) as [Hok' En]; [unfold contents, flat; by rewrite (proj2 Hq)|].
  rewrite <- E1 in Hw. destruct (fs_ok_replace live s' f fl (mkFile (file_inode fl) (pos fl + k) (deny_write fl)) w Hok' Hf Hw Hs) as [A B].
  split; [done|]. split; [by rewrite <- En|]. apply hinv_moved; [by eapply hinv_quiet|done|done].
Qed.

Lemma file_write_run f fl w buffer size :
  user_file s f fl w -> 0 <= size <= Z.of_nat (length buffer) ->
  let k := if deny_write_cnt w =? 0 then moved w size (pos fl) else 0 in
  exists s', file_write f buffer size s = Ok (k, at_pos f fl (pos fl + k) s') /\ same_but_disk s s' /\
    contents s' (data w) = splice (Z.to_nat (pos fl)) (take (Z.to_nat k) buffer) (contents s (data w)) /\
    other_files live (sector w) s s' /\
    fs_ok live (at_pos f fl (pos fl + k) s') /\ names live (at_pos f fl (pos fl + k) s') = names live s /\ hinv (at_pos f fl (pos fl + k) s').
Proof.
  intros (Hf & Hw & Hs & Hr) Hsz k. destruct (fil_runs f fl Hf) as [Hn E], (inod_runs _ w Hw) as (_ & Ew & Hl).
  destruct (hi_files s Hh f fl Hf) as (_ & Hp & _). destruct (moved_range w size (pos fl) Hl ltac:(lia) Hp) as [Hk1 Hk2].
  assert (0 <= k /\ 0 <= pos fl + k < 2147483648) as [Hk3 Hk4] by (unfold k; destruct (deny_write_cnt w =? 0); lia).
  pose proof (fo_inv _ _ Hok) as Hi. unfold file_write. mrun E.
  assert (exists s', inode_write_at (file_inode fl) buffer size (pos fl) s = Ok (k, s') /\ fs_inv live s' /\ same_but_disk s s' /\
    contents s' (data w) = splice (Z.to_nat (pos fl)) (take (Z.to_nat k) buffer) (contents s (data w)) /\ other_files live (sector w) s s')
    as (s' & Hwr & Hi' & Hsb & Hc & Ho).
  { unfold k. destruct (Z.eqb_spec (deny_write_cnt w) 0) as [Hd|Hd].
    - by apply (write_file_ok live s (file_inode fl) w).
    - exists s. unfold inode_write_at. mrun Ew. rewrite (proj2 (Z.eqb_neq _ _) Hd). cbn [negb].
      split; [done|]. split; [done|]. split; [reflexivity|]. split; [symmetry; apply splice_nil|by intros ? ? ? ?]. }
  mrun Hwr. pose proof (sbd_rest _ _ Hsb) as R. unfold rest in R. injection R as E1 _ E3 _ _ _.
  rewrite <- E3 in Hf. mrun (advance_run s' f fl k Hf Hn Hk4). exists s'. split; [done|]. split; [done|]. split; [done|]. split; [done|].
  destruct (fo_root _ _ Hok) as (dr & Hdr & _).
  destruct (fs_ok_keep live s s' dr Hok Hi' E1 Hdr) as [Hok' En]; [by apply (Ho ROOT_DIR_SECTOR)|].
  rewrite <- E1 in Hw. destruct (fs_ok_replace live s' f fl (mkFile (file_inode fl) (pos fl + k) (deny_write fl)) w Hok' Hf Hw Hs) as [A B].
  split; [done|]. split; [by rewrite <- En|]. apply hinv_moved; [by eapply hinv_same|done|done].
Qed.

End operations.

(** ** Opening *)

Lemma filesys_open_handles live s name e :
  fs_ok live s -> hinv s -> (forall i w, inodes s !! i = Some w -> open_cnt w < 2147483646) -> name_ok name -> length e = 20%nat ->
  exists f s', filesys_open name e s = Ok (f, s') /\ fs_ok live s' /\ names live s' = names live s /\ files_kept live s s' /\ hinv s' /\
    match names live s !! name with
    | Some sec => f <> NULL /\ files s !! f = None /\ exists j w, files s' = <[f := mkFile j 0 false]> (files s) /\
        inodes s' = <[j := w]> (inodes s) /\ sector w = sec /\
        (forall w0, inodes s !! j = Some w0 -> sector w0 = sec) /\
        deny_write_cnt w = match inodes s !! j with Some w0 => deny_write_cnt w0 | None => 0 end
    | None => f = NULL /\ files s' = files s /\ inodes s' = inodes s
    end.
Proof.
  intros Hok Hh Hroom Hn He.
  destruct (filesys_open_run live s name e Hok) as (f & s' & Hr & Hok' & En & Hk & Hcase); [|done|done| |].
  { intros i v Hv _. specialize (Hroom i v Hv). lia. }
  { intros sec _ i v Hv _. specialize (Hroom i v Hv). lia. }
  exists f, s'. split; [done|]. split; [done|]. split; [done|]. split; [done|].
  destruct (names live s !! name) as [sec|].
  2:{ destruct Hcase as (-> & Ei & Ef & _). split; [by eapply hinv_same|done]. }
  destruct Hcase as [(j & w & Ef & Ei & Hsec & Hl & Hjn & Hrem & Hdeny & Hrest) [Hfn Hfree] _].
  assert (open_cnt w = cnt (uses j) (files s) + 1 /\ deny_write_cnt w = cnt (denies j) (files s) /\
    (forall w0, inodes s !! j = Some w0 -> sector w0 = sec)) as (Ho & Hd & Hs0).
  { destruct (Z.eqb_spec (open_cnt w) 1) as [E1|E1].
    - assert (inodes s !! j = None) as Hnone by (rewrite <- Hrest; apply lookup_delete_eq). rewrite Hnone in Hdeny.
      assert (forall f0 fl, files s !! f0 = Some fl -> uses j fl = false) as Hno.
      { intros f0 fl Hf0. destruct (hi_files s Hh f0 fl Hf0) as (_ & _ & [x Hx]). apply Z.eqb_neq. congruence. }
      rewrite !cnt_zero; [split; [lia|split; [done|congruence]]| |done].
      intros f0 fl Hf0. unfold denies. specialize (Hno f0 fl Hf0). unfold uses in Hno. by rewrite Hno.
    - assert (inodes s !! j = Some (set_open_cnt (open_cnt w - 1) w)) as Hsome by (rewrite <- Hrest; apply lookup_insert_eq).
      rewrite Hsome in Hdeny. pose proof (hi_cnt s Hh j _ Hsome) as Hc. pose proof (hi_deny s Hh j _ Hsome) as Hc2. cbn in Hc, Hc2.
      split; [lia|]. split; [lia|]. intros w0 [= <-]%(eq_trans (eq_sym Hsome)). done. }
  split; [|split; [done|split; [done|by exists j, w]]].
  split; rewrite ?Ef, ?Ei.
  - intros g gl. rewrite lookup_insert_Some. intros [[<- <-]|[_ Hg]]; cbn.
    + split; [done|]. split; [lia|]. rewrite lookup_insert_eq. eauto.
    + destruct (hi_files s Hh g gl Hg) as (A & B & C). split; [done|]. split; [done|].
      destruct (decide (file_inode gl = j)) as [->|]; [rewrite lookup_insert_eq; eauto|by rewrite lookup_insert_ne].
  - intros i w0. rewrite cnt_insert by done. rewrite lookup_insert_Some. unfold uses at 2. cbn [file_inode].
    intros [[<- <-]|[Hne Hi]]; [rewrite Z.eqb_refl; cbn; lia|]. rewrite (proj2 (Z.eqb_neq j i)) by done. cbn.
    rewrite (hi_cnt s Hh i w0 Hi). lia.
  - intros i w0. rewrite cnt_insert by done. rewrite lookup_insert_Some. unfold denies at 2. cbn [file_inode deny_write].
    rewrite andb_false_r. cbn. intros [[<- <-]|[Hne Hi]]; [lia|]. rewrite (hi_deny s Hh i w0 Hi). lia.
Qed.

(** ** Closing *)

(** The interface after an inode has been closed. *)
Lemma fs_ok_closed live s s' w i :
  fs_ok live s -> inodes s !! i = Some w -> fs_inv (live_after w live) s' -> files_kept (live_after w live) s s' ->
  (forall j v, inodes s' !! j = Some v -> exists v0, inodes s !! j = Some v0 /\ sector v = sector v0 /\ removed v = removed v0 /\
     (sector v = ROOT_DIR_SECTOR -> deny_write_cnt v = deny_write_cnt v0)) ->
  fs_ok (live_after w live) s' /\ names (live_after w live) s' = names live s.
Proof.
  intros Hok Hw Hi Hk Hino. pose proof Hok as [H1 (dr & Hr & Hdir) H3 H4 H5].
  assert (forall x d, live !! x = Some d -> (dies w = true -> x <> sector w) -> live_after w live !! x = Some d) as Hsub.
  { intros x d Hx Hne. unfold live_after. destruct (dies w); [|done]. by rewrite lookup_delete_ne by (apply not_eq_sym; auto). }
  assert (dies w = true -> sector w <> ROOT_DIR_SECTOR /\ forall n, names live s !! n <> Some (sector w)) as Hdead.
  { unfold dies. rewrite andb_true_iff. intros [_ Hrem]. destruct (H5 i w Hw) as [_ C]. by destruct (C Hrem) as (_ & A & B). }
  pose proof (Hsub ROOT_DIR_SECTOR dr Hr ltac:(intros D; apply not_eq_sym, Hdead, D)) as Hr'.
  assert (contents s' dr = contents s dr) as Ec by (by apply (Hk ROOT_DIR_SECTOR)).
  assert (names (live_after w live) s' = names live s) as En by (by rewrite !(names_eq _ _ dr), Ec).
  split; [|done]. split; [done|exists dr; by rewrite Ec| | |]; rewrite En.
  - intros n x Hx. destruct (H3 n x Hx) as (A1 & A2 & [dx A3]). do 2 (split; [done|]). exists dx. apply Hsub; [done|].
    intros D ->. by apply (proj2 (Hdead D) n).
  - done.
  - intros j v Hv. destruct (Hino j v Hv) as (v0 & Hv0 & E1 & E2 & E3). destruct (H5 j v0 Hv0) as [C1 C2].
    unfold clean. rewrite E2. split; [intros E; rewrite E3 by done; apply C1; congruence|]. rewrite E1. done.
Qed.

(** What closing [f] does. *)
Record closed (live : gmap Z inode_disk) (s : fs) (f : Z) (fl : file) (w : inode) (s' : fs) : Prop := {
  cl_ok : fs_ok (live_after w live) s';
  cl_names : names (live_after w live) s' = names live s;
  cl_handles : hinv s';
  cl_kept : files_kept (live_after w live) s s';
  cl_files : files s' = delete f (files s);
  cl_inodes : exists w', inodes s' = (if open_cnt w =? 1 then delete (file_inode fl) (inodes s) else <[file_inode fl := w']> (inodes s)) /\
    sector w' = sector w /\ data w' = data w /\ deny_write_cnt w' = deny_write_cnt w - b2z (deny_write fl)
}.

(** Dropping the handle: the counters of its inode. *)
Lemma hinv_drop s s' f fl w w' :
  hinv s -> files s !! f = Some fl -> inodes s !! file_inode fl = Some w ->
  files s' = delete f (files s) -> inodes s' = (if open_cnt w =? 1 then delete (file_inode fl) (inodes s) else <[file_inode fl := w']> (inodes s)) ->
  open_cnt w' = open_cnt w - 1 -> deny_write_cnt w' = deny_write_cnt w - b2z (deny_write fl) -> hinv s'.
Proof.
  intros Hh Hf Hw Ef Ei Ho Hd. pose proof (hi_cnt s Hh _ w Hw) as Hcw. split.
  - intros g gl. rewrite Ef, lookup_delete_Some. intros [Hne Hg]. destruct (hi_files s Hh g gl Hg) as (A & B & C). split; [done|]. split; [done|].
    rewrite Ei. destruct (Z.eqb_spec (open_cnt w) 1) as [E1|_].
    + rewrite lookup_delete_ne; [done|]. intros E.
      pose proof (cnt_two (uses (file_inode fl)) (files s) f g fl gl Hf Hg ltac:(done) (uses_self fl) ltac:(by apply Z.eqb_eq)). lia.
    + destruct (decide (file_inode gl = file_inode fl)) as [->|]; [rewrite lookup_insert_eq; eauto|by rewrite lookup_insert_ne].
  - intros j v Hj. rewrite Ef, (cnt_delete _ _ f fl Hf). unfold uses at 2. rewrite Ei in Hj. destruct (Z.eqb_spec (open_cnt w) 1) as [E1|_].
    + apply lookup_delete_Some in Hj as [Hne Hj]. rewrite (proj2 (Z.eqb_neq _ _) Hne), (hi_cnt s Hh j v Hj). cbn. lia.
    + apply lookup_insert_Some in Hj as [[<- <-]|[Hne Hj]].
      * rewrite Z.eqb_refl. cbn. lia.
      * rewrite (proj2 (Z.eqb_neq _ _) Hne), (hi_cnt s Hh j v Hj). cbn. lia.
  - intros j v Hj. rewrite Ef, (cnt_delete _ _ f fl Hf). unfold denies at 2. rewrite Ei in Hj. destruct (Z.eqb_spec (open_cnt w) 1) as [E1|_].
    + apply lookup_delete_Some in Hj as [Hne Hj]. rewrite (proj2 (Z.eqb_neq _ _) Hne), (hi_deny s Hh j v Hj). cbn. lia.
    + apply lookup_insert_Some in Hj as [[<- <-]|[Hne Hj]].
      * rewrite Z.eqb_refl, Hd, (hi_deny s Hh _ w Hw). cbn [andb]. lia.
      * rewrite (proj2 (Z.eqb_neq _ _) Hne), (hi_deny s Hh j v Hj). cbn. lia.
Qed.

(** [file_allow_write]: the file denies no longer. *)
Lemma file_allow_run live s f fl w :
  fs_ok live s -> hinv s -> user_file s f fl w ->
  let w' := set_deny (deny_write_cnt w - b2z (deny_write fl)) w in
  exists s', file_allow_write f s = Ok (tt, s') /\ fs_ok live s' /\ names live s' = names live s /\ same_store s s' /\
    files s' = <[f := mkFile (file_inode fl) (pos fl) false]> (files s) /\ inodes s' = <[file_inode fl := w']> (inodes s).
Proof.
  intros Hok Hh (Hf & Hw & Hs & Hr) w'. destruct (fil_runs s Hh f fl Hf) as [Hn E], (inod_runs live s Hok _ w Hw) as (Hin & Ew & Hl).
  unfold file_allow_write. rewrite (proj2 (Z.eqb_neq _ _) Hn). cbn [negb]. mnorm. mrun E.
  destruct (fo_inv _ _ Hok) as (Hi0 & _ & Hlist). destruct (fi_open _ _ Hi0 _ w (Hlist _ w Hw) Hw) as (_ & _ & Hc).
  destruct (deny_write fl) eqn:Ed.
  2:{ exists s. split; [done|]. split; [done|]. split; [done|]. split; [reflexivity|].
      split; [symmetry; apply insert_id; rewrite Hf; destruct fl; cbn in *; by subst|]. symmetry. apply insert_id.
      rewrite Hw. f_equal. unfold w', set_deny. cbn. rewrite Z.sub_0_r. by destruct w. }
  unfold upd_file. rewrite bind_bind. mrun E. mnorm. set (s1 := set_files _ s).
  assert (inodes s1 !! file_inode fl = Some w) as Hw1 by exact Hw. unfold inode_allow_write. mrun (inod_run _ _ _ Hw1 Hin).
  pose proof (hi_deny s Hh _ w Hw) as Hd. pose proof (hi_cnt s Hh _ w Hw) as Ho.
  pose proof (cnt_pos (denies (file_inode fl)) (files s) f fl Hf ltac:(unfold denies; by rewrite Z.eqb_refl, Ed)).
  pose proof (cnt_imp (denies (file_inode fl)) (uses (file_inode fl)) (files s) ltac:(unfold denies, uses; intros ? [??]%andb_prop; done)).
  rewrite (proj2 (Z.gtb_lt _ _)), (proj2 (Z.leb_le _ _)) by lia. mnorm. rewrite (upd_inode_run _ _ w s1 Hw1 Hin).
  destruct (fs_ok_replace live s f fl (mkFile (file_inode fl) (pos fl) false) w Hok Hf Hw Hs) as [Hok1 En1]. fold s1 in Hok1, En1.
  eexists. split; [done|].
  destruct (fs_ok_inodes live s1 (set_inodes (<[file_inode fl := w']> (inodes s1)) s1)) as [Hok2 En2]; [done| |done| |].
  - apply (fs_inv_upd_inode live s1 (file_inode fl) w); [apply Hok1|done|done|done|cbn; lia|done].
  - cbn. intros j v. rewrite lookup_insert_Some. intros [[<- <-]|[_ Hv]]; [|rewrite En1; by apply (fo_open _ _ Hok j)].
    destruct (fo_open _ _ Hok _ w Hw) as [C1 C2]. rewrite En1. split; [done|done].
  - split; [done|]. split; [by rewrite <- En1|]. done.
Qed.

Lemma file_close_run live s f fl w :
  fs_ok live s -> hinv s -> user_file s f fl w -> exists s', file_close f s = Ok (tt, s') /\ closed live s f fl w s'.
Proof.
  intros Hok Hh Hu. pose proof Hu as (Hf & Hw & Hs & Hr). destruct (hi_files s Hh f fl Hf) as (Hn & _).
  destruct (file_allow_run live s f fl w Hok Hh Hu) as (s1 & Hr1 & Hok1 & En1 & Hst1 & Ef1 & Ei1).
  set (w1 := set_deny _ w) in Ei1. unfold file_close. rewrite (proj2 (Z.eqb_neq _ _) Hn). mrun Hr1.
  assert (fil f s1 = Ok (mkFile (file_inode fl) (pos fl) false, s1)) as Hfil
    by (unfold fil, gets_opt; by rewrite (proj2 (Z.eqb_neq _ _) Hn), Ef1, lookup_insert_eq).
  mrun Hfil. cbn [file_inode]. pose proof (fo_inv _ _ Hok1) as Hi1.
  destruct (inode_close_ok live s1 (file_inode fl) w1 Hi1) as (s2 & Hr2 & Hi2 & Hk2 & (F1 & _ & F3 & _) & F4 & _);
    [by rewrite Ei1, lookup_insert_eq|done|]. mrun Hr2.
  change (live_after w1 live) with (live_after w live) in *. change (open_cnt w1) with (open_cnt w) in *.
  assert (files_kept (live_after w live) s s2) as Hk.
  { etrans; [|exact Hk2]. by apply same_store_kept. }
  set (s3 := set_files (delete f (files s2)) s2). exists s3. split; [done|].
  assert (inodes s3 = if open_cnt w =? 1 then delete (file_inode fl) (inodes s) else <[file_inode fl := set_open_cnt (open_cnt w - 1) w1]> (inodes s)) as Ei3.
  { cbn. rewrite F4, Ei1. destruct (open_cnt w =? 1); [apply delete_insert_eq|apply insert_insert_eq]. }
  assert (files s3 = delete f (files s)) as Ef3 by (cbn; by rewrite F1, Ef1, delete_insert_eq).
  assert (f <> free_map_file s) as Hmap by (by eapply (file_not_map live s f fl w (fo_inv _ _ Hok))).
  assert (fs_inv (live_after w live) s3) as Hi3.
  { apply fs_inv_set_files; [done| |].
    - intros a Ha. apply lookup_delete_None. right. by apply (fi_fresh _ _ (proj1 Hi2)).
    - apply lookup_delete_ne. rewrite F3. destruct Hst1 as (_ & _ & ->). done. }
  destruct (fs_ok_closed live s s3 w (file_inode fl) Hok Hw Hi3 Hk) as [Hok3 En3].
  { intros j v. rewrite Ei3. destruct (open_cnt w =? 1).
    - rewrite lookup_delete_Some. intros [_ Hv]. eauto.
    - rewrite lookup_insert_Some. intros [[<- <-]|[_ Hv]]; [|by eauto]. exists w. split; [done|]. split; [done|]. split; [done|]. intros Hx. by destruct (Hr Hx). }
  split; [done|done| |done|done|].
  - by eapply (hinv_drop s s3 f fl w).
  - eexists. split; [exact Ei3|]. done.
Qed.

End Handles.
