(* ===== verification/FsUtilProps.v ===== *)
(** * Theorems on the file-system actions

    What src/src/filesys/fsutil.c does to the file system and to the scratch
    device, in terms of the map from names to contents (FsRefine.v) and of
    archives (Archive.v). *)

From Stdlib Require Import Ascii String.
From S2P Require Import Prelude KState Bitmap FsState Inode FileOps Directory FsInv DirProps FileSys Mount FsRefine FsProps Stdio Ustar Archive FsUtil Blocks Handles.
Import FsState Inode FileOps Directory FsInv DirProps FileSys FsRefine.

Module FsUtilProps.
Import Stdio Ustar Archive FsUtil Handles.

(** ** Commands of the file system, output *)

Lemma on_files_run {A} (m : M fs A) s a f : m (fsys s) = Ok (a, f) -> on_fs m s = Ok (a, set_fsys f s).
Proof. unfold on_fs. by intros ->. Qed.

Lemma of_res_run {A} (r : res A) a (s : st) : r = Ok a -> of_res r s = Ok (a, s).
Proof. unfold of_res. by intros ->. Qed.

Lemma say format args (s : st) : Blocks.format_ok format args = true -> exists t, FsUtil.kprintf format args s = Ok (tt, FsUtil.set_console t s).
Proof.
  intros H. destruct (Blocks.printf_works format args H) as (t & E). unfold FsUtil.kprintf. mrun (of_res_run _ t s E). by eexists.
Qed.

Ltac says := match goal with |- context [bind (FsUtil.kprintf ?f ?a) _ ?s] =>
  let t := fresh "t" in let H := fresh "H" in destruct (say f a s eq_refl) as (t & H); mrun H; clear H end.

(** Everything but the console is equal. *)
Definition same_but_console (s s' : st) : Prop := s' = FsUtil.set_console (FsUtil.console s') s.

(** ** The scratch device *)

Record device (s : st) (dev : list (list Z)) : Prop := {
  dv_here : scratch s = Some dev;
  dv_sectors : Forall (fun x => length x = 512%nat) dev;
  dv_size : Z.of_nat (length dev) < 4294967296
}.

Lemma scratch_size_run s dev : device s dev -> scratch_size s = Ok (Z.of_nat (length dev), s).
Proof. intros []. unfold scratch_size, FsUtil.sectors, gets_opt, bind. by rewrite dv_here0. Qed.

Lemma scratch_check_run s dev sec :
  device s dev -> scratch_check sec s = if sec >=? Z.of_nat (length dev) then Err Kernel_panic else Ok (tt, s).
Proof. intros Hd. unfold scratch_check. mrun (scratch_size_run s dev Hd). by destruct (_ >=? _). Qed.

Lemma scratch_read_run s dev sec l data :
  device s dev -> 0 <= sec -> drop (Z.to_nat sec) dev = data :: l -> scratch_read sec s = Ok (data, s).
Proof.
  intros Hd Hs E. unfold scratch_read.
  assert (dev !! Z.to_nat sec = Some data) as Hl by (by rewrite <- (Nat.add_0_r (Z.to_nat sec)), <- lookup_drop, E).
  pose proof (lookup_lt_Some _ _ _ Hl). unfold bind at 1. rewrite (scratch_check_run s dev), Z.geb_leb, (proj2 (Z.leb_gt _ _)) by (done || lia).
  unfold FsUtil.sectors, gets_opt, bind. by rewrite (dv_here _ _ Hd), Hl.
Qed.

Lemma scratch_read_end s dev sec :
  device s dev -> 0 <= sec -> drop (Z.to_nat sec) dev = [] -> scratch_read sec s = Err Kernel_panic.
Proof.
  intros Hd Hs E. unfold scratch_read. pose proof (length_drop dev (Z.to_nat sec)) as H. rewrite E in H. cbn in H.
  unfold bind at 1. by rewrite (scratch_check_run s dev), Z.geb_leb, (proj2 (Z.leb_le _ _)) by (done || lia).
Qed.

Lemma scratch_write_run s dev sec buffer :
  device s dev -> 0 <= sec < Z.of_nat (length dev) ->
  scratch_write sec buffer s = Ok (tt, set_scratch (Some (<[Z.to_nat sec := buffer]> dev)) s).
Proof.
  intros Hd Hs. unfold scratch_write, bind at 1. rewrite (scratch_check_run s dev), Z.geb_leb, (proj2 (Z.leb_gt _ _)) by (done || lia).
  unfold FsUtil.sectors, gets_opt, bind. by rewrite (dv_here _ _ Hd).
Qed.

Lemma scratch_write_end s dev sec buffer :
  device s dev -> Z.of_nat (length dev) <= sec -> scratch_write sec buffer s = Err Kernel_panic.
Proof.
  intros Hd Hs. unfold scratch_write, bind at 1. by rewrite (scratch_check_run s dev), Z.geb_leb, (proj2 (Z.leb_le _ _)) by (done || lia).
Qed.

(** ** The file system between two actions *)

(** Nothing is protected, and the counters have room. *)
Record idle (s : fs) : Prop := {
  id_handles : hinv s;
  id_open : forall f fl, files s !! f = Some fl -> deny_write fl = false;
  id_few : Z.of_nat (size (files s)) < 2147483645
}.

Lemma cnt_size P (m : gmap Z file) : cnt P m <= Z.of_nat (size m).
Proof.
  induction m as [|f fl m Hf IH] using map_ind; [reflexivity|].
  rewrite cnt_insert, map_size_insert_None by done. unfold b2z. destruct (P fl); lia.
Qed.

Lemma idle_room s : idle s -> forall i w, inodes s !! i = Some w -> open_cnt w < 2147483645.
Proof. intros [Hh _ Hf] i w Hi. rewrite (hi_cnt s Hh i w Hi). pose proof (cnt_size (uses i) (files s)). lia. Qed.

Lemma idle_deny s : hinv s -> (forall f fl, files s !! f = Some fl -> deny_write fl = false) -> forall i w, inodes s !! i = Some w -> deny_write_cnt w = 0.
Proof.
  intros Hh Hd i w Hi. rewrite (hi_deny s Hh i w Hi). apply cnt_zero. intros f fl Hf. unfold denies. rewrite (Hd f fl Hf). apply andb_false_r.
Qed.

Lemma idle_steady s : idle s -> steady s.
Proof.
  intros Hi i w Hw. split; [pose proof (idle_room s Hi i w Hw); lia|]. by eapply idle_deny; [apply Hi|apply Hi|].
Qed.

Lemma idle_files s s' : idle s -> hinv s' -> files s' = files s -> idle s'.
Proof. intros [_ H2 H3] Hh E. split; [done|by rewrite E|by rewrite E]. Qed.

Lemma idle_malloc live s : fs_ok live s -> idle s -> exists p s', malloc s = Ok (p, s') /\ p <> NULL /\ fs_ok live s' /\ idle s' /\ names live s' = names live s /\ files_kept live s s'.
Proof.
  intros Hok Hi. destruct (malloc_inv live s (fo_inv _ _ Hok)) as (s' & Hr & Hi' & Hq & _).
  pose proof (fi_brk _ _ (proj1 (fo_inv _ _ Hok))). exists (brk s), s'. split; [done|]. split; [unfold NULL; lia|].
  destruct (fs_inv_quiet live s s' (fo_inv _ _ Hok) Hq) as [_ Hk]. pose proof (sbd_rest _ _ (proj1 Hq)) as R. unfold rest in R. injection R as E1 _ E3 _ _ _.
  destruct (fo_root _ _ Hok) as (dr & Hdr & _).
  destruct (fs_ok_keep live s s' dr Hok Hi' E1 Hdr) as [Hok' En]; [unfold contents, flat; by rewrite (proj2 Hq)|].
  split; [done|]. split; [|done]. apply (idle_files s); [done|by eapply hinv_quiet; [apply Hi|]|done].
Qed.

(** A file has new contents. *)
Lemma abs_written live s s' name sec d bs :
  fs_ok live s -> names live s' = names live s -> names live s !! name = Some sec -> live !! sec = Some d ->
  contents s' d = bs ->
  (forall x dx, live !! x = Some dx -> x <> sec -> x <> FREE_MAP_SECTOR -> contents s' dx = contents s dx) ->
  abs live s' = <[name := bs]> (abs live s).
Proof.
  intros Hok En Hn Hl Hc Ho. apply map_eq. intros n. apply option_eq. intros b. rewrite abs_lookup, En.
  destruct (decide (n = name)) as [->|Hne].
  - rewrite lookup_insert_eq. split; [intros (x & dx & H1 & H2 & H3)|intros [= <-]]; [|by exists sec, d]. congruence.
  - rewrite lookup_insert_ne, abs_lookup by done.
    assert (forall x dx, names live s !! n = Some x -> live !! x = Some dx -> contents s' dx = contents s dx) as Hx.
    { intros x dx Hx Hdx. apply (Ho x dx Hdx); [|by apply (fo_named _ _ Hok n x)].
      intros ->. apply Hne. by apply (fo_inj _ _ Hok n name sec). }
    split; intros (x & dx & H1 & H2 & H3); exists x, dx; (split; [done|]); (split; [done|]); rewrite <- H3; [symmetry|]; by apply (Hx x).
Qed.

(** ** Copying into a file *)

Lemma next_extract_run s sec : extract_sector s = sec -> 0 <= sec < 4294967295 -> next_extract s = Ok (sec, set_extract (sec + 1) s).
Proof. intros <- H. unfold next_extract. mnorm. by rewrite u32_id by lia. Qed.

Lemma chunk_range size : 0 < size -> 0 < chunk size <= 512 /\ chunk size <= size /\ sectors_of (size - chunk size) = sectors_of size - 1 /\
  (size - chunk size = 0 \/ chunk size = 512).
Proof.
  intros H. unfold chunk. rewrite Z.gtb_ltb. destruct (Z.ltb_spec 512 size).
  - split; [lia|]. split; [lia|]. split; [|lia]. unfold sectors_of. replace (size - 512 + 511) with (size + 511 + (-1) * 512) by lia.
    rewrite Z.div_add by lia. lia.
  - split; [lia|]. split; [lia|]. split; [|lia]. rewrite Z.sub_diag. unfold sectors_of. change ((0 + 511) / 512) with 0.
    assert ((size + 511) / 512 = 1); [|lia]. symmetry. apply (Z.div_unique _ _ _ (size - 1)); lia.
Qed.

Lemma sectors_pos size : 0 <= size -> 0 <= sectors_of size.
Proof. intros H. pose proof (sectors_enough size H). lia. Qed.

(** The first [size] bytes of sectors. *)
Definition bytes_of (size : Z) (l : list (list Z)) : list Z := take (Z.to_nat size) (concat (take (Z.to_nat (sectors_of size)) l)).

Lemma bytes_of_cons size x l :
  0 < size -> length x = 512%nat -> bytes_of size (x :: l) = take (Z.to_nat (chunk size)) x ++ bytes_of (size - chunk size) l.
Proof.
  intros Hs Hx. destruct (chunk_range size Hs) as (H1 & H2 & H3 & H4). unfold bytes_of. pose proof (sectors_pos (size - chunk size) ltac:(lia)).
  rewrite H3 in *. replace (Z.to_nat (sectors_of size)) with (S (Z.to_nat (sectors_of size - 1))) by lia. cbn [take concat].
  destruct H4 as [E|E].
  - rewrite E. cbn [Z.to_nat take]. rewrite app_nil_r, take_app_le by lia. f_equal. lia.
  - rewrite E in *. rewrite (take_ge x) by lia. rewrite take_app, (take_ge x) by lia. do 2 f_equal. lia.
Qed.

Lemma bytes_of_length size l :
  0 <= size -> Forall (fun x => length x = 512%nat) l -> (Z.to_nat (sectors_of size) <= length l)%nat -> Z.of_nat (length (bytes_of size l)) = size.
Proof.
  intros Hs Hl Hk. pose proof (sectors_enough size Hs). unfold bytes_of. rewrite length_take.
  assert (forall k, (k <= length l)%nat -> length (concat (take k l)) = (512 * k)%nat) as E.
  { clear -Hl. induction Hl as [|x l Hx _ IH]; intros [|k] H; cbn in *; try lia. rewrite length_app, IH by lia. lia. }
  rewrite E by done. lia.
Qed.

Lemma copy_in_run fuel : forall live s f fl w size dev,
  (Z.to_nat (sectors_of size) < fuel)%nat -> fs_ok live (fsys s) -> hinv (fsys s) -> user_file (fsys s) f fl w -> deny_write_cnt w = 0 ->
  0 <= size -> pos fl + size <= dlength (data w) -> device s dev -> 0 <= extract_sector s ->
  let k := Z.to_nat (sectors_of size) in let l := drop (Z.to_nat (extract_sector s)) dev in
  if (length l <? k)%nat then copy_in fuel f size s = Err Kernel_panic
  else exists s', copy_in fuel f size s = Ok (tt, set_extract (extract_sector s + sectors_of size) (set_fsys s' s)) /\
    fs_ok live s' /\ hinv s' /\ names live s' = names live (fsys s) /\ inodes s' = inodes (fsys s) /\
    files s' = <[f := mkFile (file_inode fl) (pos fl + size) (deny_write fl)]> (files (fsys s)) /\
    contents s' (data w) = splice (Z.to_nat (pos fl)) (bytes_of size l) (contents (fsys s) (data w)) /\
    other_files live (sector w) (fsys s) s'.
Proof.
  induction fuel as [|fuel IH]; intros live s f fl w size dev Hfuel Hok Hh Hu Hdeny Hsz Hfit Hd Hext k l; [lia|].
  cbn [copy_in]. rewrite Z.gtb_ltb. destruct (Z.ltb_spec 0 size) as [Hpos|Hzero].
  2:{ assert (size = 0) as -> by lia. replace k with 0%nat by reflexivity. cbn [Nat.ltb Nat.leb]. exists (fsys s).
      change (sectors_of 0) with 0. rewrite !Z.add_0_r. destruct Hu as (Hf & _). split; [by destruct s|]. do 4 (split; [done|]).
      split; [rewrite insert_id; [done|by destruct fl]|]. split; [|by intros ? ? ? ?]. unfold bytes_of. cbn. by rewrite splice_nil. }
  destruct (chunk_range size Hpos) as (C1 & C2 & C3 & C4). pose proof (sectors_pos (size - chunk size) ltac:(lia)) as Hk1.
  pose proof (length_drop dev (Z.to_nat (extract_sector s))) as Hlen. fold l in Hlen.
  unfold next_extract. mnorm. set (s0 := set_extract _ s).
  assert (device s0 dev) as Hd0 by (destruct Hd; by split).
  destruct l as [|x l'] eqn:El.
  { rewrite (proj2 (Nat.ltb_lt _ _)) by (cbn; lia). unfold bind at 1. by rewrite (scratch_read_end s0 dev _ Hd0 Hext El). }
  mrun (scratch_read_run s0 dev _ l' x Hd0 Hext El).
  assert (length x = 512%nat /\ Forall (fun y => length y = 512%nat) l') as [Hx Hl'].
  { pose proof (Forall_drop _ (Z.to_nat (extract_sector s)) _ (dv_sectors _ _ Hd)) as H. fold l in H. rewrite El in H. by apply Forall_cons in H. }
  cbn [length] in Hlen. pose proof (dv_size _ _ Hd).
  assert (u32 (extract_sector s + 1) = extract_sector s + 1) as Eu by (apply u32_id; lia).
  destruct (file_write_run live (fsys s0) Hok Hh f fl w x (chunk size) Hu ltac:(lia)) as (s1 & Hr & Hsb & Hc & Ho & Hok1 & En1 & Hh1).
  rewrite Hdeny in *. cbn [Z.eqb] in *.
  assert (moved w (chunk size) (pos fl) = chunk size) as Em by (unfold moved; lia). rewrite Em in *.
  set (s2 := at_pos f fl (pos fl + chunk size) s1) in *.
  mrun (on_files_run _ s0 _ _ Hr). rewrite Z.eqb_refl. cbn [negb].
  pose proof (sbd_rest _ _ Hsb) as R. unfold rest in R. injection R as R1 _ R3 _ _ _.
  set (fl2 := mkFile (file_inode fl) (pos fl + chunk size) (deny_write fl)).
  assert (files s2 = <[f := fl2]> (files (fsys s))) as Ef2 by (cbn; by rewrite R3).
  destruct Hu as (U1 & U2 & U3 & U4).
  specialize (IH live (set_fsys s2 s0) f fl2 w (size - chunk size) dev). cbn zeta in IH.
  change (fsys (set_fsys s2 s0)) with s2 in IH. change (extract_sector (set_fsys s2 s0)) with (u32 (extract_sector s + 1)) in IH. rewrite Eu, C3 in IH.
  rewrite Z2Nat.inj_add, <- drop_drop in IH by lia. fold l in IH. rewrite El in IH. change (drop (Z.to_nat 1) (x :: l')) with l' in IH.
  replace k with (S (Z.to_nat (sectors_of size - 1))) by (unfold k; lia). cbn [length].
  change (S (length l') <? S (Z.to_nat (sectors_of size - 1)))%nat with (length l' <? Z.to_nat (sectors_of size - 1))%nat.
  assert (user_file s2 f fl2 w) as Hu2.
  { split; [by rewrite Ef2, lookup_insert_eq|]. split; [by cbn; rewrite R1|done]. }
  assert (device (set_fsys s2 s0) dev) as Hd2 by (destruct Hd; by split).
  specialize (IH ltac:(lia) Hok1 Hh1 Hu2 Hdeny ltac:(lia) ltac:(cbn; lia) Hd2 ltac:(lia)).
  destruct (length l' <? _)%nat; [done|].
  destruct IH as (s' & Hr' & Hok' & Hh' & En' & Ei' & Ef' & Hc' & Ho'). exists s'. split.
  { rewrite Hr'. unfold set_extract, set_fsys. cbn. do 2 f_equal. f_equal. lia. }
  split; [done|]. split; [done|]. split; [by rewrite En'|]. split; [by rewrite Ei'; cbn; rewrite R1|].
  split; [rewrite Ef', Ef2, insert_insert_eq; cbn; f_equal; f_equal; lia|]. split.
  - rewrite Hc'. change (contents s2 (data w)) with (contents s1 (data w)). rewrite Hc, (bytes_of_cons size x l' Hpos Hx).
    destruct (hi_files (fsys s) Hh f fl U1) as (_ & Hp & _). cbn [pos fl2]. rewrite Z2Nat.inj_add by lia.
    replace (Z.to_nat (chunk size)) with (length (take (Z.to_nat (chunk size)) x)) at 1 by (rewrite length_take; lia).
    apply splice_app. rewrite length_take. change (fsys s0) with (fsys s).
    destruct (inod_runs live (fsys s) Hok _ w U2) as (_ & _ & Hlive).
    pose proof (live_contents_length live (fsys s) (sector w) (data w) (fo_inv _ _ Hok) Hlive). lia.
  - intros sec d Hsd Hne. rewrite (Ho' sec d Hsd Hne). change (contents s2 d) with (contents s1 d). by apply (Ho sec d Hsd Hne).
Qed.

(** ** A named file between opening and closing *)

Record opened_file (live : gmap Z inode_disk) (s : fs) (name : list Z) (sec f j : Z) (w : inode) (s1 : fs) : Prop := {
  of_ok : fs_ok live s1;
  of_handles : hinv s1;
  of_names : names live s1 = names live s;
  of_kept : files_kept live s s1;
  of_fresh : f <> NULL /\ files s !! f = None;
  of_files : files s1 = <[f := mkFile j 0 false]> (files s);
  of_user : user_file s1 f (mkFile j 0 false) w;
  of_inode : sector w = sec /\ live !! sec = Some (data w) /\ deny_write_cnt w = 0
}.

Lemma open_idle live s name e :
  fs_ok live s -> idle s -> name_ok name -> length e = 20%nat ->
  exists f s1, filesys_open name e s = Ok (f, s1) /\
    match names live s !! name with
    | Some sec => exists j w, opened_file live s name sec f j w s1
    | None => f = NULL
    end.
Proof.
  intros Hok Hi Hn He.
  destruct (filesys_open_handles live s name e Hok (id_handles _ Hi)) as (f & s1 & Hr & Hok1 & En & Hk & Hh & Hcase); [|done|done|].
  { intros i w Hw. pose proof (idle_room s Hi i w Hw). lia. }
  exists f, s1. split; [done|]. destruct (names live s !! name) as [sec|] eqn:E; [|by destruct Hcase].
  destruct Hcase as (Hfn & Hfree & j & w & Ef & Ei & Hs & _ & _). exists j, w.
  destruct (fo_named _ _ Hok name sec E) as (N1 & N2 & _).
  assert (inodes s1 !! j = Some w) as Hw by (by rewrite Ei, lookup_insert_eq).
  split; try done.
  - split; [by rewrite Ef, lookup_insert_eq|]. split; [done|]. by rewrite Hs.
  - split; [done|]. destruct (inod_runs live s1 Hok1 j w Hw) as (_ & _ & Hl). rewrite Hs in Hl. split; [done|].
    eapply idle_deny; [exact Hh| |exact Hw]. intros g gl. rewrite Ef, lookup_insert_Some. intros [[_ <-]|[_ Hg]]; [done|]. by eapply id_open.
Qed.

Lemma close_idle live s s2 name sec f j p w :
  idle s -> fs_ok live s2 -> hinv s2 -> names live s2 !! name = Some sec -> files s !! f = None ->
  files s2 = <[f := mkFile j p false]> (files s) -> user_file s2 f (mkFile j p false) w -> sector w = sec ->
  exists s3, file_close f s2 = Ok (tt, s3) /\ fs_ok live s3 /\ idle s3 /\ names live s3 = names live s2 /\ files_kept live s2 s3 /\
    files s3 = files s.
Proof.
  intros Hi Hok Hh Hn Hfree Ef Hu Hs. destruct (file_close_run live s2 f _ w Hok Hh Hu) as (s3 & Hr & [C1 C2 C3 C4 C5 _]).
  assert (live_after w live = live) as El.
  { unfold live_after, dies. destruct (removed w) eqn:E; [|by rewrite andb_false_r].
    destruct Hu as (_ & Hw & _). destruct (fo_open _ _ Hok _ w Hw) as [_ C]. destruct (C E) as (_ & _ & Hno).
    exfalso. apply (Hno name). by rewrite Hs. }
  rewrite El in *. assert (files s3 = files s) as Ef3 by (by rewrite C5, Ef, delete_insert_id).
  exists s3. split; [done|]. split; [done|]. split; [by apply (idle_files s)|]. done.
Qed.

(** ** Putting one file *)

(** Why [filesys_create] refuses. *)
Definition refused (live : gmap Z inode_disk) (s : fs) (name : list Z) (size : Z) : Prop := no_room s size \/ cannot_name live s name.

Record put (live : gmap Z inode_disk) (s : fs) (name bs : list Z) (live' : gmap Z inode_disk) (s' : fs) : Prop := {
  pt_ok : fs_ok live' s';
  pt_idle : idle s';
  pt_new : abs live s !! name = None;
  pt_abs : abs live' s' = <[name := bs]> (abs live s)
}.

Lemma put_file_run live s name e size dev :
  fs_ok live (fsys s) -> idle (fsys s) -> name_ok name -> 0 <= size < 2147483136 -> length e = 20%nat ->
  device s dev -> 0 <= extract_sector s ->
  let k := Z.to_nat (sectors_of size) in let l := drop (Z.to_nat (extract_sector s)) dev in
  (put_file name e size s = Err Kernel_panic /\ ((length l < k)%nat \/ refused live (fsys s) name size)) \/
  exists live' s' t, put_file name e size s = Ok (tt, FsUtil.set_console t (set_extract (extract_sector s + sectors_of size) (set_fsys s' s))) /\
    (k <= length l)%nat /\ put live (fsys s) name (bytes_of size l) live' s'.
Proof.
  intros Hok Hi Hn Hsz He Hd Hext k l. unfold put_file. says. set (s0 := FsUtil.set_console t s).
  change (fsys s) with (fsys s0) in Hok, Hi.
  destruct (filesys_create_run live (fsys s0) name e size Hok (steady_can_open _ _ (idle_steady _ Hi)) Hn Hsz He)
    as (ok & s1 & Hr & (E1 & E2 & E3) & Hcase). mrun (on_files_run _ s0 _ _ Hr).
  destruct ok; cbn [negb].
  2:{ left. split; [done|]. right. destruct Hcase as [_ _ _ (a & n & _ & [[_ H]|[_ H]])]; [by left|by right]. }
  destruct Hcase as (sec & d & Hc). set (live1 := <[sec := d]> live).
  pose proof (abs_created live (fsys s0) name size sec d s1 Hok Hc) as Ea. fold live1 in Ea.
  assert (abs live (fsys s) !! name = None) as Hnew by (apply abs_none; [done|apply Hc]).
  destruct Hc as [[C1 C1'] Hok1 En1 [Hlen Hz] Hk1]. fold live1 in Hok1, En1.
  assert (idle s1) as Hi1 by (apply (idle_files (fsys s0)); [done|by eapply hinv_same; [apply Hi|..]|done]).
  destruct (open_idle live1 s1 name e Hok1 Hi1 Hn He) as (f & s2 & Hr2 & Hcase). rewrite En1, lookup_insert_eq in Hcase.
  destruct Hcase as (j & w & [O1 O2 O3 O4 [O5 O5'] O6 O7 (O8 & O9 & O10)]).
  mrun (on_files_run _ (set_fsys s1 s0) _ _ Hr2). rewrite (proj2 (Z.eqb_neq _ _) O5).
  unfold live1 in O9. rewrite lookup_insert_eq in O9. injection O9 as E9.
  set (s2' := set_fsys s2 _).
  pose proof (copy_in_run (S (Z.to_nat (sectors_of size))) live1 s2' f (mkFile j 0 false) w size dev ltac:(lia) O1 O2 O7 O10
    ltac:(lia) ltac:(cbn [pos]; rewrite <- E9; lia)) as Hcopy.
  specialize (Hcopy ltac:(destruct Hd; by split) Hext). cbn zeta in Hcopy. change (extract_sector s2') with (extract_sector s) in Hcopy.
  change (fsys s2') with s2 in Hcopy. fold l in Hcopy. destruct (Nat.ltb_spec (length l) (Z.to_nat (sectors_of size))) as [Hshort|Hlong].
  { left. split; [|by left]. unfold bind. by rewrite Hcopy. }
  right. destruct Hcopy as (s3 & Hr3 & Hok3 & Hh3 & En3 & Ei3 & Ef3 & Hc3 & Ho3). mrun Hr3.
  cbn [file_inode pos deny_write] in *. rewrite Z.add_0_l in Ef3. rewrite O6, insert_insert_eq in Ef3.
  destruct (close_idle live1 s1 s3 name sec f j size w) as (s4 & Hr4 & Hok4 & Hi4 & En4 & Hk4 & _); try done.
  { by rewrite En3, O3, En1, lookup_insert_eq. }
  { destruct O7 as (_ & U2 & U3). split; [by rewrite Ef3, lookup_insert_eq|]. split; [by cbn [file_inode]; rewrite Ei3|done]. }
  exists live1, s4, t. rewrite (on_files_run (file_close f) (set_extract (extract_sector s + sectors_of size) (set_fsys s3 s2')) tt s4 Hr4). split; [done|]. split; [done|]. split; [done|done|done|].
  assert (live1 !! sec = Some (data w)) as Hlive by (unfold live1; by rewrite lookup_insert_eq, E9).
  assert (sec <> FREE_MAP_SECTOR) as Hnf by (destruct O7 as (_ & _ & U3 & _); congruence).
  change (fsys s0) with (fsys s) in Ea.
  assert (abs live1 s4 = <[name := bytes_of size l]> (abs live1 s1)) as ->.
  2:{ by rewrite Ea, insert_insert_eq. }
  apply (abs_written live1 s1 s4 name sec (data w)); [done|by rewrite En4, En3, O3|by rewrite En1, lookup_insert_eq|done| |].
  - rewrite (Hk4 sec (data w) Hlive Hnf), Hc3. cbn [Z.to_nat]. rewrite splice_0.
    rewrite (O4 sec (data w) Hlive Hnf), <- E9, Hz, drop_ge, app_nil_r; [done|]. rewrite length_replicate.
    pose proof (bytes_of_length size l ltac:(lia) (Forall_drop _ _ _ (dv_sectors _ _ Hd)) Hlong). lia.
  - intros x dx Hx Hne Hx'. rewrite (Hk4 x dx Hx Hx'), (Ho3 x dx Hx); [by apply (O4 x)|congruence].
Qed.

(** ** Extracting *)

(** The files of an archive are added one by one, each under a new name. *)
Inductive unpacked : list item -> afs -> afs -> Prop :=
| unpacked_nil m : unpacked [] m m
| unpacked_dir name items m m' : unpacked items m m' -> unpacked (Dir name :: items) m m'
| unpacked_file name bs items m m' :
    m !! name = None -> unpacked items (<[name := bs]> m) m' -> unpacked (File name bs :: items) m m'.

(** Why an extraction stops: a bad archive, or a file of it that cannot be
    created after the files before it have been. *)
Definition stuck (live : gmap Z inode_disk) (s : fs) (r : list item * ending) : Prop :=
  (forall rest, r.2 <> Eof rest) \/
  exists before name bs behind live' s', r.1 = before ++ File name bs :: behind /\ fs_ok live' s' /\
    unpacked before (abs live s) (abs live' s') /\ refused live' s' name (size_of bs).

(** Sizes for which bytes_to_sectors does not overflow. *)
Definition fits_off_t (r : list item * ending) : Prop :=
  (forall name bs, File name bs ∈ r.1 -> size_of bs < 2147483136) /\
  (forall name size, r.2 = Truncated name size -> size < 2147483136).

Lemma fits_tail i r : fits_off_t (i :: r.1, r.2) -> fits_off_t r.
Proof. intros [H1 H2]. split; [|exact H2]. intros name bs Hin. apply (H1 name). by right. Qed.

Lemma stuck_dir live s name r : stuck live s r -> stuck live s (Dir name :: r.1, r.2).
Proof.
  intros [H|(bf & n & bs & bh & live' & s' & E & Hok & Hu & Hr)]; [by left|]. right.
  exists (Dir name :: bf), n, bs, bh, live', s'. cbn. rewrite E. split; [done|]. split; [done|]. split; [by constructor|done].
Qed.

Lemma stuck_file live s live1 s1 name bs r :
  put live s name bs live1 s1 -> stuck live1 s1 r -> stuck live s (File name bs :: r.1, r.2).
Proof.
  intros [_ _ Hnew Ha] [H|(bf & n & b & bh & live' & s' & E & Hok & Hu & Hr)]; [by left|]. right.
  exists (File name bs :: bf), n, b, bh, live', s'. cbn. rewrite E. split; [done|]. split; [done|].
  split; [|done]. constructor; [done|]. by rewrite <- Ha.
Qed.

Lemma extract_loop_run e fuel : length e = 20%nat -> forall live s dev,
  fs_ok live (fsys s) -> idle (fsys s) -> device s dev -> 0 <= extract_sector s -> (length (drop (Z.to_nat (extract_sector s)) dev) < fuel)%nat ->
  let r := untar fuel (drop (Z.to_nat (extract_sector s)) dev) in fits_off_t r ->
  (extract_loop fuel e s = Err Kernel_panic /\ stuck live (fsys s) r) \/
  exists live' s' t rest n, r.2 = Eof rest /\
    extract_loop fuel e s = Ok (tt, FsUtil.set_console t (set_extract n (set_fsys s' s))) /\
    n = Z.of_nat (length dev) - Z.of_nat (length rest) /\ 0 < n /\
    fs_ok live' s' /\ idle s' /\ unpacked r.1 (abs live (fsys s)) (abs live' s').
Proof.
  intros He. induction fuel as [|fuel IH]; intros live s dev Hok Hi Hd Hext Hfuel r Hfits; [lia|].
  cbn [extract_loop]. unfold next_extract. mnorm. set (s0 := set_extract _ s).
  pose proof (length_drop dev (Z.to_nat (extract_sector s))) as Hlen.
  assert (device s0 dev) as Hd0 by (destruct Hd; by split). pose proof (dv_size _ _ Hd).
  unfold r in *. clear r. destruct (drop (Z.to_nat (extract_sector s)) dev) as [|h l] eqn:El.
  { left. unfold bind at 1. rewrite (scratch_read_end s0 dev _ Hd0 Hext El). split; [done|]. by left. }
  mrun (scratch_read_run s0 dev _ l h Hd0 Hext El). cbn [length] in *. cbn [untar] in *.
  assert (u32 (extract_sector s + 1) = extract_sector s + 1) as Eu by (apply u32_id; lia).
  assert (drop (Z.to_nat (extract_sector s + 1)) dev = l) as El1.
  { by rewrite Z2Nat.inj_add, <- drop_drop, El by lia. }
  assert (Hprog : forall live' s' t m, fs_ok live' s' -> idle s' -> extract_sector s < m ->
    let sn := FsUtil.set_console t (set_extract m (set_fsys s' s)) in
    (length (drop (Z.to_nat m) dev) < fuel)%nat -> fits_off_t (untar fuel (drop (Z.to_nat m) dev)) ->
    (extract_loop fuel e sn = Err Kernel_panic /\ stuck live' s' (untar fuel (drop (Z.to_nat m) dev))) \/
    exists live2 s2 t2 rest n, (untar fuel (drop (Z.to_nat m) dev)).2 = Eof rest /\
      extract_loop fuel e sn = Ok (tt, FsUtil.set_console t2 (set_extract n (set_fsys s2 s))) /\
      n = Z.of_nat (length dev) - Z.of_nat (length rest) /\ 0 < n /\ fs_ok live2 s2 /\ idle s2 /\
      unpacked (untar fuel (drop (Z.to_nat m) dev)).1 (abs live' s') (abs live2 s2)).
  { intros live' s' t m Hok' Hi' Hm sn Hf Hfits'. apply (IH live' sn dev); [done|done|by destruct Hd; split|cbn; lia|done|done]. }
  destruct (parse_header_ok h) as (p & Hp & Hpok). mrun (of_res_run _ p s0 Hp). rewrite Hp in Hfits |- *.
  destruct p as [[name|] [] size|msg]; try done; cbn in Hpok.
  - destruct Hpok as [Hn Hsz].
    assert (0 <= size < 2147483136) as Hsz'.
    { destruct (Nat.ltb_spec (length l) (Z.to_nat (sectors_of size))); destruct Hfits as [F1 F2]; cbn [fst snd] in *.
      - split; [lia|]. by eapply F2.
      - specialize (F1 name _ (list_elem_of_here _ _)). change (take (Z.to_nat size) _) with (bytes_of size l) in F1. unfold size_of in F1.
        pose proof (Forall_drop _ (Z.to_nat (extract_sector s)) _ (dv_sectors _ _ Hd)) as Hall. rewrite El in Hall. apply Forall_cons in Hall as [_ Hall].
        rewrite bytes_of_length in F1 by (done || lia). lia. }
    pose proof (put_file_run live s0 name e size dev Hok Hi Hn Hsz' He Hd0) as Hput.
    change (extract_sector s0) with (u32 (extract_sector s + 1)) in Hput. rewrite Eu, El1 in Hput.
    specialize (Hput ltac:(lia)). cbn zeta in Hput. change (fsys s0) with (fsys s) in Hput.
    change (take (Z.to_nat size) (concat (take (Z.to_nat (sectors_of size)) l))) with (bytes_of size l) in *.
    destruct Hput as [[Hr Hwhy]|(live1 & s1 & t & Hr & Hlong & Hput)].
    + left. unfold bind. rewrite Hr. split; [done|]. destruct (Nat.ltb_spec (length l) (Z.to_nat (sectors_of size))) as [Hs|Hs]; [by left|].
      destruct Hwhy as [?|Href]; [lia|]. right. exists [], name, (bytes_of size l), (untar fuel (drop (Z.to_nat (sectors_of size)) l)).1, live, (fsys s).
      split; [done|]. split; [done|]. split; [constructor|]. unfold size_of.
      pose proof (Forall_drop _ (Z.to_nat (extract_sector s)) _ (dv_sectors _ _ Hd)) as Hall. rewrite El in Hall. apply Forall_cons in Hall as [_ Hall].
      by rewrite bytes_of_length by (done || lia).
    + mrun Hr. rewrite (proj2 (Nat.ltb_ge _ _) Hlong) in Hfits |- *. cbv zeta in Hfits |- *. apply fits_tail in Hfits.
      pose proof (sectors_pos size ltac:(lia)) as Hk. pose proof Hput as [P1 P2 P3 P4].
      assert (drop (Z.to_nat (extract_sector s + 1 + sectors_of size)) dev = drop (Z.to_nat (sectors_of size)) l) as Ed
        by (by rewrite (Z2Nat.inj_add (extract_sector s + 1)), <- drop_drop, El1 by lia).
      pose proof (Hprog live1 s1 t (extract_sector s + 1 + sectors_of size) P1 P2 ltac:(lia)) as Hnext. cbv zeta in Hnext. rewrite Ed in Hnext.
      destruct Hnext as [[Hr2 Hwhy]|Hdone]; [rewrite length_drop; lia|done| |].
      * left. split; [exact Hr2|]. by eapply stuck_file.
      * right. destruct Hdone as (live2 & s2 & t2 & rest & n & D1 & D2 & D3 & D4 & D5 & D6 & D7). exists live2, s2, t2, rest, n.
        split; [done|]. split; [exact D2|]. do 4 (split; [done|]). constructor; [done|]. by rewrite <- P4.
  - says. apply fits_tail in Hfits. pose proof (Hprog live (fsys s) t (extract_sector s + 1) Hok Hi ltac:(lia)) as Hnext. cbv zeta in Hnext. rewrite El1 in Hnext.
    destruct Hnext as [[Hr2 Hwhy]|Hdone]; [lia|done| |].
    all: assert (FsUtil.set_console t s0 = FsUtil.set_console t (set_extract (extract_sector s + 1) (set_fsys (fsys s) s))) as -> by (unfold s0; rewrite Eu; by destruct s).
    + left. split; [exact Hr2|]. by apply stuck_dir.
    + right. destruct Hdone as (live2 & s2 & t2 & rest & n & D1 & D2 & D3 & D4 & D5 & D6 & D7). exists live2, s2, t2, rest, n.
      split; [done|]. split; [exact D2|]. do 4 (split; [done|]). by constructor.
  - right. exists live, (fsys s), (FsUtil.console s), l, (extract_sector s + 1). split; [done|]. split; [by unfold s0; rewrite Eu; destruct s|].
    split; [lia|]. split; [lia|]. split; [done|]. split; [done|constructor].
  - left. split; [done|]. by left.
Qed.

(** Nothing has changed but what memory was given out. *)
Lemma malloc_st live s dev :
  fs_ok live (fsys s) -> idle (fsys s) -> device s dev ->
  exists p s', on_fs malloc s = Ok (p, set_fsys s' s) /\ p <> NULL /\ fs_ok live s' /\ idle s' /\ names live s' = names live (fsys s) /\
    abs live s' = abs live (fsys s) /\ device (set_fsys s' s) dev.
Proof.
  intros Hok Hi Hd. destruct (idle_malloc live (fsys s) Hok Hi) as (p & s' & Hr & Hp & Hok' & Hi' & En & Hk).
  exists p, s'. split; [by apply on_files_run|]. split; [done|]. split; [done|]. split; [done|]. split; [done|].
  split; [by apply abs_kept|by destruct Hd].
Qed.

Lemma stuck_same live s s1 r : abs live s1 = abs live s -> stuck live s1 r -> stuck live s r.
Proof. unfold stuck. by intros ->. Qed.

(** Extracting adds the files of the archive that starts at the current
    sector of the scratch device one by one, each under a new name and with
    the contents it has in the archive, moves behind the end marker and
    clears the first two sectors; it stops the kernel exactly when the archive is
    bad, a file of it cannot be created, or the device has less than two
    sectors. *)
Lemma fsutil_extract_run live s e dev :
  fs_ok live (fsys s) -> idle (fsys s) -> device s dev -> 0 <= extract_sector s -> length e = 20%nat ->
  let r := untar (S (length dev)) (drop (Z.to_nat (extract_sector s)) dev) in fits_off_t r ->
  (fsutil_extract e s = Err Kernel_panic /\ (stuck live (fsys s) r \/ (length dev < 2)%nat)) \/
  exists live' s' rest, r.2 = Eof rest /\ fsutil_extract e s = Ok (tt, s') /\
    fs_ok live' (fsys s') /\ idle (fsys s') /\ unpacked r.1 (abs live (fsys s)) (abs live' (fsys s')) /\
    device s' (<[1%nat := zeros]> (<[0%nat := zeros]> dev)) /\
    extract_sector s' = Z.of_nat (length dev) - Z.of_nat (length rest) /\ append_sector s' = append_sector s.
Proof.
  intros Hok Hi Hd Hext He r Hfits. unfold fsutil_extract.
  destruct (malloc_st live s dev Hok Hi Hd) as (p1 & f1 & Hr1 & Hp1 & Hok1 & Hi1 & _ & Ea1 & Hd1). mrun Hr1.
  destruct (malloc_st live (set_fsys f1 s) dev Hok1 Hi1 Hd1) as (p2 & f2 & Hr2 & Hp2 & Hok2 & Hi2 & _ & Ea2 & Hd2). mrun Hr2.
  change (fsys (set_fsys f1 s)) with f1 in Ea2. change (set_fsys f2 (set_fsys f1 s)) with (set_fsys f2 s) in *.
  rewrite (proj2 (Z.eqb_neq _ _) Hp1), (proj2 (Z.eqb_neq _ _) Hp2). cbn [orb]. mnorm. rewrite (dv_here _ _ Hd2).
  says. set (s3 := FsUtil.set_console t (set_fsys f2 s)). assert (device s3 dev) as Hd3 by (by destruct Hd2).
  destruct (extract_loop_run e (S (length dev)) He live s3 dev Hok2 Hi2 Hd3 Hext) as [[Hr Hwhy]|(live' & s' & t' & rest & n & E & Hr & En & Hn & Hok' & Hi' & Hu)].
  { rewrite length_drop. lia. }
  { exact Hfits. }
  { left. unfold bind. rewrite Hr. split; [done|]. left. apply (stuck_same live (fsys s) f2); [by rewrite Ea2|done]. }
  mrun Hr. says. set (s4 := FsUtil.set_console t0 _). assert (device s4 dev) as Hd4 by (by destruct Hd2).
  destruct (Nat.lt_ge_cases (length dev) 1) as [H0|H1].
  { left. unfold bind. rewrite (scratch_write_end s4 dev) by (done || lia). split; [done|]. right. lia. }
  mrun (scratch_write_run s4 dev 0 zeros Hd4 ltac:(lia)). set (s5 := set_scratch _ s4).
  assert (Forall (fun x => length x = 512%nat) (<[0%nat := zeros]> dev)) as Hall by (apply Forall_insert; [apply Hd|done]).
  assert (device s5 (<[0%nat := zeros]> dev)) as Hd5 by (split; [done|done|]; rewrite length_insert; apply Hd).
  destruct (Nat.lt_ge_cases (length dev) 2) as [H2|H2].
  { left. rewrite (scratch_write_end s5 (<[0%nat := zeros]> dev)); [split; [done|by right]|done|rewrite length_insert; lia]. }
  right. exists live', (set_scratch (Some (<[1%nat := zeros]> (<[0%nat := zeros]> dev))) s5), rest.
  split; [done|]. rewrite (scratch_write_run s5 (<[0%nat := zeros]> dev) 1 zeros Hd5) by (rewrite length_insert; lia).
  split; [done|]. split; [done|]. split; [done|]. split; [|split; [|done]].
  - change (abs live (fsys s3)) with (abs live f2) in Hu. by rewrite Ea2, Ea1 in Hu.
  - split; [done|by apply Forall_insert|rewrite !length_insert; apply Hd].
Qed.

(** ** Copying out of a file *)

Lemma sectors_for_cons bs size :
  0 < size -> size_of bs = size ->
  sectors_for (Z.to_nat (sectors_of size)) bs =
    (take (Z.to_nat (chunk size)) bs ++ repeat 0 (512 - Z.to_nat (chunk size))) ::
    sectors_for (Z.to_nat (sectors_of (size - chunk size))) (drop (Z.to_nat (chunk size)) bs).
Proof.
  intros Hs Hb. destruct (chunk_range size Hs) as (H1 & H2 & H3 & H4). pose proof (sectors_pos (size - chunk size) ltac:(lia)).
  rewrite H3 in *. replace (Z.to_nat (sectors_of size)) with (S (Z.to_nat (sectors_of size - 1))) by lia. cbn [sectors_for].
  unfold size_of in Hb. destruct H4 as [E|E].
  - assert (sectors_of size - 1 = 0) as E1 by (rewrite E in H3; change (sectors_of 0) with 0 in H3; lia).
    rewrite E1. cbn [Z.to_nat sectors_for]. rewrite length_take, !take_ge by lia. do 3 f_equal. lia.
  - rewrite E in *. rewrite length_take. change (Z.to_nat 512) with 512%nat. do 3 f_equal. lia.
Qed.

Lemma copy_out_run fuel : forall live s f fl w size buffer dev,
  (Z.to_nat (sectors_of size) < fuel)%nat -> fs_ok live (fsys s) -> hinv (fsys s) -> user_file (fsys s) f fl w ->
  0 <= size -> pos fl + size = dlength (data w) -> length buffer = 512%nat -> device s dev -> 0 <= append_sector s ->
  if Z.of_nat (length dev) <? append_sector s + sectors_of size then
    append_sector s <= Z.of_nat (length dev) -> copy_out fuel f size buffer s = Err Kernel_panic
  else exists s', copy_out fuel f size buffer s = Ok (tt,
      set_scratch (Some (list_inserts (Z.to_nat (append_sector s))
        (sectors_for (Z.to_nat (sectors_of size)) (drop (Z.to_nat (pos fl)) (contents (fsys s) (data w)))) dev))
      (set_append (append_sector s + sectors_of size) (set_fsys s' s))) /\
    fs_ok live s' /\ hinv s' /\ names live s' = names live (fsys s) /\ inodes s' = inodes (fsys s) /\
    files s' = <[f := mkFile (file_inode fl) (pos fl + size) (deny_write fl)]> (files (fsys s)) /\ disk s' = disk (fsys s).
Proof.
  induction fuel as [|fuel IH]; intros live s f fl w size buffer dev Hfuel Hok Hh Hu Hsz Hfit Hbuf Hd Hap; [lia|].
  cbn [copy_out]. rewrite Z.gtb_ltb. destruct (Z.ltb_spec 0 size) as [Hpos|Hzero].
  2:{ assert (size = 0) as -> by lia. change (sectors_of 0) with 0. rewrite !Z.add_0_r.
      destruct (Z.ltb_spec (Z.of_nat (length dev)) (append_sector s)); [lia|]. exists (fsys s). 
      destruct Hu as (Hf & _). split; [pose proof (dv_here _ _ Hd) as E; destruct s; cbn in E |- *; by rewrite E|]. do 4 (split; [done|]).
      split; [rewrite insert_id; [done|by destruct fl]|done]. }
  destruct (chunk_range size Hpos) as (C1 & C2 & C3 & C4). pose proof (sectors_pos (size - chunk size) ltac:(lia)) as Hk1.
  pose proof (dv_size _ _ Hd). mnorm. mrun (scratch_size_run s dev Hd).
  rewrite Z.geb_leb. destruct (Z.leb_spec (Z.of_nat (length dev)) (append_sector s)) as [Hfull|Hroom].
  { destruct (Z.ltb_spec (Z.of_nat (length dev)) (append_sector s + sectors_of size)); [done|lia]. }
  destruct (file_read_run live (fsys s) Hok Hh f fl w buffer (chunk size) Hu ltac:(lia)) as (s1 & Hr & Hq & Hok1 & En1 & Hh1).
  assert (moved w (chunk size) (pos fl) = chunk size) as Em by (unfold moved; lia). rewrite Em in *.
  set (s2 := at_pos f fl (pos fl + chunk size) s1) in *. mrun (on_files_run _ s _ _ Hr). cbn [fst snd]. rewrite Z.eqb_refl. cbn [negb].
  destruct Hu as (U1 & U2 & U3 & U4). destruct (hi_files (fsys s) Hh f fl U1) as (_ & Hp & _).
  destruct (inod_runs live (fsys s) Hok _ w U2) as (_ & _ & Hlive).
  pose proof (live_contents_length live (fsys s) (sector w) (data w) (fo_inv _ _ Hok) Hlive) as Hclen.
  set (C := contents (fsys s) (data w)) in *. set (bs := drop (Z.to_nat (pos fl)) C).
  assert (size_of bs = size) as Hbs by (unfold size_of, bs; rewrite length_drop; lia).
  set (buf := take (Z.to_nat (chunk size)) _ ++ repeat 0 _).
  assert (buf = take (Z.to_nat (chunk size)) bs ++ repeat 0 (512 - Z.to_nat (chunk size))) as Ebuf.
  { unfold buf. f_equal. rewrite take_app_le, take_take, Nat.min_id; [done|]. fold bs. unfold size_of in Hbs. rewrite length_take. lia. }
  unfold next_append. mnorm. set (s3 := set_append _ _).
  assert (device s3 dev) as Hd3 by (destruct Hd; by split).
  assert (u32 (append_sector s + 1) = append_sector s + 1) as Eu by (apply u32_id; lia).
  change (append_sector (set_fsys s2 s)) with (append_sector s) in *. mrun (scratch_write_run s3 dev (append_sector s) buf Hd3 ltac:(lia)).
  set (dev' := <[Z.to_nat (append_sector s) := buf]> dev). set (s4 := set_scratch (Some dev') s3).
  assert (length buf = 512%nat) as Hbl by (rewrite Ebuf, length_app, repeat_length, length_take; unfold size_of in Hbs; lia).
  assert (device s4 dev') as Hd4.
  { split; [done|apply Forall_insert; [apply Hd|done]|unfold dev'; rewrite length_insert; apply Hd]. }
  pose proof (sbd_rest _ _ (proj1 Hq)) as R. unfold rest in R. injection R as R1 _ R3 _ _ _.
  set (fl2 := mkFile (file_inode fl) (pos fl + chunk size) (deny_write fl)).
  assert (files s2 = <[f := fl2]> (files (fsys s))) as Ef2 by (cbn; by rewrite R3).
  assert (user_file (fsys s4) f fl2 w) as Hu2.
  { split; [by cbn; rewrite R3, lookup_insert_eq|]. split; [by cbn; rewrite R1|done]. }
  specialize (IH live s4 f fl2 w (size - chunk size) buf dev' ltac:(lia) Hok1 Hh1 Hu2 ltac:(lia) ltac:(cbn; lia) Hbl Hd4 ltac:(cbn; lia)).
  change (append_sector s4) with (u32 (append_sector s + 1)) in IH. rewrite Eu, C3 in IH.
  assert (length dev' = length dev) as El by apply length_insert. rewrite El in IH.
  replace (append_sector s + 1 + (sectors_of size - 1)) with (append_sector s + sectors_of size) in IH by lia.
  destruct (Z.ltb_spec (Z.of_nat (length dev)) (append_sector s + sectors_of size)); [intros _; apply IH; lia|].
  destruct IH as (s' & Hr' & Hok' & Hh' & En' & Ei' & Ef' & Ed'). exists s'. split.
  { rewrite Hr'. assert (contents (fsys s4) (data w) = C) as -> by (unfold C, contents, flat; cbn; by rewrite (proj2 Hq)).
    cbn [pos fl2]. rewrite <- C3, (sectors_for_cons bs size Hpos Hbs). cbn [list_inserts]. rewrite <- Ebuf. unfold bs. rewrite drop_drop.
    unfold set_scratch, set_append, set_fsys. cbn. do 3 f_equal. f_equal.
    rewrite list_insert_inserts_lt by lia. do 2 f_equal; [lia|]. do 2 f_equal. lia. }
  split; [done|]. split; [done|]. split; [by rewrite En'|]. split; [by rewrite Ei'; cbn; rewrite R1|].
  split; [|by rewrite Ed'; cbn; apply Hq]. rewrite Ef'. cbn [fsys s4]. change (fsys s4) with s2. rewrite Ef2, insert_insert_eq. cbn. do 2 f_equal. lia.
Qed.

(** ** Appending *)

(** The sector behind the last file: zeros, then the byte of memory behind
    the buffer. *)
Definition marker (behind : Z) : list Z := tail zeros ++ [behind].

Lemma marker_length b : length (marker b) = 512%nat.
Proof. reflexivity. Qed.

Lemma device_write s dev sec x :
  device s dev -> length x = 512%nat -> device (set_scratch (Some (<[sec := x]> dev)) s) (<[sec := x]> dev).
Proof. intros [H1 H2 H3] Hx. split; [done|by apply Forall_insert|by rewrite length_insert]. Qed.

Lemma inserts_snoc (i : nat) (x : list Z) : forall (l dev : list (list Z)) k, k = (i + length l)%nat ->
  <[k := x]> (list_inserts i l dev) = list_inserts i (l ++ [x]) dev.
Proof.
  intros l. revert i. induction l as [|y l IH]; intros i dev k ->; cbn [list_inserts app length]; [by rewrite Nat.add_0_r|].
  rewrite list_insert_insert_ne by lia. f_equal. apply IH. lia.
Qed.

Lemma inserts_last i (l dev : list (list Z)) x y k : k = (i + length l)%nat ->
  <[k := x]> (<[k := y]> (list_inserts i l dev)) = list_inserts i (l ++ [x]) dev.
Proof. intros Hk. rewrite list_insert_insert_eq. by apply inserts_snoc. Qed.

(** What appending a file does to the device. *)
Record appended (live : gmap Z inode_disk) (s : st) (l dev : list (list Z)) (behind : Z) (s' : st) : Prop := {
  ap_ok : fs_ok live (fsys s');
  ap_idle : idle (fsys s');
  ap_abs : abs live (fsys s') = abs live (fsys s);
  ap_device : device s' (list_inserts (Z.to_nat (append_sector s)) (l ++ [marker behind]) dev);
  ap_sector : append_sector s' = append_sector s + Z.of_nat (length l) /\ extract_sector s' = extract_sector s
}.

Lemma header_none name bs : (99 < length (stripped name))%nat -> ustar_make_header name USTAR_REGULAR (size_of bs) = Ok None.
Proof.
  intros H. unfold stripped in H. destruct (strip_run (S (length name)) name ltac:(lia)) as (t & Ht & _). rewrite Ht in H.
  unfold ustar_make_header. by rewrite Ht, (proj2 (Nat.ltb_lt _ _)) by lia.
Qed.

(** The part of fsutil_append behind the opening of the file. *)
Definition append_tail (src : Z) (file_name : list Z) (behind : Z) : M st unit :=
  size <- on_fs (file_length src) ;;
  dst <- gets scratch ;;
  match dst with
  | None => PANIC
  | Some _ =>
      h <- of_res (ustar_make_header file_name USTAR_REGULAR size) ;;
      match h with
      | None => PANIC
      | Some buffer =>
          sec <- next_append ;;
          scratch_write sec buffer ;;;
          copy_out (S (Z.to_nat (sectors_of size))) src size buffer ;;;
          sec <- gets append_sector ;;
          scratch_write sec zeros ;;;
          scratch_write sec (tail zeros ++ [behind]) ;;;
          on_fs (file_close src)
      end
  end.

Lemma append_tail_run live s s0 name bs sec f j w h behind dev :
  fs_ok live s0 -> idle s0 -> opened_file live s0 name sec f j w (fsys s) -> names live s0 !! name = Some sec -> device s dev -> 0 <= append_sector s ->
  contents s0 (data w) = bs -> length h = 512%nat -> ustar_make_header name USTAR_REGULAR (size_of bs) = Ok (Some h) ->
  let l := h :: data_sectors bs in
  if Z.of_nat (length dev) <=? append_sector s + Z.of_nat (length l) then append_tail f name behind s = Err Kernel_panic
  else exists s', append_tail f name behind s = Ok (tt, s') /\ fs_ok live (fsys s') /\ idle (fsys s') /\
    abs live (fsys s') = abs live s0 /\
    device s' (list_inserts (Z.to_nat (append_sector s)) (l ++ [marker behind]) dev) /\
    append_sector s' = append_sector s + Z.of_nat (length l) /\ extract_sector s' = extract_sector s.
Proof.
  intros Hok0 Hi0 [O1 O2 O3 O4 [O5 O5'] O6 O7 (O8 & O9 & O10)] Hname Hd Hap Hbs Hhl Hm l. pose proof (dv_size _ _ Hd).
  assert (sector w <> FREE_MAP_SECTOR) as Hnf by apply O7. rewrite <- O8 in *.
  assert (contents (fsys s) (data w) = bs) as Hc by (by rewrite (O4 (sector w) (data w) O9 Hnf)).
  pose proof (live_contents_length live (fsys s) (sector w) (data w) (fo_inv _ _ O1) O9) as Hlen. rewrite Hc in Hlen.
  fold (size_of bs) in Hlen. pose proof (sectors_pos (size_of bs) ltac:(unfold size_of; lia)) as Hk.
  assert (Z.of_nat (length l) = 1 + sectors_of (size_of bs)) as Hl.
  { unfold l, data_sectors. cbn [length]. rewrite sectors_for_length. lia. }
  unfold append_tail. mrun (on_files_run _ s _ _ (file_length_run live (fsys s) O1 O2 f _ w O7)).
  assert (set_fsys (fsys s) s = s) as -> by (by destruct s). rewrite <- Hlen. mnorm. rewrite (dv_here _ _ Hd).
  mrun (of_res_run _ _ s Hm). unfold next_append. mnorm. set (s1 := set_append _ s).
  assert (device s1 dev) as Hd1 by (by destruct Hd).
  destruct (Z.leb_spec (Z.of_nat (length dev)) (append_sector s)) as [H0|H0].
  { rewrite (proj2 (Z.leb_le _ _)) by lia. unfold bind. by rewrite (scratch_write_end s1 dev). }
  mrun (scratch_write_run s1 dev (append_sector s) h Hd1 ltac:(lia)).
  set (s2 := set_scratch _ s1). pose proof (device_write s1 dev (Z.to_nat (append_sector s)) h Hd1 Hhl) as Hd2. fold s2 in Hd2.
  assert (append_sector s2 = append_sector s + 1) as Ea by (apply u32_id; lia).
  pose proof (copy_out_run (S (Z.to_nat (sectors_of (size_of bs)))) live s2 f _ w (size_of bs) h _ ltac:(lia) O1 O2 O7 ltac:(unfold size_of; lia)
    ltac:(cbn [pos]; lia) Hhl Hd2 ltac:(lia)) as Hcopy. rewrite Ea, length_insert in Hcopy.
  destruct (Z.ltb_spec (Z.of_nat (length dev)) (append_sector s + 1 + sectors_of (size_of bs))) as [H1|H1].
  { rewrite (proj2 (Z.leb_le _ _)) by lia. unfold bind. by rewrite Hcopy by lia. }
  destruct Hcopy as (s3 & Hr3 & Hok3 & Hh3 & En3 & Ei3 & Ef3 & Ed3). mrun Hr3. mnorm.
  change (fsys s2) with (fsys s) in *. rewrite Hc in *. cbn [pos file_inode deny_write Z.to_nat] in *. rewrite drop_0 in *.
  fold (data_sectors bs) in *. set (dev3 := list_inserts _ (data_sectors bs) _). set (s4 := set_scratch (Some dev3) _).
  assert (dev3 = list_inserts (Z.to_nat (append_sector s)) l dev) as E3.
  { unfold dev3, l. cbn [list_inserts]. rewrite list_insert_inserts_lt by lia. f_equal. lia. }
  assert (length dev3 = length dev) as El3 by (rewrite E3; apply length_inserts).
  assert (device s4 dev3) as Hd4.
  { split; [done| |by rewrite El3]. rewrite E3. clear -Hd Hhl. unfold l. generalize (Z.to_nat (append_sector s)). intros i.
    assert (Forall (fun x => length x = 512%nat) (h :: data_sectors bs)) as Hall by (constructor; [done|apply sectors_for_512]).
    revert i. induction Hall as [|x xs Hx _ IH]; intros i; cbn [list_inserts]; [apply Hd|by apply Forall_insert]. }
  change (append_sector s4) with (append_sector s + 1 + sectors_of (size_of bs)).
  destruct (Z.leb_spec (Z.of_nat (length dev)) (append_sector s + Z.of_nat (length l))) as [H2|H2].
  { unfold bind. by rewrite (scratch_write_end s4 dev3) by (done || lia). }
  set (m := append_sector s + 1 + sectors_of (size_of bs)).
  mrun (scratch_write_run s4 dev3 m zeros Hd4 ltac:(lia)). set (s5 := set_scratch _ s4).
  pose proof (device_write s4 dev3 (Z.to_nat m) zeros Hd4 eq_refl) as Hd5. fold s5 in Hd5.
  mrun (scratch_write_run s5 _ m (tail zeros ++ [behind]) Hd5 ltac:(rewrite length_insert; lia)). set (s6 := set_scratch _ s5).
  pose proof (device_write s5 _ (Z.to_nat m) (marker behind) Hd5 eq_refl) as Hd6.
  assert (<[Z.to_nat m := marker behind]> (<[Z.to_nat m := zeros]> dev3) = list_inserts (Z.to_nat (append_sector s)) (l ++ [marker behind]) dev) as EX
    by (rewrite E3; apply inserts_last; lia).
  destruct (close_idle live s0 s3 name (sector w) f j (size_of bs) w) as (s7 & Hr7 & Hok7 & Hi7 & En7 & Hk7 & _); try done.
  { by rewrite En3, O3. }
  { by rewrite Ef3, O6, insert_insert_eq. }
  { destruct O7 as (_ & U2 & U3). split; [by rewrite Ef3, lookup_insert_eq|]. split; [by cbn [file_inode]; rewrite Ei3|done]. }
  rewrite (on_files_run (file_close f) s6 tt s7 Hr7). eexists. split; [done|]. split; [done|]. split; [done|].
  split.
  { change (fsys (set_fsys s7 s6)) with s7. rewrite (abs_kept live s3 s7 Hok3 En7 Hk7).
    transitivity (abs live (fsys s)); [|by apply abs_kept].
    apply abs_kept; [done|done|]. intros x dx Hx _. unfold contents, flat. by rewrite Ed3. }
  split; [|split; [change (append_sector (set_fsys s7 s6)) with m; unfold m; lia|done]].
  destruct Hd6 as [_ Q2 Q3]. rewrite EX in Q2, Q3. split; [|done|done]. change (scratch (set_fsys s7 s6))
    with (Some (<[Z.to_nat m := marker behind]> (<[Z.to_nat m := zeros]> dev3))). by rewrite EX.
Qed.

Lemma fsutil_append_run live s name e behind dev :
  fs_ok live (fsys s) -> idle (fsys s) -> device s dev -> 0 <= append_sector s -> length e = 20%nat ->
  Forall (fun c => 0 < c < 256) name ->
  match abs live (fsys s) !! name with
  | None => fsutil_append name e behind s = Err Kernel_panic
  | Some bs =>
      match tar_file name bs with
      | None => fsutil_append name e behind s = Err Kernel_panic
      | Some l =>
          if Z.of_nat (length dev) <=? append_sector s + Z.of_nat (length l) then fsutil_append name e behind s = Err Kernel_panic
          else exists s', fsutil_append name e behind s = Ok (tt, s') /\ appended live s l dev behind s'
      end
  end.
Proof.
  intros Hok Hi Hd Hap He Hname. unfold fsutil_append. says.
  destruct (malloc_st live (FsUtil.set_console t s) dev Hok Hi ltac:(by destruct Hd)) as (p & f1 & Hr1 & Hp & Hok1 & Hi1 & En1 & Ea1 & Hd1). mrun Hr1.
  rewrite (proj2 (Z.eqb_neq _ _) Hp). change (fsys (FsUtil.set_console t s)) with (fsys s) in *. set (s1 := set_fsys f1 _) in *.
  assert (name_ok name) as Hn by (eapply Forall_impl; [exact Hname|]; cbn; lia).
  destruct (open_idle live f1 name e Hok1 Hi1 Hn He) as (f & s2 & Hr2 & Hcase). mrun (on_files_run _ s1 _ _ Hr2).
  destruct (abs live (fsys s) !! name) as [bs|] eqn:Ea.
  2:{ apply abs_none in Ea; [|done]. rewrite En1, Ea in Hcase. subst f. done. }
  assert (abs live f1 !! name = Some bs) as Ea' by (by rewrite Ea1).
  apply abs_lookup in Ea' as (sec & d & Hsec & Hlive & Hbs). rewrite Hsec in Hcase. destruct Hcase as (j & w & Ho).
  assert (d = data w) as -> by (destruct Ho as [_ _ _ _ _ _ _ (_ & E & _)]; congruence).
  rewrite (proj2 (Z.eqb_neq _ _) (proj1 (of_fresh _ _ _ _ _ _ _ _ Ho))). fold (append_tail f name behind).
  set (sO := set_fsys s2 s1). assert (device sO dev) as HdO by (by destruct Hd1).
  pose proof (live_contents_length live f1 sec (data w) (fo_inv _ _ Hok1) Hlive) as Hlen. rewrite Hbs in Hlen. fold (size_of bs) in Hlen.
  destruct (fi_live _ _ (proj1 (fo_inv _ _ Hok1)) _ _ Hlive) as [_ [Hmax _ _ _] _ _ _].
  destruct (Nat.le_gt_cases (length (stripped name)) 99) as [Hl|Hl].
  - destruct (tar_file_ok name bs) as (h & Ht & Hhl & Hm & _); [split; [done|split; [cbn [snd]; lia|done]]|]. rewrite Ht.
    pose proof (append_tail_run live sO f1 name bs sec f j w h behind dev Hok1 Hi1 Ho Hsec HdO Hap Hbs Hhl Hm) as Hrun. cbv zeta in Hrun.
    change (append_sector sO) with (append_sector s) in Hrun. destruct (_ <=? _); [done|].
    destruct Hrun as (s' & Hr & A1 & A2 & A3 & A4 & A5). exists s'. split; [done|]. split; [done|done|by rewrite A3|done|done].
  - unfold tar_file. rewrite (header_none name bs Hl). unfold append_tail.
    destruct Ho as [O1 O2 _ _ _ _ O7 _]. mrun (on_files_run _ sO _ _ (file_length_run live (fsys sO) O1 O2 f _ w O7)).
    mnorm. change (scratch (set_fsys (fsys sO) sO)) with (scratch sO). rewrite (dv_here _ _ HdO), <- Hlen. mrun (of_res_run _ _ (set_fsys (fsys sO) sO) (header_none name bs Hl)). done.
Qed.

(** ** Several appends, then an extraction *)

(** A call of fsutil_append. *)
Record append_call : Type := mkCall { ac_name : list Z; ac_entry : list Z; ac_behind : Z }.

Fixpoint run_appends (calls : list append_call) : M st unit :=
  match calls with
  | [] => ret tt
  | c :: calls' => fsutil_append (ac_name c) (ac_entry c) (ac_behind c) ;;; run_appends calls'
  end.

(** The calls name [files] of the file system. *)
Definition call_of (m : afs) (c : append_call) (f : list Z * list Z) : Prop :=
  ac_name c = f.1 /\ length (ac_entry c) = 20%nat /\ m !! f.1 = Some f.2 /\ archivable f.

Lemma inserts_over (a : nat) (l1 k dev : list (list Z)) x y :
  list_inserts (a + length l1) (y :: k) (list_inserts a (l1 ++ [x]) dev) = list_inserts a (l1 ++ y :: k) dev.
Proof.
  rewrite !list_inserts_app_l. cbn [list_inserts]. rewrite (Nat.add_comm (length l1)), !list_insert_inserts_lt by lia.
  rewrite list_insert_insert_eq. symmetry. apply list_insert_inserts_lt. lia.
Qed.

Lemma appends_run live calls : forall s files dev l b,
  fs_ok live (fsys s) -> idle (fsys s) -> device s dev -> 0 <= append_sector s ->
  Forall2 (call_of (abs live (fsys s))) calls files -> tar files = Some l -> append_sector s + Z.of_nat (length l) < Z.of_nat (length dev) ->
  last (map ac_behind calls) = Some b ->
  exists s', run_appends calls s = Ok (tt, s') /\ appended live s l dev b s'.
Proof.
  induction calls as [|c calls IH]; intros s files dev l b Hok Hi Hd Hap Hc Ht Hroom Hb; [done|].
  destruct files as [|[name bs] files]; [inversion Hc|]. apply Forall2_cons in Hc as [(E1 & E2 & E3 & E4) Hc]. cbn [fst snd] in *.
  cbn [run_appends tar] in *.
  destruct (tar_file name bs) as [l1|] eqn:Et; [|done]. destruct (tar files) as [l2|] eqn:Et2; [|done]. injection Ht as <-.
  rewrite length_app in Hroom.
  pose proof (fsutil_append_run live s name (ac_entry c) (ac_behind c) dev Hok Hi Hd Hap E2 (proj1 E4)) as Happ.
  rewrite E3, Et, (proj2 (Z.leb_gt _ _)) in Happ by lia. destruct Happ as (s1 & Hr1 & [A1 A2 A3 A4 [A5 A6]]). rewrite E1. mrun Hr1.
  destruct calls as [|c2 calls].
  { apply Forall2_nil_inv_l in Hc as ->. injection Et2 as <-. cbn in Hb. injection Hb as <-. exists s1. split; [done|].
    rewrite app_nil_r. by split. }
  destruct (IH s1 files _ l2 b A1 A2 A4 ltac:(lia)) as (s2 & Hr2 & [B1 B2 B3 B4 [B5 B6]]); [by rewrite A3|done|rewrite A5, length_inserts; lia|exact Hb|].
  exists s2. split; [done|]. split; [done|done|by rewrite B3| |rewrite B5, A5, length_app, B6; split; [lia|done]].
  rewrite A5, Z2Nat.inj_add, Nat2Z.id in B4 by lia.
  destruct (l2 ++ [marker b]) as [|y k] eqn:Ek; [by destruct l2|]. rewrite inserts_over, <- Ek, app_assoc in B4. exact B4.
Qed.

(** What a device means after files have been appended from its beginning on. *)
Definition after_tar (files : list (list Z * list Z)) (b : Z) (rest : list (list Z)) : list item * ending :=
  (map as_item files, if b =? 0 then Eof rest else Broken).

Lemma untar_after l files b dev :
  Forall archivable files -> tar files = Some l -> (length l < length dev)%nat ->
  untar (S (length dev)) (list_inserts 0 (l ++ [marker b]) dev) = after_tar files b (drop (S (length l)) dev).
Proof.
  intros Hf Ht Hl. rewrite <- (take_drop (S (length l)) dev) at 2.
  rewrite list_inserts_0_r by (rewrite length_app, length_take; change (length [marker b]) with 1%nat; lia). rewrite <- app_assoc.
  assert (length files <= length l)%nat as Hn.
  { clear -Hf Ht. revert l Ht. induction Hf as [|[name bs] files Hf _ IH]; intros l Ht; cbn in *; [lia|].
    destruct (tar_file_ok name bs Hf) as (h & E & _). rewrite E in Ht. destruct (tar files) as [l'|]; [|done]. injection Ht as <-.
    specialize (IH l' eq_refl). cbn. rewrite length_app. lia. }
  destruct (untar_app files l ([marker b] ++ drop (S (length l)) dev) (S (length dev)) Hf Ht ltac:(lia)) as (fuel & _ & ->).
  cbn [app untar]. unfold after_tar. destruct (Z.eqb_spec b 0) as [->|Hb].
  - change (marker 0) with (repeat 0 512). rewrite parse_zeros. cbn [fst snd]. by rewrite app_nil_r.
  - change (marker b) with (repeat 0 511 ++ [b]). rewrite (parse_marker b Hb). cbn [fst snd]. by rewrite app_nil_r.
Qed.

Lemma unpacked_keeps items : forall m m' n bs, unpacked items m m' -> m !! n = Some bs -> m' !! n = Some bs.
Proof.
  intros m m' n bs H. induction H as [|name items m m' _ IH|name b items m m' Hn _ IH]; intros Hm; [done|by apply IH|].
  apply IH. by rewrite lookup_insert_ne by congruence.
Qed.

Lemma unpacked_has items : forall m m' n bs, unpacked items m m' -> File n bs ∈ items -> m' !! n = Some bs.
Proof.
  intros m m' n bs H. induction H as [|name items m m' _ IH|name b items m m' Hn Hu IH]; intros Hin.
  - by apply elem_of_nil in Hin.
  - apply elem_of_cons in Hin as [?|Hin]; [done|by apply IH].
  - apply elem_of_cons in Hin as [[= <- <-]|Hin]; [|by apply IH]. eapply unpacked_keeps; [exact Hu|apply lookup_insert_eq].
Qed.

Lemma unpacked_only items m m' n bs : unpacked items m m' -> m' !! n = Some bs -> m !! n = Some bs \/ File n bs ∈ items.
Proof.
  intros H. induction H as [|name items m m' _ IH|name b items m m' Hn _ IH]; intros Hm; [by left| |].
  - destruct (IH Hm); [by left|right; by right].
  - destruct (IH Hm) as [H|H]; [|right; by right]. apply lookup_insert_Some in H as [[<- <-]|[_ H]]; [right; by left|by left].
Qed.

Lemma unpacked_new items m m' n bs : unpacked items m m' -> File n bs ∈ items -> m !! n = None.
Proof.
  intros H. induction H as [|name items m m' _ IH|name b items m m' Hn _ IH]; intros Hin.
  - by apply elem_of_nil in Hin.
  - apply elem_of_cons in Hin as [?|Hin]; [done|by apply IH].
  - apply elem_of_cons in Hin as [[= <- <-]|Hin]; [done|]. specialize (IH Hin). by apply lookup_insert_None in IH as [? _].
Qed.

Lemma abs_size live s name bs : fs_ok live s -> abs live s !! name = Some bs -> size_of bs < 2147483136.
Proof.
  intros Hok (sec & d & _ & Hl & <-)%abs_lookup. unfold size_of. rewrite (live_contents_length live s sec d (fo_inv _ _ Hok) Hl).
  by destruct (fi_live _ _ (proj1 (fo_inv _ _ Hok)) _ _ Hl) as [_ [[_ H] _ _ _] _ _ _].
Qed.

(** C14: Files that are appended to a scratch device from its beginning on, and
    extracted into another file system, arrive there under the stripped names and with their
    contents, beside the files that were there, unless one of them cannot be
    created. This is so when the byte of memory behind the buffer of the last append is
    zero; when it is not, every extraction stops the kernel. *)
Theorem append_extract live s calls files dev l b live2 s2 e :
  fs_ok live (fsys s) -> idle (fsys s) -> device s dev -> append_sector s = 0 ->
  Forall2 (call_of (abs live (fsys s))) calls files -> tar files = Some l -> (length l < length dev)%nat ->
  last (map ac_behind calls) = Some b ->
  fs_ok live2 (fsys s2) -> idle (fsys s2) -> extract_sector s2 = 0 -> length e = 20%nat ->
  exists s', run_appends calls s = Ok (tt, s') /\ abs live (fsys s') = abs live (fsys s) /\
    (scratch s2 = scratch s' ->
      if b =? 0 then
        (fsutil_extract e s2 = Err Kernel_panic /\
           exists before f behind live' s1, files = before ++ f :: behind /\ fs_ok live' s1 /\
             unpacked (map as_item before) (abs live2 (fsys s2)) (abs live' s1) /\ refused live' s1 (stripped f.1) (size_of f.2)) \/
        exists live' s2', fsutil_extract e s2 = Ok (tt, s2') /\ fs_ok live' (fsys s2') /\
          (forall f, f ∈ files -> abs live' (fsys s2') !! stripped f.1 = Some f.2) /\
          (forall n bs, abs live2 (fsys s2) !! n = Some bs -> abs live' (fsys s2') !! n = Some bs) /\
          (forall n bs, abs live' (fsys s2') !! n = Some bs ->
             abs live2 (fsys s2) !! n = Some bs \/ exists f, f ∈ files /\ n = stripped f.1 /\ bs = f.2)
      else fsutil_extract e s2 = Err Kernel_panic).
Proof.
  intros Hok Hi Hd Ha Hc Ht Hl Hb Hok2 Hi2 Hx He.
  destruct (appends_run live calls s files dev l b Hok Hi Hd ltac:(lia) Hc Ht ltac:(lia) Hb) as (s' & Hr & [A1 A2 A3 A4 _]).
  exists s'. split; [done|]. split; [done|]. intros Es. rewrite Ha in A4. change (Z.to_nat 0) with 0%nat in A4.
  assert (Forall archivable files) as Hf by (clear -Hc; induction Hc as [|c f cs fs (_ & _ & _ & ?)]; by constructor).
  set (dev2 := list_inserts 0 (l ++ [marker b]) dev) in *.
  assert (device s2 dev2) as Hd2 by (destruct A4 as [B1 B2 B3]; split; [congruence|done|done]).
  pose proof (untar_after l files b dev Hf Ht Hl) as Hu. fold dev2 in Hu.
  assert (length dev2 = length dev) as El by apply length_inserts. rewrite <- El in Hu at 1.
  pose proof (fsutil_extract_run live2 s2 e dev2 Hok2 Hi2 Hd2 ltac:(lia) He) as Hex. rewrite Hx in Hex. cbv zeta in Hex. change (Z.to_nat 0) with 0%nat in Hex.
  rewrite drop_0, Hu in Hex.
  assert (forall name bs, File name bs ∈ map as_item files -> exists f, f ∈ files /\ name = stripped f.1 /\ bs = f.2) as Hin.
  { intros name bs (f & Hf1 & Hf2)%list_elem_of_In%in_map_iff. injection Hf1 as <- <-. apply list_elem_of_In in Hf2. by exists f. }
  assert (fits_off_t (after_tar files b (drop (S (length l)) dev))) as Hfits.
  { split; [|intros ? ?; cbn; by destruct (b =? 0)]. intros name bs (f & Hf1 & -> & ->)%Hin.
    clear -Hc Hok Hf1. induction Hc as [|c g cs fs (_ & _ & Hg & _) _ IH]; [by apply elem_of_nil in Hf1|].
    apply elem_of_cons in Hf1 as [->|Hf1]; [by eapply abs_size|by apply IH]. }
  specialize (Hex Hfits). unfold after_tar in Hex. cbn [fst snd] in Hex. destruct (b =? 0).
  - destruct Hex as [[Hrun [Hst|Hshort]]|(live' & s2' & rest & _ & Hrun & Hok' & _ & Hun & _)].
    + left. split; [done|]. destruct Hst as [Hno|(bf & name & bs & bh & live' & s1 & E & Hok' & Hun & Href)]; [by destruct (Hno (drop (S (length l)) dev))|].
      cbn [fst] in E. apply map_eq_app in E as (f1 & f2 & -> & <- & E2). apply map_eq_cons in E2 as (f & f3 & -> & [= <- <-] & <-).
      by exists f1, f, f3, live', s1.
    + exfalso. destruct calls as [|c calls]; [done|]. destruct files as [|[name bs] files]; [by inversion Hc|].
      apply Forall_cons in Hf as [Hf _]. cbn [tar] in Ht. destruct (tar_file_ok name bs Hf) as (h & E & _). rewrite E in Ht.
      destruct (tar files); [|done]. injection Ht as <-. cbn [length app] in Hl. lia.
    + right. exists live', s2'. split; [done|]. split; [done|]. split; [|split].
      * intros f Hf1. apply (unpacked_has _ _ _ _ _ Hun). apply list_elem_of_In, in_map_iff. exists f. split; [done|by apply list_elem_of_In].
      * intros n bs. by apply (unpacked_keeps _ _ _ _ _ Hun).
      * intros n bs Hn. destruct (unpacked_only _ _ _ _ _ Hun Hn) as [H|H]; [by left|right; by apply Hin].
  - destruct Hex as [[Hrun _]|(live' & s2' & rest & Hno & _)]; [done|discriminate Hno].
Qed.

(** C36: For every contents of the scratch device in which no header of the
    archive gives a file 2147483136 bytes or more (so that the
    number of its sectors does not overflow): an extraction that returns has added exactly
    the files of the archive that starts at the current sector, under names
    that were not used, and has kept all others; it moves behind the end marker
    and clears the first two sectors, so that the archive is not found again. Otherwise
    the kernel stops because the archive is broken or cut off, a file
    of it cannot be created after the ones before it (no room in a row, or a
    name that is empty, too long, or taken, or a full directory), or the device is too
    small. *)
Theorem fsutil_extract_ok live s e dev :
  fs_ok live (fsys s) -> idle (fsys s) -> device s dev -> 0 <= extract_sector s -> length e = 20%nat ->
  let r := untar (S (length dev)) (drop (Z.to_nat (extract_sector s)) dev) in fits_off_t r ->
  (fsutil_extract e s = Err Kernel_panic /\ (stuck live (fsys s) r \/ (length dev < 2)%nat)) \/
  exists live' s' rest, r.2 = Eof rest /\ fsutil_extract e s = Ok (tt, s') /\
    fs_ok live' (fsys s') /\ idle (fsys s') /\
    (forall n bs, abs live' (fsys s') !! n = Some bs <-> abs live (fsys s) !! n = Some bs \/ File n bs ∈ r.1) /\
    (forall n bs, File n bs ∈ r.1 -> abs live (fsys s) !! n = None) /\
    scratch s' = Some (<[1%nat := zeros]> (<[0%nat := zeros]> dev)) /\
    extract_sector s' = Z.of_nat (length dev) - Z.of_nat (length rest) /\ append_sector s' = append_sector s.
Proof.
  intros Hok Hi Hd Hx He r Hfits. destruct (fsutil_extract_run live s e dev Hok Hi Hd Hx He Hfits)
    as [H|(live' & s' & rest & H1 & H2 & H3 & H4 & H5 & H6 & H7)]; [by left|right].
  exists live', s', rest. split; [done|]. split; [done|]. split; [done|]. split; [done|]. split; [|split; [|split; [apply H6|done]]].
  - intros n bs. split; [by apply unpacked_only|]. intros [H|H]; [by eapply unpacked_keeps|by eapply unpacked_has].
  - intros n bs. by eapply unpacked_new.
Qed.

(** ** Two machines and a scratch device of eight sectors *)

#[local] Opaque FsProps.formatted FsProps.with_file_AB.

Definition blank : list (list Z) := repeat zeros 8.

(** [A] has the file AB, [B] has no file. *)
Definition machine_A : st := mkSt FsProps.with_file_AB (Some blank) 0 0 [].
Definition machine_B (dev : option (list (list Z))) : st := mkSt FsProps.formatted dev 0 0 [].

Lemma single_idle s f i w :
  files s = {[f := mkFile i 0 false]} -> inodes s = {[i := w]} -> f <> NULL -> open_cnt w = 1 -> deny_write_cnt w = 0 -> idle s.
Proof.
  intros Ef Ei Hf Ho Hd. split; [by eapply hinv_single|rewrite Ef; by intros g gl [<- <-]%lookup_singleton_Some|].
  rewrite Ef, map_size_singleton. lia.
Qed.

Lemma formatted_idle : idle FsProps.formatted.
Proof. eapply (single_idle _ 10 9); [vm_compute; reflexivity|vm_compute; reflexivity|done|done|done]. Qed.

Lemma with_file_AB_idle : idle FsProps.with_file_AB.
Proof. eapply (single_idle _ 10 9); [vm_compute; reflexivity|vm_compute; reflexivity|done|done|done]. Qed.

Lemma blank_device s : scratch s = Some blank -> device s blank.
Proof. intros H. split; [done|repeat constructor|vm_compute; reflexivity]. Qed.

Lemma AB_abs : exists live, fs_ok live FsProps.with_file_AB /\ abs live FsProps.with_file_AB !! [65; 66] = Some (replicate 700 0).
Proof.
  destruct FsProps.formatted_ok as (live & Hok & Hst & _).
  destruct (filesys_create_run live FsProps.formatted [65; 66] FsProps.junk 700 Hok (steady_can_open _ _ Hst) FsProps.AB_ok ltac:(lia) eq_refl)
    as (ok & s & Hr & _ & Hc).
  destruct (FsProps.run_unique _ _ _ _ _ _ FsProps.create_AB_run Hr) as [<- <-]. destruct Hc as (sec & d & Hc).
  exists (<[sec := d]> live). split; [apply Hc|]. rewrite (abs_created _ _ _ _ _ _ _ Hok Hc). apply lookup_insert_eq.
Qed.

Lemma AB_names : exists live sec, fs_ok live FsProps.with_file_AB /\ names live FsProps.with_file_AB = {[ [65; 66] := sec ]}.
Proof.
  destruct FsProps.formatted_ok as (live & Hok & Hst & En).
  destruct (filesys_create_run live FsProps.formatted [65; 66] FsProps.junk 700 Hok (steady_can_open _ _ Hst) FsProps.AB_ok ltac:(lia) eq_refl)
    as (ok & s & Hr & _ & Hc).
  destruct (FsProps.run_unique _ _ _ _ _ _ FsProps.create_AB_run Hr) as [<- <-]. destruct Hc as (sec & d & [_ Hok' Hn _ _]).
  exists (<[sec := d]> live), sec. split; [done|]. by rewrite Hn, En.
Qed.

Definition AB_file : list Z * list Z := ([65; 66], replicate 700 0).

Lemma AB_archivable : archivable AB_file.
Proof. split; [repeat constructor; lia|]. split; [vm_compute; discriminate|vm_compute; lia]. Qed.

Definition AB_call (behind : Z) : list append_call := [mkCall [65; 66] FsProps.junk behind].

Lemma AB_run behind : exists s', run_appends (AB_call behind) machine_A = Ok (tt, s').
Proof.
  destruct AB_abs as (live & Hok & Ha). destruct (tar_ok [AB_file]) as (l & Hl); [constructor; [apply AB_archivable|done]|].
  destruct (appends_run live (AB_call behind) machine_A [AB_file] blank l behind Hok with_file_AB_idle (blank_device machine_A eq_refl) (Z.le_refl 0))
    as (s' & Hr & _); [constructor; [|done]; split; [done|]; split; [done|]; split; [exact Ha|apply AB_archivable]|done| |done|by exists s'].
  destruct (tar_file_ok _ _ AB_archivable) as (h & E & _). cbn [tar AB_file] in Hl. rewrite E in Hl. injection Hl as <-. vm_compute. reflexivity.
Qed.

(** Copying AB from [A] to [B] works when the byte behind the buffer is zero. *)
Lemma append_extract_witness :
  exists s' live' s2', run_appends (AB_call 0) machine_A = Ok (tt, s') /\
    fsutil_extract FsProps.junk (machine_B (scratch s')) = Ok (tt, s2') /\ abs live' (fsys s2') !! [65; 66] = Some (replicate 700 0).
Proof.
  destruct AB_abs as (live & Hok & Ha). destruct FsProps.formatted_ok as (live2 & Hok2 & _).
  destruct (tar_ok [AB_file]) as (l & Hl); [constructor; [apply AB_archivable|done]|].
  destruct (AB_run 0) as (s1 & Hr1).
  destruct (append_extract live machine_A (AB_call 0) [AB_file] blank l 0 live2 (machine_B (scratch s1)) FsProps.junk)
    as (s' & Hr & _ & Hcase); [exact Hok|apply with_file_AB_idle|by apply blank_device|reflexivity|
      constructor; [|done]; split; [done|]; split; [done|]; split; [exact Ha|apply AB_archivable]|exact Hl| |reflexivity|exact Hok2|apply formatted_idle|reflexivity|reflexivity|].
  { destruct (tar_file_ok _ _ AB_archivable) as (h & E & _). cbn [tar AB_file] in Hl. rewrite E in Hl. injection Hl as <-. vm_compute. lia. }
  assert (s1 = s') as -> by congruence. specialize (Hcase eq_refl). cbn [Z.eqb] in Hcase.
  destruct Hcase as [[Hno _]|(live' & s2' & Hrun & _ & Hall & _)].
  - exfalso. revert Hno Hr. clear. intros Hno Hr.
    assert (match run_appends (AB_call 0) machine_A with Ok (_, s') => match fsutil_extract FsProps.junk (machine_B (scratch s')) with Ok _ => true | Err _ => false end | Err _ => false end = true) as E
      by (vm_compute; reflexivity).
    rewrite Hr, Hno in E. discriminate E.
  - exists s', live', s2'. split; [exact Hr|]. split; [exact Hrun|]. apply (Hall AB_file). by left.
Defined.

Lemma file_inj n b n' b' : File n b = File n' b' -> n = n' /\ b = b'.
Proof. by intros [= -> ->]. Qed.

(** The device after AB has been appended. *)
Definition AB_dev : list (list Z) :=
  match tar [AB_file] with Some l => list_inserts 0 (l ++ [marker 0]) blank | None => [] end.

Lemma fsutil_extract_ok_witness :
  exists live' s', fsutil_extract FsProps.junk (machine_B (Some AB_dev)) = Ok (tt, s') /\
    (forall n bs, abs live' (fsys s') !! n = Some bs <-> n = [65; 66] /\ bs = replicate 700 0) /\ extract_sector s' = 4.
Proof.
  destruct FsProps.formatted_ok as (live & Hok & _ & En).
  assert (untar 9 AB_dev = ([File [65; 66] (replicate 700 0)], Eof (repeat zeros 4))) as Hu by (vm_compute; reflexivity).
  destruct (fsutil_extract_ok live (machine_B (Some AB_dev)) FsProps.junk AB_dev) as [[Hno _]|(live' & s' & rest & Hrest & Hr & _ & _ & Hmap & _ & _ & Hx & _)].
  - exact Hok.
  - exact formatted_idle.
  - split; [reflexivity|vm_compute; repeat constructor|vm_compute; reflexivity].
  - vm_compute. discriminate.
  - reflexivity.
  - change (length AB_dev) with 8%nat. cbn [extract_sector machine_B Z.to_nat]. rewrite drop_0, Hu. split; [|discriminate].
    intros name bs Hin. cbn [fst] in Hin. apply list_elem_of_singleton in Hin. apply file_inj in Hin as [_ ->]. vm_compute. reflexivity.
  - exfalso. assert (match fsutil_extract FsProps.junk (machine_B (Some AB_dev)) with Ok _ => true | Err _ => false end = true) as E by (vm_compute; reflexivity).
    rewrite Hno in E. discriminate E.
  - exists live', s'. split; [exact Hr|]. change (length AB_dev) with 8%nat in *. cbn [extract_sector machine_B Z.to_nat] in *. rewrite drop_0, Hu in *. cbn [fst snd] in *.
    split.
    + intros n bs. rewrite Hmap, list_elem_of_singleton. cbn [fsys machine_B]. split; [|intros [-> ->]; by right].
      intros [H|H]; [|by apply file_inj]. exfalso. assert (abs live FsProps.formatted !! n = None) as E by (apply abs_none; [exact Hok|by rewrite En]). congruence.
    + injection Hrest as <-. rewrite Hx. reflexivity.
Defined.

End FsUtilProps.
