(* ===== verification/FsList.v ===== *)
(** * Listing and printing files

    fsutil_ls and fsutil_cat of src/src/filesys/fsutil.c, and dir_readdir of
    src/src/filesys/directory.c: the text on the console is the list of the
    names of the root directory, or the dump of the contents of the file. *)

From Stdlib Require Import Ascii String.
From S2P Require Import Prelude KState Bitmap FsState Inode FileOps Directory FsInv DirProps FileSys FsRefine FsProps Stdio Archive FsUtil Handles FsUtilProps.
Import FsState Inode FileOps Directory FsInv DirProps FileSys FsRefine.

Module FsList.
Import Stdio Archive FsUtil Handles FsUtilProps.

(** ** Names on lines *)

#[local] Opaque limit.

Lemma limit_none s : Z.of_nat (length s) < 4294967296 -> limit s (-1) = s.
Proof.
  intros H. Transparent limit. unfold limit. change (u32 (-1)) with 4294967295. by rewrite (proj2 (Z.leb_le _ _)) by lia.
Qed.

#[local] Opaque limit.

Definition line (nm : list Z) : list Z := nm ++ [10].

Lemma say_line nm (s : st) :
  Z.of_nat (length nm) < 4294967296 ->
  FsUtil.kprintf (lit "%s
") [Str (Some nm)] s = Ok (tt, FsUtil.set_console (FsUtil.console s ++ line nm) s).
Proof.
  intros H. unfold FsUtil.kprintf.
  assert (printf 120 (lit "%s
") [Str (Some nm)] = Ok (format_string (limit nm (-1)) (mkConversion 0 0 (-1) INT) ++ [10])) as E by reflexivity.
  mrun (of_res_run _ _ s E). unfold format_string, print, modify. cbn [width flags].
  rewrite (limit_none nm H). destruct (0 >? Z.of_nat (length nm)) eqn:E0; [rewrite Z.gtb_ltb, Z.ltb_lt in E0; lia|].
  cbn [andb app]. by rewrite app_nil_r.
Qed.

(** ** One call of dir_readdir *)

Section readdir.
Context (d i : Z) (v : inode).

(** The directory is open, and its position is behind [k] entries. *)
Record reading (s : fs) (k : nat) : Prop := {
  rd_state : dir_state i v s;
  rd_dir : d <> NULL /\ dirs s !! d = Some (mkDir i (20 * Z.of_nat k));
  rd_range : (k <= length (entries (contents s (data v))))%nat
}.

(** What the entries from the [k]th on say. *)
Definition bindings_from (s : fs) (k : nat) : list (list Z * Z) := omap binding (drop k (entries (contents s (data v)))).

Lemma reading_moved s s' k k' :
  reading s k -> quiet s s' -> (k' <= length (entries (contents s (data v))))%nat ->
  let s2 := set_dirs (<[d := mkDir i (20 * Z.of_nat k')]> (dirs s')) s' in
  reading s2 k' /\ disk s2 = disk s /\ contents s2 (data v) = contents s (data v).
Proof.
  intros [Hds [Hd Hdir] _] Hq Hk s2. destruct (dir_state_quiet i v s s' Hds Hq) as [[Ho Hm Hok] Ec].
  split; [|split; [cbn; apply Hq|done]]. split; [split; [|exact Hm|exact Hok]|split; [done|apply lookup_insert_eq]|].
  { destruct Ho as (O1 & O2 & [D1 D2 D3 D4] & O4 & O5). split; [exact O1|]. split; [exact O2|]. split; [by split|]. by split. }
  change (contents s2 (data v)) with (contents s' (data v)). by rewrite Ec.
Qed.

Lemma name_short e nm : entry_ok e -> entry_in_use e = true -> cstring (entry_name e) = Some nm -> (length nm <= 14)%nat.
Proof.
  intros [He _] Hu Hc. destruct (Nat.le_gt_cases (length nm) 14) as [|Hlong]; [done|exfalso].
  assert (nth 15 (entry_name e) 0 <> 0) as Hn.
  { unfold entry_name, entry_in_use in *. rewrite negb_true_iff, Z.eqb_neq in Hu. rewrite nth_drop_0, drop_drop, <- nth_drop_0. done. }
  assert (forall bs nm0, cstring bs = Some nm0 -> nth (length nm0) bs 0 = 0 /\ (length nm0 < length bs)%nat) as Hnth.
  { clear. induction bs as [|b bs IH]; intros nm0; cbn [cstring]; [done|]. destruct (Z.eqb_spec b 0) as [->|_]; [intros [= <-]; split; [done|cbn; lia]|].
    destruct (cstring bs) as [nm1|]; [|done]. intros [= <-]. cbn. destruct (IH nm1 eq_refl). split; [done|lia]. }
  destruct (Hnth _ _ Hc) as [H0 H1]. unfold entry_name in H1. rewrite length_drop in H1.
  assert (length nm = 15%nat) as E by lia. rewrite E in H0. done.
Qed.

Lemma binding_cons e es : omap binding (e :: es) = match binding e with Some b => b :: omap binding es | None => omap binding es end.
Proof. reflexivity. Qed.

Lemma readdir_loop_run fuel : forall s k e,
  reading s k -> length e = 20%nat -> (length (entries (contents s (data v))) - k < fuel)%nat ->
  exists s' k', reading s' k' /\ disk s' = disk s /\ (k <= k')%nat /\ contents s' (data v) = contents s (data v) /\
    match bindings_from s k with
    | [] => readdir_loop fuel d i e s = Ok (None, s')
    | (nm, _) :: rest => readdir_loop fuel d i e s = Ok (Some nm, s') /\ bindings_from s' k' = rest /\ (length nm <= 14)%nat
    end.
Proof.
  induction fuel as [|fuel IH]; intros s k e Hr He Hf; [lia|]. cbn [readdir_loop].
  pose proof Hr as [Hds [Hd Hdir] Hk]. set (es := entries (contents s (data v))) in *.
  assert (directory d s = Ok (mkDir i (20 * Z.of_nat k), s)) as Erun
    by (unfold directory, gets_opt; by rewrite (proj2 (Z.eqb_neq _ _) Hd), Hdir).
  mrun Erun. cbn [dir_pos]. destruct (read_entry i v s e k Hds He Hk) as (s1 & Hq & Hr1). mrun Hr1. fold es in Hr1 |- *.
  pose proof (dir_size i v s Hds) as Hsz. fold es in Hsz.
  destruct (es !! k) as [e'|] eqn:Ee; cbn [fst snd].
  - rewrite Z.eqb_refl. pose proof (lookup_lt_Some _ _ _ Ee) as Hlt.
    destruct (reading_moved s s1 k (S k) Hr Hq ltac:(fold es; lia)) as (Hr2 & Ed2 & Ec2). set (s2 := set_dirs _ s1) in *.
    assert (upd_dir d (fun w => mkDir (dir_inode w) (s32 (dir_pos w + ENTRY_SIZE))) s1 = Ok (tt, s2)) as Eu.
    { pose proof (sbd_rest _ _ (proj1 Hq)) as R. unfold rest in R. injection R as _ _ _ R4 _ _.
      unfold upd_dir, directory, gets_opt, bind, modify. rewrite (proj2 (Z.eqb_neq _ _) Hd), R4, Hdir. unfold s2. rewrite R4. do 4 f_equal.
      cbn. f_equal. unfold ENTRY_SIZE. destruct Hds as [(_ & _ & [Hlen _ _ _] & _) _ _]. rewrite s32_id by lia. lia. }
    mrun Eu. assert (entry_ok e') as Hek by (destruct Hds as [_ _ [_ Hall _]]; by eapply Forall_lookup_1).
    assert (bindings_from s k = match binding e' with Some b => b :: bindings_from s (S k) | None => bindings_from s (S k) end) as Eb.
    { unfold bindings_from. fold es. by rewrite (drop_S es e' k Ee), binding_cons. }
    assert (bindings_from s2 (S k) = bindings_from s (S k)) as E2 by (unfold bindings_from; by rewrite Ec2).
    rewrite Eb. unfold binding. destruct (entry_in_use e') eqn:Hu.
    + destruct (proj2 Hek Hu) as [nm Hnm]. rewrite Hnm. pose proof (name_short e' nm Hek Hu Hnm) as Hl.
      exists s2, (S k). split; [done|]. split; [done|]. split; [lia|]. split; [done|]. split; [|by rewrite E2].
      unfold gets_opt, bind, ret. by rewrite take_ge by lia.
    + destruct (IH s2 (S k) e' Hr2 (proj1 Hek)) as (s' & k' & H1 & H2 & H3 & H4 & H5); [rewrite Ec2; fold es; lia|].
      exists s', k'. split; [done|]. split; [by rewrite H2|]. split; [lia|]. split; [by rewrite H4|]. by rewrite <- E2.
  - cbn [Z.eqb ENTRY_SIZE]. apply lookup_ge_None in Ee.
    assert (bindings_from s k = []) as -> by (unfold bindings_from; fold es; by rewrite drop_ge).
    destruct (dir_state_quiet i v s s1 Hds Hq) as [Hds1 Ec1]. pose proof (sbd_rest _ _ (proj1 Hq)) as R. unfold rest in R. injection R as _ _ _ R4 _ _.
    exists s1, k. split; [split; [done|by rewrite R4|by rewrite Ec1]|]. split; [apply Hq|]. done.
Qed.

Lemma dir_readdir_run s k e :
  reading s k -> length e = 20%nat ->
  exists s' k', reading s' k' /\ disk s' = disk s /\ contents s' (data v) = contents s (data v) /\
    match bindings_from s k with
    | [] => dir_readdir d e s = Ok (None, s')
    | (nm, _) :: rest => dir_readdir d e s = Ok (Some nm, s') /\ bindings_from s' k' = rest /\ (length nm <= 14)%nat
    end.
Proof.
  intros Hr He. pose proof Hr as [Hds [Hd Hdir] Hk]. unfold dir_readdir.
  assert (directory d s = Ok (mkDir i (20 * Z.of_nat k), s)) as Erun
    by (unfold directory, gets_opt; by rewrite (proj2 (Z.eqb_neq _ _) Hd), Hdir).
  mrun Erun. cbn [dir_inode]. pose proof Hds as [(Hv & Hn & _) _ _]. unfold entry_fuel, inode_length. mnorm. mrun (inod_run _ _ _ Hv Hn).
  destruct (readdir_loop_run (S (Z.to_nat (dlength (data v)))) s k e Hr He) as (s' & k' & H1 & H2 & _ & H4 & H5).
  { pose proof (dir_size i v s Hds). lia. }
  by exists s', k'.
Qed.

Lemma ls_loop_run e fuel : length e = 20%nat -> forall s k,
  reading (fsys s) k -> (length (bindings_from (fsys s) k) < fuel)%nat ->
  exists s', ls_loop fuel d e s = Ok (tt, s') /\ disk (fsys s') = disk (fsys s) /\
    FsUtil.console s' = FsUtil.console s ++ concat (map line (bindings_from (fsys s) k).*1) /\
    scratch s' = scratch s /\ extract_sector s' = extract_sector s /\ append_sector s' = append_sector s.
Proof.
  intros He. induction fuel as [|fuel IH]; intros s k Hr Hf; [lia|]. cbn [ls_loop].
  destruct (dir_readdir_run (fsys s) k e Hr He) as (s1 & k1 & Hr1 & Hd1 & _ & Hcase).
  destruct (bindings_from (fsys s) k) as [|[nm sec] rest] eqn:Eb.
  - mrun (on_files_run _ s _ _ Hcase). eexists. split; [done|]. split; [done|]. cbn. by rewrite app_nil_r.
  - destruct Hcase as (Hrun & Hrest & Hl). mrun (on_files_run _ s _ _ Hrun). mrun (say_line nm (set_fsys s1 s) ltac:(lia)).
    set (s2 := FsUtil.set_console _ _). cbn [length] in Hf.
    destruct (IH s2 k1 Hr1) as (s' & H1 & H2 & H3 & H4); [cbn; rewrite Hrest; lia|]. exists s'. split; [done|].
    split; [by rewrite H2|]. split; [|done]. rewrite H3. change (fsys s2) with s1. rewrite Hrest. cbn. by rewrite <- app_assoc.
Qed.

End readdir.

(** ** Listing *)

Lemma say_plain format text (s : st) : printf 120 format [] = Ok text ->
  FsUtil.kprintf format [] s = Ok (tt, FsUtil.set_console (FsUtil.console s ++ text) s).
Proof. intros E. unfold FsUtil.kprintf. by mrun (of_res_run _ _ s E). Qed.

Lemma bindings_names bs : dir_ok bs ->
  NoDup (omap binding (entries bs)).*1 /\ forall n, n ∈ (omap binding (entries bs)).*1 <-> is_Some (dir_map bs !! n).
Proof.
  intros Hok. split; [apply Hok|]. intros n. unfold dir_map. rewrite list_elem_of_fmap. split.
  - intros ([nm sec] & -> & Hin). exists sec. apply elem_of_list_to_map; [apply Hok|done].
  - intros [sec Hs]. exists (n, sec). split; [done|]. by apply elem_of_list_to_map in Hs; [|apply Hok].
Qed.

(** An opened directory is read from its beginning. *)
Lemma dir_open_start i d s s' : dir_open i s = Ok (d, s') -> d <> NULL -> exists i', dirs s' !! d = Some (mkDir i' 0).
Proof.
  unfold dir_open. intros H Hn. apply bind_ok_inv in H as (p & s1 & _ & H). destruct (_ && _).
  - rewrite bind_modify_l in H. injection H as <- <-. exists i. apply lookup_insert_eq.
  - apply bind_ok_inv in H as (u & s2 & _ & H). injection H as <- <-. done.
Qed.

Lemma dir_open_root_run live s :
  fs_ok live s -> can_open s ROOT_DIR_SECTOR ->
  exists d i v s', dir_open_root s = Ok (d, s') /\ root_opened live s d i v s' /\ reading d i v s' 0.
Proof.
  intros Hok Hroom. destruct (dir_open_root_ok live s Hok Hroom) as (d & i & v & s' & Hr & Ho).
  exists d, i, v, s'. split; [done|]. split; [done|]. pose proof Ho as [Hi Hd _ _ _ _ _ _ _].
  split; [by eapply is_dir_state|split; [apply Hd|]|lia]. destruct (id_dir _ _ _ _ Hd) as [pos Hp].
  unfold dir_open_root in Hr. apply bind_ok_inv in Hr as (j & s1 & _ & Hr).
  destruct (dir_open_start j d s1 s' Hr (id_null _ _ _ _ Hd)) as [i' H']. rewrite Hp in H' |- *. by injection H' as -> ->.
Qed.

(** C37: Listing prints every name of the root directory once, one on a line,
    and changes no sector; fuel for one step more than there are names is
    enough. *)
Theorem fsutil_ls_ok live s e fuel :
  fs_ok live (fsys s) -> can_open (fsys s) ROOT_DIR_SECTOR -> length e = 20%nat -> (size (names live (fsys s)) < fuel)%nat ->
  exists s' ns, fsutil_ls fuel e s = Ok (tt, s') /\
    NoDup ns /\ (forall n, n ∈ ns <-> is_Some (names live (fsys s) !! n)) /\
    FsUtil.console s' = FsUtil.console s ++ line (str "Files in the root directory:") ++ concat (map line ns) ++ line (str "End of listing.") /\
    disk (fsys s') = disk (fsys s).
Proof.
  intros Hok Hroom He Hf. unfold fsutil_ls.
  mrun (say_plain (lit "Files in the root directory:
") (line (str "Files in the root directory:")) s eq_refl).
  set (s1 := FsUtil.set_console _ s). change (fsys s) with (fsys s1) in Hok, Hroom.
  destruct (dir_open_root_run live (fsys s1) Hok Hroom) as (d & i & v & s2 & Hr & Ho & Hread). mrun (on_files_run _ s1 _ _ Hr).
  pose proof Ho as [Hi2 Hd2 Hst [_ Hl] _ _ _ _ _]. rewrite (proj2 (Z.eqb_neq _ _) (id_null _ _ _ _ Hd2)).
  destruct (bindings_names (contents s2 (data v)) (id_ok _ _ _ _ Hd2)) as [Hnd Hin].
  assert (names live (fsys s) = dir_map (contents s2 (data v))) as En.
  { rewrite (names_eq live (fsys s) (data v) Hl). f_equal. symmetry. by apply (same_store_contents (fsys s1)). }
  set (ns := (omap binding (entries (contents s2 (data v)))).*1) in *.
  destruct (ls_loop_run d i v e fuel He (set_fsys s2 s1) 0 Hread) as (s3 & Hr3 & Ed & Ec & _).
  { unfold bindings_from. rewrite drop_0. change (fsys (set_fsys s2 s1)) with s2.
    rewrite En in Hf. unfold dir_map in Hf. by rewrite map_size_list_to_map in Hf by done. }
  mrun Hr3. rewrite (say_plain (lit "End of listing.
") (line (str "End of listing.")) s3 eq_refl). eexists _, ns. split; [done|]. split; [done|]. split; [by rewrite En|]. split.
  - cbn [FsUtil.console FsUtil.set_console]. rewrite Ec. cbn [FsUtil.console set_fsys s1 FsUtil.set_console]. unfold bindings_from. rewrite drop_0.
    change (fsys (set_fsys s2 s1)) with s2. fold ns. by rewrite <- !app_assoc.
  - cbn [fsys FsUtil.set_console]. rewrite Ed. apply Hst.
Qed.

(** ** Dumps in pieces *)

Lemma line_count_app ofs (a b : list Z) :
  0 <= ofs -> a <> [] -> (ofs + Z.of_nat (length a)) mod 16 = 0 -> hex_line_count ofs (length (a ++ b)) = hex_line_count ofs (length a).
Proof.
  intros Ho Ha Hm. unfold hex_line_count. rewrite length_app. pose proof (Z.mod_pos_bound ofs 16 ltac:(lia)).
  assert (16 - ofs mod 16 <= Z.of_nat (length a)) as Hle.
  { assert (0 < length a)%nat by (destruct a; [done|cbn; lia]). pose proof (Z.div_mod ofs 16 ltac:(lia)).
    pose proof (Z.div_mod (ofs + Z.of_nat (length a)) 16 ltac:(lia)).
    assert (ofs / 16 < (ofs + Z.of_nat (length a)) / 16) by (apply Z.lt_nge; intros Hge; nia). nia. }
  rewrite !Z.gtb_ltb, !(proj2 (Z.ltb_ge _ _)) by lia. done.
Qed.

Lemma line_count_range ofs (a : list Z) : 0 <= ofs -> a <> [] -> (0 < hex_line_count ofs (length a) <= length a)%nat.
Proof.
  intros Ho Ha. unfold hex_line_count. pose proof (Z.mod_pos_bound ofs 16 ltac:(lia)).
  assert (0 < length a)%nat by (destruct a; [done|cbn; lia]). rewrite Z.gtb_ltb. destruct (Z.ltb_spec (Z.of_nat (length a)) (16 - ofs mod 16)); lia.
Qed.

Lemma hex_line_app ofs (a b : list Z) ascii :
  0 <= ofs -> a <> [] -> (ofs + Z.of_nat (length a)) mod 16 = 0 -> hex_line ofs (a ++ b) ascii = hex_line ofs a ascii.
Proof.
  intros Ho Ha Hm. unfold hex_line. rewrite (line_count_app ofs a b Ho Ha Hm).
  pose proof (line_count_range ofs a Ho Ha). by rewrite take_app_le by lia.
Qed.

(** The dump of [bs] from the offset [ofs] on. *)
Definition dump (ofs : Z) (bs : list Z) : list Z := match hex_dump (S (length bs)) ofs bs true with Ok t => t | Err _ => [] end.

Lemma hex_dump_fuel f1 : forall f2 ofs bs,
  0 <= ofs -> (length bs < f1)%nat -> (length bs < f2)%nat -> hex_dump f1 ofs bs true = hex_dump f2 ofs bs true.
Proof.
  induction f1 as [|f1 IH]; intros [|f2] ofs bs Ho H1 H2; try lia. cbn [hex_dump]. destruct bs as [|b bs]; [done|].
  pose proof (line_count_range ofs (b :: bs) Ho ltac:(done)) as Hn.
  rewrite (IH f2); [done|unfold u32; apply Z.mod_pos_bound; lia|rewrite length_drop; lia..].
Qed.

Lemma hex_dump_is f ofs bs : 0 <= ofs -> (length bs < f)%nat -> hex_dump f ofs bs true = Ok (dump ofs bs).
Proof.
  intros Ho Hf. unfold dump. rewrite (hex_dump_fuel f (S (length bs))) by (done || lia).
  destruct (hex_dump_total (S (length bs)) ofs bs true Ho ltac:(lia)) as (t & ->). done.
Qed.

Lemma dump_step ofs bs :
  0 <= ofs -> ofs + Z.of_nat (length bs) < 4294967296 -> bs <> [] ->
  let n := hex_line_count ofs (length bs) in dump ofs bs = hex_line ofs bs true ++ dump (ofs + Z.of_nat n) (drop n bs).
Proof.
  intros Ho Hb Hne n. pose proof (line_count_range ofs bs Ho Hne) as Hn. fold n in Hn. unfold dump at 1. cbn [hex_dump]. destruct bs as [|b bs]; [done|].
  fold n. rewrite u32_id by lia. rewrite hex_dump_is; [done|lia|rewrite length_drop; cbn [length] in *; lia].
Qed.

Lemma dump_app k : forall a ofs b,
  (length a <= k)%nat -> 0 <= ofs -> ofs + Z.of_nat (length (a ++ b)) < 4294967296 -> (ofs + Z.of_nat (length a)) mod 16 = 0 ->
  dump ofs (a ++ b) = dump ofs a ++ dump (ofs + Z.of_nat (length a)) b.
Proof.
  induction k as [|k IH]; intros a ofs b Hk Ho Hb Hm.
  { destruct a; [|cbn in Hk; lia]. cbn [length app Z.of_nat]. by rewrite Z.add_0_r. }
  destruct (decide (a = [])) as [->|Ha]; [cbn [length app Z.of_nat]; by rewrite Z.add_0_r|].
  rewrite length_app in Hb. pose proof (line_count_range ofs a Ho Ha) as Hn.
  assert (a ++ b <> []) as Hab by (by destruct a).
  rewrite (dump_step ofs (a ++ b)), (dump_step ofs a) by (done || rewrite ?length_app; lia).
  rewrite line_count_app, hex_line_app by done. rewrite <- app_assoc. f_equal.
  rewrite drop_app_le by lia. set (n := hex_line_count ofs (length a)) in *.
  rewrite IH; rewrite ?length_app, ?length_drop; try lia.
  - f_equal. f_equal. lia.
  - replace (ofs + Z.of_nat n + Z.of_nat (length a - n)) with (ofs + Z.of_nat (length a)) by lia. done.
Qed.

(** ** Printing a file *)

Lemma cat_step fuel f buffer :
  cat_loop (S fuel) f buffer =
    (pos <- on_fs (file_tell f) ;;
     r <- on_fs (file_read f buffer PGSIZE) ;;
     if r.1 =? 0 then ret tt
     else
       let bytes := take (Z.to_nat r.1) r.2 in
       text <- of_res (hex_dump (S (length bytes)) (u32 pos) bytes true) ;;
       print text ;;;
       cat_loop fuel f r.2).
Proof. reflexivity. Qed.

Lemma cat_loop_run fuel : forall live s f fl w buffer,
  fs_ok live (fsys s) -> hinv (fsys s) -> user_file (fsys s) f fl w -> length buffer = 4096%nat ->
  (pos fl mod 4096 = 0 \/ pos fl = dlength (data w)) -> pos fl <= dlength (data w) ->
  dlength (data w) - pos fl <= 4096 * Z.of_nat fuel ->
  exists s' p, cat_loop (S fuel) f buffer s = Ok (tt, FsUtil.set_console
      (FsUtil.console s ++ dump (pos fl) (drop (Z.to_nat (pos fl)) (contents (fsys s) (data w)))) (set_fsys s' s)) /\
    fs_ok live s' /\ hinv s' /\ names live s' = names live (fsys s) /\ inodes s' = inodes (fsys s) /\
    files s' = <[f := mkFile (file_inode fl) p (deny_write fl)]> (files (fsys s)) /\ disk s' = disk (fsys s).
Proof.
  induction fuel as [|fuel IH]; intros live s f fl w buffer Hok Hh Hu Hb Hm Hp Hf.
  all: pose proof Hu as (U1 & U2 & U3 & U4); destruct (hi_files (fsys s) Hh f fl U1) as (_ & Hp0 & _).
  all: destruct (inod_runs live (fsys s) Hok _ w U2) as (_ & _ & Hlive).
  all: pose proof (live_contents_length live (fsys s) (sector w) (data w) (fo_inv _ _ Hok) Hlive) as Hclen.
  all: destruct (fi_live _ _ (proj1 (fo_inv _ _ Hok)) _ _ Hlive) as [_ [Hmax _ _ _] _ _ _].
  all: rewrite cat_step.
  all: mrun (on_files_run _ s _ _ (file_tell_run (fsys s) Hh f fl w Hu)); assert (set_fsys (fsys s) s = s) as -> by (by destruct s).
  all: destruct (file_read_run live (fsys s) Hok Hh f fl w buffer PGSIZE Hu ltac:(unfold PGSIZE; lia)) as (s1 & Hr & Hq & Hok1 & En1 & Hh1).
  all: set (n := moved w PGSIZE (pos fl)) in *; assert (n = Z.min 4096 (dlength (data w) - pos fl)) as En by (unfold n, moved, PGSIZE; lia).
  all: set (s2 := at_pos f fl (pos fl + n) s1) in *; mrun (on_files_run _ s _ _ Hr); cbn [fst snd].
  all: pose proof (sbd_rest _ _ (proj1 Hq)) as R; unfold rest in R; injection R as R1 _ R3 _ _ _.
  all: set (C := contents (fsys s) (data w)) in *; set (bs := drop (Z.to_nat (pos fl)) C); assert (Z.of_nat (length bs) = dlength (data w) - pos fl) as Hbs by (unfold bs; rewrite length_drop; lia).
  { rewrite (proj2 (Z.eqb_eq _ _)) by lia. exists s2, (pos fl + n). assert (bs = []) as -> by (apply nil_length_inv; lia).
    split; [cbn; rewrite app_nil_r; by destruct s|]. do 3 (split; [done|]). split; [done|]. split; [cbn; by rewrite R3|apply Hq]. }
  destruct (Z.eqb_spec n 0) as [E0|E0].
  { exists s2, (pos fl + n). assert (bs = []) as -> by (apply nil_length_inv; lia).
    split; [cbn; rewrite app_nil_r; by destruct s|]. do 3 (split; [done|]). split; [done|]. split; [cbn; by rewrite R3|apply Hq]. }
  assert (take (Z.to_nat n) (take (Z.to_nat n) bs ++ drop (Z.to_nat n) buffer) = take (Z.to_nat n) bs) as Et.
  { rewrite take_app_le, take_take, Nat.min_id; [done|]. rewrite length_take. lia. }
  fold bs. rewrite Et, u32_id by lia.
  mrun (of_res_run _ _ (set_fsys s2 s) (hex_dump_is (S (length (take (Z.to_nat n) bs))) (pos fl) (take (Z.to_nat n) bs) (proj1 Hp0) (Nat.lt_succ_diag_r _))).
  unfold print. mnorm. set (s3 := FsUtil.set_console _ _). set (buf := take (Z.to_nat n) bs ++ drop (Z.to_nat n) buffer).
  set (fl2 := mkFile (file_inode fl) (pos fl + n) (deny_write fl)).
  assert (user_file (fsys s3) f fl2 w) as Hu2.
  { split; [by cbn; rewrite R3, lookup_insert_eq|]. split; [by cbn; rewrite R1|done]. }
  destruct (IH live s3 f fl2 w buf Hok1 Hh1 Hu2) as (s' & p & Hr' & Hok' & Hh' & En' & Ei' & Ef' & Ed').
  { unfold buf. rewrite length_app, length_take, length_drop. lia. }
  { cbn [pos fl2]. destruct (decide (n = 4096)) as [E4|E4]; [left|right; lia]. rewrite E4.
    destruct Hm as [Hm|Hm]; [|lia]. rewrite <- (Z.mul_1_l 4096) at 1. by rewrite Z.mod_add by lia. }
  { cbn [pos fl2]. lia. }
  { cbn [pos fl2]. lia. }
  exists s', p. split.
  { rewrite Hr'. assert (contents (fsys s3) (data w) = C) as -> by (unfold C, contents, flat; cbn; by rewrite (proj2 Hq)).
    cbn [pos fl2]. rewrite Z2Nat.inj_add, <- drop_drop by lia. change (drop (Z.to_nat (pos fl)) C) with bs.
    unfold s3. cbn. unfold FsUtil.set_console, set_fsys. cbn. do 3 f_equal. rewrite <- app_assoc. f_equal.
    rewrite <- (take_drop (Z.to_nat n) bs) at 3. symmetry.
    assert (Z.of_nat (length (take (Z.to_nat n) bs)) = n) as El by (rewrite length_take; lia).
    destruct (decide (n = 4096)) as [E4|E4].
    - rewrite (dump_app (length (take (Z.to_nat n) bs))); [by rewrite El|lia|lia|rewrite take_drop; lia|].
      rewrite El. destruct Hm as [Hm|Hm]; [|lia]. pose proof (Z.div_mod (pos fl) 4096 ltac:(lia)).
      replace (pos fl + n) with ((256 * (pos fl / 4096) + 256) * 16) by lia. apply Z.mod_mul. lia.
    - rewrite (drop_ge bs) by lia. rewrite app_nil_r. change (dump (pos fl + n) []) with (@nil Z). by rewrite app_nil_r. }
  split; [done|]. split; [done|]. split; [by rewrite En'|]. split; [by rewrite Ei'; cbn; rewrite R1|].
  split; [|by rewrite Ed'; cbn; apply Hq]. rewrite Ef'. cbn. by rewrite R3, insert_insert_eq.
Qed.

Lemma say_printing nm (s : st) :
  Z.of_nat (length nm) < 4294967296 ->
  FsUtil.kprintf (lit "Printing '%s' to the console...
") [Str (Some nm)] s = Ok (tt, FsUtil.set_console (FsUtil.console s ++ str "Printing '" ++ nm ++ line (str "' to the console...")) s).
Proof.
  intros H. unfold FsUtil.kprintf.
  assert (printf 120 (lit "Printing '%s' to the console...
") [Str (Some nm)] = Ok (str "Printing '" ++ format_string (limit nm (-1)) (mkConversion 0 0 (-1) INT) ++ line (str "' to the console..."))) as E by reflexivity.
  mrun (of_res_run _ _ s E). unfold format_string, print, modify. cbn [width flags].
  rewrite (limit_none nm H). destruct (0 >? Z.of_nat (length nm)) eqn:E0; [rewrite Z.gtb_ltb, Z.ltb_lt in E0; lia|].
  cbn [andb]. by rewrite app_nil_l, app_nil_r.
Qed.

(** Printing a file gives the dump of its whole contents, although it is
    read and dumped a page at a time, and leaves the file system as it was; without a
    file of the name the kernel stops. *)
Theorem fsutil_cat_ok live s name e page fuel :
  fs_ok live (fsys s) -> idle (fsys s) -> name_ok name -> Z.of_nat (length name) < 4294967296 -> length e = 20%nat -> length page = 4096%nat ->
  match abs live (fsys s) !! name with
  | None => fsutil_cat fuel name e (Some page) s = Err Kernel_panic
  | Some bs => size_of bs <= 4096 * Z.of_nat fuel ->
      exists s', fsutil_cat (S fuel) name e (Some page) s = Ok (tt, s') /\
        fs_ok live (fsys s') /\ idle (fsys s') /\ abs live (fsys s') = abs live (fsys s) /\
        FsUtil.console s' = FsUtil.console s ++ str "Printing '" ++ name ++ line (str "' to the console...") ++ dump 0 bs
  end.
Proof.
  intros Hok Hi Hn Hnl He Hp. unfold fsutil_cat. rewrite !(bind_ok _ _ _ _ _ (say_printing name s Hnl)). set (s1 := FsUtil.set_console _ s).
  destruct (open_idle live (fsys s1) name e Hok Hi Hn He) as (f & s2 & Hr & Hcase). rewrite !(bind_ok _ _ _ _ _ (on_files_run _ s1 _ _ Hr)).
  change (fsys s1) with (fsys s) in Hcase.
  destruct (abs live (fsys s) !! name) as [bs|] eqn:Ea.
  2:{ apply abs_none in Ea; [|done]. rewrite Ea in Hcase. by subst f. }
  intros Hf. apply abs_lookup in Ea as (sec & d & Hsec & Hl & Hbs). rewrite Hsec in Hcase. destruct Hcase as (j & w & [O1 O2 O3 O4 [O5 O5'] O6 O7 (O8 & O9 & O10)]).
  assert (d = data w) as -> by congruence. rewrite (proj2 (Z.eqb_neq _ _) O5).
  pose proof (live_contents_length live (fsys s) sec (data w) (fo_inv _ _ Hok) Hl) as Hlen. rewrite Hbs in Hlen. unfold size_of in Hf.
  assert (contents s2 (data w) = bs) as Hc by (rewrite (O4 sec (data w) O9); [done|]; destruct O7 as (_ & _ & U3 & _); congruence).
  destruct (cat_loop_run fuel live (set_fsys s2 s1) f _ w page O1 O2 O7 Hp) as (s3 & p & Hr3 & Hok3 & Hh3 & En3 & Ei3 & Ef3 & Ed3); cbn [pos].
  { by left. } { lia. } { lia. }
  mrun Hr3. cbn [pos Z.to_nat] in *. rewrite drop_0 in *. change (fsys (set_fsys s2 s1)) with s2 in *. rewrite Hc in *. set (s4 := FsUtil.set_console _ _).
  destruct (close_idle live (fsys s) s3 name sec f j p w) as (s5 & Hr5 & Hok5 & Hi5 & En5 & Hk5 & _); try done.
  { by rewrite En3, O3. }
  { rewrite Ef3, O6, insert_insert_eq. done. }
  { destruct O7 as (_ & U2 & U3). split; [by rewrite Ef3, lookup_insert_eq|]. split; [by cbn [file_inode]; rewrite Ei3|done]. }
  rewrite (on_files_run (file_close f) s4 tt s5 Hr5). eexists. split; [done|]. split; [done|]. split; [done|]. split.
  - change (fsys (set_fsys s5 s4)) with s5. rewrite (abs_kept live s3 s5 Hok3 En5 Hk5). transitivity (abs live s2); [|by apply abs_kept].
    apply abs_kept; [done|done|]. intros x dx Hx _. unfold contents, flat. by rewrite Ed3.
  - cbn [FsUtil.console set_fsys s4 FsUtil.set_console s1]. by rewrite <- !app_assoc.
Qed.

(** Deleting a file is [filesys_remove]; the kernel stops exactly when there is
    no file of the name. *)
Theorem fsutil_rm_ok live s name e :
  fs_ok live (fsys s) -> idle (fsys s) -> name_ok name -> length e = 20%nat ->
  match abs live (fsys s) !! name with
  | None => fsutil_rm name e s = Err Kernel_panic
  | Some _ => exists live' s', fsutil_rm name e s = Ok (tt, s') /\ fs_ok live' (fsys s') /\
      abs live' (fsys s') = delete name (abs live (fsys s))
  end.
Proof.
  intros Hok Hi Hn He. unfold fsutil_rm. pose proof (idle_steady _ Hi) as Hst.
  destruct (say (lit "Deleting '%s'...
") [Str (Some name)] s eq_refl) as (t & Hs). rewrite !(bind_ok _ _ _ _ _ Hs). set (s1 := FsUtil.set_console t s).
  destruct (filesys_remove_run live (fsys s1) name e Hok (steady_can_open _ _ Hst) Hn He) as (s2 & Hcase).
  { intros sec _. by apply steady_can_open. }
  change (fsys s1) with (fsys s) in Hcase. destruct (abs live (fsys s) !! name) as [bs|] eqn:Ea.
  - apply abs_lookup in Ea as (sec & d & Hsec & _). rewrite Hsec in Hcase. destruct Hcase as [Hr (live' & Hrem)].
    mrun (on_files_run _ s1 _ _ Hr). exists live', (set_fsys s2 s1). split; [done|]. split; [apply Hrem|].
    by apply (abs_removed live live' (fsys s) name sec s2 Hok Hsec).
  - apply abs_none in Ea; [|done]. rewrite Ea in Hcase. destruct Hcase as [Hr _]. by mrun (on_files_run _ s1 _ _ Hr).
Qed.

(** ** The directory of a machine with one file *)

Lemma fsutil_ls_ok_witness :
  exists s', fsutil_ls 3 FsProps.junk machine_A = Ok (tt, s') /\
    FsUtil.console s' = line (str "Files in the root directory:") ++ line (str "AB") ++ line (str "End of listing.").
Proof.
  destruct AB_names as (live & sec & Hok & Hn).
  destruct (fsutil_ls_ok live machine_A FsProps.junk 3) as (s' & ns & Hr & _ & _ & Hc & _).
  - exact Hok.
  - apply steady_can_open, idle_steady, with_file_AB_idle.
  - reflexivity.
  - cbn [fsys machine_A]. rewrite Hn, map_size_singleton. lia.
  - exists s'. split; [exact Hr|]. assert (exists t, fsutil_ls 3 FsProps.junk machine_A = Ok (tt, t) /\ FsUtil.console t = line (str "Files in the root directory:") ++ line (str "AB") ++ line (str "End of listing.")) as (t & Et & Ec)
      by (eexists; split; vm_compute; reflexivity).
    rewrite Et in Hr. injection Hr as <-. exact Ec.
Defined.

End FsList.
