(* ===== verification/CmdLine.v ===== *)
(** * The kernel command line

    read_command_line, parse_options, run_actions and the choice of block
    devices of src/src/threads/init.c, for a kernel with USERPROG, FILESYS and
    VM; shutdown_configure of src/src/devices/shutdown.c.  The arguments are
    bytes of memory that the loader has left; [argv] is the static array of
    pointers to them.  The library functions are those of CString.v,
    Random.v and Stdio.v on parts of the state. *)

From Stdlib Require Import Ascii String.
From S2P Require Import Prelude CString StdLib Stdio Random Blocks FsState FsUtil.

Module CmdLine.
Import Stdio.

(** ** Addresses (threads/loader.h) *)

Definition LOADER_END : Z := 0x7e00.
Definition LOADER_PHYS_BASE : Z := 0xc0000000.
Definition LOADER_SIG_LEN : Z := 2.
Definition LOADER_PARTS_LEN : Z := 64.
Definition LOADER_ARGS_LEN : Z := 128.
Definition LOADER_ARG_CNT_LEN : Z := 4.
Definition LOADER_SIG : Z := LOADER_END - LOADER_SIG_LEN.
Definition LOADER_PARTS : Z := LOADER_SIG - LOADER_PARTS_LEN.
Definition LOADER_ARGS : Z := LOADER_PARTS - LOADER_ARGS_LEN.
Definition LOADER_ARG_CNT : Z := LOADER_ARGS - LOADER_ARG_CNT_LEN.
Definition ptov (paddr : Z) : Z := paddr + LOADER_PHYS_BASE.

Inductive shutdown_type : Type := SHUTDOWN_NONE | SHUTDOWN_POWER_OFF | SHUTDOWN_REBOOT.

(** ** The state: memory and the static variables *)

Record boot : Type := mkBoot {
  bytes : CString.mem;
  argv : list Z;
  console : list Z;
  format_filesys : bool;
  filesys_bdev_name : Z;
  scratch_bdev_name : Z;
  swap_bdev_name : Z;
  user_page_limit : Z;
  thread_mlfqs : bool;
  how : shutdown_type;
  rng : Random.prng
}.

Definition set_bytes v s := mkBoot v (argv s) (console s) (format_filesys s) (filesys_bdev_name s) (scratch_bdev_name s) (swap_bdev_name s) (user_page_limit s) (thread_mlfqs s) (how s) (rng s).
Definition set_argv v s := mkBoot (bytes s) v (console s) (format_filesys s) (filesys_bdev_name s) (scratch_bdev_name s) (swap_bdev_name s) (user_page_limit s) (thread_mlfqs s) (how s) (rng s).
Definition set_console v s := mkBoot (bytes s) (argv s) v (format_filesys s) (filesys_bdev_name s) (scratch_bdev_name s) (swap_bdev_name s) (user_page_limit s) (thread_mlfqs s) (how s) (rng s).
Definition set_format v s := mkBoot (bytes s) (argv s) (console s) v (filesys_bdev_name s) (scratch_bdev_name s) (swap_bdev_name s) (user_page_limit s) (thread_mlfqs s) (how s) (rng s).
Definition set_filesys v s := mkBoot (bytes s) (argv s) (console s) (format_filesys s) v (scratch_bdev_name s) (swap_bdev_name s) (user_page_limit s) (thread_mlfqs s) (how s) (rng s).
Definition set_scratch v s := mkBoot (bytes s) (argv s) (console s) (format_filesys s) (filesys_bdev_name s) v (swap_bdev_name s) (user_page_limit s) (thread_mlfqs s) (how s) (rng s).
Definition set_swap v s := mkBoot (bytes s) (argv s) (console s) (format_filesys s) (filesys_bdev_name s) (scratch_bdev_name s) v (user_page_limit s) (thread_mlfqs s) (how s) (rng s).
Definition set_limit v s := mkBoot (bytes s) (argv s) (console s) (format_filesys s) (filesys_bdev_name s) (scratch_bdev_name s) (swap_bdev_name s) v (thread_mlfqs s) (how s) (rng s).
Definition set_mlfqs v s := mkBoot (bytes s) (argv s) (console s) (format_filesys s) (filesys_bdev_name s) (scratch_bdev_name s) (swap_bdev_name s) (user_page_limit s) v (how s) (rng s).
Definition set_how v s := mkBoot (bytes s) (argv s) (console s) (format_filesys s) (filesys_bdev_name s) (scratch_bdev_name s) (swap_bdev_name s) (user_page_limit s) (thread_mlfqs s) v (rng s).
Definition set_rng v s := mkBoot (bytes s) (argv s) (console s) (format_filesys s) (filesys_bdev_name s) (scratch_bdev_name s) (swap_bdev_name s) (user_page_limit s) (thread_mlfqs s) (how s) v.

Definition on_mem {A} (m : M CString.mem A) : M boot A :=
  fun s => match m (bytes s) with Ok (a, b) => Ok (a, set_bytes b s) | Err e => Err e end.

Definition on_rng {A} (m : M Random.prng A) : M boot A :=
  fun s => match m (rng s) with Ok (a, g) => Ok (a, set_rng g s) | Err e => Err e end.

Definition kprintf (format : list Z) (args : list arg) : M boot unit :=
  match printf 120 format args with
  | Ok text => modify (fun s => set_console (console s ++ text) s)
  | Err e => fail e
  end.

(** A string that is read from memory, up to its terminator. *)
Fixpoint string_at (fuel : nat) (p : Z) : M CString.mem (list Z) :=
  match fuel with
  | O => fail Out_of_fuel
  | S fuel' => c <- CString.load p ;; if c =? 0 then ret [] else rest <- string_at fuel' (p + 1) ;; ret (c :: rest)
  end.

(** More steps than there are bytes of memory. *)
Definition fuel_of (s : boot) : nat := S (size (bytes s)).

(** ** Breaking the command line into words *)

(** [static char *argv[LOADER_ARGS_LEN / 2 + 1]] *)
Definition ARGV_LEN : Z := LOADER_ARGS_LEN / 2 + 1.

Definition write_argv (i p : Z) : M boot unit :=
  if (0 <=? i) && (i <? ARGV_LEN) then modify (fun s => set_argv (<[Z.to_nat i := p]> (argv s)) s) else fail Bad_access.

Definition read_argv (i : Z) : M boot Z :=
  if (0 <=? i) && (i <? ARGV_LEN) then gets_opt (fun s => argv s !! Z.to_nat i) else fail Bad_access.

(** The loop over [i], with [n] rounds left. *)
Fixpoint words_loop (n : nat) (i p : Z) : M boot unit :=
  match n with
  | O => ret tt
  | S n' =>
      let e := ptov LOADER_ARGS + LOADER_ARGS_LEN in
      if p >=? e then fail Kernel_panic
      else
        write_argv i p ;;;
        s <- get ;;
        len <- on_mem (CString.strnlen (fuel_of s) p (e - p)) ;;
        words_loop n' (i + 1) (p + len + 1)
  end.

Fixpoint print_loop (n : nat) (i : Z) : M boot unit :=
  match n with
  | O => ret tt
  | S n' =>
      p <- read_argv i ;;
      s <- get ;;
      r <- on_mem (CString.strchr (fuel_of s) p (chr " ")) ;;
      w <- on_mem (string_at (fuel_of s) p) ;;
      (if r =? NULL then kprintf (lit " %s") [Str (Some w)] else kprintf (lit " '%s'") [Str (Some w)]) ;;;
      print_loop n' (i + 1)
  end.

Fixpoint load_bytes (n : nat) (p : Z) : M CString.mem (list Z) :=
  match n with O => ret [] | S n' => b <- CString.load p ;; bs <- load_bytes n' (p + 1) ;; ret (b :: bs) end.

Definition read_command_line : M boot unit :=
  w <- on_mem (load_bytes 4 (ptov LOADER_ARG_CNT)) ;;
  let argc := s32 (FsState.of_le32 w) in
  words_loop (Z.to_nat argc) 0 (ptov LOADER_ARGS) ;;;
  write_argv argc NULL ;;;
  kprintf (lit "Kernel command line:") [] ;;;
  print_loop (Z.to_nat argc) 0 ;;;
  kprintf (lit "
") [].

(** ** Options *)

Definition shutdown_configure (type : shutdown_type) : M boot unit := modify (set_how type).

(** [atoi] of a string in memory. *)
Definition atoi_at (p : Z) : M boot Z :=
  ASSERT (negb (p =? NULL)) ;;; s <- get ;; v <- on_mem (string_at (fuel_of s) p) ;; ret (StdLib.atoi v).

(** What [usage] prints before it powers off. *)
Definition usage_text : list Z :=
  str "
Command line syntax: [OPTION...] [ACTION...]
Options must precede actions.
Actions are executed in the order specified.

Available actions:
  run 'PROG [ARG...]' Run PROG and wait for it to complete.
  ls                 List files in the root directory.
  cat FILE           Print FILE to the console.
  rm FILE            Delete FILE.
Use these actions indirectly via `pintos' -g and -p options:
  extract            Untar from scratch device into file system.
  append FILE        Append FILE to tar file on scratch device.

Options:
  -h                 Print this help message and power off.
  -q                 Power off VM after actions or on panic.
  -r                 Reboot after actions.
  -f                 Format file system device during startup.
  -filesys=BDEV      Use BDEV for file system instead of default.
  -scratch=BDEV      Use BDEV for scratch instead of default.
  -swap=BDEV         Use BDEV for swap instead of default.
  -rs=SEED           Set random number seed to SEED.
  -mlfqs             Use multi-level feedback queue scheduler.
  -ul=COUNT          Limit user memory to COUNT pages.
".

(** The effect of an option; false when the machine has been powered off. *)
Definition do_option (name : list Z) (value : Z) : M boot bool :=
  if bool_decide (name = str "-h") then modify (fun s => set_console (console s ++ usage_text) s) ;;; ret false
  else if bool_decide (name = str "-q") then shutdown_configure SHUTDOWN_POWER_OFF ;;; ret true
  else if bool_decide (name = str "-r") then shutdown_configure SHUTDOWN_REBOOT ;;; ret true
  else if bool_decide (name = str "-f") then modify (set_format true) ;;; ret true
  else if bool_decide (name = str "-filesys") then modify (set_filesys value) ;;; ret true
  else if bool_decide (name = str "-scratch") then modify (set_scratch value) ;;; ret true
  else if bool_decide (name = str "-swap") then modify (set_swap value) ;;; ret true
  else if bool_decide (name = str "-rs") then v <- atoi_at value ;; on_rng (Random.random_init (u32 v)) ;;; ret true
  else if bool_decide (name = str "-mlfqs") then modify (set_mlfqs true) ;;; ret true
  else if bool_decide (name = str "-ul") then v <- atoi_at value ;; modify (set_limit (u32 v)) ;;; ret true
  else fail Kernel_panic.

Section options.

(** The addresses of the strings of delimiters, and the time of the clock. *)
Context (d_equals d_none now : Z).

(** The loop from [argv + i] on: where it stops, or [None] when the machine
    has been powered off. *)
Fixpoint options_loop (fuel : nat) (i : Z) : M boot (option Z) :=
  match fuel with
  | O => fail Out_of_fuel
  | S fuel' =>
      p <- read_argv i ;;
      if p =? NULL then ret (Some i)
      else
        c <- on_mem (CString.load p) ;;
        if negb (c =? chr "-") then ret (Some i)
        else
          s <- get ;;
          ' (name, save_ptr) <- on_mem (CString.strtok_r (fuel_of s) p d_equals NULL) ;;
          ' (value, save_ptr) <- on_mem (CString.strtok_r (fuel_of s) NULL d_none save_ptr) ;;
          nm <- on_mem (string_at (fuel_of s) name) ;;
          on <- do_option nm value ;;
          if (on : bool) then options_loop fuel' (i + 1) else ret None
  end.

Definition parse_options : M boot (option Z) :=
  r <- options_loop (S (Z.to_nat ARGV_LEN)) 0 ;;
  match r with
  | None => ret None
  | Some i => on_rng (Random.random_init (u32 now)) ;;; ret (Some i)
  end.

End options.

(** ** Actions *)

Module Actions.
Import FsUtil.

Inductive function : Type := Run_task | Fsutil_ls | Fsutil_cat | Fsutil_rm | Fsutil_extract | Fsutil_append.

(** The table of actions: name, number of arguments with the name, function. *)
Definition actions : list (list Z * nat * function) :=
  [(str "run", 2%nat, Run_task); (str "ls", 1%nat, Fsutil_ls); (str "cat", 2%nat, Fsutil_cat);
   (str "rm", 2%nat, Fsutil_rm); (str "extract", 1%nat, Fsutil_extract); (str "append", 2%nat, Fsutil_append)].

Fixpoint find_action (table : list (list Z * nat * function)) (name : list Z) : option (nat * function) :=
  match table with
  | [] => None
  | (n, argc, f) :: table' => if bool_decide (name = n) then Some (argc, f) else find_action table' name
  end.

(** What the functions find in uninitialized memory, and the bounds of their
    loops. *)
Record frame : Type := mkFrame { fr_entry : list Z; fr_behind : Z; fr_page : option (list Z); fr_fuel : nat }.

Section actions.

(** Starting a program and waiting for it. *)
Context (execute_and_wait : list Z -> M st unit).

Definition run_task (task : list Z) : M st unit :=
  kprintf (lit "Executing '%s':
") [Str (Some task)] ;;;
  execute_and_wait task ;;;
  kprintf (lit "Execution of '%s' complete.
") [Str (Some task)].

(** [argument] is [argv[1]]. *)
Definition call (fr : frame) (f : function) (argument : list Z) : M st unit :=
  match f with
  | Run_task => run_task argument
  | Fsutil_ls => fsutil_ls (fr_fuel fr) (fr_entry fr)
  | Fsutil_cat => fsutil_cat (fr_fuel fr) argument (fr_entry fr) (fr_page fr)
  | Fsutil_rm => fsutil_rm argument (fr_entry fr)
  | Fsutil_extract => fsutil_extract (fr_entry fr)
  | Fsutil_append => fsutil_append argument (fr_entry fr) (fr_behind fr)
  end.

(** The strings that [argv] points to, up to the null pointer. *)
Fixpoint run_actions (fuel : nat) (frames : nat -> frame) (argv : list (list Z)) : M st unit :=
  match fuel with
  | O => fail Out_of_fuel
  | S fuel' =>
      match argv with
      | [] => ret tt
      | name :: _ =>
          match find_action actions name with
          | None => PANIC
          | Some (argc, f) =>
              if (length argv <? argc)%nat then PANIC
              else
                call (frames 0%nat) f (nth 1 argv []) ;;;
                run_actions fuel' (fun n => frames (S n)) (drop argc argv)
          end
      end
  end.

End actions.

End Actions.

(** ** Block devices for roles *)

Module Roles.
Import Blocks.

Fixpoint first_of_type (fuel : nat) (role : block_type) (b : option Z) : M st (option Z) :=
  match fuel with
  | O => fail Out_of_fuel
  | S fuel' =>
      match b with
      | None => ret None
      | Some x =>
          t <- get_block_type x ;;
          if bool_decide (t = role) then ret (Some x) else b' <- block_next x ;; first_of_type fuel' role b'
      end
  end.

Definition locate_block_device (role : block_type) (name : option (list Z)) : M st unit :=
  b <- (match name with
        | Some n => b <- block_get_by_name n ;; match b with None => fail Kernel_panic | Some _ => ret b end
        | None => l <- gets all_blocks ;; b <- block_first ;; first_of_type (S (length l)) role b
        end) ;;
  match b with
  | None => ret tt
  | Some x =>
      nm <- block_name x ;;
      kprintf (lit "%s: using %s
") [Str (Some (block_type_name role)); Str (Some nm)] ;;;
      block_set_role role (Some x)
  end.

Definition locate_block_devices (filesys scratch swap : option (list Z)) : M st unit :=
  locate_block_device BLOCK_FILESYS filesys ;;;
  locate_block_device BLOCK_SCRATCH scratch ;;;
  locate_block_device BLOCK_SWAP swap.

End Roles.

End CmdLine.
