(* ===== verification/CmdLineProps.v ===== *)
(** * Theorems on the kernel command line

    The words that the loader has left in memory are the arguments of the
    kernel, options act from left to right, and the actions run in their
    order (src/src/threads/init.c). *)

From Stdlib Require Import Ascii String.
From S2P Require Import Prelude CString StdLib Stdio Random Blocks FsState FsUtil FsUtilProps CmdLine.

Module CmdLineProps.
Import Stdio CmdLine.

(** ** Strings in memory *)

Lemma on_mem_run {A} (m : M CString.mem A) s a b : m (bytes s) = Ok (a, b) -> on_mem m s = Ok (a, set_bytes b s).
Proof. unfold on_mem. by intros ->. Qed.

Lemma on_mem_same {A} (m : M CString.mem A) s a : m (bytes s) = Ok (a, bytes s) -> on_mem m s = Ok (a, s).
Proof. intros H. rewrite (on_mem_run m s a _ H). by destruct s. Qed.

Lemma bytes_same s : set_bytes (bytes s) s = s.
Proof. by destruct s. Qed.

Lemma string_at_run m fuel : forall p w, CString.cstr m p w -> (length w < fuel)%nat -> CmdLine.string_at fuel p m = Ok (w, m).
Proof.
  induction fuel as [|fuel IH]; intros p w H Hf; [lia|]. cbn [CmdLine.string_at]. destruct w as [|c w]; cbn [CString.cstr length] in *.
  - by mrun (CString.load_ok _ _ _ H).
  - destruct H as (H1 & H2 & H3). mrun (CString.load_ok _ _ _ H1). rewrite (proj2 (Z.eqb_neq _ _)) by lia.
    by mrun (IH _ w H3 ltac:(lia)).
Qed.

Lemma strnlen_loop_run m fuel : forall p done w maxlen,
  CString.cstr m (p + Z.of_nat done) w -> Z.of_nat done + Z.of_nat (length w) <= maxlen -> (length w < fuel)%nat ->
  CString.strnlen_loop fuel p (Z.of_nat done) maxlen m = Ok (Z.of_nat done + Z.of_nat (length w), m).
Proof.
  induction fuel as [|fuel IH]; intros p done w maxlen H Hm Hf; [lia|]. cbn [CString.strnlen_loop]. destruct w as [|c w]; cbn [CString.cstr length] in *.
  - mrun (CString.load_ok _ _ _ H). cbn. by rewrite Z.add_0_r.
  - destruct H as (H1 & H2 & H3). mrun (CString.load_ok _ _ _ H1). rewrite (proj2 (Z.eqb_neq _ _)), (proj2 (Z.ltb_lt _ _)) by lia. cbn [negb andb].
    replace (Z.of_nat done + 1) with (Z.of_nat (S done)) by lia. rewrite (IH p (S done) w); [do 2 f_equal; lia| |lia|lia].
    replace (p + Z.of_nat (S done)) with (p + Z.of_nat done + 1) by lia. done.
Qed.

Lemma cstr_fuel m p w : CString.cstr m p w -> (length w < size m)%nat.
Proof.
  intros H. assert (list_to_set (seqZ p (Z.of_nat (S (length w)))) ⊆@{gset Z} dom m) as Hsub.
  { intros a Ha. apply elem_of_list_to_set, elem_of_seqZ in Ha. apply elem_of_dom.
    destruct (CString.cstr_block m p w H (a - p) ltac:(lia)) as (c & Hc & _). exists c. by replace (p + (a - p)) with a in Hc by lia. }
  apply subseteq_size in Hsub. rewrite size_dom, size_list_to_set, length_seqZ in Hsub by apply NoDup_seqZ. lia.
Qed.

Lemma fuel_enough s p w : CString.cstr (bytes s) p w -> (length w < fuel_of s)%nat.
Proof. intros H. pose proof (cstr_fuel _ _ _ H). unfold fuel_of. lia. Qed.

(** ** The words that the loader has left *)

(** The words from [p] on, each with its terminator. *)
Fixpoint laid (m : CString.mem) (p : Z) (ws : list (list Z)) : Prop :=
  match ws with [] => True | w :: ws' => CString.cstr m p w /\ laid m (p + Z.of_nat (length w) + 1) ws' end.

Fixpoint total (ws : list (list Z)) : Z :=
  match ws with [] => 0 | w :: ws' => Z.of_nat (length w) + 1 + total ws' end.

(** Where they are. *)
Fixpoint pointers (p : Z) (ws : list (list Z)) : list Z :=
  match ws with [] => [] | w :: ws' => p :: pointers (p + Z.of_nat (length w) + 1) ws' end.

Lemma total_pos ws : 0 <= total ws.
Proof. induction ws; cbn; lia. Qed.

Lemma pointers_length ws : forall p, length (pointers p ws) = length ws.
Proof. induction ws as [|w ws IH]; intros p; cbn; [done|]. by rewrite IH. Qed.

Lemma laid_lookup ws : forall m p k w, laid m p ws -> 0 < p -> ws !! k = Some w ->
  exists q, pointers p ws !! k = Some q /\ 0 < q /\ CString.cstr m q w.
Proof.
  induction ws as [|x ws IH]; intros m p k w Hl Hp Hk; [done|]. destruct Hl as [H1 H2]. destruct k as [|k].
  - injection Hk as <-. by exists p.
  - apply (IH m (p + Z.of_nat (length x) + 1)); [done|lia|done].
Qed.

Definition args : Z := ptov LOADER_ARGS.

(** What the loader leaves: the number of words and the words. *)
Record loaded (s : boot) (ws : list (list Z)) : Prop := {
  ld_count : load_bytes 4 (ptov LOADER_ARG_CNT) (bytes s) = Ok (FsState.le32 (Z.of_nat (length ws)), bytes s);
  ld_words : laid (bytes s) args ws;
  ld_fits : total ws <= LOADER_ARGS_LEN;
  ld_argv : length (argv s) = Z.to_nat ARGV_LEN
}.

Lemma write_argv_run i p s : 0 <= i < ARGV_LEN -> write_argv i p s = Ok (tt, set_argv (<[Z.to_nat i := p]> (argv s)) s).
Proof. intros H. unfold write_argv. by rewrite (proj2 (Z.leb_le _ _)), (proj2 (Z.ltb_lt _ _)) by lia. Qed.

Lemma write_argv_out i p s : ARGV_LEN <= i -> write_argv i p s = Err Bad_access.
Proof. intros H. unfold write_argv. by rewrite (proj2 (Z.ltb_ge _ _)), andb_false_r by lia. Qed.

Lemma words_loop_run ws : forall s i p,
  laid (bytes s) p ws -> p + total ws <= args + LOADER_ARGS_LEN -> 0 <= i -> i <= ARGV_LEN ->
  words_loop (length ws) i p s =
    if i + Z.of_nat (length ws) <=? ARGV_LEN then Ok (tt, set_argv (list_inserts (Z.to_nat i) (pointers p ws) (argv s)) s) else Err Bad_access.
Proof.
  induction ws as [|w ws IH]; intros s i p Hl Ht Hi Hi2; cbn [words_loop length laid total pointers] in *.
  { rewrite (proj2 (Z.leb_le _ _)) by (change (Z.of_nat 0) with 0; lia). by destruct s. }
  destruct Hl as [H1 H2]. pose proof (total_pos ws). fold args. rewrite Z.geb_leb, (proj2 (Z.leb_gt _ _)) by lia.
  destruct (Z.eq_dec i ARGV_LEN) as [->|Hne].
  { rewrite (proj2 (Z.leb_gt _ _)) by lia. unfold bind. by rewrite write_argv_out by lia. }
  mrun (write_argv_run i p s ltac:(lia)). set (s1 := set_argv _ s). mnorm.
  assert (CString.cstr (bytes s) (p + Z.of_nat 0) w) as H1' by (cbn; by rewrite Z.add_0_r).
  mrun (on_mem_same (CString.strnlen (fuel_of s1) p (args + LOADER_ARGS_LEN - p)) s1 (Z.of_nat (length w))
    (strnlen_loop_run (bytes s) (fuel_of s1) p 0 w (args + LOADER_ARGS_LEN - p) H1' ltac:(lia) (fuel_enough s1 p w H1))).
  rewrite (IH s1 (i + 1) (p + Z.of_nat (length w) + 1) H2) by lia.
  replace (i + 1 + Z.of_nat (length ws)) with (i + Z.of_nat (S (length ws))) by lia. destruct (_ <=? _); [|done].
  do 2 f_equal. unfold s1, set_argv. cbn. f_equal. rewrite list_insert_inserts_lt by lia. do 2 f_equal. lia.
Qed.

(** ** Printing them *)

Definition shown (w : list Z) : list Z := if CString.memb (chr " ") w then str " '" ++ w ++ str "'" else str " " ++ w.

#[local] Opaque limit.

Lemma show_word s w : Z.of_nat (length w) < 4294967296 ->
  (if negb (CString.memb (chr " ") w) then CmdLine.kprintf (lit " %s") [Str (Some w)] else CmdLine.kprintf (lit " '%s'") [Str (Some w)]) s
  = Ok (tt, CmdLine.set_console (CmdLine.console s ++ shown w) s).
Proof.
  intros Hl. unfold shown.
  assert (format_string (limit w (-1)) (mkConversion 0 0 (-1) INT) = w) as E.
  { unfold format_string. cbn [width flags]. Transparent limit. unfold limit. change (u32 (-1)) with 4294967295.
    rewrite (proj2 (Z.leb_le _ _)) by lia. destruct (0 >? Z.of_nat (length w)) eqn:E0; [rewrite Z.gtb_ltb, Z.ltb_lt in E0; lia|]. cbn [andb app]. by rewrite app_nil_r. }
  destruct (CString.memb (chr " ") w); cbn [negb].
  - assert (printf 120 (lit " '%s'") [Str (Some w)] = Ok (str " '" ++ format_string (limit w (-1)) (mkConversion 0 0 (-1) INT) ++ str "'")) as Ep by reflexivity.
    unfold CmdLine.kprintf. rewrite Ep, E. done.
  - assert (printf 120 (lit " %s") [Str (Some w)] = Ok (str " " ++ format_string (limit w (-1)) (mkConversion 0 0 (-1) INT) ++ [])) as Ep by reflexivity.
    unfold CmdLine.kprintf. rewrite Ep, E, app_nil_r. done.
Qed.

#[local] Opaque limit.

Lemma print_loop_run ws : forall s i p,
  laid (bytes s) p ws -> 0 < p -> total ws <= LOADER_ARGS_LEN -> 0 <= i -> i + Z.of_nat (length ws) <= ARGV_LEN ->
  (forall k q, pointers p ws !! k = Some q -> argv s !! (Z.to_nat i + k)%nat = Some q) ->
  print_loop (length ws) i s = Ok (tt, CmdLine.set_console (CmdLine.console s ++ concat (map shown ws)) s).
Proof.
  induction ws as [|w ws IH]; intros s i p Hl Hp Ht Hi Hi2 Ha; cbn [print_loop length laid total pointers map concat] in *.
  { rewrite app_nil_r. by destruct s. }
  destruct Hl as [H1 H2]. pose proof (total_pos ws).
  assert (read_argv i s = Ok (p, s)) as Er.
  { unfold read_argv, gets_opt. rewrite (proj2 (Z.leb_le _ _)), (proj2 (Z.ltb_lt _ _)) by lia. cbn [andb].
    specialize (Ha 0%nat p eq_refl). rewrite Nat.add_0_r in Ha. by rewrite Ha. }
  mrun Er. mnorm. destruct (CString.strchr_ok (fuel_of s) (bytes s) p w (chr " ") H1 Hp ltac:(change (chr " ") with 32; lia) (fuel_enough s p w H1)) as (r & Hr & Hn).
  mrun (on_mem_same (CString.strchr (fuel_of s) p (chr " ")) s r Hr).
  mrun (on_mem_same (CmdLine.string_at (fuel_of s) p) s w (string_at_run (bytes s) (fuel_of s) p w H1 (fuel_enough s p w H1))).
  rewrite Hn. change (chr " " =? 0) with false. cbn [orb]. unfold LOADER_ARGS_LEN in Ht.
  mrun (show_word s w ltac:(lia)). set (s1 := CmdLine.set_console _ s).
  rewrite (IH s1 (i + 1) (p + Z.of_nat (length w) + 1) H2) by first [lia | unfold LOADER_ARGS_LEN; lia | intros k q Hk; cbn; rewrite <- (Ha (S k) q Hk); f_equal; lia].
  unfold s1. cbn. by rewrite <- app_assoc.
Qed.

Lemma total_length ws : Z.of_nat (length ws) <= total ws.
Proof. induction ws as [|w ws IH]; cbn [length total]; lia. Qed.

Lemma total_words ws : Forall (fun w => w <> []) ws -> 2 * Z.of_nat (length ws) <= total ws.
Proof.
  induction 1 as [|w ws Hw _ IH]; cbn [length total]; [lia|]. destruct w; [done|]. cbn [length]. lia.
Qed.

(** The state after the command line has been read. *)
Definition read_state (s : boot) (ws : list (list Z)) : boot :=
  CmdLine.set_console (CmdLine.console s ++ str "Kernel command line:" ++ concat (map shown ws) ++ [10])
    (set_argv (<[length ws := NULL]> (list_inserts 0 (pointers args ws) (argv s))) s).

Lemma argc_run n : 0 <= n < 2147483648 -> s32 (FsState.of_le32 (FsState.le32 n)) = n.
Proof.
  intros H. rewrite <- (app_nil_r (FsState.le32 n)). rewrite FsState.le32_roundtrip by (unfold in_u32; lia). apply s32_id. lia.
Qed.

Lemma read_run s ws :
  loaded s ws -> read_command_line s = if (length ws <=? 64)%nat then Ok (tt, read_state s ws) else Err Bad_access.
Proof.
  intros [Hc Hw Hf Ha]. unfold read_command_line. mrun (on_mem_same _ s _ Hc).
  pose proof (total_length ws) as Htl. unfold LOADER_ARGS_LEN in Hf. rewrite argc_run, Nat2Z.id by lia.
  change (ptov LOADER_ARGS) with args. change ARGV_LEN with 65 in *. change (Z.to_nat 65) with 65%nat in Ha.
  assert (args + total ws <= args + LOADER_ARGS_LEN) as Hfit by (unfold LOADER_ARGS_LEN; lia).
  pose proof (words_loop_run ws s 0 args Hw Hfit ltac:(lia) ltac:(change ARGV_LEN with 65; lia)) as Hr. change ARGV_LEN with 65 in Hr. rewrite Z.add_0_l in Hr.
  destruct (Nat.leb_spec (length ws) 64) as [Hle|Hgt].
  2:{ destruct (Z.leb_spec (Z.of_nat (length ws)) 65); unfold bind; rewrite Hr; [|done].
      by rewrite write_argv_out by (change ARGV_LEN with 65; lia). }
  rewrite (proj2 (Z.leb_le _ _)) in Hr by lia. mrun Hr. set (s1 := set_argv _ s).
  mrun (write_argv_run (Z.of_nat (length ws)) NULL s1 ltac:(change ARGV_LEN with 65; lia)). rewrite Nat2Z.id. set (s2 := set_argv _ s1).
  assert (CmdLine.kprintf (lit "Kernel command line:") [] s2 = Ok (tt, CmdLine.set_console (CmdLine.console s2 ++ str "Kernel command line:") s2)) as E1 by reflexivity.
  mrun E1. set (s3 := CmdLine.set_console _ s2).
  mrun (print_loop_run ws s3 0 args Hw ltac:(done) ltac:(unfold LOADER_ARGS_LEN; lia) ltac:(lia) ltac:(change ARGV_LEN with 65; lia)
    ltac:(intros k q Hk; pose proof (lookup_lt_Some _ _ _ Hk) as Hlt; rewrite pointers_length in Hlt; cbn;
      rewrite list_lookup_insert_ne by lia; rewrite list_lookup_inserts by (rewrite ?pointers_length; lia); by rewrite Nat.sub_0_r)).
  set (s4 := CmdLine.set_console _ s3).
  assert (CmdLine.kprintf (lit "
") [] s4 = Ok (tt, CmdLine.set_console (CmdLine.console s4 ++ [10]) s4)) as -> by reflexivity.
  do 2 f_equal. unfold read_state. rewrite !(app_assoc (CmdLine.console s)), (app_assoc (CmdLine.console s ++ _)). done.
Qed.

(** C38: The command line that the loader leaves is read back: the arguments are
    pointers to the words, in their order, behind them is a null pointer, and the line is
    echoed with quotes around words that have spaces.  This needs at most 64
    words, which is so when no word is empty; with more words, of which
    some are empty, the array of arguments is overrun. *)
Theorem read_command_line_ok s ws :
  loaded s ws ->
  (Forall (fun w => w <> []) ws -> (length ws <= 64)%nat) /\
  if (length ws <=? 64)%nat then
    exists s', read_command_line s = Ok (tt, s') /\ bytes s' = bytes s /\
      (forall k w, ws !! k = Some w -> exists p, argv s' !! k = Some p /\ p <> NULL /\ CString.cstr (bytes s') p w) /\
      argv s' !! length ws = Some NULL /\
      CmdLine.console s' = CmdLine.console s ++ str "Kernel command line:" ++ concat (map shown ws) ++ [10]
  else read_command_line s = Err Bad_access.
Proof.
  intros Hl. pose proof Hl as [_ Hw Hf Ha]. unfold LOADER_ARGS_LEN in Hf. change (Z.to_nat ARGV_LEN) with 65%nat in Ha. split.
  { intros Hne. pose proof (total_words ws Hne). lia. }
  rewrite (read_run s ws Hl). destruct (Nat.leb_spec (length ws) 64) as [Hle|_]; [|done].
  exists (read_state s ws). split; [done|]. split; [done|]. split; [|split; [|done]].
  - intros k w Hk. destruct (laid_lookup ws (bytes s) args k w Hw ltac:(done) Hk) as (q & Hq & Hpos & Hc). exists q. split; [|split; [unfold NULL; lia|done]].
    pose proof (lookup_lt_Some _ _ _ Hk). cbn. rewrite list_lookup_insert_ne by lia.
    rewrite list_lookup_inserts by (rewrite ?pointers_length; lia). by rewrite Nat.sub_0_r.
  - cbn. apply list_lookup_insert_eq. rewrite length_inserts. lia.
Qed.

(** ** Options *)

Record settings : Type := mkSettings {
  o_format : bool; o_filesys : option (list Z); o_scratch : option (list Z); o_swap : option (list Z);
  o_limit : Z; o_mlfqs : bool; o_how : shutdown_type
}.

(** The part before the first equals sign, and the part behind it unless
    there is none. *)
Definition split_option (w : list Z) : list Z * option (list Z) :=
  let '(name, rest) := CString.span (fun c => negb (CString.memb c [chr "="])) w in
  (name, match tail rest with [] => None | v => Some v end).

(** The effect of an option: an error, [None] for the help text, or new settings. *)
Definition set_option (name : list Z) (value : option (list Z)) (o : settings) : res (option settings) :=
  let '(mkSettings f fs sc sw l ml h) := o in
  if bool_decide (name = str "-h") then Ok None
  else if bool_decide (name = str "-q") then Ok (Some (mkSettings f fs sc sw l ml SHUTDOWN_POWER_OFF))
  else if bool_decide (name = str "-r") then Ok (Some (mkSettings f fs sc sw l ml SHUTDOWN_REBOOT))
  else if bool_decide (name = str "-f") then Ok (Some (mkSettings true fs sc sw l ml h))
  else if bool_decide (name = str "-filesys") then Ok (Some (mkSettings f value sc sw l ml h))
  else if bool_decide (name = str "-scratch") then Ok (Some (mkSettings f fs value sw l ml h))
  else if bool_decide (name = str "-swap") then Ok (Some (mkSettings f fs sc value l ml h))
  else if bool_decide (name = str "-rs") then match value with None => Err Assertion_failed | Some _ => Ok (Some o) end
  else if bool_decide (name = str "-mlfqs") then Ok (Some (mkSettings f fs sc sw l true h))
  else if bool_decide (name = str "-ul") then
    match value with None => Err Assertion_failed | Some v => Ok (Some (mkSettings f fs sc sw (u32 (StdLib.atoi v)) ml h)) end
  else Err Kernel_panic.

Definition apply_option (w : list Z) (o : settings) : res (option settings) := set_option (split_option w).1 (split_option w).2 o.

Definition is_option (w : list Z) : bool := match w with c :: _ => c =? chr "-" | [] => false end.

(** The options at the start of the words: how many, and the settings. *)
Fixpoint run_options (ws : list (list Z)) (o : settings) : res (option (nat * settings)) :=
  match ws with
  | w :: ws' =>
      if is_option w then
        match apply_option w o with
        | Err e => Err e
        | Ok None => Ok None
        | Ok (Some o') =>
            match run_options ws' o' with Ok (Some (k, o2)) => Ok (Some (S k, o2)) | r => r end
        end
      else Ok (Some (0%nat, o))
  | [] => Ok (Some (0%nat, o))
  end.

(** A pointer to a string below [lim], or null. *)
Definition ptr_is (m : CString.mem) (lim p : Z) (v : option (list Z)) : Prop :=
  match v with None => p = NULL | Some w => args <= p /\ p + Z.of_nat (length w) < lim /\ CString.cstr m p w end.

Record matches (lim : Z) (s : boot) (o : settings) : Prop := {
  mt_format : format_filesys s = o_format o;
  mt_filesys : ptr_is (bytes s) lim (filesys_bdev_name s) (o_filesys o);
  mt_scratch : ptr_is (bytes s) lim (scratch_bdev_name s) (o_scratch o);
  mt_swap : ptr_is (bytes s) lim (swap_bdev_name s) (o_swap o);
  mt_limit : user_page_limit s = o_limit o;
  mt_mlfqs : thread_mlfqs s = o_mlfqs o;
  mt_how : how s = o_how o
}.

Lemma ptr_is_agree m m' lim lim' p v :
  ptr_is m lim p v -> (forall a, a < lim -> m' !! a = m !! a) -> lim <= lim' -> ptr_is m' lim' p v.
Proof.
  unfold ptr_is. destruct v as [w|]; [|done]. intros (H1 & H2 & H3) Ha Hl. split; [done|]. split; [lia|].
  apply (CString.cstr_agree m); [|done]. intros a Hx. apply Ha. lia.
Qed.

Lemma matches_agree lim lim' s b o :
  matches lim s o -> (forall a, a < lim -> b !! a = bytes s !! a) -> lim <= lim' -> matches lim' (set_bytes b s) o.
Proof. intros [] Ha Hl. split; try done; by eapply ptr_is_agree. Qed.

Section parsing.
Context (d_equals d_none : Z).

(** The strings of delimiters are not among the arguments. *)
Record delimiters (m : CString.mem) : Prop := {
  dl_equals : CString.cstr m d_equals [chr "="] /\ 0 < d_equals /\ (d_equals + 1 < args \/ args + LOADER_ARGS_LEN <= d_equals);
  dl_none : CString.cstr m d_none [] /\ 0 < d_none /\ (d_none < args \/ args + LOADER_ARGS_LEN <= d_none)
}.

Lemma delimiters_agree m m' :
  delimiters m -> (forall a, a < args \/ args + LOADER_ARGS_LEN <= a -> m' !! a = m !! a) -> delimiters m'.
Proof.
  intros [(A1 & A2 & A3) (B1 & B2 & B3)] Ha. split; (split; [|done]); eapply CString.cstr_agree; [|exact A1| |exact B1]; intros a Hx; apply Ha; cbn in Hx; lia.
Qed.

Lemma span_none s : CString.span (fun c => CString.memb c []) s = ([], s) /\ CString.span (fun c => negb (CString.memb c [])) s = (s, []).
Proof.
  split; [by destruct s|]. induction s as [|c s IH]; [done|]. cbn [CString.span]. rewrite IH. done.
Qed.

Lemma tokens_run m p w fuel :
  CString.cstr m p w -> is_option w = true -> delimiters m -> args <= p -> p + Z.of_nat (length w) < args + LOADER_ARGS_LEN ->
  (length w + 1 < fuel)%nat ->
  exists sv m1 value sv2 m2, CString.strtok_r fuel p d_equals NULL m = Ok ((p, sv), m1) /\
    CString.strtok_r fuel NULL d_none sv m1 = Ok ((value, sv2), m2) /\
    CString.cstr m2 p (split_option w).1 /\ ptr_is m2 (p + Z.of_nat (length w) + 1) value (split_option w).2 /\
    (length (split_option w).1 <= length w)%nat /\
    (forall a, a < p \/ p + Z.of_nat (length w) < a -> m2 !! a = m !! a).
Proof.
  intros Hc Ho Hd Hp Hlim Hf. pose proof Hd as [(D1 & D2 & D3) (E1 & E2 & E3)].
  destruct w as [|c w]; [done|]. apply Z.eqb_eq in Ho. subst c. set (w' := chr "-" :: w) in *. assert (0 < args) as Ha0 by reflexivity. assert (0 < p) as Hp0 by lia.
  unfold split_option. destruct (CString.span (fun c => negb (CString.memb c [chr "="])) w') as [name rest2] eqn:Es.
  pose proof (CString.span_app _ _ _ _ Es) as Ew.
  destruct (CString.strtok_r_run m d_equals [chr "="] D1 D2 fuel p NULL w' [] w' name rest2) as (r & sv & m1 & Hr1 & Hout1 & Hcase).
  - rewrite (proj2 (Z.eqb_neq _ _)) by (unfold NULL; lia). done.
  - rewrite (proj2 (Z.eqb_neq _ _)) by (unfold NULL; lia). done.
  - rewrite (proj2 (Z.eqb_neq _ _)) by (unfold NULL; lia). cbn [length]. lia.
  - cbn [length]. lia.
  - reflexivity.
  - exact Es.
  - rewrite (proj2 (Z.eqb_neq p NULL)) in * by (unfold NULL; lia). cbn [fst snd].
    cbn [w'] in Hcase. destruct Hcase as (-> & Hname & Hsv & Hend). cbn [length] in Hr1. rewrite Z.add_0_r in *.
    assert (delimiters m1) as Hd1.
    { eapply delimiters_agree; [exact Hd|]. intros a Ha. apply Hout1. lia. }
    pose proof Hd1 as [_ (F1 & F2 & F3)]. set (v := tail rest2) in *.
    assert (length w' = length name + length rest2)%nat as Elen by (rewrite Ew; apply length_app).
    assert (rest2 = [] /\ v = [] \/ sv = p + Z.of_nat (length name) + 1) as Hsvpos.
    { unfold v in *. destruct rest2 as [|x rest2]; [by left|right]. cbn [tail length] in *. lia. }
    assert (p <= sv /\ sv + Z.of_nat (length v) = p + Z.of_nat (length w')) as [Hsv1 Hsv2] by (split; [destruct Hsvpos as [[-> Ev]|]; [rewrite Ev in *; cbn in *|]; lia|lia]).
    destruct (span_none v) as [S1 S2].
    destruct (CString.strtok_r_run m1 d_none [] F1 F2 fuel NULL sv v [] v v []) as (r2 & sv2 & m2 & Hr2 & Hout2 & Hcase2);
      [exact Hsv|cbn; lia|cbn [length Z.eqb NULL]; lia|cbn [length] in *; lia|exact S1|exact S2|].
    cbn [Z.eqb NULL] in Hout2, Hcase2. exists sv, m1, r2, sv2, m2. split; [exact Hr1|]. split; [exact Hr2|].
    assert (forall a, a < sv \/ sv + Z.of_nat (length v) < a -> m2 !! a = m1 !! a) as Hout2' by exact Hout2.
    split; [|split; [|split; [lia|]]].
    + destruct v as [|x v'].
      * destruct Hcase2 as (_ & -> & _). exact Hname.
      * apply (CString.cstr_agree m1); [|exact Hname]. intros a Ha. apply Hout2'. destruct Hsvpos as [[_ [=]]|E]. lia.
    + destruct v as [|x v'].
      * by destruct Hcase2 as (-> & _).
      * destruct Hcase2 as (-> & Hc2 & _). change (Z.of_nat (length [])) with 0 in Hc2 |- *. rewrite Z.add_0_r in *. clearbody w'. split; [lia|]. split; [lia|exact Hc2].
    + intros a Ha. rewrite Hout2' by lia. apply Hout1. lia.
Qed.

(** The value of an option as a number. *)
Lemma atoi_at_run s lim p v :
  ptr_is (bytes s) lim p v -> atoi_at p s = match v with None => Err Assertion_failed | Some w => Ok (StdLib.atoi w, s) end.
Proof.
  unfold ptr_is, atoi_at. destruct v as [w|]; [|by intros ->]. intros (H1 & H2 & H3). assert (0 < args) by reflexivity.
  rewrite (proj2 (Z.eqb_neq p NULL)) by (unfold NULL; lia). cbn [negb]. mnorm.
  by mrun (on_mem_same (CmdLine.string_at (fuel_of s) p) s w (string_at_run (bytes s) (fuel_of s) p w H3 (fuel_enough s p w H3))).
Qed.

Lemma on_rng_run seed s : exists g, on_rng (Random.random_init seed) s = Ok (tt, set_rng g s).
Proof. destruct (Random.random_init_run seed (rng s)) as (g & Hr & _). exists g. unfold on_rng. by rewrite Hr. Qed.

Lemma do_option_run s lim name p v o :
  matches lim s o -> ptr_is (bytes s) lim p v ->
  match set_option name v o with
  | Err e => do_option name p s = Err e
  | Ok None => exists s', do_option name p s = Ok (false, s')
  | Ok (Some o') => exists s', do_option name p s = Ok (true, s') /\ matches lim s' o' /\ bytes s' = bytes s /\ argv s' = argv s
  end.
Proof.
  intros Hm Hv. unfold set_option, do_option, shutdown_configure. pose proof (atoi_at_run s lim p v Hv) as Ha. destruct o as [f fs sc sw l ml h].
  destruct Hm as [M1 M2 M3 M4 M5 M6 M7]. cbn in M1, M2, M3, M4, M5, M6, M7.
  destruct (bool_decide (name = str "-h")); [by eexists|]. destruct (bool_decide (name = str "-q")); [eexists; by split|].
  destruct (bool_decide (name = str "-r")); [eexists; by split|]. destruct (bool_decide (name = str "-f")); [eexists; by split|].
  destruct (bool_decide (name = str "-filesys")); [eexists; by split|]. destruct (bool_decide (name = str "-scratch")); [eexists; by split|].
  destruct (bool_decide (name = str "-swap")); [eexists; by split|]. destruct (bool_decide (name = str "-rs")).
  { destruct v as [w|]; [|unfold bind; by rewrite Ha]. destruct (on_rng_run (u32 (StdLib.atoi w)) s) as (g & Hg). mrun Ha. mrun Hg. eexists. by split. }
  destruct (bool_decide (name = str "-mlfqs")); [eexists; by split|]. destruct (bool_decide (name = str "-ul")); [|done].
  destruct v as [w|]; [|unfold bind; by rewrite Ha]. mrun Ha. eexists. by split.
Qed.

(** [argv] points to the words from [i] on. *)
Definition arguments (s : boot) (i p : Z) (ws : list (list Z)) : Prop :=
  length (argv s) = Z.to_nat ARGV_LEN /\ 0 <= i /\ i + Z.of_nat (length ws) < ARGV_LEN /\
  forall k, (k <= length ws)%nat -> argv s !! (Z.to_nat i + k)%nat = Some (nth k (pointers p ws) NULL).

Lemma arguments_head s i p ws : arguments s i p ws -> read_argv i s = Ok (match ws with [] => NULL | _ => p end, s).
Proof.
  intros (H1 & H2 & H3 & H4). unfold read_argv, gets_opt. rewrite (proj2 (Z.leb_le _ _)), (proj2 (Z.ltb_lt _ _)) by lia. cbn [andb].
  specialize (H4 0%nat ltac:(lia)). rewrite Nat.add_0_r in H4. rewrite H4. by destruct ws.
Qed.

Lemma arguments_tail s i p w ws : arguments s i p (w :: ws) -> arguments s (i + 1) (p + Z.of_nat (length w) + 1) ws.
Proof.
  intros (H1 & H2 & H3 & H4). cbn [length] in *. split; [done|]. split; [lia|]. split; [lia|]. intros k Hk.
  specialize (H4 (S k) ltac:(lia)). cbn [pointers nth] in H4. rewrite <- H4. f_equal. lia.
Qed.

Lemma laid_agree ws : forall m m' p, (forall a, p <= a -> m' !! a = m !! a) -> laid m p ws -> laid m' p ws.
Proof.
  induction ws as [|w ws IH]; intros m m' p Ha; cbn; [done|]. intros [H1 H2]. split.
  - apply (CString.cstr_agree m); [|done]. intros a Hx. apply Ha. lia.
  - apply (IH m); [|done]. intros a Hx. apply Ha. lia.
Qed.

(** Where the words are when the loop stops. *)
Lemma arguments_words s i p ws :
  laid (bytes s) p ws -> args <= p -> arguments s i p ws ->
  forall j w, ws !! j = Some w -> exists q, argv s !! (Z.to_nat i + 0 + j)%nat = Some q /\ q <> NULL /\ CString.cstr (bytes s) q w.
Proof.
  intros Hl Hp (_ & _ & _ & Ha) j w Hj. assert (0 < args) by reflexivity.
  destruct (laid_lookup ws (bytes s) p j w Hl ltac:(lia) Hj) as (q & Hq & Hpos & Hc). exists q. pose proof (lookup_lt_Some _ _ _ Hj).
  rewrite Nat.add_0_r, Ha by lia. rewrite nth_lookup, Hq. split; [done|]. split; [unfold NULL; lia|done].
Qed.

Lemma options_loop_run ws : forall fuel s i p o,
  laid (bytes s) p ws -> args <= p -> p + total ws <= args + LOADER_ARGS_LEN -> delimiters (bytes s) -> arguments s i p ws ->
  matches p s o -> (length ws < fuel)%nat ->
  match run_options ws o with
  | Err e => options_loop d_equals d_none fuel i s = Err e
  | Ok None => exists s', options_loop d_equals d_none fuel i s = Ok (None, s')
  | Ok (Some (k, o')) => exists s', options_loop d_equals d_none fuel i s = Ok (Some (i + Z.of_nat k), s') /\
      matches (args + LOADER_ARGS_LEN) s' o' /\ argv s' = argv s /\ (k <= length ws)%nat /\
      forall j w, drop k ws !! j = Some w -> exists q, argv s' !! (Z.to_nat i + k + j)%nat = Some q /\ q <> NULL /\ CString.cstr (bytes s') q w
  end.
Proof.
  induction ws as [|w ws IH]; intros fuel s i p o Hl Hp Ht Hd Ha Hm Hf; (destruct fuel as [|fuel]; [lia|]); cbn [options_loop run_options].
  { mrun (arguments_head s i p [] Ha). cbn [Z.eqb NULL]. exists s. split; [by rewrite Z.add_0_r|]. split; [|split; [done|split; [cbn; lia|by intros j w]]].
    rewrite <- (bytes_same s). apply (matches_agree p); [done|done|cbn [total] in Ht; lia]. }
  mrun (arguments_head s i p (w :: ws) Ha). assert (0 < args) as Hpos by reflexivity. rewrite (proj2 (Z.eqb_neq p NULL)) by (unfold NULL; lia).
  pose proof (total_pos ws). cbn [laid total length] in Hl, Ht, Hf. destruct Hl as [H1 H2].
  assert (exists c, bytes s !! p = Some c /\ (c =? chr "-") = is_option w) as (c & Hc & Ho).
  { destruct w as [|c w]; cbn in H1 |- *; [by exists 0|]. exists c. by destruct H1. }
  mrun (on_mem_same (CString.load p) s c (CString.load_ok _ _ _ Hc)). rewrite Ho. destruct (is_option w) eqn:Eo; cbn [negb].
  2:{ exists s. split; [by rewrite Z.add_0_r|]. split; [|split; [done|split; [lia|]]].
      - rewrite <- (bytes_same s). by apply (matches_agree p); [done|done|lia].
      - apply (arguments_words s i p (w :: ws)); [by split|done|done]. }
  mnorm. destruct (tokens_run (bytes s) p w (fuel_of s) H1 Eo Hd Hp ltac:(lia)) as (sv & m1 & vp & sv2 & m2 & Ht1 & Ht2 & Hname & Hval & Hnl & Hout).
  { unfold fuel_of. pose proof (cstr_fuel _ _ _ H1). lia. }
  mrun (on_mem_run _ s _ _ Ht1). set (s1 := set_bytes m1 s). mrun (on_mem_run _ s1 _ _ Ht2).
  set (s2 := set_bytes m2 s1). assert (bytes s2 = m2) as Eb by reflexivity.
  assert ((length (split_option w).1 < fuel_of s)%nat) as Hfn by (pose proof (fuel_enough s p w H1); lia).
  mrun (on_mem_same (CmdLine.string_at (fuel_of s) p) s2 _ (string_at_run m2 (fuel_of s) p _ Hname Hfn)).
  set (lim := p + Z.of_nat (length w) + 1) in *.
  assert (matches lim s2 o) as Hm2 by (apply (matches_agree p lim s m2 o Hm); [intros a Hx; apply Hout; lia|lia]).
  pose proof (do_option_run s2 lim (split_option w).1 vp (split_option w).2 o Hm2 Hval) as Hopt. fold (apply_option w o) in Hopt.
  destruct (apply_option w o) as [[o1|]|er].
  - destruct Hopt as (s3 & Hr3 & Hm3 & Eb3 & Ea3). mrun Hr3. assert (bytes s3 = m2) as Eb3' by congruence.
    assert (argv s3 = argv s) as Ea3' by (by rewrite Ea3).
    assert (arguments s3 (i + 1) lim ws) as Ha3 by (destruct (arguments_tail s i p w ws Ha) as (A1 & A2 & A3 & A4); by split; rewrite ?Ea3').
    specialize (IH fuel s3 (i + 1) lim o1). rewrite Eb3' in IH.
    specialize (IH ltac:(apply (laid_agree ws (bytes s)); [intros a Hx; apply Hout; lia|done]) ltac:(lia) ltac:(lia)).
    specialize (IH ltac:(apply (delimiters_agree (bytes s)); [done|]; intros a Hx; apply Hout; lia) Ha3 Hm3 ltac:(lia)).
    destruct (run_options ws o1) as [[[k o2]|]|er]; [|done|done].
    destruct IH as (s' & Hr & Hm' & Ea' & Hk & Hw). exists s'. split; [rewrite Hr; do 3 f_equal; lia|]. split; [done|]. split; [congruence|]. split; [cbn [length]; lia|].
    intros j w' Hj. cbn [drop] in Hj. destruct (Hw j w' Hj) as (q & Hq & Hrest). exists q. split; [|done]. rewrite <- Hq. f_equal. destruct Ha as (_ & Hi0 & _). lia.
  - destruct Hopt as (s3 & Hr3). mrun Hr3. by eexists.
  - unfold bind. by rewrite Hopt.
Qed.

End parsing.

(** ** The generator *)

(** Initializing sets the whole state. *)
Lemma init_loop_s n : forall g g' seed i j, Random.s g = Random.s g' ->
  match Random.init_loop n seed i j g, Random.init_loop n seed i j g' with
  | Ok (_, a), Ok (_, b) => Random.s a = Random.s b
  | Err e, Err e' => e = e'
  | _, _ => False
  end.
Proof.
  induction n as [|n IH]; intros g g' seed i j E; cbn [Random.init_loop]; [done|].
  destruct g as [l a b c], g' as [l' a' b' c']. cbn in E. subst l'.
  unfold Random.swap_byte, Random.read_s, gets_opt, bind, modify. cbn [Random.s].
  destruct (l !! Z.to_nat i) as [x|] eqn:Ex; [|done]. cbn [Random.s]. rewrite Ex. cbn beta iota.
  change (Random.s (Random.mkPrng l a b c)) with l. change (Random.s (Random.mkPrng l a' b' c')) with l.
  destruct (l !! Z.to_nat (u8 (j + (x + Random.seedp seed (i mod 4))))) as [y|]; [|done]. by apply IH.
Qed.

Lemma random_init_any n g g' : Random.random_init n g = Random.random_init n g'.
Proof.
  unfold Random.random_init. rewrite !bind_modify_l.
  pose proof (init_loop_s 256 (Random.with_s (Z.of_nat <$> seq 0 256) g) (Random.with_s (Z.of_nat <$> seq 0 256) g') n 0 0 eq_refl) as H.
  unfold bind. destruct (Random.init_loop 256 n 0 0 _) as [[[] a]|], (Random.init_loop 256 n 0 0 (Random.with_s _ g')) as [[[] b]|]; try done.
  - unfold modify. by rewrite H.
  - congruence.
Qed.

(** The generator that has been initialized with [n] only. *)
Definition seeded (n : Z) : Random.prng :=
  match Random.random_init n Random.prng0 with Ok (_, g) => g | Err _ => Random.prng0 end.

Lemma reseed n s : on_rng (Random.random_init n) s = Ok (tt, set_rng (seeded n) s).
Proof.
  unfold on_rng, seeded. rewrite (random_init_any n (rng s) Random.prng0).
  destruct (Random.random_init_run n Random.prng0) as (g & -> & _). done.
Qed.

(** ** From the memory of the loader to the settings of the kernel *)

Lemma read_arguments s ws : loaded s ws -> (length ws <= 64)%nat -> arguments (read_state s ws) 0 args ws.
Proof.
  intros [_ _ _ Ha] Hl. change (Z.to_nat ARGV_LEN) with 65%nat in Ha. split; [cbn; by rewrite length_insert, length_inserts|]. split; [lia|].
  change ARGV_LEN with 65. split; [lia|]. intros k Hk. cbn [Z.to_nat]. rewrite Nat.add_0_l. cbn [argv read_state CmdLine.set_console set_argv].
  destruct (decide (k = length ws)) as [->|Hne].
  - rewrite list_lookup_insert_eq by (rewrite length_inserts; lia). rewrite nth_overflow; [done|]. rewrite pointers_length. lia.
  - rewrite list_lookup_insert_ne by lia. rewrite list_lookup_inserts by (rewrite ?pointers_length; lia). rewrite Nat.sub_0_r.
    destruct (lookup_lt_is_Some_2 (pointers args ws) k) as (q & Hq); [rewrite pointers_length; lia|]. by rewrite nth_lookup, Hq.
Qed.

(** C16: The words that the loader has left act as options from left to right up to
    the first one that does not start with a dash: each sets what the table of options
    says, later ones override earlier ones, the values are the parts behind
    the equals signs, an option that needs a number and has none fails an assertion,
    an unknown one stops the kernel, and -h ends with the help text.  The
    words behind the options are the actions, unchanged.  The generator of random
    numbers depends on the clock only, whatever -rs said. *)
Theorem parse_options_ok d_equals d_none now s ws o :
  loaded s ws -> (length ws <= 64)%nat -> delimiters d_equals d_none (bytes s) -> matches args s o ->
  exists s1, read_command_line s = Ok (tt, s1) /\
    match run_options ws o with
    | Err e => parse_options d_equals d_none now s1 = Err e
    | Ok None => exists s', parse_options d_equals d_none now s1 = Ok (None, s')
    | Ok (Some (k, o')) =>
        exists s', parse_options d_equals d_none now s1 = Ok (Some (Z.of_nat k), s') /\
          matches (args + LOADER_ARGS_LEN) s' o' /\ rng s' = seeded (u32 now) /\
          (forall j w, drop k ws !! j = Some w -> exists q, argv s' !! (k + j)%nat = Some q /\ q <> NULL /\ CString.cstr (bytes s') q w) /\
          argv s' !! length ws = Some NULL
    end.
Proof.
  intros Hl Hn Hd Hm. exists (read_state s ws). pose proof (read_arguments s ws Hl Hn) as Harg. pose proof Hl as [_ Hw Hf _].
  split; [by rewrite (read_run s ws Hl), (proj2 (Nat.leb_le _ _) Hn)|].
  assert (matches args (read_state s ws) o) as Hm' by (by destruct Hm).
  assert (args + total ws <= args + LOADER_ARGS_LEN) as Hfit by lia.
  pose proof (options_loop_run d_equals d_none ws (S (Z.to_nat ARGV_LEN)) (read_state s ws) 0 args o Hw ltac:(lia) Hfit Hd Harg Hm'
    ltac:(change (Z.to_nat ARGV_LEN) with 65%nat; lia)) as Hrun.
  unfold parse_options. destruct (run_options ws o) as [[[k o']|]|e].
  - destruct Hrun as (s' & Hr & Hm2 & Ea & Hk & Hwords). mrun Hr. mrun (reseed (u32 now) s').
    eexists. split; [by rewrite Z.add_0_l|]. split; [by destruct Hm2|]. split; [done|]. split; [exact Hwords|].
    cbn [argv set_rng]. rewrite Ea. destruct Harg as (_ & _ & _ & Harg). specialize (Harg (length ws) ltac:(lia)). cbn [Z.to_nat] in Harg.
    rewrite Nat.add_0_l in Harg. rewrite Harg, nth_overflow; [done|]. rewrite pointers_length. lia.
  - destruct Hrun as (s' & Hr). mrun Hr. by eexists.
  - unfold bind. by rewrite Hrun.
Qed.

(** ** A command line *)

Fixpoint place (p : Z) (bs : list Z) : CString.mem := match bs with [] => ∅ | b :: bs' => <[p := b]> (place (p + 1) bs') end.

Definition memory (ws : list (list Z)) : CString.mem :=
  place (ptov LOADER_ARG_CNT) (FsState.le32 (Z.of_nat (length ws)) ++ concat (map (fun w => w ++ [0]) ws)) ∪ place 4096 (lit "=" ++ [0]).

Definition ex_words : list (list Z) := [str "-q"; str "-filesys=hdb"; str "-rs=7"; str "run"; str "a b"].

Definition ex_boot (ws : list (list Z)) : boot := mkBoot (memory ws) (repeat 0 65) [] false NULL NULL NULL 4294967295 false SHUTDOWN_NONE Random.prng0.

Definition defaults : settings := mkSettings false None None None 4294967295 false SHUTDOWN_NONE.

Ltac strings := repeat match goal with |- CString.cstr _ _ [] => vm_compute; reflexivity | |- CString.cstr _ _ _ => apply (bool_decide_unpack _); vm_compute; exact I | |- laid _ _ (_ :: _) => split | |- laid _ _ [] => exact I end.

Lemma ex_loaded : loaded (ex_boot ex_words) ex_words.
Proof. split; [vm_compute; reflexivity| |vm_compute; discriminate|reflexivity]. unfold ex_words at 2. strings. Qed.

Lemma read_command_line_ok_witness :
  exists s', read_command_line (ex_boot ex_words) = Ok (tt, s') /\
    CmdLine.console s' = str "Kernel command line: -q -filesys=hdb -rs=7 run 'a b'" ++ [10].
Proof.
  destruct (read_command_line_ok (ex_boot ex_words) ex_words ex_loaded) as (_ & s' & Hr & _ & _ & _ & Hc).
  exists s'. split; [exact Hr|]. rewrite Hc. reflexivity.
Defined.

Lemma parse_options_ok_witness :
  exists s1 s', read_command_line (ex_boot ex_words) = Ok (tt, s1) /\ parse_options 4096 4098 1000 s1 = Ok (Some 3, s') /\
    how s' = SHUTDOWN_POWER_OFF /\ CString.cstr (bytes s') (filesys_bdev_name s') (str "hdb") /\ rng s' = seeded 1000.
Proof.
  destruct (parse_options_ok 4096 4098 1000 (ex_boot ex_words) ex_words defaults) as (s1 & Hr1 & Hcase).
  - exact ex_loaded.
  - vm_compute. lia.
  - split; (split; [strings|split; [reflexivity|left; vm_compute; reflexivity]]).
  - by split.
  - destruct Hcase as (s' & Hr & Hm & Hg & _). exists s1, s'. split; [exact Hr1|]. split; [exact Hr|].
    destruct Hm as [_ M2 _ _ _ _ M7]. split; [exact M7|]. split; [apply M2|exact Hg].
Defined.

(** ** Actions *)

Module Act.
Import CmdLine.Actions FsUtil.

(** The actions that a list of words stands for, and whether all words do. *)
Fixpoint plan (fuel : nat) (argv : list (list Z)) : list (function * list Z) * bool :=
  match fuel with
  | O => ([], false)
  | S fuel' =>
      match argv with
      | [] => ([], true)
      | name :: _ =>
          match find_action actions name with
          | None => ([], false)
          | Some (argc, f) =>
              if (length argv <? argc)%nat then ([], false)
              else let r := plan fuel' (drop argc argv) in ((f, nth 1 argv []) :: r.1, r.2)
          end
      end
  end.

Section plans.
Context (execute_and_wait : list Z -> M st unit).

Fixpoint perform (frames : nat -> frame) (l : list (function * list Z)) : M st unit :=
  match l with
  | [] => ret tt
  | (f, a) :: l' => call execute_and_wait (frames 0%nat) f a ;;; perform (fun n => frames (S n)) l'
  end.

Lemma action_argc table name argc f :
  Forall (fun x => (0 < x.1.2)%nat) table -> find_action table name = Some (argc, f) -> (0 < argc)%nat.
Proof.
  induction 1 as [|[[n a] g] table Ha _ IH]; cbn; [done|]. case_bool_decide; [by intros [= <- <-]|done].
Qed.

Lemma actions_argc name argc f : find_action actions name = Some (argc, f) -> (0 < argc)%nat.
Proof. apply action_argc. repeat constructor. Qed.

(** Running the words is performing their actions one after the other, and
    then stopping the kernel unless all words are part of an action. *)
Lemma run_actions_plan fuel : forall frames argv s,
  (length argv < fuel)%nat ->
  run_actions execute_and_wait fuel frames argv s =
    (perform frames (plan fuel argv).1 ;;; if (plan fuel argv).2 then ret tt else PANIC) s.
Proof.
  induction fuel as [|fuel IH]; intros frames argv s Hf; [lia|]. cbn [run_actions plan]. destruct argv as [|name argv]; [done|].
  destruct (find_action actions name) as [[argc f]|] eqn:E; [|done]. pose proof (actions_argc name argc f E) as Hpos.
  destruct (Nat.ltb_spec (length (name :: argv)) argc) as [Hlt|Hge]; [done|]. cbv zeta. cbn [fst snd perform]. rewrite bind_bind.
  destruct (call execute_and_wait (frames 0%nat) f (nth 1 (name :: argv) []) s) as [[[] s1]|e] eqn:Ec.
  - rewrite !(bind_ok _ _ _ _ _ Ec). apply IH. rewrite length_drop. cbn [length] in *. lia.
  - by rewrite !(bind_err _ _ _ _ Ec).
Qed.

(** A command line of appends is a sequence of calls of fsutil_append. *)
Lemma run_appends_actions calls : forall frames fuel s,
  (2 * length calls < fuel)%nat ->
  (forall k c, calls !! k = Some c -> fr_entry (frames k) = FsUtilProps.ac_entry c /\ fr_behind (frames k) = FsUtilProps.ac_behind c) ->
  run_actions execute_and_wait fuel frames (concat (map (fun c => [str "append"; FsUtilProps.ac_name c]) calls)) s = FsUtilProps.run_appends calls s.
Proof.
  induction calls as [|c calls IH]; intros frames fuel s Hf Hc; (destruct fuel as [|fuel]; [lia|]); [done|].
  cbn [map concat app FsUtilProps.run_appends]. destruct (Hc 0%nat c eq_refl) as [E1 E2].
  cbn [run_actions]. change (find_action actions (str "append")) with (Some (2%nat, Fsutil_append)). cbn [length Nat.ltb Nat.leb nth call drop].
  rewrite E1, E2. unfold bind. destruct (fsutil_append _ _ _ s) as [[[] s1]|e]; [|done].
  apply IH; [cbn [length] in Hf; lia|]. intros k c' Hk. by apply (Hc (S k)).
Qed.

End plans.

End Act.

(** ** Roles *)

Module Role.
Import Blocks CmdLine.Roles.

(** The device for a role: the one of the name, or the first of the type. *)
Definition chosen (s : st) (role : block_type) (name0 : option (list Z)) : option Z :=
  find (fun b => match blocks s !! b with
                 | Some v => match name0 with Some n => bool_decide (n = name v) | None => bool_decide (type v = role) end
                 | None => false end) (all_blocks s).

Lemma by_name_run s n l : wf s -> (forall b, b ∈ l -> is_Some (blocks s !! b)) ->
  by_name_loop n l s = Ok (find (fun b => match blocks s !! b with Some v => bool_decide (n = name v) | None => false end) l, s).
Proof.
  intros Hwf. induction l as [|b l IH]; intros Hl; cbn [by_name_loop find]; [done|].
  destruct (Hl b (list_elem_of_here _ _)) as [v Hv]. mrun (blk_run s b v Hwf Hv). rewrite Hv. case_bool_decide; [done|].
  apply IH. intros b' Hb. apply Hl. by right.
Qed.

Lemma behind_app b pre l : b ∉ pre -> after b (pre ++ b :: l) = Some (head l).
Proof.
  induction pre as [|x pre IH]; intros Hn; cbn; [by rewrite Z.eqb_refl|]. apply not_elem_of_cons in Hn as [Hx Hn].
  rewrite (proj2 (Z.eqb_neq x b)) by done. by apply IH.
Qed.

Lemma first_of_type_run s role : wf s -> forall l pre fuel, all_blocks s = pre ++ l -> (length l < fuel)%nat ->
  first_of_type fuel role (head l) s
    = Ok (find (fun b => match blocks s !! b with Some v => bool_decide (type v = role) | None => false end) l, s).
Proof.
  intros Hwf. induction l as [|b l IH]; intros pre fuel Hl Hf; (destruct fuel as [|fuel]; [cbn in Hf; lia|]); [done|].
  cbn [first_of_type head find]. unfold get_block_type.
  destruct (proj1 (wf_listed s Hwf b)) as [v Hv]; [rewrite Hl; apply elem_of_app; right; by left|].
  rewrite bind_bind. mrun (blk_run s b v Hwf Hv). mnorm. rewrite Hv. case_bool_decide; [done|].
  pose proof (wf_nodup s Hwf) as Hnd. rewrite Hl in Hnd. apply NoDup_app in Hnd as (_ & Hdis & _).
  assert (block_next b s = Ok (head l, s)) as En.
  { unfold block_next, gets_opt. rewrite Hl, behind_app; [done|]. intros Hb. apply (Hdis b Hb). by left. }
  mrun En. apply (IH (pre ++ [b])); [by rewrite <- app_assoc|cbn in Hf; lia].
Qed.

(** The device with the name, or else the first one of the type in the order in
    which they were registered, gets the role, and no other role changes; a
    name that no device has stops the kernel. *)
Lemma locate_block_device_ok s role name0 :
  wf s -> (role_no role < BLOCK_ROLE_CNT)%nat ->
  match chosen s role name0 with
  | Some b => exists t, locate_block_device role name0 s
      = Ok (tt, set_roles (<[role_no role := Some b]> (block_by_role s)) (Blocks.set_console t s))
  | None => locate_block_device role name0 s = match name0 with Some _ => Err Kernel_panic | None => Ok (tt, s) end
  end.
Proof.
  intros Hwf Hrole. unfold locate_block_device, chosen.
  assert (forall b, b ∈ all_blocks s -> is_Some (blocks s !! b)) as Hall by (intros b; apply Hwf).
  set (P := fun b => match blocks s !! b with Some v => match name0 with Some n => bool_decide (n = name v) | None => bool_decide (type v = role) end | None => false end).
  assert (forall k : option Z -> M st unit, ((b <- (match name0 with
        | Some n => b <- block_get_by_name n ;; match b with None => fail Kernel_panic | Some _ => ret b end
        | None => l <- gets all_blocks ;; b <- block_first ;; first_of_type (S (length l)) role b end) ;; k b) s)
    = match find P (all_blocks s), name0 with None, Some _ => Err Kernel_panic | b, _ => k b s end) as Hfind.
  { intros k. unfold P. destruct name0 as [n|].
    - unfold block_get_by_name. mnorm. mrun (by_name_run s n (all_blocks s) Hwf Hall). by destruct (find _ _).
    - unfold block_first. mnorm. mrun (first_of_type_run s role Hwf (all_blocks s) [] (S (length (all_blocks s))) eq_refl ltac:(lia)). by destruct (find _ _). }
  destruct (find P (all_blocks s)) as [b|] eqn:Ef; rewrite Hfind; [|by destruct name0].
  apply find_some in Ef as [Hin _]. apply list_elem_of_In in Hin. destruct (Hall b Hin) as [v Hv].
  unfold block_name. rewrite bind_bind. mrun (blk_run s b v Hwf Hv). mnorm.
  destruct (kprintf_run (lit "%s: using %s
") [Str (Some (block_type_name role)); Str (Some (name v))] s eq_refl) as (t & Ht). mrun Ht.
  exists t. unfold block_set_role. rewrite (proj2 (Nat.ltb_lt _ _) Hrole). by mnorm.
Qed.

End Role.

End CmdLineProps.
