(* ===== verification/SysRefine.v ===== *)
(** * The file calls of processes refine a table of descriptors

    The system calls of src/src/userprog/syscall.c on files, called by any
    number of processes in any order, over the file system: what they return
    and do is what operations on names, contents of files and positions of
    descriptors do. *)

From S2P Require Import Prelude KState Bitmap FsState Inode FileOps Directory FsInv DirProps FileSys Handles CString Syscall.
Import FsState Inode FileOps Directory FsInv DirProps FileSys Handles Syscall.

Module SysRefine.

(** ** Calls *)

Inductive call : Type :=
| Create (name : list Z) (initial_size : Z)
| Remove (name : list Z)
| Open (name : list Z)
| Filesize (fd : Z)
| Read (fd buffer size : Z)
| Write (fd buffer size : Z)
| Seek (fd position : Z)
| Tell (fd : Z)
| Close (fd : Z).

Definition run_call (t : Z) (e : list Z) (c : call) : M sys Z :=
  match c with
  | Create name size => b <- create t name e size ;; ret (of_bool b)
  | Remove name => b <- remove t name e ;; ret (of_bool b)
  | Open name => open t name e
  | Filesize fd => filesize t fd
  | Read fd buffer size => read 0 t fd buffer size
  | Write fd buffer size => write t fd buffer size
  | Seek fd position => seek t fd position ;;; ret 0
  | Tell fd => tell t fd
  | Close fd => close t fd ;;; ret 0
  end.

(** ** The abstract state *)

Record astate : Type := mkA {
  a_names : gmap (list Z) Z;            (* the file of a name *)
  a_data : gmap Z (list Z);             (* the contents of a file *)
  a_denied : gset Z;                    (* the files that may not be written *)
  a_fds : gmap (Z * Z) (Z * Z);         (* file and position of a descriptor of a process *)
  a_next : gmap Z Z;                    (* the next descriptor of a process *)
  a_mem : gmap Z CString.mem            (* the memory of a process *)
}.

Definition reach (bs : list Z) (size p : Z) : Z := Z.min size (Z.max 0 (Z.of_nat (length bs) - p)).

Definition unused (a : astate) (sec : Z) : Prop := forall x p, a_fds a !! x <> Some (sec, p).

Inductive sys_spec (t : Z) : call -> astate -> Z -> astate -> Prop :=
| S_create name size sec N D de F nx m :
    N !! name = None -> D !! sec = None ->
    sys_spec t (Create name size) (mkA N D de F nx m) 1 (mkA (<[name := sec]> N) (<[sec := replicate (Z.to_nat size) 0]> D) de F nx m)
| S_create_fails name size a : sys_spec t (Create name size) a 0 a
| S_remove_open name sec N D de F nx m :
    N !! name = Some sec -> sys_spec t (Remove name) (mkA N D de F nx m) 1 (mkA (delete name N) D de F nx m)
| S_remove_closed name sec N D de F nx m :
    N !! name = Some sec -> unused (mkA N D de F nx m) sec ->
    sys_spec t (Remove name) (mkA N D de F nx m) 1 (mkA (delete name N) (delete sec D) de F nx m)
| S_remove_none name a : a_names a !! name = None -> sys_spec t (Remove name) a 0 a
| S_open name sec N D de F nx m fd :
    N !! name = Some sec -> nx !! t = Some fd -> F !! (t, fd) = None ->
    sys_spec t (Open name) (mkA N D de F nx m) fd (mkA N D de (<[(t, fd) := (sec, 0)]> F) (<[t := fd + 1]> nx) m)
| S_open_none name a : a_names a !! name = None -> sys_spec t (Open name) a (-1) a
| S_filesize fd sec p bs a :
    a_fds a !! (t, fd) = Some (sec, p) -> a_data a !! sec = Some bs -> sys_spec t (Filesize fd) a (Z.of_nat (length bs)) a
| S_read fd buffer size sec p bs k N D de F nx m um :
    F !! (t, fd) = Some (sec, p) -> D !! sec = Some bs -> k = reach bs size p -> m !! t = Some um ->
    sys_spec t (Read fd buffer size) (mkA N D de F nx m) k
      (mkA N D de (<[(t, fd) := (sec, p + k)]> F) nx (<[t := uput um buffer (take (Z.to_nat k) (drop (Z.to_nat p) bs))]> m))
| S_write fd buffer size sec p bs k out N D de F nx m um :
    F !! (t, fd) = Some (sec, p) -> D !! sec = Some bs -> m !! t = Some um -> ubytes um buffer (Z.to_nat size) = Some out ->
    sec ∉ de -> k = reach bs size p ->
    sys_spec t (Write fd buffer size) (mkA N D de F nx m) k
      (mkA N (<[sec := splice (Z.to_nat p) (take (Z.to_nat k) out) bs]> D) de (<[(t, fd) := (sec, p + k)]> F) nx m)
| S_write_denied fd buffer size sec p a :
    a_fds a !! (t, fd) = Some (sec, p) -> sec ∈ a_denied a -> sys_spec t (Write fd buffer size) a 0 a
| S_seek fd position sec p N D de F nx m :
    F !! (t, fd) = Some (sec, p) ->
    sys_spec t (Seek fd position) (mkA N D de F nx m) 0 (mkA N D de (<[(t, fd) := (sec, position)]> F) nx m)
| S_tell fd sec p a : a_fds a !! (t, fd) = Some (sec, p) -> sys_spec t (Tell fd) a p a
| S_close fd sec p N D de F nx m :
    F !! (t, fd) = Some (sec, p) ->
    sys_spec t (Close fd) (mkA N D de F nx m) 0 (mkA N D de (delete (t, fd) F) nx m)
| S_close_last fd sec p N D de F nx m :
    F !! (t, fd) = Some (sec, p) -> (forall name, N !! name <> Some sec) -> (forall x q, delete (t, fd) F !! x <> Some (sec, q)) ->
    sys_spec t (Close fd) (mkA N D de F nx m) 0 (mkA N (delete sec D) de (delete (t, fd) F) nx m)
| S_bad_fd c fd r a :
    a_fds a !! (t, fd) = None ->
    match c with
    | Filesize f | Read f _ _ => f = fd /\ r = -1
    | Write f _ _ | Tell f | Seek f _ | Close f => f = fd /\ r = 0
    | _ => False
    end -> sys_spec t c a r a.

(** The calls that the theorem is about: sizes and positions that an [int]
    has room for, buffers in the memory of the process. *)
Definition valid (t : Z) (c : call) (a : astate) : Prop :=
  (exists n, a_next a !! t = Some n /\ n < 2147483647) /\
  match c with
  | Create name size => name_ok name /\ 0 <= size < 2147483136
  | Remove name | Open name => name_ok name
  | Read fd buffer size => fd <> READ_FROM_KEYBOARD /\ 0 <= size < 2147483648 /\
      exists um old, a_mem a !! t = Some um /\ ubytes um buffer (Z.to_nat size) = Some old
  | Write fd buffer size => fd <> WRITE_TO_CONSOLE /\ 0 <= size < 2147483648 /\
      exists um out, a_mem a !! t = Some um /\ ubytes um buffer (Z.to_nat size) = Some out
  | Seek fd position => 0 <= position < 2147483648
  | Filesize _ | Tell _ | Close _ => True
  end.

(** ** The invariant *)

(** The file of a descriptor that [open] has made. *)
Definition fd_file_ok (s : fs) (d : file_descriptor) : Prop :=
  exists fl w, user_file s (fd_file d) fl w /\ deny_write fl = false.

Record sys_inv (live : gmap Z inode_disk) (s : sys) : Prop := {
  si_ok : fs_ok live (fsys s);
  si_handles : hinv (fsys s);
  si_lock : filesys_access s = false;
  si_fds : forall t p, procs s !! t = Some p -> NoDup (fd_no <$> list_of_fds p) /\ 2 <= next_fd p < 2147483648 /\
    forall d, d ∈ list_of_fds p -> 2 <= fd_no d < next_fd p;
  si_files : forall t p d, procs s !! t = Some p -> d ∈ list_of_fds p -> fd_file_ok (fsys s) d;
  si_apart : forall t p d t' p' d', procs s !! t = Some p -> d ∈ list_of_fds p -> procs s !! t' = Some p' -> d' ∈ list_of_fds p' ->
    fd_file d = fd_file d' -> t = t' /\ d = d'
}.

(** The descriptor [fd] of [t] is the file [f]. *)
Definition fd_at (s : sys) (t fd f : Z) : Prop :=
  exists p d, procs s !! t = Some p /\ find_fd fd (list_of_fds p) = Some d /\ fd_file d = f.

(** The file of a handle. *)
Definition handle (s : fs) (f sec p : Z) : Prop :=
  exists fl w, files s !! f = Some fl /\ inodes s !! file_inode fl = Some w /\ sector w = sec /\ pos fl = p.

Definition user_sector (sec : Z) : Prop := sec <> FREE_MAP_SECTOR /\ sec <> ROOT_DIR_SECTOR.

(** The abstract state of a state. *)
Record abs (live : gmap Z inode_disk) (s : sys) (a : astate) : Prop := {
  ab_names : a_names a = names live (fsys s);
  ab_data : forall sec bs, a_data a !! sec = Some bs <-> user_sector sec /\ exists d, live !! sec = Some d /\ contents (fsys s) d = bs;
  ab_denied : forall sec, sec ∈ a_denied a <-> exists i w, inodes (fsys s) !! i = Some w /\ sector w = sec /\ deny_write_cnt w <> 0;
  ab_fds : forall t fd sec p, a_fds a !! (t, fd) = Some (sec, p) <-> exists f, fd_at s t fd f /\ handle (fsys s) f sec p;
  ab_next : forall t, a_next a !! t = next_fd <$> procs s !! t;
  ab_mem : forall t, a_mem a !! t = umem <$> procs s !! t
}.

(** ** Descriptors *)

Lemma find_fd_in fd l d : find_fd fd l = Some d -> d ∈ l /\ fd_no d = fd.
Proof.
  induction l as [|x l IH]; cbn; [done|]. destruct (Z.eqb_spec (fd_no x) fd) as [E|].
  - intros [= <-]. split; [by left|done].
  - intros H. destruct (IH H). split; [by right|done].
Qed.

Lemma find_fd_of l d : NoDup (fd_no <$> l) -> d ∈ l -> find_fd (fd_no d) l = Some d.
Proof.
  induction l as [|x l IH]; cbn; intros Hn Hd; [by apply not_elem_of_nil in Hd|]. apply NoDup_cons in Hn as [Hx Hn].
  apply elem_of_cons in Hd as [->|Hd]; [by rewrite Z.eqb_refl|].
  destruct (Z.eqb_spec (fd_no x) (fd_no d)) as [E|]; [|by apply IH]. destruct Hx. rewrite E. by apply list_elem_of_fmap_2.
Qed.

Lemma find_fd_none fd l : find_fd fd l = None <-> fd ∉ fd_no <$> l.
Proof.
  induction l as [|x l IH]; cbn; [split; [intros _; apply not_elem_of_nil|done]|]. rewrite not_elem_of_cons, <- IH.
  destruct (Z.eqb_spec (fd_no x) fd); naive_solver.
Qed.

Lemma find_fd_app fd l l' : find_fd fd (l ++ l') = match find_fd fd l with Some d => Some d | None => find_fd fd l' end.
Proof. induction l as [|x l IH]; cbn; [done|]. by destruct (fd_no x =? fd). Qed.

Lemma remove_fd_spec fd l : NoDup (fd_no <$> l) ->
  NoDup (fd_no <$> remove_fd fd l) /\ (forall d, d ∈ remove_fd fd l <-> d ∈ l /\ fd_no d <> fd) /\
  forall fd', find_fd fd' (remove_fd fd l) = if fd' =? fd then None else find_fd fd' l.
Proof.
  induction l as [|x l IH]; cbn; intros Hn.
  { split; [done|]. split; [intros d; split; [intros H; by apply not_elem_of_nil in H|intros [H _]; by apply not_elem_of_nil in H]|].
    intros fd'. by destruct (fd' =? fd). }
  apply NoDup_cons in Hn as [Hx Hn]. destruct (IH Hn) as (I1 & I2 & I3). destruct (Z.eqb_spec (fd_no x) fd) as [E|Hne].
  - split; [done|]. split.
    + intros d. rewrite elem_of_cons. split.
      * intros Hd. split; [by right|]. intros Ed. apply Hx. rewrite E, <- Ed. by apply list_elem_of_fmap_2.
      * intros [[->|Hd] Hf]; [congruence|done].
    + intros fd'. destruct (Z.eqb_spec fd' fd) as [->|].
      * apply find_fd_none. by rewrite <- E.
      * by rewrite (proj2 (Z.eqb_neq (fd_no x) fd')) by congruence.
  - cbn. split; [|split].
    + apply NoDup_cons. split; [|done]. intros (d & E & Hd)%list_elem_of_fmap. apply I2 in Hd as [Hd _]. apply Hx. rewrite E. by apply list_elem_of_fmap_2.
    + intros d. rewrite !elem_of_cons, I2. naive_solver.
    + intros fd'. rewrite I3. destruct (Z.eqb_spec (fd_no x) fd') as [<-|]; [by rewrite (proj2 (Z.eqb_neq _ _) Hne)|done].
Qed.

(** ** Running the parts of a call *)

Lemma on_fs_run {A} (m : M fs A) s a f : m (fsys s) = Ok (a, f) -> on_fs m s = Ok (a, set_fsys f s).
Proof. intros H. unfold on_fs. by rewrite H. Qed.

Lemma lock_taken_run s : filesys_access s = false -> acquire_filesys_lock s = Ok (tt, set_lock true s).
Proof. intros H. unfold acquire_filesys_lock, lock_acquire. mnorm. rewrite H. mnorm. rewrite H. by mnorm. Qed.

Lemma lock_given_run s : filesys_access s = true -> release_filesys_lock s = Ok (tt, set_lock false s).
Proof. intros H. unfold release_filesys_lock, lock_release. mnorm. rewrite H. mnorm. rewrite H. by mnorm. Qed.

Lemma unlock_relock s f : filesys_access s = false -> set_lock false (set_fsys f (set_lock true s)) = set_fsys f s.
Proof. intros H. destruct s. cbn in *. by subst. Qed.

Lemma lookup_run s t fd p : procs s !! t = Some p -> lookup_fd_struct t fd s = Ok (find_fd fd (list_of_fds p), s).
Proof. intros H. unfold lookup_fd_struct, current, bind, gets_opt. by rewrite H. Qed.

Lemma with_fd_run {A} t fd (none : A) body s p d r f :
  procs s !! t = Some p -> find_fd fd (list_of_fds p) = Some d -> filesys_access s = false ->
  body (fd_file d) (fsys s) = Ok (r, f) -> with_fd t fd none body s = Ok (r, set_fsys f s).
Proof.
  intros Hp Hd Hl Hb. unfold with_fd. mrun (lookup_run s t fd p Hp). rewrite Hd. mrun (lock_taken_run s Hl).
  mrun (on_fs_run (body (fd_file d)) (set_lock true s) r f Hb). mrun (lock_given_run (set_fsys f (set_lock true s)) eq_refl).
  by rewrite unlock_relock.
Qed.

Lemma upd_proc_run s t p f : procs s !! t = Some p -> upd_proc t f s = Ok (tt, set_procs (<[t := f p]> (procs s)) s).
Proof. intros H. unfold upd_proc, current, bind, gets_opt. by rewrite H. Qed.

(** ** Descriptors of a state *)

Section descriptors.
Context (live : gmap Z inode_disk) (s : sys) (a : astate) (Hinv : sys_inv live s) (Hab : abs live s a).

Lemma fd_at_user t fd f : fd_at s t fd f -> exists fl w, user_file (fsys s) f fl w /\ deny_write fl = false.
Proof. intros (p & d & Hp & Hd & <-). apply find_fd_in in Hd as [Hd _]. by eapply (si_files _ _ Hinv). Qed.

Lemma fd_at_inj t fd t' fd' f : fd_at s t fd f -> fd_at s t' fd' f -> t = t' /\ fd = fd'.
Proof.
  intros (p & d & Hp & Hd & E) (p' & d' & Hp' & Hd' & E'). apply find_fd_in in Hd as [Hd <-]. apply find_fd_in in Hd' as [Hd' <-].
  destruct (si_apart _ _ Hinv t p d t' p' d') as [-> ->]; try done. congruence.
Qed.

Lemma fd_at_fun t fd f f' : fd_at s t fd f -> fd_at s t fd f' -> f = f'.
Proof. intros (p & d & Hp & Hd & E) (p' & d' & Hp' & Hd' & E'). congruence. Qed.

Lemma abs_fd t fd f fl w : fd_at s t fd f -> user_file (fsys s) f fl w -> a_fds a !! (t, fd) = Some (sector w, pos fl).
Proof. intros Hfd (Hf & Hw & _). apply (ab_fds _ _ _ Hab). exists f. split; [done|]. by exists fl, w. Qed.

Lemma user_live f fl w : user_file (fsys s) f fl w -> live !! sector w = Some (data w) /\ user_sector (sector w).
Proof.
  intros (Hf & Hw & Hs & Hr). split; [|done]. by eapply (inod_runs live (fsys s) (si_ok _ _ Hinv)).
Qed.

Lemma abs_contents f fl w : user_file (fsys s) f fl w ->
  a_data a !! sector w = Some (contents (fsys s) (data w)) /\ Z.of_nat (length (contents (fsys s) (data w))) = dlength (data w).
Proof.
  intros Hu. destruct (user_live f fl w Hu) as [Hl Hs]. split; [apply (ab_data _ _ _ Hab); split; [done|by exists (data w)]|].
  pose proof Hu as (Hf & Hw & _). destruct (fo_inv _ _ (si_ok _ _ Hinv)) as (Hi & _ & Hlist).
  pose proof (inv_opened live (fsys s) _ w Hi (Hlist _ w Hw) Hw) as Hop. rewrite (contents_length _ _ _ Hop).
  destruct (fi_live _ _ Hi _ _ Hl) as [_ [] _ _ _]. lia.
Qed.

(** The only inode of a sector. *)
Lemma denied_iff f fl w : user_file (fsys s) f fl w -> sector w ∈ a_denied a <-> deny_write_cnt w <> 0.
Proof.
  intros (Hf & Hw & _). rewrite (ab_denied _ _ _ Hab). split; [|by exists (file_inode fl), w].
  intros (i & w' & Hw' & E & Hd). destruct (fo_inv _ _ (si_ok _ _ Hinv)) as (Hi & _ & Hlist).
  pose proof (fi_same _ _ Hi i (file_inode fl) w' w (Hlist i w' Hw') (Hlist _ w Hw) Hw' Hw E) as ->. congruence.
Qed.

(** A descriptor moves, and the contents of its file may change. *)
Lemma moved_ok t fd f fl w p fs' :
  fd_at s t fd f -> user_file (fsys s) f fl w -> deny_write fl = false ->
  fs_ok live fs' -> hinv fs' -> names live fs' = names live (fsys s) -> inodes fs' = inodes (fsys s) ->
  files fs' = <[f := mkFile (file_inode fl) p (deny_write fl)]> (files (fsys s)) ->
  other_files live (sector w) (fsys s) fs' ->
  sys_inv live (set_fsys fs' s) /\
  abs live (set_fsys fs' s) (mkA (a_names a) (<[sector w := contents fs' (data w)]> (a_data a)) (a_denied a)
    (<[(t, fd) := (sector w, p)]> (a_fds a)) (a_next a) (a_mem a)).
Proof.
  intros Hfd Hu Hdeny Hok Hh En Ei Ef Ho. pose proof Hu as (Hf & Hw & Hs & Hr). destruct (user_live f fl w Hu) as [Hl Hus].
  destruct Hinv as [I1 I2 I3 I4 I5 I6]. split.
  - split; try done. intros t' p' d Hp' Hd. destruct (I5 t' p' d Hp' Hd) as (fl' & w' & (Hf' & Hw' & Hs' & Hr') & Hd').
    destruct (decide (fd_file d = f)) as [E|Hne].
    + exists (mkFile (file_inode fl) p (deny_write fl)), w. split; [|done]. split; [cbn; by rewrite E, Ef, lookup_insert_eq|].
      cbn. by rewrite Ei.
    + exists fl', w'. split; [|done]. split; [cbn; by rewrite Ef, lookup_insert_ne|]. cbn. by rewrite Ei.
  - split; cbn.
    + rewrite En. apply Hab.
    + intros sec bs. destruct (decide (sec = sector w)) as [->|Hne].
      * rewrite lookup_insert_eq. split; [intros [= <-]; split; [done|by exists (data w)]|]. intros (_ & d & Hd & <-). congruence.
      * rewrite lookup_insert_ne, (ab_data _ _ _ Hab) by done.
        split; intros (Hus' & d & Hd & <-); (split; [done|]); exists d; (split; [done|]); [|symmetry]; by apply (Ho sec).
    + intros sec. rewrite Ei. apply Hab.
    + intros t' fd' sec q. destruct (decide ((t', fd') = (t, fd))) as [[= -> ->]|Hne].
      * rewrite lookup_insert_eq. split.
        { intros [= <- <-]. exists f. split; [done|]. exists (mkFile (file_inode fl) p (deny_write fl)), w. by rewrite Ef, lookup_insert_eq, Ei. }
        { intros (f' & Hfd' & fl' & w' & Hf' & Hw' & <- & <-). pose proof (fd_at_fun t fd f f' Hfd Hfd') as <-.
          rewrite Ef, lookup_insert_eq in Hf'. injection Hf' as <-. cbn in *. rewrite Ei in Hw'. congruence. }
      * rewrite lookup_insert_ne, (ab_fds _ _ _ Hab) by congruence.
        assert (forall f', fd_at s t' fd' f' -> f' <> f) as Hff.
        { intros f' Hfd' ->. destruct (fd_at_inj _ _ _ _ _ Hfd Hfd') as [-> ->]. done. }
        split; intros (f' & Hfd' & fl' & w' & Hf' & Hw' & E1 & E2); exists f'; (split; [done|]); exists fl', w'; cbn in *.
        { rewrite Ef, lookup_insert_ne, Ei by (apply not_eq_sym, Hff, Hfd'). done. }
        { rewrite Ef, lookup_insert_ne, Ei in * by (apply not_eq_sym, Hff, Hfd'). done. }
    + apply Hab.
    + apply Hab.
Qed.

(** What a process has beside its descriptors changes. *)
Lemma proc_ok t p p' :
  procs s !! t = Some p -> list_of_fds p' = list_of_fds p -> next_fd p' = next_fd p ->
  let s' := set_procs (<[t := p']> (procs s)) s in
  sys_inv live s' /\ abs live s' (mkA (a_names a) (a_data a) (a_denied a) (a_fds a) (a_next a) (<[t := umem p']> (a_mem a))).
Proof.
  intros Hp Efds Enext s'. destruct Hinv as [I1 I2 I3 I4 I5 I6].
  assert (forall t' p1, procs s' !! t' = Some p1 -> exists p0, procs s !! t' = Some p0 /\ list_of_fds p1 = list_of_fds p0 /\ next_fd p1 = next_fd p0) as Hold.
  { intros t' p1. unfold s'. cbn. rewrite lookup_insert_Some. intros [[<- <-]|[_ H]]; eauto. }
  assert (forall t' fd f, fd_at s' t' fd f <-> fd_at s t' fd f) as Hat.
  { intros t' fd f. unfold fd_at, s'. cbn. destruct (decide (t' = t)) as [->|].
    - rewrite lookup_insert_eq. split.
      + intros (p1 & d & [= <-] & H1 & H2). exists p, d. by rewrite <- Efds.
      + intros (p1 & d & H0 & H1 & H2). assert (p1 = p) as -> by congruence. exists p', d. by rewrite Efds.
    - by rewrite lookup_insert_ne. }
  split.
  - split; try done.
    + intros t' p1 (p0 & H0 & -> & ->)%Hold. exact (I4 t' p0 H0).
    + intros t' p1 d (p0 & H0 & -> & _)%Hold. exact (I5 t' p0 d H0).
    + intros t1 p1 d1 t2 p2 d2 (q1 & H1 & -> & _)%Hold Hd1 (q2 & H2 & -> & _)%Hold. exact (I6 t1 q1 d1 t2 q2 d2 H1 Hd1 H2).
  - split; cbn; try apply Hab.
    + intros t' fd sec q. rewrite (ab_fds _ _ _ Hab). split; intros (f & Hfd & Hh); exists f; (split; [by apply Hat|done]).
    + intros t'. rewrite (ab_next _ _ _ Hab). destruct (decide (t' = t)) as [->|]; [rewrite lookup_insert_eq, Hp; cbn; by rewrite Enext|by rewrite lookup_insert_ne].
    + intros t'. destruct (decide (t' = t)) as [->|].
      * by rewrite !lookup_insert_eq.
      * rewrite !lookup_insert_ne by done. apply Hab.
Qed.

End descriptors.

(** ** Calls on a descriptor *)

(** The call returns, and does what the specification says. *)
Definition refines (live : gmap Z inode_disk) (s : sys) (a : astate) (t : Z) (e : list Z) (c : call) : Prop :=
  exists r s' live' a', run_call t e c s = Ok (r, s') /\ sys_inv live' s' /\ abs live' s' a' /\ sys_spec t c a r a'.

Section on_descriptors.
Context (live : gmap Z inode_disk) (s : sys) (a : astate) (Hinv : sys_inv live s) (Hab : abs live s a) (t : Z) (e : list Z) (p : proc).
Context (Hp : procs s !! t = Some p).

Lemma bad_fd fd : find_fd fd (list_of_fds p) = None -> a_fds a !! (t, fd) = None.
Proof.
  intros Hn. destruct (a_fds a !! (t, fd)) as [[sec q]|] eqn:E; [|done]. apply (ab_fds _ _ _ Hab) in E as (f & (p' & d & Hp' & Hd & _) & _). congruence.
Qed.

Lemma good_fd fd d : find_fd fd (list_of_fds p) = Some d ->
  fd_at s t fd (fd_file d) /\ exists fl w, user_file (fsys s) (fd_file d) fl w /\ deny_write fl = false /\ a_fds a !! (t, fd) = Some (sector w, pos fl).
Proof.
  intros Hd. assert (fd_at s t fd (fd_file d)) as Hfd by (by exists p, d). split; [done|].
  destruct (fd_at_user live s Hinv t fd _ Hfd) as (fl & w & Hu & Hdeny). exists fl, w. split; [done|]. split; [done|]. by eapply abs_fd.
Qed.

Lemma set_fsys_same : set_fsys (fsys s) s = s.
Proof. by destruct s. Qed.

Lemma filesize_refines fd : refines live s a t e (Filesize fd).
Proof.
  unfold refines, run_call, filesize. destruct (find_fd fd (list_of_fds p)) as [d|] eqn:Hd.
  - destruct (good_fd fd d Hd) as (Hfd & fl & w & Hu & _ & Ha).
    rewrite (with_fd_run t fd BAD_EXIT file_length s p d (dlength (data w)) (fsys s)); [|done|done|apply Hinv|].
    2:{ by apply (file_length_run live (fsys s) (si_ok _ _ Hinv) (si_handles _ _ Hinv) _ fl). }
    destruct (abs_contents live s a Hinv Hab _ fl w Hu) as [Hc Hl]. eexists _, _, live, a. split; [done|]. rewrite set_fsys_same. split; [done|]. split; [done|].
    rewrite <- Hl. by eapply S_filesize.
  - unfold with_fd. mrun (lookup_run s t fd p Hp). rewrite Hd. eexists _, _, live, a. split; [done|]. split; [done|]. split; [done|].
    apply (S_bad_fd t _ fd); [by apply bad_fd|done].
Qed.

Lemma tell_refines fd : refines live s a t e (Tell fd).
Proof.
  unfold refines, run_call, tell. destruct (find_fd fd (list_of_fds p)) as [d|] eqn:Hd.
  - destruct (good_fd fd d Hd) as (Hfd & fl & w & Hu & _ & Ha).
    rewrite (bind_ok _ _ _ (pos fl) s).
    2:{ rewrite <- set_fsys_same at 2. apply (with_fd_run t fd 0 file_tell s p d (pos fl) (fsys s)); [done|done|apply Hinv|].
        by apply (file_tell_run (fsys s) (si_handles _ _ Hinv) _ fl w). }
    destruct (hi_files _ (si_handles _ _ Hinv) _ fl (proj1 Hu)) as (_ & Hr & _).
    eexists _, _, live, a. split; [done|]. rewrite u32_id by lia. split; [done|]. split; [done|]. by eapply S_tell.
  - rewrite (bind_ok _ _ _ 0 s) by (unfold with_fd; mrun (lookup_run s t fd p Hp); by rewrite Hd).
    eexists _, _, live, a. split; [done|]. split; [done|]. split; [done|]. apply (S_bad_fd t _ fd); [by apply bad_fd|done].
Qed.

Lemma insert_data (sec : Z) bs : a_data a !! sec = Some bs -> <[sec := bs]> (a_data a) = a_data a.
Proof. apply insert_id. Qed.

Lemma seek_refines fd position : 0 <= position < 2147483648 -> refines live s a t e (Seek fd position).
Proof.
  intros Hpos. unfold refines, run_call, seek. rewrite (s32_id position) by lia. destruct (find_fd fd (list_of_fds p)) as [d|] eqn:Hd.
  - destruct (good_fd fd d Hd) as (Hfd & fl & w & Hu & Hdeny & Ha). set (f := fd_file d) in *.
    destruct (file_seek_run live (fsys s) (si_ok _ _ Hinv) (si_handles _ _ Hinv) f fl w position Hu Hpos) as (Hr & Hok & En & Hh).
    mrun (with_fd_run t fd tt (fun f => file_seek f position) s p d _ _ Hp Hd (si_lock _ _ Hinv) Hr).
    destruct (moved_ok live s a Hinv Hab t fd f fl w position (at_pos f fl position (fsys s))) as [Hinv' Hab']; [done..|].
    eexists _, _, live, _. split; [done|]. split; [done|]. split; [exact Hab'|].
    destruct (abs_contents live s a Hinv Hab f fl w Hu) as [Hc _].
    change (contents (at_pos f fl position (fsys s)) (data w)) with (contents (fsys s) (data w)). rewrite insert_data by done.
    destruct a. cbn in *. by eapply S_seek.
  - rewrite (bind_ok _ _ _ tt s) by (unfold with_fd; mrun (lookup_run s t fd p Hp); by rewrite Hd).
    eexists _, _, live, a. split; [done|]. split; [done|]. split; [done|]. apply (S_bad_fd t _ fd); [by apply bad_fd|done].
Qed.

Lemma reach_moved f fl w size : user_file (fsys s) f fl w -> reach (contents (fsys s) (data w)) size (pos fl) = moved w size (pos fl).
Proof. intros Hu. destruct (abs_contents live s a Hinv Hab f fl w Hu) as [_ Hl]. unfold reach, moved. by rewrite Hl. Qed.

Lemma ubytes_length m q n bs : ubytes m q n = Some bs -> length bs = n.
Proof.
  revert q bs. induction n as [|n IH]; intros q bs; cbn; [by intros [= <-]|].
  destruct (m !! q), (ubytes m (q + 1) n) eqn:E; try done. intros [= <-]. cbn. f_equal. by eapply IH.
Qed.

(** Writing back bytes that are there changes nothing. *)
Lemma uput_same m q n bs : ubytes m q n = Some bs -> uput m q bs = m.
Proof.
  revert q bs. induction n as [|n IH]; intros q bs; cbn; [by intros [= <-]|].
  destruct (m !! q) eqn:Eq, (ubytes m (q + 1) n) eqn:E; try done. intros [= <-]. cbn. rewrite (IH _ _ E). by apply insert_id.
Qed.

Lemma uput_prefix m q n old bs :
  ubytes m q n = Some old -> (length bs <= n)%nat -> uput m q (bs ++ drop (length bs) old) = uput m q bs.
Proof.
  revert q n old. induction bs as [|b bs IH]; intros q n old Ho Hl; cbn [app length drop]; [rewrite drop_0; by eapply uput_same|].
  destruct n as [|n]; [cbn in Hl; lia|]. cbn in Ho. destruct (m !! q), (ubytes m (q + 1) n) eqn:E; try done. injection Ho as <-. cbn [drop uput].
  f_equal. eapply IH; [done|cbn in Hl; lia].
Qed.

Lemma read_refines fd buffer size um old :
  fd <> READ_FROM_KEYBOARD -> 0 <= size < 2147483648 -> a_mem a !! t = Some um -> ubytes um buffer (Z.to_nat size) = Some old ->
  refines live s a t e (Read fd buffer size).
Proof.
  intros Hfd0 Hsz Hum Hold. unfold refines, run_call, read. rewrite (proj2 (Z.eqb_neq _ _) Hfd0).
  mrun (lookup_run s t fd p Hp). destruct (find_fd fd (list_of_fds p)) as [d|] eqn:Hd.
  2:{ eexists _, _, live, a. split; [done|]. split; [done|]. split; [done|]. apply (S_bad_fd t _ fd); [by apply bad_fd|done]. }
  destruct (good_fd fd d Hd) as (Hfd & fl & w & Hu & Hdeny & Ha). set (f := fd_file d) in *.
  mrun (lock_taken_run s (si_lock _ _ Hinv)). unfold current at 1, bind at 1, gets_opt. cbn [procs set_lock]. rewrite Hp.
  assert (um = umem p) as -> by (rewrite (ab_mem _ _ _ Hab), Hp in Hum; by injection Hum).
  rewrite s32_id by lia. rewrite Z.max_r by lia. rewrite Hold. pose proof (ubytes_length _ _ _ _ Hold) as Hlen.
  destruct (file_read_run live (fsys s) (si_ok _ _ Hinv) (si_handles _ _ Hinv) f fl w old size Hu ltac:(lia)) as (fs1 & Hr & Hq & Hok & En & Hh).
  set (k := moved w size (pos fl)) in *. mrun (on_fs_run (file_read f old size) (set_lock true s) _ _ Hr). cbn [fst snd].
  set (bytes := take (Z.to_nat k) (drop (Z.to_nat (pos fl)) (contents (fsys s) (data w)))) in *.
  set (fs2 := at_pos f fl (pos fl + k) fs1) in *.
  mrun (upd_proc_run (set_fsys fs2 (set_lock true s)) t p (fun p => with_umem (uput (umem p) buffer (bytes ++ drop (Z.to_nat k) old)) p) Hp).
  rewrite (bind_ok _ _ _ tt (set_procs (<[t := with_umem (uput (umem p) buffer (bytes ++ drop (Z.to_nat k) old)) p]> (procs s)) (set_fsys fs2 s))).
  2:{ rewrite lock_given_run by done. f_equal. f_equal. pose proof (si_lock _ _ Hinv) as E. clear - E. destruct s. cbn in *. by subst. }
  pose proof (sbd_rest _ _ (proj1 Hq)) as R. unfold rest in R. injection R as E1 _ E3 _ _ _.
  assert (contents fs2 (data w) = contents (fsys s) (data w)) as Ec by (unfold contents, flat; cbn; by rewrite (proj2 Hq)).
  destruct (moved_ok live s a Hinv Hab t fd f fl w (pos fl + k) fs2) as [Hinv1 Hab1]; try done.
  { cbn. by rewrite E3. }
  { intros sec d0 _ _. unfold contents, flat. cbn. by rewrite (proj2 Hq). }
  destruct (proc_ok live (set_fsys fs2 s) _ Hinv1 Hab1 t p (with_umem (uput (umem p) buffer (bytes ++ drop (Z.to_nat k) old)) p) Hp eq_refl eq_refl) as [Hinv2 Hab2].
  eexists _, _, live, _. split; [done|]. split; [exact Hinv2|]. split; [exact Hab2|]. cbn [umem with_umem].
  destruct (abs_contents live s a Hinv Hab f fl w Hu) as [Hc Hdl]. cbn [a_names a_data a_denied a_fds a_next a_mem].
  rewrite Ec, insert_data by done.
  assert (length bytes = Z.to_nat k) as Hlb.
  { destruct (hi_files _ (si_handles _ _ Hinv) _ fl (proj1 Hu)) as (_ & Hpos & _).
    unfold bytes. rewrite length_take, length_drop. unfold k, moved. lia. }
  rewrite <- Hlb, (uput_prefix _ _ (Z.to_nat size) old) by (done || (rewrite Hlb; unfold k, moved; lia)). unfold bytes.
  pose proof (reach_moved f fl w size Hu) as Hrm. fold k in Hrm. destruct a. cbn in *.
  eapply S_read; [done|done|by symmetry|done].
Qed.

Lemma write_refines fd buffer size um out :
  fd <> WRITE_TO_CONSOLE -> 0 <= size < 2147483648 -> a_mem a !! t = Some um -> ubytes um buffer (Z.to_nat size) = Some out ->
  refines live s a t e (Write fd buffer size).
Proof.
  intros Hfd0 Hsz Hum Hout. unfold refines, run_call, write. rewrite (proj2 (Z.eqb_neq _ _) Hfd0).
  mrun (lookup_run s t fd p Hp). destruct (find_fd fd (list_of_fds p)) as [d|] eqn:Hd.
  2:{ eexists _, _, live, a. split; [done|]. split; [done|]. split; [done|]. apply (S_bad_fd t _ fd); [by apply bad_fd|done]. }
  destruct (good_fd fd d Hd) as (Hfd & fl & w & Hu & Hdeny & Ha). set (f := fd_file d) in *.
  mrun (lock_taken_run s (si_lock _ _ Hinv)). unfold current at 1, bind at 1, gets_opt. cbn [procs set_lock]. rewrite Hp.
  assert (um = umem p) as -> by (rewrite (ab_mem _ _ _ Hab), Hp in Hum; by injection Hum).
  rewrite s32_id by lia. rewrite Z.max_r by lia. rewrite Hout. pose proof (ubytes_length _ _ _ _ Hout) as Hlen.
  destruct (file_write_run live (fsys s) (si_ok _ _ Hinv) (si_handles _ _ Hinv) f fl w out size Hu ltac:(lia)) as (fs1 & Hr & Hsb & Hc1 & Ho & Hok & En & Hh).
  set (k := if deny_write_cnt w =? 0 then moved w size (pos fl) else 0) in *. set (fs2 := at_pos f fl (pos fl + k) fs1) in *.
  mrun (on_fs_run (file_write f out size) (set_lock true s) _ _ Hr). mrun (lock_given_run (set_fsys fs2 (set_lock true s)) eq_refl).
  rewrite unlock_relock by apply Hinv.
  pose proof (sbd_rest _ _ Hsb) as R. unfold rest in R. injection R as E1 _ E3 _ _ _.
  destruct (moved_ok live s a Hinv Hab t fd f fl w (pos fl + k) fs2) as [Hinv1 Hab1];
    [exact Hfd|exact Hu|exact Hdeny|exact Hok|exact Hh|exact En|exact E1|cbn; by rewrite E3|exact Ho|].
  eexists _, _, live, _. split; [done|]. split; [exact Hinv1|]. split; [exact Hab1|].
  destruct (abs_contents live s a Hinv Hab f fl w Hu) as [Hc Hdl]. change (contents fs2 (data w)) with (contents fs1 (data w)). rewrite Hc1.
  pose proof (denied_iff live s a Hinv Hab f fl w Hu) as Hde. pose proof (reach_moved f fl w size Hu) as Hrm. unfold k.
  destruct (Z.eqb_spec (deny_write_cnt w) 0) as [Hd0|Hd0].
  - destruct a. cbn in *. eapply S_write; [done..| |by symmetry]. by intros Hx%Hde.
  - rewrite Z.add_0_r. cbn [Z.to_nat take]. rewrite splice_nil, insert_data by done. rewrite insert_id by done. destruct a. cbn in *.
    eapply S_write_denied; [done|]. by apply Hde.
Qed.

End on_descriptors.

(** ** Opening and closing descriptors *)

Definition roomy (s : sys) : Prop := forall i w, inodes (fsys s) !! i = Some w -> open_cnt w < 2147483646.

(** The contents of files in two states, for the abstraction. *)
Lemma data_kept live s s' (D : gmap Z (list Z)) :
  (forall sec bs, D !! sec = Some bs <-> user_sector sec /\ exists d, live !! sec = Some d /\ contents s d = bs) ->
  user_files_kept live s s' ->
  forall sec bs, D !! sec = Some bs <-> user_sector sec /\ exists d, live !! sec = Some d /\ contents s' d = bs.
Proof.
  intros HD Hk sec bs. rewrite HD. split; intros ([N1 N2] & d & Hd & <-); (split; [done|]); exists d; (split; [done|]);
    [|symmetry]; by apply (Hk sec).
Qed.

Section open_close.
Context (live : gmap Z inode_disk) (s : sys) (a : astate) (Hinv : sys_inv live s) (Hab : abs live s a) (t : Z) (e : list Z) (p : proc).
Context (Hp : procs s !! t = Some p).

Lemma user_file_grows fs' f j w f' fl' w' :
  files fs' = <[f := mkFile j 0 false]> (files (fsys s)) -> files (fsys s) !! f = None -> inodes fs' = <[j := w]> (inodes (fsys s)) ->
  (forall w0, inodes (fsys s) !! j = Some w0 -> sector w0 = sector w) -> user_file (fsys s) f' fl' w' ->
  exists w'', user_file fs' f' fl' w'' /\ sector w'' = sector w'.
Proof.
  intros Ef Hn Ei Hs (Hf & Hw & H1 & H2). destruct (decide (file_inode fl' = j)) as [E|Hne].
  - exists w. rewrite E in Hw. specialize (Hs w' Hw). split; [|done].
    split; [rewrite Ef, lookup_insert_ne; congruence|]. rewrite E, Ei, lookup_insert_eq. split; [done|]. by rewrite <- Hs.
  - exists w'. split; [|done]. split; [rewrite Ef, lookup_insert_ne; congruence|]. by rewrite Ei, lookup_insert_ne.
Qed.

Lemma opened_ok fs' f j w :
  fs_ok live fs' -> hinv fs' -> names live fs' = names live (fsys s) -> files_kept live (fsys s) fs' ->
  files fs' = <[f := mkFile j 0 false]> (files (fsys s)) -> files (fsys s) !! f = None -> inodes fs' = <[j := w]> (inodes (fsys s)) ->
  (forall w0, inodes (fsys s) !! j = Some w0 -> sector w0 = sector w) ->
  deny_write_cnt w = match inodes (fsys s) !! j with Some w0 => deny_write_cnt w0 | None => 0 end ->
  user_sector (sector w) -> next_fd p < 2147483647 ->
  let p' := with_fds (list_of_fds p ++ [mkFd (next_fd p) f]) (with_next (next_fd p + 1) p) in
  let s' := set_procs (<[t := p']> (procs s)) (set_fsys fs' s) in
  sys_inv live s' /\
  abs live s' (mkA (a_names a) (a_data a) (a_denied a) (<[(t, next_fd p) := (sector w, 0)]> (a_fds a)) (<[t := next_fd p + 1]> (a_next a)) (a_mem a)) /\
  a_fds a !! (t, next_fd p) = None.
Proof.
  intros Hok Hh En Hk Ef Hnew Ei Hsec Hdeny [Hu1 Hu2] Hnext p' s'. destruct Hinv as [I1 I2 I3 I4 I5 I6].
  destruct (I4 t p Hp) as (Hnd & Hnx & Hfds).
  assert (find_fd (next_fd p) (list_of_fds p) = None) as Hfresh.
  { apply find_fd_none. intros (d & E & Hd)%list_elem_of_fmap. specialize (Hfds d Hd). lia. }
  assert (user_file fs' f (mkFile j 0 false) w) as Hnewu by (split; [by rewrite Ef, lookup_insert_eq|]; cbn; by rewrite Ei, lookup_insert_eq).
  assert (forall t' p1 d, procs s' !! t' = Some p1 -> d ∈ list_of_fds p1 ->
    (exists p0, procs s !! t' = Some p0 /\ d ∈ list_of_fds p0) \/ t' = t /\ d = mkFd (next_fd p) f) as Hold.
  { intros t' p1 d. unfold s'. cbn. rewrite lookup_insert_Some. intros [[<- <-]|[_ H]] Hd; [|by left; eauto].
    cbn in Hd. apply elem_of_app in Hd as [Hd|Hd]; [left; eauto|right]. by apply list_elem_of_singleton in Hd. }
  assert (forall t' p0 d, procs s !! t' = Some p0 -> d ∈ list_of_fds p0 -> fd_file d <> f) as Hff.
  { intros t' p0 d H0 Hd E. destruct (I5 t' p0 d H0 Hd) as (fl & w0 & (Hf & _) & _). congruence. }
  assert (forall t' fd f', fd_at s' t' fd f' <-> (fd_at s t' fd f' \/ (t', fd) = (t, next_fd p) /\ f' = f)) as Hat.
  { intros t' fd f'. unfold fd_at, s'. cbn. destruct (decide (t' = t)) as [->|Hne].
    - rewrite lookup_insert_eq. split.
      + intros (p1 & d & [= <-] & Hd & <-). cbn in Hd. rewrite find_fd_app in Hd. destruct (find_fd fd (list_of_fds p)) as [d0|] eqn:E0.
        * injection Hd as <-. left. eauto.
        * cbn in Hd. destruct (Z.eqb_spec (next_fd p) fd) as [<-|]; [|done]. injection Hd as <-. by right.
      + intros [(p0 & d & H0 & Hd & <-)|[[= ->] ->]].
        * assert (p0 = p) as -> by congruence. exists p', d. split; [done|]. split; [|done]. cbn. by rewrite find_fd_app, Hd.
        * exists p', (mkFd (next_fd p) f). split; [done|]. split; [|done]. cbn. by rewrite find_fd_app, Hfresh; cbn; rewrite Z.eqb_refl.
    - rewrite lookup_insert_ne by done. split; [by left|]. intros [H|[[= -> _] _]]; done. }
  assert (a_fds a !! (t, next_fd p) = None) as Hnone.
  { destruct (a_fds a !! (t, next_fd p)) as [[x q]|] eqn:E; [|done]. apply (ab_fds _ _ _ Hab) in E as (f0 & (p0 & d & H0 & Hd & _) & _). congruence. }
  split; [|split; [|done]].
  - split; try done.
    + intros t' p1. unfold s'. cbn. rewrite lookup_insert_Some. intros [[<- <-]|[_ H]]; [|exact (I4 t' p1 H)]. cbn. rewrite fmap_app. split; [|split; [lia|]].
      * apply NoDup_app. split; [done|]. split; [|apply NoDup_singleton]. intros x Hx ->%list_elem_of_singleton. by apply find_fd_none in Hfresh.
      * intros d [Hd|Hd]%elem_of_app; [specialize (Hfds d Hd); lia|]. apply list_elem_of_singleton in Hd as ->. cbn. lia.
    + intros t' p1 d H1 Hd. destruct (Hold t' p1 d H1 Hd) as [(p0 & H0 & Hd0)|[-> ->]]; [|by exists (mkFile j 0 false), w].
      destruct (I5 t' p0 d H0 Hd0) as (fl & w0 & Hu & Hdn). destruct (user_file_grows fs' f j w _ fl w0 Ef Hnew Ei Hsec Hu) as (w2 & Hu2' & _). by exists fl, w2.
    + intros t1 p1 d1 t2 p2 d2 H1 Hd1 H2 Hd2 E. destruct (Hold _ _ _ H1 Hd1) as [(q1 & G1 & D1)|[-> ->]], (Hold _ _ _ H2 Hd2) as [(q2 & G2 & D2)|[-> ->]].
      * exact (I6 t1 q1 d1 t2 q2 d2 G1 D1 G2 D2 E).
      * by destruct (Hff t1 q1 d1 G1 D1).
      * by destruct (Hff t2 q2 d2 G2 D2).
      * done.
  - split; cbn.
    + rewrite En. apply Hab.
    + apply (data_kept live (fsys s)); [apply Hab|]. by apply files_kept_user.
    + intros sec. rewrite (ab_denied _ _ _ Hab), Ei. split.
      * intros (i & w0 & Hi & <- & Hd). destruct (decide (i = j)) as [->|].
        { exists j, w. rewrite lookup_insert_eq. split; [done|]. split; [symmetry; by apply Hsec|]. rewrite Hdeny, Hi. done. }
        { exists i, w0. by rewrite lookup_insert_ne. }
      * intros (i & w0 & Hi & <- & Hd). apply lookup_insert_Some in Hi as [[<- <-]|[_ Hi]]; [|by exists i, w0].
        rewrite Hdeny in Hd. destruct (inodes (fsys s) !! j) as [w0|] eqn:Ej; [|done]. exists j, w0. split; [done|]. split; [by apply Hsec|done].
    + intros t' fd sec q. destruct (decide ((t', fd) = (t, next_fd p))) as [E|Hne].
      * rewrite E, lookup_insert_eq. injection E as -> ->. split.
        { intros [= <- <-]. exists f. split; [apply Hat; by right|]. by exists (mkFile j 0 false), w; destruct Hnewu as (? & ? & _). }
        { intros (f0 & [(p0 & d & H0 & Hd & _)|[_ ->]]%Hat & fl & w0 & Hf0 & Hw0 & <- & <-); [congruence|].
          destruct Hnewu as (Hf & Hw & _). assert (fl = mkFile j 0 false) as -> by congruence. cbn in *. congruence. }
      * rewrite lookup_insert_ne, (ab_fds _ _ _ Hab) by congruence. split.
        { intros (f0 & Hfd & fl & w0 & Hf0 & Hw0 & <- & <-). exists f0. split; [apply Hat; by left|].
          destruct Hfd as (p0 & d & H0 & Hd & <-). apply find_fd_in in Hd as [Hd _]. destruct (I5 t' p0 d H0 Hd) as (fl1 & w1 & Hu & _).
          pose proof Hu as (Hf1 & Hw1 & _). assert (fl1 = fl) as -> by congruence. assert (w1 = w0) as -> by congruence.
          destruct (user_file_grows fs' f j w _ fl w0 Ef Hnew Ei Hsec Hu) as (w2 & (A & B & _) & E). by exists fl, w2. }
        { intros (f0 & [Hfd|[E _]]%Hat & fl & w0 & Hf0 & Hw0 & <- & <-); [|done]. exists f0. split; [done|].
          destruct Hfd as (p0 & d & H0 & Hd & <-). apply find_fd_in in Hd as [Hd _]. destruct (I5 t' p0 d H0 Hd) as (fl1 & w1 & Hu & _).
          destruct (user_file_grows fs' f j w _ fl1 w1 Ef Hnew Ei Hsec Hu) as (w2 & (A & B & _) & E). cbn in *. destruct Hu as (Hf1 & Hw1 & _).
          exists fl1, w1. assert (fl1 = fl) as -> by congruence. assert (w2 = w0) as -> by congruence. done. }
    + intros t'. destruct (decide (t' = t)) as [->|]; [by rewrite !lookup_insert_eq|]. rewrite !lookup_insert_ne by done. apply Hab.
    + intros t'. rewrite (ab_mem _ _ _ Hab). destruct (decide (t' = t)) as [->|]; [by rewrite lookup_insert_eq, Hp|]. by rewrite lookup_insert_ne.
Qed.

(** Nothing that the processes see has changed. *)
Lemma unchanged_ok fs' :
  fs_ok live fs' -> hinv fs' -> names live fs' = names live (fsys s) -> user_files_kept live (fsys s) fs' ->
  files fs' = files (fsys s) -> inodes fs' = inodes (fsys s) ->
  sys_inv live (set_fsys fs' s) /\ abs live (set_fsys fs' s) a.
Proof.
  intros Hok Hh En Hk Ef Ei. destruct Hinv as [I1 I2 I3 I4 I5 I6]. split.
  - split; try done. intros t' p' d Hp' Hd. destruct (I5 t' p' d Hp' Hd) as (fl & w & Hu & Hdn). exists fl, w. split; [|done].
    unfold user_file. cbn. by rewrite Ef, Ei.
  - destruct Hab as [A1 A2 A3 A4 A5 A6]. split; cbn; [congruence| |by rewrite Ei| |done|done].
    + by apply (data_kept live (fsys s)).
    + intros t' fd sec q. rewrite A4. unfold handle. cbn. by rewrite Ef, Ei.
Qed.

Lemma open_refines name :
  name_ok name -> length e = 20%nat -> roomy s -> next_fd p < 2147483647 -> refines live s a t e (Open name).
Proof.
  intros Hn He Hroom Hnext. unfold refines, run_call, open. mrun (lock_taken_run s (si_lock _ _ Hinv)).
  destruct (filesys_open_handles live (fsys s) name e (si_ok _ _ Hinv) (si_handles _ _ Hinv) Hroom Hn He) as (f & fs1 & Hr & Hok1 & En1 & Hk1 & Hh1 & Hcase).
  mrun (on_fs_run (filesys_open name e) (set_lock true s) f fs1 Hr). mrun (lock_given_run (set_fsys fs1 (set_lock true s)) eq_refl).
  rewrite unlock_relock by apply Hinv. destruct (names live (fsys s) !! name) as [sec|] eqn:Ename.
  2:{ destruct Hcase as (-> & Ef & Ei). cbn [Z.eqb NULL negb]. destruct (unchanged_ok fs1) as [A B]; [done..|by apply files_kept_user|done|done|].
      eexists _, _, live, a. split; [done|]. split; [done|]. split; [done|]. apply S_open_none. by rewrite (ab_names _ _ _ Hab). }
  destruct Hcase as (Hfn & Hnew & j & w & Ef & Ei & Hsec & Hs0 & Hdeny). rewrite (proj2 (Z.eqb_neq _ _) Hfn). cbn [negb].
  destruct (malloc_inv live fs1 (fo_inv _ _ Hok1)) as (fs2 & Hm & Hi2 & Hq & _). pose proof (fi_brk _ _ (proj1 (fo_inv _ _ Hok1))) as Hbrk.
  mrun (on_fs_run malloc (set_fsys fs1 s) _ fs2 Hm). unfold current at 1, bind at 1, gets_opt. cbn [procs set_fsys]. rewrite Hp.
  mrun (upd_proc_run (set_fsys fs2 s) t p (fun p => with_next (s32 (next_fd p + 1)) p) Hp).
  rewrite (proj2 (Z.eqb_neq (brk fs1) NULL)) by (unfold NULL; lia). mnorm.
  destruct (si_fds _ _ Hinv t p Hp) as (_ & Hnx & _). rewrite s32_id by lia.
  erewrite bind_ok; [|apply upd_proc_run; apply lookup_insert_eq]. cbn [procs set_procs]. rewrite insert_insert_eq.
  pose proof (sbd_rest _ _ (proj1 Hq)) as R. unfold rest in R. injection R as E1 _ E3 _ _ _.
  destruct (fo_root _ _ Hok1) as (dr & Hdr & _).
  destruct (fs_ok_keep live fs1 fs2 dr Hok1 Hi2 E1 Hdr) as [Hok2 En2]; [unfold contents, flat; by rewrite (proj2 Hq)|].
  destruct (fo_named _ _ (si_ok _ _ Hinv) name sec Ename) as (N1 & N2 & _). rewrite <- Hsec in *.
  destruct (opened_ok fs2 f j w) as (Hinv' & Hab' & Hnone); [done|by eapply hinv_quiet|congruence| |by rewrite E3|done|by rewrite E1|done|done|done|done|].
  { etrans; [exact Hk1|]. apply same_store_kept, quiet_store, Hq. }
  eexists _, _, live, _. split; [done|]. split; [exact Hinv'|]. split; [exact Hab'|].
  assert (a_names a !! name = Some (sector w)) as Han by (by rewrite (ab_names _ _ _ Hab)).
  assert (a_next a !! t = Some (next_fd p)) as Hnt by (by rewrite (ab_next _ _ _ Hab), Hp).
  destruct a. cbn in *. by apply S_open.
Qed.

Lemma closed_ok fd d fl w fs' :
  find_fd fd (list_of_fds p) = Some d -> user_file (fsys s) (fd_file d) fl w -> deny_write fl = false ->
  closed live (fsys s) (fd_file d) fl w fs' ->
  let s' := set_procs (<[t := with_fds (remove_fd fd (list_of_fds p)) p]> (procs s)) (set_fsys fs' s) in
  let live' := live_after w live in
  sys_inv live' s' /\
  abs live' s' (mkA (a_names a) (if dies w then delete (sector w) (a_data a) else a_data a) (a_denied a)
    (delete (t, fd) (a_fds a)) (a_next a) (a_mem a)) /\
  (dies w = true -> (forall name, a_names a !! name <> Some (sector w)) /\ forall x q, delete (t, fd) (a_fds a) !! x <> Some (sector w, q)).
Proof.
  intros Hd Hu Hdn [Hok' En' Hh' Hk' Ef' (w' & Ei' & Hs' & Hda' & Hde')] s' live'. rewrite Hdn in Hde'. cbn [b2z] in Hde'. rewrite Z.sub_0_r in Hde'.
  set (f := fd_file d) in *. pose proof Hu as (Hf & Hw & Hsec1 & Hsec2). pose proof Hinv as [I1 I2 I3 I4 I5 I6].
  destruct (I4 t p Hp) as (Hnd & Hnx & Hfds). destruct (remove_fd_spec fd (list_of_fds p) Hnd) as (Q1 & Q2 & Q3).
  assert (fd_at s t fd f) as Hfd by (by exists p, d).
  assert (forall g gl, files (fsys s) !! g = Some gl -> g <> f -> open_cnt w = 1 -> file_inode gl <> file_inode fl) as Hone.
  { intros g gl Hg Hne E1 E. pose proof (hi_cnt _ I2 _ w Hw) as Hc.
    pose proof (cnt_two (uses (file_inode fl)) _ f g fl gl Hf Hg (not_eq_sym Hne) (uses_self fl) ltac:(by apply Z.eqb_eq)). lia. }
  assert (forall g gl v, user_file (fsys s) g gl v -> g <> f -> exists v', user_file fs' g gl v' /\ sector v' = sector v) as Hkeep.
  { intros g gl v (Hg & Hv & S1 & S2) Hne. destruct (decide (file_inode gl = file_inode fl)) as [E|HE].
    - assert (v = w) as -> by congruence. exists w'. split; [|done]. split; [rewrite Ef', lookup_delete_ne by done; done|]. rewrite Ei'.
      destruct (Z.eqb_spec (open_cnt w) 1) as [E1|_]; [by destruct (Hone g gl Hg Hne E1)|]. rewrite E, lookup_insert_eq. by rewrite Hs'.
    - exists v. split; [|done]. split; [by rewrite Ef', lookup_delete_ne by done|]. rewrite Ei'.
      destruct (open_cnt w =? 1); [by rewrite lookup_delete_ne by done|by rewrite lookup_insert_ne by done]. }
  assert (forall t' p1 x, procs s' !! t' = Some p1 -> x ∈ list_of_fds p1 -> exists p0, procs s !! t' = Some p0 /\ x ∈ list_of_fds p0 /\ fd_file x <> f) as Hold.
  { intros t' p1 x. unfold s'. cbn. rewrite lookup_insert_Some. intros [[<- <-]|[Hne H]] Hx.
    - cbn in Hx. apply Q2 in Hx as [Hx Hfx]. exists p. split; [done|]. split; [done|]. intros E.
      pose proof (find_fd_in _ _ _ Hd) as [Hdin Hdn']. destruct (I6 t p x t p d Hp Hx Hp Hdin E) as [_ ->]. done.
    - exists p1. split; [done|]. split; [done|]. intros E. pose proof (find_fd_in _ _ _ Hd) as [Hdin _].
      destruct (I6 t' p1 x t p d H Hx Hp Hdin E) as [-> _]. done. }
  assert (forall t' fd' f', fd_at s' t' fd' f' <-> fd_at s t' fd' f' /\ (t', fd') <> (t, fd)) as Hat.
  { intros t' fd' f'. unfold fd_at, s'. cbn. destruct (decide (t' = t)) as [->|Hne].
    - rewrite lookup_insert_eq. split.
      + intros (p1 & x & [= <-] & Hx & <-). cbn in Hx. rewrite Q3 in Hx. destruct (Z.eqb_spec fd' fd); [done|]. split; [by exists p, x|congruence].
      + intros ((p1 & x & H1 & Hx & <-) & Hne). assert (p1 = p) as -> by congruence. eexists _, x. split; [done|]. cbn. rewrite Q3.
        rewrite (proj2 (Z.eqb_neq fd' fd)) by congruence. done.
    - rewrite lookup_insert_ne by done. split; [|by intros []]. intros H. split; [done|congruence]. }
  assert (dies w = true -> forall x q, delete (t, fd) (a_fds a) !! x <> Some (sector w, q)) as Hdead.
  { intros Hdi [t' fd'] q [Hne Hx]%lookup_delete_Some. apply (ab_fds _ _ _ Hab) in Hx as (g & Hfd' & gl & v & Hg & Hv & E & _).
    assert (g <> f) as Hgf by (intros ->; destruct (fd_at_inj live s Hinv _ _ _ _ _ Hfd Hfd') as [-> ->]; done).
    apply andb_prop in Hdi as [Ho%Z.eqb_eq _]. apply (Hone g gl Hg Hgf Ho).
    destruct (fo_inv _ _ I1) as (Hi & _ & Hlist). by apply (fi_same _ _ Hi _ _ v w (Hlist _ v Hv) (Hlist _ w Hw) Hv Hw). }
  split; [|split].
  - split; try done.
    + intros t' p1. unfold s'. cbn. rewrite lookup_insert_Some. intros [[<- <-]|[_ H]]; [|exact (I4 t' p1 H)]. cbn. split; [done|]. split; [done|].
      intros x Hx. apply Q2 in Hx as [Hx _]. by apply Hfds.
    + intros t' p1 x H1 Hx. destruct (Hold t' p1 x H1 Hx) as (p0 & H0 & Hx0 & Hne). destruct (I5 t' p0 x H0 Hx0) as (gl & v & Hg & Hgd).
      destruct (Hkeep _ gl v Hg Hne) as (v' & Hv' & _). by exists gl, v'.
    + intros t1 p1 d1 t2 p2 d2 H1 Hd1 H2 Hd2. destruct (Hold _ _ _ H1 Hd1) as (q1 & G1 & D1 & _), (Hold _ _ _ H2 Hd2) as (q2 & G2 & D2 & _).
      exact (I6 t1 q1 d1 t2 q2 d2 G1 D1 G2 D2).
  - split; cbn.
    + unfold live'. rewrite En'. apply Hab.
    + intros sec bs. rewrite <- (data_kept live' (fsys s) fs' (if dies w then delete (sector w) (a_data a) else a_data a)); [done| |by apply files_kept_user].
      clear sec bs. intros sec bs. unfold live', live_after. destruct (dies w); [|apply Hab].
      rewrite lookup_delete_Some, (ab_data _ _ _ Hab). setoid_rewrite lookup_delete_Some. naive_solver.
    + intros sec. rewrite (ab_denied _ _ _ Hab), Ei'. pose proof (hi_cnt _ I2 _ w Hw) as Hc. pose proof (hi_deny _ I2 _ w Hw) as Hdc.
      assert (open_cnt w = 1 -> deny_write_cnt w = 0) as Hz.
      { intros E1. rewrite Hdc. apply cnt_zero. intros g gl Hg. unfold denies. destruct (Z.eqb_spec (file_inode gl) (file_inode fl)) as [E|]; [|done].
        destruct (decide (g = f)) as [->|Hne]; [|by destruct (Hone g gl Hg Hne E1)]. assert (gl = fl) as -> by congruence. by rewrite Hdn. }
      destruct (Z.eqb_spec (open_cnt w) 1) as [E1|_]; split; intros (i & v & Hi & <- & Hv).
      * exists i, v. rewrite lookup_delete_ne; [done|]. intros <-. assert (v = w) as -> by congruence. by destruct (Hv (Hz E1)).
      * apply lookup_delete_Some in Hi as [_ Hi]. by exists i, v.
      * destruct (decide (i = file_inode fl)) as [->|Hne]; [|exists i, v; by rewrite lookup_insert_ne]. exists (file_inode fl), w'. rewrite lookup_insert_eq.
        assert (v = w) as -> by congruence. split; [done|]. split; [done|]. congruence.
      * apply lookup_insert_Some in Hi as [[<- <-]|[_ Hi]]; [|by exists i, v]. exists (file_inode fl), w. split; [done|]. split; [done|]. congruence.
    + intros t' fd' sec q. rewrite lookup_delete_Some, (ab_fds _ _ _ Hab). split.
      * intros (Hne & g & Hfd' & gl & v & Hg & Hv & <- & <-). exists g. split; [apply Hat; split; [done|congruence]|].
        assert (g <> f) as Hgf by (intros ->; destruct (fd_at_inj live s Hinv _ _ _ _ _ Hfd Hfd') as [-> ->]; done).
        destruct (fd_at_user live s Hinv _ _ _ Hfd') as (gl' & v' & Hu' & _). pose proof Hu' as (G1 & G2 & _). assert (gl' = gl) as -> by congruence.
        assert (v' = v) as -> by congruence. destruct (Hkeep g gl v Hu' Hgf) as (v2 & (K1 & K2 & _) & <-). by exists gl, v2.
      * intros (g & [Hfd' Hne]%Hat & gl & v & Hg & Hv & <- & <-). split; [congruence|]. exists g. split; [done|].
        assert (g <> f) as Hgf by (intros ->; destruct (fd_at_inj live s Hinv _ _ _ _ _ Hfd Hfd') as [-> ->]; done).
        destruct (fd_at_user live s Hinv _ _ _ Hfd') as (gl' & v' & Hu' & _). destruct (Hkeep g gl' v' Hu' Hgf) as (v2 & (K1 & K2 & _) & E).
        cbn in Hg, Hv. assert (gl' = gl) as -> by congruence. assert (v2 = v) as -> by congruence. destruct Hu' as (? & ? & _). by exists gl, v'.
    + intros t'. rewrite (ab_next _ _ _ Hab). destruct (decide (t' = t)) as [->|]; [by rewrite lookup_insert_eq, Hp|]. by rewrite lookup_insert_ne.
    + intros t'. rewrite (ab_mem _ _ _ Hab). destruct (decide (t' = t)) as [->|]; [by rewrite lookup_insert_eq, Hp|]. by rewrite lookup_insert_ne.
  - intros Hdi. split; [|by apply Hdead]. rewrite (ab_names _ _ _ Hab). apply andb_prop in Hdi as [_ Hrem].
    destruct (fo_open _ _ I1 _ w Hw) as [_ C]. by apply C.
Qed.

Lemma close_refines fd : refines live s a t e (Close fd).
Proof.
  unfold refines, run_call, close. rewrite bind_bind. mrun (lookup_run s t fd p Hp). destruct (find_fd fd (list_of_fds p)) as [d|] eqn:Hd.
  2:{ mnorm. eexists _, _, live, a. split; [done|]. split; [done|]. split; [done|]. apply (S_bad_fd t _ fd); [by apply (bad_fd live s a Hab t p Hp)|done]. }
  destruct (good_fd live s a Hinv Hab t p Hp fd d Hd) as (Hfd & fl & w & Hu & Hdeny & Ha). rewrite !bind_bind. mrun (lock_taken_run s (si_lock _ _ Hinv)).
  destruct (file_close_run live (fsys s) (fd_file d) fl w (si_ok _ _ Hinv) (si_handles _ _ Hinv) Hu) as (fs1 & Hr & Hcl).
  rewrite !bind_bind. mrun (on_fs_run (file_close (fd_file d)) (set_lock true s) tt fs1 Hr). rewrite !bind_bind. mrun (lock_given_run (set_fsys fs1 (set_lock true s)) eq_refl).
  rewrite unlock_relock by apply Hinv. mrun (upd_proc_run (set_fsys fs1 s) t p (fun p => with_fds (remove_fd fd (list_of_fds p)) p) Hp).
  destruct (closed_ok fd d fl w fs1 Hd Hu Hdeny Hcl) as (Hinv' & Hab' & Hdead).
  eexists _, _, (live_after w live), _. split; [done|]. split; [exact Hinv'|]. split; [exact Hab'|].
  destruct (dies w) eqn:Edie; destruct a; cbn in *; [|by eapply S_close]. destruct (Hdead eq_refl). by eapply S_close_last.
Qed.

End open_close.

(** ** Creating and removing files *)

Section create_remove.
Context (live : gmap Z inode_disk) (s : sys) (a : astate) (Hinv : sys_inv live s) (Hab : abs live s a) (t : Z) (e : list Z) (p : proc).
Context (Hp : procs s !! t = Some p) (Hroom : roomy s) (He : length e = 20%nat).

Lemma roomy_open sec : can_open (fsys s) sec.
Proof. intros i v Hv _. specialize (Hroom i v Hv). lia. Qed.

(** A call with the lock and the flag of the thread. *)
Lemma locked_run {A} (m : M fs A) r fs' :
  m (fsys s) = Ok (r, fs') ->
  (lock_acquire ;;; upd_proc t (with_flag true) ;;; x <- on_fs m ;; lock_release ;;; upd_proc t (with_flag false) ;;; ret x) s
  = Ok (r, set_procs (<[t := with_flag false p]> (procs s)) (set_fsys fs' s)).
Proof.
  intros Hm. pose proof (si_lock _ _ Hinv) as Hl. rewrite (bind_ok _ _ _ tt (set_lock true s)) by (unfold lock_acquire; mnorm; rewrite Hl; by mnorm).
  mrun (upd_proc_run (set_lock true s) t p (with_flag true) Hp). erewrite bind_ok; [|by apply on_fs_run].
  erewrite (bind_ok lock_release); [|unfold lock_release; mnorm; cbn [filesys_access set_fsys set_procs set_lock]; by mnorm].
  erewrite bind_ok; [|apply upd_proc_run; apply lookup_insert_eq]. cbn [procs set_procs set_lock set_fsys]. rewrite insert_insert_eq.
  unfold ret. f_equal. f_equal. clear - Hl. destruct s. cbn in *. by subst.
Qed.

(** The end of such a call. *)
Lemma flag_ok live' s' a' :
  sys_inv live' s' -> abs live' s' a' -> procs s' = procs s ->
  sys_inv live' (set_procs (<[t := with_flag false p]> (procs s)) s') /\ abs live' (set_procs (<[t := with_flag false p]> (procs s)) s') a'.
Proof.
  intros Hi Ha Ep. rewrite <- Ep in Hp |- *. destruct (proc_ok live' s' a' Hi Ha t p (with_flag false p) Hp eq_refl eq_refl) as [A B]. split; [done|].
  rewrite (insert_id (a_mem a')) in B by (by rewrite (ab_mem _ _ _ Ha), Hp). by destruct a'.
Qed.

(** The descriptors when open inodes keep their sectors and counters. *)
Lemma same_handles live' fs' N D :
  fs_ok live' fs' -> N = names live' fs' -> files fs' = files (fsys s) ->
  (forall i w, inodes (fsys s) !! i = Some w -> exists w', inodes fs' !! i = Some w' /\ sector w' = sector w /\ open_cnt w' = open_cnt w /\ deny_write_cnt w' = deny_write_cnt w) ->
  (forall sec bs, D !! sec = Some bs <-> user_sector sec /\ exists d, live' !! sec = Some d /\ contents fs' d = bs) ->
  (forall i w', inodes fs' !! i = Some w' -> is_Some (inodes (fsys s) !! i)) ->
  sys_inv live' (set_fsys fs' s) /\ abs live' (set_fsys fs' s) (mkA N D (a_denied a) (a_fds a) (a_next a) (a_mem a)).
Proof.
  intros Hok -> Ef Hfw HD Hback. pose proof Hinv as [I1 I2 I3 I4 I5 I6].
  assert (forall i w', inodes fs' !! i = Some w' -> exists w, inodes (fsys s) !! i = Some w /\ sector w' = sector w /\ open_cnt w' = open_cnt w /\ deny_write_cnt w' = deny_write_cnt w) as Hbw.
  { intros i w' Hw'. destruct (Hback i w' Hw') as [w Hw]. exists w. split; [done|]. destruct (Hfw i w Hw) as (w2 & Hw2 & H). by assert (w2 = w') as -> by congruence. }
  split.
  - split; try done.
    + destruct I2 as [H1 H2 H3]. split; cbn; rewrite Ef.
      * intros f fl Hf. destruct (H1 f fl Hf) as (A & B & [w Hw]). split; [done|]. split; [done|]. destruct (Hfw _ _ Hw) as (w' & Hw' & _). eauto.
      * intros i w' Hw'. destruct (Hbw i w' Hw') as (w & Hw & _ & E & _). rewrite E. by apply H2.
      * intros i w' Hw'. destruct (Hbw i w' Hw') as (w & Hw & _ & _ & E). rewrite E. by apply H3.
    + intros t' p' d Hp' Hd. destruct (I5 t' p' d Hp' Hd) as (fl & w & (Hf & Hw & S1 & S2) & Hdn). destruct (Hfw _ _ Hw) as (w' & Hw' & E & _).
      exists fl, w'. split; [|done]. split; [cbn; by rewrite Ef|]. by rewrite E.
  - split; cbn; [done|done| | |apply Hab|apply Hab].
    + intros sec. rewrite (ab_denied _ _ _ Hab). split; intros (i & w & Hw & <- & Hd).
      * destruct (Hfw _ _ Hw) as (w' & Hw' & E1 & _ & E2). exists i, w'. split; [done|]. split; [done|]. congruence.
      * destruct (Hbw _ _ Hw) as (w' & Hw' & E1 & _ & E2). exists i, w'. split; [done|]. split; [done|]. congruence.
    + intros t' fd sec q. rewrite (ab_fds _ _ _ Hab). split; intros (f & Hfd & fl & w & Hf & Hw & <- & <-); exists f; (split; [done|]).
      * destruct (Hfw _ _ Hw) as (w' & Hw' & E1 & _). exists fl, w'. cbn. by rewrite Ef.
      * destruct (Hbw _ _ Hw) as (w' & Hw' & E1 & _). exists fl, w'. cbn in Hf. by rewrite <- Ef.
Qed.

Lemma create_refines name size : name_ok name -> 0 <= size < 2147483136 -> refines live s a t e (Create name size).
Proof.
  intros Hn Hsz. unfold refines, run_call, create. rewrite s32_id by lia. pose proof (si_ok _ _ Hinv) as Hok.
  destruct (filesys_create_run live (fsys s) name e size Hok (roomy_open _) Hn Hsz He) as (ok & fs' & Hr & (Ei & Ef & _) & Hcase).
  mrun (locked_run _ ok fs' Hr).
  assert (forall i w, inodes (fsys s) !! i = Some w -> exists w', inodes fs' !! i = Some w' /\ sector w' = sector w /\ open_cnt w' = open_cnt w /\ deny_write_cnt w' = deny_write_cnt w) as Hfw
    by (intros i w Hw; exists w; by rewrite Ei).
  assert (forall i w', inodes fs' !! i = Some w' -> is_Some (inodes (fsys s) !! i)) as Hbw by (intros i w; rewrite Ei; eauto).
  destruct ok.
  - destruct Hcase as (sec & d & [[Hn1 Hn2] Hok' En [Hlen Hz] Hk]).
    assert (user_sector sec) as Hus.
    { destruct (fo_named _ _ Hok' name sec) as (A & B & _); [by rewrite En, lookup_insert_eq|done]. }
    destruct (same_handles (<[sec := d]> live) fs' (<[name := sec]> (a_names a)) (<[sec := replicate (Z.to_nat size) 0]> (a_data a)) Hok') as [A B]; [|done|done| |done|].
    { by rewrite En, (ab_names _ _ _ Hab). }
    { intros x bs. destruct (decide (x = sec)) as [->|Hne].
      - rewrite !lookup_insert_eq. split; [intros [= <-]; split; [done|by exists d]|]. intros (_ & d0 & [= <-] & <-). by rewrite Hz.
      - rewrite !lookup_insert_ne by done. by apply (data_kept live (fsys s)); [apply Hab|]. }
    destruct (flag_ok _ _ _ A B eq_refl) as [A' B']. eexists _, _, (<[sec := d]> live), _. split; [done|]. split; [exact A'|]. split; [exact B'|].
    assert (a_names a !! name = None) as H1 by (by rewrite (ab_names _ _ _ Hab)).
    assert (a_data a !! sec = None) as H2.
    { destruct (a_data a !! sec) eqn:E; [|done]. apply (ab_data _ _ _ Hab) in E as (_ & d0 & Hd0 & _). congruence. }
    destruct a. cbn in *. by apply S_create.
  - destruct Hcase as [Hok' En Hk _].
    destruct (unchanged_ok live s a Hinv Hab fs' Hok') as [A B];
      [by eapply hinv_same; [apply Hinv|..]|done|by apply files_kept_user|done|done|].
    destruct (flag_ok _ _ _ A B eq_refl) as [A' B']. eexists _, _, live, a. split; [done|]. split; [exact A'|]. split; [exact B'|]. apply S_create_fails.
Qed.

Lemma remove_refines name : name_ok name -> refines live s a t e (Remove name).
Proof.
  intros Hn. unfold refines, run_call, remove. pose proof (si_ok _ _ Hinv) as Hok.
  destruct (filesys_remove_run live (fsys s) name e Hok (roomy_open _) Hn He) as (fs' & Hcase); [by intros; apply roomy_open|].
  destruct (names live (fsys s) !! name) as [sec|] eqn:Ename; destruct Hcase as [Hr Hcase]; mrun (locked_run _ _ fs' Hr).
  - destruct Hcase as (live' & [Hok' En Hk [Ef _] Hsec]).
    assert (a_names a !! name = Some sec) as H1 by (by rewrite (ab_names _ _ _ Hab)).
    assert (delete name (a_names a) = names live' fs') as HN by (by rewrite En, (ab_names _ _ _ Hab)).
    destruct Hsec as [(_ & -> & _ & j & w & Hj & Hs & Ei)|(Hno & -> & Ei & _)].
    + destruct (same_handles live fs' (delete name (a_names a)) (a_data a) Hok' HN Ef) as [A B].
      { intros i v Hv. rewrite Ei. destruct (decide (i = j)) as [->|]; [|exists v; by rewrite lookup_insert_ne].
        assert (v = w) as -> by congruence. exists (mark_removed w). by rewrite lookup_insert_eq. }
      { by apply (data_kept live (fsys s)); [apply Hab|]. }
      { intros i v. rewrite Ei, lookup_insert_Some. intros [[<- _]|[_ Hv]]; eauto. }
      destruct (flag_ok _ _ _ A B eq_refl) as [A' B']. eexists _, _, live, _. split; [done|]. split; [exact A'|]. split; [exact B'|].
      destruct a. cbn in *. by eapply S_remove_open.
    + destruct (same_handles (delete sec live) fs' (delete name (a_names a)) (delete sec (a_data a)) Hok' HN Ef) as [A B].
      { intros i v Hv. exists v. by rewrite Ei. }
      { apply (data_kept (delete sec live) (fsys s)); [|done]. intros x bs. rewrite lookup_delete_Some, (ab_data _ _ _ Hab).
        setoid_rewrite lookup_delete_Some. naive_solver. }
      { intros i v. rewrite Ei. eauto. }
      destruct (flag_ok _ _ _ A B eq_refl) as [A' B']. eexists _, _, (delete sec live), _. split; [done|]. split; [exact A'|]. split; [exact B'|].
      assert (unused a sec) as Hun.
      { intros [t' fd] q Hx. apply (ab_fds _ _ _ Hab) in Hx as (f & _ & fl & v & _ & Hv & Hs & _). apply Hno. by exists (file_inode fl), v. }
      destruct a. cbn in *. by eapply S_remove_closed.
  - destruct Hcase as (Hok' & En & Hk & Ei & Ef & _).
    destruct (unchanged_ok live s a Hinv Hab fs' Hok') as [A B];
      [by eapply hinv_same; [apply Hinv|..]|done|by apply files_kept_user|done|done|].
    destruct (flag_ok _ _ _ A B eq_refl) as [A' B']. eexists _, _, live, a. split; [done|]. split; [exact A'|]. split; [exact B'|].
    apply S_remove_none. by rewrite (ab_names _ _ _ Hab).
Qed.

End create_remove.

(** ** All calls *)

Lemma calls_refine live s a t e c :
  sys_inv live s -> abs live s a -> roomy s -> valid t c a -> length e = 20%nat ->
  exists r s' live' a', run_call t e c s = Ok (r, s') /\ sys_inv live' s' /\ abs live' s' a' /\ sys_spec t c a r a'.
Proof.
  intros Hinv Hab Hroom [(n & Hn & Hlt) Hv] He.
  assert (exists p, procs s !! t = Some p /\ next_fd p = n) as (p & Hp & Hnp).
  { rewrite (ab_next _ _ _ Hab) in Hn. destruct (procs s !! t) as [p|]; [|done]. injection Hn as Hn. eauto. }
  destruct c as [name size|name|name|fd|fd buffer size|fd buffer size|fd position|fd|fd]; cbn in Hv.
  - destruct Hv. by apply (create_refines live s a Hinv Hab t e p).
  - by apply (remove_refines live s a Hinv Hab t e p).
  - apply (open_refines live s a Hinv Hab t e p); try done. lia.
  - by apply (filesize_refines live s a Hinv Hab t e p).
  - destruct Hv as (? & ? & um & old & ? & ?). by apply (read_refines live s a Hinv Hab t e p Hp fd buffer size um old).
  - destruct Hv as (? & ? & um & out & ? & ?). by apply (write_refines live s a Hinv Hab t e p Hp fd buffer size um out).
  - by apply (seek_refines live s a Hinv Hab t e p).
  - by apply (tell_refines live s a Hinv Hab t e p).
  - by apply (close_refines live s a Hinv Hab t e p).
Qed.

End SysRefine.
