(* ===== verification/SysProps.v ===== *)
(** * What the system calls guarantee

    The theorems on src/src/userprog/syscall.c: file calls of processes
    refine their specification, the console gets what is written, bad
    pointers end the process, and three calls that go wrong. *)

From S2P Require Import Prelude KState Bitmap FsState Inode FileOps Directory FsInv DirProps FileSys Mount FsRefine FsProps Handles CString Syscall SysRefine.
Import FsState Inode FileOps Directory FsInv DirProps FileSys Handles Syscall SysRefine.

Module SysProps.

(** C3: every file call of every process, with arguments in range, returns,
    keeps the invariant of the file system, the open files and the tables of
    descriptors, and does exactly what the specification says: [open] gives
    an unused descriptor, transfers move the bytes between the contents of
    the file and the memory of the process and advance the position, and
    nothing else changes, in no other process and in no other file; a
    removed file stays readable until its last descriptor is closed. *)
Theorem syscalls_refine live s a t e c :
  sys_inv live s -> abs live s a -> roomy s -> valid t c a -> length e = 20%nat ->
  exists r s' live' a', run_call t e c s = Ok (r, s') /\ sys_inv live' s' /\ abs live' s' a' /\ sys_spec t c a r a'.
Proof. apply calls_refine. Qed.

(** ** The console *)

Lemma ubytes_app m p n k :
  ubytes m p (n + k) = match ubytes m p n, ubytes m (p + Z.of_nat n) k with Some a, Some b => Some (a ++ b) | _, _ => None end.
Proof.
  revert p. induction n as [|n IH]; intros p; cbn [ubytes Nat.add].
  - replace (p + Z.of_nat 0) with p by lia. by destruct (ubytes m p k).
  - replace (p + Z.of_nat (S n)) with (p + 1 + Z.of_nat n) by lia. rewrite IH.
    destruct (m !! p), (ubytes m (p + 1) n), (ubytes m (p + 1 + Z.of_nat n) k); done.
Qed.

Lemma putbuf_run s t p buffer n bs :
  procs s !! t = Some p -> ubytes (umem p) buffer (Z.to_nat n) = Some bs ->
  putbuf t buffer n s = Ok (tt, set_console (console s ++ bs) s).
Proof. intros Hp Hb. unfold putbuf, current, bind, gets_opt. by rewrite Hp, Hb. Qed.

Lemma console_loop_run fuel : forall s t p buffer pos n bs,
  procs s !! t = Some p -> 0 <= n -> n / 255 < Z.of_nat fuel -> ubytes (umem p) (buffer + pos) (Z.to_nat n) = Some bs ->
  exists pos' n' b1 b2, console_loop fuel t buffer pos n s = Ok ((pos', n'), set_console (console s ++ b1) s) /\
    bs = b1 ++ b2 /\ 0 <= n' <= 255 /\ ubytes (umem p) (buffer + pos') (Z.to_nat n') = Some b2.
Proof.
  induction fuel as [|fuel IH]; intros s t p buffer pos n bs Hp Hn Hf Hb; [pose proof (Z.div_pos n 255); lia|]. cbn [console_loop]. unfold MAX_BUFFER.
  rewrite Z.gtb_ltb. destruct (Z.ltb_spec 255 n) as [Hlt|Hle].
  2:{ exists pos, n, [], bs. rewrite app_nil_r. split; [by destruct s|done]. }
  replace (Z.to_nat n) with (255 + Z.to_nat (n - 255))%nat in Hb by lia. rewrite ubytes_app in Hb.
  destruct (ubytes (umem p) (buffer + pos) 255) as [c|] eqn:E1; [|done].
  destruct (ubytes (umem p) (buffer + pos + Z.of_nat 255) (Z.to_nat (n - 255))) as [r|] eqn:E2; [|done]. injection Hb as <-.
  mrun (putbuf_run s t p (buffer + pos) 255 c Hp E1).
  destruct (IH (set_console (console s ++ c) s) t p buffer (pos + 255) (n - 255) r) as (pos' & n' & b1 & b2 & Hr & -> & Hn' & H2); [done|lia| |by rewrite Z.add_assoc|].
  { replace n with (n - 255 + 1 * 255) in Hf by lia. rewrite Z.div_add in Hf by lia. lia. }
  exists pos', n', (c ++ b1), b2. rewrite Hr. cbn [console set_console]. rewrite !app_assoc. split; [done|]. by rewrite <- app_assoc.
Qed.

(** a write to the console puts exactly the bytes of the buffer on it,
    once and in order, in pieces of at most 255 bytes, and returns their
    number; the files are not touched. *)
Theorem console_write_ok s t p buffer size bs :
  procs s !! t = Some p -> 0 <= size < 2147483648 -> ubytes (umem p) buffer (Z.to_nat size) = Some bs ->
  write t WRITE_TO_CONSOLE buffer size s = Ok (size, set_console (console s ++ bs) s).
Proof.
  intros Hp Hs Hb. unfold write. rewrite Z.eqb_refl.
  assert (exists pos' n' b1 b2, (if size >? MAX_BUFFER then console_loop (S (Z.to_nat (size / MAX_BUFFER))) t buffer 0 size else ret (0, size)) s
    = Ok ((pos', n'), set_console (console s ++ b1) s) /\ bs = b1 ++ b2 /\ 0 <= n' <= 255 /\ ubytes (umem p) (buffer + pos') (Z.to_nat n') = Some b2)
    as (pos' & n' & b1 & b2 & Hr & -> & Hn' & H2).
  { unfold MAX_BUFFER. rewrite Z.gtb_ltb. destruct (Z.ltb_spec 255 size).
    - apply (console_loop_run _ s t p buffer 0 size bs); [done|lia| |by rewrite Z.add_0_r].
      pose proof (Z.div_pos size 255 ltac:(lia) ltac:(lia)). lia.
    - exists 0, size, [], bs. rewrite app_nil_r, Z.add_0_r. split; [by destruct s|]. split; [done|]. split; [lia|done]. }
  mrun Hr. mrun (putbuf_run (set_console (console s ++ b1) s) t p (buffer + pos') n' b2 Hp H2).
  rewrite s32_id by lia. cbn [console set_console]. by rewrite <- app_assoc.
Qed.

(** ** The keyboard *)

(** The sum of the codes of the first [n] keys. *)
Fixpoint key_sum (k : nat -> Z) (n : nat) : Z :=
  match n with O => 0 | S n' => u8 (k 0%nat) + key_sum (fun i => k (S i)) n' end.

Lemma u8_add_l a b : u8 (u8 a + b) = u8 (a + b).
Proof. unfold u8. by rewrite Z.add_mod_idemp_l. Qed.

Lemma keyboard_loop_runs fuel size : forall s a,
  (forall n, (n < fuel)%nat -> size < u8 (a + key_sum (keys s) n) -> (forall m, (m < n)%nat -> u8 (a + key_sum (keys s) m) <= size) ->
    keyboard_loop fuel (u8 a) size s = Ok (u8 (a + key_sum (keys s) n), set_keys (fun i => keys s (n + i)%nat) s)) /\
  ((forall n, (n < fuel)%nat -> u8 (a + key_sum (keys s) n) <= size) -> keyboard_loop fuel (u8 a) size s = Err Out_of_fuel).
Proof.
  induction fuel as [|fuel IH]; intros s a; [split; [lia|done]|]. cbn [keyboard_loop].
  assert (forall c, u8 (u8 a + c) = u8 (a + c)) as E8 by (intros c; apply u8_add_l).
  destruct (IH (set_keys (fun i => keys s (S i)) s) (a + u8 (keys s 0%nat))) as [IH1 IH2]. cbn [keys set_keys] in IH1, IH2. split.
  - intros [|n] Hn Hr Hm; cbn [key_sum Nat.add] in *.
    + rewrite Z.add_0_r in Hr |- *. rewrite (proj2 (Z.leb_gt _ _)) by done. unfold ret. by destruct s.
    + pose proof (Hm 0%nat ltac:(lia)) as H0. cbn [key_sum] in H0. rewrite Z.add_0_r in H0. rewrite (proj2 (Z.leb_le _ _)) by done.
      unfold input_getc. rewrite !bind_bind. mnorm. rewrite E8, (IH1 n); [by rewrite Z.add_assoc|lia|by rewrite <- Z.add_assoc|].
      intros m Hlt. rewrite <- Z.add_assoc. apply (Hm (S m)). lia.
  - intros Hm. pose proof (Hm 0%nat ltac:(lia)) as H0. cbn [key_sum] in H0. rewrite Z.add_0_r in H0. rewrite (proj2 (Z.leb_le _ _)) by done.
    unfold input_getc. rewrite !bind_bind. mnorm. rewrite E8. apply IH2. intros n Hn. rewrite <- Z.add_assoc. apply (Hm (S n)). lia.
Qed.

(** C32: reading from the keyboard never stores a character: it adds up the
    codes of the keys in one byte, and returns the first sum that is larger
    than the size of the buffer, which is more than was asked for; the keys
    that were added are gone, and nothing else has changed.  It does not return
    as long as no sum is larger, and so never with a buffer of 255 bytes or
    more. *)
Theorem keyboard_read_wrong fuel t buffer size s :
  (forall n, (n < fuel)%nat -> size < u8 (key_sum (keys s) n) -> (forall m, (m < n)%nat -> u8 (key_sum (keys s) m) <= size) ->
    read fuel t READ_FROM_KEYBOARD buffer size s = Ok (u8 (key_sum (keys s) n), set_keys (fun i => keys s (n + i)%nat) s)) /\
  ((forall n, (n < fuel)%nat -> u8 (key_sum (keys s) n) <= size) -> read fuel t READ_FROM_KEYBOARD buffer size s = Err Out_of_fuel) /\
  (255 <= size -> read fuel t READ_FROM_KEYBOARD buffer size s = Err Out_of_fuel).
Proof.
  unfold read. rewrite Z.eqb_refl. destruct (keyboard_loop_runs fuel size s 0) as [H1 H2]. change (u8 0) with 0 in *. split_and!; [done|done|].
  intros Hbig. apply H2. intros n _. pose proof (Z.mod_pos_bound (0 + key_sum (keys s) n) 256 ltac:(lia)). unfold u8. lia.
Qed.

(** ** Arguments out of range *)

(** a process can stop the kernel: [seek] of an open descriptor to a
    position of 2^31 or more fails an assertion of the file system. *)
Theorem seek_panics live s t p fd d position :
  sys_inv live s -> procs s !! t = Some p -> find_fd fd (list_of_fds p) = Some d -> 2147483648 <= position < 4294967296 ->
  seek t fd position s = Err Assertion_failed.
Proof.
  intros Hinv Hp Hd Hpos. unfold seek, with_fd. mrun (lookup_run s t fd p Hp). rewrite Hd. mrun (lock_taken_run s (si_lock _ _ Hinv)).
  apply bind_err. unfold on_fs. unfold file_seek. pose proof (find_fd_in _ _ _ Hd) as [Hin _].
  destruct (si_files _ _ Hinv t p d Hp Hin) as (fl & w & (Hf & _) & _). destruct (hi_files _ (si_handles _ _ Hinv) _ fl Hf) as (Hn & _).
  rewrite (proj2 (Z.eqb_neq _ _) Hn). cbn [negb]. mnorm.
  replace (s32 position >=? 0) with false; [done|]. symmetry. rewrite Z.geb_leb, Z.leb_gt. unfold s32.
  replace (position + 2147483648) with (position - 2147483648 + 1 * 4294967296) by lia. rewrite Z.mod_add, Z.mod_small by lia. lia.
Qed.

(** ** Pointers *)

Definition invalid (p : proc) (address : Z) : Prop :=
  address = NULL \/ PHYS_BASE <= address \/ umem p !! address = None.

#[local] Instance invalid_dec p a : Decision (invalid p a).
Proof. unfold invalid. apply _. Defined.

Lemma invalid_run s t p address k :
  procs s !! t = Some p -> invalid p address -> is_correct_user_memory t address k s = Ok (Exits BAD_EXIT, s).
Proof.
  intros Hp Hbad. unfold is_correct_user_memory, is_valid, current, bind, gets_opt. rewrite Hp. cbn.
  replace (negb (address =? NULL) && is_user_vaddr address && bool_decide (is_Some (umem p !! address))) with false; [done|].
  symmetry. unfold is_user_vaddr. destruct Hbad as [->|[H|H]]; [done| |].
  - rewrite (proj2 (Z.ltb_ge _ _) H). by rewrite andb_false_r.
  - rewrite H, bool_decide_eq_false_2 by (by intros []). by rewrite andb_false_r.
Qed.

Lemma valid_run s t p address k :
  procs s !! t = Some p -> ~ invalid p address -> is_correct_user_memory t address k s = k s.
Proof.
  intros Hp Hgood. unfold is_correct_user_memory, is_valid, current, bind, gets_opt. rewrite Hp. cbn. unfold invalid in Hgood.
  assert (address <> NULL) by naive_solver. assert (address < PHYS_BASE) by (destruct (Z_lt_ge_dec address PHYS_BASE); [done|exfalso; apply Hgood; right; left; lia]).
  unfold is_user_vaddr. rewrite (proj2 (Z.eqb_neq _ _)), (proj2 (Z.ltb_lt _ _)) by done. cbn.
  rewrite bool_decide_eq_true_2; [done|]. apply not_eq_None_Some. naive_solver.
Qed.

(** when the stack pointer of the process, or the place of the first
    argument of a call that has one, is null, in the kernel or not mapped,
    the process exits with status -1 and nothing has changed. *)
Theorem bad_stack_exits fuel t esp e s p n :
  procs s !! t = Some p ->
  invalid p esp \/ load_word t esp s = Ok (n, s) /\ 1 <= n <= 14 /\ invalid p (arg_ptr esp 0) ->
  syscall_handler fuel t esp e s = Ok (Exits BAD_EXIT, s).
Proof.
  intros Hp H. unfold syscall_handler. destruct (decide (invalid p esp)) as [Hbad|Hgood]; [by apply (invalid_run s t p)|].
  destruct H as [H|(Hw & Hn & Hbad)]; [done|]. rewrite (valid_run s t p esp _ Hp Hgood). mrun Hw.
  assert (forall k, is_correct_user_memory t (arg_ptr esp 0) k s = Ok (Exits BAD_EXIT, s)) as Hk by (intros k; by apply (invalid_run s t p)).
  rewrite (proj2 (Z.eqb_neq n 0)) by lia.
  repeat match goal with |- (if n =? ?x then _ else _) s = _ => destruct (Z.eqb_spec n x); [apply Hk|] end. lia.
Qed.

(** ** Before the first call *)

(** The abstract state of a machine whose processes have no descriptors. *)
Definition initial (live : gmap Z inode_disk) (s : sys) : astate :=
  mkA (names live (fsys s))
    ((fun d => contents (fsys s) d) <$> delete FREE_MAP_SECTOR (delete ROOT_DIR_SECTOR live))
    (list_to_set (omap (fun w => if deny_write_cnt w =? 0 then None else Some (sector w)) (map_to_list (inodes (fsys s))).*2))
    ∅ (next_fd <$> procs s) (umem <$> procs s).

Definition no_fds (s : sys) : Prop :=
  forall t p, procs s !! t = Some p -> list_of_fds p = [] /\ 2 <= next_fd p < 2147483648.

Lemma initial_ok live s :
  fs_ok live (fsys s) -> hinv (fsys s) -> filesys_access s = false -> no_fds s -> sys_inv live s /\ abs live s (initial live s).
Proof.
  intros Hok Hh Hl Hp. split.
  - split; try done.
    + intros t p Ht. destruct (Hp t p Ht) as [-> Hn]. split; [apply NoDup_nil_2|]. split; [done|]. intros d Hd. by apply not_elem_of_nil in Hd.
    + intros t p d Ht Hd. destruct (Hp t p Ht) as [E _]. rewrite E in Hd. by apply not_elem_of_nil in Hd.
    + intros t p d t' p' d' Ht Hd. destruct (Hp t p Ht) as [E _]. rewrite E in Hd. by apply not_elem_of_nil in Hd.
  - split; cbn [initial a_names a_data a_denied a_fds a_next a_mem]; [done| | | |intros t; by rewrite lookup_fmap..].
    + intros sec bs. rewrite lookup_fmap_Some. setoid_rewrite lookup_delete_Some. setoid_rewrite lookup_delete_Some. unfold user_sector. naive_solver.
    + intros sec. rewrite elem_of_list_to_set, list_elem_of_omap. split.
      * intros (w & ([i w'] & -> & Hw)%list_elem_of_fmap & E). apply elem_of_map_to_list in Hw. cbn in *.
        exists i, w'. destruct (Z.eqb_spec (deny_write_cnt w') 0); [done|]. injection E as <-. done.
      * intros (i & w & Hw & <- & Hd). exists w. split; [|by rewrite (proj2 (Z.eqb_neq _ _) Hd)].
        apply list_elem_of_fmap. exists (i, w). split; [done|]. by apply elem_of_map_to_list.
    + intros t fd sec p. rewrite lookup_empty. split; [done|]. intros (f & (q & d & Hq & Hd & _) & _).
      destruct (Hp t q Hq) as [E _]. by rewrite E in Hd.
Qed.

(** ** Instances *)

(** One process with a few bytes of memory and the file AB on the disk. *)
Definition user_bytes : CString.mem := list_to_map (zip (seqZ 4096 8) [7; 8; 9; 10; 11; 12; 13; 14]).
Definition one_process : sys :=
  mkSys FsProps.with_file_AB {[1 := mkProc [] 2 NULL false false user_bytes]} false [] (fun _ => 97).

#[local] Opaque FsProps.with_file_AB.

Lemma with_file_AB_inodes : inodes FsProps.with_file_AB = {[9 := mkInode 0 1 false 0 (mkInodeDisk 2 8 1229868868)]}.
Proof. vm_compute. reflexivity. Qed.

Lemma with_file_AB_handles : hinv FsProps.with_file_AB.
Proof.
  eapply (hinv_single _ 10 9 0); [vm_compute; reflexivity|apply with_file_AB_inodes|done|lia|done|done].
Qed.

Lemma one_process_roomy : roomy one_process.
Proof. intros i w Hw. cbn [one_process fsys] in Hw. rewrite with_file_AB_inodes in Hw. apply lookup_singleton_Some in Hw as [<- <-]. cbn. lia. Qed.

Lemma one_process_ok : exists live sec, sys_inv live one_process /\ abs live one_process (initial live one_process) /\ roomy one_process /\
  names live FsProps.with_file_AB !! [65; 66] = Some sec.
Proof.
  destruct FsProps.with_file_AB_ok as (live & sec & Hok & _ & Hn). exists live, sec.
  destruct (initial_ok live one_process Hok with_file_AB_handles eq_refl) as [H1 H2]; [|by auto using one_process_roomy].
  intros t p Hp. cbn [procs one_process] in Hp. apply lookup_singleton_Some in Hp as [<- <-]. cbn. split; [done|lia].
Qed.

Lemma open_AB_valid live : valid 1 (Open [65; 66]) (initial live one_process).
Proof.
  split; [exists 2; split; [|lia]; cbn; by rewrite lookup_fmap, lookup_singleton_eq|]. apply FsProps.AB_ok.
Qed.

Lemma open_spec_inv t name a r a' sec : sys_spec t (Open name) a r a' -> a_names a !! name = Some sec ->
  a_next a !! t = Some r /\ a_fds a' !! (t, r) = Some (sec, 0).
Proof.
  intros H Hn. inversion H; subst; cbn in *; [|congruence|done]. split; [done|]. rewrite lookup_insert_eq. congruence.
Qed.

(** Opening AB gives the first descriptor. *)
Lemma syscalls_refine_witness : exists s' live' a', run_call 1 FsProps.junk (Open [65; 66]) one_process = Ok (2, s') /\
  sys_inv live' s' /\ abs live' s' a' /\ exists sec, a_fds a' !! (1, 2) = Some (sec, 0).
Proof.
  destruct one_process_ok as (live & sec & Hi & Ha & Hr & Hn).
  destruct (syscalls_refine live one_process (initial live one_process) 1 FsProps.junk (Open [65; 66]) Hi Ha Hr (open_AB_valid live) eq_refl)
    as (r & s' & live' & a' & Hrun & Hi' & Ha' & Hspec).
  destruct (open_spec_inv _ _ _ _ _ sec Hspec Hn) as [Enx Efd]. assert (r = 2) as ->.
  { cbn [initial a_next one_process procs] in Enx. rewrite lookup_fmap, lookup_singleton_eq in Enx. by injection Enx as <-. }
  exists s', live', a'. eauto.
Defined.

(** The process after it has opened AB. *)
Definition opened_AB : sys := match run_call 1 FsProps.junk (Open [65; 66]) one_process with Ok (_, s) => s | Err _ => one_process end.

Lemma opened_AB_fd : (fun p => find_fd 2 (list_of_fds p)) <$> procs opened_AB !! 1 = Some (Some (mkFd 2 39)).
Proof. vm_compute. reflexivity. Qed.

Lemma opened_AB_ok : exists live, sys_inv live opened_AB.
Proof.
  destruct one_process_ok as (live & sec & Hi & Ha & Hr & Hn).
  destruct (calls_refine live one_process (initial live one_process) 1 FsProps.junk (Open [65; 66]) Hi Ha Hr (open_AB_valid live) eq_refl)
    as (r & s' & live' & a' & Hrun & Hi' & _).
  exists live'. unfold opened_AB. by rewrite Hrun.
Qed.

#[local] Opaque opened_AB.

Lemma seek_panics_witness : seek 1 2 4294967295 opened_AB = Err Assertion_failed.
Proof.
  destruct opened_AB_ok as (live & Hi). pose proof opened_AB_fd as E. destruct (procs opened_AB !! 1) as [p|] eqn:Hp; [|done].
  injection E as Hd. apply (seek_panics live opened_AB 1 p 2 _ 4294967295 Hi Hp Hd). lia.
Defined.

Lemma console_write_ok_witness : write 1 WRITE_TO_CONSOLE 4097 3 one_process = Ok (3, set_console [8; 9; 10] one_process).
Proof. apply (console_write_ok one_process 1 (mkProc [] 2 NULL false false user_bytes) 4097 3 [8; 9; 10]); [done|lia|vm_compute; reflexivity]. Defined.

(** One key is more than two bytes, and more than 300 bytes wait for ever. *)
Lemma keyboard_read_wrong_witness :
  read 1000 1 READ_FROM_KEYBOARD 4096 300 one_process = Err Out_of_fuel /\
  read 3 1 READ_FROM_KEYBOARD 4096 150 one_process = Ok (194, set_keys (fun i => keys one_process (2 + i)%nat) one_process).
Proof.
  split; [apply (proj2 (proj2 (keyboard_read_wrong 1000 1 4096 300 one_process))); lia|].
  apply (proj1 (keyboard_read_wrong 3 1 4096 150 one_process) 2%nat); [lia|vm_compute; reflexivity|].
  intros m Hm. destruct m as [|[|m]]; [vm_compute; discriminate..|lia].
Defined.

Lemma bad_stack_exits_witness : syscall_handler 0 1 PHYS_BASE FsProps.junk one_process = Ok (Exits BAD_EXIT, one_process).
Proof.
  apply (bad_stack_exits 0 1 PHYS_BASE FsProps.junk one_process (mkProc [] 2 NULL false false user_bytes) 0); [done|].
  left. right. left. lia.
Defined.

End SysProps.
