(* ===== verification/UserCalls.v ===== *)
(** * System calls from user programs (src/src/lib/user/syscall.c)

    The functions of the user library push their arguments and the number of
    the call on the stack of the process and enter the kernel; together with
    the handler of [Syscall] they call the kernel's function of the same
    name with the same arguments. *)

From S2P Require Import Prelude KState Bitmap FsState Inode FileOps Directory CString Mount FsRefine FsProps Handles Syscall SysRefine SysProps.
Import FsState Syscall SysProps.

Module UserCalls.

(** ** System call numbers (lib/syscall-nr.h) *)

Definition SYS_HALT : Z := 0.
Definition SYS_EXIT : Z := 1.
Definition SYS_EXEC : Z := 2.
Definition SYS_WAIT : Z := 3.
Definition SYS_CREATE : Z := 4.
Definition SYS_REMOVE : Z := 5.
Definition SYS_OPEN : Z := 6.
Definition SYS_FILESIZE : Z := 7.
Definition SYS_READ : Z := 8.
Definition SYS_WRITE : Z := 9.
Definition SYS_SEEK : Z := 10.
Definition SYS_TELL : Z := 11.
Definition SYS_CLOSE : Z := 12.
Definition SYS_MMAP : Z := 13.
Definition SYS_MUNMAP : Z := 14.

(** ** Entering the kernel *)

(** [pushl v] by process [t]; without memory there it is a page fault. *)
Definition pushl (t v esp : Z) : M sys Z :=
  p <- current t ;;
  let esp := u32 (esp - 4) in
  match ubytes (umem p) esp 4 with
  | Some _ => upd_proc t (with_umem (uput (umem p) esp (le32 (u32 v)))) ;;; ret esp
  | None => fail Bad_access
  end.

Section calls.
Context (fuel : nat) (t esp : Z) (e : list Z).

Definition syscall0 (number : Z) : M sys outcome :=
  esp <- pushl t number esp ;; syscall_handler fuel t esp e.

Definition syscall1 (number arg0 : Z) : M sys outcome :=
  esp <- pushl t arg0 esp ;; esp <- pushl t number esp ;; syscall_handler fuel t esp e.

Definition syscall2 (number arg0 arg1 : Z) : M sys outcome :=
  esp <- pushl t arg1 esp ;; esp <- pushl t arg0 esp ;; esp <- pushl t number esp ;; syscall_handler fuel t esp e.

Definition syscall3 (number arg0 arg1 arg2 : Z) : M sys outcome :=
  esp <- pushl t arg2 esp ;; esp <- pushl t arg1 esp ;; esp <- pushl t arg0 esp ;; esp <- pushl t number esp ;; syscall_handler fuel t esp e.

Definition halt := syscall0 SYS_HALT.
Definition exit (status : Z) := syscall1 SYS_EXIT status.
Definition exec (file : Z) := syscall1 SYS_EXEC file.
Definition wait (pid : Z) := syscall1 SYS_WAIT pid.
Definition create (file initial_size : Z) := syscall2 SYS_CREATE file initial_size.
Definition remove (file : Z) := syscall1 SYS_REMOVE file.
Definition open (file : Z) := syscall1 SYS_OPEN file.
Definition filesize (fd : Z) := syscall1 SYS_FILESIZE fd.
Definition read (fd buffer size : Z) := syscall3 SYS_READ fd buffer size.
Definition write (fd buffer size : Z) := syscall3 SYS_WRITE fd buffer size.
Definition seek (fd position : Z) := syscall2 SYS_SEEK fd position.
Definition tell (fd : Z) := syscall1 SYS_TELL fd.
Definition close (fd : Z) := syscall1 SYS_CLOSE fd.
Definition mmap (fd addr : Z) := syscall2 SYS_MMAP fd addr.
Definition munmap (mapid : Z) := syscall1 SYS_MUNMAP mapid.

(** ** Calls and what they ask of the kernel *)

Inductive ucall : Type :=
| UHalt | UExit (status : Z) | UExec (file : Z) | UWait (pid : Z) | UCreate (file size : Z) | URemove (file : Z) | UOpen (file : Z)
| UFilesize (fd : Z) | URead (fd buffer size : Z) | UWrite (fd buffer size : Z) | USeek (fd position : Z) | UTell (fd : Z) | UClose (fd : Z)
| UMmap (fd addr : Z) | UMunmap (mapid : Z).

Definition stub (c : ucall) : M sys outcome :=
  match c with
  | UHalt => halt | UExit st => exit st | UExec f => exec f | UWait p => wait p | UCreate f n => create f n | URemove f => remove f
  | UOpen f => open f | UFilesize fd => filesize fd | URead fd b n => read fd b n | UWrite fd b n => write fd b n
  | USeek fd n => seek fd n | UTell fd => tell fd | UClose fd => close fd | UMmap fd a => mmap fd a | UMunmap m => munmap m
  end.

Definition kernel_call (c : ucall) : M sys outcome :=
  match c with
  | UHalt => ret Powers_off
  | UExit st => ret (Exits st)
  | UExec f => ret (Executes f)
  | UWait p => ret (Waits p)
  | UCreate f n => name <- load_string t f ;; b <- Syscall.create t name e n ;; ret (Returns (Some (of_bool b)))
  | URemove f => name <- load_string t f ;; b <- Syscall.remove t name e ;; ret (Returns (Some (of_bool b)))
  | UOpen f => name <- load_string t f ;; fd <- Syscall.open t name e ;; ret (Returns (Some (u32 fd)))
  | UFilesize fd => r <- Syscall.filesize t fd ;; ret (Returns (Some (u32 r)))
  | URead fd b n => r <- Syscall.read fuel t fd b n ;; ret (Returns (Some (u32 r)))
  | UWrite fd b n => r <- Syscall.write t fd b n ;; ret (Returns (Some (u32 r)))
  | USeek fd n => Syscall.seek t fd n ;;; ret (Returns None)
  | UTell fd => r <- Syscall.tell t fd ;; ret (Returns (Some r))
  | UClose fd => Syscall.close t fd ;;; ret (Returns None)
  | UMmap fd a => ret (Maps fd a)
  | UMunmap m => ret (Unmaps m)
  end.

(** Arguments at the widths of their types, pointers that the kernel takes. *)
Definition pointer_ok (m : CString.mem) (p : Z) : Prop := 0 < p < PHYS_BASE /\ is_Some (m !! p).

Definition args_ok (m : CString.mem) (c : ucall) : Prop :=
  match c with
  | UHalt => True
  | UExit n | UWait n | UFilesize n | UTell n | UClose n | UMunmap n => in_s32 n
  | UExec f | UOpen f => pointer_ok m f
  | UCreate f n => pointer_ok m f /\ in_u32 n
  | URemove f => 0 < f < PHYS_BASE
  | URead fd b n => in_s32 fd /\ 0 < b < PHYS_BASE /\ in_u32 n
  | UWrite fd b n => in_s32 fd /\ pointer_ok m b /\ in_u32 n
  | USeek fd n => in_s32 fd /\ in_u32 n
  | UMmap fd a => in_s32 fd /\ in_u32 a
  end.

(** Room on the stack for three arguments and the number. *)
Definition stack_ok (m : CString.mem) : Prop :=
  16 < esp <= PHYS_BASE /\ forall a, esp - 16 <= a < esp -> is_Some (m !! a).

(** ** Pushing *)

Lemma uput_lookup_other bs : forall m p a, a < p \/ p + Z.of_nat (length bs) <= a -> uput m p bs !! a = m !! a.
Proof.
  induction bs as [|b bs IH]; intros m p a Ha; cbn [uput]; [done|]. cbn [length] in Ha. rewrite lookup_insert_ne, IH by lia. done.
Qed.

Lemma ubytes_uput_other bs n : forall m p q, q + Z.of_nat n <= p \/ p + Z.of_nat (length bs) <= q -> ubytes (uput m p bs) q n = ubytes m q n.
Proof.
  induction n as [|n IH]; intros m p q H; cbn [ubytes]; [done|]. rewrite IH by lia. by rewrite uput_lookup_other by lia.
Qed.

Lemma ubytes_uput bs : forall m p, ubytes (uput m p bs) p (length bs) = Some bs.
Proof.
  induction bs as [|b bs IH]; intros m p; cbn [uput length ubytes]; [done|]. rewrite lookup_insert_eq.
  change (<[p := b]> (uput m (p + 1) bs)) with (uput (uput m (p + 1) bs) p [b]). by rewrite ubytes_uput_other, IH by (cbn; lia).
Qed.

Lemma uput_mapped bs : forall (m : CString.mem) p a, is_Some (m !! a) -> is_Some (uput m p bs !! a).
Proof.
  induction bs as [|b bs IH]; intros m p a Ha; cbn [uput]; [done|]. destruct (decide (p = a)) as [->|]; [by rewrite lookup_insert_eq; eauto|].
  rewrite lookup_insert_ne by done. by apply IH.
Qed.

Lemma ubytes_mapped n : forall (m : CString.mem) p, (forall a, p <= a < p + Z.of_nat n -> is_Some (m !! a)) -> is_Some (ubytes m p n).
Proof.
  induction n as [|n IH]; intros m p H; cbn [ubytes]; [eauto|]. destruct (H p ltac:(lia)) as [b ->].
  destruct (IH m (p + 1)) as [bs ->]; [intros a Ha; apply H; lia|eauto].
Qed.

(** The machine [s] in which the memory of process [t] is [m]. *)
Definition with_mem (s : sys) (p : proc) (m : CString.mem) : sys := set_procs (<[t := with_umem m p]> (procs s)) s.

Lemma with_mem_id s p : procs s !! t = Some p -> s = with_mem s p (umem p).
Proof. intros Hp. unfold with_mem. destruct p. cbn. rewrite insert_id by done. by destruct s. Qed.

Lemma with_mem_lookup s p m : procs (with_mem s p m) !! t = Some (with_umem m p).
Proof. apply lookup_insert_eq. Qed.

(** The memory with the word [v] at [a]. *)
Definition put (a v : Z) (m : CString.mem) : CString.mem := uput m a (le32 (u32 v)).

Lemma put_mapped a v m b : is_Some (m !! b) -> is_Some (put a v m !! b).
Proof. apply uput_mapped. Qed.

Lemma put_other a v m b : b < a \/ a + 4 <= b -> put a v m !! b = m !! b.
Proof. intros H. apply uput_lookup_other. cbn. lia. Qed.

Lemma ubytes_put a v m : ubytes (put a v m) a 4 = Some (le32 (u32 v)).
Proof. apply (ubytes_uput (le32 (u32 v))). Qed.

Lemma ubytes_put_other a v m b : b + 4 <= a \/ a + 4 <= b -> ubytes (put a v m) b 4 = ubytes m b 4.
Proof. intros H. apply ubytes_uput_other. cbn. lia. Qed.

Lemma pushl_run s p m v a :
  4 < a < 4294967296 -> (forall b, a - 4 <= b < a -> is_Some (m !! b)) ->
  pushl t v a (with_mem s p m) = Ok (a - 4, with_mem s p (put (a - 4) v m)).
Proof.
  intros Ha Hm. unfold pushl, upd_proc, current, bind, gets_opt. rewrite !with_mem_lookup. cbn [umem with_umem]. rewrite u32_id by lia.
  destruct (ubytes_mapped 4 m (a - 4)) as [bs ->]; [intros b Hb; apply Hm; lia|]. rewrite with_mem_lookup.
  unfold modify, with_mem, ret. cbn. by rewrite insert_insert_eq.
Qed.

Lemma load_run s p m v a : ubytes m a 4 = Some (le32 (u32 v)) -> load_word t a (with_mem s p m) = Ok (u32 v, with_mem s p m).
Proof.
  intros Hb. unfold load_word, current, bind, gets_opt. rewrite with_mem_lookup. cbn [umem with_umem]. rewrite Hb.
  unfold ret. f_equal. f_equal. rewrite <- (app_nil_r (le32 (u32 v))). apply le32_roundtrip. unfold in_u32, u32. apply Z.mod_pos_bound. lia.
Qed.

Lemma correct_run s p m a k : 0 < a < PHYS_BASE -> is_Some (m !! a) -> is_correct_user_memory t a k (with_mem s p m) = k (with_mem s p m).
Proof.
  intros Ha [b Hb]. apply (valid_run _ t (with_umem m p)); [apply with_mem_lookup|]. unfold invalid. cbn [umem with_umem]. rewrite Hb.
  intros [->|[?|?]]; [by unfold NULL in *; lia|lia|done].
Qed.

Lemma s32_u32 v : in_s32 v -> s32 (u32 v) = v.
Proof.
  unfold in_s32, s32, u32. intros Hv. rewrite Zplus_mod_idemp_l, Z.mod_small by lia. lia.
Qed.

Lemma arg_ptr_eq a k : 0 <= k <= 2 -> 0 <= a < PHYS_BASE -> arg_ptr a k = a + 4 * (k + 1).
Proof. intros Hk Ha. unfold arg_ptr. apply u32_id. unfold PHYS_BASE in Ha. lia. Qed.

(** The words a call pushes, the number of the call first. *)
Definition words (c : ucall) : list Z :=
  match c with
  | UHalt => [SYS_HALT] | UExit st => [SYS_EXIT; st] | UExec f => [SYS_EXEC; f] | UWait p => [SYS_WAIT; p] | UCreate f n => [SYS_CREATE; f; n]
  | URemove f => [SYS_REMOVE; f] | UOpen f => [SYS_OPEN; f] | UFilesize fd => [SYS_FILESIZE; fd] | URead fd b n => [SYS_READ; fd; b; n]
  | UWrite fd b n => [SYS_WRITE; fd; b; n] | USeek fd n => [SYS_SEEK; fd; n] | UTell fd => [SYS_TELL; fd] | UClose fd => [SYS_CLOSE; fd]
  | UMmap fd a => [SYS_MMAP; fd; a] | UMunmap m => [SYS_MUNMAP; m]
  end.

(** The memory after the words have been pushed below [a]. *)
Fixpoint pushed (a : Z) (ws : list Z) (m : CString.mem) : CString.mem :=
  match ws with [] => m | w :: ws' => put a w (pushed (a + 4) ws' m) end.

Lemma pushed_mapped ws : forall a m b, is_Some (m !! b) -> is_Some (pushed a ws m !! b).
Proof. induction ws as [|w ws IH]; intros a m b Hb; cbn [pushed]; [done|]. by apply put_mapped, IH. Qed.

Lemma pushed_other ws : forall a m b, b < a \/ a + 4 * Z.of_nat (length ws) <= b -> pushed a ws m !! b = m !! b.
Proof.
  induction ws as [|w ws IH]; intros a m b Hb; cbn [pushed]; [done|]. cbn [length] in Hb. rewrite put_other, IH by lia. done.
Qed.

Lemma pushed_word ws : forall a m k w, ws !! k = Some w -> ubytes (pushed a ws m) (a + 4 * Z.of_nat k) 4 = Some (le32 (u32 w)).
Proof.
  induction ws as [|v ws IH]; intros a m [|k] w Hk; cbn [pushed]; [done|done| |].
  - injection Hk as ->. replace (a + 4 * Z.of_nat 0) with a by lia. apply ubytes_put.
  - rewrite ubytes_put_other by lia. replace (a + 4 * Z.of_nat (S k)) with (a + 4 + 4 * Z.of_nat k) by lia. by apply IH.
Qed.

Lemma call_words_length c : (1 <= length (words c) <= 4)%nat.
Proof. destruct c; cbn; lia. Qed.

(** Where the stack pointer is when the kernel is entered. *)
Definition entry_esp (c : ucall) : Z := esp - 4 * Z.of_nat (length (words c)).

Definition entered (c : ucall) (s : sys) (p : proc) : sys := with_mem s p (pushed (entry_esp c) (words c) (umem p)).

Section pushes.
Context (s : sys) (p : proc) (m : CString.mem) (Hesp : 16 < esp < 4294967296) (Hm : forall a, esp - 16 <= a < esp -> is_Some (m !! a)).

Definition enter (ws : list Z) : res (outcome * sys) :=
  let a := esp - 4 * Z.of_nat (length ws) in syscall_handler fuel t a e (with_mem s p (pushed a ws m)).

Lemma push_word_run a v n m' : n + 4 = a -> esp - 16 <= n -> a <= esp -> (forall b, is_Some (m !! b) -> is_Some (m' !! b)) ->
  pushl t v a (with_mem s p m') = Ok (n, with_mem s p (put n v m')).
Proof.
  intros <- Hlo Hhi Hm'. rewrite pushl_run; [by replace (n + 4 - 4) with n by lia|lia|].
  intros b Hb. apply Hm', Hm. lia.
Qed.

Lemma syscall0_run n : syscall0 n (with_mem s p m) = enter [n].
Proof. unfold syscall0, enter. cbn [length pushed]. set (a := esp - _). erewrite bind_ok; [done|]. by apply push_word_run; [lia..|]. Qed.

Lemma syscall1_run n v : syscall1 n v (with_mem s p m) = enter [n; v].
Proof.
  unfold syscall1, enter. cbn [length pushed]. set (a := esp - _).
  erewrite bind_ok; [|by apply (push_word_run _ _ (a + 4)); [lia..|]]. erewrite bind_ok; [done|]. apply push_word_run; [lia..|auto using put_mapped].
Qed.

Lemma syscall2_run n v w : syscall2 n v w (with_mem s p m) = enter [n; v; w].
Proof.
  unfold syscall2, enter. cbn [length pushed]. set (a := esp - _).
  erewrite bind_ok; [|by apply (push_word_run _ _ (a + 4 + 4)); [lia..|]].
  erewrite bind_ok; [|apply (push_word_run _ _ (a + 4)); [lia..|auto using put_mapped]].
  erewrite bind_ok; [done|]. apply push_word_run; [lia..|auto using put_mapped].
Qed.

Lemma syscall3_run n v w x : syscall3 n v w x (with_mem s p m) = enter [n; v; w; x].
Proof.
  unfold syscall3, enter. cbn [length pushed]. set (a := esp - _).
  erewrite bind_ok; [|by apply (push_word_run _ _ (a + 4 + 4 + 4)); [lia..|]].
  erewrite bind_ok; [|apply (push_word_run _ _ (a + 4 + 4)); [lia..|auto using put_mapped]].
  erewrite bind_ok; [|apply (push_word_run _ _ (a + 4)); [lia..|auto using put_mapped]].
  erewrite bind_ok; [done|]. apply push_word_run; [lia..|auto using put_mapped].
Qed.

End pushes.

Lemma stub_pushes c s p :
  procs s !! t = Some p -> stack_ok (umem p) -> stub c s = syscall_handler fuel t (entry_esp c) e (entered c s p).
Proof.
  intros Hp [Hesp Hm]. rewrite (with_mem_id s p Hp) at 1. unfold PHYS_BASE in Hesp.
  destruct c; first [apply syscall0_run|apply syscall1_run|apply syscall2_run|apply syscall3_run]; by auto with lia.
Qed.

(** ** In the kernel *)

Lemma entered_word c s p k w a :
  words c !! k = Some w -> a = entry_esp c + 4 * Z.of_nat k -> load_word t a (entered c s p) = Ok (u32 w, entered c s p).
Proof. intros Hk ->. apply load_run. by apply pushed_word. Qed.

Lemma entered_correct c s p a k : 0 < a < PHYS_BASE -> is_Some (umem p !! a) -> is_correct_user_memory t a k (entered c s p) = k (entered c s p).
Proof. intros Ha Hb. apply correct_run; [done|]. by apply pushed_mapped. Qed.

Lemma pointer_tests v : 0 < v < PHYS_BASE -> u32 v = v /\ (v =? NULL) = false /\ is_user_vaddr v = true.
Proof.
  intros Hv. unfold is_user_vaddr. rewrite u32_id, (proj2 (Z.eqb_neq v NULL)), (proj2 (Z.ltb_lt _ _)) by (unfold NULL, PHYS_BASE in *; lia). done.
Qed.

Ltac test_number :=
  repeat match goal with |- context [u32 ?n =? ?k] => let b := eval vm_compute in (u32 n =? k) in change (u32 n =? k) with b end; cbn iota.

(** The arguments arrive as they were passed. *)
Ltac same_args :=
  repeat match goal with
  | H : in_s32 _ /\ _ |- _ => destruct H
  | H : pointer_ok _ _ /\ _ |- _ => destruct H
  | H : 0 < _ < PHYS_BASE /\ _ |- _ => destruct H
  | H : in_s32 ?v |- context [s32 (u32 ?v)] => rewrite (s32_u32 v H)
  | H : in_u32 ?v |- context [u32 ?v] => rewrite (u32_id v H)
  | H : pointer_ok _ ?v |- _ => destruct H as [? ?]
  | H : 0 < ?v < PHYS_BASE |- context [u32 ?v] => destruct (pointer_tests v H) as (-> & ? & ?)
  | H : (?v =? NULL) = false |- context [?v =? NULL] => rewrite H
  | H : is_user_vaddr ?v = true |- context [is_user_vaddr ?v] => rewrite H
  end; cbn [orb negb]; cbn iota.

Ltac in_kernel c s p Hm :=
  repeat first
    [ rewrite (entered_correct c s p) by done
    | rewrite (entered_correct c s p) by (try apply Hm; unfold entry_esp, PHYS_BASE in *; cbn [words length]; lia)
    | erewrite bind_ok by (eapply (entered_word c s p 1); [reflexivity|lia])
    | erewrite bind_ok by (eapply (entered_word c s p 2); [reflexivity|lia])
    | erewrite bind_ok by (eapply (entered_word c s p 3); [reflexivity|lia]) ].

Lemma handler_calls c s p :
  stack_ok (umem p) -> args_ok (umem p) c -> syscall_handler fuel t (entry_esp c) e (entered c s p) = kernel_call c (entered c s p).
Proof.
  intros [Hesp Hm] Hargs. unfold syscall_handler.
  assert (16 < esp <= 3221225472) as Hesp' by done.
  assert (0 <= entry_esp c < PHYS_BASE) as He by (unfold entry_esp, PHYS_BASE; pose proof (call_words_length c); lia).
  rewrite !arg_ptr_eq by done.
  rewrite (entered_correct c s p) by (try apply Hm; unfold entry_esp, PHYS_BASE in *; pose proof (call_words_length c); lia).
  destruct c as [|st|f|pid|f n|f|f|fd|fd b n|fd b n|fd n|fd|fd|fd a|m]; cbn [args_ok kernel_call] in *;
    (erewrite bind_ok by (eapply (entered_word _ s p 0); [reflexivity|lia])); test_number;
    (match goal with |- context [entered ?c s p] => in_kernel c s p Hm; same_args; in_kernel c s p Hm; same_args end); reflexivity.
Qed.

End calls.

(** C11: a call of the user library, with arguments of their types, pointers
    the kernel accepts and room on the stack, runs the function of the
    kernel of the same name with the same arguments, and of the memory of
    the process only the sixteen bytes below its stack pointer have changed
    before. *)
Theorem user_calls_reach_kernel fuel t esp e c s p :
  procs s !! t = Some p -> stack_ok esp (umem p) -> args_ok (umem p) c ->
  exists m, stub fuel t esp e c s = kernel_call fuel t e c (with_mem t s p m) /\
    forall a, ~ (esp - 16 <= a < esp) -> m !! a = umem p !! a.
Proof.
  intros Hp Hs Ha. exists (pushed (entry_esp esp c) (words c) (umem p)). rewrite (stub_pushes fuel t esp e c s p Hp Hs). split; [by apply handler_calls|].
  intros a Hout. apply pushed_other. unfold entry_esp. pose proof (call_words_length c). lia.
Qed.

(** A process with a stack of sixteen bytes and three bytes to write. *)
Definition with_stack : CString.mem := list_to_map (zip (seqZ 4096 24) (replicate 24 65)).
Definition small_process : sys := mkSys FsProps.with_file_AB {[1 := mkProc [] 2 NULL false false with_stack]} false [] (fun _ => 97).

#[local] Opaque FsProps.with_file_AB.

Lemma user_calls_reach_kernel_witness : exists m, stub 0 1 4112 FsProps.junk (UWrite 1 4112 3) small_process =
  kernel_call 0 1 FsProps.junk (UWrite 1 4112 3) (with_mem 1 small_process (mkProc [] 2 NULL false false with_stack) m).
Proof.
  destruct (user_calls_reach_kernel 0 1 4112 FsProps.junk (UWrite 1 4112 3) small_process (mkProc [] 2 NULL false false with_stack)) as (m & H & _).
  - reflexivity.
  - split; [unfold PHYS_BASE; lia|]. intros a Ha. change (umem _) with with_stack.
    assert (a ∈ seqZ 4096 16) as Hin by (apply elem_of_seqZ; lia). revert Hin. clear.
    assert (Forall (fun a => is_Some (with_stack !! a)) (seqZ 4096 16)) as HF by (vm_compute; repeat constructor; eauto).
    rewrite Forall_forall in HF. apply HF.
  - split; [unfold in_s32; lia|]. split; [split; [unfold PHYS_BASE; lia|vm_compute; eauto]|unfold in_u32; lia].
  - by exists m.
Defined.

End UserCalls.
