(* ===== verification/Processes.v ===== *)
(** * Parents and children (src/src/userprog/process.c, threads/thread.c)

    What a parent and its child share is a [child_data] object.  The kernel
    can be preempted between any two accesses to such an object, so
    [process_execute], [process_wait] and [process_exit] are step functions:
    [at_place] is the point of the C text at which a thread stands, and a
    step of the thread makes the accesses up to the next point.  Events of all
    threads are interleaved freely.  The body of [sema_up] and one turn of the
    loop of [sema_down] are one step, since they run with interrupts off.

    An object that is allocated later is another object, also where malloc
    gives it the memory of one that was freed: a pointer to a freed object
    stays dangling, and an access through it fails.  So does an access to a
    thread that has exited, whose page has been freed.

    Not here: memory and files of a process, which [Syscall] and [Pagedir]
    have, and the loading of its program ([Elf], [Args]), whose result comes
    with an event. *)

From S2P Require Import Prelude.

Module Processes.

Definition BAD_EXIT : Z := -1.
Definition TID_ERROR : Z := -1.

Record child_data : Type := mkCd { pid : Z; return_status : Z; finished : bool; wait_sema : Z }.

(** Where a thread stands.  [c] is the tid of the child, [a] its object. *)
Inductive place : Type :=
| Running                              (* in the user program *)
| Starting                             (* start_process: loading the program *)
| Ex_lookup (c : Z)                    (* process_execute: thread_create has returned *)
| Ex_walk (c u : Z)                    (* thread_by_tid: before t->tid == tid, t is u *)
| Ex_next (c u : Z)                    (*   before list_next (e) *)
| Ex_data (c u : Z)                    (*   it has returned u; before ->data *)
| Ex_store (c a : Z)                   (* before the store to child_thread->data *)
| Ex_insert (c a : Z)                  (* before list_insert *)
| Ex_down (c a : Z)                    (* in sema_down *)
| Ex_status (c a : Z)                  (* before the test of return_status *)
| Wait_find (c : Z) (l : list Z)       (* process_wait: in the loop, l is to come *)
| Wait_test (a : Z)                    (* before the test of p->finished *)
| Wait_down (a : Z)                    (* in sema_down *)
| Wait_status (a : Z)                  (* before p->return_status *)
| Wait_remove (a v : Z)                (* before list_remove *)
| Wait_free (a v : Z)                  (* before free *)
| Exit_print                           (* process_exit: at the start *)
| Exit_children (l : list Z)           (* in the loop, l is to come *)
| Exit_free (a : Z) (l : list Z)       (* before free (p) *)
| Exit_mark (a : Z) (l : list Z)       (* before p->finished = true *)
| Exit_own                             (* before the test of cur->data->finished *)
| Exit_own_free                        (* before free (cur->data) *)
| Exit_own_mark                        (* before cur->data->finished = true *)
| Exit_own_up                          (* before sema_up *)
| Exit_end.                            (* done with its object, not yet off all_list *)

#[export] Instance place_eq_dec : EqDecision place.
Proof. solve_decision. Defined.

(** The fields of struct thread that count here. *)
Record proc : Type := mkProc { data : Z; parent : Z; child_processes : list Z; at_place : place }.

Record st : Type := mkSt {
  heap : gmap Z child_data;        (* the objects *)
  used : list Z;                   (* the names of those that were ever allocated *)
  procs : gmap Z proc;             (* the threads that can have children *)
  all_list : list Z;               (* the tids of all threads, in order of creation *)
  next_tid : Z;
  console : list (Z * Z);          (* "exit" lines *)
  returned : list (Z * Z)          (* what [process_execute] and [process_wait] returned *)
}.

Definition set_heap v s := mkSt v (used s) (procs s) (all_list s) (next_tid s) (console s) (returned s).
Definition set_used v s := mkSt (heap s) v (procs s) (all_list s) (next_tid s) (console s) (returned s).
Definition set_procs v s := mkSt (heap s) (used s) v (all_list s) (next_tid s) (console s) (returned s).
Definition set_all_list v s := mkSt (heap s) (used s) (procs s) v (next_tid s) (console s) (returned s).
Definition set_next_tid v s := mkSt (heap s) (used s) (procs s) (all_list s) v (console s) (returned s).
Definition set_console v s := mkSt (heap s) (used s) (procs s) (all_list s) (next_tid s) v (returned s).
Definition set_returned v s := mkSt (heap s) (used s) (procs s) (all_list s) (next_tid s) (console s) v.

Definition with_data v p := mkProc v (parent p) (child_processes p) (at_place p).
Definition with_children v p := mkProc (data p) (parent p) v (at_place p).
Definition with_place v p := mkProc (data p) (parent p) (child_processes p) v.

Definition current (t : Z) : M st proc := gets_opt (fun s => procs s !! t).
Definition upd_proc (t : Z) (f : proc -> proc) : M st unit :=
  p <- current t ;; modify (fun s => set_procs (<[t := f p]> (procs s)) s).

(** The thread goes on to another point. *)
Definition goto (t : Z) (pl : place) : M st unit := upd_proc t (with_place pl).

(** The object at [a]; one that has been freed cannot be used. *)
Definition load (a : Z) : M st child_data := gets_opt (fun s => heap s !! a).
Definition store (a : Z) (f : child_data -> child_data) : M st unit :=
  d <- load a ;; modify (fun s => set_heap (<[a := f d]> (heap s)) s).
Definition free (a : Z) : M st unit := load a ;;; modify (fun s => set_heap (delete a (heap s)) s).

Definition set_finished d := mkCd (pid d) (return_status d) true (wait_sema d).
Definition set_status v d := mkCd (pid d) v (finished d) (wait_sema d).
Definition set_sema v d := mkCd (pid d) (return_status d) (finished d) v.

Definition returns (t v : Z) : M st unit :=
  modify (fun s => set_returned (returned s ++ [(t, v)]) s) ;;; goto t Running.

(** [sema_down]: a thread that finds the value zero sleeps, and comes back to
    the test when it runs again. *)
Definition sema_down (t a : Z) (next : place) : M st unit :=
  d <- load a ;;
  if wait_sema d =? 0 then ret tt
  else store a (set_sema (wait_sema d - 1)) ;;; goto t next.

Definition sema_up (a : Z) : M st unit :=
  d <- load a ;; store a (set_sema (wait_sema d + 1)).

(** An insertion or a removal writes to the neighbours in the list. *)
Fixpoint touch (l : list Z) : M st unit :=
  match l with [] => ret tt | b :: l' => load b ;;; touch l' end.

Fixpoint neighbours (a : Z) (l : list Z) : list Z :=
  match l with
  | [] => []
  | b :: l' =>
      match l' with
      | [] => []
      | c :: _ => (if b =? a then [c] else if c =? a then [b] else []) ++ neighbours a l'
      end
  end.

Definition list_insert_tail (t a : Z) : M st unit :=
  load a ;;;
  p <- current t ;;
  touch (neighbours a (child_processes p ++ [a])) ;;;
  upd_proc t (with_children (child_processes p ++ [a])).

Definition list_remove (t a : Z) : M st unit :=
  load a ;;;
  p <- current t ;;
  touch (neighbours a (child_processes p)) ;;;
  upd_proc t (with_children (list_difference (child_processes p) [a])).

(** ** Starting a process *)

(** What [palloc_get_page] and [thread_create] come to: no page for the copy
    of the command line, no thread, or a thread [c] with the object [a],
    which is null when malloc fails. *)
Inductive created : Type := No_page | No_thread | Created (c a : Z).

(** [thread_create] and [init_thread]: the page of the new thread was cleared. *)
Definition thread_create (c a : Z) : M st unit :=
  (if a =? NULL then ret tt
   else modify (fun s => set_used (a :: used s) (set_heap (<[a := mkCd c 0 false 0]> (heap s)) s))) ;;;
  modify (fun s => set_procs (<[c := mkProc a NULL [] Starting]> (procs s)) s) ;;;
  modify (fun s => set_all_list (all_list s ++ [c]) s) ;;;
  modify (set_next_tid (c + 1)).

(** [process_execute] up to the call of [thread_by_tid]. *)
Definition process_execute (t : Z) (r : created) : M st unit :=
  match r with
  | No_page => returns t TID_ERROR
  | No_thread => goto t (Ex_lookup TID_ERROR)
  | Created c a => thread_create c a ;;; goto t (Ex_lookup c)
  end.

(** A field of the thread [u]: its memory is freed when it has exited. *)
Definition touch_thread (u : Z) : M st unit :=
  gets_opt (fun s => if bool_decide (u ∈ all_list s) then Some tt else None).

Fixpoint next_in (u : Z) (l : list Z) : Z :=
  match l with [] => NULL | v :: l' => if v =? u then hd NULL l' else next_in u l' end.

(** The loop of [thread_by_tid] runs with interrupts on; the end of the list
    is [NULL] here. *)
Definition thread_by_tid (t : Z) : M st unit :=
  p <- current t ;;
  match at_place p with
  | Ex_lookup c => l <- gets all_list ;; goto t (Ex_walk c (hd NULL l))
  | Ex_walk c u =>
      if u =? NULL then goto t (Ex_data c NULL)
      else touch_thread u ;;; goto t (if u =? c then Ex_data c u else Ex_next c u)
  | Ex_next c u => touch_thread u ;;; l <- gets all_list ;; goto t (Ex_walk c (next_in u l))
  | _ => ret tt
  end.

(** [child_thread] is never initialized: its store hits memory where nothing
    is mapped, memory that nothing uses, or, say, the thread [u]. *)
Inductive target : Type := Nowhere | Elsewhere | Thread_data (u : Z).

Definition store_child_thread (t : Z) (j : target) : M st unit :=
  p <- current t ;;
  match at_place p with
  | Ex_store c a =>
      match j with
      | Nowhere => fail Bad_access
      | Elsewhere => ret tt
      | Thread_data u => upd_proc u (with_data a)
      end ;;;
      goto t (Ex_insert c a)
  | _ => ret tt
  end.

(** The rest of [process_execute]. *)
Definition process_execute_end (t : Z) : M st unit :=
  p <- current t ;;
  match at_place p with
  | Ex_data c u => q <- current u ;; goto t (Ex_store c (data q))
  | Ex_insert c a => list_insert_tail t a ;;; goto t (Ex_down c a)
  | Ex_down c a => sema_down t a (Ex_status c a)
  | Ex_status c a => d <- load a ;; returns t (if return_status d =? BAD_EXIT then BAD_EXIT else c)
  | _ => ret tt
  end.

(** ** Waiting *)

Definition process_wait (t child_tid : Z) : M st unit :=
  if child_tid =? TID_ERROR then returns t BAD_EXIT
  else p <- current t ;; goto t (Wait_find child_tid (child_processes p)).

Definition process_wait_end (t : Z) : M st unit :=
  p <- current t ;;
  match at_place p with
  | Wait_find c [] => returns t BAD_EXIT
  | Wait_find c (a :: l) => d <- load a ;; goto t (if pid d =? c then Wait_test a else Wait_find c l)
  | Wait_test a => d <- load a ;; goto t (if negb (finished d) then Wait_down a else Wait_status a)
  | Wait_down a => sema_down t a (Wait_status a)
  | Wait_status a => d <- load a ;; goto t (Wait_remove a (return_status d))
  | Wait_remove a v => list_remove t a ;;; goto t (Wait_free a v)
  | Wait_free a v => free a ;;; returns t v
  | _ => ret tt
  end.

(** ** Exit *)

(** [process_exit], and the end of [thread_exit], which takes the thread off
    the list with interrupts off. *)
Definition process_exit (t : Z) : M st unit :=
  p <- current t ;;
  match at_place p with
  | Exit_print =>
      (if negb (data p =? NULL) then d <- load (data p) ;; modify (fun s => set_console (console s ++ [(t, return_status d)]) s)
       else ret tt) ;;;
      goto t (Exit_children (child_processes p))
  | Exit_children [] => goto t Exit_own
  | Exit_children (a :: l) => d <- load a ;; goto t (if finished d then Exit_free a l else Exit_mark a l)
  | Exit_free a l => free a ;;; goto t (Exit_children l)
  | Exit_mark a l => store a set_finished ;;; goto t (Exit_children l)
  | Exit_own => d <- load (data p) ;; goto t (if finished d then Exit_own_free else Exit_own_mark)
  | Exit_own_free => free (data p) ;;; goto t Exit_end
  | Exit_own_mark => store (data p) set_finished ;;; goto t Exit_own_up
  | Exit_own_up => sema_up (data p) ;;; goto t Exit_end
  | Exit_end =>
      modify (fun s => set_procs (delete t (procs s)) s) ;;;
      modify (fun s => set_all_list (list_difference (all_list s) [t]) s)
  | _ => ret tt
  end.

(** The system call [exit]. *)
Definition exit (t status : Z) : M st unit :=
  p <- current t ;; store (data p) (set_status status) ;;; goto t Exit_print.

(** [start_process] with the result of [load]. *)
Definition start_process (t : Z) (success : bool) : M st unit :=
  p <- current t ;;
  (if negb (parent p =? NULL) then sema_up (data p) else ret tt) ;;;
  if negb success then exit t BAD_EXIT else goto t Running.

(** ** Runs *)

Inductive event : Type :=
| Execute (t : Z) (r : created)        (* a thread calls [process_execute] *)
| Load (t : Z) (success : bool)        (* its program is loaded, or is not *)
| Wait (t child_tid : Z)               (* it calls [process_wait] *)
| Exit (t status : Z)                  (* it calls [exit] *)
| Die (t : Z)                          (* it is killed *)
| Store (t : Z) (j : target)           (* it does the store to [child_thread->data] *)
| Step (t : Z).                        (* it goes on inside one of the functions *)

Definition go_on (t : Z) : M st unit :=
  p <- current t ;;
  match at_place p with
  | Running | Starting | Ex_store _ _ => ret tt
  | Ex_lookup _ | Ex_walk _ _ | Ex_next _ _ => thread_by_tid t
  | Ex_data _ _ | Ex_insert _ _ | Ex_down _ _ | Ex_status _ _ => process_execute_end t
  | Wait_find _ _ | Wait_test _ | Wait_down _ | Wait_status _ | Wait_remove _ _ | Wait_free _ _ => process_wait_end t
  | _ => process_exit t
  end.

Definition step (e : event) : M st unit :=
  match e with
  | Execute t r => process_execute t r
  | Load t success => start_process t success
  | Wait t c => process_wait t c
  | Exit t status => exit t status
  | Die t => goto t Exit_print
  | Store t j => store_child_thread t j
  | Step t => go_on t
  end.

Definition is_running pl := match pl with Running => true | _ => false end.
Definition is_starting pl := match pl with Starting => true | _ => false end.
Definition is_store pl := match pl with Ex_store _ _ => true | _ => false end.

Definition stands (s : st) (t : Z) (f : place -> bool) : bool :=
  match procs s !! t with Some p => f (at_place p) | None => false end.

(** A new thread has a new tid, and malloc gives a new object. *)
Definition new_child (s : st) (r : created) : bool :=
  match r with Created c a => (next_tid s <=? c) && bool_decide (a ∉ used s) | _ => true end.

Definition enabled (s : st) (e : event) : bool :=
  match e with
  | Execute t r => stands s t is_running && new_child s r
  | Load t _ => stands s t is_starting
  | Wait t _ | Exit t _ | Die t => stands s t is_running
  | Store t _ => stands s t is_store
  | Step t => stands s t (fun pl => negb (is_running pl || is_starting pl || is_store pl))
  end.

Fixpoint run (es : list event) (s : st) : res (unit * st) :=
  match es with
  | [] => Ok (tt, s)
  | e :: es' => match step e s with Ok (_, s') => run es' s' | Err x => Err x end
  end.

Fixpoint possible (es : list event) (s : st) : bool :=
  match es with
  | [] => true
  | e :: es' => enabled s e && match step e s with Ok (_, s') => possible es' s' | Err _ => true end
  end.

(** The first thread, which runs the first process and has no object; thread
    2 is the idle thread. *)
Definition boot : st := mkSt ∅ [] {[1 := mkProc NULL NULL [] Running]} [1; 2] 3 [] [].

(** ** What can go wrong

    The places where the code uses a thread that may have exited, a pointer
    that it never initialized, or an object for which there was no memory.
    No other condition is on the objects: that none is used after it was
    freed is part of the theorem. *)

Definition spares (e : event) : bool :=
  match e with Store _ (Thread_data _) => false | _ => true end.

Definition no_data (s : st) (t : Z) : bool :=
  match procs s !! t with Some p => data p =? NULL | None => false end.

Definition faulty (s : st) (e : event) : bool :=
  match e with
  | Exit t _ => no_data s t
  | Load t success => negb success && no_data s t
  | Store t Nowhere => true
  | Step t =>
      match procs s !! t with
      | Some p =>
          match at_place p with
          | Ex_walk c u => negb (u =? NULL) && negb (bool_decide (u ∈ all_list s))
          | Ex_next c u => negb (bool_decide (u ∈ all_list s))
          | Ex_data c u => bool_decide (procs s !! u = None)
          | Ex_insert c a => a =? NULL
          | Exit_own => data p =? NULL
          | _ => false
          end
      | None => false
      end
  | _ => false
  end.

(** ** Who refers to an object

    For each thread: the objects of the children it is done with waiting for
    in [process_execute], the child and the object whose [wait_sema] it waits
    for, the tid of a child that it looks for, and its own object as long as
    it can still use it, with whether it has set [finished]. *)

Record view : Type := mkView { kids : list Z; pend : option (Z * Z); look : option Z; own : option (Z * bool); ptr : Z }.

Definition kids_of (p : proc) : list Z :=
  match at_place p with
  | Ex_down c a => list_difference (child_processes p) [a]
  | Wait_free a v => a :: child_processes p
  | Exit_children l => l
  | Exit_free a l | Exit_mark a l => a :: l
  | Exit_own | Exit_own_free | Exit_own_mark | Exit_own_up | Exit_end => []
  | _ => child_processes p
  end.

Definition sought (c : Z) : option Z := if c =? TID_ERROR then None else Some c.

Definition pend_of (p : proc) : option (Z * Z) :=
  match at_place p with
  | Ex_store c a | Ex_insert c a | Ex_down c a => if a =? NULL then None else Some (c, a)
  | _ => None
  end.

Definition look_of (p : proc) : option Z :=
  match at_place p with
  | Ex_lookup c | Ex_walk c _ | Ex_next c _ | Ex_data c _ => sought c
  | Ex_store c a | Ex_insert c a | Ex_down c a => if a =? NULL then sought c else None
  | _ => None
  end.

Definition own_of (p : proc) : option (Z * bool) :=
  if data p =? NULL then None
  else match at_place p with Exit_own_up => Some (data p, true) | Exit_end => None | _ => Some (data p, false) end.

Definition view_of (p : proc) : view := mkView (kids_of p) (pend_of p) (look_of p) (own_of p) (data p).

(** The thread with view [v] is to take over the object [a] of child [c]. *)
Definition holds (v : view) (a c : Z) : Prop := a ∈ kids v \/ pend v = Some (c, a) \/ look v = Some c.

Definition owner (V : gmap Z view) (a : Z) : Prop := exists t v b, V !! t = Some v /\ own v = Some (a, b).
Definition reaped (V : gmap Z view) (a : Z) : Prop := exists t v, V !! t = Some v /\ a ∈ kids v.

Record linked (V : gmap Z view) (H : gmap Z child_data) (n : Z) : Prop := {
  k_null : H !! NULL = None;
  k_tid : forall t v, V !! t = Some v -> 0 < t < n;
  k_pid : forall a d, H !! a = Some d -> 0 < pid d < n;
  k_pids : forall a a' d d', H !! a = Some d -> H !! a' = Some d' -> pid d = pid d' -> a = a';
  k_look : forall t v c, V !! t = Some v -> look v = Some c -> c < n /\
    (forall a d, H !! a = Some d -> pid d = c -> ~ reaped V a) /\
    forall w, V !! c = Some w -> ptr w <> NULL -> exists d, H !! ptr w = Some d /\ pid d = c;
  k_looks : forall t t' v v' c, V !! t = Some v -> V !! t' = Some v' -> look v = Some c -> look v' = Some c -> t = t';
  k_pend : forall t v c a, V !! t = Some v -> pend v = Some (c, a) -> look v = None /\ ~ reaped V a /\
    (exists d, H !! a = Some d /\ pid d = c) /\ forall w, V !! c = Some w -> ptr w = a;
  k_kids : forall t v a, V !! t = Some v -> a ∈ kids v -> exists d, H !! a = Some d /\ finished d = true /\ wait_sema d = 0 /\ ~ owner V a;
  k_nodup : forall t v, V !! t = Some v -> NoDup (kids v);
  k_held : forall a d, H !! a = Some d -> exists t v, V !! t = Some v /\ holds v a (pid d);
  k_one : forall a d t t' v v', H !! a = Some d -> V !! t = Some v -> V !! t' = Some v' -> holds v a (pid d) -> holds v' a (pid d) -> t = t';
  k_own : forall t v a b, V !! t = Some v -> own v = Some (a, b) -> a = ptr v /\ exists d, H !! a = Some d /\ pid d = t /\ finished d = b /\ wait_sema d = 0;
  k_done : forall a d, H !! a = Some d -> owner V a \/ finished d = true /\ (reaped V a \/ wait_sema d = 1)
}.

(** ** Changes of the references *)

Ltac vcase H := apply lookup_insert_Some in H as [[<- <-]|[? H]].

Section links.
Context (V : gmap Z view) (H : gmap Z child_data) (n : Z).
Context (L : linked V H n).

Lemma owner_insert t v a : owner (<[t := v]> V) a -> (exists b, own v = Some (a, b)) \/ exists u w b, u <> t /\ V !! u = Some w /\ own w = Some (a, b).
Proof. intros (u & w & b & Hu & Hw). vcase Hu; [left; eauto|right; naive_solver]. Qed.

Lemma reaped_insert t v a : reaped (<[t := v]> V) a -> a ∈ kids v \/ exists u w, u <> t /\ V !! u = Some w /\ a ∈ kids w.
Proof. intros (u & w & Hu & Hw). vcase Hu; [by left|right; naive_solver]. Qed.

(** Only what is not in [linked] of an object changes. *)
Lemma linked_heap a d d' : H !! a = Some d -> pid d' = pid d -> finished d' = finished d -> wait_sema d' = wait_sema d -> linked V (<[a := d']> H) n.
Proof.
  intros Ha E1 E2 E3.
  assert (forall b e, <[a := d']> H !! b = Some e -> exists e0, H !! b = Some e0 /\ pid e = pid e0 /\ finished e = finished e0 /\ wait_sema e = wait_sema e0) as Hb.
  { intros b e He. vcase He; eauto. }
  assert (forall b e0, H !! b = Some e0 -> exists e, <[a := d']> H !! b = Some e /\ pid e = pid e0 /\ finished e = finished e0 /\ wait_sema e = wait_sema e0) as Hf.
  { intros b e0 He. destruct (decide (b = a)) as [->|]; [rewrite Ha in He; injection He as <-; exists d'; by rewrite lookup_insert_eq|exists e0; by rewrite lookup_insert_ne]. }
  destruct L. split; try done.
  - destruct (decide (a = NULL)) as [->|]; [congruence|by rewrite lookup_insert_ne].
  - intros b e (e0 & He & -> & _)%Hb. eauto.
  - intros b b' e e' (e0 & He & -> & _)%Hb (e0' & He' & -> & _)%Hb. eauto.
  - intros t v c Ht Hv. destruct (k_look0 t v c Ht Hv) as (I1 & I2 & I3). split; [done|]. split.
    + intros b e (e0 & He & -> & _)%Hb. eauto.
    + intros w Hw Hn. destruct (I3 w Hw Hn) as (e0 & (e & He & E & _)%Hf & <-). eauto.
  - intros t v c b Ht Hv. destruct (k_pend0 t v c b Ht Hv) as (I1 & I2 & (e0 & (e & He & E & _)%Hf & <-) & I4). eauto 6.
  - intros t v b Ht Hv. destruct (k_kids0 t v b Ht Hv) as (e0 & (e & He & _ & E4 & E5)%Hf & I). exists e. rewrite E4, E5. done.
  - intros b e (e0 & He & -> & _)%Hb. eauto.
  - intros b e t t' v v' (e0 & He & -> & _)%Hb. by apply (k_one0 b e0).
  - intros t v b x Ht Hv. destruct (k_own0 t v b x Ht Hv) as (I1 & e0 & (e & He & E4 & E5 & E6)%Hf & I). split; [done|]. exists e. rewrite E4, E5, E6. done.
  - intros b e (e0 & He & _ & E4 & E5)%Hb. destruct (k_done0 b e0 He) as [?|[? ?]]; [by left|right]. rewrite E4, E5. done.
Qed.

(** The kids of a thread in another order. *)
Lemma linked_order t v v' : V !! t = Some v -> (forall a, a ∈ kids v' <-> a ∈ kids v) -> NoDup (kids v') ->
  pend v' = pend v -> look v' = look v -> own v' = own v -> ptr v' = ptr v -> linked (<[t := v']> V) H n.
Proof.
  intros Ht Hk Hnd E1 E2 E3 E4.
  assert (forall u w, <[t := v']> V !! u = Some w -> exists w0, V !! u = Some w0 /\ (forall a, a ∈ kids w <-> a ∈ kids w0) /\ NoDup (kids w) /\
    pend w = pend w0 /\ look w = look w0 /\ own w = own w0 /\ ptr w = ptr w0) as Hb.
  { intros u w Hw. vcase Hw; [by exists v|]. exists w. split_and!; try done. by eapply (k_nodup V H n L). }
  assert (forall u w0, V !! u = Some w0 -> exists w, <[t := v']> V !! u = Some w /\ (forall a, a ∈ kids w <-> a ∈ kids w0) /\
    pend w = pend w0 /\ look w = look w0 /\ own w = own w0) as Hf.
  { intros u w0 Hw. destruct (decide (u = t)) as [->|]; [rewrite Ht in Hw; injection Hw as <-; exists v'; by rewrite lookup_insert_eq|exists w0; by rewrite lookup_insert_ne]. }
  assert (forall a, owner (<[t := v']> V) a <-> owner V a) as Ho.
  { intros a. split; intros (u & w & b & Hu & Hw); [apply Hb in Hu as (w0 & Hu & _ & _ & _ & _ & E & _)|apply Hf in Hu as (w0 & Hu & _ & _ & _ & E)]; exists u, w0, b; (split; [done|congruence]). }
  assert (forall a, reaped (<[t := v']> V) a <-> reaped V a) as Hr.
  { intros a. split; intros (u & w & Hu & Hw); [apply Hb in Hu as (w0 & Hu & E & _)|apply Hf in Hu as (w0 & Hu & E & _)]; exists u, w0; (split; [done|by apply E]). }
  destruct L. split; try done.
  - intros u w (w0 & Hw & _)%Hb. eauto.
  - intros u w c (w0 & Hw & _ & _ & _ & -> & _)%Hb Hc. destruct (k_look0 u w0 c Hw Hc) as (I1 & I2 & I3). split; [done|]. split; [intros b e Hbe He; rewrite Hr; eauto|].
    intros x (x0 & Hx & _ & _ & _ & _ & _ & ->)%Hb. eauto.
  - intros u u' w w' c (w0 & Hw & _ & _ & _ & -> & _)%Hb (w0' & Hw' & _ & _ & _ & -> & _)%Hb. eauto.
  - intros u w c a (w0 & Hw & _ & _ & -> & -> & _)%Hb Hc. destruct (k_pend0 u w0 c a Hw Hc) as (I1 & I2 & I3 & I4). rewrite Hr. split_and!; [done..|].
    intros x (x0 & Hx & _ & _ & _ & _ & _ & ->)%Hb. eauto.
  - intros u w a (w0 & Hw & -> & _)%Hb Ha. setoid_rewrite Ho. eauto.
  - intros u w (w0 & Hw & _ & ? & _)%Hb. done.
  - intros a d Ha. destruct (k_held0 a d Ha) as (u & w0 & (w & Hw & K1 & K2 & K3 & _)%Hf & Hu). exists u, w. split; [done|]. unfold holds in *. by rewrite K1, K2, K3.
  - intros a d u u' w w' Ha (w0 & Hw & K1 & _ & K2 & K3 & _)%Hb (w0' & Hw' & K1' & _ & K2' & K3' & _)%Hb. unfold holds. rewrite K1, K2, K3, K1', K2', K3'. by apply (k_one0 a d).
  - intros u w a b (w0 & Hw & _ & _ & _ & _ & -> & ->)%Hb. eauto.
  - intros a d Ha. rewrite Ho, Hr. eauto.
Qed.


(** A new child [c] without an object. *)
Lemma linked_born_null t v c : V !! t = Some v -> pend v = None -> look v = None -> n <= c ->
  linked (<[t := mkView (kids v) None (Some c) (own v) (ptr v)]> (<[c := mkView [] None None None NULL]> V)) H (c + 1).
Proof.
  intros Ht Hp Hl Hc. pose proof (k_tid _ _ _ L) as Htid. assert (V !! c = None) as Hvc by (destruct (V !! c) eqn:E; [apply Htid in E; lia|done]).
  assert (t <> c) as Htc by congruence. pose proof (Htid _ _ Ht) as Htn.
  set (v' := mkView (kids v) None (Some c) (own v) (ptr v)). set (w := mkView [] None None None NULL).
  assert (forall u x, <[t := v']> (<[c := w]> V) !! u = Some x -> u = t /\ x = v' \/ u = c /\ x = w \/ u <> t /\ u <> c /\ V !! u = Some x) as Hb.
  { intros u x. rewrite !lookup_insert_Some. naive_solver. }
  assert (forall u x, V !! u = Some x -> exists y, <[t := v']> (<[c := w]> V) !! u = Some y /\ kids y = kids x /\ own y = own x /\ pend y = pend x /\ ptr y = ptr x /\ (look x <> None -> look y = look x)) as Hf.
  { intros u x Hx. destruct (decide (u = t)) as [->|]; [rewrite Ht in Hx; injection Hx as <-; exists v'; rewrite lookup_insert_eq; by rewrite Hl, Hp|].
    exists x. rewrite lookup_insert_ne by done. rewrite lookup_insert_ne by congruence. done. }
  assert (forall a, owner (<[t := v']> (<[c := w]> V)) a <-> owner V a) as Ho.
  { intros a. split; intros (u & x & b & Hu & Hx); [apply Hb in Hu as [[-> ->]|[[-> ->]|(_ & _ & Hu)]]; [by exists t, v, b|done|by exists u, x, b]|].
    apply Hf in Hu as (y & Hu & _ & E & _). exists u, y, b. by rewrite E. }
  assert (forall a, reaped (<[t := v']> (<[c := w]> V)) a <-> reaped V a) as Hr.
  { intros a. split; intros (u & x & Hu & Hx); [apply Hb in Hu as [[-> ->]|[[-> ->]|(_ & _ & Hu)]]; [by exists t, v|by apply not_elem_of_nil in Hx|by exists u, x]|].
    apply Hf in Hu as (y & Hu & E & _). exists u, y. by rewrite E. }
  destruct L. split.
  - done.
  - intros u x [[-> ->]|[[-> ->]|(_ & _ & Hu)]]%Hb; [lia..|]. apply Htid in Hu. lia.
  - intros a d Ha. apply k_pid0 in Ha. lia.
  - done.
  - intros u x c' [[-> ->]|[[-> ->]|(_ & Huc & Hu)]]%Hb Hc'; [|done|].
    + injection Hc' as <-. split; [lia|]. split; [intros a d Ha E; apply k_pid0 in Ha; lia|]. intros y Hy Hn. rewrite lookup_insert_ne, lookup_insert_eq in Hy by done. by injection Hy as <-.
    + destruct (k_look0 u x c' Hu Hc') as (I1 & I2 & I3). split; [lia|]. split; [intros a d Ha E; rewrite Hr; eauto|]. intros y [[-> ->]|[[-> ->]|(_ & _ & Hy)]]%Hb Hn; [by apply (I3 v)|lia|by apply (I3 y)].
  - intros u u' x x' c' [[-> ->]|[[-> ->]|(_ & _ & Hu)]]%Hb [[-> ->]|[[-> ->]|(_ & _ & Hu')]]%Hb Hc' Hc''; try done; cbn in *.
    + injection Hc' as <-. destruct (k_look0 _ _ _ Hu' Hc''). lia.
    + injection Hc'' as <-. destruct (k_look0 _ _ _ Hu Hc'). lia.
    + eauto.
  - intros u x c' a [[-> ->]|[[-> ->]|(_ & _ & Hu)]]%Hb Hc'; [done..|]. destruct (k_pend0 u x c' a Hu Hc') as (I1 & I2 & (d & Hd & E) & I4).
    rewrite Hr. split_and!; [done|done|eauto|]. intros y [[-> ->]|[[-> ->]|(_ & _ & Hy)]]%Hb; [by apply (I4 v)|apply k_pid0 in Hd; lia|by apply (I4 y)].
  - intros u x a [[-> ->]|[[-> ->]|(_ & _ & Hu)]]%Hb Ha; setoid_rewrite Ho; [by apply (k_kids0 t v)|by apply not_elem_of_nil in Ha|by apply (k_kids0 u x)].
  - intros u x [[-> ->]|[[-> ->]|(_ & _ & Hu)]]%Hb; [by apply (k_nodup0 t v)|apply NoDup_nil_2|eauto].
  - intros a d Ha. destruct (k_held0 a d Ha) as (u & x & (y & Hy & E1 & E2 & E3 & E4 & E5)%Hf & Hh). exists u, y. split; [done|]. unfold holds in *. rewrite E1, E3.
    destruct Hh as [?|[?|Hh]]; [by left|by right; left|]. rewrite Hh in E5. right; right. by apply E5.
  - intros a d u u' x x' Ha Hu Hu' Hx Hx'. assert (forall u x, <[t := v']> (<[c := w]> V) !! u = Some x -> holds x a (pid d) -> exists y, V !! u = Some y /\ holds y a (pid d)) as Hh.
    { intros u0 x0 [[-> ->]|[[-> ->]|(_ & _ & Hu0)]]%Hb Hx0; [|destruct Hx0 as [Hx0|[?|?]]; [by apply not_elem_of_nil in Hx0|done..]|eauto].
      exists v. split; [done|]. destruct Hx0 as [?|[?|[= E]]]; [by left|done|]. apply k_pid0 in Ha. lia. }
    apply Hh in Hu as (y & Hu & Hy); [|done]. apply Hh in Hu' as (y' & Hu' & Hy'); [|done]. by apply (k_one0 a d u u' y y').
  - intros u x a b [[-> ->]|[[-> ->]|(_ & _ & Hu)]]%Hb; [by apply (k_own0 t v)|done|by apply (k_own0 u x)].
  - intros a d Ha. rewrite Ho, Hr. eauto.
Qed.

(** The new child gets its object [a]. *)
Lemma linked_born c t v w a : V !! c = Some w -> w = mkView [] None None None NULL -> V !! t = Some v -> look v = Some c -> (forall b d, H !! b = Some d -> pid d <> c) ->
  a <> NULL -> H !! a = None -> linked (<[c := mkView [] None None (Some (a, false)) a]> V) (<[a := mkCd c 0 false 0]> H) n.
Proof.
  intros Hc Hw Ht Hl Hnew Hn Ha. set (w' := mkView [] None None (Some (a, false)) a). set (d0 := mkCd c 0 false 0). subst w.
  assert (forall u x, <[c := w']> V !! u = Some x -> exists y, V !! u = Some y /\ kids x = kids y /\ pend x = pend y /\ look x = look y /\
    (u <> c -> x = y) /\ (u = c -> x = w')) as Hb.
  { intros u x Hx. vcase Hx; [eexists; split; [done|]; done|]. exists x. split_and!; done. }
  assert (forall u y, V !! u = Some y -> exists x, <[c := w']> V !! u = Some x /\ kids x = kids y /\ pend x = pend y /\ look x = look y /\ (u <> c -> x = y)) as Hf.
  { intros u y Hy. destruct (decide (u = c)) as [->|]; [rewrite Hc in Hy; injection Hy as <-; exists w'; by rewrite lookup_insert_eq|exists y; by rewrite lookup_insert_ne]. }
  assert (forall b e, <[a := d0]> H !! b = Some e -> b = a /\ e = d0 \/ b <> a /\ H !! b = Some e) as Hh by (intros b e He; rewrite lookup_insert_Some in He; naive_solver).
  assert (forall b e, H !! b = Some e -> <[a := d0]> H !! b = Some e) as Hh' by (intros b e He; rewrite lookup_insert_ne; [done|congruence]).
  assert (forall b, reaped (<[c := w']> V) b <-> reaped V b) as Hr.
  { intros b. split; intros (u & x & Hu & Hx); [apply Hb in Hu as (y & Hu & E & _)|apply Hf in Hu as (y & Hu & E & _)]; exists u, y; (split; [done|congruence]). }
  assert (~ reaped V a) as Hra by (intros (u & x & Hu & Hx); apply (k_kids _ _ _ L _ _ _ Hu) in Hx as (d & Hd & _); congruence).
  assert (~ owner V a) as Hoa by (intros (u & x & b & Hu & Hx); apply (k_own _ _ _ L _ _ _ _ Hu) in Hx as (_ & d & Hd & _); congruence).
  assert (forall b, b <> a -> owner (<[c := w']> V) b <-> owner V b) as Ho.
  { intros b Hne. split; intros (u & x & i & Hu & Hx).
    - vcase Hu; [cbn in Hx; congruence|]. by exists u, x, i.
    - exists u, x, i. split; [|done]. rewrite lookup_insert_ne; [done|]. intros ->. rewrite Hc in Hu. by injection Hu as <-. }
  assert (0 < c < n) as Hcn by (by apply (k_tid _ _ _ L) in Hc).
  destruct L. split.
  - by rewrite lookup_insert_ne.
  - intros u x (y & Hy & _)%Hb. eauto.
  - intros b e [[-> ->]|[Hne He]]%Hh; [done|eauto].
  - intros b b' e e' [[-> ->]|[Hne He]]%Hh [[-> ->]|[Hne' He']]%Hh E; [done|by apply Hnew in He'|by apply Hnew in He|eauto].
  - intros u x c' (y & Hu & _ & _ & -> & _)%Hb Hc'. destruct (k_look0 u y c' Hu Hc') as (I1 & I2 & I3). split; [done|]. split.
    + intros b e [[-> ->]|[Hne He]]%Hh E; rewrite Hr; [done|eauto].
    + intros z Hz Hzn. vcase Hz; [exists d0; split; [apply lookup_insert_eq|done]|]. destruct (I3 z Hz Hzn) as (e & He & E). exists e. split; [by apply Hh'|done].
  - intros u u' x x' c' (y & Hu & _ & _ & -> & _)%Hb (y' & Hu' & _ & _ & -> & _)%Hb. eauto.
  - intros u x c' b (y & Hu & _ & -> & -> & _)%Hb Hc'. destruct (k_pend0 u y c' b Hu Hc') as (I1 & I2 & (e & He & E) & I4). rewrite Hr. split_and!; [done|done|exists e; eauto|].
    intros z Hz. vcase Hz; [by apply Hnew in He|eauto].
  - intros u x b (y & Hu & -> & _)%Hb Hk. destruct (k_kids0 u y b Hu Hk) as (e & He & E1 & E2 & E3). exists e. split_and!; [by apply Hh'|done..|]. rewrite Ho; [done|congruence].
  - intros u x (y & Hu & -> & _)%Hb. eauto.
  - intros b e [[-> ->]|[Hne He]]%Hh.
    + apply Hf in Ht as (x & Hx & _ & _ & E & _). exists t, x. split; [done|]. right; right. by rewrite E.
    + destruct (k_held0 b e He) as (u & y & (x & Hx & E1 & E2 & E3 & _)%Hf & Hy). exists u, x. split; [done|]. unfold holds in *. by rewrite E1, E2, E3.
  - intros b e u u' x x' He (y & Hu & E1 & E2 & E3 & _)%Hb (y' & Hu' & E1' & E2' & E3' & _)%Hb. unfold holds. rewrite E1, E2, E3, E1', E2', E3'.
    apply Hh in He as [[-> ->]|[Hne He]]; [|by apply (k_one0 b e)]. cbn.
    assert (forall z x, V !! z = Some x -> holds x a c -> look x = Some c) as Hc'.
    { intros z x0 Hz [Hx|[Hx|Hx]]; [destruct Hra; by exists z, x0| |done]. destruct (k_pend0 _ _ _ _ Hz Hx) as (_ & _ & (d & Hd & _) & _). congruence. }
    intros Hx Hx'. by apply (k_looks0 u u' y y' c); [..|apply (Hc' u)|apply (Hc' u')].
  - intros u x b i Hx Hi. vcase Hx; [cbn in Hi; injection Hi as <- <-; split; [done|]; exists d0; split; [apply lookup_insert_eq|done]|].
    destruct (k_own0 u x b i Hx Hi) as (E & e & He & E'). split; [done|]. exists e. split; [by apply Hh'|done].
  - intros b e [[-> ->]|[Hne He]]%Hh; [left; exists c, w', false; by rewrite lookup_insert_eq|]. rewrite Ho, Hr by done. eauto.
Qed.

(** The parent has found the object of its new child. *)
Lemma linked_found t v c w : V !! t = Some v -> look v = Some c -> V !! c = Some w -> ptr w <> NULL ->
  linked (<[t := mkView (kids v) (Some (c, ptr w)) None (own v) (ptr v)]> V) H n.
Proof.
  intros Ht Hl Hc Hn. destruct (k_look _ _ _ L t v c Ht Hl) as (C1 & C2 & C3). destruct (C3 w Hc Hn) as (d0 & Hd0 & Ep).
  set (a0 := ptr w) in *. set (v' := mkView (kids v) (Some (c, a0)) None (own v) (ptr v)).
  assert (forall u x, <[t := v']> V !! u = Some x -> exists y, V !! u = Some y /\ kids x = kids y /\ own x = own y /\ ptr x = ptr y /\ (u <> t -> x = y) /\ (u = t -> x = v' /\ y = v)) as Hb.
  { intros u x Hx. vcase Hx; [by exists v|]. exists x. split_and!; done. }
  assert (forall u y, V !! u = Some y -> exists x, <[t := v']> V !! u = Some x /\ kids x = kids y /\ own x = own y) as Hf.
  { intros u y Hy. destruct (decide (u = t)) as [->|]; [rewrite Ht in Hy; injection Hy as <-; exists v'; by rewrite lookup_insert_eq|exists y; by rewrite lookup_insert_ne]. }
  assert (forall a, owner (<[t := v']> V) a <-> owner V a) as Ho.
  { intros a. split; intros (u & x & b & Hu & Hx); [apply Hb in Hu as (y & Hu & _ & E & _)|apply Hf in Hu as (y & Hu & _ & E)]; exists u, y, b; (split; [done|congruence]). }
  assert (forall a, reaped (<[t := v']> V) a <-> reaped V a) as Hr.
  { intros a. split; intros (u & x & Hu & Hx); [apply Hb in Hu as (y & Hu & E & _)|apply Hf in Hu as (y & Hu & E & _)]; exists u, y; (split; [done|congruence]). }
  assert (forall u x y a d, H !! a = Some d -> <[t := v']> V !! u = Some x -> V !! u = Some y -> holds x a (pid d) <-> holds y a (pid d)) as Hh.
  { intros u x y a d Ha Hx Hy. vcase Hx; [|rewrite Hx in Hy; by injection Hy as <-]. rewrite Ht in Hy. injection Hy as <-. unfold holds. cbn. split.
    - intros [?|[[= E1 E2]|?]]; [by left| |done]. right; right. congruence.
    - intros [?|[E|E]]; [by left| |]; [destruct (k_pend _ _ _ L _ _ _ _ Ht E) as (E' & _); congruence|]. right; left. rewrite Hl in E. injection E as E. f_equal. f_equal; [done|].
      by apply (k_pids _ _ _ L a0 a d0 d); [..|congruence]. }
  destruct L. split; try done.
  - intros u x (y & Hu & _)%Hb. eauto.
  - intros u x c' Hx Hc'. vcase Hx; [done|]. destruct (k_look0 u x c' Hx Hc') as (I1 & I2 & I3). split; [done|]. split; [intros b e Hbe E; rewrite Hr; eauto|].
    intros z (y & Hz & _ & _ & -> & _)%Hb. eauto.
  - intros u u' x x' c' Hx Hx' E E'. vcase Hx; vcase Hx'; try done. eauto.
  - intros u x c' a Hx Hc'. vcase Hx.
    + cbn in Hc'. injection Hc' as <- <-. rewrite Hr. split_and!; [done|by eapply C2|eauto|]. intros z (y & Hz & _ & _ & -> & _)%Hb. rewrite Hc in Hz. by injection Hz as <-.
    + destruct (k_pend0 u x c' a Hx Hc') as (I1 & I2 & I3 & I4). rewrite Hr. split_and!; [done..|]. intros z (y & Hz & _ & _ & -> & _)%Hb. eauto.
  - intros u x a (y & Hu & -> & _)%Hb Ha. setoid_rewrite Ho. eauto.
  - intros u x (y & Hu & -> & _)%Hb. eauto.
  - intros a d Ha. destruct (k_held0 a d Ha) as (u & y & Hu & Hy). destruct (Hf u y Hu) as (x & Hx & _). exists u, x. split; [done|]. by apply (Hh u x y).
  - intros a d u u' x x' Ha Hx Hx' Kx Kx'. destruct (Hb u x Hx) as (y & Hy & _). destruct (Hb u' x' Hx') as (y' & Hy' & _).
    apply (k_one0 a d u u' y y'); try done; [by apply (Hh u x y)|by apply (Hh u' x' y')].
  - intros u x a b (y & Hu & _ & -> & -> & _)%Hb. eauto.
  - intros a d Ha. rewrite Ho, Hr. eauto.
Qed.

(** What a thread with an object sees of it: its own, and its parent's. *)
Lemma pend_sema t v c a d : V !! t = Some v -> pend v = Some (c, a) -> H !! a = Some d ->
  (wait_sema d = 0 <-> owner V a) /\ (wait_sema d = 0 \/ wait_sema d = 1 /\ finished d = true).
Proof.
  intros Ht Hp Ha. destruct (k_pend _ _ _ L t v c a Ht Hp) as (_ & Hr & _).
  assert (owner V a -> wait_sema d = 0) as E0 by (intros (u & x & b & Hu & Hx); destruct (k_own _ _ _ L u x a b Hu Hx) as (_ & e & He & _ & _ & E); congruence).
  destruct (k_done _ _ _ L a d Ha) as [Ho|[Hf [?|E1]]]; [split; [done|by auto]|done|]. split; [|auto]. split; [lia|]. intros Ho%E0. lia.
Qed.

(** The parent has come through [sema_down]. *)
Lemma linked_down t v c a d K : V !! t = Some v -> pend v = Some (c, a) -> H !! a = Some d -> wait_sema d <> 0 -> (forall b, b ∈ K <-> b = a \/ b ∈ kids v) -> NoDup K ->
  linked (<[t := mkView K None None (own v) (ptr v)]> V) (<[a := set_sema (wait_sema d - 1) d]> H) n.
Proof.
  intros Ht Hp Ha Hs HK Hnd. destruct (k_pend _ _ _ L t v c a Ht Hp) as (P1 & P2 & (d' & Hd' & P3) & P4). rewrite Ha in Hd'. injection Hd' as <-.
  destruct (pend_sema t v c a d Ht Hp Ha) as [S1 [?|[S2 S3]]]; [done|]. assert (~ owner V a) as Hno by (intros Ho; by apply S1 in Ho).
  set (v' := mkView K None None (own v) (ptr v)). set (d' := set_sema (wait_sema d - 1) d).
  assert (pid d' = pid d /\ finished d' = true /\ wait_sema d' = 0) as (D1 & D2 & D3) by (cbn; split_and!; [done|done|lia]).
  assert (forall u x, <[t := v']> V !! u = Some x -> exists y, V !! u = Some y /\ own x = own y /\ ptr x = ptr y /\ (u <> t -> x = y)) as Hb.
  { intros u x Hx. vcase Hx; [by exists v|]. exists x. split_and!; done. }
  assert (forall u y, V !! u = Some y -> exists x, <[t := v']> V !! u = Some x /\ own x = own y /\ (forall b, b ∈ kids y -> b ∈ kids x)) as Hf.
  { intros u y Hy. destruct (decide (u = t)) as [->|]; [rewrite Ht in Hy; injection Hy as <-; exists v'; rewrite lookup_insert_eq|exists y; by rewrite lookup_insert_ne].
    split_and!; [done..|]. intros b Hbk. apply HK. by right. }
  assert (forall b, owner (<[t := v']> V) b <-> owner V b) as Ho.
  { intros b. split; intros (u & x & i & Hu & Hx); [apply Hb in Hu as (y & Hu & E & _)|apply Hf in Hu as (y & Hu & E & _)]; exists u, y, i; (split; [done|congruence]). }
  assert (forall b, reaped (<[t := v']> V) b <-> b = a \/ reaped V b) as Hr.
  { intros b. split.
    - intros (u & x & Hu & Hx). vcase Hu; [apply HK in Hx as [?|?]; [by left|right; by exists t, v]|right; by exists u, x].
    - intros [->|(u & y & Hu & Hy)]; [exists t, v'; rewrite lookup_insert_eq; split; [done|]; apply HK; by left|]. apply Hf in Hu as (x & Hu & _ & E). exists u, x. auto. }
  assert (forall b e, <[a := d']> H !! b = Some e -> exists e0, H !! b = Some e0 /\ pid e = pid e0 /\ (b <> a -> e = e0)) as Hhb.
  { intros b e He. vcase He; [by exists d|by exists e]. }
  assert (forall b e0, H !! b = Some e0 -> exists e, <[a := d']> H !! b = Some e /\ pid e = pid e0 /\ (b <> a -> e = e0)) as Hhf.
  { intros b e0 He. destruct (decide (b = a)) as [->|]; [rewrite Ha in He; injection He as <-; exists d'; by rewrite lookup_insert_eq|exists e0; by rewrite lookup_insert_ne]. }
  assert (forall u x y b e, H !! b = Some e -> <[t := v']> V !! u = Some x -> V !! u = Some y -> holds x b (pid e) <-> holds y b (pid e)) as Hh.
  { intros u x y b e He Hx Hy. vcase Hx; [|rewrite Hx in Hy; by injection Hy as <-]. rewrite Ht in Hy. injection Hy as <-. unfold holds. cbn. rewrite P1, Hp, HK. split.
    - intros [[->|?]|[?|?]]; [|by left|done..]. right; left. congruence.
    - intros [?|[[= E1 E2]|?]]; [by left; right|by left; left|done]. }
  destruct L. split.
  - rewrite lookup_insert_ne; [done|]. intros ->. congruence.
  - intros u x (y & Hu & _)%Hb. eauto.
  - intros b e (e0 & He & -> & _)%Hhb. eauto.
  - intros b b' e e' (e0 & He & -> & _)%Hhb (e0' & He' & -> & _)%Hhb. eauto.
  - intros u x c' Hx Hc'. vcase Hx; [done|]. destruct (k_look0 u x c' Hx Hc') as (I1 & I2 & I3). split; [done|]. split.
    + intros b e (e0 & He & -> & _)%Hhb E. rewrite Hr. intros [->|?]; [|by apply (I2 b e0)]. rewrite Ha in He. injection He as <-.
      assert (u = t) as ->; [|done]. apply (k_one0 a d u t x v); [done..|right; right; congruence|right; left; congruence].
    + intros z (y & Hz & _ & -> & _)%Hb Hzn. destruct (I3 y Hz Hzn) as (e0 & (e & He & E & _)%Hhf & <-). eauto.
  - intros u u' x x' c' Hx Hx' E E'. vcase Hx; vcase Hx'; try done. eauto.
  - intros u x c' b Hx Hc'. vcase Hx; [done|]. destruct (k_pend0 u x c' b Hx Hc') as (I1 & I2 & (e0 & He & E) & I4). rewrite Hr. split_and!; [done| | |].
    + intros [->|?]; [|done]. rewrite Ha in He. injection He as <-. assert (u = t) as ->; [|done]. apply (k_one0 a d u t x v); [done..|right; left; congruence|right; left; congruence].
    + apply Hhf in He as (e & He & E' & _). exists e. split; [done|congruence].
    + intros z (y & Hz & _ & -> & _)%Hb. eauto.
  - intros u x b Hx Hbk. setoid_rewrite Ho. assert (b = a \/ exists y, V !! u = Some y /\ b ∈ kids y) as [->|(y & Hy & Hbk')].
    { vcase Hx; [apply HK in Hbk as [->|?]; [by left|right; by exists v]|right; by exists x]. }
    + exists d'. by rewrite lookup_insert_eq.
    + destruct (k_kids0 u y b Hy Hbk') as (e & He & I1 & I2 & I3). exists e. split; [|done]. rewrite lookup_insert_ne; [done|]. intros <-. destruct P2. by exists u, y.
  - intros u x Hx. vcase Hx; [done|eauto].
  - intros b e (e0 & He & -> & _)%Hhb. destruct (k_held0 b e0 He) as (u & y & Hu & Hy). destruct (Hf u y Hu) as (x & Hx & _). exists u, x. split; [done|]. by apply (Hh u x y).
  - intros b e u u' x x' (e0 & He & -> & _)%Hhb Hx Hx' Kx Kx'. destruct (Hb u x Hx) as (y & Hy & _). destruct (Hb u' x' Hx') as (y' & Hy' & _).
    apply (k_one0 b e0 u u' y y'); try done; [by apply (Hh u x y)|by apply (Hh u' x' y')].
  - intros u x b i (y & Hu & -> & -> & _)%Hb Hi. destruct (k_own0 u y b i Hu Hi) as (I1 & e & He & I2). split; [done|]. exists e. split; [|done].
    rewrite lookup_insert_ne; [done|]. intros <-. apply Hno. by exists u, y, i.
  - intros b e He. rewrite Ho, Hr. vcase He; [right; auto|]. destruct (k_done0 b e He) as [?|[? [?|?]]]; auto.
Qed.

(** The parent frees the object of a child. *)
Lemma linked_free t v a K : V !! t = Some v -> a ∈ kids v -> (forall b, b ∈ K <-> b ∈ kids v /\ b <> a) -> NoDup K ->
  linked (<[t := mkView K (pend v) (look v) (own v) (ptr v)]> V) (delete a H) n.
Proof.
  intros Ht Ha HK Hnd. set (v' := mkView K _ _ _ _). assert (reaped V a) as Hra by (by exists t, v).
  destruct (k_kids _ _ _ L t v a Ht Ha) as (d & Hd & Df & Ds & Dno).
  assert (forall u x, <[t := v']> V !! u = Some x -> exists y, V !! u = Some y /\ (forall b, b ∈ kids x -> b ∈ kids y /\ b <> a) /\ pend x = pend y /\ look x = look y /\ own x = own y /\ ptr x = ptr y) as Hb.
  { intros u x Hx. vcase Hx; [exists v; split_and!; try done; intros b; by rewrite <- HK|]. exists x. split_and!; try done. intros b Hbk. split; [done|]. intros ->.
    assert (u = t) as ->; [|done]. apply (k_one _ _ _ L a d u t x v); [done..|by left|by left]. }
  assert (forall u y, V !! u = Some y -> exists x, <[t := v']> V !! u = Some x /\ own x = own y /\ pend x = pend y /\ look x = look y /\ (forall b, b ∈ kids y -> b <> a -> b ∈ kids x)) as Hf.
  { intros u y Hy. destruct (decide (u = t)) as [->|]; [rewrite Ht in Hy; injection Hy as <-; exists v'; rewrite lookup_insert_eq|exists y; by rewrite lookup_insert_ne].
    split_and!; [done..|]. intros b H1 H2. by apply HK. }
  assert (forall b, owner (<[t := v']> V) b <-> owner V b) as Ho.
  { intros b. split; intros (u & x & i & Hu & Hx); [apply Hb in Hu as (y & Hu & _ & _ & _ & E & _)|apply Hf in Hu as (y & Hu & E & _)]; exists u, y, i; (split; [done|congruence]). }
  assert (forall b, reaped (<[t := v']> V) b -> reaped V b) as Hr by (intros b (u & x & (y & Hu & E & _)%Hb & Hx); exists u, y; split; [done|by apply E]).
  assert (forall b, b <> a -> reaped V b -> reaped (<[t := v']> V) b) as Hr' by (intros b Hne (u & y & (x & Hu & _ & _ & _ & E)%Hf & Hy); exists u, x; auto).
  assert (forall b e, delete a H !! b = Some e -> b <> a /\ H !! b = Some e) as Hh by (intros b e [? ?]%lookup_delete_Some; done).
  assert (forall b e, b <> a -> H !! b = Some e -> delete a H !! b = Some e) as Hh' by (intros b e Hne He; by rewrite lookup_delete_ne).
  destruct L. split.
  - destruct (delete a H !! NULL) eqn:E; [apply Hh in E as [_ E]; congruence|done].
  - intros u x (y & Hu & _)%Hb. eauto.
  - intros b e [_ He]%Hh. eauto.
  - intros b b' e e' [_ He]%Hh [_ He']%Hh. eauto.
  - intros u x c (y & Hu & _ & _ & -> & _)%Hb Hc. destruct (k_look0 u y c Hu Hc) as (I1 & I2 & I3). split; [done|]. split; [intros b e [_ He]%Hh E Hrb; by eapply I2, Hr|].
    intros z (y' & Hz & _ & _ & _ & _ & ->)%Hb Hzn. destruct (I3 y' Hz Hzn) as (e & He & E). exists e. split; [|done]. apply Hh'; [|done]. intros E'. rewrite E' in He. by apply (I2 a e).
  - intros u u' x x' c (y & Hu & _ & _ & -> & _)%Hb (y' & Hu' & _ & _ & -> & _)%Hb. eauto.
  - intros u x c b (y & Hu & _ & -> & -> & _)%Hb Hc. destruct (k_pend0 u y c b Hu Hc) as (I1 & I2 & (e & He & E) & I4). split; [done|]. split; [by intros Hrb%Hr|].
    split; [exists e; split; [apply Hh'; [by intros ->|done]|done]|]. intros z (y' & Hz & _ & _ & _ & _ & ->)%Hb. eauto.
  - intros u x b (y & Hu & Hk & _)%Hb [Hbk Hne]%Hk. setoid_rewrite Ho. destruct (k_kids0 u y b Hu Hbk) as (e & He & I). exists e. split; [by apply Hh'|done].
  - intros u x Hx. vcase Hx; [done|eauto].
  - intros b e [Hne He]%Hh. destruct (k_held0 b e He) as (u & y & (x & Hx & _ & E1 & E2 & E3)%Hf & Hy). exists u, x. split; [done|]. unfold holds in *. rewrite E1, E2. destruct Hy as [?|?]; auto.
  - intros b e u u' x x' [Hne He]%Hh (y & Hu & E1 & E2 & E3 & _)%Hb (y' & Hu' & E1' & E2' & E3' & _)%Hb Hx Hx'. apply (k_one0 b e u u' y y'); [done..| |]; unfold holds in *.
    + rewrite E2, E3 in Hx. destruct Hx as [Hx|Hx]; [left; by apply E1|auto].
    + rewrite E2', E3' in Hx'. destruct Hx' as [Hx'|Hx']; [left; by apply E1'|auto].
  - intros u x b i (y & Hu & _ & _ & _ & -> & ->)%Hb Hi. destruct (k_own0 u y b i Hu Hi) as (I1 & e & He & I2). split; [done|]. exists e. split; [|done].
    apply Hh'; [|done]. intros ->. apply Dno. by exists u, y, i.
  - intros b e [Hne He]%Hh. rewrite Ho. destruct (k_done0 b e He) as [?|[? [?|?]]]; auto.
Qed.

(** A thread sets [finished] of its own object, or raises its [wait_sema]. *)
Lemma linked_own t v a b d d' o : V !! t = Some v -> own v = Some (a, b) -> H !! a = Some d -> pid d' = pid d ->
  (o = Some (a, finished d') /\ wait_sema d' = 0 \/ o = None /\ finished d' = true /\ wait_sema d' = 1) ->
  linked (<[t := mkView (kids v) (pend v) (look v) o (ptr v)]> V) (<[a := d']> H) n.
Proof.
  intros Ht Ho Ha Ep Hd'. set (v' := mkView _ _ _ _ _). destruct (k_own _ _ _ L t v a b Ht Ho) as (Ea & d0 & Hd0 & Dp & Df & Ds). rewrite Ha in Hd0. injection Hd0 as <-.
  assert (~ reaped V a) as Hra by (intros (u & x & Hu & Hx); destruct (k_kids _ _ _ L u x a Hu Hx) as (_ & _ & _ & _ & Hno); apply Hno; by exists t, v, b).
  assert (forall u x, <[t := v']> V !! u = Some x -> exists y, V !! u = Some y /\ kids x = kids y /\ pend x = pend y /\ look x = look y /\ ptr x = ptr y) as Hb.
  { intros u x Hx. vcase Hx; [by exists v|by exists x]. }
  assert (forall u y, V !! u = Some y -> exists x, <[t := v']> V !! u = Some x /\ kids x = kids y /\ pend x = pend y /\ look x = look y) as Hf.
  { intros u y Hy. destruct (decide (u = t)) as [->|]; [rewrite Ht in Hy; injection Hy as <-; exists v'; by rewrite lookup_insert_eq|exists y; by rewrite lookup_insert_ne]. }
  assert (forall c, reaped (<[t := v']> V) c <-> reaped V c) as Hr.
  { intros c. split; intros (u & x & Hu & Hx); [apply Hb in Hu as (y & Hu & E & _)|apply Hf in Hu as (y & Hu & E & _)]; exists u, y; (split; [done|congruence]). }
  assert (forall c, c <> a -> owner (<[t := v']> V) c <-> owner V c) as Hoo.
  { intros c Hne. split; intros (u & x & i & Hu & Hx).
    - vcase Hu; [cbn in Hx; destruct Hd' as [[-> _]|[-> _]]; congruence|by exists u, x, i].
    - exists u, x, i. split; [|done]. rewrite lookup_insert_ne; [done|]. intros <-. rewrite Ht in Hu. injection Hu as <-. congruence. }
  assert (forall c e, <[a := d']> H !! c = Some e -> exists e0, H !! c = Some e0 /\ pid e = pid e0) as Hhb.
  { intros c e He. vcase He; [by exists d|by exists e]. }
  assert (forall c e0, H !! c = Some e0 -> exists e, <[a := d']> H !! c = Some e /\ pid e = pid e0) as Hhf.
  { intros c e0 He. destruct (decide (c = a)) as [->|]; [rewrite Ha in He; injection He as <-; exists d'; by rewrite lookup_insert_eq|exists e0; by rewrite lookup_insert_ne]. }
  destruct L. split.
  - rewrite lookup_insert_ne; [done|]. intros ->. congruence.
  - intros u x (y & Hu & _)%Hb. eauto.
  - intros c e (e0 & He & ->)%Hhb. eauto.
  - intros c c' e e' (e0 & He & ->)%Hhb (e0' & He' & ->)%Hhb. eauto.
  - intros u x c (y & Hu & _ & _ & -> & _)%Hb Hc. destruct (k_look0 u y c Hu Hc) as (I1 & I2 & I3). split; [done|]. split; [intros g e (e0 & He & ->)%Hhb E; rewrite Hr; eauto|].
    intros z (y' & Hz & _ & _ & _ & ->)%Hb Hzn. destruct (I3 y' Hz Hzn) as (e0 & (e & He & E)%Hhf & <-). eauto.
  - intros u u' x x' c (y & Hu & _ & _ & -> & _)%Hb (y' & Hu' & _ & _ & -> & _)%Hb. eauto.
  - intros u x c g (y & Hu & _ & -> & -> & _)%Hb Hc. destruct (k_pend0 u y c g Hu Hc) as (I1 & I2 & (e0 & (e & He & E)%Hhf & <-) & I4). rewrite Hr. split_and!; [done|done|eauto|].
    intros z (y' & Hz & _ & _ & _ & ->)%Hb. eauto.
  - intros u x c (y & Hu & -> & _)%Hb Hk. assert (c <> a) as Hne by (intros ->; apply Hra; by exists u, y). destruct (k_kids0 u y c Hu Hk) as (e & He & I). exists e.
    rewrite lookup_insert_ne by done. rewrite Hoo by done. done.
  - intros u x (y & Hu & -> & _)%Hb. eauto.
  - intros c e (e0 & He & ->)%Hhb. destruct (k_held0 c e0 He) as (u & y & (x & Hx & E1 & E2 & E3)%Hf & Hy). exists u, x. split; [done|]. unfold holds in *. by rewrite E1, E2, E3.
  - intros c e u u' x x' (e0 & He & ->)%Hhb (y & Hu & E1 & E2 & E3 & _)%Hb (y' & Hu' & E1' & E2' & E3' & _)%Hb. unfold holds. rewrite E1, E2, E3, E1', E2', E3'. by apply (k_one0 c e0).
  - intros u x c i Hx Hi. vcase Hx.
    + cbn in Hi. destruct Hd' as [[-> E]|[-> _]]; [|done]. injection Hi as <- <-. split; [done|]. exists d'. rewrite lookup_insert_eq. split_and!; [done|congruence|done|done].
    + destruct (k_own0 u x c i Hx Hi) as (I1 & e & He & I2 & I3). split; [done|]. exists e. split; [|done]. rewrite lookup_insert_ne; [done|]. intros <-. congruence.
  - intros c e He. rewrite Hr. vcase He.
    + destruct Hd' as [[-> E]|[-> [E1 E2]]]; [left|right; split; [done|by right]]. exists t, v', (finished d'). by rewrite lookup_insert_eq.
    + rewrite Hoo by done. eauto.
Qed.

(** A thread without references exits. *)
Lemma linked_end t v : V !! t = Some v -> kids v = [] -> pend v = None -> look v = None -> own v = None -> linked (delete t V) H n.
Proof.
  intros Ht Hk Hp Hl Hown.
  assert (forall u x, delete t V !! u = Some x -> u <> t /\ V !! u = Some x) as Hb by (intros u x [? ?]%lookup_delete_Some; done).
  assert (forall u x, u <> t -> V !! u = Some x -> delete t V !! u = Some x) as Hf by (intros u x Hne Hx; by rewrite lookup_delete_ne).
  assert (forall b, owner (delete t V) b <-> owner V b) as Ho.
  { intros b. split; intros (u & x & i & Hu & Hx); exists u, x, i; (split; [|done]); [by apply Hb|apply Hf; [|done]; intros ->; congruence]. }
  assert (forall b, reaped (delete t V) b <-> reaped V b) as Hr.
  { intros b. split; intros (u & x & Hu & Hx); exists u, x; (split; [|done]); [by apply Hb|apply Hf; [|done]; intros ->; rewrite Ht in Hu; injection Hu as <-; rewrite Hk in Hx; by apply not_elem_of_nil in Hx]. }
  destruct L. split; try done.
  - intros u x [_ Hu]%Hb. eauto.
  - intros u x c [_ Hu]%Hb Hc. destruct (k_look0 u x c Hu Hc) as (I1 & I2 & I3). split; [done|]. split; [intros b e Hbe E; rewrite Hr; eauto|]. intros z [_ Hz]%Hb. eauto.
  - intros u u' x x' c [_ Hu]%Hb [_ Hu']%Hb. eauto.
  - intros u x c a [_ Hu]%Hb Hc. destruct (k_pend0 u x c a Hu Hc) as (I1 & I2 & I3 & I4). rewrite Hr. split_and!; [done..|]. intros z [_ Hz]%Hb. eauto.
  - intros u x a [_ Hu]%Hb Ha. setoid_rewrite Ho. eauto.
  - intros u x [_ Hu]%Hb. eauto.
  - intros a d Ha. destruct (k_held0 a d Ha) as (u & x & Hu & Hx). exists u, x. split; [|done]. apply Hf; [|done]. intros ->. rewrite Ht in Hu. injection Hu as <-.
    destruct Hx as [Hx|[Hx|Hx]]; [rewrite Hk in Hx; by apply not_elem_of_nil in Hx|congruence..].
  - intros a d u u' x x' Ha [_ Hu]%Hb [_ Hu']%Hb. by apply (k_one0 a d).
  - intros u x a b [_ Hu]%Hb. eauto.
  - intros a d Ha. rewrite Ho, Hr. eauto.
Qed.

End links.

(** ** The invariant *)

Definition place_ok (p : proc) : Prop :=
  match at_place p with
  | Ex_data c u => u = NULL \/ u = c
  | Ex_down c a => a <> NULL /\ a ∈ child_processes p /\ NoDup (child_processes p)
  | Ex_status c a => a ∈ child_processes p
  | Wait_find c l => forall a, a ∈ l -> a ∈ child_processes p
  | Wait_test a | Wait_status a | Wait_remove a _ => a ∈ child_processes p
  | Wait_down _ | Exit_mark _ _ | Exit_own_free => False
  | Exit_own_mark | Exit_own_up => data p <> NULL
  | _ => True
  end.

Definition views (s : st) : gmap Z view := view_of <$> procs s.

Record inv (s : st) : Prop := {
  v_linked : linked (views s) (heap s) (next_tid s);
  v_place : forall t p, procs s !! t = Some p -> place_ok p;
  v_parent : forall t p, procs s !! t = Some p -> parent p = NULL;
  v_used : forall a d, heap s !! a = Some d -> a ∈ used s
}.

Lemma view_at s t p : procs s !! t = Some p -> views s !! t = Some (view_of p).
Proof. intros Hp. unfold views. by rewrite lookup_fmap, Hp. Qed.

Lemma boot_inv : inv boot.
Proof.
  assert (forall t p, procs boot !! t = Some p -> t = 1 /\ p = mkProc NULL NULL [] Running) as Hb.
  { intros t p Hp. cbn in Hp. by apply lookup_singleton_Some in Hp as [<- <-]. }
  assert (forall t v, views boot !! t = Some v -> t = 1 /\ v = mkView [] None None None NULL) as Hv.
  { intros t v. unfold views. rewrite lookup_fmap_Some. by intros (p & <- & [-> ->]%Hb). }
  split; [split|..]; try (cbn; done).
  - intros t v [-> ->]%Hv. cbn. lia.
  - by intros t v c [-> ->]%Hv.
  - by intros t t' v v' c [-> ->]%Hv [-> ->]%Hv.
  - by intros t v c a [-> ->]%Hv.
  - intros t v a [-> ->]%Hv Ha. by apply not_elem_of_nil in Ha.
  - intros t v [-> ->]%Hv. apply NoDup_nil_2.
  - by intros t v a b [-> ->]%Hv.
  - by intros t p [-> ->]%Hb.
  - by intros t p [-> ->]%Hb.
Qed.

(** *** Runs of the operations *)

Definition put (t : Z) (p : proc) (s : st) : st := set_procs (<[t := p]> (procs s)) s.
Definition put_heap (a : Z) (d : child_data) (s : st) : st := set_heap (<[a := d]> (heap s)) s.

Lemma current_run s t p : procs s !! t = Some p -> current t s = Ok (p, s).
Proof. unfold current, gets_opt. by intros ->. Qed.

Lemma goto_run s t p pl : procs s !! t = Some p -> goto t pl s = Ok (tt, put t (with_place pl p) s).
Proof. intros Hp. unfold goto, upd_proc. by mrun (current_run s t p Hp). Qed.

Lemma load_child_run s a d : heap s !! a = Some d -> load a s = Ok (d, s).
Proof. unfold load, gets_opt. by intros ->. Qed.

Lemma store_run s a d f : heap s !! a = Some d -> store a f s = Ok (tt, put_heap a (f d) s).
Proof. intros Ha. unfold store. by mrun (load_child_run s a d Ha). Qed.

Lemma free_child_run s a d : heap s !! a = Some d -> free a s = Ok (tt, set_heap (delete a (heap s)) s).
Proof. intros Ha. unfold free. by mrun (load_child_run s a d Ha). Qed.

Lemma returns_run s t p v : procs s !! t = Some p -> returns t v s = Ok (tt, put t (with_place Running p) (set_returned (returned s ++ [(t, v)]) s)).
Proof. intros Hp. unfold returns. mnorm. by apply goto_run. Qed.

Lemma sema_up_run s a d : heap s !! a = Some d -> sema_up a s = Ok (tt, put_heap a (set_sema (wait_sema d + 1) d) s).
Proof. intros Ha. unfold sema_up. mrun (load_child_run s a d Ha). by apply (store_run s a d). Qed.

Lemma touch_run s l : (forall a, a ∈ l -> is_Some (heap s !! a)) -> touch l s = Ok (tt, s).
Proof.
  induction l as [|b l IH]; intros Hl; cbn [touch]; [done|]. destruct (Hl b) as [d Hd]; [left|]. mrun (load_child_run s b d Hd). apply IH. intros a Ha. apply Hl. by right.
Qed.

Lemma neighbours_in a b l : b ∈ neighbours a l -> b ∈ l.
Proof.
  induction l as [|c l IH]; cbn [neighbours]; [done|]. destruct l as [|d l']; [by intros H%not_elem_of_nil|]. intros [H|H]%elem_of_app; [|right; by apply IH].
  destruct (c =? a); [apply list_elem_of_singleton in H as ->; right; left|]. destruct (d =? a); [apply list_elem_of_singleton in H as ->; left|by apply not_elem_of_nil in H].
Qed.

Lemma list_insert_run s t p a : procs s !! t = Some p -> (forall b, b ∈ child_processes p ++ [a] -> is_Some (heap s !! b)) ->
  list_insert_tail t a s = Ok (tt, put t (with_children (child_processes p ++ [a]) p) s).
Proof.
  intros Hp Hh. unfold list_insert_tail. destruct (Hh a) as [d Hd]; [apply elem_of_app; right; left|]. mrun (load_child_run s a d Hd). mrun (current_run s t p Hp).
  mrun (touch_run s (neighbours a (child_processes p ++ [a])) ltac:(intros b Hb; apply Hh; by eapply neighbours_in)). unfold upd_proc. by mrun (current_run s t p Hp).
Qed.

Lemma list_remove_run s t p a : procs s !! t = Some p -> a ∈ child_processes p -> (forall b, b ∈ child_processes p -> is_Some (heap s !! b)) ->
  list_remove t a s = Ok (tt, put t (with_children (list_difference (child_processes p) [a]) p) s).
Proof.
  intros Hp Ha Hh. unfold list_remove. destruct (Hh a Ha) as [d Hd]. mrun (load_child_run s a d Hd). mrun (current_run s t p Hp).
  mrun (touch_run s (neighbours a (child_processes p)) ltac:(intros b Hb; apply Hh; by eapply neighbours_in)). unfold upd_proc. by mrun (current_run s t p Hp).
Qed.

Lemma put_put t p q s : put t p (put t q s) = put t p s.
Proof. unfold put, set_procs. cbn. by rewrite insert_insert_eq. Qed.

Lemma put_at t p s : procs (put t p s) !! t = Some p.
Proof. cbn. apply lookup_insert_eq. Qed.

(** *** How steps keep the invariant *)

(** The thread [t] becomes [p'], and the heap [h]. *)
Lemma inv_put s s' t p p' : inv s -> procs s !! t = Some p -> procs s' = <[t := p']> (procs s) -> used s' = used s -> next_tid s' = next_tid s ->
  linked (<[t := view_of p']> (views s)) (heap s') (next_tid s) -> place_ok p' -> parent p' = parent p -> (forall a, is_Some (heap s' !! a) -> is_Some (heap s !! a)) -> inv s'.
Proof.
  intros [] Hp E1 E2 E3 Hl Hpl Hpa Hh. split.
  - unfold views. by rewrite E1, E3, fmap_insert.
  - intros u q. rewrite E1. intros Hq. vcase Hq; [done|eauto].
  - intros u q. rewrite E1. intros Hq. vcase Hq; [rewrite Hpa; eauto|eauto].
  - intros a d Ha. rewrite E2. destruct (Hh a) as [e He]; [by exists d|]. eauto.
Qed.

(** Nothing changes but the place. *)
Lemma inv_goto s s' t p p' : inv s -> procs s !! t = Some p -> procs s' = <[t := p']> (procs s) -> heap s' = heap s -> used s' = used s -> next_tid s' = next_tid s ->
  view_of p' = view_of p -> place_ok p' -> parent p' = parent p -> inv s'.
Proof.
  intros Hi Hp E1 E2 E3 E4 Ev Hpl Hpa. apply (inv_put s s' t p p'); try done.
  - rewrite E2, Ev, insert_id by (by apply view_at). by apply Hi.
  - by rewrite E2.
Qed.

Lemma kid_at s t p a : inv s -> procs s !! t = Some p -> a ∈ kids_of p -> exists d, heap s !! a = Some d /\ finished d = true /\ wait_sema d = 0.
Proof. intros Hi Hp Ha. destruct (k_kids _ _ _ (v_linked _ Hi) t (view_of p) a (view_at _ _ _ Hp) Ha) as (d & ? & ? & ? & _). eauto. Qed.

Lemma own_at s t p b : inv s -> procs s !! t = Some p -> own_of p = Some (data p, b) -> exists d, heap s !! data p = Some d /\ pid d = t /\ finished d = b /\ wait_sema d = 0.
Proof. intros Hi Hp Ho. by destruct (k_own _ _ _ (v_linked _ Hi) t (view_of p) (data p) b (view_at _ _ _ Hp) Ho) as (_ & ?). Qed.

Lemma null_heap s : inv s -> heap s !! NULL = None.
Proof. intros Hi. apply (k_null _ _ _ (v_linked _ Hi)). Qed.

Lemma null_load s : inv s -> load NULL s = Err Bad_access.
Proof. intros Hi. unfold load, gets_opt. by rewrite null_heap. Qed.

(** What a possible step comes to. *)
Definition fine (s : st) (e : event) (m : res (unit * st)) : Prop :=
  faulty s e = true /\ m = Err Bad_access \/ faulty s e = false /\ exists s', m = Ok (tt, s') /\ inv s'.

Ltac view E := unfold view_of, kids_of, pend_of, look_of, own_of; cbn [at_place data child_processes with_place with_children]; rewrite ?E; reflexivity.

Lemma difference_out (a : Z) (l : list Z) : a ∉ l -> list_difference l [a] = l.
Proof.
  induction l as [|b l IH]; intros Ha; cbn; [done|]. apply not_elem_of_cons in Ha as [Hb Ha]. destruct (decide_rel _ b [a]) as [Hin%list_elem_of_singleton|_]; [congruence|]. f_equal. by apply IH.
Qed.

Lemma difference_last (a : Z) (l : list Z) : a ∉ l -> list_difference (l ++ [a]) [a] = l.
Proof.
  induction l as [|b l IH]; intros Ha; cbn; [destruct (decide_rel _ a [a]) as [_|Hin]; [done|by destruct Hin; left]|]. apply not_elem_of_cons in Ha as [Hb Ha].
  destruct (decide_rel _ b [a]) as [Hin%list_elem_of_singleton|_]; [congruence|]. f_equal. by apply IH.
Qed.

Section steps.
Context (s : st) (t : Z) (p : proc).
Context (Hi : inv s) (Hp : procs s !! t = Some p).

Lemma goto_ok e pl : faulty s e = false -> view_of (with_place pl p) = view_of p -> place_ok (with_place pl p) -> fine s e (goto t pl s).
Proof.
  intros Hf Hv Hpl. right. split; [done|]. eexists. split; [by apply (goto_run s t p)|]. by apply (inv_goto s _ t p (with_place pl p)).
Qed.

Lemma returns_ok e v : faulty s e = false -> view_of (with_place Running p) = view_of p -> fine s e (returns t v s).
Proof.
  intros Hf Hv. right. split; [done|]. eexists. split; [by apply (returns_run s t p)|]. by apply (inv_goto s _ t p (with_place Running p)).
Qed.

(** *** Starting a process *)

Lemma execute_ok r : at_place p = Running -> new_child s r = true -> fine s (Execute t r) (process_execute t r s).
Proof.
  intros E Hr. destruct r as [| |c a]; cbn [process_execute].
  - apply returns_ok; [done|view E].
  - apply goto_ok; [done|view E|done].
  - cbn [new_child] in Hr. apply andb_true_iff in Hr as [H1%Z.leb_le H2%bool_decide_eq_true]. right. split; [done|].
    assert (heap s !! a = None) as Ha by (destruct (heap s !! a) eqn:Eh; [by apply (v_used _ Hi) in Eh|done]).
    pose proof (v_linked _ Hi) as L. pose proof (k_tid _ _ _ L t (view_of p) (view_at _ _ _ Hp)) as Ht. assert (t <> c) as Htc by lia.
    set (p' := with_place (Ex_lookup c) p). set (q := mkProc a NULL [] Starting).
    assert (sought c = Some c) as Es by (unfold sought, TID_ERROR; by rewrite (proj2 (Z.eqb_neq c (-1))) by lia).
    assert (view_of p' = mkView (kids (view_of p)) None (Some c) (own (view_of p)) (ptr (view_of p))) as Ev.
    { unfold p', view_of, kids_of, pend_of, look_of, own_of. cbn. by rewrite E, Es. }
    pose proof (linked_born_null _ _ _ L t (view_of p) c (view_at _ _ _ Hp) ltac:(cbn; unfold pend_of; by rewrite E) ltac:(cbn; unfold look_of; by rewrite E) H1) as L1.
    rewrite <- Ev in L1.
    assert (forall s', procs s' = <[t := p']> (<[c := q]> (procs s)) -> (forall b d, heap s' !! b = Some d -> b ∈ used s') ->
      linked (views s') (heap s') (next_tid s') -> inv s') as Hinv.
    { intros s' Ep Hu Hl. split; [done| | |done]; intros u x; rewrite Ep; intros Hx; (vcase Hx; [|vcase Hx]); try done; [by apply (v_place _ Hi u x)|by apply (v_parent _ Hi t p)|by apply (v_parent _ Hi u x)]. }
    unfold process_execute, thread_create. destruct (Z.eqb_spec a NULL) as [->|Hn].
    + mnorm. erewrite goto_run by (cbn; rewrite lookup_insert_ne by done; exact Hp). eexists. split; [reflexivity|]. apply Hinv; cbn; [done|apply Hi|].
      unfold views. cbn. by rewrite !fmap_insert.
    + mnorm. erewrite goto_run by (cbn; rewrite lookup_insert_ne by done; exact Hp). eexists. split; [reflexivity|]. apply Hinv; cbn; [done| |].
      * intros b d Hb. vcase Hb; [left|right; by eapply (v_used _ Hi)].
      * pose proof (linked_born _ _ _ L1 c t (view_of p') (mkView [] None None None NULL) a) as L2. specialize (L2 ltac:(by rewrite lookup_insert_ne, lookup_insert_eq) eq_refl ltac:(apply lookup_insert_eq) ltac:(by rewrite Ev)).
        specialize (L2 ltac:(intros b d Hb; apply (k_pid _ _ _ L) in Hb; lia) Hn Ha).
        rewrite insert_insert_ne in L2 by done. rewrite insert_insert_eq in L2.
        assert (view_of q = mkView [] None None (Some (a, false)) a) as Eq by (unfold q, view_of, own_of; cbn; by rewrite (proj2 (Z.eqb_neq _ _) Hn)). rewrite <- Eq in L2.
        unfold views in L2 |- *. rewrite <- !fmap_insert in L2. exact L2.
Qed.

Lemma fault_ok e m : faulty s e = true -> m = Err Bad_access -> fine s e m.
Proof. intros. by left. Qed.

(** The thread that the walk stands at has exited, or the walk goes on. *)
Lemma touch_ok u (k : M st unit) : faulty s (Step t) = negb (bool_decide (u ∈ all_list s)) -> (faulty s (Step t) = false -> fine s (Step t) (k s)) ->
  fine s (Step t) ((touch_thread u ;;; k) s).
Proof.
  intros Hf Hk. unfold touch_thread, bind, gets_opt. destruct (bool_decide (u ∈ all_list s)); [by apply Hk|by apply fault_ok].
Qed.

Lemma fault_at b : (match at_place p with
  | Ex_walk c u => negb (u =? NULL) && negb (bool_decide (u ∈ all_list s))
  | Ex_next c u => negb (bool_decide (u ∈ all_list s))
  | Ex_data c u => bool_decide (procs s !! u = None)
  | Ex_insert c a => a =? NULL
  | Exit_own => data p =? NULL
  | _ => false
  end = b) -> faulty s (Step t) = b.
Proof. cbn [faulty]. by rewrite Hp. Qed.

Lemma thread_by_tid_ok : (exists c, at_place p = Ex_lookup c) \/ (exists c u, at_place p = Ex_walk c u) \/ (exists c u, at_place p = Ex_next c u) -> fine s (Step t) (thread_by_tid t s).
Proof.
  intros HE. unfold thread_by_tid. mrun (current_run s t p Hp). destruct HE as [(c & E)|[(c & u & E)|(c & u & E)]]; rewrite E.
  - mnorm. apply goto_ok; [apply fault_at; by rewrite E|view E|done].
  - destruct (u =? NULL) eqn:En.
    + apply goto_ok; [apply fault_at; by rewrite E, En|view E|by left].
    + apply touch_ok; [apply fault_at; by rewrite E, En|]. intros Hf. destruct (Z.eqb_spec u c) as [->|]; (apply goto_ok; [done|view E|]); [by right|done].
  - apply touch_ok; [apply fault_at; by rewrite E|]. intros Hf. mnorm. apply goto_ok; [done|view E|done].
Qed.

Lemma store_target_ok j c a : at_place p = Ex_store c a -> spares (Store t j) = true -> fine s (Store t j) (store_child_thread t j s).
Proof.
  intros E Hs. unfold store_child_thread. mrun (current_run s t p Hp). rewrite E. destruct j; [by apply fault_ok| |done].
  mnorm. apply goto_ok; [done|view E|done].
Qed.

Lemma own_pend c a : pend_of p = Some (c, a) -> exists d, heap s !! a = Some d /\ a <> NULL.
Proof.
  intros E. destruct (k_pend _ _ _ (v_linked _ Hi) t (view_of p) c a (view_at _ _ _ Hp) E) as (_ & _ & (d & Hd & _) & _). exists d. split; [done|].
  intros ->. by rewrite (null_heap s Hi) in Hd.
Qed.

Lemma kids_exist b : b ∈ kids_of p -> is_Some (heap s !! b).
Proof. intros Hb. destruct (kid_at s t p b Hi Hp Hb) as (d & Hd & _). by exists d. Qed.

Lemma kids_nodup : NoDup (kids_of p).
Proof. by apply (k_nodup _ _ _ (v_linked _ Hi) t (view_of p)), view_at. Qed.

Lemma data_ok c u : at_place p = Ex_data c u -> fine s (Step t) (process_execute_end t s).
Proof.
  intros E. pose proof (v_linked _ Hi) as L. pose proof (v_place _ Hi t p Hp) as Hpl. unfold place_ok in Hpl. rewrite E in Hpl.
  unfold process_execute_end. mrun (current_run s t p Hp). rewrite E. destruct (procs s !! u) as [q|] eqn:Hq.
  - assert (u = c) as ->.
    { destruct Hpl as [->|?]; [|done]. pose proof (k_tid _ _ _ L NULL (view_of q) (view_at _ _ _ Hq)). unfold NULL in *. lia. }
    mrun (current_run s c q Hq). pose proof (k_tid _ _ _ L c (view_of q) (view_at _ _ _ Hq)) as Hc.
    assert (sought c = Some c) as Es by (unfold sought, TID_ERROR; by rewrite (proj2 (Z.eqb_neq c (-1))) by lia).
    assert (faulty s (Step t) = false) as Hf by (apply fault_at; rewrite E; by apply bool_decide_eq_false; rewrite Hq).
    destruct (Z.eqb_spec (data q) NULL) as [En|En].
    + apply goto_ok; [done| |done]. unfold view_of, kids_of, pend_of, look_of, own_of; cbn. by rewrite E, En.
    + right. split; [done|]. eexists. split; [by apply (goto_run s t p)|]. apply (inv_put s _ t p (with_place (Ex_store c (data q)) p)); try done.
      pose proof (linked_found _ _ _ L t (view_of p) c (view_of q) (view_at _ _ _ Hp) ltac:(cbn; unfold look_of; by rewrite E) (view_at _ _ _ Hq) En) as L1.
      replace (view_of (with_place _ p)) with (mkView (kids (view_of p)) (Some (c, ptr (view_of q))) None (own (view_of p)) (ptr (view_of p))); [done|].
      unfold view_of, kids_of, pend_of, look_of, own_of; cbn. by rewrite E, (proj2 (Z.eqb_neq _ _) En).
  - apply fault_ok; [apply fault_at; rewrite E; by apply bool_decide_eq_true|]. unfold current, bind, gets_opt. by rewrite Hq.
Qed.

Lemma exec_insert_ok c a : at_place p = Ex_insert c a -> fine s (Step t) (process_execute_end t s).
Proof.
  intros E. unfold process_execute_end. mrun (current_run s t p Hp). rewrite E. destruct (Z.eqb_spec a NULL) as [->|Hn].
  - apply fault_ok; [by apply fault_at; rewrite E|]. unfold list_insert_tail. rewrite bind_bind. by rewrite (bind_err _ _ _ _ (null_load s Hi)).
  - assert (pend_of p = Some (c, a)) as Ep by (unfold pend_of; by rewrite E, (proj2 (Z.eqb_neq _ _) Hn)). destruct (own_pend c a Ep) as (d & Hd & _).
    destruct (k_pend _ _ _ (v_linked _ Hi) t (view_of p) c a (view_at _ _ _ Hp) Ep) as (_ & Hr & _).
    assert (kids_of p = child_processes p) as Ek by (unfold kids_of; by rewrite E).
    assert (a ∉ child_processes p) as Hna by (intros Hin; apply Hr; exists t, (view_of p); split; [by apply view_at|cbn; by rewrite Ek]).
    mrun (list_insert_run s t p a Hp ltac:(intros b [Hb|Hb%list_elem_of_singleton]%elem_of_app; [apply kids_exist; by rewrite Ek|subst b; by exists d])).
    right. split; [apply fault_at; by rewrite E, (proj2 (Z.eqb_neq _ _) Hn)|]. eexists. split; [apply goto_run, put_at|]. rewrite put_put.
    apply (inv_goto s _ t p (with_place (Ex_down c a) (with_children (child_processes p ++ [a]) p))); try done.
    + unfold view_of, kids_of, pend_of, look_of, own_of; cbn. by rewrite E, difference_last.
    + cbn. split; [done|]. split; [apply elem_of_app; right; left|]. apply NoDup_app. split; [rewrite <- Ek; apply kids_nodup|]. split; [|apply NoDup_singleton]. intros b Hb Hb'%list_elem_of_singleton. congruence.
Qed.

Lemma down_pend c a : at_place p = Ex_down c a -> pend_of p = Some (c, a) /\ exists d, heap s !! a = Some d.
Proof.
  intros E. pose proof (v_place _ Hi t p Hp) as Hpl. unfold place_ok in Hpl. rewrite E in Hpl. destruct Hpl as (Hn & _).
  assert (pend_of p = Some (c, a)) as Ep by (unfold pend_of; by rewrite E, (proj2 (Z.eqb_neq _ _) Hn)). split; [done|]. destruct (own_pend c a Ep) as (d & Hd & _). eauto.
Qed.

Lemma down_ok c a : at_place p = Ex_down c a -> fine s (Step t) (process_execute_end t s).
Proof.
  intros E. destruct (down_pend c a E) as (Ep & d & Hd). pose proof (v_place _ Hi t p Hp) as Hpl. unfold place_ok in Hpl. rewrite E in Hpl. destruct Hpl as (Hn & Hin & Hnd).
  unfold process_execute_end. mrun (current_run s t p Hp). rewrite E. unfold sema_down. mrun (load_child_run s a d Hd). right. split; [apply fault_at; by rewrite E|].
  destruct (Z.eqb_spec (wait_sema d) 0) as [Es|Es]; [by exists s|].
  mrun (store_run s a d (set_sema (wait_sema d - 1)) Hd). eexists. split; [by apply (goto_run _ t p)|].
  apply (inv_put s _ t p (with_place (Ex_status c a) p)); try done.
  - pose proof (linked_down _ _ _ (v_linked _ Hi) t (view_of p) c a d (child_processes p) (view_at _ _ _ Hp) Ep Hd Es) as L. specialize (L ltac:(intros b; cbn; unfold kids_of; rewrite E, list_elem_of_difference, list_elem_of_singleton; destruct (decide (b = a)); naive_solver) Hnd).
    replace (view_of (with_place _ p)) with (mkView (child_processes p) None None (own (view_of p)) (ptr (view_of p))); [done|].
    unfold view_of, kids_of, pend_of, look_of, own_of; cbn. by rewrite E.
  - intros b. cbn. intros [e He]. vcase He; by eexists.
Qed.

Lemma status_ok c a : at_place p = Ex_status c a -> fine s (Step t) (process_execute_end t s).
Proof.
  intros E. pose proof (v_place _ Hi t p Hp) as Hpl. unfold place_ok in Hpl. rewrite E in Hpl. unfold process_execute_end. mrun (current_run s t p Hp). rewrite E.
  destruct (kids_exist a) as [d Hd]; [unfold kids_of; by rewrite E|]. mrun (load_child_run s a d Hd). apply returns_ok; [apply fault_at; by rewrite E|view E].
Qed.

(** *** Waiting *)

Lemma process_wait_ok c : at_place p = Running -> fine s (Wait t c) (process_wait t c s).
Proof.
  intros E. unfold process_wait. destruct (c =? TID_ERROR); [apply returns_ok; [done|view E]|]. mrun (current_run s t p Hp). apply goto_ok; [done|view E|cbn; auto].
Qed.

Lemma wait_find_ok c l : at_place p = Wait_find c l -> fine s (Step t) (process_wait_end t s).
Proof.
  intros E. pose proof (v_place _ Hi t p Hp) as Hpl. unfold place_ok in Hpl. rewrite E in Hpl. unfold process_wait_end. mrun (current_run s t p Hp). rewrite E.
  assert (faulty s (Step t) = false) as Hf by (apply fault_at; by rewrite E). destruct l as [|a l]; [apply returns_ok; [done|view E]|].
  destruct (kids_exist a) as [d Hd]; [unfold kids_of; rewrite E; apply Hpl; left|]. mrun (load_child_run s a d Hd).
  destruct (pid d =? c); (apply goto_ok; [done|view E|]); cbn; [apply Hpl; left|intros b Hb; apply Hpl; by right].
Qed.

Lemma wait_object_ok a : at_place p = Wait_test a \/ at_place p = Wait_status a -> fine s (Step t) (process_wait_end t s).
Proof.
  intros E. pose proof (v_place _ Hi t p Hp) as Hpl. unfold place_ok in Hpl. unfold process_wait_end. mrun (current_run s t p Hp).
  destruct E as [E|E]; rewrite E in *; (destruct (kid_at s t p a Hi Hp) as (d & Hd & Hf & _); [unfold kids_of; by rewrite E|]); mrun (load_child_run s a d Hd); [rewrite Hf; cbn [negb]|];
    (apply goto_ok; [apply fault_at; by rewrite E|view E|done]).
Qed.

Lemma wait_remove_ok a v : at_place p = Wait_remove a v -> fine s (Step t) (process_wait_end t s).
Proof.
  intros E. pose proof (v_place _ Hi t p Hp) as Hpl. unfold place_ok in Hpl. rewrite E in Hpl. unfold process_wait_end. mrun (current_run s t p Hp). rewrite E.
  assert (kids_of p = child_processes p) as Ek by (unfold kids_of; by rewrite E). pose proof kids_nodup as Hnd. rewrite Ek in Hnd.
  mrun (list_remove_run s t p a Hp Hpl ltac:(intros b Hb; apply kids_exist; by rewrite Ek)). right. split; [apply fault_at; by rewrite E|].
  eexists. split; [apply goto_run, put_at|]. rewrite put_put. set (p' := with_place _ _).
  apply (inv_put s _ t p p'); try done. apply (linked_order _ _ _ (v_linked _ Hi) t (view_of p) (view_of p') (view_at _ _ _ Hp)); cbn.
  - intros b. unfold kids_of. cbn. rewrite E, elem_of_cons, list_elem_of_difference, list_elem_of_singleton. destruct (decide (b = a)); naive_solver.
  - apply NoDup_cons. split; [rewrite list_elem_of_difference, list_elem_of_singleton; tauto|by apply NoDup_list_difference].
  - unfold pend_of. cbn. by rewrite E.
  - unfold look_of. cbn. by rewrite E.
  - unfold own_of. cbn. by rewrite E.
  - done.
Qed.

(** The object [a] of a child is freed, and the thread is then [p']. *)
Lemma free_ok s' a p' : a ∈ kids_of p -> procs s' = <[t := p']> (procs s) -> heap s' = delete a (heap s) -> used s' = used s -> next_tid s' = next_tid s ->
  NoDup (kids_of p') -> (forall b, b ∈ kids_of p' <-> b ∈ kids_of p /\ b <> a) -> pend_of p' = pend_of p -> look_of p' = look_of p -> own_of p' = own_of p -> data p' = data p -> place_ok p' -> parent p' = parent p -> inv s'.
Proof.
  intros Ha E1 E2 E3 E4 Hnd Hk E5 E6 E7 E8 Hpl Hpa. apply (inv_put s _ t p p'); try done.
  - rewrite E2. pose proof (linked_free _ _ _ (v_linked _ Hi) t (view_of p) a (kids_of p') (view_at _ _ _ Hp) Ha Hk Hnd) as L.
    replace (view_of p') with (mkView (kids_of p') (pend (view_of p)) (look (view_of p)) (own (view_of p)) (ptr (view_of p))); [done|]. unfold view_of. cbn. by rewrite E5, E6, E7, E8.
  - intros b. rewrite E2. intros [e [_ He]%lookup_delete_Some]. by exists e.
Qed.

Lemma wait_free_ok a v : at_place p = Wait_free a v -> fine s (Step t) (process_wait_end t s).
Proof.
  intros E. unfold process_wait_end. mrun (current_run s t p Hp). rewrite E. assert (kids_of p = a :: child_processes p) as Ek by (unfold kids_of; by rewrite E).
  pose proof kids_nodup as Hnd. rewrite Ek in Hnd. apply NoDup_cons in Hnd as [Hna Hnd].
  destruct (kids_exist a) as [d Hd]; [rewrite Ek; left|]. mrun (free_child_run s a d Hd). right. split; [apply fault_at; by rewrite E|].
  eexists. split; [by apply (returns_run _ t p)|]. apply (free_ok _ a (with_place Running p)); try done; [rewrite Ek; left| |unfold pend_of|unfold look_of|unfold own_of]; cbn; rewrite ?E; try done.
  intros b. rewrite Ek, elem_of_cons. unfold kids_of. cbn. split; [intros Hb; split; [by right|]; intros ->; done|]. by intros [[->|?] ?].
Qed.

(** *** Exit *)

Lemma own_live : data p <> NULL -> at_place p <> Exit_own_up -> at_place p <> Exit_end -> exists d, heap s !! data p = Some d /\ pid d = t /\ finished d = false /\ wait_sema d = 0.
Proof.
  intros Hn H1 H2. apply (own_at s t p false Hi Hp). unfold own_of. rewrite (proj2 (Z.eqb_neq _ _) Hn). by destruct (at_place p).
Qed.

Lemma exit_print_ok : at_place p = Exit_print -> fine s (Step t) (process_exit t s).
Proof.
  intros E. assert (faulty s (Step t) = false) as Hf by (apply fault_at; by rewrite E). unfold process_exit. mrun (current_run s t p Hp). rewrite E.
  destruct (Z.eqb_spec (data p) NULL) as [En|En]; cbn [negb].
  - mnorm. apply goto_ok; [done|view E|done].
  - destruct (own_live En) as (d & Hd & _); [by rewrite E..|]. rewrite bind_bind. mrun (load_child_run s _ d Hd). mnorm. right. split; [done|].
    eexists. split; [by apply (goto_run _ t p)|]. apply (inv_goto s _ t p (with_place (Exit_children (child_processes p)) p)); try done. view E.
Qed.

Lemma exit_children_ok l : at_place p = Exit_children l -> fine s (Step t) (process_exit t s).
Proof.
  intros E. assert (faulty s (Step t) = false) as Hf by (apply fault_at; by rewrite E). unfold process_exit. mrun (current_run s t p Hp). rewrite E.
  destruct l as [|a l]; [apply goto_ok; [done|view E|done]|]. destruct (kid_at s t p a Hi Hp) as (d & Hd & Hfin & _); [unfold kids_of; rewrite E; left|].
  mrun (load_child_run s a d Hd). rewrite Hfin. apply goto_ok; [done|view E|done].
Qed.

Lemma exit_free_ok a l : at_place p = Exit_free a l -> fine s (Step t) (process_exit t s).
Proof.
  intros E. unfold process_exit. mrun (current_run s t p Hp). rewrite E. assert (kids_of p = a :: l) as Ek by (unfold kids_of; by rewrite E).
  pose proof kids_nodup as Hnd. rewrite Ek in Hnd. apply NoDup_cons in Hnd as [Hna Hnd].
  destruct (kids_exist a) as [d Hd]; [rewrite Ek; left|]. mrun (free_child_run s a d Hd). right. split; [apply fault_at; by rewrite E|].
  eexists. split; [by apply (goto_run _ t p)|]. apply (free_ok _ a (with_place (Exit_children l) p)); try done; [rewrite Ek; left| |unfold pend_of|unfold look_of|unfold own_of]; cbn; rewrite ?E; try done.
  intros b. rewrite Ek, elem_of_cons. unfold kids_of. cbn. split; [intros Hb; split; [by right|]; intros ->; done|]. by intros [[->|?] ?].
Qed.

Lemma exit_own_ok : at_place p = Exit_own -> fine s (Step t) (process_exit t s).
Proof.
  intros E. unfold process_exit. mrun (current_run s t p Hp). rewrite E. destruct (Z.eqb_spec (data p) NULL) as [En|En].
  - apply fault_ok; [apply fault_at; by rewrite E, En|]. rewrite En. by rewrite (bind_err _ _ _ _ (null_load s Hi)).
  - destruct (own_live En) as (d & Hd & _ & Hf & _); [by rewrite E..|]. mrun (load_child_run s _ d Hd). rewrite Hf.
    apply goto_ok; [apply fault_at; rewrite E; by apply Z.eqb_neq|view E|done].
Qed.

(** The thread writes to its own object and goes on to [pl]. *)
Lemma own_step b d d' pl : own_of p = Some (data p, b) -> heap s !! data p = Some d -> pid d' = pid d ->
  (own_of (with_place pl p) = Some (data p, finished d') /\ wait_sema d' = 0 \/ own_of (with_place pl p) = None /\ finished d' = true /\ wait_sema d' = 1) ->
  kids_of (with_place pl p) = kids_of p -> pend_of (with_place pl p) = pend_of p -> look_of (with_place pl p) = look_of p -> place_ok (with_place pl p) ->
  inv (put t (with_place pl p) (put_heap (data p) d' s)).
Proof.
  intros Ho Hd Ep Hc E1 E2 E3 Hpl. apply (inv_put s _ t p (with_place pl p)); try done.
  - pose proof (linked_own _ _ _ (v_linked _ Hi) t (view_of p) (data p) b d d' (own_of (with_place pl p)) (view_at _ _ _ Hp) Ho Hd Ep Hc) as L.
    replace (view_of (with_place pl p)) with (mkView (kids (view_of p)) (pend (view_of p)) (look (view_of p)) (own_of (with_place pl p)) (ptr (view_of p))); [done|].
    unfold view_of. cbn. by rewrite E1, E2, E3.
  - intros a. cbn. intros [e He]. vcase He; by eexists.
Qed.

Lemma exit_own_mark_ok : at_place p = Exit_own_mark -> fine s (Step t) (process_exit t s).
Proof.
  intros E. pose proof (v_place _ Hi t p Hp) as Hn. unfold place_ok in Hn. rewrite E in Hn. destruct (own_live Hn) as (d & Hd & Dp & Df & Ds); [by rewrite E..|].
  unfold process_exit. mrun (current_run s t p Hp). rewrite E. mrun (store_run s _ d set_finished Hd). right. split; [apply fault_at; by rewrite E|].
  eexists. split; [by apply (goto_run _ t p)|]. apply (own_step false d); try done; unfold kids_of, own_of, pend_of, look_of; cbn; rewrite ?E, ?(proj2 (Z.eqb_neq _ _) Hn); auto.
Qed.

Lemma exit_own_up_ok : at_place p = Exit_own_up -> fine s (Step t) (process_exit t s).
Proof.
  intros E. pose proof (v_place _ Hi t p Hp) as Hn. unfold place_ok in Hn. rewrite E in Hn.
  assert (own_of p = Some (data p, true)) as Ho by (unfold own_of; by rewrite E, (proj2 (Z.eqb_neq _ _) Hn)). destruct (own_at s t p true Hi Hp Ho) as (d & Hd & Dp & Df & Ds).
  unfold process_exit. mrun (current_run s t p Hp). rewrite E. mrun (sema_up_run s _ d Hd). right. split; [apply fault_at; by rewrite E|].
  eexists. split; [by apply (goto_run _ t p)|]. apply (own_step true d); try done; unfold kids_of, own_of, pend_of, look_of; cbn; rewrite ?E, ?(proj2 (Z.eqb_neq _ _) Hn); try done.
  right. rewrite Df, Ds. done.
Qed.

Lemma exit_end_ok : at_place p = Exit_end -> fine s (Step t) (process_exit t s).
Proof.
  intros E. unfold process_exit. mrun (current_run s t p Hp). rewrite E. right. split; [apply fault_at; by rewrite E|]. mnorm. eexists. split; [reflexivity|]. split.
  - unfold views. cbn. rewrite fmap_delete. apply (linked_end _ _ _ (v_linked _ Hi) t (view_of p)); [by apply view_at|..]; cbn; unfold kids_of, pend_of, look_of, own_of; rewrite E; try done. by destruct (_ =? _).
  - cbn. intros u q [_ Hq]%lookup_delete_Some. by apply (v_place _ Hi u).
  - cbn. intros u q [_ Hq]%lookup_delete_Some. by apply (v_parent _ Hi u).
  - apply Hi.
Qed.

Lemma exit_call_ok e status : at_place p = Running \/ at_place p = Starting -> faulty s e = no_data s t -> fine s e (exit t status s).
Proof.
  intros E Hf. unfold exit. mrun (current_run s t p Hp). unfold no_data in Hf. rewrite Hp in Hf. destruct (Z.eqb_spec (data p) NULL) as [En|En].
  - apply fault_ok; [done|]. rewrite En. unfold store. by rewrite (bind_err _ _ _ _ (bind_err _ _ _ _ (null_load s Hi))).
  - destruct (own_live En) as (d & Hd & _); [by destruct E as [-> | ->]..|]. mrun (store_run s _ d (set_status status) Hd). right. split; [done|].
    eexists. split; [by apply (goto_run _ t p)|]. apply (inv_put s _ t p (with_place Exit_print p)); try done.
    + replace (view_of _) with (view_of p) by (destruct E as [E|E]; view E). rewrite insert_id by (by apply view_at). by apply (linked_heap _ _ _ (v_linked _ Hi) _ d).
    + intros a. cbn. intros [x Hx]. vcase Hx; by eexists.
Qed.

Lemma start_ok success : at_place p = Starting -> fine s (Load t success) (start_process t success s).
Proof.
  intros E. unfold start_process. mrun (current_run s t p Hp). rewrite (v_parent _ Hi t p Hp). cbn [Z.eqb NULL negb]. mnorm. destruct success; cbn [negb].
  - apply goto_ok; [done|view E|done].
  - apply exit_call_ok; [by right|done].
Qed.

End steps.

Lemma stands_inv s t f : stands s t f = true -> exists p, procs s !! t = Some p /\ f (at_place p) = true.
Proof. unfold stands. destruct (procs s !! t) as [p|]; [|done]. eauto. Qed.

Lemma go_on_ok s t p : inv s -> procs s !! t = Some p -> negb (is_running (at_place p) || is_starting (at_place p) || is_store (at_place p)) = true -> fine s (Step t) (go_on t s).
Proof.
  intros Hi Hp Hpl. unfold go_on. mrun (current_run s t p Hp). pose proof (v_place _ Hi t p Hp) as Hok. unfold place_ok in Hok. destruct (at_place p) eqn:E; try done.
  - apply (thread_by_tid_ok s t p Hi Hp). eauto.
  - apply (thread_by_tid_ok s t p Hi Hp). eauto.
  - apply (thread_by_tid_ok s t p Hi Hp). eauto.
  - by eapply data_ok.
  - by eapply exec_insert_ok.
  - by eapply down_ok.
  - by eapply status_ok.
  - by eapply wait_find_ok.
  - eapply wait_object_ok; eauto.
  - eapply wait_object_ok; eauto.
  - by eapply wait_remove_ok.
  - by eapply wait_free_ok.
  - by eapply exit_print_ok.
  - by eapply exit_children_ok.
  - by eapply exit_free_ok.
  - by eapply exit_own_ok.
  - by eapply exit_own_mark_ok.
  - by eapply exit_own_up_ok.
  - by eapply exit_end_ok.
Qed.

Lemma event_ok s e : inv s -> enabled s e = true -> spares e = true -> fine s e (step e s).
Proof.
  intros Hi He Hs. destruct e as [t r|t success|t c|t status|t|t j|t]; cbn [enabled step] in *.
  - apply andb_true_iff in He as [(p & Hp & E)%stands_inv Hr]. apply (execute_ok s t p); [done..| |done]. by destruct (at_place p).
  - apply stands_inv in He as (p & Hp & E). apply (start_ok s t p); [done..|]. by destruct (at_place p).
  - apply stands_inv in He as (p & Hp & E). apply (process_wait_ok s t p); [done..|]. by destruct (at_place p).
  - apply stands_inv in He as (p & Hp & E). apply (exit_call_ok s t p); [done..| |done]. left. by destruct (at_place p).
  - apply stands_inv in He as (p & Hp & E). assert (at_place p = Running) as E' by (by destruct (at_place p)). apply (goto_ok s t p); [done..|view E'|done].
  - apply stands_inv in He as (p & Hp & E). destruct (at_place p) as [| | | | | |c a| | | | | | | | | | | | | | | | | |] eqn:E'; try done. by apply (store_target_ok s t p Hi Hp j c a).
  - apply stands_inv in He as (p & Hp & E). by apply (go_on_ok s t p).
Qed.

Lemma run_keeps_inv es : forall s s', inv s -> possible es s = true -> Forall (fun e => spares e = true) es -> run es s = Ok (tt, s') -> inv s'.
Proof.
  induction es as [|e es IH]; intros s s' Hi Hp Hs Hr; cbn [run possible] in *; [by injection Hr as <-|]. apply andb_true_iff in Hp as [He Hp]. apply Forall_cons in Hs as [Hse Hs].
  destruct (event_ok s e Hi He Hse) as [[_ E]|[_ (s1 & E & Hi1)]]; rewrite E in *; [done|]. by apply (IH s1).
Qed.

(** ** The theorem *)

Lemma own_place p a b : own_of p = Some (a, b) -> data p = a /\ at_place p <> Exit_end /\ (b = false <-> at_place p <> Exit_own_up).
Proof. unfold own_of. destruct (data p =? NULL); [done|]. destruct (at_place p); intros [= <- <-]; done. Qed.

Lemma place_own p : data p <> NULL -> at_place p <> Exit_end -> exists b, own_of p = Some (data p, b).
Proof. intros Hn He. unfold own_of. rewrite (proj2 (Z.eqb_neq _ _) Hn). destruct (at_place p); eauto. done. Qed.

Lemma owner_views s a : owner (views s) a <-> a <> NULL /\ exists t p, procs s !! t = Some p /\ data p = a /\ at_place p <> Exit_end.
Proof.
  unfold owner, views. split.
  - intros (t & v & b & Hv & Ho). apply lookup_fmap_Some in Hv as (p & <- & Hp). pose proof (own_place p a b Ho) as (E & He & _).
    split; [|by exists t, p]. intros ->. cbn in Ho. unfold own_of in Ho. by rewrite E in Ho.
  - intros (Hn & t & p & Hp & <- & He). destruct (place_own p Hn He) as [b Hb]. exists t, (view_of p), b. split; [|done]. by apply view_at.
Qed.

(** The object says [finished] from the moment its child is done with it but
    for raising [wait_sema]. *)
Lemma finished_iff s a d : inv s -> heap s !! a = Some d ->
  finished d = false <-> exists p, procs s !! pid d = Some p /\ data p = a /\ at_place p <> Exit_own_up /\ at_place p <> Exit_end.
Proof.
  intros Hi Ha. pose proof (v_linked _ Hi) as L. assert (a <> NULL) as Hn by (intros ->; by rewrite (null_heap s Hi) in Ha). split.
  - intros Hf. destruct (k_done _ _ _ L a d Ha) as [(t & v & b & Hv & Ho)|[? _]]; [|congruence]. destruct (k_own _ _ _ L t v a b Hv Ho) as (_ & d' & Hd' & E1 & E2 & _).
    rewrite Ha in Hd'. injection Hd' as <-. unfold views in Hv. apply lookup_fmap_Some in Hv as (p & <- & Hp). destruct (own_place p a b Ho) as (E & He & Hb). exists p. rewrite E1. split_and!; try done. apply Hb. congruence.
  - intros (p & Hp & E & H1 & H2). destruct (place_own p) as [b Hb]; [by rewrite E|done|]. destruct (own_at s _ p b Hi Hp Hb) as (d' & Hd' & _ & <- & _).
    rewrite E, Ha in Hd'. injection Hd' as <-. by apply (own_place p (data p) (finished d) Hb).
Qed.

(** [sema_down] of [process_execute] waits exactly as long as the child has
    not raised [wait_sema]. *)
Lemma execute_waits s t p c a : inv s -> procs s !! t = Some p -> at_place p = Ex_down c a ->
  (exists q, procs s !! c = Some q /\ at_place q <> Exit_end) /\ step (Step t) s = Ok (tt, s) \/
  (forall q, procs s !! c = Some q -> at_place q = Exit_end) /\ exists s', step (Step t) s = Ok (tt, s') /\ procs s' !! t = Some (with_place (Ex_status c a) p).
Proof.
  intros Hi Hp E. destruct (down_pend s t p Hi Hp c a E) as (Ep & d & Hd). pose proof (v_linked _ Hi) as L.
  destruct (pend_sema _ _ _ L t (view_of p) c a d (view_at _ _ _ Hp) Ep Hd) as [Hs _]. destruct (k_pend _ _ _ L t (view_of p) c a (view_at _ _ _ Hp) Ep) as (_ & _ & (d' & Hd' & Epid) & Hptr).
  rewrite Hd in Hd'. injection Hd' as <-.
  cbn [step]. unfold go_on. mrun (current_run s t p Hp). rewrite E. unfold process_execute_end. mrun (current_run s t p Hp). rewrite E. unfold sema_down. mrun (load_child_run s a d Hd).
  destruct (Z.eqb_spec (wait_sema d) 0) as [Es|Es].
  - left. split; [|done]. apply Hs in Es as (u & v & b & Hv & Ho). destruct (k_own _ _ _ L u v a b Hv Ho) as (_ & d' & Hd' & Eu & _). rewrite Hd in Hd'. injection Hd' as <-.
    unfold views in Hv. apply lookup_fmap_Some in Hv as (q & <- & Hq). exists q. split; [congruence|]. by apply (own_place q a b).
  - right. split.
    + intros q Hq. destruct (decide (at_place q = Exit_end)) as [|Hne]; [done|]. exfalso. apply Es, Hs, owner_views. split; [intros ->; by rewrite (null_heap s Hi) in Hd|].
      exists c, q. split_and!; [done|by apply (Hptr (view_of q)), view_at|done].
    + mrun (store_run s a d (set_sema (wait_sema d - 1)) Hd). eexists. split; [by apply (goto_run _ t p)|]. apply put_at.
Qed.


Definition steps (n : nat) (t : Z) : list event := repeat (Step t) n.

(** Thread 1 runs a program, 3, that runs two programs, 4 and 5: the second
    cannot be loaded.  3 waits for 4 while 4 is still exiting and leaves 5
    behind; 1 waits for 3. *)
Definition family : list event :=
  [Execute 1 (Created 3 100); Load 3 true] ++ steps 7 1 ++ [Store 1 Elsewhere] ++ steps 2 1 ++
  [Execute 3 (Created 4 101); Load 4 true; Exit 4 7] ++ steps 9 3 ++ steps 4 4 ++ [Store 3 Elsewhere] ++ steps 2 3 ++ steps 1 4 ++ steps 2 3 ++
  [Wait 3 4] ++ steps 5 3 ++ steps 1 4 ++
  [Execute 3 (Created 5 102); Load 5 false] ++ steps 9 3 ++ [Store 3 Elsewhere] ++ steps 1 3 ++ steps 6 5 ++ steps 2 3 ++
  [Exit 3 0] ++ steps 8 3 ++ steps 2 1 ++ [Wait 1 3] ++ steps 5 1.

Definition family_end : st := Eval vm_compute in match run family boot with Ok (_, s) => s | Err _ => boot end.


(** ** Runs that fail *)

(** A child that exits before its parent looks it up is not on the list of
    threads any more, and the parent uses the null pointer. *)
Theorem child_gone_before_lookup : exists es s,
  possible es boot = true /\ Forall (fun e => spares e = true) es /\ run es boot = Ok (tt, s) /\
  (exists p, procs s !! 1 = Some p /\ at_place p = Ex_data 3 NULL) /\ step (Step 1) s = Err Bad_access.
Proof.
  exists ([Execute 1 (Created 3 100); Load 3 true; Exit 3 0] ++ steps 6 3 ++ steps 6 1). eexists.
  split; [vm_compute; reflexivity|]. split; [repeat constructor|]. split; [vm_compute; reflexivity|]. split; [eexists; split; [vm_compute; reflexivity|reflexivity]|vm_compute; reflexivity].
Qed.

(** When the pointer points at the field [data] of the parent, the parent
    loses its own object and uses the child's after it has freed it. *)
Theorem uninitialized_pointer_breaks : exists es s,
  possible es boot = true /\ run es boot = Ok (tt, s) /\ enabled s (Step 1) = true /\ faulty s (Step 1) = false /\ step (Step 1) s = Err Bad_access.
Proof.
  exists ([Execute 1 (Created 3 100); Load 3 true] ++ steps 7 1 ++ [Store 1 (Thread_data 1)] ++ steps 1 1 ++ [Exit 3 0] ++ steps 6 3 ++ steps 2 1 ++ [Die 1] ++ steps 4 1). eexists.
  split; [vm_compute; reflexivity|]. split; [vm_compute; reflexivity|]. split_and!; vm_compute; reflexivity.
Qed.

(** The first thread cannot exit: [process_exit] tests that the thread has
    an object before it prints, but not before it marks it as finished. *)
Theorem first_thread_exit_faults : exists s, run ([Die 1] ++ steps 2 1) boot = Ok (tt, s) /\ step (Step 1) s = Err Bad_access.
Proof. eexists. split; vm_compute; reflexivity. Qed.

End Processes.
